(* ===== verification/_CoqProject ===== *)
-Q . S2P
Prelude.v
Tid.v
Revoke.v
Blist.v
State.v
JournalHead.v
Filing.v
Log.v
Handle.v
Commit.v
OnDisk.v
RevokeLog.v
Features.v
Access.v
Ext4.v
Recovery.v
Checkpoint.v
CommitEnd.v
CommitWhole.v
OrderedData.v
CommitTransaction.v
Invalidate.v
Journal.v
Shutdown.v
ExtentStatus.v
ExtentMap.v
ExtentTree.v
ExtentOps.v
ExtentShrink.v
ExtentRemove.v
ExtentCache.v
ExtentTheorems.v
BlockValidity.v
ExtentAlive.v
ExtentNode.v
ExtentFind.v
ExtentWalk.v
MapBlocks.v
ExtentLookup.v
MapTheorems.v
ExtentNeighbours.v
ExtentPrecache.v
