(* ===== verification/Prelude.v ===== *)
(** * VMsep: a verification library for the VM-separated jbd2 journal

    ** The program

    VMsep is Linux 4.13 with a changed journalling layer: when a registered
    inode (the disk image of a virtual machine) is synchronised, the commit of the running
    transaction writes the metadata of that inode only and passes the rest on to
    the next transaction.  The program is kernel/fs/jbd2 with its headers
    include/linux/jbd2.h and journal-head.h, and the part of kernel/fs/ext4 that
    registers inodes, asks for commits and wraps the journal (fsync.c, sysfs.c, super.c,
    ext4_jbd2.c) or finds the blocks of a file (extents.c and inode.c for lookups, with the cache of extents_status.c and
    the check of block numbers of block_validity.c).

    A task opens a handle (credits in the running transaction), gets write access to a buffer, dirties or
    forgets it, and stops the handle.  Buffers are filed on lists of transactions
    through journal heads.  A commit moves the running transaction through its states,
    writes descriptor, data, revoke and commit blocks to the circular log, and leaves
    its buffers on a checkpoint list until they are written back; then the tail of
    the log moves.  After a crash recovery replays the log.

    ** The files

    - Prelude.v: record update, machine integers, the monad [K] of kernel functions (state, and a
      fault for [J_ASSERT], a bad pointer or [panic]), weakest preconditions [wp],
      frame conditions [keeps] and [yields].
    - Tid.v: [tid_gt], [tid_geq] of jbd2.h.
    - Revoke.v: the revoke table of revoke.c (hash table, pair of tables).
    - Blist.v: the pointer code of the circular buffer lists (transaction.c, checkpoint.c) on a heap of links, and
      its refinement by lists.
    - State.v: the shared structures ([journal_t], [transaction_t], [buffer_head], [journal_head]) and
      the store [kstate].
    - JournalHead.v: attaching, counting and freeing journal heads (journal.c).
    - Filing.v: filing, refiling and unfiling buffers (transaction.c); the filing invariant [wf].
    - Log.v: log blocks, tail, superblock, commit requests, errors and aborts (journal.c).
    - Handle.v: handles, credits, barriers (transaction.c), waiting for commits.
    - Commit.v: the start of the commit and its metadata loop (commit.c, journal.c).
    - OnDisk.v: descriptor, revoke and commit blocks as bytes with their checksums (journal.c, commit.c, recovery.c).
    - RevokeLog.v: writing revoke records and scanning them (revoke.c, recovery.c).
    - Features.v: the journal superblock and the feature sets (journal.c).
    - Access.v: write, create and undo access, dirtying, forgetting, revoking (transaction.c, revoke.c).
    - Ext4.v: registration of inodes, fsync and sync, wrappers of the journal, errors (ext4).
    - Recovery.v: the three passes of recovery (recovery.c).
    - Checkpoint.v: writing back and the checkpoint lists (checkpoint.c); the checkpoint invariant [cp_ok].
    - CommitEnd.v: the end of the commit: waits, commit record, forget list (commit.c).
    - CommitWhole.v: the phases from the metadata loop on in a row, under one invariant [inv].
    - OrderedData.v: the inodes of ordered mode (transaction.c, journal.c, commit.c).
    - CommitTransaction.v: the whole [jbd2_vmsep_journal_commit_transaction].
    - Invalidate.v: truncating pages and giving their buffers back (transaction.c).
    - Journal.v: slabs, creating, loading and wiping a journal (journal.c).
    - Shutdown.v: the commit thread, flushing and closing a journal (journal.c).
    - ExtentStatus.v: the extent status tree of ext4 (extents_status.c): search, insertion with merging, removal,
      lookup, shrinker; ExtentMap.v: extents as a map from blocks to their state; ExtentTree.v, ExtentOps.v,
      ExtentShrink.v, ExtentRemove.v: what the parts do to the tree, the map and the counters; ExtentCache.v: the
      operations ext4 calls; ExtentTheorems.v: their properties.
    - BlockValidity.v: the groups with copies of the superblock (balloc.c), the tree of the blocks that hold ext4's own metadata, and
      the check of block numbers against it (block_validity.c).
    - ExtentNode.v: the nodes of the extent tree on disk and the check of a node (extents.c, ext4_extents.h); ExtentFind.v: binary search,
      reading a node, [ext4_find_extent] (extents.c); MapBlocks.v: neighbours, holes and [ext4_map_blocks] for a lookup
      (extents.c, inode.c); ExtentAlive.v: what no operation of the status tree takes away; ExtentWalk.v: sound trees
      and the walk through them, and the agreement of the status tree with the tree on disk; ExtentLookup.v: paths, holes and the lookup;
      MapTheorems.v: the properties; ExtentNeighbours.v: the extents next to a block; ExtentPrecache.v: reading a whole tree ahead ([ext4_ext_precache]).

    The interfaces between them: recovery works on any [RevokeStore] (Recovery, RevokeLog and Journal are proved
    against that class, Revoke.v has the instance); the extent status tree on any [Rebalance], a red-black
    tree that keeps the order of its nodes; the components that share the store are
    connected by [wf] and [cp_ok], which every operation on buffers preserves.

    ** The theorems

    The numbered theorems are the main properties of the components; each file has more.

    - Recovery and format: C1 recovery is equivalent to replaying the complete transactions; C10, C28, C11 what a
      commit writes is what recovery reads; C23 recovery can be repeated.
    - Commit: C31 its first assertion always fails; with that assertion off: C3 the loop separates
      the inodes, C2 the commit runs to its end and is unaborted exactly if all its writes succeeded, C12 its end puts
      every block that is still to be written back on a checkpoint list, C4 ordered data
      is waited for before the commit record is submitted; C32, C33, C35 and C34 are the ways in which the separation breaks it (freed journal
      head, unsubmitted descriptor, missing credits, lost transaction).
    - Opening and closing: C8 a mount after a crash leaves the committed state and an empty log; C9 a mount after an
      unmount has nothing to replay and starts with a later id; C37 a running transaction, which the separation
      leaves behind, stops flush and unmount at an assertion.
    - Buffers: C5 write access never changes what the committing transaction logs; C25 dirtying on
      every branch; C19 filing keeps [wf]; C15 truncating a page.
    - Log: C16 blocks are allocated as a queue without reuse; C17 the tail moves after the superblock; C30
      free space and where it wraps; C18 the revoke table is exact; C29 superblock and features.
    - Checkpoint: C22, C27 nothing is given up that is not on disk, and everything is in the end.
    - ext4: C6 what an fsync gets committed; C7 when it returns; C24 a failed operation
      stops the file system.
    - Extent status tree: C13 insertion is an update of the map; C14 under failing allocations it ends, and forgets
      no delayed block; C20 neither does the shrinker.
    - Extent tree on disk: C36 what the check of a node accepts; C39 which block numbers are valid; C40 binary search in a
      checked leaf, and in an index node if its keys are in order, which the check does not ask; C26 the search
      for an extent; C21 a lookup of blocks answers what the tree on disk says; C38 reading
      a tree ahead ends, and then all mapped blocks are known, unless the tree is its root only.

    ** Bounds and parameters

    A loop that is not structural takes [fuel] and returns [None] when it runs out; the theorems ask
    for one unit per element of the list that is worked off (commit loop, forget list), per extent
    that can still be reclaimed (retries of the extent status tree), or two per level and extent (reading a tree ahead), and
    conclude that a result is returned.  A function that sleeps takes a list of environment steps, one per
    sleep, and returns [None] when it is still waiting at the end of the list; the commit thread takes a list of rounds.
    Parameters are what is not part of the program: the result of block I/O ([submit_sb], [io_ok]), the block
    mapping of the journal inode ([j_inode]), the buffer cache ([find_block], [free_page], [try_to_free_buffers]), the page cache
    ([writepages], [fdatawait]), the device ([s_disk]), the checksum function, rebalancing of red-black trees, time and memory allocation.  Locks are not
    modelled, except that the shrinker may fail to take one: an operation runs undisturbed between two sleeps.

    ** Not modelled

    Statistics, proc files and module initialisation, which have no effect on the journal; freeing the
    structures of a closed journal; the batching delay of synchronous handles and the frozen-data triggers; block and inode
    allocation, changing the extent tree on disk, directories, attributes and mounting of ext4,
    which are upstream code that reaches the journal through the modelled wrappers; the kernel headers
    other than the two named above. *)
From Stdlib Require Export ZArith Lia.
From stdpp Require Export base tactics list gmap.

#[global] Open Scope Z_scope.

(** ** Automation shared by all files *)

Ltac Zify.zify_post_hook ::= Z.div_mod_to_equations.

(** The database of rewrite and resolution hints of the development. *)
Create HintDb vmsep.
Create Rewrite HintDb vmsep.

(** Open conjunctions and existentials in the context. *)
Ltac dest :=
  repeat match goal with
  | H : _ /\ _ |- _ => destruct H
  | H : exists _, _ |- _ => destruct H
  | H : (_, _) = (_, _) |- _ => injection H as H; try subst
  end.

(** Turn boolean comparisons of the model into propositions. *)
Ltac bool_to_prop :=
  repeat match goal with
  | H : context [bool_decide _] |- _ => case_bool_decide
  | |- context [bool_decide _] => case_bool_decide
  | H : _ && _ = true |- _ => apply andb_true_iff in H as [? ?]
  | H : _ || _ = false |- _ => apply orb_false_iff in H as [? ?]
  | H : (_ <? _) = true |- _ => apply Z.ltb_lt in H
  | H : (_ <? _) = false |- _ => apply Z.ltb_ge in H
  | H : (_ <=? _) = true |- _ => apply Z.leb_le in H
  | H : (_ <=? _) = false |- _ => apply Z.leb_gt in H
  | H : (_ =? _) = true |- _ => apply Z.eqb_eq in H
  | H : (_ =? _) = false |- _ => apply Z.eqb_neq in H
  end.

(** ** Record update

    [r <| f := v |>] is [r] with field [f] replaced.  A record type gets the
    notation from one [Eta] instance, its expansion over its own fields. *)

Class Eta (R : Type) := eta : R -> R.
Class FieldUpdate {R T : Type} (proj : R -> T) := field_update : (T -> T) -> R -> R.
Arguments field_update {R T} proj {_} _ _ /.

Ltac derive_field_update :=
  lazymatch goal with
  | |- @FieldUpdate ?R ?T ?proj =>
    let e := eval hnf in (_ : Eta R) in
    let e' := eval pattern proj in e in
    lazymatch e' with
    | ?F _ => let t := eval cbv beta in (fun (g : T -> T) => F (fun r => g (proj r))) in exact t
    end
  end.
#[export] Hint Extern 1 (FieldUpdate _) => derive_field_update : typeclass_instances.

Declare Scope vmsep_scope.
Notation "r <| f := v |>" := (field_update f (fun _ => v) r)
  (at level 1, left associativity, f at level 0, v at level 99,
   format "r  <| f  :=  v |>") : vmsep_scope.
Notation "r <| f ::= g |>" := (field_update f g r)
  (at level 1, left associativity, f at level 0, g at level 99,
   format "r  <| f  ::=  g |>") : vmsep_scope.
#[global] Open Scope vmsep_scope.

(** ** Machine integers

    C integers are [Z]; arithmetic that can wrap goes through these. *)

Definition wrap (w z : Z) : Z := z mod 2 ^ w.
Definition swrap (w z : Z) : Z := (z + 2 ^ (w - 1)) mod 2 ^ w - 2 ^ (w - 1).

(** [unsigned int], [unsigned long] (64-bit) and [int]. *)
Definition u32 (z : Z) : Z := z mod 4294967296.
Definition u64 (z : Z) : Z := z mod 18446744073709551616.
Definition s32 (z : Z) : Z := (z + 2147483648) mod 4294967296 - 2147483648.

Definition s64 (z : Z) : Z := (z + 9223372036854775808) mod 18446744073709551616 - 9223372036854775808.

Definition PAGE_SIZE : Z := 4096.

(** [time_after_eq(a, b)] of the jiffies clock. *)
Definition time_after_eq (a b : Z) : bool := 0 <=? s64 (a - b).

Definition is_u32 (z : Z) : Prop := 0 <= z < 4294967296.
Definition is_u64 (z : Z) : Prop := 0 <= z < 18446744073709551616.

Lemma u32_id z : is_u32 z -> u32 z = z.
Proof. unfold is_u32, u32. intros. by apply Z.mod_small. Qed.

Lemma u64_id z : is_u64 z -> u64 z = z.
Proof. unfold is_u64, u64. intros. by apply Z.mod_small. Qed.

Lemma u32_range z : is_u32 (u32 z).
Proof. unfold is_u32, u32. lia. Qed.

Lemma u64_range z : is_u64 (u64 z).
Proof. unfold is_u64, u64. lia. Qed.

#[export] Hint Resolve u32_range u64_range : vmsep.

(** Residues of close numbers. *)
Lemma mod_inj n a b : 0 < n -> a mod n = b mod n -> - n < a - b < n -> a = b.
Proof.
  intros Hn Hm Hd. pose proof (Z.div_mod a n). pose proof (Z.div_mod b n).
  assert (a / n = b / n) by nia. nia.
Qed.

Lemma mod_once n a : 0 <= a < 2 * n -> a mod n = if a <? n then a else a - n.
Proof.
  intros Ha. destruct (Z.ltb_spec a n); [by apply Z.mod_small; lia|].
  symmetry. apply (Z.mod_unique_pos a n 1); lia.
Qed.

(** ** Kernel computations

    A function of the kernel that changes shared state is a state
    transformer that either returns or stops the machine: [Assert] is a
    [J_ASSERT]/[BUG_ON] that fires, [Oops] the dereference of a NULL or
    freed pointer, [Panic] a call of [panic].  Error codes ([-EROFS], ...) are ordinary results. *)

Inductive fault := Assert | Oops | Panic.
#[export] Instance fault_eq_dec : EqDecision fault.
Proof. solve_decision. Defined.

Inductive outcome (A : Type) :=
| Ret (a : A)
| Fault (f : fault).
Arguments Ret {A} _.
Arguments Fault {A} _.

Definition K (S A : Type) : Type := S -> outcome (A * S).

Definition kret {S A} (a : A) : K S A := fun s => Ret (a, s).
Definition kbind {S A B} (m : K S A) (k : A -> K S B) : K S B := fun s =>
  match m s with
  | Ret (a, s') => k a s'
  | Fault f => Fault f
  end.
Definition kfault {S A} (f : fault) : K S A := fun _ => Fault f.

(** [J_ASSERT(c)]. *)
Definition j_assert {S} (c : bool) : K S unit :=
  fun s => if c then Ret (tt, s) else Fault Assert.

Declare Scope kernel_scope.
Delimit Scope kernel_scope with K.
Notation "x <- m ;; k" := (kbind m (fun x => k))
  (at level 100, m at next level, right associativity) : kernel_scope.
Notation "m ;;; k" := (kbind m (fun _ => k))
  (at level 100, right associativity) : kernel_scope.
#[global] Open Scope kernel_scope.

(** ** Weakest preconditions

    [wp m Q s]: run from [s], [m] returns (no fault) and its result and
    final state satisfy [Q]. *)

Definition wp {S A} (m : K S A) (Q : A -> S -> Prop) (s : S) : Prop :=
  match m s with
  | Ret (a, s') => Q a s'
  | Fault _ => False
  end.

Section Wp.
Context {S A B : Type}.
Implicit Types (s : S).

Lemma wp_ret (a : A) (Q : A -> S -> Prop) s : Q a s -> wp (kret a) Q s.
Proof. done. Qed.

Lemma wp_bind (m : K S A) (k : A -> K S B) Q s :
  wp m (fun a s' => wp (k a) Q s') s -> wp (kbind m k) Q s.
Proof. unfold wp, kbind. by destruct (m s) as [[? ?]|]. Qed.

Lemma wp_bind_inv (m : K S A) (k : A -> K S B) Q s :
  wp (kbind m k) Q s -> wp m (fun a s' => wp (k a) Q s') s.
Proof. unfold wp, kbind. by destruct (m s) as [[? ?]|]. Qed.

Lemma wp_mono (m : K S A) (P Q : A -> S -> Prop) s :
  wp m P s -> (forall a s', P a s' -> Q a s') -> wp m Q s.
Proof. unfold wp. destruct (m s) as [[? ?]|]; eauto. Qed.

Lemma wp_returns (m : K S A) (Q : A -> S -> Prop) s :
  wp m Q s <-> exists a s', m s = Ret (a, s') /\ Q a s'.
Proof.
  unfold wp. destruct (m s) as [[a s']|]; split; try done; naive_solver.
Qed.

Lemma wp_assert (c : bool) (Q : unit -> S -> Prop) s :
  c = true -> Q tt s -> wp (j_assert c) Q s.
Proof. by intros ->. Qed.

Lemma wp_if (c : bool) (m1 m2 : K S A) Q s :
  (c = true -> wp m1 Q s) -> (c = false -> wp m2 Q s) -> wp (if c then m1 else m2) Q s.
Proof. destruct c; auto. Qed.

Lemma bind_ret (m : K S A) (k : A -> K S B) s a s' :
  m s = Ret (a, s') -> kbind m k s = k a s'.
Proof. unfold kbind. by intros ->. Qed.

Lemma wp_exec (m : K S A) (k : A -> K S B) Q s a s' :
  m s = Ret (a, s') -> wp (k a) Q s' -> wp (kbind m k) Q s.
Proof. intros Hm. unfold wp. by rewrite (bind_ret _ _ _ _ _ Hm). Qed.

Lemma bind_fault (m : K S A) (k : A -> K S B) s f :
  m s = Fault f -> kbind m k s = Fault f.
Proof. unfold kbind. by intros ->. Qed.
End Wp.

(** ** Frame conditions

    [keeps R m]: whenever [m] returns, its initial and final states are
    related by [R]. *)

Definition keeps {S A} (R : S -> S -> Prop) (m : K S A) : Prop :=
  forall s a s', m s = Ret (a, s') -> R s s'.

Section Keeps.
Context {S : Type} (R : S -> S -> Prop) `{!PreOrder R}.

Lemma keeps_ret {A} (a : A) : keeps R (kret a).
Proof. intros s a' s' [= <- <-]. reflexivity. Qed.

Lemma keeps_fault {A} f : keeps R (@kfault S A f).
Proof. intros s a s' [=]. Qed.

Lemma keeps_assert c : keeps R (j_assert c).
Proof. intros s a s'. unfold j_assert. destruct c; [intros [= <- <-]; reflexivity|done]. Qed.

Lemma keeps_bind {A B} (m : K S A) (k : A -> K S B) :
  keeps R m -> (forall a, keeps R (k a)) -> keeps R (kbind m k).
Proof.
  intros Hm Hk s b s'. unfold kbind. destruct (m s) as [[a s1]|] eqn:E; [|done].
  intros Hb. transitivity s1; [by eapply Hm|by eapply Hk].
Qed.

Lemma keeps_if {A} (c : bool) (m1 m2 : K S A) :
  keeps R m1 -> keeps R m2 -> keeps R (if c then m1 else m2).
Proof. by destruct c. Qed.

Lemma wp_keeps {A} (m : K S A) (Q : A -> S -> Prop) s :
  keeps R m -> wp m Q s -> wp m (fun a s' => Q a s' /\ R s s') s.
Proof. intros Hk. unfold wp. destruct (m s) as [[a s']|] eqn:E; [|done]. intros HQ. split; [done|by eapply Hk]. Qed.
End Keeps.
#[export] Hint Resolve keeps_ret keeps_fault keeps_assert : vmsep.

(** ** Invariants with results

    [yields P m Q]: [m] preserves the invariant [P] of the state, and what it
    returns satisfies [Q]. *)

Definition yields {S A} (P : S -> Prop) (m : K S A) (Q : A -> Prop) : Prop :=
  forall s a s', P s -> m s = Ret (a, s') -> P s' /\ Q a.

Section Yields.
Context {S : Type} (P : S -> Prop).

Lemma yields_ret {A} (a : A) (Q : A -> Prop) : Q a -> yields P (kret a) Q.
Proof. intros HQ s a' s' HP [= <- <-]. done. Qed.

Lemma yields_fault {A} f (Q : A -> Prop) : yields P (@kfault S A f) Q.
Proof. intros s a s' HP [=]. Qed.

Lemma yields_assert c : yields P (j_assert c) (fun _ => c = true).
Proof. intros s a s' HP. unfold j_assert. destruct c; [by intros [= <- <-]|done]. Qed.

Lemma yields_bind {A B} (m : K S A) (k : A -> K S B) Q Q' :
  yields P m Q -> (forall a, Q a -> yields P (k a) Q') -> yields P (kbind m k) Q'.
Proof.
  intros Hm Hk s b s' HP. unfold kbind. destruct (m s) as [[a s1]|] eqn:E; [|done].
  intros Hb. destruct (Hm _ _ _ HP E) as [HP1 HQ]. by eapply Hk.
Qed.

Lemma yields_mono {A} (m : K S A) (Q Q' : A -> Prop) :
  yields P m Q -> (forall a, Q a -> Q' a) -> yields P m Q'.
Proof. intros Hm HQ s a s' HP E. destruct (Hm _ _ _ HP E). eauto. Qed.
End Yields.
