(* ===== verification/Tid.v ===== *)
(** * Transaction ids

    The comparison of 32-bit transaction ids of include/linux/jbd2.h
    ([tid_gt], [tid_geq]), which stays right across wrap-around as long as
    the ids compared lie less than half the id space apart. *)
From S2P Require Import Prelude.

(** [tid_t] is an [unsigned int]; a tid is a [Z] in [0, 2^32). *)
Abbreviation tid_t := Z (only parsing).

Definition tid_gt (x y : tid_t) : bool :=
  let difference := s32 (x - y) in
  0 <? difference.

Definition tid_geq (x y : tid_t) : bool :=
  let difference := s32 (x - y) in
  0 <=? difference.

(** The next id, [j_transaction_sequence++]. *)
Definition tid_succ (x : tid_t) : tid_t := u32 (x + 1).

(** ** The id order *)

(** Ids are compared through their distance: [window b] is the half of the
    id space that starts at [b], seen as offsets from [b]. *)
Lemma tid_diff_window b i j :
  0 <= i < 2147483648 -> 0 <= j < 2147483648 ->
  s32 (u32 (b + i) - u32 (b + j)) = i - j.
Proof. unfold s32, u32. lia. Qed.

Lemma tid_geq_gt_or_eq x y :
  is_u32 x -> is_u32 y -> tid_geq x y = tid_gt x y || (x =? y).
Proof.
  unfold is_u32, tid_geq, tid_gt, s32. intros.
  apply eq_true_iff_eq. rewrite orb_true_iff, Z.leb_le, Z.ltb_lt, Z.eqb_eq. lia.
Qed.

Lemma tid_gt_asym x y : tid_gt x y = true -> tid_gt y x = false.
Proof. unfold tid_gt, s32. rewrite Z.ltb_lt, Z.ltb_ge. lia. Qed.

Lemma tid_gt_irrefl x : tid_gt x x = false.
Proof. unfold tid_gt. by rewrite Z.sub_diag. Qed.

Lemma tid_geq_refl x : tid_geq x x = true.
Proof. unfold tid_geq. by rewrite Z.sub_diag. Qed.

Lemma tid_gt_succ x : is_u32 x -> tid_gt (tid_succ x) x = true.
Proof. unfold is_u32, tid_gt, tid_succ, s32, u32. rewrite Z.ltb_lt. lia. Qed.

Lemma tid_gt_neq x y : tid_gt x y = true -> x <> y.
Proof. intros H ->. by rewrite tid_gt_irrefl in H. Qed.

#[export] Hint Rewrite tid_gt_irrefl tid_geq_refl : vmsep.

(** Over any window of less than half the 32-bit id space, also one that
    wraps through zero, [tid_gt] and [tid_geq] are the strict and the weak
    order of the positions in the window. *)
Theorem tid_order_window (b i j : Z) :
  0 <= i < 2147483648 -> 0 <= j < 2147483648 ->
  (tid_gt (u32 (b + i)) (u32 (b + j)) = true <-> j < i) /\
  (tid_geq (u32 (b + i)) (u32 (b + j)) = true <-> j <= i).
Proof.
  intros Hi Hj. unfold tid_gt, tid_geq.
  rewrite tid_diff_window by done. rewrite Z.ltb_lt, Z.leb_le. lia.
Qed.

(** The window from id 4294967295 wraps: id 1 is later than id 4294967295. *)
Lemma tid_order_window_witness :
  tid_gt 1 4294967295 = true /\ tid_geq 4294967295 1 = false.
Proof.
  split.
  - apply (tid_order_window 4294967295 2 0); lia.
  - apply not_true_is_false. intros H.
    apply (tid_order_window 4294967295 0 2) in H; lia.
Defined.
