(* ===== verification/Revoke.v ===== *)
(** * The revoke table

    kernel/fs/jbd2/revoke.c: the hash table of revoke records, the pair of
    tables the running and the committing transaction use, and the contract
    ([RevokeStore]) that recovery relies on, which the hash table meets. *)
From S2P Require Import Prelude Tid.

Record jbd2_revoke_record_s := mk_revoke_record {
  sequence : tid_t;
  blocknr : Z;
}.
#[export] Instance eta_revoke_record : Eta _ :=
  fun r => mk_revoke_record (sequence r) (blocknr r).

Record jbd2_revoke_table_s := mk_revoke_table {
  hash_size : Z;
  hash_shift : Z;
  hash_table : list (list jbd2_revoke_record_s);
}.
#[export] Instance eta_revoke_table : Eta _ :=
  fun t => mk_revoke_table (hash_size t) (hash_shift t) (hash_table t).

(** include/linux/hash.h, 64-bit case. *)
Definition GOLDEN_RATIO_64 : Z := 0x61C8864680B583EB.

Definition hash_64 (val bits : Z) : Z :=
  u32 (Z.shiftr (u64 (val * GOLDEN_RATIO_64)) (64 - bits)).

Definition hash (t : jbd2_revoke_table_s) (block : Z) : Z :=
  s32 (hash_64 block (hash_shift t)).

(** [&table->hash_table[hash(journal, blocknr)]]. *)
Definition bucket (t : jbd2_revoke_table_s) (block : Z) : nat := Z.to_nat (hash t block).

Definition alter_bucket (f : list jbd2_revoke_record_s -> list jbd2_revoke_record_s)
    (block : Z) (t : jbd2_revoke_table_s) : jbd2_revoke_table_s :=
  t <| hash_table ::= alter f (bucket t block) |>.

(** [list_add]: the new record becomes the first of its bucket. *)
Definition insert_revoke_hash (t : jbd2_revoke_table_s) (block : Z) (seq : tid_t)
  : jbd2_revoke_table_s :=
  alter_bucket (cons (mk_revoke_record seq block)) block t.

Fixpoint find_in_list (l : list jbd2_revoke_record_s) (block : Z)
  : option jbd2_revoke_record_s :=
  match l with
  | [] => None
  | r :: l' => if blocknr r =? block then Some r else find_in_list l' block
  end.

Definition find_revoke_record (t : jbd2_revoke_table_s) (block : Z)
  : option jbd2_revoke_record_s :=
  l ← hash_table t !! bucket t block; find_in_list l block.

(** [record->sequence = seq] on the record [find_revoke_record] returned. *)
Fixpoint update_in_list (l : list jbd2_revoke_record_s) (block : Z) (seq : tid_t)
  : list jbd2_revoke_record_s :=
  match l with
  | [] => []
  | r :: l' => if blocknr r =? block then r <| sequence := seq |> :: l'
               else r :: update_in_list l' block seq
  end.

(** [list_del(&record->hash)] on the record [find_revoke_record] returned. *)
Fixpoint delete_in_list (l : list jbd2_revoke_record_s) (block : Z)
  : list jbd2_revoke_record_s :=
  match l with
  | [] => []
  | r :: l' => if blocknr r =? block then l' else r :: delete_in_list l' block
  end.

Definition delete_revoke_record (t : jbd2_revoke_table_s) (block : Z) : jbd2_revoke_table_s :=
  alter_bucket (fun l => delete_in_list l block) block t.

Definition jbd2_vmsep_journal_set_revoke (t : jbd2_revoke_table_s) (block : Z) (seq : tid_t)
  : jbd2_revoke_table_s :=
  match find_revoke_record t block with
  | Some record =>
    if tid_gt seq (sequence record)
    then alter_bucket (fun l => update_in_list l block seq) block t
    else t
  | None => insert_revoke_hash t block seq
  end.

Definition jbd2_vmsep_journal_test_revoke (t : jbd2_revoke_table_s) (block : Z) (seq : tid_t) : bool :=
  match find_revoke_record t block with
  | None => false
  | Some record => if tid_gt seq (sequence record) then false else true
  end.

Definition jbd2_vmsep_journal_clear_revoke (t : jbd2_revoke_table_s) : jbd2_revoke_table_s :=
  t <| hash_table ::= map (fun _ => []) |>.

(** [while ((tmp >>= 1UL) != 0UL) shift++], on an [int]: 32 rounds are enough. *)
Fixpoint shift_loop (fuel : nat) (tmp shift : Z) : Z :=
  match fuel with
  | O => shift
  | S fuel => let tmp := Z.shiftr tmp 1 in
              if tmp =? 0 then shift else shift_loop fuel tmp (shift + 1)
  end.

Definition jbd2_journal_init_revoke_table (size : Z) : jbd2_revoke_table_s :=
  mk_revoke_table size (shift_loop 32 size 0) (replicate (Z.to_nat size) []).

(** The journal's [j_revoke_table[2]] and [j_revoke], which points to one of
    them: [j_revoke = true] is table 1. *)
Record journal_revoke := mk_journal_revoke {
  j_revoke_table_0 : jbd2_revoke_table_s;
  j_revoke_table_1 : jbd2_revoke_table_s;
  j_revoke : bool;
}.
#[export] Instance eta_journal_revoke : Eta _ :=
  fun j => mk_journal_revoke (j_revoke_table_0 j) (j_revoke_table_1 j) (j_revoke j).

Definition current_table (j : journal_revoke) : jbd2_revoke_table_s :=
  if j_revoke j then j_revoke_table_1 j else j_revoke_table_0 j.

Definition with_current_table (j : journal_revoke) (t : jbd2_revoke_table_s) : journal_revoke :=
  if j_revoke j then j <| j_revoke_table_1 := t |> else j <| j_revoke_table_0 := t |>.

(** The table [jbd2_vmsep_journal_write_revoke_records] selects. *)
Definition committing_table (j : journal_revoke) : jbd2_revoke_table_s :=
  if j_revoke j then j_revoke_table_0 j else j_revoke_table_1 j.

Definition with_committing_table (j : journal_revoke) (t : jbd2_revoke_table_s) : journal_revoke :=
  if j_revoke j then j <| j_revoke_table_0 := t |> else j <| j_revoke_table_1 := t |>.

(** [J_ASSERT(is_power_of_2(hash_size))]; both tables are allocated and the
    current one is table 1. *)
Definition is_power_of_2 (n : Z) : bool := negb (n =? 0) && (Z.land n (n - 1) =? 0).

(** [alloc]: whether there is memory for each of the tables; [None] is [-ENOMEM], with the first table freed again. *)
Definition jbd2_vmsep_journal_init_revoke (alloc : bool * bool) (size : Z) : outcome (option journal_revoke) :=
  if negb (is_power_of_2 size) then Fault Assert
  else if negb alloc.1 then Ret None
  else if negb alloc.2 then Ret None
  else Ret (Some (mk_journal_revoke (jbd2_journal_init_revoke_table size)
                                    (jbd2_journal_init_revoke_table size) true)).

Definition jbd2_vmsep_journal_switch_revoke_table (j : journal_revoke) : journal_revoke :=
  let j := j <| j_revoke ::= negb |> in
  with_current_table j (jbd2_vmsep_journal_clear_revoke (current_table j)).

(** The records of a table in the order in which the commit writes them:
    bucket by bucket, each from its first record. *)
Definition table_records (t : jbd2_revoke_table_s) : list jbd2_revoke_record_s :=
  concat (hash_table t).

(** ** Hashing stays inside the table *)

Record table_ok (t : jbd2_revoke_table_s) : Prop := {
  shift_range : 1 <= hash_shift t <= 30;
  size_shift : hash_size t = 2 ^ hash_shift t;
  table_length : length (hash_table t) = Z.to_nat (hash_size t);
}.

Lemma hash_64_range val bits : 1 <= bits <= 31 -> 0 <= hash_64 val bits < 2 ^ bits.
Proof.
  intros Hb. unfold hash_64. rewrite Z.shiftr_div_pow2 by lia.
  pose proof (u64_range (val * GOLDEN_RATIO_64)) as [H0 H1].
  set (x := u64 _) in *.
  assert (2 ^ 64 = 2 ^ (64 - bits) * 2 ^ bits) as Hsplit.
  { rewrite <- Z.pow_add_r by lia. f_equal; lia. }
  assert (0 <= x / 2 ^ (64 - bits) < 2 ^ bits) as Hr.
  { split; [apply Z.div_pos; lia|]. apply Z.div_lt_upper_bound; [lia|].
    rewrite <- Hsplit. exact H1. }
  assert (2 ^ bits <= 2 ^ 31) by (apply Z.pow_le_mono_r; lia).
  rewrite u32_id; [done|]. unfold is_u32. lia.
Qed.

(** Proofs never need the hash function itself. *)
#[global] Opaque hash_64.

Lemma bucket_in_range t b : table_ok t -> (bucket t b < length (hash_table t))%nat.
Proof.
  intros [Hs Hz Hl]. rewrite Hl, Hz. unfold bucket, hash.
  pose proof (hash_64_range b (hash_shift t)) as Hr.
  assert (2 ^ hash_shift t <= 2 ^ 30) by (apply Z.pow_le_mono_r; lia).
  unfold s32. lia.
Qed.

Lemma bucket_lookup t b : table_ok t -> is_Some (hash_table t !! bucket t b).
Proof. intros. by apply lookup_lt_is_Some, bucket_in_range. Qed.

(** ** One bucket *)

Lemma find_in_list_update l b seq b' :
  find_in_list (update_in_list l b seq) b' =
  (if b =? b' then (fun r => r <| sequence := seq |>) <$> find_in_list l b
   else find_in_list l b').
Proof.
  induction l as [|r l IH]; cbn; [by destruct (b =? b')|].
  destruct (blocknr r =? b) eqn:E1; cbn; destruct (blocknr r =? b') eqn:E2; rewrite ?IH;
    destruct (b =? b') eqn:E3; bool_to_prop; subst; try done; lia.
Qed.

Lemma find_in_list_delete_ne l b b' :
  b <> b' -> find_in_list (delete_in_list l b) b' = find_in_list l b'.
Proof.
  intros Hne. induction l as [|r l IH]; cbn; [done|].
  destruct (blocknr r =? b) eqn:E1; cbn; destruct (blocknr r =? b') eqn:E2;
    bool_to_prop; subst; try done.
Qed.

(** ** The table as a map from blocks to the tid of their record *)

Definition revoke_seq (t : jbd2_revoke_table_s) (b : Z) : option tid_t :=
  sequence <$> find_revoke_record t b.

(** Altering a bucket of a well-formed table keeps it well-formed, and only
    changes what is found in that bucket. *)
Lemma alter_bucket_ok t f b :
  table_ok t -> table_ok (alter_bucket f b t).
Proof. intros []. split; cbn; [done..|]. by rewrite length_alter. Qed.

Lemma find_alter_bucket t f b b' l :
  hash_table t !! bucket t b = Some l ->
  find_revoke_record (alter_bucket f b t) b' =
  (if decide (bucket t b = bucket t b') then find_in_list (f l) b'
   else find_revoke_record t b').
Proof.
  intros Hl. unfold find_revoke_record. cbn.
  change (bucket _ b') with (bucket t b').
  destruct (decide (bucket t b = bucket t b')) as [Hb|Hb].
  - rewrite <- Hb, list_lookup_alter_eq, Hl. done.
  - by rewrite list_lookup_alter_ne.
Qed.

Lemma insert_revoke_hash_ok t b seq : table_ok t -> table_ok (insert_revoke_hash t b seq).
Proof. apply alter_bucket_ok. Qed.

Lemma find_insert t b seq b' :
  table_ok t ->
  find_revoke_record (insert_revoke_hash t b seq) b' =
  (if b =? b' then Some (mk_revoke_record seq b) else find_revoke_record t b').
Proof.
  intros Hok. destruct (bucket_lookup t b Hok) as [l Hl].
  unfold insert_revoke_hash. erewrite find_alter_bucket by done. cbn.
  destruct (decide (bucket t b = bucket t b')) as [Hb|Hb].
  - destruct (b =? b'); [done|]. unfold find_revoke_record. by rewrite <- Hb, Hl.
  - destruct (b =? b') eqn:E; [|done]. bool_to_prop. by subst.
Qed.

Lemma set_revoke_ok t b seq : table_ok t -> table_ok (jbd2_vmsep_journal_set_revoke t b seq).
Proof.
  intros Hok. unfold jbd2_vmsep_journal_set_revoke.
  destruct (find_revoke_record t b); [destruct (tid_gt _ _)|];
    auto using insert_revoke_hash_ok, alter_bucket_ok.
Qed.

(** The later of two revokes of a block, the one [set_revoke] keeps. *)
Definition later_tid (seq : tid_t) (old : option tid_t) : tid_t :=
  match old with
  | Some s0 => if tid_gt seq s0 then seq else s0
  | None => seq
  end.

Lemma revoke_seq_set t b seq b' :
  table_ok t ->
  revoke_seq (jbd2_vmsep_journal_set_revoke t b seq) b' =
  (if b =? b' then Some (later_tid seq (revoke_seq t b)) else revoke_seq t b').
Proof.
  intros Hok. unfold revoke_seq, jbd2_vmsep_journal_set_revoke.
  destruct (find_revoke_record t b) as [r|] eqn:Hf; cbn.
  - destruct (tid_gt seq (sequence r)).
    + destruct (bucket_lookup t b Hok) as [l Hl].
      erewrite find_alter_bucket by done. rewrite find_in_list_update.
      unfold find_revoke_record in Hf. rewrite Hl in Hf. cbn in Hf.
      destruct (Z.eqb_spec b b') as [<-|Hne].
      * rewrite decide_True by done. by rewrite Hf.
      * destruct (decide (bucket t b = bucket t b')) as [Hb|Hb]; [|done].
        unfold find_revoke_record. by rewrite <- Hb, Hl.
    + destruct (b =? b') eqn:E; bool_to_prop; subst; [|done]. by rewrite Hf.
  - rewrite find_insert by done. by destruct (b =? b').
Qed.

Lemma test_revoke_seq t b seq :
  jbd2_vmsep_journal_test_revoke t b seq =
  match revoke_seq t b with Some s0 => negb (tid_gt seq s0) | None => false end.
Proof.
  unfold jbd2_vmsep_journal_test_revoke, revoke_seq.
  destruct (find_revoke_record t b) as [r|]; cbn; [|done]. by destruct (tid_gt _ _).
Qed.

Lemma clear_revoke_ok t : table_ok t -> table_ok (jbd2_vmsep_journal_clear_revoke t).
Proof. intros []. split; cbn; [done..|]. by rewrite length_map. Qed.

Lemma find_clear t b : find_revoke_record (jbd2_vmsep_journal_clear_revoke t) b = None.
Proof.
  unfold find_revoke_record. cbn. rewrite list_lookup_fmap.
  by destruct (hash_table t !! _).
Qed.

Lemma revoke_seq_clear t b : revoke_seq (jbd2_vmsep_journal_clear_revoke t) b = None.
Proof. unfold revoke_seq. by rewrite find_clear. Qed.

(** The shift loop computes the binary logarithm. *)
Lemma shift_loop_log2 fuel tmp shift :
  0 < tmp < 2 ^ Z.of_nat fuel -> shift_loop fuel tmp shift = shift + Z.log2 tmp.
Proof.
  revert tmp shift. induction fuel as [|fuel IH]; intros tmp shift Ht; [cbn in Ht; lia|].
  rewrite Nat2Z.inj_succ, Z.pow_succ_r in Ht by lia.
  cbn [shift_loop]. rewrite Z.shiftr_div_pow2 by lia. change (2 ^ 1) with 2.
  destruct (tmp / 2 =? 0) eqn:E; bool_to_prop.
  - assert (tmp = 1) as -> by lia. cbn. lia.
  - rewrite IH by lia. rewrite <- Z.div2_div. rewrite Z.div2_spec.
    rewrite Z.log2_shiftr by lia.
    assert (1 <= Z.log2 tmp) by (apply (Z.log2_le_pow2 tmp 1); lia). lia.
Qed.

Lemma init_revoke_table_ok k :
  1 <= k <= 30 -> table_ok (jbd2_journal_init_revoke_table (2 ^ k)).
Proof.
  intros Hk. assert (2 ^ k <= 2 ^ 30) by (apply Z.pow_le_mono_r; lia).
  assert (0 < 2 ^ k) by (apply Z.pow_pos_nonneg; lia).
  assert (shift_loop 32 (2 ^ k) 0 = k) as Hs.
  { rewrite shift_loop_log2 by (cbn; lia). by rewrite Z.log2_pow2 by lia. }
  split; cbn [hash_shift hash_size hash_table jbd2_journal_init_revoke_table].
  - rewrite Hs. lia.
  - by rewrite Hs.
  - by rewrite length_replicate.
Qed.

Lemma find_init size b : find_revoke_record (jbd2_journal_init_revoke_table size) b = None.
Proof.
  unfold find_revoke_record. cbn [hash_table jbd2_journal_init_revoke_table].
  destruct (_ !! _) as [l|] eqn:E; [|done]. apply lookup_replicate in E as [-> _]. done.
Qed.

(** ** The contract recovery relies on *)

Class RevokeStore (T : Type) := {
  rs_ok : T -> Prop;
  rs_seq : T -> Z -> option tid_t;
  rs_set : T -> Z -> tid_t -> T;
  rs_test : T -> Z -> tid_t -> bool;
  rs_clear : T -> T;
  rs_set_ok t b s : rs_ok t -> rs_ok (rs_set t b s);
  rs_clear_ok t : rs_ok t -> rs_ok (rs_clear t);
  rs_set_seq t b s b' : rs_ok t ->
    rs_seq (rs_set t b s) b' =
    if b =? b' then Some (later_tid s (rs_seq t b)) else rs_seq t b';
  rs_test_seq t b s :
    rs_test t b s = match rs_seq t b with Some s0 => negb (tid_gt s s0) | None => false end;
  rs_clear_seq t b : rs_seq (rs_clear t) b = None;
}.

#[export] Instance hash_table_store : RevokeStore jbd2_revoke_table_s := {|
  rs_ok := table_ok;
  rs_seq := revoke_seq;
  rs_set := jbd2_vmsep_journal_set_revoke;
  rs_test := jbd2_vmsep_journal_test_revoke;
  rs_clear := jbd2_vmsep_journal_clear_revoke;
  rs_set_ok := set_revoke_ok;
  rs_clear_ok := clear_revoke_ok;
  rs_set_seq := revoke_seq_set;
  rs_test_seq := test_revoke_seq;
  rs_clear_seq := revoke_seq_clear;
|}.

(** ** Collecting the revokes of a log *)

Section Collect.
Context {T : Type} `{RevokeStore T}.
Context (base : tid_t).

(** Enter the revokes [(block, offset of the revoking transaction)]. *)
Definition set_revokes (t : T) (l : list (Z * Z)) : T :=
  fold_left (fun t '(b, i) => rs_set t b (u32 (base + i))) l t.

Definition in_window (l : list (Z * Z)) : Prop :=
  Forall (fun '(_, i) => 0 <= i < 2147483648) l.

(** The offset of the last transaction of [l] that revokes [b]. *)
Definition last_revoke (l : list (Z * Z)) (b : Z) : option Z :=
  fold_left (fun o '(b', i) =>
    if b' =? b then Some (match o with Some j => Z.max i j | None => i end) else o) l None.

Lemma set_revokes_ok t l : rs_ok t -> rs_ok (set_revokes t l).
Proof.
  revert t. induction l as [|[b i] l IH]; intros t Ht; [done|].
  apply (IH (rs_set t b (u32 (base + i)))), rs_set_ok, Ht.
Qed.

(** The store holds [u32 (base + i)] for the greatest revoking offset [i]. *)
Definition represents (t : T) (m : Z -> option Z) : Prop :=
  rs_ok t /\ forall b, rs_seq t b = (fun i => u32 (base + i)) <$> m b /\
                       forall i, m b = Some i -> 0 <= i < 2147483648.

Lemma set_represents t m b i :
  represents t m -> 0 <= i < 2147483648 ->
  represents (rs_set t b (u32 (base + i)))
    (fun b' => if b =? b' then Some (match m b with Some j => Z.max i j | None => i end)
               else m b').
Proof.
  intros [Hok Hr] Hi. split; [by apply rs_set_ok|]. intros b'.
  rewrite rs_set_seq by done. destruct (b =? b') eqn:E; [|apply Hr].
  destruct (Hr b) as [-> Hb]. destruct (m b) as [j|] eqn:Em; cbn.
  - specialize (Hb j eq_refl). split.
    + unfold tid_gt. rewrite tid_diff_window by lia. f_equal.
      destruct (Z.ltb_spec 0 (i - j)); do 2 f_equal; lia.
    + intros k [= <-]. lia.
  - split; [done|]. intros k [= <-]. lia.
Qed.

Lemma set_revokes_represents t m l :
  represents t m -> in_window l ->
  represents (set_revokes t l)
    (fun b => fold_left (fun o '(b', i) =>
       if b' =? b then Some (match o with Some j => Z.max i j | None => i end) else o) l (m b)).
Proof.
  revert t m. induction l as [|[b i] l IH]; intros t m Hr Hw; [done|].
  inversion Hw as [|? ? Hi Hw']; subst. cbn.
  eapply set_represents in Hr; [|exact Hi]. specialize (IH _ _ Hr Hw').
  destruct IH as [Hok IH]. split; [done|]. intros b'. specialize (IH b').
  destruct (b =? b') eqn:E; [|done]. apply Z.eqb_eq in E. by subst.
Qed.

Lemma last_revoke_max l b o :
  in_window l ->
  fold_left (fun o '(b', i) =>
    if b' =? b then Some (match o with Some j => Z.max i j | None => i end) else o) l o =
  match o, last_revoke l b with
  | Some j, Some i => Some (Z.max i j)
  | None, r => r
  | o, None => o
  end.
Proof.
  unfold last_revoke. revert o. induction l as [|[b' i] l IH]; intros o Hw;
    [by destruct o|]. inversion Hw; subst. cbn. rewrite IH by done.
  rewrite (IH (if b' =? b then Some i else None)) by done.
  destruct (b' =? b), o as [j|], (fold_left _ l None) as [k|]; try done; f_equal; lia.
Qed.

Lemma last_revoke_spec l b i :
  in_window l ->
  (exists j, last_revoke l b = Some j /\ i <= j) <-> exists j, (b, j) ∈ l /\ i <= j.
Proof.
  intros Hw. induction l as [|[b' k] l IH].
  { cbn. split; intros (j & Hj & _); [done|]. by apply elem_of_nil in Hj. }
  inversion Hw as [|? ? Hk Hw']; subst. specialize (IH Hw').
  unfold last_revoke at 1. cbn. rewrite last_revoke_max by done.
  destruct (b' =? b) eqn:E; bool_to_prop; subst.
  - setoid_rewrite elem_of_cons.
    destruct (last_revoke l b) as [m|].
    + split.
      * intros (j & [= <-] & Hj). destruct (decide (i <= m)).
        -- destruct IH as [IH _]. destruct IH as (j & ? & ?); [eauto|]. exists j; eauto.
        -- exists k. split; [by left|lia].
      * intros (j & [[= ->]|Hin] & Hj); exists (Z.max m k); (split; [done|]); [lia|].
        destruct IH as [_ IH]. destruct IH as (j' & [= <-] & ?); [eauto|]. lia.
    + split.
      * intros (j & [= <-] & Hj). exists k. split; [by left|lia].
      * intros (j & [[= ->]|Hin] & Hj); [eauto|].
        destruct IH as [_ IH]. destruct IH as (j' & Hj' & ?); [eauto|]. done.
  - setoid_rewrite elem_of_cons. rewrite IH. split.
    + intros (j & ? & ?). eauto.
    + intros (j & [[= -> ->]|?] & ?); [done|eauto].
Qed.
End Collect.

(** A store that collected the revokes of [l] says "revoked" exactly for the
    blocks revoked by the same or a later transaction. *)
Lemma collected_test {T} `{RevokeStore T} (base : tid_t) (t : T) l b i :
  rs_ok t -> (forall b, rs_seq t b = None) -> in_window l -> 0 <= i < 2147483648 ->
  rs_test (set_revokes base t l) b (u32 (base + i)) = true <->
  exists j, (b, j) ∈ l /\ i <= j.
Proof.
  intros Hok Hempty Hw Hi.
  assert (represents base t (fun _ => None)) as Hr by (split; [done|]; intros; by rewrite Hempty).
  destruct (set_revokes_represents base t _ l Hr Hw) as [_ Hs].
  rewrite <- last_revoke_spec by done. rewrite rs_test_seq. destruct (Hs b) as [-> Hb].
  unfold last_revoke. destruct (fold_left _ l None) as [j|]; cbn.
  - specialize (Hb j eq_refl). unfold tid_gt. rewrite tid_diff_window by lia.
    rewrite negb_true_iff, Z.ltb_ge. split; [eauto with lia|].
    intros (k & [= <-] & ?). lia.
  - split; [done|]. by intros (k & ? & _).
Qed.

(** C18: after recovery has entered every revoke record of the log into the
    hash table (any power-of-two size, any transaction id base, also across
    wrap-around), [test_revoke] of a block in transaction [base+i] answers
    "revoked" exactly when some revoke record of that block belongs to
    transaction [base+i] or a later one. *)
Theorem revoked_iff_same_or_later (k base : Z) (l : list (Z * Z)) (b i : Z) :
  1 <= k <= 30 -> in_window l -> 0 <= i < 2147483648 ->
  jbd2_vmsep_journal_test_revoke
    (fold_left (fun t '(b, i) => jbd2_vmsep_journal_set_revoke t b (u32 (base + i))) l
       (jbd2_journal_init_revoke_table (2 ^ k))) b (u32 (base + i)) = true <->
  exists j, (b, j) ∈ l /\ i <= j.
Proof.
  intros Hk Hw Hi.
  pose proof (collected_test base (jbd2_journal_init_revoke_table (2 ^ k)) l b i) as Hc.
  unfold set_revokes in Hc. cbn [rs_test rs_set rs_ok rs_seq hash_table_store] in Hc. apply Hc; try done.
  - by apply init_revoke_table_ok.
  - intros b'. cbn. unfold revoke_seq. by rewrite find_init.
Qed.

(** Block 7 is revoked by transactions base+0 and base+2, the ids wrap. *)
Lemma revoked_iff_same_or_later_witness :
  jbd2_vmsep_journal_test_revoke
    (fold_left (fun t '(b, i) => jbd2_vmsep_journal_set_revoke t b (u32 (4294967295 + i)))
       [(7, 0); (9, 1); (7, 2)] (jbd2_journal_init_revoke_table (2 ^ 8)))
    7 (u32 (4294967295 + 1)) = true.
Proof.
  apply (revoked_iff_same_or_later 8 4294967295 [(7, 0); (9, 1); (7, 2)] 7 1); [lia| |lia|].
  - repeat constructor; lia.
  - exists 2. split; [set_solver|lia].
Defined.
