(* ===== verification/Blist.v ===== *)
(** * Circular buffer lists

    The doubly linked circular lists of journal heads: a transaction's buffer
    lists ([__blist_add_buffer], [__blist_del_buffer] of
    kernel/fs/jbd2/transaction.c, threaded through [b_tnext]/[b_tprev]) and
    its checkpoint lists ([__buffer_unlink_first], [__buffer_unlink],
    [__buffer_relink_io] and the linking of
    [__jbd2_vmsep_journal_insert_checkpoint] in checkpoint.c, threaded through
    [b_cpnext]/[b_cpprev]).  The pointer code is modelled as it is, over a
    heap of link pairs, and refines operations on plain lists: the other files
    use those. *)
From S2P Require Import Prelude.

(** The two link fields of a journal head. *)
Record links := mk_links { l_next : positive; l_prev : positive }.
#[export] Instance eta_links : Eta _ := fun n => mk_links (l_next n) (l_prev n).

Abbreviation heap := (gmap positive links).

Definition load (x : positive) : K heap links := fun h =>
  match h !! x with Some n => Ret (n, h) | None => Fault Oops end.
Definition set_next (x y : positive) : K heap unit := fun h =>
  match h !! x with Some n => Ret (tt, <[x := n <| l_next := y |>]> h) | None => Fault Oops end.
Definition set_prev (x y : positive) : K heap unit := fun h =>
  match h !! x with Some n => Ret (tt, <[x := n <| l_prev := y |>]> h) | None => Fault Oops end.

(** ** transaction.c *)

(** The list head [*list] is passed and returned. *)
Definition __blist_add_buffer (list : option positive) (jh : positive)
  : K heap (option positive) :=
  match list with
  | None =>
    set_prev jh jh ;;; set_next jh jh ;;; kret (Some jh)
  | Some first =>
    f <- load first ;;
    let last := l_prev f in
    set_prev jh last ;;;
    set_next jh first ;;;
    set_prev first jh ;;;
    set_next last jh ;;;
    kret (Some first)
  end.

Definition __blist_del_buffer (list : option positive) (jh : positive)
  : K heap (option positive) :=
  n <- load jh ;;
  let list' :=
    if bool_decide (list = Some jh)
    then if bool_decide (l_next n = jh) then None else Some (l_next n)
    else list in
  set_next (l_prev n) (l_next n) ;;;
  n <- load jh ;;
  set_prev (l_next n) (l_prev n) ;;;
  kret list'.

(** ** checkpoint.c *)

(** [if (transaction->list == jh) { list = jh->b_cpnext; if (list == jh) list = NULL; }] *)
Definition advance_head (list : option positive) (jh : positive) : K heap (option positive) :=
  n <- load jh ;;
  kret (if bool_decide (list = Some jh)
        then if bool_decide (l_next n = jh) then None else Some (l_next n)
        else list).

(** Takes and returns [t_checkpoint_list]. *)
Definition __buffer_unlink_first (cp : option positive) (jh : positive)
  : K heap (option positive) :=
  n <- load jh ;;
  set_prev (l_next n) (l_prev n) ;;;
  n <- load jh ;;
  set_next (l_prev n) (l_next n) ;;;
  advance_head cp jh.

(** Takes and returns [t_checkpoint_list] and [t_checkpoint_io_list]. *)
Definition __buffer_unlink (cp io : option positive) (jh : positive)
  : K heap (option positive * option positive) :=
  cp <- __buffer_unlink_first cp jh ;;
  io <- advance_head io jh ;;
  kret (cp, io).

(** Links [jh] in before the head and makes it the head: the tail of
    [__buffer_relink_io] and of [__jbd2_vmsep_journal_insert_checkpoint]. *)
Definition link_head (list : option positive) (jh : positive) : K heap (option positive) :=
  match list with
  | None => set_prev jh jh ;;; set_next jh jh ;;; kret (Some jh)
  | Some head =>
    set_next jh head ;;;
    h <- load head ;;
    set_prev jh (l_prev h) ;;;
    n <- load jh ;;
    set_next (l_prev n) jh ;;;
    n <- load jh ;;
    set_prev (l_next n) jh ;;;
    kret (Some jh)
  end.

Definition __buffer_relink_io (cp io : option positive) (jh : positive)
  : K heap (option positive * option positive) :=
  cp <- __buffer_unlink_first cp jh ;;
  io <- link_head io jh ;;
  kret (cp, io).

(** ** Circular lists in the heap *)

Definition next (h : heap) (x : positive) : option positive := l_next <$> h !! x.
Definition prev (h : heap) (x : positive) : option positive := l_prev <$> h !! x.

Definition linked (h : heap) (x y : positive) : Prop := next h x = Some y /\ prev h y = Some x.

Fixpoint chain (h : heap) (l : list positive) : Prop :=
  match l with
  | x :: (y :: _) as l' => linked h x y /\ chain h l'
  | _ => True
  end.

(** The elements of [l] form a cycle in [h]. *)
Definition cycle (h : heap) (l : list positive) : Prop :=
  match l with [] => True | x :: _ => chain h (l ++ [x]) end.

(** The head pointer [p] holds the circular list [l]. *)
Definition circular (h : heap) (p : option positive) (l : list positive) : Prop :=
  p = head l /\ NoDup l /\ cycle h l.

Lemma chain_app h l1 x l2 :
  chain h (l1 ++ x :: l2) <-> chain h (l1 ++ [x]) /\ chain h (x :: l2).
Proof.
  induction l1 as [|a l1 IH]; cbn [app]; [cbn; tauto|].
  destruct l1 as [|b l1]; cbn [app] in *; [cbn; tauto|].
  cbn [chain]. cbn [chain] in IH. tauto.
Qed.

(** A chain only depends on the links between its elements. *)
Lemma chain_frame h h' l :
  (forall l1 x y l2, l = l1 ++ x :: y :: l2 -> next h' x = next h x /\ prev h' y = prev h y) ->
  chain h l -> chain h' l.
Proof.
  induction l as [|a l IH]; intros Hf Hc; [done|]. destruct l as [|b l]; [done|].
  destruct Hc as [[Hn Hp] Hc]. split.
  - destruct (Hf [] a b l eq_refl) as [Hn' Hp']. split; congruence.
  - apply IH; [|done]. intros l1 x y l2 Hl. apply (Hf (a :: l1) x y l2). by rewrite Hl.
Qed.

Lemma cycle_rotate h x l : cycle h (x :: l) <-> cycle h (l ++ [x]).
Proof.
  destruct l as [|y l]; [done|]. unfold cycle. cbn [app].
  change (y :: (l ++ [x]) ++ [y]) with ((y :: l ++ [x]) ++ [y]).
  replace ((y :: l ++ [x]) ++ [y]) with ((y :: l) ++ x :: [y])
    by (cbn; by rewrite <- app_assoc).
  rewrite (chain_app h (y :: l) x [y]). cbn [chain app]. tauto.
Qed.

Lemma cycle_rotate_app h l1 l2 : cycle h (l1 ++ l2) <-> cycle h (l2 ++ l1).
Proof.
  revert l2. induction l1 as [|x l1 IH]; intros l2; [by rewrite app_nil_r|].
  cbn [app]. rewrite cycle_rotate, <- app_assoc, IH. by rewrite <- app_assoc.
Qed.

(** A cycle is a chain closed from its last element to its first. *)
Lemma cycle_chain h l y z :
  head l = Some y -> last l = Some z -> (cycle h l <-> chain h l /\ linked h z y).
Proof.
  intros Hy Hz. destruct l as [|y' l]; [done|]. injection Hy as ->.
  apply last_Some in Hz as [l0 Hl]. unfold cycle. rewrite Hl, <- app_assoc. cbn [app].
  rewrite chain_app. cbn [chain]. tauto.
Qed.

Lemma linked_in_heap h x y : linked h x y -> is_Some (h !! x) /\ is_Some (h !! y).
Proof. unfold linked, next, prev. intros []. destruct (h !! x), (h !! y); naive_solver. Qed.

(** ** What the pointer writes do to the links *)

(** [h'] is [h] with the links of [jh] spliced in between [z] and [y]. *)
Definition spliced (h h' : heap) (jh z y : positive) : Prop :=
  (forall x, next h' x = if decide (x = jh) then Some y
                         else if decide (x = z) then Some jh else next h x) /\
  (forall x, prev h' x = if decide (x = jh) then Some z
                         else if decide (x = y) then Some jh else prev h x).

(** [h'] is [h] with [z] linked to [y]. *)
Definition bridged (h h' : heap) (z y : positive) : Prop :=
  (forall x, next h' x = if decide (x = z) then Some y else next h x) /\
  (forall x, prev h' x = if decide (x = y) then Some z else prev h x).

Lemma inner_not_last (l l1 l2 : list positive) a b z :
  NoDup l -> l = l1 ++ a :: b :: l2 -> last l = Some z -> a <> z.
Proof.
  intros Hnd -> Hz <-. rewrite last_app_cons, last_cons_cons in Hz.
  apply last_Some_elem_of in Hz. apply NoDup_app in Hnd as (_ & _ & Hnd).
  by apply NoDup_cons in Hnd as [? _].
Qed.

Lemma inner_not_head (l l1 l2 : list positive) a b y :
  NoDup l -> l = l1 ++ a :: b :: l2 -> head l = Some y -> b <> y.
Proof.
  intros Hnd -> Hy ->.
  replace (l1 ++ a :: y :: l2) with ((l1 ++ [a]) ++ y :: l2) in * by (by rewrite <- app_assoc).
  rewrite head_app in Hy. destruct (head (l1 ++ [a])) eqn:E; [|by destruct l1].
  injection Hy as ->. apply head_Some_elem_of in E.
  apply NoDup_app in Hnd as (_ & Hd & _). apply (Hd y E). by left.
Qed.

Lemma cycle_insert h h' jh l y z :
  NoDup l -> jh ∉ l -> head l = Some y -> last l = Some z -> cycle h l ->
  spliced h h' jh z y -> cycle h' (l ++ [jh]).
Proof.
  intros Hnd Hjh Hy Hz Hc [Hn Hp].
  rewrite (cycle_chain h l y z) in Hc by done. destruct Hc as [Hc _].
  assert (y ∈ l) by (by apply head_Some_elem_of).
  assert (z ∈ l) by (by apply last_Some_elem_of).
  rewrite (cycle_chain h' _ y jh); [|by rewrite head_app, Hy|by rewrite last_snoc].
  split.
  - pose proof Hz as Hz'. apply last_Some in Hz' as [l0 Hl].
    rewrite Hl, <- app_assoc. cbn [app]. rewrite chain_app. split.
    + rewrite <- Hl. eapply chain_frame; [|exact Hc]. intros l1 a b l2 Hab.
      assert (a <> z) by (by eapply inner_not_last).
      assert (b <> y) by (by eapply inner_not_head).
      assert (a <> jh) by (intros ->; apply Hjh; rewrite Hab; set_solver).
      assert (b <> jh) by (intros ->; apply Hjh; rewrite Hab; set_solver).
      rewrite Hn, Hp. by rewrite !decide_False.
    + split; [|done]. unfold linked. rewrite Hn, Hp.
      rewrite (decide_False (P := z = jh)) by (by intros ->).
      by rewrite !decide_True.
  - unfold linked. rewrite Hn, Hp. rewrite decide_True by done.
    rewrite decide_False by (by intros ->). by rewrite decide_True.
Qed.

Lemma cycle_remove h h' jh l y z :
  NoDup (jh :: l) -> head l = Some y -> last l = Some z -> cycle h (jh :: l) ->
  bridged h h' z y -> cycle h' l.
Proof.
  intros Hnd Hy Hz Hc [Hn Hp]. apply NoDup_cons in Hnd as [Hjh Hnd].
  rewrite (cycle_chain h (jh :: l) jh z) in Hc; [|done|by destruct l].
  destruct Hc as [Hc _]. destruct l as [|y' l]; [done|]. injection Hy as ->.
  destruct Hc as [_ Hc]. rewrite (cycle_chain h' _ y z) by done. split.
  - eapply chain_frame; [|exact Hc]. intros l1 a b l2 Hab.
    assert (a <> z) by (by eapply inner_not_last).
    assert (b <> y) by (by eapply inner_not_head).
    rewrite Hn, Hp. by rewrite !decide_False.
  - unfold linked. rewrite Hn, Hp. by rewrite !decide_True.
Qed.

Lemma cycle_frame h h' l :
  (forall x, x ∈ l -> next h' x = next h x /\ prev h' x = prev h x) ->
  cycle h l -> cycle h' l.
Proof.
  intros Hf. destruct l as [|a l]; [done|]. intros Hc. unfold cycle in *.
  eapply chain_frame; [|exact Hc]. intros l1 x y l2 Hl.
  assert (x ∈ (a :: l) ++ [a] /\ y ∈ (a :: l) ++ [a]) as [Hx Hy]
    by (rewrite Hl; set_solver).
  split; [apply (Hf x)|apply (Hf y)]; set_solver.
Qed.

(** ** Executing the pointer code *)

Ltac links_ext :=
  unfold next, prev; cbn; rewrite ?lookup_insert; repeat case_decide; subst;
  simplify_map_eq; try done; congruence.

Ltac run_links :=
  unfold wp, kbind, kret, load, set_next, set_prev; cbn; simplify_map_eq; cbn.

(** Splicing [jh] in before [y], as [__blist_add_buffer] does. *)
Lemma exec_add h jh y :
  jh <> y -> is_Some (h !! jh) -> is_Some (h !! y) ->
  (forall z, prev h y = Some z -> jh <> z /\ is_Some (h !! z)) ->
  wp (__blist_add_buffer (Some y) jh)
    (fun p h' => p = Some y /\ exists z, prev h y = Some z /\ spliced h h' jh z y) h.
Proof.
  intros Hne [nj Hj] [[yn z] Hy] Hz. destruct (Hz z) as [Hjz [nz Hnz]].
  { unfold prev. by rewrite Hy. }
  destruct (decide (y = z)) as [<-|Hyz];
    (unfold __blist_add_buffer; run_links; split; [done|]; exists z || exists y;
     split; [unfold prev; by rewrite Hy|]; split; intros x; links_ext).
Qed.

(** ... and as [link_head] does. *)
Lemma exec_link_head h jh y :
  jh <> y -> is_Some (h !! jh) -> is_Some (h !! y) ->
  (forall z, prev h y = Some z -> jh <> z /\ is_Some (h !! z)) ->
  wp (link_head (Some y) jh)
    (fun p h' => p = Some jh /\ exists z, prev h y = Some z /\ spliced h h' jh z y) h.
Proof.
  intros Hne [nj Hj] [[yn z] Hy] Hz. destruct (Hz z) as [Hjz [nz Hnz]].
  { unfold prev. by rewrite Hy. }
  destruct (decide (y = z)) as [<-|Hyz];
    (unfold link_head; run_links; split; [done|]; exists z || exists y;
     split; [unfold prev; by rewrite Hy|]; split; intros x; links_ext).
Qed.

(** The head pointer after the element [jh], followed by [y], is unlinked. *)
Definition head_after (p : option positive) (jh y : positive) : option positive :=
  if bool_decide (p = Some jh) then if bool_decide (y = jh) then None else Some y else p.

Lemma exec_del h p jh y z :
  h !! jh = Some (mk_links y z) -> is_Some (h !! y) -> is_Some (h !! z) ->
  wp (__blist_del_buffer p jh)
    (fun p' h' => p' = head_after p jh y /\ bridged h h' z y) h.
Proof.
  intros Hj [ny Hy] [nz Hz]. unfold __blist_del_buffer, head_after.
  destruct (decide (y = z)), (decide (z = jh)), (decide (y = jh)); subst; run_links;
    (split; [done|]); split; intros x; links_ext.
Qed.

Lemma exec_unlink_first h p jh y z :
  h !! jh = Some (mk_links y z) -> is_Some (h !! y) -> is_Some (h !! z) ->
  wp (__buffer_unlink_first p jh)
    (fun p' h' => p' = head_after p jh y /\ bridged h h' z y /\
                  h' !! jh = Some (mk_links y z)) h.
Proof.
  intros Hj [ny Hy] [nz Hz].
  unfold __buffer_unlink_first, advance_head, head_after.
  destruct (decide (y = z)), (decide (z = jh)), (decide (y = jh)); subst; run_links;
    (split; [done|]); (split; [split; intros x; links_ext|]); simplify_map_eq; done.
Qed.

(** ** The list operations the pointer code implements *)

Definition blist_add (jh : positive) (l : list positive) : list positive := l ++ [jh].
Definition blist_del (jh : positive) (l : list positive) : list positive :=
  filter (fun x => x <> jh) l.

#[global] Arguments blist_add : simpl never.
#[global] Arguments blist_del : simpl never.

Lemma blist_del_notin jh l : jh ∉ l -> blist_del jh l = l.
Proof.
  induction l as [|x l IH]; intros Hn; [done|]. unfold blist_del in *. cbn.
  rewrite decide_True by set_solver. f_equal. apply IH. set_solver.
Qed.

Lemma blist_del_split jh l1 l2 :
  NoDup (l1 ++ jh :: l2) -> blist_del jh (l1 ++ jh :: l2) = l1 ++ l2.
Proof.
  intros Hnd. apply NoDup_app in Hnd as (_ & Hd & Hnd).
  apply NoDup_cons in Hnd as [Hn _]. unfold blist_del. rewrite filter_app.
  f_equal.
  - apply (blist_del_notin jh l1). intros Hin. apply (Hd jh Hin). by left.
  - rewrite filter_cons_False by auto. by apply (blist_del_notin jh l2).
Qed.

Lemma blist_del_head jh l : jh ∉ l -> blist_del jh (jh :: l) = l.
Proof.
  intros Hn. unfold blist_del. rewrite filter_cons_False by auto. by apply (blist_del_notin jh l).
Qed.

Lemma elem_of_blist_del jh l x : x ∈ blist_del jh l <-> x ∈ l /\ x <> jh.
Proof. unfold blist_del. rewrite list_elem_of_filter. tauto. Qed.

Lemma elem_of_blist_add jh l x : x ∈ blist_add jh l <-> x ∈ l \/ x = jh.
Proof. unfold blist_add. set_solver. Qed.

Lemma NoDup_blist_del jh l : NoDup l -> NoDup (blist_del jh l).
Proof. apply NoDup_filter. Qed.

Lemma NoDup_blist_add jh l : NoDup l -> jh ∉ l -> NoDup (blist_add jh l).
Proof.
  intros Hnd Hn. apply NoDup_app. split_and!; [done|set_solver|apply NoDup_singleton].
Qed.

Lemma length_blist_del jh l :
  NoDup l -> jh ∈ l -> length l = S (length (blist_del jh l)).
Proof.
  intros Hnd [l1 [l2 ->]]%list_elem_of_split. rewrite blist_del_split by done.
  rewrite !length_app. cbn. lia.
Qed.

(** ** Refinement *)

(** Every list of the heap that is disjoint from [l] keeps its cycle. *)
Definition others_kept (h h' : heap) (l : list positive) : Prop :=
  forall p2 l2, circular h p2 l2 -> (forall x, x ∈ l2 -> x ∉ l) -> circular h' p2 l2.

Lemma spliced_others h h' jh z y l :
  jh ∈ l -> z ∈ l -> y ∈ l -> spliced h h' jh z y -> others_kept h h' l.
Proof.
  intros Hj Hz Hy [Hn Hp] p2 l2 (? & ? & Hc) Hd. split_and!; [done..|].
  eapply cycle_frame; [|exact Hc]. intros x Hx. specialize (Hd x Hx).
  rewrite Hn, Hp, !decide_False by congruence. done.
Qed.

Lemma bridged_others h h' z y l :
  z ∈ l -> y ∈ l -> bridged h h' z y -> others_kept h h' l.
Proof.
  intros Hz Hy [Hn Hp] p2 l2 (? & ? & Hc) Hd. split_and!; [done..|].
  eapply cycle_frame; [|exact Hc]. intros x Hx. specialize (Hd x Hx).
  rewrite Hn, Hp, !decide_False by congruence. done.
Qed.

(** Where an element sits in its cycle, and the cycle left without it. *)
Lemma cycle_unlink h l jh :
  NoDup l -> cycle h l -> jh ∈ l ->
  exists y z, h !! jh = Some (mk_links y z) /\ is_Some (h !! y) /\ is_Some (h !! z) /\
    y ∈ l /\ z ∈ l /\
    (forall h', bridged h h' z y -> cycle h' (blist_del jh l)) /\
    head_after (head l) jh y = head (blist_del jh l).
Proof.
  intros Hnd Hc [l1 [l2 ->]]%list_elem_of_split.
  rewrite blist_del_split by done. rewrite cycle_rotate_app in Hc. cbn [app] in Hc.
  assert (NoDup (jh :: l2 ++ l1)) as Hnd'.
  { eapply NoDup_Permutation_proper; [|exact Hnd]. by rewrite (Permutation_app_comm l1). }
  destruct (l2 ++ l1) as [|y m] eqn:Hm.
  { apply app_eq_nil in Hm as [-> ->]. cbn in Hc. destruct Hc as [[Hn Hp] _].
    unfold next, prev in *. destruct (h !! jh) as [[n p]|] eqn:E; [|done]. cbn in *.
    simplify_eq. exists jh, jh. unfold head_after. cbn. rewrite !bool_decide_true by done.
    split_and!; eauto; set_solver. }
  destruct (last (y :: m)) as [z|] eqn:Hz; [|by apply last_None in Hz].
  pose proof Hc as Hc'. rewrite (cycle_chain h (jh :: y :: m) jh z) in Hc' by done.
  destruct Hc' as [[Hjy _] Hzj]. exists y, z.
  pose proof (linked_in_heap _ _ _ Hjy) as [Hsj Hsy].
  pose proof (linked_in_heap _ _ _ Hzj) as [Hsz _].
  assert (y ∈ l2 ++ l1) by (rewrite Hm; by left).
  assert (z ∈ l2 ++ l1) by (rewrite Hm; by apply last_Some_elem_of).
  split_and!; try done; try set_solver.
  - destruct Hjy as [Hn _], Hzj as [_ Hp]. unfold next, prev in *.
    destruct (h !! jh) as [[n p]|]; cbn in *; by simplify_eq.
  - intros h' Hb. rewrite cycle_rotate_app, Hm. by eapply cycle_remove.
  - apply NoDup_cons in Hnd' as [Hj _]. unfold head_after.
    destruct l1 as [|x l1]; cbn in *.
    + rewrite app_nil_r in Hm. subst l2. rewrite bool_decide_true by done.
      rewrite bool_decide_false by (intros ->; set_solver). done.
    + rewrite bool_decide_false; [done|]. intros [= ->]. apply Hj. rewrite <- Hm. set_solver.
Qed.

(** Splicing in at the end of a list, common to appending and to prepending. *)
Lemma splice_list h h' jh l y z :
  circular h (Some y) l -> jh ∉ l -> prev h y = Some z -> spliced h h' jh z y ->
  cycle h' (l ++ [jh]) /\ others_kept h h' (jh :: l).
Proof.
  intros (Hp & Hnd & Hc) Hjh Hpz Hs. symmetry in Hp.
  destruct (last l) as [z'|] eqn:Hz; [|apply last_None in Hz; by subst].
  pose proof Hc as Hc'. rewrite (cycle_chain h l y z') in Hc' by done.
  destruct Hc' as [_ [_ Hpz']]. assert (z' = z) as -> by congruence.
  split; [by eapply cycle_insert|].
  eapply spliced_others; [..|exact Hs]; [by left|right..];
    [by apply last_Some_elem_of|by apply head_Some_elem_of].
Qed.

Lemma circular_prev h y l :
  circular h (Some y) l -> is_Some (h !! y) /\
  forall z, prev h y = Some z -> z ∈ l /\ is_Some (h !! z).
Proof.
  intros (Hp & Hnd & Hc). symmetry in Hp.
  destruct (last l) as [z'|] eqn:Hz; [|apply last_None in Hz; by subst].
  rewrite (cycle_chain h l y z') in Hc by done. destruct Hc as [_ Hl].
  pose proof (linked_in_heap _ _ _ Hl) as [? ?]. split; [done|]. intros z Hpz.
  destruct Hl as [_ Hl]. assert (z' = z) as -> by congruence.
  split; [by apply last_Some_elem_of|done].
Qed.

(** A lone element linked to itself. *)
Lemma exec_single h jh :
  is_Some (h !! jh) ->
  wp (set_prev jh jh ;;; set_next jh jh ;;; kret (Some jh))
    (fun p h' => p = Some jh /\ circular h' p [jh] /\ others_kept h h' [jh]) h.
Proof.
  intros [nj Hj]. run_links. split_and!; [done| |].
  - split_and!; [done|apply NoDup_singleton|]. cbn. unfold linked, next, prev.
    by rewrite lookup_insert_eq.
  - intros p2 l2 (? & ? & Hc) Hd. split_and!; [done..|]. eapply cycle_frame; [|exact Hc].
    intros x Hx. specialize (Hd x Hx). unfold next, prev.
    rewrite !lookup_insert_ne by set_solver. done.
Qed.

(** [__blist_add_buffer] appends: run on the head of a circular list that
    does not hold [jh], it never touches an invalid pointer, leaves a circular
    list with [jh] as its last element, and keeps every other list of the
    heap. *)
Theorem blist_add_refines h p l jh :
  circular h p l -> jh ∉ l -> is_Some (h !! jh) ->
  wp (__blist_add_buffer p jh)
    (fun p' h' => circular h' p' (blist_add jh l) /\ others_kept h h' (jh :: l)) h.
Proof.
  intros Hl Hjh Hsome. destruct p as [y|].
  - destruct (circular_prev h y l Hl) as [Hy Hprev].
    pose proof Hl as (Hp & Hnd & _).
    assert (y ∈ l) by (by apply head_Some_elem_of).
    eapply wp_mono; [apply exec_add; [set_solver|done|done|]|].
    { intros z Hz. destruct (Hprev z Hz). split; [set_solver|done]. }
    intros p' h' (-> & z & Hz & Hs).
    destruct (splice_list h h' jh l y z Hl Hjh Hz Hs) as [Hc Ho].
    split; [|done]. split_and!; [|by apply NoDup_blist_add|done].
    unfold blist_add. by rewrite head_app, <- Hp.
  - pose proof Hl as (Hp & _ & _). destruct l as [|? l]; [|done].
    eapply wp_mono; [by apply exec_single|]. by intros p' h' (-> & ? & ?).
Qed.

Definition example_heap : heap :=
  <[1%positive := mk_links 2 2]> (<[2%positive := mk_links 1 1]>
  (<[3%positive := mk_links 3 3]> ∅)).

Lemma example_heap_circular : circular example_heap (Some 1%positive) [1%positive; 2%positive].
Proof.
  split_and!; [done| |by vm_compute].
  repeat constructor; set_solver.
Qed.

Lemma blist_add_refines_witness :
  wp (__blist_add_buffer (Some 1%positive) 3%positive)
    (fun p' h' => circular h' p' [1%positive; 2%positive; 3%positive]) example_heap.
Proof.
  eapply wp_mono.
  - apply (blist_add_refines example_heap (Some 1%positive) [1%positive; 2%positive] 3%positive).
    + apply example_heap_circular.
    + set_solver.
    + by eexists.
  - by intros p' h' [? _].
Defined.

(** [__blist_del_buffer] removes exactly [jh] from its circular list,
    moving the head on when [jh] was the head and clearing it when [jh] was
    the only element, and keeps every other list. *)
Theorem blist_del_refines h p l jh :
  circular h p l -> jh ∈ l ->
  wp (__blist_del_buffer p jh)
    (fun p' h' => circular h' p' (blist_del jh l) /\ others_kept h h' l) h.
Proof.
  intros (-> & Hnd & Hc) Hin.
  destruct (cycle_unlink h l jh Hnd Hc Hin) as (y & z & Hj & Hy & Hz & Hyl & Hzl & Hcyc & Hhd).
  eapply wp_mono; [by apply (exec_del h _ jh y z)|]. intros p' h' [-> Hb].
  split; [|by apply (bridged_others h h' z y)].
  split_and!; [done|by apply NoDup_blist_del|by apply Hcyc].
Qed.

Lemma blist_del_refines_witness :
  wp (__blist_del_buffer (Some 1%positive) 1%positive)
    (fun p' h' => circular h' p' [2%positive]) example_heap.
Proof.
  eapply wp_mono.
  - apply (blist_del_refines example_heap (Some 1%positive) [1%positive; 2%positive] 1%positive).
    + apply example_heap_circular.
    + set_solver.
  - by intros p' h' [? _].
Defined.

(** The head pointer of a list without [jh] does not move. *)
Lemma advance_head_other h p l jh :
  circular h p l -> jh ∉ l -> is_Some (h !! jh) ->
  wp (advance_head p jh) (fun p' h' => p' = p /\ h' = h) h.
Proof.
  intros (-> & _ & _) Hn [n Hj]. unfold advance_head. run_links.
  rewrite bool_decide_false; [done|]. intros Hp. by apply head_Some_elem_of in Hp.
Qed.

(** [__buffer_relink_io] moves a buffer from the checkpoint list to the
    front of the checkpoint io list of its transaction: both stay circular
    lists, the buffer leaves the first and heads the second. *)
Theorem relink_io_refines h cp io lc li jh :
  circular h cp lc -> circular h io li -> jh ∈ lc -> (forall x, x ∈ lc -> x ∉ li) ->
  wp (__buffer_relink_io cp io jh)
    (fun '(cp', io') h' => circular h' cp' (blist_del jh lc) /\ circular h' io' (jh :: li)) h.
Proof.
  intros Hcp Hio Hin Hdis. pose proof Hcp as (-> & Hnd & Hc).
  destruct (cycle_unlink h lc jh Hnd Hc Hin) as (y & z & Hj & Hy & Hz & Hyl & Hzl & Hcyc & Hhd).
  unfold __buffer_relink_io. apply wp_bind.
  eapply wp_mono; [by apply (exec_unlink_first h _ jh y z)|]. intros cp1 h1 (-> & Hb & Hj1).
  assert (circular h1 (head (blist_del jh lc)) (blist_del jh lc)) as Hcp1.
  { split_and!; [done|by apply NoDup_blist_del|by apply Hcyc]. }
  assert (circular h1 io li) as Hio1.
  { eapply bridged_others; [exact Hzl|exact Hyl|done|done|].
    intros x Hx Hx'. by apply (Hdis x). }
  assert (jh ∉ li) as Hjli by auto.
  assert (forall x, x ∈ blist_del jh lc -> x ∉ jh :: li) as Hdis'.
  { intros x [? ?]%elem_of_blist_del. rewrite not_elem_of_cons. auto. }
  rewrite Hhd. apply wp_bind. destruct io as [w|].
  - destruct (circular_prev h1 w li Hio1) as [Hw Hprev].
    assert (w ∈ li) by (destruct Hio1 as (? & _); by apply head_Some_elem_of).
    eapply wp_mono; [apply exec_link_head; [set_solver|eauto|done|]|].
    { intros v Hv. destruct (Hprev v Hv). split; [set_solver|done]. }
    intros io' h' (-> & v & Hv & Hs).
    destruct (splice_list h1 h' jh li w v Hio1 Hjli Hv Hs) as [Hc' Ho].
    apply wp_ret. split; [by apply Ho|].
    split_and!; [done|apply NoDup_cons; split; [done|apply Hio1]|by apply cycle_rotate].
  - pose proof Hio1 as (Hp & _ & _). destruct li; [|done].
    eapply wp_mono; [apply exec_single; eauto|]. intros p' h' (-> & ? & Ho).
    apply wp_ret. split; [by apply Ho|done].
Qed.

Lemma relink_io_refines_witness :
  wp (__buffer_relink_io (Some 1%positive) None 1%positive)
    (fun '(cp', io') h' => circular h' cp' [2%positive] /\ circular h' io' [1%positive])
    example_heap.
Proof.
  apply (relink_io_refines example_heap (Some 1%positive) None [1%positive; 2%positive] []
           1%positive).
  - apply example_heap_circular.
  - split_and!; [done|constructor|done].
  - set_solver.
  - set_solver.
Defined.
