(* ===== verification/State.v ===== *)
(** * The shared state of the journal

    The structures of include/linux/jbd2.h and include/linux/journal-head.h
    that the components share, and the store they live in: buffers, the
    journal heads attached to them, transactions and the journal.

    A [struct journal_head *] is named by its buffer ([jh2bh] and [bh2jh] are
    the identity on names); dereferencing it after the journal head was freed
    is an [Oops].  The circular lists threaded through [b_tnext]/[b_tprev] and
    [b_cpnext]/[b_cpprev] are lists here; Blist.v proves that the pointer code
    implements exactly the list operations used. *)
From S2P Require Import Prelude Tid.

Abbreviation bh_id := positive (only parsing).
Abbreviation tr_id := positive (only parsing).

(** [BJ_None] ... [BJ_Reserved]. *)
Inductive jlist := BJ_None | BJ_Metadata | BJ_Forget | BJ_Shadow | BJ_Reserved.
#[export] Instance jlist_eq_dec : EqDecision jlist.
Proof. solve_decision. Defined.

Record journal_head := mk_journal_head {
  b_jcount : Z;
  b_jlist : jlist;
  b_modified : bool;
  b_frozen_data : option (list Z);
  b_committed_data : option (list Z);
  b_transaction : option tr_id;
  b_next_transaction : option tr_id;
  b_cp_transaction : option tr_id;
  ino : Z;
}.
#[export] Instance eta_journal_head : Eta _ := fun h =>
  mk_journal_head (b_jcount h) (b_jlist h) (b_modified h) (b_frozen_data h)
    (b_committed_data h) (b_transaction h) (b_next_transaction h)
    (b_cp_transaction h) (ino h).

(** [kmem_cache_zalloc(jbd2_journal_head_cache)]. *)
Definition zero_journal_head : journal_head :=
  mk_journal_head 0 BJ_None false None None None None None 0.

Record buffer_head := mk_buffer_head {
  buffer_uptodate : bool;
  buffer_dirty : bool;
  buffer_locked : bool;
  buffer_req : bool;
  buffer_mapped : bool;
  buffer_new : bool;
  buffer_delay : bool;
  buffer_unwritten : bool;
  buffer_write_io_error : bool;
  buffer_jbd : bool;
  buffer_jwrite : bool;
  buffer_freed : bool;
  buffer_revoked : bool;
  buffer_revokevalid : bool;
  buffer_jbddirty : bool;
  buffer_shadow : bool;
  b_count : Z;
  b_blocknr : Z;
  b_data : list Z;
  b_bdev : bool;             (* bh->b_bdev != NULL *)
  b_page_mapping : bool;     (* bh->b_page && bh->b_page->mapping *)
  b_private : option journal_head;
}.
#[export] Instance eta_buffer_head : Eta _ := fun b =>
  mk_buffer_head (buffer_uptodate b) (buffer_dirty b) (buffer_locked b) (buffer_req b)
    (buffer_mapped b) (buffer_new b) (buffer_delay b) (buffer_unwritten b)
    (buffer_write_io_error b) (buffer_jbd b) (buffer_jwrite b) (buffer_freed b)
    (buffer_revoked b) (buffer_revokevalid b) (buffer_jbddirty b) (buffer_shadow b)
    (b_count b) (b_blocknr b) (b_data b) (b_bdev b) (b_page_mapping b) (b_private b).

Inductive t_state_t :=
| T_RUNNING | T_LOCKED | T_FLUSH | T_COMMIT | T_COMMIT_DFLUSH | T_COMMIT_JFLUSH
| T_COMMIT_CALLBACK | T_FINISHED.
#[export] Instance t_state_eq_dec : EqDecision t_state_t.
Proof. solve_decision. Defined.

(** The position of a state in the enum, for comparisons of states. *)
Definition t_state_rank (st : t_state_t) : Z :=
  match st with
  | T_RUNNING => 0 | T_LOCKED => 1 | T_FLUSH => 2 | T_COMMIT => 3
  | T_COMMIT_DFLUSH => 4 | T_COMMIT_JFLUSH => 5 | T_COMMIT_CALLBACK => 6
  | T_FINISHED => 7
  end.

Record transaction_t := mk_transaction {
  t_tid : tid_t;
  t_state : t_state_t;
  t_log_start : Z;
  t_nr_buffers : Z;
  t_reserved_list : list bh_id;
  t_buffers : list bh_id;
  t_forget : list bh_id;
  t_checkpoint_list : list bh_id;
  t_checkpoint_io_list : list bh_id;
  t_shadow_list : list bh_id;
  t_updates : Z;
  t_outstanding_credits : Z;
  t_handle_count : Z;
  t_expires : Z;
  t_requested : Z;
  t_synchronous_commit : bool;
  t_need_data_flush : bool;
  ino_sync : Z;
}.
#[export] Instance eta_transaction : Eta _ := fun t =>
  mk_transaction (t_tid t) (t_state t) (t_log_start t) (t_nr_buffers t)
    (t_reserved_list t) (t_buffers t) (t_forget t) (t_checkpoint_list t)
    (t_checkpoint_io_list t) (t_shadow_list t) (t_updates t) (t_outstanding_credits t)
    (t_handle_count t) (t_expires t) (t_requested t) (t_synchronous_commit t)
    (t_need_data_flush t) (ino_sync t).

(** [kmem_cache_zalloc(transaction_cache)]. *)
Definition zero_transaction : transaction_t :=
  mk_transaction 0 T_RUNNING 0 0 [] [] [] [] [] [] 0 0 0 0 0 false false 0.

(** The journal; the bits of [j_flags] are boolean fields. *)
Record journal_t := mk_journal {
  JBD2_UNMOUNT : bool;
  JBD2_ABORT : bool;
  JBD2_ACK_ERR : bool;
  JBD2_FLUSHED : bool;
  JBD2_LOADED : bool;
  JBD2_BARRIER : bool;
  JBD2_REC_ERR : bool;
  j_errno : Z;
  j_running_transaction : option tr_id;
  j_committing_transaction : option tr_id;
  j_checkpoint_transactions : list tr_id;
  j_head : Z;
  j_tail : Z;
  j_free : Z;
  j_first : Z;
  j_last : Z;
  j_maxlen : Z;
  j_tail_sequence : tid_t;
  j_transaction_sequence : tid_t;
  j_commit_sequence : tid_t;
  j_commit_request : tid_t;
  j_max_transaction_buffers : Z;
  j_reserved_credits : Z;
  j_barrier_count : Z;
  j_commit_interval : Z;
  s_sequence : tid_t;        (* j_superblock, in CPU byte order *)
  s_start : Z;
  s_errno : Z;
  s_first : Z;
  s_maxlen : Z;
  disk_s_sequence : tid_t;   (* the superblock as the device holds it *)
  disk_s_start : Z;
  disk_s_errno : Z;
  j_failed_commit : tid_t;
}.
#[export] Instance eta_journal : Eta _ := fun j =>
  mk_journal (JBD2_UNMOUNT j) (JBD2_ABORT j) (JBD2_ACK_ERR j) (JBD2_FLUSHED j)
    (JBD2_LOADED j) (JBD2_BARRIER j) (JBD2_REC_ERR j) (j_errno j)
    (j_running_transaction j) (j_committing_transaction j) (j_checkpoint_transactions j)
    (j_head j) (j_tail j) (j_free j) (j_first j) (j_last j) (j_maxlen j)
    (j_tail_sequence j) (j_transaction_sequence j) (j_commit_sequence j)
    (j_commit_request j) (j_max_transaction_buffers j) (j_reserved_credits j)
    (j_barrier_count j) (j_commit_interval j) (s_sequence j) (s_start j) (s_errno j)
    (s_first j) (s_maxlen j) (disk_s_sequence j) (disk_s_start j) (disk_s_errno j)
    (j_failed_commit j).

(** A mapped, up-to-date buffer with one reference and no journal head, and
    the journal of a freshly allocated [journal_t]; the concrete states of
    the examples start from them. *)
Definition plain_buffer_head : buffer_head :=
  mk_buffer_head true false false true true false false false false false false false false
    false false false 1 0 [] true true None.

Definition zero_journal : journal_t :=
  mk_journal false false false false false false false 0 None None [] 0 0 0 0 0 0 0 0 0 0 0 0 0 0
    0 0 0 0 0 0 0 0 0.

(** The store. *)
Record kstate := mk_kstate {
  k_journal : journal_t;
  k_bufs : gmap positive buffer_head;
  k_trans : gmap positive transaction_t;
}.
#[export] Instance eta_kstate : Eta _ := fun s =>
  mk_kstate (k_journal s) (k_bufs s) (k_trans s).

(** The journal head attached to a buffer, if any. *)
Definition jh_of (s : kstate) (b : bh_id) : option journal_head :=
  bh ← k_bufs s !! b; b_private bh.

(** ** Access to the store *)

Definition read_bh (b : bh_id) : K kstate buffer_head := fun s =>
  match k_bufs s !! b with Some x => Ret (x, s) | None => Fault Oops end.
Definition modify_bh (b : bh_id) (f : buffer_head -> buffer_head) : K kstate unit := fun s =>
  match k_bufs s !! b with
  | Some x => Ret (tt, s <| k_bufs ::= <[b := f x]> |>)
  | None => Fault Oops
  end.
Definition read_jh (b : bh_id) : K kstate journal_head := fun s =>
  match jh_of s b with Some h => Ret (h, s) | None => Fault Oops end.
Definition modify_jh (b : bh_id) (f : journal_head -> journal_head) : K kstate unit := fun s =>
  match k_bufs s !! b with
  | Some x => match b_private x with
              | Some h => Ret (tt, s <| k_bufs ::= <[b := x <| b_private := Some (f h) |>]> |>)
              | None => Fault Oops
              end
  | None => Fault Oops
  end.
Definition read_tr (t : tr_id) : K kstate transaction_t := fun s =>
  match k_trans s !! t with Some x => Ret (x, s) | None => Fault Oops end.
Definition modify_tr (t : tr_id) (f : transaction_t -> transaction_t) : K kstate unit := fun s =>
  match k_trans s !! t with
  | Some x => Ret (tt, s <| k_trans ::= <[t := f x]> |>)
  | None => Fault Oops
  end.
Definition read_journal : K kstate journal_t := fun s => Ret (k_journal s, s).
Definition modify_journal (f : journal_t -> journal_t) : K kstate unit := fun s =>
  Ret (tt, s <| k_journal ::= f |>).

(** Rules for them. *)
Section Access.
Implicit Types (s : kstate).

Lemma wp_read_bh b x (Q : buffer_head -> kstate -> Prop) s :
  k_bufs s !! b = Some x -> Q x s -> wp (read_bh b) Q s.
Proof. unfold wp, read_bh. by intros ->. Qed.

Lemma wp_modify_bh b x f (Q : unit -> kstate -> Prop) s :
  k_bufs s !! b = Some x ->
  Q tt (mk_kstate (k_journal s) (<[b := f x]> (k_bufs s)) (k_trans s)) ->
  wp (modify_bh b f) Q s.
Proof. unfold wp, modify_bh. by intros ->. Qed.

Lemma wp_read_jh b x h (Q : journal_head -> kstate -> Prop) s :
  k_bufs s !! b = Some x -> b_private x = Some h -> Q h s -> wp (read_jh b) Q s.
Proof. unfold wp, read_jh, jh_of. intros Hb Hp ?. rewrite Hb. cbn. by rewrite Hp. Qed.

Lemma wp_modify_jh b x h f (Q : unit -> kstate -> Prop) s :
  k_bufs s !! b = Some x -> b_private x = Some h ->
  Q tt (mk_kstate (k_journal s) (<[b := x <| b_private := Some (f h) |>]> (k_bufs s)) (k_trans s)) ->
  wp (modify_jh b f) Q s.
Proof. unfold wp, modify_jh. intros Hb Hp ?. rewrite Hb. cbv iota beta. by rewrite Hp. Qed.

Lemma wp_read_tr t x (Q : transaction_t -> kstate -> Prop) s :
  k_trans s !! t = Some x -> Q x s -> wp (read_tr t) Q s.
Proof. unfold wp, read_tr. by intros ->. Qed.

Lemma wp_modify_tr t x f (Q : unit -> kstate -> Prop) s :
  k_trans s !! t = Some x ->
  Q tt (mk_kstate (k_journal s) (k_bufs s) (<[t := f x]> (k_trans s))) ->
  wp (modify_tr t f) Q s.
Proof. unfold wp, modify_tr. by intros ->. Qed.

Lemma wp_read_journal (Q : journal_t -> kstate -> Prop) s :
  Q (k_journal s) s -> wp read_journal Q s.
Proof. done. Qed.

Lemma wp_modify_journal f (Q : unit -> kstate -> Prop) s :
  Q tt (mk_kstate (f (k_journal s)) (k_bufs s) (k_trans s)) -> wp (modify_journal f) Q s.
Proof. done. Qed.
End Access.

(** Projections of a state that is given by its parts. *)
Ltac kst := cbn [k_journal k_bufs k_trans] in *.

(** One step of symbolic execution of a kernel function. *)
Ltac wp_lookup := cbn in *; simplify_map_eq; done.
Ltac wp_step :=
  lazymatch goal with
  | |- wp (kbind _ _) _ _ => apply wp_bind
  | |- wp (kret _) _ _ => apply wp_ret
  | |- wp (read_bh _) _ _ => eapply wp_read_bh; [wp_lookup|]
  | |- wp (modify_bh _ _) _ _ => eapply wp_modify_bh; [wp_lookup|]
  | |- wp (read_jh _) _ _ => eapply wp_read_jh; [wp_lookup|wp_lookup|]
  | |- wp (modify_jh _ _) _ _ => eapply wp_modify_jh; [wp_lookup|wp_lookup|]
  | |- wp (read_tr _) _ _ => eapply wp_read_tr; [wp_lookup|]
  | |- wp (modify_tr _ _) _ _ => eapply wp_modify_tr; [wp_lookup|]
  | |- wp read_journal _ _ => apply wp_read_journal
  | |- wp (modify_journal _) _ _ => apply wp_modify_journal
  | |- wp (j_assert _) _ _ => apply wp_assert
  end.

Lemma keeps_read_journal (R : kstate -> kstate -> Prop) `{!PreOrder R} : keeps R read_journal.
Proof. intros s a s' [= <- <-]. reflexivity. Qed.
Lemma keeps_read_tr (R : kstate -> kstate -> Prop) `{!PreOrder R} t : keeps R (read_tr t).
Proof. intros s a s'. unfold read_tr. case_match; [intros [= <- <-]; reflexivity|done]. Qed.
Lemma keeps_read_bh (R : kstate -> kstate -> Prop) `{!PreOrder R} b : keeps R (read_bh b).
Proof. intros s a s'. unfold read_bh. case_match; [intros [= <- <-]; reflexivity|done]. Qed.
Lemma keeps_read_jh (R : kstate -> kstate -> Prop) `{!PreOrder R} b : keeps R (read_jh b).
Proof. intros s a s'. unfold read_jh. case_match; [intros [= <- <-]; reflexivity|done]. Qed.
