(* ===== verification/JournalHead.v ===== *)
(** * Journal heads

    Attaching a journal head to a buffer and counting the references to it:
    [jbd2_vmsep_journal_add_journal_head], [jbd2_vmsep_journal_grab_journal_head],
    [jbd2_vmsep_journal_put_journal_head] of kernel/fs/jbd2/journal.c. *)
From S2P Require Import Prelude Tid State.

(** [get_bh] and [__brelse] of the buffer cache. *)
Definition get_bh (b : bh_id) : K kstate unit := modify_bh b (fun x => x <| b_count ::= Z.succ |>).

(** [__brelse] warns, and does nothing, when the count is zero. *)
Definition __brelse (b : bh_id) : K kstate unit :=
  modify_bh b (fun x => if b_count x =? 0 then x else x <| b_count ::= Z.pred |>).

Definition jbd2_vmsep_journal_add_journal_head (b : bh_id) : K kstate unit :=
  x <- read_bh b ;;
  (if buffer_jbd x then kret tt
   else
     j_assert ((0 <? b_count x) || b_page_mapping x) ;;;
     modify_bh b (fun x => x <| buffer_jbd := true |>
                             <| b_private := Some zero_journal_head |>) ;;;
     get_bh b) ;;;
  modify_jh b (fun h => h <| b_jcount ::= Z.succ |>).

(** Returns whether a journal head was found. *)
Definition jbd2_vmsep_journal_grab_journal_head (b : bh_id) : K kstate bool :=
  x <- read_bh b ;;
  if buffer_jbd x
  then modify_jh b (fun h => h <| b_jcount ::= Z.succ |>) ;;; kret true
  else kret false.

Definition __journal_remove_journal_head (b : bh_id) : K kstate unit :=
  h <- read_jh b ;;
  j_assert (0 <=? b_jcount h) ;;;
  j_assert (bool_decide (b_transaction h = None)) ;;;
  j_assert (bool_decide (b_next_transaction h = None)) ;;;
  j_assert (bool_decide (b_cp_transaction h = None)) ;;;
  j_assert (bool_decide (b_jlist h = BJ_None)) ;;;
  x <- read_bh b ;;
  j_assert (buffer_jbd x) ;;;
  modify_bh b (fun x => x <| b_private := None |> <| buffer_jbd := false |>).

Definition jbd2_vmsep_journal_put_journal_head (b : bh_id) : K kstate unit :=
  h <- read_jh b ;;
  j_assert (0 <? b_jcount h) ;;;
  modify_jh b (fun h => h <| b_jcount ::= Z.pred |>) ;;;
  h <- read_jh b ;;
  if b_jcount h =? 0
  then __journal_remove_journal_head b ;;; __brelse b
  else kret tt.
