(* ===== verification/Filing.v ===== *)
(** * Filing buffers on transaction lists

    [__jbd2_journal_temp_unlink_buffer], [__jbd2_journal_unfile_buffer],
    [__jbd2_vmsep_journal_file_buffer] and [__jbd2_vmsep_journal_refile_buffer] of
    kernel/fs/jbd2/transaction.c, and the invariant that ties the buffers'
    [b_transaction]/[b_jlist] to the lists of the transactions. *)
From S2P Require Import Prelude Tid State Blist JournalHead.

(** The list of a transaction a [jlist] value names, [struct journal_head **list]. *)
Definition list_of (jl : jlist) (t : transaction_t) : list bh_id :=
  match jl with
  | BJ_None => []
  | BJ_Metadata => t_buffers t
  | BJ_Forget => t_forget t
  | BJ_Shadow => t_shadow_list t
  | BJ_Reserved => t_reserved_list t
  end.

Definition update_list (jl : jlist) (f : list bh_id -> list bh_id) (t : transaction_t)
  : transaction_t :=
  match jl with
  | BJ_None => t
  | BJ_Metadata => t <| t_buffers ::= f |>
  | BJ_Forget => t <| t_forget ::= f |>
  | BJ_Shadow => t <| t_shadow_list ::= f |>
  | BJ_Reserved => t <| t_reserved_list ::= f |>
  end.

Definition is_metadata (jl : jlist) : bool :=
  match jl with BJ_Metadata => true | _ => false end.
Definition is_none (jl : jlist) : bool :=
  match jl with BJ_None => true | _ => false end.

(** [clear_buffer_jbddirty], [mark_buffer_dirty] and the like. *)
Definition clear_buffer_jbddirty (b : bh_id) : K kstate unit :=
  modify_bh b (fun x => x <| buffer_jbddirty := false |>).
Definition set_buffer_jbddirty (b : bh_id) : K kstate unit :=
  modify_bh b (fun x => x <| buffer_jbddirty := true |>).
Definition test_clear_buffer_jbddirty (b : bh_id) : K kstate bool :=
  x <- read_bh b ;; clear_buffer_jbddirty b ;;; kret (buffer_jbddirty x).
Definition clear_buffer_dirty (b : bh_id) : K kstate unit :=
  modify_bh b (fun x => x <| buffer_dirty := false |>).
Definition test_clear_buffer_dirty (b : bh_id) : K kstate bool :=
  x <- read_bh b ;; clear_buffer_dirty b ;;; kret (buffer_dirty x).
Definition mark_buffer_dirty (b : bh_id) : K kstate unit :=
  modify_bh b (fun x => x <| buffer_dirty := true |>).

Definition is_journal_aborted : K kstate bool := j <- read_journal ;; kret (JBD2_ABORT j).

(** The switch of [__jbd2_journal_temp_unlink_buffer]: the count of the
    metadata list, then the unlinking from [*list]. *)
Definition unlink_list (b : bh_id) (t : tr_id) (jl : jlist) : K kstate unit :=
  (if is_metadata jl
   then modify_tr t (fun t => t <| t_nr_buffers ::= Z.pred |>) ;;;
        tr <- read_tr t ;;
        j_assert (0 <=? t_nr_buffers tr)
   else kret tt) ;;;
  modify_tr t (update_list jl (blist_del b)).

(** Its last lines: a journalled dirty buffer goes back to the VM. *)
Definition expose_dirty (b : bh_id) : K kstate unit :=
  aborted <- is_journal_aborted ;;
  if aborted : bool then clear_buffer_jbddirty b
  else dirty <- test_clear_buffer_jbddirty b ;;
       if dirty : bool then mark_buffer_dirty b else kret tt.

Definition __jbd2_journal_temp_unlink_buffer (b : bh_id) : K kstate unit :=
  h <- read_jh b ;;
  match b_jlist h, b_transaction h with
  | BJ_None, _ => kret tt
  | _, None => kfault Assert
  | jl, Some t =>
    unlink_list b t jl ;;;
    modify_jh b (fun h => h <| b_jlist := BJ_None |>) ;;;
    expose_dirty b
  end.

Definition __jbd2_journal_unfile_buffer (b : bh_id) : K kstate unit :=
  __jbd2_journal_temp_unlink_buffer b ;;;
  modify_jh b (fun h => h <| b_transaction := None |>) ;;;
  jbd2_vmsep_journal_put_journal_head b.

(** [jbd2_vmsep_journal_unfile_buffer], with its reference on the buffer. *)
Definition jbd2_vmsep_journal_unfile_buffer (b : bh_id) : K kstate unit :=
  get_bh b ;;;
  __jbd2_journal_unfile_buffer b ;;;
  __brelse b.

(** [test_clear_buffer_dirty(bh) || test_clear_buffer_jbddirty(bh)]: the
    second test is made, and its bit cleared, only when the first is false. *)
Definition test_clear_any_dirty (b : bh_id) : K kstate bool :=
  d <- test_clear_buffer_dirty b ;;
  if d then kret true else test_clear_buffer_jbddirty b.

(** The middle of [__jbd2_vmsep_journal_file_buffer]: the buffer leaves its
    list, or takes its first reference for a transaction, and joins [t]. *)
Definition join_transaction (b : bh_id) (h : journal_head) (t : tr_id) : K kstate unit :=
  (if bool_decide (is_Some (b_transaction h))
   then __jbd2_journal_temp_unlink_buffer b
   else jbd2_vmsep_journal_grab_journal_head b ;;; kret tt) ;;;
  modify_jh b (fun h => h <| b_transaction := Some t |>).

(** Its switch: the count of the metadata list and the linking into [*list];
    [BJ_None] returns before. *)
Definition link_list (b : bh_id) (t : tr_id) (jl : jlist) : K kstate unit :=
  (if is_metadata jl
   then modify_tr t (fun t => t <| t_nr_buffers ::= Z.succ |>) else kret tt) ;;;
  modify_tr t (update_list jl (blist_add b)).

Definition __jbd2_vmsep_journal_file_buffer (b : bh_id) (t : tr_id) (jl : jlist) : K kstate unit :=
  h <- read_jh b ;;
  j_assert (bool_decide (b_transaction h = Some t) || bool_decide (b_transaction h = None)) ;;;
  if bool_decide (is_Some (b_transaction h)) && bool_decide (b_jlist h = jl)
  then kret tt
  else
    was_dirty <- (if is_none jl then kret false else test_clear_any_dirty b) ;;
    join_transaction b h t ;;;
    if is_none jl
    then
      h <- read_jh b ;;
      j_assert (bool_decide (b_committed_data h = None)) ;;;
      j_assert (bool_decide (b_frozen_data h = None))
    else
      link_list b t jl ;;;
      modify_jh b (fun h => h <| b_jlist := jl |>) ;;;
      if was_dirty : bool then set_buffer_jbddirty b else kret tt.

(** The first half of [__jbd2_vmsep_journal_refile_buffer]: off the old
    transaction's list and over to the next transaction. *)
Definition take_next_transaction (b : bh_id) : K kstate bool :=
  was_dirty <- test_clear_buffer_jbddirty b ;;
  __jbd2_journal_temp_unlink_buffer b ;;;
  modify_jh b (fun h => h <| b_transaction := b_next_transaction h |>
                          <| b_next_transaction := None |>) ;;;
  kret was_dirty.

Definition __jbd2_vmsep_journal_refile_buffer (b : bh_id) : K kstate unit :=
  h <- read_jh b ;;
  match b_next_transaction h with
  | None => __jbd2_journal_unfile_buffer b
  | Some nt =>
    was_dirty <- take_next_transaction b ;;
    x <- read_bh b ;;
    h <- read_jh b ;;
    let jl := if buffer_freed x then BJ_Forget
              else if b_modified h then BJ_Metadata else BJ_Reserved in
    __jbd2_vmsep_journal_file_buffer b nt jl ;;;
    tr <- read_tr nt ;;
    j_assert (bool_decide (t_state tr = T_RUNNING)) ;;;
    if was_dirty : bool then set_buffer_jbddirty b else kret tt
  end.

Definition jbd2_vmsep_journal_refile_buffer (b : bh_id) : K kstate unit :=
  get_bh b ;;;
  __jbd2_vmsep_journal_refile_buffer b ;;;
  __brelse b.

(** ** The invariant *)

Definition ref {A} (o : option A) : Z := match o with Some _ => 1 | None => 0 end.

(** A buffer with a journal head is on exactly the list its [b_transaction]
    and [b_jlist] name, and the journal head counts one reference for its
    transaction, one for its checkpoint transaction and [ext b] for callers
    that hold one. *)
Record jh_ok (ext : bh_id -> Z) (trs : gmap positive transaction_t) (b : bh_id)
    (h : journal_head) : Prop := {
  jh_member t tr jl : trs !! t = Some tr ->
    (b ∈ list_of jl tr <-> b_transaction h = Some t /\ b_jlist h = jl /\ jl <> BJ_None);
  jh_listed : b_jlist h <> BJ_None -> is_Some (b_transaction h);
  jh_live t : b_transaction h = Some t \/ b_next_transaction h = Some t -> is_Some (trs !! t);
  jh_next : is_Some (b_next_transaction h) -> is_Some (b_transaction h);
  jh_count : b_jcount h = ref (b_transaction h) + ref (b_cp_transaction h) + ext b;
  jh_alive : 0 < b_jcount h;
}.

Definition bh_ok (ext : bh_id -> Z) (trs : gmap positive transaction_t) (b : bh_id)
    (x : buffer_head) : Prop :=
  buffer_jbd x = bool_decide (is_Some (b_private x)) /\
  match b_private x with
  | Some h => jh_ok ext trs b h
  | None => forall t tr jl, trs !! t = Some tr -> b ∉ list_of jl tr
  end.

Record tr_ok (bufs : gmap positive buffer_head) (tr : transaction_t) : Prop := {
  tr_nodup jl : NoDup (list_of jl tr);
  tr_nr : t_nr_buffers tr = Z.of_nat (length (t_buffers tr));
  tr_bufs jl b : b ∈ list_of jl tr -> is_Some (bufs !! b);
}.

Record wf (ext : bh_id -> Z) (s : kstate) : Prop := {
  wf_bh b x : k_bufs s !! b = Some x -> bh_ok ext (k_trans s) b x;
  wf_tr t tr : k_trans s !! t = Some tr -> tr_ok (k_bufs s) tr;
}.

Lemma list_of_update jl jl' f tr :
  list_of jl (update_list jl' f tr) =
  if decide (jl = jl' /\ jl <> BJ_None) then f (list_of jl tr) else list_of jl tr.
Proof. destruct jl, jl'; cbn; case_decide; naive_solver. Qed.

Lemma wf_jh ext s b x h :
  wf ext s -> k_bufs s !! b = Some x -> b_private x = Some h ->
  buffer_jbd x = true /\ jh_ok ext (k_trans s) b h.
Proof.
  intros Hwf Hb Hh. destruct (wf_bh _ _ Hwf b x Hb) as [Hj Ho]. rewrite Hh in *.
  rewrite bool_decide_true in Hj by eauto. done.
Qed.

(** Two transactions whose lists agree except perhaps on [b]. *)
Definition agree_but (b : bh_id) (tr tr' : transaction_t) : Prop :=
  forall jl y, y <> b -> (y ∈ list_of jl tr' <-> y ∈ list_of jl tr).

(** Changing one buffer, and lists only in that buffer, keeps the invariant
    as soon as the buffer and the changed transactions are well-formed. *)
Lemma wf_step ext ext' s s' b x' :
  wf ext s ->
  (forall y, y <> b -> ext' y = ext y) ->
  k_bufs s' = <[b := x']> (k_bufs s) ->
  (forall t, is_Some (k_trans s !! t) <-> is_Some (k_trans s' !! t)) ->
  (forall t tr tr', k_trans s !! t = Some tr -> k_trans s' !! t = Some tr' ->
     agree_but b tr tr' /\ (forall jl, NoDup (list_of jl tr')) /\
     t_nr_buffers tr' = Z.of_nat (length (t_buffers tr'))) ->
  bh_ok ext' (k_trans s') b x' ->
  wf ext' s'.
Proof.
  intros Hwf Hext Hbufs Hdom Htr Hb. split.
  - intros y x Hy. rewrite Hbufs in Hy.
    destruct (decide (b = y)) as [<-|Hne]; [by simplify_map_eq|].
    rewrite lookup_insert_ne in Hy by done.
    destruct (wf_bh _ _ Hwf y x Hy) as [Hj Ho]. split; [done|].
    destruct (b_private x) as [h|].
    + destruct Ho. split; auto; try (by rewrite Hext).
      * intros t tr' jl Ht'. destruct (proj2 (Hdom t)) as [tr Ht]; [eauto|].
        destruct (Htr t tr tr' Ht Ht') as [Ha _]. unfold agree_but in Ha. rewrite (Ha jl y) by done. eauto.
      * intros t Ht. apply Hdom. eauto.
    + intros t tr' jl Ht' Hin. destruct (proj2 (Hdom t)) as [tr Ht]; [eauto|].
      destruct (Htr t tr tr' Ht Ht') as [Ha _]. apply Ha in Hin; [|done]. by eapply Ho.
  - intros t tr' Ht'. destruct (proj2 (Hdom t)) as [tr Ht]; [eauto|].
    destruct (Htr t tr tr' Ht Ht') as (Ha & Hnd & Hnr). split; [done..|].
    intros jl y Hy. rewrite Hbufs. destruct (decide (b = y)) as [<-|Hne].
    { by rewrite lookup_insert_eq. }
    rewrite lookup_insert_ne by done. apply Ha in Hy; [|done].
    by eapply (tr_bufs _ _ (wf_tr _ _ Hwf t tr Ht)).
Qed.

(** What a step does to one transaction's list: unlink or link [b]. *)
Definition tr_unlink (b : bh_id) (jl : jlist) (tr : transaction_t) : transaction_t :=
  update_list jl (blist_del b)
    (if is_metadata jl then tr <| t_nr_buffers ::= Z.pred |> else tr).

Definition tr_link (b : bh_id) (jl : jlist) (tr : transaction_t) : transaction_t :=
  update_list jl (blist_add b)
    (if is_metadata jl then tr <| t_nr_buffers ::= Z.succ |> else tr).

Lemma list_of_tr_unlink b jl jl' tr :
  list_of jl' (tr_unlink b jl tr) =
  if decide (jl' = jl) then blist_del b (list_of jl' tr) else list_of jl' tr.
Proof. destruct jl, jl'; cbn; case_decide; naive_solver. Qed.

Lemma list_of_tr_link b jl jl' tr :
  jl <> BJ_None ->
  list_of jl' (tr_link b jl tr) =
  if decide (jl' = jl) then blist_add b (list_of jl' tr) else list_of jl' tr.
Proof. destruct jl, jl'; cbn; case_decide; naive_solver. Qed.

Lemma tr_unlink_nr b jl tr :
  b ∈ list_of jl tr -> NoDup (list_of jl tr) ->
  t_nr_buffers tr = Z.of_nat (length (t_buffers tr)) ->
  t_nr_buffers (tr_unlink b jl tr) = Z.of_nat (length (t_buffers (tr_unlink b jl tr))).
Proof.
  intros Hin Hnd Hnr. destruct jl; cbn in *; try done.
  pose proof (length_blist_del b (t_buffers tr) Hnd Hin) as Hl. rewrite Hnr, Hl. lia.
Qed.

Lemma tr_link_nr b jl tr :
  t_nr_buffers tr = Z.of_nat (length (t_buffers tr)) ->
  t_nr_buffers (tr_link b jl tr) = Z.of_nat (length (t_buffers (tr_link b jl tr))).
Proof.
  intros Hnr. destruct jl; cbn in *; try done.
  rewrite Hnr. unfold blist_add. rewrite length_app. cbn. lia.
Qed.

(** ** Unlinking *)

(** The dirty bits and the journal head of a buffer taken off its list. *)
Definition bh_unlink (aborted : bool) (x : buffer_head) : buffer_head :=
  x <| buffer_dirty := if aborted then buffer_dirty x else buffer_dirty x || buffer_jbddirty x |>
    <| buffer_jbddirty := false |>
    <| b_private := (fun h => h <| b_jlist := BJ_None |>) <$> b_private x |>.

(** Same journal, and the given buffers and transactions. *)
Definition goes_to (s : kstate) (bufs : gmap positive buffer_head)
    (trs : gmap positive transaction_t) (s' : kstate) : Prop :=
  k_journal s' = k_journal s /\ k_bufs s' = bufs /\ k_trans s' = trs.

Lemma goes_to_eq s bufs trs s' :
  goes_to s bufs trs s' <-> s' = mk_kstate (k_journal s) bufs trs.
Proof. unfold goes_to. destruct s'; cbn. split; [intros (-> & -> & ->)|intros [= -> -> ->]]; done. Qed.

Lemma alter_insert_eq {A} (m : gmap positive A) k f x :
  m !! k = Some x -> alter f k m = <[k := f x]> m.
Proof.
  intros Hk. apply map_eq. intros i. rewrite lookup_insert.
  case_decide as Hi; [subst; by rewrite lookup_alter_eq, Hk|by rewrite lookup_alter_ne].
Qed.

Lemma temp_unlink_none s b x h :
  k_bufs s !! b = Some x -> b_private x = Some h -> b_jlist h = BJ_None ->
  __jbd2_journal_temp_unlink_buffer b s = Ret (tt, s).
Proof.
  intros Hb Hh Hl. unfold __jbd2_journal_temp_unlink_buffer, kbind, read_jh, jh_of.
  rewrite Hb. cbn. rewrite Hh, Hl. done.
Qed.

Lemma unlink_list_exec s b t tr jl :
  k_trans s !! t = Some tr -> (jl = BJ_Metadata -> 1 <= t_nr_buffers tr) ->
  wp (unlink_list b t jl)
    (fun _ => goes_to s (k_bufs s) (<[t := tr_unlink b jl tr]> (k_trans s))) s.
Proof.
  intros Ht Hnr. unfold unlink_list, tr_unlink. wp_step. apply wp_if; intros Hm; rewrite Hm.
  - repeat wp_step.
    + cbn. apply Z.leb_le. destruct jl; try done. specialize (Hnr eq_refl). lia.
    + unfold goes_to. cbn. rewrite insert_insert_eq. done.
  - repeat wp_step. done.
Qed.

Lemma expose_dirty_exec s b x :
  k_bufs s !! b = Some x ->
  wp (expose_dirty b)
    (fun _ => goes_to s (<[b := x <| buffer_dirty := if JBD2_ABORT (k_journal s) then buffer_dirty x
                                                     else buffer_dirty x || buffer_jbddirty x |>
                                  <| buffer_jbddirty := false |>]> (k_bufs s)) (k_trans s)) s.
Proof.
  intros Hb. unfold expose_dirty, is_journal_aborted, test_clear_buffer_jbddirty,
    clear_buffer_jbddirty, mark_buffer_dirty, goes_to.
  repeat wp_step. apply wp_if; intros Ha; rewrite Ha; repeat wp_step.
  - destruct x; done.
  - apply wp_if; intros Hd; repeat wp_step; cbn; rewrite ?insert_insert_eq; destruct x; cbn in *;
      rewrite Hd, ?orb_true_r, ?orb_false_r; done.
Qed.

Lemma temp_unlink_exec s b x h t tr :
  k_bufs s !! b = Some x -> b_private x = Some h ->
  b_jlist h <> BJ_None -> b_transaction h = Some t -> k_trans s !! t = Some tr ->
  (b_jlist h = BJ_Metadata -> 1 <= t_nr_buffers tr) ->
  wp (__jbd2_journal_temp_unlink_buffer b)
    (fun _ => goes_to s (<[b := bh_unlink (JBD2_ABORT (k_journal s)) x]> (k_bufs s))
                        (<[t := tr_unlink b (b_jlist h) tr]> (k_trans s))) s.
Proof.
  intros Hb Hh Hl Ht Htr Hnr. unfold __jbd2_journal_temp_unlink_buffer.
  wp_step. wp_step. rewrite Ht.
  enough (wp (unlink_list b t (b_jlist h) ;;;
              modify_jh b (fun h => h <| b_jlist := BJ_None |>) ;;; expose_dirty b)
    (fun _ => goes_to s (<[b := bh_unlink (JBD2_ABORT (k_journal s)) x]> (k_bufs s))
                        (<[t := tr_unlink b (b_jlist h) tr]> (k_trans s))) s)
    by (destruct (b_jlist h); done).
  wp_step. eapply wp_mono; [by apply unlink_list_exec|]. intros _ s1 ->%goes_to_eq.
  wp_step. wp_step. eapply wp_mono; [apply expose_dirty_exec; cbn; apply lookup_insert_eq|].
  intros _ s2 ->%goes_to_eq. apply goes_to_eq. cbn. rewrite insert_insert_eq.
  unfold bh_unlink. by rewrite Hh.
Qed.

(** ** Steps that keep the invariant *)

(** Changing a buffer but no list. *)
Lemma wf_set_bh ext ext' s j b x' :
  wf ext s -> (forall y, y <> b -> ext' y = ext y) -> bh_ok ext' (k_trans s) b x' ->
  wf ext' (mk_kstate j (<[b := x']> (k_bufs s)) (k_trans s)).
Proof.
  intros Hwf Hext Hb. eapply wf_step; [exact Hwf|exact Hext|done|done| |exact Hb].
  intros t tr tr' Ht Ht'. cbn in Ht'. assert (tr' = tr) as -> by congruence.
  destruct (wf_tr _ _ Hwf t tr Ht). split_and!; done.
Qed.

(** The journal is not part of the invariant. *)
Lemma wf_journal ext s j : wf ext s -> wf ext (mk_kstate j (k_bufs s) (k_trans s)).
Proof. intros [? ?]. split; done. Qed.

Lemma jh_ok_lists ext trs trs' b h :
  jh_ok ext trs b h ->
  (forall t, is_Some (trs' !! t) <-> is_Some (trs !! t)) ->
  (forall t tr', trs' !! t = Some tr' -> exists tr, trs !! t = Some tr /\
     forall jl, b ∈ list_of jl tr' <-> b ∈ list_of jl tr) ->
  jh_ok ext trs' b h.
Proof.
  intros [] Hdom Hl. split; auto.
  - intros t tr' jl Ht'. destruct (Hl t tr' Ht') as (tr & Ht & Hm). rewrite Hm. eauto.
  - intros t Ht. apply Hdom. eauto.
Qed.

Lemma wf_unlink ext s j b x h t tr x' :
  wf ext s -> k_bufs s !! b = Some x -> b_private x = Some h ->
  b_jlist h <> BJ_None -> b_transaction h = Some t -> k_trans s !! t = Some tr ->
  b_private x' = Some (h <| b_jlist := BJ_None |>) -> buffer_jbd x' = true ->
  wf ext (mk_kstate j (<[b := x']> (k_bufs s)) (<[t := tr_unlink b (b_jlist h) tr]> (k_trans s))).
Proof.
  intros Hwf Hb Hh Hl Ht Htr Hh' Hj'.
  destruct (wf_jh _ _ _ _ _ Hwf Hb Hh) as [_ Hok]. destruct (wf_tr _ _ Hwf t tr Htr) as [Hnd Hnr _].
  assert (b ∈ list_of (b_jlist h) tr) as Hin by (by apply (jh_member _ _ _ _ Hok t)).
  eapply wf_step; [exact Hwf|done|done| | |]; cbn.
  - intros t'. rewrite lookup_insert. case_decide; [subst; naive_solver|done].
  - intros t' tr0 tr' Ht0 Ht'. rewrite lookup_insert in Ht'. case_decide as He.
    + subst t'. simplify_eq. split_and!.
      * intros jl y Hy. rewrite list_of_tr_unlink. case_decide; [|done].
        rewrite elem_of_blist_del. tauto.
      * intros jl. rewrite list_of_tr_unlink. case_decide; auto using NoDup_blist_del.
      * by apply tr_unlink_nr.
    + assert (tr' = tr0) as -> by congruence. destruct (wf_tr _ _ Hwf t' tr0 Ht0). split_and!; done.
  - split; [rewrite Hh'; by rewrite bool_decide_true|]. rewrite Hh'.
    destruct Hok as [Hm _ Hlv Hn Hc Ha]. split; try done; cbn.
    + intros t' tr' jl Ht'. rewrite lookup_insert in Ht'. split; [|naive_solver].
      intros Hin'. exfalso. case_decide as He.
      * simplify_eq. rewrite list_of_tr_unlink in Hin'. case_decide as Hjl.
        { apply elem_of_blist_del in Hin' as [_ Hne]. done. }
        apply (Hm t' tr jl Htr) in Hin'. naive_solver.
      * apply (Hm t' tr' jl Ht') in Hin'. naive_solver.
    + intros t' Ht'. rewrite lookup_insert. case_decide; [eauto|]. by apply Hlv.
Qed.

Lemma wf_link ext s j b x h t tr jl x' :
  wf ext s -> k_bufs s !! b = Some x -> b_private x = Some h ->
  b_jlist h = BJ_None -> b_transaction h = Some t -> k_trans s !! t = Some tr ->
  jl <> BJ_None ->
  b_private x' = Some (h <| b_jlist := jl |>) -> buffer_jbd x' = true ->
  wf ext (mk_kstate j (<[b := x']> (k_bufs s)) (<[t := tr_link b jl tr]> (k_trans s))).
Proof.
  intros Hwf Hb Hh Hl Ht Htr Hjl Hh' Hj'.
  destruct (wf_jh _ _ _ _ _ Hwf Hb Hh) as [_ Hok]. destruct (wf_tr _ _ Hwf t tr Htr) as [Hnd Hnr _].
  assert (forall t' tr' jl', k_trans s !! t' = Some tr' -> b ∉ list_of jl' tr') as Hout.
  { intros t' tr' jl' Ht' Hin. apply (jh_member _ _ _ _ Hok t' tr' jl' Ht') in Hin. naive_solver. }
  eapply wf_step; [exact Hwf|done|done| | |]; cbn.
  - intros t'. rewrite lookup_insert. case_decide; [subst; naive_solver|done].
  - intros t' tr0 tr' Ht0 Ht'. rewrite lookup_insert in Ht'. case_decide as He.
    + subst t'. simplify_eq. split_and!.
      * intros jl' y Hy. rewrite list_of_tr_link by done. case_decide; [|done].
        rewrite elem_of_blist_add. tauto.
      * intros jl'. rewrite list_of_tr_link by done. case_decide; [|done].
        apply NoDup_blist_add; [done|]. by eapply Hout.
      * by apply tr_link_nr.
    + assert (tr' = tr0) as -> by congruence. destruct (wf_tr _ _ Hwf t' tr0 Ht0). split_and!; done.
  - split; [rewrite Hh'; by rewrite bool_decide_true|]. rewrite Hh'.
    destruct Hok as [Hm _ Hlv Hn Hc Ha]. split; try done; cbn.
    + intros t' tr' jl' Ht'. rewrite lookup_insert in Ht'. case_decide as He.
      * simplify_eq. rewrite list_of_tr_link by done. case_decide as Hjl'.
        { subst. rewrite elem_of_blist_add. naive_solver. }
        split; [|naive_solver]. intros Hin. exfalso. by eapply Hout.
      * split; [|naive_solver]. intros Hin. exfalso. by eapply Hout.
    + intros t' Ht'. rewrite lookup_insert. case_decide; [eauto|]. by apply Hlv.
Qed.

(** A journal head on no list, with other references. *)
Lemma jh_ok_off ext ext' trs b h h' :
  jh_ok ext trs b h -> b_jlist h = BJ_None -> b_jlist h' = BJ_None ->
  (forall t, b_transaction h' = Some t \/ b_next_transaction h' = Some t -> is_Some (trs !! t)) ->
  (is_Some (b_next_transaction h') -> is_Some (b_transaction h')) ->
  b_jcount h' = ref (b_transaction h') + ref (b_cp_transaction h') + ext' b ->
  0 < b_jcount h' ->
  jh_ok ext' trs b h'.
Proof.
  intros Hok Hl Hl' Hlive Hn Hc Ha. split; auto; [|by rewrite Hl'].
  intros t tr jl Ht. rewrite (jh_member _ _ _ _ Hok t tr jl Ht). naive_solver.
Qed.

(** References held by callers: one more or one less on [b]. *)
Definition ext_add (b : bh_id) (n : Z) (ext : bh_id -> Z) : bh_id -> Z :=
  fun y => if decide (y = b) then ext y + n else ext y.

Lemma ext_add_eq b n ext : ext_add b n ext b = ext b + n.
Proof. unfold ext_add. by rewrite decide_True. Qed.
Lemma ext_add_ne b n ext y : y <> b -> ext_add b n ext y = ext y.
Proof. intros. unfold ext_add. by rewrite decide_False. Qed.
#[export] Hint Rewrite ext_add_eq : vmsep.

Lemma ref_range {A} (o : option A) : 0 <= ref o <= 1.
Proof. destruct o; cbn; lia. Qed.
Lemma ref_none {A} (o : option A) : ref o = 0 <-> o = None.
Proof. destruct o; cbn; split; (done || lia). Qed.

(** The buffer after the last reference, or one of several, is put. *)
Definition bh_put (x : buffer_head) (h : journal_head) : buffer_head :=
  if b_jcount h =? 1
  then x <| b_private := None |> <| buffer_jbd := false |>
         <| b_count ::= (fun n => if n =? 0 then n else Z.pred n) |>
  else x <| b_private := Some (h <| b_jcount ::= Z.pred |>) |>.

Lemma put_exec ext s b x h :
  wf (ext_add b 1 ext) s -> 0 <= ext b ->
  k_bufs s !! b = Some x -> b_private x = Some h ->
  wp (jbd2_vmsep_journal_put_journal_head b)
    (fun _ s' => goes_to s (<[b := bh_put x h]> (k_bufs s)) (k_trans s) s' /\ wf ext s') s.
Proof.
  intros Hwf Hpos Hb Hh. destruct (wf_jh _ _ _ _ _ Hwf Hb Hh) as [Hj Hok].
  pose proof (jh_count _ _ _ _ Hok) as Hc. rewrite ext_add_eq in Hc.
  pose proof (jh_alive _ _ _ _ Hok) as Ha.
  pose proof (ref_range (b_transaction h)). pose proof (ref_range (b_cp_transaction h)).
  assert (forall s', s' = mk_kstate (k_journal s) (<[b := bh_put x h]> (k_bufs s)) (k_trans s) ->
    goes_to s (<[b := bh_put x h]> (k_bufs s)) (k_trans s) s' /\ wf ext s') as Hdone.
  { intros ? ->. split; [by apply goes_to_eq|]. eapply wf_set_bh; [exact Hwf| |].
    { intros. by rewrite ext_add_ne. }
    unfold bh_put. case_eq (b_jcount h =? 1); intros H1; bool_to_prop; split; cbn; try done.
    - intros t tr jl Ht Hin. apply (jh_member _ _ _ _ Hok t tr jl Ht) in Hin as [Hin _].
      rewrite Hin in *. cbn in *. lia.
    - destruct Hok. split; auto; cbn; rewrite ?ext_add_eq in *; lia. }
  unfold jbd2_vmsep_journal_put_journal_head. wp_step. wp_step. wp_step. wp_step; [by apply Z.ltb_lt|].
  wp_step. wp_step. wp_step. wp_step. apply wp_if; cbn [b_jcount]; intros H1; bool_to_prop; cbn in H1.
  - assert (b_jcount h = 1) as Hone by lia.
    assert (b_transaction h = None) as Ht by (apply ref_none; lia).
    assert (b_cp_transaction h = None) as Hcp by (apply ref_none; lia).
    assert (b_jlist h = BJ_None) as Hl.
    { destruct (decide (b_jlist h = BJ_None)); [done|].
      destruct (jh_listed _ _ _ _ Hok) as [? ?]; [done|congruence]. }
    assert (b_next_transaction h = None) as Hn.
    { apply eq_None_not_Some. intros Hn%(jh_next _ _ _ _ Hok). rewrite Ht in Hn. by destruct Hn. }
    unfold __journal_remove_journal_head, __brelse.
    repeat (wp_step; try (cbn; rewrite ?Hone, ?Ht, ?Hcp, ?Hl, ?Hn; done)).
    apply Hdone. unfold bh_put. rewrite Hone. cbn. rewrite !insert_insert_eq.
    do 2 f_equal. destruct x; cbn. by case_match.
  - wp_step. apply Hdone. unfold bh_put. replace (b_jcount h =? 1) with false; [done|].
    symmetry. apply Z.eqb_neq. lia.
Qed.

(** ** The operations keep the invariant *)

(** The journal head of [b], as an equation on the state. *)
Definition has_jh (s : kstate) (b : bh_id) (x : buffer_head) (h : journal_head) : Prop :=
  k_bufs s !! b = Some x /\ b_private x = Some h.

Lemma has_jh_upd j bufs trs b x h :
  b_private x = Some h -> has_jh (mk_kstate j (<[b := x]> bufs) trs) b x h.
Proof. intros. split; [by cbn; rewrite lookup_insert_eq|done]. Qed.

Lemma wf_nr ext s b x h t tr :
  wf ext s -> has_jh s b x h -> b_transaction h = Some t -> k_trans s !! t = Some tr ->
  b_jlist h = BJ_Metadata -> 1 <= t_nr_buffers tr.
Proof.
  intros Hwf [Hb Hh] Ht Htr Hl. destruct (wf_jh _ _ _ _ _ Hwf Hb Hh) as [_ Hok].
  rewrite (tr_nr _ _ (wf_tr _ _ Hwf t tr Htr)).
  assert (b ∈ t_buffers tr) as Hin by (by apply (jh_member _ _ _ _ Hok t tr BJ_Metadata)).
  destruct (t_buffers tr); [by apply not_elem_of_nil in Hin|]. cbn. lia.
Qed.

(** Off its list: the buffer keeps its transaction and loses only its place. *)
Lemma temp_unlink_spec ext s b x h :
  wf ext s -> has_jh s b x h ->
  wp (__jbd2_journal_temp_unlink_buffer b)
    (fun _ s' => wf ext s' /\ k_journal s' = k_journal s /\
       dom (k_trans s') = dom (k_trans s) /\
       has_jh s' b (if decide (b_jlist h = BJ_None) then x
                    else bh_unlink (JBD2_ABORT (k_journal s)) x)
                   (h <| b_jlist := BJ_None |>) /\
       k_bufs s' = <[b := if decide (b_jlist h = BJ_None) then x
                    else bh_unlink (JBD2_ABORT (k_journal s)) x]> (k_bufs s) /\
       k_trans s' = match b_transaction h with
                    | Some t => alter (tr_unlink b (b_jlist h)) t (k_trans s)
                    | None => k_trans s end) s.
Proof.
  intros Hwf Hx. pose proof Hx as [Hb Hh]. destruct (wf_jh _ _ _ _ _ Hwf Hb Hh) as [Hj Hok].
  destruct (decide (b_jlist h = BJ_None)) as [Hl|Hl].
  - unfold wp. erewrite temp_unlink_none by done.
    assert (h <| b_jlist := BJ_None |> = h) as Hhh by (destruct h; cbn in *; by rewrite Hl).
    rewrite Hhh, Hl. split_and!; try done; [by rewrite insert_id|].
    destruct (b_transaction h) as [t|]; [|done]. symmetry. apply map_eq. intros i.
    destruct (decide (t = i)) as [<-|]; [|by rewrite lookup_alter_ne].
    rewrite lookup_alter_eq. by destruct (k_trans s !! t) as [[]|].
  - destruct (jh_listed _ _ _ _ Hok Hl) as [t Ht].
    destruct (jh_live _ _ _ _ Hok t) as [tr Htr]; [by left|].
    eapply wp_mono; [eapply temp_unlink_exec; eauto using wf_nr|].
    intros _ s' ->%goes_to_eq. kst. rewrite Ht.
    assert (b_private (bh_unlink (JBD2_ABORT (k_journal s)) x) = Some (h <| b_jlist := BJ_None |>)) as Hp
      by (cbn; by rewrite Hh).
    split_and!; try done.
    + by eapply wf_unlink.
    + rewrite dom_insert_L. assert (t ∈ dom (k_trans s)) by (by eapply elem_of_dom_2). set_solver.
    + by apply has_jh_upd.
    + by rewrite (alter_insert_eq _ _ _ tr).
Qed.

Lemma is_some_dom {A} (m m' : gmap positive A) k :
  dom m' = dom m -> is_Some (m !! k) <-> is_Some (m' !! k).
Proof. rewrite <-!elem_of_dom. by intros ->. Qed.

(** Clearing the dirty bits changes no invariant. *)
Lemma bh_ok_flags ext trs b x x' :
  bh_ok ext trs b x -> b_private x' = b_private x -> buffer_jbd x' = buffer_jbd x ->
  bh_ok ext trs b x'.
Proof. unfold bh_ok. by intros ? -> ->. Qed.

Lemma wf_flags ext s j b x x' :
  wf ext s -> k_bufs s !! b = Some x ->
  b_private x' = b_private x -> buffer_jbd x' = buffer_jbd x ->
  wf ext (mk_kstate j (<[b := x']> (k_bufs s)) (k_trans s)).
Proof.
  intros Hwf Hb Hp Hj. eapply wf_set_bh; [done|done|].
  eapply bh_ok_flags; [by eapply wf_bh|done|done].
Qed.

(** The buffer after [test_clear_any_dirty]. *)
Definition bh_clean (x : buffer_head) : buffer_head :=
  x <| buffer_dirty := false |>
    <| buffer_jbddirty := buffer_dirty x && buffer_jbddirty x |>.

Lemma test_clear_any_dirty_exec s b x :
  k_bufs s !! b = Some x ->
  wp (test_clear_any_dirty b)
    (fun d s' => d = buffer_dirty x || buffer_jbddirty x /\
       s' = mk_kstate (k_journal s) (<[b := bh_clean x]> (k_bufs s)) (k_trans s)) s.
Proof.
  intros Hb. unfold test_clear_any_dirty, test_clear_buffer_dirty, test_clear_buffer_jbddirty,
    clear_buffer_dirty, clear_buffer_jbddirty.
  repeat wp_step. apply wp_if; intros Hd; repeat wp_step; cbn; rewrite ?insert_insert_eq;
    unfold bh_clean; rewrite Hd; split; try done; by destruct x.
Qed.

Definition jh_join (h : journal_head) (t : tr_id) : journal_head :=
  h <| b_jcount := b_jcount h + (1 - ref (b_transaction h)) |>
    <| b_jlist := BJ_None |> <| b_transaction := Some t |>.

Definition bh_join (aborted : bool) (x : buffer_head) (h : journal_head) (t : tr_id) : buffer_head :=
  (if decide (b_jlist h = BJ_None) then x else bh_unlink aborted x)
    <| b_private := Some (jh_join h t) |>.

Lemma join_transaction_spec ext s b x h t :
  wf ext s -> has_jh s b x h -> is_Some (k_trans s !! t) ->
  (b_transaction h = Some t \/ b_transaction h = None) ->
  wp (join_transaction b h t)
    (fun _ s' => wf ext s' /\
       s' = mk_kstate (k_journal s)
              (<[b := bh_join (JBD2_ABORT (k_journal s)) x h t]> (k_bufs s))
              (if decide (is_Some (b_transaction h))
               then alter (tr_unlink b (b_jlist h)) t (k_trans s) else k_trans s)) s.
Proof.
  intros Hwf Hx Hlive Ht. pose proof Hx as [Hb Hh].
  destruct (wf_jh _ _ _ _ _ Hwf Hb Hh) as [Hj Hok]. unfold join_transaction, bh_join.
  wp_step. destruct Ht as [Ht|Ht]; rewrite Ht.
  - rewrite bool_decide_true, (decide_True (P := is_Some (Some t))) by eauto.
    eapply wp_mono; [by eapply temp_unlink_spec|].
    intros _ s1 (Hwf1 & Hj1 & Hd1 & [Hb1 Hh1] & Hbufs & Htrs). rewrite Ht in Htrs.
    destruct s1 as [j1 bufs1 trs1]. kst.
    eapply wp_modify_jh; [exact Hb1|exact Hh1|]. kst.
    assert (h <| b_jlist := BJ_None |> <| b_transaction := Some t |> = jh_join h t) as Hjoin.
    { unfold jh_join. destruct h; cbn in *. rewrite Ht. cbn. f_equal. lia. }
    rewrite Hjoin. split.
    + eapply (wf_set_bh ext ext (mk_kstate j1 bufs1 trs1)); [exact Hwf1|done|].
      destruct (wf_bh _ _ Hwf1 b _ Hb1) as [Hj' Hok']. rewrite Hh1 in *.
      split; [cbn; by rewrite Hj', !bool_decide_true|]. cbn -[jh_join].
      eapply jh_ok_off; [exact Hok'|done|done| |done| |]; cbn; destruct Hok'; cbn in *.
      * intros t' [[= <-]|Hn]; eauto.
      * rewrite Ht in *. cbn in *. lia.
      * rewrite Ht. cbn. lia.
    + cbn. by rewrite Hj1, Hbufs, Htrs, insert_insert_eq.
  - rewrite bool_decide_false, (decide_False (P := is_Some None)) by (by intros []).
    assert (b_jlist h = BJ_None) as Hl.
    { destruct (decide (b_jlist h = BJ_None)); [done|].
      destruct (jh_listed _ _ _ _ Hok) as [? ?]; [done|congruence]. }
    rewrite decide_True by done. unfold jbd2_vmsep_journal_grab_journal_head.
    wp_step. wp_step. wp_step. rewrite Hj. do 4 wp_step. wp_step.
    cbn [k_bufs k_trans k_journal field_update].
    split.
    + rewrite insert_insert_eq. eapply (wf_set_bh ext); [exact Hwf|done|].
      split; [done|]. cbn.
      eapply jh_ok_off; [exact Hok|done|done| | | |]; cbn; destruct Hok.
      * intros t' [[= <-]|Hn]; eauto.
      * eauto.
      * rewrite Ht in *. cbn in *. lia.
      * lia.
    + cbn. rewrite insert_insert_eq. do 2 f_equal. unfold jh_join. destruct x, h; cbn in *.
      rewrite Ht, Hl. cbn. do 2 f_equal. 
Qed.

Lemma link_list_exec s b t tr jl :
  k_trans s !! t = Some tr ->
  wp (link_list b t jl)
    (fun _ => goes_to s (k_bufs s) (<[t := tr_link b jl tr]> (k_trans s))) s.
Proof.
  intros Ht. unfold link_list, tr_link. wp_step. apply wp_if; intros Hm; rewrite Hm; repeat wp_step.
  - unfold goes_to. cbn. by rewrite insert_insert_eq.
  - done.
Qed.

Definition bh_link (x : buffer_head) (h : journal_head) (jl : jlist) (d : bool) : buffer_head :=
  x <| b_private := Some (h <| b_jlist := jl |>) |>
    <| buffer_jbddirty := d || buffer_jbddirty x |>.

Lemma link_buffer_spec ext s b x h t tr jl (d : bool) :
  wf ext s -> has_jh s b x h -> b_jlist h = BJ_None -> b_transaction h = Some t ->
  k_trans s !! t = Some tr -> jl <> BJ_None ->
  wp (link_list b t jl ;;; modify_jh b (fun h => h <| b_jlist := jl |>) ;;;
      if d then set_buffer_jbddirty b else kret tt)
    (fun _ s' => wf ext s' /\
       s' = mk_kstate (k_journal s) (<[b := bh_link x h jl d]> (k_bufs s))
              (<[t := tr_link b jl tr]> (k_trans s))) s.
Proof.
  intros Hwf [Hb Hh] Hl Ht Htr Hjl.
  assert (wf ext (mk_kstate (k_journal s) (<[b := bh_link x h jl d]> (k_bufs s))
              (<[t := tr_link b jl tr]> (k_trans s)))) as Hdone.
  { eapply wf_link; try done. by eapply (wf_jh ext s b x h). }
  wp_step. eapply wp_mono; [by apply link_list_exec|]. intros _ s3 ->%goes_to_eq.
  wp_step. eapply wp_modify_jh; [exact Hb|exact Hh|]. unfold set_buffer_jbddirty.
  destruct d; repeat wp_step; cbn in *; rewrite ?insert_insert_eq; split; done.
Qed.

(** Onto a list: the buffer is at its tail and nothing else moved; a dirty
    buffer is journal-dirty. *)
Lemma file_buffer_spec ext s b x h t jl :
  wf ext s -> has_jh s b x h -> is_Some (k_trans s !! t) -> jl <> BJ_None ->
  (b_transaction h = Some t \/ b_transaction h = None) ->
  ~ (b_transaction h = Some t /\ b_jlist h = jl) ->
  wp (__jbd2_vmsep_journal_file_buffer b t jl)
    (fun _ s' => wf ext s' /\ k_journal s' = k_journal s /\
       (exists x', has_jh s' b x' (jh_join h t) <| b_jlist := jl |> /\
          k_bufs s' = <[b := x']> (k_bufs s) /\
          buffer_jbddirty x' = buffer_dirty x || buffer_jbddirty x /\
          (buffer_dirty x && buffer_jbddirty x = false -> buffer_dirty x' = false)) /\
       k_trans s' = alter (fun tr => tr_link b jl (if decide (is_Some (b_transaction h))
                                     then tr_unlink b (b_jlist h) tr else tr)) t (k_trans s)) s.
Proof.
  intros Hwf Hx [tr Htr] Hjl Ht Hnew. pose proof Hx as [Hb Hh].
  unfold __jbd2_vmsep_journal_file_buffer.
  wp_step. wp_step. wp_step. wp_step.
  { destruct Ht as [Ht|Ht]; rewrite Ht; [by rewrite bool_decide_true|by rewrite orb_true_r]. }
  replace (bool_decide (is_Some (b_transaction h)) && bool_decide (b_jlist h = jl)) with false.
  2:{ symmetry. apply andb_false_iff. rewrite !bool_decide_eq_false. 
      destruct Ht as [Ht|Ht]; rewrite Ht; [right|left]; [naive_solver|by intros []]. }
  replace (is_none jl) with false by (by destruct jl).
  wp_step. eapply wp_mono; [by apply test_clear_any_dirty_exec|]. intros d s1 [-> ->].
  assert (has_jh (mk_kstate (k_journal s) (<[b := bh_clean x]> (k_bufs s)) (k_trans s)) b (bh_clean x) h)
    as Hx1 by (by apply has_jh_upd).
  wp_step. eapply wp_mono; [eapply join_transaction_spec; [by eapply wf_flags|exact Hx1|by eexists|done]|].
  kst. rewrite insert_insert_eq. intros _ s2 [Hwf2 ->].
  set (x2 := bh_join _ _ _ _). set (trs2 := if decide _ then _ else _) in *.
  assert (has_jh (mk_kstate (k_journal s) (<[b := x2]> (k_bufs s)) trs2) b x2 (jh_join h t)) as [Hb2 Hh2]
    by (by apply has_jh_upd).
  set (tr2 := if decide (is_Some (b_transaction h)) then tr_unlink b (b_jlist h) tr else tr).
  assert (trs2 !! t = Some tr2) as Htr2.
  { subst trs2 tr2. case_decide; [|done]. by rewrite lookup_alter_eq, Htr. }
  eapply wp_mono; [by eapply link_buffer_spec|]. intros _ s3 [Hwf3 ->].
  kst. rewrite insert_insert_eq in *. split_and!; [done|done| |].
  - eexists. split_and!; [by apply has_jh_upd|done| |].
    + subst x2. unfold bh_join. destruct (buffer_dirty x) eqn:Hd, (buffer_jbddirty x) eqn:Hjd; cbn;
      rewrite ?Hd, ?Hjd; try done. case_decide; cbn; by rewrite ?Hd, ?Hjd.
    + intros Hd. subst x2. unfold bh_join. cbn. case_decide; cbn; [done|].
      rewrite Hd. by case_match.
  - subst trs2 tr2. destruct (decide (is_Some (b_transaction h)));
      rewrite !(alter_insert_eq _ _ _ tr) by done; by rewrite ?insert_insert_eq.
Qed.

(** Changing the transaction of a buffer that is on no list. *)
Lemma wf_off_list ext ext' s j b x h x' h' :
  wf ext s -> has_jh s b x h -> b_jlist h = BJ_None ->
  (forall y, y <> b -> ext' y = ext y) ->
  b_private x' = Some h' -> buffer_jbd x' = true -> b_jlist h' = BJ_None ->
  (forall t, b_transaction h' = Some t \/ b_next_transaction h' = Some t -> is_Some (k_trans s !! t)) ->
  (is_Some (b_next_transaction h') -> is_Some (b_transaction h')) ->
  b_jcount h' = ref (b_transaction h') + ref (b_cp_transaction h') + ext' b ->
  0 < b_jcount h' ->
  wf ext' (mk_kstate j (<[b := x']> (k_bufs s)) (k_trans s)).
Proof.
  intros Hwf [Hb Hh] Hl Hext Hp Hj Hl' Hlive Hn Hc Ha.
  eapply wf_set_bh; [exact Hwf|exact Hext|]. split; [by rewrite Hp, Hj, bool_decide_true|].
  rewrite Hp. destruct (wf_jh _ _ _ _ _ Hwf Hb Hh) as [_ Hok]. by eapply (jh_ok_off ext ext' _ b h h').
Qed.

(** Off the transaction: the reference it held is dropped, and with the last
    reference the journal head. *)
Lemma unfile_buffer_spec ext s b x h :
  wf ext s -> has_jh s b x h -> is_Some (b_transaction h) -> b_next_transaction h = None ->
  0 <= ext b ->
  wp (__jbd2_journal_unfile_buffer b)
    (fun _ s' => wf ext s' /\ k_journal s' = k_journal s /\
       k_bufs s' = <[b := bh_put (if decide (b_jlist h = BJ_None) then x
                                  else bh_unlink (JBD2_ABORT (k_journal s)) x)
                            (h <| b_jlist := BJ_None |> <| b_transaction := None |>)]> (k_bufs s) /\
       k_trans s' = match b_transaction h with
                    | Some t => alter (tr_unlink b (b_jlist h)) t (k_trans s)
                    | None => k_trans s end) s.
Proof.
  intros Hwf Hx [t Ht] Hn Hpos. unfold __jbd2_journal_unfile_buffer.
  wp_step. eapply wp_mono; [by eapply temp_unlink_spec|].
  intros _ s1 (Hwf1 & Hj1 & Hd1 & Hx1 & Hbufs & Htrs). pose proof Hx1 as [Hb1 Hh1].
  destruct s1 as [j1 bufs1 trs1]. kst.
  set (x1 := if decide _ then _ else _) in *.
  destruct (wf_jh _ _ _ _ _ Hwf1 Hb1 Hh1) as [Hjbd1 Hok1].
  wp_step. eapply wp_modify_jh; [exact Hb1|exact Hh1|].
  set (h2 := h <| b_jlist := BJ_None |> <| b_transaction := None |>).
  assert (has_jh (mk_kstate j1 (<[b := x1 <| b_private := Some h2 |>]> bufs1) trs1) b
            (x1 <| b_private := Some h2 |>) h2) as Hx2 by (by apply has_jh_upd).
  assert (wf (ext_add b 1 ext) (mk_kstate j1 (<[b := x1 <| b_private := Some h2 |>]> bufs1) trs1)) as Hwf2.
  { eapply (wf_off_list ext _ (mk_kstate j1 bufs1 trs1)); try done.
    - intros. by apply ext_add_ne.
    - intros t' [Hd|Hd]; [done|]. subst h2. cbn in Hd. congruence.
    - subst h2. cbn. rewrite Hn. by intros [].
    - rewrite ext_add_eq. pose proof (jh_count _ _ _ _ Hok1) as Hc. subst h2. cbn in *.
      rewrite Ht in Hc. cbn in Hc. lia.
    - subst h2. apply (jh_alive _ _ _ _ Hok1). }
  eapply wp_mono; [eapply put_exec; [exact Hwf2|done|exact (proj1 Hx2)|exact (proj2 Hx2)]|].
  intros _ s' [->%goes_to_eq Hwf']. split_and!; [done|done| |done].
  kst. by rewrite Hbufs, !insert_insert_eq.
Qed.

Lemma set_jbddirty_spec ext s b x h (d : bool) :
  wf ext s -> has_jh s b x h ->
  wp (if d then set_buffer_jbddirty b else kret tt)
    (fun _ s' => wf ext s' /\ k_journal s' = k_journal s /\ k_trans s' = k_trans s /\
       exists x', has_jh s' b x' h /\ k_bufs s' = <[b := x']> (k_bufs s) /\
         buffer_dirty x' = buffer_dirty x /\ buffer_jbddirty x' = buffer_jbddirty x || d) s.
Proof.
  intros Hwf Hx. pose proof Hx as [Hb Hh]. destruct d.
  - unfold set_buffer_jbddirty. wp_step. kst. split_and!; [by eapply wf_flags|done|done|].
    eexists. split_and!; [by apply has_jh_upd|done..|]. by rewrite orb_true_r.
  - wp_step. split_and!; [done..|]. exists x. split_and!; [done| |done|by rewrite orb_false_r].
    by rewrite insert_id.
Qed.

Lemma tr_link_state b jl tr : t_state (tr_link b jl tr) = t_state tr.
Proof. by destruct jl. Qed.
Lemma tr_unlink_state b jl tr : t_state (tr_unlink b jl tr) = t_state tr.
Proof. by destruct jl. Qed.

(** The list a buffer goes to when the next transaction takes it over. *)
Definition refile_list (x : buffer_head) (h : journal_head) : jlist :=
  if buffer_freed x then BJ_Forget else if b_modified h then BJ_Metadata else BJ_Reserved.

Definition jh_next_tr (h : journal_head) : journal_head :=
  h <| b_jlist := BJ_None |> <| b_transaction := b_next_transaction h |>
    <| b_next_transaction := None |>.

Lemma take_next_spec ext s b x h t nt :
  wf ext s -> has_jh s b x h -> b_transaction h = Some t -> b_next_transaction h = Some nt ->
  wp (take_next_transaction b)
    (fun d s' => d = buffer_jbddirty x /\ wf ext s' /\ k_journal s' = k_journal s /\
       (exists x', has_jh s' b x' (jh_next_tr h) /\ k_bufs s' = <[b := x']> (k_bufs s) /\
          buffer_dirty x' = buffer_dirty x /\ buffer_jbddirty x' = false /\
          buffer_freed x' = buffer_freed x) /\
       k_trans s' = alter (tr_unlink b (b_jlist h)) t (k_trans s)) s.
Proof.
  intros Hwf Hx Ht Hn. pose proof Hx as [Hb Hh].
  unfold take_next_transaction, test_clear_buffer_jbddirty, clear_buffer_jbddirty.
  do 6 wp_step. kst.
  set (x1 := x <| buffer_jbddirty := false |>).
  assert (has_jh (mk_kstate (k_journal s) (<[b := x1]> (k_bufs s)) (k_trans s)) b x1 h) as Hx1
    by (by apply has_jh_upd).
  assert (wf ext (mk_kstate (k_journal s) (<[b := x1]> (k_bufs s)) (k_trans s))) as Hwf1
    by (by eapply wf_flags).
  wp_step. eapply wp_mono; [by eapply temp_unlink_spec|].
  intros _ [j2 bufs2 trs2] (Hwf2 & Hj2 & Hd2 & Hx2 & Hbufs2 & Htrs2). kst.
  set (x2 := if decide _ then _ else _) in *. pose proof Hx2 as [Hb2 Hh2]. kst.
  destruct (wf_jh _ _ _ _ _ Hwf2 Hb2 Hh2) as [Hjbd Hok].
  wp_step. eapply wp_modify_jh; [exact Hb2|exact Hh2|]. wp_step. kst.
  assert (buffer_dirty x2 = buffer_dirty x /\ buffer_jbddirty x2 = false /\
          buffer_freed x2 = buffer_freed x) as (Hf1 & Hf2 & Hf3).
  { subst x2 x1. case_decide; cbn; [done|]. rewrite orb_false_r. by destruct (JBD2_ABORT _). }
  split_and!; [done| |done| |by rewrite Htrs2, Ht].
  - eapply (wf_off_list ext _ (mk_kstate j2 bufs2 trs2)); try done; cbn.
    + intros t' [Hd|Hd]; [|done]. apply (jh_live _ _ _ _ Hok). by right.
    + rewrite Hn. cbn. pose proof (jh_count _ _ _ _ Hok) as Hc. cbn in Hc. by rewrite Ht in Hc.
    + apply (jh_alive _ _ _ _ Hok).
  - eexists. split_and!; [by apply has_jh_upd|by rewrite Hbufs2, !insert_insert_eq|done..].
Qed.

Lemma refile_buffer_exec ext s b x h t nt tr :
  wf ext s -> has_jh s b x h -> b_transaction h = Some t -> b_next_transaction h = Some nt ->
  k_trans s !! nt = Some tr -> t_state tr = T_RUNNING -> t <> nt ->
  wp (__jbd2_vmsep_journal_refile_buffer b)
    (fun _ s' => wf ext s' /\ k_journal s' = k_journal s /\
       (exists x', has_jh s' b x' (h <| b_jlist := refile_list x h |> <| b_transaction := Some nt |>
                                    <| b_next_transaction := None |>) /\
          k_bufs s' = <[b := x']> (k_bufs s) /\
          buffer_dirty x' = false /\
          buffer_jbddirty x' = buffer_dirty x || buffer_jbddirty x) /\
       k_trans s' = <[nt := tr_link b (refile_list x h) tr]> (alter (tr_unlink b (b_jlist h)) t (k_trans s))) s.
Proof.
  intros Hwf Hx Ht Hn Htr Hst Hne. pose proof Hx as [Hb Hh].
  destruct (wf_jh _ _ _ _ _ Hwf Hb Hh) as [Hjbd Hok].
  unfold __jbd2_vmsep_journal_refile_buffer.
  wp_step. wp_step. rewrite Hn.
  wp_step. eapply wp_mono; [by eapply take_next_spec|].
  intros d [j1 bufs1 trs1] (-> & Hwf1 & Hj1 & (x1 & Hx1 & Hbufs1 & Hd1 & Hjd1 & Hf1) & Htrs1). kst.
  pose proof Hx1 as [Hb1 Hh1]. kst.
  assert (trs1 !! nt = Some tr) as Htr1 by (rewrite Htrs1; rewrite lookup_alter_ne; congruence).
  do 2 wp_step. wp_step. eapply wp_read_jh; [exact Hb1|exact Hh1|]. rewrite Hf1.
  change (b_modified (jh_next_tr h)) with (b_modified h). fold (refile_list x h).
  assert (refile_list x h <> BJ_None) as Hjl by (unfold refile_list; by repeat case_match).
  wp_step. eapply wp_mono; [eapply file_buffer_spec; [exact Hwf1|exact Hx1|by eexists|done|by left|]|].
  { intros [_ Hl]. cbn in Hl. congruence. }
  intros _ [j2 bufs2 trs2] (Hwf2 & Hj2 & (x2 & Hx2 & Hbufs2 & Hjd2 & Hd2) & Htrs2). kst.
  assert (trs2 !! nt = Some (tr_link b (refile_list x h) (tr_unlink b BJ_None tr))) as Htr2.
  { rewrite Htrs2, lookup_alter_eq, Htr1. cbn -[tr_link tr_unlink]. rewrite decide_True; [done|].
    rewrite Hn. by eexists. }
  wp_step. wp_step. wp_step. wp_step.
  { apply bool_decide_true. by rewrite tr_link_state, ?tr_unlink_state. }
  eapply wp_mono; [eapply set_jbddirty_spec; [exact Hwf2|exact Hx2]|].
  intros _ s3 (Hwf3 & Hj3 & Htrs3 & x3 & Hx3 & Hbufs3 & Hd3 & Hjd3). kst. split_and!.
  - done.
  - congruence.
  - exists x3. split_and!.
    + replace (h <| b_jlist := _ |> <| b_transaction := _ |> <| b_next_transaction := _ |>) with
        ((jh_join (jh_next_tr h) nt) <| b_jlist := refile_list x h |>); [done|].
      unfold jh_join, jh_next_tr. cbn. rewrite Hn. cbn. f_equal. lia.
    + by rewrite Hbufs3, Hbufs2, Hbufs1, !insert_insert_eq.
    + rewrite Hd3. apply Hd2. by rewrite Hjd1, andb_false_r.
    + by rewrite Hjd3, Hjd2, Hjd1, Hd1, orb_false_r.
  - rewrite Htrs3, Htrs2, (alter_insert_eq _ _ _ tr) by done. rewrite Htrs1. f_equal.
    rewrite decide_True; [done|]. cbn. rewrite Hn. by eexists.
Qed.

Lemma refile_buffer_spec ext s b x h nt tr :
  wf ext s -> has_jh s b x h -> b_next_transaction h = Some nt -> k_trans s !! nt = Some tr ->
  t_state tr = T_RUNNING -> b_transaction h <> Some nt ->
  wp (__jbd2_vmsep_journal_refile_buffer b)
    (fun _ s' => wf ext s' /\ k_journal s' = k_journal s /\
       (exists x', has_jh s' b x' (h <| b_jlist := refile_list x h |> <| b_transaction := Some nt |>
                                    <| b_next_transaction := None |>) /\
          k_bufs s' = <[b := x']> (k_bufs s) /\
          buffer_dirty x' = false /\
          buffer_jbddirty x' = buffer_dirty x || buffer_jbddirty x) /\
       exists tr', k_trans s' !! nt = Some tr' /\
         list_of (refile_list x h) tr' = list_of (refile_list x h) tr ++ [b]) s.
Proof.
  intros Hwf Hx Hn Htr Hst Hne. pose proof Hx as [Hb Hh].
  destruct (wf_jh _ _ _ _ _ Hwf Hb Hh) as [_ Hok].
  destruct (jh_next _ _ _ _ Hok) as [t Ht]; [by eexists|].
  eapply wp_mono; [eapply (refile_buffer_exec ext s b x h t nt tr); try done; congruence|].
  intros _ s' (Hwf' & Hj & Hx' & Htrs). split_and!; [done..|]. eexists. rewrite Htrs, lookup_insert_eq. split; [done|].
  rewrite list_of_tr_link, decide_True; [done|done|]. unfold refile_list. by repeat case_match.
Qed.

(** ** Checking the invariant of a concrete state *)

Definition all_jlists : list jlist := [BJ_None; BJ_Metadata; BJ_Forget; BJ_Shadow; BJ_Reserved].

Lemma all_jlists_complete jl : jl ∈ all_jlists.
Proof. destruct jl; cbn; set_solver. Qed.

Definition jh_okb (ext : bh_id -> Z) (trs : gmap positive transaction_t) (b : bh_id)
    (h : journal_head) : bool :=
  bool_decide (map_Forall (fun t tr => Forall (fun jl =>
      b ∈ list_of jl tr <-> b_transaction h = Some t /\ b_jlist h = jl /\ jl <> BJ_None)
    all_jlists) trs) &&
  bool_decide (b_jlist h <> BJ_None -> is_Some (b_transaction h)) &&
  bool_decide (Forall (fun t => is_Some (trs !! t))
                 (option_list (b_transaction h) ++ option_list (b_next_transaction h))) &&
  bool_decide (is_Some (b_next_transaction h) -> is_Some (b_transaction h)) &&
  (b_jcount h =? ref (b_transaction h) + ref (b_cp_transaction h) + ext b) &&
  (0 <? b_jcount h).

Definition bh_okb (ext : bh_id -> Z) (trs : gmap positive transaction_t) (b : bh_id)
    (x : buffer_head) : bool :=
  bool_decide (buffer_jbd x = bool_decide (is_Some (b_private x))) &&
  match b_private x with
  | Some h => jh_okb ext trs b h
  | None => bool_decide (map_Forall (fun t tr => Forall (fun jl => b ∉ list_of jl tr) all_jlists) trs)
  end.

Definition tr_okb (bufs : gmap positive buffer_head) (tr : transaction_t) : bool :=
  bool_decide (Forall (fun jl => NoDup (list_of jl tr) /\
                                 Forall (fun b => is_Some (bufs !! b)) (list_of jl tr)) all_jlists) &&
  (t_nr_buffers tr =? Z.of_nat (length (t_buffers tr))).

Definition wfb (ext : bh_id -> Z) (s : kstate) : bool :=
  bool_decide (map_Forall (fun b x => bh_okb ext (k_trans s) b x = true) (k_bufs s)) &&
  bool_decide (map_Forall (fun t tr => tr_okb (k_bufs s) tr = true) (k_trans s)).

Lemma jh_okb_sound ext trs b h : jh_okb ext trs b h = true -> jh_ok ext trs b h.
Proof.
  unfold jh_okb. intros H. bool_to_prop; try done. split; try done; try lia.
  - intros t tr jl Ht. match goal with H : map_Forall _ _ |- _ => pose proof (H t tr Ht) as Hf end.
    rewrite Forall_forall in Hf. apply Hf, all_jlists_complete.
  - intros t Ht. match goal with H : Forall _ _ |- _ => rewrite Forall_forall in H; apply H end.
    apply elem_of_app. destruct Ht as [-> | ->]; cbn; [left|right]; apply list_elem_of_singleton; done.
Qed.

Lemma wfb_sound ext s : wfb ext s = true -> wf ext s.
Proof.
  unfold wfb. intros [H H0]%andb_true_iff. apply bool_decide_eq_true in H, H0. split.
  - intros b x Hx. specialize (H b x Hx). unfold bh_okb in H. cbn in H.
    apply andb_true_iff in H as [Hj Hp]. apply bool_decide_eq_true in Hj. split; [done|].
    destruct (b_private x); [by apply jh_okb_sound|]. apply bool_decide_eq_true in Hp.
    intros t tr jl Ht. specialize (Hp t tr Ht). rewrite Forall_forall in Hp.
    apply Hp, all_jlists_complete.
  - intros t tr Ht. specialize (H0 t tr Ht). unfold tr_okb in H0. cbn in H0.
    apply andb_true_iff in H0 as [Hf Hn]. apply bool_decide_eq_true in Hf. rewrite Forall_forall in Hf.
    split; [| lia |].
    + intros jl. apply Hf, all_jlists_complete.
    + intros jl b. destruct (Hf jl (all_jlists_complete jl)) as [_ Hb]. rewrite Forall_forall in Hb. auto.
Qed.

(** ** Properties *)

(** C19: [__jbd2_vmsep_journal_file_buffer] moves a buffer of transaction [t], or of
    none, to another list of [t]: it becomes the last element of that list and leaves
    its old one, every other list, transaction and buffer is as before, the journal
    head counts one reference for the transaction, a dirty buffer is now
    journal-dirty, and the filing invariant holds again; no assertion fires. *)
Theorem file_buffer_moves ext s b x h t tr jl :
  wf ext s -> has_jh s b x h -> k_trans s !! t = Some tr -> jl <> BJ_None ->
  (b_transaction h = Some t \/ b_transaction h = None) ->
  ~ (b_transaction h = Some t /\ b_jlist h = jl) ->
  wp (__jbd2_vmsep_journal_file_buffer b t jl)
    (fun _ s' => wf ext s' /\
       (exists x' h' tr', has_jh s' b x' h' /\ k_trans s' !! t = Some tr' /\
          b_transaction h' = Some t /\ b_jlist h' = jl /\
          b_jcount h' = b_jcount h + (1 - ref (b_transaction h)) /\
          list_of jl tr' = list_of jl tr ++ [b] /\
          (forall jl', jl' <> jl -> list_of jl' tr' = blist_del b (list_of jl' tr)) /\
          buffer_jbddirty x' = buffer_dirty x || buffer_jbddirty x) /\
       (forall y, y <> b -> k_bufs s' !! y = k_bufs s !! y) /\
       (forall u, u <> t -> k_trans s' !! u = k_trans s !! u)) s.
Proof.
  intros Hwf Hx Htr Hjl Ht Hnew. pose proof Hx as [Hb Hh].
  destruct (wf_jh _ _ _ _ _ Hwf Hb Hh) as [_ Hok].
  eapply wp_mono; [eapply file_buffer_spec; eauto|].
  intros _ s' (Hwf' & _ & (x' & Hx' & Hbufs & Hjd & _) & Htrs). split; [done|].
  assert (forall jl', jl' <> b_jlist h \/ b_transaction h = None -> b ∉ list_of jl' tr) as Hout.
  { intros jl' Hj Hin. apply (jh_member _ _ _ _ Hok t tr jl' Htr) in Hin. naive_solver. }
  split_and!.
  - eexists x', _, _. split_and!; [exact Hx'|by rewrite Htrs, lookup_alter_eq, Htr|done|done|done| | |done].
    + rewrite list_of_tr_link, decide_True by done. unfold blist_add. f_equal.
      case_decide as Hs; [|done]. rewrite list_of_tr_unlink, decide_False; [done|].
      destruct Hs. naive_solver.
    + intros jl' Hj. rewrite list_of_tr_link, decide_False by done.
      case_decide as Hs.
      * rewrite list_of_tr_unlink. case_decide; [done|]. rewrite blist_del_notin; auto.
      * rewrite blist_del_notin; [done|]. apply Hout. right.
        by destruct (b_transaction h); [destruct Hs; eauto|].
  - intros y Hy. by rewrite Hbufs, lookup_insert_ne.
  - intros u Hu. by rewrite Htrs, lookup_alter_ne.
Qed.

(** [__jbd2_vmsep_journal_refile_buffer] hands a buffer to the running transaction
    that asked for it: the buffer ends at the tail of that transaction's forget,
    metadata or reserved list according to [buffer_freed] and [b_modified], it is
    no longer wanted by a next transaction, its dirtiness stays with the journal, and
    the filing invariant holds; no assertion fires. *)
Theorem refile_buffer_moves ext s b x h nt tr :
  wf ext s -> has_jh s b x h -> b_next_transaction h = Some nt -> k_trans s !! nt = Some tr ->
  t_state tr = T_RUNNING -> b_transaction h <> Some nt ->
  wp (__jbd2_vmsep_journal_refile_buffer b)
    (fun _ s' => wf ext s' /\ exists x' h' tr', has_jh s' b x' h' /\ k_trans s' !! nt = Some tr' /\
       b_transaction h' = Some nt /\ b_next_transaction h' = None /\
       b_jlist h' = refile_list x h /\
       list_of (refile_list x h) tr' = list_of (refile_list x h) tr ++ [b] /\
       buffer_dirty x' = false /\ buffer_jbddirty x' = buffer_dirty x || buffer_jbddirty x) s.
Proof.
  intros Hwf Hx Hn Htr Hst Hne. eapply wp_mono; [by eapply refile_buffer_spec|].
  intros _ s' (Hwf' & _ & (x' & Hx' & _ & Hd & Hjd) & tr' & Htr' & Hl). split; [done|].
  by eexists x', _, tr'.
Qed.

(** [__jbd2_journal_unfile_buffer] takes a buffer off its transaction: it is
    on no list of any transaction, its journal head is freed exactly when neither
    a checkpoint nor a caller still refers to it, a journal-dirty buffer that
    was on a list is handed to the VM as dirty unless the journal is aborted, and the
    filing invariant holds; no assertion fires. *)
Theorem unfile_buffer_frees ext s b x h :
  wf ext s -> has_jh s b x h -> is_Some (b_transaction h) -> b_next_transaction h = None ->
  0 <= ext b ->
  wp (__jbd2_journal_unfile_buffer b)
    (fun _ s' => wf ext s' /\
       (forall t tr jl, k_trans s' !! t = Some tr -> b ∉ list_of jl tr) /\
       (jh_of s' b = None <-> b_cp_transaction h = None /\ ext b = 0) /\
       (forall h', jh_of s' b = Some h' -> b_transaction h' = None /\
          b_cp_transaction h' = b_cp_transaction h) /\
       (forall x', JBD2_ABORT (k_journal s) = false -> b_jlist h <> BJ_None ->
          k_bufs s' !! b = Some x' ->
          buffer_dirty x' = buffer_dirty x || buffer_jbddirty x /\ buffer_jbddirty x' = false)) s.
Proof.
  intros Hwf Hx [t Ht] Hn Hpos. pose proof Hx as [Hb Hh].
  destruct (wf_jh _ _ _ _ _ Hwf Hb Hh) as [_ Hok].
  eapply wp_mono; [eapply unfile_buffer_spec; eauto|].
  intros _ s' (Hwf' & _ & Hbufs & Htrs). unfold jh_of. rewrite Hbufs, lookup_insert_eq.
  pose proof (wf_bh _ _ Hwf' b) as Hb'. rewrite Hbufs, lookup_insert_eq in Hb'.
  specialize (Hb' _ eq_refl). pose proof (jh_count _ _ _ _ Hok) as Hc. rewrite Ht in Hc. cbn in Hc.
  pose proof (ref_range (b_cp_transaction h)). rewrite <-(ref_none (b_cp_transaction h)).
  unfold bh_put in *. cbn [b_jcount field_update] in *. cbn -[bh_unlink] in *.
  destruct (b_jcount h =? 1) eqn:H1; bool_to_prop; cbn in *; destruct Hb' as [_ Hb'].
  - split_and!; [done|done|split; [lia|done]|done|].
    intros x' Ha Hl [= <-]. cbn. rewrite decide_False by done. cbn. by rewrite Ha.
  - split_and!; [done| |split; [done|lia]|by intros h' [= <-]|].
    + intros t' tr jl Ht' Hin. apply (jh_member _ _ _ _ Hb' t' tr jl Ht') in Hin. naive_solver.
    + intros x' Ha Hl [= <-]. cbn. rewrite decide_False by done. cbn. by rewrite Ha.
Qed.

(** ** A concrete state

    Transaction 1 is running with buffers 1 and 2 on its metadata list;
    transaction 2 is committing, with buffer 3 on its forget list, which
    transaction 1 has modified meanwhile; buffer 4 has a journal head only. *)
Definition ex_jh (n : Z) (jl : jlist) (t nt cp : option tr_id) : journal_head :=
  zero_journal_head <| b_jcount := n |> <| b_jlist := jl |> <| b_transaction := t |>
    <| b_next_transaction := nt |> <| b_cp_transaction := cp |>.
Definition ex_bh (h : journal_head) (jd : bool) : buffer_head :=
  plain_buffer_head <| buffer_jbd := true |> <| buffer_jbddirty := jd |>
    <| b_private := Some h |> <| b_count := 2 |>.

Definition ex_h1 : journal_head := ex_jh 1 BJ_Metadata (Some 1%positive) None None.
Definition ex_h2 : journal_head := ex_jh 2 BJ_Metadata (Some 1%positive) None (Some 2%positive).
Definition ex_h3 : journal_head :=
  (ex_jh 1 BJ_Forget (Some 2%positive) (Some 1%positive) None) <| b_modified := true |>.
Definition ex_h4 : journal_head := ex_jh 1 BJ_None None None None.
Definition ex_ext (b : bh_id) : Z := if decide (b = 4%positive) then 1 else 0.

Definition ex_filing : kstate :=
  mk_kstate zero_journal
    {[ 1%positive := ex_bh ex_h1 true; 2%positive := ex_bh ex_h2 true;
       3%positive := ex_bh ex_h3 true; 4%positive := ex_bh ex_h4 false ]}
    {[ 1%positive := zero_transaction <| t_tid := 8 |> <| t_nr_buffers := 2 |>
                       <| t_buffers := [1%positive; 2%positive] |>;
       2%positive := zero_transaction <| t_tid := 7 |> <| t_state := T_COMMIT |>
                       <| t_forget := [3%positive] |> ]}.

Lemma ex_filing_wf : wf ex_ext ex_filing.
Proof. apply wfb_sound. vm_compute. reflexivity. Qed.

Lemma file_buffer_moves_witness :
  wf ex_ext ex_filing /\
  wp (__jbd2_vmsep_journal_file_buffer 1 1 BJ_Forget) (fun _ s' => wf ex_ext s') ex_filing /\
  wp (__jbd2_vmsep_journal_file_buffer 4 2 BJ_Reserved) (fun _ s' => wf ex_ext s') ex_filing.
Proof.
  split; [apply ex_filing_wf|]. split.
  - eapply wp_mono; [eapply (file_buffer_moves ex_ext ex_filing 1 (ex_bh ex_h1 true) ex_h1);
      [apply ex_filing_wf|by split|reflexivity|done|by left|by intros []]|]. by intros ? ? [? _].
  - eapply wp_mono; [eapply (file_buffer_moves ex_ext ex_filing 4 (ex_bh ex_h4 false) ex_h4);
      [apply ex_filing_wf|by split|reflexivity|done|by right|by intros []]|]. by intros ? ? [? _].
Defined.

Lemma refile_buffer_moves_witness :
  wp (__jbd2_vmsep_journal_refile_buffer 3)
    (fun _ s' => exists tr', k_trans s' !! 1%positive = Some tr' /\
       t_buffers tr' = [1; 2; 3]%positive) ex_filing.
Proof.
  eapply wp_mono; [eapply (refile_buffer_moves ex_ext ex_filing 3 (ex_bh ex_h3 true) ex_h3 1);
    [apply ex_filing_wf|by split|reflexivity|reflexivity|reflexivity|done]|].
  intros ? ? (_ & x' & h' & tr' & _ & Htr & _ & _ & _ & Hl & _). exists tr'. split; [done|exact Hl].
Defined.

Lemma unfile_buffer_frees_witness :
  wp (__jbd2_journal_unfile_buffer 1) (fun _ s' => jh_of s' 1 = None) ex_filing /\
  wp (__jbd2_journal_unfile_buffer 2) (fun _ s' => jh_of s' 2 <> None) ex_filing.
Proof.
  split.
  - eapply wp_mono; [eapply (unfile_buffer_frees ex_ext ex_filing 1 (ex_bh ex_h1 true) ex_h1);
      [apply ex_filing_wf|by split|by eexists|reflexivity|done]|].
    intros ? ? (_ & _ & Hf & _). by apply Hf.
  - eapply wp_mono; [eapply (unfile_buffer_frees ex_ext ex_filing 2 (ex_bh ex_h2 true) ex_h2);
      [apply ex_filing_wf|by split|by eexists|reflexivity|done]|].
    intros ? ? (_ & _ & Hf & _) Hn. apply Hf in Hn as [Hn _]. discriminate Hn.
Defined.
