(* ===== verification/Log.v ===== *)
(** * The log area and its superblock

    The circular log on the device and the journal's own state, from
    kernel/fs/jbd2/journal.c: allocating log blocks, moving the tail, resetting
    the log, requesting a commit, aborting, and the dynamic fields of the
    journal superblock; and the space computations of include/linux/jbd2.h. *)
From S2P Require Import Prelude Tid State Blist JournalHead Filing.

Definition EIO : Z := 5.
Definition EINVAL : Z := 22.
Definition EROFS : Z := 30.
Definition ENOSPC : Z := 28.
Definition ENOMEM : Z := 12.
Definition EFSCORRUPTED : Z := 117.
Definition JBD2_MIN_JOURNAL_BLOCKS : Z := 1024.
Definition JBD2_CONTROL_BLOCKS_SHIFT : Z := 5.

(** ** Requesting a commit *)

(** Returns true if a commit was started.  [jiffies] is the time now. *)
Definition __jbd2_vmsep_log_start_commit (jiffies : Z) (target : tid_t) (ino : Z) : K kstate bool :=
  j <- read_journal ;;
  if j_commit_request j =? target then kret false
  else match j_running_transaction j with
  | Some t =>
    tr <- read_tr t ;;
    if t_tid tr =? target
    then modify_journal (fun j => j <| j_commit_request := target |>) ;;;
         modify_tr t (fun tr => tr <| t_requested := jiffies |> <| ino_sync := ino |>) ;;;
         kret true
    else kret false
  | None => kret false
  end.

Definition jbd2_vmsep_log_start_commit := __jbd2_vmsep_log_start_commit.

(** ** Aborting and writing the superblock *)

Definition __jbd2_vmsep_journal_abort_hard (jiffies : Z) : K kstate unit :=
  j <- read_journal ;;
  if JBD2_ABORT j then kret tt
  else
    modify_journal (fun j => j <| JBD2_ABORT := true |>) ;;;
    match j_running_transaction j with
    | Some t => tr <- read_tr t ;;
                __jbd2_vmsep_log_start_commit jiffies (t_tid tr) 0 ;;; kret tt
    | None => kret tt
    end.

Section Superblock.
(** Writing the superblock buffer: 0, or the error the I/O ends with.  The
    block layer and the device are not part of the program. *)
Context (submit_sb : journal_t -> Z).
Context (jiffies : Z).

Definition submit_superblock : K kstate Z :=
  j <- read_journal ;;
  let ret := submit_sb j in
  (if ret =? 0
   then modify_journal (fun j => j <| disk_s_sequence := s_sequence j |>
                                   <| disk_s_start := s_start j |>
                                   <| disk_s_errno := s_errno j |>)
   else kret tt) ;;;
  kret ret.

(** [jbd2_write_superblock] and [jbd2_vmsep_journal_update_sb_errno] call the
    abort code, which calls them; [abort] is that call. *)
Definition write_superblock_with (abort : Z -> K kstate unit) : K kstate Z :=
  ret <- submit_superblock ;;
  (if ret =? 0 then kret tt else abort ret) ;;;
  kret ret.

Definition update_sb_errno_with (abort : Z -> K kstate unit) : K kstate unit :=
  modify_journal (fun j => j <| s_errno := u32 (j_errno j) |>) ;;;
  write_superblock_with abort ;;;
  kret tt.

(** [n] bounds the depth of that recursion; [abort_soft_fuel] shows that one
    level is enough, because the first call sets [JBD2_ABORT]. *)
Fixpoint __journal_abort_soft (n : nat) (errno : Z) : K kstate unit :=
  j <- read_journal ;;
  if JBD2_ABORT j then kret tt
  else
    modify_journal (fun j => if j_errno j =? 0 then j <| j_errno := errno |> else j) ;;;
    __jbd2_vmsep_journal_abort_hard jiffies ;;;
    if errno =? 0 then kret tt
    else
      update_sb_errno_with (match n with
                            | O => fun _ => kfault Oops
                            | S n' => __journal_abort_soft n'
                            end) ;;;
      modify_journal (fun j => j <| JBD2_REC_ERR := true |>).

Definition jbd2_vmsep_journal_abort (errno : Z) : K kstate unit := __journal_abort_soft 1 errno.

Definition jbd2_write_superblock : K kstate Z := write_superblock_with jbd2_vmsep_journal_abort.
Definition jbd2_vmsep_journal_update_sb_errno : K kstate unit :=
  update_sb_errno_with jbd2_vmsep_journal_abort.

Definition jbd2_vmsep_journal_update_sb_log_tail (tail_tid : tid_t) (tail_block : Z) : K kstate Z :=
  modify_journal (fun j => j <| s_sequence := tail_tid |> <| s_start := u32 tail_block |>) ;;;
  ret <- jbd2_write_superblock ;;
  if ret =? 0
  then modify_journal (fun j => j <| JBD2_FLUSHED := false |>) ;;; kret 0
  else kret ret.

Definition jbd2_mark_journal_empty : K kstate unit :=
  j <- read_journal ;;
  if s_start j =? 0 then kret tt
  else
    modify_journal (fun j => j <| s_sequence := j_tail_sequence j |> <| s_start := 0 |>) ;;;
    jbd2_write_superblock ;;;
    modify_journal (fun j => j <| JBD2_FLUSHED := true |>).

Definition jbd2_vmsep_journal_errno : K kstate Z :=
  j <- read_journal ;; kret (if JBD2_ABORT j then - EROFS else j_errno j).

Definition jbd2_vmsep_journal_clear_err : K kstate Z :=
  j <- read_journal ;;
  if JBD2_ABORT j then kret (- EROFS)
  else modify_journal (fun j => j <| j_errno := 0 |>) ;;; kret 0.

Definition jbd2_vmsep_journal_ack_err : K kstate unit :=
  j <- read_journal ;;
  if j_errno j =? 0 then kret tt else modify_journal (fun j => j <| JBD2_ACK_ERR := true |>).

(** ** The circular log *)

(** [j_inode]: [None] for an external journal, whose blocks are identity
    mapped, and otherwise the [bmap] of the journal's inode (0 for a hole). *)
Context (j_inode : option (Z -> Z)).

Definition jbd2_vmsep_journal_bmap (blocknr : Z) : K kstate (Z * Z) :=
  match j_inode with
  | Some bmap =>
    if bmap blocknr =? 0
    then __journal_abort_soft 1 (- EIO) ;;; kret (- EIO, 0)
    else kret (0, bmap blocknr)
  | None => kret (0, blocknr)
  end.

(** [j_head++; j_free--] and the wrap to [j_first]; the result is the logical
    block. *)
Definition take_log_block : K kstate Z :=
  j <- read_journal ;;
  j_assert (1 <? j_free j) ;;;
  modify_journal (fun j =>
    let j' := j <| j_head := u64 (j_head j + 1) |> <| j_free := u64 (j_free j - 1) |> in
    if j_head j' =? j_last j' then j' <| j_head := j_first j' |> else j') ;;;
  kret (j_head j).

Definition jbd2_vmsep_journal_next_log_block : K kstate (Z * Z) :=
  blocknr <- take_log_block ;;
  jbd2_vmsep_journal_bmap blocknr.

(** The tid and block of the oldest transaction in the log, and whether
    they are beyond the current tail. *)
Definition jbd2_vmsep_journal_get_log_tail : K kstate (bool * tid_t * Z) :=
  j <- read_journal ;;
  tb <- (match j_checkpoint_transactions j, j_committing_transaction j, j_running_transaction j with
         | t :: _, _, _ => tr <- read_tr t ;; kret (t_tid tr, t_log_start tr)
         | [], Some t, _ => tr <- read_tr t ;; kret (t_tid tr, t_log_start tr)
         | [], None, Some t => tr <- read_tr t ;; kret (t_tid tr, j_head j)
         | [], None, None => kret (j_transaction_sequence j, j_head j)
         end) ;;
  kret (tid_gt tb.1 (j_tail_sequence j), tb.1, tb.2).

Definition __jbd2_vmsep_update_log_tail (tid : tid_t) (block : Z) : K kstate Z :=
  ret <- jbd2_vmsep_journal_update_sb_log_tail tid block ;;
  if ret =? 0
  then
    modify_journal (fun j =>
      let freed := u64 (block - j_tail j) in
      let freed := if block <? j_tail j then u64 (freed + u64 (j_last j - j_first j)) else freed in
      j <| j_free := u64 (j_free j + freed) |> <| j_tail_sequence := tid |> <| j_tail := block |>) ;;;
    kret 0
  else kret ret.

(** The result of the write of the superblock, or 0 if there was none; the callers do not look at it. *)
Definition jbd2_vmsep_update_log_tail (tid : tid_t) (block : Z) : K kstate Z :=
  j <- read_journal ;;
  if tid_gt tid (j_tail_sequence j)
  then __jbd2_vmsep_update_log_tail tid block
  else kret 0.

(** [journal_reset]; [journal_fail_superblock] on [-EINVAL] and starting the commit thread are in [reset_and_start] of Journal.v. *)
Definition journal_reset : K kstate Z :=
  j <- read_journal ;;
  let first := s_first j in
  let last := s_maxlen j in
  if last + 1 <? first + JBD2_MIN_JOURNAL_BLOCKS then kret (- EINVAL)
  else
    modify_journal (fun j => j <| j_first := first |> <| j_last := last |>
      <| j_head := first |> <| j_tail := first |> <| j_free := u64 (last - first) |>
      <| j_tail_sequence := j_transaction_sequence j |>
      <| j_commit_sequence := u32 (j_transaction_sequence j - 1) |>
      <| j_commit_request := u32 (j_transaction_sequence j - 1) |>
      <| j_max_transaction_buffers := j_maxlen j / 4 |>) ;;;
    j <- read_journal ;;
    (if s_start j =? 0
     then modify_journal (fun j => j <| JBD2_FLUSHED := true |>)
     else jbd2_vmsep_journal_update_sb_log_tail (j_tail_sequence j) (j_tail j) ;;; kret tt) ;;;
    kret 0.
End Superblock.

(** ** Space *)

Definition jbd2_space_needed (j : journal_t) : Z :=
  let nblocks := j_max_transaction_buffers j in
  s32 (nblocks + Z.shiftr nblocks JBD2_CONTROL_BLOCKS_SHIFT).

(** [unsigned long] arithmetic throughout. *)
Definition jbd2_log_space_left : K kstate Z :=
  j <- read_journal ;;
  let free := u64 (j_free j - 32) in
  match j_committing_transaction j with
  | Some t =>
    tr <- read_tr t ;;
    let committing := u64 (t_outstanding_credits tr) in
    kret (u64 (free - (committing + Z.shiftr committing JBD2_CONTROL_BLOCKS_SHIFT)))
  | None => kret free
  end.

(** ** The log as a queue of blocks

    The blocks between [j_tail] and [j_head], oldest first. *)

Definition log_len (j : journal_t) : Z := j_last j - j_first j.
Definition log_used (j : journal_t) : Z := log_len j - j_free j.
Definition log_pos (j : journal_t) (k : Z) : Z :=
  j_first j + (j_tail j - j_first j + k) mod log_len j.
Definition log_blocks (j : journal_t) : list Z := log_pos j <$> seqZ 0 (log_used j).

Record log_ok (j : journal_t) : Prop := {
  log_first : 0 <= j_first j;
  log_last : j_first j < j_last j < 4294967296;
  log_tail : j_first j <= j_tail j < j_last j;
  log_free : 0 < j_free j <= log_len j;
  log_head : j_head j = log_pos j (log_used j);
}.

Definition log_okb (j : journal_t) : bool :=
  (0 <=? j_first j) && (j_first j <? j_last j) && (j_last j <? 4294967296) &&
  (j_first j <=? j_tail j) && (j_tail j <? j_last j) &&
  (0 <? j_free j) && (j_free j <=? log_len j) && (j_head j =? log_pos j (log_used j)).

Lemma log_okb_sound j : log_okb j = true -> log_ok j.
Proof. unfold log_okb. intros. bool_to_prop. split; lia. Qed.

Lemma log_pos_range j k : log_ok j -> j_first j <= log_pos j k < j_last j.
Proof. intros []. unfold log_pos, log_len in *. pose proof (Z.mod_pos_bound (j_tail j - j_first j + k) (j_last j - j_first j)). lia. Qed.

Lemma log_pos_inj j k k' :
  log_ok j -> 0 <= k < log_len j -> 0 <= k' < log_len j -> log_pos j k = log_pos j k' -> k = k'.
Proof.
  intros [] Hk Hk' He. unfold log_pos, log_len in *.
  assert ((j_tail j - j_first j + k) mod (j_last j - j_first j)
          = (j_tail j - j_first j + k') mod (j_last j - j_first j)) as Hm by lia.
  apply mod_inj in Hm; lia.
Qed.

Lemma NoDup_log_blocks j : log_ok j -> NoDup (log_blocks j).
Proof.
  intros Hok. unfold log_blocks. apply NoDup_fmap_2_strong; [|apply NoDup_seqZ].
  intros x y Hx%elem_of_seqZ Hy%elem_of_seqZ. destruct Hok eqn:E. unfold log_used in *.
  apply log_pos_inj; [done|lia|lia].
Qed.

Lemma log_head_fresh j : log_ok j -> j_head j ∉ log_blocks j.
Proof.
  intros Hok. unfold log_blocks. rewrite list_elem_of_fmap. intros (k & He & Hk%elem_of_seqZ).
  rewrite (log_head j Hok) in He. pose proof (log_free j Hok). unfold log_used in *.
  apply log_pos_inj in He; [lia|done|lia|lia].
Qed.

(** Taking a block. *)
Definition take_block (j : journal_t) : journal_t :=
  let j' := j <| j_head := u64 (j_head j + 1) |> <| j_free := u64 (j_free j - 1) |> in
  if j_head j' =? j_last j' then j' <| j_head := j_first j' |> else j'.

Lemma log_head_range j : log_ok j -> j_first j <= j_head j < j_last j.
Proof. intros Hok. rewrite (log_head j Hok). by apply log_pos_range. Qed.

Lemma take_block_fields j :
  log_ok j -> 1 < j_free j ->
  j_free (take_block j) = j_free j - 1 /\ j_first (take_block j) = j_first j /\
  j_last (take_block j) = j_last j /\ j_tail (take_block j) = j_tail j /\
  j_head (take_block j) = log_pos j (log_used j + 1).
Proof.
  intros Hok Hf. pose proof (log_head_range j Hok) as Hr. pose proof (log_head j Hok) as Hh.
  destruct Hok. unfold take_block.
  assert (u64 (j_free j - 1) = j_free j - 1) as Eu by (apply u64_id; unfold is_u64, log_len in *; lia).
  assert (u64 (j_head j + 1) = j_head j + 1) as Eh by (apply u64_id; unfold is_u64, log_len in *; lia).
  cbn. rewrite Eu, Eh.
  unfold log_pos, log_used, log_len in *. rewrite mod_once in Hh by lia. rewrite mod_once by lia.
  destruct (j_head j + 1 =? j_last j) eqn:E; bool_to_prop; cbn; split_and!; try done;
    repeat case_match; bool_to_prop; lia.
Qed.

Lemma log_ok_take j : log_ok j -> 1 < j_free j -> log_ok (take_block j).
Proof.
  intros Hok Hf. destruct (take_block_fields j Hok Hf) as (H1 & H2 & H3 & H4 & H5). destruct Hok.
  split; unfold log_len, log_used, log_pos in *; rewrite ?H1, ?H2, ?H3, ?H4, ?H5; try lia.
  assert (log_len (take_block j) = log_len j) as -> by (unfold log_len; congruence).
  do 2 f_equal. lia.
Qed.

Lemma log_blocks_take j :
  log_ok j -> 1 < j_free j -> log_blocks (take_block j) = log_blocks j ++ [j_head j].
Proof.
  intros Hok Hf. destruct (take_block_fields j Hok Hf) as (H1 & H2 & H3 & H4 & H5).
  unfold log_blocks. rewrite (log_head j Hok).
  replace (log_used (take_block j)) with (log_used j + 1) by (unfold log_used, log_len; rewrite H1, H2, H3; lia).
  pose proof (log_free j Hok). rewrite seqZ_app by (unfold log_used; lia). rewrite fmap_app. f_equal.
  - apply list_fmap_ext. intros. unfold log_pos, log_len. by rewrite H2, H3, H4.
  - change (seqZ (0 + log_used j) 1) with [0 + log_used j]. cbn [fmap list_fmap]. unfold log_pos, log_len.
    by rewrite H2, H3, H4, Z.add_0_l.
Qed.

(** Moving the tail. *)
Definition set_tail (tid : tid_t) (block : Z) (j : journal_t) : journal_t :=
  let freed := u64 (block - j_tail j) in
  let freed := if block <? j_tail j then u64 (freed + u64 (j_last j - j_first j)) else freed in
  j <| j_free := u64 (j_free j + freed) |> <| j_tail_sequence := tid |> <| j_tail := block |>.

Lemma set_tail_free tid j k :
  log_ok j -> 0 <= k <= log_used j -> j_free (set_tail tid (log_pos j k) j) = j_free j + k.
Proof.
  intros [] Hk. unfold set_tail, log_pos, log_used, log_len in *. cbn [j_free field_update].
  rewrite mod_once by lia. cbn. unfold u64. 
  repeat case_match; bool_to_prop; lia.
Qed.

Lemma log_pos_set_tail tid j k i :
  log_ok j -> log_pos (set_tail tid (log_pos j k) j) i = log_pos j (k + i).
Proof.
  intros []. unfold log_pos, log_len. cbn. f_equal.
  rewrite Z.add_simpl_l, Zplus_mod_idemp_l. f_equal. lia.
Qed.

Lemma log_used_set_tail tid j k :
  log_ok j -> 0 <= k <= log_used j -> log_used (set_tail tid (log_pos j k) j) = log_used j - k.
Proof. intros Hok Hk. unfold log_used at 1. rewrite set_tail_free by done. unfold log_used, log_len. cbn. lia. Qed.

Lemma log_ok_set_tail tid j k :
  log_ok j -> 0 <= k <= log_used j -> log_ok (set_tail tid (log_pos j k) j).
Proof.
  intros Hok Hk. pose proof (log_pos_range j k Hok). split.
  - apply Hok.
  - apply Hok.
  - done.
  - rewrite set_tail_free by done. pose proof (log_free j Hok). unfold log_used, log_len in *. cbn. lia.
  - rewrite log_used_set_tail, log_pos_set_tail by done. cbn. rewrite (log_head j Hok). f_equal. lia.
Qed.

Lemma log_blocks_set_tail tid j k :
  log_ok j -> 0 <= k <= log_used j ->
  log_blocks (set_tail tid (log_pos j k) j) = drop (Z.to_nat k) (log_blocks j).
Proof.
  intros Hok Hk. unfold log_blocks. rewrite log_used_set_tail by done.
  replace (log_used j) with (k + (log_used j - k)) at 2 by lia.
  rewrite seqZ_app, fmap_app by lia.
  rewrite drop_app_length' by (rewrite length_fmap, length_seqZ; lia).
  replace (seqZ (0 + k) (log_used j - k)) with (Z.add k <$> seqZ 0 (log_used j - k))
    by (rewrite fmap_add_seqZ; f_equal; lia).
  rewrite <-list_fmap_compose. apply list_fmap_ext. intros. by apply log_pos_set_tail.
Qed.

(** ** What the superblock and abort code leave alone *)

(** The log, the transactions in flight and the sequence numbers. *)
Definition same_log (s s' : kstate) : Prop :=
  let j := k_journal s in
  let j' := k_journal s' in
  k_bufs s' = k_bufs s /\ dom (k_trans s') = dom (k_trans s) /\
  j_first j' = j_first j /\ j_last j' = j_last j /\ j_head j' = j_head j /\
  j_tail j' = j_tail j /\ j_free j' = j_free j /\
  j_tail_sequence j' = j_tail_sequence j /\
  j_running_transaction j' = j_running_transaction j /\
  j_committing_transaction j' = j_committing_transaction j /\
  j_checkpoint_transactions j' = j_checkpoint_transactions j.

#[export] Instance same_log_preorder : PreOrder same_log.
Proof.
  split; [by intros s; repeat split|].
  unfold same_log. intros s1 s2 s3 H12 H23. dest. split_and!; congruence.
Qed.

Lemma keeps_modify_journal_log f :
  (forall j, j_first (f j) = j_first j /\ j_last (f j) = j_last j /\ j_head (f j) = j_head j /\
   j_tail (f j) = j_tail j /\ j_free (f j) = j_free j /\
   j_tail_sequence (f j) = j_tail_sequence j /\
   j_running_transaction (f j) = j_running_transaction j /\
   j_committing_transaction (f j) = j_committing_transaction j /\
   j_checkpoint_transactions (f j) = j_checkpoint_transactions j) ->
  keeps same_log (modify_journal f).
Proof.
  intros Hf s a s' [= <- <-]. unfold same_log. cbn. destruct (Hf (k_journal s)). dest. split_and!; done.
Qed.

Lemma keeps_modify_tr_log t f : keeps same_log (modify_tr t f).
Proof.
  intros s a s'. unfold modify_tr. case_match eqn:E; [|done]. intros [= <- <-].
  unfold same_log. cbn. split_and!; try done. rewrite dom_insert_L.
  apply elem_of_dom_2 in E. set_solver.
Qed.

(** Frame conditions by following the code. *)
Ltac keeps_step :=
  lazymatch goal with
  | |- keeps _ (kbind _ _) => apply keeps_bind; [| | intros ?]
  | |- keeps _ (kret _) => apply keeps_ret
  | |- keeps _ (kfault _) => apply keeps_fault
  | |- keeps _ (j_assert _) => apply keeps_assert
  | |- keeps _ read_journal => apply keeps_read_journal
  | |- keeps _ (read_tr _) => apply keeps_read_tr
  | |- keeps _ (modify_tr _ _) => apply keeps_modify_tr_log
  | |- keeps _ (modify_journal _) =>
      apply keeps_modify_journal_log; intros ?; repeat case_match; by split_and!
  | |- keeps _ (match _ with _ => _ end) => case_match
  | |- PreOrder _ => apply _
  end.
Ltac keeps_tac := repeat (keeps_step || (cbv zeta; keeps_step)); auto with vmsep.

Lemma log_start_commit_same_log jiffies target i :
  keeps same_log (__jbd2_vmsep_log_start_commit jiffies target i).
Proof. unfold __jbd2_vmsep_log_start_commit. keeps_tac. Qed.
#[export] Hint Resolve log_start_commit_same_log : vmsep.

Lemma abort_hard_same_log jiffies : keeps same_log (__jbd2_vmsep_journal_abort_hard jiffies).
Proof. unfold __jbd2_vmsep_journal_abort_hard. keeps_tac. Qed.
#[export] Hint Resolve abort_hard_same_log : vmsep.

Section Frame.
Context (submit_sb : journal_t -> Z) (jiffies : Z).

Lemma write_superblock_with_same_log abort :
  (forall e, keeps same_log (abort e)) -> keeps same_log (write_superblock_with submit_sb abort).
Proof. intros. unfold write_superblock_with, submit_superblock. keeps_tac. Qed.

Lemma abort_soft_same_log n errno : keeps same_log (__journal_abort_soft submit_sb jiffies n errno).
Proof.
  revert errno. induction n as [|n IH]; intros errno; cbn -[kbind]; keeps_tac;
    unfold update_sb_errno_with; keeps_tac; apply write_superblock_with_same_log; keeps_tac.
Qed.

Lemma write_superblock_same_log : keeps same_log (jbd2_write_superblock submit_sb jiffies).
Proof. apply write_superblock_with_same_log. intros. apply abort_soft_same_log. Qed.

Lemma update_sb_log_tail_same_log tid block :
  keeps same_log (jbd2_vmsep_journal_update_sb_log_tail submit_sb jiffies tid block).
Proof. unfold jbd2_vmsep_journal_update_sb_log_tail. keeps_tac. apply write_superblock_same_log. Qed.
End Frame.

(** ** Aborting never stops the machine *)

Definition running_live (s : kstate) : Prop :=
  forall t, j_running_transaction (k_journal s) = Some t -> is_Some (k_trans s !! t).

Lemma running_live_same_log s s' : same_log s s' -> running_live s -> running_live s'.
Proof.
  intros Hs Hl t Ht. unfold same_log in Hs. dest. apply elem_of_dom.
  replace (dom (k_trans s')) with (dom (k_trans s)) by congruence.
  apply elem_of_dom, Hl. congruence.
Qed.

(** Whether a request for [target] starts a commit. *)
Definition starts_commit (s : kstate) (target : tid_t) : bool :=
  negb (j_commit_request (k_journal s) =? target) &&
  match j_running_transaction (k_journal s) with
  | Some t => match k_trans s !! t with Some tr => t_tid tr =? target | None => false end
  | None => false
  end.

Lemma log_start_commit_exec jiffies target i s :
  running_live s ->
  wp (__jbd2_vmsep_log_start_commit jiffies target i)
    (fun r s' => r = starts_commit s target /\
       if r then exists t tr, j_running_transaction (k_journal s) = Some t /\
                  k_trans s !! t = Some tr /\ t_tid tr = target /\
                  s' = mk_kstate ((k_journal s) <| j_commit_request := target |>) (k_bufs s)
                         (<[t := tr <| t_requested := jiffies |> <| ino_sync := i |>]> (k_trans s))
       else s' = s) s.
Proof.
  intros Hl. unfold __jbd2_vmsep_log_start_commit, starts_commit. wp_step. wp_step.
  destruct (j_commit_request (k_journal s) =? target); [by wp_step|].
  destruct (j_running_transaction (k_journal s)) as [t|] eqn:Ht; [|by wp_step].
  destruct (Hl t Ht) as [tr Htr]. wp_step. wp_step. rewrite Htr. cbn [negb andb].
  destruct (t_tid tr =? target) eqn:E; [|by wp_step]. bool_to_prop.
  wp_step. wp_step. wp_step. wp_step. wp_step. split; [done|]. by exists t, tr.
Qed.

Lemma abort_hard_exec jiffies s :
  running_live s ->
  wp (__jbd2_vmsep_journal_abort_hard jiffies)
    (fun _ s' => JBD2_ABORT (k_journal s') = true /\ j_errno (k_journal s') = j_errno (k_journal s)) s.
Proof.
  intros Hl. unfold __jbd2_vmsep_journal_abort_hard. wp_step. wp_step.
  apply wp_if; intros Ha; [by wp_step|]. wp_step. wp_step.
  destruct (j_running_transaction (k_journal s)) as [t|] eqn:Ht; [|by wp_step].
  destruct (Hl t Ht) as [tr Htr]. wp_step. wp_step. wp_step.
  eapply wp_mono; [by apply log_start_commit_exec|]. intros r s' [_ Hr]. wp_step.
  destruct r; dest; subst; done.
Qed.

Section Abort.
Context (submit_sb : journal_t -> Z) (jiffies : Z).

Lemma abort_soft_aborted n errno s :
  JBD2_ABORT (k_journal s) = true -> __journal_abort_soft submit_sb jiffies n errno s = Ret (tt, s).
Proof. intros Ha. destruct n; cbn -[kbind]; unfold kbind; cbn; by rewrite Ha. Qed.

(** Writing the superblock of an aborted journal changes only the device. *)
Lemma write_superblock_aborted abort s :
  JBD2_ABORT (k_journal s) = true ->
  (forall e s, JBD2_ABORT (k_journal s) = true -> abort e s = Ret (tt, s)) ->
  wp (write_superblock_with submit_sb abort)
    (fun r s' => r = submit_sb (k_journal s) /\ JBD2_ABORT (k_journal s') = true /\
       j_errno (k_journal s') = j_errno (k_journal s)) s.
Proof.
  intros Ha Habort. unfold write_superblock_with, submit_superblock.
  wp_step. wp_step. wp_step. wp_step. cbv zeta. apply wp_if; intros Hr; rewrite ?Hr.
  - wp_step. wp_step. rewrite Hr. wp_step. wp_step. wp_step. done.
  - wp_step. wp_step. rewrite Hr. wp_step. unfold wp. rewrite Habort by done. by cbn.
Qed.

Lemma abort_soft_exec n errno s :
  running_live s ->
  wp (__journal_abort_soft submit_sb jiffies (S n) errno)
    (fun _ s' => JBD2_ABORT (k_journal s') = true /\
       j_errno (k_journal s') =
         (if negb (JBD2_ABORT (k_journal s)) && (j_errno (k_journal s) =? 0)
          then errno else j_errno (k_journal s))) s.
Proof.
  intros Hl. destruct (JBD2_ABORT (k_journal s)) eqn:Ha.
  { unfold wp. rewrite abort_soft_aborted by done. done. }
  cbn -[kbind]. wp_step. wp_step. rewrite Ha. wp_step. wp_step. wp_step.
  eapply wp_mono; [apply abort_hard_exec|].
  { intros t Ht. kst. apply Hl. by destruct (j_errno _ =? 0). }
  intros _ s1 [Ha1 He1]. kst.
  assert (j_errno (k_journal s1) = if j_errno (k_journal s) =? 0 then errno else j_errno (k_journal s)) as He1'
    by (rewrite He1; by destruct (j_errno (k_journal s) =? 0)).
  apply wp_if; intros He; [by wp_step|]. unfold update_sb_errno_with.
  wp_step. wp_step. wp_step. wp_step.
  eapply wp_mono; [apply write_superblock_aborted; [done|intros; by apply abort_soft_aborted]|].
  intros r s2 (_ & Ha2 & He2). wp_step. wp_step. kst. cbn in *. split; [done|]. congruence.
Qed.

Lemma write_superblock_exec s :
  running_live s ->
  wp (jbd2_write_superblock submit_sb jiffies)
    (fun r s' => r = submit_sb (k_journal s) /\
       if r =? 0 then s' = s <| k_journal ::= fun j => j <| disk_s_sequence := s_sequence j |>
                                   <| disk_s_start := s_start j |> <| disk_s_errno := s_errno j |> |>
       else JBD2_ABORT (k_journal s') = true) s.
Proof.
  intros Hl. unfold jbd2_write_superblock, write_superblock_with, submit_superblock.
  wp_step. wp_step. wp_step. wp_step. cbv zeta. apply wp_if; intros Hr; rewrite ?Hr.
  - wp_step. wp_step. rewrite Hr. wp_step. wp_step. wp_step. by rewrite Hr.
  - wp_step. wp_step. rewrite Hr. wp_step. eapply wp_mono; [by apply abort_soft_exec|].
    intros _ s' [? _]. wp_step. by rewrite Hr.
Qed.
End Abort.

(** One level of recursion is enough for [__journal_abort_soft]. *)
Lemma abort_hard_sets jiffies s a s' :
  __jbd2_vmsep_journal_abort_hard jiffies s = Ret (a, s') -> JBD2_ABORT (k_journal s') = true.
Proof.
  unfold __jbd2_vmsep_journal_abort_hard, __jbd2_vmsep_log_start_commit, kbind. cbn.
  destruct (JBD2_ABORT (k_journal s)) eqn:Ha; [by intros [= <- <-]|].
  destruct (j_running_transaction _) as [t|] eqn:Ht; [|by intros [= <- <-]].
  unfold read_tr, modify_tr. cbn. destruct (k_trans s !! t) as [tr|] eqn:Htr; [|done]. cbn.
  destruct (_ =? _); [by intros [= <- <-]|]. cbn. rewrite ?Ht, ?Htr. cbn. rewrite ?Htr, Z.eqb_refl.
  cbn. rewrite ?Htr. by intros [= <- <-].
Qed.

Lemma abort_soft_fuel submit_sb jiffies n errno s :
  __journal_abort_soft submit_sb jiffies (S n) errno s = __journal_abort_soft submit_sb jiffies 1 errno s.
Proof.
  assert (forall m s1, JBD2_ABORT (k_journal s1) = true ->
    update_sb_errno_with submit_sb (__journal_abort_soft submit_sb jiffies m) s1 =
    update_sb_errno_with submit_sb (fun _ => kret tt) s1) as Hsame.
  { intros m s1 Ha. unfold update_sb_errno_with, write_superblock_with, submit_superblock, kbind. cbn.
    destruct (submit_sb _ =? 0) eqn:E; cbn; rewrite E; [done|]. by rewrite abort_soft_aborted. }
  assert (exists r, forall m, __journal_abort_soft submit_sb jiffies (S m) errno s = r) as [r Hr];
    [|by rewrite !Hr].
  destruct (JBD2_ABORT (k_journal s)) eqn:Ha.
  { exists (Ret (tt, s)). intros m. by apply abort_soft_aborted. }
  destruct (__jbd2_vmsep_journal_abort_hard jiffies
    (s <| k_journal ::= fun j => if j_errno j =? 0 then j <| j_errno := errno |> else j |>))
    as [[a s1]|f] eqn:E;
    [pose proof (abort_hard_sets _ _ _ _ E) as Ha1; destruct (errno =? 0) eqn:He|];
    eexists; intros m; cbn [__journal_abort_soft]; unfold kbind at 1; cbn [read_journal]; rewrite Ha;
    unfold kbind; cbn [modify_journal]; rewrite E, ?He; [reflexivity| |reflexivity].
  rewrite (Hsame m) by done. reflexivity.
Qed.

(** ** Properties *)

Lemma log_ok_same_log s s' : same_log s s' -> log_ok (k_journal s) -> log_ok (k_journal s').
Proof.
  unfold same_log. intros Hs []. dest.
  split; unfold log_len, log_used, log_pos, log_len in *; congruence || lia.
Qed.

Lemma log_blocks_same_log s s' : same_log s s' -> log_blocks (k_journal s') = log_blocks (k_journal s).
Proof.
  unfold same_log, log_blocks, log_used, log_pos, log_len. intros Hs. dest.
  replace (j_first (k_journal s')) with (j_first (k_journal s)) by congruence.
  replace (j_last (k_journal s')) with (j_last (k_journal s)) by congruence.
  replace (j_free (k_journal s')) with (j_free (k_journal s)) by congruence.
  replace (j_tail (k_journal s')) with (j_tail (k_journal s)) by congruence. done.
Qed.

Lemma bmap_exec submit_sb jiffies ino blocknr s :
  running_live s ->
  wp (jbd2_vmsep_journal_bmap submit_sb jiffies ino blocknr)
    (fun r s' => same_log s s' /\
       r = match ino with
           | Some bmap => if bmap blocknr =? 0 then (- EIO, 0) else (0, bmap blocknr)
           | None => (0, blocknr) end /\
       (r.1 <> 0 -> JBD2_ABORT (k_journal s') = true)) s.
Proof.
  intros Hl. unfold jbd2_vmsep_journal_bmap. destruct ino as [bmap|]; [|by wp_step].
  apply wp_if; intros Hb; rewrite Hb; [|by wp_step]. wp_step.
  eapply wp_mono; [apply (wp_keeps same_log); [apply abort_soft_same_log|by apply abort_soft_exec]|].
  intros _ s' [[? _] ?]. by wp_step.
Qed.

(** C16: [jbd2_vmsep_journal_next_log_block] hands out log blocks in order: the block at
    [j_head], which no transaction still in the log uses, becomes the newest
    element of the queue of used blocks (the blocks from [j_tail] to [j_head],
    wrapping from [j_last] to [j_first]), whose elements stay pairwise distinct;
    the result is that block's mapping, or [-EIO] with the journal aborted when the
    journal's inode does not map it. *)
Theorem next_log_block_queue submit_sb jiffies ino s :
  log_ok (k_journal s) -> running_live s -> 1 < j_free (k_journal s) ->
  wp (jbd2_vmsep_journal_next_log_block submit_sb jiffies ino)
    (fun r s' => let block := j_head (k_journal s) in
       log_ok (k_journal s') /\ NoDup (log_blocks (k_journal s')) /\
       log_blocks (k_journal s') = log_blocks (k_journal s) ++ [block] /\
       r = match ino with
           | Some bmap => if bmap block =? 0 then (- EIO, 0) else (0, bmap block)
           | None => (0, block) end /\
       (r.1 <> 0 -> JBD2_ABORT (k_journal s') = true)) s.
Proof.
  intros Hok Hl Hf. unfold jbd2_vmsep_journal_next_log_block, take_log_block.
  wp_step. wp_step. wp_step. wp_step. wp_step; [by apply Z.ltb_lt|]. wp_step. wp_step. wp_step. kst.
  fold (take_block (k_journal s)).
  set (s1 := mk_kstate (take_block (k_journal s)) (k_bufs s) (k_trans s)).
  assert (log_ok (k_journal s1)) as Hok1 by (by apply log_ok_take).
  eapply wp_mono; [apply (bmap_exec submit_sb jiffies ino _ s1)|].
  { intros t Ht. apply Hl. rewrite <-Ht. subst s1. cbn. unfold take_block. by case_match. }
  intros r s' (Hs & Hr & Ha). split_and!; [by eapply log_ok_same_log| | |done|done].
  - apply NoDup_log_blocks. by eapply log_ok_same_log.
  - rewrite (log_blocks_same_log s1 s' Hs). by apply log_blocks_take.
Qed.

Definition ex_journal : journal_t :=
  zero_journal <| j_first := 1 |> <| j_last := 9 |> <| j_tail := 7 |> <| j_head := 2 |>
    <| j_free := 5 |> <| j_tail_sequence := 4 |>.
Definition ex_log : kstate := mk_kstate ex_journal ∅ ∅.

Lemma next_log_block_queue_witness :
  log_blocks ex_journal = [7; 8; 1] /\
  wp (jbd2_vmsep_journal_next_log_block (fun _ => 0) 0 (Some (fun b => 100 + b)))
    (fun r s' => r = (0, 102) /\ log_blocks (k_journal s') = [7; 8; 1; 2]) ex_log.
Proof.
  split; [reflexivity|].
  eapply wp_mono; [apply (next_log_block_queue (fun _ => 0) 0 (Some (fun b => 100 + b)) ex_log)|].
  - apply log_okb_sound. reflexivity.
  - intros t [=].
  - reflexivity.
  - intros r s' (_ & _ & Hb & Hr & _). split; [exact Hr|exact Hb].
Defined.

(** The position of the first block of the part of the log that stays. *)
Lemma log_split_pos j l1 l2 :
  log_ok j -> log_blocks j = l1 ++ l2 ->
  0 <= Z.of_nat (length l1) <= log_used j /\
  default (j_head j) (head l2) = log_pos j (Z.of_nat (length l1)).
Proof.
  intros Hok Hbl. pose proof (f_equal length Hbl) as Hlen. unfold log_blocks in Hlen.
  rewrite length_fmap, length_seqZ, length_app in Hlen.
  pose proof (log_free _ Hok). unfold log_used in *. split; [lia|].
  destruct l2 as [|y l2]; cbn in *.
  - rewrite (log_head _ Hok). unfold log_used. f_equal. lia.
  - assert (log_blocks j !! length l1 = Some y) as Hy
      by (rewrite Hbl; by apply list_lookup_middle).
    unfold log_blocks in Hy. rewrite list_lookup_fmap, lookup_seqZ_lt in Hy by (unfold log_used; lia).
    cbn in Hy. by injection Hy as <-.
Qed.

Lemma log_pos_same_log s s' k : same_log s s' -> log_pos (k_journal s') k = log_pos (k_journal s) k.
Proof. unfold same_log, log_pos, log_len. intros. dest. congruence. Qed.

Lemma update_sb_log_tail_exec submit_sb jiffies tid block s :
  running_live s ->
  wp (jbd2_vmsep_journal_update_sb_log_tail submit_sb jiffies tid block)
    (fun r s' => same_log s s' /\
       r = submit_sb ((k_journal s) <| s_sequence := tid |> <| s_start := u32 block |>) /\
       (r = 0 -> disk_s_sequence (k_journal s') = tid /\ disk_s_start (k_journal s') = u32 block) /\
       (r <> 0 -> JBD2_ABORT (k_journal s') = true)) s.
Proof.
  intros Hl. eapply wp_mono;
    [apply (wp_keeps same_log _ (fun r s' =>
       r = submit_sb ((k_journal s) <| s_sequence := tid |> <| s_start := u32 block |>) /\
       (r = 0 -> disk_s_sequence (k_journal s') = tid /\ disk_s_start (k_journal s') = u32 block) /\
       (r <> 0 -> JBD2_ABORT (k_journal s') = true)) _ (update_sb_log_tail_same_log _ _ _ _))
    |by intros ? ? [? ?]].
  unfold jbd2_vmsep_journal_update_sb_log_tail. wp_step. wp_step. wp_step.
  eapply wp_mono; [by apply write_superblock_exec|]. intros r s' [-> Hw].
  destruct (submit_sb _ =? 0) eqn:Hr; bool_to_prop; cbv iota.
  - wp_step. wp_step. wp_step. subst s'. done.
  - wp_step. split_and!; [done|lia|done].
Qed.

(** Moving the tail to the start of [l2]. *)
Lemma update_log_tail_spec submit_sb jiffies tid l1 l2 s :
  log_ok (k_journal s) -> running_live s -> log_blocks (k_journal s) = l1 ++ l2 ->
  let block := default (j_head (k_journal s)) (head l2) in
  wp (__jbd2_vmsep_update_log_tail submit_sb jiffies tid block)
    (fun r s' =>
       r = submit_sb ((k_journal s) <| s_sequence := tid |> <| s_start := u32 block |>) /\
       ((r = 0 /\ log_ok (k_journal s') /\ log_blocks (k_journal s') = l2 /\
        j_free (k_journal s') = j_free (k_journal s) + Z.of_nat (length l1) /\
        disk_s_sequence (k_journal s') = tid /\ disk_s_start (k_journal s') = block /\
        j_tail_sequence (k_journal s') = tid) \/
       (r <> 0 /\ log_ok (k_journal s') /\ log_blocks (k_journal s') = l1 ++ l2 /\
        j_tail (k_journal s') = j_tail (k_journal s) /\ JBD2_ABORT (k_journal s') = true))) s.
Proof.
  intros Hok Hl Hbl block. destruct (log_split_pos _ _ _ Hok Hbl) as [Hk Hblock].
  set (k := Z.of_nat (length l1)) in *. subst block. rewrite Hblock.
  unfold __jbd2_vmsep_update_log_tail. wp_step.
  eapply wp_mono; [by apply update_sb_log_tail_exec|]. intros r s1 (Hs & Hret & H0 & Hne).
  pose proof (log_ok_same_log _ _ Hs Hok) as Hok1. pose proof (log_blocks_same_log _ _ Hs) as Hb1.
  destruct (log_split_pos _ _ _ Hok1 (eq_trans Hb1 Hbl)) as [Hk1 _]. fold k in Hk1.
  pose proof (log_pos_range _ k Hok1). pose proof (log_last _ Hok1). pose proof (log_first _ Hok1).
  destruct (r =? 0) eqn:Hr; bool_to_prop.
  - wp_step. wp_step. wp_step. split; [congruence|]. left. rewrite <-(log_pos_same_log s s1 k Hs) in *. destruct (H0 Hr) as [Hseq Hst]. kst.
    fold (set_tail tid (log_pos (k_journal s1) k) (k_journal s1)). split_and!; [done| | | | | |done].
    + by apply log_ok_set_tail.
    + rewrite log_blocks_set_tail, Hb1, Hbl by done. subst k. rewrite Nat2Z.id. by apply drop_app_length.
    + rewrite set_tail_free by done. unfold same_log in Hs. dest. lia.
    + done.
    + cbn. rewrite Hst, (log_pos_same_log s s1 k Hs). apply u32_id. unfold is_u32.
      rewrite <-(log_pos_same_log s s1 k Hs). lia.
  - wp_step. split; [done|]. right. split_and!; [done|done|by rewrite Hb1| |by apply Hne].
    unfold same_log in Hs. dest. done.
Qed.

(** C17: [__jbd2_vmsep_update_log_tail] retires the oldest part of the log: when the used blocks
    are [l1 ++ l2] and the new tail is the first block of [l2] (or the head, when [l2] is
    empty), the used blocks become [l2] and the space of [l1] is free again, but only
    after the superblock on the device names the new tail; when that write fails
    the tail does not move, the error is returned and the journal is aborted. *)
Theorem update_log_tail_queue submit_sb jiffies tid l1 l2 s :
  log_ok (k_journal s) -> running_live s -> log_blocks (k_journal s) = l1 ++ l2 ->
  let block := default (j_head (k_journal s)) (head l2) in
  wp (__jbd2_vmsep_update_log_tail submit_sb jiffies tid block)
    (fun r s' =>
       r = submit_sb ((k_journal s) <| s_sequence := tid |> <| s_start := u32 block |>) /\
       ((r = 0 /\ log_ok (k_journal s') /\ log_blocks (k_journal s') = l2 /\
        j_free (k_journal s') = j_free (k_journal s) + Z.of_nat (length l1) /\
        disk_s_sequence (k_journal s') = tid /\ disk_s_start (k_journal s') = block /\
        j_tail_sequence (k_journal s') = tid) \/
       (r <> 0 /\ log_ok (k_journal s') /\ log_blocks (k_journal s') = l1 ++ l2 /\
        j_tail (k_journal s') = j_tail (k_journal s) /\ JBD2_ABORT (k_journal s') = true))) s.
Proof. apply update_log_tail_spec. Qed.

Lemma update_log_tail_queue_witness :
  wp (__jbd2_vmsep_update_log_tail (fun _ => 0) 0 5 1)
    (fun r s' => r = 0 /\ log_blocks (k_journal s') = [1] /\ disk_s_start (k_journal s') = 1) ex_log /\
  wp (__jbd2_vmsep_update_log_tail (fun _ => - EIO) 0 5 1)
    (fun r s' => r <> 0 /\ log_blocks (k_journal s') = [7; 8; 1]) ex_log.
Proof.
  split.
  - eapply wp_mono; [apply (update_log_tail_queue (fun _ => 0) 0 5 [7; 8] [1] ex_log);
      [apply log_okb_sound; reflexivity|intros t [=]|reflexivity]|].
    intros r s' [Hr [(? & _ & ? & _ & _ & ? & _)|(Hne & _)]]; [done|by destruct Hne].
  - eapply wp_mono; [apply (update_log_tail_queue (fun _ => - EIO) 0 5 [7; 8] [1] ex_log);
      [apply log_okb_sound; reflexivity|intros t [=]|reflexivity]|].
    intros r s' [Hr [(He & _)|(Hne & _ & Hb & _)]]; [|done]. rewrite Hr in He. discriminate He.
Defined.

(** Aborting the journal is sticky and keeps the first error: afterwards
    [JBD2_ABORT] is set, [j_errno] is the error of the first abort, the log, its tail and the
    transactions in flight are as before, the call never recurses more than
    once into itself, and it never stops the machine even if the
    superblock cannot be written. *)
Theorem journal_abort_sticks submit_sb jiffies errno s :
  running_live s ->
  wp (jbd2_vmsep_journal_abort submit_sb jiffies errno)
    (fun _ s' => JBD2_ABORT (k_journal s') = true /\
       j_errno (k_journal s') =
         (if negb (JBD2_ABORT (k_journal s)) && (j_errno (k_journal s) =? 0)
          then errno else j_errno (k_journal s)) /\
       log_blocks (k_journal s') = log_blocks (k_journal s) /\
       (forall errno', jbd2_vmsep_journal_abort submit_sb jiffies errno' s' = Ret (tt, s')) /\
       (forall n, __journal_abort_soft submit_sb jiffies (S n) errno s = Ret (tt, s'))) s.
Proof.
  intros Hl. unfold jbd2_vmsep_journal_abort. apply wp_returns.
  destruct (proj1 (wp_returns _ _ _)
    (wp_keeps same_log _ _ _ (abort_soft_same_log submit_sb jiffies 1 errno)
       (abort_soft_exec submit_sb jiffies 0 errno s Hl))) as ([] & s' & Hrun & (Ha & He) & Hs).
  exists tt, s'. split_and!; [done|done|done|by apply log_blocks_same_log| |].
  - intros errno'. by apply abort_soft_aborted.
  - intros n. by rewrite abort_soft_fuel.
Qed.

Lemma journal_abort_sticks_witness :
  wp (jbd2_vmsep_journal_abort (fun _ => - EIO) 0 (- EIO))
    (fun _ s' => JBD2_ABORT (k_journal s') = true /\ j_errno (k_journal s') = - EIO) ex_log.
Proof.
  eapply wp_mono; [apply (journal_abort_sticks (fun _ => - EIO) 0 (- EIO) ex_log); intros t [=]|].
  intros _ s' (Ha & He & _). split; [exact Ha|exact He].
Defined.

Definition reset_log (j : journal_t) : journal_t :=
  j <| j_first := s_first j |> <| j_last := s_maxlen j |>
    <| j_head := s_first j |> <| j_tail := s_first j |> <| j_free := u64 (s_maxlen j - s_first j) |>
    <| j_tail_sequence := j_transaction_sequence j |>
    <| j_commit_sequence := u32 (j_transaction_sequence j - 1) |>
    <| j_commit_request := u32 (j_transaction_sequence j - 1) |>
    <| j_max_transaction_buffers := j_maxlen j / 4 |>.

Lemma reset_log_ok j :
  0 <= s_first j < s_maxlen j -> is_u32 (s_maxlen j) ->
  log_ok (reset_log j) /\ log_used (reset_log j) = 0.
Proof.
  intros Hf Hm. unfold is_u32 in Hm.
  assert (j_free (reset_log j) = s_maxlen j - s_first j) as Ef
    by (cbn; apply u64_id; unfold is_u64; lia).
  assert (log_len (reset_log j) = s_maxlen j - s_first j) as El by done.
  assert (log_used (reset_log j) = 0) as Eu by (unfold log_used; lia).
  split; [|done]. split; rewrite ?Ef, ?El, ?Eu; cbn; try lia.
  unfold log_pos. rewrite El. cbn. rewrite Z.sub_diag, Zmod_0_l. lia.
Qed.

(** [journal_reset] gives an empty, well-formed log that covers the superblock's
    range of blocks, with the sequence numbers of an idle journal, or refuses
    with [-EINVAL] a range of fewer than [JBD2_MIN_JOURNAL_BLOCKS] blocks without touching the
    journal. *)
Theorem journal_reset_empty submit_sb jiffies s :
  running_live s -> 0 <= s_first (k_journal s) -> is_u32 (s_maxlen (k_journal s)) ->
  wp (journal_reset submit_sb jiffies)
    (fun r s' =>
       if s_maxlen (k_journal s) - s_first (k_journal s) <? JBD2_MIN_JOURNAL_BLOCKS - 1
       then r = - EINVAL /\ s' = s
       else r = 0 /\ log_ok (k_journal s') /\ log_blocks (k_journal s') = [] /\
            j_first (k_journal s') = s_first (k_journal s) /\
            j_last (k_journal s') = s_maxlen (k_journal s) /\
            j_tail_sequence (k_journal s') = j_transaction_sequence (k_journal s)) s.
Proof.
  intros Hl Hf Hm. unfold journal_reset, JBD2_MIN_JOURNAL_BLOCKS. wp_step. wp_step. cbv zeta.
  destruct (_ <? s_first (k_journal s) + 1024) eqn:E; bool_to_prop.
  { wp_step. rewrite (proj2 (Z.ltb_lt _ _)) by lia. done. }
  rewrite (proj2 (Z.ltb_ge _ _)) by lia. unfold is_u32 in *.
  wp_step. wp_step. wp_step. wp_step.
  assert (exists s1, s1 = mk_kstate (reset_log (k_journal s)) (k_bufs s) (k_trans s)) as [s1 Hs1] by eauto.
  destruct (reset_log_ok (k_journal s)) as [Hok Hu]; [lia|done|].
  assert (log_blocks (reset_log (k_journal s)) = []) as Hb by (unfold log_blocks; by rewrite Hu).
  match goal with |- wp _ _ ?s0 => change s0 with (mk_kstate (reset_log (k_journal s)) (k_bufs s) (k_trans s)) end.
  rewrite <-Hs1.
  assert (forall s2, same_log s1 s2 -> log_ok (k_journal s2) /\ log_blocks (k_journal s2) = [] /\
    j_first (k_journal s2) = s_first (k_journal s) /\ j_last (k_journal s2) = s_maxlen (k_journal s) /\
    j_tail_sequence (k_journal s2) = j_transaction_sequence (k_journal s)) as Hdone.
  { intros s2 Hsl. pose proof Hsl as (_ & _ & E1 & E2 & _ & _ & _ & E3 & _). rewrite E1, E2, E3, Hs1.
    split_and!; [by eapply log_ok_same_log; [|rewrite Hs1]|rewrite (log_blocks_same_log s1), Hs1 by done; exact Hb|done..]. }
  assert (running_live s1) as Hl1 by (rewrite Hs1; exact Hl).
  clear Hs1. wp_step. apply wp_if; intros Hs.
  - wp_step. wp_step. split; [done|]. apply Hdone. unfold same_log. kst. by split_and!.
  - wp_step. eapply wp_mono; [by apply update_sb_log_tail_exec|]. intros r s2 (Hsl & _).
    wp_step. wp_step. split; [done|]. by apply Hdone.
Qed.

Lemma journal_reset_empty_witness :
  wp (journal_reset (fun _ => 0) 0) (fun r s' => r = 0 /\ log_ok (k_journal s'))
    (ex_log <| k_journal ::= fun j => j <| s_first := 1 |> <| s_maxlen := 1024 |> |>) /\
  wp (journal_reset (fun _ => 0) 0) (fun r s' => r = - EINVAL) ex_log.
Proof.
  split.
  - eapply wp_mono; [apply (journal_reset_empty (fun _ => 0) 0); [intros t [=]|cbn; lia|cbn; split; lia]|].
    intros r s' H. destruct H as (? & ? & _). done.
  - eapply wp_mono; [apply (journal_reset_empty (fun _ => 0) 0 ex_log); [intros t [=]|cbn; lia|cbn; split; lia]|].
    intros r s' H. apply H.
Defined.

(** C30: [jbd2_log_space_left] is the free space of the log less 32 blocks and the
    credits and control blocks of the committing transaction, when that much is free;
    below it the unsigned subtraction wraps and the function reports an almost
    unlimited log. *)
Theorem log_space_left_exact s :
  (forall t, j_committing_transaction (k_journal s) = Some t ->
     exists tr, k_trans s !! t = Some tr /\ 0 <= t_outstanding_credits tr < 2147483648) ->
  0 <= j_free (k_journal s) < 4294967296 ->
  wp jbd2_log_space_left
    (fun r s' => s' = s /\
       let c := match j_committing_transaction (k_journal s) with
                | Some t => match k_trans s !! t with Some tr => t_outstanding_credits tr | None => 0 end
                | None => 0 end in
       let reserve := 32 + c + c / 32 in
       r = if reserve <=? j_free (k_journal s) then j_free (k_journal s) - reserve
           else 2 ^ 64 - (reserve - j_free (k_journal s))) s.
Proof.
  intros Hc Hf. unfold jbd2_log_space_left. wp_step. wp_step. cbv zeta.
  destruct (j_committing_transaction (k_journal s)) as [t|].
  - destruct (Hc t eq_refl) as (tr & Htr & Hcr). rewrite Htr. wp_step. wp_step. wp_step.
    split; [done|]. rewrite (u64_id (t_outstanding_credits tr)) by (unfold is_u64; lia).
    unfold JBD2_CONTROL_BLOCKS_SHIFT. rewrite Z.shiftr_div_pow2 by lia.
    change (2 ^ 5) with 32. change (2 ^ 64) with 18446744073709551616. unfold u64.
    case_match; bool_to_prop; lia.
  - wp_step. split; [done|]. change (2 ^ 64) with 18446744073709551616. unfold u64.
    case_match; bool_to_prop; lia.
Qed.

Lemma log_space_left_exact_witness :
  wp jbd2_log_space_left (fun r _ => r = 18446744073709551589) ex_log.
Proof.
  eapply wp_mono; [apply (log_space_left_exact ex_log); [by intros t [=]|cbn; lia]|].
  intros r s' [_ ->]. vm_compute. reflexivity.
Defined.

(** A request for a commit starts one exactly when its transaction is running and not
    requested yet; only then is the inode to synchronise recorded in the
    transaction, together with the request.  A request that arrives second changes
    nothing, whatever its inode. *)
Theorem log_start_commit_records jiffies target i s :
  running_live s ->
  wp (jbd2_vmsep_log_start_commit jiffies target i)
    (fun r s' =>
       (r = true <-> j_commit_request (k_journal s) <> target /\
          exists t tr, j_running_transaction (k_journal s) = Some t /\
            k_trans s !! t = Some tr /\ t_tid tr = target) /\
       (r = false -> s' = s) /\
       (r = true -> j_commit_request (k_journal s') = target /\
          exists t tr', j_running_transaction (k_journal s') = Some t /\
            k_trans s' !! t = Some tr' /\ t_tid tr' = target /\ ino_sync tr' = i)) s.
Proof.
  intros Hl. unfold jbd2_vmsep_log_start_commit. eapply wp_mono; [by apply log_start_commit_exec|].
  intros r s' [-> Hs']. unfold starts_commit in *.
  destruct (j_commit_request (k_journal s) =? target) eqn:Hreq; bool_to_prop; cbn [negb andb] in *.
  { split_and!; [split; [done|naive_solver]|done|done]. }
  destruct (j_running_transaction (k_journal s)) as [t|] eqn:Ht.
  2:{ split_and!; [split; [done|naive_solver]|done|done]. }
  destruct (k_trans s !! t) as [tr|] eqn:Htr.
  2:{ destruct (Hl t Ht) as [? ?]. congruence. }
  destruct (t_tid tr =? target) eqn:Etid; bool_to_prop.
  - destruct Hs' as (t' & tr' & [= <-] & Htr' & Htid & ->). simplify_eq.
    split_and!; [split; [|done]|done|]; intros _.
    + split; [done|]. by exists t, tr.
    + split; [done|]. exists t. eexists. cbn. rewrite Ht, lookup_insert_eq. by split_and!.
  - split_and!; [split; [done|naive_solver]|done|done].
Qed.

Definition ex_request : kstate :=
  mk_kstate (ex_journal <| j_running_transaction := Some 1%positive |> <| j_commit_request := 6 |>) ∅
    {[ 1%positive := zero_transaction <| t_tid := 7 |> ]}.

Lemma log_start_commit_records_witness :
  wp (jbd2_vmsep_log_start_commit 0 7 42) (fun r _ => r = true) ex_request /\
  wp (jbd2_vmsep_log_start_commit 0 6 42) (fun _ s' => s' = ex_request) ex_request.
Proof.
  split; (eapply wp_mono; [apply (log_start_commit_records _ _ _ ex_request); intros t [= <-]; by eexists|]);
    cbv beta; intros r s' (Hr & Hf & _).
  - apply Hr. split; [done|]. by eexists _, _.
  - apply Hf. destruct r; [|done]. by destruct (proj1 Hr eq_refl).
Defined.
