(* ===== verification/Handle.v ===== *)
(** * Transactions and handles

    Creating the running transaction and attaching handles to it, with the
    accounting of buffer credits: [jbd2_get_transaction] to
    [jbd2_vmsep_journal_unlock_updates] and [jbd2_vmsep_journal_stop] of
    kernel/fs/jbd2/transaction.c, and the waiting for commits of
    kernel/fs/jbd2/journal.c.

    A task that must wait lets other tasks run.  What they do is not under its
    control, so every function that can wait takes the list [envs] of the
    steps other tasks take, one per time it gives up the processor; a
    result of [None] means that the list ended while it was still waiting.

    The credits ([h_buffer_credits], [t_outstanding_credits], [j_reserved_credits]), [int]s in the source, are integers without
    bounds: they count blocks of the log and stay below the size of the journal as long as the callers ask for no more. *)
From S2P Require Import Prelude Tid State Blist JournalHead Filing Log.

(** [handle_t]; [h_rsv_handle] holds the credits of the reserved handle that
    hangs off this one. *)
Record handle_t := mk_handle {
  h_transaction : option tr_id;
  h_rsv_handle : option Z;
  h_buffer_credits : Z;
  h_ref : Z;
  h_err : Z;
  h_sync : bool;
  h_reserved : bool;
  h_aborted : bool;
  h_requested_credits : Z;
}.
#[export] Instance eta_handle : Eta _ := fun h =>
  mk_handle (h_transaction h) (h_rsv_handle h) (h_buffer_credits h) (h_ref h) (h_err h)
    (h_sync h) (h_reserved h) (h_aborted h) (h_requested_credits h).

(** [new_handle]; the allocation succeeds. *)
Definition new_handle (nblocks : Z) : handle_t :=
  mk_handle None None nblocks 1 0 false false false 0.

Definition is_handle_aborted (h : handle_t) : K kstate bool :=
  if h_aborted h || bool_decide (h_transaction h = None) then kret true
  else is_journal_aborted.

(** ** Transactions *)

(** [kmem_cache_zalloc(transaction_cache)] and [kmem_cache_free]. *)
Definition zalloc_transaction : K kstate tr_id := fun s =>
  let t := fresh (dom (k_trans s)) in
  Ret (t, s <| k_trans ::= <[t := zero_transaction]> |>).
Definition jbd2_vmsep_journal_free_transaction (t : tr_id) : K kstate unit := fun s =>
  Ret (tt, s <| k_trans ::= delete t |>).

Section Handle.
Context (jiffies : Z).

Definition jbd2_get_transaction (t : tr_id) : K kstate unit :=
  j <- read_journal ;;
  modify_tr t (fun tr => tr <| t_state := T_RUNNING |>
    <| t_tid := j_transaction_sequence j |>
    <| t_expires := u64 (jiffies + j_commit_interval j) |>
    <| t_updates := 0 |>
    <| t_outstanding_credits := j_reserved_credits j |>
    <| t_handle_count := 0 |>) ;;;
  modify_journal (fun j => j <| j_transaction_sequence := u32 (j_transaction_sequence j + 1) |>) ;;;
  j_assert (bool_decide (j_running_transaction j = None)) ;;;
  modify_journal (fun j => j <| j_running_transaction := Some t |>) ;;;
  modify_tr t (fun tr => tr <| t_requested := 0 |>).

Definition alloc_new_transaction : K kstate tr_id :=
  t <- zalloc_transaction ;;
  jbd2_get_transaction t ;;;
  kret t.

(** ** Credits *)

Definition sub_reserved_credits (blocks : Z) : K kstate unit :=
  modify_journal (fun j => j <| j_reserved_credits := j_reserved_credits j - blocks |>).
Definition add_credits (t : tr_id) (n : Z) : K kstate unit :=
  modify_tr t (fun tr => tr <| t_outstanding_credits := t_outstanding_credits tr + n |>).

(** What a task that could not join the transaction waits for. *)
Inductive wait :=
| WaitBarrier
| WaitLocked
| WaitReserved (limit : Z)   (* until j_reserved_credits <= limit *)
| WaitSpace.

(** [wait_transaction_locked], up to its [schedule()]. *)
Definition wait_transaction_locked : K kstate unit :=
  j <- read_journal ;;
  match j_running_transaction j with
  | None => kfault Oops
  | Some t =>
    tr <- read_tr t ;;
    if tid_geq (j_commit_request j) (t_tid tr) then kret tt
    else jbd2_vmsep_log_start_commit jiffies (t_tid tr) 0 ;;; kret tt
  end.

(** [None]: the handle joined.  [Some w]: it must wait for [w] and retry. *)
Definition add_transaction_credits (blocks rsv_blocks : Z) : K kstate (option wait) :=
  j <- read_journal ;;
  match j_running_transaction j with
  | None => kfault Oops
  | Some t =>
    tr <- read_tr t ;;
    let total := blocks + rsv_blocks in
    if bool_decide (t_state tr = T_LOCKED)
    then wait_transaction_locked ;;; kret (Some WaitLocked)
    else
      add_credits t total ;;;
      let needed := t_outstanding_credits tr + total in
      if j_max_transaction_buffers j <? needed
      then
        add_credits t (- total) ;;;
        if j_max_transaction_buffers j <? j_reserved_credits j + total
        then kret (Some (WaitReserved (j_max_transaction_buffers j - total)))
        else wait_transaction_locked ;;; kret (Some WaitLocked)
      else
        left <- jbd2_log_space_left ;;
        if left <? u64 (jbd2_space_needed j)
        then add_credits t (- total) ;;; kret (Some WaitSpace)
        else if rsv_blocks =? 0 then kret None
        else
          modify_journal (fun j => j <| j_reserved_credits := j_reserved_credits j + rsv_blocks |>) ;;;
          if j_max_transaction_buffers j / 2 <? j_reserved_credits j + rsv_blocks
          then
            sub_reserved_credits rsv_blocks ;;;
            add_credits t (- total) ;;;
            kret (Some (WaitReserved (j_max_transaction_buffers j / 2 - rsv_blocks)))
          else kret None
  end.

(** ** Starting a handle *)

Inductive pass_result :=
| Started (h : handle_t)
| Failed (err : Z)
| Again
| Wait (w : wait).

(** One pass from [repeat] of [start_this_handle].  [alloc_ok]: whether
    [kmem_cache_zalloc] finds memory for a new transaction. *)
Definition start_pass (alloc_ok : bool) (h : handle_t) : K kstate pass_result :=
  let blocks := h_buffer_credits h in
  let rsv_blocks := default 0 (h_rsv_handle h) in
  j <- read_journal ;;
  if bool_decide (j_running_transaction j = None) && negb alloc_ok then kret (Failed (- ENOMEM))
  else
    j_assert (negb (JBD2_UNMOUNT j)) ;;;
    if JBD2_ABORT j || (negb (j_errno j =? 0) && negb (JBD2_ACK_ERR j))
    then kret (Failed (- EROFS))
    else if negb (h_reserved h) && negb (j_barrier_count j =? 0) then kret (Wait WaitBarrier)
    else match j_running_transaction j with
    | None =>
      t <- zalloc_transaction ;;
      jbd2_get_transaction t ;;;
      kret Again
    | Some t =>
      w <- (if h_reserved h then sub_reserved_credits blocks ;;; kret None
            else add_transaction_credits blocks rsv_blocks) ;;
      match w with
      | Some w => kret (Wait w)
      | None =>
        modify_tr t (fun tr => tr <| t_updates := t_updates tr + 1 |>
                                  <| t_handle_count := t_handle_count tr + 1 |>) ;;;
        kret (Started (h <| h_reserved := false |> <| h_transaction := Some t |>
                         <| h_requested_credits := blocks |>))
      end
    end.

Fixpoint start_loop (alloc_ok : bool) (envs : list (K kstate unit)) (h : handle_t)
  : K kstate (option (Z + handle_t)) :=
  r <- start_pass alloc_ok h ;;
  match r with
  | Started h' => kret (Some (inr h'))
  | Failed err => kret (Some (inl err))
  | Again | Wait _ =>
    match envs with
    | [] => kret None
    | env :: envs => env ;;; start_loop alloc_ok envs h
    end
  end.

Definition start_this_handle (alloc_ok : bool) (envs : list (K kstate unit)) (h : handle_t)
  : K kstate (option (Z + handle_t)) :=
  let blocks := h_buffer_credits h in
  let rsv_blocks := default 0 (h_rsv_handle h) in
  j <- read_journal ;;
  if (j_max_transaction_buffers j / 2 <? rsv_blocks) ||
     (j_max_transaction_buffers j <? rsv_blocks + blocks)
  then kret (Some (inl (- ENOSPC)))
  else start_loop alloc_ok envs h.

(** [current] is the handle in [current->journal_info]. *)
Definition jbd2_vmsep__journal_start (alloc_ok : bool) (envs : list (K kstate unit))
    (current : option handle_t) (nblocks rsv_blocks : Z) : K kstate (option (Z + handle_t)) :=
  match current with
  | Some h => kret (Some (inr (h <| h_ref := h_ref h + 1 |>)))
  | None =>
    let h := new_handle nblocks in
    let h := if rsv_blocks =? 0 then h else h <| h_rsv_handle := Some rsv_blocks |> in
    start_this_handle alloc_ok envs h
  end.

Definition jbd2_vmsep_journal_start (alloc_ok : bool) (envs : list (K kstate unit))
    (current : option handle_t) (nblocks : Z) : K kstate (option (Z + handle_t)) :=
  jbd2_vmsep__journal_start alloc_ok envs current nblocks 0.

(** [h_journal] shares its storage with [h_transaction]; [journal] says whether
    it still points to the journal. *)
Definition jbd2_vmsep_journal_free_reserved (journal : bool) (h : handle_t) : K kstate unit :=
  if journal then sub_reserved_credits (h_buffer_credits h) else kfault Oops.

(** With no handle in [current->journal_info]; [h_journal] is cleared before
    [start_this_handle]. *)
Definition jbd2_vmsep_journal_start_reserved (alloc_ok : bool) (envs : list (K kstate unit))
    (current : option handle_t) (h : handle_t) : K kstate (option (Z + handle_t)) :=
  if bool_decide (is_Some current)
  then jbd2_vmsep_journal_free_reserved true h ;;; kret (Some (inl (- EIO)))
  else
    r <- start_this_handle alloc_ok envs h ;;
    match r with
    | Some (inl err) => jbd2_vmsep_journal_free_reserved false h ;;; kret (Some (inl err))
    | r => kret r
    end.

(** ** Growing and ending a handle *)

Definition jbd2_vmsep_journal_extend (h : handle_t) (nblocks : Z) : K kstate (Z * handle_t) :=
  aborted <- is_handle_aborted h ;;
  if aborted : bool then kret (- EROFS, h)
  else match h_transaction h with
  | None => kfault Oops
  | Some t =>
    tr <- read_tr t ;;
    if bool_decide (t_state tr <> T_RUNNING) then kret (1, h)
    else
      j <- read_journal ;;
      add_credits t nblocks ;;;
      let wanted := t_outstanding_credits tr + nblocks in
      if j_max_transaction_buffers j <? wanted
      then add_credits t (- nblocks) ;;; kret (1, h)
      else
        left <- jbd2_log_space_left ;;
        if left <? u64 (wanted + Z.shiftr wanted JBD2_CONTROL_BLOCKS_SHIFT)
        then add_credits t (- nblocks) ;;; kret (1, h)
        else kret (0, h <| h_buffer_credits := h_buffer_credits h + nblocks |>
                        <| h_requested_credits := h_requested_credits h + nblocks |>)
  end.

(** The first half of [jbd2_vmsep__journal_restart]: the handle leaves its
    transaction, whose commit is requested. *)
Definition detach_handle (h : handle_t) (t : tr_id) : K kstate unit :=
  tr <- read_tr t ;;
  j_assert (0 <? t_updates tr) ;;;
  add_credits t (- h_buffer_credits h) ;;;
  match h_rsv_handle h with Some n => sub_reserved_credits n | None => kret tt end ;;;
  modify_tr t (fun tr => tr <| t_updates := t_updates tr - 1 |>) ;;;
  j <- read_journal ;;
  if tid_geq (j_commit_request j) (t_tid tr) then kret tt
  else jbd2_vmsep_log_start_commit jiffies (t_tid tr) 0 ;;; kret tt.

Definition jbd2_vmsep__journal_restart (alloc_ok : bool) (envs : list (K kstate unit))
    (h : handle_t) (nblocks : Z) : K kstate (option (Z + handle_t)) :=
  aborted <- is_handle_aborted h ;;
  if aborted : bool then kret (Some (inr h))
  else match h_transaction h with
  | None => kfault Oops
  | Some t =>
    detach_handle h t ;;;
    start_this_handle alloc_ok envs (h <| h_transaction := None |> <| h_buffer_credits := nblocks |>)
  end.

(** [jbd2_vmsep_log_wait_commit]: 0, or [-EIO] when the journal is aborted. *)
Fixpoint jbd2_vmsep_log_wait_commit (envs : list (K kstate unit)) (tid : tid_t)
  : K kstate (option Z) :=
  j <- read_journal ;;
  if tid_gt tid (j_commit_sequence j)
  then match envs with
       | [] => kret None
       | env :: envs => env ;;; jbd2_vmsep_log_wait_commit envs tid
       end
  else kret (Some (if JBD2_ABORT j then - EIO else 0)).

(** [jbd2_vmsep_complete_transaction]. *)
Definition jbd2_vmsep_complete_transaction (envs : list (K kstate unit)) (tid : tid_t) (ino : Z)
  : K kstate (option Z) :=
  j <- read_journal ;;
  running <- (match j_running_transaction j with
              | Some t => tr <- read_tr t ;; kret (t_tid tr =? tid)
              | None => kret false end) ;;
  if running : bool
  then
    (if j_commit_request j =? tid then kret tt
     else jbd2_vmsep_log_start_commit jiffies tid ino ;;; kret tt) ;;;
    jbd2_vmsep_log_wait_commit envs tid
  else
    committing <- (match j_committing_transaction j with
                   | Some t => tr <- read_tr t ;; kret (t_tid tr =? tid)
                   | None => kret false end) ;;
    if committing : bool then jbd2_vmsep_log_wait_commit envs tid
    else kret (Some 0).

(** [jbd2_vmsep_journal_stop], without the batching of synchronous handles, which
    only delays.  [memalloc] is [current->flags & PF_MEMALLOC].  The result is
    [h_err]-style 0 or an error, and the handle while it has references. *)
Definition jbd2_vmsep_journal_stop (envs : list (K kstate unit)) (memalloc : bool) (h : handle_t)
  : K kstate (option (Z * option handle_t)) :=
  let h' := h <| h_ref := h_ref h - 1 |> in
  match h_transaction h with
  | None => kret (Some (0, if 0 <? h_ref h' then Some h' else None))
  | Some t =>
    tr <- read_tr t ;;
    aborted <- is_handle_aborted h ;;
    (if aborted : bool then kret tt else j_assert (0 <? t_updates tr)) ;;;
    let err := if aborted then - EIO else 0 in
    if 0 <? h_ref h' then kret (Some (err, Some h'))
    else
      (if h_sync h then modify_tr t (fun tr => tr <| t_synchronous_commit := true |>) else kret tt) ;;;
      add_credits t (- h_buffer_credits h) ;;;
      j <- read_journal ;;
      (if h_sync h || (j_max_transaction_buffers j <? t_outstanding_credits tr - h_buffer_credits h)
          || time_after_eq jiffies (t_expires tr)
       then jbd2_vmsep_log_start_commit jiffies (t_tid tr) 0 ;;; kret tt
       else kret tt) ;;;
      modify_tr t (fun tr => tr <| t_updates := t_updates tr - 1 |>) ;;;
      err' <- (if h_sync h && negb memalloc then jbd2_vmsep_log_wait_commit envs (t_tid tr)
               else kret (Some err)) ;;
      match err' with
      | None => kret None
      | Some err' =>
        match h_rsv_handle h with Some n => sub_reserved_credits n | None => kret tt end ;;;
        kret (Some (err', None))
      end
  end.

(** ** Barriers *)

(** The wait for running updates; [j_barrier_count] is already raised. *)
Fixpoint wait_updates (envs : list (K kstate unit)) : K kstate (option unit) :=
  j <- read_journal ;;
  n <- (match j_running_transaction j with
        | Some t => tr <- read_tr t ;; kret (t_updates tr)
        | None => kret 0 end) ;;
  if n =? 0 then kret (Some tt)
  else match envs with
       | [] => kret None
       | env :: envs => env ;;; wait_updates envs
       end.

(** [wait_event(j_wait_reserved, j_reserved_credits == 0)]; the steps left over. *)
Fixpoint wait_reserved (envs : list (K kstate unit)) : K kstate (option (list (K kstate unit))) :=
  j <- read_journal ;;
  if j_reserved_credits j =? 0 then kret (Some envs)
  else match envs with
       | [] => kret None
       | env :: envs => env ;;; wait_reserved envs
       end.

Definition jbd2_vmsep_journal_lock_updates (envs : list (K kstate unit)) : K kstate (option unit) :=
  modify_journal (fun j => j <| j_barrier_count := j_barrier_count j + 1 |>) ;;;
  r <- wait_reserved envs ;;
  match r with
  | None => kret None
  | Some envs => wait_updates envs
  end.

Definition jbd2_vmsep_journal_unlock_updates : K kstate unit :=
  j <- read_journal ;;
  j_assert (negb (j_barrier_count j =? 0)) ;;;
  modify_journal (fun j => j <| j_barrier_count := j_barrier_count j - 1 |>).
End Handle.

(** ** Credits are never created or lost *)

(** The effect of [add_transaction_credits] and [jbd2_log_space_left] in terms
    of the state. *)
Definition log_space (s : kstate) : Z :=
  match jbd2_log_space_left s with Ret (r, _) => r | Fault _ => 0 end.

Definition committing_live (s : kstate) : Prop :=
  forall t, j_committing_transaction (k_journal s) = Some t -> is_Some (k_trans s !! t).

Lemma log_space_left_exec s :
  committing_live s -> wp jbd2_log_space_left (fun r s' => s' = s /\ r = log_space s) s.
Proof.
  intros Hl. unfold log_space, jbd2_log_space_left, wp, kbind. cbn.
  destruct (j_committing_transaction (k_journal s)) as [t|] eqn:Ht; [|done].
  destruct (Hl t Ht) as [tr Htr]. unfold read_tr. by rewrite Htr.
Qed.

Lemma log_space_eq s s' :
  j_free (k_journal s') = j_free (k_journal s) ->
  j_committing_transaction (k_journal s') = j_committing_transaction (k_journal s) ->
  (forall t, j_committing_transaction (k_journal s) = Some t -> k_trans s' !! t = k_trans s !! t) ->
  log_space s' = log_space s.
Proof.
  intros Hf Hc Ht. unfold log_space, jbd2_log_space_left, kbind. cbn. rewrite Hf, Hc.
  destruct (j_committing_transaction (k_journal s)) as [t|]; [|done].
  unfold read_tr. rewrite (Ht t eq_refl). by destruct (k_trans s !! t).
Qed.

Lemma wait_locked_exec jiffies s t tr :
  j_running_transaction (k_journal s) = Some t -> k_trans s !! t = Some tr ->
  wp (wait_transaction_locked jiffies)
    (fun _ s' => tid_geq (j_commit_request (k_journal s')) (t_tid tr) = true /\
       j_reserved_credits (k_journal s') = j_reserved_credits (k_journal s) /\
       exists tr', k_trans s' !! t = Some tr' /\ t_tid tr' = t_tid tr /\
         t_updates tr' = t_updates tr /\ t_outstanding_credits tr' = t_outstanding_credits tr) s.
Proof.
  intros Ht Htr. unfold wait_transaction_locked. wp_step. wp_step. rewrite Ht. wp_step. wp_step.
  apply wp_if; intros Hg; [wp_step; split_and!; try done; by exists tr|]. wp_step.
  eapply wp_mono; [apply log_start_commit_exec; intros t' [= <-]%(eq_trans (eq_sym Ht)); eauto|].
  intros r s' [Hr Hs']. wp_step. destruct r.
  - destruct Hs' as (t' & tr' & Ht' & Htr' & Htid & ->). simplify_eq. kst.
    split_and!; [apply tid_geq_refl|done|]. eexists. rewrite lookup_insert_eq. by split_and!.
  - subst s'. exfalso. unfold starts_commit in Hr. rewrite Ht, Htr, Z.eqb_refl, andb_true_r in Hr.
    destruct (_ =? _) eqn:E; [|done]. bool_to_prop. rewrite E, tid_geq_refl in Hg. done.
Qed.

Lemma add_transaction_credits_spec jiffies blocks rsv s t tr :
  j_running_transaction (k_journal s) = Some t -> k_trans s !! t = Some tr ->
  committing_live s -> j_committing_transaction (k_journal s) <> Some t ->
  wp (add_transaction_credits jiffies blocks rsv)
    (fun w s' => exists tr', k_trans s' !! t = Some tr' /\ t_updates tr' = t_updates tr /\
       let max := j_max_transaction_buffers (k_journal s) in
       match w with
       | None => t_state tr <> T_LOCKED /\
           t_outstanding_credits tr' = t_outstanding_credits tr + blocks + rsv /\
           t_outstanding_credits tr' <= max /\
           j_reserved_credits (k_journal s') = j_reserved_credits (k_journal s) + rsv /\
           (rsv <> 0 -> j_reserved_credits (k_journal s') <= max / 2) /\
           u64 (jbd2_space_needed (k_journal s)) <= log_space s /\
           tr' = tr <| t_outstanding_credits := t_outstanding_credits tr + (blocks + rsv) |> /\
           s' = mk_kstate ((k_journal s) <| j_reserved_credits := j_reserved_credits (k_journal s) + rsv |>)
                  (k_bufs s) (<[t := tr']> (k_trans s))
       | Some w => t_outstanding_credits tr' = t_outstanding_credits tr /\
           j_reserved_credits (k_journal s') = j_reserved_credits (k_journal s) /\
           (w = WaitLocked -> tid_geq (j_commit_request (k_journal s')) (t_tid tr) = true)
       end) s.
Proof.
  intros Ht Htr Hcl Hnc. unfold add_transaction_credits, add_credits, sub_reserved_credits.
  wp_step. wp_step. rewrite Ht. wp_step. wp_step. cbv zeta.
  destruct (bool_decide (t_state tr = T_LOCKED)) eqn:Hlock.
  { wp_step. eapply wp_mono; [by eapply wait_locked_exec|].
    intros _ s' (Hg & Hres & tr' & Htr' & _ & Hu & Hc). wp_step. by exists tr'. }
  apply bool_decide_eq_false in Hlock. wp_step. wp_step.
  set (tr1 := tr <| t_outstanding_credits := t_outstanding_credits tr + (blocks + rsv) |>).
  destruct (_ <? t_outstanding_credits tr + (blocks + rsv)) eqn:Hfull; bool_to_prop.
  - wp_step. wp_step. kst. set (s2 := mk_kstate _ _ _).
    assert (k_trans s2 !! t = Some (tr1 <| t_outstanding_credits := t_outstanding_credits tr1 + - (blocks + rsv) |>))
      as Htr2 by (subst s2; cbn; by rewrite lookup_insert_eq).
    destruct (_ <? j_reserved_credits (k_journal s) + (blocks + rsv)); wp_step.
    + eexists. split; [exact Htr2|]. cbn. split_and!; try done. lia.
    + eapply wp_mono; [eapply (wait_locked_exec _ s2); [exact Ht|exact Htr2]|].
      intros _ s' (Hg & Hres & tr' & Htr' & _ & Hu & Hc). wp_step. exists tr'. cbn in Hc, Hu.
      split_and!; try done. lia.
  - wp_step. set (s1 := mk_kstate _ _ _).
    assert (log_space s1 = log_space s) as Hsp.
    { apply log_space_eq; [done|done|]. intros t' Ht'. subst s1. cbn. rewrite lookup_insert_ne; congruence. }
    eapply wp_mono; [apply log_space_left_exec|].
    { intros t' Ht'. subst s1. cbn in *. rewrite lookup_insert_ne by congruence. by apply Hcl. }
    intros r s' [-> ->]. rewrite Hsp.
    assert (k_trans s1 !! t = Some tr1) as Htr1 by (subst s1; cbn; by rewrite lookup_insert_eq).
    destruct (log_space s <? _) eqn:Hspace; bool_to_prop.
    + wp_step. eapply wp_modify_tr; [exact Htr1|]. wp_step. eexists. cbn. rewrite lookup_insert_eq.
      split_and!; try done. cbn. lia.
    + destruct (rsv =? 0) eqn:Hrsv; bool_to_prop.
      { wp_step. exists tr1. subst s1 tr1 rsv. cbn in *. split_and!; try done; try lia.
        f_equal. destruct (k_journal s); cbn. by rewrite Z.add_0_r. }
      wp_step. wp_step. destruct (_ / 2 <? _) eqn:Hhalf; bool_to_prop.
      * wp_step. wp_step. wp_step. eapply wp_modify_tr; [exact Htr1|]. wp_step. eexists. cbn.
        rewrite lookup_insert_eq. split_and!; try done; cbn; lia.
      * wp_step. exists tr1. subst s1 tr1. cbn in *. split_and!; try done; lia.
Qed.

(** [add_transaction_credits] either charges the running transaction for the whole
    request, having checked that the transaction stays within the journal's limit, the
    reservation within half of it and the log has room for a full transaction, or it
    charges nothing and says what to wait for; it waits for a locked or full transaction only
    after the commit of that transaction is requested. *)
Theorem add_credits_accounting jiffies blocks rsv s t tr :
  j_running_transaction (k_journal s) = Some t -> k_trans s !! t = Some tr ->
  committing_live s -> j_committing_transaction (k_journal s) <> Some t ->
  wp (add_transaction_credits jiffies blocks rsv)
    (fun w s' => exists tr', k_trans s' !! t = Some tr' /\ t_updates tr' = t_updates tr /\
       let max := j_max_transaction_buffers (k_journal s) in
       match w with
       | None => t_state tr <> T_LOCKED /\
           t_outstanding_credits tr' = t_outstanding_credits tr + blocks + rsv /\
           t_outstanding_credits tr' <= max /\
           j_reserved_credits (k_journal s') = j_reserved_credits (k_journal s) + rsv /\
           (rsv <> 0 -> j_reserved_credits (k_journal s') <= max / 2) /\
           u64 (jbd2_space_needed (k_journal s)) <= log_space s
       | Some w => t_outstanding_credits tr' = t_outstanding_credits tr /\
           j_reserved_credits (k_journal s') = j_reserved_credits (k_journal s) /\
           (w = WaitLocked -> tid_geq (j_commit_request (k_journal s')) (t_tid tr) = true)
       end) s.
Proof.
  intros Ht Htr Hcl Hnc. eapply wp_mono; [by eapply add_transaction_credits_spec|].
  intros w s' (tr' & Htr' & Hu & Hw). exists tr'. split_and!; [done|done|]. destruct w; [done|].
  destruct Hw as (? & ? & ? & ? & ? & ? & _). by split_and!.
Qed.

Definition ex_handle_state : kstate :=
  mk_kstate (ex_journal <| j_running_transaction := Some 1%positive |> <| j_commit_request := 6 |>
               <| j_free := 2000 |> <| j_max_transaction_buffers := 256 |>) ∅
    {[ 1%positive := zero_transaction <| t_tid := 7 |> <| t_outstanding_credits := 250 |>
                       <| t_expires := 1000 |> ]}.

Lemma add_credits_accounting_witness :
  wp (add_transaction_credits 0 4 2)
    (fun w s' => w = None -> exists tr', k_trans s' !! 1%positive = Some tr' /\
       t_outstanding_credits tr' = 256) ex_handle_state /\
  wp (add_transaction_credits 0 7 0)
    (fun w s' => w = Some WaitLocked -> exists tr', k_trans s' !! 1%positive = Some tr' /\
       t_outstanding_credits tr' = 250) ex_handle_state /\
  wp (add_transaction_credits 0 4 2) (fun w _ => w = None) ex_handle_state /\
  wp (add_transaction_credits 0 7 0) (fun w _ => w = Some WaitLocked) ex_handle_state.
Proof.
  split_and!; [| |vm_compute; reflexivity|vm_compute; reflexivity].
  - eapply wp_mono; [apply (add_credits_accounting 0 4 2 ex_handle_state 1 _ eq_refl eq_refl); [by intros t [=]|done]|].
    intros w s' (tr' & Htr & _ & H) ->. exists tr'. destruct H as (_ & H & _). split; [exact Htr|exact H].
  - eapply wp_mono; [apply (add_credits_accounting 0 7 0 ex_handle_state 1 _ eq_refl eq_refl); [by intros t [=]|done]|].
    intros w s' (tr' & Htr & _ & H) ->. exists tr'. destruct H as (H & _). split; [exact Htr|exact H].
Defined.

(** ** The life of a handle *)

Lemma start_pass_started jiffies alloc_ok h s t tr h1 s1 :
  j_running_transaction (k_journal s) = Some t -> k_trans s !! t = Some tr ->
  committing_live s -> j_committing_transaction (k_journal s) <> Some t ->
  h_reserved h = false ->
  start_pass jiffies alloc_ok h s = Ret (Started h1, s1) ->
  let rsv := default 0 (h_rsv_handle h) in
  JBD2_ABORT (k_journal s) = false /\ j_barrier_count (k_journal s) = 0 /\
  h1 = h <| h_reserved := false |> <| h_transaction := Some t |>
         <| h_requested_credits := h_buffer_credits h |> /\
  s1 = mk_kstate ((k_journal s) <| j_reserved_credits := j_reserved_credits (k_journal s) + rsv |>)
         (k_bufs s)
         (<[t := tr <| t_outstanding_credits := t_outstanding_credits tr + (h_buffer_credits h + rsv) |>
                    <| t_updates := t_updates tr + 1 |>
                    <| t_handle_count := t_handle_count tr + 1 |>]> (k_trans s)).
Proof.
  intros Ht Htr Hcl Hnc Hres. unfold start_pass, kbind at 1. cbn [read_journal]. rewrite Ht, Hres.
  rewrite bool_decide_false by done. cbn [andb negb]. unfold kbind at 1, j_assert.
  destruct (JBD2_UNMOUNT (k_journal s)); [done|]. cbn [negb].
  destruct (JBD2_ABORT (k_journal s)) eqn:Ha; [done|]. cbn [orb].
  destruct (negb (j_errno (k_journal s) =? 0) && negb (JBD2_ACK_ERR (k_journal s))); [done|].
  destruct (j_barrier_count (k_journal s) =? 0) eqn:Hb; [|done]. bool_to_prop. cbn [negb].
  pose proof (add_transaction_credits_spec jiffies (h_buffer_credits h) (default 0 (h_rsv_handle h))
    s t tr Ht Htr Hcl Hnc) as Hadd. unfold wp in Hadd. unfold kbind at 1.
  destruct (add_transaction_credits _ _ _ s) as [[w s']|]; [|done].
  destruct Hadd as (tr' & Htr' & Hu & Hw). destruct w as [w|]; [done|].
  destruct Hw as (_ & _ & _ & _ & _ & _ & -> & ->). unfold kbind, modify_tr. rewrite Htr'.
  intros [= <- <-]. split_and!; [done|done|done|]. cbn. by rewrite insert_insert_eq.
Qed.

(** Requesting a commit moves no credits. *)
Lemma request_commit_credits jiffies (c : bool) tid i s t tr :
  running_live s -> k_trans s !! t = Some tr ->
  wp (if c then jbd2_vmsep_log_start_commit jiffies tid i ;;; kret tt else kret tt)
    (fun _ s' => j_reserved_credits (k_journal s') = j_reserved_credits (k_journal s) /\
       exists tr', k_trans s' !! t = Some tr' /\ t_updates tr' = t_updates tr /\
         t_outstanding_credits tr' = t_outstanding_credits tr) s.
Proof.
  intros Hrl Htr. apply wp_if; intros _; [|wp_step; split; [done|by exists tr]]. wp_step.
  eapply wp_mono; [by apply log_start_commit_exec|]. intros r s' [_ Hr]. wp_step. destruct r.
  - destruct Hr as (t' & tr' & _ & Htr' & _ & ->). split; [done|]. kst.
    destruct (decide (t' = t)) as [->|]; [|rewrite lookup_insert_ne by done; by exists tr].
    simplify_eq. eexists. rewrite lookup_insert_eq. by split_and!.
  - subst s'. split; [done|by exists tr].
Qed.

(** What a handle takes it gives back: stopping a handle that was started with some
    credits and a reservation, of which [used] credits were spent, leaves
    the transaction charged for the used credits and the reservation only, with as many
    updates as before, and the journal's reserved credits as they were. *)
Theorem handle_credits_returned jiffies alloc_ok memalloc h s t tr h1 s1 used :
  running_live s -> j_running_transaction (k_journal s) = Some t -> k_trans s !! t = Some tr ->
  committing_live s -> j_committing_transaction (k_journal s) <> Some t -> 0 <= t_updates tr ->
  h_ref h = 1 -> h_sync h = false -> h_reserved h = false -> h_aborted h = false ->
  start_pass jiffies alloc_ok h s = Ret (Started h1, s1) ->
  wp (jbd2_vmsep_journal_stop jiffies [] memalloc
        (h1 <| h_buffer_credits := h_buffer_credits h1 - used |>))
    (fun r s2 => r = Some (0, None) /\
       j_reserved_credits (k_journal s2) = j_reserved_credits (k_journal s) /\
       exists tr2, k_trans s2 !! t = Some tr2 /\ t_updates tr2 = t_updates tr /\
         t_outstanding_credits tr2 = t_outstanding_credits tr + used + default 0 (h_rsv_handle h)) s1.
Proof.
  intros Hrl Ht Htr Hcl Hnc Hu Href Hsync Hres Hab Hst.
  destruct (start_pass_started _ _ _ _ _ _ _ _ Ht Htr Hcl Hnc Hres Hst) as (Ha & _ & -> & ->).
  unfold jbd2_vmsep_journal_stop, is_handle_aborted, is_journal_aborted, add_credits. cbn [h_transaction field_update].
  wp_step. wp_step. wp_step. cbn. rewrite Hab. cbn.
  repeat wp_step. cbn. rewrite Ha. wp_step; [apply Z.ltb_lt; cbn; lia|]. rewrite Href, Hsync. cbn.
  change (0 <? 1 - 1) with false. cbv iota. wp_step. wp_step. wp_step. wp_step. wp_step. wp_step. wp_step.
  eapply wp_mono; [eapply (request_commit_credits _ _ _ _ _ t)|].
  { intros t' Ht'. kst. cbn in Ht'. rewrite insert_insert_eq.
    assert (t' = t) as -> by congruence. by rewrite lookup_insert_eq. }
  { kst. by rewrite lookup_insert_eq. }
  intros _ s3 (Hr3 & tr3 & Htr3 & Hu3 & Ho3). cbn in Hr3, Hu3, Ho3.
  wp_step. eapply wp_modify_tr; [exact Htr3|]. wp_step. wp_step. wp_step.
  eapply (wp_mono _ (fun _ s' => j_reserved_credits (k_journal s') = j_reserved_credits (k_journal s) /\
    k_trans s' !! t = Some (tr3 <| t_updates := t_updates tr3 - 1 |>))).
  { unfold sub_reserved_credits. destruct (h_rsv_handle h) as [n|]; wp_step; cbn in *;
      rewrite lookup_insert_eq; split; (done || lia). }
  intros _ s4 [Hr4 Htr4]. wp_step. split_and!; [done|done|]. eexists. split; [exact Htr4|]. cbn. split; lia.
Qed.

Lemma handle_credits_returned_witness :
  exists h1 s1, start_pass 0 true ((new_handle 4) <| h_rsv_handle := Some 2 |>) ex_handle_state
                = Ret (Started h1, s1) /\
  wp (jbd2_vmsep_journal_stop 0 [] false (h1 <| h_buffer_credits := h_buffer_credits h1 - 3 |>))
    (fun r s2 => r = Some (0, None) /\ exists tr2, k_trans s2 !! 1%positive = Some tr2 /\
       t_outstanding_credits tr2 = 255) s1.
Proof.
  eexists _, _. split; [vm_compute; reflexivity|].
  eapply wp_mono; [eapply (handle_credits_returned 0 true false ((new_handle 4) <| h_rsv_handle := Some 2 |>)
      ex_handle_state 1 _ _ _ 3)|]; try (vm_compute; reflexivity).
  - intros t [= <-]. by eexists.
  - by intros t [=].
  - done.
  - cbn. lia.
  - intros r s2 (Hr & _ & tr2 & Htr & _ & Ho). split; [exact Hr|]. exists tr2. split; [exact Htr|exact Ho].
Defined.

(** ** Barriers *)

(** Steps of other tasks that do not release this task's barrier. *)
Definition keeps_barrier : K kstate unit -> Prop :=
  keeps (fun s s' => j_barrier_count (k_journal s) <= j_barrier_count (k_journal s')).

Lemma wait_updates_quiet envs s s' :
  Forall keeps_barrier envs -> wait_updates envs s = Ret (Some tt, s') ->
  j_barrier_count (k_journal s) <= j_barrier_count (k_journal s') /\
  forall t tr, j_running_transaction (k_journal s') = Some t -> k_trans s' !! t = Some tr ->
    t_updates tr = 0.
Proof.
  intros He. revert s. induction He as [|env envs Hk He IH]; intros s; cbn; unfold kbind, read_tr; cbn;
    (destruct (j_running_transaction (k_journal s)) as [t|] eqn:Ht;
      [destruct (k_trans s !! t) as [tr|] eqn:Htr; [|done]; cbn; destruct (t_updates tr =? 0) eqn:Hu; bool_to_prop|]).
  all: try (intros [= <-]; split; [lia|intros; congruence]).
  1: done.
  destruct (env s) as [[[] s1]|] eqn:E; [|done]. intros Hw.
  destruct (IH s1 Hw) as [Hb Hq]. split; [|done]. pose proof (Hk _ _ _ E). cbn in *. lia.
Qed.

Lemma wait_reserved_keeps envs s envs' s' :
  Forall keeps_barrier envs -> wait_reserved envs s = Ret (Some envs', s') ->
  j_barrier_count (k_journal s) <= j_barrier_count (k_journal s') /\ Forall keeps_barrier envs'.
Proof.
  intros He. revert s. induction He as [|env envs Hk He IH]; intros s; cbn -[kbind]; unfold kbind at 1;
    cbn [read_journal]; destruct (j_reserved_credits (k_journal s) =? 0).
  1,3: intros [= <- <-]; split; [lia|by repeat constructor].
  1: done.
  unfold kbind. destruct (env s) as [[[] s1]|] eqn:E; [|done]. intros Hw.
  destruct (IH s1 Hw) as [Hb Hf]. split; [|done]. pose proof (Hk _ _ _ E). cbn in *. lia.
Qed.

(** When [jbd2_vmsep_journal_lock_updates] returns, no update is running, and no
    ordinary handle can start until the barrier is released: every pass of
    [start_this_handle] then waits or fails, provided that other tasks do not
    release this task's barrier. *)
Theorem lock_updates_quiesces jiffies envs alloc_ok h s s' :
  Forall keeps_barrier envs -> 0 <= j_barrier_count (k_journal s) ->
  jbd2_vmsep_journal_lock_updates envs s = Ret (Some tt, s') -> h_reserved h = false ->
  (forall t tr, j_running_transaction (k_journal s') = Some t -> k_trans s' !! t = Some tr ->
     t_updates tr = 0) /\
  (forall h1 s1, start_pass jiffies alloc_ok h s' <> Ret (Started h1, s1)).
Proof.
  intros He Hb. unfold jbd2_vmsep_journal_lock_updates, kbind at 1. cbn [modify_journal].
  unfold kbind. destruct (wait_reserved envs _) as [[[envs'|] s1]|] eqn:Hr; [|done..].
  intros Hw Hres. destruct (wait_reserved_keeps _ _ _ _ He Hr) as [Hb1 He'].
  destruct (wait_updates_quiet _ _ _ He' Hw) as [Hb2 Hq]. split; [done|].
  intros h1 s2. unfold start_pass, kbind at 1. cbn [read_journal]. rewrite Hres.
  destruct (_ && negb alloc_ok); [done|]. unfold kbind at 1, j_assert.
  destruct (JBD2_UNMOUNT _); [done|]. cbn [negb].
  destruct (_ || _); [done|]. replace (j_barrier_count (k_journal s') =? 0) with false; [done|].
  symmetry. apply Z.eqb_neq. cbn in Hb1. lia.
Qed.

Lemma lock_updates_quiesces_witness :
  exists s', jbd2_vmsep_journal_lock_updates [] ex_handle_state = Ret (Some tt, s') /\
    forall h1 s1, start_pass 0 true (new_handle 4) s' <> Ret (Started h1, s1).
Proof.
  eexists. split; [vm_compute; reflexivity|].
  apply (lock_updates_quiesces 0 [] true (new_handle 4) ex_handle_state);
    [constructor|cbn; lia|vm_compute; reflexivity|reflexivity].
Defined.

(** ** Two transactions cannot run at once *)

(** A new transaction is refused while another one is running, by the assertion
    of [jbd2_get_transaction]. *)
Lemma alloc_new_transaction_running jiffies s t :
  j_running_transaction (k_journal s) = Some t ->
  alloc_new_transaction jiffies s = Fault Assert.
Proof.
  intros Ht. unfold alloc_new_transaction, zalloc_transaction, jbd2_get_transaction, kbind. cbn.
  unfold modify_tr. cbn. rewrite lookup_insert_eq. cbn. rewrite Ht. done.
Qed.

(** [jbd2_vmsep_journal_start_reserved] must not fail: it clears [h_journal] before
    [start_this_handle], so whenever that returns an error the reserved
    credits are given back through a NULL journal, which stops the machine. *)
Theorem start_reserved_error_oops jiffies alloc_ok envs h s err s' :
  start_this_handle jiffies alloc_ok envs h s = Ret (Some (inl err), s') ->
  jbd2_vmsep_journal_start_reserved jiffies alloc_ok envs None h s = Fault Oops.
Proof.
  intros Hs. unfold jbd2_vmsep_journal_start_reserved. rewrite bool_decide_false by (by intros []).
  unfold kbind at 1. rewrite Hs. done.
Qed.

Lemma start_reserved_error_oops_witness :
  jbd2_vmsep_journal_start_reserved 0 true [] None ((new_handle 4) <| h_reserved := true |>)
    (ex_handle_state <| k_journal ::= fun j => j <| JBD2_ABORT := true |> |>) = Fault Oops.
Proof. eapply start_reserved_error_oops. vm_compute. reflexivity. Defined.
