(* ===== verification/Commit.v ===== *)
(** * Committing a transaction

    [jbd2_vmsep_journal_commit_transaction] of kernel/fs/jbd2/commit.c: the start of
    the commit, the loop that writes the metadata of the inode being
    synchronised to the log and moves every other buffer to the next
    transaction, and [jbd2_vmsep_journal_write_metadata_buffer] of
    kernel/fs/jbd2/journal.c.

    Log blocks are modelled by what they hold: a descriptor with its tags, or the
    data of a metadata block.  The frozen-data triggers are left out: the
    file system registers none. *)
From S2P Require Import Prelude Tid State Blist JournalHead Filing Log Handle.

(** [jbd2_vmsep_journal_file_buffer]. *)
Definition jbd2_vmsep_journal_file_buffer (b : bh_id) (t : tr_id) (jl : jlist) : K kstate unit :=
  __jbd2_vmsep_journal_file_buffer b t jl.

(** ** Copying a metadata buffer out to the log *)

Definition JBD2_MAGIC_BYTES : list Z := [192; 59; 57; 152].   (* 0xc03b3998, big endian *)

Definition starts_with_magic (data : list Z) : bool := bool_decide (take 4 data = JBD2_MAGIC_BYTES).
Definition escape_data (data : list Z) : list Z := [0; 0; 0; 0] ++ drop 4 data.

(** The result: [-ENOMEM], or the data that goes to the log, whether it was
    escaped, and whether it is a copy.  [copy_ok]: there is memory for a copy. *)
Definition jbd2_vmsep_journal_write_metadata_buffer (copy_ok : bool) (t : tr_id) (b : bh_id)
  : K kstate (Z + (list Z * bool * bool)) :=
  x <- read_bh b ;;
  j_assert (buffer_jbddirty x) ;;;
  h <- read_jh b ;;
  let finish data do_escape done_copy_out :=
    __jbd2_vmsep_journal_file_buffer b t BJ_Shadow ;;;
    modify_bh b (fun x => x <| buffer_shadow := true |>) ;;;
    kret (inr (data, do_escape, done_copy_out)) in
  match b_frozen_data h with
  | Some frozen =>
    if starts_with_magic frozen
    then
      modify_jh b (fun h => h <| b_frozen_data := Some (escape_data frozen) |>) ;;;
      finish (escape_data frozen) true true
    else finish frozen false true
  | None =>
    if starts_with_magic (b_data x)
    then
      if copy_ok
      then
        modify_jh b (fun h => h <| b_frozen_data := Some (escape_data (b_data x)) |>) ;;;
        finish (escape_data (b_data x)) true true
      else kret (inl (- ENOMEM))
    else finish (b_data x) false false
  end.

(** ** The metadata loop *)

Definition JBD2_FLAG_ESCAPE : Z := 1.
Definition JBD2_FLAG_SAME_UUID : Z := 2.
Definition JBD2_FLAG_LAST_TAG : Z := 8.

Record tag := mk_tag { tag_block : Z; tag_flags : Z }.

(** A descriptor block written to the log area, with the data blocks written
    after it (log block and contents). *)
Record log_group := mk_group {
  g_block : Z;
  g_sequence : tid_t;
  g_tags : list tag;
  g_data : list (Z * list Z);
}.

(** The descriptor being filled and the data blocks that go with it:
    [wbuf[0]] is the descriptor, [wbuf[1..bufs)] the data. *)
Record open_descriptor := mk_open {
  d_block : Z;
  d_tags : list tag;
  d_data : list (Z * list Z);
  d_space_left : Z;
  d_first_tag : bool;
}.

(** The local variables of the loop: the open descriptor, the temporary
    buffers of [io_bufs] with the buffers they shadow, the descriptors of [log_bufs], and
    the writes submitted so far. *)
Record commit_locals := mk_locals {
  w_descriptor : option open_descriptor;
  w_io_bufs : list (bh_id * Z);
  w_log_bufs : list Z;
  w_submitted : list log_group;
}.

Definition locals0 : commit_locals := mk_locals None [] [] [].

Definition set_last (flag : Z) (tags : list tag) : list tag :=
  match reverse tags with
  | [] => []
  | t :: ts => reverse (mk_tag (tag_block t) (Z.lor (tag_flags t) flag) :: ts)
  end.

(** [start_journal_io]: submit the descriptor and its data, and forget them. *)
Definition submit (sequence : tid_t) (last : bool) (w : commit_locals) : commit_locals :=
  match w_descriptor w with
  | None => w
  | Some d =>
    let tags := if last then set_last JBD2_FLAG_LAST_TAG (d_tags d) else d_tags d in
    mk_locals None (w_io_bufs w) (w_log_bufs w)
      (w_submitted w ++ [mk_group (d_block d) sequence tags (d_data d)])
  end.

(** Record a tag and its data block in the open descriptor. *)
Definition add_tag (tag_bytes : Z) (home blocknr : Z) (data : list Z) (do_escape : bool)
    (d : open_descriptor) : open_descriptor :=
  let flags := Z.lor (if do_escape then JBD2_FLAG_ESCAPE else 0)
                     (if d_first_tag d then 0 else JBD2_FLAG_SAME_UUID) in
  mk_open (d_block d) (d_tags d ++ [mk_tag home flags]) (d_data d ++ [(blocknr, data)])
    (d_space_left d - tag_bytes - (if d_first_tag d then 16 else 0)) false.

Section Commit.
Context (submit_sb : journal_t -> Z) (jiffies : Z) (j_inode : option (Z -> Z)) (copy_ok : bool).
(** [journal_vmsep_tag_bytes(journal)], [csum_size], [j_blocksize] and [j_wbufsize]. *)
Context (tag_bytes csum_size j_blocksize j_wbufsize : Z).

(** [wbuf] is full, nothing is left to do, or the descriptor has no room for
    another tag and its UUID. *)
Definition must_submit (no_more : bool) (d : open_descriptor) : bool :=
  (1 + Z.of_nat (length (d_data d)) =? j_wbufsize) || no_more ||
  (d_space_left d <? tag_bytes + 16 + csum_size).

(** The metadata of another inode: off this transaction and onto the next one. *)
Definition move_to_next (rt : tr_id) (b : bh_id) : K kstate unit :=
  h <- read_jh b ;;
  jbd2_vmsep_journal_unfile_buffer b ;;;
  jbd2_vmsep_journal_file_buffer b rt (b_jlist h).

(** [jbd2_vmsep_journal_get_descriptor_buffer]: its log block, if one could be
    mapped. *)
Definition get_descriptor : K kstate (option Z) :=
  r <- jbd2_vmsep_journal_next_log_block submit_sb jiffies j_inode ;;
  kret (if r.1 =? 0 then Some r.2 else None).

(** Writing one buffer of the synchronised inode. *)
Definition log_buffer (ct : tr_id) (b : bh_id) (d : open_descriptor) (w : commit_locals)
  : K kstate commit_locals :=
  r <- jbd2_vmsep_journal_next_log_block submit_sb jiffies j_inode ;;
  if negb (r.1 =? 0)
  then jbd2_vmsep_journal_abort submit_sb jiffies r.1 ;;; kret w
  else
    modify_tr ct (fun tr => tr <| t_outstanding_credits := t_outstanding_credits tr - 1 |>) ;;;
    get_bh b ;;;
    modify_bh b (fun x => x <| buffer_jwrite := true |>) ;;;
    x <- read_bh b ;;
    flags <- jbd2_vmsep_journal_write_metadata_buffer copy_ok ct b ;;
    match flags with
    | inl err => jbd2_vmsep_journal_abort submit_sb jiffies err ;;; kret w
    | inr (data, do_escape, _) =>
      tr <- read_tr ct ;;
      let d := add_tag tag_bytes (b_blocknr x) r.2 data do_escape d in
      let w := mk_locals (Some d) (w_io_bufs w ++ [(b, r.2)]) (w_log_bufs w) (w_submitted w) in
      kret (if must_submit (bool_decide (t_buffers tr = [])) d then submit (t_tid tr) true w else w)
    end.

(** One iteration of the loop over [t_buffers], with [b] its first buffer. *)
Definition commit_step (ct rt : tr_id) (w : commit_locals) (b : bh_id) : K kstate commit_locals :=
  h <- read_jh b ;;
  tr <- read_tr ct ;;
  if negb (ino h =? ino_sync tr) then move_to_next rt b ;;; kret w
  else
    aborted <- is_journal_aborted ;;
    if aborted : bool
    then
      clear_buffer_jbddirty b ;;;
      jbd2_vmsep_journal_refile_buffer b ;;;
      tr <- read_tr ct ;;
      kret (if bool_decide (t_buffers tr = []) then submit (t_tid tr) false w else w)
    else match w_descriptor w with
    | Some d => log_buffer ct b d w
    | None =>
      r <- get_descriptor ;;
      match r with
      | None => jbd2_vmsep_journal_abort submit_sb jiffies (- EIO) ;;; kret w
      | Some blk =>
        let d := mk_open blk [] [] (j_blocksize - 12) true in
        log_buffer ct b d (mk_locals (Some d) (w_io_bufs w) (w_log_bufs w ++ [blk]) (w_submitted w))
      end
    end.

(** The loop; [fuel] bounds its iterations. *)
Fixpoint commit_loop (fuel : nat) (ct rt : tr_id) (w : commit_locals) : K kstate (option commit_locals) :=
  tr <- read_tr ct ;;
  match t_buffers tr, fuel with
  | [], _ => kret (Some w)
  | _ :: _, O => kret None
  | b :: _, S fuel => w <- commit_step ct rt w b ;; commit_loop fuel ct rt w
  end.

(** ** The start of the commit

    Up to the discarding of reserved buffers: the superblock is brought up to
    date, the next transaction is allocated and the running one is locked. *)
Definition commit_lock : K kstate (tr_id * tr_id) :=
  j <- read_journal ;;
  (if JBD2_FLUSHED j
   then jbd2_vmsep_journal_update_sb_log_tail submit_sb jiffies (j_tail_sequence j) (j_tail j) ;;; kret tt
   else kret tt) ;;;
  j <- read_journal ;;
  match j_running_transaction j with
  | None => kfault Assert
  | Some ct =>
    j_assert (bool_decide (j_committing_transaction j = None)) ;;;
    rt <- alloc_new_transaction jiffies ;;
    tr <- read_tr ct ;;
    j_assert (bool_decide (t_state tr = T_RUNNING)) ;;;
    modify_tr ct (fun tr => tr <| t_state := T_LOCKED |>) ;;;
    modify_tr rt (fun tr => tr <| t_state := T_RUNNING |>) ;;;
    kret (ct, rt)
  end.

(** Unused reserved buffers leave the transaction. *)
Fixpoint refile_reserved (fuel : nat) (ct : tr_id) : K kstate (option unit) :=
  tr <- read_tr ct ;;
  match t_reserved_list tr, fuel with
  | [], _ => kret (Some tt)
  | _ :: _, O => kret None
  | b :: _, S fuel =>
    modify_jh b (fun h => h <| b_committed_data := None |>) ;;;
    jbd2_vmsep_journal_refile_buffer b ;;;
    refile_reserved fuel ct
  end.

(** The switch to the committing state. *)
Definition commit_switch (ct : tr_id) : K kstate unit :=
  j <- read_journal ;;
  modify_tr ct (fun tr => tr <| t_outstanding_credits := t_outstanding_credits tr - j_reserved_credits j |>
                             <| t_state := T_FLUSH |> <| t_log_start := j_head j |>) ;;;
  modify_journal (fun j => j <| j_committing_transaction := Some ct |>
                             <| j_running_transaction := None |>).

(** Entering the metadata loop. *)
Definition commit_begin_logging (ct : tr_id) : K kstate unit :=
  modify_tr ct (fun tr => tr <| t_state := T_COMMIT |>) ;;;
  tr <- read_tr ct ;;
  j_assert (t_nr_buffers tr <=? t_outstanding_credits tr).

(** After the metadata loop: the log tail, and the moved buffers' transaction
    becomes the running one. *)
Definition commit_publish_next (ct rt : tr_id) : K kstate (bool * tid_t * Z) :=
  tail <- jbd2_vmsep_journal_get_log_tail ;;
  let '(update_tail, first_tid, first_block) := tail in
  j <- read_journal ;;
  let freed := s64 (first_block - j_tail j) in
  let freed := if first_block <? j_tail j then s64 (freed + (j_last j - j_first j)) else freed in
  tr <- read_tr ct ;;
  j_assert (bool_decide (t_state tr = T_COMMIT)) ;;;
  modify_tr ct (fun tr => tr <| t_state := T_COMMIT_DFLUSH |>) ;;;
  modify_journal (fun j => j <| j_running_transaction := Some rt |>) ;;;
  kret (update_tail && negb (freed <? j_maxlen j / 4), first_tid, first_block).
End Commit.

(** ** Every commit stops at its first assertion

    [jbd2_get_transaction] insists that no transaction is running, but the
    commit allocates the next transaction while the one it commits still is
    [j_running_transaction]. *)

Lemma commit_lock_fault submit_sb jiffies s ct :
  running_live s -> j_running_transaction (k_journal s) = Some ct ->
  commit_lock submit_sb jiffies s = Fault Assert.
Proof.
  intros Hl Ht.
  assert (exists s1, (j <- read_journal ;;
    (if JBD2_FLUSHED j
     then jbd2_vmsep_journal_update_sb_log_tail submit_sb jiffies (j_tail_sequence j) (j_tail j) ;;; kret tt
     else kret tt)) s = Ret (tt, s1) /\ j_running_transaction (k_journal s1) = Some ct) as (s1 & Hrun & Ht1).
  { unfold kbind at 1. cbn [read_journal]. destruct (JBD2_FLUSHED (k_journal s)); [|by exists s].
    pose proof (update_sb_log_tail_exec submit_sb jiffies (j_tail_sequence (k_journal s))
      (j_tail (k_journal s)) s Hl) as Hw. unfold wp in Hw. unfold kbind.
    destruct (jbd2_vmsep_journal_update_sb_log_tail _ _ _ _ s) as [[r s1]|]; [|done].
    destruct Hw as [Hs _]. exists s1. split; [done|].
    destruct Hs as (_ & _ & _ & _ & _ & _ & _ & _ & Hr & _). by rewrite Hr. }
  unfold commit_lock. unfold kbind at 1 in Hrun. unfold kbind at 1. cbn [read_journal] in *.
  unfold kbind at 1. rewrite Hrun. unfold kbind at 1. cbn [read_journal]. rewrite Ht1.
  unfold kbind at 1, j_assert. case_bool_decide; [|done].
  unfold kbind at 1. by rewrite (alloc_new_transaction_running _ _ ct).
Qed.

(** C31: Whenever there is a transaction to commit, [jbd2_vmsep_journal_commit_transaction] stops the
    machine in [alloc_new_transaction]: the assertion of [jbd2_get_transaction] that
    no transaction is running fails for the transaction about to be committed. *)
Theorem commit_lock_asserts submit_sb jiffies s ct :
  running_live s -> j_running_transaction (k_journal s) = Some ct ->
  commit_lock submit_sb jiffies s = Fault Assert.
Proof. apply commit_lock_fault. Qed.

Lemma commit_lock_asserts_witness : commit_lock (fun _ => 0) 0 ex_request = Fault Assert.
Proof. eapply (commit_lock_asserts _ _ _ 1); [intros t [= <-]; by eexists|reflexivity]. Defined.

(** ** Moving a buffer to the next transaction *)

Lemma get_bh_spec ext s b x h :
  wf ext s -> has_jh s b x h ->
  wp (get_bh b) (fun _ s' => wf ext s' /\ has_jh s' b (x <| b_count := Z.succ (b_count x) |>) h /\
    goes_to s (<[b := x <| b_count := Z.succ (b_count x) |>]> (k_bufs s)) (k_trans s) s') s.
Proof.
  intros Hwf [Hb Hh]. unfold get_bh. wp_step. split_and!; [by eapply wf_flags|by apply has_jh_upd|].
  by apply goes_to_eq.
Qed.

Lemma brelse_spec ext s b x h :
  wf ext s -> has_jh s b x h ->
  wp (__brelse b) (fun _ s' => wf ext s' /\ k_journal s' = k_journal s /\ k_trans s' = k_trans s /\
    exists x', has_jh s' b x' h /\ k_bufs s' = <[b := x']> (k_bufs s) /\
      buffer_dirty x' = buffer_dirty x /\ buffer_jbddirty x' = buffer_jbddirty x) s.
Proof.
  intros Hwf [Hb Hh]. unfold __brelse. wp_step. kst.
  split_and!; [eapply wf_flags; try done; by case_match|done|done|].
  eexists. split_and!; [apply has_jh_upd; by case_match|done|by case_match..].
Qed.

(** A buffer whose journal head somebody else refers to can be moved: it ends at
    the tail of the metadata list of [rt] with all its state. *)
Lemma move_to_next_spec ext s b x h ct rt :
  wf ext s -> has_jh s b x h -> b_transaction h = Some ct -> b_jlist h = BJ_Metadata ->
  b_next_transaction h = None -> is_Some (k_trans s !! rt) -> ct <> rt ->
  0 <= ext b -> (b_cp_transaction h <> None \/ 0 < ext b) ->
  JBD2_ABORT (k_journal s) = false -> buffer_dirty x = false ->
  wp (move_to_next rt b)
    (fun _ s' => wf ext s' /\ k_journal s' = k_journal s /\
       (exists x' h', has_jh s' b x' h' /\ k_bufs s' = <[b := x']> (k_bufs s) /\
          b_transaction h' = Some rt /\ b_jlist h' = BJ_Metadata /\ ino h' = ino h /\
          b_next_transaction h' = None /\ b_cp_transaction h' = b_cp_transaction h /\
          buffer_dirty x' = false /\ buffer_jbddirty x' = buffer_jbddirty x) /\
       k_trans s' = alter (tr_link b BJ_Metadata) rt (alter (tr_unlink b BJ_Metadata) ct (k_trans s))) s.
Proof.
  intros Hwf Hx Ht Hl Hn Hrt Hne Hext Href Ha Hd. pose proof Hx as [Hb Hh].
  destruct (wf_jh _ _ _ _ _ Hwf Hb Hh) as [_ Hok]. pose proof (jh_count _ _ _ _ Hok) as Hc.
  rewrite Ht in Hc. cbn in Hc.
  assert (b_jcount h <> 1) as Hcount.
  { pose proof (ref_range (b_cp_transaction h)). destruct Href as [Hr|]; [|lia].
    rewrite <-ref_none in Hr. lia. }
  unfold move_to_next, jbd2_vmsep_journal_unfile_buffer, jbd2_vmsep_journal_file_buffer.
  wp_step. wp_step. rewrite Hl.
  wp_step. wp_step. eapply wp_mono; [by eapply get_bh_spec|].
  intros _ s1 (Hwf1 & Hx1 & ->%goes_to_eq). set (x1 := x <| b_count := _ |>) in *.
  wp_step. eapply wp_mono; [eapply (unfile_buffer_spec ext); [exact Hwf1|exact Hx1|by rewrite Ht|done|done]|].
  intros _ s2 (Hwf2 & Hj2 & Hbufs2 & Htrs2). kst. rewrite Ht, Hl in Htrs2.
  rewrite Hl, insert_insert_eq in Hbufs2. rewrite decide_False, Ha in Hbufs2 by done.
  set (h2 := h <| b_jlist := BJ_None |> <| b_transaction := None |> <| b_jcount := Z.pred (b_jcount h) |>).
  set (x2 := (bh_unlink false x1) <| b_private := Some h2 |>).
  assert (k_bufs s2 = <[b := x2]> (k_bufs s)) as Hbufs2'.
  { rewrite Hbufs2. unfold bh_put. cbn [b_jcount field_update]. cbn.
    by rewrite (proj2 (Z.eqb_neq _ _) Hcount). }
  assert (has_jh s2 b x2 h2) as Hx2 by (split; [by rewrite Hbufs2', lookup_insert_eq|done]).
  eapply wp_mono; [by eapply brelse_spec|].
  intros _ s3 (Hwf3 & Hj3 & Htrs3 & x3 & Hx3 & Hbufs3 & Hd3 & Hjd3).
  eapply wp_mono; [eapply (file_buffer_spec ext s3 b x3 h2 rt BJ_Metadata); [done|done| |done|by right|by intros []]|].
  { rewrite Htrs3, Htrs2, lookup_alter_ne by done. done. }
  intros _ s4 (Hwf4 & Hj4 & (x4 & Hx4 & Hbufs4 & Hjd4 & Hd4) & Htrs4).
  split_and!; [done|congruence| |].
  - eexists x4, _. split_and!; [exact Hx4|by rewrite Hbufs4, Hbufs3, Hbufs2', !insert_insert_eq|done|done|done|done|done| |].
    + apply Hd4. rewrite Hjd3. cbn. apply andb_false_r.
    + rewrite Hjd4, Hjd3, Hd3. cbn. by rewrite Hd, orb_false_r.
  - rewrite Htrs4, Htrs3, Htrs2. done.
Qed.

(** A buffer nobody else refers to loses its journal head when it is unfiled, and
    filing it on the next transaction then uses the freed journal head. *)
Lemma move_to_next_oops ext s b x h ct rt :
  wf ext s -> has_jh s b x h -> b_transaction h = Some ct ->
  b_next_transaction h = None -> b_cp_transaction h = None -> ext b = 0 ->
  move_to_next rt b s = Fault Oops.
Proof.
  intros Hwf Hx Ht Hn Hcp Hext. pose proof Hx as [Hb Hh].
  destruct (wf_jh _ _ _ _ _ Hwf Hb Hh) as [_ Hok]. pose proof (jh_count _ _ _ _ Hok) as Hc.
  rewrite Ht, Hcp, Hext in Hc. cbn in Hc.
  unfold move_to_next, jbd2_vmsep_journal_unfile_buffer, jbd2_vmsep_journal_file_buffer.
  erewrite (bind_ret (read_jh b) _ s); [|unfold read_jh, jh_of; rewrite Hb; cbn; rewrite Hh; done].
  destruct (proj1 (wp_returns _ _ _) (get_bh_spec ext s b x h Hwf Hx))
    as ([] & s1 & Hrun1 & Hwf1 & Hx1 & ->%goes_to_eq).
  destruct (proj1 (wp_returns _ _ _) (unfile_buffer_spec ext _ b _ h Hwf1 Hx1 ltac:(by rewrite Ht) Hn ltac:(lia)))
    as ([] & s2 & Hrun2 & Hwf2 & _ & Hbufs2 & _).
  assert (exists x2, k_bufs s2 !! b = Some x2 /\ b_private x2 = None) as (x2 & Hb2 & Hp2).
  { rewrite Hbufs2, lookup_insert_eq. eexists. split; [done|]. unfold bh_put.
    replace (b_jcount _ =? 1) with true by (symmetry; apply Z.eqb_eq; cbn; lia). done. }
  unfold kbind. rewrite Hrun1, Hrun2. unfold __brelse, modify_bh. rewrite Hb2.
  unfold __jbd2_vmsep_journal_file_buffer, kbind, read_jh, jh_of. cbn [k_bufs field_update].
  cbn. rewrite lookup_insert_eq. cbn. destruct (b_count x2 =? 0); cbn; by rewrite ?Hp2.
Qed.

(** ** Writing a buffer to the log *)

Lemma jh_ok_same ext trs b h h' :
  jh_ok ext trs b h -> b_jcount h' = b_jcount h -> b_jlist h' = b_jlist h ->
  b_transaction h' = b_transaction h -> b_next_transaction h' = b_next_transaction h ->
  b_cp_transaction h' = b_cp_transaction h -> jh_ok ext trs b h'.
Proof. intros [] E1 E2 E3 E4 E5. split; rewrite ?E1, ?E2, ?E3, ?E4, ?E5; auto. Qed.

Lemma wf_same_jh ext s j b x h x' h' :
  wf ext s -> has_jh s b x h -> b_private x' = Some h' -> buffer_jbd x' = buffer_jbd x ->
  b_jcount h' = b_jcount h -> b_jlist h' = b_jlist h ->
  b_transaction h' = b_transaction h -> b_next_transaction h' = b_next_transaction h ->
  b_cp_transaction h' = b_cp_transaction h ->
  wf ext (mk_kstate j (<[b := x']> (k_bufs s)) (k_trans s)).
Proof.
  intros Hwf [Hb Hh] Hp Hj E1 E2 E3 E4 E5. destruct (wf_jh _ _ _ _ _ Hwf Hb Hh) as [Hjbd Hok].
  eapply wf_set_bh; [done|done|]. split; rewrite Hp; [by rewrite Hj, Hjbd|].
  eapply jh_ok_same; eauto.
Qed.

(** What goes to the log for a buffer: the frozen copy if there is one, with the magic
    number blanked out. *)
Definition log_source (x : buffer_head) (h : journal_head) : list Z :=
  default (b_data x) (b_frozen_data h).
Definition log_copy (data : list Z) : list Z :=
  if starts_with_magic data then escape_data data else data.

(** What logging does to a buffer: its I/O is under way, it stays dirty for the
    journal, and its other transactions are as before. *)
Record shadows (x : buffer_head) (h : journal_head) (x' : buffer_head) (h' : journal_head) : Prop := {
  sw_shadow : buffer_shadow x' = true;
  sw_jbddirty : buffer_jbddirty x = true -> buffer_jbddirty x' = true;
  sw_dirty : buffer_dirty x = false -> buffer_dirty x' = false;
  sw_next : b_next_transaction h' = b_next_transaction h;
  sw_cp : b_cp_transaction h' = b_cp_transaction h;
}.

Lemma write_shadow_spec ext s b x h t data e c :
  wf ext s -> has_jh s b x h -> b_transaction h = Some t -> b_jlist h = BJ_Metadata ->
  is_Some (k_trans s !! t) ->
  wp (__jbd2_vmsep_journal_file_buffer b t BJ_Shadow ;;;
      modify_bh b (fun x => x <| buffer_shadow := true |>) ;;;
      kret (@inr Z (list Z * bool * bool) (data, e, c)))
    (fun r s' => r = inr (data, e, c) /\ wf ext s' /\ k_journal s' = k_journal s /\
       (exists x', has_jh s' b x' (h <| b_jlist := BJ_Shadow |>) /\ k_bufs s' = <[b := x']> (k_bufs s) /\
          shadows x h x' (h <| b_jlist := BJ_Shadow |>)) /\
       k_trans s' = alter (fun tr => tr_link b BJ_Shadow (tr_unlink b BJ_Metadata tr)) t (k_trans s)) s.
Proof.
  intros Hwf Hx Ht Hl Hlive. wp_step.
  eapply wp_mono; [eapply (file_buffer_spec ext s b x h t BJ_Shadow); [done|done|done|done|by left|]|].
  { intros [_ He]. congruence. }
  intros _ s1 (Hwf1 & Hj1 & (x1 & Hx1 & Hbufs1 & Hjd1 & Hd1) & Htrs1). pose proof Hx1 as [Hb1 Hh1].
  assert ((jh_join h t) <| b_jlist := BJ_Shadow |> = h <| b_jlist := BJ_Shadow |>) as Hjh.
  { unfold jh_join. destruct h; cbn in *. rewrite Ht. cbn. f_equal. lia. }
  rewrite Hjh in *.
  wp_step. wp_step. wp_step. kst. split_and!; [done|by eapply wf_flags|done| |].
  - eexists. split_and!; [by apply has_jh_upd|by rewrite Hbufs1, insert_insert_eq|].
    split; cbn; [done| | |done|done].
    + intros Hjd. rewrite Hjd1, Hjd. apply orb_true_r.
    + intros Hd. apply Hd1. by rewrite Hd.
  - rewrite Htrs1, Hl. destruct Hlive as [tr Htr]. rewrite !(alter_insert_eq _ _ _ tr) by done.
    by rewrite decide_True by (by rewrite Ht).
Qed.

Lemma write_metadata_spec ext s b x h t :
  wf ext s -> has_jh s b x h -> b_transaction h = Some t -> b_jlist h = BJ_Metadata ->
  is_Some (k_trans s !! t) -> buffer_jbddirty x = true ->
  wp (jbd2_vmsep_journal_write_metadata_buffer true t b)
    (fun r s' => (exists c, r = inr (log_copy (log_source x h), starts_with_magic (log_source x h), c)) /\
       wf ext s' /\ k_journal s' = k_journal s /\
       (exists x' h', has_jh s' b x' h' /\ k_bufs s' = <[b := x']> (k_bufs s) /\
          b_transaction h' = Some t /\ b_jlist h' = BJ_Shadow /\ shadows x h x' h') /\
       k_trans s' = alter (fun tr => tr_link b BJ_Shadow (tr_unlink b BJ_Metadata tr)) t (k_trans s)) s.
Proof.
  intros Hwf Hx Ht Hl Hlive Hjd. pose proof Hx as [Hb Hh].
  unfold jbd2_vmsep_journal_write_metadata_buffer, log_copy, log_source.
  wp_step. wp_step. wp_step. wp_step; [done|]. wp_step. wp_step. cbv zeta.
  assert (forall d, let h2 := h <| b_frozen_data := Some d |> in
    let x2 := x <| b_private := Some h2 |> in
    let s2 := mk_kstate (k_journal s) (<[b := x2]> (k_bufs s)) (k_trans s) in
    wf ext s2 /\ has_jh s2 b x2 h2) as Hfreeze.
  { intros d h2 x2 s2. split; [by eapply wf_same_jh|by apply has_jh_upd]. }
  destruct (b_frozen_data h) as [frozen|] eqn:Hf; cbn [default option_rect];
    destruct (starts_with_magic _) eqn:Hm.
  1,3: wp_step; wp_step;
    match goal with |- context [escape_data ?d] => destruct (Hfreeze (escape_data d)) as [Hwf2 Hx2] end;
    eapply wp_mono; [eapply write_shadow_spec; [exact Hwf2|exact Hx2|done|done|done]|];
    intros r s3 (-> & Hwf3 & Hj3 & (x3 & Hx3 & Hb3 & Hsw3) & Ht3);
    split_and!; [by eexists|done|done| |done]; eexists x3, _; split_and!; [exact Hx3| |done..|by destruct Hsw3];
    by rewrite Hb3; kst; rewrite insert_insert_eq.
  all: eapply wp_mono; [eapply write_shadow_spec; [exact Hwf|exact Hx|done|done|done]|];
    intros r s3 (-> & Hwf3 & Hj3 & (x3 & Hx3 & Hb3 & Hsw3) & Ht3);
    split_and!; [by eexists|done|done| |done]; eexists x3, _; split_and!; [exact Hx3|done..].
Qed.

(** ** One iteration for a buffer of the synchronised inode *)

(** Every log block is mapped. *)
Definition mapped (j_inode : option (Z -> Z)) : Prop :=
  forall f b, j_inode = Some f -> f b <> 0.
Definition physical (j_inode : option (Z -> Z)) (b : Z) : Z :=
  match j_inode with Some f => f b | None => b end.

Lemma next_log_block_exec submit_sb jiffies j_inode s :
  mapped j_inode -> 1 < j_free (k_journal s) ->
  jbd2_vmsep_journal_next_log_block submit_sb jiffies j_inode s =
  Ret ((0, physical j_inode (j_head (k_journal s))),
       mk_kstate (take_block (k_journal s)) (k_bufs s) (k_trans s)).
Proof.
  intros Hm Hf. unfold jbd2_vmsep_journal_next_log_block, take_log_block, jbd2_vmsep_journal_bmap, kbind.
  cbn [read_journal]. unfold j_assert. rewrite (proj2 (Z.ltb_lt _ _) Hf). cbn [modify_journal kret].
  unfold physical. destruct j_inode as [f|] eqn:E; [|done].
  by rewrite (proj2 (Z.eqb_neq _ _) (Hm f _ eq_refl)).
Qed.

(** The state a buffer must be in to be logged. *)
Definition loggable (s : kstate) (ct : tr_id) (b : bh_id) (x : buffer_head) (h : journal_head) : Prop :=
  has_jh s b x h /\ b_transaction h = Some ct /\ b_jlist h = BJ_Metadata /\ buffer_jbddirty x = true.

(** Only [b], the lists of [ct] and the log moved. *)
Record logged_step (s s' : kstate) (ct : tr_id) (b : bh_id) (x : buffer_head) (h : journal_head) : Prop := {
  ls_bufs : exists x' h', has_jh s' b x' h' /\ k_bufs s' = <[b := x']> (k_bufs s) /\
     b_transaction h' = Some ct /\ b_jlist h' = BJ_Shadow /\ shadows x h x' h';
  ls_trans : k_trans s' = alter (fun tr => tr_link b BJ_Shadow (tr_unlink b BJ_Metadata
     (tr <| t_outstanding_credits := t_outstanding_credits tr - 1 |>))) ct (k_trans s);
}.

Lemma wf_set_credits ext s j t tr tr' :
  wf ext s -> k_trans s !! t = Some tr -> (forall jl, list_of jl tr' = list_of jl tr) ->
  t_nr_buffers tr' = t_nr_buffers tr ->
  wf ext (mk_kstate j (k_bufs s) (<[t := tr']> (k_trans s))).
Proof.
  intros Hwf Ht Hl Hnr.
  assert (forall u tr2, <[t := tr']> (k_trans s) !! u = Some tr2 -> exists tr1, k_trans s !! u = Some tr1 /\
    (forall jl, list_of jl tr2 = list_of jl tr1) /\ t_nr_buffers tr2 = t_nr_buffers tr1) as Hback.
  { intros u tr2. rewrite lookup_insert. case_decide; [|by exists tr2]. intros [= <-]. subst. by exists tr. }
  split; kst.
  - intros b x Hb. destruct (wf_bh _ _ Hwf b x Hb) as [Hj Hok]. split; [done|].
    destruct (b_private x) as [h|].
    + eapply jh_ok_lists; [exact Hok| |].
      * intros u. rewrite lookup_insert. case_decide; [subst; rewrite Ht; split; eauto|done].
      * intros u tr2 Hu. destruct (Hback u tr2 Hu) as (tr1 & H1 & H2 & _). exists tr1. split; [done|].
        intros jl. by rewrite H2.
    + intros u tr2 jl Hu. destruct (Hback u tr2 Hu) as (tr1 & H1 & H2 & _). rewrite H2. by eapply Hok.
  - intros u tr2 Hu. destruct (Hback u tr2 Hu) as (tr1 & H1 & H2 & H3).
    destruct (wf_tr _ _ Hwf u tr1 H1) as [Hnd Hn Hb]. split.
    + intros jl. by rewrite H2.
    + pose proof (H2 BJ_Metadata) as Hm. cbn in Hm. rewrite Hm. congruence.
    + intros jl b. rewrite H2. apply Hb.
Qed.

Section LogStep.
Context (submit_sb : journal_t -> Z) (jiffies : Z) (j_inode : option (Z -> Z)).
Context (tag_bytes csum_size j_blocksize j_wbufsize : Z).

Lemma log_buffer_spec ext s ct b x h d w :
  wf ext s -> loggable s ct b x h -> is_Some (k_trans s !! ct) ->
  mapped j_inode -> 1 < j_free (k_journal s) ->
  wp (log_buffer submit_sb jiffies j_inode true tag_bytes csum_size j_wbufsize ct b d w)
    (fun w' s' => wf ext s' /\ logged_step s s' ct b x h /\ k_journal s' = take_block (k_journal s) /\
       exists tr', k_trans s' !! ct = Some tr' /\
       let blk := physical j_inode (j_head (k_journal s)) in
       let d' := add_tag tag_bytes (b_blocknr x) blk (log_copy (log_source x h))
                   (starts_with_magic (log_source x h)) d in
       let w1 := mk_locals (Some d') (w_io_bufs w ++ [(b, blk)]) (w_log_bufs w) (w_submitted w) in
       w' = if must_submit tag_bytes csum_size j_wbufsize (bool_decide (t_buffers tr' = [])) d'
            then submit (t_tid tr') true w1 else w1) s.
Proof.
  intros Hwf (Hx & Ht & Hl & Hjd) [tr Htr] Hm Hf. pose proof Hx as [Hb Hh].
  unfold log_buffer. eapply wp_exec; [by apply next_log_block_exec|]. cbn [fst snd].
  change (negb (0 =? 0)) with false. cbv iota.
  set (tr1 := tr <| t_outstanding_credits := t_outstanding_credits tr - 1 |>).
  set (s1 := mk_kstate (take_block (k_journal s)) (k_bufs s) (<[ct := tr1]> (k_trans s))).
  assert (wf ext s1) as Hwf1 by (by eapply wf_set_credits).
  wp_step. wp_step. kst. fold tr1 s1.
  wp_step. eapply wp_mono; [eapply (get_bh_spec ext s1); [exact Hwf1|by split]|].
  intros _ s2 (Hwf2 & Hx2 & ->%goes_to_eq). set (x2 := x <| b_count := _ |>) in *.
  wp_step. wp_step. kst. rewrite insert_insert_eq.
  set (x3 := x2 <| buffer_jwrite := true |>).
  assert (wf ext (mk_kstate (take_block (k_journal s)) (<[b := x3]> (k_bufs s)) (<[ct := tr1]> (k_trans s)))) as Hwf3
    by (by eapply (wf_flags ext s1)).
  wp_step. eapply wp_read_bh; [by kst; rewrite lookup_insert_eq|].
  wp_step. eapply wp_mono; [eapply (write_metadata_spec ext _ b x3 h ct);
    [exact Hwf3|by apply has_jh_upd|done|done|exists tr1; apply lookup_insert_eq|done]|].
  intros r s4 ((c & ->) & Hwf4 & Hj4 & (x4 & h4 & Hx4 & Hb4 & Ht4 & Hl4 & Hsw4) & Htrs4). kst.
  assert (k_trans s4 !! ct = Some (tr_link b BJ_Shadow (tr_unlink b BJ_Metadata tr1))) as Htr4
    by (rewrite Htrs4, lookup_alter_eq; subst s1; kst; by rewrite lookup_insert_eq).
  change (k_trans s1) with (<[ct := tr1]> (k_trans s)) in Htrs4. change (k_bufs s1) with (k_bufs s) in Hb4.
  wp_step. eapply wp_read_tr; [exact Htr4|]. wp_step. split_and!; [done| |done|].
  - split.
    + exists x4, h4. split_and!; try done; [by rewrite Hb4, insert_insert_eq|]. by destruct Hsw4.
    + rewrite Htrs4. rewrite (alter_insert_eq (<[ct:=tr1]> (k_trans s)) ct _ tr1) by (by rewrite lookup_insert_eq).
      rewrite insert_insert_eq. by rewrite (alter_insert_eq (k_trans s) ct _ tr).
  - eexists. split; [exact Htr4|]. done.
Qed.
End LogStep.

(** ** What has reached the log *)

(** A logged buffer: its home block, whether it was escaped, its data. *)
Abbreviation entry := (Z * bool * list Z)%type (only parsing).
Definition entries (tags : list tag) (data : list (Z * list Z)) : list entry :=
  zip_with (fun t p => (tag_block t, Z.testbit (tag_flags t) 0, p.2)) tags data.

(** The entries submitted to the device, and those waiting in the open descriptor. *)
Definition submitted (w : commit_locals) : list entry :=
  mjoin ((fun g => entries (g_tags g) (g_data g)) <$> w_submitted w).
Definition pending (w : commit_locals) : list entry :=
  match w_descriptor w with Some d => entries (d_tags d) (d_data d) | None => [] end.
Definition locals_ok (w : commit_locals) : Prop :=
  match w_descriptor w with Some d => length (d_tags d) = length (d_data d) | None => True end.

Lemma add_tag_entries tb home blk data e d :
  length (d_tags d) = length (d_data d) ->
  let d' := add_tag tb home blk data e d in
  length (d_tags d') = length (d_data d') /\
  entries (d_tags d') (d_data d') = entries (d_tags d) (d_data d) ++ [(home, e, data)].
Proof.
  intros Hl. cbn. rewrite !length_app. cbn. split; [lia|]. unfold entries.
  rewrite zip_with_app by done. cbn. by destruct e, (d_first_tag d).
Qed.

Lemma set_last_entries tags data :
  entries (set_last JBD2_FLAG_LAST_TAG tags) data = entries tags data.
Proof.
  unfold set_last. destruct tags as [|t ts _] using rev_ind; [done|].
  rewrite reverse_snoc, reverse_cons, reverse_involutive. unfold entries.
  generalize data. induction ts as [|u ts IH]; intros [|p data']; cbn; try done.
  - rewrite <-!Z.bit0_odd, Z.lor_spec. cbn. by rewrite orb_false_r.
  - by rewrite IH.
Qed.

Lemma submit_entries seq w :
  submitted (submit seq true w) = submitted w ++ pending w /\ w_descriptor (submit seq true w) = None.
Proof.
  unfold submit, submitted, pending. destruct (w_descriptor w) as [d|] eqn:E.
  - cbn [w_submitted w_descriptor]. rewrite fmap_app, join_app. cbn. rewrite app_nil_r, set_last_entries. done.
  - by rewrite app_nil_r.
Qed.

(** ** The loop separates the inodes *)

(** The state of the loop with [l] left on the metadata list.  [own b] says
    whether [b] belongs to the inode being synchronised, [ent b] is what the log
    shall hold for it.  A buffer of another inode must be referred to by somebody
    besides the transaction. *)
Record ready (ext : bh_id -> Z) (ct rt : tr_id) (own : bh_id -> bool) (ent : bh_id -> entry)
    (l : list bh_id) (s : kstate) : Prop := {
  rd_wf : wf ext s;
  rd_ne : ct <> rt;
  rd_ct tr : k_trans s !! ct = Some tr -> t_buffers tr = l;
  rd_ct_live : is_Some (k_trans s !! ct);
  rd_rt_live : is_Some (k_trans s !! rt);
  rd_bufs b : b ∈ l -> exists x h tr, has_jh s b x h /\ k_trans s !! ct = Some tr /\
    own b = (ino h =? ino_sync tr) /\
    ent b = (b_blocknr x, starts_with_magic (log_source x h), log_copy (log_source x h)) /\
    buffer_jbddirty x = true /\ buffer_dirty x = false /\ b_next_transaction h = None /\
    0 <= ext b /\ (own b = false -> b_cp_transaction h <> None \/ 0 < ext b);
  rd_abort : JBD2_ABORT (k_journal s) = false;
  rd_log : log_ok (k_journal s);
  rd_free : 1 + 2 * Z.of_nat (length (filter (fun b => own b = true) l)) < j_free (k_journal s);
}.

(** The rest of the list is ready after a step that changes only the first
    buffer and takes it off the list. *)
Lemma ready_step ext ct rt own ent b l s s' x' tr tr' :
  ready ext ct rt own ent (b :: l) s -> wf ext s' ->
  k_bufs s' = <[b := x']> (k_bufs s) ->
  k_trans s !! ct = Some tr -> k_trans s' !! ct = Some tr' -> t_buffers tr' = l ->
  ino_sync tr' = ino_sync tr -> is_Some (k_trans s' !! rt) ->
  JBD2_ABORT (k_journal s') = false -> log_ok (k_journal s') ->
  j_free (k_journal s) - (if own b then 2 else 0) <= j_free (k_journal s') ->
  ready ext ct rt own ent l s'.
Proof.
  intros Hrd Hwf' Hb' Htr Htr' Hl' Hi Hrt Ha Hlog Hfree.
  assert (b ∉ l) as Hnin.
  { pose proof (tr_nodup _ _ (wf_tr _ _ (rd_wf _ _ _ _ _ _ _ Hrd) ct tr Htr) BJ_Metadata) as Hnd.
    cbn in Hnd. rewrite (rd_ct _ _ _ _ _ _ _ Hrd tr Htr) in Hnd. by apply NoDup_cons in Hnd as [? _]. }
  pose proof (rd_free _ _ _ _ _ _ _ Hrd) as Hf. rewrite filter_cons in Hf.
  split; try done.
  - apply (rd_ne _ _ _ _ _ _ _ Hrd).
  - intros tr1 Htr1. congruence.
  - intros y Hy. destruct (rd_bufs _ _ _ _ _ _ _ Hrd y) as (x & h & tr0 & [Hxb Hxh] & Htr0 & Hown & Hrest).
    { by right. }
    exists x, h, tr'. split_and!; try done; try apply Hrest.
    + split; [|done]. rewrite Hb', lookup_insert_ne; [done|]. intros ->. done.
    + rewrite Hown. congruence.
  - destruct (own b) eqn:Hob.
    + rewrite decide_True in Hf by done. cbn in Hf. lia.
    + rewrite decide_False in Hf by done. lia.
Qed.

Section Loop.
Context (submit_sb : journal_t -> Z) (jiffies : Z) (j_inode : option (Z -> Z)).
Context (tag_bytes csum_size j_blocksize j_wbufsize : Z).
Context (ext : bh_id -> Z) (ct rt : tr_id) (own : bh_id -> bool) (ent : bh_id -> entry).
Abbreviation step := (commit_step submit_sb jiffies j_inode true tag_bytes csum_size j_blocksize j_wbufsize).
Abbreviation loop := (commit_loop submit_sb jiffies j_inode true tag_bytes csum_size j_blocksize j_wbufsize).

(** The lists of the two transactions after a step. *)
Definition moved (s s' : kstate) (shadow others : list bh_id) : Prop :=
  forall tc tr, k_trans s !! ct = Some tc -> k_trans s !! rt = Some tr ->
  exists tc' tr', k_trans s' !! ct = Some tc' /\ k_trans s' !! rt = Some tr' /\
    t_shadow_list tc' = t_shadow_list tc ++ shadow /\ t_buffers tr' = t_buffers tr ++ others /\
    t_tid tc' = t_tid tc /\ t_outstanding_credits tr' = t_outstanding_credits tr.

Lemma ready_head b l s :
  ready ext ct rt own ent (b :: l) s ->
  exists x h tr, loggable s ct b x h /\ k_trans s !! ct = Some tr /\ t_buffers tr = b :: l /\
    own b = (ino h =? ino_sync tr) /\ b ∉ l /\
    ent b = (b_blocknr x, starts_with_magic (log_source x h), log_copy (log_source x h)) /\
    buffer_dirty x = false /\ b_next_transaction h = None /\
    0 <= ext b /\ (own b = false -> b_cp_transaction h <> None \/ 0 < ext b).
Proof.
  intros Hrd. destruct (rd_bufs _ _ _ _ _ _ _ Hrd b) as (x & h & tr & Hx & Htr & Hown & He & Hjd & Hd & Hn & Hext & Href).
  { by left. }
  pose proof Hx as [Hb Hh]. destruct (wf_jh _ _ _ _ _ (rd_wf _ _ _ _ _ _ _ Hrd) Hb Hh) as [_ Hok].
  pose proof (rd_ct _ _ _ _ _ _ _ Hrd tr Htr) as Hl.
  destruct (proj1 (jh_member _ _ _ _ Hok ct tr BJ_Metadata Htr)) as (Ht & Hjl & _).
  { cbn. rewrite Hl. by left. }
  exists x, h, tr. split_and!; try done.
  pose proof (tr_nodup _ _ (wf_tr _ _ (rd_wf _ _ _ _ _ _ _ Hrd) ct tr Htr) BJ_Metadata) as Hnd.
  cbn in Hnd. rewrite Hl in Hnd. by apply NoDup_cons in Hnd as [? _].
Qed.

Lemma step_other b l s w :
  ready ext ct rt own ent (b :: l) s -> own b = false ->
  wp (step ct rt w b) (fun w' s' => w' = w /\ ready ext ct rt own ent l s' /\ moved s s' [] [b]) s.
Proof.
  intros Hrd Hob. destruct (ready_head b l s Hrd) as (x & h & tr & Hlg & Htr & Hl & Hown & Hnin & _ & Hd & Hn & Hext & Href).
  destruct Hlg as (Hx & Ht & Hjl & Hjd). pose proof Hx as [Hb Hh]. destruct Hrd eqn:E. clear E.
  destruct rd_rt_live0 as [tr0 Htr0]. unfold commit_step. wp_step. wp_step. wp_step. wp_step.
  rewrite <-Hown, Hob. cbn [negb]. wp_step.
  eapply wp_mono; [eapply (move_to_next_spec ext s b x h ct rt); try done; [by eexists..|by apply Href]|].
  intros _ s' (Hwf' & Hj' & (x' & h' & Hx' & Hb' & _) & Htrs'). wp_step.
  assert (k_trans s' !! ct = Some (tr_unlink b BJ_Metadata tr)) as Hct'.
  { by rewrite Htrs', lookup_alter_ne, lookup_alter_eq, Htr. }
  assert (k_trans s' !! rt = Some (tr_link b BJ_Metadata tr0)) as Hrt'.
  { by rewrite Htrs', lookup_alter_eq, lookup_alter_ne, Htr0. }
  split_and!; [done| |].
  - eapply (ready_step ext ct rt own ent b l s s' x' tr); try done; try (by eexists); try congruence.
    + cbn. rewrite Hl. by rewrite blist_del_head.
    + rewrite Hob, Hj'. lia.
  - intros tc tr1 Htc Htr1. simplify_eq. eexists _, _. split_and!; [exact Hct'|exact Hrt'|..]; cbn.
    + by rewrite app_nil_r.
    + done.
    + done.
    + done.
Qed.

(** Logging the first buffer into the descriptor [d], from a state [s1] that
    differs from [s] at most by the descriptor's log block. *)
Lemma log_own b l s s1 x h tr d w w1 :
  ready ext ct rt own ent (b :: l) s -> own b = true -> mapped j_inode ->
  loggable s ct b x h -> k_trans s !! ct = Some tr ->
  ent b = (b_blocknr x, starts_with_magic (log_source x h), log_copy (log_source x h)) ->
  wf ext s1 -> k_bufs s1 = k_bufs s -> k_trans s1 = k_trans s -> JBD2_ABORT (k_journal s1) = false ->
  log_ok (k_journal s1) -> 1 < j_free (k_journal s1) ->
  j_free (k_journal s) - 1 <= j_free (k_journal s1) ->
  length (d_tags d) = length (d_data d) -> submitted w1 = submitted w ->
  entries (d_tags d) (d_data d) = pending w ->
  wp (log_buffer submit_sb jiffies j_inode true tag_bytes csum_size j_wbufsize ct b d w1)
    (fun w' s' => ready ext ct rt own ent l s' /\ moved s s' [b] [] /\ locals_ok w' /\
       submitted w' ++ pending w' = submitted w ++ pending w ++ [ent b] /\
       (l = [] -> pending w' = [])) s1.
Proof.
  intros Hrd Hob Hm Hlg Htr He Hwf1 Hb1 Ht1 Ha1 Hlog1 Hf1 Hfree1 Hlen Hsub Hpend.
  destruct (rd_rt_live _ _ _ _ _ _ _ Hrd) as [tr0 Htr0]. pose proof (rd_ne _ _ _ _ _ _ _ Hrd) as Hne.
  pose proof (rd_ct _ _ _ _ _ _ _ Hrd tr Htr) as Hl.
  destruct (ready_head b l s Hrd) as (_ & _ & _ & _ & _ & _ & _ & Hnin & _).
  eapply wp_mono; [eapply (log_buffer_spec submit_sb jiffies j_inode tag_bytes csum_size j_wbufsize ext s1 ct b x h d w1)|].
  { done. }
  { unfold loggable, has_jh in *. by rewrite Hb1. }
  { rewrite Ht1. by eexists. }
  { done. }
  { done. }
  intros w' s' (Hwf' & Hstep & Hj' & tr' & Htr' & Hw'). cbv zeta in Hw'.
  destruct Hstep as [(x' & h' & Hx' & Hbufs' & _) Htrs']. rewrite Hb1 in Hbufs'. rewrite Ht1 in Htrs'.
  pose proof Htr' as Htr2. rewrite Htrs', lookup_alter_eq, Htr in Htr2. injection Htr2 as Htr2.
  assert (k_trans s' !! rt = Some tr0) as Hrt' by (by rewrite Htrs', lookup_alter_ne).
  assert (t_buffers tr' = l) as Hl' by (rewrite <-Htr2; cbn; rewrite Hl; by apply blist_del_head).
  destruct (take_block_fields _ Hlog1 Hf1) as (Hfr & _).
  destruct (add_tag_entries tag_bytes (b_blocknr x) (physical j_inode (j_head (k_journal s1)))
    (log_copy (log_source x h)) (starts_with_magic (log_source x h)) d Hlen) as [Hlen' Hent'].
  split_and!.
  - eapply (ready_step ext ct rt own ent b l s s' x' tr tr'); try done; try (by eexists);
      try (by rewrite <-Htr2); rewrite Hj'.
    + unfold take_block. by destruct (_ =? _).
    + by apply log_ok_take.
    + rewrite Hob, Hfr. lia.
  - intros tc trr Htc Htrr. simplify_eq. eexists _, _. split_and!; [exact Htr'|exact Hrt'|done|by rewrite app_nil_r|done|done].
  - subst w'. destruct (must_submit _ _ _ _ _); [|done]. unfold locals_ok. by rewrite (proj2 (submit_entries _ _)).
  - subst w'. destruct (must_submit _ _ _ _ _).
    + destruct (submit_entries (t_tid tr') (mk_locals (Some (add_tag tag_bytes (b_blocknr x)
        (physical j_inode (j_head (k_journal s1))) (log_copy (log_source x h))
        (starts_with_magic (log_source x h)) d)) (w_io_bufs w1 ++ [(b, physical j_inode (j_head (k_journal s1)))])
        (w_log_bufs w1) (w_submitted w1))) as [Hs Hp].
      rewrite Hs. unfold pending at 2. rewrite Hp, app_nil_r. unfold pending at 1. cbn [w_descriptor].
      rewrite Hent', Hpend, He. by rewrite <-Hsub.
    + unfold pending at 1. cbn [w_descriptor]. rewrite Hent', Hpend, He. by rewrite <-Hsub.
  - intros ->. subst w'. unfold must_submit. rewrite Hl', bool_decide_true, orb_true_r by done.
    cbn [orb]. unfold pending. by rewrite (proj2 (submit_entries _ _)).
Qed.

Lemma step_own b l s w :
  ready ext ct rt own ent (b :: l) s -> own b = true -> mapped j_inode -> locals_ok w ->
  wp (step ct rt w b)
    (fun w' s' => ready ext ct rt own ent l s' /\ moved s s' [b] [] /\ locals_ok w' /\
       submitted w' ++ pending w' = submitted w ++ pending w ++ [ent b] /\
       (l = [] -> pending w' = [])) s.
Proof.
  intros Hrd Hob Hm Hw. destruct (ready_head b l s Hrd) as (x & h & tr & Hlg & Htr & Hl & Hown & Hnin & He & Hd & Hn & Hext & Href).
  destruct (rd_rt_live _ _ _ _ _ _ _ Hrd) as [tr0 Htr0]. pose proof (rd_ne _ _ _ _ _ _ _ Hrd) as Hne.
  pose proof (rd_free _ _ _ _ _ _ _ Hrd) as Hfree. rewrite filter_cons, decide_True in Hfree by done.
  cbn [length] in Hfree. pose proof (rd_log _ _ _ _ _ _ _ Hrd) as Hlog.
  pose proof (rd_wf _ _ _ _ _ _ _ Hrd) as Hwf. pose proof (rd_abort _ _ _ _ _ _ _ Hrd) as Ha.
  unfold commit_step. wp_step. destruct Hlg as (Hx & Hlg') eqn:Elg. pose proof Hx as [Hb Hh]. clear Elg.
  wp_step. wp_step. wp_step. rewrite <-Hown, Hob. cbn [negb]. unfold is_journal_aborted.
  wp_step. wp_step. wp_step. wp_step. rewrite Ha.
  destruct (w_descriptor w) as [d|] eqn:Hdesc.
  - eapply (log_own b l s s); try done; try lia.
    + unfold locals_ok in Hw. by rewrite Hdesc in Hw.
    + unfold pending. by rewrite Hdesc.
  - unfold get_descriptor. wp_step. eapply wp_exec; [apply next_log_block_exec; [done|lia]|].
    cbn [fst snd]. wp_step. cbn [Z.eqb].
    destruct (take_block_fields _ Hlog ltac:(lia)) as (Hfr & _).
    eapply (log_own b l s); try done; kst; try lia.
    + by apply wf_journal.
    + unfold take_block. by case_match.
    + apply log_ok_take; [done|lia].
    + unfold pending. by rewrite Hdesc.
Qed.

Lemma moved_trans s1 s2 s3 a1 o1 a2 o2 :
  moved s1 s2 a1 o1 -> moved s2 s3 a2 o2 -> moved s1 s3 (a1 ++ a2) (o1 ++ o2).
Proof.
  intros H12 H23 tc tr Htc Htr. destruct (H12 tc tr Htc Htr) as (tc2 & tr2 & Htc2 & Htr2 & Ha & Ho & Ht & Hc).
  destruct (H23 tc2 tr2 Htc2 Htr2) as (tc3 & tr3 & Htc3 & Htr3 & Ha' & Ho' & Ht' & Hc').
  exists tc3, tr3. rewrite Ha', Ho', Ha, Ho, <-!app_assoc. split_and!; congruence || done.
Qed.

Lemma loop_spec l : forall s w fuel,
  ready ext ct rt own ent l s -> mapped j_inode -> locals_ok w -> (length l <= fuel)%nat ->
  wp (loop fuel ct rt w)
    (fun r s' => exists w', r = Some w' /\ ready ext ct rt own ent [] s' /\
       moved s s' (filter (fun b => own b = true) l) (filter (fun b => own b = false) l) /\
       submitted w' ++ pending w' = submitted w ++ pending w ++ (ent <$> filter (fun b => own b = true) l) /\
       (l = [] -> w' = w) /\
       (forall l0 b, l = l0 ++ [b] -> own b = true -> pending w' = [])) s.
Proof.
  induction l as [|b l IH]; intros s w fuel Hrd Hm Hw Hfuel.
  - destruct (rd_ct_live _ _ _ _ _ _ _ Hrd) as [tr Htr]. pose proof (rd_ct _ _ _ _ _ _ _ Hrd tr Htr) as Hl.
    destruct fuel; cbn [commit_loop]; wp_step; wp_step; rewrite Hl; wp_step; exists w.
    all: split_and!; [done|done| |by rewrite app_nil_r|done|by intros [|? ?] ? ?].
    all: intros tc tr1 ? ?; exists tc, tr1; rewrite !app_nil_r; by split_and!.
  - destruct fuel as [|fuel]; [cbn in Hfuel; lia|]. cbn in Hfuel.
    destruct (ready_head b l s Hrd) as (_ & _ & tr & _ & Htr & Hl & _).
    cbn [commit_loop]. wp_step. wp_step. rewrite Hl. wp_step. rewrite !filter_cons.
    destruct (own b) eqn:Hob.
    + rewrite decide_True, decide_False by done.
      eapply wp_mono; [by eapply step_own|]. intros w1 s1 (Hrd1 & Hmv1 & Hw1 & He1 & Hp1).
      eapply wp_mono; [eapply IH; [exact Hrd1|done|done|lia]|].
      intros r s2 (w2 & -> & Hrd2 & Hmv2 & He2 & Hn2 & Hp2). exists w2. split_and!; [done|done| | |done|].
      * apply (moved_trans s s1 s2 [b] [] _ _ Hmv1 Hmv2).
      * rewrite He2, app_assoc, He1. cbn. by rewrite <-!app_assoc.
      * intros l0 b0 Hlb Hob0. destruct l0 as [|b1 l0]; [|by injection Hlb as -> Hlb; eapply Hp2].
        injection Hlb as -> ->. rewrite (Hn2 eq_refl). by apply Hp1.
    + rewrite decide_False, decide_True by done.
      eapply wp_mono; [by eapply step_other|]. intros w1 s1 (-> & Hrd1 & Hmv1).
      eapply wp_mono; [eapply IH; [exact Hrd1|done|done|lia]|].
      intros r s2 (w2 & -> & Hrd2 & Hmv2 & He2 & Hn2 & Hp2). exists w2. split_and!; [done|done| |done|done|].
      * apply (moved_trans s s1 s2 [] [b] _ _ Hmv1 Hmv2).
      * intros l0 b0 Hlb Hob0. destruct l0 as [|b1 l0]; [|by injection Hlb as -> Hlb; eapply Hp2].
        injection Hlb as -> ->. congruence.
Qed.
End Loop.

(** ** Properties of the loop *)

(** C3: When every metadata buffer of another inode is also referred to by a checkpoint or a
    caller, the metadata loop of the commit separates the inodes: it terminates
    after one iteration per buffer without stopping the machine, the metadata list is empty,
    the buffers of the synchronised inode are on the shadow list in their order and
    each of them, escaped if need be, is submitted to the log or still in the open
    descriptor, all other buffers are at the tail of the next transaction's metadata
    list in their order, the filing invariant holds, and if the last buffer of the list
    belongs to the synchronised inode nothing is left unsubmitted. *)
Theorem commit_loop_separates submit_sb jiffies j_inode tag_bytes csum_size j_blocksize j_wbufsize
    ext ct rt own ent l s fuel :
  ready ext ct rt own ent l s -> mapped j_inode -> (length l <= fuel)%nat ->
  wp (commit_loop submit_sb jiffies j_inode true tag_bytes csum_size j_blocksize j_wbufsize
        fuel ct rt locals0)
    (fun r s' => exists w', r = Some w' /\ wf ext s' /\
       (forall tc tr, k_trans s !! ct = Some tc -> k_trans s !! rt = Some tr ->
          exists tc' tr', k_trans s' !! ct = Some tc' /\ k_trans s' !! rt = Some tr' /\
            t_buffers tc' = [] /\
            t_shadow_list tc' = t_shadow_list tc ++ filter (fun b => own b = true) l /\
            t_buffers tr' = t_buffers tr ++ filter (fun b => own b = false) l) /\
       submitted w' ++ pending w' = ent <$> filter (fun b => own b = true) l /\
       (forall l0 b, l = l0 ++ [b] -> own b = true -> pending w' = [])) s.
Proof.
  intros Hrd Hm Hfuel. eapply wp_mono; [by eapply loop_spec|].
  intros r s' (w' & -> & Hrd' & Hmv & He & _ & Hp). exists w'. split_and!; [done|by eapply rd_wf| |done|done].
  intros tc tr Htc Htr. destruct (Hmv tc tr Htc Htr) as (tc' & tr' & Htc' & Htr' & Ha & Ho & _).
  exists tc', tr'. split_and!; try done. by eapply rd_ct.
Qed.

(** Transaction 1 commits inode 42; buffer 1 belongs to inode 7 and waits for a
    checkpoint, buffer 2 belongs to inode 42 and starts with the magic number. *)
Definition ex_other : journal_head :=
  (ex_jh 2 BJ_Metadata (Some 1%positive) None (Some 3%positive)) <| ino := 7 |>.
Definition ex_own : journal_head :=
  (ex_jh 1 BJ_Metadata (Some 1%positive) None None) <| ino := 42 |>.
Definition ex_own_bh : buffer_head :=
  (ex_bh ex_own true) <| b_blocknr := 500 |> <| b_data := JBD2_MAGIC_BYTES ++ [1; 2; 3; 4] |>.
Definition ex_commit (l : list bh_id) : kstate :=
  mk_kstate (ex_journal <| j_committing_transaction := Some 1%positive |>)
    {[ 1%positive := ex_bh ex_other true; 2%positive := ex_own_bh ]}
    {[ 1%positive := zero_transaction <| t_tid := 7 |> <| t_state := T_COMMIT |> <| ino_sync := 42 |>
                       <| t_nr_buffers := 2 |> <| t_buffers := l |> <| t_outstanding_credits := 4 |>;
       2%positive := zero_transaction <| t_tid := 8 |> ]}.
Definition ex_own_p (b : bh_id) : bool := bool_decide (b = 2%positive).
Definition ex_ent (b : bh_id) : entry :=
  if bool_decide (b = 2%positive) then (500, true, [0; 0; 0; 0; 1; 2; 3; 4]) else (0, false, []).

Lemma ex_commit_ready l :
  l = [1; 2]%positive \/ l = [2; 1]%positive ->
  ready (fun _ => 0) 1 2 ex_own_p ex_ent l (ex_commit l).
Proof.
  intros Hl. split.
  - apply wfb_sound. destruct Hl as [-> | ->]; vm_compute; reflexivity.
  - done.
  - by intros tr [= <-].
  - by eexists.
  - by eexists.
  - intros b Hb. assert (b = 1%positive \/ b = 2%positive) as [-> | ->] by (destruct Hl; subst; set_solver).
    + exists (ex_bh ex_other true), ex_other. eexists. split_and!; try done; by left.
    + exists ex_own_bh, ex_own. eexists. by split_and!.
  - done.
  - apply log_okb_sound. reflexivity.
  - destruct Hl as [-> | ->]; vm_compute; reflexivity.
Qed.

Lemma commit_loop_separates_witness :
  wp (commit_loop (fun _ => 0) 0 None true 16 4 1024 64 2 1 2 locals0)
    (fun r s' => exists w', r = Some w' /\ submitted w' = [ex_ent 2] /\
       exists tr', k_trans s' !! 2%positive = Some tr' /\ t_buffers tr' = [1%positive])
    (ex_commit [1; 2]%positive).
Proof.
  eapply wp_mono; [apply (commit_loop_separates (fun _ => 0) 0 None 16 4 1024 64 (fun _ => 0) 1 2
    ex_own_p ex_ent [1; 2]%positive); [apply ex_commit_ready; by left|by intros f b [=]|cbn; lia]|].
  intros r s' (w' & -> & _ & Hl & He & Hp). exists w'. split; [done|].
  specialize (Hp [1%positive] 2%positive eq_refl eq_refl). rewrite Hp, app_nil_r in He. split; [exact He|].
  destruct (Hl _ _ eq_refl eq_refl) as (tc' & tr' & _ & Htr' & _ & _ & Hb). exists tr'. split; [exact Htr'|exact Hb].
Defined.

(** C32: Without that other reference the loop uses freed memory: if the first buffer of the metadata list
    belongs to another inode and only the transaction refers to it, as is the case for
    any block modified since it was last written back, unfiling it frees its journal
    head and filing it on the next transaction dereferences the freed journal head. *)
Theorem commit_loop_use_after_free submit_sb jiffies j_inode copy_ok tag_bytes csum_size j_blocksize j_wbufsize
    ext ct rt b l s fuel w x h tr :
  wf ext s -> k_trans s !! ct = Some tr -> t_buffers tr = b :: l -> has_jh s b x h ->
  ino h <> ino_sync tr -> b_next_transaction h = None -> b_cp_transaction h = None -> ext b = 0 ->
  commit_loop submit_sb jiffies j_inode copy_ok tag_bytes csum_size j_blocksize j_wbufsize
    (S fuel) ct rt w s = Fault Oops.
Proof.
  intros Hwf Htr Hl Hx Hi Hn Hcp Hext. pose proof Hx as [Hb Hh].
  destruct (wf_jh _ _ _ _ _ Hwf Hb Hh) as [_ Hok].
  destruct (proj1 (jh_member _ _ _ _ Hok ct tr BJ_Metadata Htr)) as (Ht & _); [cbn; rewrite Hl; by left|].
  cbn [commit_loop]. unfold kbind at 1, read_tr. rewrite Htr, Hl. apply bind_fault.
  unfold commit_step. unfold kbind at 1, read_jh, jh_of. rewrite Hb. cbn. rewrite Hh.
  unfold kbind at 1, read_tr. rewrite Htr. rewrite (proj2 (Z.eqb_neq _ _) Hi). cbn [negb].
  apply bind_fault. by eapply move_to_next_oops.
Qed.

Lemma commit_loop_use_after_free_witness :
  commit_loop (fun _ => 0) 0 None true 16 4 1024 64 2 1 2 locals0
    ((ex_commit [1; 2]%positive) <| k_bufs ::= <[1%positive := ex_bh (ex_own <| ino := 7 |>) true]> |>)
  = Fault Oops.
Proof.
  eapply (commit_loop_use_after_free _ _ _ _ _ _ _ _ (fun _ => 0)).
  - apply wfb_sound. vm_compute. reflexivity.
  - reflexivity.
  - reflexivity.
  - by split.
  - done.
  - reflexivity.
  - reflexivity.
  - reflexivity.
Defined.

(** With the same two buffers in the other order the loop finishes with the block of
    inode 42 in an open descriptor and nothing submitted to the log. *)
Example commit_loop_leaves_descriptor :
  wp (commit_loop (fun _ => 0) 0 None true 16 4 1024 64 2 1 2 locals0)
    (fun r _ => exists w', r = Some w' /\ submitted w' = [] /\ pending w' = [ex_ent 2])
    (ex_commit [2; 1]%positive).
Proof. vm_compute. eexists. split; [reflexivity|]. done. Qed.

(** C35: The buffers moved to the next transaction bring no credits with them: after the
    loop that transaction holds more metadata buffers than credits, as soon as more
    buffers were moved than it had credits, and its own commit stops at the assertion
    that compares them. *)
Theorem moved_buffers_exceed_credits submit_sb jiffies j_inode tag_bytes csum_size j_blocksize j_wbufsize
    ext ct rt own ent l s fuel tr :
  ready ext ct rt own ent l s -> mapped j_inode -> (length l <= fuel)%nat ->
  k_trans s !! rt = Some tr ->
  t_outstanding_credits tr < Z.of_nat (length (filter (fun b => own b = false) l)) ->
  wp (commit_loop submit_sb jiffies j_inode true tag_bytes csum_size j_blocksize j_wbufsize
        fuel ct rt locals0)
    (fun _ s' => commit_begin_logging rt s' = Fault Assert) s.
Proof.
  intros Hrd Hm Hfuel Htr Hlt. destruct (rd_ct_live _ _ _ _ _ _ _ Hrd) as [tc Htc].
  eapply wp_mono; [by eapply loop_spec|].
  intros r s' (w' & -> & Hrd' & Hmv & _). destruct (Hmv tc tr Htc Htr) as (tc' & tr' & Htc' & Htr' & _ & Hb & _ & Hc).
  pose proof (tr_nr _ _ (wf_tr _ _ (rd_wf _ _ _ _ _ _ _ Hrd') rt tr' Htr')) as Hnr.
  rewrite Hb, length_app in Hnr. unfold commit_begin_logging, modify_tr, kbind. rewrite Htr'.
  unfold read_tr. cbn. rewrite lookup_insert_eq. cbn. unfold j_assert.
  rewrite (proj2 (Z.leb_gt _ _)); [done|]. lia.
Qed.

Lemma moved_buffers_exceed_credits_witness :
  wp (commit_loop (fun _ => 0) 0 None true 16 4 1024 64 2 1 2 locals0)
    (fun _ s' => commit_begin_logging 2 s' = Fault Assert) (ex_commit [1; 2]%positive).
Proof.
  eapply (moved_buffers_exceed_credits (fun _ => 0) 0 None 16 4 1024 64 (fun _ => 0) 1 2
    ex_own_p ex_ent [1; 2]%positive); [apply ex_commit_ready; by left|by intros f b [=]|cbn; lia|reflexivity|].
  vm_compute. reflexivity.
Defined.
