(* ===== verification/OnDisk.v ===== *)
(** * The blocks of the log, byte by byte

    The encodings the commit code writes (kernel/fs/jbd2/commit.c, revoke.c
    and journal.c) and the readers of kernel/fs/jbd2/recovery.c: block
    headers, descriptor blocks with their tags, revoke blocks, commit blocks
    and their checksums, at every combination of journal features.

    A block is the list of its bytes.  The checksum routines
    ([jbd2_chksum] over the crypto API and [crc32_be]) are parameters. *)
From S2P Require Import Prelude Tid State Revoke JournalHead Filing Log Commit.

(** ** Big-endian fields of a block *)

Fixpoint be (n : nat) (z : Z) : list Z :=
  match n with
  | O => []
  | S n => be n (z / 256) ++ [z mod 256]
  end.

Definition be_val (bs : list Z) : Z := fold_left (fun a b => a * 256 + b) bs 0.

Definition load (bs : list Z) (off n : Z) : list Z := take (Z.to_nat n) (drop (Z.to_nat off) bs).
Definition store (bs : list Z) (off : Z) (v : list Z) : list Z := list_inserts (Z.to_nat off) v bs.

Abbreviation be16_at bs off := (be_val (load bs off 2)).
Abbreviation be32_at bs off := (be_val (load bs off 4)).

Lemma be_length n z : length (be n z) = n.
Proof. revert z. induction n as [|n IH]; intros z; cbn; [done|]. rewrite length_app, IH. cbn. lia. Qed.

Lemma be_val_be n z : be_val (be n z) = z mod 256 ^ Z.of_nat n.
Proof.
  revert z. induction n as [|n IH]; intros z.
  - cbn. by rewrite Z.mod_1_r.
  - cbn [be]. unfold be_val in *. rewrite fold_left_app, IH. cbn [fold_left].
    rewrite Nat2Z.inj_succ, Z.pow_succ_r by lia.
    rewrite Z.rem_mul_r by lia. lia.
Qed.

Lemma be16_be z : be_val (be 2 z) = z mod 65536.
Proof. by rewrite be_val_be. Qed.
Lemma be32_be z : be_val (be 4 z) = u32 z.
Proof. by rewrite be_val_be. Qed.
Lemma be64_be z : be_val (be 8 z) = u64 z.
Proof. by rewrite be_val_be. Qed.

Lemma store_length bs off v : length (store bs off v) = length bs.
Proof. apply length_inserts. Qed.

Lemma store_same bs off v n :
  0 <= off -> n = Z.of_nat (length v) -> off + n <= Z.of_nat (length bs) ->
  load (store bs off v) off n = v.
Proof.
  intros Ho -> Hl. apply list_eq. intros i. unfold load, store.
  destruct (decide (i < length v)%nat) as [Hi|Hi].
  - rewrite lookup_take_lt, lookup_drop by lia. rewrite list_lookup_inserts by lia.
    f_equal. lia.
  - rewrite lookup_take_ge by lia. symmetry. apply lookup_ge_None. lia.
Qed.

Lemma store_other bs off v off' n :
  0 <= off -> 0 <= off' -> 0 <= n ->
  off' + n <= off \/ off + Z.of_nat (length v) <= off' ->
  load (store bs off v) off' n = load bs off' n.
Proof.
  intros Ho Ho' Hn Hd. apply list_eq. intros i. unfold load, store.
  destruct (decide (i < Z.to_nat n)%nat) as [Hi|Hi].
  - rewrite !lookup_take_lt, !lookup_drop by lia.
    destruct Hd; [rewrite list_lookup_inserts_lt by lia|rewrite list_lookup_inserts_ge by lia]; done.
  - by rewrite !lookup_take_ge by lia.
Qed.

Lemma load_be_length bs off n : 0 <= off -> 0 <= n -> off + n <= Z.of_nat (length bs) -> length (load bs off n) = Z.to_nat n.
Proof. intros. unfold load. rewrite length_take, length_drop. lia. Qed.

(** ** The format of a journal *)

(** What the superblock and the mount fix: the feature bits,
    [j_chksum_driver != NULL], the block size, the checksum seed and the UUID. *)
Record jformat := mk_jformat {
  has_feature_64bit : bool;
  has_feature_csum2 : bool;
  has_feature_csum3 : bool;
  has_feature_checksum : bool;
  has_feature_async_commit : bool;
  j_chksum_driver : bool;
  j_blocksize : Z;
  j_csum_seed : Z;
  j_uuid : list Z;
}.

Definition jbd2_journal_has_csum_v2or3 (f : jformat) : bool := j_chksum_driver f.

Definition sizeof_journal_header : Z := 12.
Definition sizeof_revoke_header : Z := 16.
Definition sizeof_block_tail : Z := 4.

Definition csum_size (f : jformat) : Z :=
  if jbd2_journal_has_csum_v2or3 f then sizeof_block_tail else 0.

Definition journal_vmsep_tag_bytes (f : jformat) : Z :=
  if has_feature_csum3 f then 16
  else
    let sz := 12 in
    let sz := if has_feature_csum2 f then sz + 2 else sz in
    if has_feature_64bit f then sz else sz - 4.

Definition JBD2_MAGIC_NUMBER : Z := 0xc03b3998.
Definition JBD2_DESCRIPTOR_BLOCK : Z := 1.
Definition JBD2_COMMIT_BLOCK : Z := 2.
Definition JBD2_REVOKE_BLOCK : Z := 5.
Definition JBD2_CRC32_CHKSUM : Z := 1.
Definition JBD2_CRC32_CHKSUM_SIZE : Z := 4.

(** The fields of [journal_header_t]. *)
Abbreviation h_magic bs := (be32_at bs 0).
Abbreviation h_blocktype bs := (be32_at bs 4).
Abbreviation h_sequence bs := (be32_at bs 8).

(** The fields of a tag at offset [off]; [journal_block_tag3_t] has its
    checksum at 12, and its 32-bit flags end where the 16-bit ones do. *)
Abbreviation t_flags bs off := (be16_at bs (off + 6)).

(** The contents [jbd2_vmsep_journal_get_descriptor_buffer] gives a new block. *)
Definition new_descriptor_block (f : jformat) (type : Z) (tid : tid_t) : list Z :=
  let bs := replicate (Z.to_nat (j_blocksize f)) 0 in
  let bs := store bs 0 (be 4 JBD2_MAGIC_NUMBER) in
  let bs := store bs 4 (be 4 type) in
  store bs 8 (be 4 tid).

Section OnDisk.
Context (jbd2_chksum crc32_be : Z -> list Z -> Z).
Context (f : jformat).

(** ** Checksums of descriptor, revoke and commit blocks *)

Definition jbd2_vmsep_descriptor_block_csum_set (bs : list Z) : list Z :=
  if negb (jbd2_journal_has_csum_v2or3 f) then bs
  else
    let tail := j_blocksize f - sizeof_block_tail in
    let bs := store bs tail (be 4 0) in
    store bs tail (be 4 (jbd2_chksum (j_csum_seed f) bs)).

Definition jbd2_descriptor_block_csum_verify (bs : list Z) : bool :=
  if negb (jbd2_journal_has_csum_v2or3 f) then true
  else
    let tail := j_blocksize f - sizeof_block_tail in
    let provided := load bs tail 4 in
    let calculated := jbd2_chksum (j_csum_seed f) (store bs tail (be 4 0)) in
    bool_decide (provided = be 4 calculated).

(** [h_chksum_type], [h_chksum_size] and [h_chksum[0]] are at 12, 13 and 16. *)
Definition jbd2_commit_block_csum_set (bs : list Z) : list Z :=
  if negb (jbd2_journal_has_csum_v2or3 f) then bs
  else
    let bs := store bs 12 (be 1 0) in
    let bs := store bs 13 (be 1 0) in
    let bs := store bs 16 (be 4 0) in
    store bs 16 (be 4 (jbd2_chksum (j_csum_seed f) bs)).

Definition jbd2_commit_block_csum_verify (bs : list Z) : bool :=
  if negb (jbd2_journal_has_csum_v2or3 f) then true
  else
    let provided := load bs 16 4 in
    let calculated := jbd2_chksum (j_csum_seed f) (store bs 16 (be 4 0)) in
    bool_decide (provided = be 4 calculated).

(** The contents of the commit block [journal_submit_commit_record] writes at
    time [sec], [nsec]. *)
Definition commit_record (tid : tid_t) (sec nsec crc32_sum : Z) : list Z :=
  let bs := new_descriptor_block f JBD2_COMMIT_BLOCK tid in
  let bs := store bs 48 (be 8 sec) in
  let bs := store bs 56 (be 4 nsec) in
  let bs :=
    if has_feature_checksum f
    then
      let bs := store bs 12 (be 1 JBD2_CRC32_CHKSUM) in
      let bs := store bs 13 (be 1 JBD2_CRC32_CHKSUM_SIZE) in
      store bs 16 (be 4 crc32_sum)
    else bs in
  jbd2_commit_block_csum_set bs.

(** ** Tags *)

Definition write_tag_block (bs : list Z) (off block : Z) : list Z :=
  let bs := store bs off (be 4 (Z.land block 0xffffffff)) in
  if has_feature_64bit f
  then store bs (off + 8) (be 4 (Z.shiftr (Z.shiftr block 31) 1))
  else bs.

Definition read_tag_block (bs : list Z) (off : Z) : Z :=
  let block := be32_at bs off in
  if has_feature_64bit f
  then Z.lor block (Z.shiftl (be32_at bs (off + 8)) 32)
  else block.

(** The checksum of a data block under the transaction's id. *)
Definition tag_csum (sequence : tid_t) (data : list Z) : Z :=
  jbd2_chksum (jbd2_chksum (j_csum_seed f) (be 4 sequence)) data.

Definition jbd2_block_tag_csum_set (bs : list Z) (off : Z) (data : list Z) (sequence : tid_t) : list Z :=
  if negb (jbd2_journal_has_csum_v2or3 f) then bs
  else
    let csum32 := tag_csum sequence data in
    if has_feature_csum3 f
    then store bs (off + 12) (be 4 csum32)
    else store bs (off + 4) (be 2 csum32).

Definition jbd2_block_tag_csum_verify (bs : list Z) (off : Z) (data : list Z) (sequence : tid_t) : bool :=
  if negb (jbd2_journal_has_csum_v2or3 f) then true
  else
    let csum32 := tag_csum sequence data in
    if has_feature_csum3 f
    then bool_decide (load bs (off + 12) 4 = be 4 csum32)
    else bool_decide (load bs (off + 4) 2 = be 2 csum32).

(** One tag of the commit loop: its block number, its flags, the checksum of
    the data block, and after the first tag the journal's UUID. *)
Definition write_tag (tid : tid_t) (bs : list Z) (tagp : Z) (first_tag : bool) (t : tag)
    (data : list Z) : list Z :=
  let bs := write_tag_block bs tagp (tag_block t) in
  let bs := store bs (tagp + 6) (be 2 (tag_flags t)) in
  let bs := jbd2_block_tag_csum_set bs tagp data tid in
  if first_tag then store bs (tagp + journal_vmsep_tag_bytes f) (j_uuid f) else bs.

Fixpoint write_tags (tid : tid_t) (bs : list Z) (tagp : Z) (first_tag : bool)
    (tags : list (tag * list Z)) : list Z :=
  match tags with
  | [] => bs
  | (t, data) :: tags =>
    let bs := write_tag tid bs tagp first_tag t data in
    write_tags tid bs (tagp + journal_vmsep_tag_bytes f + if first_tag then 16 else 0) false tags
  end.

(** The descriptor block of a group the commit loop submits: the tags carry
    the flags they have when the block goes to disk. *)
Definition descriptor_block (g : log_group) : list Z :=
  let bs := new_descriptor_block f JBD2_DESCRIPTOR_BLOCK (g_sequence g) in
  let bs := write_tags (g_sequence g) bs sizeof_journal_header true
              (zip (g_tags g) (map snd (g_data g))) in
  jbd2_vmsep_descriptor_block_csum_set bs.

(** The blocks of the group as they lie in the log. *)
Definition group_blocks (g : log_group) : list (list Z) :=
  descriptor_block g :: map snd (g_data g).

(** ** Reading a descriptor block

    [tagp] stays an offset into the block; each round advances it by at
    least 8, so the block size bounds the rounds. *)

Definition flag_set (flags flag : Z) : bool := negb (Z.land flags flag =? 0).

Fixpoint count_tags_loop (fuel : nat) (bs : list Z) (size tagp nr : Z) : Z :=
  match fuel with
  | O => nr
  | S fuel =>
    if tagp + journal_vmsep_tag_bytes f <=? size
    then
      let flags := t_flags bs tagp in
      let nr := nr + 1 in
      let tagp := tagp + journal_vmsep_tag_bytes f in
      let tagp := if flag_set flags JBD2_FLAG_SAME_UUID then tagp else tagp + 16 in
      if flag_set flags JBD2_FLAG_LAST_TAG then nr
      else count_tags_loop fuel bs size tagp nr
    else nr
  end.

Definition count_tags (bs : list Z) : Z :=
  count_tags_loop (Z.to_nat (j_blocksize f)) bs (j_blocksize f - csum_size f) sizeof_journal_header 0.

(** ** Revoke blocks *)

Definition record_len : Z := if has_feature_64bit f then 8 else 4.

(** The revoke records that fill one block, from [offset] on. *)
Fixpoint write_revoke_records (bs : list Z) (offset : Z) (blocks : list Z) : list Z * Z :=
  match blocks with
  | [] => (bs, offset)
  | b :: blocks =>
    write_revoke_records (store bs offset (be (Z.to_nat record_len) b)) (offset + record_len) blocks
  end.

(** [flush_descriptor]: the byte count and the checksum. *)
Definition flush_descriptor (bs : list Z) (offset : Z) : list Z :=
  jbd2_vmsep_descriptor_block_csum_set (store bs 12 (be 4 offset)).

Definition revoke_block (tid : tid_t) (blocks : list Z) : list Z :=
  let '(bs, offset) :=
    write_revoke_records (new_descriptor_block f JBD2_REVOKE_BLOCK tid) sizeof_revoke_header blocks in
  flush_descriptor bs offset.

(** The records of a revoke block, from [offset] while they end within [max]. *)
Fixpoint read_revoke_records (fuel : nat) (bs : list Z) (offset max : Z) : list Z :=
  match fuel with
  | O => []
  | S fuel =>
    if offset + record_len <=? max
    then be_val (load bs offset record_len) :: read_revoke_records fuel bs (offset + record_len) max
    else []
  end.
End OnDisk.

(** ** Reading back what was written *)

Section Sizes.
Context (f : jformat).

Lemma tag_bytes_bounds : 8 <= journal_vmsep_tag_bytes f <= 16.
Proof. unfold journal_vmsep_tag_bytes. repeat case_match; lia. Qed.

(** The fields of a tag lie inside its [tag_bytes]. *)
Lemma tag_bytes_64bit : has_feature_64bit f = true -> 12 <= journal_vmsep_tag_bytes f.
Proof. unfold journal_vmsep_tag_bytes. intros ->. repeat case_match; lia. Qed.

Lemma tag_bytes_csum3 : has_feature_csum3 f = true -> journal_vmsep_tag_bytes f = 16.
Proof. unfold journal_vmsep_tag_bytes. by intros ->. Qed.

Lemma store_store bs off v v' :
  length v = length v' -> store (store bs off v) off v' = store bs off v'.
Proof.
  intros Hl. apply list_eq. intros i. unfold store.
  destruct (decide (Z.to_nat off <= i < Z.to_nat off + length v')%nat) as [Hi|Hi].
  - destruct (decide (i < length bs)%nat).
    + rewrite !list_lookup_inserts by (rewrite ?length_inserts; lia). done.
    + rewrite !lookup_ge_None_2; rewrite ?length_inserts; try done; lia.
  - assert (i < Z.to_nat off \/ Z.to_nat off + length v' <= i)%nat as [?|?] by lia.
    + by rewrite !list_lookup_inserts_lt by lia.
    + by rewrite !list_lookup_inserts_ge by lia.
Qed.

Lemma new_block_length type tid :
  length (new_descriptor_block f type tid) = Z.to_nat (j_blocksize f).
Proof. unfold new_descriptor_block. by rewrite !store_length, length_replicate. Qed.

(** The header of a new block, which later stores past it leave alone. *)
Lemma new_block_header type tid :
  12 <= j_blocksize f -> is_u32 type -> is_u32 tid ->
  h_magic (new_descriptor_block f type tid) = JBD2_MAGIC_NUMBER /\
  h_blocktype (new_descriptor_block f type tid) = type /\
  h_sequence (new_descriptor_block f type tid) = tid.
Proof.
  intros Hb Ht Hs. unfold new_descriptor_block.
  pose proof (length_replicate (Z.to_nat (j_blocksize f)) 0) as Hl.
  split_and!.
  - rewrite !store_other by (rewrite ?be_length; lia).
    rewrite store_same by (rewrite ?be_length, ?Hl; lia). by rewrite be32_be.
  - rewrite store_other by (rewrite ?be_length; lia).
    rewrite store_same by (rewrite ?be_length, ?store_length, ?Hl; lia).
    by rewrite be32_be, u32_id.
  - rewrite store_same by (rewrite ?be_length, ?store_length, ?Hl; lia).
    by rewrite be32_be, u32_id.
Qed.

Lemma land_u32 b : Z.land b 4294967295 = u32 b.
Proof. change 4294967295 with (Z.ones 32). by rewrite Z.land_ones by lia. Qed.

Lemma join_halves b : is_u64 b ->
  Z.lor (u32 (Z.land b 4294967295)) (Z.shiftl (u32 (Z.shiftr (Z.shiftr b 31) 1)) 32) = b.
Proof.
  intros Hb. rewrite land_u32, (u32_id (u32 b)) by auto using u32_range.
  rewrite Z.shiftr_shiftr by lia. change (31 + 1) with 32. rewrite (u32_id (Z.shiftr b 32)).
  - unfold u32. change 4294967296 with (2 ^ 32). rewrite <- Z.land_ones by lia.
    apply Z.bits_inj'. intros n Hn.
    rewrite Z.lor_spec, Z.land_spec, Z.testbit_ones by lia.
    destruct (Z.ltb_spec n 32).
    + rewrite Z.shiftl_spec_low by lia. rewrite (proj2 (Z.leb_le 0 n)) by lia. cbn.
      by rewrite andb_true_r, orb_false_r.
    + rewrite Z.shiftl_spec, Z.shiftr_spec by lia. rewrite !andb_false_r. cbn [orb]. by rewrite Z.sub_add.
  - unfold is_u32, is_u64 in *. rewrite Z.shiftr_div_pow2 by lia.
    change (2 ^ 32) with 4294967296. lia.
Qed.

(** The bytes [n] tags take. *)
Definition tags_span (first_tag : bool) (n : nat) : Z :=
  match n with
  | O => 0
  | S _ => Z.of_nat n * journal_vmsep_tag_bytes f + if first_tag then 16 else 0
  end.

Lemma tags_span_S first n :
  tags_span first (S n) = journal_vmsep_tag_bytes f + (if first then 16 else 0) + tags_span false n.
Proof. unfold tags_span. destruct n; lia. Qed.

Lemma tags_span_pos first n : 0 <= tags_span first n.
Proof. pose proof tag_bytes_bounds. unfold tags_span. destruct n; [lia|]. destruct first; lia. Qed.
End Sizes.

Section Fields.
Context (jbd2_chksum : Z -> list Z -> Z) (f : jformat).
Implicit Types bs : list Z.

Lemma csum_set_length bs :
  length (jbd2_vmsep_descriptor_block_csum_set jbd2_chksum f bs) = length bs.
Proof. unfold jbd2_vmsep_descriptor_block_csum_set. case_match; by rewrite ?store_length. Qed.

(** Setting the checksum leaves the rest of the block alone... *)
Lemma csum_set_load bs off n :
  0 <= off -> 0 <= n -> 4 <= j_blocksize f -> off + n <= j_blocksize f - csum_size f ->
  load (jbd2_vmsep_descriptor_block_csum_set jbd2_chksum f bs) off n = load bs off n.
Proof.
  unfold jbd2_vmsep_descriptor_block_csum_set, csum_size, sizeof_block_tail. intros.
  destruct (jbd2_journal_has_csum_v2or3 f); cbn [negb]; [|done].
  rewrite !store_other; rewrite ?be_length; try done; lia.
Qed.

(** ...and verifies. *)
Lemma csum_set_verify bs :
  4 <= j_blocksize f -> Z.of_nat (length bs) = j_blocksize f ->
  jbd2_descriptor_block_csum_verify jbd2_chksum f (jbd2_vmsep_descriptor_block_csum_set jbd2_chksum f bs) = true.
Proof.
  unfold jbd2_descriptor_block_csum_verify, jbd2_vmsep_descriptor_block_csum_set, sizeof_block_tail. intros.
  destruct (jbd2_journal_has_csum_v2or3 f); cbn [negb]; [|done].
  apply bool_decide_eq_true. rewrite store_same; rewrite ?be_length, ?store_length; try lia.
  by rewrite !store_store by by rewrite !be_length.
Qed.

(** *** One tag *)

Lemma write_tag_length tid bs tagp first t data :
  length (write_tag jbd2_chksum f tid bs tagp first t data) = length bs.
Proof.
  unfold write_tag, write_tag_block, jbd2_block_tag_csum_set.
  repeat case_match; by rewrite ?store_length.
Qed.

(** A tag is written at and after [tagp]. *)
Lemma write_tag_before tid bs tagp first t data off n :
  0 <= off -> 0 <= n -> off + n <= tagp ->
  load (write_tag jbd2_chksum f tid bs tagp first t data) off n = load bs off n.
Proof.
  intros. pose proof (tag_bytes_bounds f). unfold write_tag, write_tag_block, jbd2_block_tag_csum_set.
  repeat case_match; rewrite ?store_other; try done; lia.
Qed.

Definition block_fits (b : Z) : Prop :=
  if has_feature_64bit f then is_u64 b else is_u32 b.

Record tag_reads (bs : list Z) (tagp : Z) (tid : tid_t) (t : tag) (data : list Z) : Prop := {
  tr_block : read_tag_block f bs tagp = tag_block t;
  tr_flags : t_flags bs tagp = tag_flags t;
  tr_csum : jbd2_block_tag_csum_verify jbd2_chksum f bs tagp data tid = true;
}.

Lemma write_tag_reads tid bs tagp first t data :
  0 <= tagp -> tagp + journal_vmsep_tag_bytes f <= Z.of_nat (length bs) ->
  block_fits (tag_block t) -> 0 <= tag_flags t < 65536 ->
  tag_reads (write_tag jbd2_chksum f tid bs tagp first t data) tagp tid t data.
Proof.
  intros Hp Hl Hb Hf. pose proof (tag_bytes_bounds f). pose proof (tag_bytes_64bit f). pose proof (tag_bytes_csum3 f).
  split; unfold write_tag, write_tag_block, read_tag_block, jbd2_block_tag_csum_set,
    jbd2_block_tag_csum_verify, block_fits in *.
  - destruct (has_feature_64bit f), (jbd2_journal_has_csum_v2or3 f), (has_feature_csum3 f), first; cbn [negb];
    repeat first
      [ rewrite store_same by (rewrite ?be_length, ?store_length; lia)
      | rewrite store_other by (rewrite ?be_length; lia) ];
    rewrite !be32_be; try (by apply join_halves); rewrite land_u32; by rewrite !u32_id by auto using u32_range.
  - destruct (has_feature_64bit f), (jbd2_journal_has_csum_v2or3 f), (has_feature_csum3 f), first; cbn [negb];
    repeat first
      [ rewrite store_same by (rewrite ?be_length, ?store_length; lia)
      | rewrite store_other by (rewrite ?be_length; lia) ];
    rewrite be16_be; by apply Z.mod_small.
  - destruct (jbd2_journal_has_csum_v2or3 f), (has_feature_csum3 f), first, (has_feature_64bit f); cbn [negb]; try done;
    apply bool_decide_eq_true;
    repeat first
      [ rewrite store_same by (rewrite ?be_length, ?store_length; lia)
      | rewrite store_other by (rewrite ?be_length; lia) ]; done.
Qed.

(** *** The tags of a descriptor *)

(** [tags] can be read from [bs] at [tagp], where the commit loop puts them. *)
Fixpoint tags_at (bs : list Z) (tid : tid_t) (tagp : Z) (first_tag : bool) (tags : list (tag * list Z)) : Prop :=
  match tags with
  | [] => True
  | (t, data) :: tags =>
    tag_reads bs tagp tid t data /\
    tags_at bs tid (tagp + journal_vmsep_tag_bytes f + if first_tag then 16 else 0) false tags
  end.

(** The flags of a finished descriptor: [SAME_UUID] on all tags but the first,
    [LAST_TAG] on the last only. *)
Fixpoint tags_shape (first_tag : bool) (tags : list tag) : Prop :=
  match tags with
  | [] => True
  | t :: tags =>
    0 <= tag_flags t < 65536 /\ block_fits (tag_block t) /\
    flag_set (tag_flags t) JBD2_FLAG_SAME_UUID = negb first_tag /\
    flag_set (tag_flags t) JBD2_FLAG_LAST_TAG = bool_decide (tags = []) /\
    tags_shape false tags
  end.

(** Only the bytes of the tags matter. *)
Lemma tag_reads_same bs bs' tagp tid t data :
  0 <= tagp ->
  (forall off n, tagp <= off -> 0 <= n -> off + n <= tagp + journal_vmsep_tag_bytes f -> load bs' off n = load bs off n) ->
  tag_reads bs tagp tid t data -> tag_reads bs' tagp tid t data.
Proof.
  intros Hp Hl [Hb Hf Hc]. pose proof (tag_bytes_bounds f). pose proof (tag_bytes_64bit f). pose proof (tag_bytes_csum3 f).
  split; unfold read_tag_block, jbd2_block_tag_csum_verify in *.
  - destruct (has_feature_64bit f); rewrite !Hl by lia; done.
  - by rewrite Hl by lia.
  - destruct (jbd2_journal_has_csum_v2or3 f), (has_feature_csum3 f); cbn [negb] in *; try done;
      by rewrite Hl by lia.
Qed.

Lemma tags_at_same bs bs' tid tags : forall tagp first,
  0 <= tagp ->
  (forall off n, tagp <= off -> 0 <= n -> off + n <= tagp + tags_span f first (length tags) -> load bs' off n = load bs off n) ->
  tags_at bs tid tagp first tags -> tags_at bs' tid tagp first tags.
Proof.
  induction tags as [|[t data] tags IH]; intros tagp first Hp Hl; [done|].
  intros [Hr Ht]. cbn [length] in Hl. rewrite tags_span_S in Hl. pose proof (tag_bytes_bounds f).
  pose proof (tags_span_pos f false (length tags)).
  split.
  - eapply tag_reads_same; [done| |done]. intros. apply Hl; try done. destruct first; lia.
  - eapply IH; [destruct first; lia| |done]. intros. apply Hl; try done; destruct first; lia.
Qed.

Lemma write_tags_length tid tags : forall bs tagp first,
  length (write_tags jbd2_chksum f tid bs tagp first tags) = length bs.
Proof.
  induction tags as [|[t data] tags IH]; intros; [done|]. cbn [write_tags].
  by rewrite IH, write_tag_length.
Qed.

Lemma write_tags_before tid tags : forall bs tagp first off n,
  0 <= off -> 0 <= n -> off + n <= tagp ->
  load (write_tags jbd2_chksum f tid bs tagp first tags) off n = load bs off n.
Proof.
  induction tags as [|[t data] tags IH]; intros; [done|]. cbn [write_tags].
  pose proof (tag_bytes_bounds f).
  rewrite IH by (try done; destruct first; lia). by rewrite write_tag_before by lia.
Qed.

Lemma write_tags_at tid tags : forall bs tagp first,
  0 <= tagp -> tagp + tags_span f first (length tags) <= Z.of_nat (length bs) ->
  tags_shape first tags.*1 ->
  tags_at (write_tags jbd2_chksum f tid bs tagp first tags) tid tagp first tags.
Proof.
  induction tags as [|[t data] tags IH]; intros bs tagp first Hp Hl Hs; [done|].
  cbn [length] in Hl. rewrite tags_span_S in Hl. cbn in Hs. destruct Hs as (Hf & Hb & _ & _ & Hs).
  pose proof (tag_bytes_bounds f). pose proof (tags_span_pos f false (length tags)).
  cbn [write_tags tags_at]. split.
  - eapply (tag_reads_same (write_tag jbd2_chksum f tid bs tagp first t data));
      [done| |apply write_tag_reads; try done; destruct first; lia].
    intros. rewrite write_tags_before; try done; destruct first; lia.
  - apply IH; [destruct first; lia|rewrite write_tag_length; destruct first; lia|done].
Qed.

(** *** Counting the tags *)

Lemma count_tags_loop_tags bs tid size tags : forall fuel tagp first nr,
  tags <> [] -> tags_at bs tid tagp first tags -> tags_shape first tags.*1 ->
  tagp + tags_span f first (length tags) <= size -> (length tags <= fuel)%nat ->
  count_tags_loop f fuel bs size tagp nr = nr + Z.of_nat (length tags).
Proof.
  induction tags as [|[t data] tags IH]; intros fuel tagp first nr Hne Hat Hs Hsz Hfuel; [done|].
  destruct fuel as [|fuel]; [cbn in Hfuel; lia|]. destruct Hat as [[_ Hfl _] Hat].
  cbn in Hs. destruct Hs as (_ & _ & Hsame & Hlast & Hs).
  cbn [length] in Hsz. rewrite tags_span_S in Hsz. pose proof (tags_span_pos f false (length tags)).
  cbn [count_tags_loop]. rewrite (proj2 (Z.leb_le _ _)) by (destruct first; lia).
  rewrite Hfl, Hsame, Hlast. case_bool_decide as He.
  - assert (tags = []) as -> by (by destruct tags). cbn. lia.
  - rewrite (IH fuel _ false); try done.
    + cbn [length]. lia.
    + by intros ->.
    + by destruct first; [|rewrite Z.add_0_r in Hat].
    + destruct first; cbn [negb]; lia.
    + cbn in Hfuel. lia.
Qed.
End Fields.

(** ** The descriptors of a commit can be read back *)

(** A finished descriptor: one data block per tag, the flags of its tags, and
    room for all of them before the checksum. *)
Record group_ok (f : jformat) (g : log_group) : Prop := {
  go_tags : g_tags g <> [];
  go_data : length (g_data g) = length (g_tags g);
  go_shape : tags_shape f true (g_tags g);
  go_fits : sizeof_journal_header + tags_span f true (length (g_tags g)) <= j_blocksize f - csum_size f;
  go_seq : is_u32 (g_sequence g);
}.

Section Group.
Context (jbd2_chksum : Z -> list Z -> Z) (f : jformat).

(** The tags of a group with their data blocks. *)
Definition group_tags (g : log_group) : list (tag * list Z) := zip (g_tags g) (map snd (g_data g)).

Lemma group_tags_fst g : group_ok f g -> (group_tags g).*1 = g_tags g.
Proof. intros []. unfold group_tags. apply fst_zip. rewrite length_map. lia. Qed.

Lemma group_tags_length g : group_ok f g -> length (group_tags g) = length (g_tags g).
Proof. intros Hg. by rewrite <- (group_tags_fst g), length_fmap. Qed.

(** What recovery finds in a descriptor block. *)
Record descriptor_reads (bs : list Z) (tid : tid_t) (tags : list (tag * list Z)) : Prop := {
  dr_length : Z.of_nat (length bs) = j_blocksize f;
  dr_magic : h_magic bs = JBD2_MAGIC_NUMBER;
  dr_type : h_blocktype bs = JBD2_DESCRIPTOR_BLOCK;
  dr_sequence : h_sequence bs = tid;
  dr_csum : jbd2_descriptor_block_csum_verify jbd2_chksum f bs = true;
  dr_tags : tags_at jbd2_chksum f bs tid sizeof_journal_header true tags;
  dr_shape : tags_shape f true tags.*1;
  dr_nonempty : tags <> [];
  dr_fits : sizeof_journal_header + tags_span f true (length tags) <= j_blocksize f - csum_size f;
}.

Lemma csum_size_bounds : 0 <= csum_size f <= 4.
Proof. unfold csum_size, sizeof_block_tail. case_match; lia. Qed.

Lemma descriptor_block_reads g :
  group_ok f g -> descriptor_reads (descriptor_block jbd2_chksum f g) (g_sequence g) (group_tags g).
Proof.
  intros Hg. pose proof (group_tags_length g Hg) as Hlen. pose proof (group_tags_fst g Hg) as Hfst.
  destruct Hg as [Ht Hd Hs Hf Hq]. pose proof csum_size_bounds.
  pose proof (tags_span_pos f true (length (g_tags g))).
  unfold sizeof_journal_header in *.
  pose proof (new_block_length f JBD2_DESCRIPTOR_BLOCK (g_sequence g)) as Hnl.
  destruct (new_block_header f JBD2_DESCRIPTOR_BLOCK (g_sequence g)) as (Hm & Hb & Hsq); [lia|done|done|].
  unfold descriptor_block. fold (group_tags g). unfold sizeof_journal_header.
  set (bs := write_tags _ _ _ _ _ _ _).
  assert (Z.of_nat (length bs) = j_blocksize f) as Hl
    by (unfold bs; rewrite write_tags_length, Hnl; lia).
  assert (forall off, 0 <= off -> off + 4 <= 12 ->
    load (jbd2_vmsep_descriptor_block_csum_set jbd2_chksum f bs) off 4 =
    load (new_descriptor_block f JBD2_DESCRIPTOR_BLOCK (g_sequence g)) off 4) as Hh.
  { intros. rewrite csum_set_load by lia. unfold bs. by rewrite write_tags_before by lia. }
  split; unfold sizeof_journal_header; try (rewrite Hh by lia; done).
  - by rewrite csum_set_length.
  - apply csum_set_verify; [lia|done].
  - eapply (tags_at_same _ _ bs); [lia| |].
    + intros off n ? ? Hoff. apply csum_set_load; try lia. rewrite Hlen in Hoff. lia.
    + apply write_tags_at; [lia| |by rewrite Hfst].
      rewrite Hnl, Hlen. lia.
  - by rewrite Hfst.
  - intros E. rewrite E in Hlen. destruct (g_tags g); done.
  - by rewrite Hlen.
Qed.

Lemma count_tags_reads bs tid tags :
  descriptor_reads bs tid tags -> count_tags f bs = Z.of_nat (length tags).
Proof.
  intros []. pose proof csum_size_bounds. pose proof (tag_bytes_bounds f). unfold count_tags.
  erewrite count_tags_loop_tags; try done.
  unfold sizeof_journal_header in *. destruct tags as [|? tags]; [done|].
  cbn [length] in *. unfold tags_span in *. nia.
Qed.
End Group.

Section CommitFormat.
Context (f : jformat) (tids : tr_id -> tid_t).

(** The identities the log records: block numbers of the buffers, and [tids], the ids of the
    transactions. *)
Record ids_ok (s : kstate) : Prop := {
  ids_blocks b x : k_bufs s !! b = Some x -> block_fits f (b_blocknr x);
  ids_tids t tr : k_trans s !! t = Some tr -> t_tid tr = tids t /\ is_u32 (tids t);
}.

Abbreviation preserves m := (yields ids_ok m (fun _ => True)).

Lemma ids_read_bh b : yields ids_ok (read_bh b) (fun x => block_fits f (b_blocknr x)).
Proof. intros s x s' Hs. unfold read_bh. case_match eqn:E; [|done]. intros [= <- <-]. by split; [|eapply ids_blocks]. Qed.

Lemma ids_read_tr t : yields ids_ok (read_tr t) (fun tr => t_tid tr = tids t /\ is_u32 (tids t)).
Proof. intros s x s' Hs. unfold read_tr. case_match eqn:E; [|done]. intros [= <- <-]. by split; [|eapply ids_tids]. Qed.

Lemma ids_read_jh b : preserves (read_jh b).
Proof. intros s x s' Hs. unfold read_jh. case_match; [|done]. by intros [= <- <-]. Qed.

Lemma ids_read_journal : preserves read_journal.
Proof. by intros s x s' Hs [= <- <-]. Qed.

Lemma ids_modify_journal g : preserves (modify_journal g).
Proof. intros s x s' [H1 H2] [= <- <-]. by split; [split|]. Qed.

Lemma ids_set_buf s b x y :
  ids_ok s -> k_bufs s !! b = Some x -> b_blocknr y = b_blocknr x ->
  ids_ok (s <| k_bufs ::= <[b := y]> |>).
Proof.
  intros [H1 H2] Hb He. split; cbn; [|done]. intros b' x'. rewrite lookup_insert.
  case_decide; [intros [= <-]; rewrite He|]; eauto.
Qed.

Lemma ids_modify_bh b g : (forall x, b_blocknr (g x) = b_blocknr x) -> preserves (modify_bh b g).
Proof.
  intros Hg s x s' Hs. unfold modify_bh. case_match eqn:E; [|done]. intros [= <- <-].
  split; [|done]. by eapply ids_set_buf.
Qed.

Lemma ids_modify_jh b g : preserves (modify_jh b g).
Proof.
  intros s x s' Hs. unfold modify_jh. case_match; [|done]. case_match; [|done]. intros [= <- <-].
  split; [|done]. by eapply ids_set_buf.
Qed.

Lemma ids_modify_tr t g : (forall x, t_tid (g x) = t_tid x) -> preserves (modify_tr t g).
Proof.
  intros Hg s x s' [H1 H2]. unfold modify_tr. case_match eqn:E; [|done]. intros [= <- <-].
  split; [|done]. split; cbn; [done|]. intros t' x'. rewrite lookup_insert.
  case_decide; [intros [= <-]; rewrite Hg; subst; by apply H2|by apply H2].
Qed.

Lemma yields_true {A} (m : K kstate A) Q : yields ids_ok m Q -> preserves m.
Proof. intros. by eapply yields_mono. Qed.
End CommitFormat.

(** Goes through a computation, one primitive at a time. *)
Ltac ids_prim :=
  lazymatch goal with
  | |- yields _ (kbind _ _) _ => apply (yields_bind _ _ _ (fun _ => True)); [|intros ? _]
  | |- yields _ (kret _) _ => apply yields_ret
  | |- yields _ (kfault _) _ => apply yields_fault
  | |- yields _ (j_assert _) (fun _ => True) => eapply yields_true; apply yields_assert
  | |- yields _ (j_assert _) _ => apply yields_assert
  | |- yields _ read_journal _ => apply ids_read_journal
  | |- yields _ (read_jh _) _ => apply ids_read_jh
  | |- yields _ (read_bh _) (fun _ => True) => eapply yields_true; apply ids_read_bh
  | |- yields _ (read_bh _) _ => apply ids_read_bh
  | |- yields _ (read_tr _) (fun _ => True) => eapply yields_true; apply ids_read_tr
  | |- yields _ (read_tr _) _ => apply ids_read_tr
  | |- yields _ (modify_jh _ _) _ => apply ids_modify_jh
  | |- yields _ (modify_bh _ _) _ => apply ids_modify_bh; intros ?; repeat case_match; done
  | |- yields _ (modify_tr _ _) _ => apply ids_modify_tr; intros ?; repeat case_match; done
  | |- yields _ (modify_journal _) _ => apply ids_modify_journal
  | |- yields _ (if ?c then _ else _) _ => destruct c eqn:?
  | |- yields _ (match ?c with _ => _ end) _ => destruct c eqn:?
  end.
Ltac ids_tac := repeat (ids_prim || (cbv zeta; ids_prim) || eauto with vmsep).

Section CommitFormat2.
Context (f : jformat) (tids : tr_id -> tid_t).
Abbreviation preserves m := (yields (ids_ok f tids) m (fun _ => True)).

Lemma ids_brelse b : preserves (__brelse b).
Proof. unfold __brelse. ids_tac. Qed.
Hint Resolve ids_brelse : vmsep.

Lemma ids_put b : preserves (jbd2_vmsep_journal_put_journal_head b).
Proof. unfold jbd2_vmsep_journal_put_journal_head, __journal_remove_journal_head. ids_tac. Qed.
Hint Resolve ids_put : vmsep.

Lemma ids_temp_unlink b : preserves (__jbd2_journal_temp_unlink_buffer b).
Proof.
  unfold __jbd2_journal_temp_unlink_buffer, unlink_list, expose_dirty, is_journal_aborted,
    test_clear_buffer_jbddirty, clear_buffer_jbddirty, mark_buffer_dirty. ids_tac.
Qed.
Hint Resolve ids_temp_unlink : vmsep.

Lemma ids_unfile b : preserves (__jbd2_journal_unfile_buffer b).
Proof. unfold __jbd2_journal_unfile_buffer. ids_tac. Qed.
Hint Resolve ids_unfile : vmsep.

Lemma ids_file b t jl : preserves (__jbd2_vmsep_journal_file_buffer b t jl).
Proof.
  unfold __jbd2_vmsep_journal_file_buffer, test_clear_any_dirty, test_clear_buffer_dirty,
    test_clear_buffer_jbddirty, clear_buffer_dirty, clear_buffer_jbddirty, join_transaction,
    jbd2_vmsep_journal_grab_journal_head, link_list, set_buffer_jbddirty. ids_tac.
  all: destruct jl; ids_tac.
Qed.
Hint Resolve ids_file : vmsep.

Lemma ids_refile b : preserves (jbd2_vmsep_journal_refile_buffer b).
Proof.
  unfold jbd2_vmsep_journal_refile_buffer, __jbd2_vmsep_journal_refile_buffer, get_bh, take_next_transaction,
    test_clear_buffer_jbddirty, clear_buffer_jbddirty, set_buffer_jbddirty. ids_tac.
Qed.
Hint Resolve ids_refile : vmsep.

Lemma ids_move rt b : preserves (move_to_next rt b).
Proof.
  unfold move_to_next, jbd2_vmsep_journal_unfile_buffer, jbd2_vmsep_journal_file_buffer, get_bh. ids_tac.
Qed.
Hint Resolve ids_move : vmsep.

Lemma ids_abort submit_sb jiffies n errno : preserves (__journal_abort_soft submit_sb jiffies n errno).
Proof.
  revert errno. induction n as [|n IH]; intros errno; cbn -[kbind];
  unfold __jbd2_vmsep_journal_abort_hard, __jbd2_vmsep_log_start_commit, update_sb_errno_with,
    write_superblock_with, submit_superblock; ids_tac.
Qed.
Hint Resolve ids_abort : vmsep.

Lemma ids_next_log_block submit_sb jiffies j_inode :
  preserves (jbd2_vmsep_journal_next_log_block submit_sb jiffies j_inode).
Proof.
  unfold jbd2_vmsep_journal_next_log_block, take_log_block, jbd2_vmsep_journal_bmap. ids_tac.
Qed.
Hint Resolve ids_next_log_block : vmsep.

Lemma ids_write_metadata copy_ok t b : preserves (jbd2_vmsep_journal_write_metadata_buffer copy_ok t b).
Proof. unfold jbd2_vmsep_journal_write_metadata_buffer. ids_tac. Qed.
Hint Resolve ids_write_metadata : vmsep.

(** The tags of a descriptor that is still open: no end marker yet. *)
Fixpoint open_shape (first_tag : bool) (tags : list tag) : Prop :=
  match tags with
  | [] => True
  | t :: tags =>
    0 <= tag_flags t < 4 /\ block_fits f (tag_block t) /\
    flag_set (tag_flags t) JBD2_FLAG_SAME_UUID = negb first_tag /\
    open_shape false tags
  end.

Lemma open_shape_snoc tags t : forall first,
  open_shape first tags -> 0 <= tag_flags t < 4 -> block_fits f (tag_block t) ->
  flag_set (tag_flags t) JBD2_FLAG_SAME_UUID = negb (first && bool_decide (tags = [])) ->
  open_shape first (tags ++ [t]).
Proof.
  induction tags as [|t' tags IH]; intros first Hs Hf Hb Hu; cbn in *.
  - by rewrite andb_true_r in Hu.
  - destruct Hs as (? & ? & ? & ?). split_and!; try done; try lia. apply IH; try done.
    by rewrite andb_false_r in Hu.
Qed.

Lemma flags_cases v : 0 <= v < 4 -> v = 0 \/ v = 1 \/ v = 2 \/ v = 3.
Proof. lia. Qed.

(** Marking the last tag finishes the descriptor. *)
Lemma set_last_snoc flag tags t :
  set_last flag (tags ++ [t]) = tags ++ [mk_tag (tag_block t) (Z.lor (tag_flags t) flag)].
Proof. unfold set_last. rewrite reverse_snoc, reverse_cons. by rewrite reverse_involutive. Qed.

Lemma finished_shape tags t : forall first,
  open_shape first (tags ++ [t]) ->
  tags_shape f first (tags ++ [mk_tag (tag_block t) (Z.lor (tag_flags t) JBD2_FLAG_LAST_TAG)]).
Proof.
  induction tags as [|t' tags IH]; intros first; cbn; intros (Hf & Hb & Hu & Hs).
  - destruct (flags_cases _ Hf) as [E|[E|[E|E]]]; rewrite E in *; cbn in *; done.
  - split_and!; try done; try lia; [|by apply IH].
    rewrite bool_decide_false by (by destruct tags).
    destruct (flags_cases _ Hf) as [E|[E|[E|E]]]; by rewrite E.
Qed.

Definition room : Z := journal_vmsep_tag_bytes f + 16 + csum_size f.

(** An open descriptor has room for another tag and its UUID. *)
Record open_ok (d : open_descriptor) : Prop := {
  oo_data : length (d_data d) = length (d_tags d);
  oo_first : d_first_tag d = bool_decide (d_tags d = []);
  oo_shape : open_shape true (d_tags d);
  oo_space : d_space_left d = j_blocksize f - sizeof_journal_header - tags_span f true (length (d_tags d));
}.

(** The groups of transaction [seq] submitted so far can be read back. *)
Record locals_fmt (seq : tid_t) (w : commit_locals) : Prop := {
  lf_groups : Forall (fun g => group_ok f g /\ g_sequence g = seq) (w_submitted w);
  lf_open d : w_descriptor w = Some d -> open_ok d /\ room <= d_space_left d;
}.

(** The end marker that [submit] sets finishes the descriptor. *)
Lemma submit_fmt seq w :
  is_u32 seq -> Forall (fun g => group_ok f g /\ g_sequence g = seq) (w_submitted w) ->
  (forall d, w_descriptor w = Some d -> open_ok d /\ csum_size f <= d_space_left d /\ d_tags d <> []) ->
  locals_fmt seq (submit seq true w).
Proof.
  intros Hseq Hg Ho. unfold submit. destruct (w_descriptor w) as [d|] eqn:Ed.
  2: { split; [done|]. intros d Hd. congruence. }
  destruct (Ho d eq_refl) as ([Hd1 Hd2 Hd3 Hd4] & Hs & Hl). split; [|done].
  cbn. apply Forall_app. split; [done|]. apply Forall_singleton. split; [|done].
  destruct (d_tags d) as [|t tags _] eqn:Et using rev_ind; [done|].
  rewrite length_app in Hd4. cbn [length] in Hd4. split; cbn; rewrite ?set_last_snoc.
  - by destruct tags.
  - by rewrite Hd1, !length_app.
  - by apply finished_shape.
  - rewrite length_app. cbn [length]. lia.
  - done.
Qed.

Lemma add_tag_fmt home blk data e d :
  open_ok d -> room <= d_space_left d -> block_fits f home ->
  let d' := add_tag (journal_vmsep_tag_bytes f) home blk data e d in
  open_ok d' /\ csum_size f <= d_space_left d' /\ d_tags d' <> [].
Proof.
  intros [Hd1 Hd2 Hd3 Hd4] Hr Hb. unfold add_tag, room in *. cbv zeta.
  pose proof (csum_size_bounds f). split_and!.
  - split; cbn.
    + by rewrite !length_app, Hd1.
    + by destruct (d_tags d).
    + apply open_shape_snoc; try done; cbn; rewrite Hd2; destruct e; case_bool_decide; done.
    + rewrite length_app. cbn [length]. rewrite Nat.add_1_r.
      destruct (d_tags d) as [|t tags] eqn:Et; rewrite Hd2; cbn [length] in *.
      * rewrite bool_decide_true by done. unfold tags_span in *. lia.
      * rewrite bool_decide_false by done. unfold tags_span in *. lia.
  - cbn. rewrite Hd2. case_bool_decide; lia.
  - cbn. by destruct (d_tags d).
Qed.

Section Steps.
Context (submit_sb : journal_t -> Z) (jiffies : Z) (j_inode : option (Z -> Z)) (j_wbufsize : Z).
Hypothesis blocksize_ok : sizeof_journal_header + room <= j_blocksize f.

Abbreviation step := (commit_step submit_sb jiffies j_inode true
  (journal_vmsep_tag_bytes f) (csum_size f) (j_blocksize f) j_wbufsize).

Lemma log_buffer_fmt ct b d w :
  open_ok d -> room <= d_space_left d -> locals_fmt (tids ct) w ->
  yields (ids_ok f tids) (log_buffer submit_sb jiffies j_inode true (journal_vmsep_tag_bytes f) (csum_size f)
    j_wbufsize ct b d w) (locals_fmt (tids ct)).
Proof.
  intros Hd Hr Hw. unfold log_buffer. ids_prim; [eauto with vmsep|].
  ids_prim; [ids_tac|]. ids_prim; [ids_tac|]. ids_prim; [unfold get_bh; ids_tac|].
  ids_prim; [ids_tac|].
  eapply yields_bind; [apply ids_read_bh|]. intros x Hx.
  ids_prim; [eauto with vmsep|]. ids_prim; [ids_tac|].
  destruct p as [[data e] c]. eapply yields_bind; [apply ids_read_tr|]. intros tr [-> Htr].
  cbv zeta. apply yields_ret.
  destruct (add_tag_fmt (b_blocknr x) a.2 data e d Hd Hr Hx) as (Ho & Hs & Hne).
  destruct (must_submit _ _ _ _ _) eqn:Em.
  - apply submit_fmt; [done|by destruct Hw|]. intros d' [= <-]. done.
  - split; [by destruct Hw|]. intros d' [= <-]. split; [done|].
    unfold must_submit in Em. bool_to_prop; try done; unfold room; lia.
Qed.

(** A step in a journal that is not aborted. *)
Lemma step_fmt ct rt w b s w' s' :
  JBD2_ABORT (k_journal s) = false -> locals_fmt (tids ct) w -> ids_ok f tids s ->
  step ct rt w b s = Ret (w', s') -> ids_ok f tids s' /\ locals_fmt (tids ct) w'.
Proof.
  intros Ha Hw Hs. unfold commit_step. unfold kbind at 1. destruct (read_jh b s) as [[h s1]|] eqn:E1; [|done].
  assert (s1 = s) as -> by (revert E1; unfold read_jh; case_match; by intros [= _ <-]). unfold kbind at 1. destruct (read_tr ct s) as [[tr s1]|] eqn:E2; [|done].
  assert (s1 = s) as -> by (revert E2; unfold read_tr; case_match; by intros [= _ <-]). destruct (negb _).
  { revert w' s' Hs. apply (yields_bind _ _ _ (fun _ => True)); [eauto with vmsep|]. intros _ _. by apply yields_ret. }
  rewrite (bind_ret _ _ s false s) by (unfold is_journal_aborted, kbind; cbn; by rewrite Ha). revert w' s' Hs.
  destruct (w_descriptor w) as [d|] eqn:Ed.
  - destruct (lf_open _ _ Hw d Ed). by apply log_buffer_fmt.
  - apply (yields_bind _ _ _ (fun _ => True)); [unfold get_descriptor; ids_tac|]. intros [blk|] _; [|ids_tac; done].
    assert (open_ok (mk_open blk [] [] (j_blocksize f - 12) true)) as Ho.
    { split; cbn; try done. unfold sizeof_journal_header. lia. }
    assert (room <= d_space_left (mk_open blk [] [] (j_blocksize f - 12) true)) as Hr.
    { cbn. unfold sizeof_journal_header in blocksize_ok. lia. }
    apply log_buffer_fmt; try done. split; [by destruct Hw|]. by intros d [= <-].
Qed.

Lemma loop_fmt ext ct rt own ent l : forall s w fuel,
  ready ext ct rt own ent l s -> mapped j_inode -> locals_ok w -> (length l <= fuel)%nat ->
  ids_ok f tids s -> locals_fmt (tids ct) w ->
  wp (commit_loop submit_sb jiffies j_inode true (journal_vmsep_tag_bytes f) (csum_size f) (j_blocksize f) j_wbufsize
        fuel ct rt w) (fun r _ => exists w', r = Some w' /\ locals_fmt (tids ct) w') s.
Proof.
  induction l as [|b l IH]; intros s w fuel Hrd Hm Hw Hfuel Hs Hf.
  - destruct (rd_ct_live _ _ _ _ _ _ _ Hrd) as [tr Htr]. pose proof (rd_ct _ _ _ _ _ _ _ Hrd tr Htr) as Hl.
    destruct fuel; cbn [commit_loop]; wp_step; wp_step; rewrite Hl; wp_step; by exists w.
  - destruct fuel as [|fuel]; [cbn in Hfuel; lia|]. cbn in Hfuel.
    destruct (ready_head ext ct rt own ent b l s Hrd) as (_ & _ & tr & _ & Htr & Hl & _).
    cbn [commit_loop]. wp_step. wp_step. rewrite Hl. wp_step.
    assert (wp (step ct rt w b) (fun w1 s1 => ready ext ct rt own ent l s1 /\ locals_ok w1) s) as Hstep.
    { destruct (own b) eqn:Hob.
      - eapply wp_mono; [by eapply step_own|]. intros w1 s1 (? & _ & ? & _). done.
      - eapply wp_mono; [by eapply step_other|]. intros w1 s1 (-> & ? & _). done. }
    unfold wp in Hstep. destruct (step ct rt w b s) as [[w1 s1]|] eqn:E; [|done]. destruct Hstep as [Hrd1 Hw1].
    destruct (step_fmt ct rt w b s w1 s1 (rd_abort _ _ _ _ _ _ _ Hrd) Hf Hs E). unfold wp at 1. rewrite E.
    apply IH; try done. lia.
Qed.
End Steps.
End CommitFormat2.

(** C10: every descriptor block the metadata loop of a commit submits is one that recovery reads back exactly: the header
    with the id of the transaction, the
    checksum, the number of tags, and for every tag the block number, the
    flags and the data checksum are those the commit recorded; whatever the
    features, the block size and the buffers of the transaction.  The loop returns, and what it submitted
    or has in the open descriptor are the buffers of the synchronised inode, in their order.  The journal is not aborted and has
    room for them: after an abort a descriptor goes out without end marker, but then there is no commit record. *)
Theorem commit_descriptors_read_back jbd2_chksum f tids submit_sb jiffies j_inode j_wbufsize ext ct rt own ent l fuel s :
  sizeof_journal_header + room f <= j_blocksize f -> ids_ok f tids s ->
  ready ext ct rt own ent l s -> mapped j_inode -> (length l <= fuel)%nat ->
  wp (commit_loop submit_sb jiffies j_inode true (journal_vmsep_tag_bytes f) (csum_size f) (j_blocksize f) j_wbufsize
        fuel ct rt locals0)
    (fun r _ => exists w, r = Some w /\
       submitted w ++ pending w = ent <$> filter (fun b => own b = true) l /\
       forall g, g ∈ w_submitted w ->
         g_sequence g = tids ct /\
         count_tags f (descriptor_block jbd2_chksum f g) = Z.of_nat (length (g_tags g)) /\
         descriptor_reads jbd2_chksum f (descriptor_block jbd2_chksum f g) (g_sequence g) (group_tags g)) s.
Proof.
  intros Hb Hs Hrd Hm Hfuel.
  assert (locals_fmt f (tids ct) locals0) as H0 by (split; [constructor|done]).
  pose proof (loop_fmt f tids submit_sb jiffies j_inode j_wbufsize Hb ext ct rt own ent l s locals0 fuel Hrd Hm I Hfuel Hs H0) as Hf.
  pose proof (loop_spec submit_sb jiffies j_inode (journal_vmsep_tag_bytes f) (csum_size f) (j_blocksize f) j_wbufsize
    ext ct rt own ent l s locals0 fuel Hrd Hm I Hfuel) as He.
  unfold wp in *. destruct (commit_loop _ _ _ _ _ _ _ _ _ _ _ _ _) as [[r s']|]; [|done].
  destruct Hf as (w & -> & [Hall _]), He as (w2 & [= <-] & _ & _ & He & _). exists w. split_and!; [done|exact He|].
  intros g Hg. rewrite Forall_forall in Hall. destruct (Hall g Hg) as [Hok Hq].
  pose proof (descriptor_block_reads jbd2_chksum f g Hok) as Hr. split_and!; [done| |done].
  by rewrite (count_tags_reads _ _ _ _ _ Hr), (group_tags_length f g Hok).
Qed.

(** A journal with 64-bit blocks and version 3 checksums, here byte sums. *)
Definition ex_sum (seed : Z) (bs : list Z) : Z := fold_left Z.add bs seed.
Definition ex_fmt : jformat :=
  mk_jformat true false true false false true 1024 5 (replicate 16 7).

Lemma ex_commit_ids : ids_ok ex_fmt (fun t => if bool_decide (t = 1%positive) then 7 else 8) (ex_commit [1; 2]%positive).
Proof.
  split.
  - intros b x Hx. unfold ex_commit in Hx. cbn in Hx.
    apply lookup_insert_Some in Hx as [[_ <-]|[_ Hx]]; [by vm_compute|].
    apply lookup_singleton_Some in Hx as [_ <-]. by vm_compute.
  - intros t tr Ht. unfold ex_commit in Ht. cbn in Ht.
    apply lookup_insert_Some in Ht as [[<- <-]|[_ Ht]]; [by vm_compute|].
    apply lookup_singleton_Some in Ht as [<- <-]. by vm_compute.
Qed.

Lemma commit_descriptors_read_back_witness :
  wp (commit_loop (fun _ => 0) 0 None true 16 4 1024 64 2 1 2 locals0)
    (fun r _ => exists w g, r = Some w /\ w_submitted w = [g] /\ length (g_tags g) = 1%nat /\
       count_tags ex_fmt (descriptor_block ex_sum ex_fmt g) = 1) (ex_commit [1; 2]%positive).
Proof.
  assert (wp (commit_loop (fun _ => 0) 0 None true 16 4 1024 64 2 1 2 locals0)
    (fun r _ => exists w g, r = Some w /\ w_submitted w = [g] /\ length (g_tags g) = 1%nat) (ex_commit [1; 2]%positive)) as Hrun.
  { vm_compute. do 2 eexists. split; [reflexivity|]. split; reflexivity. }
  pose proof (commit_descriptors_read_back ex_sum ex_fmt (fun t => if bool_decide (t = 1%positive) then 7 else 8) (fun _ => 0) 0 None 64
    (fun _ => 0) 1 2 ex_own_p ex_ent [1; 2]%positive 2 (ex_commit [1; 2]%positive) ltac:(vm_compute; discriminate) ex_commit_ids
    ltac:(apply ex_commit_ready; by left) ltac:(done) ltac:(done)) as Hread.
  change (journal_vmsep_tag_bytes ex_fmt) with 16 in Hread. change (csum_size ex_fmt) with 4 in Hread.
  change (j_blocksize ex_fmt) with 1024 in Hread.
  unfold wp in *. destruct (commit_loop _ _ _ _ _ _ _ _ _ _ _ _ _) as [[r s']|]; [|done].
  destruct Hrun as (w & g & -> & Hg & Hl), Hread as (w2 & [= <-] & _ & Hall). exists w, g. split_and!; [done..|].
  destruct (Hall g) as (_ & Hc & _); [rewrite Hg; by left|]. by rewrite Hc, Hl.
Defined.
