(* ===== verification/RevokeLog.v ===== *)
(** * Revoke records in the log

    Writing the revoke table of the committing transaction to the log
    ([jbd2_vmsep_journal_write_revoke_records] of kernel/fs/jbd2/revoke.c) and
    reading a revoke block back ([scan_revoke_records] of
    kernel/fs/jbd2/recovery.c), with the theorem that recovery collects
    exactly the records that were written. *)
From S2P Require Import Prelude Tid Revoke State JournalHead Filing Log Commit OnDisk.

Definition EFSBADCRC : Z := 74.

Section Writer.
Context (submit_sb : journal_t -> Z) (jiffies : Z) (j_inode : option (Z -> Z)).
Context (jbd2_chksum : Z -> list Z -> Z) (f : jformat).

(** The caller's [descriptor] (log block and contents), [offset] and
    [log_bufs], and the blocks written so far. *)
Record revoke_writer := mk_writer {
  rw_descriptor : option (Z * list Z);
  rw_offset : Z;
  rw_log_bufs : list Z;
  rw_written : list (Z * list Z);
}.

(** [flush_descriptor], for a journal that is not being aborted: its caller in
    [write_one_revoke_record] has just tested that. *)
Definition flush (blk : Z) (bs : list Z) (w : revoke_writer) : revoke_writer :=
  let bs := flush_descriptor jbd2_chksum f bs (rw_offset w) in
  mk_writer (Some (blk, bs)) (rw_offset w) (rw_log_bufs w) (rw_written w ++ [(blk, bs)]).

(** Store a record in descriptor [blk], [bs] at [offset]. *)
Definition put_record (blk : Z) (bs : list Z) (offset block : Z) (w : revoke_writer) : revoke_writer :=
  mk_writer (Some (blk, store bs offset (be (Z.to_nat (record_len f)) block))) (offset + record_len f)
    (rw_log_bufs w) (rw_written w).

Definition write_one_revoke_record (tid : tid_t) (w : revoke_writer) (block : Z) : K kstate revoke_writer :=
  aborted <- is_journal_aborted ;;
  if aborted : bool then kret w
  else
    let full := j_blocksize f - csum_size f <? rw_offset w + record_len f in
    let fresh w :=
      r <- get_descriptor submit_sb jiffies j_inode ;;
      match r with
      | None => kret w
      | Some blk =>
        let bs := new_descriptor_block f JBD2_REVOKE_BLOCK tid in
        let w := mk_writer (rw_descriptor w) (rw_offset w) (rw_log_bufs w ++ [blk]) (rw_written w) in
        kret (put_record blk bs sizeof_revoke_header block w)
      end in
    match rw_descriptor w with
    | Some (blk, bs) =>
      if full then fresh (flush blk bs w)
      else kret (put_record blk bs (rw_offset w) block w)
    | None => fresh w
    end.

(** [while (!list_empty(hash_list))]: write the first record and delete it. *)
Fixpoint write_bucket (tid : tid_t) (w : revoke_writer) (l : list jbd2_revoke_record_s)
  : K kstate revoke_writer :=
  match l with
  | [] => kret w
  | record :: l => w <- write_one_revoke_record tid w (blocknr record) ;; write_bucket tid w l
  end.

(** The loop over the buckets; each is left empty. *)
Fixpoint write_buckets (tid : tid_t) (w : revoke_writer) (t : list (list jbd2_revoke_record_s))
  : K kstate (revoke_writer * list (list jbd2_revoke_record_s)) :=
  match t with
  | [] => kret (w, [])
  | l :: t =>
    w <- write_bucket tid w l ;;
    r <- write_buckets tid w t ;;
    kret (r.1, [] :: r.2)
  end.

Definition jbd2_vmsep_journal_write_revoke_records (tid : tid_t) (log_bufs : list Z) (jr : journal_revoke)
  : K kstate (revoke_writer * journal_revoke) :=
  let revoke := committing_table jr in
  r <- write_buckets tid (mk_writer None 0 log_bufs []) (hash_table revoke) ;;
  let '(w, t) := r in
  aborted <- is_journal_aborted ;;
  let w := match rw_descriptor w with
           | Some (blk, bs) => if aborted : bool then w else flush blk bs w
           | None => w
           end in
  kret (w, with_committing_table jr (revoke <| hash_table := t |>)).
End Writer.

(** ** The reader *)

Section Reader.
Context {T : Type} `{RevokeStore T}.
Context (jbd2_chksum : Z -> list Z -> Z) (f : jformat).

(** The loop over the records; the count is [info->nr_revokes]. *)
Fixpoint scan_loop (fuel : nat) (bs : list Z) (offset max : Z) (sequence : tid_t) (t : T) (nr : Z) : T * Z :=
  match fuel with
  | O => (t, nr)
  | S fuel =>
    if offset + record_len f <=? max
    then
      let block := be_val (load bs offset (record_len f)) in
      scan_loop fuel bs (offset + record_len f) max sequence (rs_set t block sequence) (nr + 1)
    else (t, nr)
  end.

(** The result code, the store and the count; the records are 4 bytes at
    least, so the block size bounds the loop. *)
Definition scan_revoke_records (bs : list Z) (sequence : tid_t) (t : T) (nr : Z) : Z * T * Z :=
  let rcount := be32_at bs 12 in
  if negb (jbd2_descriptor_block_csum_verify jbd2_chksum f bs) then (- EFSBADCRC, t, nr)
  else if j_blocksize f - csum_size f <? rcount then (- EINVAL, t, nr)
  else
    let '(t, nr) := scan_loop (Z.to_nat (j_blocksize f)) bs sizeof_revoke_header rcount sequence t nr in
    (0, t, nr).
End Reader.

Lemma concat_empty {A} n : concat (replicate n ([] : list A)) = [].
Proof. by induction n. Qed.

Lemma fold_left_map {A B C} (g : C -> B -> C) (h : A -> B) l : forall c,
  fold_left g (map h l) c = fold_left (fun c a => g c (h a)) l c.
Proof. induction l as [|a l IH]; intros c; [done|]. apply IH. Qed.

(** ** A revoke block reads back *)

Section Records.
Context (f : jformat).

Lemma record_len_cases : record_len f = 4 \/ record_len f = 8.
Proof. unfold record_len. case_match; auto. Qed.

Lemma record_reads b : block_fits f b -> be_val (be (Z.to_nat (record_len f)) b) = b.
Proof.
  unfold block_fits, record_len. case_match; intros.
  - change (Z.to_nat 8) with 8%nat. by rewrite be64_be, u64_id.
  - change (Z.to_nat 4) with 4%nat. by rewrite be32_be, u32_id.
Qed.

Lemma write_revoke_offset blocks : forall bs offset,
  (write_revoke_records f bs offset blocks).2 = offset + record_len f * Z.of_nat (length blocks).
Proof. induction blocks as [|b blocks IH]; intros; cbn [write_revoke_records length]; [cbn; lia|]. rewrite IH. lia. Qed.

Lemma write_revoke_length blocks : forall bs offset,
  length (write_revoke_records f bs offset blocks).1 = length bs.
Proof. induction blocks as [|b blocks IH]; intros; cbn [write_revoke_records]; [done|]. by rewrite IH, store_length. Qed.

Lemma write_revoke_before blocks : forall bs offset off n,
  0 <= off -> 0 <= n -> off + n <= offset ->
  load (write_revoke_records f bs offset blocks).1 off n = load bs off n.
Proof.
  induction blocks as [|b blocks IH]; intros; cbn [write_revoke_records]; [done|].
  pose proof record_len_cases. rewrite IH by lia. by rewrite store_other by (rewrite ?be_length; lia).
Qed.

Lemma write_revoke_snoc blocks b : forall bs offset,
  write_revoke_records f bs offset (blocks ++ [b]) =
  let '(bs', offset') := write_revoke_records f bs offset blocks in
  (store bs' offset' (be (Z.to_nat (record_len f)) b), offset' + record_len f).
Proof. induction blocks as [|b' blocks IH]; intros; cbn [write_revoke_records app]; [done|]. by rewrite IH. Qed.

(** The records, as long as later changes leave them alone. *)
Lemma read_revoke_written blocks : forall bs bs' offset fuel,
  0 <= offset -> offset + record_len f * Z.of_nat (length blocks) <= Z.of_nat (length bs) ->
  Forall (block_fits f) blocks -> (length blocks < fuel)%nat ->
  (forall off n, offset <= off -> 0 <= n -> off + n <= offset + record_len f * Z.of_nat (length blocks) ->
     load bs' off n = load (write_revoke_records f bs offset blocks).1 off n) ->
  read_revoke_records f fuel bs' offset (offset + record_len f * Z.of_nat (length blocks)) = blocks.
Proof.
  pose proof record_len_cases as Hrl.
  induction blocks as [|b blocks IH]; intros bs bs' offset fuel Ho Hl Hfit Hfuel Hsame;
    (destruct fuel as [|fuel]; [cbn in Hfuel; lia|]); cbn [read_revoke_records length write_revoke_records] in *.
  - by rewrite (proj2 (Z.leb_gt _ _)) by lia.
  - apply Forall_cons in Hfit as [Hb Hfit]. rewrite (proj2 (Z.leb_le _ _)) by lia. f_equal.
    + rewrite Hsame by lia. rewrite write_revoke_before by lia.
      rewrite store_same by (rewrite ?be_length; lia). by apply record_reads.
    + replace (offset + record_len f * Z.of_nat (S (length blocks)))
        with (offset + record_len f + record_len f * Z.of_nat (length blocks)) by lia.
      eapply (IH (store bs offset _)); [lia|rewrite store_length; lia|done|lia|].
      intros. apply Hsame; lia.
Qed.

End Records.

Section Block.
Context (jbd2_chksum : Z -> list Z -> Z) (f : jformat).

(** What recovery finds in a revoke block. *)
Record revoke_reads (bs : list Z) (tid : tid_t) (blocks : list Z) : Prop := {
  rr_length : Z.of_nat (length bs) = j_blocksize f;
  rr_magic : h_magic bs = JBD2_MAGIC_NUMBER;
  rr_type : h_blocktype bs = JBD2_REVOKE_BLOCK;
  rr_sequence : h_sequence bs = tid;
  rr_csum : jbd2_descriptor_block_csum_verify jbd2_chksum f bs = true;
  rr_count : be32_at bs 12 = sizeof_revoke_header + record_len f * Z.of_nat (length blocks);
  rr_fits : sizeof_revoke_header + record_len f * Z.of_nat (length blocks) <= j_blocksize f - csum_size f;
  rr_records : read_revoke_records f (Z.to_nat (j_blocksize f)) bs sizeof_revoke_header (be32_at bs 12) = blocks;
}.

Lemma revoke_block_reads tid blocks :
  is_u32 tid -> Forall (block_fits f) blocks -> j_blocksize f < 4294967296 ->
  sizeof_revoke_header + record_len f * Z.of_nat (length blocks) <= j_blocksize f - csum_size f ->
  revoke_reads (revoke_block jbd2_chksum f tid blocks) tid blocks.
Proof.
  intros Ht Hfit Hb32 Hf. pose proof (csum_size_bounds f). pose proof (record_len_cases f).
  unfold sizeof_revoke_header in *. set (n := record_len f * Z.of_nat (length blocks)) in *.
  assert (0 <= n) by (unfold n; lia).
  destruct (new_block_header f JBD2_REVOKE_BLOCK tid) as (Hm & Hb & Hs); [lia|done|done|].
  pose proof (new_block_length f JBD2_REVOKE_BLOCK tid) as Hnl.
  unfold revoke_block, flush_descriptor, sizeof_revoke_header.
  destruct (write_revoke_records f (new_descriptor_block f JBD2_REVOKE_BLOCK tid) 16 blocks) as [bs off] eqn:Ew.
  pose proof (write_revoke_offset f blocks (new_descriptor_block f JBD2_REVOKE_BLOCK tid) 16) as Ho.
  pose proof (write_revoke_length f blocks (new_descriptor_block f JBD2_REVOKE_BLOCK tid) 16) as Hl.
  pose proof (write_revoke_before f blocks (new_descriptor_block f JBD2_REVOKE_BLOCK tid) 16) as Hpre.
  rewrite Ew in Ho, Hl, Hpre. cbn [fst snd] in Ho, Hl, Hpre. fold n in Ho. subst off. rewrite Hnl in Hl.
  assert (forall off, 0 <= off -> off + 4 <= 12 ->
    load (jbd2_vmsep_descriptor_block_csum_set jbd2_chksum f (store bs 12 (be 4 (16 + n)))) off 4 =
    load (new_descriptor_block f JBD2_REVOKE_BLOCK tid) off 4) as Hh.
  { intros. rewrite csum_set_load by lia. rewrite store_other by (rewrite ?be_length; lia). apply Hpre; lia. }
  assert (be_val (load (jbd2_vmsep_descriptor_block_csum_set jbd2_chksum f (store bs 12 (be 4 (16 + n)))) 12 4)
          = 16 + n) as Hc.
  { rewrite csum_set_load by lia. rewrite store_same by (rewrite ?be_length; lia).
    rewrite be32_be, u32_id; [done|]. unfold is_u32. lia. }
  split; try (rewrite Hh by lia; done); try done.
  - rewrite csum_set_length, store_length. lia.
  - apply csum_set_verify; [lia|]. rewrite store_length. lia.
  - rewrite Hc. unfold sizeof_revoke_header.
    eapply (read_revoke_written f blocks (new_descriptor_block f JBD2_REVOKE_BLOCK tid)); try done; try lia.
    rewrite Ew. cbn [fst]. fold n. intros. rewrite csum_set_load by lia.
    by rewrite store_other by (rewrite ?be_length; lia).
Qed.
End Block.

(** ** Scanning enters the records in order *)

Section Scan.
Context {T : Type} `{RevokeStore T}.
Context (jbd2_chksum : Z -> list Z -> Z) (f : jformat).

Lemma scan_loop_records fuel bs max sequence : forall offset t nr,
  scan_loop f fuel bs offset max sequence t nr =
  (fold_left (fun t b => rs_set t b sequence) (read_revoke_records f fuel bs offset max) t,
   nr + Z.of_nat (length (read_revoke_records f fuel bs offset max))).
Proof.
  induction fuel as [|fuel IH]; intros offset t nr; cbn [scan_loop read_revoke_records]; [f_equal; cbn; lia|].
  case_match; [|cbn [length fold_left]; f_equal; lia].
  rewrite IH. cbn [length fold_left]. f_equal. lia.
Qed.

Lemma scan_revoke_reads bs tid blocks t nr :
  revoke_reads jbd2_chksum f bs tid blocks ->
  scan_revoke_records jbd2_chksum f bs tid t nr =
  (0, fold_left (fun t b => rs_set t b tid) blocks t, nr + Z.of_nat (length blocks)).
Proof.
  intros []. unfold scan_revoke_records. rewrite rr_csum0. cbn [negb].
  rewrite (proj2 (Z.ltb_ge _ _)) by lia. by rewrite scan_loop_records, rr_records0.
Qed.
End Scan.

(** ** Writing the table *)

Section WriteAll.
Context (submit_sb : journal_t -> Z) (jiffies : Z) (j_inode : option (Z -> Z)).
Context (jbd2_chksum : Z -> list Z -> Z) (f : jformat) (tid : tid_t).
Context (all_mapped : mapped j_inode).

(** The records [blocks] fill one block, and no more. *)
Definition block_holds (blocks : list Z) : Prop :=
  blocks <> [] /\
  sizeof_revoke_header + record_len f * Z.of_nat (length blocks) <= j_blocksize f - csum_size f.

Hypothesis one_fits : sizeof_revoke_header + record_len f <= j_blocksize f - csum_size f.

(** The writer has flushed the blocks of [groups] and is filling one with [cur]. *)
Definition writer_at (groups : list (list Z)) (cur : list Z) (w : revoke_writer) : Prop :=
  map snd (rw_written w) = map (revoke_block jbd2_chksum f tid) groups /\
  Forall block_holds groups /\
  (cur = [] /\ rw_descriptor w = None /\ groups = [] \/
   block_holds cur /\
   exists blk, rw_descriptor w = Some (blk, (write_revoke_records f
                 (new_descriptor_block f JBD2_REVOKE_BLOCK tid) sizeof_revoke_header cur).1) /\
     rw_offset w = sizeof_revoke_header + record_len f * Z.of_nat (length cur)).

(** Flushing the block being filled. *)
Lemma flush_at groups cur w blk bs :
  writer_at groups cur w -> rw_descriptor w = Some (blk, bs) ->
  map snd (rw_written (flush jbd2_chksum f blk bs w)) = map (revoke_block jbd2_chksum f tid) (groups ++ [cur]) /\
  Forall block_holds (groups ++ [cur]).
Proof.
  intros (Hw & Hg & Hc) Hd. destruct Hc as [(_ & ? & _)|(Hh & blk' & Hd' & Ho)]; [congruence|]. rewrite Hd in Hd'. injection Hd' as -> ->.
  unfold flush. cbn [rw_written]. rewrite !map_app, Hw. split; [|by apply Forall_app; split; [|constructor]].
  f_equal. cbn [map snd]. f_equal. unfold revoke_block.
  destruct (write_revoke_records _ _ _ _) as [bs' off'] eqn:Ew.
  pose proof (write_revoke_offset f cur (new_descriptor_block f JBD2_REVOKE_BLOCK tid) sizeof_revoke_header) as Hoff.
  rewrite Ew in Hoff. cbn [fst snd] in *. by rewrite Ho, <- Hoff.
Qed.

Definition live (n : Z) (s : kstate) : Prop :=
  JBD2_ABORT (k_journal s) = false /\ n < j_free (k_journal s) /\ log_ok (k_journal s).

Lemma live_take n s : 1 <= n -> live n s ->
  live (n - 1) (mk_kstate (take_block (k_journal s)) (k_bufs s) (k_trans s)).
Proof.
  intros Hn (Ha & Hf & Hok). destruct (take_block_fields _ Hok) as (Ef & _); [lia|].
  split_and!; kst.
  - unfold take_block. by case_match.
  - rewrite Ef. lia.
  - apply log_ok_take; [done|lia].
Qed.

Lemma get_descriptor_live s :
  live 1 s ->
  get_descriptor submit_sb jiffies j_inode s =
  Ret (Some (physical j_inode (j_head (k_journal s))), mk_kstate (take_block (k_journal s)) (k_bufs s) (k_trans s)).
Proof.
  intros (_ & Hf & _). unfold get_descriptor.
  by rewrite (bind_ret _ _ _ _ _ (next_log_block_exec submit_sb jiffies j_inode s all_mapped Hf)).
Qed.

(** The first record of a new block. *)
Lemma put_first groups blk b w :
  map snd (rw_written w) = map (revoke_block jbd2_chksum f tid) groups -> Forall block_holds groups ->
  writer_at groups [b] (put_record f blk (new_descriptor_block f JBD2_REVOKE_BLOCK tid) sizeof_revoke_header b w).
Proof.
  intros Hw Hg. split; [done|]. split; [done|]. right. split.
  - split; [done|]. cbn [length]. lia.
  - exists blk. cbn [put_record rw_descriptor rw_offset write_revoke_records length fst]. split; [done|lia].
Qed.

Lemma write_one_spec groups cur w b n s :
  writer_at groups cur w -> 1 <= n -> live n s ->
  wp (write_one_revoke_record submit_sb jiffies j_inode jbd2_chksum f tid w b)
    (fun w' s' => (exists groups' cur', writer_at groups' cur' w' /\
       concat groups' ++ cur' = concat groups ++ cur ++ [b]) /\ live (n - 1) s' ) s.
Proof.
  intros Hw Hn Hl. pose proof Hl as (Ha & Hf & Hok). unfold write_one_revoke_record.
  eapply wp_exec; [done|]. rewrite Ha.
  assert (live 1 s) as Hl1 by (split_and!; [done|lia|done]).
  assert (live (n - 1) s) as Hln by (split_and!; [done|lia|done]).
  destruct (rw_descriptor w) as [[blk bs]|] eqn:Ed.
  - destruct (Z.ltb_spec (j_blocksize f - csum_size f) (rw_offset w + record_len f)).
    + eapply wp_exec; [by apply get_descriptor_live|]. cbv zeta. apply wp_ret.
      destruct (flush_at _ _ _ _ _ Hw Ed) as [Hw' Hg']. split; [|by apply live_take].
      exists (groups ++ [cur]), [b]. split; [by apply put_first|]. rewrite concat_app. cbn.
      by rewrite app_nil_r, app_assoc.
    + apply wp_ret. split; [|done]. exists groups, (cur ++ [b]). split; [|done].
      destruct Hw as (Hw & Hg & Hc). destruct Hc as [(_ & ? & _)|(Hh & blk' & Hd' & Ho)]; [congruence|]. rewrite Ed in Hd'. injection Hd' as -> ->.
      split; [done|]. split; [done|]. right. split.
      * split; [by destruct cur|]. rewrite length_app. cbn [length]. lia.
      * exists blk'. cbn [put_record rw_descriptor rw_offset].
        rewrite write_revoke_snoc.
        pose proof (write_revoke_offset f cur (new_descriptor_block f JBD2_REVOKE_BLOCK tid) sizeof_revoke_header) as Hoff.
        destruct (write_revoke_records f _ _ cur) as [bs' off'] eqn:Ew. cbn [fst snd] in *.
        rewrite Ho, <- Hoff. split; [done|]. rewrite Hoff, length_app. cbn [length]. lia.
  - eapply wp_exec; [by apply get_descriptor_live|]. cbv zeta. apply wp_ret. split; [|by apply live_take].
    destruct Hw as (Hw & Hg & Hc). destruct Hc as [(-> & _ & ->)|(_ & ? & ? & _)]; [|congruence]. exists [], [b]. split; [by apply put_first|done].
Qed.

Lemma write_bucket_spec l : forall groups cur w n s,
  writer_at groups cur w -> Z.of_nat (length l) <= n -> live n s ->
  wp (write_bucket submit_sb jiffies j_inode jbd2_chksum f tid w l)
    (fun w' s' => (exists groups' cur', writer_at groups' cur' w' /\
       concat groups' ++ cur' = concat groups ++ cur ++ map blocknr l) /\
       live (n - Z.of_nat (length l)) s') s.
Proof.
  induction l as [|r l IH]; intros groups cur w n s Hw Hn Hl; cbn [write_bucket].
  - apply wp_ret. cbn [length map]. rewrite Z.sub_0_r. split; [|done]. exists groups, cur. by rewrite app_nil_r.
  - cbn [length] in *. apply wp_bind. eapply wp_mono; [apply (write_one_spec groups cur w (blocknr r) n); [done|lia|done]|].
    intros w' s' [(g' & c' & Hw' & Hc) Hl']. eapply wp_mono; [apply (IH g' c' w' (n - 1)); [done|lia|done]|].
    intros w2 s2 [(g2 & c2 & Hw2 & Hc2) Hl2]. split.
    + exists g2, c2. split; [done|]. rewrite Hc2, app_assoc, Hc. cbn. by rewrite <- !app_assoc.
    + destruct Hl2 as (? & ? & ?). split_and!; try done; lia.
Qed.

Lemma write_buckets_spec t : forall groups cur w n s,
  writer_at groups cur w -> Z.of_nat (length (concat t)) <= n -> live n s ->
  wp (write_buckets submit_sb jiffies j_inode jbd2_chksum f tid w t)
    (fun r s' => (exists groups' cur', writer_at groups' cur' r.1 /\
       concat groups' ++ cur' = concat groups ++ cur ++ map blocknr (concat t)) /\
       r.2 = replicate (length t) [] /\ live 0 s') s.
Proof.
  induction t as [|l t IH]; intros groups cur w n s Hw Hn Hl; cbn [write_buckets].
  - apply wp_ret. cbn. destruct Hl as (Ha & Hf & Hok). split; [|split; [done|]].
    + exists groups, cur. by rewrite app_nil_r.
    + cbn in Hn. split_and!; [done|lia|done].
  - cbn [concat length] in *. rewrite length_app in Hn.
    apply wp_bind. eapply wp_mono; [apply (write_bucket_spec l groups cur w n); [done|lia|done]|].
    intros w' s' [(g' & c' & Hw' & Hc) Hl']. apply wp_bind. eapply wp_mono; [apply (IH g' c' w' (n - Z.of_nat (length l))); [done|lia|done]|].
    intros [w2 t2] s2 ((g2 & c2 & Hw2 & Hc2) & Ht & Hl2). apply wp_ret. cbn in *. split; [|split; [by rewrite Ht|done]].
    exists g2, c2. split; [done|]. rewrite Hc2, app_assoc, Hc, map_app. by rewrite <- !app_assoc.
Qed.

Lemma write_revoke_records_spec log_bufs jr s :
  let records := table_records (committing_table jr) in
  live (Z.of_nat (length records)) s ->
  wp (jbd2_vmsep_journal_write_revoke_records submit_sb jiffies j_inode jbd2_chksum f tid log_bufs jr)
    (fun r s' =>
       r.2 = with_committing_table jr ((committing_table jr)
               <| hash_table := replicate (length (hash_table (committing_table jr))) [] |>) /\
       exists groups, map snd (rw_written r.1) = map (revoke_block jbd2_chksum f tid) groups /\
         Forall block_holds groups /\ concat groups = map blocknr records) s.
Proof.
  intros records Hl. unfold jbd2_vmsep_journal_write_revoke_records. cbv zeta. apply wp_bind.
  eapply wp_mono; [eapply (write_buckets_spec _ [] []); [|reflexivity|exact Hl]|].
  { split; [done|]. split; [constructor|]. by left. }
  intros [w t] s' ((g & c & Hw & Hc) & Ht & (Ha & _)). cbn in Ht, Hw, Hc.
  eapply wp_exec; [done|]. rewrite Ha. apply wp_ret. cbn [fst snd]. split; [by rewrite Ht|].
  destruct (rw_descriptor w) as [[blk bs]|] eqn:Ed.
  - destruct (flush_at _ _ _ _ _ Hw Ed) as [Hm Hg]. exists (g ++ [c]). split_and!; try done.
    rewrite concat_app. cbn. by rewrite app_nil_r.
  - destruct Hw as (Hm & Hg & [(-> & _ & ->)|(_ & ? & ? & _)]); [|congruence].
    exists []. split_and!; try done.
Qed.
End WriteAll.

(** C28: the revoke table of the committing transaction goes to the log in
    full and comes back in full: in a journal that is not aborted and has a log block per record to spare, writing
    the table leaves it empty and the other table alone, and
    scanning the blocks written, in order, enters exactly the records of the
    table under the transaction's id, without an error, into any store that
    meets the contract of the revoke table. *)
Theorem revoke_records_round_trip {T} `{RevokeStore T} submit_sb jiffies j_inode jbd2_chksum f tid log_bufs jr s :
  mapped j_inode -> is_u32 tid -> j_blocksize f < 4294967296 ->
  sizeof_revoke_header + record_len f <= j_blocksize f - csum_size f ->
  let records := table_records (committing_table jr) in
  Forall (fun r => block_fits f (blocknr r)) records ->
  JBD2_ABORT (k_journal s) = false -> Z.of_nat (length records) < j_free (k_journal s) -> log_ok (k_journal s) ->
  wp (jbd2_vmsep_journal_write_revoke_records submit_sb jiffies j_inode jbd2_chksum f tid log_bufs jr)
    (fun r s' =>
       table_records (committing_table r.2) = [] /\ current_table r.2 = current_table jr /\
       forall t nr, fold_left (fun a blk => let '(err, t, nr) := a in
                       if err =? 0 then scan_revoke_records jbd2_chksum f blk.2 tid t nr else a)
                      (rw_written r.1) (0, t, nr) =
         (0, fold_left (fun t r => rs_set t (blocknr r) tid) records (t : T), nr + Z.of_nat (length records))) s.
Proof.
  intros Hm Ht Hb Hone records Hfit Ha Hfree Hok.
  eapply wp_mono; [by apply write_revoke_records_spec|].
  intros [w jr'] s' (Hjr & groups & Hw & Hg & Hc). cbn [fst snd] in *.
  split_and!.
  - rewrite Hjr. unfold committing_table, with_committing_table, table_records.
    destruct (j_revoke jr) eqn:Ej; cbn; rewrite Ej; cbn; apply concat_empty.
  - rewrite Hjr. unfold current_table, with_committing_table. destruct (j_revoke jr) eqn:Ej; cbn; by rewrite Ej.
  - fold records in Hc.
    assert (Forall (block_fits f) (concat groups)) as Hfg by (rewrite Hc; by apply Forall_map).
    assert (forall t, fold_left (fun t r => rs_set t (blocknr r) tid) records t =
      fold_left (fun t b => rs_set t b tid) (concat groups) t) as Hfold
      by (intros t; by rewrite Hc, fold_left_map).
    intros t nr. rewrite Hfold. rewrite <- (length_map blocknr records), <- Hc. clear Hc Hfold Hjr Hfree Hfit.
    revert t nr Hw. generalize (rw_written w) as written.
    induction groups as [|g groups IH]; intros [|wr written] t nr Hw; try done.
    { cbn. by rewrite Z.add_0_r. }
    cbn in Hw. injection Hw as Hbs Hw. apply Forall_cons in Hg as [[Hne Hh] Hg].
    cbn [concat] in Hfg. apply Forall_app in Hfg as [Hfit Hfg].
    cbn [fold_left]. rewrite Z.eqb_refl, Hbs.
    rewrite (scan_revoke_reads _ _ _ _ g); [|by apply revoke_block_reads].
    rewrite IH by done. cbn [concat]. rewrite fold_left_app, length_app. f_equal. lia.
Qed.

(** Four records in blocks of 28 bytes, three to a block. *)
Definition ex_small : jformat := mk_jformat false false false false false false 28 0 [].
Definition ex_revokes : journal_revoke :=
  let t := jbd2_journal_init_revoke_table 8 in
  mk_journal_revoke (set_revokes 7 t [(1, 0); (2, 0); (3, 0); (4, 0)]) t true.

Lemma revoke_records_round_trip_witness :
  wp (jbd2_vmsep_journal_write_revoke_records (fun _ => 0) 0 None ex_sum ex_small 7 [] ex_revokes)
    (fun r _ => length (rw_written r.1) = 2%nat) (ex_commit []) /\
  wp (jbd2_vmsep_journal_write_revoke_records (fun _ => 0) 0 None ex_sum ex_small 7 [] ex_revokes)
    (fun r _ => table_records (committing_table r.2) = []) (ex_commit []).
Proof.
  split; [vm_compute; reflexivity|].
  eapply wp_mono; [apply (revoke_records_round_trip (T := jbd2_revoke_table_s) (fun _ => 0) 0 None ex_sum ex_small 7 [] ex_revokes)|].
  - by intros ? ? [=].
  - done.
  - vm_compute. done.
  - vm_compute. done.
  - replace (table_records (committing_table ex_revokes)) with (map (mk_revoke_record 7) [3; 1; 4; 2]).
    + repeat constructor; done.
    + vm_compute. reflexivity.
  - reflexivity.
  - vm_compute. reflexivity.
  - apply log_okb_sound. reflexivity.
  - intros r s' (Hr & _). exact Hr.
Defined.
