(* ===== verification/Features.v ===== *)
(** * The journal superblock and its features

    [journal_get_superblock], [load_superblock] and the feature functions
    ([jbd2_vmsep_journal_check_used_features], [_check_available_features],
    [_set_features], [_clear_features]) of kernel/fs/jbd2/journal.c: which
    superblocks are accepted, and that turning features on leaves a superblock
    the next mount accepts.

    The superblock is its fields in CPU byte order; [sb_bytes] lays them out
    as [journal_superblock_t] for the checksum.  The checksum routine and the
    loading of its driver ([crypto_alloc_shash]) are parameters. *)
From S2P Require Import Prelude Tid State Revoke JournalHead Filing Log Commit OnDisk RevokeLog.

Module Sb.
Record journal_superblock_t := mk {
  h_magic : Z;
  h_blocktype : Z;
  h_sequence : Z;
  s_blocksize : Z;
  s_maxlen : Z;
  s_first : Z;
  s_sequence : tid_t;
  s_start : Z;
  s_errno : Z;
  s_feature_compat : Z;
  s_feature_incompat : Z;
  s_feature_ro_compat : Z;
  s_uuid : list Z;
  s_nr_users : Z;
  s_dynsuper : Z;
  s_max_transaction : Z;
  s_max_trans_data : Z;
  s_checksum_type : Z;
  s_padding2 : list Z;
  s_padding : list Z;
  s_checksum : Z;
  s_users : list Z;
}.
#[export] Instance eta_sb : Eta _ := fun s =>
  mk (h_magic s) (h_blocktype s) (h_sequence s) (s_blocksize s) (s_maxlen s) (s_first s) (s_sequence s)
    (s_start s) (s_errno s) (s_feature_compat s) (s_feature_incompat s) (s_feature_ro_compat s) (s_uuid s)
    (s_nr_users s) (s_dynsuper s) (s_max_transaction s) (s_max_trans_data s) (s_checksum_type s)
    (s_padding2 s) (s_padding s) (s_checksum s) (s_users s).
End Sb.
Export (hints) Sb.
Abbreviation journal_superblock_t := Sb.journal_superblock_t.

(** The bytes of the superblock. *)
Definition sb_bytes (sb : journal_superblock_t) : list Z :=
  concat [be 4 (Sb.h_magic sb); be 4 (Sb.h_blocktype sb); be 4 (Sb.h_sequence sb); be 4 (Sb.s_blocksize sb);
    be 4 (Sb.s_maxlen sb); be 4 (Sb.s_first sb); be 4 (Sb.s_sequence sb); be 4 (Sb.s_start sb);
    be 4 (Sb.s_errno sb); be 4 (Sb.s_feature_compat sb); be 4 (Sb.s_feature_incompat sb);
    be 4 (Sb.s_feature_ro_compat sb); Sb.s_uuid sb; be 4 (Sb.s_nr_users sb); be 4 (Sb.s_dynsuper sb);
    be 4 (Sb.s_max_transaction sb); be 4 (Sb.s_max_trans_data sb); be 1 (Sb.s_checksum_type sb);
    Sb.s_padding2 sb; Sb.s_padding sb; be 4 (Sb.s_checksum sb); Sb.s_users sb].

(** What the [journal_t] keeps about its superblock; [j_sb_buffer] says
    whether the pointer is set. *)
Record jsuper := mk_jsuper {
  j_sb_buffer : bool;
  sb_uptodate : bool;
  sb_verified : bool;
  j_superblock : journal_superblock_t;
  j_format_version : Z;
  js_maxlen : Z;
  js_blocksize : Z;
  js_chksum_driver : bool;
  js_csum_seed : Z;
}.
#[export] Instance eta_jsuper : Eta _ := fun j =>
  mk_jsuper (j_sb_buffer j) (sb_uptodate j) (sb_verified j) (j_superblock j) (j_format_version j)
    (js_maxlen j) (js_blocksize j) (js_chksum_driver j) (js_csum_seed j).

Definition JBD2_SUPERBLOCK_V1 : Z := 3.
Definition JBD2_SUPERBLOCK_V2 : Z := 4.
Definition JBD2_CRC32C_CHKSUM : Z := 4.
Definition JBD2_FEATURE_COMPAT_CHECKSUM : Z := 1.
Definition JBD2_FEATURE_INCOMPAT_REVOKE : Z := 1.
Definition JBD2_FEATURE_INCOMPAT_64BIT : Z := 2.
Definition JBD2_FEATURE_INCOMPAT_ASYNC_COMMIT : Z := 4.
Definition JBD2_FEATURE_INCOMPAT_CSUM_V2 : Z := 8.
Definition JBD2_FEATURE_INCOMPAT_CSUM_V3 : Z := 16.
Definition JBD2_KNOWN_COMPAT_FEATURES : Z := 1.
Definition JBD2_KNOWN_ROCOMPAT_FEATURES : Z := 0.
Definition JBD2_KNOWN_INCOMPAT_FEATURES : Z := 31.

(** ** Feature tests *)

Definition jbd2_has_feature_checksum (j : jsuper) : bool :=
  (2 <=? j_format_version j) && flag_set (Sb.s_feature_compat (j_superblock j)) JBD2_FEATURE_COMPAT_CHECKSUM.
Definition jbd2_has_incompat (flag : Z) (j : jsuper) : bool :=
  (2 <=? j_format_version j) && flag_set (Sb.s_feature_incompat (j_superblock j)) flag.
Definition jbd2_has_feature_csum2 : jsuper -> bool := jbd2_has_incompat JBD2_FEATURE_INCOMPAT_CSUM_V2.
Definition jbd2_has_feature_csum3 : jsuper -> bool := jbd2_has_incompat JBD2_FEATURE_INCOMPAT_CSUM_V3.
Definition jbd2_journal_has_csum_v2or3_feature (j : jsuper) : bool :=
  jbd2_has_feature_csum2 j || jbd2_has_feature_csum3 j.

Definition jbd2_verify_csum_type (j : jsuper) : bool :=
  negb (jbd2_journal_has_csum_v2or3_feature j) ||
  (Sb.s_checksum_type (j_superblock j) =? JBD2_CRC32C_CHKSUM).

Section Super.
Context (jbd2_chksum : Z -> list Z -> Z).
(** [crypto_alloc_shash("crc32c")]: 0, or a negative error. *)
Context (alloc_shash : Z).

(** [~0] as the [u32] seed. *)
Definition all_ones : Z := 4294967295.

Definition jbd2_superblock_csum (sb : journal_superblock_t) : Z :=
  u32 (jbd2_chksum all_ones (sb_bytes (sb <| Sb.s_checksum := 0 |>))).

Definition jbd2_superblock_csum_verify (j : jsuper) : bool :=
  negb (js_chksum_driver j) ||
  (Sb.s_checksum (j_superblock j) =? jbd2_superblock_csum (j_superblock j)).

Definition jbd2_superblock_csum_set (j : jsuper) : jsuper :=
  if js_chksum_driver j
  then j <| j_superblock ::= fun sb => sb <| Sb.s_checksum := jbd2_superblock_csum sb |> |>
  else j.

(** [journal_fail_superblock]. *)
Definition journal_fail_superblock : K jsuper unit := fun j => Ret (tt, j <| j_sb_buffer := false |>).

Definition get : K jsuper jsuper := fun j => Ret (j, j).
Definition modify (g : jsuper -> jsuper) : K jsuper unit := fun j => Ret (tt, g j).

(** The checks of [journal_get_superblock] after the block is read; the
    error, or 0 when the superblock is accepted. *)
Definition check_format : K jsuper Z :=
  j <- get ;;
  let sb := j_superblock j in
  if negb (Sb.h_magic sb =? JBD2_MAGIC_NUMBER) || negb (Sb.s_blocksize sb =? js_blocksize j)
  then kret (- EINVAL)
  else if Sb.h_blocktype sb =? JBD2_SUPERBLOCK_V1 then modify (fun j => j <| j_format_version := 1 |>) ;;; kret 0
  else if Sb.h_blocktype sb =? JBD2_SUPERBLOCK_V2 then modify (fun j => j <| j_format_version := 2 |>) ;;; kret 0
  else kret (- EINVAL).

Definition check_geometry : K jsuper Z :=
  j <- get ;;
  let sb := j_superblock j in
  if js_maxlen j <? Sb.s_maxlen sb then kret (- EINVAL)
  else
    modify (fun j => j <| js_maxlen := Sb.s_maxlen sb |>) ;;;
    j <- get ;;
    kret (if (Sb.s_first sb =? 0) || (js_maxlen j <=? Sb.s_first sb) then - EINVAL else 0).

Definition check_features : K jsuper Z :=
  j <- get ;;
  if jbd2_has_feature_csum2 j && jbd2_has_feature_csum3 j then kret (- EINVAL)
  else if jbd2_journal_has_csum_v2or3_feature j && jbd2_has_feature_checksum j then kret (- EINVAL)
  else if negb (jbd2_verify_csum_type j) then kret (- EINVAL)
  else
    err <- (if jbd2_journal_has_csum_v2or3_feature j
            then modify (fun j => j <| js_chksum_driver := alloc_shash =? 0 |>) ;;; kret alloc_shash
            else kret 0) ;;
    if negb (err =? 0) then kret err
    else
      j <- get ;;
      if negb (jbd2_superblock_csum_verify j) then kret (- EFSBADCRC)
      else
        (if js_chksum_driver j
         then modify (fun j => j <| js_csum_seed := u32 (jbd2_chksum all_ones (Sb.s_uuid (j_superblock j))) |>)
         else kret tt) ;;;
        kret 0.

(** [goto out] on an error, the next check otherwise. *)
Definition and_then (m k : K jsuper Z) : K jsuper Z :=
  err <- m ;; if err =? 0 then k else kret err.

(** [from_disk]: what reading the block gives, when it is not up to date. *)
Definition journal_get_superblock (from_disk : option journal_superblock_t) : K jsuper Z :=
  j <- get ;;
  j_assert (j_sb_buffer j) ;;;
  err <- (if sb_uptodate j then kret 0
          else match from_disk with
               | Some sb => modify (fun j => j <| sb_uptodate := true |> <| j_superblock := sb |>) ;;; kret 0
               | None => kret (- EIO)
               end) ;;
  if negb (err =? 0) then journal_fail_superblock ;;; kret err
  else if sb_verified j then kret 0
  else
    err <- and_then check_format (and_then check_geometry check_features) ;;
    if err =? 0 then modify (fun j => j <| sb_verified := true |>) ;;; kret 0
    else journal_fail_superblock ;;; kret err.

(** [load_superblock]: the fields of the superblock go into the journal. *)
Definition load_superblock (from_disk : option journal_superblock_t) (j : journal_t) : K jsuper (Z * journal_t) :=
  err <- journal_get_superblock from_disk ;;
  js <- get ;;
  if negb (err =? 0) then kret (err, j <| j_maxlen := js_maxlen js |>)
  else
    let sb := j_superblock js in
    kret (0, j <| j_tail_sequence := Sb.s_sequence sb |> <| j_tail := Sb.s_start sb |>
               <| j_first := Sb.s_first sb |> <| j_last := Sb.s_maxlen sb |> <| j_errno := s32 (Sb.s_errno sb) |>
               <| s_sequence := Sb.s_sequence sb |> <| s_start := Sb.s_start sb |> <| s_errno := Sb.s_errno sb |>
               <| s_first := Sb.s_first sb |> <| s_maxlen := Sb.s_maxlen sb |> <| j_maxlen := js_maxlen js |>).

(** ** Feature functions *)

Definition none_asked (compat ro incompat : Z) : bool :=
  (compat =? 0) && (ro =? 0) && (incompat =? 0).

Definition jbd2_vmsep_journal_check_used_features (from_disk : option journal_superblock_t)
    (compat ro incompat : Z) : K jsuper bool :=
  if none_asked compat ro incompat then kret true
  else
    j <- get ;;
    err <- (if j_format_version j =? 0 then journal_get_superblock from_disk else kret 0) ;;
    j <- get ;;
    if negb (err =? 0) || (j_format_version j =? 1) then kret false
    else
      let sb := j_superblock j in
      kret ((Z.land (Sb.s_feature_compat sb) compat =? compat) &&
            (Z.land (Sb.s_feature_ro_compat sb) ro =? ro) &&
            (Z.land (Sb.s_feature_incompat sb) incompat =? incompat)).

Definition jbd2_vmsep_journal_check_available_features (compat ro incompat : Z) : K jsuper bool :=
  if none_asked compat ro incompat then kret true
  else
    j <- get ;;
    if negb (j_format_version j =? 2) then kret false
    else
      kret ((Z.land compat JBD2_KNOWN_COMPAT_FEATURES =? compat) &&
            (Z.land ro JBD2_KNOWN_ROCOMPAT_FEATURES =? ro) &&
            (Z.land incompat JBD2_KNOWN_INCOMPAT_FEATURES =? incompat)).

(** "If enabling v2 checksums, turn on v3 instead", and "asking for
    checksumming v3 and v1? Only give them v3". *)
Definition wanted_incompat (incompat : Z) : Z :=
  if flag_set incompat JBD2_FEATURE_INCOMPAT_CSUM_V2
  then Z.lor (Z.ldiff incompat JBD2_FEATURE_INCOMPAT_CSUM_V2) JBD2_FEATURE_INCOMPAT_CSUM_V3
  else incompat.
Definition wanted_compat (compat incompat : Z) : Z :=
  if flag_set incompat JBD2_FEATURE_INCOMPAT_CSUM_V3 && flag_set compat JBD2_FEATURE_COMPAT_CHECKSUM
  then Z.ldiff compat JBD2_FEATURE_COMPAT_CHECKSUM else compat.

(** Enabling v3 checksums: false when the checksum driver cannot be loaded. *)
Definition enable_csum_v3 : K jsuper bool :=
  modify (fun j => j <| j_superblock ::= fun sb =>
    sb <| Sb.s_checksum_type := JBD2_CRC32C_CHKSUM |>
       <| Sb.s_feature_compat ::= fun c => Z.ldiff c JBD2_FEATURE_COMPAT_CHECKSUM |> |>) ;;;
  j <- get ;;
  if js_chksum_driver j then kret true
  else if negb (alloc_shash =? 0) then kret false
  else
    modify (fun j => j <| js_chksum_driver := true |>
      <| js_csum_seed := u32 (jbd2_chksum all_ones (Sb.s_uuid (j_superblock j))) |>) ;;;
    kret true.

Definition jbd2_vmsep_journal_set_features (from_disk : option journal_superblock_t)
    (compat ro incompat : Z) : K jsuper bool :=
  used <- jbd2_vmsep_journal_check_used_features from_disk compat ro incompat ;;
  if used : bool then kret true
  else
    available <- jbd2_vmsep_journal_check_available_features compat ro incompat ;;
    if negb available then kret false
    else
      let incompat := wanted_incompat incompat in
      let compat := wanted_compat compat incompat in
      j <- get ;;
      ok <- (if flag_set incompat JBD2_FEATURE_INCOMPAT_CSUM_V3 &&
                negb (flag_set (Sb.s_feature_incompat (j_superblock j)) JBD2_FEATURE_INCOMPAT_CSUM_V3)
             then enable_csum_v3 else kret true) ;;
      if negb ok then kret false
      else
        j <- get ;;
        (if flag_set compat JBD2_FEATURE_COMPAT_CHECKSUM &&
            negb (flag_set (Sb.s_feature_compat (j_superblock j)) JBD2_FEATURE_COMPAT_CHECKSUM)
         then modify (fun j => j <| j_superblock ::= fun sb => sb <| Sb.s_feature_incompat ::= fun c =>
                Z.ldiff c (Z.lor JBD2_FEATURE_INCOMPAT_CSUM_V2 JBD2_FEATURE_INCOMPAT_CSUM_V3) |> |>)
         else kret tt) ;;;
        modify (fun j => j <| j_superblock ::= fun sb =>
          sb <| Sb.s_feature_compat ::= fun c => Z.lor c compat |>
             <| Sb.s_feature_ro_compat ::= fun c => Z.lor c ro |>
             <| Sb.s_feature_incompat ::= fun c => Z.lor c incompat |> |>) ;;;
        kret true.

Definition jbd2_vmsep_journal_clear_features (compat ro incompat : Z) : K jsuper unit :=
  modify (fun j => j <| j_superblock ::= fun sb =>
    sb <| Sb.s_feature_compat ::= fun c => Z.ldiff c compat |>
       <| Sb.s_feature_ro_compat ::= fun c => Z.ldiff c ro |>
       <| Sb.s_feature_incompat ::= fun c => Z.ldiff c incompat |> |>).
End Super.

(** ** Which superblocks are accepted *)

Lemma flag_set_bit f k : 0 <= k -> flag_set f (2 ^ k) = Z.testbit f k.
Proof.
  intros Hk. unfold flag_set. destruct (Z.testbit f k) eqn:E.
  - apply negb_true_iff, Z.eqb_neq. intros H0. apply (f_equal (fun z => Z.testbit z k)) in H0.
    rewrite Z.land_spec, Z.pow2_bits_true, E, Z.bits_0 in H0 by lia. done.
  - apply negb_false_iff, Z.eqb_eq. apply Z.bits_inj'. intros n Hn. rewrite Z.land_spec, Z.bits_0.
    destruct (decide (n = k)) as [->|Hne]; [by rewrite E|]. rewrite Z.pow2_bits_false by lia. apply andb_false_r.
Qed.

(** The bits of the feature words that matter, as [Z.testbit]. *)
Lemma csum_v2_bit f : flag_set f JBD2_FEATURE_INCOMPAT_CSUM_V2 = Z.testbit f 3.
Proof. by apply (flag_set_bit f 3). Qed.
Lemma csum_v3_bit f : flag_set f JBD2_FEATURE_INCOMPAT_CSUM_V3 = Z.testbit f 4.
Proof. by apply (flag_set_bit f 4). Qed.
Lemma checksum_bit f : flag_set f JBD2_FEATURE_COMPAT_CHECKSUM = Z.testbit f 0.
Proof. by apply (flag_set_bit f 0). Qed.
Create Rewrite HintDb features.
#[export] Hint Rewrite csum_v2_bit csum_v3_bit checksum_bit Z.lor_spec Z.ldiff_spec Z.land_spec : features.

(** No two kinds of checksums, and a known checksum type. *)
Definition features_ok (sb : journal_superblock_t) : bool :=
  let v2 := Z.testbit (Sb.s_feature_incompat sb) 3 in
  let v3 := Z.testbit (Sb.s_feature_incompat sb) 4 in
  negb (v2 && v3) && negb ((v2 || v3) && Z.testbit (Sb.s_feature_compat sb) 0) &&
  (negb (v2 || v3) || (Sb.s_checksum_type sb =? JBD2_CRC32C_CHKSUM)).

(** A version-2 superblock in use by a mounted journal. *)
Record mounted (j : jsuper) : Prop := {
  m_version : j_format_version j = 2;
  m_magic : Sb.h_magic (j_superblock j) = JBD2_MAGIC_NUMBER;
  m_type : Sb.h_blocktype (j_superblock j) = JBD2_SUPERBLOCK_V2;
  m_blocksize : Sb.s_blocksize (j_superblock j) = js_blocksize j;
  m_maxlen : Sb.s_maxlen (j_superblock j) = js_maxlen j;
  m_first : 0 < Sb.s_first (j_superblock j) < js_maxlen j;
  m_driver : flag_set (Sb.s_feature_incompat (j_superblock j)) JBD2_FEATURE_INCOMPAT_CSUM_V2 ||
             flag_set (Sb.s_feature_incompat (j_superblock j)) JBD2_FEATURE_INCOMPAT_CSUM_V3 = true ->
             js_chksum_driver j = true;
}.

(** Mounting the journal again after its superblock was written: a new
    [journal_t] of the same size reads the superblock back. *)
Definition remount (jbd2_chksum : Z -> list Z -> Z) (j : jsuper) : outcome (Z * jsuper) :=
  let sb := j_superblock (jbd2_superblock_csum_set jbd2_chksum j) in
  journal_get_superblock jbd2_chksum 0 (Some sb)
    (mk_jsuper true false false sb 0 (js_maxlen j) (js_blocksize j) false 0).

Lemma csum_set_sb chk j :
  let sb := j_superblock (jbd2_superblock_csum_set chk j) in
  sb = (j_superblock j) <| Sb.s_checksum := Sb.s_checksum sb |> /\
  (js_chksum_driver j = true -> Sb.s_checksum sb = jbd2_superblock_csum chk sb).
Proof.
  unfold jbd2_superblock_csum_set. destruct (js_chksum_driver j); cbn; [by split|].
  split; [by destruct (j_superblock j)|done].
Qed.

(** A journal whose superblock is well-formed can be mounted again exactly
    when its features do not contradict each other. *)
Lemma remount_spec chk j :
  mounted j ->
  exists j', remount chk j = Ret (if features_ok (j_superblock j) then 0 else - EINVAL, j') /\
    (features_ok (j_superblock j) = true ->
     sb_verified j' = true /\
     Sb.s_feature_compat (j_superblock j') = Sb.s_feature_compat (j_superblock j) /\
     Sb.s_feature_incompat (j_superblock j') = Sb.s_feature_incompat (j_superblock j)).
Proof.
  intros [Hv Hm Ht Hb Hl Hf Hd]. unfold remount. destruct (csum_set_sb chk j) as [Hsb Hck].
  set (sb := j_superblock (jbd2_superblock_csum_set chk j)) in *. clearbody sb.
  assert (Sb.h_magic sb = JBD2_MAGIC_NUMBER /\ Sb.h_blocktype sb = JBD2_SUPERBLOCK_V2 /\
    Sb.s_blocksize sb = js_blocksize j /\ Sb.s_maxlen sb = js_maxlen j /\
    Sb.s_first sb = Sb.s_first (j_superblock j) /\
    Sb.s_feature_compat sb = Sb.s_feature_compat (j_superblock j) /\
    Sb.s_feature_incompat sb = Sb.s_feature_incompat (j_superblock j) /\
    features_ok sb = features_ok (j_superblock j)) as (H1 & H2 & H3 & H4 & H5 & H6 & H7 & H8)
    by (rewrite Hsb; cbn; unfold features_ok; cbn; done).
  clear Hsb. rewrite <- H6, <- H7, <- H8. rewrite <- H7 in Hd. autorewrite with features in Hd.
  unfold journal_get_superblock, and_then, check_format, check_geometry, check_features,
    journal_fail_superblock, modify, get, kbind, kret, j_assert. cbn.
  rewrite H1, H2, H3, !Z.eqb_refl. cbn. rewrite H4, Z.ltb_irrefl. cbn.
  rewrite ?H4, H5, (proj2 (Z.eqb_neq (Sb.s_first (j_superblock j)) 0)),
    (proj2 (Z.leb_gt (js_maxlen j) (Sb.s_first (j_superblock j)))) by lia. cbn.
  unfold jbd2_verify_csum_type, jbd2_journal_has_csum_v2or3_feature, jbd2_has_feature_csum2,
    jbd2_has_feature_csum3, jbd2_has_incompat, jbd2_has_feature_checksum, features_ok. cbn -[Z.testbit].
  autorewrite with features.
  unfold jbd2_superblock_csum_verify.
  destruct (Z.testbit (Sb.s_feature_incompat sb) 3), (Z.testbit (Sb.s_feature_incompat sb) 4),
    (Z.testbit (Sb.s_feature_compat sb) 0), (Sb.s_checksum_type sb =? JBD2_CRC32C_CHKSUM);
    cbn -[Z.testbit]; try rewrite (proj2 (Z.eqb_eq _ _) (Hck (Hd eq_refl))); cbn;
    (eexists; split; [reflexivity|intros Hx; first [discriminate Hx|done]]).
Qed.

(** ** Setting features *)

Lemma v2_bits : Z.testbit JBD2_FEATURE_INCOMPAT_CSUM_V2 3 = true /\ Z.testbit JBD2_FEATURE_INCOMPAT_CSUM_V2 4 = false.
Proof. done. Qed.
Lemma v3_bits : Z.testbit JBD2_FEATURE_INCOMPAT_CSUM_V3 3 = false /\ Z.testbit JBD2_FEATURE_INCOMPAT_CSUM_V3 4 = true.
Proof. done. Qed.
Lemma checksum_bits : Z.testbit JBD2_FEATURE_COMPAT_CHECKSUM 0 = true.
Proof. done. Qed.
#[export] Hint Rewrite (proj1 v2_bits) (proj2 v2_bits) (proj1 v3_bits) (proj2 v3_bits) checksum_bits : features.

Lemma wanted_incompat_bits i :
  Z.testbit (wanted_incompat i) 3 = false /\ Z.testbit (wanted_incompat i) 4 = Z.testbit i 3 || Z.testbit i 4.
Proof.
  unfold wanted_incompat. autorewrite with features. destruct (Z.testbit i 3) eqn:E; autorewrite with features;
    rewrite ?E; by destruct (Z.testbit i 4).
Qed.

Lemma wanted_compat_bit c i :
  Z.testbit (wanted_compat c i) 0 = Z.testbit c 0 && negb (Z.testbit i 4).
Proof.
  unfold wanted_compat. autorewrite with features.
  destruct (Z.testbit i 4), (Z.testbit c 0) eqn:E; cbn -[Z.testbit]; autorewrite with features; by rewrite ?E.
Qed.

Lemma land_lor_absorb a b : Z.land (Z.lor a b) b = b.
Proof. apply Z.bits_inj'. intros n Hn. autorewrite with features. by destruct (Z.testbit a n), (Z.testbit b n). Qed.

(** The superblock already has all the features asked for. *)
Definition all_used (sb : journal_superblock_t) (compat ro incompat : Z) : bool :=
  none_asked compat ro incompat ||
  ((Z.land (Sb.s_feature_compat sb) compat =? compat) && (Z.land (Sb.s_feature_ro_compat sb) ro =? ro) &&
   (Z.land (Sb.s_feature_incompat sb) incompat =? incompat)).

(** Version 2 or 3 checksums are asked of a journal that has version 2 ones. *)
Definition v3_over_v2 (sb : journal_superblock_t) (incompat : Z) : bool :=
  Z.testbit (Sb.s_feature_incompat sb) 3 && (Z.testbit incompat 3 || Z.testbit incompat 4).

(** The features a successful call turns on: those asked for, less the
    replaced checksum versions. *)
Definition has_features (sb : journal_superblock_t) (compat ro incompat : Z) : Prop :=
  Z.land (Sb.s_feature_compat sb) compat = compat /\ Z.land (Sb.s_feature_ro_compat sb) ro = ro /\
  Z.land (Sb.s_feature_incompat sb) incompat = incompat.

Lemma check_used_exec chk alloc fd compat ro incompat j :
  j_format_version j = 2 ->
  jbd2_vmsep_journal_check_used_features chk alloc fd compat ro incompat j =
  Ret (all_used (j_superblock j) compat ro incompat, j).
Proof.
  intros Hv. unfold jbd2_vmsep_journal_check_used_features, all_used.
  destruct (none_asked compat ro incompat); [done|]. unfold kbind, get. rewrite Hv. cbn. by rewrite Hv.
Qed.

(** The features after the checksum versions are sorted out and the new
    features added. *)
Definition turn_on (sb : journal_superblock_t) (compat ro incompat : Z) : journal_superblock_t :=
  let v3_new := Z.testbit incompat 4 && negb (Z.testbit (Sb.s_feature_incompat sb) 4) in
  let sb := if v3_new then sb <| Sb.s_checksum_type := JBD2_CRC32C_CHKSUM |>
              <| Sb.s_feature_compat ::= fun c => Z.ldiff c JBD2_FEATURE_COMPAT_CHECKSUM |> else sb in
  let v1_new := Z.testbit compat 0 && negb (Z.testbit (Sb.s_feature_compat sb) 0) in
  let sb := if v1_new then sb <| Sb.s_feature_incompat ::= fun c =>
              Z.ldiff c (Z.lor JBD2_FEATURE_INCOMPAT_CSUM_V2 JBD2_FEATURE_INCOMPAT_CSUM_V3) |> else sb in
  sb <| Sb.s_feature_compat ::= fun c => Z.lor c compat |>
     <| Sb.s_feature_ro_compat ::= fun c => Z.lor c ro |>
     <| Sb.s_feature_incompat ::= fun c => Z.lor c incompat |>.

Lemma turn_on_ok sb compat ro incompat :
  features_ok sb = true -> Z.testbit incompat 3 = false -> Z.testbit incompat 4 && Z.testbit compat 0 = false ->
  features_ok (turn_on sb compat ro incompat) =
  negb (Z.testbit (Sb.s_feature_incompat sb) 3 && Z.testbit incompat 4).
Proof.
  unfold turn_on, features_ok. intros Hok H3 Hx.
  destruct (Z.testbit incompat 4) eqn:E4, (Z.testbit (Sb.s_feature_incompat sb) 4) eqn:S4,
    (Z.testbit compat 0) eqn:E0; try discriminate Hx; cbn -[Z.testbit] in *; autorewrite with features;
    rewrite ?E4, ?S4, ?E0, ?H3; cbn -[Z.testbit];
    destruct (Z.testbit (Sb.s_feature_incompat sb) 3) eqn:S3, (Z.testbit (Sb.s_feature_compat sb) 0) eqn:S0;
    cbn -[Z.testbit] in *; autorewrite with features; rewrite ?E4, ?S4, ?S3, ?S0, ?E0, ?H3; cbn -[Z.testbit] in *;
    try done; by rewrite ?Hok.
Qed.

Lemma features_ok_drop_checksum sb :
  features_ok sb = true ->
  features_ok (sb <| Sb.s_checksum_type := JBD2_CRC32C_CHKSUM |>
    <| Sb.s_feature_compat ::= fun c => Z.ldiff c JBD2_FEATURE_COMPAT_CHECKSUM |>) = true.
Proof.
  unfold features_ok. cbn -[Z.testbit]. autorewrite with features.
  destruct (Z.testbit (Sb.s_feature_incompat sb) 3), (Z.testbit (Sb.s_feature_incompat sb) 4),
    (Z.testbit (Sb.s_feature_compat sb) 0); done.
Qed.

(** Only the features, the checksum type and the checksum driver change. *)
Lemma mounted_features j j' :
  mounted j -> j_format_version j' = 2 -> js_blocksize j' = js_blocksize j -> js_maxlen j' = js_maxlen j ->
  (let sb := j_superblock j in let sb' := j_superblock j' in
   Sb.h_magic sb' = Sb.h_magic sb /\ Sb.h_blocktype sb' = Sb.h_blocktype sb /\
   Sb.s_blocksize sb' = Sb.s_blocksize sb /\ Sb.s_maxlen sb' = Sb.s_maxlen sb /\ Sb.s_first sb' = Sb.s_first sb) ->
  (Z.testbit (Sb.s_feature_incompat (j_superblock j')) 3 || Z.testbit (Sb.s_feature_incompat (j_superblock j')) 4 = true ->
   js_chksum_driver j' = true) ->
  mounted j'.
Proof.
  intros [Hv Hm Ht Hb Hl Hf Hd] Hv' Hb' Hl' (H1 & H2 & H3 & H4 & H5) Hd'.
  split; rewrite ?H1, ?H2, ?H3, ?H4, ?H5, ?Hb', ?Hl'; try done. by autorewrite with features.
Qed.

(** The step that enables version 3 checksums. *)
Definition v3_new (sb : journal_superblock_t) (incompat : Z) : bool :=
  Z.testbit incompat 4 && negb (Z.testbit (Sb.s_feature_incompat sb) 4).

Lemma enable_csum_v3_exec chk alloc j :
  wp (enable_csum_v3 chk alloc)
    (fun ok j' =>
       j_superblock j' = (j_superblock j) <| Sb.s_checksum_type := JBD2_CRC32C_CHKSUM |>
         <| Sb.s_feature_compat ::= fun c => Z.ldiff c JBD2_FEATURE_COMPAT_CHECKSUM |> /\
       j_format_version j' = j_format_version j /\ js_blocksize j' = js_blocksize j /\
       js_maxlen j' = js_maxlen j /\ (js_chksum_driver j = true -> js_chksum_driver j' = true) /\
       (ok = true -> js_chksum_driver j' = true)) j.
Proof.
  unfold enable_csum_v3, wp, kbind, modify, get. cbn.
  destruct (js_chksum_driver j); [done|]. by destruct (alloc =? 0).
Qed.

(** A call that has something to do. *)
Lemma set_features_turn_on chk alloc fd compat ro incompat j :
  mounted j -> all_used (j_superblock j) compat ro incompat = false ->
  let i := wanted_incompat incompat in let c := wanted_compat compat i in
  wp (jbd2_vmsep_journal_set_features chk alloc fd compat ro incompat)
    (fun ok j' => mounted j' /\
       if ok : bool then j_superblock j' = turn_on (j_superblock j) c ro i
       else features_ok (j_superblock j) = true -> features_ok (j_superblock j') = true) j.
Proof.
  intros Hm Hu. pose proof (m_version _ Hm) as Hv. pose proof (m_driver _ Hm) as Hd. autorewrite with features in Hd.
  cbv zeta. unfold jbd2_vmsep_journal_set_features.
  eapply wp_exec; [by apply check_used_exec|]. rewrite Hu.
  assert (exists a, jbd2_vmsep_journal_check_available_features compat ro incompat j = Ret (a, j)) as [a Ha].
  { unfold jbd2_vmsep_journal_check_available_features, kbind, get. destruct (none_asked _ _ _); [by eexists|].
    destruct (negb _); by eexists. }
  eapply wp_exec; [exact Ha|]. destruct a; cbn [negb]; [|apply wp_ret; done].
  set (i := wanted_incompat incompat). set (c := wanted_compat compat i).
  destruct (wanted_incompat_bits incompat) as [Hi3 _]. fold i in Hi3. clearbody i c. clear Ha Hu.
  eapply wp_exec; [reflexivity|]. autorewrite with features. apply wp_bind. unfold turn_on. fold (v3_new (j_superblock j) i).
  destruct (v3_new (j_superblock j) i) eqn:Ev3.
  - eapply wp_mono; [apply enable_csum_v3_exec|]. intros ok j1 (Hsb & Hv1 & Hb1 & Hl1 & Hd1 & Hok).
    destruct ok; cbn [negb].
    + eapply wp_exec; [reflexivity|]. autorewrite with features. rewrite Hsb. specialize (Hok eq_refl).
      destruct (Z.testbit c 0 && negb _) eqn:Ev1; (split;
        [apply (mounted_features j); cbn; rewrite ?Hsb; cbn; first [done|congruence]|cbn; by rewrite ?Hsb]).
    + apply wp_ret. split; [|intros Hf; rewrite Hsb; by apply features_ok_drop_checksum].
      apply (mounted_features j); rewrite ?Hsb; cbn -[Z.testbit]; try done; [congruence|auto].
  - apply wp_ret. cbn [negb]. eapply wp_exec; [reflexivity|]. autorewrite with features.
    unfold v3_new in Ev3.
    destruct (Z.testbit c 0 && negb _) eqn:Ev1; (split; [|done]);
      (apply (mounted_features j); cbn -[Z.testbit]; [done..|]); autorewrite with features; rewrite Hi3.
    all: destruct (Z.testbit i 4), (Z.testbit (Sb.s_feature_incompat (j_superblock j)) 4),
      (Z.testbit (Sb.s_feature_incompat (j_superblock j)) 3); try done; auto.
Qed.

(** C29: turning journal features on keeps the superblock mountable.  Whatever
    features are asked of a mounted version-2 journal, and also when the call
    fails half-way because the checksum driver is missing, the superblock
    written afterwards is accepted by [journal_get_superblock] of the next
    mount, with one exception: asking version 2 or 3 checksums of a journal
    that has version 2 ones gives a superblock with both, which the next mount
    refuses with [-EINVAL].  When the call succeeds, everything asked for is
    on, version 2 checksums being replaced by version 3 and version 1
    checksums dropped in favour of version 3. *)
Theorem set_features_mountable chk alloc fd compat ro incompat j :
  mounted j -> features_ok (j_superblock j) = true ->
  wp (jbd2_vmsep_journal_set_features chk alloc fd compat ro incompat)
    (fun ok j' =>
       let used := all_used (j_superblock j) compat ro incompat in
       let clash := ok && negb used && v3_over_v2 (j_superblock j) incompat in
       (exists j2, remount chk j' = Ret (if clash then - EINVAL else 0, j2)) /\
       (ok = true ->
        let i := if used then incompat else wanted_incompat incompat in
        let c := if used then compat else wanted_compat compat i in
        has_features (j_superblock j') c ro i)) j.
Proof.
  intros Hm Hf. cbv zeta. destruct (all_used _ compat ro incompat) eqn:Hu.
  - unfold jbd2_vmsep_journal_set_features. eapply wp_exec; [apply check_used_exec, Hm|]. rewrite Hu. cbv iota.
    apply wp_ret. cbn [andb negb]. destruct (remount_spec chk j Hm) as (j2 & -> & _). rewrite Hf.
    split; [by eexists|]. intros _. unfold all_used in Hu. apply orb_true_iff in Hu as [Hu|Hu].
    + unfold none_asked in Hu. rewrite !andb_true_iff, !Z.eqb_eq in Hu. destruct Hu as [[-> ->] ->].
      unfold has_features. by rewrite !Z.land_0_r.
    + rewrite !andb_true_iff, !Z.eqb_eq in Hu. unfold has_features. naive_solver.
  - eapply wp_mono; [by apply set_features_turn_on|]. intros ok j' [Hm' Hsb].
    destruct (remount_spec chk j' Hm') as (j2 & -> & _).
    destruct (wanted_incompat_bits incompat) as [Hi3 Hi4]. destruct ok; cbn [andb negb].
    + rewrite Hsb, turn_on_ok, Hi4 by
        (rewrite ?wanted_compat_bit, ?Hi3; try done; by destruct (Z.testbit _ 4), (Z.testbit compat 0)).
      unfold v3_over_v2. split; [by destruct (_ && _); eexists|]. intros _.
      unfold turn_on, has_features. cbn -[Z.testbit]. by rewrite !land_lor_absorb.
    + rewrite (Hsb Hf). split; [by eexists|done].
Qed.

Definition ex_sb (compat incompat : Z) : journal_superblock_t :=
  Sb.mk JBD2_MAGIC_NUMBER JBD2_SUPERBLOCK_V2 0 1024 4096 1 1 0 0 compat incompat 0 (replicate 16 7) 1 0 0 0
    JBD2_CRC32C_CHKSUM [0; 0; 0] (replicate 168 0) 0 [].
Definition ex_super (compat incompat : Z) (driver : bool) : jsuper :=
  mk_jsuper true true true (ex_sb compat incompat) 2 4096 1024 driver 0.

(** Version 3 checksums and 64-bit block numbers on a journal with version 1
    checksums; and the refused combination. *)
Lemma set_features_mountable_witness :
  wp (jbd2_vmsep_journal_set_features ex_sum 0 None 1 0 18)
    (fun ok j' => ok = true /\ (exists j2, remount ex_sum j' = Ret (0, j2)) /\
       Sb.s_feature_incompat (j_superblock j') = 19) (ex_super 1 1 false) /\
  wp (jbd2_vmsep_journal_set_features ex_sum 0 None 0 0 16)
    (fun ok j' => exists j2, remount ex_sum j' = Ret (- EINVAL, j2)) (ex_super 0 9 true).
Proof.
  assert (forall c i d, (Z.testbit i 3 || Z.testbit i 4 = true -> d = true) -> mounted (ex_super c i d)) as Hm.
  { intros c i d Hd. split; try (vm_compute; reflexivity); [cbn; lia|]. cbn. autorewrite with features. exact Hd. }
  split.
  - pose proof (set_features_mountable ex_sum 0 None 1 0 18 (ex_super 1 1 false)
      (Hm 1 1 false (fun H => H)) eq_refl) as H.
    assert (exists j', jbd2_vmsep_journal_set_features ex_sum 0 None 1 0 18 (ex_super 1 1 false) = Ret (true, j') /\
      Sb.s_feature_incompat (j_superblock j') = 19) as (j' & E & Ei) by (eexists; split; vm_compute; reflexivity).
    unfold wp in *. rewrite E in *. destruct H as [H _]. done.
  - pose proof (set_features_mountable ex_sum 0 None 0 0 16 (ex_super 0 9 true)
      (Hm 0 9 true (fun _ => eq_refl)) eq_refl) as H.
    unfold wp in *. destruct (jbd2_vmsep_journal_set_features _ _ _ _ _ _ _) as [[ok j']|] eqn:E; [|done].
    destruct H as [H _]. assert (ok = true) as -> by (revert E; vm_compute; congruence). exact H.
Defined.
