(* ===== verification/Access.v ===== *)
(** * Access to buffers through a handle

    Getting write, create and undo access to a metadata buffer, marking it
    dirty, forgetting it and revoking its block:
    [do_get_write_access], [jbd2_vmsep_journal_get_write_access],
    [_get_create_access], [_get_undo_access], [_dirty_metadata] and [_forget]
    of kernel/fs/jbd2/transaction.c, and [jbd2_vmsep_journal_revoke],
    [_cancel_revoke] and [jbd2_vmsep_clear_buffer_revoked_flags] of
    kernel/fs/jbd2/revoke.c.

    A function that sleeps (for the buffer lock, for the end of the shadow
    I/O, or to allocate memory) ends a round; what other threads do meanwhile
    is the next element of a list of environment steps, and a call that is
    still waiting when the list ends returns [None].  [__find_get_block] of
    the buffer cache is a parameter.  The frozen-data triggers are left out:
    the file system registers none. *)
From S2P Require Import Prelude Tid Revoke State Blist JournalHead Filing Log Handle Commit OnDisk RevokeLog Features.

(** The store with the revoke tables and the superblock. *)
Record astate := mk_astate {
  a_k : kstate;
  a_revoke : journal_revoke;
  a_sb : jsuper;
}.
#[export] Instance eta_astate : Eta _ := fun s => mk_astate (a_k s) (a_revoke s) (a_sb s).

Definition on_k {A} (m : K kstate A) : K astate A := fun s =>
  match m (a_k s) with
  | Ret (a, k) => Ret (a, s <| a_k := k |>)
  | Fault e => Fault e
  end.
Definition on_sb {A} (m : K jsuper A) : K astate A := fun s =>
  match m (a_sb s) with
  | Ret (a, sb) => Ret (a, s <| a_sb := sb |>)
  | Fault e => Fault e
  end.
Definition get_revoke : K astate journal_revoke := fun s => Ret (a_revoke s, s).
Definition set_revoke_table (t : jbd2_revoke_table_s) : K astate unit := fun s =>
  Ret (tt, s <| a_revoke := with_current_table (a_revoke s) t |>).

Definition EUCLEAN : Z := 117.

(** How a round of an operation that may sleep ends. *)
Inductive round := Again (frozen_buffer : bool) | Finished (err : Z).

Section Access.
Context (find_block : kstate -> Z -> option bh_id).

Definition __find_get_block (blocknr : Z) : K kstate (option bh_id) := fun s =>
  match find_block s blocknr with
  | Some b => (get_bh b ;;; kret (Some b)) s
  | None => Ret (None, s)
  end.

Definition clear_buffer_revoked (b : bh_id) : K kstate unit :=
  modify_bh b (fun x => x <| buffer_revoked := false |>).

(** ** Cancelling a revoke *)

(** Whether there was a record for the block in the current table; it is
    deleted. *)
Definition cancel_record (blocknr : Z) : K astate bool :=
  r <- get_revoke ;;
  match find_revoke_record (current_table r) blocknr with
  | Some _ => set_revoke_table (delete_revoke_record (current_table r) blocknr) ;;; kret true
  | None => kret false
  end.

(** "Have we just cleared revoke on an unhashed buffer_head?": the hashed
    alias of the block, if it is another buffer, is not revoked either. *)
Definition clear_alias (b : bh_id) (blocknr : Z) : K kstate unit :=
  bh2 <- __find_get_block blocknr ;;
  match bh2 with
  | None => kret tt
  | Some b2 => (if bool_decide (b2 = b) then kret tt else clear_buffer_revoked b2) ;;; __brelse b2
  end.

Definition jbd2_vmsep_journal_cancel_revoke (b : bh_id) : K astate bool :=
  x <- on_k (read_bh b) ;;
  let need_cancel := if buffer_revokevalid x then buffer_revoked x else true in
  on_k (modify_bh b (fun x => x <| buffer_revokevalid := true |> <| buffer_revoked := false |>)) ;;;
  if negb need_cancel then kret false
  else
    did_revoke <- cancel_record (b_blocknr x) ;;
    on_k (clear_alias b (b_blocknr x)) ;;;
    kret did_revoke.

(** ** Write access *)

(** Copying the buffer out for the committing transaction. *)
Definition jbd2_freeze_jh_data (b : bh_id) : K kstate unit :=
  x <- read_bh b ;;
  modify_jh b (fun h => h <| b_frozen_data := Some (b_data x) |>).

(** A dirty buffer is found under its lock: the dirty bit moves to the
    journal's own bit. *)
Definition journal_dirty_buffer (b : bh_id) (t : tr_id) : K kstate unit :=
  x <- read_bh b ;;
  if negb (buffer_dirty x) then kret tt
  else
    h <- read_jh b ;;
    j <- read_journal ;;
    (if bool_decide (is_Some (b_transaction h))
     then
       j_assert (bool_decide (b_transaction h = Some t) ||
                 bool_decide (b_transaction h = j_committing_transaction j)) ;;;
       j_assert (bool_decide (b_next_transaction h = None) || bool_decide (b_next_transaction h = Some t))
     else kret tt) ;;;
    clear_buffer_dirty b ;;;
    set_buffer_jbddirty b.

Definition attach_next (b : bh_id) (t : tr_id) : K kstate round :=
  modify_jh b (fun h => h <| b_next_transaction := Some t |>) ;;;
  kret (Finished 0).

(** The buffer belongs to an older transaction, without a copy. *)
Definition share_with_committing (b : bh_id) (t : tr_id) (force_copy frozen_buffer : bool) : K kstate round :=
  h <- read_jh b ;;
  x <- read_bh b ;;
  j <- read_journal ;;
  j_assert (bool_decide (b_next_transaction h = None)) ;;;
  j_assert (bool_decide (b_transaction h = j_committing_transaction j)) ;;;
  if buffer_shadow x then kret (Again frozen_buffer)
  else if is_metadata (b_jlist h) || force_copy
  then
    if negb frozen_buffer then kret (Again true)
    else jbd2_freeze_jh_data b ;;; attach_next b t
  else attach_next b t.

(** One round of [do_get_write_access] from [repeat]; [frozen_buffer]: the
    memory for a copy has been allocated.  A locked buffer ends the round:
    [lock_buffer] sleeps and looks again. *)
Definition access_round (h : handle_t) (t : tr_id) (b : bh_id) (force_copy frozen_buffer : bool)
  : K kstate round :=
  x <- read_bh b ;;
  if buffer_locked x then kret (Again frozen_buffer)
  else
    journal_dirty_buffer b t ;;;
    aborted <- is_handle_aborted h ;;
    if aborted : bool then kret (Finished (- EROFS))
    else
      jh <- read_jh b ;;
      if bool_decide (b_transaction jh = Some t) || bool_decide (b_next_transaction jh = Some t)
      then kret (Finished 0)
      else
        modify_jh b (fun h => h <| b_modified := false |>) ;;;
        if bool_decide (b_transaction jh = None)
        then
          j_assert (bool_decide (b_next_transaction jh = None)) ;;;
          __jbd2_vmsep_journal_file_buffer b t BJ_Reserved ;;;
          kret (Finished 0)
        else if bool_decide (is_Some (b_frozen_data jh))
        then
          j_assert (bool_decide (b_next_transaction jh = None)) ;;;
          attach_next b t
        else share_with_committing b t force_copy frozen_buffer.

Fixpoint access_loop (envs : list (K astate unit)) (h : handle_t) (t : tr_id) (b : bh_id)
    (force_copy frozen_buffer : bool) : K astate (option Z) :=
  r <- on_k (access_round h t b force_copy frozen_buffer) ;;
  match r with
  | Finished err =>
    (if err =? 0 then jbd2_vmsep_journal_cancel_revoke b ;;; kret tt else kret tt) ;;;
    kret (Some err)
  | Again frozen_buffer =>
    match envs with
    | [] => kret None
    | env :: envs => env ;;; access_loop envs h t b force_copy frozen_buffer
    end
  end.

Definition do_get_write_access (envs : list (K astate unit)) (h : handle_t) (b : bh_id) (force_copy : bool)
  : K astate (option Z) :=
  aborted <- on_k (is_handle_aborted h) ;;
  if aborted : bool then kret (Some (- EROFS))
  else match h_transaction h with
  | None => kfault Oops
  | Some t => access_loop envs h t b force_copy false
  end.

Definition jbd2_write_access_granted (h : handle_t) (b : bh_id) (undo : bool) : K kstate bool :=
  x <- read_bh b ;;
  if buffer_dirty x then kret false
  else if negb (buffer_jbd x) then kret false
  else match b_private x with
  | None => kret false
  | Some jh =>
    if undo && bool_decide (b_committed_data jh = None) then kret false
    else kret (bool_decide (b_transaction jh = h_transaction h) ||
               bool_decide (b_next_transaction jh = h_transaction h))
  end.

Definition jbd2_vmsep_journal_get_write_access (envs : list (K astate unit)) (h : handle_t) (b : bh_id)
  : K astate (option Z) :=
  granted <- on_k (jbd2_write_access_granted h b false) ;;
  if granted : bool then kret (Some 0)
  else
    on_k (jbd2_vmsep_journal_add_journal_head b) ;;;
    rc <- do_get_write_access envs h b false ;;
    match rc with
    | None => kret None
    | Some rc => on_k (jbd2_vmsep_journal_put_journal_head b) ;;; kret (Some rc)
    end.

(** ** Create and undo access *)

Definition create_access (t : tr_id) (b : bh_id) : K kstate unit :=
  jh <- read_jh b ;;
  j <- read_journal ;;
  x <- read_bh b ;;
  j_assert (bool_decide (b_transaction jh = Some t) || bool_decide (b_transaction jh = None) ||
            (bool_decide (b_transaction jh = j_committing_transaction j) && bool_decide (b_jlist jh = BJ_Forget))) ;;;
  j_assert (bool_decide (b_next_transaction jh = None)) ;;;
  j_assert (buffer_locked x) ;;;
  if bool_decide (b_transaction jh = None)
  then
    clear_buffer_dirty b ;;;
    modify_jh b (fun h => h <| b_modified := false |>) ;;;
    __jbd2_vmsep_journal_file_buffer b t BJ_Reserved
  else if bool_decide (b_transaction jh = j_committing_transaction j)
  then modify_jh b (fun h => h <| b_modified := false |> <| b_next_transaction := Some t |>)
  else kret tt.

Definition jbd2_vmsep_journal_get_create_access (h : handle_t) (b : bh_id) : K astate Z :=
  on_k (jbd2_vmsep_journal_add_journal_head b) ;;;
  aborted <- on_k (is_handle_aborted h) ;;
  err <- (if aborted : bool then kret (- EROFS)
          else match h_transaction h with
          | None => kfault Oops
          | Some t =>
            on_k (create_access t b) ;;;
            jbd2_vmsep_journal_cancel_revoke b ;;;
            kret 0
          end) ;;
  on_k (jbd2_vmsep_journal_put_journal_head b) ;;;
  kret err.

(** The copy of the committed contents, made once. *)
Definition keep_committed_data (b : bh_id) : K kstate unit :=
  x <- read_bh b ;;
  jh <- read_jh b ;;
  if bool_decide (b_committed_data jh = None)
  then modify_jh b (fun h => h <| b_committed_data := Some (b_data x) |>)
  else kret tt.

Definition jbd2_vmsep_journal_get_undo_access (envs : list (K astate unit)) (h : handle_t) (b : bh_id)
  : K astate (option Z) :=
  granted <- on_k (jbd2_write_access_granted h b true) ;;
  if granted : bool then kret (Some 0)
  else
    on_k (jbd2_vmsep_journal_add_journal_head b) ;;;
    rc <- do_get_write_access envs h b true ;;
    match rc with
    | None => kret None
    | Some rc =>
      (if rc =? 0 then on_k (keep_committed_data b) else kret tt) ;;;
      on_k (jbd2_vmsep_journal_put_journal_head b) ;;;
      kret (Some rc)
    end.

(** ** Marking a buffer dirty *)

(** The slow path, under the buffer's state lock. *)
Definition dirty_slow (h : handle_t) (t : tr_id) (b : bh_id) (ino_ : Z) : K kstate (Z * handle_t) :=
  jh <- read_jh b ;;
  j <- read_journal ;;
  if bool_decide (b_transaction jh = Some t) && bool_decide (b_jlist jh = BJ_Metadata)
  then kret (if bool_decide (b_transaction jh = j_running_transaction j) then 0 else - EINVAL, h)
  else
    set_buffer_jbddirty b ;;;
    modify_jh b (fun h => h <| ino := ino_ |>) ;;;
    if negb (bool_decide (b_transaction jh = Some t))
    then kret (if bool_decide (b_transaction jh = j_committing_transaction j) &&
                  bool_decide (b_next_transaction jh = Some t) then 0 else - EINVAL, h)
    else
      j_assert (bool_decide (b_frozen_data jh = None)) ;;;
      __jbd2_vmsep_journal_file_buffer b t BJ_Metadata ;;;
      kret (0, h).

(** The error, and the handle with the credit taken from it. *)
Definition jbd2_vmsep_journal_dirty_metadata (h : handle_t) (b : bh_id) (ino_ : Z) : K kstate (Z * handle_t) :=
  aborted <- is_handle_aborted h ;;
  if aborted : bool then kret (- EROFS, h)
  else match h_transaction h with
  | None => kfault Oops
  | Some t =>
    x <- read_bh b ;;
    if negb (buffer_jbd x) then kret (- EUCLEAN, h)
    else
      jh <- read_jh b ;;
      j_assert (bool_decide (b_transaction jh = Some t) || bool_decide (b_next_transaction jh = Some t)) ;;;
      if b_modified jh
      then
        j_assert (negb (bool_decide (b_transaction jh = Some t)) || bool_decide (b_jlist jh = BJ_Metadata)) ;;;
        kret (0, h)
      else
        modify_jh b (fun h => h <| b_modified := true |>) ;;;
        if h_buffer_credits h <=? 0 then kret (- ENOSPC, h)
        else dirty_slow (h <| h_buffer_credits := h_buffer_credits h - 1 |>) t b ino_
  end.

(** ** Forgetting and revoking *)

(** [__bforget]: the buffer is clean and loses the caller's reference. *)
Definition __bforget (b : bh_id) : K kstate unit :=
  clear_buffer_dirty b ;;; __brelse b.

(** The buffer belongs to the handle's transaction. *)
Definition forget_own (t : tr_id) (b : bh_id) : K kstate unit :=
  jh <- read_jh b ;;
  j_assert (bool_decide (b_frozen_data jh = None)) ;;;
  clear_buffer_dirty b ;;;
  clear_buffer_jbddirty b ;;;
  if bool_decide (is_Some (b_cp_transaction jh))
  then
    __jbd2_journal_temp_unlink_buffer b ;;;
    __jbd2_vmsep_journal_file_buffer b t BJ_Forget ;;;
    __brelse b
  else
    __jbd2_journal_unfile_buffer b ;;;
    x <- read_bh b ;;
    if buffer_jbd x then __brelse b else __bforget b.

(** The buffer belongs to the committing transaction: true when it leaves
    the running one. *)
Definition forget_committing (t : tr_id) (b : bh_id) : K kstate bool :=
  jh <- read_jh b ;;
  j <- read_journal ;;
  j_assert (bool_decide (b_transaction jh = j_committing_transaction j)) ;;;
  match b_next_transaction jh with
  | None => kret false
  | Some nt =>
    j_assert (bool_decide (nt = t)) ;;;
    modify_jh b (fun h => h <| b_next_transaction := None |>) ;;;
    kret true
  end.

Definition jbd2_vmsep_journal_forget (h : handle_t) (b : bh_id) : K kstate (Z * handle_t) :=
  aborted <- is_handle_aborted h ;;
  if aborted : bool then kret (- EROFS, h)
  else match h_transaction h with
  | None => kfault Oops
  | Some t =>
    x <- read_bh b ;;
    if negb (buffer_jbd x) then __brelse b ;;; kret (0, h)
    else
      jh <- read_jh b ;;
      if bool_decide (is_Some (b_committed_data jh)) then __brelse b ;;; kret (- EIO, h)
      else
        modify_jh b (fun h => h <| b_modified := false |>) ;;;
        left <- (if bool_decide (b_transaction jh = Some t) then forget_own t b ;;; kret true
                 else
                   l <- (if bool_decide (is_Some (b_transaction jh)) then forget_committing t b else kret false) ;;
                   __brelse b ;;; kret l) ;;
        kret (0, if left && b_modified jh then h <| h_buffer_credits := h_buffer_credits h + 1 |> else h)
  end.

Context (jbd2_chksum : Z -> list Z -> Z) (alloc_shash : Z) (from_disk : option journal_superblock_t).

(** The record that keeps the block from being replayed goes into the table
    of the running transaction. *)
Definition insert_revoke (h : handle_t) (blocknr : Z) : K astate unit :=
  match h_transaction h with
  | None => kfault Oops
  | Some t =>
    tr <- on_k (read_tr t) ;;
    r <- get_revoke ;;
    set_revoke_table (insert_revoke_hash (current_table r) blocknr (t_tid tr))
  end.

(** [bh_in]: the buffer the caller has, if any; it loses a reference to it. *)
Definition jbd2_vmsep_journal_revoke (h : handle_t) (blocknr : Z) (bh_in : option bh_id) : K astate (Z * handle_t) :=
  match h_transaction h with
  | None => kfault Oops
  | Some _ =>
    ok <- on_sb (jbd2_vmsep_journal_set_features jbd2_chksum alloc_shash from_disk 0 0 JBD2_FEATURE_INCOMPAT_REVOKE) ;;
    j_assert ok ;;;
    bh <- (match bh_in with Some b => kret (Some b) | None => on_k (__find_get_block blocknr) end) ;;
    match bh with
    | None => insert_revoke h blocknr ;;; kret (0, h)
    | Some b =>
      x <- on_k (read_bh b) ;;
      if buffer_revoked x
      then (match bh_in with None => on_k (__brelse b) | Some _ => kret tt end) ;;; kret (- EIO, h)
      else
        on_k (modify_bh b (fun x => x <| buffer_revoked := true |> <| buffer_revokevalid := true |>)) ;;;
        h' <- (match bh_in with
               | Some b => r <- on_k (jbd2_vmsep_journal_forget h b) ;; kret r.2
               | None => on_k (__brelse b) ;;; kret h
               end) ;;
        insert_revoke h' blocknr ;;;
        kret (0, h')
    end
  end.

(** When a commit starts: no buffer is revoked in the next transaction, and
    the tables are switched. *)
Fixpoint clear_revoked_flags (records : list jbd2_revoke_record_s) : K kstate unit :=
  match records with
  | [] => kret tt
  | r :: records =>
    bh <- __find_get_block (blocknr r) ;;
    match bh with
    | Some b => clear_buffer_revoked b ;;; __brelse b
    | None => kret tt
    end ;;;
    clear_revoked_flags records
  end.

Definition jbd2_vmsep_clear_buffer_revoked_flags : K astate unit :=
  r <- get_revoke ;;
  on_k (clear_revoked_flags (table_records (current_table r))).
End Access.

(** ** What filing leaves alone *)

(** The contents of a buffer and the state bits the lists have nothing to do
    with, and the ids of the transactions. *)
Definition core (x : buffer_head) : list Z * Z * (bool * bool) * (bool * bool) :=
  (b_data x, b_blocknr x, (buffer_shadow x, buffer_locked x), (buffer_revoked x, buffer_revokevalid x)).
Definition same_core (s s' : kstate) : Prop :=
  core <$> k_bufs s' = core <$> k_bufs s /\ t_tid <$> k_trans s' = t_tid <$> k_trans s.

#[export] Instance same_core_preorder : PreOrder same_core.
Proof. split; [done|]. unfold same_core. intros ? ? ? [] []. split; congruence. Qed.

Lemma same_core_lookup s s' b x x' :
  same_core s s' -> k_bufs s !! b = Some x -> k_bufs s' !! b = Some x' -> core x' = core x.
Proof.
  intros [Hc _] Hb Hb'. apply (f_equal (lookup b)) in Hc. rewrite !lookup_fmap, Hb, Hb' in Hc. cbn in Hc. congruence.
Qed.

Lemma same_core_set s b x x' :
  k_bufs s !! b = Some x -> core x' = core x -> same_core s (s <| k_bufs ::= <[b := x']> |>).
Proof.
  intros Hb Hx. split; [|done]. cbn. rewrite fmap_insert, Hx. apply insert_id. by rewrite lookup_fmap, Hb.
Qed.

Lemma same_core_tid s s' t tr :
  same_core s s' -> k_trans s !! t = Some tr -> exists tr', k_trans s' !! t = Some tr' /\ t_tid tr' = t_tid tr.
Proof.
  intros [_ Hc] Ht. apply (f_equal (lookup t)) in Hc. rewrite !lookup_fmap, Ht in Hc. cbn in Hc.
  by apply fmap_Some in Hc as (tr' & ? & ->); eauto.
Qed.

Lemma keeps_modify_bh_core b f : (forall x, core (f x) = core x) -> keeps same_core (modify_bh b f).
Proof.
  intros Hf s a s'. unfold modify_bh. case_match eqn:E; [|done]. intros [= _ <-]. by eapply same_core_set.
Qed.

Lemma keeps_modify_jh_core b f : keeps same_core (modify_jh b f).
Proof.
  intros s a s'. unfold modify_jh. case_match eqn:E; [|done]. case_match; [|done]. intros [= _ <-].
  by eapply same_core_set.
Qed.

Lemma keeps_modify_tr_core t f : (forall tr, t_tid (f tr) = t_tid tr) -> keeps same_core (modify_tr t f).
Proof.
  intros Hf s a s'. unfold modify_tr. case_match eqn:E; [|done]. intros [= _ <-]. split; [done|]. cbn.
  rewrite fmap_insert, Hf. apply insert_id. by rewrite lookup_fmap, E.
Qed.

(** [update_list] of a list named by a variable. *)
Ltac destruct_jlist := match goal with jl : jlist |- _ => destruct jl; done end.

Ltac core_step :=
  lazymatch goal with
  | |- keeps _ (kbind _ _) => apply keeps_bind; [typeclasses eauto| |intros ?]
  | |- keeps _ (read_bh _) => apply keeps_read_bh; typeclasses eauto
  | |- keeps _ (read_jh _) => apply keeps_read_jh; typeclasses eauto
  | |- keeps _ (read_tr _) => apply keeps_read_tr; typeclasses eauto
  | |- keeps _ read_journal => apply keeps_read_journal; typeclasses eauto
  | |- keeps _ (modify_bh _ _) => apply keeps_modify_bh_core; intros ?; repeat case_match; done
  | |- keeps _ (modify_jh _ _) => apply keeps_modify_jh_core
  | |- keeps _ (modify_tr _ _) => apply keeps_modify_tr_core; intros ?; first [done|by destruct_jlist]
  | |- keeps _ (kret _) => apply keeps_ret; typeclasses eauto
  | |- keeps _ (kfault _) => apply keeps_fault
  | |- keeps _ (j_assert _) => apply keeps_assert; typeclasses eauto
  | |- keeps _ (if ?c then _ else _) => destruct c
  | |- keeps _ (match ?c with _ => _ end) => destruct c
  end.
Ltac core_tac := repeat (core_step || eauto with vmsep).

Lemma core_temp_unlink b : keeps same_core (__jbd2_journal_temp_unlink_buffer b).
Proof.
  unfold __jbd2_journal_temp_unlink_buffer, unlink_list, expose_dirty, is_journal_aborted,
    test_clear_buffer_jbddirty, clear_buffer_jbddirty, mark_buffer_dirty. core_tac.
Qed.
#[export] Hint Resolve core_temp_unlink : vmsep.

Lemma core_file b t jl : keeps same_core (__jbd2_vmsep_journal_file_buffer b t jl).
Proof.
  unfold __jbd2_vmsep_journal_file_buffer, test_clear_any_dirty, test_clear_buffer_dirty,
    test_clear_buffer_jbddirty, clear_buffer_dirty, clear_buffer_jbddirty, join_transaction,
    jbd2_vmsep_journal_grab_journal_head, link_list, set_buffer_jbddirty. core_tac.
Qed.

Lemma core_unfile b : keeps same_core (__jbd2_journal_unfile_buffer b).
Proof.
  unfold __jbd2_journal_unfile_buffer, jbd2_vmsep_journal_put_journal_head, __journal_remove_journal_head, __brelse.
  core_tac.
Qed.

Lemma core_put b : keeps same_core (jbd2_vmsep_journal_put_journal_head b).
Proof. unfold jbd2_vmsep_journal_put_journal_head, __journal_remove_journal_head, __brelse. core_tac. Qed.

(** ** The invariant of write access

    While a handle of transaction [t] is open, a buffer belongs to [t], to the
    committing transaction, or to none; when both have it, the committing one
    writes either a frozen copy or nothing any more. *)

Record two_ok (t : tr_id) (j : journal_t) (x : buffer_head) (h : journal_head) : Prop := {
  two_shadow : buffer_shadow x = true -> b_jlist h = BJ_Shadow /\ b_transaction h = j_committing_transaction j;
  two_copy : is_Some (b_next_transaction h) -> b_jlist h = BJ_Metadata \/ buffer_shadow x = true ->
    is_Some (b_frozen_data h);
  two_tr u : b_transaction h = Some u -> u = t \/ j_committing_transaction j = Some u;
  two_next u : b_next_transaction h = Some u -> u = t /\ b_transaction h = j_committing_transaction j;
  two_frozen : is_Some (b_frozen_data h) -> b_transaction h = j_committing_transaction j /\ is_Some (b_transaction h);
}.

Record access_ok (ext : bh_id -> Z) (t : tr_id) (s : kstate) : Prop := {
  ao_wf : wf ext s;
  ao_ext y : 0 <= ext y;
  ao_tr : is_Some (k_trans s !! t);
  ao_run : j_running_transaction (k_journal s) = Some t;
  ao_com : j_committing_transaction (k_journal s) <> Some t;
  ao_two y x h : has_jh s y x h -> two_ok t (k_journal s) x h;
  ao_bare y x : k_bufs s !! y = Some x -> b_private x = None -> buffer_shadow x = false /\ ext y = 0;
}.

(** A caller's reference keeps the journal head of [b] attached. *)
Definition pinned (ext : bh_id -> Z) (t : tr_id) (b : bh_id) (s : kstate) : Prop :=
  access_ok ext t s /\ 1 <= ext b /\ exists x h, has_jh s b x h.

(** [b] belongs to [t], now or once the current commit is done. *)
Definition owned (t : tr_id) (b : bh_id) (s : kstate) : Prop :=
  exists x h, has_jh s b x h /\ (b_transaction h = Some t \/ b_next_transaction h = Some t).

Lemma has_jh_ne s b y x' x h :
  y <> b -> has_jh (s <| k_bufs ::= <[b := x']> |>) y x h -> has_jh s y x h.
Proof. intros Hne [H1 H2]. cbn in H1. rewrite lookup_insert_ne in H1 by done. by split. Qed.

(** Changing fields of one journal head that the lists do not depend on. *)
Lemma access_update ext t b s x h x' h' :
  access_ok ext t s -> has_jh s b x h -> b_private x' = Some h' -> buffer_jbd x' = buffer_jbd x ->
  b_jcount h' = b_jcount h -> b_jlist h' = b_jlist h -> b_transaction h' = b_transaction h ->
  b_cp_transaction h' = b_cp_transaction h ->
  (b_next_transaction h' = b_next_transaction h \/ b_next_transaction h' = None \/
   b_next_transaction h' = Some t /\ is_Some (b_transaction h)) ->
  two_ok t (k_journal s) x' h' ->
  access_ok ext t (s <| k_bufs ::= <[b := x']> |>).
Proof.
  intros [Hwf Hext Htr Hrun Hcom Htwo Hbare] Hx Hp Hj Hc Hl Ht Hcp Hn Htwo'. pose proof Hx as [Hb Hh].
  split; try done.
  - apply (wf_set_bh ext); [done|done|]. destruct (wf_jh _ _ _ _ _ Hwf Hb Hh) as [Hjbd Hok].
    split; [rewrite Hj, Hjbd, Hp, bool_decide_true; eauto|]. rewrite Hp. destruct Hok as [H1 H2 H3 H4 H5 H6].
    split; rewrite ?Hl, ?Ht, ?Hc, ?Hcp; auto.
    + intros u [Hu|Hu]; [by apply H3; left|]. destruct Hn as [Hn|[Hn|[Hn _]]]; rewrite Hn in Hu; [|done|congruence].
      by apply H3; right.
    + intros Hs. destruct Hn as [Hn|[Hn|[Hn ?]]]; [|rewrite Hn in Hs; by destruct Hs|done]. rewrite Hn in Hs. auto.
  - intros y x1 h1 Hy. destruct (decide (y = b)) as [->|Hne]; [|apply has_jh_ne in Hy; eauto].
    destruct Hy as [Hy1 Hy2]. cbn in Hy1. rewrite lookup_insert_eq in Hy1. simplify_eq. done.
  - intros y x1 Hy. cbn in Hy. rewrite lookup_insert in Hy. case_decide; [simplify_eq; congruence|]. eauto.
Qed.

(** A buffer of [t] or of no transaction: not shared, not frozen, not on its
    way to the log. *)
Lemma two_unshared ext t s b x h :
  access_ok ext t s -> has_jh s b x h -> b_transaction h = Some t \/ b_transaction h = None ->
  b_next_transaction h = None /\ b_frozen_data h = None /\ buffer_shadow x = false.
Proof.
  intros Hok Hx Ht. pose proof (ao_two _ _ _ Hok _ _ _ Hx) as [Hs Hc Htr Hn Hf]. pose proof (ao_com _ _ _ Hok) as Hcom.
  destruct Hx as [Hb Hh]. destruct (wf_jh _ _ _ _ _ (ao_wf _ _ _ Hok) Hb Hh) as [_ Hjh]. split_and!.
  - destruct (b_next_transaction h) as [u|] eqn:E; [|done]. exfalso. destruct (Hn u eq_refl) as [_ Hu].
    destruct (jh_next _ _ _ _ Hjh) as [v Hv]; [eauto|]. destruct Ht; congruence.
  - destruct (b_frozen_data h); [|done]. exfalso. destruct Hf as [Hu [v Hv]]; [eauto|]. destruct Ht; congruence.
  - destruct (buffer_shadow x); [|done]. exfalso. destruct Hs as [Hl Hu]; [done|].
    destruct (jh_listed _ _ _ _ Hjh) as [v Hv]; [congruence|]. destruct Ht; congruence.
Qed.

Lemma access_file ext t b s x h jl :
  access_ok ext t s -> has_jh s b x h -> jl <> BJ_None ->
  (b_transaction h = Some t \/ b_transaction h = None) -> ~ (b_transaction h = Some t /\ b_jlist h = jl) ->
  wp (__jbd2_vmsep_journal_file_buffer b t jl)
    (fun _ s' => access_ok ext t s' /\ same_core s s' /\ k_journal s' = k_journal s /\
       exists x', has_jh s' b x' (jh_join h t) <| b_jlist := jl |> /\ k_bufs s' = <[b := x']> (k_bufs s) /\
         buffer_jbddirty x' = buffer_dirty x || buffer_jbddirty x) s.
Proof.
  intros Hok Hx Hjl Ht Hnew. pose proof Hok as [Hwf Hext Htr Hrun Hcom Htwo Hbare].
  destruct (two_unshared _ _ _ _ _ _ Hok Hx Ht) as (Hn & Hf & Hs).
  eapply wp_mono; [apply (wp_keeps same_core); [apply core_file|by eapply file_buffer_spec]|].
  intros _ s' [(Hwf' & Hj & (x' & Hx' & Hbufs & Hjd & _) & Htrs) Hcore]. cbn beta.
  split_and!; [|done|done|by exists x'].
  assert (buffer_shadow x' = false) as Hs'.
  { destruct Hx as [Hb _], Hx' as [Hb' _]. pose proof (same_core_lookup _ _ _ _ _ Hcore Hb Hb') as Hc.
    unfold core in Hc. congruence. }
  split; rewrite ?Hj; try done.
  - rewrite Htrs. destruct (decide (t = t)) as [_|]; [|done]. destruct Htr as [tr Htr].
    rewrite lookup_alter_eq, Htr. eauto.
  - intros y x1 h1 Hy. destruct (decide (y = b)) as [->|Hne].
    + destruct Hy as [Hy1 Hy2], Hx' as [Hx1 Hx2]. simplify_eq. split; cbn; rewrite ?Hs', ?Hn, ?Hf.
      * done.
      * by intros [].
      * intros u [= <-]. by left.
      * done.
      * by intros [].
    + destruct Hy as [Hy1 Hy2]. rewrite Hbufs, lookup_insert_ne in Hy1 by done. by apply (Htwo y).
  - intros y x1 Hy. rewrite Hbufs, lookup_insert in Hy. case_decide; [|eauto]. destruct Hx' as [_ Hx']. simplify_eq. congruence.
Qed.

(** Same journal head, and a buffer that differs in its dirty bits only. *)
Lemma journal_dirty_spec ext t b s x h :
  access_ok ext t s -> has_jh s b x h ->
  wp (journal_dirty_buffer b t)
    (fun _ s' => access_ok ext t s' /\ same_core s s' /\ k_journal s' = k_journal s /\ k_trans s' = k_trans s /\
       exists x', has_jh s' b x' h /\ buffer_dirty x' = false /\
         k_bufs s' = <[b := x']> (k_bufs s) /\
         buffer_jbddirty x' = buffer_dirty x || buffer_jbddirty x) s.
Proof.
  intros Hok Hx. pose proof Hx as [Hb Hh]. pose proof (ao_two _ _ _ Hok _ _ _ Hx) as Htwo.
  unfold journal_dirty_buffer. wp_step. eapply wp_read_bh; [exact Hb|].
  destruct (buffer_dirty x) eqn:Hd; cbn [negb orb].
  - wp_step. eapply wp_read_jh; [exact Hb|exact Hh|]. wp_step. wp_step. wp_step.
    assert (wp (if bool_decide (is_Some (b_transaction h)) then
       j_assert (bool_decide (b_transaction h = Some t) ||
                 bool_decide (b_transaction h = j_committing_transaction (k_journal s))) ;;;
       j_assert (bool_decide (b_next_transaction h = None) || bool_decide (b_next_transaction h = Some t))
       else kret tt) (fun _ s' => s' = s) s) as Hasserts.
    { destruct (b_transaction h) as [u|] eqn:Eu; [|by rewrite bool_decide_false by (by intros [])].
      rewrite bool_decide_true by eauto. wp_step. apply wp_assert.
      - apply orb_true_iff. rewrite !bool_decide_eq_true. destruct (two_tr _ _ _ _ Htwo u Eu) as [->|Hu]; [by left|by right].
      - apply wp_assert; [|done]. apply orb_true_iff. rewrite !bool_decide_eq_true.
        destruct (b_next_transaction h) as [v|] eqn:Ev; [|by left]. destruct (two_next _ _ _ _ Htwo v Ev) as [-> _]. by right. }
    eapply wp_mono; [exact Hasserts|]. intros _ ? ->. unfold clear_buffer_dirty, set_buffer_jbddirty.
    repeat wp_step. cbn. rewrite insert_insert_eq.
    set (x' := mk_buffer_head _ _ _ _ _ _ _ _ _ _ _ _ _ _ _ _ _ _ _ _ _ _).
    split_and!; [|by apply (same_core_set _ _ x)|done|done|exists x'; split_and!; try done; by apply has_jh_upd].
    eapply (access_update ext t b s x h x' h); try done; [by left|]. destruct Htwo. by split.
  - wp_step. split_and!; [done|done|done|done|]. exists x. split_and!; try done. by rewrite insert_id.
Qed.

Lemma handle_aborted_exec h t s :
  h_transaction h = Some t ->
  is_handle_aborted h s = Ret (h_aborted h || JBD2_ABORT (k_journal s), s).
Proof.
  intros Ht. unfold is_handle_aborted. rewrite Ht, (bool_decide_false (Some t = None)) by done.
  rewrite orb_false_r. by destruct (h_aborted h).
Qed.

(** The copy of [b]: as before, or made of what the buffer holds. *)
Definition frozen_from (jh : journal_head) (b : bh_id) (s : kstate) : Prop :=
  forall x h, has_jh s b x h -> b_frozen_data h = b_frozen_data jh \/ b_frozen_data h = Some (b_data x).

Lemma frozen_same jh b s x h : has_jh s b x h -> b_frozen_data h = b_frozen_data jh -> frozen_from jh b s.
Proof. intros [H1 H2] Hf x' h' [H3 H4]. simplify_eq. by left. Qed.

Definition frozen_kept (jh : journal_head) (b : bh_id) (s : kstate) : Prop :=
  exists x h, has_jh s b x h /\ b_frozen_data h = b_frozen_data jh.

(** Sharing a buffer of the committing transaction. *)
Lemma attach_next_spec ext t b s x h :
  access_ok ext t s -> has_jh s b x h -> is_Some (b_transaction h) ->
  b_transaction h = j_committing_transaction (k_journal s) ->
  (b_jlist h = BJ_Metadata \/ buffer_shadow x = true -> is_Some (b_frozen_data h)) ->
  wp (attach_next b t)
    (fun r s' => r = Finished 0 /\ access_ok ext t s' /\ same_core s s' /\ k_journal s' = k_journal s /\
       owned t b s' /\ exists x', has_jh s' b x' (h <| b_next_transaction := Some t |>) /\ b_data x' = b_data x) s.
Proof.
  intros Hok Hx Ht Hc Hf. pose proof Hx as [Hb Hh]. pose proof (ao_two _ _ _ Hok _ _ _ Hx) as Htwo.
  unfold attach_next. wp_step. eapply wp_modify_jh; [exact Hb|exact Hh|]. wp_step.
  set (x' := x <| b_private := _ |>). split_and!; [done| |by apply (same_core_set _ _ x)|done| |].
  - eapply (access_update ext t b s x h x'); try done; [by right; right|].
    destruct Htwo as [H1 H2 H3 H4 H5]. split; cbn; auto. by intros u [= <-].
  - eexists x', _. split; [by apply has_jh_upd|]. by right.
  - exists x'. split; [by apply has_jh_upd|done].
Qed.

(** Why a round ends without a result: the buffer is locked or on its way to
    the log, or the memory for the copy had to be allocated first. *)
Definition must_wait (x : buffer_head) (frozen_buffer frozen_buffer' : bool) : Prop :=
  (buffer_locked x = true \/ buffer_shadow x = true) /\ frozen_buffer' = frozen_buffer \/
  frozen_buffer = false /\ frozen_buffer' = true.

Lemma share_spec ext t b s x h force_copy frozen_buffer :
  access_ok ext t s -> has_jh s b x h -> is_Some (b_transaction h) ->
  b_transaction h <> Some t -> b_next_transaction h <> Some t ->
  wp (share_with_committing b t force_copy frozen_buffer)
    (fun r s' => access_ok ext t s' /\ same_core s s' /\ k_journal s' = k_journal s /\
       match r with
       | Finished err => err = 0 /\ owned t b s' /\ frozen_from h b s'
       | Again fb' => must_wait x frozen_buffer fb' /\ frozen_kept h b s'
       end) s.
Proof.
  intros Hok Hx Ht Hnt Hnn. pose proof Hx as [Hb Hh]. pose proof (ao_two _ _ _ Hok _ _ _ Hx) as Htwo.
  assert (b_transaction h = j_committing_transaction (k_journal s)) as Hc.
  { destruct Ht as [u Hu]. destruct (two_tr _ _ _ _ Htwo u Hu); congruence. }
  assert (b_next_transaction h = None) as Hn.
  { destruct (b_next_transaction h) as [v|] eqn:Ev; [|done]. destruct (two_next _ _ _ _ Htwo v Ev) as [-> _]. done. }
  unfold share_with_committing. wp_step. eapply wp_read_jh; [exact Hb|exact Hh|].
  wp_step. eapply wp_read_bh; [exact Hb|]. wp_step. wp_step.
  wp_step. apply wp_assert; [by apply bool_decide_eq_true|]. wp_step. apply wp_assert; [by apply bool_decide_eq_true|].
  destruct (buffer_shadow x) eqn:Esh.
  { wp_step. split_and!; try done; [left; split; [by right|done]|by exists x, h]. }
  destruct (is_metadata (b_jlist h) || force_copy) eqn:Em.
  - destruct frozen_buffer; cbn [negb].
    + unfold jbd2_freeze_jh_data. wp_step. wp_step. eapply wp_read_bh; [exact Hb|].
      eapply wp_modify_jh; [exact Hb|exact Hh|].
      set (x1 := x <| b_private := _ |>). set (h1 := h <| b_frozen_data := Some (b_data x) |>).
      assert (same_core s (s <| k_bufs ::= <[b := x1]> |>)) as Hcore by (by apply (same_core_set _ _ x)).
      assert (access_ok ext t (s <| k_bufs ::= <[b := x1]> |>)) as Hok1.
      { eapply (access_update ext t b s x h x1 h1); try done; [by left|].
        destruct Htwo as [H1 H2 H3 H4 H5]. split; cbn; eauto. }
      eapply wp_mono; [apply (attach_next_spec ext t b _ x1 h1); [done|by apply has_jh_upd|done|done|eauto]|].
      intros r s' (-> & ? & Hcore' & ? & ? & x3 & Hx3 & Hd3). split_and!; try done; [by etransitivity|].
      intros x4 h4 [Hx4a Hx4b]. destruct Hx3 as [Hx3a Hx3b]. simplify_eq. cbn. right. by rewrite Hd3.
    + wp_step. split_and!; try done; [by right|by exists x, h].
  - eapply wp_mono; [apply (attach_next_spec ext t b s x h); try done|].
    + apply orb_false_iff in Em as [Em _]. intros [Hl|Hl]; [by rewrite Hl in Em|congruence].
    + intros r s' (-> & ? & ? & ? & ? & x3 & Hx3 & _). split_and!; try done. by eapply frozen_same.
Qed.

(** One round keeps the invariant and either ends with the buffer owned by
    the handle's transaction, or with [-EROFS] when the journal or the handle
    is aborted, or has to wait. *)
Lemma access_round_spec ext h t b s x jh force_copy frozen_buffer :
  access_ok ext t s -> has_jh s b x jh -> h_transaction h = Some t ->
  wp (access_round h t b force_copy frozen_buffer)
    (fun r s' => access_ok ext t s' /\ same_core s s' /\ k_journal s' = k_journal s /\
       match r with
       | Finished err => err = 0 /\ owned t b s' /\ frozen_from jh b s' \/
                         err = - EROFS /\ h_aborted h || JBD2_ABORT (k_journal s) = true /\ frozen_kept jh b s'
       | Again fb' => must_wait x frozen_buffer fb' /\ frozen_kept jh b s'
       end) s.
Proof.
  intros Hok Hx Ht. pose proof Hx as [Hb Hh]. unfold access_round. wp_step. eapply wp_read_bh; [exact Hb|].
  destruct (buffer_locked x) eqn:El.
  { wp_step. split_and!; try done; [left; split; [by left|done]|by exists x, jh]. }
  wp_step. eapply wp_mono; [by eapply journal_dirty_spec|].
  intros _ s1 (Hok1 & Hc1 & Hj1 & Htr1 & x1 & Hx1 & _ & _ & _). pose proof Hx1 as [Hb1 Hh1].
  eapply wp_exec; [by eapply handle_aborted_exec|]. rewrite Hj1.
  destruct (h_aborted h || JBD2_ABORT (k_journal s)) eqn:Eab.
  { wp_step. split_and!; try done. right. split_and!; [done..|]. by exists x1, jh. }
  wp_step. eapply wp_read_jh; [exact Hb1|exact Hh1|].
  destruct (bool_decide (b_transaction jh = Some t) || bool_decide (b_next_transaction jh = Some t)) eqn:Eown.
  { wp_step. split_and!; try done. left. split_and!; [done| |by eapply frozen_same]. exists x1, jh. split; [done|].
    by apply orb_true_iff in Eown; rewrite !bool_decide_eq_true in Eown. }
  apply orb_false_iff in Eown as [Hnt%bool_decide_eq_false Hnn%bool_decide_eq_false].
  wp_step. eapply wp_modify_jh; [exact Hb1|exact Hh1|].
  set (x2 := x1 <| b_private := _ |>). set (h2 := jh <| b_modified := false |>).
  assert (same_core s1 (s1 <| k_bufs ::= <[b := x2]> |>)) as Hc2 by (by apply (same_core_set _ _ x1)).
  assert (access_ok ext t (s1 <| k_bufs ::= <[b := x2]> |>)) as Hok2.
  { pose proof (ao_two _ _ _ Hok1 _ _ _ Hx1) as [H1 H2 H3 H4 H5].
    eapply (access_update ext t b s1 x1 jh x2 h2); try done. by left. }
  assert (has_jh (s1 <| k_bufs ::= <[b := x2]> |>) b x2 h2) as Hx2 by (by apply has_jh_upd).
  assert (same_core s (s1 <| k_bufs ::= <[b := x2]> |>)) as Hc by (by etransitivity).
  set (s2 := s1 <| k_bufs ::= <[b := x2]> |>) in *. match goal with |- wp ?m ?Q _ => change (wp m Q s2) end.
  assert (k_journal s2 = k_journal s) as Hj2 by done. clearbody s2.
  destruct (bool_decide (b_transaction jh = None)) eqn:Enone.
  - apply bool_decide_eq_true in Enone. destruct (two_unshared _ _ _ _ _ _ Hok2 Hx2 (or_intror Enone)) as (Hn & _ & _).
    wp_step. apply wp_assert; [by apply bool_decide_eq_true|]. wp_step.
    eapply wp_mono; [apply (access_file ext t b s2 x2 h2); try done; [by right|by intros [? _]]|].
    intros _ s3 (Hok3 & Hc3 & Hj3 & x3 & Hx3 & _). wp_step.
    split_and!; [done|by etransitivity|congruence|].
    left. split_and!; [done| |by eapply frozen_same]. eexists _, _. split; [exact Hx3|]. by left.
  - apply bool_decide_eq_false in Enone.
    assert (is_Some (b_transaction h2)) as Hs2 by (destruct (b_transaction jh) eqn:E; [eauto|done]).
    destruct (bool_decide (is_Some (b_frozen_data jh))) eqn:Ef.
    + apply bool_decide_eq_true in Ef. pose proof (ao_two _ _ _ Hok2 _ _ _ Hx2) as Htwo.
      destruct (two_frozen _ _ _ _ Htwo Ef) as [Hcm _]. wp_step. apply wp_assert.
      { apply bool_decide_eq_true. destruct (b_next_transaction jh) as [v|] eqn:Ev; [|done].
        destruct (two_next _ _ _ _ Htwo v Ev) as [-> _]. done. }
      eapply wp_mono; [apply (attach_next_spec ext t b s2 x2 h2); done|].
      intros r s' (-> & ? & ? & ? & Ho & x3 & Hx3 & _).
      split_and!; [done|by etransitivity|congruence|]. left. split_and!; [done..|]. by eapply frozen_same.
    + eapply wp_mono; [apply (share_spec ext t b s2 x2 h2); done|].
      intros r s' (? & ? & ? & Hr). split_and!; [done|by etransitivity|congruence|].
      destruct r; [|by left]. destruct Hr as [Hw Hk]. split; [|done]. unfold must_wait in *.
      assert (core x2 = core x) as Hcx by (eapply same_core_lookup; [exact Hc|done|exact (proj1 Hx2)]).
      unfold core in Hcx. by replace (buffer_shadow x) with (buffer_shadow x2) by congruence;
          replace (buffer_locked x) with (buffer_locked x2) by congruence.
Qed.

(** ** Revokes of the running transaction *)

(** The state up to the revoke bits and the reference counts of buffers. *)
Definition strip (x : buffer_head) : buffer_head :=
  x <| buffer_revoked := false |> <| buffer_revokevalid := false |> <| b_count := 0 |>.
Record same_strip (s s' : kstate) : Prop := {
  ss_journal : k_journal s' = k_journal s;
  ss_trans : k_trans s' = k_trans s;
  ss_bufs : strip <$> k_bufs s' = strip <$> k_bufs s;
}.

#[export] Instance same_strip_preorder : PreOrder same_strip.
Proof. split; [done|]. intros ? ? ? [] []. split; congruence. Qed.

Lemma same_strip_set s b x x' :
  k_bufs s !! b = Some x -> strip x' = strip x -> same_strip s (s <| k_bufs ::= <[b := x']> |>).
Proof.
  intros Hb Hx. split; [done..|]. cbn. rewrite fmap_insert, Hx. apply insert_id. by rewrite lookup_fmap, Hb.
Qed.

Lemma strip_private x x' : strip x' = strip x -> b_private x' = b_private x /\ buffer_jbd x' = buffer_jbd x /\
  buffer_shadow x' = buffer_shadow x /\ b_blocknr x' = b_blocknr x.
Proof.
  intros Hs. split_and!; [apply (f_equal b_private) in Hs|apply (f_equal buffer_jbd) in Hs|
    apply (f_equal buffer_shadow) in Hs|apply (f_equal b_blocknr) in Hs]; exact Hs.
Qed.

Lemma same_strip_lookup s s' b x' :
  same_strip s s' -> k_bufs s' !! b = Some x' -> exists x, k_bufs s !! b = Some x /\ strip x' = strip x.
Proof.
  intros [_ _ Hb] Hb'. apply (f_equal (lookup b)) in Hb. rewrite !lookup_fmap, Hb' in Hb. cbn in Hb.
  destruct (k_bufs s !! b) as [x|]; [|done]. exists x. split; [done|]. cbn in Hb. congruence.
Qed.

Lemma same_strip_jh s s' b x' h :
  same_strip s s' -> has_jh s' b x' h -> exists x, has_jh s b x h /\ strip x' = strip x.
Proof.
  intros Hs [Hb Hh]. destruct (same_strip_lookup _ _ _ _ Hs Hb) as (x & Hx & He). exists x. split; [|done].
  split; [done|]. destruct (strip_private _ _ He) as [<- _]. done.
Qed.

Lemma same_strip_sym s s' : same_strip s s' -> same_strip s' s.
Proof. intros []. by split. Qed.

Lemma access_strip ext t s s' : same_strip s s' -> access_ok ext t s -> access_ok ext t s'.
Proof.
  intros Hs [Hwf Hext Htr Hrun Hcom Htwo Hbare]. pose proof Hs as [Hj Ht Hb]. split; rewrite ?Hj, ?Ht; try done.
  - destruct Hwf as [H1 H2]. split; rewrite Ht.
    + intros b x' Hb'. destruct (same_strip_lookup _ _ _ _ Hs Hb') as (x & Hx & He).
      destruct (strip_private _ _ He) as (Hp & Hj' & _). by eapply bh_ok_flags; [apply H1|..].
    + intros u tr Hu. destruct (H2 u tr Hu) as [Hnd Hnr Hin]. split; [done|done|]. intros jl b Hl.
      destruct (Hin jl b Hl) as [x Hx]. destruct (same_strip_lookup _ _ _ _ (same_strip_sym _ _ Hs) Hx) as (x' & Hx' & _). eauto.
  - intros y x' h Hy. destruct (same_strip_jh _ _ _ _ _ Hs Hy) as (x & Hx & He).
    destruct (strip_private _ _ He) as (_ & _ & Hsh & _). destruct (Htwo y x h Hx). by split; rewrite ?Hsh.
  - intros y x' Hy Hp. destruct (same_strip_lookup _ _ _ _ Hs Hy) as (x & Hx & He).
    destruct (strip_private _ _ He) as (Hp' & _ & -> & _). apply (Hbare y x Hx). congruence.
Qed.

Lemma owned_strip t b s s' : same_strip s s' -> owned t b s -> owned t b s'.
Proof.
  intros Hs (x & h & Hx & Ho). destruct (same_strip_jh _ _ _ _ _ (same_strip_sym _ _ Hs) Hx) as (x' & Hx' & _).
  by exists x', h.
Qed.

(** At most one record per block in each bucket. *)
Definition unique_records (t : jbd2_revoke_table_s) : Prop :=
  Forall (fun l => NoDup (blocknr <$> l)) (hash_table t).

(** The revoke bits of the buffers, where they are valid, say what the table
    of the running transaction holds; a block has one buffer. *)
Record revokes_exact (s : astate) : Prop := {
  re_table : table_ok (current_table (a_revoke s));
  re_unique : unique_records (current_table (a_revoke s));
  re_bits b x : k_bufs (a_k s) !! b = Some x -> buffer_revokevalid x = true ->
    (buffer_revoked x = true <-> is_Some (find_revoke_record (current_table (a_revoke s)) (b_blocknr x)));
  re_inj b1 b2 x1 x2 : k_bufs (a_k s) !! b1 = Some x1 -> k_bufs (a_k s) !! b2 = Some x2 ->
    b_blocknr x1 = b_blocknr x2 -> b1 = b2;
}.

Lemma find_in_list_elem l n : find_in_list l n = None <-> n ∉ blocknr <$> l.
Proof.
  induction l as [|r l IH]; cbn; [split; [intros _; apply not_elem_of_nil|done]|].
  rewrite not_elem_of_cons. destruct (blocknr r =? n) eqn:E; bool_to_prop; [split; [done|]; intros [? _]; congruence|].
  rewrite IH. naive_solver.
Qed.

Lemma delete_in_list_elem l n m : m ∈ blocknr <$> delete_in_list l n -> m ∈ blocknr <$> l.
Proof.
  induction l as [|r l IH]; [done|]. cbn [delete_in_list]. destruct (blocknr r =? n); cbn.
  - intros. rewrite elem_of_cons. by right.
  - rewrite !elem_of_cons. naive_solver.
Qed.

Lemma delete_in_list_nodup l n :
  NoDup (blocknr <$> l) -> NoDup (blocknr <$> delete_in_list l n) /\ find_in_list (delete_in_list l n) n = None.
Proof.
  induction l as [|r l IH]; [done|]. cbn [fmap list_fmap]. intros [Hr Hl]%NoDup_cons.
  cbn [delete_in_list]. destruct (blocknr r =? n) eqn:E; bool_to_prop.
  - subst. split; [done|by apply find_in_list_elem].
  - destruct (IH Hl) as [H1 H2]. split.
    + cbn. apply NoDup_cons. split; [|done]. intros Hin. by apply delete_in_list_elem in Hin.
    + cbn. by rewrite (proj2 (Z.eqb_neq _ _) E).
Qed.

Lemma unique_alter t f n :
  unique_records t -> (forall l, NoDup (blocknr <$> l) -> NoDup (blocknr <$> f l)) ->
  unique_records (alter_bucket f n t).
Proof.
  unfold unique_records. intros Hu Hf. cbn. apply Forall_lookup_2. intros i l Hl.
  rewrite list_lookup_alter in Hl. case_decide.
  - apply fmap_Some in Hl as (l0 & Hl0 & ->). by apply Hf, (Forall_lookup_1 _ _ _ _ Hu Hl0).
  - by apply (Forall_lookup_1 _ _ _ _ Hu Hl).
Qed.

Lemma delete_record_spec t n :
  table_ok t -> unique_records t ->
  table_ok (delete_revoke_record t n) /\ unique_records (delete_revoke_record t n) /\
  forall m, find_revoke_record (delete_revoke_record t n) m = if n =? m then None else find_revoke_record t m.
Proof.
  intros Hok Hu. unfold delete_revoke_record. split_and!.
  - by apply alter_bucket_ok.
  - apply unique_alter; [done|]. intros l Hl. by apply delete_in_list_nodup.
  - intros m. destruct (bucket_lookup t n Hok) as [l Hl]. erewrite find_alter_bucket by done.
    destruct (n =? m) eqn:E; bool_to_prop.
    + subst. rewrite decide_True by done. apply delete_in_list_nodup. by apply (Forall_lookup_1 _ _ _ _ Hu Hl).
    + case_decide as Hb; [|done]. rewrite find_in_list_delete_ne by congruence.
      unfold find_revoke_record. by rewrite <- Hb, Hl.
Qed.

Lemma current_with r t : current_table (with_current_table r t) = t.
Proof. unfold current_table, with_current_table. destruct r as [? ? []]; done. Qed.
Lemma committing_with r t : committing_table (with_current_table r t) = committing_table r.
Proof. unfold committing_table, with_current_table. destruct r as [? ? []]; done. Qed.

Lemma brelse_exec s b x :
  k_bufs s !! b = Some x ->
  exists n, __brelse b s = Ret (tt, s <| k_bufs ::= <[b := x <| b_count := n |>]> |>).
Proof.
  intros Hb. unfold __brelse, modify_bh. rewrite Hb. destruct (b_count x =? 0).
  - exists (b_count x). by destruct x.
  - by eexists.
Qed.

Lemma wp_on_k {A} (m : K kstate A) (Q : A -> astate -> Prop) s :
  wp m (fun a k => Q a (s <| a_k := k |>)) (a_k s) -> wp (on_k m) Q s.
Proof. unfold wp, on_k. by destruct (m (a_k s)) as [[]|]. Qed.

Section Revokes.
Context (find_block : kstate -> Z -> option bh_id).
(** [__find_get_block] returns a buffer of the block it is asked for, or NULL
    when there is none. *)
Hypothesis find_ok : forall s n b, find_block s n = Some b -> exists x, k_bufs s !! b = Some x /\ b_blocknr x = n.

(** With one buffer per block, the alias [_cancel_revoke] looks for is the
    buffer itself: the lookup leaves everything but reference counts alone. *)
Lemma find_alias_spec s b x :
  k_bufs s !! b = Some x ->
  (forall b' x', k_bufs s !! b' = Some x' -> b_blocknr x' = b_blocknr x -> b' = b) ->
  wp (clear_alias find_block b (b_blocknr x))
    (fun _ s' => same_strip s s' /\
       exists n, k_bufs s' = <[b := x <| b_count := n |>]> (k_bufs s)) s.
Proof.
  intros Hb Huniq. unfold clear_alias. destruct (find_block s (b_blocknr x)) as [b2|] eqn:E.
  - destruct (find_ok _ _ _ E) as (x2 & Hx2 & Hn). assert (b2 = b) as -> by (by eapply Huniq).
    eapply wp_exec; [unfold __find_get_block; rewrite E; unfold get_bh, kbind, modify_bh; rewrite Hb; reflexivity|].
    cbv beta iota. rewrite bool_decide_true by done. wp_step. wp_step.
    set (x1 := x <| b_count ::= Z.succ |>). set (s1 := s <| k_bufs ::= <[b := x1]> |>).
    destruct (brelse_exec s1 b x1) as [n Hr]; [apply lookup_insert_eq|]. unfold wp. rewrite Hr.
    assert (s1 <| k_bufs ::= <[b := x1 <| b_count := n |>]> |> = s <| k_bufs ::= <[b := x <| b_count := n |>]> |>) as ->
      by (subst s1; cbn; by rewrite insert_insert_eq).
    split; [by apply (same_strip_set s b x)|by exists n].
  - eapply wp_exec; [unfold __find_get_block; rewrite E; reflexivity|].
    split; [done|]. exists (b_count x). rewrite insert_id; [done|]. rewrite Hb. by destruct x.
Qed.

Lemma cancel_record_spec s n :
  table_ok (current_table (a_revoke s)) -> unique_records (current_table (a_revoke s)) ->
  wp (cancel_record n)
    (fun did s' => a_k s' = a_k s /\ a_sb s' = a_sb s /\
       committing_table (a_revoke s') = committing_table (a_revoke s) /\
       (did = true <-> is_Some (find_revoke_record (current_table (a_revoke s)) n)) /\
       table_ok (current_table (a_revoke s')) /\ unique_records (current_table (a_revoke s')) /\
       forall m, find_revoke_record (current_table (a_revoke s')) m =
         if n =? m then None else find_revoke_record (current_table (a_revoke s)) m) s.
Proof.
  intros Ht Hu. unfold cancel_record, get_revoke, set_revoke_table, wp, kbind.
  destruct (find_revoke_record _ n) eqn:E; cbn -[find_revoke_record].
  - rewrite current_with, committing_with. destruct (delete_record_spec _ n Ht Hu) as (H1 & H2 & H3).
    split_and!; done.
  - split_and!; try done. intros m. destruct (n =? m) eqn:Em; [|done]. bool_to_prop. by subst.
Qed.

(** Once the record of [b]'s block is gone the bits are right again. *)
Lemma bits_after_cancel s b x n k' r sb :
  revokes_exact s -> k_bufs (a_k s) !! b = Some x ->
  table_ok (current_table r) -> unique_records (current_table r) ->
  (forall m, find_revoke_record (current_table r) m =
     if b_blocknr x =? m then None else find_revoke_record (current_table (a_revoke s)) m) ->
  k_bufs k' = <[b := x <| buffer_revokevalid := true |> <| buffer_revoked := false |> <| b_count := n |>]> (k_bufs (a_k s)) ->
  revokes_exact (mk_astate k' r sb).
Proof.
  intros [_ _ Hbits Hinj] Hb Ht' Hu' Hf Hk'. split; cbn; try done.
  - intros b' x'. rewrite Hk', lookup_insert. case_decide as Eb.
    + intros [= <-] _. cbn. rewrite Hf, Z.eqb_refl. split; [done|]. by intros [].
    + intros Hb' Hv'. rewrite Hf. destruct (b_blocknr x =? b_blocknr x') eqn:En; [|eauto].
      bool_to_prop. by destruct Eb; eapply Hinj.
  - intros b1 b2 y1 y2 H1 H2 He. rewrite Hk' in H1, H2. rewrite lookup_insert in H1, H2.
    repeat case_decide; subst; try done; simplify_eq; eauto.
Qed.

Lemma cancel_revoke_spec s b x :
  revokes_exact s -> k_bufs (a_k s) !! b = Some x ->
  wp (jbd2_vmsep_journal_cancel_revoke find_block b)
    (fun did s' => same_strip (a_k s) (a_k s') /\ revokes_exact s' /\
       committing_table (a_revoke s') = committing_table (a_revoke s) /\
       (did = true <-> is_Some (find_revoke_record (current_table (a_revoke s)) (b_blocknr x))) /\
       forall m, find_revoke_record (current_table (a_revoke s')) m =
         if b_blocknr x =? m then None else find_revoke_record (current_table (a_revoke s)) m) s.
Proof.
  intros Hre Hb. pose proof Hre as [Ht Hu Hbits Hinj]. unfold jbd2_vmsep_journal_cancel_revoke.
  set (x1 := x <| buffer_revokevalid := true |> <| buffer_revoked := false |>).
  set (k1 := (a_k s) <| k_bufs ::= <[b := x1]> |>).
  assert (same_strip (a_k s) k1) as Hs1 by (by apply (same_strip_set _ _ x)).
  apply wp_bind, wp_on_k. eapply wp_read_bh; [exact Hb|]. apply wp_bind, wp_on_k. eapply wp_modify_bh; [exact Hb|].
  destruct (negb _) eqn:Enc.
  - wp_step. destruct (buffer_revokevalid x) eqn:Ev; [|done]. apply negb_true_iff in Enc.
    assert (find_revoke_record (current_table (a_revoke s)) (b_blocknr x) = None) as Hnone.
    { destruct (find_revoke_record _ (b_blocknr x)) eqn:E; [|done]. pose proof (proj2 (Hbits b x Hb Ev)) as Hx.
      rewrite E in Hx. rewrite Hx in Enc; [done|eauto]. }
    split_and!; try done.
    + eapply (bits_after_cancel s b x (b_count x)); try done.
      intros m. destruct (b_blocknr x =? m) eqn:Em; [|done]. bool_to_prop. by subst.
    + rewrite Hnone. split; [done|]. by intros [].
    + intros m. destruct (b_blocknr x =? m) eqn:Em; [|done]. bool_to_prop. by subst.
  - wp_step. eapply wp_mono; [by apply cancel_record_spec|].
    intros did s2 (Hk2 & Hsb2 & Hc2 & Hd2 & Ht2 & Hu2 & Hf2). wp_step. apply wp_on_k. rewrite Hk2.
    eapply wp_mono; [apply (find_alias_spec k1 b x1)|].
    + apply lookup_insert_eq.
    + intros b' x'. cbn. rewrite lookup_insert. case_decide; [done|]. intros Hb' He. by eapply (Hinj b' b x' x).
    + intros _ k3 (Hs3 & n & Hk3). wp_step. cbn in Hk3. rewrite insert_insert_eq in Hk3.
      split_and!; try done; [by etransitivity|]. by eapply (bits_after_cancel s b x n).
Qed.
End Revokes.

(** ** Waiting for access *)

Lemma revokes_core s k' : same_core (a_k s) k' -> revokes_exact s -> revokes_exact (s <| a_k := k' |>).
Proof.
  intros Hc [Ht Hu Hb Hi].
  assert (forall b x', k_bufs k' !! b = Some x' -> exists x, k_bufs (a_k s) !! b = Some x /\ core x' = core x) as Hl.
  { intros b x' Hx'. destruct Hc as [Hc _]. apply (f_equal (lookup b)) in Hc. rewrite !lookup_fmap, Hx' in Hc. cbn in Hc.
    destruct (k_bufs (a_k s) !! b) as [x|]; [|done]. exists x. split; [done|]. cbn in Hc. congruence. }
  split; cbn; try done.
  - intros b x' Hx' Hv. destruct (Hl _ _ Hx') as (x & Hx & He). unfold core in He.
    replace (buffer_revoked x') with (buffer_revoked x) by congruence.
    replace (b_blocknr x') with (b_blocknr x) by congruence. apply (Hb b x Hx). congruence.
  - intros b1 b2 x1 x2 H1 H2 He. destruct (Hl _ _ H1) as (y1 & Hy1 & E1), (Hl _ _ H2) as (y2 & Hy2 & E2).
    unfold core in E1, E2. apply (Hi b1 b2 y1 y2); congruence.
Qed.

Section Waiting.
Context (find_block : kstate -> Z -> option bh_id).
Hypothesis find_ok : forall s n b, find_block s n = Some b -> exists x, k_bufs s !! b = Some x /\ b_blocknr x = n.
(** What is known of a copy of [b]'s contents that others make. *)
Context (P : list Z -> Prop) (h : handle_t) (t : tr_id) (b : bh_id).
Hypothesis h_open : h_transaction h = Some t.

(** The state between the rounds, and what other threads maintain. *)
Record steady (s : astate) : Prop := {
  st_pinned : exists ext, pinned ext t b (a_k s);
  st_revokes : revokes_exact s;
  st_copy x jh d : has_jh (a_k s) b x jh -> b_frozen_data jh = Some d -> P d;
}.

(** The buffer is the transaction's: a copy of it, if any, was made by
    others or holds what the buffer holds now, and its block is not revoked. *)
Record access_granted (s : astate) : Prop := {
  ag_pinned : exists ext, pinned ext t b (a_k s);
  ag_revokes : revokes_exact s;
  ag_owned : owned t b (a_k s);
  ag_copy x jh d : has_jh (a_k s) b x jh -> b_frozen_data jh = Some d -> P d \/ d = b_data x;
  ag_cancelled x : k_bufs (a_k s) !! b = Some x ->
    find_revoke_record (current_table (a_revoke s)) (b_blocknr x) = None;
}.

Definition env_ok (env : K astate unit) : Prop := forall s, steady s -> wp env (fun _ s' => steady s') s.

Lemma pinned_strip ext s s' : same_strip s s' -> pinned ext t b s -> pinned ext t b s'.
Proof.
  intros Hs (Hok & He & x & jh & Hx). split; [by eapply access_strip|]. split; [done|].
  destruct (same_strip_jh _ _ _ _ _ (same_strip_sym _ _ Hs) Hx) as (x' & Hx' & _). by exists x', jh.
Qed.

(** The last round: the buffer is owned, the revoke is cancelled. *)
Lemma finish_access s k' ext :
  steady s -> pinned ext t b k' -> same_core (a_k s) k' -> owned t b k' ->
  (forall x jh, has_jh (a_k s) b x jh -> frozen_from jh b k') ->
  wp (jbd2_vmsep_journal_cancel_revoke find_block b) (fun _ s' => access_granted s') (s <| a_k := k' |>).
Proof.
  intros [[ext0 (_ & _ & x0 & jh0 & Hx0)] Hre Hcp] Hp Hc Ho Hfr. pose proof Hp as (_ & _ & x & jh & Hx).
  eapply wp_mono; [apply (cancel_revoke_spec find_block find_ok _ b x); [by apply revokes_core|exact (proj1 Hx)]|].
  intros did s' (Hs & Hre' & _ & _ & Hf). cbn in Hs. split.
  - exists ext. by eapply pinned_strip.
  - done.
  - by eapply owned_strip.
  - intros x' jh' d Hx' Hd. destruct (same_strip_jh _ _ _ _ _ Hs Hx') as (x1 & Hx1 & He).
    assert (b_data x' = b_data x1) as -> by exact (f_equal b_data He).
    destruct (Hfr _ _ Hx0 _ _ Hx1) as [Hq|Hq]; rewrite Hd in Hq; [left; eauto|right; congruence].
  - intros x' Hx'. rewrite Hf. destruct (same_strip_lookup _ _ _ _ Hs Hx') as (x1 & Hx1 & He).
    destruct (strip_private _ _ He) as (_ & _ & _ & ->). destruct Hx as [Hx _]. simplify_eq. by rewrite Z.eqb_refl.
Qed.

(** What a round does to the state as a whole. *)
Lemma round_steady s force_copy frozen_buffer x jh :
  steady s -> has_jh (a_k s) b x jh ->
  wp (on_k (access_round h t b force_copy frozen_buffer))
    (fun r s' =>
       match r with
       | Finished err => err = 0 /\ wp (jbd2_vmsep_journal_cancel_revoke find_block b) (fun _ s2 => access_granted s2) s' \/
                         err = - EROFS /\ steady s' /\ h_aborted h || JBD2_ABORT (k_journal (a_k s')) = true
       | Again fb' => must_wait x frozen_buffer fb' /\ steady s'
       end) s.
Proof.
  intros Hst Hx. pose proof Hst as [[ext (Hok & He & _)] Hre Hcp].
  apply wp_on_k. eapply wp_mono; [by apply (access_round_spec ext h t b (a_k s) x jh)|].
  intros r k' (Hok' & Hc & Hj & Hr).
  assert (frozen_kept jh b k' -> steady (s <| a_k := k' |>)) as Hkept.
  { intros (x1 & h1 & Hx1 & Hf). split; [|by apply revokes_core|].
    - exists ext. split_and!; eauto.
    - intros x2 h2 d Hx2 Hd. destruct Hx1, Hx2. cbn in *. simplify_eq. apply (Hcp x jh); [done|congruence]. }
  destruct r as [fb|err]; [destruct Hr as [? ?]; auto|]. destruct Hr as [(-> & Ho & Hf)|(-> & Ha & Hk)];
    [left|right; cbn; rewrite Hj; auto].
  split; [done|]. pose proof Ho as (x1 & h1 & Hx1 & _). apply (finish_access s k' ext); try done.
  - split_and!; eauto.
  - intros x2 h2 Hx2. destruct Hx, Hx2. simplify_eq. done.
Qed.

Definition access_result (r : option Z) (s : astate) : Prop :=
  match r with
  | Some err => err = 0 /\ access_granted s \/
                err = - EROFS /\ steady s /\ h_aborted h || JBD2_ABORT (k_journal (a_k s)) = true
  | None => steady s
  end.

Lemma access_loop_spec envs force_copy frozen_buffer s :
  Forall env_ok envs -> steady s ->
  wp (access_loop find_block envs h t b force_copy frozen_buffer) access_result s.
Proof.
  revert s frozen_buffer. induction envs as [|env envs IH]; intros s fb Henv Hst;
    cbn [access_loop]; pose proof Hst as [[ext (_ & _ & x & jh & Hx)] _ _];
    apply wp_bind; (eapply wp_mono; [by eapply round_steady|]); intros [fb'|err] s' Hr.
  - apply wp_ret. by destruct Hr.
  - destruct Hr as [[-> Hr]|[-> Hr]]; apply wp_bind; cbn [Z.eqb Z.opp EROFS].
    + apply wp_bind. eapply wp_mono; [exact Hr|]. intros ? s2 Hg. apply wp_ret. apply wp_ret. by left.
    + apply wp_ret. apply wp_ret. by right.
  - apply Forall_cons in Henv as [He Henv]. destruct Hr as [_ Hr]. apply wp_bind.
    eapply wp_mono; [by apply He|]. intros ? s2 Hs2. by apply IH.
  - destruct Hr as [[-> Hr]|[-> Hr]]; apply wp_bind; cbn [Z.eqb Z.opp EROFS].
    + apply wp_bind. eapply wp_mono; [exact Hr|]. intros ? s2 Hg. apply wp_ret. apply wp_ret. by left.
    + apply wp_ret. apply wp_ret. by right.
Qed.

(** Other threads leave the buffer unlocked and off the log. *)
Definition calm (s : astate) : Prop :=
  forall x, k_bufs (a_k s) !! b = Some x -> buffer_locked x = false /\ buffer_shadow x = false.
Definition calming (env : K astate unit) : Prop :=
  forall s, steady s -> wp env (fun _ s' => steady s' /\ calm s') s.

(** A round that finds the buffer calm and the memory for a copy allocated
    is the last one. *)
Lemma calm_round_finishes s force_copy x jh :
  steady s -> has_jh (a_k s) b x jh -> calm s ->
  wp (on_k (access_round h t b force_copy true)) (fun r _ => exists err, r = Finished err) s.
Proof.
  intros Hst Hx Hc. eapply wp_mono; [by eapply round_steady|]. intros [fb|err] s' Hr; [|eauto].
  destruct Hr as [[[Hw _]|[? _]] _]; [|done]. destruct (Hc x (proj1 Hx)), Hw; congruence.
Qed.

Lemma access_loop_returns pre e1 e2 post force_copy frozen_buffer s :
  Forall env_ok pre -> calming e1 -> calming e2 -> Forall env_ok post -> steady s ->
  wp (access_loop find_block (pre ++ e1 :: e2 :: post) h t b force_copy frozen_buffer) (fun r _ => is_Some r) s.
Proof.
  intros Hpre H1 H2 Hpost. revert s frozen_buffer.
  assert (Hfin : forall err s0, (err = 0 /\ wp (jbd2_vmsep_journal_cancel_revoke find_block b) (fun _ s2 => access_granted s2) s0 \/
                         err = - EROFS /\ steady s0 /\ h_aborted h || JBD2_ABORT (k_journal (a_k s0)) = true) ->
    wp ((if err =? 0 then jbd2_vmsep_journal_cancel_revoke find_block b ;;; kret tt else kret tt) ;;; kret (Some err))
      (fun r _ => is_Some r) s0).
  { intros err s0 [[-> Hr]|[-> Hr]]; apply wp_bind; cbn [Z.eqb Z.opp EROFS].
    - apply wp_bind. eapply wp_mono; [exact Hr|]. intros ? s2 Hg. apply wp_ret. apply wp_ret. eauto.
    - apply wp_ret. apply wp_ret. eauto. }
  induction Hpre as [|env pre He Hpre IH]; intros s fb Hst; cbn [app access_loop];
    pose proof Hst as [[ext (_ & _ & x & jh & Hx)] _ _];
    (apply wp_bind; eapply wp_mono; [by eapply round_steady|]); intros [fb1|err] s' Hr; auto; destruct Hr as [_ Hst'];
    apply wp_bind; [|eapply wp_mono; [by apply He|]; intros ? s2 Hs2; by apply IH].
  eapply wp_mono; [by apply H1|]. intros ? s1 [Hst1 Hc1]. cbn [access_loop].
  pose proof Hst1 as [[ext1 (_ & _ & x1 & jh1 & Hx1)] _ _].
  apply wp_bind. eapply wp_mono; [by eapply round_steady|]. intros [fb2|err] s2 Hr; auto. destruct Hr as [Hw Hst2].
  assert (fb2 = true) as ->.
  { destruct Hw as [[Hw _]|[_ ->]]; [|done]. destruct (Hc1 x1 (proj1 Hx1)), Hw; congruence. }
  apply wp_bind. eapply wp_mono; [by apply H2|]. intros ? s3 [Hst3 Hc3].
  pose proof Hst3 as [[ext3 (_ & _ & x3 & jh3 & Hx3)] _ _].
  destruct post; cbn [access_loop]; apply wp_bind;
    pose proof (round_steady s3 force_copy true x3 jh3 Hst3 Hx3) as Hr;
    pose proof (calm_round_finishes s3 force_copy x3 jh3 Hst3 Hx3 Hc3) as Hf;
    unfold wp at 1; unfold wp in Hr at 1, Hf;
    (destruct (on_k _ s3) as [[r s4]|]; [|done]); destruct Hf as [err ->]; by apply Hfin.
Qed.
End Waiting.

(** ** The reference taken for the call *)

Lemma add_head_access ext t b s x :
  access_ok ext t s -> k_bufs s !! b = Some x -> 0 < b_count x \/ b_page_mapping x = true ->
  wp (jbd2_vmsep_journal_add_journal_head b)
    (fun _ s' => pinned (ext_add b 1 ext) t b s' /\ same_core s s' /\
       forall x' h', has_jh s' b x' h' ->
         b_frozen_data h' = match b_private x with Some h => b_frozen_data h | None => None end) s.
Proof.
  intros Hok Hb Hc. pose proof Hok as [Hwf Hext Htr Hrun Hcom Htwo Hbare].
  unfold jbd2_vmsep_journal_add_journal_head. wp_step. eapply wp_read_bh; [exact Hb|].
  pose proof (wf_bh _ _ Hwf b x Hb) as [Hj Hbh].
  (* the buffer and its journal head afterwards *)
  assert (forall x' h', b_private x' = Some h' -> buffer_jbd x' = true -> core x' = core x ->
    bh_ok (ext_add b 1 ext) (k_trans s) b x' -> two_ok t (k_journal s) x' h' ->
    b_frozen_data h' = match b_private x with Some h => b_frozen_data h | None => None end ->
    let s' := s <| k_bufs ::= <[b := x']> |> in
    pinned (ext_add b 1 ext) t b s' /\ same_core s s' /\
    forall x2 h2, has_jh s' b x2 h2 ->
      b_frozen_data h2 = match b_private x with Some h => b_frozen_data h | None => None end) as Hdone.
  { intros x' h' Hp Hj' Hco Hbk Htw Hfr s'.
    assert (has_jh s' b x' h') as Hx' by (by apply has_jh_upd).
    split_and!; [|by eapply same_core_set|intros x2 h2 [H1 H2]; destruct Hx'; simplify_eq; done].
    split_and!; [split| |eauto].
    - apply (wf_set_bh ext); [done| |done]. intros y Hy. by apply ext_add_ne.
    - intros y. unfold ext_add. specialize (Hext y). case_decide; lia.
    - done.
    - done.
    - done.
    - intros y x1 h1 Hy. destruct (decide (y = b)) as [->|Hne]; [|apply has_jh_ne in Hy; eauto].
      destruct Hy, Hx'. simplify_eq. done.
    - intros y x1 Hy. cbn in Hy. rewrite lookup_insert in Hy. case_decide; [simplify_eq; congruence|].
      rewrite ext_add_ne by done. eauto.
    - rewrite ext_add_eq. specialize (Hext b). lia. }
  destruct (b_private x) as [h|] eqn:Hh.
  - rewrite bool_decide_true in Hj by eauto. rewrite Hj. wp_step. wp_step. eapply wp_modify_jh; [exact Hb|exact Hh|].
    eapply Hdone; try done.
    + cbn. split; [by rewrite Hj, bool_decide_true by eauto|]. cbn. destruct Hbh. split; cbn; auto; rewrite ?ext_add_eq; lia.
    + destruct (Htwo b x h) as [H1 H2 H3 H4 H5]; [done|]. by split.
  - rewrite bool_decide_false in Hj by (by intros []). rewrite Hj. unfold get_bh.
    wp_step. wp_step. wp_step; [apply orb_true_iff; rewrite Z.ltb_lt; done|].
    wp_step. wp_step. wp_step. wp_step. cbn [k_bufs]. rewrite !insert_insert_eq.
    eapply Hdone; try done.
    + destruct (Hbare b x Hb Hh) as [_ He0]. split; [done|]. cbn. split; cbn; try done.
      * intros u tr jl Hu. split; [|by intros [? _]]. intros Hin. by destruct (Hbh u tr jl Hu).
      * by intros u [|].
      * by rewrite ext_add_eq, He0.
    + destruct (Hbare b x Hb Hh) as [Hs0 _]. split; cbn; rewrite ?Hs0; try done; by intros [].
Qed.

Lemma wf_ext ext ext' s : (forall y, ext y = ext' y) -> wf ext s -> wf ext' s.
Proof.
  intros He [H1 H2]. split; [|done]. intros b x Hb. destruct (H1 b x Hb) as [Hj Hh]. split; [done|].
  destruct (b_private x); [|done]. destruct Hh. split; auto. by rewrite <- He.
Qed.

Lemma put_access ext t b s x h :
  access_ok ext t s -> 1 <= ext b -> has_jh s b x h ->
  wp (jbd2_vmsep_journal_put_journal_head b)
    (fun _ s' => access_ok (ext_add b (-1) ext) t s' /\ same_core s s' /\ k_journal s' = k_journal s /\
       (is_Some (b_transaction h) ->
        has_jh s' b (x <| b_private := Some (h <| b_jcount ::= Z.pred |>) |>) (h <| b_jcount ::= Z.pred |>))) s.
Proof.
  intros Hok He Hx. pose proof Hok as [Hwf Hext Htr Hrun Hcom Htwo Hbare]. pose proof Hx as [Hb Hh].
  destruct (wf_jh _ _ _ _ _ Hwf Hb Hh) as [Hjbd Hjh]. pose proof (jh_count _ _ _ _ Hjh) as Hcount.
  pose proof (ref_range (b_transaction h)). pose proof (ref_range (b_cp_transaction h)).
  assert (wf (ext_add b 1 (ext_add b (-1) ext)) s) as Hwf1.
  { eapply wf_ext; [|exact Hwf]. intros y. unfold ext_add. case_decide; lia. }
  eapply wp_mono; [apply (wp_keeps same_core); [apply core_put|]|].
  { apply (put_exec (ext_add b (-1) ext) s b x h); try done. rewrite ext_add_eq. lia. }
  intros _ s' [[->%goes_to_eq Hwf'] Hcore]. cbn beta. unfold bh_put in *.
  split_and!; [split|done|done|].
  - done.
  - intros y. unfold ext_add. specialize (Hext y). case_decide; subst; lia.
  - done.
  - done.
  - done.
  - intros y x1 h1 [Hy1 Hy2]. cbn in Hy1. rewrite lookup_insert in Hy1. case_decide; [|by apply (Htwo y)].
    destruct (b_jcount h =? 1); simplify_eq. cbn in Hy2. simplify_eq. by destruct (Htwo _ _ _ Hx).
  - intros y x1 Hy1. cbn in Hy1. rewrite lookup_insert in Hy1. case_decide; subst.
    + destruct (b_jcount h =? 1) eqn:E1; simplify_eq; [|done]. bool_to_prop. intros _.
      assert (b_transaction h = None) as Hnone by (apply ref_none; lia).
      destruct (two_unshared _ _ _ _ _ _ Hok Hx (or_intror Hnone)) as (_ & _ & ->). split; [done|]. rewrite ext_add_eq. lia.
    + rewrite ext_add_ne by done. eauto.
  - intros [u Hu]. rewrite Hu in *. cbn in *. rewrite (proj2 (Z.eqb_neq _ _)) by lia. by apply has_jh_upd.
Qed.

(** A buffer of [t] keeps its journal head when the caller drops its own
    reference. *)
Lemma owned_has_tr ext t b s :
  access_ok ext t s -> owned t b s -> exists x h, has_jh s b x h /\ is_Some (b_transaction h) /\
    (b_transaction h = Some t \/ b_next_transaction h = Some t).
Proof.
  intros Hok (x & h & Hx & Ho). exists x, h. split_and!; [done| |done]. pose proof Hx as [Hb Hh].
  destruct (wf_jh _ _ _ _ _ (ao_wf _ _ _ Hok) Hb Hh) as [_ Hjh]. destruct Ho; [eauto|].
  apply (jh_next _ _ _ _ Hjh). eauto.
Qed.

(** ** Isolation of the commit *)

(** What the commit writes for a buffer it has a copy of: the copy, with its
    first word escaped if it looks like a log block. *)
Lemma write_metadata_frozen ext t ct b s x h frozen copy_ok :
  access_ok ext t s -> has_jh s b x h -> b_transaction h = Some ct -> b_jlist h = BJ_Metadata ->
  buffer_jbddirty x = true -> b_frozen_data h = Some frozen ->
  wp (jbd2_vmsep_journal_write_metadata_buffer copy_ok ct b)
    (fun r _ => r = inr (if starts_with_magic frozen then escape_data frozen else frozen,
                         starts_with_magic frozen, true)) s.
Proof.
  intros Hok Hx Ht Hl Hd Hf. pose proof Hx as [Hb Hh]. pose proof (ao_wf _ _ _ Hok) as Hwf.
  destruct (wf_jh _ _ _ _ _ Hwf Hb Hh) as [_ Hjh].
  assert (is_Some (k_trans s !! ct)) as Hct by (apply (jh_live _ _ _ _ Hjh); by left).
  unfold jbd2_vmsep_journal_write_metadata_buffer. wp_step. eapply wp_read_bh; [exact Hb|].
  wp_step. apply wp_assert; [done|]. wp_step. eapply wp_read_jh; [exact Hb|exact Hh|]. cbv zeta. rewrite Hf.
  assert (forall s' x' h' (r : Z + (list Z * bool * bool)), wf ext s' -> has_jh s' b x' h' -> b_transaction h' = Some ct -> b_jlist h' = BJ_Metadata ->
    is_Some (k_trans s' !! ct) ->
    wp (__jbd2_vmsep_journal_file_buffer b ct BJ_Shadow ;;;
        modify_bh b (fun x => x <| buffer_shadow := true |>) ;;; kret r) (fun r' _ => r' = r) s') as Hfin.
  { intros s' x' h' r Hwf' Hx' Ht' Hl' Hct'. wp_step.
    eapply wp_mono; [eapply (file_buffer_spec ext s' b x' h' ct BJ_Shadow); try done; [by left|]|].
    - intros [_ Hbad]. congruence.
    - intros _ s2 (_ & _ & (x2 & Hx2 & _) & _). wp_step. eapply wp_modify_bh; [exact (proj1 Hx2)|]. by wp_step. }
  destruct (starts_with_magic frozen).
  - wp_step. eapply wp_modify_jh; [exact Hb|exact Hh|]. eapply Hfin; [|by apply has_jh_upd|done|done|done].
    eapply (wf_set_bh ext); [done|done|]. destruct (wf_bh _ _ Hwf b x Hb) as [Hj Hbh]. rewrite Hh in Hbh, Hj.
    split; [done|]. cbn. destruct Hbh. by split.
  - by eapply Hfin.
Qed.

(** The buffer is [t]'s, and whatever is written to it from now on, a
    transaction that is still committing it logs the copy. *)
Definition isolated (P : list Z -> Prop) (t : tr_id) (b : bh_id) (s : kstate) : Prop :=
  exists x jh, has_jh s b x jh /\
    (b_transaction jh = Some t \/
     b_next_transaction jh = Some t /\
     (buffer_shadow x = true -> is_Some (b_frozen_data jh)) /\
     (b_jlist jh = BJ_Metadata -> exists ct frozen,
        b_transaction jh = Some ct /\ ct <> t /\ b_frozen_data jh = Some frozen /\ (P frozen \/ frozen = b_data x) /\
        forall data copy_ok, buffer_jbddirty x = true ->
          wp (jbd2_vmsep_journal_write_metadata_buffer copy_ok ct b)
            (fun r _ => r = inr (if starts_with_magic frozen then escape_data frozen else frozen,
                                 starts_with_magic frozen, true))
            (s <| k_bufs ::= <[b := x <| b_data := data |>]> |>))).

Lemma owned_isolated (P : list Z -> Prop) ext t b s :
  access_ok ext t s -> owned t b s ->
  (forall x jh d, has_jh s b x jh -> b_frozen_data jh = Some d -> P d \/ d = b_data x) ->
  isolated P t b s.
Proof.
  intros Hok Ho Hd. destruct (owned_has_tr _ _ _ _ Hok Ho) as (x & jh & Hx & [ct Hct] & Hown).
  exists x, jh. split; [done|]. destruct Hown as [?|Hn]; [by left|right]. pose proof (ao_two _ _ _ Hok _ _ _ Hx) as Htwo.
  split_and!; [done|intros Hs; apply (two_copy _ _ _ _ Htwo); eauto|]. intros Hl.
  destruct (two_copy _ _ _ _ Htwo) as [frozen Hf]; [eauto|by left|]. exists ct, frozen.
  split_and!; [done| |done|by eapply Hd|].
  - destruct (two_next _ _ _ _ Htwo t Hn) as [_ Hc]. intros ->. apply (ao_com _ _ _ Hok). congruence.
  - intros data copy_ok Hjd. destruct Hx as [Hb Hh].
    eapply (write_metadata_frozen ext t ct b _ (x <| b_data := data |>) jh); try done; [|by apply has_jh_upd].
    eapply (access_update ext t b s x jh); try done; [by left|]. by destruct Htwo.
Qed.

Section WriteAccess.
Context (find_block : kstate -> Z -> option bh_id).
Hypothesis find_ok : forall s n b, find_block s n = Some b -> exists x, k_bufs s !! b = Some x /\ b_blocknr x = n.
Context (P : list Z -> Prop) (h : handle_t) (t : tr_id) (b : bh_id) (s : astate) (x : buffer_head) (ext0 : bh_id -> Z).
Hypothesis h_open : h_transaction h = Some t.
Hypothesis state_ok : access_ok ext0 t (a_k s).
Hypothesis revokes_ok : revokes_exact s.
Hypothesis b_there : k_bufs (a_k s) !! b = Some x.
Hypothesis b_used : 0 < b_count x \/ b_page_mapping x = true.
Hypothesis b_copy : forall jh d, b_private x = Some jh -> b_frozen_data jh = Some d -> P d.

(** The fast path: nothing happens, and the buffer is already [t]'s. *)
Lemma granted_spec undo :
  exists g, jbd2_write_access_granted h b undo (a_k s) = Ret (g, a_k s) /\
    (g = true -> owned t b (a_k s) /\ buffer_dirty x = false).
Proof using h_open b_there.
  clear b_copy. unfold jbd2_write_access_granted, kbind, read_bh. rewrite b_there.
  destruct (buffer_dirty x); [by eexists|]. destruct (negb (buffer_jbd x)); [by eexists|].
  destruct (b_private x) as [jh|] eqn:Hh; [|by eexists]. destruct (undo && _); [by eexists|]. eexists. split; [done|].
  rewrite h_open, orb_true_iff, !bool_decide_eq_true. intros Ho. split; [|done]. by exists x, jh.
Qed.

(** The journal head is attached and referenced. *)
Lemma attach_steady :
  wp (on_k (jbd2_vmsep_journal_add_journal_head b)) (fun _ s' => steady P t b s') s.
Proof.
  apply wp_on_k. eapply wp_mono; [by eapply add_head_access|]. intros _ k' (Hp & Hc & Hf). split; cbn.
  - by exists (ext_add b 1 ext0).
  - by apply revokes_core.
  - intros x' jh' d Hx' Hd. rewrite (Hf _ _ Hx') in Hd. destruct (b_private x) as [jh|] eqn:Hh; [by eapply b_copy|done].
Qed.

Lemma do_access_spec envs force_copy s1 :
  steady P t b s1 -> Forall (env_ok P t b) envs ->
  wp (do_get_write_access find_block envs h b force_copy) (access_result P h t b) s1.
Proof.
  intros Hst Henv. unfold do_get_write_access.
  eapply wp_exec; [unfold on_k; rewrite (handle_aborted_exec _ _ _ h_open); reflexivity|].
  replace (s1 <| a_k := a_k s1 |>) with s1 by (by destruct s1).
  destruct (h_aborted h || _) eqn:Ea.
  - apply wp_ret. right. done.
  - rewrite h_open. by apply access_loop_spec.
Qed.

(** The reference is dropped again. *)
Lemma release_spec rc s1 :
  access_result P h t b (Some rc) s1 ->
  wp (on_k (jbd2_vmsep_journal_put_journal_head b))
    (fun _ s' => (exists ext, access_ok ext t (a_k s')) /\ revokes_exact s' /\
       (rc = 0 /\ isolated P t b (a_k s') /\
        (forall x', k_bufs (a_k s') !! b = Some x' ->
           find_revoke_record (current_table (a_revoke s')) (b_blocknr x') = None) \/
        rc = - EROFS /\ h_aborted h || JBD2_ABORT (k_journal (a_k s')) = true)) s1.
Proof.
  intros Hr. apply wp_on_k. destruct Hr as [[-> Hg]|(-> & [[ext (Hok & He & x1 & jh1 & Hx1)] Hre _] & Ha)].
  - destruct Hg as [[ext (Hok & He & x1 & jh1 & Hx1)] Hre Ho Hd Hc].
    destruct (owned_has_tr _ _ _ _ Hok Ho) as (x2 & jh2 & Hx2 & Htr & Hown).
    eapply wp_mono; [by apply (put_access ext t b _ x2 jh2)|]. intros _ k' (Hok' & Hcore & Hj & Hx'). specialize (Hx' Htr).
    split_and!; [eauto|by apply revokes_core|]. left. split_and!; [done| |].
    + eapply owned_isolated; [exact Hok'|by eexists _, _|]. intros x3 jh3 d Hx3 Hf. cbn in *.
      destruct Hx', Hx3. simplify_eq. by apply (Hd x2 jh2).
    + intros x3 Hx3. cbn in *. destruct Hx' as [Hx' _]. simplify_eq. apply (Hc x2), Hx2.
  - eapply wp_mono; [by apply (put_access ext t b _ x1 jh1)|]. intros _ k' (Hok' & Hcore & Hj & _).
    split_and!; [eauto|by apply revokes_core|]. right. cbn. by rewrite Hj.
Qed.
End WriteAccess.

(** C5: write access never lets the running transaction disturb the one that is
    committing.  From any state in which buffers belong to the running
    transaction [t], to the committing one or to none, and whatever other
    threads that keep it so do while the call sleeps,
    [jbd2_vmsep_journal_get_write_access] passes all its assertions, keeps the
    filing and access invariants, and when it returns 0 the buffer belongs to
    [t] (now, or next); if the committing transaction still has to log it,
    there is a frozen copy, made by others ([P]) or of the contents the buffer
    has at the return, and that copy is what
    [jbd2_vmsep_journal_write_metadata_buffer] puts into the log, whatever [t]
    writes to the buffer afterwards.  The only error is [-EROFS], from an
    aborted handle or journal. *)
Theorem write_access_isolates find_block (P : list Z -> Prop) h t b envs s x ext :
  (forall s n b, find_block s n = Some b -> exists x, k_bufs s !! b = Some x /\ b_blocknr x = n) ->
  h_transaction h = Some t -> access_ok ext t (a_k s) -> revokes_exact s ->
  k_bufs (a_k s) !! b = Some x -> 0 < b_count x \/ b_page_mapping x = true ->
  (forall jh d, b_private x = Some jh -> b_frozen_data jh = Some d -> P d) ->
  Forall (env_ok P t b) envs ->
  wp (jbd2_vmsep_journal_get_write_access find_block envs h b)
    (fun r s' => match r with
       | None => True
       | Some err => (exists ext, access_ok ext t (a_k s')) /\
           (err = 0 /\ isolated P t b (a_k s') \/
            err = - EROFS /\ h_aborted h || JBD2_ABORT (k_journal (a_k s')) = true)
       end) s.
Proof.
  intros Hfind Hh Hok Hre Hb Hu Hp Henv. unfold jbd2_vmsep_journal_get_write_access.
  destruct (granted_spec h t b s x Hh Hb false) as (g & Hg & Ho).
  eapply wp_exec; [unfold on_k; rewrite Hg; reflexivity|]. replace (s <| a_k := a_k s |>) with s by (by destruct s).
  destruct g.
  - apply wp_ret. split; [eauto|]. left. split; [done|]. destruct (Ho eq_refl) as [Ho' _].
    eapply owned_isolated; [done|done|]. intros x' jh d [Hx1 Hx2] Hd. simplify_eq. left. eauto.
  - apply wp_bind. eapply wp_mono; [by eapply (attach_steady P t b s x ext)|]. intros ? s1 Hst.
    apply wp_bind. eapply wp_mono; [exact (do_access_spec find_block Hfind P h t b Hh envs false s1 Hst Henv)|].
    intros [rc|] s2 Hr; [|done].
    apply wp_bind. eapply wp_mono; [by apply release_spec|]. intros ? s3 (He & _ & Hd). apply wp_ret. split; [done|].
    destruct Hd as [(? & ? & _)|?]; auto.
Qed.

(** And it does return: as soon as two rounds in a row find the buffer
    unlocked and not on its way to the log (the first may have to allocate the
    copy), the call ends, whatever happened before. *)
Theorem write_access_returns find_block (P : list Z -> Prop) h t b pre e1 e2 post s x ext :
  (forall s n b, find_block s n = Some b -> exists x, k_bufs s !! b = Some x /\ b_blocknr x = n) ->
  h_transaction h = Some t -> access_ok ext t (a_k s) -> revokes_exact s ->
  k_bufs (a_k s) !! b = Some x -> 0 < b_count x \/ b_page_mapping x = true ->
  (forall jh d, b_private x = Some jh -> b_frozen_data jh = Some d -> P d) ->
  Forall (env_ok P t b) pre -> calming P t b e1 -> calming P t b e2 -> Forall (env_ok P t b) post ->
  wp (jbd2_vmsep_journal_get_write_access find_block (pre ++ e1 :: e2 :: post) h b) (fun r _ => is_Some r) s.
Proof.
  intros Hfind Hh Hok Hre Hb Hu Hp Hpre H1 H2 Hpost. unfold jbd2_vmsep_journal_get_write_access.
  destruct (granted_spec h t b s x Hh Hb false) as (g & Hg & _).
  eapply wp_exec; [unfold on_k; rewrite Hg; reflexivity|]. replace (s <| a_k := a_k s |>) with s by (by destruct s).
  destruct g; [apply wp_ret; eauto|].
  apply wp_bind. eapply wp_mono; [by eapply (attach_steady P t b s x ext)|]. intros ? s1 Hst.
  assert (Forall (env_ok P t b) (pre ++ e1 :: e2 :: post)) as Henv.
  { apply Forall_app. split; [done|]. repeat apply Forall_cons_2; try done; intros s0 Hs0;
      (eapply wp_mono; [by first [apply H1|apply H2]|by intros ? ? []]). }
  apply wp_bind. eapply wp_mono with (P := fun r s' => is_Some r /\ access_result P h t b r s').
  - pose proof (do_access_spec find_block Hfind P h t b Hh _ false s1 Hst Henv) as Hr.
    assert (wp (do_get_write_access find_block (pre ++ e1 :: e2 :: post) h b false) (fun r _ => is_Some r) s1) as Hs.
    { unfold do_get_write_access. eapply wp_exec; [unfold on_k; rewrite (handle_aborted_exec _ _ _ Hh); reflexivity|].
      replace (s1 <| a_k := a_k s1 |>) with s1 by (by destruct s1). destruct (h_aborted h || _); [apply wp_ret; eauto|].
      rewrite Hh. by eapply access_loop_returns. }
    unfold wp in *. destruct (do_get_write_access _ _ _ _ _ s1) as [[r s2]|]; done.
  - intros r s2 [[rc ->] Hr]. apply wp_bind. eapply wp_mono; [by apply release_spec|]. intros ? s3 _. apply wp_ret. eauto.
Qed.

(** ** A state in which the committing transaction 1 still has to log buffer 1,
    which a handle of the running transaction 2 wants to change *)

Definition ex_abuf (locked : bool) : buffer_head :=
  (ex_bh ex_h1 true) <| b_blocknr := 10 |> <| b_data := [1; 2; 3; 4; 5] |> <| buffer_locked := locked |>.
Definition ex_access_k (x : buffer_head) : kstate :=
  mk_kstate (zero_journal <| j_running_transaction := Some 2%positive |>
                          <| j_committing_transaction := Some 1%positive |>)
    {[ 1%positive := x ]}
    (<[1%positive := zero_transaction <| t_tid := 7 |> <| t_state := T_COMMIT |> <| t_nr_buffers := 1 |>
         <| t_buffers := [1%positive] |>]>
     {[2%positive := zero_transaction <| t_tid := 8 |> <| t_updates := 1 |>]}).
Definition ex_access (locked : bool) : astate :=
  mk_astate (ex_access_k (ex_abuf locked))
    (mk_journal_revoke (jbd2_journal_init_revoke_table 2) (jbd2_journal_init_revoke_table 2) true) (ex_super 0 1 false).
Definition ex_handle2 : handle_t := (new_handle 8) <| h_transaction := Some 2%positive |>.

Lemma ex_bufs_lookup x y x' : k_bufs (ex_access_k x) !! y = Some x' -> y = 1%positive /\ x' = x.
Proof. unfold ex_access_k. cbn [k_bufs]. rewrite lookup_singleton_Some. by intros [<- <-]. Qed.

(** The buffer cache: the buffers of the store, by block. *)
Definition ex_find (s : kstate) (n : Z) : option bh_id :=
  match list_find (fun bx => b_blocknr (snd bx) = n) (map_to_list (k_bufs s)) with
  | Some (_, (b, _)) => Some b
  | None => None
  end.

Lemma ex_find_ok s n b : ex_find s n = Some b -> exists x, k_bufs s !! b = Some x /\ b_blocknr x = n.
Proof.
  unfold ex_find. destruct (list_find _ _) as [[i [b' x]]|] eqn:E; [|done]. intros [= ->].
  apply list_find_Some in E as (Hl & Hn & _). exists x. split; [|done].
  apply elem_of_map_to_list. by eapply list_elem_of_lookup_2.
Qed.

Lemma ex_access_ok locked : access_ok (fun _ => 0) 2 (a_k (ex_access locked)).
Proof.
  split; try done.
  - apply wfb_sound. by destruct locked; vm_compute.
  - intros y x h [Hy Hh]. apply ex_bufs_lookup in Hy as [-> ->]. cbn in Hh. injection Hh as <-.
    split; cbn; try done. intros u [= <-]. by right.
  - intros y x Hy Hh. apply ex_bufs_lookup in Hy as [-> ->]. done.
Qed.

Lemma ex_access_revokes locked : revokes_exact (ex_access locked).
Proof.
  split.
  - apply (init_revoke_table_ok 1). lia.
  - repeat constructor.
  - intros b x Hb. apply ex_bufs_lookup in Hb as [-> ->]. done.
  - intros b1 b2 x1 x2 H1 H2. apply ex_bufs_lookup in H1 as [-> _], H2 as [-> _]. done.
Qed.

Lemma quiet_env_ok P t b : env_ok P t b (kret tt).
Proof. intros s Hs. by apply wp_ret. Qed.

(** Nobody else copies the buffer ([P] is false): the copy the commit will
    log is what the buffer holds. *)
Lemma write_access_isolates_witness :
  wp (jbd2_vmsep_journal_get_write_access ex_find [kret tt] ex_handle2 1)
    (fun r s' => r = Some 0 /\ isolated (fun _ => False) 2 1 (a_k s') /\
       exists x jh, has_jh (a_k s') 1 x jh /\ b_frozen_data jh = Some [1; 2; 3; 4; 5]) (ex_access false).
Proof.
  pose proof (write_access_isolates ex_find (fun _ => False) ex_handle2 2 1 [kret tt] (ex_access false) (ex_abuf false) (fun _ => 0)
    ex_find_ok eq_refl (ex_access_ok false) (ex_access_revokes false) eq_refl (or_introl eq_refl)) as H.
  assert (exists s', jbd2_vmsep_journal_get_write_access ex_find [kret tt] ex_handle2 1 (ex_access false) = Ret (Some 0, s') /\
    exists x jh, has_jh (a_k s') 1 x jh /\ b_frozen_data jh = Some [1; 2; 3; 4; 5]) as (s' & E & Hx).
  { eexists. split; [vm_compute; reflexivity|]. eexists _, _. split; [split; vm_compute; reflexivity|reflexivity]. }
  assert (Forall (env_ok (fun _ => False) 2 1) [kret tt]) as He by (apply Forall_singleton, quiet_env_ok).
  specialize (H (fun jh d Hj Hd => ltac:(injection Hj as <-; discriminate Hd)) He).
  unfold wp in *. rewrite E in *. destruct H as [_ [[_ H]|[H _]]]; done.
Defined.

(** Another thread that unlocks the buffer and ends its I/O. *)
Definition ex_unlock : K astate unit :=
  on_k (modify_bh 1 (fun x => x <| buffer_locked := false |> <| buffer_shadow := false |>)).

Lemma ex_unlock_calming P t : calming P t 1 ex_unlock.
Proof.
  intros s [[ext (Hok & He & x & jh & Hx)] Hre Hcp]. pose proof Hx as [Hb Hh]. unfold ex_unlock.
  apply wp_on_k. eapply wp_modify_bh; [exact Hb|]. set (x' := x <| buffer_locked := false |> <| buffer_shadow := false |>).
  assert (has_jh ((a_k s) <| k_bufs ::= <[1%positive := x']> |>) 1 x' jh) as Hx' by (by apply has_jh_upd).
  split; [split|].
  - exists ext. split_and!; [|done|eauto]. eapply (access_update ext t 1 (a_k s) x jh x' jh); try done; [by left|].
    destruct (ao_two _ _ _ Hok _ _ _ Hx) as [H1 H2 H3 H4 H5]. split; auto; cbn; [done|]. intros Hn [Hl|Hl]; [auto|done].
  - destruct Hre as [Ht Hu Hbits Hinj]. split; cbn; try done.
    + intros b y. rewrite lookup_insert. case_decide; [intros [= <-]; subst; cbn; eauto|eauto].
    + intros b1 b2 y1 y2. rewrite !lookup_insert. repeat case_decide; intros H1 H2 Hn; simplify_eq; eauto.
  - intros y jh' d Hy Hd. destruct Hy, Hx'. cbn in *. simplify_eq. by apply (Hcp x jh').
  - intros y Hy. destruct Hx' as [Hx' _]. cbn in *. simplify_eq. done.
Qed.

Lemma write_access_returns_witness :
  wp (jbd2_vmsep_journal_get_write_access ex_find [kret tt; ex_unlock; ex_unlock] ex_handle2 1)
    (fun r _ => is_Some r) (ex_access true).
Proof.
  apply (write_access_returns ex_find (fun _ => False) ex_handle2 2 1 [kret tt] ex_unlock ex_unlock []
    (ex_access true) (ex_abuf true) (fun _ => 0)).
  - apply ex_find_ok.
  - reflexivity.
  - apply ex_access_ok.
  - apply ex_access_revokes.
  - reflexivity.
  - by left.
  - intros jh d [= <-]. done.
  - apply Forall_singleton, quiet_env_ok.
  - apply ex_unlock_calming.
  - apply ex_unlock_calming.
  - constructor.
Defined.

(** ** Forgetting *)

(** One buffer changes, the lists stay well-formed. *)
Lemma access_step ext t b s s' x' :
  access_ok ext t s -> wf ext s' -> k_journal s' = k_journal s -> is_Some (k_trans s' !! t) ->
  k_bufs s' = <[b := x']> (k_bufs s) ->
  match b_private x' with
  | Some h' => two_ok t (k_journal s) x' h'
  | None => buffer_shadow x' = false /\ ext b = 0
  end -> access_ok ext t s'.
Proof.
  intros [_ Hext _ Hrun Hcom Htwo Hbare] Hwf Hj Htr Hb Hx. split; rewrite ?Hj; try done.
  - intros y x h [Hy Hh]. rewrite Hb, lookup_insert in Hy. case_decide; [simplify_eq; by rewrite Hh in Hx|by apply (Htwo y)].
  - intros y x Hy Hh. rewrite Hb, lookup_insert in Hy. case_decide; [simplify_eq; by rewrite Hh in Hx|by apply Hbare].
Qed.

Lemma alter_is_some {A} (m : gmap positive A) f i k : is_Some (m !! k) -> is_Some (alter f i m !! k).
Proof. intros [x Hx]. rewrite lookup_alter. case_decide; subst; rewrite Hx; cbn; eauto. Qed.

(** The reference of the caller to the buffer is dropped. *)
Lemma brelse_access ext t s b x :
  access_ok ext t s -> k_bufs s !! b = Some x ->
  wp (__brelse b) (fun _ s' => access_ok ext t s' /\ same_core s s' /\ same_strip s s') s.
Proof.
  intros Hok Hb. destruct (brelse_exec s b x Hb) as [n Hr]. unfold wp. rewrite Hr.
  assert (same_strip s (s <| k_bufs ::= <[b := x <| b_count := n |>]> |>)) as Hs by (by eapply same_strip_set).
  split_and!; [by eapply access_strip|by eapply same_core_set|done].
Qed.

Lemma core_data x x' : core x' = core x -> buffer_shadow x' = buffer_shadow x.
Proof. unfold core. congruence. Qed.

(** The dirty bits do not matter to the invariant. *)
Lemma set_dirty_access ext t s b x d jd :
  access_ok ext t s -> k_bufs s !! b = Some x ->
  let x' := x <| buffer_dirty := d |> <| buffer_jbddirty := jd |> in
  let s' := s <| k_bufs ::= <[b := x']> |> in access_ok ext t s' /\ same_core s s'.
Proof.
  intros Hok Hb x' s'. split; [|by apply (same_core_set s b x)].
  apply (access_step ext t b s s' x'); try done; [|apply Hok|].
  - eapply (wf_flags ext s (k_journal s) b x x'); try done. apply Hok.
  - change (b_private x') with (b_private x). destruct (b_private x) as [h|] eqn:Hh.
    + by destruct (ao_two _ _ _ Hok b x h (conj Hb Hh)).
    + by apply (ao_bare _ _ _ Hok b x).
Qed.

Section Forget.
Context (ext : bh_id -> Z) (t : tr_id) (b : bh_id).

(** A buffer with an older checkpoint goes to [BJ_Forget]. *)
Lemma forget_to_list s x h :
  access_ok ext t s -> has_jh s b x h -> b_transaction h = Some t ->
  wp (__jbd2_journal_temp_unlink_buffer b ;;; __jbd2_vmsep_journal_file_buffer b t BJ_Forget ;;; __brelse b)
    (fun _ s' => access_ok ext t s' /\ same_core s s' /\
       exists x' h', has_jh s' b x' h' /\ b_jlist h' = BJ_Forget /\ b_transaction h' = Some t) s.
Proof.
  intros Hok Hx Ht. destruct (two_unshared _ _ _ _ _ _ Hok Hx (or_introl Ht)) as (Hn & Hf & Hs). wp_step.
  eapply wp_mono; [apply (wp_keeps same_core); [apply core_temp_unlink|
    by apply (temp_unlink_spec ext s b x h), Hx; apply Hok]|].
  intros ? s2 [(Hwf2 & Hj2 & Hd2 & Hx2 & Hb2 & Ht2) Hc2]. cbn beta in *.
  set (x2 := if decide _ then _ else _) in *. set (h2 := h <| b_jlist := BJ_None |>) in *.
  assert (buffer_shadow x2 = false) as Hs2.
  { rewrite <- Hs. apply (core_data x x2). eapply same_core_lookup; [exact Hc2|exact (proj1 Hx)|exact (proj1 Hx2)]. }
  assert (access_ok ext t s2) as Hok2.
  { eapply (access_step ext t b s s2 x2); try done.
    - rewrite Ht2, Ht. by apply alter_is_some, Hok.
    - rewrite (proj2 Hx2). destruct (ao_two _ _ _ Hok _ _ _ Hx) as [H1 H2 H3 H4 H5].
      split; cbn; rewrite ?Hs2, ?Hn; auto; try done; by intros []. }
  wp_step. eapply wp_mono; [apply (access_file ext t b s2 x2 h2 BJ_Forget); try done; [by left|by intros [_ ?]]|].
  intros ? s3 (Hok3 & Hc3 & _ & x3 & Hx3 & _).
  eapply wp_mono; [apply (brelse_access ext t s3 b x3); [done|exact (proj1 Hx3)]|].
  intros ? s4 (Hok4 & Hc4 & Hs4). split_and!; [done|transitivity s2; [done|]; by transitivity s3|].
  destruct (same_strip_jh _ _ _ _ _ (same_strip_sym _ _ Hs4) Hx3) as (x4 & Hx4 & _). by eexists x4, _.
Qed.

(** What is left of the journal head after the transaction let go of it. *)
Lemma put_unfiled x1 h :
  b_jcount h = 1 + ref (b_cp_transaction h) + ext b -> b_cp_transaction h = None ->
  b_next_transaction h = None -> b_frozen_data h = None ->
  let x2 := bh_put x1 (h <| b_jlist := BJ_None |> <| b_transaction := None |>) in
  (forall h', b_private x2 = Some h' -> b_transaction h' = None /\ b_next_transaction h' = None /\ b_frozen_data h' = None) /\
  (b_private x2 = None -> ext b = 0).
Proof.
  intros Hcount Hcp Hn Hf. rewrite Hcp in Hcount. cbn in Hcount. unfold bh_put. cbn.
  destruct (b_jcount h =? 1) eqn:E1; cbn; split; try done; bool_to_prop; [lia|]. by intros h' [= <-].
Qed.

(** Any other buffer leaves the transaction. *)
Lemma forget_unfile s x h :
  access_ok ext t s -> has_jh s b x h -> b_transaction h = Some t -> b_cp_transaction h = None ->
  wp (__jbd2_journal_unfile_buffer b ;;; x <- read_bh b ;; if buffer_jbd x then __brelse b else __bforget b)
    (fun _ s' => access_ok ext t s' /\ same_core s s' /\ ~ owned t b s') s.
Proof.
  intros Hok Hx Ht Hcp. destruct (two_unshared _ _ _ _ _ _ Hok Hx (or_introl Ht)) as (Hn & Hf & Hs). wp_step.
  eapply wp_mono; [apply (wp_keeps same_core); [apply core_unfile|
    by apply (unfile_buffer_spec ext s b x h); [apply Hok|exact Hx|eauto|..|apply Hok]]|].
  intros ? s2 [(Hwf2 & Hj2 & Hb2 & Ht2) Hc2]. cbn beta in *.
  destruct (wf_jh _ _ _ _ _ (ao_wf _ _ _ Hok) (proj1 Hx) (proj2 Hx)) as [_ Hjh].
  pose proof (jh_count _ _ _ _ Hjh) as Hcount. rewrite Ht in Hcount. cbn in Hcount.
  set (x1 := if decide _ then _ else _) in *. destruct (put_unfiled x1 h Hcount Hcp Hn Hf) as [Hx2h Hx2n].
  set (x2 := bh_put x1 _) in *.
  assert (k_bufs s2 !! b = Some x2) as Hx2 by (rewrite Hb2; apply lookup_insert_eq).
  assert (buffer_shadow x2 = false) as Hs2.
  { rewrite <- Hs. apply (core_data x x2). eapply same_core_lookup; [exact Hc2|exact (proj1 Hx)|exact Hx2]. }
  clearbody x2. assert (access_ok ext t s2) as Hok2.
  { eapply (access_step ext t b s s2 x2); try done.
    - rewrite Ht2, Ht. by apply alter_is_some, Hok.
    - destruct (b_private x2) as [h2|]; [|auto]. destruct (Hx2h h2 eq_refl) as (H1 & H2 & H3).
      split; rewrite ?Hs2, ?H1, ?H2, ?H3; try done; by intros []. }
  (* dropping the last reference *)
  assert (forall s3 x3, access_ok ext t s3 -> same_core s2 s3 -> k_bufs s3 !! b = Some x3 -> b_private x3 = b_private x2 ->
    wp (__brelse b) (fun _ s' => access_ok ext t s' /\ same_core s s' /\ ~ owned t b s') s3) as Hdrop.
  { intros s3 x3 Hok3 Hc3 Hb3 Hp3. eapply wp_mono; [by apply (brelse_access ext t s3 b x3)|].
    intros ? s4 (Hok4 & Hc4 & Hs4). split_and!; [done|transitivity s2; [done|]; by transitivity s3|].
    intros (y & hy & Hy & Ho). destruct (same_strip_jh _ _ _ _ _ Hs4 Hy) as (y' & [Hy1 Hy2] & _).
    simplify_eq. destruct (Hx2h hy) as (H1 & H2 & _); [congruence|]. destruct Ho; congruence. }
  wp_step. eapply wp_read_bh; [exact Hx2|]. destruct (buffer_jbd x2); [by apply (Hdrop s2 x2)|].
  unfold __bforget, clear_buffer_dirty. wp_step. eapply wp_modify_bh; [exact Hx2|].
  destruct (set_dirty_access ext t s2 b x2 false (buffer_jbddirty x2) Hok2 Hx2) as [Hok3 Hc3].
  eapply Hdrop; [exact Hok3|exact Hc3|apply lookup_insert_eq|done].
Qed.

(** The buffer of the handle's transaction leaves it, or moves to [BJ_Forget]
    when an older checkpoint still refers to it. *)
Lemma forget_own_spec s x h :
  access_ok ext t s -> has_jh s b x h -> b_transaction h = Some t ->
  wp (forget_own t b)
    (fun _ s' => access_ok ext t s' /\ same_core s s' /\
       match b_cp_transaction h with
       | None => ~ owned t b s'
       | Some _ => exists x' h', has_jh s' b x' h' /\ b_jlist h' = BJ_Forget /\ b_transaction h' = Some t
       end) s.
Proof.
  intros Hok Hx Ht. pose proof Hx as [Hb Hh].
  destruct (two_unshared _ _ _ _ _ _ Hok Hx (or_introl Ht)) as (_ & Hf & _).
  unfold forget_own, clear_buffer_dirty, clear_buffer_jbddirty.
  wp_step. eapply wp_read_jh; [exact Hb|exact Hh|]. wp_step. apply wp_assert; [by apply bool_decide_eq_true|].
  wp_step. eapply wp_modify_bh; [exact Hb|]. wp_step. eapply wp_modify_bh; [apply lookup_insert_eq|].
  cbn [k_bufs k_journal k_trans]. rewrite insert_insert_eq.
  destruct (set_dirty_access ext t s b x false false Hok Hb) as [Hok1 Hc1].
  set (x1 := x <| buffer_dirty := false |> <| buffer_jbddirty := false |>) in *.
  set (s1 := s <| k_bufs ::= <[b := x1]> |>) in *. match goal with |- wp ?m ?Q _ => change (wp m Q s1) end.
  assert (has_jh s1 b x1 h) as Hx1 by (by apply has_jh_upd). clearbody s1.
  destruct (b_cp_transaction h) as [cp|] eqn:Hcp.
  - rewrite bool_decide_true by eauto. eapply wp_mono; [by apply (forget_to_list s1 x1 h)|].
    intros ? s2 (? & ? & ?). split_and!; [done|by transitivity s1|done].
  - rewrite bool_decide_false by (by intros []). eapply wp_mono; [by apply (forget_unfile s1 x1 h)|].
    intros ? s2 (? & ? & ?). split_and!; [done|by transitivity s1|done].
Qed.

(** A buffer of the committing transaction only leaves the next one. *)
Lemma forget_committing_spec s x h :
  access_ok ext t s -> has_jh s b x h -> is_Some (b_transaction h) -> b_transaction h <> Some t ->
  wp (forget_committing t b)
    (fun l s' => access_ok ext t s' /\ same_core s s' /\ ~ owned t b s' /\
       l = bool_decide (b_next_transaction h = Some t) /\
       k_bufs s' !! b = Some (if l then x <| b_private := Some (h <| b_next_transaction := None |>) |> else x)) s.
Proof.
  intros Hok Hx [u Hu] Hnt. pose proof Hx as [Hb Hh]. pose proof (ao_two _ _ _ Hok _ _ _ Hx) as Htwo.
  unfold forget_committing. wp_step. eapply wp_read_jh; [exact Hb|exact Hh|]. wp_step. wp_step.
  wp_step. apply wp_assert.
  { apply bool_decide_eq_true. destruct (two_tr _ _ _ _ Htwo u Hu); congruence. }
  destruct (b_next_transaction h) as [nt|] eqn:Hn.
  - destruct (two_next _ _ _ _ Htwo nt Hn) as [-> Hc]. wp_step. apply wp_assert; [by apply bool_decide_eq_true|].
    wp_step. eapply wp_modify_jh; [exact Hb|exact Hh|]. wp_step.
    set (x' := x <| b_private := _ |>). set (h' := h <| b_next_transaction := None |>).
    rewrite bool_decide_true by done. split_and!; [|by apply (same_core_set s b x)| |done|apply lookup_insert_eq].
    + eapply (access_update ext t b s x h x' h'); try done; [by right; left|].
      destruct Htwo as [H1 H2 H3 H4 H5]. split; cbn; auto; done.
    + intros (y & hy & [Hy1 Hy2] & Ho). cbn in Hy1. rewrite lookup_insert_eq in Hy1. simplify_eq.
      cbn in Hy2. simplify_eq. cbn in Ho. destruct Ho; [congruence|done].
  - wp_step. rewrite bool_decide_false by done. split_and!; try done.
    intros (y & hy & [Hy1 Hy2] & Ho). simplify_eq. destruct Ho; congruence.
Qed.

(** The result of forgetting: an error for a buffer with committed data, and
    one credit back when the transaction had modified the buffer. *)
Definition forget_result (h : handle_t) (x : buffer_head) : Z * handle_t :=
  match b_private x with
  | None => (0, h)
  | Some jh =>
    if bool_decide (is_Some (b_committed_data jh)) then (- EIO, h)
    else (0, if (bool_decide (b_transaction jh = Some t) || bool_decide (b_next_transaction jh = Some t)) && b_modified jh
             then h <| h_buffer_credits := h_buffer_credits h + 1 |> else h)
  end.

Lemma forget_spec h s x :
  access_ok ext t s -> h_transaction h = Some t -> h_aborted h || JBD2_ABORT (k_journal s) = false ->
  k_bufs s !! b = Some x ->
  wp (jbd2_vmsep_journal_forget h b)
    (fun r s' => access_ok ext t s' /\ same_core s s' /\ r = forget_result h x /\
       (r.1 = 0 -> owned t b s' -> exists x' h', has_jh s' b x' h' /\ b_jlist h' = BJ_Forget)) s.
Proof.
  intros Hok Hh Ha Hb. unfold jbd2_vmsep_journal_forget, forget_result.
  eapply wp_exec; [by eapply handle_aborted_exec|]. rewrite Ha, Hh. wp_step. eapply wp_read_bh; [exact Hb|].
  destruct (wf_bh _ _ (ao_wf _ _ _ Hok) b x Hb) as [Hjbd _].
  (* nothing but the caller's reference *)
  assert (forall e, (e = 0 -> ~ owned t b s) ->
    wp (__brelse b ;;; kret (e, h)) (fun r s' => access_ok ext t s' /\ same_core s s' /\ r = (e, h) /\
       (r.1 = 0 -> owned t b s' -> exists x' h', has_jh s' b x' h' /\ b_jlist h' = BJ_Forget)) s) as Hquit.
  { intros e He. wp_step. eapply wp_mono; [by apply (brelse_access ext t s b x)|]. intros ? s' (? & ? & Hs).
    wp_step. split_and!; try done. cbn. intros -> Ho. destruct He; [done|]. by eapply owned_strip; [apply same_strip_sym|]. }
  destruct (b_private x) as [jh|] eqn:Hp; rewrite Hjbd.
  2: { rewrite bool_decide_false by (by intros []). apply Hquit. intros _ (y & hy & [Hy1 Hy2] & _). congruence. }
  rewrite bool_decide_true by eauto. cbn [negb]. wp_step. eapply wp_read_jh; [exact Hb|exact Hp|].
  destruct (bool_decide (is_Some (b_committed_data jh))); [by apply Hquit|].
  pose proof (ao_two _ _ _ Hok b x jh (conj Hb Hp)) as Htwo.
  wp_step. eapply wp_modify_jh; [exact Hb|exact Hp|].
  set (jh1 := jh <| b_modified := false |>). set (x1 := x <| b_private := Some jh1 |>).
  set (s1 := s <| k_bufs ::= <[b := x1]> |>). match goal with |- wp ?m ?Q _ => change (wp m Q s1) end.
  assert (has_jh s1 b x1 jh1) as Hx1 by (by apply has_jh_upd).
  assert (access_ok ext t s1) as Hok1.
  { eapply (access_update ext t b s x jh x1 jh1); try done; [by left|by destruct Htwo]. }
  assert (same_core s s1) as Hc1 by (by apply (same_core_set s b x)). clearbody s1.
  destruct (bool_decide (b_transaction jh = Some t)) eqn:Et; cbn [orb]; wp_step.
  - apply bool_decide_eq_true in Et. wp_step. eapply wp_mono; [by apply (forget_own_spec s1 x1 jh1)|].
    intros ? s2 (Hok2 & Hc2 & Hl). wp_step. wp_step. split_and!; [done|by transitivity s1|done|]. intros _ Ho.
    cbn in Hl. destruct (b_cp_transaction jh); [destruct Hl as (? & ? & ? & ? & _); eauto|done].
  - apply bool_decide_eq_false in Et.
    assert (wp (if bool_decide (is_Some (b_transaction jh)) then forget_committing t b else kret false)
      (fun l s2 => access_ok ext t s2 /\ same_core s1 s2 /\ ~ owned t b s2 /\
         l = bool_decide (b_next_transaction jh = Some t) /\ is_Some (k_bufs s2 !! b)) s1) as Hf.
    { destruct (b_transaction jh) as [u|] eqn:Hu.
      - rewrite bool_decide_true by eauto. eapply wp_mono; [apply (forget_committing_spec s1 x1 jh1); cbn; rewrite ?Hu; eauto|].
        intros l s2 (? & ? & ? & ? & Hb2). split_and!; eauto.
      - rewrite bool_decide_false by (by intros []). wp_step.
        destruct (two_unshared _ _ _ _ _ _ Hok1 Hx1 (or_intror Hu)) as (Hn & _ & _). cbn in Hn.
        rewrite Hn, bool_decide_false by done. destruct Hx1 as [Hx1 Hx1'].
        split_and!; try done. intros (y & hy & [Hy1 Hy2] & Ho). simplify_eq. cbn in Ho. destruct Ho; congruence. }
    wp_step. eapply wp_mono; [exact Hf|]. intros l s2 (Hok2 & Hc2 & Hno & -> & [x2 Hx2]).
    wp_step. eapply wp_mono; [by apply (brelse_access ext t s2 b x2)|]. intros ? s3 (Hok3 & Hc3 & Hs3).
    wp_step. wp_step. split_and!; [done|transitivity s1; [done|]; by transitivity s2|done|].
    intros _ Ho. destruct Hno. by eapply owned_strip; [apply same_strip_sym|].
Qed.
End Forget.

(** ** Revoking *)

Lemma set_revoke_feature chk alloc fd j :
  j_format_version j = 2 ->
  exists j', jbd2_vmsep_journal_set_features chk alloc fd 0 0 JBD2_FEATURE_INCOMPAT_REVOKE j = Ret (true, j').
Proof.
  intros Hv. unfold jbd2_vmsep_journal_set_features. unfold kbind at 1. rewrite check_used_exec by done.
  destruct (all_used _ _ _ _); [by eexists|].
  unfold jbd2_vmsep_journal_check_available_features, kbind, get. cbn. rewrite Hv. by eexists.
Qed.

Lemma insert_record_spec t n seq :
  table_ok t -> unique_records t -> find_revoke_record t n = None ->
  table_ok (insert_revoke_hash t n seq) /\ unique_records (insert_revoke_hash t n seq).
Proof.
  intros Hok Hu Hn. split; [by apply insert_revoke_hash_ok|].
  unfold unique_records, insert_revoke_hash. cbn. apply Forall_lookup_2. intros i l Hl.
  rewrite list_lookup_alter in Hl. case_decide as Hi; [|by apply (Forall_lookup_1 _ _ _ _ Hu Hl)].
  apply fmap_Some in Hl as (l0 & Hl0 & ->). cbn. apply NoDup_cons. split; [|by apply (Forall_lookup_1 _ _ _ _ Hu Hl0)].
  apply find_in_list_elem. unfold find_revoke_record in Hn. by rewrite Hl0 in Hn.
Qed.

(** The bits after the record of [b]'s block went into the table. *)
Lemma bits_after_revoke s b x n seq k' sb r :
  revokes_exact s -> k_bufs (a_k s) !! b = Some x -> b_blocknr x = n ->
  find_revoke_record (current_table (a_revoke s)) n = None ->
  same_core ((a_k s) <| k_bufs ::= <[b := x <| buffer_revoked := true |> <| buffer_revokevalid := true |>]> |>) k' ->
  current_table r = insert_revoke_hash (current_table (a_revoke s)) n seq ->
  revokes_exact (mk_astate k' r sb).
Proof.
  intros [Ht Hu Hbits Hinj] Hb <- Hnone Hc Hr.
  set (x1 := x <| buffer_revoked := true |> <| buffer_revokevalid := true |>) in *.
  set (k1 := (a_k s) <| k_bufs ::= <[b := x1]> |>) in *.
  cut (revokes_exact (mk_astate k1 r sb)); [intros Hre; by apply (revokes_core (mk_astate k1 r sb) k')|].
  destruct (insert_record_spec _ (b_blocknr x) seq Ht Hu Hnone) as [Ht' Hu']. split; cbn [a_k a_revoke]; rewrite ?Hr; try done.
  - intros b' x'. cbn. rewrite find_insert by done. rewrite lookup_insert. case_decide as Eb.
    + intros [= <-] _. cbn. rewrite Z.eqb_refl. split; eauto.
    + intros Hb' Hv. destruct (_ =? _) eqn:E; [|eauto]. bool_to_prop. by destruct Eb; eapply Hinj.
  - intros b1 b2 y1 y2. cbn. rewrite !lookup_insert. repeat case_decide; intros H1 H2 Hn; simplify_eq; eauto.
Qed.

(** A revoke is recorded exactly and cancelled exactly.  Revoking the block of
    a buffer of the file system in an open transaction drops the buffer from
    that transaction, gives back its credit, and puts one record with the
    transaction's id into the current revoke table; the revoke bits of all
    buffers agree with the table again and both invariants hold.  Cancelling
    the revoke, as every new write access to the buffer does, then removes
    the record: the table answers every block as before the revoke. *)
Theorem revoke_cancel_roundtrip find_block chk alloc fd h t tr b n s x ext :
  (forall s n b, find_block s n = Some b -> exists x, k_bufs s !! b = Some x /\ b_blocknr x = n) ->
  h_transaction h = Some t -> h_aborted h || JBD2_ABORT (k_journal (a_k s)) = false ->
  access_ok ext t (a_k s) -> revokes_exact s -> j_format_version (a_sb s) = 2 ->
  k_trans (a_k s) !! t = Some tr -> k_bufs (a_k s) !! b = Some x -> b_blocknr x = n -> buffer_revoked x = false ->
  find_revoke_record (current_table (a_revoke s)) n = None ->
  wp (jbd2_vmsep_journal_revoke find_block chk alloc fd h n (Some b))
    (fun r s1 => r = (0, (forget_result t h x).2) /\ access_ok ext t (a_k s1) /\ revokes_exact s1 /\
       (forall m, find_revoke_record (current_table (a_revoke s1)) m =
          if n =? m then Some (mk_revoke_record (t_tid tr) n) else find_revoke_record (current_table (a_revoke s)) m) /\
       wp (jbd2_vmsep_journal_cancel_revoke find_block b)
         (fun did s2 => did = true /\ access_ok ext t (a_k s2) /\ revokes_exact s2 /\
            forall m, find_revoke_record (current_table (a_revoke s2)) m =
                      find_revoke_record (current_table (a_revoke s)) m) s1) s.
Proof.
  intros Hfind Hh Ha Hok Hre Hv Htr Hb Hn Hrev Hnone. unfold jbd2_vmsep_journal_revoke. rewrite Hh.
  destruct (set_revoke_feature chk alloc fd (a_sb s) Hv) as [sb' Hsf].
  eapply wp_exec; [unfold on_sb; rewrite Hsf; reflexivity|]. wp_step. apply wp_assert; [done|].
  wp_step. wp_step. apply wp_bind, wp_on_k. eapply wp_read_bh; [exact Hb|]. rewrite Hrev.
  apply wp_bind, wp_on_k. eapply wp_modify_bh; [exact Hb|]. cbn [a_k].
  set (x1 := x <| buffer_revoked := true |> <| buffer_revokevalid := true |>).
  set (k1 := (a_k s) <| k_bufs ::= <[b := x1]> |>).
  assert (same_strip (a_k s) k1) as Hs1 by (by apply (same_strip_set _ _ x)).
  assert (access_ok ext t k1) as Hok1 by (by eapply access_strip).
  apply wp_bind, wp_bind, wp_on_k. eapply wp_mono; [apply (forget_spec ext t b h k1 x1); try done; apply lookup_insert_eq|].
  intros r k2 (Hok2 & Hc2 & -> & _). wp_step. apply wp_bind.
  replace (forget_result t h x1) with (forget_result t h x) by done.
  assert (h_transaction (forget_result t h x).2 = Some t) as Hh'.
  { unfold forget_result. destruct (b_private x); [|done]. by repeat case_match. }
  destruct (same_core_tid k1 k2 t tr Hc2 Htr) as (tr2 & Htr2 & Htid).
  unfold insert_revoke. rewrite Hh'. apply wp_bind, wp_on_k. eapply wp_read_tr; [exact Htr2|].
  unfold get_revoke, set_revoke_table. eapply wp_exec; [reflexivity|]. unfold wp at 1. apply wp_ret. cbn [a_k a_revoke a_sb].
  rewrite Htid. set (rv := with_current_table _ _).
  assert (current_table rv = insert_revoke_hash (current_table (a_revoke s)) n (t_tid tr)) as Hrv by apply current_with.
  assert (revokes_exact (mk_astate k2 rv sb')) as Hre2 by (by eapply (bits_after_revoke s b x n)).
  assert (forall m, find_revoke_record (current_table rv) m =
    if n =? m then Some (mk_revoke_record (t_tid tr) n) else find_revoke_record (current_table (a_revoke s)) m) as Hf.
  { intros m. rewrite Hrv. by apply find_insert, Hre. }
  split_and!; try done.
  assert (exists x2, k_bufs k2 !! b = Some x2 /\ b_blocknr x2 = n) as (x2 & Hx2 & Hn2).
  { destruct Hc2 as [Hc2 _]. apply (f_equal (lookup b)) in Hc2. rewrite !lookup_fmap in Hc2. cbn in Hc2.
    rewrite lookup_insert_eq in Hc2. cbn in Hc2. apply fmap_Some in Hc2 as (x2 & Hx2 & Hco). exists x2. split; [done|].
    unfold core in Hco. cbn in Hco. congruence. }
  eapply wp_mono; [by apply (cancel_revoke_spec find_block Hfind _ b x2)|].
  intros did s2 (Hs2 & Hre3 & _ & Hdid & Hf2). cbn in Hs2, Hf2, Hdid. split_and!; try done.
  - apply Hdid. rewrite Hf, Hn2, Z.eqb_refl. eauto.
  - by eapply access_strip.
  - intros m. rewrite Hf2, Hf, Hn2. destruct (n =? m) eqn:E; [|done]. bool_to_prop. by subst.
Qed.

Lemma revoke_cancel_roundtrip_witness :
  wp (jbd2_vmsep_journal_revoke ex_find ex_sum 0 None ex_handle2 10 (Some 1%positive))
    (fun r s1 => r.1 = 0 /\
       find_revoke_record (current_table (a_revoke s1)) 10 = Some (mk_revoke_record 8 10) /\
       wp (jbd2_vmsep_journal_cancel_revoke ex_find 1)
         (fun did s2 => did = true /\ find_revoke_record (current_table (a_revoke s2)) 10 = None) s1) (ex_access false).
Proof.
  eapply wp_mono; [eapply (revoke_cancel_roundtrip ex_find ex_sum 0 None ex_handle2 2 _ 1 10 (ex_access false) (ex_abuf false)
    (fun _ => 0)); [apply ex_find_ok|reflexivity|reflexivity|apply ex_access_ok|apply ex_access_revokes|reflexivity..]|].
  intros r s1 (-> & _ & _ & Hf & Hw). split_and!; [reflexivity|apply (Hf 10)|].
  eapply wp_mono; [exact Hw|]. intros did s2 (-> & _ & _ & Hf2). split; [done|]. rewrite Hf2. reflexivity.
Defined.

(** ** Dirtying *)

Section Dirty.
Context (ext : bh_id -> Z) (h : handle_t) (t : tr_id) (b : bh_id) (ino_ : Z).

(** The slow path: the buffer is marked with the inode and filed for the
    journal, unless it is on the metadata list already. *)
Lemma dirty_slow_spec s x jh :
  access_ok ext t s -> has_jh s b x jh -> b_transaction jh = Some t \/ b_next_transaction jh = Some t ->
  wp (dirty_slow h t b ino_)
    (fun r s' => access_ok ext t s' /\ k_journal s' = k_journal s /\ r = (0, h) /\
       if bool_decide (b_transaction jh = Some t /\ b_jlist jh = BJ_Metadata) then s' = s
       else same_core s s' /\ exists x' jh', has_jh s' b x' jh' /\ ino jh' = ino_ /\ buffer_jbddirty x' = true /\
            b_modified jh' = b_modified jh /\ b_next_transaction jh' = b_next_transaction jh /\
            b_transaction jh' = b_transaction jh /\
            b_jlist jh' = if bool_decide (b_transaction jh = Some t) then BJ_Metadata else b_jlist jh) s.
Proof.
  intros Hok Hx Ho. pose proof Hx as [Hb Hh]. pose proof (ao_two _ _ _ Hok _ _ _ Hx) as Htwo.
  unfold dirty_slow. wp_step. eapply wp_read_jh; [exact Hb|exact Hh|]. wp_step. wp_step.
  destruct (bool_decide (b_transaction jh = Some t) && bool_decide (b_jlist jh = BJ_Metadata)) eqn:Em.
  { rewrite andb_true_iff, !bool_decide_eq_true in Em. rewrite (bool_decide_true (_ /\ _)) by done.
    wp_step. destruct Em as [Em _]. rewrite Em, (ao_run _ _ _ Hok), bool_decide_true by done. done. }
  rewrite (bool_decide_false (_ /\ _)) by (rewrite andb_false_iff, !bool_decide_eq_false in Em; naive_solver).
  unfold set_buffer_jbddirty. wp_step. eapply wp_modify_bh; [exact Hb|].
  wp_step. eapply wp_modify_jh; [apply lookup_insert_eq|exact Hh|]. cbn [k_bufs k_journal k_trans]. rewrite insert_insert_eq.
  set (jh1 := jh <| ino := ino_ |>). set (x1 := x <| buffer_jbddirty := true |> <| b_private := Some jh1 |>).
  set (s1 := s <| k_bufs ::= <[b := x1]> |>). match goal with |- wp ?m ?Q _ => change (wp m Q s1) end.
  assert (has_jh s1 b x1 jh1) as Hx1 by (by apply has_jh_upd).
  assert (access_ok ext t s1) as Hok1.
  { eapply (access_update ext t b s x jh x1 jh1); try done; [by left|by destruct Htwo]. }
  assert (same_core s s1) as Hc1 by (by apply (same_core_set s b x)).
  assert (k_journal s1 = k_journal s) as Hj1 by done. clearbody s1.
  destruct (bool_decide (b_transaction jh = Some t)) eqn:Et; cbn [negb].
  - apply bool_decide_eq_true in Et. destruct (two_unshared _ _ _ _ _ _ Hok Hx (or_introl Et)) as (Hn & Hf & _).
    wp_step. apply wp_assert; [by apply bool_decide_eq_true|]. wp_step.
    eapply wp_mono; [apply (access_file ext t b s1 x1 jh1 BJ_Metadata); try done; [by left|]|].
    { intros [_ Hl]. cbn in Hl, Em. by rewrite bool_decide_true in Em. }
    intros _ s2 (Hok2 & Hc2 & Hj2 & x2 & Hx2 & _ & Hjd). wp_step. split_and!; [done|congruence|done|by transitivity s1|].
    eexists x2, _. split_and!; [exact Hx2|done|by rewrite Hjd, orb_true_r|done..].
  - apply bool_decide_eq_false in Et. destruct Ho as [?|Ho]; [done|]. destruct (two_next _ _ _ _ Htwo t Ho) as [_ Hc].
    wp_step. rewrite !bool_decide_true by done. split_and!; try done. by exists x1, jh1.
Qed.
End Dirty.

Lemma dirty_modify_spec ext t b s x jh m :
  access_ok ext t s -> has_jh s b x jh ->
  let jh1 := jh <| b_modified := m |> in let x1 := x <| b_private := Some jh1 |> in
  let s1 := s <| k_bufs ::= <[b := x1]> |> in
  access_ok ext t s1 /\ same_core s s1 /\ has_jh s1 b x1 jh1.
Proof.
  intros Hok Hx jh1 x1 s1. pose proof Hx as [Hb Hh]. split_and!.
  - eapply (access_update ext t b s x jh x1 jh1); try done; [by left|]. by destruct (ao_two _ _ _ Hok _ _ _ Hx).
  - by apply (same_core_set s b x).
  - by apply has_jh_upd.
Qed.

(** Every case of dirtying a buffer. *)
Lemma dirty_metadata_spec ext h t b ino_ s x jh :
  access_ok ext t s -> h_transaction h = Some t -> h_aborted h || JBD2_ABORT (k_journal s) = false ->
  has_jh s b x jh -> b_transaction jh = Some t \/ b_next_transaction jh = Some t ->
  (b_modified jh = true -> b_transaction jh = Some t -> b_jlist jh = BJ_Metadata) ->
  wp (jbd2_vmsep_journal_dirty_metadata h b ino_)
    (fun r s' => access_ok ext t s' /\ k_journal s' = k_journal s /\
       if b_modified jh then r = (0, h) /\ s' = s
       else if h_buffer_credits h <=? 0 then
         r = (- ENOSPC, h) /\
         (b_transaction jh = Some t -> b_jlist jh <> BJ_Metadata ->
          jbd2_vmsep_journal_dirty_metadata h b ino_ s' = Fault Assert)
       else
         r = (0, h <| h_buffer_credits := h_buffer_credits h - 1 |>) /\
         exists x' jh', has_jh s' b x' jh' /\ b_modified jh' = true /\
           (if bool_decide (b_transaction jh = Some t)
            then b_transaction jh' = Some t /\ b_jlist jh' = BJ_Metadata
            else b_next_transaction jh' = Some t /\ b_jlist jh' = b_jlist jh) /\
           (~ (b_transaction jh = Some t /\ b_jlist jh = BJ_Metadata) -> ino jh' = ino_ /\ buffer_jbddirty x' = true)) s.
Proof.
  intros Hok Hh Ha Hx Ho Hm. pose proof Hx as [Hb Hp]. destruct (wf_jh _ _ _ _ _ (ao_wf _ _ _ Hok) Hb Hp) as [Hj _].
  unfold jbd2_vmsep_journal_dirty_metadata at 1. eapply wp_exec; [by eapply handle_aborted_exec|]. rewrite Ha, Hh.
  wp_step. eapply wp_read_bh; [exact Hb|]. rewrite Hj. cbn [negb].
  wp_step. eapply wp_read_jh; [exact Hb|exact Hp|]. wp_step. apply wp_assert.
  { rewrite orb_true_iff, !bool_decide_eq_true. done. }
  destruct (b_modified jh) eqn:Em.
  { wp_step. apply wp_assert; [|by wp_step]. rewrite orb_true_iff, negb_true_iff, bool_decide_eq_false, bool_decide_eq_true.
    destruct (decide (b_transaction jh = Some t)); auto. }
  destruct (dirty_modify_spec ext t b s x jh true Hok Hx) as (Hok1 & Hc1 & Hx1).
  set (jh1 := jh <| b_modified := true |>) in *. set (x1 := x <| b_private := Some jh1 |>) in *.
  set (s1 := s <| k_bufs ::= <[b := x1]> |>) in *.
  wp_step. eapply wp_modify_jh; [exact Hb|exact Hp|]. match goal with |- wp ?m ?Q _ => change (wp m Q s1) end.
  assert (k_journal s1 = k_journal s) as Hj1 by done.
  assert (h_aborted h || JBD2_ABORT (k_journal s1) = false) as Ha1 by done. clearbody s1.
  destruct (h_buffer_credits h <=? 0).
  - wp_step. split_and!; [done|done|done|]. intros Ht Hl. unfold jbd2_vmsep_journal_dirty_metadata.
    rewrite (bind_ret _ _ _ _ _ (handle_aborted_exec h t s1 Hh)), Ha1, Hh. destruct Hx1 as [Hb1 Hp1].
    unfold read_bh, read_jh, jh_of, kbind. rewrite Hb1. cbn. rewrite Hj. cbn. rewrite Hb1. cbn.
    rewrite Ht, bool_decide_true by done. cbn. by rewrite bool_decide_false.
  - eapply wp_mono; [by apply (dirty_slow_spec ext _ t b ino_ s1 x1 jh1)|]. intros r s2 (Hok2 & Hj2 & -> & Hr).
    split_and!; [done|congruence|done|]. change (b_transaction jh1) with (b_transaction jh) in Hr.
    change (b_jlist jh1) with (b_jlist jh) in Hr. case_bool_decide as Em2.
    + subst s2. destruct Em2 as [Et El]. exists x1, jh1. split_and!; [done|done| |by intros []].
      rewrite bool_decide_true by done. done.
    + destruct Hr as (_ & x2 & jh2 & Hx2 & Hi & Hjd & Hm2 & Hn2 & Ht2 & Hl2). exists x2, jh2.
      split_and!; [done|done| |done]. case_bool_decide as Et; [split; congruence|].
      destruct Ho as [?|Ho]; [done|]. split; [|done]. by rewrite Hn2.
Qed.

(** The branches that refuse a buffer or stop; they need no invariant. *)
Section DirtyErrors.
Context (h : handle_t) (t : tr_id) (b : bh_id) (ino_ : Z) (s : kstate) (x : buffer_head).
Context (h_open : h_transaction h = Some t) (b_there : k_bufs s !! b = Some x).
Abbreviation dirty := (jbd2_vmsep_journal_dirty_metadata h b ino_).

Lemma dirty_aborted : h_aborted h || JBD2_ABORT (k_journal s) = true -> dirty s = Ret ((- EROFS, h), s).
Proof.
  intros Ha. unfold jbd2_vmsep_journal_dirty_metadata. by rewrite (bind_ret _ _ _ _ _ (handle_aborted_exec h t s h_open)), Ha.
Qed.

Context (not_aborted : h_aborted h || JBD2_ABORT (k_journal s) = false).

Lemma dirty_unjournalled : buffer_jbd x = false -> dirty s = Ret ((- EUCLEAN, h), s).
Proof.
  intros Hj. unfold jbd2_vmsep_journal_dirty_metadata.
  rewrite (bind_ret _ _ _ _ _ (handle_aborted_exec h t s h_open)), not_aborted, h_open.
  rewrite (bind_ret _ _ s x s) by (unfold read_bh; by rewrite b_there). by rewrite Hj.
Qed.

Context (jh : journal_head) (b_jbd : buffer_jbd x = true) (b_head : b_private x = Some jh).
Let marked : kstate := s <| k_bufs ::= <[b := x <| b_private := Some (jh <| b_modified := true |>) |>]> |>.

(** Up to the tests of [b_modified] and of the credits. *)
Lemma dirty_begins :
  dirty s =
  if bool_decide (b_transaction jh = Some t) || bool_decide (b_next_transaction jh = Some t)
  then
    if b_modified jh
    then if negb (bool_decide (b_transaction jh = Some t)) || bool_decide (b_jlist jh = BJ_Metadata)
         then Ret ((0, h), s) else Fault Assert
    else if h_buffer_credits h <=? 0 then Ret ((- ENOSPC, h), marked)
    else dirty_slow (h <| h_buffer_credits := h_buffer_credits h - 1 |>) t b ino_ marked
  else Fault Assert.
Proof.
  unfold jbd2_vmsep_journal_dirty_metadata.
  rewrite (bind_ret _ _ _ _ _ (handle_aborted_exec h t s h_open)), not_aborted, h_open.
  rewrite (bind_ret _ _ s x s) by (unfold read_bh; by rewrite b_there). rewrite b_jbd. cbn [negb].
  rewrite (bind_ret _ _ s jh s) by (unfold read_jh, jh_of; rewrite b_there; cbn; by rewrite b_head).
  destruct (bool_decide (b_transaction jh = Some t) || _); [|done]. rewrite (bind_ret _ _ s tt s) by done.
  destruct (b_modified jh); [by destruct (negb _ || _)|].
  rewrite (bind_ret _ _ s tt marked) by (unfold modify_jh; rewrite b_there; cbn; by rewrite b_head). by destruct (_ <=? _).
Qed.

Lemma dirty_slow_head h' :
  dirty_slow h' t b ino_ marked =
  (j <- read_journal ;;
   if bool_decide (b_transaction jh = Some t) && bool_decide (b_jlist jh = BJ_Metadata)
   then kret (if bool_decide (b_transaction jh = j_running_transaction j) then 0 else - EINVAL, h')
   else
     set_buffer_jbddirty b ;;;
     modify_jh b (fun h => h <| ino := ino_ |>) ;;;
     if negb (bool_decide (b_transaction jh = Some t))
     then kret (if bool_decide (b_transaction jh = j_committing_transaction j) &&
                   bool_decide (b_next_transaction jh = Some t) then 0 else - EINVAL, h')
     else
       j_assert (bool_decide (b_frozen_data jh = None)) ;;;
       __jbd2_vmsep_journal_file_buffer b t BJ_Metadata ;;;
       kret (0, h')) marked.
Proof.
  unfold dirty_slow. rewrite (bind_ret _ _ marked (jh <| b_modified := true |>) marked); [done|].
  unfold read_jh, jh_of, marked. cbn. by rewrite lookup_insert_eq.
Qed.

(** The two stores of the slow path. *)
Lemma dirty_marks {A} (k : K kstate A) :
  exists s', (set_buffer_jbddirty b ;;; modify_jh b (fun h => h <| ino := ino_ |>) ;;; k) marked = k s'.
Proof.
  unfold set_buffer_jbddirty, modify_bh. unfold kbind at 1. unfold marked. cbn. rewrite lookup_insert_eq.
  unfold kbind at 1, modify_jh, jh_of. cbn. rewrite insert_insert_eq, lookup_insert_eq. cbn. by eexists.
Qed.

Lemma dirty_foreign :
  b_transaction jh <> Some t -> b_next_transaction jh <> Some t -> dirty s = Fault Assert.
Proof. intros. by rewrite dirty_begins, !bool_decide_false by done. Qed.

Lemma dirty_asserts :
  b_transaction jh = Some t -> b_jlist jh <> BJ_Metadata ->
  b_modified jh = true \/ (0 < h_buffer_credits h /\ b_frozen_data jh <> None) -> dirty s = Fault Assert.
Proof.
  intros Ht Hl Hm. rewrite dirty_begins, (bool_decide_true (b_transaction jh = _)) by done. cbn [orb negb].
  rewrite (bool_decide_false (b_jlist jh = _)) by done. destruct (b_modified jh); [done|]. destruct Hm as [?|[Hc Hf]]; [done|].
  rewrite (proj2 (Z.leb_gt _ _)), dirty_slow_head by lia. rewrite (bind_ret _ _ marked (k_journal marked) marked) by done.
  rewrite (bool_decide_true (b_transaction jh = _)), (bool_decide_false (b_jlist jh = _)) by done. cbn [andb negb].
  match goal with |- (_ ;;; _ ;;; ?k) _ = _ => destruct (dirty_marks k) as [s' ->] end.
  unfold kbind at 1, j_assert. by rewrite bool_decide_false.
Qed.

Lemma dirty_invalid :
  b_modified jh = false -> 0 < h_buffer_credits h ->
  (b_transaction jh = Some t /\ b_jlist jh = BJ_Metadata /\ j_running_transaction (k_journal s) <> Some t) \/
  (b_transaction jh <> Some t /\ b_next_transaction jh = Some t /\ b_transaction jh <> j_committing_transaction (k_journal s)) ->
  exists s', dirty s = Ret ((- EINVAL, h <| h_buffer_credits := h_buffer_credits h - 1 |>), s').
Proof.
  intros Hm Hc Hi. rewrite dirty_begins, Hm, (proj2 (Z.leb_gt _ _)), dirty_slow_head by lia.
  rewrite (bind_ret _ _ marked (k_journal s) marked) by done. destruct Hi as [(Ht & Hl & Hr)|(Ht & Hn & Hr)].
  - rewrite Ht, Hl, (bool_decide_true (Some t = Some t)), (bool_decide_true (BJ_Metadata = BJ_Metadata)) by done. cbn [orb andb].
    rewrite bool_decide_false by congruence. by eexists.
  - rewrite Hn, (bool_decide_false (b_transaction jh = Some t)), bool_decide_true by done. cbn [orb andb negb].
    match goal with |- context [(_ ;;; _ ;;; ?k) marked] => destruct (dirty_marks k) as [s' ->] end.
    rewrite bool_decide_false by done. by eexists.
Qed.
End DirtyErrors.

(** C25: [jbd2_vmsep_journal_dirty_metadata] on every branch.  In an aborted journal or handle, or for a handle without transaction, it returns [-EROFS], for
    a buffer without journal head [-EUCLEAN], and changes nothing.  It stops at an assertion for a buffer that neither the
    handle's transaction nor its next one owns, and for one of the transaction that is not on its metadata list but was modified
    before or has a frozen copy.  It returns [-EINVAL], with the credit taken, when the transaction is not
    the running one or the owner of the buffer not the committing one.  Otherwise, while the invariants of write access
    hold, none of these happens: the first call in a transaction takes one credit,
    records the inode, and files the buffer on the metadata list (or leaves it
    with the committing transaction, to be refiled), and all invariants hold;
    every later call, for whatever inode, changes nothing; without credits
    it returns [-ENOSPC] but leaves the buffer marked as modified: unless it
    is on the metadata list, the next call for it stops at an assertion. *)
Theorem dirty_metadata_cases ext h b ino_ s x :
  k_bufs s !! b = Some x ->
  match h_transaction h with
  | None => jbd2_vmsep_journal_dirty_metadata h b ino_ s = Ret ((- EROFS, h), s)
  | Some t =>
  if h_aborted h || JBD2_ABORT (k_journal s)
  then jbd2_vmsep_journal_dirty_metadata h b ino_ s = Ret ((- EROFS, h), s)
  else if negb (buffer_jbd x) then jbd2_vmsep_journal_dirty_metadata h b ino_ s = Ret ((- EUCLEAN, h), s)
  else forall jh, b_private x = Some jh ->
  (b_transaction jh <> Some t -> b_next_transaction jh <> Some t ->
     jbd2_vmsep_journal_dirty_metadata h b ino_ s = Fault Assert) /\
  (b_transaction jh = Some t -> b_jlist jh <> BJ_Metadata ->
     b_modified jh = true \/ (0 < h_buffer_credits h /\ b_frozen_data jh <> None) ->
     jbd2_vmsep_journal_dirty_metadata h b ino_ s = Fault Assert) /\
  (b_modified jh = false -> 0 < h_buffer_credits h ->
     (b_transaction jh = Some t /\ b_jlist jh = BJ_Metadata /\ j_running_transaction (k_journal s) <> Some t) \/
     (b_transaction jh <> Some t /\ b_next_transaction jh = Some t /\
      b_transaction jh <> j_committing_transaction (k_journal s)) ->
     exists s', jbd2_vmsep_journal_dirty_metadata h b ino_ s =
       Ret ((- EINVAL, h <| h_buffer_credits := h_buffer_credits h - 1 |>), s')) /\
  (access_ok ext t s -> b_transaction jh = Some t \/ b_next_transaction jh = Some t ->
     (b_modified jh = true -> b_transaction jh = Some t -> b_jlist jh = BJ_Metadata) ->
     wp (jbd2_vmsep_journal_dirty_metadata h b ino_)
       (fun r s' => access_ok ext t s' /\ k_journal s' = k_journal s /\
          if b_modified jh then r = (0, h) /\ s' = s
          else if h_buffer_credits h <=? 0 then
            r = (- ENOSPC, h) /\
            (b_transaction jh = Some t -> b_jlist jh <> BJ_Metadata ->
             jbd2_vmsep_journal_dirty_metadata h b ino_ s' = Fault Assert)
          else
            r = (0, h <| h_buffer_credits := h_buffer_credits h - 1 |>) /\
            exists x' jh', has_jh s' b x' jh' /\ b_modified jh' = true /\
              (if bool_decide (b_transaction jh = Some t)
               then b_transaction jh' = Some t /\ b_jlist jh' = BJ_Metadata
               else b_next_transaction jh' = Some t /\ b_jlist jh' = b_jlist jh) /\
              (~ (b_transaction jh = Some t /\ b_jlist jh = BJ_Metadata) -> ino jh' = ino_ /\ buffer_jbddirty x' = true)) s)
  end.
Proof.
  intros Hb. destruct (h_transaction h) as [t|] eqn:Hh.
  2: { unfold jbd2_vmsep_journal_dirty_metadata, is_handle_aborted. rewrite Hh, bool_decide_true, orb_true_r by done. done. }
  destruct (h_aborted h || _) eqn:Ha; [by apply (dirty_aborted h t)|].
  destruct (buffer_jbd x) eqn:Hj; cbn [negb]; [|by apply (dirty_unjournalled h t b ino_ s x)]. intros jh Hp. split_and!.
  - by apply (dirty_foreign h t b ino_ s x).
  - by apply (dirty_asserts h t b ino_ s x).
  - by apply (dirty_invalid h t b ino_ s x).
  - intros. by apply (dirty_metadata_spec ext h t b ino_ s x jh).
Qed.

Definition ex_dirty_jh : journal_head := ex_jh 1 BJ_Reserved (Some 2%positive) None None.
Definition ex_dirty : kstate :=
  mk_kstate (zero_journal <| j_running_transaction := Some 2%positive |>)
    {[ 1%positive := (ex_bh ex_dirty_jh false) <| b_blocknr := 10 |> ]}
    {[ 2%positive := zero_transaction <| t_tid := 8 |> <| t_updates := 1 |> <| t_reserved_list := [1%positive] |> ]}.

Lemma ex_dirty_ok : access_ok (fun _ => 0) 2 ex_dirty.
Proof.
  split; try done.
  - apply wfb_sound. by vm_compute.
  - intros y x h [Hy Hh]. unfold ex_dirty in Hy. cbn [k_bufs] in Hy. rewrite lookup_singleton_Some in Hy.
    destruct Hy as [<- <-]. cbn in Hh. injection Hh as <-. split; cbn; try done. intros u [= <-]. by left.
  - intros y x Hy Hh. unfold ex_dirty in Hy. cbn [k_bufs] in Hy. rewrite lookup_singleton_Some in Hy.
    destruct Hy as [<- <-]. done.
Qed.

(** With credits the buffer is filed; without, the second attempt asserts. *)
Lemma dirty_metadata_cases_witness :
  wp (jbd2_vmsep_journal_dirty_metadata ex_handle2 1 42) (fun r _ => r.1 = 0 /\ h_buffer_credits r.2 = 7) ex_dirty /\
  wp (jbd2_vmsep_journal_dirty_metadata (ex_handle2 <| h_buffer_credits := 0 |>) 1 42)
    (fun r s' => r.1 = - ENOSPC /\
       jbd2_vmsep_journal_dirty_metadata (ex_handle2 <| h_buffer_credits := 0 |>) 1 42 s' = Fault Assert) ex_dirty.
Proof.
  split.
  1: pose proof (dirty_metadata_cases (fun _ => 0) ex_handle2 1 42 ex_dirty _ eq_refl ex_dirty_jh eq_refl) as (_ & _ & _ & Hd).
  2: pose proof (dirty_metadata_cases (fun _ => 0) (ex_handle2 <| h_buffer_credits := 0 |>) 1 42 ex_dirty _ eq_refl
       ex_dirty_jh eq_refl) as (_ & _ & _ & Hd).
  all: (eapply wp_mono; [apply Hd; [apply ex_dirty_ok|by left|done]|]).
  - intros r s' (_ & _ & -> & _). done.
  - intros r s' (_ & _ & -> & Hf). split; [done|by apply Hf].
Defined.

(** A block two inodes share is logged with the first inode only.  When two
    operations of one transaction dirty the same buffer, one for inode [i1]
    and then one for [i2], both succeed and the buffer stays marked with
    [i1]: a commit that synchronises [i2] does not log the block but moves it
    on to the next transaction, so the update made for [i2] is not on disk when its
    fsync returns. *)
Theorem shared_block_keeps_first_inode ext h t b i1 i2 s x jh submit_sb jiffies j_inode copy_ok tag_bytes
    csum_size j_blocksize j_wbufsize :
  access_ok ext t s -> h_transaction h = Some t -> h_aborted h || JBD2_ABORT (k_journal s) = false ->
  has_jh s b x jh -> b_transaction jh = Some t -> b_modified jh = false -> b_jlist jh <> BJ_Metadata ->
  0 < h_buffer_credits h -> i1 <> i2 ->
  wp (r1 <- jbd2_vmsep_journal_dirty_metadata h b i1 ;;
      r2 <- jbd2_vmsep_journal_dirty_metadata r1.2 b i2 ;; kret (r1.1, r2.1))
    (fun r s' => r = (0, 0) /\
       forall tr s2 rt w, s2 = (s' <| k_trans ::= <[t := tr]> |>) -> ino_sync tr = i2 ->
         commit_step submit_sb jiffies j_inode copy_ok tag_bytes csum_size j_blocksize j_wbufsize t rt w b s2 =
         (move_to_next rt b ;;; kret w) s2) s.
Proof.
  intros Hok Hh Ha Hx Ht Hm Hl Hc Hi. wp_step.
  eapply wp_mono; [apply (dirty_metadata_spec ext h t b i1 s x jh); try done; [by left|by rewrite Hm]|].
  rewrite Hm, (proj2 (Z.leb_gt _ _)) by lia. intros r s1 (Hok1 & Hj1 & -> & x1 & jh1 & Hx1 & Hm1 & Hown & Hino). cbn [fst snd].
  destruct Hino as [Hi1 _]; [by intros [_ ?]|]. rewrite bool_decide_true in Hown by done. destruct Hown as [Ht1 Hl1].
  wp_step. eapply wp_mono; [apply (dirty_metadata_spec ext _ t b i2 s1 x1 jh1); try done; [by rewrite Hj1|by left]|].
  rewrite Hm1. intros r s2 (_ & _ & -> & ->). wp_step. split; [done|]. intros tr s2 rt w -> Hs.
  destruct Hx1 as [Hb1 Hp1]. unfold commit_step, read_jh, read_tr, jh_of. unfold kbind at 1. cbn. rewrite Hb1. cbn. rewrite Hp1.
  unfold kbind at 1. cbn. rewrite lookup_insert_eq. rewrite Hs, Hi1, (proj2 (Z.eqb_neq _ _)) by done. done.
Qed.

Lemma shared_block_keeps_first_inode_witness :
  wp (r1 <- jbd2_vmsep_journal_dirty_metadata ex_handle2 1 42 ;;
      r2 <- jbd2_vmsep_journal_dirty_metadata r1.2 1 43 ;; kret (r1.1, r2.1)) (fun r _ => r = (0, 0)) ex_dirty.
Proof.
  eapply wp_mono; [eapply (shared_block_keeps_first_inode (fun _ => 0) ex_handle2 2 1 42 43 ex_dirty _ ex_dirty_jh
    (fun _ => 0) 0 None true 16 4 1024 64);
    [apply ex_dirty_ok|reflexivity|reflexivity|by split|reflexivity|reflexivity|done|cbn; lia|lia]|].
  by intros r s' [-> _].
Defined.
