(* ===== verification/Ext4.v ===== *)
(** * The file system's side of the journal

    What ext4 adds on top of the journal: the list of inodes whose fsync is
    separated ([ext4_proc_inodes_write] of kernel/fs/ext4/sysfs.c,
    [is_vm_commit] of fsync.c), fsync and sync ([ext4_sync_file] and
    [ext4_sync_parent] of fsync.c, [ext4_force_commit] and [ext4_sync_fs] of
    super.c, with the functions of kernel/fs/jbd2/journal.c they call), the wrappers
    through which ext4 uses handles and buffers (ext4_jbd2.c and ext4_jbd2.h),
    and the response to errors ([ext4_handle_error], [__ext4_std_error],
    [__ext4_abort] of super.c).

    The page cache, the block layer and the dentry cache are parameters.
    Messages, tracing, I/O priorities and the writing of the file system's
    superblock to the device are left out. *)
From S2P Require Import Prelude Tid Revoke State Blist JournalHead Filing Log Handle Commit OnDisk RevokeLog Features Access.

(** ** The state *)

Definition N_MAX_VM_INODES : Z := 10.

Inductive data_flags := NO_DATA_FLAGS | JOURNAL_DATA | ORDERED_DATA | WRITEBACK_DATA.
#[export] Instance data_flags_eq_dec : EqDecision data_flags.
Proof. solve_decision. Defined.

(** [super_block] and [ext4_sb_info], with the error fields of
    [ext4_super_block]; [s_journal]: whether there is a journal. *)
Record super_block := mk_super_block {
  MS_RDONLY : bool;
  s_journal : bool;
  VM_inodes : list Z;
  n_VM_inodes : Z;
  FS_SHUTDOWN : bool;           (* EXT4_FLAGS_SHUTDOWN *)
  MF_FS_ABORTED : bool;         (* EXT4_MF_FS_ABORTED of s_mount_flags *)
  opt_BARRIER : bool;
  opt_ERRORS_CONT : bool;
  opt_ERRORS_RO : bool;
  opt_ERRORS_PANIC : bool;
  opt_DELALLOC : bool;
  opt_DATA_FLAGS : data_flags;
  mount_ERROR_FS : bool;        (* EXT4_ERROR_FS of s_mount_state *)
  bdev_read_only : bool;
  s_sbh : bh_id;
  es_ERROR_FS : bool;           (* EXT4_ERROR_FS of s_es->s_state *)
  s_error_count : Z;
  s_last_error_ino : Z;
  s_last_error_block : Z;
  s_first_error : option (Z * Z);   (* s_first_error_ino and _block, once there was one *)
  s_flushes : Z;                (* cache flushes issued to s_bdev *)
}.
#[export] Instance eta_super_block : Eta _ := fun s =>
  mk_super_block (MS_RDONLY s) (s_journal s) (VM_inodes s) (n_VM_inodes s) (FS_SHUTDOWN s)
    (MF_FS_ABORTED s) (opt_BARRIER s) (opt_ERRORS_CONT s) (opt_ERRORS_RO s) (opt_ERRORS_PANIC s)
    (opt_DELALLOC s) (opt_DATA_FLAGS s) (mount_ERROR_FS s) (bdev_read_only s) (s_sbh s) (es_ERROR_FS s)
    (s_error_count s) (s_last_error_ino s) (s_last_error_block s) (s_first_error s) (s_flushes s).

(** The fields of [inode] and [ext4_inode_info] that are used here. *)
Record inode := mk_inode {
  i_ino : Z;
  i_regular : bool;             (* S_ISREG(i_mode) *)
  i_journal_data : bool;        (* EXT4_INODE_JOURNAL_DATA *)
  i_encrypted : bool;
  i_needs_sync : bool;          (* inode_needs_sync *)
  i_sync_tid : tid_t;
  i_datasync_tid : tid_t;
}.
#[export] Instance eta_inode : Eta _ := fun i =>
  mk_inode (i_ino i) (i_regular i) (i_journal_data i) (i_encrypted i) (i_needs_sync i) (i_sync_tid i) (i_datasync_tid i).

(** [e_newentry]: the inodes in state [EXT4_STATE_NEWENTRY]. *)
Record ext4_state := mk_ext4_state { e_a : astate; e_sb : super_block; e_newentry : gset Z }.
#[export] Instance eta_ext4_state : Eta _ := fun s => mk_ext4_state (e_a s) (e_sb s) (e_newentry s).

Definition e_journal (s : ext4_state) : journal_t := k_journal (a_k (e_a s)).

Definition on_a {A} (m : K astate A) : K ext4_state A := fun s =>
  match m (e_a s) with
  | Ret (a, x) => Ret (a, s <| e_a := x |>)
  | Fault f => Fault f
  end.
Definition on_j {A} (m : K kstate A) : K ext4_state A := on_a (on_k m).
Definition get_sb : K ext4_state super_block := fun s => Ret (e_sb s, s).
Definition modify_sb (f : super_block -> super_block) : K ext4_state unit := fun s =>
  Ret (tt, s <| e_sb ::= f |>).

(** ** The inodes whose fsync is separated *)

(** A write to /proc/fs/ext4/<dev>/inodes.  [parsed] is what [sscanf] makes of
    the text, an [int]; it is stored as an [unsigned long].  The result is the
    return value. *)
Definition ext4_proc_inodes_write (parsed : option Z) (count : Z) (sbi : super_block) : Z * super_block :=
  match parsed with
  | None => (0, sbi)
  | Some ino =>
    if N_MAX_VM_INODES <=? n_VM_inodes sbi then (0, sbi)
    else (count, sbi <| VM_inodes := <[Z.to_nat (n_VM_inodes sbi) := u64 ino]> (VM_inodes sbi) |>
                     <| n_VM_inodes := n_VM_inodes sbi + 1 |>)
  end.

(** [ext4_fill_super]: none at mount. *)
Definition init_VM_inodes (sbi : super_block) : super_block :=
  sbi <| n_VM_inodes := 0 |> <| VM_inodes := replicate (Z.to_nat N_MAX_VM_INODES) 0 |>.

(** The loop of [is_vm_commit] from index [i], with [n] rounds to go. *)
Fixpoint vm_commit_from (sbi : super_block) (n : nat) (i : Z) (ino : Z) : Z :=
  match n with
  | O => -1
  | S n =>
    if bool_decide (VM_inodes sbi !! Z.to_nat i = Some ino) then 0 else vm_commit_from sbi n (i + 1) ino
  end.
Definition is_vm_commit (sbi : super_block) (ino : Z) : Z :=
  vm_commit_from sbi (Z.to_nat (n_VM_inodes sbi)) 0 ino.

(** ** Forcing commits

    [current_handle]: [current->journal_info] is not NULL. *)

Section Force.
Context (jiffies : Z) (current_handle : bool).

Definition __jbd2_journal_force_commit (envs : list (K kstate unit)) : K kstate (option Z) :=
  j <- read_journal ;;
  r <- (match j_running_transaction j, j_committing_transaction j with
        | Some t, ct =>
          if negb current_handle
          then tr <- read_tr t ;; kret (Some (t_tid tr, negb (tid_geq (j_commit_request j) (t_tid tr))))
          else match ct with
               | Some ct => tr <- read_tr ct ;; kret (Some (t_tid tr, false))
               | None => kret None
               end
        | None, Some ct => tr <- read_tr ct ;; kret (Some (t_tid tr, false))
        | None, None => kret None
        end) ;;
  match r with
  | None => kret (Some 0)
  | Some (tid, need_to_start) =>
    (if need_to_start : bool then jbd2_vmsep_log_start_commit jiffies tid 0 ;;; kret tt else kret tt) ;;;
    ret <- jbd2_vmsep_log_wait_commit envs tid ;;
    kret (option_map (fun ret => if ret =? 0 then 1 else ret) ret)
  end.

Definition jbd2_vmsep_journal_force_commit_nested (envs : list (K kstate unit)) : K kstate (option bool) :=
  ret <- __jbd2_journal_force_commit envs ;;
  kret (option_map (fun ret => 0 <? ret) ret).

Definition jbd2_vmsep_journal_force_commit (envs : list (K kstate unit)) : K kstate (option Z) :=
  j_assert (negb current_handle) ;;;
  ret <- __jbd2_journal_force_commit envs ;;
  kret (option_map (fun ret => if 0 <? ret then 0 else ret) ret).

(** The tid of the transaction that commits, if any. *)
Definition jbd2_vmsep_journal_start_commit : K kstate (option tid_t) :=
  j <- read_journal ;;
  match j_running_transaction j, j_committing_transaction j with
  | Some t, _ =>
    tr <- read_tr t ;;
    __jbd2_vmsep_log_start_commit jiffies (t_tid tr) 0 ;;;
    kret (Some (t_tid tr))
  | None, Some t => tr <- read_tr t ;; kret (Some (t_tid tr))
  | None, None => kret None
  end.

Definition jbd2_get_latest_transaction : K kstate tid_t :=
  j <- read_journal ;;
  match j_running_transaction j with
  | Some t => tr <- read_tr t ;; kret (t_tid tr)
  | None => kret (j_commit_request j)
  end.

(** [external]: [j_fs_dev != j_dev]. *)
Definition jbd2_vmsep_trans_will_send_data_barrier (external : bool) (tid : tid_t) : K kstate bool :=
  j <- read_journal ;;
  if negb (JBD2_BARRIER j) then kret false
  else if tid_geq (j_commit_sequence j) tid then kret false
  else match j_committing_transaction j with
  | None => kret true
  | Some t =>
    tr <- read_tr t ;;
    if negb (t_tid tr =? tid) then kret true
    else if external
    then kret (negb (negb (t_need_data_flush tr) || (t_state_rank T_COMMIT_DFLUSH <=? t_state_rank (t_state tr))))
    else kret (negb (t_state_rank T_COMMIT_JFLUSH <=? t_state_rank (t_state tr)))
  end.
End Force.

(** ** Journalling mode of an inode *)

Inductive journal_mode := JOURNAL_DATA_MODE | ORDERED_DATA_MODE | WRITEBACK_DATA_MODE.
#[export] Instance journal_mode_eq_dec : EqDecision journal_mode.
Proof. solve_decision. Defined.

Definition ext4_inode_journal_mode (i : inode) : K ext4_state journal_mode :=
  sb <- get_sb ;;
  if negb (s_journal sb) then kret WRITEBACK_DATA_MODE
  else if negb (i_regular i) || bool_decide (opt_DATA_FLAGS sb = JOURNAL_DATA) ||
          (i_journal_data i && negb (opt_DELALLOC sb))
  then kret (if i_regular i && i_encrypted i then ORDERED_DATA_MODE else JOURNAL_DATA_MODE)
  else match opt_DATA_FLAGS sb with
  | ORDERED_DATA => kret ORDERED_DATA_MODE
  | WRITEBACK_DATA => kret WRITEBACK_DATA_MODE
  | _ => kfault Assert
  end.

Definition ext4_should_journal_data (i : inode) : K ext4_state bool :=
  m <- ext4_inode_journal_mode i ;; kret (bool_decide (m = JOURNAL_DATA_MODE)).

(** ** fsync and sync *)

(** A computation that may still be waiting, followed by another. *)
Notation "'await' x <- m ; k" := (kbind m (fun r => match r with None => kret None | Some x => k end))
  (at level 100, x name, m at next level, right associativity) : kernel_scope.

Section Sync.
Context (jiffies : Z).
(** The outcome of the calls into the VFS and the block layer:
    [file_write_and_wait_range], [__generic_file_fsync], [blkdev_issue_flush],
    and [sync_mapping_buffers] and [sync_inode_metadata] of an inode. *)
Context (write_and_wait generic_fsync flush_err : Z) (sync_mapping sync_metadata : Z -> Z).
(** The inode of the parent of an alias of an inode: [None] without a dentry
    or when the parent cannot be grabbed. *)
Context (parent_inode : Z -> option Z).
Context (external : bool).

Definition blkdev_issue_flush : K ext4_state Z :=
  modify_sb (fun sb => sb <| s_flushes := s_flushes sb + 1 |>) ;;; kret flush_err.

(** The loop of [ext4_sync_parent]; each round clears the state of one inode,
    so [fuel] is the number of inodes that have it. *)
Fixpoint sync_parent_from (fuel : nat) (i : Z) (ret : Z) : K ext4_state Z := fun s =>
  if bool_decide (i ∈ e_newentry s) then
    match fuel with
    | O => Fault Oops
    | S fuel =>
      let s := s <| e_newentry ::= fun n => n ∖ {[i]} |> in
      match parent_inode i with
      | None => Ret (ret, s)
      | Some next =>
        if negb (sync_mapping next =? 0) then Ret (sync_mapping next, s)
        else if negb (sync_metadata next =? 0) then Ret (sync_metadata next, s)
        else sync_parent_from fuel next 0 s
      end
    end
  else Ret (ret, s).
Definition ext4_sync_parent (i : inode) : K ext4_state Z := fun s =>
  sync_parent_from (size (e_newentry s)) (i_ino i) 0 s.

Definition ext4_force_commit (envs : list (K kstate unit)) : K ext4_state (option Z) :=
  sb <- get_sb ;;
  if MS_RDONLY sb then kret (Some 0)
  else if s_journal sb then on_j (jbd2_vmsep_journal_force_commit jiffies false envs)
  else kret (Some 0).

(** The end of [ext4_sync_file] and [ext4_sync_fs]. *)
Definition flush_if (needs_barrier : bool) (ret : Z) : K ext4_state Z :=
  if needs_barrier
  then err <- blkdev_issue_flush ;; kret (if ret =? 0 then err else ret)
  else kret ret.

(** With a journal: wait for the data, then for the commit of the inode's
    transaction. *)
Definition sync_journalled (envs : list (K kstate unit)) (i : inode) (datasync : bool) : K ext4_state (option Z) :=
  if negb (write_and_wait =? 0) then kret (Some write_and_wait)
  else
    journal_data <- ext4_should_journal_data i ;;
    if journal_data : bool then ext4_force_commit envs
    else
      let commit_tid := if datasync then i_datasync_tid i else i_sync_tid i in
      j <- on_j read_journal ;;
      sends <- (if JBD2_BARRIER j then on_j (jbd2_vmsep_trans_will_send_data_barrier external commit_tid)
                else kret true) ;;
      sb <- get_sb ;;
      let ino_sync := if is_vm_commit sb (i_ino i) =? 0 then i_ino i else 0 in
      await ret <- on_j (jbd2_vmsep_complete_transaction jiffies envs commit_tid ino_sync) ;
      r <- flush_if (negb sends) ret ;;
      kret (Some r).

(** [current_handle]: [current->journal_info] is not NULL. *)
Definition ext4_sync_file (envs : list (K kstate unit)) (current_handle : bool) (i : inode) (datasync : bool)
  : K ext4_state (option Z) :=
  sb <- get_sb ;;
  if FS_SHUTDOWN sb then kret (Some (- EIO))
  else
    j_assert (negb current_handle) ;;;
    if MS_RDONLY sb then kret (Some (if MF_FS_ABORTED sb then - EROFS else 0))
    else if s_journal sb then sync_journalled envs i datasync
    else
      ret <- (if generic_fsync =? 0 then ext4_sync_parent i else kret generic_fsync) ;;
      r <- flush_if (opt_BARRIER sb) ret ;;
      kret (Some r).

(** [ext4_sync_fs], without the quota and the work queue. *)
Definition ext4_sync_fs (envs : list (K kstate unit)) (wait : bool) : K ext4_state (option Z) :=
  sb <- get_sb ;;
  if FS_SHUTDOWN sb then kret (Some 0)
  else if s_journal sb then
    target <- on_j jbd2_get_latest_transaction ;;
    j <- on_j read_journal ;;
    sends <- (if wait && JBD2_BARRIER j then on_j (jbd2_vmsep_trans_will_send_data_barrier external target)
              else kret true) ;;
    started <- on_j (jbd2_vmsep_journal_start_commit jiffies) ;;
    await ret <- (match started with
                  | Some target => if wait then on_j (jbd2_vmsep_log_wait_commit envs target) else kret (Some 0)
                  | None => kret (Some 0)
                  end) ;
    r <- flush_if (negb sends) ret ;;
    kret (Some r)
  else
    r <- flush_if (wait && opt_BARRIER sb) 0 ;;
    kret (Some r).
End Sync.

(** ** The response to errors *)

Section Errors.
Context (submit_sb : journal_t -> Z) (jiffies : Z).

(** The function, the line and the time are not recorded. *)
Definition __save_error_info : K ext4_state unit :=
  modify_sb (fun sb =>
    let sb := sb <| mount_ERROR_FS := true |> in
    if bdev_read_only sb then sb
    else
      let first := match s_first_error sb with
                   | Some e => Some e
                   | None => Some (s_last_error_ino sb, s_last_error_block sb)
                   end in
      sb <| es_ERROR_FS := true |> <| s_first_error := first |>
         <| s_error_count := u32 (s_error_count sb + 1) |>).

(** Without [ext4_commit_super], which writes the superblock of the file system: what reaches its device is no part of this state. *)
Definition save_error_info : K ext4_state unit := __save_error_info.

(** [errors=panic]: with a journal, only once the error is recorded in it. *)
Definition panic_if_asked : K ext4_state unit :=
  sb <- get_sb ;;
  if opt_ERRORS_PANIC sb
  then
    j <- on_j read_journal ;;
    if s_journal sb && negb (JBD2_REC_ERR j) then kret tt else kfault Panic
  else kret tt.

Definition ext4_handle_error : K ext4_state unit :=
  sb <- get_sb ;;
  if MS_RDONLY sb then kret tt
  else
    (if opt_ERRORS_CONT sb then kret tt
     else
       modify_sb (fun sb => sb <| MF_FS_ABORTED := true |>) ;;;
       if s_journal sb then on_j (jbd2_vmsep_journal_abort submit_sb jiffies (- EIO)) else kret tt) ;;;
    (if opt_ERRORS_RO sb then modify_sb (fun sb => sb <| MS_RDONLY := true |>) else kret tt) ;;;
    panic_if_asked.

Definition __ext4_error : K ext4_state unit :=
  sb <- get_sb ;;
  if FS_SHUTDOWN sb then kret tt else save_error_info ;;; ext4_handle_error.

Definition __ext4_error_inode (i : inode) (block : Z) : K ext4_state unit :=
  sb <- get_sb ;;
  if FS_SHUTDOWN sb then kret tt
  else
    modify_sb (fun sb => sb <| s_last_error_ino := u32 (i_ino i) |> <| s_last_error_block := block |>) ;;;
    save_error_info ;;;
    ext4_handle_error.

(** [current_handle]: [current->journal_info] is not NULL. *)
Definition __ext4_std_error (current_handle : bool) (errno : Z) : K ext4_state unit :=
  sb <- get_sb ;;
  if FS_SHUTDOWN sb then kret tt
  else if (errno =? - EROFS) && negb current_handle && MS_RDONLY sb then kret tt
  else save_error_info ;;; ext4_handle_error.

Definition __ext4_abort : K ext4_state unit :=
  sb <- get_sb ;;
  if FS_SHUTDOWN sb then kret tt
  else
    save_error_info ;;;
    (if MS_RDONLY sb then kret tt
     else
       modify_sb (fun sb => sb <| MF_FS_ABORTED := true |> <| MS_RDONLY := true |>) ;;;
       (if s_journal sb then on_j (jbd2_vmsep_journal_abort submit_sb jiffies (- EIO)) else kret tt) ;;;
       save_error_info) ;;;
    panic_if_asked.

(** ** Handles of the file system

    A [handle_t *] of ext4 is a handle of the journal or, without a journal,
    a small number that counts the nesting; [NoJournal 0] is NULL.  The same
    for [current->journal_info]. *)
Inductive ext4_handle := NoJournal (ref_cnt : Z) | Journalled (h : handle_t).
Definition EXT4_NOJOURNAL_MAX_REF_COUNT : Z := 4096.

Definition ext4_handle_valid (h : ext4_handle) : bool :=
  match h with NoJournal _ => false | Journalled _ => true end.

Definition ext4_get_nojournal (current : ext4_handle) : K ext4_state ext4_handle :=
  match current with
  | NoJournal n => j_assert (negb (EXT4_NOJOURNAL_MAX_REF_COUNT <=? n)) ;;; kret (NoJournal (n + 1))
  | Journalled _ => kfault Assert
  end.
Definition ext4_put_nojournal (n : Z) : K ext4_state ext4_handle :=
  j_assert (negb (n =? 0)) ;;; kret (NoJournal (n - 1)).

Definition ext4_journal_check_start : K ext4_state Z :=
  sb <- get_sb ;;
  if FS_SHUTDOWN sb then kret (- EIO)
  else if MS_RDONLY sb then kret (- EROFS)
  else
    j <- on_j read_journal ;;
    if s_journal sb && JBD2_ABORT j then __ext4_abort ;;; kret (- EROFS)
    else kret 0.

(** The error or the handle, which also is [current->journal_info]. *)
Definition __ext4_journal_start_sb (alloc_ok : bool) (envs : list (K kstate unit)) (current : ext4_handle)
    (blocks rsv_blocks : Z) : K ext4_state (option (Z + ext4_handle)) :=
  err <- ext4_journal_check_start ;;
  if err <? 0 then kret (Some (inl err))
  else
    sb <- get_sb ;;
    if negb (s_journal sb) then h <- ext4_get_nojournal current ;; kret (Some (inr h))
    else
      cur <- (match current with
              | Journalled h => kret (Some h)
              | NoJournal n => if n =? 0 then kret None else kfault Oops
              end) ;;
      await r <- on_j (jbd2_vmsep__journal_start jiffies alloc_ok envs cur blocks rsv_blocks) ;
      kret (Some (match r with inl err => inl err | inr h => inr (Journalled h) end)).

(** The error and what is left in [current->journal_info]. *)
Definition __ext4_journal_stop (envs : list (K kstate unit)) (memalloc : bool) (handle : ext4_handle)
  : K ext4_state (option (Z * ext4_handle)) :=
  match handle with
  | NoJournal n => cur <- ext4_put_nojournal n ;; kret (Some (0, cur))
  | Journalled h =>
    let err := h_err h in
    await rc <- on_j (jbd2_vmsep_journal_stop jiffies envs memalloc h) ;
    let cur := match rc.2 with Some h => Journalled h | None => NoJournal 0 end in
    let ret := if err =? 0 then rc.1 else err in
    if bool_decide (h_transaction h = None) then kret (Some (ret, cur))
    else
      (if ret =? 0 then kret tt else __ext4_std_error (ext4_handle_valid cur) ret) ;;;
      kret (Some (ret, cur))
  end.

Definition __ext4_journal_start_reserved (alloc_ok : bool) (envs : list (K kstate unit)) (current : ext4_handle)
    (handle : ext4_handle) : K ext4_state (option (Z + ext4_handle)) :=
  match handle with
  | NoJournal _ => h <- ext4_get_nojournal current ;; kret (Some (inr h))
  | Journalled h =>
    err <- ext4_journal_check_start ;;
    if err <? 0 then on_j (jbd2_vmsep_journal_free_reserved true h) ;;; kret (Some (inl err))
    else
      await r <- on_j (jbd2_vmsep_journal_start_reserved jiffies alloc_ok envs
                         (match current with Journalled h => Some h | NoJournal _ => None end) h) ;
      kret (Some (match r with inl err => inl err | inr h => inr (Journalled h) end))
  end.

Definition jbd2_journal_abort_handle (h : handle_t) : handle_t := h <| h_aborted := true |>.

Definition ext4_journal_abort_handle (h : handle_t) (err : Z) : K ext4_state handle_t :=
  let h := if h_err h =? 0 then h <| h_err := err |> else h in
  aborted <- on_j (is_handle_aborted h) ;;
  kret (if aborted : bool then h else jbd2_journal_abort_handle h).

(** ** Buffers *)

Context (find_block : kstate -> Z -> option bh_id).
Context (jbd2_chksum : Z -> list Z -> Z) (alloc_shash : Z) (from_disk : option journal_superblock_t).
(** [sync_dirty_buffer] of the buffer cache. *)
Context (sync_dirty_buffer : bh_id -> K kstate unit).

(** The error and the handle. *)
Definition abort_on (err : Z) (h : handle_t) : K ext4_state (Z * ext4_handle) :=
  h' <- (if err =? 0 then kret h else ext4_journal_abort_handle h err) ;;
  kret (err, Journalled h').

Definition __ext4_journal_get_write_access (envs : list (K astate unit)) (handle : ext4_handle) (b : bh_id)
  : K ext4_state (option (Z * ext4_handle)) :=
  match handle with
  | NoJournal _ => kret (Some (0, handle))
  | Journalled h =>
    if bool_decide (h_transaction h = None) then kfault Oops
    else
      sb <- get_sb ;;
      if FS_SHUTDOWN sb then kret (Some (- EIO, Journalled (jbd2_journal_abort_handle h)))
      else
        await err <- on_a (jbd2_vmsep_journal_get_write_access find_block envs h b) ;
        r <- abort_on err h ;; kret (Some r)
  end.

Definition __ext4_journal_get_create_access (handle : ext4_handle) (b : bh_id) : K ext4_state (Z * ext4_handle) :=
  match handle with
  | NoJournal _ => kret (0, handle)
  | Journalled h =>
    err <- on_a (jbd2_vmsep_journal_get_create_access find_block h b) ;;
    abort_on err h
  end.

Definition bforget (bh : option bh_id) : K kstate unit :=
  match bh with Some b => __bforget b | None => kret tt end.

Definition __ext4_forget (handle : ext4_handle) (is_metadata : bool) (i : inode) (bh : option bh_id) (blocknr : Z)
  : K ext4_state (Z * ext4_handle) :=
  match handle with
  | NoJournal _ => on_j (bforget bh) ;;; kret (0, handle)
  | Journalled h =>
    sb <- get_sb ;;
    forget <- (if bool_decide (opt_DATA_FLAGS sb = JOURNAL_DATA) then kret true
               else if is_metadata then kret false
               else journal_data <- ext4_should_journal_data i ;; kret (negb journal_data)) ;;
    if forget : bool
    then match bh with
    | Some b =>
      r <- on_j (jbd2_vmsep_journal_forget h b) ;;
      abort_on r.1 r.2
    | None => kret (0, handle)
    end
    else
      r <- on_a (jbd2_vmsep_journal_revoke find_block jbd2_chksum alloc_shash from_disk h blocknr bh) ;;
      r' <- abort_on r.1 r.2 ;;
      (if r.1 =? 0 then kret tt else __ext4_abort) ;;;
      kret r'
  end.

(** Without a journal: the buffer is written in place. *)
Definition dirty_in_place (i : option inode) (b : bh_id) : K ext4_state Z :=
  on_j (mark_buffer_dirty b) ;;;
  match i with
  | None => kret 0
  | Some i =>
    if negb (i_needs_sync i) then kret 0
    else
      on_j (sync_dirty_buffer b) ;;;
      x <- on_j (read_bh b) ;;
      if buffer_req x && negb (buffer_uptodate x)
      then
        modify_sb (fun sb => sb <| s_last_error_block := b_blocknr x |>) ;;;
        __ext4_error_inode i (b_blocknr x) ;;;
        kret (- EIO)
      else kret 0
  end.

(** [jbd2_vmsep_journal_dirty_metadata] is passed [inode->i_ino]: [i] must not be
    NULL.  [set_buffer_meta] and [set_buffer_prio], which only the I/O scheduler looks at, are left out. *)
Definition __ext4_handle_dirty_metadata (handle : ext4_handle) (i : option inode) (b : bh_id)
  : K ext4_state (Z * ext4_handle) :=
  match handle with
  | NoJournal _ => err <- dirty_in_place i b ;; kret (err, handle)
  | Journalled h =>
    match i with
    | None => kfault Oops
    | Some i =>
      r <- on_j (jbd2_vmsep_journal_dirty_metadata h b (i_ino i)) ;;
      aborted <- on_j (is_handle_aborted r.2) ;;
      if negb aborted && negb (r.1 =? 0)
      then
        h' <- ext4_journal_abort_handle r.2 r.1 ;;
        x <- on_j (read_bh b) ;;
        __ext4_error_inode i (b_blocknr x) ;;;
        kret (r.1, Journalled h')
      else kret (r.1, Journalled r.2)
    end
  end.

(** The inode of the superblock is number 0. *)
Definition __ext4_handle_dirty_super (handle : ext4_handle) : K ext4_state (Z * ext4_handle) :=
  sb <- get_sb ;;
  match handle with
  | NoJournal _ => on_j (mark_buffer_dirty (s_sbh sb)) ;;; kret (0, handle)
  | Journalled h =>
    r <- on_j (jbd2_vmsep_journal_dirty_metadata h (s_sbh sb) 0) ;;
    abort_on r.1 r.2
  end.

(** ** The remaining wrappers of ext4_jbd2.h *)

Definition ext4_handle_sync (handle : ext4_handle) : ext4_handle :=
  match handle with NoJournal _ => handle | Journalled h => Journalled (h <| h_sync := true |>) end.

Definition ext4_handle_is_aborted (handle : ext4_handle) : K ext4_state bool :=
  match handle with NoJournal _ => kret false | Journalled h => on_j (is_handle_aborted h) end.

Definition ext4_handle_has_enough_credits (handle : ext4_handle) (needed : Z) : bool :=
  match handle with NoJournal _ => true | Journalled h => negb (h_buffer_credits h <? needed) end.

Definition ext4_journal_extend (handle : ext4_handle) (nblocks : Z) : K ext4_state (Z * ext4_handle) :=
  match handle with
  | NoJournal _ => kret (0, handle)
  | Journalled h => r <- on_j (jbd2_vmsep_journal_extend h nblocks) ;; kret (r.1, Journalled r.2)
  end.

(** The inode remembers the transaction its next fsync waits for. *)
Definition ext4_update_inode_fsync_trans (handle : ext4_handle) (i : inode) (datasync : bool) : K ext4_state inode :=
  match handle with
  | NoJournal _ => kret i
  | Journalled h =>
    match h_transaction h with
    | None => kfault Oops
    | Some t =>
      tr <- on_j (read_tr t) ;;
      let i := i <| i_sync_tid := t_tid tr |> in
      kret (if datasync then i <| i_datasync_tid := t_tid tr |> else i)
    end
  end.
End Errors.

(** ** Which inodes are separated *)

(** The reference: the first ten numbers written, as [unsigned long]. *)
Definition registered (ws : list (option Z * Z)) : list Z :=
  take (Z.to_nat N_MAX_VM_INODES) (u64 <$> omap fst ws).

(** The writes to the proc file since the mount. *)
Definition proc_writes (ws : list (option Z * Z)) (sbi : super_block) : super_block :=
  foldl (fun sbi w => (ext4_proc_inodes_write w.1 w.2 sbi).2) sbi ws.

Record vm_table (sbi : super_block) (l : list Z) : Prop := {
  vm_size : length (VM_inodes sbi) = Z.to_nat N_MAX_VM_INODES;
  vm_count : n_VM_inodes sbi = Z.of_nat (length l);
  vm_fits : (length l <= Z.to_nat N_MAX_VM_INODES)%nat;
  vm_entries : take (length l) (VM_inodes sbi) = l;
}.

Lemma vm_table_init sbi : vm_table (init_VM_inodes sbi) [].
Proof. by split; [|done|cbn; lia|]. Qed.

Lemma vm_table_write sbi l w :
  vm_table sbi l ->
  vm_table (ext4_proc_inodes_write w.1 w.2 sbi).2
    (take (Z.to_nat N_MAX_VM_INODES) (l ++ (u64 <$> option_list w.1))).
Proof.
  intros [Hs Hc Hf He]. destruct w as [[ino|] count]; cbn [fst snd ext4_proc_inodes_write option_list].
  2:{ cbn. rewrite app_nil_r, take_ge by done. by split. }
  cbn [fmap list_fmap option_list]. destruct (N_MAX_VM_INODES <=? n_VM_inodes sbi) eqn:E; bool_to_prop; unfold N_MAX_VM_INODES in *.
  - rewrite take_app_le, take_ge by lia. by split.
  - assert (length l < 10)%nat by lia. rewrite take_ge by (rewrite length_app; cbn; lia).
    split; unfold N_MAX_VM_INODES; cbn; rewrite ?length_insert, ?length_app; cbn; try lia.
    rewrite Hc, Nat2Z.id, Nat.add_1_r. rewrite (take_S_r _ _ (u64 ino)).
    + by rewrite take_insert_ge, He by lia.
    + apply list_lookup_insert_eq. rewrite Hs. cbn. lia.
Qed.

Lemma take_app_take {A} n (l k : list A) : take n (take n l ++ k) = take n (l ++ k).
Proof.
  destruct (decide (length l <= n)%nat) as [Hl|Hl]; [by rewrite (take_ge l) by done|].
  rewrite (take_app_le l) by lia. rewrite take_app_le by (rewrite length_take; lia).
  by rewrite take_take, Nat.min_id.
Qed.

Lemma vm_table_writes ws : forall sbi l,
  vm_table sbi l ->
  vm_table (proc_writes ws sbi) (take (Z.to_nat N_MAX_VM_INODES) (l ++ (u64 <$> omap fst ws))).
Proof.
  induction ws as [|w ws IH]; intros sbi l Hv.
  - cbn [omap list_omap fmap list_fmap]. rewrite app_nil_r, take_ge by apply (vm_fits _ _ Hv). done.
  - pose proof (IH _ _ (vm_table_write _ _ w Hv)) as H. rewrite take_app_take, <-app_assoc in H.
    replace (u64 <$> omap fst (w :: ws)) with ((u64 <$> option_list w.1) ++ (u64 <$> omap fst ws)); [done|].
    destruct w as [[i|] c]; done.
Qed.

Lemma vm_table_registered ws sbi : vm_table (proc_writes ws (init_VM_inodes sbi)) (registered ws).
Proof. apply (vm_table_writes ws _ []), vm_table_init. Qed.

Lemma vm_commit_from_spec sbi ino : forall n i,
  0 <= i ->
  vm_commit_from sbi n i ino =
  if bool_decide (ino ∈ take n (drop (Z.to_nat i) (VM_inodes sbi))) then 0 else -1.
Proof.
  induction n as [|n IH]; intros i Hi; cbn [vm_commit_from]; [done|].
  destruct (VM_inodes sbi !! Z.to_nat i) as [x|] eqn:E.
  - rewrite (drop_S _ _ _ E). rewrite IH by lia. replace (Z.to_nat (i + 1)) with (S (Z.to_nat i)) by lia. cbn [take].
    repeat case_bool_decide; simplify_eq; set_solver.
  - rewrite bool_decide_false by done. rewrite IH by lia. apply lookup_ge_None in E.
    rewrite !drop_ge by lia. by rewrite !take_nil.
Qed.

Lemma is_vm_commit_spec sbi l ino :
  vm_table sbi l -> is_vm_commit sbi ino = if bool_decide (ino ∈ l) then 0 else -1.
Proof.
  intros [Hs Hc Hf He]. unfold is_vm_commit. rewrite vm_commit_from_spec by lia.
  by rewrite Hc, Nat2Z.id, drop_0, He.
Qed.

(** ** Waiting for commits *)

(** Whether the transaction [o] has id [tid]; whether [tid] runs or commits. *)
Definition has_tid (s : kstate) (o : option tr_id) (tid : tid_t) : bool :=
  match o with
  | Some t => match k_trans s !! t with Some tr => t_tid tr =? tid | None => false end
  | None => false
  end.
Definition in_flight (s : kstate) (tid : tid_t) : bool :=
  has_tid s (j_running_transaction (k_journal s)) tid || has_tid s (j_committing_transaction (k_journal s)) tid.

Definition both_live (s : kstate) : Prop := running_live s /\ committing_live s.

(** Other tasks do not stop the machine. *)
Definition total (env : K kstate unit) : Prop := forall s, wp env (fun _ _ => True) s.

(** What waiting for [tid] ends with. *)
Definition waited (tid : tid_t) (r : option Z) (s : kstate) : Prop :=
  match r with
  | None => tid_gt tid (j_commit_sequence (k_journal s)) = true
  | Some err => tid_gt tid (j_commit_sequence (k_journal s)) = false /\
                err = (if JBD2_ABORT (k_journal s) then - EIO else 0)
  end.

Lemma wait_commit_exec envs tid : forall s,
  Forall total envs -> wp (jbd2_vmsep_log_wait_commit envs tid) (waited tid) s.
Proof.
  induction envs as [|env envs IH]; intros s He; cbn [jbd2_vmsep_log_wait_commit]; wp_step; wp_step;
    apply wp_if; intros Hg; wp_step; [done|by split|..|by split].
  apply Forall_cons in He as [Henv He]. eapply wp_mono; [apply Henv|]. intros _ s1 _. by apply IH.
Qed.

Lemma read_tid_exec s (o : option tr_id) tid :
  (forall t, o = Some t -> is_Some (k_trans s !! t)) ->
  (match o with Some t => tr <- read_tr t ;; kret (t_tid tr =? tid) | None => kret false end) s
  = Ret (has_tid s o tid, s).
Proof.
  intros Ho. destruct o as [t|]; [|done]. destruct (Ho t eq_refl) as [tr Htr].
  unfold kbind, read_tr, has_tid. by rewrite Htr.
Qed.

(** The state after the request of [jbd2_vmsep_complete_transaction]. *)
Definition request (jiffies : Z) (tid : tid_t) (i : Z) (s : kstate) : kstate :=
  match j_running_transaction (k_journal s) with
  | Some t =>
    match k_trans s !! t with
    | Some tr =>
      if (t_tid tr =? tid) && negb (j_commit_request (k_journal s) =? tid)
      then mk_kstate ((k_journal s) <| j_commit_request := tid |>) (k_bufs s)
             (<[t := tr <| t_requested := jiffies |> <| ino_sync := i |>]> (k_trans s))
      else s
    | None => s
    end
  | None => s
  end.

Lemma complete_transaction_unfold jiffies envs tid i s :
  both_live s ->
  jbd2_vmsep_complete_transaction jiffies envs tid i s =
  if in_flight s tid then jbd2_vmsep_log_wait_commit envs tid (request jiffies tid i s) else Ret (Some 0, s).
Proof.
  intros [Hr Hc]. unfold jbd2_vmsep_complete_transaction, in_flight, request.
  unfold kbind at 1. cbn [read_journal]. unfold kbind at 1.
  rewrite read_tid_exec by done. unfold has_tid at 1 2.
  destruct (j_running_transaction (k_journal s)) as [t|] eqn:Ht.
  - destruct (Hr t Ht) as [tr Htr]. rewrite Htr. destruct (t_tid tr =? tid) eqn:E; cbn [orb andb].
    + unfold kbind at 1. destruct (j_commit_request (k_journal s) =? tid) eqn:Eq; [done|]. cbn [negb].
      unfold jbd2_vmsep_log_start_commit, __jbd2_vmsep_log_start_commit, kbind. cbn. rewrite Eq, Ht. cbn.
      unfold read_tr. rewrite Htr, E. cbn. unfold modify_tr. cbn. by rewrite Htr, ?Ht.
    + unfold kbind at 1. rewrite read_tid_exec by done. by destruct (has_tid _ _ _).
  - unfold kbind at 1. rewrite read_tid_exec by done. by destruct (has_tid _ _ _).
Qed.

Lemma complete_transaction_exec jiffies envs tid i s :
  both_live s -> Forall total envs ->
  wp (jbd2_vmsep_complete_transaction jiffies envs tid i)
    (fun r s' => if in_flight s tid then waited tid r s' else r = Some 0 /\ s' = s) s.
Proof.
  intros Hl He. unfold wp. rewrite complete_transaction_unfold by done.
  destruct (in_flight s tid); [|by split]. by apply wait_commit_exec.
Qed.

(** Whether the commit of [tid] will flush the device's cache for us. *)
Definition sends_barrier (external : bool) (s : kstate) (tid : tid_t) : bool :=
  JBD2_BARRIER (k_journal s) && negb (tid_geq (j_commit_sequence (k_journal s)) tid) &&
  match j_committing_transaction (k_journal s) ≫= (k_trans s !!.) with
  | Some tr =>
    negb (t_tid tr =? tid) ||
    (if external then t_need_data_flush tr && (t_state_rank (t_state tr) <? t_state_rank T_COMMIT_DFLUSH)
     else t_state_rank (t_state tr) <? t_state_rank T_COMMIT_JFLUSH)
  | None => true
  end.

Lemma will_send_exec external tid s :
  committing_live s ->
  jbd2_vmsep_trans_will_send_data_barrier external tid s = Ret (sends_barrier external s tid, s).
Proof.
  intros Hc. unfold jbd2_vmsep_trans_will_send_data_barrier, sends_barrier, kbind. cbn [read_journal].
  destruct (JBD2_BARRIER (k_journal s)); [|done]. cbn [negb andb].
  destruct (tid_geq _ tid); [done|]. cbn [negb andb].
  destruct (j_committing_transaction (k_journal s)) as [t|] eqn:Ht; [|done].
  destruct (Hc t Ht) as [tr Htr]. unfold read_tr. cbn. rewrite Htr.
  destruct (t_tid tr =? tid); [|done]. cbn [negb orb]. destruct external; cbn [kret]; [|by rewrite Z.ltb_antisym].
  by rewrite negb_orb, negb_involutive, Z.ltb_antisym.
Qed.

(** ** What fsync promises *)

(** The state with another journal. *)
Definition with_k (s : ext4_state) (k : kstate) : ext4_state := s <| e_a ::= fun a => a <| a_k := k |> |>.

Lemma wp_on_j {A} (m : K kstate A) (Q : A -> ext4_state -> Prop) s :
  wp m (fun a k => Q a (with_k s k)) (a_k (e_a s)) -> wp (on_j m) Q s.
Proof. unfold wp, on_j, on_a, on_k, with_k. by destruct (m (a_k (e_a s))) as [[]|]. Qed.

Lemma on_j_ret {A} (m : K kstate A) s a k : m (a_k (e_a s)) = Ret (a, k) -> on_j m s = Ret (a, with_k s k).
Proof. unfold on_j, on_a, on_k. by intros ->. Qed.

Lemma with_k_id s : with_k s (a_k (e_a s)) = s.
Proof. by destruct s as [[] ? ?]. Qed.

Lemma wp_get_sb (Q : super_block -> ext4_state -> Prop) s : Q (e_sb s) s -> wp get_sb Q s.
Proof. done. Qed.

(** The data of the inode is not journalled. *)
Definition data_in_place (sb : super_block) (i : inode) : bool :=
  i_regular i && negb (i_journal_data i && negb (opt_DELALLOC sb)) &&
  bool_decide (opt_DATA_FLAGS sb = ORDERED_DATA \/ opt_DATA_FLAGS sb = WRITEBACK_DATA).

Lemma should_journal_data_exec i s :
  s_journal (e_sb s) = true -> data_in_place (e_sb s) i = true -> ext4_should_journal_data i s = Ret (false, s).
Proof.
  intros Hj Hd. unfold data_in_place in Hd.
  apply andb_true_iff in Hd as [[Hr Hn%negb_true_iff]%andb_true_iff Hm%bool_decide_eq_true].
  unfold ext4_should_journal_data, ext4_inode_journal_mode, kbind. cbn.
  rewrite Hj, Hr, Hn. by destruct Hm as [-> | ->].
Qed.

Section Fsync.
Context (jiffies generic_fsync flush_err : Z) (sync_mapping sync_metadata : Z -> Z)
  (parent_inode : Z -> option Z) (external : bool).

(** [ext4_sync_file] with the data written. *)
Abbreviation fsync := (ext4_sync_file jiffies 0 generic_fsync flush_err sync_mapping sync_metadata parent_inode external).

Definition sync_tid (i : inode) (datasync : bool) : tid_t := if datasync then i_datasync_tid i else i_sync_tid i.

(** A mounted file system with a journal, whose transactions are live. *)
Record fsync_ready (i : inode) (s : ext4_state) : Prop := {
  fr_up : FS_SHUTDOWN (e_sb s) = false;
  fr_rw : MS_RDONLY (e_sb s) = false;
  fr_journal : s_journal (e_sb s) = true;
  fr_mode : data_in_place (e_sb s) i = true;
  fr_live : both_live (a_k (e_a s));
}.

(** Whether fsync flushes the device's cache itself. *)
Definition flush_needed (s : kstate) (tid : tid_t) : bool :=
  JBD2_BARRIER (k_journal s) && negb (sends_barrier external s tid).

Definition selected (sb : super_block) (i : inode) : Z :=
  if is_vm_commit sb (i_ino i) =? 0 then i_ino i else 0.

Lemma fsync_unfold envs i datasync s :
  fsync_ready i s ->
  let tid := sync_tid i datasync in
  fsync envs false i datasync s =
  (await ret <- on_j (jbd2_vmsep_complete_transaction jiffies envs tid (selected (e_sb s) i)) ;
   r <- flush_if flush_err (flush_needed (a_k (e_a s)) tid) ret ;; kret (Some r)) s.
Proof.
  intros [Hup Hrw Hj Hm [Hr Hc]] tid. unfold ext4_sync_file.
  unfold kbind at 1. cbn [get_sb]. rewrite Hup, Hrw, Hj. unfold kbind at 1. cbn [j_assert negb].
  unfold sync_journalled. cbn [Z.eqb negb]. unfold kbind at 1. rewrite should_journal_data_exec by done.
  unfold kbind at 1. rewrite (on_j_ret read_journal s _ _ eq_refl), with_k_id. unfold kbind at 1.
  unfold flush_needed. destruct (JBD2_BARRIER (k_journal (a_k (e_a s)))) eqn:Hb.
  - pose proof (will_send_exec external tid _ Hc) as Hs. subst tid. unfold sync_tid in *.
    by rewrite (on_j_ret _ s _ _ Hs), with_k_id.
  - done.
Qed.

(** What an fsync of transaction [tid] that started in [s] ends with. *)
Definition fsync_result (s : ext4_state) (tid : tid_t) (r : option Z) (s' : ext4_state) : Prop :=
  let k := a_k (e_a s) in
  match r with
  | None => in_flight k tid = true /\ tid_gt tid (j_commit_sequence (e_journal s')) = true
  | Some err =>
    (in_flight k tid = true -> tid_gt tid (j_commit_sequence (e_journal s')) = false) /\
    s_flushes (e_sb s') = s_flushes (e_sb s) + (if flush_needed k tid then 1 else 0) /\
    err = (if in_flight k tid && JBD2_ABORT (e_journal s') then - EIO
           else if flush_needed k tid then flush_err else 0)
  end.

Lemma flush_exec (needed : bool) ret (Q : option Z -> ext4_state -> Prop) s :
  Q (Some (if needed && (ret =? 0) then flush_err else ret))
    (s <| e_sb ::= fun sb => sb <| s_flushes := s_flushes sb + (if needed then 1 else 0) |> |>) ->
  wp (r <- flush_if flush_err needed ret ;; kret (Some r)) Q s.
Proof.
  destruct needed; cbn; [by destruct (ret =? 0)|]. rewrite Z.add_0_r. by destruct s as [? [] ?].
Qed.

(** C7: fsync of a file whose data is written in place.  It never returns while the
    transaction that last changed the inode is running or committing, it waits
    only as long as that, it flushes the cache of the device exactly when barriers are
    on and the commit did not still have to do it, and it reports an aborted
    journal or a failed flush.  For every schedule of the other tasks. *)
Theorem fsync_returns_after_commit envs i datasync s :
  fsync_ready i s -> Forall total envs ->
  wp (fsync envs false i datasync) (fsync_result s (sync_tid i datasync)) s.
Proof.
  intros Hr He. unfold wp. rewrite fsync_unfold by done. apply wp_bind, wp_on_j.
  eapply wp_mono; [apply complete_transaction_exec; [by destruct Hr|done]|]. cbv beta. intros ret k Hw.
  unfold fsync_result. destruct (in_flight _ _); [destruct ret as [ret|]|destruct Hw as [-> ->]].
  - apply flush_exec. destruct Hw as [Hg ->]. split; [done|]. split; [done|]. unfold e_journal, with_k. cbn.
    destruct (JBD2_ABORT (k_journal k)), (flush_needed _ _); done.
  - by apply wp_ret.
  - apply flush_exec. split; [done|]. split; [done|]. by destruct (flush_needed _ _).
Qed.
End Fsync.

(** The commit that follows: the buffers of the inode recorded in the
    transaction are logged, those of all other inodes go to the next
    transaction. *)
Lemma loop_contents submit_sb jiffies j_inode tag_bytes csum_size j_blocksize j_wbufsize
    ext ct rt own ent l s fuel tc :
  ready ext ct rt own ent l s -> mapped j_inode -> (length l <= fuel)%nat -> k_trans s !! ct = Some tc ->
  wp (commit_loop submit_sb jiffies j_inode true tag_bytes csum_size j_blocksize j_wbufsize fuel ct rt locals0)
    (fun _ s' => exists tc' tr', k_trans s' !! ct = Some tc' /\ k_trans s' !! rt = Some tr' /\
       forall b x h, b ∈ l -> has_jh s b x h ->
         if ino h =? ino_sync tc then b ∈ t_shadow_list tc' else b ∈ t_buffers tr') s.
Proof.
  intros Hrd Hm Hfuel Htc. destruct (rd_rt_live _ _ _ _ _ _ _ Hrd) as [tr Htr].
  eapply wp_mono; [by eapply loop_spec|]. intros r s' (_ & _ & _ & Hmv & _).
  destruct (Hmv tc tr Htc Htr) as (tc' & tr' & Htc' & Htr' & Ha & Ho & _). exists tc', tr'. split_and!; [done|done|].
  intros b x h Hb [Hx Hh]. destruct (rd_bufs _ _ _ _ _ _ _ Hrd b Hb) as (x' & h' & tc2 & [Hx' Hh'] & Htc2 & Hown & _).
  simplify_eq. rewrite <-Hown. rewrite Ha, Ho. destruct (own b) eqn:E; apply elem_of_app; right; by apply list_elem_of_filter.
Qed.

Lemma selected_registered ws sb0 sb i :
  sb = proc_writes ws (init_VM_inodes sb0) ->
  selected sb i = if bool_decide (i_ino i ∈ registered ws) then i_ino i else 0.
Proof.
  intros ->. unfold selected. rewrite (is_vm_commit_spec _ (registered ws)) by apply vm_table_registered.
  by case_bool_decide.
Qed.

(** The state in which an fsync of the running transaction starts to wait. *)
Lemma fsync_requests jiffies generic_fsync flush_err sync_mapping sync_metadata parent_inode external
    i datasync s t tr :
  fsync_ready i s ->
  let k := a_k (e_a s) in let tid := sync_tid i datasync in
  j_running_transaction (k_journal k) = Some t -> k_trans k !! t = Some tr -> t_tid tr = tid ->
  tid_gt tid (j_commit_sequence (k_journal k)) = true ->
  ext4_sync_file jiffies 0 generic_fsync flush_err sync_mapping sync_metadata parent_inode external
    [] false i datasync s = Ret (None, with_k s (request jiffies tid (selected (e_sb s) i) k)).
Proof.
  intros Hr k tid Ht Htr Htid Hg. rewrite fsync_unfold by done. unfold kbind at 1.
  rewrite (on_j_ret _ s None (request jiffies tid (selected (e_sb s) i) k)); [done|].
  rewrite complete_transaction_unfold by apply Hr. fold k tid.
  replace (in_flight k tid) with true by (unfold in_flight, has_tid; by rewrite Ht, Htr, Htid, Z.eqb_refl).
  unfold jbd2_vmsep_log_wait_commit, kbind. cbn [read_journal].
  replace (j_commit_sequence (k_journal (request jiffies tid (selected (e_sb s) i) k)))
    with (j_commit_sequence (k_journal k)) by (unfold request; rewrite Ht, Htr; by destruct (_ && _)).
  by rewrite Hg.
Qed.

(** C6: what an fsync gets committed.  The inodes that count are the first ten
    written to the proc file since the mount.  An fsync whose transaction is running
    and not requested yet records in it the inode, if it is one of them, and
    0 otherwise; a request that comes second leaves what is recorded, whatever its inode.  The
    commit that follows logs every metadata buffer of the recorded inode, and
    passes every other one, of whatever inode (also of the one synchronised if it is not
    the one recorded), on to the next transaction. *)
Theorem fsync_commit_contents jiffies generic_fsync flush_err sync_mapping sync_metadata parent_inode external
    ws sb0 i datasync s t tr :
  fsync_ready i s -> e_sb s = proc_writes ws (init_VM_inodes sb0) ->
  let k := a_k (e_a s) in let tid := sync_tid i datasync in
  j_running_transaction (k_journal k) = Some t -> k_trans k !! t = Some tr -> t_tid tr = tid ->
  tid_gt tid (j_commit_sequence (k_journal k)) = true ->
  wp (ext4_sync_file jiffies 0 generic_fsync flush_err sync_mapping sync_metadata parent_inode external
        [] false i datasync)
    (fun r s' => r = None /\ j_commit_request (e_journal s') = tid /\
       exists tr', k_trans (a_k (e_a s')) !! t = Some tr' /\
         ino_sync tr' = (if j_commit_request (k_journal k) =? tid then ino_sync tr
                         else if bool_decide (i_ino i ∈ registered ws) then i_ino i else 0) /\
         forall submit_sb j_inode tag_bytes csum_size j_blocksize j_wbufsize ext rt own ent l s2 fuel tc,
           ready ext t rt own ent l s2 -> mapped j_inode -> (length l <= fuel)%nat ->
           k_trans s2 !! t = Some tc -> ino_sync tc = ino_sync tr' ->
           wp (commit_loop submit_sb jiffies j_inode true tag_bytes csum_size j_blocksize j_wbufsize
                 fuel t rt locals0)
             (fun _ s3 => exists tc' rtr', k_trans s3 !! t = Some tc' /\ k_trans s3 !! rt = Some rtr' /\
                forall b x h, b ∈ l -> has_jh s2 b x h ->
                  if ino h =? ino_sync tr' then b ∈ t_shadow_list tc' else b ∈ t_buffers rtr') s2) s.
Proof.
  intros Hr Hsb k tid Ht Htr Htid Hg. unfold wp at 1. rewrite (fsync_requests _ _ _ _ _ _ _ _ _ _ t tr) by done.
  split; [done|]. fold k tid. unfold request. rewrite Ht, Htr, Htid, Z.eqb_refl, (selected_registered ws sb0) by done.
  unfold e_journal, with_k. cbn [e_a a_k field_update andb].
  destruct (j_commit_request (k_journal k) =? tid) eqn:Eq; cbn -[registered]; (split; [first [by apply Z.eqb_eq|done]|]).
  1: exists tr; split; [done|]. 2: eexists; split; [apply lookup_insert_eq|].
  all: split; [done|]; cbn -[registered]; intros submit_sb j_inode tb cs bs wb ext rt own ent l s2 fuel tc Hrd Hm Hf Htc Hi;
    rewrite <-Hi; by eapply loop_contents.
Qed.


(** ** An error takes the file system down *)

(** The operations on buffers through a handle. *)
Inductive buffer_op :=
| WriteAccess (b : bh_id) (envs : list (K astate unit))
| CreateAccess (b : bh_id)
| DirtyMetadata (i : inode) (b : bh_id)
| DirtySuper.

Section ErrorResponse.
Context (submit_sb : journal_t -> Z) (jiffies : Z) (find_block : kstate -> Z -> option bh_id)
  (sync_dirty_buffer : bh_id -> K kstate unit).

Definition run_op (op : buffer_op) (handle : ext4_handle) : K ext4_state (option (Z * ext4_handle)) :=
  match op with
  | WriteAccess b envs => __ext4_journal_get_write_access find_block envs handle b
  | CreateAccess b => r <- __ext4_journal_get_create_access find_block handle b ;; kret (Some r)
  | DirtyMetadata i b =>
    r <- __ext4_handle_dirty_metadata submit_sb jiffies sync_dirty_buffer handle (Some i) b ;; kret (Some r)
  | DirtySuper => r <- __ext4_handle_dirty_super handle ;; kret (Some r)
  end.

(** Handles that differ only in credits, errors and the abort bit. *)
Definition same_handle (h h' : handle_t) : Prop :=
  h_transaction h' = h_transaction h /\ h_ref h' = h_ref h /\ h_sync h' = h_sync h /\
  h_rsv_handle h' = h_rsv_handle h.

(** The error is in the handle, or the whole journal is aborted. *)
Definition error_kept (h : handle_t) (s : ext4_state) : Prop :=
  h_err h <> 0 \/ JBD2_ABORT (e_journal s) = true.

Lemma bind_returns {S A B} (m : K S A) (k : A -> K S B) s r :
  kbind m k s = Ret r -> exists a s1, m s = Ret (a, s1) /\ k a s1 = Ret r.
Proof. unfold kbind. destruct (m s) as [[a s1]|]; [|done]. eauto. Qed.

Lemma abort_handle_keeps h err s h' s' :
  err <> 0 -> ext4_journal_abort_handle h err s = Ret (h', s') -> same_handle h h' /\ h_err h' <> 0.
Proof.
  intros He. unfold ext4_journal_abort_handle. intros (aborted & s1 & _ & [= <- <-])%bind_returns.
  destruct (h_err h =? 0) eqn:E; bool_to_prop; by destruct aborted.
Qed.

Lemma abort_on_keeps e h s err r s' :
  abort_on e h s = Ret ((err, r), s') -> err <> 0 ->
  exists h', r = Journalled h' /\ same_handle h h' /\ h_err h' <> 0.
Proof.
  unfold abort_on. intros (h' & s1 & Hh & [= <- <- <-])%bind_returns He.
  apply Z.eqb_neq in He as Hb. rewrite Hb in Hh. exists h'. split; [done|]. by eapply abort_handle_keeps.
Qed.

(** [dirty_metadata] changes only the credits of the handle. *)
Lemma dirty_slow_handle h t b i s r s' : dirty_slow h t b i s = Ret (r, s') -> r.2 = h.
Proof.
  unfold dirty_slow. intros (jh & s1 & _ & Hk)%bind_returns. apply bind_returns in Hk as (j & s2 & _ & Hk).
  destruct (_ && _); [by injection Hk as <- <-|].
  apply bind_returns in Hk as (? & s3 & _ & Hk). apply bind_returns in Hk as (? & s4 & _ & Hk).
  destruct (negb _); [by injection Hk as <- <-|].
  apply bind_returns in Hk as (? & s5 & _ & Hk). apply bind_returns in Hk as (? & s6 & _ & Hk). by injection Hk as <- <-.
Qed.

Lemma dirty_metadata_handle h b i s r s' :
  jbd2_vmsep_journal_dirty_metadata h b i s = Ret (r, s') ->
  r.2 = h \/ r.2 = h <| h_buffer_credits := h_buffer_credits h - 1 |>.
Proof.
  unfold jbd2_vmsep_journal_dirty_metadata. intros (aborted & s1 & _ & Hk)%bind_returns.
  destruct aborted; [injection Hk as <- <-; by left|]. destruct (h_transaction h) as [t|]; [|done].
  apply bind_returns in Hk as (x & s2 & _ & Hk). destruct (negb _); [injection Hk as <- <-; by left|].
  apply bind_returns in Hk as (jh & s3 & _ & Hk). apply bind_returns in Hk as (? & s4 & _ & Hk).
  destruct (b_modified jh).
  { apply bind_returns in Hk as (? & s5 & _ & Hk). injection Hk as <- <-. by left. }
  apply bind_returns in Hk as (? & s5 & _ & Hk). destruct (_ <=? _); [injection Hk as <- <-; by left|].
  right. by eapply dirty_slow_handle.
Qed.

Lemma same_handle_dirty h r : 
  r = h \/ r = h <| h_buffer_credits := h_buffer_credits h - 1 |> -> same_handle h r /\ h_err r = h_err h /\ h_aborted r = h_aborted h.
Proof. by intros [-> | ->]. Qed.

Lemma same_handle_trans h1 h2 h3 : same_handle h1 h2 -> same_handle h2 h3 -> same_handle h1 h3.
Proof. unfold same_handle. intros. dest. split_and!; congruence. Qed.

(** A failing operation leaves the error behind. *)
Lemma run_op_fails op h s err r s' :
  FS_SHUTDOWN (e_sb s) = false -> (h_aborted h = true -> h_err h <> 0) -> h_transaction h <> None ->
  run_op op (Journalled h) s = Ret (Some (err, r), s') -> err <> 0 ->
  exists h', r = Journalled h' /\ same_handle h h' /\ error_kept h' s'.
Proof.
  intros Hup Hh Ht Hop He. unfold error_kept. destruct op as [b envs|b|i b|]; cbn [run_op] in Hop.
  - unfold __ext4_journal_get_write_access in Hop. rewrite bool_decide_false in Hop by done.
    unfold kbind at 1 in Hop. cbn [get_sb] in Hop. rewrite Hup in Hop.
    apply bind_returns in Hop as ([e|] & s1 & _ & Hop); [|done].
    apply bind_returns in Hop as (? & s2 & Ho & [= -> <-]).
    destruct (abort_on_keeps _ _ _ _ _ _ Ho He) as (h' & -> & ? & ?). eauto.
  - apply bind_returns in Hop as (? & s1 & Hop & [= -> <-]). apply bind_returns in Hop as (e & s2 & _ & Ho).
    destruct (abort_on_keeps _ _ _ _ _ _ Ho He) as (h' & -> & ? & ?). eauto.
  - apply bind_returns in Hop as (? & s1 & Hop & [= -> <-]). cbn [__ext4_handle_dirty_metadata] in Hop.
    apply bind_returns in Hop as ([e h1] & s2 & Hd & Hop). unfold on_j, on_a, on_k in Hd.
    destruct (jbd2_vmsep_journal_dirty_metadata h b (i_ino i) _) as [[r0 k1]|] eqn:Hdm; [|done].
    injection Hd as -> <-. apply dirty_metadata_handle, same_handle_dirty in Hdm as (Hs & Hee & Ha). cbn [fst snd] in *.
    apply bind_returns in Hop as (aborted & s3 & Hab & Hop).
    destruct (negb aborted && negb (e =? 0)) eqn:Ec.
    + apply bind_returns in Hop as (h' & s4 & Hh' & Hop). apply bind_returns in Hop as (x & s5 & _ & Hop).
      apply bind_returns in Hop as (? & s6 & _ & [= -> <- <-]). apply abort_handle_keeps in Hh' as [? ?]; [|done].
      exists h'. split; [done|]. split; [by eapply same_handle_trans|by left].
    + injection Hop as -> <- <-. exists h1. split; [done|]. split; [done|].
      apply Z.eqb_neq in He. rewrite He, andb_true_r in Ec. apply negb_false_iff in Ec as ->.
      unfold on_j, on_a, on_k, is_handle_aborted in Hab. rewrite (bool_decide_false (h_transaction h1 = None)) in Hab.
      2:{ destruct Hs as [-> _]. done. }
      rewrite Ha, orb_false_r in Hab. rewrite Hee. destruct (h_aborted h) eqn:Eh; [left; by apply Hh|].
      cbn in Hab. injection Hab as Hab <-. by right.
  - apply bind_returns in Hop as (? & s1 & Hop & [= -> <-]). apply bind_returns in Hop as (sb & s2 & _ & Hop).
    apply bind_returns in Hop as ([e h1] & s3 & Hd & Hop). unfold on_j, on_a, on_k in Hd.
    destruct (jbd2_vmsep_journal_dirty_metadata h _ _ _) as [[r0 k1]|] eqn:Hdm; [|done].
    injection Hd as -> <-. apply dirty_metadata_handle, same_handle_dirty in Hdm as (Hs & _). cbn [fst snd] in *.
    destruct (abort_on_keeps _ _ _ _ _ _ Hop He) as (h' & -> & ? & ?).
    exists h'. split; [done|]. split; [by eapply same_handle_trans|by left].
Qed.

(** Another task that does not stop the machine, does not free the running
    transaction and does not take an abort back. *)
Definition calm (env : K kstate unit) : Prop :=
  forall s, running_live s ->
    wp env (fun _ s' => running_live s' /\ (JBD2_ABORT (k_journal s) = true -> JBD2_ABORT (k_journal s') = true)) s.

Lemma wait_commit_calm envs tid : forall s,
  Forall calm envs -> running_live s ->
  wp (jbd2_vmsep_log_wait_commit envs tid)
    (fun r s' => running_live s' /\ (JBD2_ABORT (k_journal s) = true -> r <> Some 0)) s.
Proof.
  induction envs as [|env envs IH]; intros s He Hl; cbn [jbd2_vmsep_log_wait_commit]; wp_step; wp_step;
    apply wp_if; intros Hg; wp_step; try by split.
  1, 3: split; [done|]; by intros ->.
  apply Forall_cons in He as [Henv He]. eapply wp_mono; [by apply Henv|]. intros ? s1 [Hl1 Ha1].
  eapply wp_mono; [by apply IH|]. intros r s2 [? ?]. auto.
Qed.

Lemma running_live_same s s' :
  running_live s -> k_journal s' = k_journal s -> dom (k_trans s') = dom (k_trans s) -> running_live s'.
Proof. intros Hl Hj Hd t. rewrite Hj, <-!elem_of_dom, Hd. intros Ht. by apply elem_of_dom, Hl. Qed.

(** What the steps of [jbd2_vmsep_journal_stop] keep. *)
Definition stopping (t : tr_id) (aborted : bool) (s : kstate) : Prop :=
  running_live s /\ is_Some (k_trans s !! t) /\ JBD2_ABORT (k_journal s) = aborted.

Lemma stopping_modify t aborted f s : stopping t aborted s -> wp (modify_tr t f) (fun _ => stopping t aborted) s.
Proof.
  intros (Hl & [tr Htr] & Ha). wp_step. split; [|split; [|done]]; kst.
  - apply (running_live_same s); [done|done|]. kst. apply dom_insert_lookup_L. by eexists.
  - rewrite lookup_insert_eq. by eexists.
Qed.

Lemma stopping_request t aborted (c : bool) tid i s :
  stopping t aborted s ->
  wp (if c then jbd2_vmsep_log_start_commit jiffies tid i ;;; kret tt else kret tt) (fun _ => stopping t aborted) s.
Proof.
  intros (Hl & Ht & Ha). apply wp_if; intros _; [|by wp_step]. wp_step. eapply wp_mono.
  { apply (wp_keeps same_log); [apply log_start_commit_same_log|by apply log_start_commit_exec]. }
  intros r s' [[_ Hr] Hs]. wp_step. split; [by eapply running_live_same_log|].
  assert (JBD2_ABORT (k_journal s') = JBD2_ABORT (k_journal s)) by (destruct r; dest; by subst).
  split; [|congruence]. apply elem_of_dom. unfold same_log in Hs. dest.
  replace (dom (k_trans s')) with (dom (k_trans s)) by congruence. by apply elem_of_dom.
Qed.

(** Stopping the last reference to a handle in an aborted journal reports
    the abort. *)
Lemma journal_stop_reports envs memalloc h t tr s :
  Forall calm envs -> running_live s -> h_transaction h = Some t -> h_ref h = 1 ->
  k_trans s !! t = Some tr -> 0 < t_updates tr ->
  wp (jbd2_vmsep_journal_stop jiffies envs memalloc h)
    (fun r s' => running_live s' /\
       match r with
       | None => True
       | Some (err, rest) => rest = None /\ (JBD2_ABORT (k_journal s) = true -> err <> 0)
       end) s.
Proof.
  intros He Hl Ht Hr Htr Hu. unfold jbd2_vmsep_journal_stop. cbn zeta. rewrite Ht, Hr.
  apply Z.ltb_lt in Hu. assert (stopping t (JBD2_ABORT (k_journal s)) s) as Hst by (by repeat split).
  wp_step. wp_step. wp_step.
  assert (exists a, is_handle_aborted h s = Ret (a, s) /\ (JBD2_ABORT (k_journal s) = true -> a = true)) as (a & Ha & Hab).
  { unfold is_handle_aborted. destruct (_ || _); [by exists true|]. unfold is_journal_aborted. by eexists. }
  unfold wp at 1. rewrite Ha. wp_step. rewrite Hu.
  eapply (wp_mono _ (fun _ s' => s' = s)); [by destruct a|]. intros ? ? ->.
  change (0 <? h_ref h <| h_ref := 1 - 1 |>) with false. cbv iota. wp_step.
  eapply (wp_mono _ (fun _ => stopping t (JBD2_ABORT (k_journal s)))); [apply wp_if; intros _; [by apply stopping_modify|by wp_step]|].
  intros ? s1 H1. wp_step. eapply wp_mono; [apply stopping_modify, H1|]. intros ? s2 H2. wp_step. wp_step. wp_step.
  eapply wp_mono; [apply stopping_request, H2|]. intros ? s3 H3. wp_step.
  eapply wp_mono; [apply stopping_modify, H3|]. intros ? s4 (Hl4 & _ & Ha4). wp_step.
  eapply (wp_mono _ (fun r s' => running_live s' /\ (JBD2_ABORT (k_journal s) = true -> r <> Some 0))).
  - apply wp_if; intros _; [|wp_step; split; [done|]; intros Hab'; by rewrite Hab].
    rewrite <-Ha4. by apply wait_commit_calm.
  - intros [e|] s5 [Hl5 He5]; [|by wp_step]. wp_step.
    eapply (wp_mono _ (fun _ => running_live)); [destruct (h_rsv_handle h); [by apply wp_modify_journal|by wp_step]|].
    intros ? s6 Hl6. wp_step. split; [done|]. split; [done|]. intros Hab' ->. by apply He5.
Qed.

(** ** The response *)

(** Afterwards nothing can be changed any more. *)
Definition down (s : ext4_state) : Prop :=
  FS_SHUTDOWN (e_sb s) = false /\ opt_ERRORS_PANIC (e_sb s) = false /\
  (MS_RDONLY (e_sb s) = true \/ s_journal (e_sb s) = true /\ JBD2_ABORT (e_journal s) = true).

Lemma modify_sb_exec f s : modify_sb f s = Ret (tt, s <| e_sb ::= f |>).
Proof. done. Qed.

Lemma abort_exec s :
  running_live (a_k (e_a s)) ->
  wp (on_j (jbd2_vmsep_journal_abort submit_sb jiffies (- EIO)))
    (fun _ s' => e_sb s' = e_sb s /\ JBD2_ABORT (e_journal s') = true) s.
Proof.
  intros Hl. apply wp_on_j. eapply wp_mono; [by apply (abort_soft_exec submit_sb jiffies 0)|].
  intros ? k [Ha _]. by split.
Qed.

(** The fields the response depends on; recording an error keeps them. *)
Definition settings (sb : super_block) : list bool :=
  [FS_SHUTDOWN sb; opt_ERRORS_PANIC sb; opt_ERRORS_CONT sb; opt_ERRORS_RO sb; s_journal sb; MS_RDONLY sb].

Lemma save_error_exec s :
  wp save_error_info (fun _ s' => settings (e_sb s') = settings (e_sb s) /\ e_a s' = e_a s) s.
Proof. unfold wp, save_error_info, __save_error_info, modify_sb. cbn. by destruct (bdev_read_only (e_sb s)). Qed.

Lemma no_panic_exec s : down s -> wp panic_if_asked (fun _ => down) s.
Proof.
  intros Hd. pose proof Hd as (_ & Hp & _). unfold panic_if_asked. wp_step. apply wp_get_sb. rewrite Hp. by wp_step.
Qed.

(** A mounted journalled file system without [errors=continue] or
    [errors=panic]. *)
Definition stops_on_error (s : ext4_state) : Prop :=
  running_live (a_k (e_a s)) /\ FS_SHUTDOWN (e_sb s) = false /\ s_journal (e_sb s) = true /\
  opt_ERRORS_CONT (e_sb s) = false /\ opt_ERRORS_PANIC (e_sb s) = false.

Lemma handle_error_exec s : stops_on_error s -> wp (ext4_handle_error submit_sb jiffies) (fun _ => down) s.
Proof.
  intros (Hl & Hup & Hj & Hc & Hp). unfold ext4_handle_error. wp_step. apply wp_get_sb.
  destruct (MS_RDONLY (e_sb s)) eqn:Hr; [wp_step; split_and!; auto|]. wp_step. rewrite Hc. wp_step.
  unfold wp at 1. rewrite modify_sb_exec, Hj. eapply wp_mono; [by apply abort_exec|].
  intros ? s1 [Hs Ha]. wp_step.
  eapply (wp_mono _ (fun _ s' => down s')); [|by intros; apply no_panic_exec].
  apply wp_if; intros _; [unfold wp; rewrite modify_sb_exec|wp_step]; unfold down; cbn; rewrite Hs; cbn; auto.
Qed.

Lemma std_error_exec current errno s :
  stops_on_error s -> wp (__ext4_std_error submit_sb jiffies current errno) (fun _ => down) s.
Proof.
  intros (Hl & Hup & Hj & Hc & Hp). unfold __ext4_std_error. wp_step. apply wp_get_sb. rewrite Hup.
  destruct (_ && _) eqn:E.
  - apply andb_true_iff in E as [_ Hr]. wp_step. split_and!; auto.
  - wp_step. eapply wp_mono; [apply save_error_exec|]. intros ? s1 [[= E1 E2 E3 E4 E5 E6] Ha].
    apply handle_error_exec. split_and!; [by rewrite Ha|congruence..].
Qed.

Lemma ext4_abort_exec s :
  FS_SHUTDOWN (e_sb s) = false -> opt_ERRORS_PANIC (e_sb s) = false -> MS_RDONLY (e_sb s) = false ->
  running_live (a_k (e_a s)) \/ JBD2_ABORT (e_journal s) = true ->
  wp (__ext4_abort submit_sb jiffies) (fun _ => down) s.
Proof.
  intros Hup Hp Hr Hl. unfold __ext4_abort. wp_step. apply wp_get_sb. rewrite Hup. wp_step.
  eapply wp_mono; [apply save_error_exec|]. intros ? s1 [[= E1 E2 E3 E4 E5 E6] Ha]. rewrite Hr. wp_step. wp_step.
  unfold wp at 1. rewrite modify_sb_exec. wp_step.
  eapply (wp_mono _ (fun _ => down)).
  - apply wp_if; intros Hj.
    + apply wp_on_j. destruct Hl as [Hl|Hl].
      * eapply wp_mono; [apply (abort_soft_exec submit_sb jiffies 0); cbn; by rewrite Ha|].
        intros ? k _. unfold down. cbn. rewrite E1, E2. auto.
      * unfold wp, jbd2_vmsep_journal_abort. rewrite abort_soft_aborted by (cbn; by rewrite Ha).
        unfold down. cbn. rewrite E1, E2. auto.
    + wp_step. unfold down. cbn. rewrite E1, E2. auto.
  - intros ? s2 Hd. eapply wp_mono; [apply save_error_exec|]. intros ? s3 [[= F1 F2 F3 F4 F5 F6] Ha3].
    apply no_panic_exec. destruct Hd as (? & ? & ?). unfold down, e_journal in *. rewrite F1, F2, F5, F6, Ha3. auto.
Qed.

(** A file system that is down starts no handle. *)
Lemma down_start alloc_ok envs current blocks rsv s :
  down s ->
  wp (__ext4_journal_start_sb submit_sb jiffies alloc_ok envs current blocks rsv)
    (fun r s' => r = Some (inl (- EROFS)) /\ down s') s.
Proof.
  intros Hd. pose proof Hd as (Hup & Hp & Hr). unfold __ext4_journal_start_sb. wp_step.
  eapply (wp_mono _ (fun e s' => e = - EROFS /\ down s')); [|by intros e s' [-> Hd']; apply wp_ret].
  unfold ext4_journal_check_start. wp_step. apply wp_get_sb. rewrite Hup.
  destruct (MS_RDONLY (e_sb s)) eqn:Er; [by wp_step|]. destruct Hr as [?|[Hj Ha]]; [done|].
  wp_step. apply wp_on_j. wp_step. unfold e_journal in Ha. rewrite Hj, Ha. cbn [andb]. rewrite with_k_id.
  wp_step. eapply wp_mono; [apply ext4_abort_exec; auto|]. intros ? s' ?. by wp_step.
Qed.

(** C24: an error of a buffer operation is not lost.  When getting access to a
    buffer or dirtying it fails, whatever the error, then stopping the handle
    reports an error, whatever other tasks did in between, and, unless the file
    system was mounted with [errors=continue] (or it panics), from then on
    starting a handle fails with [-EROFS], also for handles that are tried
    again and again. *)
Theorem failed_operation_stops_fs op h t s err r s' envs memalloc s2 tr :
  FS_SHUTDOWN (e_sb s) = false -> (h_aborted h = true -> h_err h <> 0) -> h_transaction h = Some t -> h_ref h = 1 ->
  run_op op (Journalled h) s = Ret (Some (err, r), s') -> err <> 0 ->
  Forall calm envs -> stops_on_error s2 -> k_trans (a_k (e_a s2)) !! t = Some tr -> 0 < t_updates tr ->
  (JBD2_ABORT (e_journal s') = true -> JBD2_ABORT (e_journal s2) = true) ->
  wp (__ext4_journal_stop submit_sb jiffies envs memalloc r)
    (fun r s3 => match r with
       | None => True
       | Some (ret, current) =>
         ret <> 0 /\ current = NoJournal 0 /\ down s3 /\
         forall alloc_ok envs' blocks rsv,
           wp (__ext4_journal_start_sb submit_sb jiffies alloc_ok envs' current blocks rsv)
             (fun r s4 => r = Some (inl (- EROFS)) /\ down s4) s3
       end) s2.
Proof.
  intros Hup Hh Ht Href Hop He Henvs Hs2 Htr Hu Hab.
  destruct (run_op_fails op h s err r s' Hup Hh) as (h' & -> & (Ht' & Hr' & _ & _) & Hk); [by rewrite Ht|done|done|].
  cbn [__ext4_journal_stop]. wp_step. apply wp_on_j. eapply wp_mono.
  { apply (journal_stop_reports envs memalloc h' t tr); [done|apply Hs2|congruence|congruence|done|done]. }
  intros [[rc rest]|] k [Hl Hrc]; [|by wp_step]. destruct Hrc as [-> Hrc]. cbn [fst snd].
  rewrite bool_decide_false by (by rewrite Ht', Ht).
  assert ((if h_err h' =? 0 then rc else h_err h') <> 0) as Hret.
  { destruct (h_err h' =? 0) eqn:E; bool_to_prop; [|done]. destruct Hk as [?|Hk]; [done|]. by apply Hrc, Hab. }
  wp_step. apply Z.eqb_neq in Hret as Hb. rewrite Hb. eapply wp_mono.
  { apply std_error_exec. destruct Hs2 as (_ & Hs2). split; [done|exact Hs2]. }
  intros ? s3 Hd. wp_step. split; [done|]. split; [done|]. split; [done|]. intros. by apply down_start.
Qed.
End ErrorResponse.

(** ** Two consequences for callers *)

(** Bitmaps, group descriptors and other blocks without an inode are dirtied
    with a NULL inode, which the wrapper dereferences. *)
Lemma dirty_metadata_null_inode submit_sb jiffies sync_dirty_buffer h b s :
  __ext4_handle_dirty_metadata submit_sb jiffies sync_dirty_buffer (Journalled h) None b s = Fault Oops.
Proof. done. Qed.

(** The fsync of a directory is a forced commit: it records inode 0 even if
    the directory is registered. *)
Lemma fsync_directory_requests jiffies generic_fsync flush_err sync_mapping sync_metadata parent_inode external
    i datasync s t tr :
  FS_SHUTDOWN (e_sb s) = false -> MS_RDONLY (e_sb s) = false -> s_journal (e_sb s) = true -> i_regular i = false ->
  let k := a_k (e_a s) in
  j_running_transaction (k_journal k) = Some t -> k_trans k !! t = Some tr ->
  tid_geq (j_commit_request (k_journal k)) (t_tid tr) = false ->
  (j_commit_request (k_journal k) =? t_tid tr) = false ->
  tid_gt (t_tid tr) (j_commit_sequence (k_journal k)) = true ->
  ext4_sync_file jiffies 0 generic_fsync flush_err sync_mapping sync_metadata parent_inode external
    [] false i datasync s = Ret (None, with_k s (request jiffies (t_tid tr) 0 k)).
Proof.
  intros Hup Hrw Hj Hreg k Ht Htr Hq Hne Hg.
  assert (ext4_should_journal_data i s = Ret (true, s)) as Hd.
  { unfold ext4_should_journal_data, ext4_inode_journal_mode, kbind. cbn. by rewrite Hj, Hreg. }
  unfold ext4_sync_file, kbind at 1. cbn [get_sb]. rewrite Hup, Hrw, Hj.
  unfold kbind at 1. cbn [j_assert negb]. unfold sync_journalled. cbn [Z.eqb negb]. unfold kbind at 1. rewrite Hd.
  unfold ext4_force_commit, kbind at 1. cbn [get_sb]. rewrite Hrw, Hj.
  rewrite (on_j_ret _ s None (request jiffies (t_tid tr) 0 k)); [done|].
  unfold jbd2_vmsep_journal_force_commit, __jbd2_journal_force_commit, request, kbind, read_tr, modify_tr,
    jbd2_vmsep_log_start_commit, __jbd2_vmsep_log_start_commit. cbn. fold k.
  do 4 (rewrite ?Ht, ?Htr, ?Hq, ?Hne, ?Z.eqb_refl, ?Hg; unfold kbind, read_tr, modify_tr; cbn). by rewrite Hg.
Qed.
(** ** Examples *)

Definition ex_ext4_sb : super_block :=
  mk_super_block false true [] 0 false false true false true false true ORDERED_DATA false false 1 false 0 0 0 None 0.
Definition ex_inode (ino : Z) : inode := mk_inode ino true false false false 7 7.

(** Inode 42 is registered; transaction 7 runs, and nobody has asked for its
    commit. *)
Definition ex_ws : list (option Z * Z) := [(Some 42, 3); (None, 1)].
Definition ex_fs_k : kstate :=
  mk_kstate (ex_journal <| JBD2_BARRIER := true |> <| j_running_transaction := Some 1%positive |>
               <| j_commit_request := 6 |> <| j_commit_sequence := 6 |>) ∅
    {[ 1%positive := zero_transaction <| t_tid := 7 |> ]}.
Definition ex_fs : ext4_state :=
  mk_ext4_state ((ex_access false) <| a_k := ex_fs_k |>) (proc_writes ex_ws (init_VM_inodes ex_ext4_sb)) ∅.

Lemma ex_fs_ready ino : fsync_ready (ex_inode ino) ex_fs.
Proof. split; try done. split; [intros t [= <-]; by eexists|intros t [=]]. Qed.

(** The commit thread finishes transaction 7. *)
Definition ex_commits : K kstate unit := modify_journal (fun j => j <| j_commit_sequence := 7 |>).

Lemma fsync_returns_after_commit_witness :
  let fsync envs := ext4_sync_file 0 0 0 0 (fun _ => 0) (fun _ => 0) (fun _ => None) false envs false (ex_inode 42) false in
  wp (fsync [ex_commits]) (fsync_result 0 false ex_fs 7) ex_fs /\
  option_map fst (match fsync [ex_commits] ex_fs with Ret r => Some r | Fault _ => None end) = Some (Some 0) /\
  option_map fst (match fsync [] ex_fs with Ret r => Some r | Fault _ => None end) = Some None.
Proof.
  split; [|by split; vm_compute].
  apply (fsync_returns_after_commit 0 0 0 (fun _ => 0) (fun _ => 0) (fun _ => None) false _
    (ex_inode 42) false ex_fs (ex_fs_ready 42)); by repeat constructor.
Defined.

(** The fsync of inode 42 has its buffer logged, that of inode 43 would have
    nothing logged. *)
Lemma fsync_commit_contents_witness :
  wp (ext4_sync_file 0 0 0 0 (fun _ => 0) (fun _ => 0) (fun _ => None) false [] false (ex_inode 42) false)
    (fun r s' => exists tr', k_trans (a_k (e_a s')) !! 1%positive = Some tr' /\ ino_sync tr' = 42 /\
       wp (commit_loop (fun _ => 0) 0 None true 16 4 1024 64 2 1 2 locals0)
         (fun _ s3 => exists tc' rtr', k_trans s3 !! 1%positive = Some tc' /\ k_trans s3 !! 2%positive = Some rtr' /\
            2%positive ∈ t_shadow_list tc' /\ 1%positive ∈ t_buffers rtr')
         (ex_commit [1; 2]%positive)) ex_fs /\
  wp (ext4_sync_file 0 0 0 0 (fun _ => 0) (fun _ => 0) (fun _ => None) false [] false (ex_inode 43) false)
    (fun r s' => exists tr', k_trans (a_k (e_a s')) !! 1%positive = Some tr' /\ ino_sync tr' = 0) ex_fs.
Proof.
  split; (eapply wp_mono; [by eapply (fsync_commit_contents 0 0 0 (fun _ => 0) (fun _ => 0) (fun _ => None) false
    ex_ws ex_ext4_sb _ false ex_fs 1%positive (zero_transaction <| t_tid := 7 |>) (ex_fs_ready _))|]).
  - intros r s' (_ & _ & tr' & Htr' & Hi & Hc). exists tr'. split; [done|]. split; [done|].
    eapply wp_mono; [eapply (Hc (fun _ => 0) None 16 4 1024 64 (fun _ => 0) 2%positive ex_own_p ex_ent [1; 2]%positive
      (ex_commit [1; 2]%positive) 2%nat); [apply ex_commit_ready; by left|done|done|reflexivity|by rewrite Hi]|].
    intros ? s3 (tc' & rtr' & Htc' & Hrtr' & Hall). exists tc', rtr'. split; [done|]. split; [done|]. rewrite Hi in Hall.
    split; [exact (Hall 2%positive ex_own_bh ex_own ltac:(set_solver) ltac:(by split))|].
    exact (Hall 1%positive (ex_bh ex_other true) ex_other ltac:(set_solver) ltac:(by split)).
  - intros r s' (_ & _ & tr' & Htr' & Hi & _). exists tr'. by split.
Defined.

(** Dirtying a buffer without credits. *)
Definition ex_fs_dirty : ext4_state := mk_ext4_state ((ex_access false) <| a_k := ex_dirty |>) ex_ext4_sb ∅.
Definition ex_poor : handle_t := ex_handle2 <| h_buffer_credits := 0 |>.

Definition ex_failed : outcome (option (Z * ext4_handle) * ext4_state) :=
  Eval vm_compute in
  run_op (fun _ => 0) 0 (fun _ _ => None) (fun _ => kret tt) (DirtyMetadata (ex_inode 42) 1) (Journalled ex_poor) ex_fs_dirty.

Lemma failed_operation_stops_fs_witness :
  match ex_failed with
  | Ret (Some (err, r), s') => err = - ENOSPC /\
    wp (__ext4_journal_stop (fun _ => 0) 0 [] false r)
      (fun r _ => match r with Some (ret, _) => ret <> 0 | None => True end) s'
  | _ => False
  end.
Proof.
  split; [done|]. eapply wp_mono.
  { eapply (failed_operation_stops_fs (fun _ => 0) 0 (fun _ _ => None) (fun _ => kret tt) (DirtyMetadata (ex_inode 42) 1)
      ex_poor 2%positive ex_fs_dirty); [done|done|done|done|vm_compute; reflexivity|done|constructor| |reflexivity|done|done].
    split_and!; [intros t [= <-]; by eexists|done..]. }
  intros [[ret cur]|] s3; [|done]. by intros [? _].
Defined.
