(* ===== verification/Recovery.v ===== *)
(** * Recovery

    kernel/fs/jbd2/recovery.c: reading the log, the three passes of
    [do_one_pass] and [jbd2_vmsep_journal_recover].  The revoke table is used
    through its contract, [RevokeStore].

    The theorem: a log that holds a sequence of complete transactions,
    followed by what an interrupted commit left behind, is replayed exactly
    transaction by transaction, skipping what the same or a later transaction
    revoked; nothing of the interrupted commit reaches the file system; and
    recovery interrupted by another crash can be repeated. *)
From S2P Require Import Prelude Tid Revoke State JournalHead Filing Log Commit OnDisk RevokeLog.


Inductive passtype := PASS_SCAN | PASS_REVOKE | PASS_REPLAY.
#[export] Instance passtype_eq_dec : EqDecision passtype.
Proof. solve_decision. Defined.

(** The state recovery works on: the journal, its revoke table, the contents of
    the file system's blocks as far as recovery has written them, and
    [struct recovery_info]. *)
Record rstate (T : Type) := mk_rstate {
  r_k : kstate;
  r_revoke : T;
  r_fs : gmap Z (list Z);
  start_transaction : tid_t;
  end_transaction : tid_t;
  nr_replays : Z;
  nr_revokes : Z;
  nr_revoke_hits : Z;
}.
Arguments mk_rstate {T} _ _ _ _ _ _ _ _.
Arguments r_k {T} _.
Arguments r_revoke {T} _.
Arguments r_fs {T} _.
Arguments start_transaction {T} _.
Arguments end_transaction {T} _.
Arguments nr_replays {T} _.
Arguments nr_revokes {T} _.
Arguments nr_revoke_hits {T} _.
#[export] Instance eta_rstate T : Eta (rstate T) := fun s =>
  mk_rstate (r_k s) (r_revoke s) (r_fs s) (start_transaction s) (end_transaction s)
    (nr_replays s) (nr_revokes s) (nr_revoke_hits s).

(** The local variables of [do_one_pass] that outlive an iteration. *)
Record pass_locals := mk_pass {
  next_commit_ID : tid_t;
  next_log_block : Z;
  crc32_sum : Z;
  success : Z;
  block_error : bool;
}.
#[export] Instance eta_pass_locals : Eta _ := fun l =>
  mk_pass (next_commit_ID l) (next_log_block l) (crc32_sum l) (success l) (block_error l).

(** How an iteration of the scan ends: [continue] (and the [break]s of the
    [switch], which also start the next iteration), leaving the loop for
    [done], or [goto failed]. *)
Inductive flow :=
| Continue (l : pass_locals)
| Leave (l : pass_locals)
| Failed (err : Z).

Section Recovery.
Context {T : Type} `{RevokeStore T}.
Context (submit_sb : journal_t -> Z) (jiffies : Z) (j_inode : option (Z -> Z)).
Context (jbd2_chksum crc32_be : Z -> list Z -> Z) (f : jformat).
(** The journal's device: whether [__getblk] finds memory for a buffer, whether the
    buffer is brand new, and what reading it gives; [getblk_fs] is [__getblk]
    on the file system's device. *)
Context (getblk : Z -> bool) (brand_new : Z -> bool) (dev : Z -> option (list Z)) (getblk_fs : Z -> bool).
Abbreviation R := (K (rstate T)).

Definition get : R (rstate T) := fun s => Ret (s, s).
Definition modify (g : rstate T -> rstate T) : R unit := fun s => Ret (tt, g s).

(** Run a function of the journal. *)
Definition lift {A} (m : K kstate A) : R A := fun s =>
  match m (r_k s) with
  | Ret (a, k) => Ret (a, s <| r_k := k |>)
  | Fault e => Fault e
  end.

(** ** Reading the log *)

(** The rounds of the readahead loop, from [next]; only their mapping of log
    blocks, which can abort the journal, has an effect beyond the I/O. *)
Fixpoint readahead_loop (rounds : nat) (next : Z) : R Z :=
  match rounds with
  | O => kret 0
  | S rounds =>
    r <- lift (jbd2_vmsep_journal_bmap submit_sb jiffies j_inode next) ;;
    if negb (r.1 =? 0) then kret r.1
    else if negb (getblk r.2) then kret (- ENOMEM)
    else readahead_loop rounds (u32 (next + 1))
  end.

Definition do_readahead (start : Z) : R Z :=
  s <- get ;;
  let max := u32 (start + 128 * 1024 / j_blocksize f) in
  let max := Z.min max (j_maxlen (k_journal (r_k s))) in
  readahead_loop (Z.to_nat (max - start)) start.

(** The error, or the contents of the block. *)
Definition jread (offset : Z) : R (Z + list Z) :=
  let offset := u32 offset in
  s <- get ;;
  if j_maxlen (k_journal (r_k s)) <=? offset then kret (inl (- EFSCORRUPTED))
  else
    r <- lift (jbd2_vmsep_journal_bmap submit_sb jiffies j_inode offset) ;;
    if negb (r.1 =? 0) then kret (inl r.1)
    else if negb (getblk r.2) then kret (inl (- ENOMEM))
    else
      (if brand_new r.2 then do_readahead offset ;;; kret tt else kret tt) ;;;
      kret (match dev r.2 with Some bs => inr bs | None => inl (- EIO) end).

(** The [wrap] macro. *)
Definition wrap_log (var : Z) : R Z :=
  s <- get ;;
  let j := k_journal (r_k s) in
  kret (if j_last j <=? var then u64 (var - (j_last j - j_first j)) else var).

(** [crc32_be] of a block; the sum is a [__u32]. *)
Definition crc_block (crc : Z) (bs : list Z) : Z := u32 (crc32_be crc bs).

(** The blocks a descriptor describes: 1 when one cannot be read, and the
    caller's [next_log_block] and [crc32_sum] so far. *)
Fixpoint calc_loop (n : nat) (nlb crc : Z) : R (Z * Z * Z) :=
  match n with
  | O => kret (0, nlb, crc)
  | S n =>
    let io_block := nlb in
    nlb <- wrap_log (u64 (nlb + 1)) ;;
    r <- jread io_block ;;
    match r with
    | inl err => kret (1, nlb, crc)
    | inr bs => calc_loop n nlb (crc_block crc bs)
    end
  end.

Definition calc_chksums (bs : list Z) (nlb crc : Z) : R (Z * Z * Z) :=
  calc_loop (Z.to_nat (count_tags f bs)) nlb (crc_block crc bs).

(** ** Replaying the tags of a descriptor block *)

Definition unescape (flags : Z) (data : list Z) : list Z :=
  if flag_set flags JBD2_FLAG_ESCAPE then store data 0 (be 4 JBD2_MAGIC_NUMBER) else data.

(** One tag, up to [skip_write]; [Some err]: [goto failed]. *)
Definition replay_tag (bs : list Z) (tagp : Z) (l : pass_locals) : R (pass_locals * option Z) :=
  let flags := t_flags bs tagp in
  let io_block := next_log_block l in
  nlb <- wrap_log (u64 (next_log_block l + 1)) ;;
  let l := l <| next_log_block := nlb |> in
  r <- jread io_block ;;
  match r with
  | inl err => kret (l <| success := err |>, None)
  | inr data =>
    s <- get ;;
    let block := read_tag_block f bs tagp in
    if rs_test (r_revoke s) block (next_commit_ID l)
    then modify (fun s => s <| nr_revoke_hits ::= Z.succ |>) ;;; kret (l, None)
    else if negb (jbd2_block_tag_csum_verify jbd2_chksum f bs tagp data (h_sequence bs))
    then kret (l <| success := - EFSBADCRC |> <| block_error := true |>, None)
    else if negb (getblk_fs block) then kret (l, Some (- ENOMEM))
    else
      modify (fun s => s <| r_fs ::= <[block := unescape flags data]> |> <| nr_replays ::= Z.succ |>) ;;;
      kret (l, None)
  end.

(** The loop over the tags; each round takes at least 8 bytes of the block. *)
Fixpoint replay_tags (fuel : nat) (bs : list Z) (tagp : Z) (l : pass_locals) : R flow :=
  match fuel with
  | O => kret (Continue l)
  | S fuel =>
    if tagp + journal_vmsep_tag_bytes f <=? j_blocksize f - csum_size f
    then
      let flags := t_flags bs tagp in
      r <- replay_tag bs tagp l ;;
      match r.2 with
      | Some err => kret (Failed err)
      | None =>
        let tagp := tagp + journal_vmsep_tag_bytes f in
        let tagp := if flag_set flags JBD2_FLAG_SAME_UUID then tagp else tagp + 16 in
        if flag_set flags JBD2_FLAG_LAST_TAG then kret (Continue r.1)
        else replay_tags fuel bs tagp r.1
      end
    else kret (Continue l)
  end.

(** ** The kinds of blocks *)

Definition pass_descriptor (pass : passtype) (bs : list Z) (l : pass_locals) : R flow :=
  if (0 <? csum_size f) && negb (jbd2_descriptor_block_csum_verify jbd2_chksum f bs)
  then kret (Failed (- EFSBADCRC))
  else
    s <- get ;;
    match pass with
    | PASS_REPLAY => replay_tags (Z.to_nat (j_blocksize f)) bs sizeof_journal_header l
    | _ =>
      if bool_decide (pass = PASS_SCAN) && has_feature_checksum f && (end_transaction s =? 0)
      then
        r <- calc_chksums bs (next_log_block l) (crc32_sum l) ;;
        let '(_, nlb, crc) := r in
        kret (Continue (l <| next_log_block := nlb |> <| crc32_sum := crc |>))
      else
        nlb <- wrap_log (u64 (next_log_block l + count_tags f bs)) ;;
        kret (Continue (l <| next_log_block := nlb |>))
    end.

(** The transaction's checksum in its commit block: [false] for the two
    [break]s, after which the scan reads on without counting the transaction. *)
Definition check_chksum (bs : list Z) (l : pass_locals) : R bool :=
  s <- get ;;
  let found_chksum := be32_at bs 16 in
  if negb (end_transaction s =? 0)
  then
    modify (fun s => s <| r_k ::= fun k => k <| k_journal ::= fun j => j <| j_failed_commit := end_transaction s |> |> |>) ;;;
    kret false
  else
    let type := be_val (load bs 12 1) in
    let size := be_val (load bs 13 1) in
    let chksum_err :=
      if (crc32_sum l =? found_chksum) && (type =? JBD2_CRC32_CHKSUM) && (size =? JBD2_CRC32_CHKSUM_SIZE)
      then false
      else negb ((type =? 0) && (size =? 0) && (found_chksum =? 0)) in
    if chksum_err
    then
      modify (fun s => s <| end_transaction := next_commit_ID l |>) ;;;
      if has_feature_async_commit f then kret true
      else
        modify (fun s => s <| r_k ::= fun k => k <| k_journal ::= fun j => j <| j_failed_commit := next_commit_ID l |> |> |>) ;;;
        kret false
    else kret true.

Definition pass_commit (pass : passtype) (bs : list Z) (l : pass_locals) : R flow :=
  let next l := Continue (l <| next_commit_ID := tid_succ (next_commit_ID l) |>) in
  match pass with
  | PASS_SCAN =>
    ok <- (if has_feature_checksum f then check_chksum bs l else kret true) ;;
    if negb ok then kret (Continue l)
    else
      let l := if has_feature_checksum f then l <| crc32_sum := 4294967295 |> else l in
      if negb (jbd2_commit_block_csum_verify jbd2_chksum f bs)
      then
        modify (fun s => s <| end_transaction := next_commit_ID l |>) ;;;
        if has_feature_async_commit f then kret (next l)
        else
          modify (fun s => s <| r_k ::= fun k => k <| k_journal ::= fun j => j <| j_failed_commit := next_commit_ID l |> |> |>) ;;;
          kret (Continue l)
      else kret (next l)
  | _ => kret (next l)
  end.

Definition pass_revoke (pass : passtype) (bs : list Z) (l : pass_locals) : R flow :=
  match pass with
  | PASS_REVOKE =>
    s <- get ;;
    let '(err, t, nr) := scan_revoke_records jbd2_chksum f bs (next_commit_ID l) (r_revoke s) (nr_revokes s) in
    modify (fun s => s <| r_revoke := t |> <| nr_revokes := nr |>) ;;;
    kret (if err =? 0 then Continue l else Failed err)
  | _ => kret (Continue l)
  end.

(** ** One pass *)

(** One iteration of the [while (1)]. *)
Definition pass_step (pass : passtype) (l : pass_locals) : R flow :=
  s <- get ;;
  if negb (bool_decide (pass = PASS_SCAN)) && tid_geq (next_commit_ID l) (end_transaction s)
  then kret (Leave l)
  else
    r <- jread (next_log_block l) ;;
    match r with
    | inl err => kret (Failed err)
    | inr bs =>
      nlb <- wrap_log (u64 (next_log_block l + 1)) ;;
      let l := l <| next_log_block := nlb |> in
      if negb (h_magic bs =? JBD2_MAGIC_NUMBER) then kret (Leave l)
      else
        let blocktype := h_blocktype bs in
        if negb (h_sequence bs =? next_commit_ID l) then kret (Leave l)
        else if blocktype =? JBD2_DESCRIPTOR_BLOCK then pass_descriptor pass bs l
        else if blocktype =? JBD2_COMMIT_BLOCK then pass_commit pass bs l
        else if blocktype =? JBD2_REVOKE_BLOCK then pass_revoke pass bs l
        else kret (Leave l)
    end.

(** [None]: the loop did not end within [fuel] iterations. *)
Fixpoint pass_loop (fuel : nat) (pass : passtype) (l : pass_locals) : R (option (pass_locals + Z)) :=
  match fuel with
  | O => kret None
  | S fuel =>
    r <- pass_step pass l ;;
    match r with
    | Continue l => pass_loop fuel pass l
    | Leave l => kret (Some (inl l))
    | Failed err => kret (Some (inr err))
    end
  end.

(** After the loop. *)
Definition pass_done (pass : passtype) (l : pass_locals) : R Z :=
  s <- get ;;
  success' <- (match pass with
     | PASS_SCAN =>
       (if end_transaction s =? 0
        then modify (fun s => s <| end_transaction := next_commit_ID l |>) else kret tt) ;;;
       kret (success l)
     | _ => kret (if negb (end_transaction s =? next_commit_ID l)
                  then (if success l =? 0 then - EIO else success l) else success l)
     end) ;;
  kret (if block_error l && (success' =? 0) then - EIO else success').

Definition do_one_pass (fuel : nat) (pass : passtype) : R (option Z) :=
  s <- get ;;
  let j := k_journal (r_k s) in
  (match pass with
   | PASS_SCAN => modify (fun s => s <| start_transaction := s_sequence j |>)
   | _ => kret tt
   end) ;;;
  r <- pass_loop fuel pass (mk_pass (s_sequence j) (s_start j) 4294967295 0 false) ;;
  match r with
  | None => kret None
  | Some (inr err) => kret (Some err)
  | Some (inl l) => e <- pass_done pass l ;; kret (Some e)
  end.

(** ** Recovery *)

(** The results of [sync_blockdev] and [blkdev_issue_flush]. *)
Context (sync_err flush_err : Z).

Definition and_then (err : option Z) (m : R (option Z)) : R (option Z) :=
  match err with
  | Some 0 => m
  | _ => kret err
  end.

Definition jbd2_vmsep_journal_recover (fuel : nat) : R (option Z) :=
  modify (fun s => mk_rstate (r_k s) (r_revoke s) (r_fs s) 0 0 0 0 0) ;;;
  s <- get ;;
  let set_sequence v := modify (fun s => s <| r_k ::= fun k => k <| k_journal ::= fun j => j <| j_transaction_sequence := v |> |> |>) in
  if s_start (k_journal (r_k s)) =? 0
  then set_sequence (u32 (s_sequence (k_journal (r_k s)) + 1)) ;;; kret (Some 0)
  else
    err <- do_one_pass fuel PASS_SCAN ;;
    err <- and_then err (do_one_pass fuel PASS_REVOKE) ;;
    err <- and_then err (do_one_pass fuel PASS_REPLAY) ;;
    match err with
    | None => kret None
    | Some err =>
      modify (fun s => s <| end_transaction := tid_succ (end_transaction s) |>) ;;;
      s <- get ;;
      set_sequence (end_transaction s) ;;;
      modify (fun s => s <| r_revoke ::= rs_clear |>) ;;;
      let err := if err =? 0 then sync_err else err in
      let err := if JBD2_BARRIER (k_journal (r_k s)) && (err =? 0) then flush_err else err in
      kret (Some err)
    end.

Definition jbd2_vmsep_journal_skip_recovery (fuel : nat) : R (option Z) :=
  modify (fun s => mk_rstate (r_k s) (r_revoke s) (r_fs s) 0 0 0 0 0) ;;;
  err <- do_one_pass fuel PASS_SCAN ;;
  match err with
  | None => kret None
  | Some err =>
    (if negb (err =? 0)
     then modify (fun s => s <| r_k ::= fun k => k <| k_journal ::= fun j => j <| j_transaction_sequence ::= tid_succ |> |> |>)
     else
       modify (fun s => s <| end_transaction := tid_succ (end_transaction s) |>) ;;;
       modify (fun s => s <| r_k ::= fun k => k <| k_journal ::= fun j => j <| j_transaction_sequence := end_transaction s |> |> |>)) ;;;
    modify (fun s => s <| r_k ::= fun k => k <| k_journal ::= fun j => j <| j_tail := 0 |> |> |>) ;;;
    kret (Some err)
  end.
End Recovery.

(** ** The log as recovery reads it *)

(** A descriptor block with the blocks it describes, or a revoke block. *)
Inductive item :=
| Desc (bs : list Z) (tags : list (tag * list Z))
| Rev (bs : list Z) (blocks : list Z).

Definition item_blocks (it : item) : list (list Z) :=
  match it with
  | Desc bs tags => bs :: map snd tags
  | Rev bs _ => [bs]
  end.

(** A transaction of the log: its items and its commit block. *)
Record txn := mk_txn { x_items : list item; x_commit : list Z }.

Definition items_blocks (its : list item) : list (list Z) := concat (map item_blocks its).
Definition txn_blocks (x : txn) : list (list Z) := items_blocks (x_items x) ++ [x_commit x].

(** What the transaction writes and what it revokes. *)
Definition item_writes (it : item) : list (Z * list Z) :=
  match it with
  | Desc _ tags => map (fun '(t, data) => (tag_block t, unescape (tag_flags t) data)) tags
  | Rev _ _ => []
  end.
Definition item_revokes (it : item) : list Z :=
  match it with Desc _ _ => [] | Rev _ blocks => blocks end.
Definition txn_writes (x : txn) : list (Z * list Z) := concat (map item_writes (x_items x)).
Definition txn_revokes (x : txn) : list Z := concat (map item_revokes (x_items x)).

(** *** What recovery should do

    The transactions in order; a block is left alone when this or a later
    transaction revokes it. *)
Definition revoked_by (txns : list txn) (b : Z) : bool :=
  existsb (fun x => existsb (Z.eqb b) (txn_revokes x)) txns.

Definition apply_writes (skip : Z -> bool) (ws : list (Z * list Z)) (fs : gmap Z (list Z)) : gmap Z (list Z) :=
  fold_left (fun fs '(b, data) => if skip b then fs else <[b := data]> fs) ws fs.

Fixpoint replay (txns : list txn) (fs : gmap Z (list Z)) : gmap Z (list Z) :=
  match txns with
  | [] => fs
  | x :: rest => replay rest (apply_writes (revoked_by txns) (txn_writes x) fs)
  end.

(** ** Positions in the log *)

Section Positions.
Context (j : journal_t).

Definition geometry : Prop :=
  0 <= j_first j < j_last j /\ j_last j <= j_maxlen j /\ j_last j < 4294967296.
Definition in_log (pos : Z) : Prop := j_first j <= pos < j_last j.
Definition next_pos (pos : Z) : Z :=
  if j_last j <=? pos + 1 then pos + 1 - (j_last j - j_first j) else pos + 1.
Fixpoint adv (n : nat) (pos : Z) : Z :=
  match n with O => pos | S n => adv n (next_pos pos) end.

Lemma next_pos_in_log pos : geometry -> in_log pos -> in_log (next_pos pos).
Proof. unfold geometry, in_log, next_pos. intros. case_match; bool_to_prop; lia. Qed.

Lemma adv_in_log n : forall pos, geometry -> in_log pos -> in_log (adv n pos).
Proof. induction n as [|n IH]; intros; cbn; [done|]. apply IH; [done|]. by apply next_pos_in_log. Qed.

Lemma adv_add n m : forall pos, adv (n + m) pos = adv m (adv n pos).
Proof. induction n as [|n IH]; intros; cbn; [done|]. apply IH. Qed.

(** Up to one turn of the log, a single [wrap] is enough. *)
Lemma adv_once n : forall pos,
  geometry -> in_log pos -> Z.of_nat n <= log_len j ->
  adv n pos = if j_last j <=? pos + Z.of_nat n then pos + Z.of_nat n - (j_last j - j_first j) else pos + Z.of_nat n.
Proof.
  induction n as [|n IH]; intros pos Hg Hp Hn; cbn [adv].
  - unfold in_log in Hp. rewrite Z.add_0_r. case_match; bool_to_prop; lia.
  - rewrite IH by (try done; try lia; by apply next_pos_in_log).
    unfold next_pos, geometry, in_log, log_len in *. repeat case_match; bool_to_prop; lia.
Qed.

(** The log holds the blocks [bl] from [pos] on. *)
Context (read : Z -> option (list Z)).
Fixpoint holds (pos : Z) (bl : list (list Z)) : Prop :=
  match bl with
  | [] => True
  | bs :: bl => read pos = Some bs /\ holds (next_pos pos) bl
  end.

Lemma holds_app bl bl' : forall pos, holds pos (bl ++ bl') <-> holds pos bl /\ holds (adv (length bl) pos) bl'.
Proof. induction bl as [|bs bl IH]; intros pos; cbn; [tauto|]. rewrite IH. tauto. Qed.
End Positions.

(** The id of the transaction [i] after [base]. *)
Definition tid_at (base : tid_t) (i : Z) : tid_t := u32 (base + i).

Lemma tid_at_succ base i : tid_succ (tid_at base i) = tid_at base (i + 1).
Proof. unfold tid_succ, tid_at, u32. rewrite Zplus_mod_idemp_l. f_equal. lia. Qed.

Lemma lift_same {T A} (m : K kstate A) (s : rstate T) a :
  m (r_k s) = Ret (a, r_k s) -> lift m s = Ret (a, s).
Proof. intros E. unfold lift. rewrite E. by destruct s. Qed.

Section Passes.
Context {T : Type} `{RevokeStore T}.
Context (submit_sb : journal_t -> Z) (jiffies : Z) (j_inode : option (Z -> Z)).
Context (jbd2_chksum crc32_be : Z -> list Z -> Z) (f : jformat).
Context (getblk brand_new : Z -> bool) (dev : Z -> option (list Z)) (getblk_fs : Z -> bool).
Context (j : journal_t).
Hypothesis all_mapped : mapped j_inode.
Hypothesis memory : forall b, getblk b = true.
Hypothesis memory_fs : forall b, getblk_fs b = true.
Hypothesis geo : geometry j.
Implicit Types s : rstate T.

Definition log_read (pos : Z) : option (list Z) := dev (physical j_inode pos).
Abbreviation holds := (holds j log_read).
Abbreviation jread := (jread submit_sb jiffies j_inode f getblk brand_new dev).

Lemma bmap_mapped pos k :
  jbd2_vmsep_journal_bmap submit_sb jiffies j_inode pos k = Ret ((0, physical j_inode pos), k).
Proof.
  unfold jbd2_vmsep_journal_bmap, physical. destruct j_inode as [g|] eqn:E; [|done].
  by rewrite (proj2 (Z.eqb_neq _ _) (all_mapped g pos eq_refl)).
Qed.

Lemma readahead_exec n : forall next s,
  readahead_loop submit_sb jiffies j_inode getblk n next s = Ret (0, s).
Proof.
  induction n as [|n IH]; intros next s; cbn [readahead_loop]; [done|].
  rewrite (bind_ret _ _ _ _ _ (lift_same _ _ _ (bmap_mapped next (r_k s)))). cbn [fst snd negb Z.eqb].
  rewrite memory. apply IH.
Qed.

Lemma jread_exec pos bs s :
  k_journal (r_k s) = j -> in_log j pos -> log_read pos = Some bs -> jread pos s = Ret (inr bs, s).
Proof.
  intros Hj Hp Hr. unfold Recovery.jread, get. destruct geo as (? & ? & ?). unfold in_log in Hp.
  rewrite u32_id by (unfold is_u32; lia). unfold kbind at 1. rewrite Hj.
  rewrite (proj2 (Z.leb_gt _ _)) by lia.
  rewrite (bind_ret _ _ _ _ _ (lift_same _ _ _ (bmap_mapped pos (r_k s)))). cbn [fst snd].
  rewrite memory. cbn [negb Z.eqb].
  erewrite bind_ret; [by unfold log_read in Hr; rewrite Hr|].
  destruct (brand_new _); [|done]. unfold do_readahead, get, kbind. by rewrite readahead_exec.
Qed.

Lemma wrap_adv n pos s :
  k_journal (r_k s) = j -> in_log j pos -> 0 <= n <= log_len j ->
  wrap_log (u64 (pos + n)) s = Ret (adv j (Z.to_nat n) pos, s).
Proof.
  intros Hj Hp Hn. unfold wrap_log, get, kbind, kret. rewrite Hj.
  destruct geo as (? & ? & ?). unfold in_log, log_len in *.
  rewrite u64_id by (unfold is_u64; lia). rewrite adv_once by (unfold geometry, in_log, log_len in *; try done; lia).
  rewrite Z2Nat.id by lia. case_match; bool_to_prop; [|done].
  by rewrite u64_id by (unfold is_u64; lia).
Qed.

Lemma wrap_next pos s :
  k_journal (r_k s) = j -> in_log j pos -> wrap_log (u64 (pos + 1)) s = Ret (next_pos j pos, s).
Proof. intros Hj Hp. apply (wrap_adv 1); try done. destruct geo as (? & _). unfold log_len. lia. Qed.

Lemma calc_loop_exec bl : forall pos crc s,
  k_journal (r_k s) = j -> in_log j pos -> holds pos bl ->
  calc_loop submit_sb jiffies j_inode crc32_be f getblk brand_new dev (length bl) pos crc s =
  Ret ((0, adv j (length bl) pos, fold_left (crc_block crc32_be) bl crc), s).
Proof.
  induction bl as [|bs bl IH]; intros pos crc s Hj Hp Hh; cbn [calc_loop length adv fold_left]; [done|].
  destruct Hh as [Hr Hh]. rewrite (bind_ret _ _ _ _ _ (wrap_next pos s Hj Hp)).
  rewrite (bind_ret _ _ _ _ _ (jread_exec pos bs s Hj Hp Hr)).
  apply IH; try done. by apply next_pos_in_log.
Qed.

(** *** Replaying a descriptor block *)

Definition tag_effect (tid : tid_t) (s : rstate T) (td : tag * list Z) : rstate T :=
  let '(t, data) := td in
  if rs_test (r_revoke s) (tag_block t) tid
  then s <| nr_revoke_hits ::= Z.succ |>
  else s <| r_fs ::= <[tag_block t := unescape (tag_flags t) data]> |> <| nr_replays ::= Z.succ |>.

Lemma tag_effect_frame tid s td :
  r_k (tag_effect tid s td) = r_k s /\ r_revoke (tag_effect tid s td) = r_revoke s /\
  end_transaction (tag_effect tid s td) = end_transaction s.
Proof. unfold tag_effect. destruct td. by case_match. Qed.

Lemma replay_tag_exec bs tagp tid t data l s :
  k_journal (r_k s) = j -> in_log j (next_log_block l) -> log_read (next_log_block l) = Some data ->
  tag_reads jbd2_chksum f bs tagp tid t data -> h_sequence bs = tid -> next_commit_ID l = tid ->
  replay_tag submit_sb jiffies j_inode jbd2_chksum f getblk brand_new dev getblk_fs bs tagp l s =
  Ret ((l <| next_log_block := next_pos j (next_log_block l) |>, None), tag_effect tid s (t, data)).
Proof.
  intros Hj Hp Hr [Hb Hf Hc] Hs Hn. unfold replay_tag.
  rewrite (bind_ret _ _ _ _ _ (wrap_next (next_log_block l) s Hj Hp)).
  rewrite (bind_ret _ _ _ _ _ (jread_exec _ data s Hj Hp Hr)).
  unfold get, modify, kbind at 1. rewrite Hb, Hs, Hf. rewrite Hc. cbn [next_commit_ID field_update]. rewrite Hn.
  unfold tag_effect. destruct (rs_test _ _ _); [done|]. rewrite memory_fs. done.
Qed.

Lemma replay_tags_exec bs tid tags : forall fuel tagp first l s,
  tags <> [] -> tags_at jbd2_chksum f bs tid tagp first tags -> tags_shape f first tags.*1 ->
  tagp + tags_span f first (length tags) <= j_blocksize f - csum_size f -> (length tags <= fuel)%nat ->
  k_journal (r_k s) = j -> in_log j (next_log_block l) -> holds (next_log_block l) (map snd tags) ->
  h_sequence bs = tid -> next_commit_ID l = tid ->
  replay_tags submit_sb jiffies j_inode jbd2_chksum f getblk brand_new dev getblk_fs fuel bs tagp l s =
  Ret (Continue (l <| next_log_block := adv j (length tags) (next_log_block l) |>),
       fold_left (tag_effect tid) tags s).
Proof.
  induction tags as [|[t data] tags IH]; intros fuel tagp first l s Hne Hat Hsh Hsz Hfuel Hj Hp Hh Hs Hn; [done|].
  destruct fuel as [|fuel]; [cbn in Hfuel; lia|]. destruct Hat as [Hr Hat]. pose proof Hr as [_ Hfl _].
  cbn in Hsh. destruct Hsh as (_ & _ & Hsame & Hlast & Hsh).
  cbn [length] in Hsz. rewrite tags_span_S in Hsz. pose proof (tags_span_pos f false (length tags)).
  destruct Hh as [Hrd Hh]. cbn [map snd] in *.
  cbn [replay_tags length adv fold_left]. rewrite (proj2 (Z.leb_le _ _)) by (destruct first; lia).
  rewrite (bind_ret _ _ _ _ _ (replay_tag_exec _ _ _ _ _ l s Hj Hp Hrd Hr Hs Hn)). cbn [fst snd].
  rewrite Hfl, Hsame, Hlast. case_bool_decide as He.
  - assert (tags = []) as -> by (by destruct tags). done.
  - destruct (tag_effect_frame tid s (t, data)) as (Hk & _).
    rewrite (IH fuel _ false); try done; try (rewrite Hk; done).
    + by intros ->.
    + by destruct first; [|rewrite Z.add_0_r in Hat].
    + destruct first; cbn [negb]; lia.
    + cbn in Hfuel. lia.
    + by apply next_pos_in_log.
Qed.

(** *** The items of a transaction *)

Definition item_ok (tid : tid_t) (it : item) : Prop :=
  match it with
  | Desc bs tags => descriptor_reads jbd2_chksum f bs tid tags
  | Rev bs blocks => revoke_reads jbd2_chksum f bs tid blocks
  end.

Definition item_crc (crc : Z) (it : item) : Z :=
  match it with
  | Desc bs tags => fold_left (crc_block crc32_be) (bs :: map snd tags) crc
  | Rev _ _ => crc
  end.

Definition item_locals (pass : passtype) (l : pass_locals) (it : item) : pass_locals :=
  l <| next_log_block := adv j (length (item_blocks it)) (next_log_block l) |>
    <| crc32_sum := if bool_decide (pass = PASS_SCAN) && has_feature_checksum f
                    then item_crc (crc32_sum l) it else crc32_sum l |>.

Definition item_effect (pass : passtype) (tid : tid_t) (s : rstate T) (it : item) : rstate T :=
  match pass, it with
  | PASS_REVOKE, Rev _ blocks =>
    s <| r_revoke := fold_left (fun t b => rs_set t b tid) blocks (r_revoke s) |>
      <| nr_revokes ::= Z.add (Z.of_nat (length blocks)) |>
  | PASS_REPLAY, Desc _ tags => fold_left (tag_effect tid) tags s
  | _, _ => s
  end.

Lemma fold_tag_effect_frame tid tags : forall s,
  r_k (fold_left (tag_effect tid) tags s) = r_k s /\
  r_revoke (fold_left (tag_effect tid) tags s) = r_revoke s /\
  end_transaction (fold_left (tag_effect tid) tags s) = end_transaction s.
Proof.
  induction tags as [|td tags IH]; intros s; cbn; [done|].
  destruct (tag_effect_frame tid s td) as (<- & <- & <-). apply IH.
Qed.

Lemma item_effect_frame pass tid s it :
  r_k (item_effect pass tid s it) = r_k s /\
  end_transaction (item_effect pass tid s it) = end_transaction s.
Proof. destruct pass, it; try done. cbn. by destruct (fold_tag_effect_frame tid tags s) as (-> & _ & ->). Qed.

(** The pass goes on: scanning has not met the end of the log, the other
    passes have not reached it. *)
Definition goes_on (pass : passtype) (tid : tid_t) (s : rstate T) : Prop :=
  match pass with
  | PASS_SCAN => end_transaction s = 0
  | _ => tid_geq tid (end_transaction s) = false
  end.

Abbreviation pass_step := (pass_step submit_sb jiffies j_inode jbd2_chksum crc32_be f getblk brand_new dev getblk_fs).
Abbreviation pass_loop := (pass_loop submit_sb jiffies j_inode jbd2_chksum crc32_be f getblk brand_new dev getblk_fs).

(** The start of an iteration that finds a block of the expected transaction. *)
Lemma pass_step_block pass l s bs :
  k_journal (r_k s) = j -> in_log j (next_log_block l) -> log_read (next_log_block l) = Some bs ->
  goes_on pass (next_commit_ID l) s ->
  h_magic bs = JBD2_MAGIC_NUMBER -> h_sequence bs = next_commit_ID l ->
  pass_step pass l s =
  (let l := l <| next_log_block := next_pos j (next_log_block l) |> in
   if h_blocktype bs =? JBD2_DESCRIPTOR_BLOCK
   then pass_descriptor submit_sb jiffies j_inode jbd2_chksum crc32_be f getblk brand_new dev getblk_fs pass bs l s
   else if h_blocktype bs =? JBD2_COMMIT_BLOCK then pass_commit jbd2_chksum f pass bs l s
   else if h_blocktype bs =? JBD2_REVOKE_BLOCK then pass_revoke jbd2_chksum f pass bs l s
   else Ret (Leave l, s)).
Proof.
  intros Hj Hp Hr Hg Hm Hs. unfold Recovery.pass_step, get, kbind at 1.
  assert (negb (bool_decide (pass = PASS_SCAN)) && tid_geq (next_commit_ID l) (end_transaction s) = false) as ->
    by (by destruct pass).
  rewrite (bind_ret _ _ _ _ _ (jread_exec _ bs s Hj Hp Hr)).
  rewrite (bind_ret _ _ _ _ _ (wrap_next (next_log_block l) s Hj Hp)).
  rewrite Hm, Z.eqb_refl. cbn [negb next_commit_ID field_update]. rewrite Hs, Z.eqb_refl. cbn [negb].
  by repeat case_match.
Qed.

Lemma desc_csum_ok bs :
  jbd2_descriptor_block_csum_verify jbd2_chksum f bs = true ->
  (0 <? csum_size f) && negb (jbd2_descriptor_block_csum_verify jbd2_chksum f bs) = false.
Proof. intros ->. by rewrite andb_false_r. Qed.

(** A descriptor block in the passes that do not replay. *)
Lemma pass_descriptor_skip pass bs tid tags l s :
  pass <> PASS_REPLAY -> k_journal (r_k s) = j -> in_log j (next_log_block l) ->
  descriptor_reads jbd2_chksum f bs tid tags -> holds (next_log_block l) (map snd tags) ->
  Z.of_nat (length tags) <= log_len j -> goes_on pass (next_commit_ID l) s ->
  pass_descriptor submit_sb jiffies j_inode jbd2_chksum crc32_be f getblk brand_new dev getblk_fs pass bs l s =
  Ret (Continue (l <| next_log_block := adv j (length tags) (next_log_block l) |>
                   <| crc32_sum := if bool_decide (pass = PASS_SCAN) && has_feature_checksum f
                                   then item_crc (crc32_sum l) (Desc bs tags) else crc32_sum l |>), s).
Proof.
  intros Hpass Hj Hp Hd Hh Hlen Hg. unfold pass_descriptor. rewrite desc_csum_ok by apply Hd.
  unfold get, kbind at 1.
  pose proof (count_tags_reads _ _ _ _ _ Hd) as Hc.
  pose proof (wrap_adv (Z.of_nat (length tags)) (next_log_block l) s Hj Hp) as Hw.
  rewrite Nat2Z.id in Hw. specialize (Hw ltac:(lia)).
  pose proof (calc_loop_exec (map snd tags) (next_log_block l) (crc_block crc32_be (crc32_sum l) bs) s Hj Hp Hh) as Hcalc.
  rewrite length_map in Hcalc.
  destruct pass; [rewrite bool_decide_true by done|rewrite bool_decide_false by done|done]; cbn [andb].
  2: { rewrite Hc, (bind_ret _ _ _ _ _ Hw). by destruct l. }
  destruct (has_feature_checksum f); cbn [andb].
  - change (end_transaction s = 0) in Hg. rewrite Hg. cbn [Z.eqb].
    unfold calc_chksums. rewrite Hc, Nat2Z.id, (bind_ret _ _ _ _ _ Hcalc). done.
  - rewrite Hc, (bind_ret _ _ _ _ _ Hw). destruct l; done.
Qed.

Lemma item_step pass tid it l s :
  k_journal (r_k s) = j -> in_log j (next_log_block l) -> holds (next_log_block l) (item_blocks it) ->
  Z.of_nat (length (item_blocks it)) <= log_len j ->
  item_ok tid it -> next_commit_ID l = tid -> goes_on pass tid s ->
  pass_step pass l s = Ret (Continue (item_locals pass l it), item_effect pass tid s it).
Proof.
  intros Hj Hp Hh Hlen Hok Hn Hg. subst tid.
  assert (in_log j (next_pos j (next_log_block l))) as Hp' by by apply next_pos_in_log.
  destruct it as [bs tags|bs blocks]; destruct Hh as [Hr Hh]; cbn [item_blocks length] in Hlen.
  - pose proof Hok as [Hdl Hm Ht Hs Hcs Hat Hsh Hne Hfit].
    rewrite (pass_step_block pass l s bs) by done. rewrite Ht. cbn [Z.eqb JBD2_DESCRIPTOR_BLOCK].
    destruct (decide (pass = PASS_REPLAY)) as [->|Hpass].
    + unfold pass_descriptor. rewrite desc_csum_ok by done. unfold get, kbind at 1.
      unfold item_locals. cbn [item_blocks length]. rewrite length_map.
      assert (length tags <= Z.to_nat (j_blocksize f))%nat as Hfu.
      { pose proof (tag_bytes_bounds f). pose proof (csum_size_bounds f). unfold sizeof_journal_header in Hfit.
        destruct tags; [done|]. unfold tags_span in Hfit. cbn [length] in *. nia. }
      rewrite (replay_tags_exec bs (next_commit_ID l) tags _ _ true) by done. by destruct l.
    + rewrite (pass_descriptor_skip pass bs (next_commit_ID l) tags); try done; [|rewrite length_map in Hlen; lia].
      unfold item_locals. cbn [item_blocks length]. rewrite length_map. by destruct pass, l.
  - pose proof Hok as [Hdl Hm Ht Hs Hcs Hc Hfit Hrec].
    rewrite (pass_step_block pass l s bs) by done. rewrite Ht. cbn [Z.eqb JBD2_DESCRIPTOR_BLOCK JBD2_COMMIT_BLOCK JBD2_REVOKE_BLOCK].
    unfold pass_revoke, item_locals, item_effect. cbn [item_blocks length adv item_crc].
    destruct pass; cbn -[scan_revoke_records]; [by case_match; destruct l| |by destruct l].
    unfold kbind. cbn -[scan_revoke_records].
    rewrite (scan_revoke_reads _ _ _ _ blocks) by done. cbn. rewrite Z.add_comm. by destruct l, s.
Qed.

(** The items one after the other. *)
Lemma items_loop pass tid its : forall l s fuel,
  k_journal (r_k s) = j -> in_log j (next_log_block l) -> holds (next_log_block l) (items_blocks its) ->
  Z.of_nat (length (items_blocks its)) <= log_len j ->
  Forall (item_ok tid) its -> next_commit_ID l = tid -> goes_on pass tid s ->
  pass_loop (length its + fuel) pass l s =
  pass_loop fuel pass (fold_left (item_locals pass) its l) (fold_left (item_effect pass tid) its s).
Proof.
  induction its as [|it its IH]; intros l s fuel Hj Hp Hh Hlen Hok Hn Hg; [done|].
  apply Forall_cons in Hok as [Hit Hok]. unfold items_blocks in Hh, Hlen. cbn [map concat] in Hh, Hlen.
  apply holds_app in Hh as [Hh Hh']. rewrite length_app in Hlen.
  cbn [length Nat.add Recovery.pass_loop fold_left].
  rewrite (bind_ret _ _ _ _ _ (item_step pass tid it l s Hj Hp Hh ltac:(lia) Hit Hn Hg)).
  destruct (item_effect_frame pass tid s it) as [Hk He].
  apply IH; try done.
  - by rewrite Hk.
  - by apply adv_in_log.
  - unfold items_blocks. lia.
  - unfold goes_on in *. by destruct pass; rewrite He.
Qed.

(** *** Commit blocks *)

(** A commit block as the commit code writes it, for a transaction whose
    logged blocks have the checksum [crc]. *)
Record commit_ok (tid : tid_t) (crc : Z) (bs : list Z) : Prop := {
  co_magic : h_magic bs = JBD2_MAGIC_NUMBER;
  co_type : h_blocktype bs = JBD2_COMMIT_BLOCK;
  co_sequence : h_sequence bs = tid;
  co_csum : jbd2_commit_block_csum_verify jbd2_chksum f bs = true;
  co_chksum : has_feature_checksum f = true ->
    be32_at bs 16 = crc /\ be_val (load bs 12 1) = JBD2_CRC32_CHKSUM /\
    be_val (load bs 13 1) = JBD2_CRC32_CHKSUM_SIZE;
}.

Definition commit_locals_of (pass : passtype) (l : pass_locals) : pass_locals :=
  l <| next_log_block := next_pos j (next_log_block l) |>
    <| crc32_sum := if bool_decide (pass = PASS_SCAN) && has_feature_checksum f then 4294967295 else crc32_sum l |>
    <| next_commit_ID := tid_succ (next_commit_ID l) |>.

Lemma commit_step_exec pass crc bs l s :
  k_journal (r_k s) = j -> in_log j (next_log_block l) -> log_read (next_log_block l) = Some bs ->
  commit_ok (next_commit_ID l) crc bs -> goes_on pass (next_commit_ID l) s ->
  (pass = PASS_SCAN -> has_feature_checksum f = true -> crc32_sum l = crc) ->
  pass_step pass l s = Ret (Continue (commit_locals_of pass l), s).
Proof.
  intros Hj Hp Hr [Hm Ht Hs Hcs Hck] Hg Hcrc.
  rewrite (pass_step_block pass l s bs) by done. rewrite Ht. cbn [Z.eqb JBD2_DESCRIPTOR_BLOCK JBD2_COMMIT_BLOCK].
  unfold pass_commit, commit_locals_of.
  destruct pass; [rewrite bool_decide_true by done|by destruct l..]. cbn [andb].
  destruct (has_feature_checksum f); cbn [andb].
  - destruct (Hck eq_refl) as (Ec & Et & Es). unfold check_chksum, get, kbind. change (end_transaction s = 0) in Hg.
    rewrite Hg. cbn [negb Z.eqb]. rewrite Ec, Et, Es. cbn [crc32_sum field_update].
    rewrite (Hcrc eq_refl eq_refl), !Z.eqb_refl. cbn [andb negb kret]. rewrite Hcs. by destruct l.
  - unfold kbind, kret. cbn [negb]. rewrite Hcs. by destruct l.
Qed.

(** *** Transactions *)

Record txn_ok (tid : tid_t) (x : txn) : Prop := {
  xo_items : Forall (item_ok tid) (x_items x);
  xo_commit : commit_ok tid (fold_left item_crc (x_items x) 4294967295) (x_commit x);
}.

Definition txn_locals (pass : passtype) (l : pass_locals) (x : txn) : pass_locals :=
  commit_locals_of pass (fold_left (item_locals pass) (x_items x) l).
Definition txn_effect (pass : passtype) (tid : tid_t) (s : rstate T) (x : txn) : rstate T :=
  fold_left (item_effect pass tid) (x_items x) s.

Lemma fold_item_locals pass its : forall l,
  fold_left (item_locals pass) its l =
  l <| next_log_block := adv j (length (items_blocks its)) (next_log_block l) |>
    <| crc32_sum := if bool_decide (pass = PASS_SCAN) && has_feature_checksum f
                    then fold_left item_crc its (crc32_sum l) else crc32_sum l |>.
Proof.
  induction its as [|it its IH]; intros l; cbn [fold_left].
  - destruct l; cbn. by case_match.
  - rewrite IH. unfold items_blocks. cbn [map concat]. rewrite length_app, adv_add.
    unfold item_locals. destruct l; cbn. by destruct (bool_decide _ && _).
Qed.

Lemma fold_item_effect_frame pass tid its : forall s,
  r_k (fold_left (item_effect pass tid) its s) = r_k s /\
  end_transaction (fold_left (item_effect pass tid) its s) = end_transaction s.
Proof.
  induction its as [|it its IH]; intros s; cbn [fold_left]; [done|].
  destruct (item_effect_frame pass tid s it) as (<- & <-). apply IH.
Qed.

Lemma goes_on_effect pass tid tid' its s :
  goes_on pass tid s -> goes_on pass tid (fold_left (item_effect pass tid') its s).
Proof. destruct (fold_item_effect_frame pass tid' its s) as [_ He]. unfold goes_on. by destruct pass; rewrite He. Qed.

(** Iterations a transaction takes. *)
Definition txn_rounds (x : txn) : nat := S (length (x_items x)).

Lemma txn_loop pass x l s fuel :
  k_journal (r_k s) = j -> in_log j (next_log_block l) -> holds (next_log_block l) (txn_blocks x) ->
  Z.of_nat (length (txn_blocks x)) <= log_len j ->
  txn_ok (next_commit_ID l) x -> goes_on pass (next_commit_ID l) s -> crc32_sum l = 4294967295 ->
  pass_loop (txn_rounds x + fuel) pass l s =
  pass_loop fuel pass (txn_locals pass l x) (txn_effect pass (next_commit_ID l) s x).
Proof.
  intros Hj Hp Hh Hlen [Hits Hc] Hg Hcrc. unfold txn_rounds, txn_blocks in *.
  rewrite length_app in Hlen. apply holds_app in Hh as [Hh [Hr _]].
  replace (S (length (x_items x)) + fuel)%nat with (length (x_items x) + S fuel)%nat by lia.
  rewrite (items_loop pass (next_commit_ID l)) by (try done; lia).
  cbn [Recovery.pass_loop]. unfold txn_locals, txn_effect.
  assert (pass_step pass (fold_left (item_locals pass) (x_items x) l)
            (fold_left (item_effect pass (next_commit_ID l)) (x_items x) s) =
          Ret (Continue (commit_locals_of pass (fold_left (item_locals pass) (x_items x) l)),
               fold_left (item_effect pass (next_commit_ID l)) (x_items x) s)) as Hst.
  2: by rewrite (bind_ret _ _ _ _ _ Hst).
  rewrite fold_item_locals.
  apply (commit_step_exec _ (fold_left item_crc (x_items x) 4294967295) (x_commit x)); cbn.
  - by destruct (fold_item_effect_frame pass (next_commit_ID l) (x_items x) s) as [-> _].
  - by apply adv_in_log.
  - done.
  - done.
  - by apply goes_on_effect.
  - intros -> ->. cbn. by rewrite Hcrc.
Qed.

Lemma txn_locals_eq pass l x :
  crc32_sum l = 4294967295 ->
  txn_locals pass l x =
  l <| next_log_block := adv j (length (txn_blocks x)) (next_log_block l) |>
    <| next_commit_ID := tid_succ (next_commit_ID l) |>.
Proof.
  intros Hcrc. unfold txn_locals, commit_locals_of, txn_blocks. rewrite fold_item_locals, length_app, adv_add.
  destruct l; cbn in *. subst. by destruct (bool_decide _ && _).
Qed.

Section Ids.
(** The transactions have the ids [base], [base+1], ... *)
Context (base : tid_t).
Abbreviation id := (tid_at base).

Fixpoint txns_ok (i : Z) (txns : list txn) : Prop :=
  match txns with
  | [] => True
  | x :: txns => txn_ok (id i) x /\ txns_ok (i + 1) txns
  end.

Definition txns_blocks (txns : list txn) : list (list Z) := concat (map txn_blocks txns).
Definition txns_rounds (txns : list txn) : nat := list_sum (map txn_rounds txns).

Fixpoint txns_effect (pass : passtype) (i : Z) (txns : list txn) (s : rstate T) : rstate T :=
  match txns with
  | [] => s
  | x :: txns => txns_effect pass (i + 1) txns (txn_effect pass (id i) s x)
  end.

Lemma txns_effect_frame pass txns : forall i s,
  r_k (txns_effect pass i txns s) = r_k s /\
  end_transaction (txns_effect pass i txns s) = end_transaction s.
Proof.
  induction txns as [|x txns IH]; intros i s; cbn [txns_effect]; [done|].
  destruct (IH (i + 1) (txn_effect pass (id i) s x)) as [-> ->]. apply fold_item_effect_frame.
Qed.

Lemma txns_loop pass txns : forall i l s fuel,
  k_journal (r_k s) = j -> in_log j (next_log_block l) -> holds (next_log_block l) (txns_blocks txns) ->
  Z.of_nat (length (txns_blocks txns)) <= log_len j ->
  txns_ok i txns -> next_commit_ID l = id i -> crc32_sum l = 4294967295 ->
  (forall k, i <= k < i + Z.of_nat (length txns) -> goes_on pass (id k) s) ->
  pass_loop (txns_rounds txns + fuel) pass l s =
  pass_loop fuel pass
    (l <| next_log_block := adv j (length (txns_blocks txns)) (next_log_block l) |>
       <| next_commit_ID := id (i + Z.of_nat (length txns)) |>)
    (txns_effect pass i txns s).
Proof.
  induction txns as [|x txns IH]; intros i l s fuel Hj Hp Hh Hlen Hok Hn Hcrc Hg.
  - cbn. rewrite Z.add_0_r, <- Hn. by destruct l.
  - destruct Hok as [Hx Hok]. unfold txns_blocks in *. cbn [map concat] in *. rewrite length_app in Hlen.
    apply holds_app in Hh as [Hh Hh'].
    unfold txns_rounds. cbn [map list_sum foldr]. rewrite <- Nat.add_assoc.
    rewrite txn_loop; try done; try lia.
    2: { by rewrite Hn. }
    2: { rewrite Hn. apply Hg. cbn [length]. lia. }
    rewrite txn_locals_eq by done. fold (list_sum (map txn_rounds txns)). fold (txns_rounds txns).
    rewrite (IH (i + 1)).
    + rewrite Hn, length_app, adv_add. cbn [length txns_effect].
      replace (i + 1 + Z.of_nat (length txns)) with (i + Z.of_nat (S (length txns))) by lia. by destruct l.
    + unfold txn_effect. by destruct (fold_item_effect_frame pass (next_commit_ID l) (x_items x) s) as [-> _].
    + by apply adv_in_log.
    + done.
    + lia.
    + done.
    + cbn. by rewrite Hn, tid_at_succ.
    + done.
    + intros k Hk. apply goes_on_effect. apply Hg. cbn [length]. lia.
Qed.

(** *** The end of the log *)

(** A block that cannot continue transaction [tid]. *)
Definition stale (tid : tid_t) (bs : list Z) : Prop :=
  h_magic bs <> JBD2_MAGIC_NUMBER \/ h_sequence bs <> tid \/
  (h_blocktype bs <> JBD2_DESCRIPTOR_BLOCK /\ h_blocktype bs <> JBD2_COMMIT_BLOCK /\
   h_blocktype bs <> JBD2_REVOKE_BLOCK).

Lemma scan_stale l s bs :
  k_journal (r_k s) = j -> in_log j (next_log_block l) -> log_read (next_log_block l) = Some bs ->
  stale (next_commit_ID l) bs ->
  pass_step PASS_SCAN l s = Ret (Leave (l <| next_log_block := next_pos j (next_log_block l) |>), s).
Proof.
  intros Hj Hp Hr Hst. unfold Recovery.pass_step, get, kbind at 1. rewrite bool_decide_true by done. cbn [negb andb].
  rewrite (bind_ret _ _ _ _ _ (jread_exec _ bs s Hj Hp Hr)).
  rewrite (bind_ret _ _ _ _ _ (wrap_next (next_log_block l) s Hj Hp)).
  destruct (Z.eqb_spec (h_magic bs) JBD2_MAGIC_NUMBER); [|done]. cbn [negb next_commit_ID field_update].
  destruct (Z.eqb_spec (h_sequence bs) (next_commit_ID l)); [|done]. cbn [negb].
  destruct Hst as [?|[?|(H1 & H2 & H3)]]; [done..|].
  by rewrite !(proj2 (Z.eqb_neq _ _)) by done.
Qed.

(** The log: complete transactions, then what an interrupted commit left of
    the next one, then a block that belongs to neither. *)
Record log_image (txns : list txn) (partial : list item) (last : list Z) : Prop := {
  li_start : in_log j (s_start j);
  li_base : s_sequence j = base /\ is_u32 base;
  li_holds : holds (s_start j) (txns_blocks txns ++ items_blocks partial ++ [last]);
  li_length : Z.of_nat (length (txns_blocks txns ++ items_blocks partial ++ [last])) <= log_len j;
  li_txns : txns_ok 0 txns;
  li_partial : Forall (item_ok (id (Z.of_nat (length txns)))) partial;
  li_last : stale (id (Z.of_nat (length txns))) last;
  li_window : Z.of_nat (length txns) < 2147483648;
}.

Lemma tid_at_0 : is_u32 base -> id 0 = base.
Proof. intros. unfold tid_at. rewrite Z.add_0_r. by apply u32_id. Qed.

Lemma items_effect_scan its tid : forall s, fold_left (item_effect PASS_SCAN tid) its s = s.
Proof. induction its as [|it its IH]; intros s; cbn [fold_left]; [done|]. rewrite IH. by destruct it. Qed.

Lemma txns_effect_scan txns : forall i s, txns_effect PASS_SCAN i txns s = s.
Proof.
  induction txns as [|x txns IH]; intros i s; cbn [txns_effect]; [done|].
  rewrite IH. apply items_effect_scan.
Qed.

Abbreviation do_one_pass := (do_one_pass submit_sb jiffies j_inode jbd2_chksum crc32_be f getblk brand_new dev getblk_fs).

Definition log_rounds (txns : list txn) (partial : list item) : nat := txns_rounds txns + length partial + 1.

Lemma do_scan txns partial last fuel s :
  log_image txns partial last -> (log_rounds txns partial <= fuel)%nat ->
  k_journal (r_k s) = j -> end_transaction s = 0 ->
  do_one_pass fuel PASS_SCAN s =
  Ret (Some 0, s <| start_transaction := base |> <| end_transaction := id (Z.of_nat (length txns)) |>).
Proof.
  intros [Hst [Hb Hb32] Hh Hlen Hok Hpart Hlast _] Hfuel Hj He. unfold log_rounds in Hfuel.
  apply holds_app in Hh as [Hh1 Hh]. apply holds_app in Hh as [Hh2 [Hh3 _]]. rewrite !length_app in Hlen.
  unfold Recovery.do_one_pass, get, modify, kbind at 1. rewrite Hj, Hb. unfold kbind at 1.
  set (s1 := s <| start_transaction := base |>).
  assert (pass_loop fuel PASS_SCAN (mk_pass base (s_start j) 4294967295 0 false) s1 =
          Ret (Some (inl (mk_pass (id (Z.of_nat (length txns)))
            (adv j (length (items_blocks partial) + 1) (adv j (length (txns_blocks txns)) (s_start j)))
            (if has_feature_checksum f then fold_left item_crc partial 4294967295 else 4294967295) 0 false)), s1)) as Hrun.
  { replace fuel with (txns_rounds txns + (length partial + S (fuel - log_rounds txns partial)))%nat
      by (unfold log_rounds; lia).
    rewrite (txns_loop _ _ 0); try done; try lia; cbn; try by rewrite tid_at_0.
    rewrite txns_effect_scan, Z.add_0_l.
    rewrite (items_loop _ (id (Z.of_nat (length txns)))); try done; try lia; [|by apply adv_in_log].
    rewrite items_effect_scan, fold_item_locals. cbn [Recovery.pass_loop]. unfold kbind.
    rewrite (scan_stale _ _ last); try done; cbn; [|by apply adv_in_log; [|apply adv_in_log]].
    unfold kret. rewrite adv_add. done. }
  unfold kbind at 1. rewrite Hrun. unfold pass_done, get, modify, kbind. cbn. rewrite He. done.
Qed.

(** The passes that follow the scan. *)
Lemma do_pass pass txns partial last fuel s :
  pass <> PASS_SCAN -> log_image txns partial last -> (log_rounds txns partial <= fuel)%nat ->
  k_journal (r_k s) = j -> end_transaction s = id (Z.of_nat (length txns)) ->
  do_one_pass fuel pass s = Ret (Some 0, txns_effect pass 0 txns s).
Proof.
  intros Hpass [Hst [Hb Hb32] Hh Hlen Hok Hpart Hlast Hwin] Hfuel Hj He. unfold log_rounds in Hfuel.
  apply holds_app in Hh as [Hh _]. rewrite !length_app in Hlen.
  set (n := Z.of_nat (length txns)) in *.
  assert (forall k, 0 <= k < 0 + n -> goes_on pass (id k) s) as Hg.
  { intros k Hk. assert (tid_geq (id k) (id n) = false).
    { unfold tid_geq, tid_at. rewrite tid_diff_window by lia. apply Z.leb_gt. lia. }
    unfold goes_on. destruct pass; [done|by rewrite He..]. }
  assert (pass_loop fuel pass (mk_pass base (s_start j) 4294967295 0 false) s =
    Ret (Some (inl (mk_pass (id n) (adv j (length (txns_blocks txns)) (s_start j)) 4294967295 0 false)),
         txns_effect pass 0 txns s)) as Hrun.
  { replace fuel with (txns_rounds txns + S (fuel - S (txns_rounds txns)))%nat by lia.
    rewrite (txns_loop _ _ 0); try done; try lia; cbn; try by rewrite tid_at_0.
    destruct (txns_effect_frame pass txns 0 s) as [_ He'].
    unfold Recovery.pass_step, get, kbind. rewrite He', He, Z.add_0_l. fold n. cbn.
    rewrite tid_geq_refl. rewrite bool_decide_false by done. done. }
  destruct (txns_effect_frame pass txns 0 s) as [_ He'].
  unfold Recovery.do_one_pass, get, kbind, kret. rewrite Hj, Hb.
  destruct pass; [done|rewrite Hrun; unfold pass_done, get, kbind; cbn; rewrite He', He, Z.eqb_refl; done..].
Qed.

End Ids.
End Passes.

(** The log depends on the journal only through its geometry and the start of the log. *)
Lemma log_image_ext j_inode chk crc f dev j j' base txns partial last :
  j_first j' = j_first j -> j_last j' = j_last j -> s_start j' = s_start j -> s_sequence j' = s_sequence j ->
  log_image j_inode chk crc f dev j base txns partial last -> log_image j_inode chk crc f dev j' base txns partial last.
Proof.
  intros E1 E2 E3 E4 [H1 H2 H3 H4 H5 H6 H7 H8].
  split; unfold in_log, log_len in *; rewrite ?E1, ?E2, ?E3, ?E4; try done.
  clear H1 H4. revert H3. generalize (s_start j). induction (txns_blocks txns ++ _) as [|bs bl IH]; intros pos; cbn; [done|].
  intros [Hr Hh]. split; [done|]. replace (next_pos j' pos) with (next_pos j pos) by (unfold next_pos; by rewrite E1, E2).
  by apply IH.
Qed.

Section Effects.
Context {T : Type} `{RevokeStore T} (base : tid_t).
Implicit Types s : rstate T.
Abbreviation id := (tid_at base).
Abbreviation txns_effect := (txns_effect base).

(** *** The revoke pass collects the revokes of the log *)

Fixpoint revokes_from (i : Z) (txns : list txn) : list (Z * Z) :=
  match txns with
  | [] => []
  | x :: txns => map (fun b => (b, i)) (txn_revokes x) ++ revokes_from (i + 1) txns
  end.

Lemma set_revokes_map (t : T) i l :
  set_revokes base t (map (fun b => (b, i)) l) = fold_left (fun t b => rs_set t b (id i)) l t.
Proof. unfold set_revokes. by rewrite fold_left_map. Qed.

Lemma set_revokes_app (t : T) l l' : set_revokes base t (l ++ l') = set_revokes base (set_revokes base t l) l'.
Proof. unfold set_revokes. by rewrite fold_left_app. Qed.

Lemma items_effect_revoke i its : forall s,
  let s' := fold_left (item_effect PASS_REVOKE (id i)) its s in
  r_revoke s' = set_revokes base (r_revoke s) (map (fun b => (b, i)) (concat (map item_revokes its))) /\
  r_fs s' = r_fs s.
Proof.
  induction its as [|it its IH]; intros s; cbn [fold_left map concat]; [done|].
  destruct (IH (item_effect PASS_REVOKE (id i) s it)) as [-> ->].
  rewrite map_app, set_revokes_app.
  split; [|by destruct it]. f_equal. destruct it; [done|].
  cbn [item_effect item_revokes]. symmetry. apply set_revokes_map.
Qed.

Lemma txns_effect_revoke txns : forall i s,
  let s' := txns_effect PASS_REVOKE i txns s in
  r_revoke s' = set_revokes base (r_revoke s) (revokes_from i txns) /\ r_fs s' = r_fs s.
Proof.
  induction txns as [|x txns IH]; intros i s; cbn [txns_effect revokes_from]; [done|].
  destruct (IH (i + 1) (txn_effect PASS_REVOKE (id i) s x)) as [-> ->]. unfold txn_effect.
  destruct (items_effect_revoke i (x_items x) s) as [-> ->].
  split; [|done]. by rewrite set_revokes_app.
Qed.

Lemma revokes_from_window txns : forall i,
  0 <= i -> i + Z.of_nat (length txns) < 2147483648 -> in_window (revokes_from i txns).
Proof.
  induction txns as [|x txns IH]; intros i Hi Hn; cbn [revokes_from length] in *; [constructor|].
  apply Forall_app. split; [|apply IH; lia]. apply Forall_map. apply Forall_true. intros. lia.
Qed.

Lemma revokes_from_spec txns b : forall i k,
  (exists m, (b, m) ∈ revokes_from i txns /\ i + Z.of_nat k <= m) <-> revoked_by (drop k txns) b = true.
Proof.
  unfold revoked_by. induction txns as [|x txns IH]; intros i k; cbn [revokes_from].
  - rewrite drop_nil. cbn. split; [|done]. intros (? & []%elem_of_nil & _).
  - assert ((exists m, (b, m) ∈ map (fun b => (b, i)) (txn_revokes x) /\ i + Z.of_nat k <= m) <->
            k = 0%nat /\ existsb (Z.eqb b) (txn_revokes x) = true) as Hx.
    { rewrite existsb_exists. setoid_rewrite list_elem_of_fmap. split.
      - intros (m & (b' & [= <- <-] & Hin) & Hm). split; [lia|]. exists b. by rewrite <- list_elem_of_In, Z.eqb_refl.
      - intros (-> & b' & Hin & ->%Z.eqb_eq). exists i. split; [|lia]. exists b'. by rewrite list_elem_of_In. }
    destruct k as [|k]; cbn [drop existsb].
    + rewrite orb_true_iff, <- (IH (i + 1) 0%nat). setoid_rewrite elem_of_app. split.
      * intros (m & [Hin|Hin] & Hm); [left; by apply Hx; eauto|].
        right. exists m. split; [done|].
        assert (forall i', (b, m) ∈ revokes_from i' txns -> i' <= m) as Hge; [|specialize (Hge _ Hin); lia].
        clear. induction txns as [|x txns IH]; intros i'; cbn [revokes_from]; [by intros ?%elem_of_nil|].
        intros [Hin|Hin]%elem_of_app; [|apply IH in Hin; lia].
        apply list_elem_of_fmap in Hin as (? & [= <- <-] & _). lia.
      * intros [He|(m & Hin & Hm)]; [|exists m; split; [by right|lia]].
        destruct (proj2 Hx) as (m & Hin & Hm); [done|]. exists m. split; [by left|lia].
    + rewrite <- (IH (i + 1) k). setoid_rewrite elem_of_app. split.
      * intros (m & [Hin|Hin] & Hm); [by destruct (proj1 Hx) as [? _]; eauto|]. exists m. split; [done|lia].
      * intros (m & Hin & Hm). exists m. split; [by right|lia].
Qed.

(** *** The replay pass writes what was not revoked *)

Lemma tags_effect_replay tid tags : forall s,
  r_fs (fold_left (tag_effect tid) tags s) =
  apply_writes (fun b => rs_test (r_revoke s) b tid)
    (map (fun '(t, data) => (tag_block t, unescape (tag_flags t) data)) tags) (r_fs s).
Proof.
  induction tags as [|[t data] tags IH]; intros s; cbn [fold_left map]; [done|].
  rewrite IH. destruct (tag_effect_frame tid s (t, data)) as (_ & -> & _).
  unfold apply_writes. cbn [fold_left]. f_equal. unfold tag_effect. by case_match.
Qed.

Lemma items_effect_replay tid its : forall s,
  let s' := fold_left (item_effect PASS_REPLAY tid) its s in
  r_fs s' = apply_writes (fun b => rs_test (r_revoke s) b tid) (concat (map item_writes its)) (r_fs s) /\
  r_revoke s' = r_revoke s.
Proof.
  induction its as [|it its IH]; intros s; cbn [fold_left map concat]; [done|].
  destruct (IH (item_effect PASS_REPLAY tid s it)) as [-> ->].
  destruct it as [bs tags|bs blocks]; cbn [item_effect item_writes]; [|done].
  destruct (fold_tag_effect_frame tid tags s) as (_ & -> & _). split; [|done].
  rewrite tags_effect_replay. unfold apply_writes. by rewrite fold_left_app.
Qed.

Lemma apply_writes_ext p q ws fs : (forall b, p b = q b) -> apply_writes p ws fs = apply_writes q ws fs.
Proof.
  intros Hpq. unfold apply_writes. revert fs. induction ws as [|[b d] ws IH]; intros fs; cbn; [done|].
  rewrite Hpq. apply IH.
Qed.

Lemma txns_effect_replay txns : forall i s,
  (forall k b, (k < length txns)%nat -> rs_test (r_revoke s) b (id (i + Z.of_nat k)) = revoked_by (drop k txns) b) ->
  r_fs (txns_effect PASS_REPLAY i txns s) = replay txns (r_fs s) /\
  r_revoke (txns_effect PASS_REPLAY i txns s) = r_revoke s.
Proof.
  induction txns as [|x txns IH]; intros i s Hr; cbn [txns_effect replay]; [done|].
  destruct (items_effect_replay (id i) (x_items x) s) as [Hfs Hrv].
  destruct (IH (i + 1) (txn_effect PASS_REPLAY (id i) s x)) as [-> ->].
  - intros k b Hk. unfold txn_effect. rewrite Hrv.
    replace (i + 1 + Z.of_nat k) with (i + Z.of_nat (S k)) by lia. rewrite Hr by (cbn; lia). done.
  - unfold txn_effect. rewrite Hrv, Hfs. split; [|done]. f_equal. unfold txn_writes. apply apply_writes_ext. intros b.
    replace i with (i + Z.of_nat 0) at 1 by lia. rewrite Hr by (cbn; lia). done.
Qed.
End Effects.

(** ** Recovery replays the committed transactions *)

Section Recover.
Context {T : Type} `{RevokeStore T}.
Context (submit_sb : journal_t -> Z) (jiffies : Z) (j_inode : option (Z -> Z)).
Context (jbd2_chksum crc32_be : Z -> list Z -> Z) (f : jformat).
Context (getblk brand_new : Z -> bool) (dev : Z -> option (list Z)) (getblk_fs : Z -> bool).

(** What recovery needs of its surroundings: every log block is mapped and
    there is memory for buffers. *)
Record surroundings : Prop := {
  su_mapped : mapped j_inode;
  su_memory b : getblk b = true;
  su_memory_fs b : getblk_fs b = true;
}.

(** The state recovery starts from: the journal's geometry makes sense, the log is not
    empty, and the revoke table is. *)
Record recoverable (s : rstate T) : Prop := {
  rc_geometry : geometry (k_journal (r_k s));
  rc_start : s_start (k_journal (r_k s)) <> 0;
  rc_ok : rs_ok (r_revoke s);
  rc_empty b : rs_seq (r_revoke s) b = None;
}.

(** The log of the journal of [s], as the device holds it. *)
Definition log_of (s : rstate T) : list txn -> list item -> list Z -> Prop :=
  let j := k_journal (r_k s) in
  log_image j_inode jbd2_chksum crc32_be f dev j (s_sequence j).

Abbreviation recover := (jbd2_vmsep_journal_recover submit_sb jiffies j_inode jbd2_chksum crc32_be f
  getblk brand_new dev getblk_fs).

(** The result: the first error of flushing the file system's device. *)
Definition sync_result (barrier : bool) (sync_err flush_err : Z) : Z :=
  if barrier && (sync_err =? 0) then flush_err else sync_err.

(** The journal with the id of its next transaction. *)
Definition with_sequence (seq : tid_t) (k : kstate) : kstate :=
  k <| k_journal ::= fun j => j <| j_transaction_sequence := seq |> |>.

Lemma recover_exec sync_err flush_err txns partial last fuel s :
  surroundings -> recoverable s -> log_of s txns partial last ->
  (log_rounds txns partial <= fuel)%nat ->
  wp (recover sync_err flush_err fuel)
    (fun r s' =>
       r = Some (sync_result (JBD2_BARRIER (k_journal (r_k s))) sync_err flush_err) /\
       r_fs s' = replay txns (r_fs s) /\
       r_k s' = with_sequence (u32 (s_sequence (k_journal (r_k s)) + Z.of_nat (length txns) + 1)) (r_k s) /\
       rs_ok (r_revoke s') /\ forall b, rs_seq (r_revoke s') b = None) s.
Proof.
  intros [Hm Hmem Hmf] [Hgeo Hst Hok Hem] Hlog Hfuel. unfold log_of in Hlog.
  set (j := k_journal (r_k s)) in *. set (base := s_sequence j) in *. set (n := Z.of_nat (length txns)) in *.
  pose proof (li_window _ _ _ _ _ _ _ _ _ _ Hlog) as Hwin. fold n in Hwin.
  unfold jbd2_vmsep_journal_recover. eapply wp_exec; [done|]. eapply wp_exec; [done|]. cbn [r_k]. fold j.
  rewrite (proj2 (Z.eqb_neq _ _) Hst).
  eapply wp_exec; [eapply do_scan; done|]. cbn [and_then].
  set (s1 := _ <| end_transaction := _ |>).
  eapply wp_exec; [eapply (do_pass _ _ _ _ _ _ _ _ _ _ j); done|].
  destruct (txns_effect_revoke base txns 0 s1) as [Hrv Hfs].
  destruct (txns_effect_frame base PASS_REVOKE txns 0 s1) as [Hk He].
  set (s2 := txns_effect base PASS_REVOKE 0 txns s1) in *. cbn [and_then].
  eapply wp_exec; [eapply (do_pass _ _ _ _ _ _ _ _ _ _ j); first [done|by rewrite Hk|by rewrite He]|].
  destruct (txns_effect_replay base txns 0 s2) as [Hfs3 Hrv3].
  { intros k b Hk'. apply eq_true_iff_eq. rewrite <- (revokes_from_spec txns b 0 k), Hrv. unfold tid_at.
    rewrite (collected_test base (r_revoke s1)) by
      (try done; try (apply revokes_from_window; lia); lia).
    by rewrite Z.add_0_l. }
  destruct (txns_effect_frame base PASS_REPLAY txns 0 s2) as [Hk3 He3].
  set (s3 := txns_effect base PASS_REPLAY 0 txns s2) in *.
  eapply wp_exec; [done|]. eapply wp_exec; [done|]. eapply wp_exec; [done|]. eapply wp_exec; [done|].
  apply wp_ret. cbn. rewrite Hk3, Hk. fold j. split_and!.
  - done.
  - by rewrite Hfs3, Hfs.
  - unfold with_sequence. rewrite He3, He. cbn. fold j base n. rewrite tid_at_succ. unfold tid_at.
    by replace (base + (n + 1)) with (base + n + 1) by lia.
  - apply rs_clear_ok. rewrite Hrv3, Hrv. by apply set_revokes_ok.
  - intros b. apply rs_clear_seq.
Qed.

Lemma recover_spec sync_err flush_err txns partial last fuel s :
  surroundings -> recoverable s -> log_of s txns partial last ->
  (log_rounds txns partial <= fuel)%nat ->
  wp (recover sync_err flush_err fuel)
    (fun r s' =>
       r = Some (sync_result (JBD2_BARRIER (k_journal (r_k s))) sync_err flush_err) /\
       r_fs s' = replay txns (r_fs s) /\
       j_transaction_sequence (k_journal (r_k s')) =
         u32 (s_sequence (k_journal (r_k s)) + Z.of_nat (length txns) + 1) /\
       rs_ok (r_revoke s') /\ forall b, rs_seq (r_revoke s') b = None) s.
Proof.
  intros. eapply wp_mono; [by eapply recover_exec|]. intros r s' (Hr & Hfs & Hk & Hok & Hem).
  rewrite Hk. by split_and!.
Qed.

(** Skipping recovery scans the log for the next unused id and changes nothing else but the tail. *)
Lemma skip_recovery_exec txns partial last fuel s :
  surroundings -> geometry (k_journal (r_k s)) -> log_of s txns partial last ->
  (log_rounds txns partial <= fuel)%nat ->
  wp (jbd2_vmsep_journal_skip_recovery submit_sb jiffies j_inode jbd2_chksum crc32_be f
        getblk brand_new dev getblk_fs fuel)
    (fun r s' => r = Some 0 /\ r_fs s' = r_fs s /\ r_revoke s' = r_revoke s /\
       r_k s' = with_sequence (u32 (s_sequence (k_journal (r_k s)) + Z.of_nat (length txns) + 1))
                  ((r_k s) <| k_journal ::= fun j => j <| j_tail := 0 |> |>)) s.
Proof.
  intros [Hm Hmem Hmf] Hgeo Hlog Hfuel. unfold log_of in Hlog.
  unfold jbd2_vmsep_journal_skip_recovery. eapply wp_exec; [done|].
  eapply wp_exec; [eapply do_scan; done|]. cbv iota beta. cbn [Z.eqb negb].
  eapply wp_exec; [done|]. eapply wp_exec; [done|]. apply wp_ret. cbn [r_fs r_revoke field_update].
  split_and!; [done..|]. unfold with_sequence. cbn. rewrite tid_at_succ. unfold tid_at.
  by rewrite Z.add_assoc.
Qed.
End Recover.

(** ** A transaction written by the commit code is a transaction of the log *)

Section Written.
Context (jbd2_chksum crc32_be : Z -> list Z -> Z) (f : jformat).

(** The checksum a commit accumulates over the blocks it submits, the
    descriptor and then its data ([jbd2_checksum_data] from [~0]). *)
Definition groups_crc (gs : list log_group) : Z :=
  fold_left (fun crc g => fold_left (crc_block crc32_be) (group_blocks jbd2_chksum f g) crc) gs 4294967295.

(** The revoke blocks, the groups of the metadata loop and the commit record,
    in the order in which the commit writes them. *)
Definition written_txn (tid : tid_t) (revokes : list (list Z)) (gs : list log_group) (sec nsec : Z) : txn :=
  mk_txn
    (map (fun bl => Rev (revoke_block jbd2_chksum f tid bl) bl) revokes ++
     map (fun g => Desc (descriptor_block jbd2_chksum f g) (group_tags g)) gs)
    (commit_record jbd2_chksum f tid sec nsec (groups_crc gs)).

Lemma commit_set_load bs off n :
  0 <= off -> 0 <= n -> off + n <= 12 \/ 20 <= off ->
  load (jbd2_commit_block_csum_set jbd2_chksum f bs) off n = load bs off n.
Proof.
  intros. unfold jbd2_commit_block_csum_set. case_match; [done|].
  rewrite !store_other; rewrite ?be_length; try done; lia.
Qed.

Lemma commit_set_verify bs :
  20 <= Z.of_nat (length bs) ->
  jbd2_commit_block_csum_verify jbd2_chksum f (jbd2_commit_block_csum_set jbd2_chksum f bs) = true.
Proof.
  intros. unfold jbd2_commit_block_csum_verify, jbd2_commit_block_csum_set. case_match; [done|].
  apply bool_decide_eq_true. rewrite store_same by (rewrite ?be_length, ?store_length; lia).
  by rewrite !store_store by by rewrite !be_length.
Qed.

Lemma commit_record_ok tid sec nsec crc :
  60 <= j_blocksize f -> is_u32 tid -> is_u32 crc ->
  (has_feature_checksum f = true -> jbd2_journal_has_csum_v2or3 f = false) ->
  commit_ok jbd2_chksum f tid crc (commit_record jbd2_chksum f tid sec nsec crc).
Proof.
  intros Hb Ht Hc Hex.
  destruct (new_block_header f JBD2_COMMIT_BLOCK tid) as (Hm & Hty & Hs); [lia|done|done|].
  pose proof (new_block_length f JBD2_COMMIT_BLOCK tid) as Hl.
  unfold commit_record. set (b0 := new_descriptor_block _ _ _) in *.
  set (b1 := if has_feature_checksum f then _ else _).
  assert (length b1 = Z.to_nat (j_blocksize f)) as Hl1.
  { unfold b1. case_match; rewrite !store_length; done. }
  assert (forall off, 0 <= off -> off + 4 <= 12 -> load b1 off 4 = load b0 off 4) as Hh.
  { intros. unfold b1. case_match; rewrite !store_other; rewrite ?be_length; try done; lia. }
  split.
  - by rewrite commit_set_load, Hh by lia.
  - by rewrite commit_set_load, Hh by lia.
  - by rewrite commit_set_load, Hh by lia.
  - apply commit_set_verify. lia.
  - intros Hck. specialize (Hex Hck). unfold jbd2_commit_block_csum_set. rewrite Hex. cbn [negb].
    unfold b1. rewrite Hck.
    repeat first
      [ rewrite store_same by (rewrite ?be_length, ?store_length, ?Hl; lia)
      | rewrite store_other by (rewrite ?be_length; lia) ].
    by rewrite be32_be, u32_id.
Qed.

Lemma groups_crc_items gs : forall crc,
  Forall (group_ok f) gs ->
  fold_left (fun crc g => fold_left (crc_block crc32_be) (group_blocks jbd2_chksum f g) crc) gs crc =
  fold_left (item_crc crc32_be) (map (fun g => Desc (descriptor_block jbd2_chksum f g) (group_tags g)) gs) crc.
Proof.
  induction gs as [|g gs IH]; intros crc Hg; cbn [fold_left map]; [done|].
  apply Forall_cons in Hg as [Hg Hgs]. rewrite IH by done. f_equal.
  unfold item_crc, group_blocks, group_tags. do 2 f_equal.
  symmetry. apply snd_zip. rewrite length_map. pose proof (go_data _ _ Hg). lia.
Qed.

Lemma revokes_crc tid revokes : forall crc,
  fold_left (item_crc crc32_be) (map (fun bl => Rev (revoke_block jbd2_chksum f tid bl) bl) revokes) crc = crc.
Proof. induction revokes as [|bl revokes IH]; intros crc; cbn; [done|]. apply IH. Qed.

Lemma groups_crc_range gs : is_u32 (groups_crc gs).
Proof.
  unfold groups_crc. assert (forall crc, is_u32 crc ->
    is_u32 (fold_left (fun crc g => fold_left (crc_block crc32_be) (group_blocks jbd2_chksum f g) crc) gs crc)) as Hg.
  { induction gs as [|g gs IH]; intros crc Hc; cbn [fold_left]; [done|]. apply IH.
    revert Hc. generalize (group_blocks jbd2_chksum f g) as bl.
    intros bl. revert crc. induction bl as [|b bl IHb]; intros crc Hc; cbn [fold_left]; [done|].
    apply IHb. apply u32_range. }
  by apply Hg.
Qed.

Lemma written_txn_is_ok tid revokes gs sec nsec :
  60 <= j_blocksize f < 4294967296 -> is_u32 tid ->
  (has_feature_checksum f = true -> jbd2_journal_has_csum_v2or3 f = false) ->
  Forall (fun bl => Forall (block_fits f) bl /\ block_holds f bl) revokes ->
  Forall (fun g => group_ok f g /\ g_sequence g = tid) gs ->
  txn_ok jbd2_chksum crc32_be f tid (written_txn tid revokes gs sec nsec).
Proof.
  intros Hb Ht Hex Hrev Hgs. split; cbn [x_items x_commit written_txn].
  - apply Forall_app. split; apply Forall_map.
    + eapply Forall_impl; [exact Hrev|]. intros bl [Hfit [_ Hh]]. cbn. apply revoke_block_reads; try done; lia.
    + eapply Forall_impl; [exact Hgs|]. intros g [Hg <-]. cbn. by apply descriptor_block_reads.
  - rewrite fold_left_app, revokes_crc.
    assert (Forall (group_ok f) gs) as Hg by (eapply Forall_impl; [exact Hgs|]; by intros ? []).
    rewrite <- groups_crc_items by done. fold (groups_crc gs).
    apply commit_record_ok; try done; [lia|]. apply groups_crc_range.
Qed.
End Written.

(** *** Which blocks recovery changes *)

(** Some write of block [b] in the log is not revoked. *)
Fixpoint restores (txns : list txn) (b : Z) : bool :=
  match txns with
  | [] => false
  | x :: rest =>
    negb (revoked_by txns b) && existsb (fun w => w.1 =? b) (txn_writes x) || restores rest b
  end.

Lemma apply_writes_other skip b ws : forall fs,
  skip b = true \/ existsb (fun w => w.1 =? b) ws = false -> apply_writes skip ws fs !! b = fs !! b.
Proof.
  unfold apply_writes. induction ws as [|[b' d] ws IH]; intros fs Hb; cbn [fold_left existsb fst] in *; [done|].
  rewrite IH by (destruct Hb as [?|[_ ?]%orb_false_iff]; auto).
  destruct (skip b') eqn:E; [done|]. apply lookup_insert_ne. intros ->.
  destruct Hb as [?|[Hne _]%orb_false_iff]; [congruence|]. by rewrite Z.eqb_refl in Hne.
Qed.

Lemma apply_writes_agree skip b ws : forall fs fs',
  fs !! b = fs' !! b \/ skip b = false /\ existsb (fun w => w.1 =? b) ws = true ->
  apply_writes skip ws fs !! b = apply_writes skip ws fs' !! b.
Proof.
  unfold apply_writes. induction ws as [|[b' d] ws IH]; intros fs fs' Hb; cbn [fold_left existsb fst] in *.
  - by destruct Hb as [?|[_ ?]].
  - apply IH. destruct (Z.eqb_spec b' b) as [->|Hne].
    + left. destruct (skip b) eqn:E; [by destruct Hb as [?|[? _]]|]. by rewrite !lookup_insert_eq.
    + destruct Hb as [Hb|Hb]; [left|by right].
      destruct (skip b'); [done|]. by rewrite !lookup_insert_ne.
Qed.

Lemma replay_other txns b : forall fs, restores txns b = false -> replay txns fs !! b = fs !! b.
Proof.
  induction txns as [|x txns IH]; intros fs Hb; cbn [restores replay] in *; [done|].
  apply orb_false_iff in Hb as [Hb Hr]. rewrite IH by done. apply apply_writes_other.
  apply andb_false_iff in Hb as [Hb|Hb]; [left|by right]. by apply negb_false_iff.
Qed.

Lemma replay_agree txns b : forall fs fs',
  fs !! b = fs' !! b \/ restores txns b = true -> replay txns fs !! b = replay txns fs' !! b.
Proof.
  induction txns as [|x txns IH]; intros fs fs' Hb; cbn [restores replay] in *; [by destruct Hb|].
  apply IH. destruct Hb as [Hb|[[Hn%negb_true_iff Hw]%andb_true_iff|Hr]%orb_true_iff]; [| |by right].
  - left. apply apply_writes_agree. by left.
  - left. apply apply_writes_agree. by right.
Qed.

(** C1: recovery after a crash.  The log holds complete transactions
    ([txns], any number, the ids may wrap), then what an interrupted commit
    left of the next one ([partial]), then a block that does not continue it.
    Whatever the journal's features, the place in the circular log and the
    store used for revokes, [jbd2_vmsep_journal_recover] returns; it has
    written to the file system exactly the blocks of the complete
    transactions in order, without those the same or a later transaction
    revoked, undoing the escaping of the commit; and the journal goes on with
    the id after that of the interrupted transaction and an empty revoke table. *)
Theorem recover_replays_committed {T} `{RevokeStore T} submit_sb jiffies j_inode jbd2_chksum crc32_be f
    getblk brand_new dev getblk_fs sync_err flush_err txns partial last fuel (s : rstate T) :
  surroundings j_inode getblk getblk_fs -> recoverable s ->
  log_of j_inode jbd2_chksum crc32_be f dev s txns partial last ->
  (log_rounds txns partial <= fuel)%nat ->
  wp (jbd2_vmsep_journal_recover submit_sb jiffies j_inode jbd2_chksum crc32_be f
        getblk brand_new dev getblk_fs sync_err flush_err fuel)
    (fun r s' =>
       r = Some (sync_result (JBD2_BARRIER (k_journal (r_k s))) sync_err flush_err) /\
       r_fs s' = replay txns (r_fs s) /\
       j_transaction_sequence (k_journal (r_k s')) =
         u32 (s_sequence (k_journal (r_k s)) + Z.of_nat (length txns) + 1) /\
       rs_ok (r_revoke s') /\ forall b, rs_seq (r_revoke s') b = None) s.
Proof. intros. by eapply recover_spec. Qed.

(** C23: recovery can be interrupted and repeated: recovery changes only
    blocks that the log restores, and started again on a file system in which
    those blocks hold anything at all (some restored, some torn, some old) it
    ends with the same contents of all blocks. *)
Theorem recover_repeatable {T} `{RevokeStore T} submit_sb jiffies j_inode jbd2_chksum crc32_be f
    getblk brand_new dev getblk_fs sync_err flush_err txns partial last fuel (s s1 : rstate T) :
  surroundings j_inode getblk getblk_fs -> recoverable s -> recoverable s1 -> r_k s1 = r_k s ->
  log_of j_inode jbd2_chksum crc32_be f dev s txns partial last ->
  (log_rounds txns partial <= fuel)%nat ->
  (forall b, restores txns b = false -> r_fs s1 !! b = r_fs s !! b) ->
  wp (jbd2_vmsep_journal_recover submit_sb jiffies j_inode jbd2_chksum crc32_be f
        getblk brand_new dev getblk_fs sync_err flush_err fuel)
    (fun _ s' =>
       (forall b, restores txns b = false -> r_fs s' !! b = r_fs s !! b) /\
       wp (jbd2_vmsep_journal_recover submit_sb jiffies j_inode jbd2_chksum crc32_be f
             getblk brand_new dev getblk_fs sync_err flush_err fuel)
         (fun _ s1' => r_fs s1' = r_fs s') s1) s.
Proof.
  intros Hsu Hs Hs1 Hk Hlog Hfuel Hfs.
  eapply wp_mono; [by eapply recover_spec|]. intros r s' (_ & Hr & _). split.
  - intros b Hb. rewrite Hr. by apply replay_other.
  - assert (log_of j_inode jbd2_chksum crc32_be f dev s1 txns partial last) as Hlog1
      by (unfold log_of; by rewrite Hk).
    eapply wp_mono; [by eapply recover_spec|]. intros r1 s1' (_ & Hr1 & _).
    rewrite Hr, Hr1. apply map_eq. intros b. apply replay_agree.
    destruct (restores txns b) eqn:E; [by right|left; auto].
Qed.

(** C11: what a commit writes is what recovery expects: the revoke blocks, the
    descriptor groups and the commit record of a transaction, laid out in the
    log in the order of the commit, form a complete transaction in the sense of the
    recovery theorem (headers, tags, and all three kinds of checksums), with exactly the
    recorded writes and revokes; for every combination of features in which
    the version 1 checksum is not mixed with the later ones. *)
Theorem written_transaction_is_complete jbd2_chksum crc32_be f tid revokes gs sec nsec :
  60 <= j_blocksize f < 4294967296 -> is_u32 tid ->
  (has_feature_checksum f = true -> jbd2_journal_has_csum_v2or3 f = false) ->
  Forall (fun bl => Forall (block_fits f) bl /\ block_holds f bl) revokes ->
  Forall (fun g => group_ok f g /\ g_sequence g = tid) gs ->
  let x := written_txn jbd2_chksum crc32_be f tid revokes gs sec nsec in
  txn_ok jbd2_chksum crc32_be f tid x /\
  txn_revokes x = concat revokes /\
  txn_writes x = concat (map (fun g =>
    map (fun '(t, data) => (tag_block t, unescape (tag_flags t) data)) (group_tags g)) gs).
Proof.
  intros. split; [by apply written_txn_is_ok|].
  unfold txn_revokes, txn_writes, x, written_txn. cbn [x_items]. rewrite !map_app, !map_map, !concat_app. cbn [item_revokes item_writes].
  split.
  - rewrite map_id. assert (concat (map (fun _ : log_group => [] : list Z) gs) = []) as -> by (clear; by induction gs).
    by rewrite app_nil_r.
  - assert (concat (map (fun _ : list Z => [] : list (Z * list Z)) revokes) = []) as -> by (clear; by induction revokes).
    done.
Qed.

(** *** An example log

    Blocks of 64 bytes, 64-bit block numbers and version 3 checksums, a log of
    eleven blocks whose contents wrap around its end, and transaction ids that wrap around
    zero: transaction 4294967295 writes blocks 100 and 200, transaction 0
    revokes block 200 and writes block 300, which starts with the magic number
    and is escaped, and the commit of transaction 1 was interrupted after
    it had logged block 400. *)
Definition ex_rfmt : jformat := mk_jformat true false true false false true 64 5 (replicate 16 7).
Definition ex_block (n : Z) : list Z := replicate 64 n.
Definition ex_g0 : log_group :=
  mk_group 9 4294967295 [mk_tag 100 0; mk_tag 200 10] [(10, ex_block 1); (11, ex_block 2)].
Definition ex_g1 : log_group := mk_group 3 0 [mk_tag 300 9] [(4, escape_data (ex_block 3))].
Definition ex_g2 : log_group := mk_group 6 1 [mk_tag 400 8] [(7, ex_block 4)].
Definition ex_txns : list txn :=
  [written_txn ex_sum ex_sum ex_rfmt 4294967295 [] [ex_g0] 0 0;
   written_txn ex_sum ex_sum ex_rfmt 0 [[200]] [ex_g1] 0 0].
Definition ex_partial : list item := [Desc (descriptor_block ex_sum ex_rfmt ex_g2) (group_tags ex_g2)].
Definition ex_log_area : list (list Z) :=
  txns_blocks ex_txns ++ items_blocks ex_partial ++ [ex_block 0].
Definition ex_dev (pos : Z) : option (list Z) := ex_log_area !! Z.to_nat ((pos - 9) mod 11).
Definition ex_crashed : rstate jbd2_revoke_table_s :=
  mk_rstate
    (mk_kstate (zero_journal <| j_first := 1 |> <| j_last := 12 |> <| j_maxlen := 12 |>
                  <| s_start := 9 |> <| s_sequence := 4294967295 |>) ∅ ∅)
    (jbd2_journal_init_revoke_table 8) {[ 200 := ex_block 9 ]} 0 0 0 0 0.

Lemma ex_groups_ok : group_ok ex_rfmt ex_g0 /\ group_ok ex_rfmt ex_g1 /\ group_ok ex_rfmt ex_g2.
Proof. split_and!; split; vm_compute; try done; by split_and!. Qed.

Lemma ex_crashed_log : log_of None ex_sum ex_sum ex_rfmt ex_dev ex_crashed ex_txns ex_partial (ex_block 0).
Proof.
  destruct ex_groups_ok as (H0 & H1 & H2). split.
  - done.
  - done.
  - vm_compute. by split_and!.
  - vm_compute. done.
  - split; [|split; [|done]]; apply written_txn_is_ok; try done; repeat constructor; try done; vm_compute; done.
  - apply Forall_singleton. cbn. apply (descriptor_block_reads ex_sum ex_rfmt ex_g2 H2).
  - left. vm_compute. done.
  - done.
Qed.

Lemma ex_recoverable fs : recoverable (ex_crashed <| r_fs := fs |>).
Proof.
  split; [done|done|by apply (init_revoke_table_ok 3)|].
  intros b. cbn. unfold revoke_seq. by rewrite find_init.
Qed.

Lemma ex_surroundings : surroundings None (fun _ => true) (fun _ => true).
Proof. split; try done. Qed.

Lemma recover_replays_committed_witness :
  wp (jbd2_vmsep_journal_recover (fun _ => 0) 0 None ex_sum ex_sum ex_rfmt (fun _ => true) (fun _ => true)
        ex_dev (fun _ => true) 0 0 8)
    (fun r s' => r = Some 0 /\
       r_fs s' = {[ 100 := ex_block 1; 200 := ex_block 9;
                    300 := JBD2_MAGIC_BYTES ++ drop 4 (ex_block 3) ]}) ex_crashed.
Proof.
  eapply wp_mono; [apply (recover_replays_committed (fun _ => 0) 0 None ex_sum ex_sum ex_rfmt (fun _ => true)
    (fun _ => true) ex_dev (fun _ => true) 0 0 ex_txns ex_partial (ex_block 0) 8 ex_crashed)|].
  - apply ex_surroundings.
  - apply (ex_recoverable {[ 200 := ex_block 9 ]}).
  - apply ex_crashed_log.
  - vm_compute. lia.
  - intros r s' (-> & -> & _). split; [done|]. vm_compute. reflexivity.
Defined.

Lemma recover_repeatable_witness :
  wp (jbd2_vmsep_journal_recover (fun _ => 0) 0 None ex_sum ex_sum ex_rfmt (fun _ => true) (fun _ => true)
        ex_dev (fun _ => true) 0 0 8)
    (fun _ s' =>
       wp (jbd2_vmsep_journal_recover (fun _ => 0) 0 None ex_sum ex_sum ex_rfmt (fun _ => true) (fun _ => true)
             ex_dev (fun _ => true) 0 0 8)
         (fun _ s1' => r_fs s1' = r_fs s') (ex_crashed <| r_fs := {[ 100 := [5]; 200 := ex_block 9 ]} |>)) ex_crashed.
Proof.
  eapply wp_mono; [apply (recover_repeatable (fun _ => 0) 0 None ex_sum ex_sum ex_rfmt (fun _ => true)
    (fun _ => true) ex_dev (fun _ => true) 0 0 ex_txns ex_partial (ex_block 0) 8 ex_crashed
    (ex_crashed <| r_fs := {[ 100 := [5]; 200 := ex_block 9 ]} |>))|].
  - apply ex_surroundings.
  - apply (ex_recoverable {[ 200 := ex_block 9 ]}).
  - apply ex_recoverable.
  - done.
  - apply ex_crashed_log.
  - vm_compute. lia.
  - intros b Hb. cbn. destruct (decide (b = 100)) as [->|Hne]; [by vm_compute in Hb|].
    by rewrite lookup_insert_ne.
  - intros r s' [_ Hw]. exact Hw.
Defined.

Lemma written_transaction_is_complete_witness :
  txn_ok ex_sum ex_sum ex_rfmt 0 (written_txn ex_sum ex_sum ex_rfmt 0 [[200]] [ex_g1] 0 0).
Proof.
  apply (written_transaction_is_complete ex_sum ex_sum ex_rfmt 0 [[200]] [ex_g1] 0 0).
  - done.
  - done.
  - done.
  - repeat constructor; vm_compute; done.
  - constructor; [|constructor]. split; [|done]. by destruct ex_groups_ok as (_ & ? & _).
Defined.

Lemma scan_cycle {T} `{RevokeStore T} submit_sb jiffies j_inode jbd2_chksum crc32_be f
    getblk brand_new dev getblk_fs j tid fuel : forall (l : pass_locals) (s : rstate T),
  surroundings j_inode getblk getblk_fs -> geometry j -> k_journal (r_k s) = j ->
  in_log j (next_log_block l) -> next_commit_ID l = tid -> end_transaction s = 0 ->
  (forall pos, in_log j pos -> exists bs blocks,
     dev (physical j_inode pos) = Some bs /\ revoke_reads jbd2_chksum f bs tid blocks) ->
  pass_loop submit_sb jiffies j_inode jbd2_chksum crc32_be f getblk brand_new dev getblk_fs
    fuel PASS_SCAN l s = Ret (None, s).
Proof.
  induction fuel as [|fuel IH]; intros l s Hsu Hg Hj Hp Hn He Hall; cbn [pass_loop]; [done|].
  destruct (Hall _ Hp) as (bs & blocks & Hr & Hok). pose proof Hsu as [Hm Hmem Hmf].
  assert (Z.of_nat (length (item_blocks (Rev bs blocks))) <= log_len j) as Hlen
    by (destruct Hg as (? & _); unfold log_len; cbn; lia).
  rewrite (bind_ret _ _ _ _ _ (item_step submit_sb jiffies j_inode jbd2_chksum crc32_be f getblk brand_new dev
    getblk_fs j Hm Hmem Hmf Hg PASS_SCAN tid (Rev bs blocks) l s Hj Hp (conj Hr I) Hlen Hok Hn He)).
  apply IH; try done. cbn. by apply next_pos_in_log.
Qed.

(** The scan does not notice that it has gone once around the log: if
    every block of the log area is a well-formed revoke block of the
    transaction the superblock names, the scan never ends.  (Only descriptor
    and revoke blocks keep the expected id, and revoke blocks alone can fill
    the log.) *)
Theorem scan_revoke_cycle_diverges {T} `{RevokeStore T} submit_sb jiffies j_inode jbd2_chksum crc32_be f
    getblk brand_new dev getblk_fs fuel (s : rstate T) :
  let j := k_journal (r_k s) in
  surroundings j_inode getblk getblk_fs -> geometry j -> in_log j (s_start j) -> end_transaction s = 0 ->
  (forall pos, in_log j pos -> exists bs blocks,
     dev (physical j_inode pos) = Some bs /\ revoke_reads jbd2_chksum f bs (s_sequence j) blocks) ->
  wp (do_one_pass submit_sb jiffies j_inode jbd2_chksum crc32_be f getblk brand_new dev getblk_fs fuel PASS_SCAN)
    (fun r _ => r = None) s.
Proof.
  intros j Hsu Hg Hst He Hall. unfold do_one_pass. eapply wp_exec; [done|]. fold j.
  eapply wp_exec; [done|].
  eapply wp_exec; [by apply (scan_cycle _ _ _ _ _ _ _ _ _ _ j (s_sequence j))|]. by apply wp_ret.
Qed.

Definition ex_cycle : rstate jbd2_revoke_table_s :=
  ex_crashed <| r_k ::= fun k => k <| k_journal ::= fun j => j <| s_sequence := 7 |> |> |>.

Lemma scan_revoke_cycle_diverges_witness :
  wp (do_one_pass (fun _ => 0) 0 None ex_sum ex_sum ex_rfmt (fun _ => true) (fun _ => true)
        (fun _ => Some (revoke_block ex_sum ex_rfmt 7 [200])) (fun _ => true) 1000 PASS_SCAN)
    (fun r _ => r = None) ex_cycle.
Proof.
  apply scan_revoke_cycle_diverges.
  - apply ex_surroundings.
  - done.
  - done.
  - done.
  - intros pos _. exists (revoke_block ex_sum ex_rfmt 7 [200]), [200]. split; [done|].
    apply revoke_block_reads; [done|repeat constructor; done|done|vm_compute; done].
Defined.
