(* ===== verification/Checkpoint.v ===== *)
(** * Checkpointing

    kernel/fs/jbd2/checkpoint.c: the checkpoint lists of committed
    transactions, writing their buffers back, releasing buffers and
    transactions that need no replay any more, and moving the tail of the log.

    The buffer cache ([write_dirty_buffer], [wait_on_buffer]) is not part of the
    program: its functions are parameters that may do anything to the state.
    [need_resched()] is an arbitrary answer for each place that asks. *)
From S2P Require Import Prelude Tid State Blist JournalHead Filing Log Handle Commit.

(** ** Checkpoint lists *)

(** The buffers that keep a transaction in the log. *)
Definition cp_bufs (tr : transaction_t) : list bh_id := t_checkpoint_list tr ++ t_checkpoint_io_list tr.

Definition __jbd2_vmsep_journal_insert_checkpoint (b : bh_id) (t : tr_id) : K kstate unit :=
  x <- read_bh b ;;
  j_assert (buffer_dirty x || buffer_jbddirty x) ;;;
  h <- read_jh b ;;
  j_assert (bool_decide (b_cp_transaction h = None)) ;;;
  jbd2_vmsep_journal_grab_journal_head b ;;;
  modify_jh b (fun h => h <| b_cp_transaction := Some t |>) ;;;
  modify_tr t (fun tr => tr <| t_checkpoint_list ::= cons b |>).

(** [t_cpnext] is set exactly for the transactions on the journal's list. *)
Definition __jbd2_vmsep_journal_drop_transaction (t : tr_id) : K kstate unit :=
  modify_journal (fun j => j <| j_checkpoint_transactions ::= blist_del t |>) ;;;
  tr <- read_tr t ;;
  j <- read_journal ;;
  j_assert (bool_decide (t_state tr = T_FINISHED)) ;;;
  j_assert (bool_decide (t_buffers tr = [])) ;;;
  j_assert (bool_decide (t_forget tr = [])) ;;;
  j_assert (bool_decide (t_shadow_list tr = [])) ;;;
  j_assert (bool_decide (t_checkpoint_list tr = [])) ;;;
  j_assert (bool_decide (t_checkpoint_io_list tr = [])) ;;;
  j_assert (t_updates tr =? 0) ;;;
  j_assert (negb (bool_decide (j_committing_transaction j = Some t))) ;;;
  j_assert (negb (bool_decide (j_running_transaction j = Some t))).

(** [__buffer_unlink] on the lists; a buffer is on at most one of them. *)
Definition tr_uncp (b : bh_id) (tr : transaction_t) : transaction_t :=
  tr <| t_checkpoint_list ::= blist_del b |> <| t_checkpoint_io_list ::= blist_del b |>.

(** Whether the transaction was freed. *)
Definition __jbd2_vmsep_journal_remove_checkpoint (b : bh_id) : K kstate bool :=
  h <- read_jh b ;;
  match b_cp_transaction h with
  | None => kret false
  | Some t =>
    modify_tr t (tr_uncp b) ;;;
    modify_jh b (fun h => h <| b_cp_transaction := None |>) ;;;
    jbd2_vmsep_journal_put_journal_head b ;;;
    tr <- read_tr t ;;
    if negb (bool_decide (t_checkpoint_list tr = [])) || negb (bool_decide (t_checkpoint_io_list tr = []))
    then kret false
    else if negb (bool_decide (t_state tr = T_FINISHED)) then kret false
    else
      __jbd2_vmsep_journal_drop_transaction t ;;;
      jbd2_vmsep_journal_free_transaction t ;;;
      kret true
  end.

Definition released (freed : bool) : Z := if freed then 2 else 1.

Definition __try_to_free_cp_buf (b : bh_id) : K kstate Z :=
  h <- read_jh b ;;
  x <- read_bh b ;;
  if bool_decide (b_transaction h = None) && negb (buffer_locked x) &&
     negb (buffer_dirty x) && negb (buffer_write_io_error x)
  then freed <- __jbd2_vmsep_journal_remove_checkpoint b ;; kret (released freed)
  else kret 0.

Section Clean.
Context (need_resched : bh_id -> bool) (need_resched_tr : tr_id * bool -> bool).

(** [l] is the list from [jh] round to [last_jh]: each step reads the next
    link before it removes the buffer, so the walk follows the list as it
    was at the start.  Whether the transaction was freed. *)
Fixpoint journal_clean_one_cp_list (l : list bh_id) (destroy : bool) : K kstate bool :=
  match l with
  | [] => kret false
  | b :: l =>
    ret <- (if destroy
            then freed <- __jbd2_vmsep_journal_remove_checkpoint b ;; kret (released freed)
            else __try_to_free_cp_buf b) ;;
    if ret =? 0 then kret false
    else if ret =? 2 then kret true
    else if need_resched b then kret false
    else journal_clean_one_cp_list l destroy
  end.

(** [ts]: the journal's list from [transaction] to [last_transaction]; [need_resched_tr]: the answers after the first and after the
    second list of a transaction. *)
Fixpoint clean_transactions (ts : list tr_id) (destroy : bool) : K kstate unit :=
  match ts with
  | [] => kret tt
  | t :: ts =>
    tr <- read_tr t ;;
    ret <- journal_clean_one_cp_list (t_checkpoint_list tr) destroy ;;
    if need_resched_tr (t, false) then kret tt
    else if ret : bool then clean_transactions ts destroy
    else
      tr <- read_tr t ;;
      ret <- journal_clean_one_cp_list (t_checkpoint_io_list tr) destroy ;;
      if need_resched_tr (t, true) then kret tt
      else if negb ret then kret tt
      else clean_transactions ts destroy
  end.

Definition __jbd2_vmsep_journal_clean_checkpoint_list (destroy : bool) : K kstate unit :=
  j <- read_journal ;;
  clean_transactions (j_checkpoint_transactions j) destroy.
End Clean.

(** The rounds of the loop; each may be cut short by its own rescheduling. *)
Fixpoint jbd2_vmsep_journal_destroy_checkpoint (resched : list ((bh_id -> bool) * (tr_id * bool -> bool)))
  : K kstate (option unit) :=
  j <- read_journal ;;
  match j_checkpoint_transactions j with
  | [] => kret (Some tt)
  | _ :: _ =>
    match resched with
    | [] => kret None
    | (r, rt) :: resched =>
      __jbd2_vmsep_journal_clean_checkpoint_list r rt true ;;;
      jbd2_vmsep_journal_destroy_checkpoint resched
    end
  end.

Section Checkpoint.
Context (submit_sb : journal_t -> Z) (jiffies : Z).

(** [blkdev_issue_flush], whose result is ignored, is left out. *)
Definition jbd2_vmsep_cleanup_journal_tail : K kstate Z :=
  aborted <- is_journal_aborted ;;
  if aborted : bool then kret (- EIO)
  else
    tail <- jbd2_vmsep_journal_get_log_tail ;;
    let '(moved, first_tid, blocknr) := tail in
    if negb moved then kret 1
    else
      j_assert (negb (blocknr =? 0)) ;;;
      __jbd2_vmsep_update_log_tail submit_sb jiffies first_tid blocknr.

(** ** Writing buffers back *)

Context (write_dirty_buffer wait_on_buffer : bh_id -> K kstate unit).

Fixpoint for_each (m : bh_id -> K kstate unit) (l : list bh_id) : K kstate unit :=
  match l with
  | [] => kret tt
  | b :: l => m b ;;; for_each m l
  end.

(** [batch] is [j_chkpt_bhs[0..batch_count)]. *)
Definition __flush_batch (batch : list bh_id) : K kstate unit :=
  for_each write_dirty_buffer batch ;;;
  for_each __brelse batch.

Definition JBD2_NR_BATCH : Z := 64.

(** [__buffer_relink_io] on the lists. *)
Definition tr_relink_io (b : bh_id) (tr : transaction_t) : transaction_t :=
  tr <| t_checkpoint_list ::= blist_del b |> <| t_checkpoint_io_list ::= cons b |>.

(** Waiting for a locked buffer. *)
Definition wait_buffer (b : bh_id) : K kstate unit :=
  get_bh b ;;; wait_on_buffer b ;;; __brelse b.

(** [journal->j_checkpoint_transactions != transaction || transaction->t_tid != this_tid] *)
Definition cleaned_up (t : tr_id) (this_tid : tid_t) : K kstate bool :=
  j <- read_journal ;;
  if bool_decide (head (j_checkpoint_transactions j) = Some t)
  then tr <- read_tr t ;; kret (negb (t_tid tr =? this_tid))
  else kret true.

(** What the first loop does next: another iteration, [goto retry] (flush
    the batch and check again), [goto out], or on to the second loop. *)
Inductive cp_next := CpAgain | CpRetry | CpOut | CpDone | CpStuck.

(** The steps of other tasks while a commit is waited for, and
    [need_resched() || spin_needbreak()], at each iteration. *)
Context (envs : nat -> list (K kstate unit)) (resched : nat -> bool).

(** One iteration of [while (transaction->t_checkpoint_list)]. *)
Definition cp_step (n : nat) (t : tr_id) (result : Z) (batch : list bh_id)
  : K kstate (cp_next * Z * list bh_id) :=
  tr <- read_tr t ;;
  match t_checkpoint_list tr with
  | [] => kret (if bool_decide (batch = []) then CpDone else CpRetry, result, batch)
  | b :: _ =>
    x <- read_bh b ;;
    h <- read_jh b ;;
    if buffer_locked x
    then wait_buffer b ;;; kret (CpRetry, result, batch)
    else match b_transaction h with
    | Some t' =>
      tr' <- read_tr t' ;;
      jbd2_vmsep_log_start_commit jiffies (t_tid tr') 0 ;;;
      r <- jbd2_vmsep_log_wait_commit (envs n) (t_tid tr') ;;
      kret (match r with Some _ => CpRetry | None => CpStuck end, result, batch)
    | None =>
      if negb (buffer_dirty x)
      then
        let result := if buffer_write_io_error x && (result =? 0) then - EIO else result in
        freed <- __jbd2_vmsep_journal_remove_checkpoint b ;;
        kret (if freed : bool then CpOut else CpAgain, result, batch)
      else
        get_bh b ;;;
        j_assert (negb (buffer_jwrite x)) ;;;
        modify_tr t (tr_relink_io b) ;;;
        let batch := batch ++ [b] in
        kret (if (Z.of_nat (length batch) =? JBD2_NR_BATCH) || resched n then CpRetry else CpAgain,
              result, batch)
    end
  end.

(** The first loop: the result, and whether to go on to the second one;
    [None] when it did not end within [fuel] iterations or the wait for a
    commit did not end. *)
Fixpoint cp_write (fuel : nat) (t : tr_id) (this_tid : tid_t) (result : Z) (batch : list bh_id)
  : K kstate (option (bool * Z)) :=
  match fuel with
  | O => kret None
  | S fuel =>
    r <- cp_step fuel t result batch ;;
    let '(next, result, batch) := r in
    match next with
    | CpAgain => cp_write fuel t this_tid result batch
    | CpRetry =>
      (if bool_decide (batch = []) then kret tt else __flush_batch batch) ;;;
      gone <- cleaned_up t this_tid ;;
      if gone : bool then kret (Some (false, result)) else cp_write fuel t this_tid result []
    | CpOut => kret (Some (false, result))
    | CpDone => kret (Some (true, result))
    | CpStuck => kret None
    end
  end.

(** The second loop, over the buffers that are out for I/O. *)
Fixpoint cp_wait (fuel : nat) (t : tr_id) (this_tid : tid_t) (result : Z) : K kstate (option Z) :=
  match fuel with
  | O => kret None
  | S fuel =>
    tr <- read_tr t ;;
    match t_checkpoint_io_list tr with
    | [] => kret (Some result)
    | b :: _ =>
      x <- read_bh b ;;
      if buffer_locked x
      then
        wait_buffer b ;;;
        gone <- cleaned_up t this_tid ;;
        if gone : bool then kret (Some result) else cp_wait fuel t this_tid result
      else
        let result := if buffer_write_io_error x && (result =? 0) then - EIO else result in
        freed <- __jbd2_vmsep_journal_remove_checkpoint b ;;
        if freed : bool then kret (Some result) else cp_wait fuel t this_tid result
    end
  end.

Definition jbd2_vmsep_log_do_checkpoint (fuel : nat) : K kstate (option Z) :=
  result <- jbd2_vmsep_cleanup_journal_tail ;;
  if result <=? 0 then kret (Some result)
  else
    j <- read_journal ;;
    result <- (match j_checkpoint_transactions j with
       | [] => kret (Some 0)
       | t :: _ =>
         tr <- read_tr t ;;
         let this_tid := t_tid tr in
         r <- cp_write fuel t this_tid 0 [] ;;
         match r with
         | None => kret None
         | Some (false, result) => kret (Some result)
         | Some (true, result) =>
           gone <- cleaned_up t this_tid ;;
           if gone : bool then kret (Some result) else cp_wait fuel t this_tid result
         end
       end) ;;
    match result with
    | None => kret None
    | Some result =>
      result <- (if result <? 0 then jbd2_vmsep_journal_abort submit_sb jiffies result ;;; kret result
                 else jbd2_vmsep_cleanup_journal_tail) ;;
      kret (Some (if result <? 0 then result else 0))
    end.

(** ** Waiting for space *)

(** The first comparison is between [unsigned long]s, the second, under the
    locks, between [int]s. *)
Fixpoint __jbd2_vmsep_log_wait_for_space (fuel : nat) : K kstate (option unit) :=
  match fuel with
  | O => kret None
  | S fuel =>
    j <- read_journal ;;
    left <- jbd2_log_space_left ;;
    if u64 (jbd2_space_needed j) <=? left then kret (Some tt)
    else if JBD2_ABORT j then kret (Some tt)
    else if jbd2_space_needed j <=? s32 left then __jbd2_vmsep_log_wait_for_space fuel
    else match j_checkpoint_transactions j with
    | _ :: _ =>
      r <- jbd2_vmsep_log_do_checkpoint fuel ;;
      match r with
      | None => kret None
      | Some _ => __jbd2_vmsep_log_wait_for_space fuel
      end
    | [] =>
      tid <- (match j_committing_transaction j with
              | Some t => tr <- read_tr t ;; kret (t_tid tr)
              | None => kret 0
              end) ;;
      r <- jbd2_vmsep_cleanup_journal_tail ;;
      if r =? 0 then __jbd2_vmsep_log_wait_for_space fuel
      else if negb (tid =? 0)
      then
        r <- jbd2_vmsep_log_wait_commit (envs fuel) tid ;;
        match r with
        | None => kret None
        | Some _ => __jbd2_vmsep_log_wait_for_space fuel
        end
      else jbd2_vmsep_journal_abort submit_sb jiffies 0 ;;; __jbd2_vmsep_log_wait_for_space fuel
    end
  end.
End Checkpoint.

(** ** The checkpoint invariant

    A journal head is on the checkpoint lists of exactly the transaction its
    [b_cp_transaction] names; the journal's list holds exactly the finished
    transactions, each with a buffer left to write back, and nothing else
    refers to those. *)
Record cp_lists (s : kstate) : Prop := {
  cp_member b x h t tr : has_jh s b x h -> k_trans s !! t = Some tr ->
    (b ∈ cp_bufs tr <-> b_cp_transaction h = Some t);
  cp_has_jh t tr b : k_trans s !! t = Some tr -> b ∈ cp_bufs tr -> exists x h, has_jh s b x h;
  cp_live b x h t : has_jh s b x h -> b_cp_transaction h = Some t -> is_Some (k_trans s !! t);
  cp_nodup t tr : k_trans s !! t = Some tr -> NoDup (cp_bufs tr);
}.

(** A transaction that only waits for its buffers to be written back. *)
Definition cp_idle (j : journal_t) (t : tr_id) (tr : transaction_t) : Prop :=
  t_buffers tr = [] /\ t_forget tr = [] /\ t_shadow_list tr = [] /\ t_updates tr = 0 /\
  j_committing_transaction j <> Some t /\ j_running_transaction j <> Some t.

Record cp_ok (s : kstate) : Prop := {
  cp_ok_lists : cp_lists s;
  cp_queue : NoDup (j_checkpoint_transactions (k_journal s));
  cp_finished t tr : k_trans s !! t = Some tr ->
    (t ∈ j_checkpoint_transactions (k_journal s) <-> t_state tr = T_FINISHED);
  cp_queued t : t ∈ j_checkpoint_transactions (k_journal s) ->
    exists tr, k_trans s !! t = Some tr /\ cp_bufs tr <> [] /\ cp_idle (k_journal s) t tr;
  cp_unref t b x h : t ∈ j_checkpoint_transactions (k_journal s) -> has_jh s b x h ->
    b_transaction h <> Some t /\ b_next_transaction h <> Some t;
}.

Lemma cp_bufs_uncp b tr : cp_bufs (tr_uncp b tr) = blist_del b (cp_bufs tr).
Proof. unfold cp_bufs, tr_uncp, blist_del. cbn. by rewrite filter_app. Qed.

Lemma cp_bufs_nil tr : t_checkpoint_list tr = [] /\ t_checkpoint_io_list tr = [] <-> cp_bufs tr = [].
Proof. unfold cp_bufs. split; [by intros [-> ->]|by intros ?%app_nil]. Qed.

(** Dropping a transaction nobody refers to. *)
Lemma wf_delete ext s j t :
  wf ext s ->
  (forall b x h, has_jh s b x h -> b_transaction h <> Some t /\ b_next_transaction h <> Some t) ->
  wf ext (mk_kstate j (k_bufs s) (delete t (k_trans s))).
Proof.
  intros Hwf Hun. split; kst.
  - intros b x Hb. destruct (wf_bh _ _ Hwf b x Hb) as [Hj Ho]. split; [done|].
    destruct (b_private x) as [h|] eqn:Hh.
    + destruct Ho. destruct (Hun b x h) as [Hn1 Hn2]; [done|]. split; auto.
      * intros t' tr jl [_ Ht]%lookup_delete_Some. eauto.
      * intros t' Ht'. rewrite lookup_delete_ne; [auto|]. intros <-. by destruct Ht'.
    + intros t' tr jl [_ Ht]%lookup_delete_Some. eauto.
  - intros t' tr [_ Ht]%lookup_delete_Some. by eapply wf_tr.
Qed.

(** The buffer after it left its checkpoint list. *)
Definition bh_uncp (x : buffer_head) (h : journal_head) : buffer_head :=
  bh_put (x <| b_private := Some (h <| b_cp_transaction := None |>) |>) (h <| b_cp_transaction := None |>).

(** The state after [b] left the checkpoint list of [t], before the
    transaction is looked at. *)
Definition uncp_state (s : kstate) (b : bh_id) (x : buffer_head) (h : journal_head) (t : tr_id)
    (tr : transaction_t) : kstate :=
  mk_kstate (k_journal s) (<[b := bh_uncp x h]> (k_bufs s)) (<[t := tr_uncp b tr]> (k_trans s)).

Lemma uncp_exec ext s b x h t tr :
  wf ext s -> 0 <= ext b -> has_jh s b x h -> b_cp_transaction h = Some t -> k_trans s !! t = Some tr ->
  wp (modify_tr t (tr_uncp b) ;;; modify_jh b (fun h => h <| b_cp_transaction := None |>) ;;;
      jbd2_vmsep_journal_put_journal_head b)
    (fun _ s' => s' = uncp_state s b x h t tr /\ wf ext s') s.
Proof.
  intros Hwf Hext Hx Hcp Htr. pose proof Hx as [Hb Hh].
  destruct (wf_jh _ _ _ _ _ Hwf Hb Hh) as [Hjbd Hok]. pose proof (jh_count _ _ _ _ Hok) as Hc.
  rewrite Hcp in Hc. cbn in Hc.
  wp_step. eapply wp_modify_tr; [done|]. wp_step. eapply wp_modify_jh; [exact Hb|exact Hh|].
  set (h' := h <| b_cp_transaction := None |>).
  assert (wf (ext_add b 1 ext) (mk_kstate (k_journal s) (<[b := x <| b_private := Some h' |>]> (k_bufs s))
            (<[t := tr_uncp b tr]> (k_trans s)))) as Hwf'.
  { assert (wf ext (mk_kstate (k_journal s) (k_bufs s) (<[t := tr_uncp b tr]> (k_trans s)))) as Hwf1
      by (eapply wf_set_credits; [done|done|by intros []|done]).
    eapply (wf_set_bh _ _ _ _ _ _ Hwf1); [intros; by apply ext_add_ne|].
    destruct (wf_jh _ _ b x h Hwf1 Hb Hh) as [_ Hok1]. split; [done|]. cbn [b_private].
    destruct Hok1. split; auto. subst h'. cbn. rewrite ext_add_eq. lia. }
  eapply wp_mono; [eapply put_exec; [exact Hwf'|done|cbn; by rewrite lookup_insert_eq|done]|].
  intros _ s' [->%goes_to_eq Hwf2]. kst. rewrite insert_insert_eq in *. done.
Qed.

Section Uncp.
Context (s : kstate) (b : bh_id) (x : buffer_head) (h : journal_head) (t : tr_id) (tr : transaction_t).
Context (Hx : has_jh s b x h) (Hcp : b_cp_transaction h = Some t) (Htr : k_trans s !! t = Some tr).
Abbreviation s' := (uncp_state s b x h t tr).

(** The journal heads afterwards. *)
Lemma uncp_jh y xy hy :
  has_jh s' y xy hy ->
  y = b /\ b_cp_transaction hy = None /\ b_transaction hy = b_transaction h /\
    b_next_transaction hy = b_next_transaction h \/
  y <> b /\ has_jh s y xy hy.
Proof.
  intros [Hy Hp]. unfold uncp_state in Hy. kst.
  destruct (decide (b = y)) as [<-|Hne]; [left|right; rewrite lookup_insert_ne in Hy by done; by split].
  rewrite lookup_insert_eq in Hy. injection Hy as <-. unfold bh_uncp, bh_put in Hp.
  destruct (_ =? 1); [done|]. injection Hp as <-. done.
Qed.

Lemma uncp_jh_other y xy hy : y <> b -> has_jh s y xy hy -> has_jh s' y xy hy.
Proof. intros Hne [Hy Hp]. split; [|done]. unfold uncp_state. kst. by rewrite lookup_insert_ne. Qed.

Lemma uncp_lists : cp_lists s -> cp_lists s'.
Proof.
  intros Hl. split.
  - intros y xy hy t' tr' Hy Ht'. unfold uncp_state in Ht'. kst.
    destruct (uncp_jh y xy hy Hy) as [(-> & Hc & _)|[Hne Hy']].
    + rewrite Hc. split; [|done]. intros Hin. exfalso. destruct (decide (t = t')) as [<-|Hnt].
      * rewrite lookup_insert_eq in Ht'. injection Ht' as <-. rewrite cp_bufs_uncp in Hin.
        by apply elem_of_blist_del in Hin as [_ ?].
      * rewrite lookup_insert_ne in Ht' by done. apply (cp_member _ Hl b x h t' tr' Hx Ht') in Hin. congruence.
    + destruct (decide (t = t')) as [<-|Hnt].
      * rewrite lookup_insert_eq in Ht'. injection Ht' as <-.
        rewrite cp_bufs_uncp, elem_of_blist_del, (cp_member _ Hl y xy hy t tr Hy' Htr). tauto.
      * rewrite lookup_insert_ne in Ht' by done. by apply (cp_member _ Hl y xy hy).
  - intros t' tr' y Ht' Hin.
    assert (y <> b /\ exists xy hy, has_jh s y xy hy) as (Hne & xy & hy & Hy).
    { unfold uncp_state in Ht'. kst. destruct (decide (t = t')) as [<-|Hnt].
      - rewrite lookup_insert_eq in Ht'. injection Ht' as <-. rewrite cp_bufs_uncp in Hin.
        apply elem_of_blist_del in Hin as [Hin Hne]. split; [done|]. by eapply cp_has_jh.
      - rewrite lookup_insert_ne in Ht' by done. split; [|by eapply cp_has_jh].
        intros ->. apply (cp_member _ Hl b x h t' tr' Hx Ht') in Hin. congruence. }
    exists xy, hy. by apply uncp_jh_other.
  - intros y xy hy t' Hy Hc. unfold uncp_state. kst.
    destruct (uncp_jh y xy hy Hy) as [(_ & Hc' & _)|[_ Hy']]; [congruence|].
    apply lookup_insert_is_Some'. right. by eapply cp_live.
  - intros t' tr' Ht'. unfold uncp_state in Ht'. kst. destruct (decide (t = t')) as [<-|Hnt].
    + rewrite lookup_insert_eq in Ht'. injection Ht' as <-. rewrite cp_bufs_uncp.
      apply NoDup_blist_del. by eapply cp_nodup.
    + rewrite lookup_insert_ne in Ht' by done. by eapply cp_nodup.
Qed.

(** The transaction still has a buffer to write back, or has not finished its commit. *)
Lemma uncp_keeps_ok :
  cp_ok s -> cp_bufs (tr_uncp b tr) <> [] \/ t_state tr <> T_FINISHED -> cp_ok s'.
Proof.
  intros Hok Hor. split.
  - apply uncp_lists, Hok.
  - apply Hok.
  - intros t' tr' Ht'. unfold uncp_state in *. kst. destruct (decide (t = t')) as [<-|Hnt].
    + rewrite lookup_insert_eq in Ht'. injection Ht' as <-. exact (cp_finished _ Hok t tr Htr).
    + rewrite lookup_insert_ne in Ht' by done. by apply (cp_finished _ Hok).
  - intros t' Hin. unfold uncp_state in *. kst. destruct (cp_queued _ Hok t' Hin) as (tr' & Ht' & Hne & Hi).
    destruct (decide (t = t')) as [<-|Hnt].
    + exists (tr_uncp b tr). rewrite lookup_insert_eq. replace tr' with tr in * by congruence.
      split_and!; [done| |done]. destruct Hor as [?|Hst]; [done|]. by apply (cp_finished _ Hok t tr Htr) in Hin.
    + exists tr'. by rewrite lookup_insert_ne.
  - intros t' y xy hy Hin Hy. destruct (uncp_jh y xy hy Hy) as [(_ & _ & -> & ->)|[_ Hy']];
      by eapply (cp_unref _ Hok).
Qed.

(** It was the last buffer: the transaction leaves the log. *)
Definition drop_state : kstate :=
  mk_kstate ((k_journal s) <| j_checkpoint_transactions ::= blist_del t |>)
    (<[b := bh_uncp x h]> (k_bufs s)) (delete t (k_trans s)).

Lemma drop_keeps_ok : cp_ok s -> cp_bufs (tr_uncp b tr) = [] -> t_state tr = T_FINISHED -> cp_ok drop_state.
Proof.
  intros Hok Hnil Hst. pose proof (uncp_lists (cp_ok_lists _ Hok)) as Hl. unfold drop_state.
  assert (forall t' tr', delete t (k_trans s) !! t' = Some tr' ->
    t <> t' /\ k_trans s !! t' = Some tr' /\ <[t := tr_uncp b tr]> (k_trans s) !! t' = Some tr') as Hdel.
  { intros t' tr' [Hne Ht']%lookup_delete_Some. split_and!; [done|done|]. by rewrite lookup_insert_ne. }
  split; [split| | | |]; kst; cbn [j_checkpoint_transactions field_update].
  - intros y xy hy t' tr' Hy (Hne & _ & Ht')%Hdel. by apply (cp_member _ Hl y xy hy).
  - intros t' tr' y (Hne & _ & Ht')%Hdel. by apply (cp_has_jh _ Hl t' tr').
  - intros y xy hy t' Hy Hc. destruct (cp_live _ Hl y xy hy t' Hy Hc) as [tr' Ht'].
    destruct (decide (t = t')) as [<-|Hne].
    + apply (cp_member _ Hl y xy hy t tr' Hy Ht') in Hc. unfold uncp_state in Ht'. kst.
      rewrite lookup_insert_eq in Ht'. injection Ht' as <-. rewrite Hnil in Hc. by apply not_elem_of_nil in Hc.
    + unfold uncp_state in Ht'. kst. rewrite lookup_insert_ne in Ht' by done. rewrite lookup_delete_ne by done. by eexists.
  - intros t' tr' (Hne & _ & Ht')%Hdel. by apply (cp_nodup _ Hl t' tr').
  - apply NoDup_blist_del, Hok.
  - intros t' tr' (Hne & Ht' & _)%Hdel. rewrite elem_of_blist_del, (cp_finished _ Hok t' tr' Ht'). naive_solver.
  - intros t' [Hin Hne]%elem_of_blist_del. destruct (cp_queued _ Hok t' Hin) as (tr' & Ht' & Hb & Hi).
    exists tr'. rewrite lookup_delete_ne by done. done.
  - intros t' y xy hy [Hin Hne]%elem_of_blist_del Hy.
    destruct (uncp_jh y xy hy Hy) as [(_ & _ & -> & ->)|[_ Hy']]; by eapply (cp_unref _ Hok).
Qed.
End Uncp.

(** Dropping a transaction that only waited for its last buffer. *)
Lemma drop_exec s t tr :
  k_trans s !! t = Some tr -> t_state tr = T_FINISHED -> cp_bufs tr = [] -> cp_idle (k_journal s) t tr ->
  wp (__jbd2_vmsep_journal_drop_transaction t ;;; jbd2_vmsep_journal_free_transaction t ;;; kret true)
    (fun freed s' => freed = true /\
       s' = mk_kstate ((k_journal s) <| j_checkpoint_transactions ::= blist_del t |>) (k_bufs s)
              (delete t (k_trans s))) s.
Proof.
  intros Htr Hst Hnil (H1 & H2 & H3 & H4 & H5 & H6). apply cp_bufs_nil in Hnil as [H7 H8].
  unfold __jbd2_vmsep_journal_drop_transaction. repeat wp_step; rewrite ?H1, ?H2, ?H3, ?H4, ?H7, ?H8; try done.
  - by rewrite bool_decide_true.
  - by rewrite bool_decide_false.
  - by rewrite bool_decide_false.
Qed.

Lemma remove_checkpoint_spec ext s b x h t tr :
  wf ext s -> cp_ok s -> 0 <= ext b -> has_jh s b x h -> b_cp_transaction h = Some t -> k_trans s !! t = Some tr ->
  wp (__jbd2_vmsep_journal_remove_checkpoint b)
    (fun freed s' => wf ext s' /\ cp_ok s' /\
       freed = bool_decide (cp_bufs (tr_uncp b tr) = []) && bool_decide (t_state tr = T_FINISHED) /\
       s' = (if freed : bool then drop_state s b x h t else uncp_state s b x h t tr)) s.
Proof.
  intros Hwf Hok Hext Hx Hcp Htr. unfold __jbd2_vmsep_journal_remove_checkpoint.
  wp_step. eapply wp_read_jh; [apply Hx|apply Hx|]. rewrite Hcp.
  assert (forall A (k : K kstate A) Q, wp ((modify_tr t (tr_uncp b) ;;; modify_jh b (fun h => h <| b_cp_transaction := None |>) ;;;
      jbd2_vmsep_journal_put_journal_head b) ;;; k) Q s ->
    wp (modify_tr t (tr_uncp b) ;;; modify_jh b (fun h => h <| b_cp_transaction := None |>) ;;;
      jbd2_vmsep_journal_put_journal_head b ;;; k) Q s) as Hassoc.
  { intros A k Q. unfold wp, kbind. destruct (modify_tr _ _ s) as [[? s1]|]; [|done].
    destruct (modify_jh _ _ s1) as [[? s2]|]; [|done].
    by destruct (jbd2_vmsep_journal_put_journal_head b s2) as [[? s3]|]. }
  apply Hassoc. wp_step. eapply wp_mono; [by eapply uncp_exec|]. intros _ s1 [-> Hwf1].
  wp_step. eapply wp_read_tr; [cbn; by rewrite lookup_insert_eq|].
  assert (forall c, negb (bool_decide (t_checkpoint_list (tr_uncp b tr) = [])) ||
            negb (bool_decide (t_checkpoint_io_list (tr_uncp b tr) = [])) = c ->
          c = negb (bool_decide (cp_bufs (tr_uncp b tr) = []))) as Hc.
  { intros c <-. rewrite <- negb_andb. f_equal. apply eq_true_iff_eq.
    rewrite andb_true_iff, !bool_decide_eq_true. apply cp_bufs_nil. }
  rewrite (Hc _ eq_refl). destruct (bool_decide (cp_bufs (tr_uncp b tr) = [])) eqn:Hnil; cbn [negb andb];
    [apply bool_decide_eq_true in Hnil|apply bool_decide_eq_false in Hnil].
  2: { wp_step. split_and!; [done| |done|done]. apply uncp_keeps_ok; try done. by left. }
  destruct (bool_decide (t_state (tr_uncp b tr) = T_FINISHED)) eqn:Hst; change (t_state (tr_uncp b tr)) with (t_state tr) in Hst;
    rewrite Hst; cbn [negb]; [apply bool_decide_eq_true in Hst|apply bool_decide_eq_false in Hst].
  2: { wp_step. split_and!; [done| |done|done]. apply uncp_keeps_ok; try done. by right. }
  assert (t ∈ j_checkpoint_transactions (k_journal s)) as Hin by (by apply (cp_finished _ Hok t tr Htr)).
  destruct (cp_queued _ Hok t Hin) as (tr0 & Htr0 & _ & Hidle). replace tr0 with tr in * by congruence.
  eapply wp_mono; [eapply (drop_exec _ t (tr_uncp b tr)); try done; cbn; by rewrite lookup_insert_eq|].
  intros r s' [-> ->].
  assert (mk_kstate ((k_journal (uncp_state s b x h t tr)) <| j_checkpoint_transactions ::= blist_del t |>)
    (k_bufs (uncp_state s b x h t tr)) (delete t (k_trans (uncp_state s b x h t tr))) = drop_state s b x h t) as Hdrop
    by (unfold drop_state, uncp_state; kst; by rewrite delete_insert_eq).
  split_and!; [|rewrite Hdrop; by eapply drop_keeps_ok|done|done].
  apply wf_delete; [done|]. intros y xy hy Hy.
  destruct (uncp_jh s b x h t tr y xy hy Hy) as [(_ & _ & -> & ->)|[_ Hy']]; by eapply (cp_unref _ Hok).
Qed.

(** ** Cleaning releases only what needs no replay *)

(** Still to be written back, being written, failed to be written, or part
    of a transaction again. *)
Definition busy (x : buffer_head) (h : journal_head) : Prop :=
  is_Some (b_transaction h) \/ buffer_locked x = true \/ buffer_dirty x = true \/ buffer_write_io_error x = true.

(** What a cleaning pass may do: release buffers that are not busy ([destroy]:
    any), and drop transactions. *)
Record cleaned (destroy : bool) (s s' : kstate) : Prop := {
  cl_bufs b x h : destroy = false -> has_jh s b x h -> busy x h -> has_jh s' b x h;
  cl_trans t tr' : k_trans s' !! t = Some tr' -> exists tr, k_trans s !! t = Some tr /\
    t_state tr' = t_state tr /\ t_tid tr' = t_tid tr /\ t_log_start tr' = t_log_start tr;
  cl_queue : sublist (j_checkpoint_transactions (k_journal s')) (j_checkpoint_transactions (k_journal s));
  cl_journal : (k_journal s') <| j_checkpoint_transactions := [] |> = (k_journal s) <| j_checkpoint_transactions := [] |>;
}.

#[export] Instance cleaned_preorder destroy : PreOrder (cleaned destroy).
Proof.
  split.
  - intros s. split; try done. intros t tr ?. by exists tr.
  - intros s1 s2 s3 [] []. split.
    + intros. eauto.
    + intros t tr3 Ht3. destruct (cl_trans1 t tr3 Ht3) as (tr2 & Ht2 & ? & ? & ?).
      destruct (cl_trans0 t tr2 Ht2) as (tr1 & Ht1 & ? & ? & ?). exists tr1. split_and!; congruence.
    + by etrans.
    + congruence.
Qed.

Lemma blist_del_sublist t l : sublist (blist_del t l) l.
Proof. apply sublist_filter. Qed.

Section Cleaning.
Context (ext : bh_id -> Z) (Hext : forall b, 0 <= ext b).

Lemma cleaned_uncp destroy s b x h t tr :
  has_jh s b x h -> k_trans s !! t = Some tr -> destroy = true \/ ~ busy x h ->
  cleaned destroy s (uncp_state s b x h t tr).
Proof.
  intros Hx Htr Hd. split; try done.
  - intros y xy hy -> Hy Hbusy. apply uncp_jh_other; [|done]. intros ->.
    destruct Hd as [?|Hd]; [done|]. destruct Hx as [Hb Hh], Hy as [Hb' Hh']. naive_solver.
  - intros t' tr' Ht'. unfold uncp_state in Ht'. kst. apply lookup_insert_Some in Ht' as [[<- <-]|[_ Ht']];
      eexists; by split_and!.
Qed.

Lemma cleaned_drop destroy s b x h t :
  has_jh s b x h -> destroy = true \/ ~ busy x h -> cleaned destroy s (drop_state s b x h t).
Proof.
  intros Hx Hd. split; try done.
  - intros y xy hy -> Hy Hbusy. split; [|apply Hy]. cbn. rewrite lookup_insert_ne; [apply Hy|]. intros <-.
    destruct Hd as [?|Hd]; [done|]. destruct Hx as [Hb Hh], Hy as [Hb' Hh']. naive_solver.
  - intros t' tr' Ht'. unfold drop_state in Ht'. kst. apply lookup_delete_Some in Ht' as [_ Ht']. eexists. by split_and!.
  - apply blist_del_sublist.
Qed.

(** A buffer of transaction [t]. *)
Definition on_cp (s : kstate) (t : tr_id) (b : bh_id) : Prop :=
  exists x h, has_jh s b x h /\ b_cp_transaction h = Some t.

(** One step of a walk: nothing, a buffer released, or the transaction with it. *)
Lemma clean_buf_spec destroy s t tr b :
  wf ext s -> cp_ok s -> k_trans s !! t = Some tr -> on_cp s t b ->
  wp (if destroy : bool
      then freed <- __jbd2_vmsep_journal_remove_checkpoint b ;; kret (released freed)
      else __try_to_free_cp_buf b)
    (fun r s' => wf ext s' /\ cp_ok s' /\ cleaned destroy s s' /\
       (r = 0 /\ destroy = false /\ s' = s \/
        exists x h, has_jh s b x h /\
          (r = 1 /\ s' = uncp_state s b x h t tr /\ ~ (cp_bufs (tr_uncp b tr) = [] /\ t_state tr = T_FINISHED) \/
           r = 2 /\ s' = drop_state s b x h t))) s.
Proof.
  intros Hwf Hok Htr (x & h & Hx & Hcp).
  assert (destroy = true \/ ~ busy x h ->
    wp (freed <- __jbd2_vmsep_journal_remove_checkpoint b ;; kret (released freed))
      (fun r s' => wf ext s' /\ cp_ok s' /\ cleaned destroy s s' /\
       (r = 0 /\ destroy = false /\ s' = s \/
        exists x h, has_jh s b x h /\
          (r = 1 /\ s' = uncp_state s b x h t tr /\ ~ (cp_bufs (tr_uncp b tr) = [] /\ t_state tr = T_FINISHED) \/
           r = 2 /\ s' = drop_state s b x h t))) s) as Hrm.
  { intros Hd. wp_step. eapply wp_mono; [by eapply remove_checkpoint_spec|].
    intros freed s' (Hwf' & Hok' & Hf & Hs'). wp_step. split_and!; [done|done| |].
    - rewrite Hs'. destruct freed; [by apply cleaned_drop|by apply cleaned_uncp].
    - right. exists x, h. split; [done|]. destruct freed; [right; done|left].
      split_and!; [done|done|]. intros [He Hst]. by rewrite !bool_decide_true in Hf. }
  destruct destroy; [by apply Hrm; left|].
  unfold __try_to_free_cp_buf. wp_step. eapply wp_read_jh; [apply Hx|apply Hx|].
  wp_step. eapply wp_read_bh; [apply Hx|].
  destruct (bool_decide (b_transaction h = None) && negb (buffer_locked x) &&
     negb (buffer_dirty x) && negb (buffer_write_io_error x)) eqn:Hc.
  - apply Hrm. right. rewrite !andb_true_iff, bool_decide_eq_true, !negb_true_iff in Hc.
    destruct Hc as [[[? ?] ?] ?]. unfold busy. intros [[? ?]|[?|[?|?]]]; congruence.
  - wp_step. split_and!; [done|done|done|]. by left.
Qed.

(** Elements of the walk that follow stay on the transaction. *)
Lemma on_cp_uncp s b x h t tr y : y <> b -> on_cp s t y -> on_cp (uncp_state s b x h t tr) t y.
Proof. intros Hne (xy & hy & Hy & Hc). exists xy, hy. split; [by apply uncp_jh_other|done]. Qed.

(** A walk over buffers of [t]. *)
Lemma clean_one_spec resched destroy t l : forall s tr,
  wf ext s -> cp_ok s -> k_trans s !! t = Some tr -> NoDup l -> (forall b, b ∈ l -> on_cp s t b) ->
  wp (journal_clean_one_cp_list resched l destroy)
    (fun r s' => wf ext s' /\ cp_ok s' /\ cleaned destroy s s' /\
       (forall t', t' <> t -> k_trans s' !! t' = k_trans s !! t') /\
       if r : bool then k_trans s' !! t = None
       else exists tr', k_trans s' !! t = Some tr' /\
         (destroy = true -> (forall b, resched b = false) -> tr' = fold_left (fun tr b => tr_uncp b tr) l tr)) s.
Proof.
  induction l as [|b l IH]; intros s tr Hwf Hok Htr Hnd Hon; cbn [journal_clean_one_cp_list].
  { wp_step. split_and!; try done. by exists tr. }
  apply NoDup_cons in Hnd as [Hnin Hnd].
  wp_step. eapply wp_mono; [eapply clean_buf_spec; [done|done|done|apply Hon; by left]|].
  intros r s1 (Hwf1 & Hok1 & Hcl1 & Hr).
  destruct Hr as [(-> & -> & ->)|(x & h & Hx & [(-> & -> & _)|(-> & ->)])]; cbn [Z.eqb Pos.eqb].
  - wp_step. split_and!; try done. by exists tr.
  - assert (k_trans (uncp_state s b x h t tr) !! t = Some (tr_uncp b tr)) as Htr1 by apply lookup_insert_eq.
    assert (forall t', t' <> t -> k_trans (uncp_state s b x h t tr) !! t' = k_trans s !! t') as Hoth
      by (intros; by apply lookup_insert_ne).
    destruct (resched b) eqn:Hres.
    + wp_step. split_and!; try done. exists (tr_uncp b tr). split; [done|]. intros _ Hno. congruence.
    + eapply wp_mono; [eapply (IH _ _ Hwf1 Hok1 Htr1 Hnd)|].
      * intros y Hy. apply on_cp_uncp; [by intros ->|]. apply Hon. by right.
      * intros r' s' (Hwf' & Hok' & Hcl' & Ho' & Hr'). split_and!; [done|done|by etrans| |done].
        intros t' Ht'. by rewrite Ho', Hoth.
  - wp_step. split_and!; try done.
    + intros t' Ht'. by apply lookup_delete_ne.
    + apply lookup_delete_eq.
Qed.

(** The buffers of a transaction's checkpoint lists. *)
Lemma cp_on_cp s t tr b : cp_ok s -> k_trans s !! t = Some tr -> b ∈ cp_bufs tr -> on_cp s t b.
Proof.
  intros Hok Htr Hb. destruct (cp_has_jh _ (cp_ok_lists _ Hok) t tr b Htr Hb) as (x & h & Hx).
  exists x, h. split; [done|]. by apply (cp_member _ (cp_ok_lists _ Hok) b x h t tr).
Qed.

Lemma cp_list_nodup s t tr : cp_ok s -> k_trans s !! t = Some tr ->
  NoDup (t_checkpoint_list tr) /\ NoDup (t_checkpoint_io_list tr).
Proof.
  intros Hok Htr. pose proof (cp_nodup _ (cp_ok_lists _ Hok) t tr Htr) as Hnd.
  unfold cp_bufs in Hnd. by apply NoDup_app in Hnd as (? & _ & ?).
Qed.

(** A walk over one of the two lists of [t]. *)
Lemma clean_list_spec resched destroy s t tr l :
  wf ext s -> cp_ok s -> k_trans s !! t = Some tr -> l = t_checkpoint_list tr \/ l = t_checkpoint_io_list tr ->
  wp (journal_clean_one_cp_list resched l destroy)
    (fun r s' => wf ext s' /\ cp_ok s' /\ cleaned destroy s s' /\
       (forall t', t' <> t -> k_trans s' !! t' = k_trans s !! t') /\
       if r : bool then k_trans s' !! t = None
       else exists tr', k_trans s' !! t = Some tr' /\
         (destroy = true -> (forall b, resched b = false) -> tr' = fold_left (fun tr b => tr_uncp b tr) l tr)) s.
Proof.
  intros Hwf Hok Htr Hl. destruct (cp_list_nodup s t tr Hok Htr).
  apply clean_one_spec; try done; [by destruct Hl as [-> | ->]|].
  intros b Hb. eapply cp_on_cp; try done. unfold cp_bufs. destruct Hl as [-> | ->]; set_solver.
Qed.

Lemma clean_transactions_spec resched resched_tr destroy ts : forall s,
  wf ext s -> cp_ok s -> NoDup ts -> (forall t, t ∈ ts -> is_Some (k_trans s !! t)) ->
  wp (clean_transactions resched resched_tr ts destroy)
    (fun _ s' => wf ext s' /\ cp_ok s' /\ cleaned destroy s s') s.
Proof.
  induction ts as [|t ts IH]; intros s Hwf Hok Hnd Hlive; cbn [clean_transactions]; [by wp_step|].
  apply NoDup_cons in Hnd as [Hnin Hnd]. destruct (Hlive t) as [tr Htr]; [by left|].
  wp_step. eapply wp_read_tr; [done|].
  wp_step. eapply wp_mono; [eapply clean_list_spec; try done; by left|].
  intros r s1 (Hwf1 & Hok1 & Hcl1 & Ho1 & Hr1).
  assert (forall t', t' ∈ ts -> is_Some (k_trans s1 !! t')) as Hlive1.
  { intros t' Ht'. rewrite Ho1 by (by intros ->). apply Hlive. by right. }
  destruct (resched_tr (t, false)); [by wp_step|].
  destruct r.
  - eapply wp_mono; [by apply IH|]. intros _ s' (? & ? & ?). split_and!; [done|done|by etrans].
  - destruct Hr1 as (tr1 & Htr1 & _). wp_step. eapply wp_read_tr; [done|].
    wp_step. eapply wp_mono; [eapply clean_list_spec; try done; by right|].
    intros r s2 (Hwf2 & Hok2 & Hcl2 & Ho2 & Hr2). assert (cleaned destroy s s2) by (by etrans).
    destruct (resched_tr (t, true)); [by wp_step|]. destruct r; cbn [negb]; [|by wp_step].
    eapply wp_mono; [apply IH; try done|].
    + intros t' Ht'. rewrite Ho2 by (by intros ->). auto.
    + intros _ s' (? & ? & ?). split_and!; [done|done|by etrans].
Qed.
End Cleaning.

(** ** Checking the invariant of a concrete state *)

#[export] Instance cp_idle_dec j t tr : Decision (cp_idle j t tr).
Proof. unfold cp_idle. apply _. Defined.

Definition jh_cpb (s : kstate) (b : bh_id) (x : buffer_head) : bool :=
  match b_private x with
  | None => true
  | Some h =>
    bool_decide (map_Forall (fun t tr => b ∈ cp_bufs tr <-> b_cp_transaction h = Some t) (k_trans s)) &&
    bool_decide (Forall (fun t => is_Some (k_trans s !! t)) (option_list (b_cp_transaction h))) &&
    bool_decide (Forall (fun t => b_transaction h <> Some t /\ b_next_transaction h <> Some t)
                   (j_checkpoint_transactions (k_journal s)))
  end.

Definition tr_cpb (s : kstate) (t : tr_id) (tr : transaction_t) : bool :=
  bool_decide (Forall (fun b => is_Some (jh_of s b)) (cp_bufs tr)) && bool_decide (NoDup (cp_bufs tr)) &&
  bool_decide (t ∈ j_checkpoint_transactions (k_journal s) <-> t_state tr = T_FINISHED) &&
  bool_decide (t_state tr = T_FINISHED -> cp_bufs tr <> [] /\ cp_idle (k_journal s) t tr).

Definition cp_okb (s : kstate) : bool :=
  bool_decide (map_Forall (fun b x => jh_cpb s b x = true) (k_bufs s)) &&
  bool_decide (map_Forall (fun t tr => tr_cpb s t tr = true) (k_trans s)) &&
  bool_decide (NoDup (j_checkpoint_transactions (k_journal s))) &&
  bool_decide (Forall (fun t => is_Some (k_trans s !! t)) (j_checkpoint_transactions (k_journal s))).

Lemma jh_cpb_sound s b x h : jh_cpb s b x = true -> b_private x = Some h ->
  (forall t tr, k_trans s !! t = Some tr -> (b ∈ cp_bufs tr <-> b_cp_transaction h = Some t)) /\
  (forall t, b_cp_transaction h = Some t -> is_Some (k_trans s !! t)) /\
  (forall t, t ∈ j_checkpoint_transactions (k_journal s) ->
     b_transaction h <> Some t /\ b_next_transaction h <> Some t).
Proof.
  unfold jh_cpb. intros Hc Hp. rewrite Hp in Hc. rewrite !andb_true_iff, !bool_decide_eq_true in Hc.
  destruct Hc as [[H1 H2] H3]. rewrite Forall_forall in H3. split_and!; [done| |done].
  intros t Ht. rewrite Ht in H2. by inversion H2.
Qed.

Lemma cp_okb_sound s : cp_okb s = true -> cp_ok s.
Proof.
  unfold cp_okb. rewrite !andb_true_iff, !bool_decide_eq_true. intros [[[Hb Ht] Hnd] Hq]. rewrite Forall_forall in Hq.
  assert (forall b x h, has_jh s b x h -> jh_cpb s b x = true /\ b_private x = Some h) as Hj
    by (intros b x h [Hx Hh]; split; [by apply (Hb b x)|done]).
  assert (forall t tr, k_trans s !! t = Some tr ->
    Forall (fun b => is_Some (jh_of s b)) (cp_bufs tr) /\ NoDup (cp_bufs tr) /\
    (t ∈ j_checkpoint_transactions (k_journal s) <-> t_state tr = T_FINISHED) /\
    (t_state tr = T_FINISHED -> cp_bufs tr <> [] /\ cp_idle (k_journal s) t tr)) as Htr.
  { intros t tr Htr. specialize (Ht t tr Htr). unfold tr_cpb in Ht.
    rewrite !andb_true_iff, !bool_decide_eq_true in Ht. by destruct Ht as [[[? ?] ?] ?]. }
  split; [split|done| | |].
  - intros b x h t tr Hx. destruct (Hj b x h Hx) as [Hc Hp]. apply (jh_cpb_sound s b x h Hc Hp).
  - intros t tr b Hl Hin. destruct (Htr t tr Hl) as (Hf & _). rewrite Forall_forall in Hf.
    destruct (Hf b Hin) as [h Hh]. unfold jh_of in Hh. destruct (k_bufs s !! b) as [x|] eqn:Hx; [|done]. by exists x, h.
  - intros b x h t Hx. destruct (Hj b x h Hx) as [Hc Hp]. apply (jh_cpb_sound s b x h Hc Hp).
  - intros t tr Hl. apply (Htr t tr Hl).
  - intros t tr Hl. apply (Htr t tr Hl).
  - intros t Hin. destruct (Hq t Hin) as [tr Hl]. exists tr. split; [done|].
    destruct (Htr t tr Hl) as (_ & _ & Hst & Hi). apply Hi, Hst, Hin.
  - intros t b x h Hin Hx. destruct (Hj b x h Hx) as [Hc Hp]. by apply (jh_cpb_sound s b x h Hc Hp).
Qed.

(** ** Properties *)

(** C22: Cleaning the checkpoint lists never gives up data that is not safe on
    disk: it keeps both invariants, and whatever rescheduling cuts it short,
    every buffer that is dirty, being written, failed to be written or part
    of a transaction again stays on its transaction, untouched, and that
    transaction stays on the journal's list, whose order does not change; no
    assertion fires and no freed memory is used. *)
Theorem clean_checkpoint_list_safe ext resched resched_tr s :
  (forall b, 0 <= ext b) -> wf ext s -> cp_ok s ->
  wp (__jbd2_vmsep_journal_clean_checkpoint_list resched resched_tr false)
    (fun _ s' => wf ext s' /\ cp_ok s' /\
       sublist (j_checkpoint_transactions (k_journal s')) (j_checkpoint_transactions (k_journal s)) /\
       forall t b x h, t ∈ j_checkpoint_transactions (k_journal s) -> has_jh s b x h ->
         b_cp_transaction h = Some t -> busy x h ->
         has_jh s' b x h /\ t ∈ j_checkpoint_transactions (k_journal s')) s.
Proof.
  intros Hext Hwf Hok. unfold __jbd2_vmsep_journal_clean_checkpoint_list. wp_step. wp_step.
  eapply wp_mono; [apply (clean_transactions_spec ext Hext); try done|].
  - apply Hok.
  - intros t Hin. destruct (cp_queued _ Hok t Hin) as (tr & Htr & _). by exists tr.
  - intros _ s' (Hwf' & Hok' & [Hb Ht Hq Hj]). split_and!; try done.
    intros t b x h Hin Hx Hcp Hbusy. assert (has_jh s' b x h) as Hx' by (by apply Hb). split; [done|].
    destruct (cp_live _ (cp_ok_lists _ Hok') b x h t Hx' Hcp) as [tr' Htr'].
    destruct (Ht t tr' Htr') as (tr & Htr & Hst & _). apply (cp_finished _ Hok' t tr' Htr').
    rewrite Hst. by apply (cp_finished _ Hok t tr Htr).
Qed.

(** Transaction 1 has a clean and a dirty buffer to write back, transaction 2
    a clean one. *)
Definition ex_cp (dirty : bool) (t : tr_id) (x : buffer_head) : buffer_head :=
  x <| buffer_dirty := dirty |> <| buffer_jbd := true |>
    <| b_private := Some (ex_jh 1 BJ_None None None (Some t)) |>.
Definition ex_finished (tid : tid_t) (start : Z) (cp io : list bh_id) : transaction_t :=
  zero_transaction <| t_tid := tid |> <| t_state := T_FINISHED |> <| t_log_start := start |>
    <| t_checkpoint_list := cp |> <| t_checkpoint_io_list := io |>.
Definition ex_checkpoint : kstate :=
  mk_kstate (ex_journal <| j_checkpoint_transactions := [2; 1]%positive |> <| j_tail_sequence := 4 |>)
    {[ 1%positive := ex_cp false 1 plain_buffer_head; 2%positive := ex_cp true 1 plain_buffer_head;
       3%positive := ex_cp false 2 plain_buffer_head ]}
    {[ 1%positive := ex_finished 5 8 [1; 2]%positive []; 2%positive := ex_finished 4 7 [] [3]%positive ]}.

Lemma ex_checkpoint_ok : wf (fun _ => 0) ex_checkpoint /\ cp_ok ex_checkpoint.
Proof. split; [apply wfb_sound|apply cp_okb_sound]; vm_compute; reflexivity. Qed.

Lemma clean_checkpoint_list_safe_witness :
  wp (__jbd2_vmsep_journal_clean_checkpoint_list (fun _ => false) (fun _ => false) false)
    (fun _ s' => cp_ok s' /\ 1%positive ∈ j_checkpoint_transactions (k_journal s')) ex_checkpoint /\
  wp (__jbd2_vmsep_journal_clean_checkpoint_list (fun _ => false) (fun _ => false) false)
    (fun _ s' => j_checkpoint_transactions (k_journal s') = [1]%positive) ex_checkpoint.
Proof.
  destruct ex_checkpoint_ok as [Hwf Hok]. split; [|vm_compute; reflexivity].
  eapply wp_mono; [apply (clean_checkpoint_list_safe (fun _ => 0)); [done|exact Hwf|exact Hok]|].
  intros _ s' (_ & Hok' & _ & Hkept). split; [done|].
  apply (Hkept 1%positive 2%positive (ex_cp true 1 plain_buffer_head) (ex_jh 1 BJ_None None None (Some 1%positive))).
  - cbn. set_solver.
  - done.
  - done.
  - right. right. left. done.
Defined.

(** ** Destroying the checkpoint lists *)

Lemma fold_uncp l : forall tr,
  let tr' := fold_left (fun tr b => tr_uncp b tr) l tr in
  (forall b, b ∈ t_checkpoint_list tr' <-> b ∈ t_checkpoint_list tr /\ b ∉ l) /\
  (forall b, b ∈ t_checkpoint_io_list tr' <-> b ∈ t_checkpoint_io_list tr /\ b ∉ l) /\
  t_state tr' = t_state tr.
Proof.
  induction l as [|y l IH]; intros tr; cbn [fold_left]; [split_and!; set_solver|].
  destruct (IH (tr_uncp y tr)) as (H1 & H2 & H3). split_and!; [| |done].
  - intros b. rewrite H1. cbn. rewrite elem_of_blist_del. set_solver.
  - intros b. rewrite H2. cbn. rewrite elem_of_blist_del. set_solver.
Qed.

Lemma elem_of_nil_all {A} (l : list A) : (forall a, a ∉ l) -> l = [].
Proof. destruct l as [|a l]; [done|]. intros H. destruct (H a). by left. Qed.

Section Destroy.
Context (ext : bh_id -> Z) (Hext : forall b, 0 <= ext b).
Context (resched : bh_id -> bool) (resched_tr : tr_id * bool -> bool).
Context (calm : forall b, resched b = false) (calm_tr : forall t, resched_tr t = false).

Lemma destroy_transactions ts : forall s,
  wf ext s -> cp_ok s -> NoDup ts -> (forall t, t ∈ ts -> t ∈ j_checkpoint_transactions (k_journal s)) ->
  wp (clean_transactions resched resched_tr ts true)
    (fun _ s' => wf ext s' /\ cp_ok s' /\ cleaned true s s' /\ forall t, t ∈ ts -> k_trans s' !! t = None) s.
Proof.
  induction ts as [|t ts IH]; intros s Hwf Hok Hnd Hq; cbn [clean_transactions].
  { wp_step. split_and!; try done. by intros ? ?%elem_of_nil. }
  apply NoDup_cons in Hnd as [Hnin Hnd]. assert (t ∈ j_checkpoint_transactions (k_journal s)) as Hin by (apply Hq; by left).
  destruct (cp_queued _ Hok t Hin) as (tr & Htr & _ & _). pose proof (proj1 (cp_finished _ Hok t tr Htr) Hin) as Hst.
  (** After a walk that freed [t] the others are still queued. *)
  assert (forall s1, wf ext s1 -> cp_ok s1 -> cleaned true s s1 ->
    (forall t', t' <> t -> k_trans s1 !! t' = k_trans s !! t') -> k_trans s1 !! t = None ->
    wp (clean_transactions resched resched_tr ts true)
      (fun _ s' => wf ext s' /\ cp_ok s' /\ cleaned true s s' /\ forall t', t' ∈ t :: ts -> k_trans s' !! t' = None) s1) as Hgo.
  { intros s1 Hwf1 Hok1 Hcl1 Ho1 Hn1. eapply wp_mono; [apply IH; try done|].
    - intros t' Ht'. assert (t' <> t) as Hne by (by intros ->).
      destruct (cp_queued _ Hok t') as (tr' & Htr' & _); [apply Hq; by right|].
      rewrite <- (Ho1 t' Hne) in Htr'. apply (cp_finished _ Hok1 t' tr' Htr').
      destruct (cl_trans _ _ _ Hcl1 t' tr' Htr') as (tr0 & Htr0 & -> & _).
      apply (cp_finished _ Hok t' tr0 Htr0). apply Hq. by right.
    - intros _ s' (Hwf' & Hok' & Hcl' & Hn'). split_and!; [done|done|by etrans|].
      intros t' [->|Ht']%elem_of_cons; [|by apply Hn'].
      destruct (k_trans s' !! t) as [tr'|] eqn:E; [|done].
      destruct (cl_trans _ _ _ Hcl' t tr' E) as (? & ? & _). congruence. }
  wp_step. eapply wp_read_tr; [done|].
  wp_step. eapply wp_mono; [eapply (clean_list_spec ext Hext); try done; by left|].
  intros r s1 (Hwf1 & Hok1 & Hcl1 & Ho1 & Hr1). rewrite calm_tr. destruct r; [by apply Hgo|].
  destruct Hr1 as (tr1 & Htr1 & He1). specialize (He1 eq_refl calm).
  wp_step. eapply wp_read_tr; [done|].
  wp_step. eapply wp_mono; [eapply (clean_list_spec ext Hext); try done; by right|].
  intros r s2 (Hwf2 & Hok2 & Hcl2 & Ho2 & Hr2). rewrite calm_tr. destruct r; cbn [negb].
  - apply Hgo; try done; [by etrans|]. intros t' Ht'. by rewrite Ho2, Ho1.
  - exfalso. destruct Hr2 as (tr2 & Htr2 & He2). specialize (He2 eq_refl calm).
    destruct (fold_uncp (t_checkpoint_list tr) tr) as (Ha1 & Hb1 & Hs1). rewrite <- He1 in *.
    destruct (fold_uncp (t_checkpoint_io_list tr1) tr1) as (Ha2 & Hb2 & Hs2). rewrite <- He2 in *.
    assert (cp_bufs tr2 = []) as Hnil.
    { apply cp_bufs_nil. split; apply elem_of_nil_all; intros b Hb.
      - apply Ha2 in Hb as [Hb _]. apply Ha1 in Hb as [? ?]. done.
      - apply Hb2 in Hb as [? ?]. done. }
    assert (t ∈ j_checkpoint_transactions (k_journal s2)) as Hin2
      by (apply (cp_finished _ Hok2 t tr2 Htr2); congruence).
    destruct (cp_queued _ Hok2 t Hin2) as (tr2' & Htr2' & Hne & _). congruence.
Qed.
End Destroy.

(** C27: [jbd2_vmsep_journal_destroy_checkpoint] ends and releases everything:
    as soon as one of its rounds is not cut short by rescheduling, it returns
    with no transaction left on the journal's list and no journal head left
    on a checkpoint list of a finished transaction, both invariants intact; whatever
    happened in the rounds before. *)
Theorem destroy_checkpoint_empties ext rounds s :
  (forall b, 0 <= ext b) -> wf ext s -> cp_ok s ->
  Exists (fun '(r, rt) => (forall b, r b = false) /\ (forall t, rt t = false)) rounds ->
  wp (jbd2_vmsep_journal_destroy_checkpoint rounds)
    (fun r s' => r = Some tt /\ wf ext s' /\ cp_ok s' /\ j_checkpoint_transactions (k_journal s') = [] /\
       forall b x h t tr, has_jh s' b x h -> b_cp_transaction h = Some t -> k_trans s' !! t = Some tr ->
         t_state tr <> T_FINISHED) s.
Proof.
  intros Hext Hwf Hok Hex. revert s Hwf Hok.
  assert (forall s rounds, wf ext s -> cp_ok s -> j_checkpoint_transactions (k_journal s) = [] ->
    wp (jbd2_vmsep_journal_destroy_checkpoint rounds)
      (fun r s' => r = Some tt /\ wf ext s' /\ cp_ok s' /\ j_checkpoint_transactions (k_journal s') = [] /\
       forall b x h t tr, has_jh s' b x h -> b_cp_transaction h = Some t -> k_trans s' !! t = Some tr ->
         t_state tr <> T_FINISHED) s) as Hend.
  { intros s rs Hwf Hok Hnil. destruct rs; cbn [jbd2_vmsep_journal_destroy_checkpoint]; wp_step; wp_step; rewrite Hnil;
      wp_step; (split_and!; [done..|]); intros b x h t tr _ _ Htr Hst;
      apply (cp_finished _ Hok t tr Htr) in Hst; rewrite Hnil in Hst; by apply elem_of_nil in Hst. }
  assert (forall s t, cp_ok s -> t ∈ j_checkpoint_transactions (k_journal s) -> is_Some (k_trans s !! t)) as Hlive
    by (intros s t Hok Hin; destruct (cp_queued _ Hok t Hin) as (tr & ? & _); by exists tr).
  induction Hex as [[r rt] rs [Hr Hrt]|[r rt] rs Hex IH]; intros s Hwf Hok;
    (destruct (j_checkpoint_transactions (k_journal s)) as [|t0 ts] eqn:Eq; [by apply Hend|]);
    cbn [jbd2_vmsep_journal_destroy_checkpoint]; wp_step; wp_step; rewrite Eq;
    unfold __jbd2_vmsep_journal_clean_checkpoint_list; wp_step; wp_step; wp_step.
  - eapply wp_mono; [apply (destroy_transactions ext Hext r rt Hr Hrt); [done|done|apply Hok|done]|].
    intros _ s' (Hwf' & Hok' & Hcl & Hn). apply Hend; [done|done|]. apply elem_of_nil_all. intros t Hin.
    destruct (Hlive s' t Hok' Hin) as [tr Htr]. rewrite Hn in Htr; [done|].
    eapply elem_of_sublist; [done|]. apply Hcl.
  - eapply wp_mono; [apply (clean_transactions_spec ext Hext); [done|done|apply Hok|by auto]|].
    intros _ s' (Hwf' & Hok' & _). by apply IH.
Qed.

Lemma destroy_checkpoint_empties_witness :
  wp (jbd2_vmsep_journal_destroy_checkpoint
        [(fun _ => true, fun _ => true); (fun _ => false, fun _ => false)])
    (fun r s' => r = Some tt /\ j_checkpoint_transactions (k_journal s') = []) ex_checkpoint.
Proof.
  destruct ex_checkpoint_ok as [Hwf Hok].
  eapply wp_mono; [apply (destroy_checkpoint_empties (fun _ => 0)); [done|exact Hwf|exact Hok|]|].
  - apply Exists_cons_tl, Exists_cons_hd. by split.
  - intros r s' (Hr & _ & _ & Hq & _). by split.
Defined.

(** ** Moving the tail of the log *)

(** Moving the tail keeps every transaction that is still on the checkpoint
    list: if the log is [l1 ++ l2], where [l2] starts with the first block of the oldest
    transaction of the list, the log afterwards is [l2], and not before the
    superblock on the device says so, when that transaction is newer than
    the one of the tail; when it is not, the journal is aborted, or the
    superblock cannot be written, no block of the log is given up and the result says so. *)
Theorem cleanup_tail_keeps_transactions submit_sb jiffies s t ts tr l1 l2 :
  log_ok (k_journal s) -> 1 <= j_first (k_journal s) -> running_live s ->
  j_checkpoint_transactions (k_journal s) = t :: ts -> k_trans s !! t = Some tr ->
  log_blocks (k_journal s) = l1 ++ l2 -> head l2 = Some (t_log_start tr) ->
  let moved := tid_gt (t_tid tr) (j_tail_sequence (k_journal s)) in
  wp (jbd2_vmsep_cleanup_journal_tail submit_sb jiffies)
    (fun r s' => log_ok (k_journal s') /\
       if JBD2_ABORT (k_journal s) then r = - EIO /\ s' = s
       else if negb moved then r = 1 /\ s' = s
       else r = submit_sb ((k_journal s) <| s_sequence := t_tid tr |> <| s_start := u32 (t_log_start tr) |>) /\
         if r =? 0
         then log_blocks (k_journal s') = l2 /\ disk_s_start (k_journal s') = t_log_start tr /\
              disk_s_sequence (k_journal s') = t_tid tr /\ j_tail_sequence (k_journal s') = t_tid tr
         else log_blocks (k_journal s') = l1 ++ l2 /\ JBD2_ABORT (k_journal s') = true) s.
Proof.
  intros Hok Hfirst Hlive Hq Htr Hbl Hhd moved. unfold jbd2_vmsep_cleanup_journal_tail.
  eapply wp_exec; [done|]. destruct (JBD2_ABORT (k_journal s)) eqn:Ha; [by wp_step|].
  assert (jbd2_vmsep_journal_get_log_tail s = Ret ((moved, t_tid tr, t_log_start tr), s)) as Htail.
  { unfold jbd2_vmsep_journal_get_log_tail, kbind, read_journal. rewrite Hq. unfold read_tr. by rewrite Htr. }
  eapply wp_exec; [exact Htail|]. destruct moved; cbn [negb]; [|by wp_step].
  wp_step. wp_step.
  { destruct (log_split_pos _ _ _ Hok Hbl) as [_ Hp]. rewrite Hhd in Hp. cbn in Hp.
    pose proof (log_pos_range _ (Z.of_nat (length l1)) Hok). apply negb_true_iff, Z.eqb_neq. lia. }
  pose proof (update_log_tail_spec submit_sb jiffies (t_tid tr) l1 l2 s Hok Hlive Hbl) as Hup.
  rewrite Hhd in Hup. cbn [default] in Hup. eapply wp_mono; [exact Hup|].
  intros r s' (Hr & [(-> & Hok' & Hb & _ & Hseq & Hst & Hts)|(Hne & Hok' & Hb & _ & Ha')]).
  - done.
  - rewrite (proj2 (Z.eqb_neq _ _) Hne). done.
Qed.

Lemma cleanup_tail_keeps_transactions_witness :
  wp (jbd2_vmsep_cleanup_journal_tail (fun _ => 0) 0)
    (fun r s' => log_blocks (k_journal s') = [8; 1])
    (mk_kstate (ex_journal <| j_checkpoint_transactions := [1]%positive |>) ∅ {[ 1%positive := ex_finished 5 8 [1]%positive [] ]}).
Proof.
  eapply wp_mono; [apply (cleanup_tail_keeps_transactions (fun _ => 0) 0 _ 1%positive [] (ex_finished 5 8 [1]%positive []) [7] [8; 1])|].
  - apply log_okb_sound. reflexivity.
  - done.
  - by intros t [=].
  - reflexivity.
  - reflexivity.
  - reflexivity.
  - reflexivity.
  - intros r s' [_ Hr]. vm_compute in Hr. destruct r; [|by destruct Hr..]. by destruct Hr as (_ & Hb & _).
Defined.

(** ** Entering a checkpoint list *)

Section Insert.
Context (s : kstate) (b : bh_id) (x : buffer_head) (h : journal_head) (t : tr_id) (tr : transaction_t).
Context (Hx : has_jh s b x h) (Hcp : b_cp_transaction h = None) (Htr : k_trans s !! t = Some tr).

Definition jh_cp : journal_head := h <| b_jcount ::= Z.succ |> <| b_cp_transaction := Some t |>.
Definition tr_cp : transaction_t := tr <| t_checkpoint_list ::= cons b |>.
Definition cp_state : kstate :=
  mk_kstate (k_journal s) (<[b := x <| b_private := Some jh_cp |>]> (k_bufs s)) (<[t := tr_cp]> (k_trans s)).

Lemma cp_state_wf ext : wf ext s -> wf ext cp_state.
Proof.
  intros Hwf. destruct Hx as [Hb Hh].
  assert (wf ext (mk_kstate (k_journal s) (k_bufs s) (<[t := tr_cp]> (k_trans s)))) as Hwf1
    by (eapply wf_set_credits; [done|done|by intros []|done]).
  destruct (wf_jh _ _ b x h Hwf1 Hb Hh) as [Hjbd Hj1].
  eapply (wf_set_bh _ _ _ _ _ _ Hwf1); [done|]. split; [done|]. cbn [b_private field_update].
  destruct Hj1. rewrite Hcp in *. split; auto; unfold jh_cp; cbn in *; lia.
Qed.

Lemma cp_state_jh y xy hy :
  has_jh cp_state y xy hy -> y = b /\ hy = jh_cp \/ y <> b /\ has_jh s y xy hy.
Proof.
  intros [Hy Hp]. unfold cp_state in Hy. kst. destruct (decide (b = y)) as [<-|Hne].
  - left. rewrite lookup_insert_eq in Hy. injection Hy as <-. by injection Hp as <-.
  - right. rewrite lookup_insert_ne in Hy by done. by split.
Qed.

Lemma cp_state_tr t2 tr2 :
  k_trans cp_state !! t2 = Some tr2 -> t2 = t /\ tr2 = tr_cp \/ t2 <> t /\ k_trans s !! t2 = Some tr2.
Proof. unfold cp_state. kst. intros [[<- <-]|[? ?]]%lookup_insert_Some; [by left|by right]. Qed.

Lemma cp_bufs_cp : cp_bufs tr_cp = b :: cp_bufs tr.
Proof. done. Qed.

Lemma cp_state_lists : cp_lists s -> cp_lists cp_state.
Proof.
  intros Hl. split.
  - intros y xy hy t2 tr2 [(-> & ->)|(Hny & Hy)]%cp_state_jh [(-> & ->)|(Hnt & Ht2)]%cp_state_tr.
    + rewrite cp_bufs_cp. split; [done|]. intros _. by left.
    + split; [|intros [= ->]; done]. intros Hin. apply (cp_member _ Hl b x h t2 tr2 Hx Ht2) in Hin. congruence.
    + rewrite cp_bufs_cp, elem_of_cons, (cp_member _ Hl y xy hy t tr Hy Htr). naive_solver.
    + by apply (cp_member _ Hl y xy hy).
  - intros t2 tr2 y Ht2 Hin. unfold cp_state. destruct (decide (b = y)) as [<-|Hne].
    { exists (x <| b_private := Some jh_cp |>), jh_cp. split; [by cbn; rewrite lookup_insert_eq|done]. }
    assert (exists xy hy, has_jh s y xy hy) as (xy & hy & Hy & Hp).
    { destruct (cp_state_tr _ _ Ht2) as [(-> & ->)|(_ & Ht2')]; [|by eapply cp_has_jh].
      rewrite cp_bufs_cp in Hin. apply elem_of_cons in Hin as [?|Hin]; [done|]. by eapply cp_has_jh. }
    exists xy, hy. split; [cbn; by rewrite lookup_insert_ne|done].
  - intros y xy hy t2 [(-> & ->)|(Hny & Hy)]%cp_state_jh Hc; unfold cp_state; kst; apply lookup_insert_is_Some'.
    + left. cbn in Hc. congruence.
    + right. by eapply cp_live.
  - intros t2 tr2 [(-> & ->)|(_ & Ht2)]%cp_state_tr; [|by eapply cp_nodup].
    rewrite cp_bufs_cp. apply NoDup_cons. split; [|by eapply cp_nodup].
    intros Hin. apply (cp_member _ Hl b x h t tr Hx Htr) in Hin. congruence.
Qed.

Lemma cp_state_ok : cp_ok s -> cp_ok cp_state.
Proof.
  intros Hok. split; [apply cp_state_lists, Hok|apply Hok| | |].
  - intros t2 tr2 [(-> & ->)|(_ & Ht2)]%cp_state_tr; [exact (cp_finished _ Hok t tr Htr)|exact (cp_finished _ Hok t2 tr2 Ht2)].
  - intros t2 Hin. destruct (cp_queued _ Hok t2 Hin) as (tr2 & Ht2 & Hne & Hi). unfold cp_state. kst.
    destruct (decide (t = t2)) as [<-|Hnt].
    + exists tr_cp. rewrite lookup_insert_eq, cp_bufs_cp. replace tr2 with tr in Hi by congruence. done.
    + exists tr2. by rewrite lookup_insert_ne.
  - intros t2 y xy hy Hin [(-> & ->)|(_ & Hy)]%cp_state_jh; [exact (cp_unref _ Hok t2 b x h Hin Hx)|by eapply cp_unref].
Qed.
End Insert.

(** A committed buffer that is still to be written back enters the
    checkpoint list of its transaction at the front: it now holds the
    transaction in the log, its journal head counts one more reference, the
    rest of the state is as before and both invariants hold again. *)
Theorem insert_checkpoint_holds ext s b x h t tr :
  wf ext s -> cp_ok s -> has_jh s b x h -> b_cp_transaction h = None ->
  buffer_dirty x = true \/ buffer_jbddirty x = true -> k_trans s !! t = Some tr ->
  wp (__jbd2_vmsep_journal_insert_checkpoint b t)
    (fun _ s' => wf ext s' /\ cp_ok s' /\ k_journal s' = k_journal s /\
       k_trans s' = <[t := tr <| t_checkpoint_list ::= cons b |>]> (k_trans s) /\
       k_bufs s' = <[b := x <| b_private := Some (h <| b_jcount ::= Z.succ |> <| b_cp_transaction := Some t |>) |>]> (k_bufs s)) s.
Proof.
  intros Hwf Hok Hx Hcp Hdirty Htr. pose proof Hx as [Hb Hh].
  destruct (wf_jh _ _ _ _ _ Hwf Hb Hh) as [Hjbd _].
  unfold __jbd2_vmsep_journal_insert_checkpoint, jbd2_vmsep_journal_grab_journal_head.
  wp_step. eapply wp_read_bh; [exact Hb|]. wp_step. apply wp_assert; [by rewrite orb_true_iff|].
  wp_step. eapply wp_read_jh; [exact Hb|exact Hh|]. wp_step. apply wp_assert; [by rewrite Hcp|].
  wp_step. wp_step. eapply wp_read_bh; [exact Hb|]. rewrite Hjbd. wp_step. eapply wp_modify_jh; [exact Hb|exact Hh|].
  wp_step. wp_step. eapply wp_modify_jh; [cbn; by rewrite lookup_insert_eq|done|].
  eapply wp_modify_tr; [exact Htr|]. kst. rewrite insert_insert_eq.
  change (mk_kstate _ _ _) with (cp_state s b x h t tr).
  split_and!; [by apply cp_state_wf|by apply cp_state_ok|done..].
Qed.

Example insert_checkpoint_third :
  wp (__jbd2_vmsep_journal_insert_checkpoint 4 1)
    (fun _ s' => cp_ok s' /\ exists tr, k_trans s' !! 1%positive = Some tr /\ cp_bufs tr = [4; 1; 2]%positive)
    (ex_checkpoint <| k_bufs ::= <[4%positive := (ex_cp true 1 plain_buffer_head)
       <| b_private := Some (ex_jh 1 BJ_None None None None) |>]> |>).
Proof.
  eapply wp_mono; [eapply (insert_checkpoint_holds (fun b => if bool_decide (b = 4%positive) then 1 else 0))|].
  - apply wfb_sound. vm_compute. reflexivity.
  - apply cp_okb_sound. vm_compute. reflexivity.
  - by split.
  - done.
  - by left.
  - reflexivity.
  - intros _ s' (_ & Hok & _ & Htr & _). split; [done|]. rewrite Htr. eexists. split; reflexivity.
Qed.
