(* ===== verification/CommitEnd.v ===== *)
(** * The end of a commit

    [jbd2_vmsep_journal_commit_transaction] of kernel/fs/jbd2/commit.c after the
    metadata loop (Commit.v): waiting for the blocks of the log, the commit
    record, the move of the tail, the processing of the forget list, which puts every
    logged buffer on the checkpoint list of the transaction, and the
    end of the transaction; with [journal_submit_commit_record],
    [journal_wait_on_commit_record] and [release_buffer_page].

    The outcome of the I/O is a parameter: [io_ok blk] says whether the write of
    log block [blk] succeeds.  A temporary buffer that was never submitted is not up
    to date and its I/O never ends the shadow state of the original.  The
    forget list is processed without interference of other tasks; the callback of
    the file system and the statistics are left out. *)
From S2P Require Import Prelude Tid State Blist JournalHead Filing Log Handle Commit Checkpoint.

Section CommitEnd.
Context (submit_sb : journal_t -> Z) (jiffies : Z) (j_inode : option (Z -> Z)).
Context (io_ok : Z -> bool).

(** ** Waiting for the log *)

(** [journal_end_buffer_io_sync] for the buffer a temporary one shadows. *)
Definition journal_end_buffer_io_sync (b : bh_id) : K kstate unit :=
  modify_bh b (fun x => x <| buffer_shadow := false |>).

(** Phase 3, for the temporary buffer of log block [e.2] that shadows [e.1]:
    the error so far, and the last buffer of the shadow list goes to the forget list. *)
Definition wait_io_buf (ct : tr_id) (submitted : list Z) (e : bh_id * Z) (err : Z) : K kstate Z :=
  let written := bool_decide (e.2 ∈ submitted) in
  (if written then journal_end_buffer_io_sync e.1 else kret tt) ;;;
  let err := if written && io_ok e.2 then err else - EIO in
  tr <- read_tr ct ;;
  match last (t_shadow_list tr) with
  | None => kfault Oops
  | Some b =>
    modify_bh b (fun x => x <| buffer_jwrite := false |>) ;;;
    x <- read_bh b ;;
    j_assert (buffer_jbddirty x) ;;;
    j_assert (negb (buffer_shadow x)) ;;;
    jbd2_vmsep_journal_file_buffer b ct BJ_Forget ;;;
    __brelse b ;;;
    kret err
  end.

(** [io_bufs] is emptied from its tail: [l] is the list reversed. *)
Fixpoint wait_io_bufs (ct : tr_id) (submitted : list Z) (l : list (bh_id * Z)) (err : Z) : K kstate Z :=
  match l with
  | [] =>
    tr <- read_tr ct ;;
    j_assert (bool_decide (t_shadow_list tr = [])) ;;;
    kret err
  | e :: l => err <- wait_io_buf ct submitted e err ;; wait_io_bufs ct submitted l err
  end.

(** Phase 4: the descriptor and revoke blocks.  A block that was not
    submitted is up to date. *)
Definition wait_log_bufs (submitted log_bufs : list Z) (err : Z) : Z :=
  if forallb (fun blk => negb (bool_decide (blk ∈ submitted)) || io_ok blk) log_bufs then err else - EIO.

(** ** The commit record *)

(** The error and the block of the record, if one is written; [ret] is the result of
    [submit_bh]. *)
Definition journal_submit_commit_record (ret : Z) : K kstate (Z * option Z) :=
  aborted <- is_journal_aborted ;;
  if aborted : bool then kret (0, None)
  else
    bh <- get_descriptor submit_sb jiffies j_inode ;;
    match bh with
    | None => kret (1, None)
    | Some blk => kret (ret, Some blk)
    end.

Definition journal_wait_on_commit_record (blk : Z) : Z := if io_ok blk then 0 else - EIO.

(** Submitting it, with the abort when that fails. *)
Definition submit_record (ret : Z) : K kstate (Z * option Z) :=
  r <- journal_submit_commit_record ret ;;
  (if r.1 =? 0 then kret tt else __jbd2_vmsep_journal_abort_hard jiffies) ;;;
  kret r.

(** What is left in the local variables: the block of the commit record, if one was submitted, and the
    result of the superblock write that moves the tail, 0 if the tail stays. *)
Record sealed := mk_sealed { cbh : option Z; tail_err : Z }.

(** Phases 3 to 5, [async]: [jbd2_has_feature_async_commit]; [tail]: the result of
    [commit_publish_next]. *)
Definition commit_write_record (async : bool) (ret : Z) (ct : tr_id) (submitted : list Z) (io_bufs : list (bh_id * Z))
    (log_bufs : list Z) (tail : bool * tid_t * Z) : K kstate sealed :=
  early <- (if async then submit_record ret else kret (0, None)) ;;
  err <- wait_io_bufs ct submitted (reverse io_bufs) early.1 ;;
  let err := wait_log_bufs submitted log_bufs err in
  (if err =? 0 then kret tt else jbd2_vmsep_journal_abort submit_sb jiffies err) ;;;
  tr <- read_tr ct ;;
  j_assert (bool_decide (t_state tr = T_COMMIT_DFLUSH)) ;;;
  modify_tr ct (fun tr => tr <| t_state := T_COMMIT_JFLUSH |>) ;;;
  r <- (if async then kret (err, early.2) else submit_record ret) ;;
  let err := match r.2 with Some blk => journal_wait_on_commit_record blk | None => r.1 end in
  (if err =? 0 then kret tt else jbd2_vmsep_journal_abort submit_sb jiffies err) ;;;
  let '(update_tail, first_tid, first_block) := tail in
  terr <- (if update_tail : bool then jbd2_vmsep_update_log_tail submit_sb jiffies first_tid first_block else kret 0) ;;
  kret (mk_sealed r.2 terr).

(** ** The forget list *)

(** [page_free b]: the buffer has a page without mapping that can be locked;
    [free_page] is [try_to_free_buffers] on it. *)
Context (page_free : bh_id -> bool) (free_page : bh_id -> K kstate unit).

Definition release_buffer_page (b : bh_id) : K kstate unit :=
  x <- read_bh b ;;
  if negb (buffer_dirty x) && (b_count x =? 1) && negb (b_page_mapping x) && page_free b
  then __brelse b ;;; free_page b
  else __brelse b.

(** The copies made for the commit: the frozen contents become the committed
    ones of a buffer with undo protection. *)
Definition drop_copies (h : journal_head) : journal_head :=
  h <| b_committed_data := match b_committed_data h with Some _ => b_frozen_data h | None => None end |>
    <| b_frozen_data := None |>.

(** A buffer freed while it was journalled: unless the running transaction
    still has it, nothing of it is left to write. *)
Definition invalidate_freed (b : bh_id) : K kstate unit :=
  x <- read_bh b ;;
  if negb (buffer_freed x) then kret tt
  else
    modify_jh b (fun h => h <| b_modified := false |>) ;;;
    h <- read_jh b ;;
    if bool_decide (is_Some (b_next_transaction h)) then kret tt
    else modify_bh b (fun x => x <| buffer_freed := false |> <| buffer_jbddirty := false |>
                                 <| buffer_mapped := false |> <| buffer_new := false |>
                                 <| buffer_req := false |> <| b_bdev := false |>).

(** A buffer that is still to be written back keeps the transaction in the log;
    whether the page may be freed. *)
Definition checkpoint_dirty (ct : tr_id) (b : bh_id) : K kstate bool :=
  x <- read_bh b ;;
  if buffer_jbddirty x
  then
    __jbd2_vmsep_journal_insert_checkpoint b ct ;;;
    aborted <- is_journal_aborted ;;
    (if aborted : bool then clear_buffer_jbddirty b else kret tt) ;;;
    kret false
  else
    j_assert (negb (buffer_dirty x)) ;;;
    h <- read_jh b ;;
    kret (bool_decide (b_next_transaction h = None)).

(** The buffer's copies and its place on an older checkpoint list are
    no longer needed. *)
Definition forget_prepare (ct : tr_id) (b : bh_id) : K kstate unit :=
  get_bh b ;;;
  h <- read_jh b ;;
  j_assert (bool_decide (b_transaction h = Some ct)) ;;;
  modify_jh b drop_copies ;;;
  if bool_decide (is_Some (b_cp_transaction h))
  then __jbd2_vmsep_journal_remove_checkpoint b ;;; kret tt else kret tt.

Definition forget_step (ct : tr_id) (b : bh_id) : K kstate unit :=
  forget_prepare ct b ;;;
  invalidate_freed b ;;;
  try_to_free <- checkpoint_dirty ct b ;;
  __jbd2_vmsep_journal_refile_buffer b ;;;
  if try_to_free : bool then release_buffer_page b else __brelse b.

Fixpoint forget_loop (fuel : nat) (ct : tr_id) : K kstate (option unit) :=
  tr <- read_tr ct ;;
  match t_forget tr, fuel with
  | [], _ => kret (Some tt)
  | _ :: _, O => kret None
  | b :: _, S fuel => forget_step ct b ;;; forget_loop fuel ct
  end.

(** ** The end of the transaction *)

(** Onto the tail of the journal's list of transactions to checkpoint, and no
    longer the committing one. *)
Definition commit_finish (ct : tr_id) : K kstate unit :=
  modify_journal (fun j => j <| j_checkpoint_transactions ::= fun l => l ++ [ct] |>) ;;;
  tr <- read_tr ct ;;
  j_assert (bool_decide (t_state tr = T_COMMIT_JFLUSH)) ;;;
  modify_tr ct (fun tr => tr <| t_state := T_COMMIT_CALLBACK |>) ;;;
  j <- read_journal ;;
  j_assert (bool_decide (j_committing_transaction j = Some ct)) ;;;
  modify_journal (fun j => j <| j_commit_sequence := t_tid tr |> <| j_committing_transaction := None |>) ;;;
  modify_tr ct (fun tr => tr <| t_state := T_FINISHED |>) ;;;
  tr <- read_tr ct ;;
  if bool_decide (t_checkpoint_list tr = []) && bool_decide (t_checkpoint_io_list tr = [])
  then __jbd2_vmsep_journal_drop_transaction ct ;;; jbd2_vmsep_journal_free_transaction ct
  else kret tt.

(** Phases 6 and 7; the assertion on [t_inode_list] is in [commit_after_loop] of CommitTransaction.v, where the inodes are. *)
Definition commit_checkpoint (fuel : nat) (ct : tr_id) : K kstate (option unit) :=
  tr <- read_tr ct ;;
  j_assert (bool_decide (t_buffers tr = [])) ;;;
  j_assert (bool_decide (t_checkpoint_list tr = [])) ;;;
  j_assert (bool_decide (t_shadow_list tr = [])) ;;;
  r <- forget_loop fuel ct ;;
  match r with
  | None => kret None
  | Some _ => commit_finish ct ;;; kret (Some tt)
  end.
End CommitEnd.

(** ** The forget list keeps both invariants *)

Lemma filter_true_ext {A} (f g : A -> bool) (l : list A) :
  (forall a, a ∈ l -> f a = g a) -> filter (fun a => f a = true) l = filter (fun a => g a = true) l.
Proof.
  induction l as [|a l IH]; intros H; [done|]. rewrite !filter_cons, H by (by left).
  rewrite IH by (intros; apply H; by right). done.
Qed.

(** A step that changes one buffer and lists other than the checkpoint lists
    keeps the checkpoint invariant. *)
Lemma cp_ok_step s j b x h x' trs' :
  cp_ok s -> has_jh s b x h ->
  j_checkpoint_transactions j = j_checkpoint_transactions (k_journal s) ->
  j_committing_transaction j = j_committing_transaction (k_journal s) ->
  j_running_transaction j = j_running_transaction (k_journal s) ->
  (forall h', b_private x' = Some h' -> b_cp_transaction h' = b_cp_transaction h /\
     forall t, t ∈ j_checkpoint_transactions (k_journal s) -> b_transaction h' <> Some t /\ b_next_transaction h' <> Some t) ->
  (b_private x' = None -> b_cp_transaction h = None) ->
  (forall t, t ∈ j_checkpoint_transactions (k_journal s) -> trs' !! t = k_trans s !! t) ->
  (forall t tr', trs' !! t = Some tr' ->
     exists tr, k_trans s !! t = Some tr /\ cp_bufs tr' = cp_bufs tr /\ t_state tr' = t_state tr) ->
  (forall t, is_Some (k_trans s !! t) -> is_Some (trs' !! t)) ->
  cp_ok (mk_kstate j (<[b := x']> (k_bufs s)) trs').
Proof.
  intros Hok Hx Hq Hjc Hjr Hh' Hnone Htq Htr Hlive.
  assert (forall y xy hy, has_jh (mk_kstate j (<[b := x']> (k_bufs s)) trs') y xy hy ->
    exists xy0 hy0, has_jh s y xy0 hy0 /\ b_cp_transaction hy = b_cp_transaction hy0 /\
      forall t, t ∈ j_checkpoint_transactions (k_journal s) -> b_transaction hy <> Some t /\ b_next_transaction hy <> Some t) as Hjh.
  { intros y xy hy [Hy Hp]. kst. apply lookup_insert_Some in Hy as [[<- <-]|[Hne Hy]].
    - destruct (Hh' hy Hp) as [? ?]. exists x, h. by split_and!.
    - exists xy, hy. split; [by split|]. split; [done|]. intros t Ht. by apply (cp_unref _ Hok t y xy hy). }
  destruct (cp_ok_lists _ Hok) as [Hm Hhj Hl Hnd]. split; [split| | | |]; kst; rewrite ?Hq, ?Hjc, ?Hjr.
  - intros y xy hy t tr' (xy0 & hy0 & Hy & -> & _)%Hjh (tr & Ht & -> & _)%Htr. by apply (Hm y xy0 hy0 t tr).
  - intros t tr' y (tr & Ht & Hc & _)%Htr Hin. rewrite Hc in Hin. destruct (Hhj t tr y Ht Hin) as (xy & hy & Hy).
    destruct (decide (b = y)) as [<-|Hne].
    + destruct (b_private x') as [h'|] eqn:Hp.
      * exists x', h'. split; [cbn; by rewrite lookup_insert_eq|done].
      * apply (Hm b x h t tr Hx Ht) in Hin. rewrite (Hnone eq_refl) in Hin. done.
    + exists xy, hy. split; [cbn; rewrite lookup_insert_ne by done|]; apply Hy.
  - intros y xy hy t (xy0 & hy0 & Hy & -> & _)%Hjh Hc. apply Hlive. by eapply Hl.
  - intros t tr' (tr & Ht & -> & _)%Htr. by eapply Hnd.
  - apply Hok.
  - intros t tr' (tr & Ht & _ & ->)%Htr. by apply (cp_finished _ Hok).
  - intros t Hin. destruct (cp_queued _ Hok t Hin) as (tr & Ht & Hne & Hi). exists tr. rewrite Htq by done.
    unfold cp_idle in *. rewrite Hjc, Hjr. done.
  - intros t y xy hy Hin (_ & _ & _ & _ & Hun)%Hjh. by apply Hun.
Qed.

Section Ending.
Context (ext : bh_id -> Z) (Hext : forall b, 0 <= ext b) (ct rt : tr_id).

(** The committing transaction: [fg] left on the forget list, [cpl] to be
    checkpointed. *)
Record ct_shape (fg cpl : list bh_id) (tr : transaction_t) : Prop := {
  sh_state : t_state tr = T_COMMIT_JFLUSH;
  sh_buffers : t_buffers tr = [];
  sh_shadow : t_shadow_list tr = [];
  sh_reserved : t_reserved_list tr = [];
  sh_forget : t_forget tr = fg;
  sh_cp : t_checkpoint_list tr = cpl;
  sh_io : t_checkpoint_io_list tr = [];
  sh_updates : t_updates tr = 0;
}.

Record live_pair (fg cpl : list bh_id) (s : kstate) : Prop := {
  lp_wf : wf ext s;
  lp_cp : cp_ok s;
  lp_ct : exists tr, k_trans s !! ct = Some tr /\ ct_shape fg cpl tr;
  lp_rt : exists tr, k_trans s !! rt = Some tr /\ t_state tr = T_RUNNING;
  lp_ne : ct <> rt;
  lp_committing : j_committing_transaction (k_journal s) = Some ct;
  lp_running : j_running_transaction (k_journal s) = Some rt;
}.

(** In the middle of a step, with [b] in hand. *)
Record focus (fg cpl : list bh_id) (b : bh_id) (x : buffer_head) (h : journal_head) (s : kstate) : Prop := {
  fo_pair : live_pair fg cpl s;
  fo_jh : has_jh s b x h;
  fo_tr : b_transaction h = Some ct;
  fo_list : b_jlist h = BJ_Forget;
  fo_next : b_next_transaction h = None \/ b_next_transaction h = Some rt;
}.

(** Neither transaction is finished. *)
Lemma pair_unqueued fg cpl s :
  live_pair fg cpl s ->
  ct ∉ j_checkpoint_transactions (k_journal s) /\ rt ∉ j_checkpoint_transactions (k_journal s).
Proof.
  intros []. destruct lp_ct0 as (tr & Ht & []), lp_rt0 as (tr' & Ht' & Hst').
  split; intros Hin; [apply (cp_finished _ lp_cp0 ct tr Ht) in Hin|apply (cp_finished _ lp_cp0 rt tr' Ht') in Hin];
    congruence.
Qed.

(** What the journal heads refer to; everything else may change. *)
Definition same_refs (h h' : journal_head) : Prop :=
  b_jcount h' = b_jcount h /\ b_jlist h' = b_jlist h /\ b_transaction h' = b_transaction h /\
  b_next_transaction h' = b_next_transaction h /\ b_cp_transaction h' = b_cp_transaction h.

Lemma focus_flags fg cpl b x h x' h' s :
  focus fg cpl b x h s -> b_private x' = Some h' -> buffer_jbd x' = buffer_jbd x -> same_refs h h' ->
  focus fg cpl b x' h' (mk_kstate (k_journal s) (<[b := x']> (k_bufs s)) (k_trans s)).
Proof.
  intros [Hp [Hb Hh] Ht Hl Hn] Hp' Hjbd (Hc & Hjl & Htr & Hnx & Hcp).
  pose proof (pair_unqueued _ _ _ Hp) as [Hq1 Hq2]. destruct Hp as [Hwf Hok Hct Hrt Hne Hc1 Hc2].
  destruct (wf_jh _ _ _ _ _ Hwf Hb Hh) as [Hj Ho].
  split; [split; kst; try done| |congruence..|by rewrite Hnx].
  - eapply wf_set_bh; [done|done|]. split; [rewrite Hp', Hjbd, Hj; by rewrite bool_decide_true|]. rewrite Hp'.
    destruct Ho. split; rewrite ?Hc, ?Hjl, ?Htr, ?Hnx, ?Hcp; auto.
  - eapply (cp_ok_step s _ b x h); try done; [|congruence|eauto].
    intros h'' Hh''. replace h'' with h' by congruence. split; [done|]. intros t Hin. rewrite Htr, Hnx, Ht.
    split; [congruence|]. destruct Hn as [-> | ->]; congruence.
  - by apply has_jh_upd.
Qed.

(** What a step on [b] leaves alone. *)
Record only (b : bh_id) (s s' : kstate) : Prop := {
  on_bufs y : y <> b -> k_bufs s' !! y = k_bufs s !! y;
  on_abort : JBD2_ABORT (k_journal s') = JBD2_ABORT (k_journal s);
  on_queue : sublist (j_checkpoint_transactions (k_journal s')) (j_checkpoint_transactions (k_journal s));
  on_tid tr : k_trans s !! ct = Some tr -> exists tr', k_trans s' !! ct = Some tr' /\ t_tid tr' = t_tid tr;
}.

#[export] Instance only_preorder b : PreOrder (only b).
Proof.
  split.
  - intros s. split; try done. intros tr Ht. by exists tr.
  - intros s1 s2 s3 [H1 H2 H3 H4] [G1 G2 G3 G4]. split.
    + intros y Hy. by rewrite G1, H1.
    + congruence.
    + by etrans.
    + intros tr Ht. destruct (H4 tr Ht) as (tr2 & Ht2 & ?), (G4 tr2 Ht2) as (tr3 & ? & ?). exists tr3. split; congruence.
Qed.

Lemma only_insert b s x' :
  only b s (mk_kstate (k_journal s) (<[b := x']> (k_bufs s)) (k_trans s)).
Proof. split; kst; try done; [intros; by rewrite lookup_insert_ne|eauto]. Qed.

Definition jh_uncp (h : journal_head) : journal_head := h <| b_cp_transaction := None |> <| b_jcount ::= Z.pred |>.

(** Off the checkpoint list of an older transaction. *)
Lemma focus_uncp fg cpl b x h s t' :
  focus fg cpl b x h s -> b ∉ cpl -> b_cp_transaction h = Some t' ->
  wp (__jbd2_vmsep_journal_remove_checkpoint b)
    (fun _ s' => only b s s' /\ focus fg cpl b (x <| b_private := Some (jh_uncp h) |>) (jh_uncp h) s') s.
Proof.
  intros [Hp Hx Ht Hl Hn] Hnin Hcp. pose proof Hx as [Hb Hh].
  pose proof Hp as [Hwf Hok (tr & Htr & Hsh) (rtr & Hrtr & Hrst) Hne Hc1 Hc2].
  destruct (wf_jh _ _ _ _ _ Hwf Hb Hh) as [Hj Ho]. pose proof (jh_count _ _ _ _ Ho) as Hcount.
  rewrite Ht, Hcp in Hcount. cbn in Hcount. pose proof (Hext b).
  destruct (cp_live _ (cp_ok_lists _ Hok) b x h t' Hx Hcp) as [tr' Htr'].
  assert (t' <> ct) as Hnct.
  { intros ->. apply (cp_member _ (cp_ok_lists _ Hok) b x h ct tr Hx Htr) in Hcp.
    unfold cp_bufs in Hcp. rewrite (sh_cp _ _ _ Hsh), (sh_io _ _ _ Hsh), app_nil_r in Hcp. done. }
  eapply wp_mono; [by eapply (remove_checkpoint_spec ext s b x h t' tr')|].
  intros freed s' (Hwf' & Hok' & Hf & Hs').
  assert (bh_uncp x h = x <| b_private := Some (jh_uncp h) |>) as Hu.
  { unfold bh_uncp, bh_put. cbn [b_jcount field_update]. rewrite (proj2 (Z.eqb_neq _ _)) by (cbn; lia). done. }
  assert (freed = true -> t' <> rt) as Hfrt.
  { intros -> ->. symmetry in Hf. apply andb_true_iff in Hf as [_ Hf%bool_decide_eq_true]. congruence. }
  assert (k_bufs s' = <[b := x <| b_private := Some (jh_uncp h) |>]> (k_bufs s)) as Hbufs
    by (rewrite <-Hu; destruct freed; by rewrite Hs').
  assert (k_trans s' !! ct = Some tr) as Htr2.
  { destruct freed; rewrite Hs'; cbn; [by rewrite lookup_delete_ne|by rewrite lookup_insert_ne]. }
  split; [split|split; [split| |done..]].
  - intros y Hy. by rewrite Hbufs, lookup_insert_ne.
  - destruct freed; by rewrite Hs'.
  - destruct freed; rewrite Hs'; cbn; [apply blist_del_sublist|done].
  - intros tr2 Htr2'. exists tr. split; [done|congruence].
  - done.
  - done.
  - by exists tr.
  - destruct freed; rewrite Hs'; cbn.
    + exists rtr. rewrite lookup_delete_ne by auto. done.
    + destruct (decide (t' = rt)) as [->|Hnr]; [|exists rtr; by rewrite lookup_insert_ne].
      exists (tr_uncp b tr'). rewrite lookup_insert_eq. split; [done|]. by replace tr' with rtr by congruence.
  - done.
  - destruct freed; by rewrite Hs'.
  - destruct freed; by rewrite Hs'.
  - split; [by rewrite Hbufs, lookup_insert_eq|done].
Qed.

Definition jh_cp_ct (h : journal_head) : journal_head :=
  h <| b_jcount ::= Z.succ |> <| b_cp_transaction := Some ct |>.

(** Onto the checkpoint list of the committing transaction. *)
Lemma focus_cp fg cpl b x h s :
  focus fg cpl b x h s -> b_cp_transaction h = None -> buffer_jbddirty x = true ->
  wp (__jbd2_vmsep_journal_insert_checkpoint b ct)
    (fun _ s' => only b s s' /\ focus fg (b :: cpl) b (x <| b_private := Some (jh_cp_ct h) |>) (jh_cp_ct h) s') s.
Proof.
  intros [Hp Hx Ht Hl Hn] Hcp Hjd. pose proof Hp as [Hwf Hok (tr & Htr & Hsh) (rtr & Hrtr & Hrst) Hne Hc1 Hc2].
  eapply wp_mono; [eapply (insert_checkpoint_holds ext s b x h ct tr); try done; by right|].
  intros _ s' (Hwf' & Hok' & Hj & Htrs & Hbufs). split; [split|split; [split| |done..]].
  - intros y Hy. by rewrite Hbufs, lookup_insert_ne.
  - by rewrite Hj.
  - by rewrite Hj.
  - intros tr2 Htr2. rewrite Htrs, lookup_insert_eq. eexists. split; [done|]. cbn. congruence.
  - done.
  - done.
  - eexists. rewrite Htrs, lookup_insert_eq. split; [done|]. destruct Hsh. split; cbn; congruence.
  - exists rtr. by rewrite Htrs, lookup_insert_ne.
  - done.
  - by rewrite Hj.
  - by rewrite Hj.
  - split; [by rewrite Hbufs, lookup_insert_eq|done].
Qed.

(** The buffer after it left the transaction. *)
Definition gone (x : buffer_head) (h : journal_head) (aborted : bool) (x' : buffer_head) : Prop :=
  (forall h', b_private x' = Some h' ->
     b_transaction h' <> Some ct /\ b_next_transaction h' = None /\ b_cp_transaction h' = b_cp_transaction h) /\
  (is_Some (b_cp_transaction h) -> exists h', b_private x' = Some h' /\
     (b_next_transaction h = None -> buffer_dirty x' = (if aborted then buffer_dirty x else buffer_dirty x || buffer_jbddirty x)) /\
     (b_next_transaction h = Some rt -> b_transaction h' = Some rt)).

Lemma shape_unlink b fg cpl tr :
  ct_shape (b :: fg) cpl tr -> NoDup (b :: fg) -> ct_shape fg cpl (tr_unlink b BJ_Forget tr).
Proof.
  intros [] [Hnin _]%NoDup_cons. split; try done. cbn. rewrite sh_forget0. unfold blist_del.
  rewrite filter_cons, decide_False by (by intros []). by apply blist_del_notin.
Qed.

Lemma cp_bufs_link b jl tr : cp_bufs (tr_link b jl tr) = cp_bufs tr.
Proof. by destruct jl. Qed.
Lemma cp_bufs_unlink b jl tr : cp_bufs (tr_unlink b jl tr) = cp_bufs tr.
Proof. by destruct jl. Qed.

(** The running transaction has it next: it is filed there. *)
Lemma focus_refile_next fg cpl b x h s :
  focus (b :: fg) cpl b x h s -> b_next_transaction h = Some rt ->
  wp (__jbd2_vmsep_journal_refile_buffer b)
    (fun _ s' => only b s s' /\ live_pair fg cpl s' /\
       exists x', k_bufs s' !! b = Some x' /\ gone x h (JBD2_ABORT (k_journal s)) x') s.
Proof.
  intros [Hp Hx Ht Hl Hn] Hnt. pose proof Hx as [Hb Hh].
  pose proof (pair_unqueued _ _ _ Hp) as [Hq1 Hq2].
  destruct Hp as [Hwf Hok (tr & Htr & Hsh) (rtr & Hrtr & Hrst) Hne Hc1 Hc2].
  assert (NoDup (b :: fg)) as Hnd.
  { rewrite <-(sh_forget _ _ _ Hsh). exact (tr_nodup _ _ (wf_tr _ _ Hwf ct tr Htr) BJ_Forget). }
  pose proof (shape_unlink b fg cpl tr Hsh Hnd) as Hsh'.
  eapply wp_mono; [by eapply (refile_buffer_exec ext s b x h ct rt rtr)|].
  intros _ [j' bufs' trs'] (Hwf' & Hj & (x' & Hx' & Hbufs & Hd & Hjd) & Htrs). kst. subst j' bufs'.
  pose proof Hx' as [Hb' Hh']. kst.
  assert (trs' !! ct = Some (tr_unlink b BJ_Forget tr)) as Hct'
    by (by rewrite Htrs, lookup_insert_ne, Hl, lookup_alter_eq, Htr by done).
  split; [split; kst; try done|split; [split; kst; try done|]].
  - intros y Hy. by rewrite lookup_insert_ne.
  - intros tr2 Htr2. eexists. split; [done|]. cbn. congruence.
  - rewrite Htrs. eapply (cp_ok_step s _ b x h); try done.
    + intros h' Hp'. replace h' with (h <| b_jlist := refile_list x h |> <| b_transaction := Some rt |>
        <| b_next_transaction := None |>) by congruence. cbn. split; [done|]. intros t Hin. split; congruence.
    + congruence.
    + intros t Hin. rewrite lookup_insert_ne, lookup_alter_ne by congruence. done.
    + intros t tr' [[<- <-]|[Hnt' Ht']]%lookup_insert_Some.
      { exists rtr. by rewrite cp_bufs_link, tr_link_state. }
      destruct (decide (ct = t)) as [<-|]; [|rewrite lookup_alter_ne in Ht' by done; by exists tr'].
      rewrite lookup_alter_eq, Htr in Ht'. injection Ht' as <-. exists tr. by rewrite cp_bufs_unlink, tr_unlink_state.
    + intros t Hlv. apply lookup_insert_is_Some'. right. by rewrite lookup_alter_is_Some.
  - by exists (tr_unlink b BJ_Forget tr).
  - eexists. rewrite Htrs, lookup_insert_eq. split; [done|]. by rewrite tr_link_state.
  - exists x'. split; [done|]. split.
    + rewrite Hh'. intros h' [= <-]. cbn. split_and!; congruence.
    + intros _. eexists. split; [done|]. split; [congruence|done].
Qed.

(** No transaction has it next: it leaves the lists. *)
Lemma focus_refile_last fg cpl b x h s :
  focus (b :: fg) cpl b x h s -> b_next_transaction h = None ->
  wp (__jbd2_vmsep_journal_refile_buffer b)
    (fun _ s' => only b s s' /\ live_pair fg cpl s' /\
       exists x', k_bufs s' !! b = Some x' /\ gone x h (JBD2_ABORT (k_journal s)) x') s.
Proof.
  intros [Hp Hx Ht Hl Hn] Hnt. pose proof Hx as [Hb Hh].
  pose proof (pair_unqueued _ _ _ Hp) as [Hq1 Hq2].
  destruct Hp as [Hwf Hok (tr & Htr & Hsh) (rtr & Hrtr & Hrst) Hne Hc1 Hc2].
  assert (NoDup (b :: fg)) as Hnd.
  { rewrite <-(sh_forget _ _ _ Hsh). exact (tr_nodup _ _ (wf_tr _ _ Hwf ct tr Htr) BJ_Forget). }
  pose proof (shape_unlink b fg cpl tr Hsh Hnd) as Hsh'.
  unfold __jbd2_vmsep_journal_refile_buffer. wp_step. eapply wp_read_jh; [exact Hb|exact Hh|]. rewrite Hnt.
  eapply wp_mono; [eapply (unfile_buffer_spec ext s b x h); try done; by eexists|].
  intros _ [j' bufs' trs'] (Hwf' & Hj & Hbufs & Htrs). kst. subst j' bufs'. rewrite Hl, decide_False in * by done.
  rewrite Ht in Htrs. set (x' := bh_put _ _) in *.
  assert (trs' !! ct = Some (tr_unlink b BJ_Forget tr)) as Hct' by (by rewrite Htrs, lookup_alter_eq, Htr).
  assert (forall h', b_private x' = Some h' -> b_transaction h' = None /\ b_next_transaction h' = None /\
            b_cp_transaction h' = b_cp_transaction h) as Hx'.
  { intros h'. subst x'. unfold bh_put. destruct (_ =? 1); [done|]. intros [= <-]. cbn. by rewrite Hnt. }
  destruct (wf_jh _ _ _ _ _ Hwf Hb Hh) as [_ Ho]. pose proof (jh_count _ _ _ _ Ho) as Hcount. pose proof (Hext b).
  rewrite Ht in Hcount. cbn in Hcount.
  assert (is_Some (b_cp_transaction h) -> exists h', b_private x' = Some h') as Hsome.
  { intros [t' Hcp]. subst x'. unfold bh_put. cbn [b_jcount field_update]. rewrite Hcp in Hcount. cbn in Hcount.
    rewrite (proj2 (Z.eqb_neq _ _)) by (cbn; lia). by eexists. }
  split; [split; kst; try done|split; [split; kst; try done|]].
  - intros y Hy. by rewrite lookup_insert_ne.
  - intros tr2 Htr2. eexists. split; [done|]. cbn. congruence.
  - rewrite Htrs. eapply (cp_ok_step s _ b x h); try done.
    + intros h' Hp'. destruct (Hx' h' Hp') as (-> & -> & ->). done.
    + intros Hnone. apply eq_None_not_Some. intros [h' Hh']%Hsome. congruence.
    + intros t Hin. rewrite lookup_alter_ne by congruence. done.
    + intros t tr' Ht'. destruct (decide (ct = t)) as [<-|]; [|rewrite lookup_alter_ne in Ht' by done; by exists tr'].
      rewrite lookup_alter_eq, Htr in Ht'. injection Ht' as <-. by exists tr.
    + intros t Hlv. by rewrite lookup_alter_is_Some.
  - by exists (tr_unlink b BJ_Forget tr).
  - exists rtr. rewrite Htrs, lookup_alter_ne by done. done.
  - exists x'. split; [by rewrite lookup_insert_eq|]. split.
    + intros h' (-> & -> & ->)%Hx'. done.
    + intros [h' Hh']%Hsome. exists h'. split; [done|]. split; [|congruence]. intros _. subst x'. unfold bh_put.
      by destruct (_ =? 1).
Qed.

Lemma focus_refile fg cpl b x h s :
  focus (b :: fg) cpl b x h s ->
  wp (__jbd2_vmsep_journal_refile_buffer b)
    (fun _ s' => only b s s' /\ live_pair fg cpl s' /\
       exists x', k_bufs s' !! b = Some x' /\ gone x h (JBD2_ABORT (k_journal s)) x') s.
Proof.
  intros Hf. destruct (b_next_transaction h) as [nt|] eqn:Hnt; [|by apply focus_refile_last].
  apply focus_refile_next; [done|]. destruct Hf as [_ _ _ _ Hn]. naive_solver.
Qed.

(** ** One buffer of the forget list *)

(** Whether the buffer still has to be written back. *)
Definition needs_cp (x : buffer_head) (h : journal_head) : bool :=
  buffer_jbddirty x && negb (buffer_freed x && bool_decide (b_next_transaction h = None)).

(** The buffer in hand, clean but for the journal's own bit, and on no
    checkpoint list. *)
Record prepared (x : buffer_head) (h : journal_head) (x' : buffer_head) (h' : journal_head) : Prop := {
  pr_next : b_next_transaction h' = b_next_transaction h;
  pr_cp : b_cp_transaction h' = None;
  pr_dirty : buffer_dirty x' = buffer_dirty x;
  pr_freed : buffer_freed x' = buffer_freed x;
  pr_jbddirty : buffer_jbddirty x' = buffer_jbddirty x;
}.

Lemma prepare_spec fg cpl b x h s :
  focus fg cpl b x h s -> b ∉ cpl ->
  wp (forget_prepare ct b)
    (fun _ s' => only b s s' /\ exists x' h', focus fg cpl b x' h' s' /\ prepared x h x' h') s.
Proof.
  intros Hf Hnin. pose proof (fo_jh _ _ _ _ _ _ Hf) as [Hb Hh]. unfold forget_prepare, get_bh.
  wp_step. eapply wp_modify_bh; [done|]. set (x1 := x <| b_count ::= Z.succ |>).
  assert (focus fg cpl b x1 h (mk_kstate (k_journal s) (<[b := x1]> (k_bufs s)) (k_trans s))) as Hf1
    by (eapply focus_flags; [done|done|done|by split_and!]).
  wp_step. eapply wp_read_jh; [cbn; by rewrite lookup_insert_eq|done|].
  wp_step. apply wp_assert; [apply bool_decide_true, (fo_tr _ _ _ _ _ _ Hf)|].
  wp_step. eapply wp_modify_jh; [cbn; by rewrite lookup_insert_eq|done|]. kst. rewrite insert_insert_eq.
  set (x2 := x1 <| b_private := Some (drop_copies h) |>).
  assert (focus fg cpl b x2 (drop_copies h) (mk_kstate (k_journal s) (<[b := x2]> (k_bufs s)) (k_trans s))) as Hf2.
  { pose proof (focus_flags _ _ _ _ _ x2 (drop_copies h) _ Hf1 eq_refl eq_refl) as H. kst. rewrite insert_insert_eq in H.
    apply H. by split_and!. }
  destruct (b_cp_transaction h) as [t'|] eqn:Hcp.
  - rewrite bool_decide_true by eauto. wp_step. eapply wp_mono; [by eapply (focus_uncp _ _ _ x2 (drop_copies h) _ t')|].
    intros _ s' [Ho Hf']. wp_step. split; [etrans; [apply only_insert|exact Ho]|].
    eexists _, _. split; [exact Hf'|]. by split.
  - rewrite bool_decide_false by (by intros []). wp_step. split; [apply only_insert|]. exists x2, (drop_copies h). by split.
Qed.

Lemma invalidate_spec fg cpl b x h s :
  focus fg cpl b x h s -> b_cp_transaction h = None ->
  wp (invalidate_freed b)
    (fun _ s' => only b s s' /\ exists x' h', focus fg cpl b x' h' s' /\
       b_next_transaction h' = b_next_transaction h /\ b_cp_transaction h' = None /\
       buffer_dirty x' = buffer_dirty x /\ buffer_jbddirty x' = needs_cp x h) s.
Proof.
  intros Hf Hcp. pose proof (fo_jh _ _ _ _ _ _ Hf) as [Hb Hh]. unfold invalidate_freed, needs_cp.
  wp_step. eapply wp_read_bh; [done|]. destruct (buffer_freed x) eqn:Hfr; cbn [negb andb].
  2:{ wp_step. split; [reflexivity|]. exists x, h. by rewrite andb_true_r. }
  wp_step. eapply wp_modify_jh; [done|done|]. set (h1 := h <| b_modified := false |>). set (x1 := x <| b_private := Some h1 |>).
  assert (focus fg cpl b x1 h1 (mk_kstate (k_journal s) (<[b := x1]> (k_bufs s)) (k_trans s))) as Hf1
    by (eapply focus_flags; [done|done|done|by split_and!]).
  wp_step. eapply wp_read_jh; [cbn; by rewrite lookup_insert_eq|done|].
  destruct (b_next_transaction h) as [nt|] eqn:Hn.
  - rewrite bool_decide_true by (subst h1; cbn; rewrite Hn; by eexists). wp_step. split; [apply only_insert|].
    exists x1, h1. split; [done|]. split; [done|]. split; [done|]. split; [done|].
    rewrite bool_decide_false by done. by rewrite andb_true_r.
  - rewrite bool_decide_false by (subst h1; cbn; rewrite Hn; by intros []).
    eapply wp_modify_bh; [cbn; by rewrite lookup_insert_eq|]. kst. rewrite insert_insert_eq.
    split; [apply only_insert|]. eexists _, h1. split.
    + pose proof (focus_flags _ _ _ _ _ (x1 <| buffer_freed := false |> <| buffer_jbddirty := false |>
        <| buffer_mapped := false |> <| buffer_new := false |> <| buffer_req := false |> <| b_bdev := false |>) h1 _ Hf1
        eq_refl eq_refl) as H. kst. rewrite insert_insert_eq in H. apply H. by split_and!.
    + split; [done|]. split; [done|]. split; [done|]. rewrite bool_decide_true by done. by rewrite andb_false_r.
Qed.

Lemma checkpoint_dirty_spec fg cpl b x h s :
  focus fg cpl b x h s -> b_cp_transaction h = None -> buffer_dirty x = false ->
  wp (checkpoint_dirty ct b)
    (fun _ s' => only b s s' /\ exists x' h',
       focus fg (if buffer_jbddirty x then b :: cpl else cpl) b x' h' s' /\
       b_next_transaction h' = b_next_transaction h /\
       b_cp_transaction h' = (if buffer_jbddirty x then Some ct else None) /\
       buffer_dirty x' = false /\
       (JBD2_ABORT (k_journal s) = false -> buffer_jbddirty x' = buffer_jbddirty x)) s.
Proof.
  intros Hf Hcp Hd. pose proof (fo_jh _ _ _ _ _ _ Hf) as [Hb Hh]. unfold checkpoint_dirty.
  wp_step. eapply wp_read_bh; [done|]. destruct (buffer_jbddirty x) eqn:Hjd.
  - wp_step. eapply wp_mono; [by eapply focus_cp|]. intros _ s1 [Ho Hf1].
    pose proof (fo_jh _ _ _ _ _ _ Hf1) as [Hb1 Hh1]. wp_step. unfold is_journal_aborted. wp_step. wp_step. wp_step.
    destruct (JBD2_ABORT (k_journal s1)) eqn:Ha; wp_step.
    + unfold clear_buffer_jbddirty. eapply wp_modify_bh; [done|]. wp_step. split.
      { etrans; [exact Ho|apply only_insert]. }
      eexists _, (jh_cp_ct h). split; [eapply focus_flags; [exact Hf1|done|done|by split_and!]|].
      split; [done|]. split; [done|]. split; [done|]. intros Ha'. rewrite (on_abort _ _ _ Ho) in Ha. congruence.
    + wp_step. wp_step. split; [done|]. eexists _, _. by split_and!.
  - wp_step. apply wp_assert; [by rewrite Hd|]. wp_step. eapply wp_read_jh; [done|done|]. wp_step.
    split; [reflexivity|]. exists x, h. by split_and!.
Qed.

(** What the loop may do to journal heads other than the one in hand, and to
    the rest of the journal. *)
Record stepped (b : bh_id) (s s' : kstate) : Prop := {
  st_jh y xy hy : y <> b -> has_jh s' y xy hy <-> has_jh s y xy hy;
  st_abort : JBD2_ABORT (k_journal s') = JBD2_ABORT (k_journal s);
  st_queue : sublist (j_checkpoint_transactions (k_journal s')) (j_checkpoint_transactions (k_journal s));
  st_tid tr : k_trans s !! ct = Some tr -> exists tr', k_trans s' !! ct = Some tr' /\ t_tid tr' = t_tid tr;
}.

#[export] Instance stepped_preorder b : PreOrder (stepped b).
Proof.
  split.
  - intros s. split; try done. intros tr Ht. by exists tr.
  - intros s1 s2 s3 [H1 H2 H3 H4] [G1 G2 G3 G4]. split.
    + intros y xy hy Hy. by rewrite G1, H1.
    + congruence.
    + by etrans.
    + intros tr Ht. destruct (H4 tr Ht) as (tr2 & Ht2 & ?), (G4 tr2 Ht2) as (tr3 & ? & ?). exists tr3. split; congruence.
Qed.

Lemma only_stepped b s s' : only b s s' -> stepped b s s'.
Proof. intros [H1 H2 H3 H4]. split; [|done..]. intros y xy hy Hy. unfold has_jh. by rewrite H1. Qed.

(** [try_to_free_buffers] frees only buffers without journal head. *)
Definition frees_unjournalled (free_page : bh_id -> K kstate unit) : Prop := forall b s,
  wp (free_page b) (fun _ s' => k_journal s' = k_journal s /\ k_trans s' = k_trans s /\
    forall y, k_bufs s' !! y = k_bufs s !! y \/
      k_bufs s' !! y = None /\ exists x, k_bufs s !! y = Some x /\ b_private x = None) s.

(** Changes below the journal heads keep both invariants. *)
Lemma pair_weaken fg cpl s s' :
  live_pair fg cpl s -> k_journal s' = k_journal s -> k_trans s' = k_trans s ->
  (forall y xy', k_bufs s' !! y = Some xy' -> exists xy, k_bufs s !! y = Some xy /\
     b_private xy' = b_private xy /\ buffer_jbd xy' = buffer_jbd xy) ->
  (forall y xy hy, has_jh s y xy hy -> exists xy', has_jh s' y xy' hy) ->
  live_pair fg cpl s'.
Proof.
  intros [Hwf Hok Hct Hrt Hne Hc1 Hc2] Hj Ht Hb Hx. 
  assert (forall y xy' hy, has_jh s' y xy' hy -> exists xy, has_jh s y xy hy) as Hback.
  { intros y xy' hy [Hy Hp]. destruct (Hb y xy' Hy) as (xy & Hxy & Hpp & _). exists xy. split; congruence. }
  split; rewrite ?Hj, ?Ht; try done.
  - split; rewrite Ht.
    + intros y xy' Hy. destruct (Hb y xy' Hy) as (xy & Hxy & Hp & Hjb). eapply bh_ok_flags; [by eapply wf_bh|done|done].
    + intros t tr Htr. destruct (wf_tr _ _ Hwf t tr Htr) as [Hn1 Hn2 Hn3]. split; [done|done|].
      intros jl y Hy. destruct (Hn3 jl y Hy) as [xy Hxy]. destruct (b_private xy) as [hy|] eqn:Hp.
      * destruct (Hx y xy hy) as (xy' & Hy' & _); [done|]. by eexists.
      * pose proof (wf_bh _ _ Hwf y xy Hxy) as [_ Hnot]. rewrite Hp in Hnot. by apply (Hnot t tr jl) in Hy.
  - destruct Hok as [[Hm Hhj Hl Hnd] Hq1 Hq2 Hq3 Hq4]. split; [split| | | |]; rewrite ?Hj, ?Ht; try done.
    + intros y xy' hy t tr (xy & Hy)%Hback. by eapply Hm.
    + intros t tr y Htr Hin. destruct (Hhj t tr y Htr Hin) as (xy & hy & Hy). destruct (Hx _ _ _ Hy) as [xy' ?]. eauto.
    + intros y xy' hy t (xy & Hy)%Hback. by eapply Hl.
    + intros t y xy' hy Hin (xy & Hy)%Hback. by eapply Hq4.
Qed.

Context (page_free : bh_id -> bool) (free_page : bh_id -> K kstate unit) (Hfree : frees_unjournalled free_page).

(** Dropping the reference to the buffer. *)
Lemma brelse_pair fg cpl b x s (Q : unit -> kstate -> Prop) :
  live_pair fg cpl s -> k_bufs s !! b = Some x ->
  (forall s' x', live_pair fg cpl s' -> stepped b s s' -> k_bufs s' !! b = Some x' ->
     b_private x' = b_private x -> buffer_dirty x' = buffer_dirty x -> Q tt s') ->
  wp (__brelse b) Q s.
Proof.
  intros Hp Hb HQ. unfold __brelse. eapply wp_modify_bh; [done|].
  eapply HQ; [|split|cbn; by rewrite lookup_insert_eq| |]; kst; try done; try (by eauto).
  - eapply pair_weaken; [exact Hp|done|done| |]; kst.
    + intros y xy' [[<- <-]|[_ Hy]]%lookup_insert_Some; [|by exists xy']. exists x. split; [done|]. by case_match.
    + intros y xy hy [Hy Hh]. destruct (decide (b = y)) as [<-|Hne].
      * eexists. split; [cbn; by rewrite lookup_insert_eq|]. replace xy with x in Hh by congruence. by case_match.
      * exists xy. split; [cbn; by rewrite lookup_insert_ne|done].
  - intros y xy hy Hy. unfold has_jh. kst. by rewrite lookup_insert_ne.
  - by case_match.
  - by case_match.
Qed.

(** The end of a step: the buffer keeps its journal head and its dirty bit. *)
Lemma release_pair fg cpl b x s (try_to_free : bool) :
  live_pair fg cpl s -> k_bufs s !! b = Some x ->
  wp (if try_to_free then release_buffer_page page_free free_page b else __brelse b)
    (fun _ s' => live_pair fg cpl s' /\ stepped b s s' /\
       (forall xy hy, has_jh s' b xy hy -> b_private x = Some hy) /\
       forall h, b_private x = Some h -> exists x', has_jh s' b x' h /\ buffer_dirty x' = buffer_dirty x) s.
Proof.
  intros Hp Hb.
  assert (wp (__brelse b) (fun _ s' => live_pair fg cpl s' /\ stepped b s s' /\ exists x', k_bufs s' !! b = Some x' /\
    b_private x' = b_private x /\ buffer_dirty x' = buffer_dirty x) s) as Hrel.
  { eapply brelse_pair; [done|done|]. intros s' x' Hp' Hs Hb' Hpr Hd. split_and!; [done|done|]. by exists x'. }
  assert (wp (__brelse b) (fun _ s' => live_pair fg cpl s' /\ stepped b s s' /\
       (forall xy hy, has_jh s' b xy hy -> b_private x = Some hy) /\
       forall h, b_private x = Some h -> exists x', has_jh s' b x' h /\ buffer_dirty x' = buffer_dirty x) s) as Hplain.
  { eapply wp_mono; [exact Hrel|]. intros _ s' (Hp' & Hs & x' & Hb' & Hpr & Hd). split_and!; [done|done| |].
    - intros xy hy [Hy Hh]. congruence.
    - intros h Hh. exists x'. split; [|done]. split; congruence. }
  destruct try_to_free; [|done]. unfold release_buffer_page. wp_step. eapply wp_read_bh; [done|].
  apply wp_if; intros _; [|done]. wp_step. eapply wp_mono; [exact Hrel|].
  intros _ s1 (Hp1 & Hs1 & x1 & Hb1 & Hpr1 & Hd1). eapply wp_mono; [apply Hfree|].
  intros _ s2 (Hj2 & Ht2 & Hb2).
  assert (forall y xy hy, has_jh s2 y xy hy <-> has_jh s1 y xy hy) as Hjh.
  { intros y xy hy. unfold has_jh. destruct (Hb2 y) as [->|(-> & x0 & Hx0 & Hn)]; [done|]. split; [by intros [? _]|].
    intros [Hy Hh]. congruence. }
  split_and!.
  - eapply pair_weaken; [exact Hp1|done|done| |].
    + intros y xy' Hy. destruct (Hb2 y) as [He|(He & _)]; [|congruence]. exists xy'. by rewrite <-He.
    + intros y xy hy Hy. exists xy. by apply Hjh.
  - etrans; [exact Hs1|]. split; rewrite ?Hj2; [by intros y xy hy _|done|done|]. rewrite Ht2. eauto.
  - intros xy hy Hy%Hjh. destruct Hy as [Hy Hh]. congruence.
  - intros h Hh. exists x1. split; [|done]. apply Hjh. split; congruence.
Qed.

Record ending (fg cpl : list bh_id) (s : kstate) : Prop := {
  en_pair : live_pair fg cpl s;
  en_own y xy hy : has_jh s y xy hy -> b_next_transaction hy <> Some ct /\
    (b_transaction hy = Some ct -> y ∈ fg /\ (b_next_transaction hy = None \/ b_next_transaction hy = Some rt) /\
       buffer_dirty xy = false);
  en_disj y : y ∈ fg -> y ∉ cpl;
}.

(** A buffer of the forget list. *)
Lemma ending_buf fg cpl s b :
  ending fg cpl s -> b ∈ fg -> exists x h, focus fg cpl b x h s /\ buffer_dirty x = false.
Proof.
  intros [Hp Hown Hd] Hin. pose proof Hp as [Hwf _ (tr & Htr & Hsh) _ _ _ _].
  assert (b ∈ list_of BJ_Forget tr) as Hin' by (cbn; by rewrite (sh_forget _ _ _ Hsh)).
  destruct (tr_bufs _ _ (wf_tr _ _ Hwf ct tr Htr) BJ_Forget b Hin') as [x Hb].
  destruct (b_private x) as [h|] eqn:Hh.
  - destruct (wf_jh _ _ _ _ _ Hwf Hb Hh) as [_ Ho]. apply (jh_member _ _ _ _ Ho ct tr BJ_Forget Htr) in Hin' as (Ht & Hl & _).
    destruct (Hown b x h) as [_ Hmine]; [done|]. destruct (Hmine Ht) as (_ & Hn & Hdd). exists x, h. by split.
  - pose proof (wf_bh _ _ Hwf b x Hb) as [_ Hnot]. rewrite Hh in Hnot. by apply (Hnot ct tr BJ_Forget Htr) in Hin'.
Qed.

(** What becomes of a buffer that still has to be written back. *)
Definition held (aborted : bool) (b : bh_id) (s : kstate) : Prop :=
  exists x h, has_jh s b x h /\ b_cp_transaction h = Some ct /\ (aborted = false -> busy x h).

Lemma forget_step_spec fg cpl b x h s :
  ending (b :: fg) cpl s -> has_jh s b x h ->
  wp (forget_step page_free free_page ct b)
    (fun _ s' => ending fg (if needs_cp x h then b :: cpl else cpl) s' /\ stepped b s s' /\
       (needs_cp x h = true -> held (JBD2_ABORT (k_journal s)) b s')) s.
Proof.
  intros He Hx. destruct (ending_buf _ _ _ b He) as (x0 & h0 & Hf & Hd); [by left|].
  pose proof (fo_jh _ _ _ _ _ _ Hf) as [Hb0 Hh0]. destruct Hx as [Hb Hh].
  replace x0 with x in * by congruence. replace h0 with h in * by congruence. clear x0 h0 Hb0 Hh0.
  assert (b ∉ cpl) as Hnin by (eapply en_disj; [done|by left]).
  assert (b ∉ fg) as Hnfg.
  { destruct (lp_ct _ _ _ (en_pair _ _ _ He)) as (tr & Htr & Hsh).
    pose proof (tr_nodup _ _ (wf_tr _ _ (lp_wf _ _ _ (en_pair _ _ _ He)) ct tr Htr) BJ_Forget) as Hnd.
    cbn in Hnd. rewrite (sh_forget _ _ _ Hsh) in Hnd. by apply NoDup_cons in Hnd as [? _]. }
  unfold forget_step. wp_step. eapply wp_mono; [by apply prepare_spec|].
  intros _ s1 (Ho1 & x1 & h1 & Hf1 & Hpr). wp_step.
  eapply wp_mono; [apply (invalidate_spec _ _ _ _ _ _ Hf1), Hpr|].
  intros _ s2 (Ho2 & x2 & h2 & Hf2 & Hn2 & Hc2 & Hd2 & Hj2).
  assert (needs_cp x1 h1 = needs_cp x h) as Hneed by (unfold needs_cp; by rewrite (pr_jbddirty _ _ _ _ Hpr), (pr_freed _ _ _ _ Hpr), (pr_next _ _ _ _ Hpr)).
  rewrite Hneed in Hj2. rewrite (pr_dirty _ _ _ _ Hpr), Hd in Hd2. rewrite (pr_next _ _ _ _ Hpr) in Hn2.
  wp_step. eapply wp_mono; [by eapply checkpoint_dirty_spec|].
  intros tf s3 (Ho3 & x3 & h3 & Hf3 & Hn3 & Hc3 & Hd3 & Hj3). rewrite Hj2 in *.
  wp_step. eapply wp_mono; [by eapply focus_refile|].
  intros _ s4 (Ho4 & Hp4 & x4 & Hb4 & Hg1 & Hg2).
  eapply wp_mono; [by eapply release_pair|].
  intros _ s5 (Hp5 & Hs5 & Hback & Hfwd).
  assert (stepped b s s5) as Hst.
  { etrans; [|exact Hs5]. apply only_stepped. by repeat (etrans; [eassumption|]). }
  split_and!; [|done|].
  - split; [done| |].
    + intros y xy hy Hy. destruct (decide (y = b)) as [->|Hne].
      * apply Hback in Hy. destruct (Hg1 hy Hy) as (Hg3 & Hg4 & _). rewrite Hg4. split; [done|]. intros. done.
      * apply (st_jh _ _ _ Hst) in Hy; [|done]. destruct (en_own _ _ _ He y xy hy Hy) as [Ho Hm]. split; [done|].
        intros Ht. destruct (Hm Ht) as (Hin & ? & ?). apply elem_of_cons in Hin as [?|Hin]; [done|]. by split_and!.
    + intros y Hin. assert (y ∉ cpl) by (apply (en_disj _ _ _ He); by right).
      destruct (needs_cp x h); [|done]. intros [->|?]%elem_of_cons; done.
  - intros Hnd. rewrite Hnd in *. destruct Hg2 as (h4 & Hh4 & Hg3 & Hg4); [rewrite Hc3; by eexists|].
    destruct (Hfwd h4 Hh4) as (x5 & Hx5 & Hd5). exists x5, h4. split_and!; [done| |].
    + destruct (Hg1 h4 Hh4) as (_ & _ & ->). done.
    + intros Ha. unfold busy.
      assert (JBD2_ABORT (k_journal s3) = false) as Ha3 by (rewrite (on_abort _ _ _ Ho3), (on_abort _ _ _ Ho2), (on_abort _ _ _ Ho1); done).
      assert (JBD2_ABORT (k_journal s2) = false) as Ha2 by (rewrite (on_abort _ _ _ Ho2), (on_abort _ _ _ Ho1); done).
      destruct (fo_next _ _ _ _ _ _ Hf3) as [Hnx|Hnx].
      * right. right. left. rewrite Hd5, Hg3, Ha3, Hd3 by done. by apply Hj3.
      * left. rewrite Hg4 by done. by eexists.
Qed.

(** ** The whole list *)

Definition needs_in (s : kstate) (b : bh_id) : bool :=
  match k_bufs s !! b with
  | Some x => match b_private x with Some h => needs_cp x h | None => false end
  | None => false
  end.

Lemma needs_in_jh s b x h : has_jh s b x h -> needs_in s b = needs_cp x h.
Proof. intros [Hb Hh]. unfold needs_in. by rewrite Hb, Hh. Qed.

Lemma needs_in_stepped b y s s' : stepped b s s' -> y <> b -> needs_in s' y = needs_in s y.
Proof.
  intros Hst Hne. apply eq_true_iff_eq.
  assert (forall s0, needs_in s0 y = true <-> exists x h, has_jh s0 y x h /\ needs_cp x h = true) as Hiff.
  { intros s0. split.
    - unfold needs_in. destruct (k_bufs s0 !! y) as [x|] eqn:Hy; [|done]. destruct (b_private x) as [h|] eqn:Hh; [|done].
      intros Hn. exists x, h. by split_and!.
    - intros (x & h & Hx & Hn). by rewrite (needs_in_jh s0 y x h Hx). }
  rewrite !Hiff. split; intros (x & h & Hx & Hn); exists x, h; (split; [|done]); by apply (st_jh _ _ _ Hst).
Qed.

(** What the loop over [l] leaves alone. *)
Record looped (l : list bh_id) (s s' : kstate) : Prop := {
  lo_jh y xy hy : y ∉ l -> has_jh s' y xy hy <-> has_jh s y xy hy;
  lo_abort : JBD2_ABORT (k_journal s') = JBD2_ABORT (k_journal s);
  lo_queue : sublist (j_checkpoint_transactions (k_journal s')) (j_checkpoint_transactions (k_journal s));
  lo_tid tr : k_trans s !! ct = Some tr -> exists tr', k_trans s' !! ct = Some tr' /\ t_tid tr' = t_tid tr;
}.

Lemma looped_cons b l s1 s2 s3 : stepped b s1 s2 -> looped l s2 s3 -> looped (b :: l) s1 s3.
Proof.
  intros [H1 H2 H3 H4] [G1 G2 G3 G4]. split.
  - intros y xy hy [Hne Hnin]%not_elem_of_cons. by rewrite G1, H1.
  - congruence.
  - by etrans.
  - intros tr Ht. destruct (H4 tr Ht) as (tr2 & Ht2 & ?), (G4 tr2 Ht2) as (tr3 & ? & ?). exists tr3. split; congruence.
Qed.

Lemma ending_nodup fg cpl s : ending fg cpl s -> NoDup fg.
Proof.
  intros He. destruct (lp_ct _ _ _ (en_pair _ _ _ He)) as (tr & Htr & Hsh). rewrite <-(sh_forget _ _ _ Hsh).
  exact (tr_nodup _ _ (wf_tr _ _ (lp_wf _ _ _ (en_pair _ _ _ He)) ct tr Htr) BJ_Forget).
Qed.

Lemma forget_loop_spec fg : forall fuel cpl s,
  ending fg cpl s -> (length fg <= fuel)%nat ->
  wp (forget_loop page_free free_page fuel ct)
    (fun r s' => r = Some tt /\
       ending [] (reverse (filter (fun b => needs_in s b = true) fg) ++ cpl) s' /\ looped fg s s' /\
       forall b, b ∈ fg -> needs_in s b = true -> held (JBD2_ABORT (k_journal s)) b s') s.
Proof.
  induction fg as [|b fg IH]; intros fuel cpl s He Hfuel;
    destruct (lp_ct _ _ _ (en_pair _ _ _ He)) as (tr & Htr & Hsh); pose proof (sh_forget _ _ _ Hsh) as Hfg.
  - destruct fuel; cbn [forget_loop]; wp_step; (eapply wp_read_tr; [done|]); rewrite Hfg; wp_step;
      (split_and!; [done|done| |by intros b ?%elem_of_nil]); (split; [done|done|done|eauto]).
  - destruct fuel as [|fuel]; cbn [length] in Hfuel; [lia|]. cbn [forget_loop]. wp_step. eapply wp_read_tr; [done|].
    rewrite Hfg. wp_step. destruct (ending_buf _ _ _ b He) as (x & h & Hf & _); [by left|].
    pose proof (fo_jh _ _ _ _ _ _ Hf) as Hx. pose proof (ending_nodup _ _ _ He) as [Hnin Hnd]%NoDup_cons.
    eapply wp_mono; [by apply (forget_step_spec fg cpl b x h)|]. intros _ s1 (He1 & Hst1 & Hh1).
    rewrite <-(needs_in_jh s b x h Hx) in *.
    eapply wp_mono; [apply IH; [exact He1|lia]|]. intros r s2 (-> & He2 & Hlo & Hh2).
    assert (forall y, y ∈ fg -> needs_in s1 y = needs_in s y) as Hsame
      by (intros y Hy; apply (needs_in_stepped b); [done|by intros ->]).
    assert (filter (fun y => needs_in s1 y = true) fg = filter (fun y => needs_in s y = true) fg) as Hfilter
      by (by apply filter_true_ext).
    split_and!; [done| |by eapply looped_cons|].
    + rewrite Hfilter in He2. rewrite filter_cons. destruct (needs_in s b).
      * rewrite decide_True by done. rewrite reverse_cons, <-app_assoc. exact He2.
      * rewrite decide_False by done. exact He2.
    + rewrite (st_abort _ _ _ Hst1) in Hh2. intros y [->|Hy]%elem_of_cons Hn.
      * destruct (Hh1 Hn) as (x1 & h1 & Hx1 & Hrest). exists x1, h1. split; [|done]. by apply (lo_jh _ _ _ Hlo).
      * apply Hh2; [done|]. by rewrite Hsame.
Qed.

(** ** The transaction is finished *)

Definition finished_tr (tr : transaction_t) : transaction_t := tr <| t_state := T_FINISHED |>.

(** Nothing refers to the transaction any more. *)
Lemma ending_unref cpl s b x h :
  ending [] cpl s -> has_jh s b x h -> b_transaction h <> Some ct /\ b_next_transaction h <> Some ct.
Proof.
  intros He Hx. destruct (en_own _ _ _ He b x h Hx) as [Hn Ht]. split; [|done]. intros Hct.
  destruct (Ht Hct) as [Hin _]. by apply elem_of_nil in Hin.
Qed.

(** The journal after the commit. *)
Definition done_journal (tr : transaction_t) (queue : list tr_id) (j : journal_t) : journal_t :=
  j <| j_checkpoint_transactions := queue |> <| j_commit_sequence := t_tid tr |> <| j_committing_transaction := None |>.

Lemma finished_queue_ok cpl s tr :
  ending [] cpl s -> k_trans s !! ct = Some tr -> cpl <> [] ->
  cp_ok (mk_kstate (done_journal tr (j_checkpoint_transactions (k_journal s) ++ [ct]) (k_journal s)) (k_bufs s)
           (<[ct := finished_tr tr]> (k_trans s))).
Proof.
  intros He Htr Hcpl. pose proof (en_pair _ _ _ He) as Hp. destruct (pair_unqueued _ _ _ Hp) as [Hq _].
  destruct Hp as [Hwf [[Hm Hhj Hl Hnd] Hq1 Hq2 Hq3 Hq4] (tr0 & Htr0 & Hsh) _ Hne Hc1 Hc2].
  replace tr0 with tr in * by congruence. clear tr0 Htr0.
  assert (forall t tr', <[ct := finished_tr tr]> (k_trans s) !! t = Some tr' ->
    exists tr0, k_trans s !! t = Some tr0 /\ cp_bufs tr' = cp_bufs tr0) as Hback.
  { intros t tr' [[<- <-]|[_ ?]]%lookup_insert_Some; eauto. }
  split; [split| | | |]; kst; cbn.
  - intros y xy hy t tr' Hy (tr0 & Ht & ->)%Hback. by eapply Hm.
  - intros t tr' y (tr0 & Ht & Hc)%Hback. rewrite Hc. by apply (Hhj t tr0).
  - intros y xy hy t Hy Hc. apply lookup_insert_is_Some'. right. by eapply Hl.
  - intros t tr' (tr0 & Ht & ->)%Hback. by eapply Hnd.
  - apply NoDup_app. split_and!; [done| |apply NoDup_singleton]. intros t Hin ->%list_elem_of_singleton. done.
  - intros t tr' [[<- <-]|[Hnt Ht]]%lookup_insert_Some.
    + split; [done|]. intros _. apply elem_of_app. right. by left.
    + rewrite elem_of_app, list_elem_of_singleton, (Hq2 t tr' Ht). naive_solver.
  - intros t [Hin| ->%list_elem_of_singleton]%elem_of_app.
    + destruct (Hq3 t Hin) as (tr' & Ht & Hb & (I1 & I2 & I3 & I4 & I5 & I6)). exists tr'.
      rewrite lookup_insert_ne by congruence. by split_and!.
    + exists (finished_tr tr). rewrite lookup_insert_eq. destruct Hsh. split_and!; [done| |].
      * unfold cp_bufs. cbn. rewrite sh_cp0. by destruct cpl.
      * unfold cp_idle. cbn. rewrite Hc2. split_and!; [done..|congruence].
  - intros t y xy hy [Hin| ->%list_elem_of_singleton]%elem_of_app Hy; [by eapply Hq4|]. by eapply ending_unref.
Qed.

Lemma finished_drop_ok s tr :
  ending [] [] s -> k_trans s !! ct = Some tr ->
  cp_ok (mk_kstate (done_journal tr (j_checkpoint_transactions (k_journal s)) (k_journal s)) (k_bufs s)
           (delete ct (k_trans s))).
Proof.
  intros He Htr. pose proof (en_pair _ _ _ He) as Hp. destruct (pair_unqueued _ _ _ Hp) as [Hq _].
  destruct Hp as [Hwf [[Hm Hhj Hl Hnd] Hq1 Hq2 Hq3 Hq4] (tr0 & Htr0 & Hsh) _ Hne Hc1 Hc2].
  replace tr0 with tr in * by congruence. clear tr0 Htr0.
  assert (cp_bufs tr = []) as Hnil by (unfold cp_bufs; by rewrite (sh_cp _ _ _ Hsh), (sh_io _ _ _ Hsh)).
  split; [split| | | |]; kst; cbn.
  - intros y xy hy t tr' Hy [_ Ht]%lookup_delete_Some. by eapply Hm.
  - intros t tr' y [_ Ht]%lookup_delete_Some. by apply (Hhj t tr').
  - intros y xy hy t Hy Hc. destruct (decide (ct = t)) as [<-|]; [|rewrite lookup_delete_ne by done; by eapply Hl].
    apply (Hm y xy hy ct tr Hy Htr) in Hc. rewrite Hnil in Hc. by apply elem_of_nil in Hc.
  - intros t tr' [_ Ht]%lookup_delete_Some. by eapply Hnd.
  - done.
  - intros t tr' [_ Ht]%lookup_delete_Some. by apply Hq2.
  - intros t Hin. destruct (Hq3 t Hin) as (tr' & Ht & Hb & (I1 & I2 & I3 & I4 & I5 & I6)). exists tr'.
    rewrite lookup_delete_ne by congruence. by split_and!.
  - intros t y xy hy Hin Hy. by eapply Hq4.
Qed.

(** Dropping it when nothing is to be checkpointed. *)
Lemma drop_free_exec s t tr :
  k_trans s !! t = Some tr -> t_state tr = T_FINISHED -> cp_bufs tr = [] -> cp_idle (k_journal s) t tr ->
  wp (__jbd2_vmsep_journal_drop_transaction t ;;; jbd2_vmsep_journal_free_transaction t)
    (fun _ s' => s' = mk_kstate ((k_journal s) <| j_checkpoint_transactions ::= blist_del t |>) (k_bufs s)
                        (delete t (k_trans s))) s.
Proof.
  intros H1 H2 H3 H4. pose proof (drop_exec s t tr H1 H2 H3 H4) as H. revert H. unfold wp, kbind.
  destruct (__jbd2_vmsep_journal_drop_transaction t s) as [[? s1]|]; [|done]. by intros [_ H].
Qed.

Lemma blist_del_last (t : tr_id) l : t ∉ l -> blist_del t (l ++ [t]) = l.
Proof.
  intros Hnin. unfold blist_del. rewrite filter_app, filter_cons, decide_False, filter_nil, app_nil_r by (by intros []).
  by apply blist_del_notin.
Qed.

Lemma done_requeue tr q f j :
  (done_journal tr q j) <| j_checkpoint_transactions ::= f |> = done_journal tr (f q) j.
Proof. done. Qed.

(** The state a finished commit leaves. *)
Definition committed_state (cpl : list bh_id) (tr : transaction_t) (s : kstate) : kstate :=
  let q := j_checkpoint_transactions (k_journal s) in
  mk_kstate (done_journal tr (if cpl then q else q ++ [ct]) (k_journal s)) (k_bufs s)
    (if cpl then delete ct (k_trans s) else <[ct := finished_tr tr]> (k_trans s)).

Lemma commit_finish_spec cpl s tr :
  ending [] cpl s -> k_trans s !! ct = Some tr ->
  wp (commit_finish ct)
    (fun _ s' => s' = committed_state cpl tr s /\ wf ext s' /\ cp_ok s') s.
Proof.
  intros He Htr. pose proof (en_pair _ _ _ He) as Hp. destruct (pair_unqueued _ _ _ Hp) as [Hq _].
  destruct Hp as [Hwf Hok (tr0 & Htr0 & Hsh) _ Hne Hc1 Hc2].
  replace tr0 with tr in * by congruence. clear tr0 Htr0. pose proof Hsh as [S1 S2 S3 S4 S5 S6 S7 S8].
  assert (wf ext (mk_kstate (done_journal tr (j_checkpoint_transactions (k_journal s) ++ [ct]) (k_journal s)) (k_bufs s)
    (<[ct := finished_tr tr]> (k_trans s)))) as Hwf1 by (eapply wf_set_credits; [done|done|by intros []|done]).
  unfold commit_finish. wp_step. wp_step. wp_step. eapply wp_read_tr; [done|]. wp_step.
  apply wp_assert; [by apply bool_decide_true|]. wp_step. eapply wp_modify_tr; [done|]. kst.
  wp_step. wp_step. wp_step. apply wp_assert; [by apply bool_decide_true|]. wp_step. wp_step. wp_step.
  eapply wp_modify_tr; [cbn; by rewrite lookup_insert_eq|]. kst. rewrite insert_insert_eq. wp_step.
  eapply wp_read_tr; [cbn; by rewrite lookup_insert_eq|].
  change (tr <| t_state := T_COMMIT_CALLBACK |> <| t_state := T_FINISHED |>) with (finished_tr tr).
  change (t_checkpoint_list (finished_tr tr)) with (t_checkpoint_list tr).
  change (t_checkpoint_io_list (finished_tr tr)) with (t_checkpoint_io_list tr).
  rewrite (bool_decide_true (t_checkpoint_io_list tr = [])), andb_true_r by done. set (s2 := mk_kstate _ _ _).
  replace s2 with (mk_kstate (done_journal tr (j_checkpoint_transactions (k_journal s) ++ [ct]) (k_journal s)) (k_bufs s)
    (<[ct := finished_tr tr]> (k_trans s))) by done. clear s2. unfold committed_state.
  destruct cpl as [|b cpl].
  - rewrite bool_decide_true by done. eapply wp_mono; [apply drop_free_exec with (finished_tr tr)|].
    + cbn. by rewrite lookup_insert_eq.
    + done.
    + unfold cp_bufs. cbn. by rewrite S6, S7.
    + unfold cp_idle. cbn. rewrite Hc2. split_and!; [done..|congruence].
    + intros _ s' ->. kst. rewrite delete_insert_eq, done_requeue, blist_del_last by done. split_and!; [done| |].
      * apply wf_delete; [done|]. intros b x h. by eapply ending_unref.
      * by apply finished_drop_ok.
  - rewrite bool_decide_false by (by rewrite S6). wp_step. split_and!; [done|done|]. by apply (finished_queue_ok (b :: cpl)).
Qed.

(** ** Both phases *)

Lemma commit_checkpoint_spec fuel s tr :
  k_trans s !! ct = Some tr -> ending (t_forget tr) [] s -> (length (t_forget tr) <= fuel)%nat ->
  let cpl := reverse (filter (fun b => needs_in s b = true) (t_forget tr)) in
  wp (commit_checkpoint page_free free_page fuel ct)
    (fun r s' => r = Some tt /\ wf ext s' /\ cp_ok s' /\
       j_committing_transaction (k_journal s') = None /\ j_commit_sequence (k_journal s') = t_tid tr /\
       match cpl with
       | [] => k_trans s' !! ct = None /\ ct ∉ j_checkpoint_transactions (k_journal s')
       | _ => (exists tr', k_trans s' !! ct = Some tr' /\ t_state tr' = T_FINISHED /\ cp_bufs tr' = cpl) /\
       last (j_checkpoint_transactions (k_journal s')) = Some ct
       end /\
       (forall b, b ∈ cpl -> held (JBD2_ABORT (k_journal s)) b s') /\
       JBD2_ABORT (k_journal s') = JBD2_ABORT (k_journal s) /\ j_running_transaction (k_journal s') = Some rt) s.
Proof.
  intros Htr He Hfuel cpl. destruct (lp_ct _ _ _ (en_pair _ _ _ He)) as (tr0 & Htr0 & [S1 S2 S3 S4 S5 S6 S7 S8]).
  replace tr0 with tr in * by congruence. unfold commit_checkpoint. wp_step. eapply wp_read_tr; [done|].
  wp_step. apply wp_assert; [by apply bool_decide_true|]. wp_step. apply wp_assert; [by apply bool_decide_true|].
  wp_step. apply wp_assert; [by apply bool_decide_true|]. wp_step.
  eapply wp_mono; [by apply (forget_loop_spec (t_forget tr))|].
  intros r s1 (-> & He1 & Hlo & Hheld). rewrite app_nil_r in He1. fold cpl in He1. wp_step.
  destruct (lo_tid _ _ _ Hlo tr Htr) as (tr1 & Htr1 & Htid).
  destruct (pair_unqueued _ _ _ (en_pair _ _ _ He1)) as [Hq _].
  destruct (lp_ct _ _ _ (en_pair _ _ _ He1)) as (tr2 & Htr2 & Hsh1). replace tr2 with tr1 in Hsh1 by congruence.
  eapply wp_mono; [by apply (commit_finish_spec cpl s1 tr1)|]. intros _ s' (-> & Hwf & Hok). wp_step.
  split_and!; [done|done|done|by destruct cpl|by destruct cpl| | |by destruct cpl; rewrite <-(lo_abort _ _ _ Hlo)|].
  - unfold committed_state. destruct cpl as [|b l] eqn:Hcpl; cbn; [by rewrite lookup_delete_eq|].
    split; [|apply last_snoc]. exists (finished_tr tr1). rewrite lookup_insert_eq. split_and!; [done|done|].
    unfold cp_bufs. cbn. by rewrite (sh_cp _ _ _ Hsh1), (sh_io _ _ _ Hsh1), app_nil_r.
  - intros b [Hn Hin]%elem_of_reverse%list_elem_of_filter. destruct (Hheld b Hin Hn) as (x & h & Hx & ? & ?).
    exists x, h. by split_and!.
  - destruct cpl; apply (lp_running _ _ _ (en_pair _ _ _ He1)).
Qed.

(** ** Properties *)

(** C12: The end of a commit loses no block: with all of the transaction's
    buffers on the forget list, phases 6 and 7 run to their end without an
    assertion, keep both invariants, leave no committing transaction, and put
    exactly the buffers that are still to be written back on the checkpoint list of the
    transaction, which is dropped when there are none and else becomes the
    last to be checkpointed; unless the journal is aborted, each of
    those buffers is dirty or in the running transaction, so that cleaning keeps it. *)
Theorem commit_checkpoint_holds fuel s tr :
  k_trans s !! ct = Some tr -> ending (t_forget tr) [] s -> (length (t_forget tr) <= fuel)%nat ->
  let cpl := reverse (filter (fun b => needs_in s b = true) (t_forget tr)) in
  wp (commit_checkpoint page_free free_page fuel ct)
    (fun r s' => r = Some tt /\ wf ext s' /\ cp_ok s' /\
       j_committing_transaction (k_journal s') = None /\ j_commit_sequence (k_journal s') = t_tid tr /\
       match cpl with
       | [] => k_trans s' !! ct = None /\ ct ∉ j_checkpoint_transactions (k_journal s')
       | _ => (exists tr', k_trans s' !! ct = Some tr' /\ t_state tr' = T_FINISHED /\ cp_bufs tr' = cpl) /\
       last (j_checkpoint_transactions (k_journal s')) = Some ct
       end /\
       forall b, b ∈ cpl -> held (JBD2_ABORT (k_journal s)) b s') s.
Proof.
  intros Htr He Hfuel. eapply wp_mono; [by eapply commit_checkpoint_spec|].
  intros r s' (? & ? & ? & ? & ? & ? & ? & _ & _). by split_and!.
Qed.
End Ending.

(** Checking [ending] of a concrete state. *)
Definition ownb (ct rt : tr_id) (fg : list bh_id) (y : bh_id) (xy : buffer_head) : bool :=
  match b_private xy with
  | None => true
  | Some hy => negb (bool_decide (b_next_transaction hy = Some ct)) &&
    (negb (bool_decide (b_transaction hy = Some ct)) || bool_decide (y ∈ fg) &&
       (bool_decide (b_next_transaction hy = None) || bool_decide (b_next_transaction hy = Some rt)) &&
       negb (buffer_dirty xy))
  end.

Lemma ownb_sound ct rt fg s y xy hy :
  bool_decide (map_Forall (fun y xy => ownb ct rt fg y xy = true) (k_bufs s)) = true -> has_jh s y xy hy ->
  b_next_transaction hy <> Some ct /\
  (b_transaction hy = Some ct -> y ∈ fg /\ (b_next_transaction hy = None \/ b_next_transaction hy = Some rt) /\
       buffer_dirty xy = false).
Proof.
  rewrite bool_decide_eq_true. intros Hall [Hy Hh]. specialize (Hall y xy Hy). unfold ownb in Hall.
  rewrite Hh, andb_true_iff, negb_true_iff, bool_decide_eq_false in Hall. destruct Hall as [Hn Ho]. split; [done|].
  intros Ht. rewrite (bool_decide_true (b_transaction hy = Some ct)) in Ho by done. cbn [negb orb] in Ho.
  rewrite !andb_true_iff, orb_true_iff, !bool_decide_eq_true, negb_true_iff in Ho. naive_solver.
Qed.

(** Transaction 1 is committed, 2 is running, 3 is to be checkpointed.  Buffer 1 is to be written
    back and was already on the list of 3, buffer 2 was freed, buffer 3 is also
    part of the running transaction. *)
Definition ex_forget (x : buffer_head) (h : journal_head) : buffer_head :=
  x <| buffer_jbd := true |> <| buffer_jbddirty := true |> <| b_private := Some h |>.
Definition ex_ending : kstate :=
  mk_kstate (ex_journal <| j_checkpoint_transactions := [3]%positive |> <| j_committing_transaction := Some 1%positive |>
               <| j_running_transaction := Some 2%positive |>)
    {[ 1%positive := ex_forget plain_buffer_head (ex_jh 2 BJ_Forget (Some 1%positive) None (Some 3%positive));
       2%positive := (ex_forget plain_buffer_head (ex_jh 1 BJ_Forget (Some 1%positive) None None)) <| buffer_freed := true |>;
       3%positive := ex_forget plain_buffer_head (ex_jh 1 BJ_Forget (Some 1%positive) (Some 2%positive) None) ]}
    {[ 1%positive := zero_transaction <| t_tid := 9 |> <| t_state := T_COMMIT_JFLUSH |> <| t_forget := [1; 2; 3]%positive |>;
       2%positive := zero_transaction <| t_tid := 10 |> <| t_state := T_RUNNING |>;
       3%positive := ex_finished 8 7 [1]%positive [] ]}.

Lemma commit_checkpoint_holds_witness :
  wp (commit_checkpoint (fun _ => true) (fun _ => kret tt) 3 1)
    (fun r s' => r = Some tt /\ cp_ok s' /\ held 1 false 1 s' /\ held 1 false 3 s' /\
       j_commit_sequence (k_journal s') = 9) ex_ending /\
  wp (commit_checkpoint (fun _ => true) (fun _ => kret tt) 3 1)
    (fun _ s' => j_checkpoint_transactions (k_journal s') = [1]%positive) ex_ending.
Proof.
  split; [|vm_compute; reflexivity].
  eapply wp_mono; [eapply (commit_checkpoint_holds (fun _ => 0) (fun _ => Z.le_refl 0) 1%positive 2%positive
    (fun _ => true) (fun _ => kret tt))|].
  - intros b s. unfold wp, kret. split_and!; [done|done|]. intros y. by left.
  - reflexivity.
  - split; [split| |].
    + apply wfb_sound. vm_compute. reflexivity.
    + apply cp_okb_sound. vm_compute. reflexivity.
    + eexists. split; [reflexivity|]. by split.
    + eexists. by split.
    + done.
    + done.
    + done.
    + intros y xy hy. apply ownb_sound. vm_compute. reflexivity.
    + intros y _. apply not_elem_of_nil.
  - cbn. lia.
  - intros r s' (-> & _ & Hok & _ & Hseq & _ & Hheld).
    split_and!; [done|done| | |done]; apply Hheld; vm_compute; [right|]; left.
Defined.
