(* ===== verification/CommitWhole.v ===== *)
(** * A commit from the metadata loop to its end

    The phases of [jbd2_vmsep_journal_commit_transaction] that Commit.v and
    CommitEnd.v model one by one, in the order of the code: entering the metadata loop,
    the loop, the publication of the next transaction, the wait for the
    log, the commit record, the move of the tail, the forget list and the end
    of the transaction; and what all of them together achieve.

    One invariant ([inv]) holds from phase to phase: the filing invariant, the
    checkpoint invariant, and the lists of the committing transaction.  An I/O
    error aborts the journal on the way but changes none of it. *)
From S2P Require Import Prelude Tid State Blist JournalHead Filing Log Handle Commit Checkpoint CommitEnd.

(** ** The phases in a row *)

(** The log blocks handed to the device. *)
Definition submitted_blocks (w : commit_locals) : list Z :=
  mjoin ((fun g => g_block g :: (g_data g).*1) <$> w_submitted w).

Section Whole.
Context (submit_sb : journal_t -> Z) (jiffies : Z) (j_inode : option (Z -> Z)) (copy_ok : bool).
Context (tag_bytes csum_size j_blocksize j_wbufsize : Z).
Context (io_ok : Z -> bool) (page_free : bh_id -> bool) (free_page : bh_id -> K kstate unit).

(** From the end of the loop to the end of phase 5. *)
Definition commit_seal (async : bool) (ret : Z) (revokes : list Z) (w : commit_locals) (ct rt : tr_id) : K kstate sealed :=
  tail <- commit_publish_next ct rt ;;
  commit_write_record submit_sb jiffies j_inode io_ok async ret ct (revokes ++ submitted_blocks w)
    (w_io_bufs w) (w_log_bufs w) tail.

(** Phases 2b to 7.  [revokes]: the revoke blocks, which are in [log_bufs] and
    submitted already; [async], [ret]: as for [commit_write_record]. *)
Definition commit_log (fuel : nat) (async : bool) (ret : Z) (revokes : list Z) (ct rt : tr_id)
  : K kstate (option (commit_locals * sealed)) :=
  commit_begin_logging ct ;;;
  r <- commit_loop submit_sb jiffies j_inode copy_ok tag_bytes csum_size j_blocksize j_wbufsize fuel ct rt
         (mk_locals None [] revokes []) ;;
  match r with
  | None => kret None
  | Some w =>
    seal <- commit_seal async ret revokes w ct rt ;;
    r <- commit_checkpoint page_free free_page fuel ct ;;
    kret (match r with Some _ => Some (w, seal) | None => None end)
  end.
End Whole.

Lemma wp_and {S A} (m : K S A) (P Q : A -> S -> Prop) s :
  wp m P s -> wp m Q s -> wp m (fun a s' => P a s' /\ Q a s') s.
Proof. unfold wp. by destruct (m s) as [[? ?]|]. Qed.

(** ** What errors leave alone *)

(** Everything but the request for a commit. *)
Definition work (tr : transaction_t) : transaction_t := tr <| t_requested := 0 |> <| ino_sync := 0 |>.

(** Buffers, lists and the transactions of the journal are as before. *)
Record same_work (s s' : kstate) : Prop := {
  sk_bufs : k_bufs s' = k_bufs s;
  sk_trans : work <$> k_trans s' = work <$> k_trans s;
  sk_running : j_running_transaction (k_journal s') = j_running_transaction (k_journal s);
  sk_committing : j_committing_transaction (k_journal s') = j_committing_transaction (k_journal s);
  sk_queue : j_checkpoint_transactions (k_journal s') = j_checkpoint_transactions (k_journal s);
}.

#[export] Instance same_work_preorder : PreOrder same_work.
Proof. split; [done|]. intros s1 s2 s3 [] []. split; congruence. Qed.

Lemma keeps_modify_journal_work f :
  (forall j, j_running_transaction (f j) = j_running_transaction j /\
     j_committing_transaction (f j) = j_committing_transaction j /\
     j_checkpoint_transactions (f j) = j_checkpoint_transactions j) ->
  keeps same_work (modify_journal f).
Proof. intros Hf s a s' [= <- <-]. destruct (Hf (k_journal s)) as (? & ? & ?). by split. Qed.

Lemma keeps_modify_tr_work t f : (forall tr, work (f tr) = work tr) -> keeps same_work (modify_tr t f).
Proof.
  intros Hf s a s'. unfold modify_tr. case_match eqn:E; [|done]. intros [= <- <-]. split; try done. cbn.
  rewrite fmap_insert, Hf. apply insert_id. by rewrite lookup_fmap, E.
Qed.

Ltac work_step :=
  lazymatch goal with
  | |- keeps _ (kbind _ _) => apply keeps_bind; [| | intros ?]
  | |- keeps _ (kret _) => apply keeps_ret
  | |- keeps _ (kfault _) => apply keeps_fault
  | |- keeps _ (j_assert _) => apply keeps_assert
  | |- keeps _ read_journal => apply keeps_read_journal
  | |- keeps _ (read_tr _) => apply keeps_read_tr
  | |- keeps _ (modify_tr _ _) => apply keeps_modify_tr_work; by intros []
  | |- keeps _ (modify_journal _) =>
      apply keeps_modify_journal_work; intros ?; repeat case_match; by split_and!
  | |- keeps _ (match _ with _ => _ end) => case_match
  | |- PreOrder _ => apply _
  end.
Ltac work_tac := repeat (work_step || (cbv zeta; work_step)); auto with vmsep.

Lemma log_start_commit_work jiffies target i : keeps same_work (__jbd2_vmsep_log_start_commit jiffies target i).
Proof. unfold __jbd2_vmsep_log_start_commit. work_tac. Qed.
#[export] Hint Resolve log_start_commit_work : vmsep.

Lemma abort_hard_work jiffies : keeps same_work (__jbd2_vmsep_journal_abort_hard jiffies).
Proof. unfold __jbd2_vmsep_journal_abort_hard. work_tac. Qed.
#[export] Hint Resolve abort_hard_work : vmsep.

Section Errors.
Context (submit_sb : journal_t -> Z) (jiffies : Z).

Lemma write_superblock_with_work abort :
  (forall e, keeps same_work (abort e)) -> keeps same_work (write_superblock_with submit_sb abort).
Proof. intros. unfold write_superblock_with, submit_superblock. work_tac. Qed.

Lemma abort_soft_work n errno : keeps same_work (__journal_abort_soft submit_sb jiffies n errno).
Proof.
  revert errno. induction n as [|n IH]; intros errno; cbn -[kbind]; work_tac;
    unfold update_sb_errno_with; work_tac; apply write_superblock_with_work; work_tac.
Qed.

Lemma abort_work errno : keeps same_work (jbd2_vmsep_journal_abort submit_sb jiffies errno).
Proof. apply abort_soft_work. Qed.

Lemma update_log_tail_work tid block : keeps same_work (jbd2_vmsep_update_log_tail submit_sb jiffies tid block).
Proof.
  unfold jbd2_vmsep_update_log_tail, __jbd2_vmsep_update_log_tail, jbd2_vmsep_journal_update_sb_log_tail. work_tac.
  all: apply write_superblock_with_work; intros; apply abort_soft_work.
Qed.
End Errors.
#[export] Hint Resolve abort_work update_log_tail_work : vmsep.

(** No phase before the forget list touches [BH_Freed]. *)
Definition same_freed (s s' : kstate) : Prop := buffer_freed <$> k_bufs s' = buffer_freed <$> k_bufs s.
#[export] Instance same_freed_preorder : PreOrder same_freed.
Proof. split; [done|]. unfold same_freed. intros s1 s2 s3. congruence. Qed.

Lemma same_freed_set s b x x' :
  k_bufs s !! b = Some x -> buffer_freed x' = buffer_freed x -> same_freed s (s <| k_bufs ::= <[b := x']> |>).
Proof. intros Hb Hx. unfold same_freed. cbn. rewrite fmap_insert, Hx. apply insert_id. by rewrite lookup_fmap, Hb. Qed.

Lemma keeps_modify_bh_freed b f : (forall x, buffer_freed (f x) = buffer_freed x) -> keeps same_freed (modify_bh b f).
Proof.
  intros Hf s a s'. unfold modify_bh. case_match eqn:E; [|done]. intros [= _ <-]. by eapply same_freed_set.
Qed.
Lemma keeps_modify_jh_freed b f : keeps same_freed (modify_jh b f).
Proof.
  intros s a s'. unfold modify_jh. case_match eqn:E; [|done]. case_match; [|done]. intros [= _ <-].
  by eapply same_freed_set.
Qed.
Lemma keeps_modify_tr_freed t f : keeps same_freed (modify_tr t f).
Proof. intros s a s'. unfold modify_tr. case_match; [|done]. by intros [= _ <-]. Qed.
Lemma keeps_modify_journal_freed f : keeps same_freed (modify_journal f).
Proof. by intros s a s' [= _ <-]. Qed.

Lemma work_freed s s' : same_work s s' -> same_freed s s'.
Proof. intros H. unfold same_freed. by rewrite (sk_bufs _ _ H). Qed.

Ltac freed_step :=
  lazymatch goal with
  | |- keeps _ (kbind _ _) => apply keeps_bind; [typeclasses eauto| |intros ?]
  | |- keeps _ (read_bh _) => apply keeps_read_bh; typeclasses eauto
  | |- keeps _ (read_jh _) => apply keeps_read_jh; typeclasses eauto
  | |- keeps _ (read_tr _) => apply keeps_read_tr; typeclasses eauto
  | |- keeps _ read_journal => apply keeps_read_journal; typeclasses eauto
  | |- keeps _ (modify_bh _ _) => apply keeps_modify_bh_freed; intros ?; repeat case_match; done
  | |- keeps _ (modify_jh _ _) => apply keeps_modify_jh_freed
  | |- keeps _ (modify_tr _ _) => apply keeps_modify_tr_freed
  | |- keeps _ (modify_journal _) => apply keeps_modify_journal_freed
  | |- keeps _ (jbd2_vmsep_journal_abort _ _ _) => intros ? ? ? ?; eapply work_freed, abort_work; eassumption
  | |- keeps _ (__journal_abort_soft _ _ _ _) => intros ? ? ? ?; eapply work_freed, abort_soft_work; eassumption
  | |- keeps _ (__jbd2_vmsep_journal_abort_hard _) => intros ? ? ? ?; eapply work_freed, abort_hard_work; eassumption
  | |- keeps _ (jbd2_vmsep_update_log_tail _ _ _ _) => intros ? ? ? ?; eapply work_freed, update_log_tail_work; eassumption
  | |- keeps _ (kret _) => apply keeps_ret; typeclasses eauto
  | |- keeps _ (kfault _) => apply keeps_fault
  | |- keeps _ (j_assert _) => apply keeps_assert; typeclasses eauto
  | |- keeps _ (if ?c then _ else _) => destruct c
  | |- keeps _ (match ?c with _ => _ end) => destruct c
  end.
Ltac freed_tac := repeat (freed_step || eauto with vmsep || (cbv zeta; freed_step)).

Lemma freed_temp_unlink b : keeps same_freed (__jbd2_journal_temp_unlink_buffer b).
Proof.
  unfold __jbd2_journal_temp_unlink_buffer, unlink_list, expose_dirty, is_journal_aborted,
    test_clear_buffer_jbddirty, clear_buffer_jbddirty, mark_buffer_dirty. freed_tac.
Qed.
#[local] Hint Resolve freed_temp_unlink : vmsep.

Lemma freed_file b t jl : keeps same_freed (__jbd2_vmsep_journal_file_buffer b t jl).
Proof.
  unfold __jbd2_vmsep_journal_file_buffer, test_clear_any_dirty, test_clear_buffer_dirty,
    test_clear_buffer_jbddirty, clear_buffer_dirty, clear_buffer_jbddirty, join_transaction,
    jbd2_vmsep_journal_grab_journal_head, link_list, set_buffer_jbddirty. freed_tac.
Qed.
Lemma freed_unfile b : keeps same_freed (__jbd2_journal_unfile_buffer b).
Proof.
  unfold __jbd2_journal_unfile_buffer, jbd2_vmsep_journal_put_journal_head, __journal_remove_journal_head, __brelse.
  freed_tac.
Qed.
#[local] Hint Resolve freed_file freed_unfile : vmsep.

Lemma freed_refile b : keeps same_freed (__jbd2_vmsep_journal_refile_buffer b).
Proof.
  unfold __jbd2_vmsep_journal_refile_buffer, take_next_transaction, test_clear_buffer_jbddirty,
    clear_buffer_jbddirty, set_buffer_jbddirty. freed_tac.
Qed.
#[local] Hint Resolve freed_refile : vmsep.

Section Freed.
Context (submit_sb : journal_t -> Z) (jiffies : Z) (j_inode : option (Z -> Z)) (copy_ok : bool).
Context (tag_bytes csum_size j_blocksize j_wbufsize : Z) (io_ok : Z -> bool).

Lemma freed_next_block : keeps same_freed (jbd2_vmsep_journal_next_log_block submit_sb jiffies j_inode).
Proof. unfold jbd2_vmsep_journal_next_log_block, take_log_block, jbd2_vmsep_journal_bmap. freed_tac. Qed.
#[local] Hint Resolve freed_next_block : vmsep.

Lemma freed_log_buffer ct b d w :
  keeps same_freed (log_buffer submit_sb jiffies j_inode copy_ok tag_bytes csum_size j_wbufsize ct b d w).
Proof. unfold log_buffer, jbd2_vmsep_journal_write_metadata_buffer, get_bh. freed_tac. Qed.
#[local] Hint Resolve freed_log_buffer : vmsep.

Lemma freed_loop fuel ct rt w :
  keeps same_freed (commit_loop submit_sb jiffies j_inode copy_ok tag_bytes csum_size j_blocksize j_wbufsize fuel ct rt w).
Proof.
  revert w. induction fuel as [|fuel IH]; intros w; cbn [commit_loop]; unfold commit_step, move_to_next,
    jbd2_vmsep_journal_unfile_buffer, jbd2_vmsep_journal_file_buffer, is_journal_aborted,
    clear_buffer_jbddirty, jbd2_vmsep_journal_refile_buffer, get_descriptor, get_bh, __brelse; freed_tac.
Qed.

Lemma freed_publish ct rt : keeps same_freed (commit_publish_next ct rt).
Proof. unfold commit_publish_next, jbd2_vmsep_journal_get_log_tail. freed_tac. Qed.

Lemma freed_wait ct submitted l err : keeps same_freed (wait_io_bufs io_ok ct submitted l err).
Proof.
  revert err. induction l as [|e l IH]; intros err; cbn [wait_io_bufs]; unfold wait_io_buf, journal_end_buffer_io_sync,
    jbd2_vmsep_journal_file_buffer, __brelse; freed_tac.
Qed.
#[local] Hint Resolve freed_wait : vmsep.

Lemma freed_record async ret ct submitted io log_bufs tail :
  keeps same_freed (commit_write_record submit_sb jiffies j_inode io_ok async ret ct submitted io log_bufs tail).
Proof.
  unfold commit_write_record, submit_record, journal_submit_commit_record, is_journal_aborted, get_descriptor. freed_tac.
Qed.
End Freed.

Lemma work_lookup s s' t tr :
  same_work s s' -> k_trans s !! t = Some tr -> exists tr', k_trans s' !! t = Some tr' /\ work tr' = work tr.
Proof.
  intros [_ Ht _ _ _] Htr. assert (work <$> k_trans s !! t = Some (work tr)) as H by (by rewrite Htr).
  rewrite <-lookup_fmap, <-Ht, lookup_fmap in H. by apply fmap_Some in H as (tr' & ? & ?); exists tr'.
Qed.

Lemma work_sym s s' : same_work s s' -> same_work s' s.
Proof. intros []. by split. Qed.

(** Two transactions that differ in the request only have the same lists. *)
Lemma work_lists tr tr' : work tr' = work tr ->
  (forall jl, list_of jl tr' = list_of jl tr) /\ cp_bufs tr' = cp_bufs tr /\ t_nr_buffers tr' = t_nr_buffers tr /\
  t_state tr' = t_state tr /\ t_tid tr' = t_tid tr /\ t_updates tr' = t_updates tr /\
  t_checkpoint_list tr' = t_checkpoint_list tr /\ t_checkpoint_io_list tr' = t_checkpoint_io_list tr.
Proof. destruct tr, tr'. unfold work. intros [= ]. simplify_eq. by split_and!. Qed.

Lemma has_jh_bufs s s' b x h : k_bufs s' = k_bufs s -> has_jh s' b x h <-> has_jh s b x h.
Proof. intros H. unfold has_jh. by rewrite H. Qed.

Lemma wf_work ext s s' : same_work s s' -> wf ext s -> wf ext s'.
Proof.
  intros Hs Hwf. pose proof (work_sym _ _ Hs) as Hs'. split; rewrite (sk_bufs _ _ Hs).
  - intros b x Hb. destruct (wf_bh _ _ Hwf b x Hb) as [Hj Hok]. split; [done|]. destruct (b_private x) as [h|].
    + eapply jh_ok_lists; [exact Hok| |].
      * intros t. split; intros [tr Ht]; [destruct (work_lookup s' s t tr Hs' Ht) as (tr' & ? & _)|
          destruct (work_lookup s s' t tr Hs Ht) as (tr' & ? & _)]; by exists tr'.
      * intros t tr Ht. destruct (work_lookup s' s t tr Hs' Ht) as (tr' & Ht' & Hw). exists tr'. split; [done|].
        intros jl. by rewrite (proj1 (work_lists _ _ Hw)).
    + intros t tr jl Ht. destruct (work_lookup s' s t tr Hs' Ht) as (tr' & Ht' & Hw).
      rewrite <-(proj1 (work_lists _ _ Hw)). by eapply Hok.
  - intros t tr Ht. destruct (work_lookup s' s t tr Hs' Ht) as (tr' & Ht' & Hw).
    destruct (work_lists _ _ Hw) as (Hl & _ & Hn & _). destruct (wf_tr _ _ Hwf t tr' Ht') as [H1 H2 H3]. split.
    + intros jl. by rewrite <-Hl.
    + pose proof (Hl BJ_Metadata) as Hm. cbn in Hm. rewrite <-Hm, <-Hn. done.
    + intros jl b. rewrite <-Hl. apply H3.
Qed.

Lemma cp_ok_work s s' : same_work s s' -> cp_ok s -> cp_ok s'.
Proof.
  intros Hs [[Hm Hhj Hl Hnd] Hq1 Hq2 Hq3 Hq4]. pose proof (work_sym _ _ Hs) as Hs'.
  pose proof (fun b x h => has_jh_bufs s s' b x h (sk_bufs _ _ Hs)) as Hjh.
  assert (forall t tr', k_trans s' !! t = Some tr' -> exists tr, k_trans s !! t = Some tr /\ cp_bufs tr' = cp_bufs tr /\
    t_state tr' = t_state tr) as Hback.
  { intros t tr' Ht. destruct (work_lookup s' s t tr' Hs' Ht) as (tr & Ht' & Hw). exists tr. split; [done|].
    destruct (work_lists _ _ Hw) as (_ & Hc & _ & Hst & _). done. }
  split; [split| | | |]; rewrite ?(sk_queue _ _ Hs).
  - intros b x h t tr' Hx%Hjh (tr & Ht & -> & _)%Hback. by eapply Hm.
  - intros t tr' b (tr & Ht & Hc & _)%Hback. rewrite Hc. intros Hin. destruct (Hhj t tr b Ht Hin) as (x & h & Hx).
    exists x, h. by apply Hjh.
  - intros b x h t Hx%Hjh Hc. destruct (Hl b x h t Hx Hc) as [tr Ht].
    destruct (work_lookup s s' t tr Hs Ht) as (tr' & ? & _). by exists tr'.
  - intros t tr' (tr & Ht & -> & _)%Hback. by eapply Hnd.
  - done.
  - intros t tr' (tr & Ht & _ & ->)%Hback. by apply Hq2.
  - intros t Hin. destruct (Hq3 t Hin) as (tr & Ht & Hne & (I1 & I2 & I3 & I4 & I5 & I6)).
    destruct (work_lookup s s' t tr Hs Ht) as (tr' & Ht' & Hw). exists tr'.
    destruct (work_lists _ _ Hw) as (Hls & Hc & _ & _ & _ & Hu & _). split_and!; [done|by rewrite Hc|].
    unfold cp_idle. rewrite (sk_running _ _ Hs), (sk_committing _ _ Hs), Hu.
    pose proof (Hls BJ_Metadata) as L1. pose proof (Hls BJ_Forget) as L2. pose proof (Hls BJ_Shadow) as L3. cbn in *.
    rewrite L1, L2, L3. done.
  - intros t b x h Hin Hx%Hjh. by eapply Hq4.
Qed.

(** ** The invariant of a commit under way *)

Section Inv.
Context (ext : bh_id -> Z) (Hext : forall b, 0 <= ext b) (ct rt : tr_id) (tid : tid_t).
(** The buffers that go to the log. *)
Context (L : bh_id -> Prop).

Lemma listed_jh s t tr jl b :
  wf ext s -> k_trans s !! t = Some tr -> b ∈ list_of jl tr ->
  exists x h, has_jh s b x h /\ b_transaction h = Some t /\ b_jlist h = jl.
Proof.
  intros Hwf Htr Hin. destruct (tr_bufs _ _ (wf_tr _ _ Hwf t tr Htr) jl b Hin) as [x Hb].
  pose proof (wf_bh _ _ Hwf b x Hb) as [_ Hok]. destruct (b_private x) as [h|] eqn:Hh; [|by apply (Hok t tr jl) in Hin].
  apply (jh_member _ _ _ _ Hok t tr jl Htr) in Hin as (? & ? & _). exists x, h. by split_and!.
Qed.

(** Filing a buffer again with the same transaction takes no reference. *)
Lemma jh_join_same h t jl : b_transaction h = Some t -> (jh_join h t) <| b_jlist := jl |> = h <| b_jlist := jl |>.
Proof. unfold jh_join. destruct h; cbn. intros ->. cbn. f_equal. lia. Qed.

(** The lists of the committing transaction. *)
Record lists (st : t_state_t) (meta sh fg : list bh_id) (tr : transaction_t) : Prop := {
  ll_state : t_state tr = st;
  ll_tid : t_tid tr = tid;
  ll_meta : t_buffers tr = meta;
  ll_shadow : t_shadow_list tr = sh;
  ll_forget : t_forget tr = fg;
  ll_reserved : t_reserved_list tr = [];
  ll_cp : t_checkpoint_list tr = [];
  ll_io : t_checkpoint_io_list tr = [];
  ll_updates : t_updates tr = 0;
}.

(** [run]: the running transaction of the journal. *)
Record inv (st : t_state_t) (run : option tr_id) (meta sh fg : list bh_id) (s : kstate) : Prop := {
  iv_wf : wf ext s;
  iv_cp : cp_ok s;
  iv_ct : exists tr, k_trans s !! ct = Some tr /\ lists st meta sh fg tr;
  iv_rt : exists tr, k_trans s !! rt = Some tr /\ t_state tr = T_RUNNING;
  iv_ne : ct <> rt;
  iv_committing : j_committing_transaction (k_journal s) = Some ct;
  iv_running : j_running_transaction (k_journal s) = run;
  iv_own y xy hy : has_jh s y xy hy -> b_next_transaction hy <> Some ct /\
    (b_transaction hy = Some ct ->
       (b_next_transaction hy = None \/ b_next_transaction hy = Some rt) /\ buffer_dirty xy = false /\
       b_jlist hy <> BJ_None /\ (L y -> buffer_jbddirty xy = true) /\
       (y ∈ sh -> buffer_shadow xy = true /\ buffer_jbddirty xy = true));
}.

Lemma inv_work st run meta sh fg s s' : inv st run meta sh fg s -> same_work s s' -> inv st run meta sh fg s'.
Proof.
  intros [Hwf Hok (tr & Htr & Hl) (rtr & Hrtr & Hrst) Hne Hc Hr Hown] Hs. split.
  - by eapply wf_work.
  - by eapply cp_ok_work.
  - destruct (work_lookup s s' ct tr Hs Htr) as (tr' & Htr' & Hw). exists tr'. split; [done|].
    destruct (work_lists _ _ Hw) as (Hls & _ & _ & Hst & Htid & Hu & Hc1 & Hc2). destruct Hl.
    split; [congruence|congruence| | | | |congruence..]; [rewrite <-ll_meta0; apply (Hls BJ_Metadata)|
      rewrite <-ll_shadow0; apply (Hls BJ_Shadow)|rewrite <-ll_forget0; apply (Hls BJ_Forget)|
      rewrite <-ll_reserved0; apply (Hls BJ_Reserved)].
  - destruct (work_lookup s s' rt rtr Hs Hrtr) as (tr' & Htr' & Hw). exists tr'. split; [done|].
    destruct (work_lists _ _ Hw) as (_ & _ & _ & Hst & _). congruence.
  - done.
  - by rewrite (sk_committing _ _ Hs).
  - by rewrite (sk_running _ _ Hs).
  - intros y xy hy Hy%(has_jh_bufs s s'); [by apply Hown|apply Hs].
Qed.

(** Neither transaction waits for a checkpoint. *)
Lemma inv_unqueued st run meta sh fg s :
  inv st run meta sh fg s -> st <> T_FINISHED ->
  ct ∉ j_checkpoint_transactions (k_journal s) /\ rt ∉ j_checkpoint_transactions (k_journal s).
Proof.
  intros Hi Hst. destruct (iv_ct _ _ _ _ _ _ Hi) as (tr & Ht & Hl), (iv_rt _ _ _ _ _ _ Hi) as (tr' & Ht' & Hst').
  pose proof (iv_cp _ _ _ _ _ _ Hi) as Hok.
  split; intros Hin; [apply (cp_finished _ Hok ct tr Ht) in Hin|apply (cp_finished _ Hok rt tr' Ht') in Hin];
    [rewrite (ll_state _ _ _ _ _ Hl) in Hin|]; congruence.
Qed.

(** What may become of a buffer of the committing transaction in one step. *)
Definition goes (sh' : list bh_id) (b : bh_id) (x' : buffer_head) (h' : journal_head) : Prop :=
  b_transaction h' = Some ct /\ (b_next_transaction h' = None \/ b_next_transaction h' = Some rt) /\
    buffer_dirty x' = false /\ b_jlist h' <> BJ_None /\ buffer_jbddirty x' = true /\
    (b ∈ sh' -> buffer_shadow x' = true) \/
  b_transaction h' = Some rt /\ b_next_transaction h' = None.

(** A step that changes one buffer of the committing transaction and the lists of
    the two transactions. *)
Lemma inv_step st run meta sh fg meta' sh' fg' s s' b x h x' h' rtr rtr' tr' :
  inv st run meta sh fg s -> st <> T_FINISHED -> has_jh s b x h ->
  wf ext s' -> k_bufs s' = <[b := x']> (k_bufs s) -> b_private x' = Some h' ->
  b_cp_transaction h' = b_cp_transaction h -> goes sh' b x' h' ->
  (forall y, y <> b -> y ∈ sh' -> y ∈ sh) ->
  k_trans s' !! ct = Some tr' -> lists st meta' sh' fg' tr' ->
  k_trans s !! rt = Some rtr -> k_trans s' !! rt = Some rtr' -> cp_bufs rtr' = cp_bufs rtr -> t_state rtr' = t_state rtr ->
  (forall t, t <> ct -> t <> rt -> k_trans s' !! t = k_trans s !! t) ->
  j_checkpoint_transactions (k_journal s') = j_checkpoint_transactions (k_journal s) ->
  j_committing_transaction (k_journal s') = j_committing_transaction (k_journal s) ->
  j_running_transaction (k_journal s') = j_running_transaction (k_journal s) ->
  inv st run meta' sh' fg' s'.
Proof.
  intros Hi Hst Hx Hwf' Hb Hp Hcp Hg Hsub Htr' Hl' Hrtr Hrtr' Hrc Hrs Hoth Hq Hjc Hjr.
  destruct (inv_unqueued _ _ _ _ _ _ Hi Hst) as [Hq1 Hq2]. pose proof Hi as [Hwf Hok (tr & Htr & Hl) _ Hne Hc Hr Hown].
  assert (cp_bufs tr' = cp_bufs tr) as Hcb by (unfold cp_bufs; destruct Hl, Hl'; congruence).
  destruct s' as [j' bufs' trs']. kst. subst bufs'. split; kst; try done.
  - eapply (cp_ok_step s j' b x h); try done.
    + intros h2 Hh2. replace h2 with h' by congruence. split; [done|]. intros t Hin.
      destruct Hg as [(-> & Hn & _)|[-> ->]]; split; try congruence. destruct Hn as [-> | ->]; congruence.
    + congruence.
    + intros t Hin. apply Hoth; congruence.
    + intros t tr2 Ht2. destruct (decide (t = ct)) as [->|Hnct]; [exists tr; split_and!; [done|congruence|]|].
      { replace tr2 with tr' by congruence. destruct Hl, Hl'. congruence. }
      destruct (decide (t = rt)) as [->|Hnrt]; [exists rtr; split_and!; congruence|].
      rewrite Hoth in Ht2 by done. by exists tr2.
    + intros t Hlv. destruct (decide (t = ct)) as [->|]; [by eexists|]. destruct (decide (t = rt)) as [->|]; [by eexists|].
      by rewrite Hoth.
  - by exists tr'.
  - exists rtr'. split; [done|]. destruct (iv_rt _ _ _ _ _ _ Hi) as (rtr0 & ? & ?). congruence.
  - congruence.
  - congruence.
  - intros y xy hy [Hy Hh]. kst. apply lookup_insert_Some in Hy as [[<- <-]|[Hny Hy]].
    + replace hy with h' by congruence. destruct Hg as [(Hg1 & Hg2 & Hg3 & Hg4 & Hg5 & Hg6)|[Hg1 Hg2]].
      * split; [destruct Hg2 as [-> | ->]; congruence|]. intros _. split_and!; auto.
      * split; congruence.
    + destruct (Hown y xy hy) as [Hn Ho]; [done|]. split; [done|]. intros Ht. destruct (Ho Ht) as (? & ? & ? & ? & Hs).
      split_and!; [done..|]. intros Hin. apply Hs, Hsub; [congruence|done].
Qed.

(** ** The metadata loop *)

(** The log blocks of the data written so far. *)
Definition data_blocks (w : commit_locals) : list Z :=
  mjoin ((fun g => (g_data g).*1) <$> w_submitted w) ++
  match w_descriptor w with Some d => (d_data d).*1 | None => [] end.

(** The local variables say which buffers are in the log, and where. *)
Record tracks (revokes : list Z) (sh : list bh_id) (w : commit_locals) : Prop := {
  tk_io : (w_io_bufs w).*1 = sh;
  tk_data : (w_io_bufs w).*2 = data_blocks w;
  tk_log : w_log_bufs w = revokes ++ (g_block <$> w_submitted w) ++ option_list (d_block <$> w_descriptor w);
}.

Lemma tracks_submit revokes sh seq last w : tracks revokes sh w -> tracks revokes sh (submit seq last w).
Proof.
  intros [H1 H2 H3]. unfold submit. destruct (w_descriptor w) as [d|] eqn:Hd; [|split; try done; by rewrite Hd].
  unfold data_blocks in H2. rewrite Hd in *.
  split; cbn; [done|unfold data_blocks; cbn; rewrite H2|rewrite H3]; rewrite fmap_app; cbn.
  - rewrite join_app. cbn. by rewrite !app_nil_r.
  - by rewrite app_nil_r.
Qed.

Lemma tracks_open revokes sh blk n w :
  w_descriptor w = None -> tracks revokes sh w ->
  tracks revokes sh (mk_locals (Some (mk_open blk [] [] n true)) (w_io_bufs w) (w_log_bufs w ++ [blk]) (w_submitted w)).
Proof.
  intros Hd [H1 H2 H3]. unfold data_blocks in H2. rewrite Hd in *.
  split; cbn; [done|by unfold data_blocks; cbn; rewrite H2|rewrite H3; cbn]. by rewrite app_nil_r, <-app_assoc.
Qed.

Lemma tracks_add revokes sh w d b blk tb home data e :
  w_descriptor w = Some d -> tracks revokes sh w ->
  tracks revokes (sh ++ [b]) (mk_locals (Some (add_tag tb home blk data e d)) (w_io_bufs w ++ [(b, blk)])
                                (w_log_bufs w) (w_submitted w)).
Proof.
  intros Hd [H1 H2 H3]. unfold data_blocks in H2. rewrite Hd in *. split; cbn.
  - by rewrite fmap_app, H1.
  - unfold data_blocks. cbn. by rewrite !fmap_app, H2, app_assoc.
  - by rewrite H3.
Qed.

Section Loop.
Context (submit_sb : journal_t -> Z) (jiffies : Z) (j_inode : option (Z -> Z)).
Context (tag_bytes csum_size j_blocksize j_wbufsize : Z).
Context (own : bh_id -> bool) (ent : bh_id -> entry).
Abbreviation step := (commit_step submit_sb jiffies j_inode true tag_bytes csum_size j_blocksize j_wbufsize).
Abbreviation loop := (commit_loop submit_sb jiffies j_inode true tag_bytes csum_size j_blocksize j_wbufsize).

Lemma inv_other b l sh fg s w :
  ready ext ct rt own ent (b :: l) s -> own b = false -> inv T_COMMIT None (b :: l) sh fg s ->
  wp (step ct rt w b) (fun w' s' => w' = w /\ inv T_COMMIT None l sh fg s') s.
Proof.
  intros Hrd Hob Hi.
  destruct (ready_head ext ct rt own ent b l s Hrd) as (x & h & tr & Hlg & Htr & Hl & Hown & Hnin & _ & Hd & Hn & Hx0 & Href).
  destruct Hlg as (Hx & Ht & Hjl & Hjd). pose proof Hx as [Hb Hh].
  destruct (rd_rt_live _ _ _ _ _ _ _ Hrd) as [rtr Hrtr]. pose proof (iv_ne _ _ _ _ _ _ Hi) as Hne.
  unfold commit_step. wp_step. wp_step. wp_step. wp_step. rewrite <-Hown, Hob. cbn [negb]. wp_step.
  eapply wp_mono; [eapply (move_to_next_spec ext s b x h ct rt); try done; [..|by apply Href|]; try apply Hrd|].
  intros _ s' (Hwf' & Hj' & (x' & h' & Hx' & Hb' & Ht' & Hl' & _ & Hn' & Hc' & _) & Htrs'). wp_step. split; [done|].
  destruct (iv_ct _ _ _ _ _ _ Hi) as (tr0 & Htr0 & Hls). replace tr0 with tr in Hls by congruence.
  eapply (inv_step _ _ _ _ _ _ _ _ s s' b x h x' h' rtr (tr_link b BJ_Metadata rtr) (tr_unlink b BJ_Metadata tr));
    try done; try (by rewrite Hj'); try apply Hx'.
  - by right.
  - by rewrite Htrs', lookup_alter_ne, lookup_alter_eq, Htr.
  - destruct Hls. split; cbn; try done. rewrite Hl. by apply blist_del_head.
  - by rewrite Htrs', lookup_alter_eq, lookup_alter_ne, Hrtr.
  - intros t Hnct Hnrt. by rewrite Htrs', !lookup_alter_ne by done.
Qed.

Lemma inv_log b l sh fg s x h d w revokes :
  inv T_COMMIT None (b :: l) sh fg s -> loggable s ct b x h -> buffer_dirty x = false ->
  b_next_transaction h = None -> b ∉ l -> mapped j_inode -> 1 < j_free (k_journal s) ->
  w_descriptor w = Some d -> tracks revokes sh w ->
  wp (log_buffer submit_sb jiffies j_inode true tag_bytes csum_size j_wbufsize ct b d w)
    (fun w' s' => inv T_COMMIT None l (sh ++ [b]) fg s' /\ tracks revokes (sh ++ [b]) w') s.
Proof.
  intros Hi Hlg Hd Hn Hnin Hm Hf Hdesc Htk. pose proof Hlg as (Hx & Ht & Hjl & Hjd).
  destruct (iv_ct _ _ _ _ _ _ Hi) as (tr & Htr & Hls), (iv_rt _ _ _ _ _ _ Hi) as (rtr & Hrtr & _).
  pose proof (iv_ne _ _ _ _ _ _ Hi) as Hne.
  eapply wp_mono; [eapply log_buffer_spec; [apply Hi|exact Hlg|by eexists|done|done]|].
  intros w' s' (Hwf' & [(x' & h' & Hx' & Hb' & Ht' & Hl' & Hsw) Htrs'] & Hj' & tr' & Htr' & Hw'). split.
  - assert (tr' = tr_link b BJ_Shadow (tr_unlink b BJ_Metadata
      (tr <| t_outstanding_credits := t_outstanding_credits tr - 1 |>))) as Htr2.
    { rewrite Htrs', lookup_alter_eq, Htr in Htr'. by injection Htr' as <-. }
    eapply (inv_step _ _ _ _ _ _ _ _ s s' b x h x' h' rtr rtr tr'); try done; try apply Hx'.
    + apply Hsw.
    + left. rewrite (sw_next _ _ _ _ Hsw), Hn. split_and!; [done|by left|by apply Hsw|by rewrite Hl'|by apply Hsw|]. intros _. apply Hsw.
    + intros y Hy [?|?%list_elem_of_singleton]%elem_of_app; done.
    + rewrite Htr2. destruct Hls. split; cbn; try done; [rewrite ll_meta0; by apply blist_del_head|].
      by rewrite ll_shadow0.
    + by rewrite Htrs', lookup_alter_ne.
    + intros t Hnct Hnrt. by rewrite Htrs', lookup_alter_ne by done.
    + rewrite Hj'. unfold take_block. by case_match.
    + rewrite Hj'. unfold take_block. by case_match.
    + rewrite Hj'. unfold take_block. by case_match.
  - cbv zeta in Hw'. subst w'. destruct (must_submit _ _ _ _ _); [apply tracks_submit|]; by apply tracks_add.
Qed.

Lemma inv_own b l sh fg s w revokes :
  ready ext ct rt own ent (b :: l) s -> own b = true -> mapped j_inode ->
  inv T_COMMIT None (b :: l) sh fg s -> tracks revokes sh w ->
  wp (step ct rt w b)
    (fun w' s' => inv T_COMMIT None l (sh ++ [b]) fg s' /\ tracks revokes (sh ++ [b]) w') s.
Proof.
  intros Hrd Hob Hm Hi Htk.
  destruct (ready_head ext ct rt own ent b l s Hrd) as (x & h & tr & Hlg & Htr & Hl & Hown & Hnin & _ & Hd & Hn & _).
  pose proof Hlg as (Hx & _). pose proof Hx as [Hb Hh].
  pose proof (rd_free _ _ _ _ _ _ _ Hrd) as Hfree. rewrite filter_cons, decide_True in Hfree by done.
  cbn [length] in Hfree. pose proof (rd_abort _ _ _ _ _ _ _ Hrd) as Ha. pose proof (rd_log _ _ _ _ _ _ _ Hrd) as Hlog.
  unfold commit_step. wp_step. wp_step. wp_step. wp_step. rewrite <-Hown, Hob. cbn [negb]. unfold is_journal_aborted.
  wp_step. wp_step. wp_step. wp_step. rewrite Ha.
  destruct (w_descriptor w) as [d|] eqn:Hdesc; [by eapply inv_log; try done; lia|].
  unfold get_descriptor. wp_step. eapply wp_exec; [apply next_log_block_exec; [done|lia]|].
  cbn [fst snd]. wp_step. cbn [Z.eqb]. destruct (take_block_fields _ Hlog ltac:(lia)) as (Hfr & _).
  eapply inv_log; try done; [|kst; lia|by apply tracks_open].
  eapply inv_work; [exact Hi|]. split; kst; try done; unfold take_block; by case_match.
Qed.

(** The loop as a whole. *)
Lemma inv_loop l : forall sh fg s w fuel revokes,
  ready ext ct rt own ent l s -> mapped j_inode -> locals_ok w -> (length l <= fuel)%nat ->
  inv T_COMMIT None l sh fg s -> tracks revokes sh w ->
  wp (loop fuel ct rt w)
    (fun r s' => exists w', r = Some w' /\
       inv T_COMMIT None [] (sh ++ filter (fun b => own b = true) l) fg s' /\
       tracks revokes (sh ++ filter (fun b => own b = true) l) w' /\ locals_ok w') s.
Proof.
  induction l as [|b l IH]; intros sh fg s w fuel revokes Hrd Hm Hw Hfuel Hi Htk.
  - destruct (iv_ct _ _ _ _ _ _ Hi) as (tr & Htr & Hls). pose proof (ll_meta _ _ _ _ _ Hls) as Hl.
    destruct fuel; cbn [commit_loop]; wp_step; wp_step; rewrite Hl; wp_step; exists w; by rewrite app_nil_r.
  - destruct fuel as [|fuel]; [cbn in Hfuel; lia|]. cbn in Hfuel.
    destruct (iv_ct _ _ _ _ _ _ Hi) as (tr & Htr & Hls). pose proof (ll_meta _ _ _ _ _ Hls) as Hl.
    cbn [commit_loop]. wp_step. wp_step. rewrite Hl. wp_step. rewrite filter_cons. destruct (own b) eqn:Hob.
    + rewrite decide_True by done.
      eapply wp_mono; [apply wp_and; [by eapply step_own|by eapply inv_own]|].
      intros w1 s1 ((Hrd1 & _ & Hw1 & _) & Hi1 & Htk1).
      eapply wp_mono; [apply (IH (sh ++ [b])); try done; lia|]. by rewrite <-!app_assoc.
    + rewrite decide_False by done.
      eapply wp_mono; [apply wp_and; [by eapply step_other|by eapply inv_other]|].
      intros w1 s1 ((-> & Hrd1 & _) & _ & Hi1). eapply wp_mono; [apply (IH sh); try done; lia|]. done.
Qed.
End Loop.

(** ** From one state of the transaction to the next *)

Lemma inv_set st run st' run' meta sh fg s j' tr tr' :
  inv st run meta sh fg s -> st <> T_FINISHED -> st' <> T_FINISHED -> run' = None \/ run' = Some rt ->
  k_trans s !! ct = Some tr -> t_nr_buffers tr' = t_nr_buffers tr -> lists st' meta sh fg tr' ->
  j_checkpoint_transactions j' = j_checkpoint_transactions (k_journal s) ->
  j_committing_transaction j' = Some ct -> j_running_transaction j' = run' ->
  inv st' run' meta sh fg (mk_kstate j' (k_bufs s) (<[ct := tr']> (k_trans s))).
Proof.
  intros Hi Hst Hst' Hrun' Htr Hnr Hl' Hq Hjc Hjr. destruct (inv_unqueued _ _ _ _ _ _ Hi Hst) as [Hq1 Hq2].
  pose proof Hi as [Hwf Hok (tr0 & Htr0 & Hl) (rtr & Hrtr & Hrst) Hne Hc Hr Hown].
  replace tr0 with tr in * by congruence. clear tr0 Htr0.
  assert (forall t tr2, <[ct := tr']> (k_trans s) !! t = Some tr2 ->
    exists tr1, k_trans s !! t = Some tr1 /\ cp_bufs tr2 = cp_bufs tr1) as Hback.
  { intros t tr2 [[<- <-]|[_ ?]]%lookup_insert_Some; [|by exists tr2]. exists tr. split; [done|].
    unfold cp_bufs. destruct Hl, Hl'. congruence. }
  split; kst; try done.
  - eapply wf_set_credits; [done|done| |done]. intros []; cbn; destruct Hl, Hl'; congruence.
  - destruct Hok as [[Hm Hhj Hlv Hnd] Hqu1 Hqu2 Hqu3 Hqu4]. split; [split| | | |]; kst; rewrite ?Hq; try done.
    + intros y xy hy t tr2 Hy (tr1 & Ht & ->)%Hback. by eapply Hm.
    + intros t tr2 y (tr1 & Ht & Hcb)%Hback. rewrite Hcb. by apply (Hhj t tr1).
    + intros y xy hy t Hy Hcp. apply lookup_insert_is_Some'. right. by eapply Hlv.
    + intros t tr2 (tr1 & Ht & ->)%Hback. by eapply Hnd.
    + intros t tr2 [[<- <-]|[_ Ht]]%lookup_insert_Some; [|by apply Hqu2].
      split; [done|]. intros Hf. destruct Hl'. congruence.
    + intros t Hin. destruct (Hqu3 t Hin) as (tr2 & Ht & Hb & (I1 & I2 & I3 & I4 & I5 & I6)). exists tr2.
      rewrite lookup_insert_ne by congruence. split_and!; try done. unfold cp_idle. rewrite Hjc, Hjr.
      split_and!; try done; [congruence|]. destruct Hrun' as [-> | ->]; congruence.
  - exists tr'. by rewrite lookup_insert_eq.
  - exists rtr. by rewrite lookup_insert_ne.
Qed.

Lemma lists_state st st' meta sh fg tr :
  lists st meta sh fg tr -> lists st' meta sh fg (tr <| t_state := st' |>).
Proof. intros []. by split. Qed.

(** Entering the loop: the state changes, and the assertion on the credits holds. *)
Lemma inv_begin st meta sh fg s tr :
  inv st None meta sh fg s -> st <> T_FINISHED -> k_trans s !! ct = Some tr ->
  t_nr_buffers tr <= t_outstanding_credits tr ->
  wp (commit_begin_logging ct)
    (fun _ s' => inv T_COMMIT None meta sh fg s' /\
       s' = mk_kstate (k_journal s) (k_bufs s) (<[ct := tr <| t_state := T_COMMIT |>]> (k_trans s))) s.
Proof.
  intros Hi Hst Htr Hcr. destruct (iv_ct _ _ _ _ _ _ Hi) as (tr0 & Htr0 & Hl). replace tr0 with tr in * by congruence.
  unfold commit_begin_logging. wp_step. eapply wp_modify_tr; [done|]. wp_step.
  eapply wp_read_tr; [cbn; by rewrite lookup_insert_eq|]. apply wp_assert; [by apply Z.leb_le|]. kst. split; [|done].
  eapply inv_set; try done; [by left|by eapply lists_state|apply Hi|apply Hi].
Qed.

Lemma get_log_tail_pure st run meta sh fg s :
  inv st run meta sh fg s -> wp jbd2_vmsep_journal_get_log_tail (fun _ s' => s' = s) s.
Proof.
  intros Hi. destruct (iv_ct _ _ _ _ _ _ Hi) as (tr & Htr & _). unfold jbd2_vmsep_journal_get_log_tail. wp_step. wp_step.
  rewrite (iv_committing _ _ _ _ _ _ Hi). wp_step. destruct (j_checkpoint_transactions (k_journal s)) as [|t q] eqn:Hq.
  - wp_step. eapply wp_read_tr; [done|]. by wp_step.
  - destruct (cp_queued _ (iv_cp _ _ _ _ _ _ Hi) t) as (tr' & Htr' & _); [rewrite Hq; by left|].
    wp_step. eapply wp_read_tr; [done|]. by wp_step.
Qed.

(** The next transaction becomes the running one. *)
Lemma inv_publish sh fg s :
  inv T_COMMIT None [] sh fg s ->
  wp (commit_publish_next ct rt) (fun _ s' => inv T_COMMIT_DFLUSH (Some rt) [] sh fg s' /\
    k_journal s' = (k_journal s) <| j_running_transaction := Some rt |> /\
    forall tr, k_trans s !! ct = Some tr -> k_trans s' !! ct = Some (tr <| t_state := T_COMMIT_DFLUSH |>)) s.
Proof.
  intros Hi. destruct (iv_ct _ _ _ _ _ _ Hi) as (tr & Htr & Hl). unfold commit_publish_next. wp_step.
  eapply wp_mono; [by eapply get_log_tail_pure|]. intros [[ut ft] fb] s' ->. wp_step. wp_step. wp_step.
  eapply wp_read_tr; [done|]. wp_step. apply wp_assert; [apply bool_decide_true, Hl|].
  wp_step. eapply wp_modify_tr; [done|]. wp_step. wp_step. wp_step. kst. split_and!; [|done|].
  - eapply inv_set; try done; [by right|by eapply lists_state|apply Hi].
  - intros tr' Htr'. rewrite lookup_insert_eq. congruence.
Qed.

(** ** Waiting for the log *)

Section Wait.
Context (io_ok : Z -> bool) (submitted : list Z).

(** A block that was written releases its buffer to the forget list. *)
Lemma inv_wait sh fg s b blk err :
  inv T_COMMIT_DFLUSH (Some rt) [] (sh ++ [b]) fg s -> blk ∈ submitted ->
  wp (wait_io_buf io_ok ct submitted (b, blk) err)
    (fun r s' => r = (if io_ok blk then err else - EIO) /\ inv T_COMMIT_DFLUSH (Some rt) [] sh (fg ++ [b]) s' /\
       k_journal s' = k_journal s) s.
Proof.
  intros Hi Hsub. pose proof Hi as [Hwf Hok (tr & Htr & Hl) (rtr & Hrtr & Hrst) Hne Hc Hr Hown].
  destruct (listed_jh s ct tr BJ_Shadow b Hwf Htr) as (x & h & Hx & Ht & Hjl).
  { cbn. rewrite (ll_shadow _ _ _ _ _ Hl). set_solver. }
  pose proof Hx as [Hb Hh]. destruct (Hown b x h Hx) as [Hnct Ho]. destruct (Ho Ht) as (Hnx & Hd & _ & _ & Hs).
  destruct Hs as [Hshd Hjd]; [set_solver|].
  assert (b ∉ sh) as Hnin.
  { pose proof (tr_nodup _ _ (wf_tr _ _ Hwf ct tr Htr) BJ_Shadow) as Hnd. cbn in Hnd.
    rewrite (ll_shadow _ _ _ _ _ Hl) in Hnd. apply NoDup_app in Hnd as (_ & Hnd & _). intros Hin. apply (Hnd b Hin). by left. }
  unfold wait_io_buf, journal_end_buffer_io_sync. cbn [fst snd]. rewrite bool_decide_true by done. wp_step.
  eapply wp_modify_bh; [done|]. wp_step. eapply wp_read_tr; [done|]. rewrite (ll_shadow _ _ _ _ _ Hl), last_snoc.
  wp_step. eapply wp_modify_bh; [cbn; by rewrite lookup_insert_eq|]. kst. rewrite insert_insert_eq.
  set (x1 := x <| buffer_shadow := false |> <| buffer_jwrite := false |>).
  set (s1 := mk_kstate (k_journal s) (<[b := x1]> (k_bufs s)) (k_trans s)).
  assert (wf ext s1) as Hwf1 by (by eapply wf_flags).
  assert (has_jh s1 b x1 h) as Hx1 by (by apply has_jh_upd).
  wp_step. eapply wp_read_bh; [apply Hx1|]. wp_step. apply wp_assert; [done|]. wp_step. apply wp_assert; [done|].
  wp_step. eapply wp_mono; [eapply (file_buffer_spec ext s1 b x1 h ct BJ_Forget); [done|done|by exists tr|done|by left|]|].
  { intros [_ ?]. congruence. }
  intros _ s2 (Hwf2 & Hj2 & (x2 & Hx2 & Hb2 & Hjd2 & Hd2) & Htrs2). rewrite (jh_join_same h ct BJ_Forget Ht) in Hx2.
  wp_step. eapply wp_mono; [by eapply brelse_spec|].
  intros _ s3 (Hwf3 & Hj3 & Htrs3 & x3 & Hx3 & Hb3 & Hd3 & Hjd3). wp_step. split_and!; [done| |by rewrite Hj3, Hj2].
  rewrite Hjl in Htrs2. change (k_trans s1) with (k_trans s) in Htrs2.
  eapply (inv_step _ _ _ _ _ _ _ _ s s3 b x h x3 (h <| b_jlist := BJ_Forget |>) rtr rtr); try done.
  - rewrite Hb3, Hb2. subst s1. kst. by rewrite !insert_insert_eq.
  - apply Hx3.
  - left. cbn. split_and!; [done|done| |done| |done].
    + rewrite Hd3. apply Hd2. cbn. by rewrite Hd.
    + rewrite Hjd3, Hjd2. cbn. rewrite Hjd. apply orb_true_r.
  - set_solver.
  - rewrite Htrs3, Htrs2, lookup_alter_eq, Htr. cbn. by rewrite decide_True by (by rewrite Ht).
  - destruct Hl. split; cbn; try done.
    + rewrite ll_shadow0. by apply blist_del_last.
    + by rewrite ll_forget0.
  - by rewrite Htrs3, Htrs2, lookup_alter_ne.
  - intros t Hnt _. by rewrite Htrs3, Htrs2, lookup_alter_ne.
  - by rewrite Hj3, Hj2.
  - by rewrite Hj3, Hj2.
  - by rewrite Hj3, Hj2.
Qed.

(** A block that was never handed to the device stops the machine: its buffer is
    still marked as under I/O. *)
Lemma wait_unsubmitted sh fg s b blk err :
  inv T_COMMIT_DFLUSH (Some rt) [] (sh ++ [b]) fg s -> blk ∉ submitted ->
  wait_io_buf io_ok ct submitted (b, blk) err s = Fault Assert.
Proof.
  intros Hi Hsub. pose proof Hi as [Hwf Hok (tr & Htr & Hl) _ _ _ _ Hown].
  destruct (listed_jh s ct tr BJ_Shadow b Hwf Htr) as (x & h & Hx & Ht & _).
  { cbn. rewrite (ll_shadow _ _ _ _ _ Hl). set_solver. }
  destruct (Hown b x h Hx) as [_ Ho]. destruct (Ho Ht) as (_ & _ & _ & _ & Hs). destruct Hs as [Hshd Hjd]; [set_solver|].
  destruct Hx as [Hb Hh]. unfold wait_io_buf. cbn [fst snd]. rewrite bool_decide_false by done.
  unfold kbind, kret, read_tr, modify_bh, read_bh. rewrite Htr, (ll_shadow _ _ _ _ _ Hl), last_snoc, Hb. cbn.
  rewrite lookup_insert_eq. cbn. unfold j_assert. by rewrite Hjd, Hshd.
Qed.

(** The phase as a whole, when all blocks were handed to the device. *)
Lemma inv_wait_all io : forall fg s err,
  inv T_COMMIT_DFLUSH (Some rt) [] io.*1 fg s -> (forall e, e ∈ io -> e.2 ∈ submitted) ->
  wp (wait_io_bufs io_ok ct submitted (reverse io) err)
    (fun r s' => r = (if forallb io_ok io.*2 then err else - EIO) /\
       inv T_COMMIT_DFLUSH (Some rt) [] [] (fg ++ reverse io.*1) s' /\ k_journal s' = k_journal s) s.
Proof.
  induction io as [|[b blk] io IH] using rev_ind; intros fg s err Hi Hsub.
  - destruct (iv_ct _ _ _ _ _ _ Hi) as (tr & Htr & Hl). cbn. wp_step. eapply wp_read_tr; [done|].
    wp_step. apply wp_assert; [apply bool_decide_true, Hl|]. wp_step. split_and!; [done| |done]. by rewrite app_nil_r.
  - rewrite reverse_snoc. cbn [wait_io_bufs]. rewrite fmap_app in Hi. cbn in Hi.
    wp_step. eapply wp_mono; [apply inv_wait; [exact Hi|apply (Hsub (b, blk)); set_solver]|].
    intros r s1 (-> & Hi1 & Hj1). eapply wp_mono; [apply IH; [exact Hi1|intros e He; apply Hsub; set_solver]|].
    intros r s2 (-> & Hi2 & Hj2). split_and!; [| |congruence].
    + rewrite fmap_app, forallb_app. cbn. rewrite andb_true_r. destruct (forallb io_ok io.*2), (io_ok blk); done.
    + rewrite fmap_app, reverse_app. cbn. by rewrite <-app_assoc in Hi2.
Qed.

(** One block that was not stops it. *)
Lemma wait_all_unsubmitted io : forall fg s err,
  inv T_COMMIT_DFLUSH (Some rt) [] io.*1 fg s -> (exists e, e ∈ io /\ e.2 ∉ submitted) ->
  wait_io_bufs io_ok ct submitted (reverse io) err s = Fault Assert.
Proof.
  induction io as [|[b blk] io IH] using rev_ind; intros fg s err Hi (e & He & Hne); [by apply elem_of_nil in He|].
  rewrite reverse_snoc. cbn [wait_io_bufs]. rewrite fmap_app in Hi. cbn in Hi.
  destruct (decide (blk ∈ submitted)) as [Hin|Hnin]; [|apply bind_fault; by eapply wait_unsubmitted].
  destruct (proj1 (wp_returns _ _ _) (inv_wait _ _ _ _ _ err Hi Hin)) as (r & s1 & Hrun & _ & Hi1 & _).
  rewrite (bind_ret _ _ _ _ _ Hrun). eapply IH; [exact Hi1|]. exists e. split; [|done]. 
  apply elem_of_app in He as [?| ->%list_elem_of_singleton]; done.
Qed.
End Wait.

(** ** The commit record *)

Section Record.
Context (submit_sb : journal_t -> Z) (jiffies : Z) (j_inode : option (Z -> Z)) (io_ok : Z -> bool).

Lemma inv_live st meta sh fg s : inv st (Some rt) meta sh fg s -> running_live s.
Proof.
  intros Hi t Ht. destruct (iv_rt _ _ _ _ _ _ Hi) as (tr & Htr & _). rewrite (iv_running _ _ _ _ _ _ Hi) in Ht.
  injection Ht as <-. by eexists.
Qed.

(** After an error the journal is aborted, and that is all. *)
Lemma inv_check st meta sh fg s err :
  inv st (Some rt) meta sh fg s ->
  wp (if err =? 0 then kret tt else jbd2_vmsep_journal_abort submit_sb jiffies err)
    (fun _ s' => inv st (Some rt) meta sh fg s' /\
       (j_free (k_journal s') = j_free (k_journal s) /\ j_head (k_journal s') = j_head (k_journal s)) /\
       JBD2_ABORT (k_journal s') = JBD2_ABORT (k_journal s) || negb (err =? 0)) s.
Proof.
  intros Hi. apply wp_if; intros He; rewrite He; cbn [negb]; [wp_step; by rewrite orb_false_r|].
  eapply wp_mono; [apply (wp_keeps same_log), (wp_keeps same_work), (abort_soft_exec _ _ 0 err); by
    eauto using abort_soft_same_log, abort_soft_work, inv_live|].
  intros _ s' (([Ha _] & Hw) & Hlog). rewrite Ha, orb_true_r. split_and!; [by eapply inv_work|..|done]; unfold same_log in Hlog; by dest.
Qed.

Lemma inv_submit st meta sh fg s ret :
  inv st (Some rt) meta sh fg s -> mapped j_inode -> 1 < j_free (k_journal s) ->
  wp (submit_record submit_sb jiffies j_inode ret)
    (fun r s' => inv st (Some rt) meta sh fg s' /\
       (if JBD2_ABORT (k_journal s) then r = (0, None) else r = (ret, Some (physical j_inode (j_head (k_journal s))))) /\
       JBD2_ABORT (k_journal s') = JBD2_ABORT (k_journal s) || negb (ret =? 0)) s.
Proof.
  intros Hi Hm Hf. unfold submit_record, journal_submit_commit_record, is_journal_aborted.
  wp_step. wp_step. wp_step. wp_step. wp_step. destruct (JBD2_ABORT (k_journal s)) eqn:Ha.
  { wp_step. cbn. repeat wp_step. by rewrite Ha. }
  unfold get_descriptor. wp_step. eapply wp_exec; [by apply next_log_block_exec|]. cbn [fst snd]. wp_step. cbn [Z.eqb].
  wp_step. cbn [fst snd]. set (s1 := mk_kstate _ _ _).
  assert (inv st (Some rt) meta sh fg s1) as Hi1
    by (eapply inv_work; [exact Hi|]; split; try done; subst s1; kst; unfold take_block; by case_match).
  assert (JBD2_ABORT (k_journal s1) = false) as Ha1 by (subst s1; kst; unfold take_block; by case_match).
  wp_step. apply wp_if; intros Hr.
  - wp_step. wp_step. split_and!; [done|done|]. by rewrite Hr.
  - eapply wp_mono; [apply (wp_keeps same_work), abort_hard_exec; by eauto using abort_hard_work, inv_live|].
    intros _ s2 [[Ha2 _] Hw]. wp_step. split_and!; [by eapply inv_work|done|]. by rewrite Ha2, Hr.
Qed.

Lemma inv_tail st meta sh fg s ut ft fb :
  inv st (Some rt) meta sh fg s ->
  wp (if ut : bool then jbd2_vmsep_update_log_tail submit_sb jiffies ft fb else kret 0)
    (fun r s' => inv st (Some rt) meta sh fg s' /\
       JBD2_ABORT (k_journal s') = JBD2_ABORT (k_journal s) || negb (r =? 0) /\ (r <> 0 -> exists j, submit_sb j = r)) s.
Proof.
  intros Hi. destruct ut; [|wp_step; by rewrite orb_false_r].
  eapply wp_mono; [apply (wp_keeps same_work _ (fun r s' =>
       JBD2_ABORT (k_journal s') = JBD2_ABORT (k_journal s) || negb (r =? 0) /\ (r <> 0 -> exists j, submit_sb j = r)));
    [apply update_log_tail_work|]|].
  2: { intros r s' [? ?]. split; [by eapply inv_work|done]. }
  unfold jbd2_vmsep_update_log_tail, __jbd2_vmsep_update_log_tail, jbd2_vmsep_journal_update_sb_log_tail.
  wp_step. wp_step. apply wp_if; intros _; [|wp_step; by rewrite orb_false_r]. wp_step. wp_step. wp_step. wp_step.
  eapply wp_mono; [apply write_superblock_exec|].
  { intros t Ht. kst. by eapply inv_live. }
  intros r s1 [-> Hs1]. destruct (submit_sb _ =? 0) eqn:E; cbv iota.
  - wp_step. wp_step. wp_step. cbn [Z.eqb]. wp_step. wp_step. wp_step. subst s1. cbn. by rewrite orb_false_r.
  - wp_step. rewrite E. wp_step. rewrite Hs1, E, orb_true_r. split; [done|]. intros _. by eexists.
Qed.

(** From the record on; [blk]: its block. *)
Lemma inv_after fg s e blk tail :
  inv T_COMMIT_JFLUSH (Some rt) [] [] fg s ->
  let err := match blk with Some blk => journal_wait_on_commit_record io_ok blk | None => e end in
  wp ((if err =? 0 then kret tt else jbd2_vmsep_journal_abort submit_sb jiffies err) ;;;
      let '(update_tail, first_tid, first_block) := tail in
      terr <- (if update_tail : bool then jbd2_vmsep_update_log_tail submit_sb jiffies first_tid first_block else kret 0) ;;
      kret (mk_sealed blk terr))
    (fun r s' => inv T_COMMIT_JFLUSH (Some rt) [] [] fg s' /\ cbh r = blk /\
       (JBD2_ABORT (k_journal s') = false <-> JBD2_ABORT (k_journal s) = false /\ err = 0 /\ tail_err r = 0) /\
       (tail_err r <> 0 -> exists j, submit_sb j = tail_err r)) s.
Proof.
  intros Hi err. wp_step. eapply wp_mono; [by apply inv_check|]. intros _ s1 (Hi1 & _ & Ha1). destruct tail as [[ut ft] fb].
  wp_step. eapply wp_mono; [by apply inv_tail|]. intros r s2 (Hi2 & Ha2 & Hz2). wp_step. split_and!; [done|done| |done].
  rewrite Ha2, Ha1, !orb_false_iff, !negb_false_iff, !Z.eqb_eq. cbn. tauto.
Qed.

(** The record is written to the block at the head of the log, and the journal is left unaborted exactly if it was so before, all
    blocks of the transaction and the record are on the device, and the superblock too if the tail moved. *)
Definition sealed_ok (ret : Z) (logged : bool) (s : kstate) (r : sealed) (s' : kstate) : Prop :=
  (JBD2_ABORT (k_journal s') = false <->
     JBD2_ABORT (k_journal s) = false /\ logged = true /\ ret = 0 /\ (exists blk, cbh r = Some blk /\ io_ok blk = true) /\ tail_err r = 0) /\
  (forall blk, cbh r = Some blk -> blk = physical j_inode (j_head (k_journal s))) /\
  (tail_err r <> 0 -> exists j, submit_sb j = tail_err r).

Lemma record_waited blk : journal_wait_on_commit_record io_ok blk = 0 <-> io_ok blk = true.
Proof. unfold journal_wait_on_commit_record. by destruct (io_ok blk). Qed.

Lemma inv_record async ret submitted log_bufs tail io fg s :
  inv T_COMMIT_DFLUSH (Some rt) [] io.*1 fg s -> (forall e, e ∈ io -> e.2 ∈ submitted) ->
  mapped j_inode -> 1 < j_free (k_journal s) ->
  let logged := forallb io_ok io.*2 && forallb (fun blk => negb (bool_decide (blk ∈ submitted)) || io_ok blk) log_bufs in
  wp (commit_write_record submit_sb jiffies j_inode io_ok async ret ct submitted io log_bufs tail)
    (fun r s' => inv T_COMMIT_JFLUSH (Some rt) [] [] (fg ++ reverse io.*1) s' /\ sealed_ok ret logged s r s') s.
Proof.
  intros Hi Hsub Hm Hf logged. unfold commit_write_record. wp_step.
  assert (wp (if async then submit_record submit_sb jiffies j_inode ret else kret (0, None))
    (fun r s1 => inv T_COMMIT_DFLUSH (Some rt) [] io.*1 fg s1 /\
       if async then (if JBD2_ABORT (k_journal s) then r = (0, None) else r = (ret, Some (physical j_inode (j_head (k_journal s))))) /\
                     JBD2_ABORT (k_journal s1) = JBD2_ABORT (k_journal s) || negb (ret =? 0)
       else r = (0, None) /\ s1 = s) s) as Hearly.
  { destruct async; [|by wp_step]. eapply wp_mono; [by apply inv_submit|]. by intros r s1 (? & ? & ?). }
  eapply wp_mono; [exact Hearly|]. clear Hearly. intros early s1 [Hi1 Hearly]. wp_step.
  eapply wp_mono; [by apply inv_wait_all|]. intros err s2 (-> & Hi2 & Hj2).
  assert (wait_log_bufs io_ok submitted log_bufs (if forallb io_ok io.*2 then early.1 else - EIO) =
          if logged then early.1 else - EIO) as ->.
  { unfold wait_log_bufs, logged. by destruct (forallb io_ok io.*2), (forallb _ log_bufs). }
  wp_step. eapply wp_mono; [by apply inv_check|]. intros _ s3 (Hi3 & [Hf3 Hh3] & Ha3). rewrite Hj2 in *.
  destruct (iv_ct _ _ _ _ _ _ Hi3) as (tr & Htr & Hl). wp_step. eapply wp_read_tr; [done|].
  wp_step. apply wp_assert; [apply bool_decide_true, Hl|]. wp_step. eapply wp_modify_tr; [done|].
  set (s4 := mk_kstate _ _ _).
  assert (inv T_COMMIT_JFLUSH (Some rt) [] [] (fg ++ reverse io.*1) s4) as Hi4
    by (eapply inv_set; try done; [by right|by eapply lists_state|apply Hi3|apply Hi3]).
  assert (k_journal s4 = k_journal s3) as Hj4 by done. rewrite <-Hj4 in Ha3, Hf3, Hh3. clearbody s4. wp_step. destruct async.
  - destruct Hearly as [Hr1 Ha1]. wp_step.
    eapply wp_mono; [exact (inv_after _ _ (if logged then early.1 else - EIO) early.2 tail Hi4)|].
    intros r s5 (Hi5 & Hcb & Hiff & Hz5). split; [done|]. rewrite Ha3, Ha1, !orb_false_iff, !negb_false_iff, !Z.eqb_eq in Hiff.
    split_and!; [|rewrite Hcb; intros blk Hb; destruct (JBD2_ABORT (k_journal s)); subst early; cbn in Hb; congruence|done].
    rewrite Hiff, Hcb. clear -Hr1. destruct (JBD2_ABORT (k_journal s)); subst early; cbn;
      [split; [intros [[[? _] _] _]|intros [? _]]; discriminate|]. rewrite record_waited. destruct logged; cbn.
    + split; [intros [[[_ ->] _] [? ?]]; eauto 8|]. intros (_ & _ & -> & (blk & [= <-] & ?) & ?). by split_and!.
    + split; [intros [[_ ?] _]|intros (_ & ? & _)]; discriminate.
  - destruct Hearly as [-> ->]. cbn [fst snd] in *.
    eapply wp_mono; [apply inv_submit; [exact Hi4|done|lia]|]. intros r s5 (Hi5 & Hr5 & Ha5).
    eapply wp_mono; [exact (inv_after _ _ r.1 r.2 tail Hi5)|]. intros rs s6 (Hi6 & Hcb & Hiff & Hz6).
    split; [done|]. rewrite Ha5, Ha3, !orb_false_iff, !negb_false_iff, !Z.eqb_eq in Hiff. rewrite Ha3, Hh3 in Hr5.
    assert (((if logged then 0 else - EIO) =? 0) = logged) as El by (by destruct logged). rewrite El in Hr5.
    split_and!; [|rewrite Hcb; intros blk Hb; destruct (JBD2_ABORT (k_journal s)), logged; cbn in Hr5; subst r; cbn in Hb; congruence|done].
    rewrite Hiff, Hcb. clear -Hr5. destruct (JBD2_ABORT (k_journal s)), logged; cbn in Hr5; subst r; cbn;
      try (split; [intros [[[? ?] ?] ?]|intros (? & ? & ?)]; discriminate). rewrite record_waited.
    split; [intros [[_ ->] [? ?]]; eauto 8|]. intros (_ & _ & -> & (blk & [= <-] & ?) & ?). by split_and!.
Qed.
End Record.


(** ** The forget list is all that is left *)

Lemma inv_ending fg s :
  inv T_COMMIT_JFLUSH (Some rt) [] [] fg s -> ending ext ct rt fg [] s.
Proof.
  intros [Hwf Hok (tr & Htr & Hl) Hrt Hne Hc Hr Hown]. split.
  - split; try done. exists tr. split; [done|]. destruct Hl. by split.
  - intros y xy hy Hy. destruct (Hown y xy hy Hy) as [Hn Ho]. split; [done|]. intros Ht.
    destruct (Ho Ht) as (Hnx & Hd & Hjl & _). split_and!; [|done|done]. destruct Hy as [Hb Hh].
    destruct (wf_jh _ _ _ _ _ Hwf Hb Hh) as [_ Hj].
    pose proof (proj2 (jh_member _ _ _ _ Hj ct tr (b_jlist hy) Htr) (conj Ht (conj eq_refl Hjl))) as Hin.
    destruct Hl. destruct (b_jlist hy); cbn in Hin; rewrite ?ll_meta0, ?ll_shadow0, ?ll_forget0, ?ll_reserved0 in Hin;
      try (by apply elem_of_nil in Hin). done.
  - intros y _. apply not_elem_of_nil.
Qed.

(** Only the state of the transaction changed. *)
Lemma ready_state own ent l s st tr :
  ready ext ct rt own ent l s -> k_trans s !! ct = Some tr ->
  ready ext ct rt own ent l (mk_kstate (k_journal s) (k_bufs s) (<[ct := tr <| t_state := st |>]> (k_trans s))).
Proof.
  intros [Hwf Hne Hct Hlv Hrt Hb Ha Hlog Hf] Htr. split; kst; try done.
  - eapply wf_set_credits; [done|done|by intros []|done].
  - rewrite lookup_insert_eq. intros tr' [= <-]. exact (Hct tr Htr).
  - rewrite lookup_insert_eq. by eexists.
  - by rewrite lookup_insert_ne.
  - intros b Hin. destruct (Hb b Hin) as (x & h & tr' & Hx & Htr' & Hown & Hrest). replace tr' with tr in * by congruence.
    eexists x, h, _. split_and!; [exact Hx|by rewrite lookup_insert_eq|done|apply Hrest..].
Qed.
End Inv.

(** A buffer of the forget list that is dirty for the journal and was not freed
    is to be written back. *)
Lemma dirty_needed ext ct rt tid L fg s s0 b x0 x h :
  inv ext ct rt tid L T_COMMIT_JFLUSH (Some rt) [] [] fg s -> L b -> has_jh s b x h -> b_transaction h = Some ct ->
  same_freed s0 s -> k_bufs s0 !! b = Some x0 -> buffer_freed x0 = false -> needs_in s b = true.
Proof.
  intros Hi HL Hx Ht Hfr Hb0 Hf0. destruct (iv_own _ _ _ _ _ _ _ _ _ _ _ Hi b x h Hx) as [_ Ho].
  destruct (Ho Ht) as (_ & _ & _ & Hjd & _). rewrite (needs_in_jh s b x h Hx). unfold needs_cp. rewrite (Hjd HL).
  destruct Hx as [Hb _]. unfold same_freed in Hfr. apply (f_equal (lookup b)) in Hfr.
  rewrite !lookup_fmap, Hb, Hb0 in Hfr. cbn in Hfr. injection Hfr as ->. by rewrite Hf0.
Qed.

(** The data blocks and descriptors of a transaction whose descriptors are all submitted. *)
Lemma tracks_submitted revokes sh w :
  tracks revokes sh w -> locals_ok w -> pending w = [] ->
  (w_io_bufs w).*2 = mjoin ((fun g => (g_data g).*1) <$> w_submitted w) /\
  (forall e, e ∈ w_io_bufs w -> e.2 ∈ submitted_blocks w) /\
  (forall blk, blk ∈ submitted_blocks w -> blk ∈ (w_io_bufs w).*2 \/ blk ∈ w_log_bufs w).
Proof.
  intros [_ Hd Hl] Hw Hp.
  assert (data_blocks w = mjoin ((fun g => (g_data g).*1) <$> w_submitted w)) as Hdb.
  { unfold data_blocks, pending, locals_ok in *. destruct (w_descriptor w) as [d|]; [|by rewrite app_nil_r].
    unfold entries in Hp. destruct (d_data d), (d_tags d); try done. by rewrite app_nil_r. }
  rewrite Hdb in Hd. split_and!; [done| |].
  - intros e He. assert (e.2 ∈ (w_io_bufs w).*2) as Hin by (by apply list_elem_of_fmap_2).
    rewrite Hd in Hin. unfold submitted_blocks. clear -Hin.
    induction (w_submitted w) as [|g gs IH]; [done|]. cbn in *. apply elem_of_app in Hin. set_solver.
  - intros blk. rewrite Hd, Hl. unfold submitted_blocks. clear.
    induction (w_submitted w) as [|g gs IH]; [by intros ?%elem_of_nil|]. cbn. intros [->|[?|?%IH]%elem_of_app]%elem_of_cons; set_solver.
Qed.


(** The waits see an error exactly when one of the blocks was not written. *)
Lemma logged_all io_ok revokes sh w :
  tracks revokes sh w -> locals_ok w -> pending w = [] ->
  forallb io_ok (w_io_bufs w).*2 &&
    forallb (fun blk => negb (bool_decide (blk ∈ revokes ++ submitted_blocks w)) || io_ok blk) (w_log_bufs w) =
  forallb io_ok (revokes ++ submitted_blocks w).
Proof.
  intros Htk Hw Hpend. destruct (tracks_submitted _ _ _ Htk Hw Hpend) as (Hdata & Hin & Hblk).
  apply eq_true_iff_eq. rewrite andb_true_iff, !forallb_forall. split.
  - intros [Hio Hlb] blk Hbk%list_elem_of_In. assert (blk ∈ (w_io_bufs w).*2 \/ blk ∈ w_log_bufs w) as [Hd1|Hl1].
    { apply elem_of_app in Hbk as [Hrv|?]; [|by apply Hblk]. right. rewrite (tk_log _ _ _ Htk). set_solver. }
    + by apply Hio, list_elem_of_In.
    + apply list_elem_of_In, Hlb in Hl1. by rewrite bool_decide_true in Hl1.
  - intros Hall. split; intros blk Hbk.
    + apply Hall, list_elem_of_In, elem_of_app. right. apply list_elem_of_In, list_elem_of_fmap in Hbk as (e & -> & He). by apply Hin.
    + case_bool_decide as Hs; [|done]. by apply Hall, list_elem_of_In.
Qed.

Section Close.
Context (submit_sb : journal_t -> Z) (jiffies : Z) (j_inode : option (Z -> Z)) (io_ok : Z -> bool).
Context (ext : bh_id -> Z) (Hext : forall b, 0 <= ext b) (ct rt : tr_id) (tid : tid_t) (L : bh_id -> Prop).

(** [commit_seal] leaves the journal unaborted exactly when everything the loop submitted and the record
    are on the device. *)
Lemma seal_spec async ret revokes w fg sh s :
  inv ext ct rt tid L T_COMMIT None [] sh fg s -> tracks revokes sh w -> locals_ok w -> pending w = [] ->
  mapped j_inode -> 1 < j_free (k_journal s) ->
  wp (commit_seal submit_sb jiffies j_inode io_ok async ret revokes w ct rt)
    (fun r s' => inv ext ct rt tid L T_COMMIT_JFLUSH (Some rt) [] [] (fg ++ reverse sh) s' /\ same_freed s s' /\
       sealed_ok submit_sb j_inode io_ok ret (forallb io_ok (revokes ++ submitted_blocks w)) s r s') s.
Proof.
  intros Hi Htk Hw Hpend Hm Hf. destruct (tracks_submitted _ _ _ Htk Hw Hpend) as (_ & Hin & _).
  unfold commit_seal. wp_step. eapply wp_mono; [apply (wp_keeps same_freed); [apply freed_publish|by eapply inv_publish]|].
  intros tail s3 ((Hi3 & Hj3 & _) & Hfr3). rewrite <-(logged_all io_ok revokes sh w Htk Hw Hpend). rewrite <-(tk_io _ _ _ Htk) in *.
  eapply wp_mono; [apply (wp_keeps same_freed); [apply freed_record|eapply inv_record; [exact Hext|exact Hi3| |exact Hm|]]|].
  { intros e Hie. apply elem_of_app. right. by apply Hin. }
  { by rewrite Hj3. }
  intros r s4 ((Hi4 & Hok) & Hfr4). split_and!; [done|by etrans|]. unfold sealed_ok in *. rewrite Hj3 in Hok. exact Hok.
Qed.

Context (page_free : bh_id -> bool) (free_page : bh_id -> K kstate unit) (Hfree : frees_unjournalled free_page).

(** The rest of the commit, after [commit_seal]. *)
Lemma close_spec fuel fg s :
  inv ext ct rt tid L T_COMMIT_JFLUSH (Some rt) [] [] fg s -> (length fg <= fuel)%nat ->
  wp (commit_checkpoint page_free free_page fuel ct)
    (fun r s' => r = Some tt /\ wf ext s' /\ cp_ok s' /\ j_committing_transaction (k_journal s') = None /\
       j_running_transaction (k_journal s') = Some rt /\ j_commit_sequence (k_journal s') = tid /\
       JBD2_ABORT (k_journal s') = JBD2_ABORT (k_journal s) /\
       forall s0 b x0, same_freed s0 s -> k_bufs s0 !! b = Some x0 -> buffer_freed x0 = false -> L b -> b ∈ fg ->
         held ct (JBD2_ABORT (k_journal s')) b s') s.
Proof.
  intros Hi Hfuel. destruct (iv_ct _ _ _ _ _ _ _ _ _ _ _ Hi) as (tr & Htr & Hl). pose proof (ll_forget _ _ _ _ _ _ Hl) as Hfg.
  eapply wp_mono; [eapply (commit_checkpoint_spec ext Hext ct rt page_free free_page Hfree fuel s tr Htr)|].
  { rewrite Hfg. by eapply inv_ending. }
  { by rewrite Hfg. }
  intros r s' (-> & Hwf & Hok & Hc & Hseq & _ & Hheld & Ha & Hr). split_and!; try done.
  - by rewrite Hseq, (ll_tid _ _ _ _ _ _ Hl).
  - intros s0 b x0 Hfr Hb0 Hf0 HL Hin. rewrite Ha. apply Hheld, elem_of_reverse, list_elem_of_filter. rewrite Hfg. split; [|done].
    destruct (listed_jh ext s ct tr BJ_Forget b (iv_wf _ _ _ _ _ _ _ _ _ _ _ Hi) Htr) as (x & h & Hx & Ht & _);
      [by cbn; rewrite Hfg|]. by eapply (dirty_needed ext ct rt tid L _ s s0 b x0).
Qed.
End Close.

(** Checking the invariant of a concrete state. *)
Definition inv_ownb (ct rt : tr_id) (logged sh : list bh_id) (y : bh_id) (xy : buffer_head) : bool :=
  match b_private xy with
  | None => true
  | Some hy => negb (bool_decide (b_next_transaction hy = Some ct)) &&
    (negb (bool_decide (b_transaction hy = Some ct)) ||
       (bool_decide (b_next_transaction hy = None) || bool_decide (b_next_transaction hy = Some rt)) &&
       negb (buffer_dirty xy) && negb (bool_decide (b_jlist hy = BJ_None)) &&
       (negb (bool_decide (y ∈ logged)) || buffer_jbddirty xy) &&
       (negb (bool_decide (y ∈ sh)) || buffer_shadow xy && buffer_jbddirty xy))
  end.

Lemma inv_ownb_sound ct rt logged sh s y xy hy :
  bool_decide (map_Forall (fun y xy => inv_ownb ct rt logged sh y xy = true) (k_bufs s)) = true -> has_jh s y xy hy ->
  b_next_transaction hy <> Some ct /\
  (b_transaction hy = Some ct ->
     (b_next_transaction hy = None \/ b_next_transaction hy = Some rt) /\ buffer_dirty xy = false /\
     b_jlist hy <> BJ_None /\ (y ∈ logged -> buffer_jbddirty xy = true) /\
     (y ∈ sh -> buffer_shadow xy = true /\ buffer_jbddirty xy = true)).
Proof.
  rewrite bool_decide_eq_true. intros Hall [Hy Hh]. specialize (Hall y xy Hy). unfold inv_ownb in Hall.
  rewrite Hh, andb_true_iff, negb_true_iff, bool_decide_eq_false in Hall. destruct Hall as [Hn Ho]. split; [done|].
  intros Ht. rewrite (bool_decide_true (b_transaction hy = Some ct)) in Ho by done. cbn [negb orb] in Ho.
  rewrite !andb_true_iff, !orb_true_iff, !andb_true_iff, !negb_true_iff, !bool_decide_eq_true, !bool_decide_eq_false in Ho.
  naive_solver.
Qed.

(** ** Properties *)

(** C2: A commit from its metadata loop to its end.  When the last metadata buffer belongs to the synchronised
    inode and there is log space and credit, the commit runs to its end
    without stopping the machine, whatever the device does: the blocks of the inode, and only they, are
    submitted to the log, in order; the transaction is no longer the committing one, its id is the
    last one committed and the next transaction is the running one; both invariants hold; every logged buffer
    that was not freed is on the checkpoint list of the transaction and, unless the journal
    is aborted, dirty or part of the running transaction.  The journal is not aborted exactly
    if all log blocks and the commit record, which was submitted with success, have reached the
    device, and the superblock too if the tail of the log was moved. *)
Theorem commit_log_commits submit_sb jiffies j_inode tag_bytes csum_size j_blocksize j_wbufsize io_ok page_free free_page
    ext ct rt own ent l fg s fuel async ret revokes tr :
  (forall b, 0 <= ext b) -> frees_unjournalled free_page -> mapped j_inode ->
  ready ext ct rt own ent l s -> k_trans s !! ct = Some tr ->
  inv ext ct rt (t_tid tr) (fun b => b ∈ l) T_FLUSH None l [] fg s ->
  t_nr_buffers tr <= t_outstanding_credits tr -> (length l + length fg <= fuel)%nat ->
  (forall l0 b, l = l0 ++ [b] -> own b = true) ->
  wp (commit_log submit_sb jiffies j_inode true tag_bytes csum_size j_blocksize j_wbufsize io_ok page_free free_page
        fuel async ret revokes ct rt)
    (fun r s' => exists w seal, r = Some (w, seal) /\ wf ext s' /\ cp_ok s' /\
       submitted w = ent <$> filter (fun b => own b = true) l /\
       j_committing_transaction (k_journal s') = None /\ j_running_transaction (k_journal s') = Some rt /\
       j_commit_sequence (k_journal s') = t_tid tr /\
       (forall b x h, b ∈ l -> own b = true -> has_jh s b x h -> buffer_freed x = false ->
          held ct (JBD2_ABORT (k_journal s')) b s') /\
       (JBD2_ABORT (k_journal s') = false <->
          ret = 0 /\ (forall blk, blk ∈ revokes ++ submitted_blocks w -> io_ok blk = true) /\
          (exists record, cbh seal = Some record /\ io_ok record = true) /\ tail_err seal = 0) /\
       (tail_err seal <> 0 -> exists j, submit_sb j = tail_err seal)) s.
Proof.
  intros Hext Hfree Hm Hrd Htr Hi Hcr Hfuel Hlast. unfold commit_log. wp_step.
  eapply wp_mono; [by eapply inv_begin|]. intros _ s1 [Hi1 Hs1].
  assert (ready ext ct rt own ent l s1) as Hrd1 by (rewrite Hs1; by apply ready_state).
  assert (same_freed s s1) as Hfr1 by (by rewrite Hs1).
  set (w0 := mk_locals None [] revokes []).
  assert (tracks revokes [] w0) as Hw0 by (split; cbn; by rewrite ?app_nil_r). wp_step.
  eapply wp_mono; [apply (wp_keeps same_freed); [apply freed_loop|]; apply wp_and;
    [apply (loop_spec _ _ _ _ _ _ _ ext ct rt own ent l _ w0 fuel Hrd1 Hm I); lia|
     apply (inv_loop ext ct rt (t_tid tr) (fun b => b ∈ l) _ _ _ _ _ _ _ own ent l [] fg _ w0 fuel revokes Hrd1 Hm I);
       [lia|exact Hi1|exact Hw0]]|].
  intros r s2 (((w & -> & Hrd2 & _ & He & Hnil & Hp) & (w' & [= <-] & Hi2 & Htk & Hw)) & Hfr2). cbn [app] in Hi2, Htk, He.
  assert (pending w = []) as Hpend.
  { destruct l as [|b l' _] using rev_ind; [by rewrite (Hnil eq_refl)|]. by eapply Hp, Hlast. }
  rewrite Hpend, app_nil_r in He. assert (JBD2_ABORT (k_journal s2) = false) as Ha2 by apply Hrd2.
  pose proof (rd_free _ _ _ _ _ _ _ Hrd2) as Hf2. cbn in Hf2.
  wp_step. eapply wp_mono; [eapply seal_spec; try done; lia|]. intros seal s4 (Hi4 & Hfr4 & Hsafe & _ & Htail).
  wp_step. eapply wp_mono; [eapply (close_spec ext Hext ct rt _ _ page_free free_page Hfree fuel _ s4 Hi4)|].
  { rewrite length_app, length_reverse. pose proof (length_filter (fun b => own b = true) l). lia. }
  intros r s5 (-> & Hwf5 & Hok5 & Hc5 & Hr5 & Hseq5 & Ha5 & Hheld). wp_step. exists w, seal. split_and!; try done.
  - intros b x h Hb Hob [Hx _] Hfreed. eapply (Hheld s b x); try done.
    + by repeat (etrans; [eassumption|]).
    + apply elem_of_app. right. by apply elem_of_reverse, list_elem_of_filter.
  - rewrite Ha5, Hsafe, forallb_forall. setoid_rewrite list_elem_of_In. tauto.
Qed.

(** Transaction 1 commits inode 42, transaction 3 waits for the write-back of buffer 1.  Buffer 1
    belongs to inode 7, buffer 2 to inode 42. *)
Definition ex_whole (l : list bh_id) : kstate :=
  mk_kstate (ex_journal <| j_committing_transaction := Some 1%positive |> <| j_checkpoint_transactions := [3]%positive |>)
    {[ 1%positive := ex_bh ex_other true; 2%positive := ex_own_bh ]}
    {[ 1%positive := zero_transaction <| t_tid := 7 |> <| t_state := T_FLUSH |> <| ino_sync := 42 |>
                       <| t_nr_buffers := 2 |> <| t_buffers := l |> <| t_outstanding_credits := 4 |>;
       2%positive := zero_transaction <| t_tid := 8 |> <| t_state := T_RUNNING |>;
       3%positive := ex_finished 6 7 [1]%positive [] ]}.

Lemma ex_whole_ready l :
  l = [1; 2]%positive \/ l = [2; 1]%positive -> ready (fun _ => 0) 1 2 ex_own_p ex_ent l (ex_whole l).
Proof.
  intros Hl. split.
  - apply wfb_sound. destruct Hl as [-> | ->]; vm_compute; reflexivity.
  - done.
  - by intros tr [= <-].
  - by eexists.
  - by eexists.
  - intros b Hb. assert (b = 1%positive \/ b = 2%positive) as [-> | ->] by (destruct Hl; subst; set_solver).
    + exists (ex_bh ex_other true), ex_other. eexists. split_and!; try done; by left.
    + exists ex_own_bh, ex_own. eexists. by split_and!.
  - done.
  - apply log_okb_sound. reflexivity.
  - destruct Hl as [-> | ->]; vm_compute; reflexivity.
Qed.

Lemma ex_whole_inv l :
  l = [1; 2]%positive \/ l = [2; 1]%positive ->
  inv (fun _ => 0) 1 2 7 (fun b => b ∈ l) T_FLUSH None l [] [] (ex_whole l).
Proof.
  intros Hl. split.
  - by apply (rd_wf _ 1 2 ex_own_p ex_ent l), ex_whole_ready.
  - apply cp_okb_sound. destruct Hl as [-> | ->]; vm_compute; reflexivity.
  - eexists. split; [reflexivity|]. by split.
  - eexists. by split.
  - done.
  - done.
  - done.
  - intros y xy hy. apply inv_ownb_sound. destruct Hl as [-> | ->]; vm_compute; reflexivity.
Qed.

Lemma commit_log_commits_witness :
  wp (commit_log (fun _ => 0) 0 None true 16 4 1024 64 (fun _ => true) (fun _ => true) (fun _ => kret tt)
        2 false 0 [] 1 2)
    (fun r s' => cp_ok s' /\ j_commit_sequence (k_journal s') = 7 /\ JBD2_ABORT (k_journal s') = false /\
       held 1 false 2 s' /\ exists w seal record, r = Some (w, seal) /\ cbh seal = Some record) (ex_whole [1; 2]%positive).
Proof.
  eapply wp_mono; [apply (wp_and _ (fun _ s' => JBD2_ABORT (k_journal s') = false)); [vm_compute; reflexivity|];
    eapply (commit_log_commits (fun _ => 0) 0 None 16 4 1024 64 (fun _ => true) (fun _ => true)
    (fun _ => kret tt) (fun _ => 0) 1 2 ex_own_p ex_ent [1; 2]%positive [])|].
  - done.
  - intros b s. unfold wp, kret. split_and!; [done|done|]. intros y. by left.
  - by intros f b [=].
  - apply ex_whole_ready. by left.
  - reflexivity.
  - apply ex_whole_inv. by left.
  - vm_compute. discriminate.
  - cbn. lia.
  - intros [|b0 [|b1 [|]]] b [= ]; by subst.
  - intros r s' (Ha & w & seal & -> & _ & Hok & _ & _ & _ & Hseq & Hheld & Hiff & _).
    destruct (proj1 Hiff Ha) as (_ & _ & (record & Hrec & _) & _). rewrite Ha in *.
    split_and!; [done|done|done| |by exists w, seal, record]. apply (Hheld 2%positive ex_own_bh ex_own); [set_solver|done|by split|done].
Defined.

(** ** A descriptor that is never submitted *)

Section Open.
Context (submit_sb : journal_t -> Z) (jiffies : Z) (j_inode : option (Z -> Z)).
Context (tag_bytes csum_size j_blocksize j_wbufsize : Z) (Htag : 0 <= tag_bytes).
Context (ext : bh_id -> Z) (ct rt : tr_id) (own : bh_id -> bool) (ent : bh_id -> entry).

(** The open descriptor has room for [n] more blocks, and [wbuf] too. *)
Definition room (n : Z) (d : open_descriptor) : Prop :=
  1 + Z.of_nat (length (d_data d)) + n < j_wbufsize /\
  tag_bytes * n + (if d_first_tag d then 16 else 0) + tag_bytes + 16 + csum_size <= d_space_left d.
Definition fits (n : Z) (w : commit_locals) : Prop :=
  w_submitted w = [] /\ room n (default (mk_open 0 [] [] (j_blocksize - 12) true) (w_descriptor w)).

Lemma room_add n home blk data e d :
  0 <= n -> room (n + 1) d ->
  let d' := add_tag tag_bytes home blk data e d in
  room n d' /\ must_submit tag_bytes csum_size j_wbufsize false d' = false.
Proof.
  intros Hn [H1 H2]. unfold room, must_submit, add_tag. cbn. rewrite length_app. cbn.
  assert (0 <= tag_bytes * n) by nia. split.
  - split; [lia|]. destruct (d_first_tag d); lia.
  - rewrite orb_false_r. apply orb_false_iff. split; [apply Z.eqb_neq; lia|apply Z.ltb_ge; destruct (d_first_tag d); lia].
Qed.

Lemma open_log b l s x h d w n :
  wf ext s -> loggable s ct b x h -> (exists tr, k_trans s !! ct = Some tr /\ t_buffers tr = b :: l) -> b ∉ l -> l <> [] ->
  mapped j_inode -> 1 < j_free (k_journal s) -> 0 <= n -> w_submitted w = [] -> room (n + 1) d ->
  wp (log_buffer submit_sb jiffies j_inode true tag_bytes csum_size j_wbufsize ct b d w) (fun w' _ => fits n w') s.
Proof.
  intros Hwf Hlg (tr & Htr & Hl) Hnin Hne Hm Hf Hn Hsub Hroom.
  eapply wp_mono; [eapply log_buffer_spec; try done; by eexists|].
  intros w' s' (_ & [_ Htrs] & _ & tr' & Htr' & Hw'). cbv zeta in Hw'.
  rewrite Htrs, lookup_alter_eq, Htr in Htr'. injection Htr' as <-. cbn in Hw'.
  rewrite Hl, blist_del_head, bool_decide_false in Hw' by done.
  destruct (room_add n (b_blocknr x) (physical j_inode (j_head (k_journal s))) (log_copy (log_source x h))
    (starts_with_magic (log_source x h)) d Hn Hroom) as [Hr Hms].
  rewrite Hms in Hw'. by subst w'.
Qed.

Abbreviation step := (commit_step submit_sb jiffies j_inode true tag_bytes csum_size j_blocksize j_wbufsize).
Abbreviation loop := (commit_loop submit_sb jiffies j_inode true tag_bytes csum_size j_blocksize j_wbufsize).

Lemma open_own b l s w n :
  ready ext ct rt own ent (b :: l) s -> own b = true -> mapped j_inode -> l <> [] -> 0 <= n -> fits (n + 1) w ->
  wp (step ct rt w b) (fun w' _ => fits n w') s.
Proof.
  intros Hrd Hob Hm Hne Hn [Hsub Hroom].
  destruct (ready_head ext ct rt own ent b l s Hrd) as (x & h & tr & Hlg & Htr & Hl & Hown & Hnin & _).
  pose proof Hlg as (Hx & _). pose proof Hx as [Hb Hh].
  pose proof (rd_free _ _ _ _ _ _ _ Hrd) as Hfree. rewrite filter_cons, decide_True in Hfree by done.
  cbn [length] in Hfree. pose proof (rd_abort _ _ _ _ _ _ _ Hrd) as Ha. pose proof (rd_log _ _ _ _ _ _ _ Hrd) as Hlog.
  unfold commit_step. wp_step. wp_step. wp_step. wp_step. rewrite <-Hown, Hob. cbn [negb]. unfold is_journal_aborted.
  wp_step. wp_step. wp_step. wp_step. rewrite Ha. destruct (w_descriptor w) as [d|] eqn:Hdesc.
  - eapply open_log; try done; [apply Hrd|by exists tr|lia].
  - unfold get_descriptor. wp_step. eapply wp_exec; [apply next_log_block_exec; [done|lia]|].
    cbn [fst snd]. wp_step. cbn [Z.eqb]. destruct (take_block_fields _ Hlog ltac:(lia)) as (Hfr & _).
    eapply open_log; try done; [by apply wf_journal, Hrd|by exists tr|kst; lia].
Qed.

(** Without the buffer that finishes the list nothing is submitted. *)
Lemma open_loop l : forall s w fuel,
  ready ext ct rt own ent l s -> mapped j_inode -> locals_ok w -> (length l <= fuel)%nat ->
  (exists l0 b, l = l0 ++ [b] /\ own b = false) ->
  fits (Z.of_nat (length (filter (fun b => own b = true) l))) w ->
  wp (loop fuel ct rt w) (fun r _ => exists w', r = Some w' /\ w_submitted w' = []) s.
Proof.
  induction l as [|b l IH]; intros s w fuel Hrd Hm Hw Hfuel Hlast Hfit; [by destruct Hlast as ([] & ? & ? & _)|].
  destruct fuel as [|fuel]; [cbn in Hfuel; lia|]. cbn in Hfuel.
  destruct (ready_head ext ct rt own ent b l s Hrd) as (_ & _ & tr & _ & Htr & Hl & _).
  cbn [commit_loop]. wp_step. wp_step. rewrite Hl. wp_step. rewrite filter_cons in Hfit.
  assert (l = [] -> own b = false) as Hone.
  { intros ->. by destruct Hlast as ([|? []] & ? & [= ] & ?); subst. }
  assert (l <> [] -> exists l0 b, l = l0 ++ [b] /\ own b = false) as Hlast'.
  { intros Hne. destruct Hlast as ([|? l0] & b0 & [= ] & ?); subst; [done|]. by exists l0, b0. }
  destruct (own b) eqn:Hob.
  - rewrite decide_True in Hfit by done. cbn [length] in Hfit. rewrite Nat2Z.inj_succ, <-Z.add_1_r in Hfit.
    assert (l <> []) as Hne by (intros E; by specialize (Hone E)).
    eapply wp_mono; [apply wp_and; [by eapply step_own|apply (open_own b l s w _ Hrd Hob Hm Hne (Nat2Z.is_nonneg _) Hfit)]|].
    intros w1 s1 ((Hrd1 & _ & Hw1 & _) & Hfit1). apply IH; try done; [lia|auto].
  - rewrite decide_False in Hfit by done. eapply wp_mono; [by eapply step_other|]. intros w1 s1 (-> & Hrd1 & _).
    destruct (decide (l = [])) as [->|Hne]; [|apply IH; try done; [lia|auto]].
    destruct (rd_ct_live _ _ _ _ _ _ _ Hrd1) as [tr1 Htr1]. pose proof (rd_ct _ _ _ _ _ _ _ Hrd1 tr1 Htr1) as Hl1.
    destruct fuel; cbn [commit_loop]; wp_step; wp_step; rewrite Hl1; wp_step; exists w; (split; [done|apply Hfit]).
Qed.
End Open.

(** C33: The descriptor is submitted only from the iteration of a buffer of the synchronised inode, so a
    buffer of another inode at the end of the list stops the machine: when the blocks of
    the inode fit into one descriptor, at least one of them is to be logged and the last buffer of the
    metadata list belongs to another inode, nothing is submitted to the log, and the wait for
    the log finds a buffer still marked as under I/O and fails its assertion. *)
Theorem open_descriptor_stops_commit submit_sb jiffies j_inode tag_bytes csum_size j_blocksize j_wbufsize io_ok page_free
    free_page ext ct rt own ent l fg s fuel async ret tr :
  (forall b, 0 <= ext b) -> mapped j_inode -> ready ext ct rt own ent l s -> k_trans s !! ct = Some tr ->
  inv ext ct rt (t_tid tr) (fun b => b ∈ l) T_FLUSH None l [] fg s ->
  t_nr_buffers tr <= t_outstanding_credits tr -> (length l <= fuel)%nat -> 0 <= tag_bytes ->
  (exists l0 b, l = l0 ++ [b] /\ own b = false) -> (exists b, b ∈ l /\ own b = true) ->
  let n := Z.of_nat (length (filter (fun b => own b = true) l)) in
  1 + n < j_wbufsize -> tag_bytes * n + 16 + tag_bytes + 16 + csum_size <= j_blocksize - 12 ->
  commit_log submit_sb jiffies j_inode true tag_bytes csum_size j_blocksize j_wbufsize io_ok page_free free_page
    fuel async ret [] ct rt s = Fault Assert.
Proof.
  intros Hext Hm Hrd Htr Hi Hcr Hfuel Htag Hlast (b & Hb & Hob) n Hwb Hsp. unfold commit_log.
  destruct (proj1 (wp_returns _ _ _) (inv_begin _ _ _ _ _ _ _ _ _ _ _ Hi ltac:(done) Htr Hcr)) as ([] & s1 & Hrun1 & Hi1 & Hs1).
  rewrite (bind_ret _ _ _ _ _ Hrun1).
  assert (ready ext ct rt own ent l s1) as Hrd1 by (rewrite Hs1; by apply ready_state).
  assert (tracks [] [] (mk_locals None [] [] [])) as Hw0 by done.
  destruct (proj1 (wp_returns _ _ _) (wp_and _ _ _ _
    (inv_loop ext ct rt (t_tid tr) (fun b => b ∈ l) submit_sb jiffies j_inode tag_bytes csum_size j_blocksize j_wbufsize
       own ent l [] fg s1 (mk_locals None [] [] []) fuel [] Hrd1 Hm I Hfuel Hi1 Hw0)
    (wp_and _ _ _ _
      (loop_spec submit_sb jiffies j_inode tag_bytes csum_size j_blocksize j_wbufsize ext ct rt own ent l s1
         (mk_locals None [] [] []) fuel Hrd1 Hm I Hfuel)
      (open_loop submit_sb jiffies j_inode tag_bytes csum_size j_blocksize j_wbufsize Htag ext ct rt own ent l s1
         (mk_locals None [] [] []) fuel Hrd1 Hm I Hfuel Hlast ltac:(split; [done|split; cbn; lia])))))
    as (r & s2 & Hrun2 & (w & -> & Hi2 & Htk & _) & (w1 & [= <-] & Hrd2 & _) & (w2 & [= <-] & Hsub)).
  rewrite (bind_ret _ _ _ _ _ Hrun2). cbn [app] in Hi2, Htk.
  destruct (proj1 (wp_returns _ _ _) (inv_publish _ _ _ _ _ _ _ _ Hi2)) as (tail & s3 & Hrun3 & Hi3 & Hj3 & _).
  apply bind_fault. unfold commit_seal. rewrite (bind_ret _ _ _ _ _ Hrun3). rewrite <-(tk_io _ _ _ Htk) in Hi3.
  assert (submitted_blocks w = []) as Hnone by (unfold submitted_blocks; by rewrite Hsub). rewrite Hnone. cbn [app].
  assert (exists e, e ∈ w_io_bufs w /\ e.2 ∉ []) as Hun.
  { assert (b ∈ (w_io_bufs w).*1) as (e & _ & He)%list_elem_of_fmap by (rewrite (tk_io _ _ _ Htk); by apply list_elem_of_filter).
    exists e. split; [done|apply not_elem_of_nil]. }
  pose proof (rd_free _ _ _ _ _ _ _ Hrd2) as Hf2. cbn in Hf2.
  assert (wp (if async then submit_record submit_sb jiffies j_inode ret else kret (0, None))
    (fun _ s4 => inv ext ct rt (t_tid tr) (fun b => b ∈ l) T_COMMIT_DFLUSH (Some rt) [] (w_io_bufs w).*1 fg s4) s3) as Hearly.
  { destruct async; [|done]. eapply wp_mono; [eapply inv_submit; [exact Hi3|done|rewrite Hj3; cbn; lia]|]. by intros ? ? (? & _). }
  destruct (proj1 (wp_returns _ _ _) Hearly) as (early & s4 & Hrun4 & Hi4).
  unfold commit_write_record. rewrite (bind_ret _ _ _ _ _ Hrun4). apply bind_fault. by eapply wait_all_unsubmitted.
Qed.

Lemma open_descriptor_stops_commit_witness :
  commit_log (fun _ => 0) 0 None true 16 4 1024 64 (fun _ => true) (fun _ => true) (fun _ => kret tt)
    2 false 0 [] 1 2 (ex_whole [2; 1]%positive) = Fault Assert.
Proof.
  eapply (open_descriptor_stops_commit _ _ _ _ _ _ _ _ _ _ (fun _ => 0) 1 2 ex_own_p ex_ent [2; 1]%positive []).
  - done.
  - by intros f b [=].
  - apply ex_whole_ready. by right.
  - reflexivity.
  - apply ex_whole_inv. by right.
  - vm_compute. discriminate.
  - cbn. lia.
  - lia.
  - by exists [2%positive], 1%positive.
  - exists 2%positive. split; [left|done].
  - vm_compute. reflexivity.
  - vm_compute. discriminate.
Defined.
