(* ===== verification/OrderedData.v ===== *)
(** * Ordered data

    In ordered mode the pages of a file reach the disk before the metadata
    that makes them part of the file is committed.  [struct jbd2_inode] says which transaction has to
    wait for the pages of an inode:
    [jbd2_journal_file_inode], [jbd2_vmsep_journal_inode_add_write], [_add_wait] and
    [jbd2_vmsep_journal_begin_ordered_truncate] of kernel/fs/jbd2/transaction.c,
    [jbd2_vmsep_journal_init_jbd_inode] and [_release_jbd_inode] of journal.c,
    [journal_submit_data_buffers] and [journal_finish_inode_data_buffers] of commit.c.

    The page cache is not part of the program: starting the write-back of an inode
    ([generic_writepages]) and waiting for it ([filemap_fdatawait_keep_errors],
    [filemap_fdatawrite_range]) return an error code that is a parameter, and
    each such call is recorded in [o_io].  The list of a transaction is walked without
    interference; [JI_COMMIT_RUNNING], which keeps an inode from being released
    meanwhile, is modelled. *)
From S2P Require Import Prelude Tid State Blist JournalHead Filing Log Handle Commit Revoke OnDisk Features Access.

Abbreviation ji_id := positive (only parsing).

Record jbd2_inode := mk_jinode {
  i_transaction : option tr_id;
  i_next_transaction : option tr_id;
  JI_COMMIT_RUNNING : bool;
  JI_WRITE_DATA : bool;
  JI_WAIT_DATA : bool;
}.
#[export] Instance eta_jinode : Eta _ := fun i =>
  mk_jinode (i_transaction i) (i_next_transaction i) (JI_COMMIT_RUNNING i) (JI_WRITE_DATA i) (JI_WAIT_DATA i).

(** The trace of the calls into the page cache, and of the commit records submitted to the device. *)
Inductive data_io := WriteOut (i : ji_id) | WaitOn (i : ji_id) | Truncated (i : ji_id) | CommitRecord (blk : Z).

(** [o_lists]: the [t_inode_list] of every transaction that has one. *)
Record ostate := mk_ostate {
  o_a : astate;
  o_inodes : gmap positive jbd2_inode;
  o_lists : gmap positive (list positive);
  o_io : list data_io;
}.
#[export] Instance eta_ostate : Eta _ := fun s => mk_ostate (o_a s) (o_inodes s) (o_lists s) (o_io s).

Definition on_a {A} (m : K astate A) : K ostate A := fun s =>
  match m (o_a s) with
  | Ret (a, s') => Ret (a, s <| o_a := s' |>)
  | Fault e => Fault e
  end.
Definition on_ok {A} (m : K kstate A) : K ostate A := on_a (on_k m).

Definition o_k (s : ostate) : kstate := a_k (o_a s).
Definition t_inode_list (s : ostate) (t : tr_id) : list ji_id := default [] (o_lists s !! t).

Definition read_ji (i : ji_id) : K ostate jbd2_inode := fun s =>
  match o_inodes s !! i with Some x => Ret (x, s) | None => Fault Oops end.
Definition modify_ji (i : ji_id) (f : jbd2_inode -> jbd2_inode) : K ostate unit := fun s =>
  match o_inodes s !! i with
  | Some x => Ret (tt, s <| o_inodes ::= <[i := f x]> |>)
  | None => Fault Oops
  end.
Definition read_list (t : tr_id) : K ostate (list ji_id) := fun s => Ret (t_inode_list s t, s).
Definition set_list (t : tr_id) (f : list ji_id -> list ji_id) : K ostate unit := fun s =>
  Ret (tt, s <| o_lists ::= <[t := f (t_inode_list s t)]> |>).
Definition page_cache (e : data_io) : K ostate unit := fun s => Ret (tt, s <| o_io ::= fun l => l ++ [e] |>).

(** ** Filing an inode *)

(** [list_add] puts the inode at the head of the list. *)
Definition jbd2_vmsep_journal_init_jbd_inode (i : ji_id) : K ostate unit := fun s =>
  Ret (tt, s <| o_inodes ::= <[i := mk_jinode None None false false false]> |>).

(** [write], [wait]: whether [flags] has [JI_WRITE_DATA] and [JI_WAIT_DATA]. *)
Definition jbd2_journal_file_inode (h : handle_t) (i : ji_id) (write wait : bool) : K ostate Z :=
  aborted <- on_ok (is_handle_aborted h) ;;
  if aborted : bool then kret (- EROFS)
  else match h_transaction h with
  | None => kfault Oops
  | Some t =>
    ji <- read_ji i ;;
    let attached := bool_decide (i_transaction ji = Some t) || bool_decide (i_next_transaction ji = Some t) in
    if attached && implb write (JI_WRITE_DATA ji) && implb wait (JI_WAIT_DATA ji) then kret 0
    else
      modify_ji i (fun ji => ji <| JI_WRITE_DATA ::= orb write |> <| JI_WAIT_DATA ::= orb wait |>) ;;;
      if attached then kret 0
      else
        on_ok (modify_tr t (fun tr => tr <| t_need_data_flush := true |>)) ;;;
        match i_transaction ji with
        | Some u =>
          j_assert (bool_decide (i_next_transaction ji = None)) ;;;
          j <- on_ok read_journal ;;
          j_assert (bool_decide (j_committing_transaction j = Some u)) ;;;
          modify_ji i (fun ji => ji <| i_next_transaction := Some t |>) ;;;
          kret 0
        | None =>
          j_assert (bool_decide (i_next_transaction ji = None)) ;;;
          modify_ji i (fun ji => ji <| i_transaction := Some t |>) ;;;
          set_list t (cons i) ;;;
          kret 0
        end
  end.

Definition jbd2_vmsep_journal_inode_add_write (h : handle_t) (i : ji_id) : K ostate Z :=
  jbd2_journal_file_inode h i true true.
Definition jbd2_vmsep_journal_inode_add_wait (h : handle_t) (i : ji_id) : K ostate Z :=
  jbd2_journal_file_inode h i false true.

(** Off the list of its transaction, once no commit writes its pages.  [envs]: what
    the other tasks do in each sleep; [None] when the sleeps run out. *)
Fixpoint jbd2_vmsep_journal_release_jbd_inode (envs : list (K ostate unit)) (i : ji_id) : K ostate (option unit) :=
  ji <- read_ji i ;;
  if JI_COMMIT_RUNNING ji
  then match envs with
  | [] => kret None
  | env :: envs => env ;;; jbd2_vmsep_journal_release_jbd_inode envs i
  end
  else match i_transaction ji with
  | None => kret (Some tt)
  | Some t =>
    set_list t (blist_del i) ;;;
    modify_ji i (fun ji => ji <| i_transaction := None |>) ;;;
    kret (Some tt)
  end.

Section Data.
Context (submit_sb : journal_t -> Z) (jiffies : Z).
Context (writepages fdatawait fdatawrite_range : ji_id -> Z).

(** Before a truncate the pages the committing transaction waits for are written. *)
Definition jbd2_vmsep_journal_begin_ordered_truncate (i : ji_id) : K ostate Z :=
  ji <- read_ji i ;;
  if bool_decide (i_transaction ji = None) then kret 0
  else
    j <- on_ok read_journal ;;
    if bool_decide (i_transaction ji = j_committing_transaction j)
    then
      page_cache (Truncated i) ;;;
      let ret := fdatawrite_range i in
      (if ret =? 0 then kret tt else on_ok (jbd2_vmsep_journal_abort submit_sb jiffies ret)) ;;;
      kret ret
    else kret 0.

(** ** In the commit *)

Definition first_error (ret err : Z) : Z := if ret =? 0 then err else ret.

Fixpoint submit_inodes (ct : tr_id) (l : list ji_id) (ret : Z) : K ostate Z :=
  match l with
  | [] => kret ret
  | i :: l =>
    ji <- read_ji i ;;
    if negb (JI_WRITE_DATA ji) then submit_inodes ct l ret
    else
      modify_ji i (fun ji => ji <| JI_COMMIT_RUNNING := true |>) ;;;
      page_cache (WriteOut i) ;;;
      ji <- read_ji i ;;
      j_assert (bool_decide (i_transaction ji = Some ct)) ;;;
      modify_ji i (fun ji => ji <| JI_COMMIT_RUNNING := false |>) ;;;
      submit_inodes ct l (first_error ret (writepages i))
  end.

Definition journal_submit_data_buffers (ct : tr_id) : K ostate Z :=
  l <- read_list ct ;; submit_inodes ct l 0.

Fixpoint wait_inodes (l : list ji_id) (ret : Z) : K ostate Z :=
  match l with
  | [] => kret ret
  | i :: l =>
    ji <- read_ji i ;;
    if negb (JI_WAIT_DATA ji) then wait_inodes l ret
    else
      modify_ji i (fun ji => ji <| JI_COMMIT_RUNNING := true |>) ;;;
      page_cache (WaitOn i) ;;;
      modify_ji i (fun ji => ji <| JI_COMMIT_RUNNING := false |>) ;;;
      wait_inodes l (first_error ret (fdatawait i))
  end.

Definition refile_inode (ct : tr_id) (i : ji_id) : K ostate unit :=
  set_list ct (blist_del i) ;;;
  ji <- read_ji i ;;
  match i_next_transaction ji with
  | Some nt =>
    modify_ji i (fun ji => ji <| i_transaction := Some nt |> <| i_next_transaction := None |>) ;;;
    set_list nt (cons i)
  | None => modify_ji i (fun ji => ji <| i_transaction := None |>)
  end.

Fixpoint refile_inodes (ct : tr_id) (l : list ji_id) : K ostate unit :=
  match l with
  | [] => kret tt
  | i :: l => refile_inode ct i ;;; refile_inodes ct l
  end.

Definition journal_finish_inode_data_buffers (ct : tr_id) : K ostate Z :=
  l <- read_list ct ;;
  ret <- wait_inodes l 0 ;;
  refile_inodes ct l ;;;
  kret ret.

(** The two places of the commit that deal with the data.
    [abort_on_syncdata]: [JBD2_ABORT_ON_SYNCDATA_ERR] of [j_flags]. *)
Definition commit_submit_data (ct : tr_id) : K ostate unit :=
  err <- journal_submit_data_buffers ct ;;
  if err =? 0 then kret tt else on_ok (jbd2_vmsep_journal_abort submit_sb jiffies err).

Definition commit_finish_data (abort_on_syncdata : bool) (ct : tr_id) : K ostate unit :=
  err <- journal_finish_inode_data_buffers ct ;;
  if negb (err =? 0) && abort_on_syncdata then on_ok (jbd2_vmsep_journal_abort submit_sb jiffies err) else kret tt.
End Data.

(** ** Rules *)

Section Rules.
Implicit Types s : ostate.

Definition set_k (k : kstate) (s : ostate) : ostate := s <| o_a := (o_a s) <| a_k := k |> |>.

Lemma wp_on_ok {A} (m : K kstate A) (Q : A -> ostate -> Prop) s :
  wp m (fun a k => Q a (set_k k s)) (o_k s) -> wp (on_ok m) Q s.
Proof. unfold wp, on_ok, on_a, on_k, o_k. by destruct (m (a_k (o_a s))) as [[? ?]|]. Qed.

Lemma set_k_id s : set_k (o_k s) s = s.
Proof. by destruct s as [[] ? ? ?]. Qed.

Lemma wp_ok_same {A} (m : K kstate A) a (Q : A -> ostate -> Prop) s :
  m (o_k s) = Ret (a, o_k s) -> Q a s -> wp (on_ok m) Q s.
Proof. intros Hm HQ. apply wp_on_ok. unfold wp. rewrite Hm. by rewrite set_k_id. Qed.

Lemma wp_read_ji i ji (Q : jbd2_inode -> ostate -> Prop) s : o_inodes s !! i = Some ji -> Q ji s -> wp (read_ji i) Q s.
Proof. unfold wp, read_ji. by intros ->. Qed.

Lemma wp_modify_ji i ji f (Q : unit -> ostate -> Prop) s :
  o_inodes s !! i = Some ji ->
  Q tt (mk_ostate (o_a s) (<[i := f ji]> (o_inodes s)) (o_lists s) (o_io s)) -> wp (modify_ji i f) Q s.
Proof. unfold wp, modify_ji. by intros ->. Qed.

Lemma wp_set_list t f (Q : unit -> ostate -> Prop) s :
  Q tt (mk_ostate (o_a s) (o_inodes s) (<[t := f (t_inode_list s t)]> (o_lists s)) (o_io s)) -> wp (set_list t f) Q s.
Proof. done. Qed.

Lemma wp_page_cache e (Q : unit -> ostate -> Prop) s :
  Q tt (mk_ostate (o_a s) (o_inodes s) (o_lists s) (o_io s ++ [e])) -> wp (page_cache e) Q s.
Proof. done. Qed.
End Rules.

Lemma list_insert a ins ls io t l t' :
  t_inode_list (mk_ostate a ins (<[t := l]> ls) io) t' =
  if decide (t = t') then l else t_inode_list (mk_ostate a ins ls io) t'.
Proof. unfold t_inode_list. cbn. rewrite lookup_insert. by case_decide. Qed.

(** ** The invariant of the lists *)

(** An inode is on the list of its transaction; it waits for the next one only while
    its transaction commits; no commit is looking at it. *)
Record inodes_ok (s : ostate) : Prop := {
  io_member i ji t : o_inodes s !! i = Some ji -> (i ∈ t_inode_list s t <-> i_transaction ji = Some t);
  io_listed i t : i ∈ t_inode_list s t -> is_Some (o_inodes s !! i);
  io_nodup t : NoDup (t_inode_list s t);
  io_next i ji u : o_inodes s !! i = Some ji -> i_next_transaction ji = Some u ->
    exists c, i_transaction ji = Some c /\ j_committing_transaction (k_journal (o_k s)) = Some c /\ u <> c;
  io_idle i ji : o_inodes s !! i = Some ji -> JI_COMMIT_RUNNING ji = false;
}.

Lemma inodes_ok_k s k io :
  inodes_ok s -> j_committing_transaction (k_journal k) = j_committing_transaction (k_journal (o_k s)) ->
  inodes_ok (mk_ostate (o_a (set_k k s)) (o_inodes s) (o_lists s) io).
Proof.
  intros [H1 H2 H3 H4 H5] Hj. split; try done. intros i ji u Hi Hn.
  destruct (H4 i ji u Hi Hn) as (c & ? & ? & ?). exists c. split_and!; [done| |done]. cbn. by rewrite Hj.
Qed.

(** Changing one inode and keeping it where it is. *)
Lemma inodes_ok_set s i ji ji' io a :
  inodes_ok s -> o_inodes s !! i = Some ji -> i_transaction ji' = i_transaction ji ->
  JI_COMMIT_RUNNING ji' = false ->
  j_committing_transaction (k_journal (a_k a)) = j_committing_transaction (k_journal (o_k s)) ->
  (forall u, i_next_transaction ji' = Some u -> exists c, i_transaction ji = Some c /\
     j_committing_transaction (k_journal (o_k s)) = Some c /\ u <> c) ->
  inodes_ok (mk_ostate a (<[i := ji']> (o_inodes s)) (o_lists s) io).
Proof.
  intros [H1 H2 H3 H4 H5] Hi Ht Hr Hj Hn.
  assert (forall t, t_inode_list (mk_ostate a (<[i := ji']> (o_inodes s)) (o_lists s) io) t = t_inode_list s t) as Hl by done.
  split; cbn; intros *; rewrite ?Hl.
  - intros [[<- <-]|[Hne Hy]]%lookup_insert_Some; [|by apply H1]. rewrite Ht. by apply H1.
  - intros Hin. apply lookup_insert_is_Some'. right. by eapply H2.
  - apply H3.
  - intros [[<- <-]|[Hne Hy]]%lookup_insert_Some Hnx; unfold o_k; cbn; rewrite Hj; [|by eapply H4].
    rewrite Ht. by apply Hn.
  - intros [[<- <-]|[Hne Hy]]%lookup_insert_Some; [done|by eapply H5].
Qed.

(** Moving an inode to the head of another list, or of none. *)
Lemma inodes_ok_move s i ji t' io a ji' :
  inodes_ok s -> o_inodes s !! i = Some ji ->
  i_transaction ji' = t' -> i_next_transaction ji' = None -> JI_COMMIT_RUNNING ji' = false ->
  j_committing_transaction (k_journal (a_k a)) = j_committing_transaction (k_journal (o_k s)) ->
  forall ls, (forall t, default [] (ls !! t) =
    let l := if decide (i_transaction ji = Some t) then blist_del i (t_inode_list s t) else t_inode_list s t in
    if decide (t' = Some t) then i :: blist_del i l else l) ->
  inodes_ok (mk_ostate a (<[i := ji']> (o_inodes s)) ls io).
Proof.
  intros [H1 H2 H3 H4 H5] Hi Ht Hn Hr Hj ls Hls.
  assert (forall y t, y ∈ t_inode_list (mk_ostate a (<[i := ji']> (o_inodes s)) ls io) t <->
    (y = i /\ t' = Some t) \/ (y <> i /\ y ∈ t_inode_list s t)) as Hmem.
  { intros y t. unfold t_inode_list at 1. cbn. rewrite Hls. cbv zeta. pose proof (H1 i ji t Hi) as Hit.
    repeat case_decide; rewrite ?elem_of_cons, ?elem_of_blist_del; destruct (decide (y = i)) as [->|];
      naive_solver. }
  split; cbn; intros *.
  - intros Hy. rewrite Hmem. apply lookup_insert_Some in Hy as [[<- <-]|[Hne Hy]]; [naive_solver|].
    rewrite <-(H1 _ _ _ Hy). naive_solver.
  - rewrite Hmem. intros [[-> _]|[Hne Hin]]; [rewrite lookup_insert_eq; by eexists|].
    rewrite lookup_insert_ne by done. by eapply H2.
  - unfold t_inode_list. cbn. rewrite Hls. cbv zeta. repeat case_decide; repeat first
      [apply NoDup_cons; split; [by intros [_ ?]%elem_of_blist_del|]|apply NoDup_blist_del|apply H3].
  - intros [[<- <-]|[Hne Hy]]%lookup_insert_Some Hnx; [congruence|]. unfold o_k. cbn. rewrite Hj. by eapply H4.
  - intros [[<- <-]|[Hne Hy]]%lookup_insert_Some; [done|by eapply H5].
Qed.

(** ** Filing *)

(** What a call leaves alone. *)
Record filed (i : ji_id) (t : tr_id) (s s' : ostate) : Prop := {
  fi_others y : y <> i -> o_inodes s' !! y = o_inodes s !! y;
  fi_io : o_io s' = o_io s;
  fi_journal : k_journal (o_k s') = k_journal (o_k s);
  fi_bufs : k_bufs (o_k s') = k_bufs (o_k s);
  fi_trans u : u <> t -> k_trans (o_k s') !! u = k_trans (o_k s) !! u;
}.

Lemma file_inode_spec s h i t ji tr write wait :
  inodes_ok s -> h_transaction h = Some t -> h_aborted h || JBD2_ABORT (k_journal (o_k s)) = false ->
  k_trans (o_k s) !! t = Some tr -> o_inodes s !! i = Some ji ->
  j_committing_transaction (k_journal (o_k s)) <> Some t ->
  (forall u, i_transaction ji = Some u -> u = t \/ j_committing_transaction (k_journal (o_k s)) = Some u) ->
  (forall u, i_next_transaction ji = Some u -> u = t) ->
  wp (jbd2_journal_file_inode h i write wait)
    (fun r s' => r = 0 /\ inodes_ok s' /\ filed i t s s' /\ exists ji', o_inodes s' !! i = Some ji' /\
       (i_transaction ji' = Some t \/ i_next_transaction ji' = Some t) /\
       JI_WRITE_DATA ji' = write || JI_WRITE_DATA ji /\ JI_WAIT_DATA ji' = wait || JI_WAIT_DATA ji) s.
Proof.
  intros Hok Ht Hna Htr Hi Hct Hown Hnx. unfold jbd2_journal_file_inode. wp_step.
  eapply wp_ok_same; [by eapply handle_aborted_exec|]. rewrite Hna, Ht. wp_step. eapply wp_read_ji; [done|].
  set (attached := bool_decide (i_transaction ji = Some t) || bool_decide (i_next_transaction ji = Some t)).
  pose proof (io_idle _ Hok i ji Hi) as Hrun. pose proof (io_next _ Hok i ji) as Hnext.
  assert (attached = true -> i_transaction ji = Some t \/ i_next_transaction ji = Some t) as Hatt
    by (unfold attached; by rewrite orb_true_iff, !bool_decide_eq_true).
  cbv zeta. apply wp_if; intros Hc.
  { wp_step. apply andb_true_iff in Hc as [[Ha Hw]%andb_true_iff Hwt]. split_and!; [done|done|by split|].
    exists ji. split_and!; [done|auto| |]; [destruct write|destruct wait]; cbn in *; rewrite ?Hw, ?Hwt; done. }
  wp_step. eapply wp_modify_ji; [done|].
  set (ji1 := ji <| JI_WRITE_DATA ::= orb write |> <| JI_WAIT_DATA ::= orb wait |>).
  set (s1 := mk_ostate _ _ _ _).
  assert (inodes_ok s1) as Hok1 by (eapply inodes_ok_set; try done; by auto).
  apply wp_if; intros Hatt1.
  { wp_step. split_and!; [done|done| |].
    - split; try done. intros y Hy. cbn. by rewrite lookup_insert_ne.
    - exists ji1. cbn. rewrite lookup_insert_eq. split_and!; auto. }
  assert (i_transaction ji <> Some t /\ i_next_transaction ji = None) as [Hnt Hnn].
  { unfold attached in Hatt1. rewrite orb_false_iff, !bool_decide_eq_false in Hatt1. destruct Hatt1 as [? Hn]. split; [done|].
    destruct (i_next_transaction ji) as [u|] eqn:E; [|done]. by rewrite (Hnx u eq_refl) in Hn. }
  wp_step. apply wp_on_ok. eapply wp_modify_tr; [done|]. set (k2 := mk_kstate _ _ _). set (s2 := set_k k2 s1).
  assert (inodes_ok s2) as Hok2 by (by apply (inodes_ok_k s1 k2 (o_io s1))).
  assert (o_inodes s2 !! i = Some ji1) as Hi2 by (cbn; by rewrite lookup_insert_eq).
  assert (forall ji' ls, filed i t s (mk_ostate (o_a s2) (<[i := ji']> (o_inodes s2)) ls (o_io s2))) as Hfil.
  { intros ji' ls. split; try done; cbn; intros; by rewrite ?lookup_insert_ne. }
  destruct (i_transaction ji) as [u|] eqn:Hu.
  - wp_step. apply wp_assert; [by rewrite Hnn|]. wp_step. eapply wp_ok_same; [done|].
    wp_step. destruct (Hown u eq_refl) as [->|Hcu]; [done|]. apply wp_assert; [by apply bool_decide_true|].
    wp_step. eapply wp_modify_ji; [done|]. wp_step. split_and!; [done| |apply Hfil|].
    + eapply inodes_ok_set; try done. intros v [= <-]. exists u. split_and!; [done|done|]. congruence.
    + eexists. cbn. rewrite lookup_insert_eq. split_and!; [done|by right|done|done].
  - wp_step. apply wp_assert; [by rewrite Hnn|]. wp_step. eapply wp_modify_ji; [done|]. wp_step. apply wp_set_list.
    wp_step. cbn [o_a o_inodes o_lists o_io]. split_and!; [done| |apply Hfil|].
    + eapply (inodes_ok_move s2 i ji1 (Some t)); try done. intros v. change (i_transaction ji1) with (i_transaction ji).
      rewrite Hu, (decide_False (P := None = Some v)), lookup_insert by done. cbv zeta. case_decide as Hv.
      * subst v. rewrite decide_True by done. cbn. f_equal. rewrite blist_del_notin; [done|].
        intros Hin. apply (io_member _ Hok2 i ji1 t Hi2) in Hin. cbn in Hin. congruence.
      * rewrite decide_False by congruence. done.
    + eexists. cbn. rewrite lookup_insert_eq. split_and!; [done|by left|done|done].
Qed.

(** ** The commit writes and waits *)

(** Whether an inode has a flag. *)
Definition has_flag (f : jbd2_inode -> bool) (s : ostate) (i : ji_id) : bool :=
  match o_inodes s !! i with Some ji => f ji | None => false end.
Definition flagged (f : jbd2_inode -> bool) (s : ostate) (l : list ji_id) : list ji_id :=
  filter (fun i => has_flag f s i = true) l.

Lemma flagged_cons f s i l ji :
  o_inodes s !! i = Some ji -> flagged f s (i :: l) = if f ji then i :: flagged f s l else flagged f s l.
Proof. intros Hi. unfold flagged. rewrite filter_cons. unfold has_flag. rewrite Hi. by destruct (f ji). Qed.

Definition errors (io : ji_id -> Z) (l : list ji_id) (ret : Z) : Z := foldl (fun r i => first_error r (io i)) ret l.

Definition add_io (es : list data_io) (s : ostate) : ostate :=
  mk_ostate (o_a s) (o_inodes s) (o_lists s) (o_io s ++ es).

Lemma add_io_nil s : add_io [] s = s.
Proof. unfold add_io. rewrite app_nil_r. by destruct s. Qed.
Lemma add_io_app es es' s : add_io es' (add_io es s) = add_io (es ++ es') s.
Proof. unfold add_io. cbn. by rewrite app_assoc. Qed.
Lemma inodes_ok_io es s : inodes_ok s -> inodes_ok (add_io es s).
Proof. intros []. by split. Qed.

Lemma jinode_running ji b :
  JI_COMMIT_RUNNING ji = false ->
  (ji <| JI_COMMIT_RUNNING := b |>) <| JI_COMMIT_RUNNING := false |> = ji.
Proof. destruct ji. by intros [= ->]. Qed.

Section Commit.
Context (submit_sb : journal_t -> Z) (jiffies : Z) (writepages fdatawait : ji_id -> Z).

Lemma submit_inodes_spec ct l : forall s ret,
  inodes_ok s -> (forall i, i ∈ l -> i ∈ t_inode_list s ct) ->
  wp (submit_inodes writepages ct l ret)
    (fun r s' => r = errors writepages (flagged JI_WRITE_DATA s l) ret /\
       s' = add_io (WriteOut <$> flagged JI_WRITE_DATA s l) s) s.
Proof.
  induction l as [|i l IH]; intros s ret Hok Hl; cbn [submit_inodes].
  { wp_step. by rewrite add_io_nil. }
  destruct (io_listed _ Hok i ct) as [ji Hi]; [apply Hl; by left|].
  pose proof (proj1 (io_member _ Hok i ji ct Hi) (Hl i ltac:(by left))) as Ht. pose proof (io_idle _ Hok i ji Hi) as Hr.
  wp_step. eapply wp_read_ji; [done|]. rewrite (flagged_cons _ s i l ji Hi).
  destruct (JI_WRITE_DATA ji) eqn:Hw; cbn [negb].
  2: { apply IH; [done|]. intros y Hy. apply Hl. by right. }
  wp_step. eapply wp_modify_ji; [done|]. wp_step. apply wp_page_cache. wp_step.
  eapply wp_read_ji; [apply lookup_insert_eq|]. wp_step. apply wp_assert; [by apply bool_decide_true|].
  wp_step. eapply wp_modify_ji; [apply lookup_insert_eq|]. cbn [o_a o_inodes o_lists o_io].
  rewrite insert_insert_eq, jinode_running, (insert_id _ i ji Hi) by done.
  change (mk_ostate _ _ _ _) with (add_io [WriteOut i] s).
  eapply wp_mono; [apply IH; [by apply inodes_ok_io|]|].
  { intros y Hy. apply (Hl y). by right. }
  intros r s' [-> ->]. by rewrite add_io_app.
Qed.

Lemma wait_inodes_spec ct l : forall s ret,
  inodes_ok s -> (forall i, i ∈ l -> i ∈ t_inode_list s ct) ->
  wp (wait_inodes fdatawait l ret)
    (fun r s' => r = errors fdatawait (flagged JI_WAIT_DATA s l) ret /\
       s' = add_io (WaitOn <$> flagged JI_WAIT_DATA s l) s) s.
Proof.
  induction l as [|i l IH]; intros s ret Hok Hl; cbn [wait_inodes].
  { wp_step. by rewrite add_io_nil. }
  destruct (io_listed _ Hok i ct) as [ji Hi]; [apply Hl; by left|]. pose proof (io_idle _ Hok i ji Hi) as Hr.
  wp_step. eapply wp_read_ji; [done|]. rewrite (flagged_cons _ s i l ji Hi).
  destruct (JI_WAIT_DATA ji) eqn:Hw; cbn [negb].
  2: { apply IH; [done|]. intros y Hy. apply Hl. by right. }
  wp_step. eapply wp_modify_ji; [done|]. wp_step. apply wp_page_cache.
  wp_step. eapply wp_modify_ji; [apply lookup_insert_eq|]. cbn [o_a o_inodes o_lists o_io].
  rewrite insert_insert_eq, jinode_running, (insert_id _ i ji Hi) by done.
  change (mk_ostate _ _ _ _) with (add_io [WaitOn i] s).
  eapply wp_mono; [apply IH; [by apply inodes_ok_io|]|].
  { intros y Hy. apply (Hl y). by right. }
  intros r s' [-> ->]. by rewrite add_io_app.
Qed.

(** An inode after the commit of its transaction. *)
Definition refiled (ji : jbd2_inode) : jbd2_inode :=
  ji <| i_transaction := i_next_transaction ji |> <| i_next_transaction := None |>.

Lemma refile_inode_spec ct i l s ji :
  inodes_ok s -> t_inode_list s ct = i :: l -> o_inodes s !! i = Some ji ->
  wp (refile_inode ct i)
    (fun _ s' => inodes_ok s' /\ t_inode_list s' ct = l /\ o_a s' = o_a s /\ o_io s' = o_io s /\
       o_inodes s' = <[i := refiled ji]> (o_inodes s)) s.
Proof.
  intros Hok Hl Hi. assert (i_transaction ji = Some ct) as Ht by (apply (io_member _ Hok i ji ct Hi); rewrite Hl; by left).
  assert (blist_del i (t_inode_list s ct) = l) as Hdel.
  { pose proof (io_nodup _ Hok ct) as Hnd. rewrite Hl in *. apply NoDup_cons in Hnd as [Hnin _]. by apply blist_del_head. }
  pose proof (io_idle _ Hok i ji Hi) as Hr. unfold refile_inode. wp_step. apply wp_set_list. rewrite Hdel. wp_step.
  eapply wp_read_ji; [done|]. destruct (i_next_transaction ji) as [nt|] eqn:Hn.
  - destruct (io_next _ Hok i ji nt Hi Hn) as (c & Hc & _ & Hne). replace c with ct in * by congruence. clear c Hc.
    assert (i ∉ t_inode_list s nt) as Hnin by (intros Hin%(io_member _ Hok i ji nt Hi); congruence).
    wp_step. eapply wp_modify_ji; [done|]. apply wp_set_list. cbn [o_a o_inodes o_lists o_io].
    rewrite list_insert, decide_False by done. split_and!; [|by rewrite !list_insert, decide_False, decide_True|done|done|].
    + apply (inodes_ok_move s i ji (Some nt)); try done. intros t. cbv zeta. rewrite !lookup_insert, Ht.
      destruct (decide (nt = t)) as [<-|Hnt].
      * rewrite (decide_False (P := Some ct = Some nt)), decide_True by congruence. cbn. by rewrite blist_del_notin.
      * rewrite (decide_False (P := Some nt = Some t)) by congruence.
        destruct (decide (ct = t)) as [<-|]; [by rewrite decide_True|by rewrite decide_False by congruence].
    + unfold refiled. by rewrite Hn.
  - eapply wp_modify_ji; [done|]. cbn [o_a o_inodes o_lists o_io].
    assert (ji <| i_transaction := None |> = refiled ji) as -> by (unfold refiled; destruct ji; cbn in *; by subst).
    split_and!; [|by rewrite list_insert, decide_True|done..].
    apply (inodes_ok_move s i ji None); try done. intros t. cbv zeta. rewrite lookup_insert, Ht.
    rewrite (decide_False (P := None = Some t)) by done.
    destruct (decide (ct = t)) as [<-|]; [by rewrite decide_True|by rewrite decide_False by congruence].
Qed.

Lemma refile_inodes_spec ct l : forall s,
  inodes_ok s -> t_inode_list s ct = l ->
  wp (refile_inodes ct l)
    (fun _ s' => inodes_ok s' /\ t_inode_list s' ct = [] /\ o_a s' = o_a s /\ o_io s' = o_io s /\
       forall i, o_inodes s' !! i = (if decide (i ∈ l) then refiled <$> o_inodes s !! i else o_inodes s !! i)) s.
Proof.
  induction l as [|i l IH]; intros s Hok Hl; cbn [refile_inodes].
  { wp_step. by split_and!. }
  destruct (io_listed _ Hok i ct) as [ji Hi]; [rewrite Hl; by left|].
  assert (i ∉ l) as Hnin by (pose proof (io_nodup _ Hok ct) as Hnd; rewrite Hl in Hnd; by apply NoDup_cons in Hnd as [? _]).
  wp_step. eapply wp_mono; [by eapply refile_inode_spec|]. intros _ s1 (Hok1 & Hl1 & Ha1 & Hio1 & Hin1).
  eapply wp_mono; [by apply IH|]. intros _ s2 (Hok2 & Hl2 & Ha2 & Hio2 & Hin2). split_and!; [done|done|congruence|congruence|].
  intros y. rewrite Hin2, Hin1. destruct (decide (y = i)) as [->|Hne].
  - rewrite decide_False, decide_True, lookup_insert_eq, Hi by (by try left). done.
  - rewrite lookup_insert_ne by done. destruct (decide (y ∈ l)).
    + rewrite decide_True by (by right). done.
    + rewrite decide_False; [done|]. by intros [?|?]%elem_of_cons.
Qed.
End Commit.
