(* ===== verification/CommitTransaction.v ===== *)
(** * The whole commit

    [jbd2_vmsep_journal_commit_transaction] of kernel/fs/jbd2/commit.c from its first to
    its last line, put together from the phases of Commit.v, CommitEnd.v, CommitWhole.v,
    OrderedData.v, RevokeLog.v, Access.v and Checkpoint.v; what it guarantees
    about the data of ordered mode; and what becomes of a transaction that is started
    between its two assignments to [j_running_transaction].

    The commit sleeps while it waits for the open handles to stop: [envs] are the steps of the other
    tasks, and a commit still waiting at the end of the list returns
    [None].  The plugging of the block device, cache flushes, the commit callback and
    the statistics are left out. *)
From S2P Require Import Prelude Tid Revoke State Blist JournalHead Filing Log Handle Commit OnDisk RevokeLog Features Access.
From S2P Require Import Checkpoint CommitEnd CommitWhole OrderedData.

Section Transaction.
Context (submit_sb : journal_t -> Z) (jiffies : Z) (j_inode : option (Z -> Z)) (copy_ok : bool).
Context (jbd2_chksum : Z -> list Z -> Z) (f : jformat) (j_wbufsize : Z).
Context (find_block : kstate -> Z -> option bh_id).
Context (io_ok : Z -> bool) (page_free : bh_id -> bool) (free_page : bh_id -> K kstate unit).
Context (need_resched : bh_id -> bool) (need_resched_tr : tr_id * bool -> bool).
Context (writepages fdatawait : ji_id -> Z) (abort_on_syncdata : bool).

(** [while (atomic_read(&commit_transaction->t_updates))]. *)
Fixpoint wait_handles (envs : list (K ostate unit)) (ct : tr_id) : K ostate (option unit) :=
  tr <- on_ok (read_tr ct) ;;
  if t_updates tr =? 0 then kret (Some tt)
  else match envs with
  | [] => kret None
  | env :: envs => env ;;; wait_handles envs ct
  end.

(** Up to the switch to the committing state; the check of the credits first. *)
Definition commit_flush (fuel : nat) (ct : tr_id) : K ostate (option unit) :=
  tr <- on_ok (read_tr ct) ;;
  j <- on_ok read_journal ;;
  j_assert (t_outstanding_credits tr <=? j_max_transaction_buffers j) ;;;
  r <- on_ok (refile_reserved fuel ct) ;;
  match r with
  | None => kret None
  | Some _ =>
    on_ok (__jbd2_vmsep_journal_clean_checkpoint_list need_resched need_resched_tr false) ;;;
    on_a (jbd2_vmsep_clear_buffer_revoked_flags find_block) ;;;
    on_a (fun s => Ret (tt, s <| a_revoke ::= jbd2_vmsep_journal_switch_revoke_table |>)) ;;;
    on_ok (commit_switch ct) ;;;
    kret (Some tt)
  end.

(** The revoke blocks of the transaction. *)
Definition commit_revokes (ct : tr_id) : K ostate (list Z) :=
  tr <- on_ok (read_tr ct) ;;
  jr <- on_a get_revoke ;;
  r <- on_ok (jbd2_vmsep_journal_write_revoke_records submit_sb jiffies j_inode jbd2_chksum f (t_tid tr) [] jr) ;;
  on_a (fun s => Ret (tt, s <| a_revoke := r.2 |>)) ;;;
  kret (rw_log_bufs r.1).

(** The sealing of the transaction, with the submission of the commit record added to the trace of the calls for data. *)
Definition note_record (seal : sealed) : K ostate unit :=
  match cbh seal with Some blk => page_cache (CommitRecord blk) | None => kret tt end.
Definition seal_transaction (ret : Z) (revokes : list Z) (w : commit_locals) (ct rt : tr_id) : K ostate unit :=
  seal <- on_ok (commit_seal submit_sb jiffies j_inode io_ok (has_feature_async_commit f) ret revokes w ct rt) ;;
  note_record seal.

(** After the metadata loop. *)
Definition commit_after_loop (fuel : nat) (ret : Z) (revokes : list Z) (w : commit_locals) (ct rt : tr_id)
  : K ostate (option unit) :=
  commit_finish_data submit_sb jiffies fdatawait abort_on_syncdata ct ;;;
  seal_transaction ret revokes w ct rt ;;;
  l <- read_list ct ;;
  j_assert (bool_decide (l = [])) ;;;
  on_ok (commit_checkpoint page_free free_page fuel ct).

Definition jbd2_vmsep_journal_commit_transaction (fuel : nat) (envs : list (K ostate unit)) (ret : Z)
  : K ostate (option unit) :=
  p <- on_ok (commit_lock submit_sb jiffies) ;;
  let '(ct, rt) := p in
  u <- wait_handles envs ct ;;
  match u with
  | None => kret None
  | Some _ =>
    r <- commit_flush fuel ct ;;
    match r with
    | None => kret None
    | Some _ =>
      commit_submit_data submit_sb jiffies writepages ct ;;;
      revokes <- commit_revokes ct ;;
      on_ok (commit_begin_logging ct) ;;;
      r <- on_ok (commit_loop submit_sb jiffies j_inode copy_ok (journal_vmsep_tag_bytes f) (csum_size f) (j_blocksize f)
                    j_wbufsize fuel ct rt (mk_locals None [] revokes [])) ;;
      match r with
      | None => kret None
      | Some w => commit_after_loop fuel ret revokes w ct rt
      end
    end
  end.
End Transaction.

(** ** The data of ordered mode *)

Section Ordered.
Context (submit_sb : journal_t -> Z) (jiffies : Z) (fdatawait : ji_id -> Z) (abort_on_syncdata : bool).

(** No inode waits for the transaction after the commit waited for its data. *)
Lemma no_next s ct :
  inodes_ok s -> j_committing_transaction (k_journal (o_k s)) = Some ct -> t_inode_list s ct = [] ->
  forall i ji, o_inodes s !! i = Some ji -> i_next_transaction ji = None.
Proof.
  intros Hok Hc Hl i ji Hi. destruct (i_next_transaction ji) as [u|] eqn:Hn; [|done].
  destruct (io_next _ Hok i ji u Hi Hn) as (c & Ht & Hc' & _). replace c with ct in Ht by congruence.
  apply (io_member _ Hok i ji ct Hi) in Ht. rewrite Hl in Ht. by apply elem_of_nil in Ht.
Qed.

(** Then the lists do not depend on the committing transaction. *)
Lemma inodes_ok_free s k io :
  inodes_ok s -> (forall i ji, o_inodes s !! i = Some ji -> i_next_transaction ji = None) ->
  inodes_ok (mk_ostate (o_a (set_k k s)) (o_inodes s) (o_lists s) io).
Proof. intros [H1 H2 H3 H4 H5] Hn. split; try done. intros i ji u Hi. by rewrite (Hn i ji Hi). Qed.

Lemma finish_data_spec ct s :
  inodes_ok s -> j_committing_transaction (k_journal (o_k s)) = Some ct -> running_live (o_k s) ->
  let waiting := flagged JI_WAIT_DATA s (t_inode_list s ct) in
  wp (commit_finish_data submit_sb jiffies fdatawait abort_on_syncdata ct)
    (fun _ s' => inodes_ok s' /\ t_inode_list s' ct = [] /\ same_work (o_k s) (o_k s') /\
       (j_free (k_journal (o_k s')) = j_free (k_journal (o_k s)) /\ j_head (k_journal (o_k s')) = j_head (k_journal (o_k s))) /\
       o_io s' = o_io s ++ (WaitOn <$> waiting) /\
       (forall i, o_inodes s' !! i = if decide (i ∈ t_inode_list s ct) then refiled <$> o_inodes s !! i else o_inodes s !! i) /\
       JBD2_ABORT (k_journal (o_k s')) =
         JBD2_ABORT (k_journal (o_k s)) || negb (errors fdatawait waiting 0 =? 0) && abort_on_syncdata) s.
Proof.
  intros Hok Hc Hlive waiting. unfold commit_finish_data, journal_finish_inode_data_buffers, read_list.
  wp_step. wp_step. unfold wp at 1. wp_step. eapply wp_mono; [by apply (wait_inodes_spec fdatawait ct)|].
  intros ret s1 [-> ->]. fold waiting. wp_step.
  eapply wp_mono; [apply (refile_inodes_spec ct (t_inode_list s ct)); [by apply inodes_ok_io|done]|].
  intros _ s2 (Hok2 & Hl2 & Ha2 & Hio2 & Hin2). wp_step. cbn in Ha2, Hio2, Hin2.
  assert (o_k s2 = o_k s) as Hk2 by (unfold o_k; by rewrite Ha2).
  apply wp_if; intros He; rewrite He; [|wp_step; rewrite Hk2, orb_false_r; by split_and!].
  apply wp_on_ok. rewrite Hk2.
  eapply wp_mono; [apply (wp_keeps same_log), (wp_keeps same_work), (abort_soft_exec _ _ 0);
    eauto using abort_soft_same_log, abort_soft_work|].
  intros _ k ([[Ha _] Hw] & Hlg).
  assert (inodes_ok (set_k k s2)) as Hok3.
  { eapply (inodes_ok_free s2 k (o_io s2) Hok2). eapply no_next; [done|by rewrite Hk2|done]. }
  split_and!; try done; [unfold same_log in Hlg; by dest..|]. change (o_k (set_k k s2)) with k. by rewrite Ha, orb_true_r.
Qed.
End Ordered.

(** ** Properties *)

(** C4: Ordered mode.  After the metadata loop the commit waits for the pages of every inode whose data the
    transaction has to order, in the order of its list and before it seals the transaction with a commit
    record; it then runs to its end: the inodes are on no list of the transaction any more (an
    inode that the running transaction uses too is on its list), both invariants of the
    buffers and the one of the inodes hold, and the transaction is committed.  The record goes to the block
    at the head of the log.  When waiting for data failed and the mount option asks for it, the journal is aborted;
    an unaborted journal has all log blocks and the commit record on the device. *)
Theorem ordered_data_before_commit submit_sb jiffies j_inode f io_ok page_free free_page fdatawait abort_on_syncdata
    ext ct rt tid L fuel ret revokes w sh fg s :
  (forall b, 0 <= ext b) -> frees_unjournalled free_page -> mapped j_inode ->
  inodes_ok s -> inv ext ct rt tid L T_COMMIT None [] sh fg (o_k s) ->
  tracks revokes sh w -> locals_ok w -> pending w = [] -> 1 < j_free (k_journal (o_k s)) ->
  (length fg + length sh <= fuel)%nat ->
  let data := t_inode_list s ct in
  wp (commit_after_loop submit_sb jiffies j_inode f io_ok page_free free_page fdatawait abort_on_syncdata fuel ret revokes w ct rt)
    (fun r s' => r = Some tt /\ wf ext (o_k s') /\ cp_ok (o_k s') /\ inodes_ok s' /\
       (exists record, o_io s' = o_io s ++ (WaitOn <$> flagged JI_WAIT_DATA s data) ++ (CommitRecord <$> record) /\
          (record = [] \/ record = [physical j_inode (j_head (k_journal (o_k s)))]) /\
          (JBD2_ABORT (k_journal (o_k s')) = false ->
             (forall blk, blk ∈ revokes ++ submitted_blocks w ++ record -> io_ok blk = true) /\ record <> [])) /\
       t_inode_list s' ct = [] /\
       (forall i ji, i ∈ data -> o_inodes s !! i = Some ji -> o_inodes s' !! i = Some (refiled ji)) /\
       j_committing_transaction (k_journal (o_k s')) = None /\ j_commit_sequence (k_journal (o_k s')) = tid /\
       (abort_on_syncdata = true -> errors fdatawait (flagged JI_WAIT_DATA s data) 0 <> 0 ->
          JBD2_ABORT (k_journal (o_k s')) = true)) s.
Proof.
  intros Hext Hfree Hm Hok Hi Htk Hw Hp Hf Hfuel data. unfold commit_after_loop. wp_step.
  pose proof (iv_committing _ _ _ _ _ _ _ _ _ _ _ Hi) as Hc.
  eapply wp_mono; [apply (finish_data_spec submit_sb jiffies fdatawait abort_on_syncdata ct s Hok Hc)|].
  { intros t Ht. rewrite (iv_running _ _ _ _ _ _ _ _ _ _ _ Hi) in Ht. done. }
  intros _ s1 (Hok1 & Hl1 & Hw1 & [Hf1 Hh1] & Hio1 & Hin1 & Ha1). fold data in Hin1, Ha1, Hio1.
  assert (inv ext ct rt tid L T_COMMIT None [] sh fg (o_k s1)) as Hi1 by (by eapply inv_work).
  pose proof (no_next s1 ct Hok1 (iv_committing _ _ _ _ _ _ _ _ _ _ _ Hi1) Hl1) as Hnn.
  wp_step. unfold seal_transaction. wp_step. apply wp_on_ok. eapply wp_mono; [eapply seal_spec; try done; lia|].
  intros seal k2 (Hi2 & _ & Hsafe & Hrec & _). rewrite Hh1 in Hrec.
  set (io2 := o_io s1 ++ (CommitRecord <$> option_list (cbh seal))). set (s2 := mk_ostate (o_a (set_k k2 s1)) (o_inodes s1) (o_lists s1) io2).
  assert (wp (note_record seal) (fun _ s' => s' = s2) (set_k k2 s1)) as Hnote.
  { unfold note_record, s2, io2. destruct (cbh seal); [by apply wp_page_cache|]. unfold wp, kret. cbn. rewrite app_nil_r. by destruct s1. }
  eapply wp_mono; [exact Hnote|]. intros _ s' ->. wp_step. unfold read_list, wp at 1.
  wp_step. apply wp_assert; [by apply bool_decide_true|]. apply wp_on_ok.
  eapply wp_mono; [apply (close_spec ext Hext ct rt tid L page_free free_page Hfree fuel _ k2 Hi2); rewrite length_app, length_reverse; lia|].
  intros r k3 (-> & Hwf3 & Hok3 & Hc3 & Hr3 & Hseq3 & Ha3 & _).
  change (o_k (set_k k3 s2)) with k3. split_and!; try done.
  - by apply (inodes_ok_free s1 k3 io2).
  - exists (option_list (cbh seal)). split; [by rewrite app_assoc, <-Hio1|]. split.
    + destruct (cbh seal) as [blk|]; [right|by left]. cbn. by rewrite (Hrec blk eq_refl).
    + rewrite Ha3. intros HA. destruct (proj1 Hsafe HA) as (_ & Hall & _ & (blk & Hblk & Hbok) & _). rewrite Hblk. split; [|done].
      rewrite forallb_forall in Hall. intros b. rewrite app_assoc. intros [Hb|Hb]%elem_of_app; [|apply list_elem_of_singleton in Hb; subst b]; [|done]. by apply Hall, list_elem_of_In.
  - intros i ji Hin Hji. cbn. by rewrite Hin1, decide_True, Hji by done.
  - intros Hab He. rewrite Ha3. destruct (JBD2_ABORT (k_journal k2)) eqn:E; [done|].
    destruct (proj1 Hsafe eq_refl) as [Ha _]. rewrite Ha1, Hab, (proj2 (Z.eqb_neq _ _) He), orb_true_r in Ha. done.
Qed.

(** Transaction 1 has logged buffer 2 and waits for the data of inodes 1 and 2; inode 2 is also used by the
    running transaction 2. *)
Definition ex_logged : journal_head := (ex_jh 1 BJ_Shadow (Some 1%positive) None None) <| ino := 42 |>.
Definition ex_after_loop : ostate :=
  mk_ostate ((ex_access false) <| a_k :=
    mk_kstate (ex_journal <| j_committing_transaction := Some 1%positive |>)
       {[ 2%positive := (ex_bh ex_logged true) <| buffer_shadow := true |> ]}
       {[ 1%positive := zero_transaction <| t_tid := 7 |> <| t_state := T_COMMIT |> <| t_shadow_list := [2]%positive |>;
          2%positive := zero_transaction <| t_tid := 8 |> <| t_state := T_RUNNING |> ]} |>)
    {[ 1%positive := mk_jinode (Some 1%positive) None false true true;
       2%positive := mk_jinode (Some 1%positive) (Some 2%positive) false false true ]}
    {[ 1%positive := [1; 2]%positive ]} [].
Definition ex_written : commit_locals :=
  mk_locals None [(2%positive, 9)] [8] [mk_group 8 7 [mk_tag 500 8] [(9, [1; 2; 3; 4])]].

Lemma ex_inodes_ok : inodes_ok ex_after_loop.
Proof.
  assert (forall t, t_inode_list ex_after_loop t = if decide (t = 1%positive) then [1; 2]%positive else []) as Hl.
  { intros t. unfold t_inode_list. cbn. case_decide; [by subst|]. by rewrite lookup_singleton_ne. }
  assert (forall i ji, o_inodes ex_after_loop !! i = Some ji ->
    i ∈ [1; 2]%positive /\ i_transaction ji = Some 1%positive /\ JI_COMMIT_RUNNING ji = false /\
    (i_next_transaction ji = None \/ i_next_transaction ji = Some 2%positive)) as Hi.
  { intros i ji Hi. unfold ex_after_loop in Hi. cbn [o_inodes] in Hi. revert Hi. intros [[<- <-]|[_ [<- <-]%lookup_singleton_Some]]%lookup_insert_Some; cbn; split_and!; try done; set_solver. }
  split.
  - intros i ji t (Hin & -> & _)%Hi. rewrite Hl. case_decide; [by subst|]. split; [by intros ?%elem_of_nil|congruence].
  - intros i t. rewrite Hl. case_decide; [|by intros ?%elem_of_nil].
    intros [->|[->|?%elem_of_nil]%elem_of_cons]%elem_of_cons; [by eexists|by eexists|done].
  - intros t. rewrite Hl. case_decide; [|apply NoDup_nil_2]. apply (bool_decide_unpack _). reflexivity.
  - intros i ji u (_ & Ht & _ & [Hn|Hn])%Hi Hu; [congruence|]. exists 1%positive. split_and!; [done|done|]. congruence.
  - by intros i ji (_ & _ & ? & _)%Hi.
Qed.

Lemma ex_after_loop_inv :
  inv (fun _ => 0) 1 2 7 (fun _ => False) T_COMMIT None [] [2]%positive [] (o_k ex_after_loop).
Proof.
  split.
  - apply wfb_sound. vm_compute. reflexivity.
  - apply cp_okb_sound. vm_compute. reflexivity.
  - eexists. split; [reflexivity|]. by split.
  - eexists. by split.
  - done.
  - done.
  - done.
  - intros y xy hy Hy. destruct (inv_ownb_sound 1 2 [] [2]%positive (o_k ex_after_loop) y xy hy ltac:(vm_compute; reflexivity) Hy)
      as [? Ho]. split; [done|]. intros Ht. destruct (Ho Ht) as (? & ? & ? & _ & ?). by split_and!.
Qed.

Lemma ordered_data_before_commit_witness :
  wp (commit_after_loop (fun _ => 0) 0 None (mk_jformat false false false false false false 1024 0 []) (fun _ => true)
        (fun _ => true) (fun _ => kret tt) (fun _ => - EIO) true 1 0 [] ex_written 1 2)
    (fun r s' => r = Some tt /\ [WaitOn 1; WaitOn 2] `prefix_of` o_io s' /\ 2%positive ∈ t_inode_list s' 2 /\
       JBD2_ABORT (k_journal (o_k s')) = true) ex_after_loop.
Proof.
  eapply wp_mono; [eapply (ordered_data_before_commit (fun _ => 0) 0 None _ (fun _ => true) (fun _ => true)
    (fun _ => kret tt) (fun _ => - EIO) true (fun _ => 0) 1 2 7 (fun _ => False) 1 0 [] ex_written [2]%positive [])|].
  - done.
  - intros b s. unfold wp, kret. split_and!; [done|done|]. intros y. by left.
  - by intros g b [=].
  - apply ex_inodes_ok.
  - apply ex_after_loop_inv.
  - by split.
  - done.
  - done.
  - vm_compute. reflexivity.
  - cbn. lia.
  - intros r s' (-> & _ & _ & Hok & (record & Hio & _) & _ & Hin & _ & _ & Hab). split_and!; [done|by exists (CommitRecord <$> record)| |].
    + eapply (io_member _ Hok 2%positive); [apply (Hin 2%positive); [set_solver|reflexivity]|]. reflexivity.
    + apply Hab; [done|]. vm_compute. discriminate.
Defined.

(** ** A transaction started during the metadata loop *)

Lemma started_exec jiffies h s :
  j_running_transaction (k_journal s) = None ->
  JBD2_UNMOUNT (k_journal s) = false -> JBD2_ABORT (k_journal s) = false -> j_errno (k_journal s) = 0 ->
  j_barrier_count (k_journal s) = 0 ->
  wp (start_pass jiffies true h)
    (fun r s' => r = Handle.Again /\ exists t tr, k_trans s !! t = None /\ t_state tr = T_RUNNING /\
       t_tid tr = j_transaction_sequence (k_journal s) /\ k_trans s' = <[t := tr]> (k_trans s) /\
       k_journal s' = (k_journal s) <| j_transaction_sequence := u32 (j_transaction_sequence (k_journal s) + 1) |>
                        <| j_running_transaction := Some t |>) s.
Proof.
  intros Hr Hu Ha He Hb. unfold start_pass. wp_step. wp_step. cbv zeta. rewrite Hr, andb_false_r. wp_step. apply wp_assert; [by rewrite Hu|].
  rewrite Ha, He, Hb. cbn [Z.eqb negb orb andb]. rewrite andb_false_r. wp_step. unfold zalloc_transaction, wp at 1.
  set (t := fresh (dom (k_trans s))).
  assert (k_trans s !! t = None) as Hnone by (apply not_elem_of_dom, is_fresh).
  unfold jbd2_get_transaction. wp_step. wp_step. wp_step. wp_step. eapply wp_modify_tr; [apply lookup_insert_eq|].
  wp_step. wp_step. wp_step. apply wp_assert; [by apply bool_decide_true|]. wp_step. wp_step.
  eapply wp_modify_tr; [apply lookup_insert_eq|]. wp_step. split; [done|].
  exists t. eexists. split; [done|]. split; [|split; [|split; [cbn; rewrite !insert_insert_eq; reflexivity|]]]; done.
Qed.

Lemma publish_exec ct rt s tr :
  k_trans s !! ct = Some tr -> t_state tr = T_COMMIT ->
  (forall t, t ∈ j_checkpoint_transactions (k_journal s) -> is_Some (k_trans s !! t)) ->
  j_committing_transaction (k_journal s) = Some ct ->
  wp (commit_publish_next ct rt)
    (fun _ s' => s' = mk_kstate ((k_journal s) <| j_running_transaction := Some rt |>) (k_bufs s)
                        (<[ct := tr <| t_state := T_COMMIT_DFLUSH |>]> (k_trans s))) s.
Proof.
  intros Htr Hst Hq Hc.
  assert (wp jbd2_vmsep_journal_get_log_tail (fun _ s' => s' = s) s) as Htail.
  { unfold jbd2_vmsep_journal_get_log_tail. wp_step. wp_step. rewrite Hc. wp_step.
    destruct (j_checkpoint_transactions (k_journal s)) as [|t q].
    - wp_step. eapply wp_read_tr; [done|]. by wp_step.
    - destruct (Hq t) as [tr' Htr']; [by left|]. wp_step. eapply wp_read_tr; [done|]. by wp_step. }
  unfold commit_publish_next. wp_step. eapply wp_mono; [exact Htail|]. intros [[ut ft] fb] s' ->. wp_step. wp_step. wp_step.
  eapply wp_read_tr; [done|]. wp_step. apply wp_assert; [by apply bool_decide_true|].
  wp_step. eapply wp_modify_tr; [done|]. wp_step. wp_step. by wp_step.
Qed.

(** C34: Between the switch of the committing transaction and the end of the metadata loop
    [j_running_transaction] is NULL, so a handle that starts then allocates a transaction of its own; when the loop is
    done the commit stores its own next transaction into [j_running_transaction].  The
    transaction of the handle is then neither running nor committing nor waiting for
    a checkpoint: nothing in the journal refers to it, its id is skipped, and
    what is modified under it is never committed. *)
Theorem started_transaction_lost jiffies h ext ct rt tid L sh fg s :
  inv ext ct rt tid L T_COMMIT None [] sh fg s ->
  JBD2_UNMOUNT (k_journal s) = false -> JBD2_ABORT (k_journal s) = false -> j_errno (k_journal s) = 0 ->
  j_barrier_count (k_journal s) = 0 ->
  wp (r <- start_pass jiffies true h ;; tail <- commit_publish_next ct rt ;; kret r)
    (fun r s' => r = Handle.Again /\ exists t tr, k_trans s !! t = None /\ k_trans s' !! t = Some tr /\
       t_state tr = T_RUNNING /\ t_tid tr = j_transaction_sequence (k_journal s) /\
       j_running_transaction (k_journal s') = Some rt /\ rt <> t /\
       j_committing_transaction (k_journal s') = Some ct /\ ct <> t /\
       t ∉ j_checkpoint_transactions (k_journal s')) s.
Proof.
  intros Hi Hu Ha He Hb. destruct (iv_ct _ _ _ _ _ _ _ _ _ _ _ Hi) as (tr & Htr & Hl).
  destruct (iv_rt _ _ _ _ _ _ _ _ _ _ _ Hi) as (rtr & Hrtr & _).
  wp_step. eapply wp_mono; [by eapply started_exec; try done; apply Hi|]. intros r s1 (-> & t & tr1 & Hnone & Hst1 & Htid1 & Ht1 & Hj1).
  assert (ct <> t /\ rt <> t) as [Hct Hrt] by (split; intros ->; congruence).
  assert (t ∉ j_checkpoint_transactions (k_journal s)) as Hq.
  { intros Hin. destruct (cp_queued _ (iv_cp _ _ _ _ _ _ _ _ _ _ _ Hi) t Hin) as (tr2 & ? & _). congruence. }
  wp_step. eapply wp_mono; [eapply (publish_exec ct rt s1 tr)|].
  - by rewrite Ht1, lookup_insert_ne.
  - apply Hl.
  - rewrite Hj1. cbn. intros u Hin. destruct (cp_queued _ (iv_cp _ _ _ _ _ _ _ _ _ _ _ Hi) u Hin) as (tr2 & ? & _).
    rewrite Ht1. apply lookup_insert_is_Some'. right. by exists tr2.
  - rewrite Hj1. apply Hi.
  - intros tail s2 ->. wp_step. split; [done|]. exists t, tr1. kst. rewrite lookup_insert_ne, Ht1, lookup_insert_eq by done.
    rewrite Hj1. split_and!; try done. cbn. apply Hi.
Qed.

Lemma started_transaction_lost_witness :
  wp (r <- start_pass 0 true (new_handle 1) ;; tail <- commit_publish_next 1 2 ;; kret r)
    (fun _ s' => j_running_transaction (k_journal s') = Some 2%positive /\
       exists t tr, k_trans s' !! t = Some tr /\ t_state tr = T_RUNNING /\ 2%positive <> t) (o_k ex_after_loop).
Proof.
  eapply wp_mono; [eapply (started_transaction_lost 0 (new_handle 1) (fun _ => 0) 1 2 7 (fun _ => False) [2]%positive []
    (o_k ex_after_loop))|].
  - apply ex_after_loop_inv.
  - reflexivity.
  - reflexivity.
  - reflexivity.
  - reflexivity.
  - intros r s' (_ & t & tr & _ & Ht & Hst & _ & Hr & Hne & _). split; [done|]. by exists t, tr.
Defined.
