(* ===== verification/Invalidate.v ===== *)
(** * Invalidating and releasing pages

    [jbd2_vmsep_journal_try_to_free_buffers] and [jbd2_vmsep_journal_invalidatepage] of
    kernel/fs/jbd2/transaction.c with the functions they call: what the journal does with the
    buffers of a page that the memory management wants back, and with those of a page that is
    truncated.

    A page is its lock and the ring of its buffers.  The size of a buffer never changes ([b_size]);
    [try_to_free_buffers] of the buffer cache is a parameter that returns whether the buffers are gone and the
    page afterwards. *)
From S2P Require Import Prelude Tid State Blist JournalHead Filing Log Handle Commit Checkpoint CommitEnd.
From S2P Require Import CommitWhole.

Record page := mk_page {
  PageLocked : bool;
  page_ring : list bh_id;    (* page_buffers(page) round; [] when the page has none *)
}.

Definition EBUSY : Z := 16.

(** ** Releasing *)

Definition __journal_try_to_free_buffer (b : bh_id) : K kstate unit :=
  h <- read_jh b ;;
  x <- read_bh b ;;
  if buffer_locked x || buffer_dirty x then kret tt
  else if bool_decide (is_Some (b_next_transaction h)) || bool_decide (is_Some (b_transaction h)) then kret tt
  else if bool_decide (is_Some (b_cp_transaction h))
  then __jbd2_vmsep_journal_remove_checkpoint b ;;; kret tt
  else kret tt.

(** The loop over the ring; false at the first buffer that keeps its journal head. *)
Fixpoint try_to_free_ring (l : list bh_id) : K kstate bool :=
  match l with
  | [] => kret true
  | b :: l =>
    jh <- jbd2_vmsep_journal_grab_journal_head b ;;
    if negb jh then try_to_free_ring l
    else
      __journal_try_to_free_buffer b ;;;
      jbd2_vmsep_journal_put_journal_head b ;;;
      x <- read_bh b ;;
      if buffer_jbd x then kret false else try_to_free_ring l
  end.

Section Page.
Context (try_to_free_buffers : page -> K kstate (bool * page)).

(** [page_buffers] is a [BUG] on a page without buffers. *)
Definition jbd2_vmsep_journal_try_to_free_buffers (p : page) : K kstate (bool * page) :=
  j_assert (PageLocked p) ;;;
  j_assert (negb (bool_decide (page_ring p = []))) ;;;
  free <- try_to_free_ring (page_ring p) ;;
  if free : bool then try_to_free_buffers p else kret (false, p).

(** ** Invalidating one buffer *)

Definition __dispose_buffer (b : bh_id) (t : tr_id) : K kstate Z :=
  h <- read_jh b ;;
  if bool_decide (is_Some (b_cp_transaction h))
  then
    __jbd2_journal_temp_unlink_buffer b ;;;
    clear_buffer_dirty b ;;;
    __jbd2_vmsep_journal_file_buffer b t BJ_Forget ;;;
    kret 0
  else __jbd2_journal_unfile_buffer b ;;; kret 1.

(** The buffer loses its place on the disk. *)
Definition unmap_bh (x : buffer_head) : buffer_head :=
  x <| buffer_mapped := false |> <| buffer_req := false |> <| buffer_new := false |>
    <| buffer_delay := false |> <| buffer_unwritten := false |> <| b_bdev := false |>.

(** [zap_buffer_unlocked] and [zap_buffer]. *)
Definition zap_buffer_unlocked (b : bh_id) (may_free : Z) : K kstate Z :=
  clear_buffer_dirty b ;;;
  x <- read_bh b ;;
  j_assert (negb (buffer_jbddirty x)) ;;;
  modify_bh b unmap_bh ;;;
  kret may_free.

Definition zap_buffer (b : bh_id) (may_free : Z) : K kstate Z :=
  modify_jh b (fun h => h <| b_modified := false |>) ;;;
  jbd2_vmsep_journal_put_journal_head b ;;;
  zap_buffer_unlocked b may_free.

(** A buffer that is on no transaction. *)
Definition unmap_idle (b : bh_id) (h : journal_head) : K kstate Z :=
  if negb (bool_decide (is_Some (b_cp_transaction h))) then zap_buffer b 1
  else
    x <- read_bh b ;;
    if negb (buffer_dirty x)
    then __jbd2_vmsep_journal_remove_checkpoint b ;;; zap_buffer b 1
    else
      j <- read_journal ;;
      match j_running_transaction j, j_committing_transaction j with
      | Some t, _ => may_free <- __dispose_buffer b t ;; zap_buffer b may_free
      | None, Some t => may_free <- __dispose_buffer b t ;; zap_buffer b may_free
      | None, None =>
        clear_buffer_jbddirty b ;;;
        __jbd2_vmsep_journal_remove_checkpoint b ;;;
        zap_buffer b 1
      end.

(** A buffer of the committing transaction. *)
Definition unmap_committing (b : bh_id) (partial_page : bool) : K kstate Z :=
  if partial_page then jbd2_vmsep_journal_put_journal_head b ;;; kret (- EBUSY)
  else
    modify_bh b (fun x => x <| buffer_freed := true |>) ;;;
    x <- read_bh b ;;
    j <- read_journal ;;
    (match j_running_transaction j with
     | Some t => if buffer_jbddirty x then modify_jh b (fun h => h <| b_next_transaction := Some t |>) else kret tt
     | None => kret tt
     end) ;;;
    jbd2_vmsep_journal_put_journal_head b ;;;
    kret 0.

Definition journal_unmap_buffer (b : bh_id) (partial_page : bool) : K kstate Z :=
  x <- read_bh b ;;
  if negb (buffer_jbd x) then zap_buffer_unlocked b 1
  else
    jh <- jbd2_vmsep_journal_grab_journal_head b ;;
    if negb jh then zap_buffer_unlocked b 1
    else
      h <- read_jh b ;;
      j <- read_journal ;;
      match b_transaction h with
      | None => unmap_idle b h
      | Some t =>
        if bool_decide (j_committing_transaction j = Some t) then unmap_committing b partial_page
        else
          j_assert (bool_decide (j_running_transaction j = Some t)) ;;;
          may_free <- __dispose_buffer b t ;;
          zap_buffer b may_free
      end.

(** ** Invalidating a range of a page *)

Context (b_size : bh_id -> Z).

(** The loop: a value to return at once, or whether the page may be freed. *)
Fixpoint invalidate_ring (l : list bh_id) (offset stop curr_off : Z) (partial_page : bool) (may_free : bool)
  : K kstate (Z + bool) :=
  match l with
  | [] => kret (inr may_free)
  | b :: l =>
    let next_off := u32 (curr_off + b_size b) in
    if stop <? next_off then kret (inl 0)
    else if offset <=? curr_off
    then
      ret <- journal_unmap_buffer b partial_page ;;
      if ret <? 0 then kret (inl ret)
      else invalidate_ring l offset stop next_off partial_page (may_free && (ret =? 1))
    else invalidate_ring l offset stop next_off partial_page may_free
  end.

Definition jbd2_vmsep_journal_invalidatepage (p : page) (offset length : Z) : K kstate (Z * page) :=
  let stop := u32 (offset + length) in
  let partial_page := negb (offset =? 0) || (length <? PAGE_SIZE) in
  j_assert (PageLocked p) ;;;
  if bool_decide (page_ring p = []) then kret (0, p)
  else
    j_assert (negb ((PAGE_SIZE <? stop) || (stop <? length))) ;;;
    r <- invalidate_ring (page_ring p) offset stop 0 partial_page true ;;
    match r with
    | inl ret => kret (ret, p)
    | inr may_free =>
      if negb partial_page && may_free
      then
        f <- try_to_free_buffers p ;;
        (if f.1 : bool then j_assert (bool_decide (page_ring f.2 = [])) else kret tt) ;;;
        kret (0, f.2)
      else kret (0, p)
    end.
End Page.

(** ** Both invariants are kept *)

(** A step that changes one buffer and the lists of transactions that are not on the checkpoint queue. *)
Lemma cp_ok_lists_step s s' b x h x' (f : tr_id -> transaction_t -> transaction_t) :
  cp_ok s -> has_jh s b x h -> k_journal s' = k_journal s -> k_bufs s' = <[b := x']> (k_bufs s) ->
  (forall t, k_trans s' !! t = f t <$> k_trans s !! t) ->
  (forall t tr, cp_bufs (f t tr) = cp_bufs tr /\ t_state (f t tr) = t_state tr) ->
  (forall t, t ∈ j_checkpoint_transactions (k_journal s) -> forall tr, f t tr = tr) ->
  (forall h', b_private x' = Some h' -> b_cp_transaction h' = b_cp_transaction h /\
     forall t, t ∈ j_checkpoint_transactions (k_journal s) -> b_transaction h' <> Some t /\ b_next_transaction h' <> Some t) ->
  (b_private x' = None -> b_cp_transaction h = None) ->
  cp_ok s'.
Proof.
  intros Hok Hx Hj Hb Ht Hf Hq Hh Hn. destruct s' as [j' bufs' trs']. kst. subst j' bufs'.
  apply (cp_ok_step s (k_journal s) b x h x' trs'); try done.
  - intros t Hin. rewrite Ht. destruct (k_trans s !! t) as [tr|]; [|done]. cbn. by rewrite (Hq t Hin tr).
  - intros t tr'. rewrite Ht. destruct (k_trans s !! t) as [tr|]; [|done]. intros [= <-]. exists tr. split; [done|apply Hf].
  - intros t [tr Htr]. rewrite Ht, Htr. by eexists.
Qed.

(** The transactions that run and commit. *)
Record live_trans (s : kstate) : Prop := {
  lt_live t : j_running_transaction (k_journal s) = Some t \/ j_committing_transaction (k_journal s) = Some t ->
    exists tr, k_trans s !! t = Some tr /\ t_state tr <> T_FINISHED;
  lt_ne t : j_running_transaction (k_journal s) = Some t -> j_committing_transaction (k_journal s) <> Some t;
}.

Definition current (s : kstate) (t : tr_id) : Prop :=
  j_running_transaction (k_journal s) = Some t \/ j_committing_transaction (k_journal s) = Some t.

Lemma current_unqueued s t : cp_ok s -> live_trans s -> current s t -> t ∉ j_checkpoint_transactions (k_journal s).
Proof. intros Hok Hl Hc Hin. destruct (lt_live _ Hl t Hc) as (tr & Ht & Hst). by apply (cp_finished _ Hok t tr Ht) in Hin. Qed.

(** What the journal promises about a buffer: it belongs to the running or the committing transaction or to none; only a
    buffer of the committing transaction is wanted by the next; one that is dirty for the journal is on a list. *)
Record jh_current (s : kstate) (x : buffer_head) (h : journal_head) : Prop := {
  jc_tr t : b_transaction h = Some t -> current s t;
  jc_next t : b_next_transaction h = Some t -> current s t /\ j_committing_transaction (k_journal s) = b_transaction h;
  jc_dirty : buffer_jbddirty x = true -> b_jlist h <> BJ_None;
}.

(** A caller's reference, taken and dropped. *)
Lemma cp_ok_same_refs s b x h x' h' :
  cp_ok s -> has_jh s b x h -> b_private x' = Some h' -> b_cp_transaction h' = b_cp_transaction h ->
  (forall t, t ∈ j_checkpoint_transactions (k_journal s) -> b_transaction h' <> Some t /\ b_next_transaction h' <> Some t) ->
  cp_ok (mk_kstate (k_journal s) (<[b := x']> (k_bufs s)) (k_trans s)).
Proof.
  intros Hok Hx Hp Hc Hn. eapply (cp_ok_lists_step s _ b x h x' (fun _ tr => tr)); try done.
  - intros t. cbn. by destruct (k_trans s !! t).
  - intros h1 Hh1. replace h1 with h' by congruence. done.
  - congruence.
Qed.

Definition jh_grab (h : journal_head) : journal_head := h <| b_jcount ::= Z.succ |>.
Definition bh_grab (x : buffer_head) (h : journal_head) : buffer_head := x <| b_private := Some (jh_grab h) |>.

Lemma grab_spec ext s b x h :
  wf ext s -> cp_ok s -> has_jh s b x h ->
  wp (jbd2_vmsep_journal_grab_journal_head b)
    (fun r s' => r = true /\ wf (ext_add b 1 ext) s' /\ cp_ok s' /\
       s' = mk_kstate (k_journal s) (<[b := bh_grab x h]> (k_bufs s)) (k_trans s)) s.
Proof.
  intros Hwf Hok Hx. pose proof Hx as [Hb Hh]. destruct (wf_jh _ _ _ _ _ Hwf Hb Hh) as [Hj Ho].
  unfold jbd2_vmsep_journal_grab_journal_head. wp_step. eapply wp_read_bh; [exact Hb|]. rewrite Hj.
  wp_step. eapply wp_modify_jh; [exact Hb|exact Hh|]. wp_step. split_and!; [done| | |done].
  - eapply wf_set_bh; [exact Hwf|intros; by apply ext_add_ne|]. split; [cbn; by rewrite Hj|]. cbn.
    destruct Ho. split; cbn; rewrite ?ext_add_eq; auto; lia.
  - eapply cp_ok_same_refs; try done. intros t Hin. by apply (cp_unref _ Hok t b x h).
Qed.

(** Dropping it frees the journal head unless someone else still refers to it. *)
Lemma put_spec ext s b x h :
  wf (ext_add b 1 ext) s -> cp_ok s -> 0 <= ext b -> has_jh s b x h ->
  wp (jbd2_vmsep_journal_put_journal_head b)
    (fun _ s' => wf ext s' /\ cp_ok s' /\
       s' = mk_kstate (k_journal s) (<[b := bh_put x h]> (k_bufs s)) (k_trans s)) s.
Proof.
  intros Hwf Hok Hpos Hx. pose proof Hx as [Hb Hh]. destruct (wf_jh _ _ _ _ _ Hwf Hb Hh) as [Hj Ho].
  pose proof (jh_count _ _ _ _ Ho) as Hc. rewrite ext_add_eq in Hc. pose proof (ref_range (b_transaction h)).
  eapply wp_mono; [by eapply put_exec|]. intros _ s' [->%goes_to_eq Hwf']. split_and!; [done| |done].
  eapply (cp_ok_lists_step s _ b x h (bh_put x h) (fun _ tr => tr)); try done.
  - intros t. cbn. by destruct (k_trans s !! t).
  - intros h'. unfold bh_put. destruct (_ =? 1); [done|]. intros [= <-]. split; [done|]. intros t Hin. by apply (cp_unref _ Hok t b x h).
  - unfold bh_put. destruct (b_jcount h =? 1) eqn:E; [|done]. bool_to_prop. intros _. apply ref_none.
    pose proof (ref_range (b_cp_transaction h)). lia.
Qed.

(** ** What a step on the buffers of a list leaves alone *)

Lemma list_elem_of_singleton_ne {A} (x y : A) : x ∉ [y] -> y <> x.
Proof. intros H ->. apply H. by left. Qed.

Record quiet (l : list bh_id) (s s' : kstate) : Prop := {
  q_bufs y : y ∉ l -> k_bufs s' !! y = k_bufs s !! y;
  q_running : j_running_transaction (k_journal s') = j_running_transaction (k_journal s);
  q_committing : j_committing_transaction (k_journal s') = j_committing_transaction (k_journal s);
  q_live t tr : current s t -> k_trans s !! t = Some tr -> t_state tr <> T_FINISHED ->
    exists tr', k_trans s' !! t = Some tr' /\ t_state tr' = t_state tr;
}.

#[export] Instance quiet_preorder l : PreOrder (quiet l).
Proof.
  split.
  - intros s. split; try done. eauto.
  - intros s1 s2 s3 [H1 H2 H3 H4] [G1 G2 G3 G4]. split.
    + intros y Hy. by rewrite G1, H1.
    + congruence.
    + congruence.
    + intros t tr Hc Ht Hst. destruct (H4 t tr Hc Ht Hst) as (tr2 & Ht2 & Hst2).
      destruct (G4 t tr2) as (tr3 & Ht3 & Hst3); [unfold current in *; by rewrite H2, H3|done|congruence|].
      exists tr3. split; [done|congruence].
Qed.

Lemma quiet_live l s s' : quiet l s s' -> live_trans s -> live_trans s'.
Proof.
  intros Hq [H1 H2]. destruct Hq as [_ Hr Hc Hl]. split.
  - intros t. rewrite Hr, Hc. intros Ht. destruct (H1 t Ht) as (tr & Htr & Hst).
    destruct (Hl t tr Ht Htr Hst) as (tr' & ? & ?). exists tr'. split; congruence.
  - intros t. rewrite Hr, Hc. apply H2.
Qed.

Lemma quiet_mono l l' s s' : l ⊆ l' -> quiet l s s' -> quiet l' s s'.
Proof. intros Hl [H1 H2 H3 H4]. split; auto. Qed.

(** Transactions change in their lists only. *)
Lemma quiet_step b s s' x' (f : tr_id -> transaction_t -> transaction_t) :
  k_journal s' = k_journal s -> k_bufs s' = <[b := x']> (k_bufs s) ->
  (forall t, k_trans s' !! t = f t <$> k_trans s !! t) -> (forall t tr, t_state (f t tr) = t_state tr) ->
  quiet [b] s s'.
Proof.
  intros Hj Hb Ht Hf. split; rewrite ?Hj; try done.
  - intros y Hy%list_elem_of_singleton_ne. by rewrite Hb, lookup_insert_ne.
  - intros t tr _ Htr _. exists (f t tr). by rewrite Ht, Htr.
Qed.

Lemma quiet_insert b s x' : quiet [b] s (mk_kstate (k_journal s) (<[b := x']> (k_bufs s)) (k_trans s)).
Proof. apply (quiet_step b s _ x' (fun _ tr => tr)); try done. intros t. cbn. by destruct (k_trans s !! t). Qed.

Lemma jh_current_quiet l s s' x h : quiet l s s' -> jh_current s x h -> jh_current s' x h.
Proof.
  intros [_ Hr Hc _] [H1 H2 H3]. unfold current in *. split; unfold current; rewrite ?Hr, ?Hc; auto.
Qed.

(** Altering one transaction, pointwise. *)
Lemma lookup_alter_if (f : transaction_t -> transaction_t) (m : gmap positive transaction_t) t u :
  alter f t m !! u = (if decide (u = t) then f else id) <$> m !! u.
Proof. rewrite lookup_alter. repeat case_decide; try congruence; by destruct (m !! u). Qed.

(** ** Disposing of a buffer *)

Section Dispose.
Context (ext : bh_id -> Z) (b : bh_id) (t : tr_id).

(** Onto the forget list of [t]: a checkpoint still needs the buffer. *)
Lemma dispose_to_forget s x h :
  wf ext s -> cp_ok s -> has_jh s b x h -> live_trans s -> current s t ->
  (b_transaction h = Some t \/ b_transaction h = None) -> b_next_transaction h = None ->
  (buffer_jbddirty x = true -> b_jlist h <> BJ_None) ->
  wp (__jbd2_journal_temp_unlink_buffer b ;;; clear_buffer_dirty b ;;;
      __jbd2_vmsep_journal_file_buffer b t BJ_Forget ;;; kret 0)
    (fun r s' => r = 0 /\ wf ext s' /\ cp_ok s' /\ quiet [b] s s' /\
       exists x' h', has_jh s' b x' h' /\ buffer_jbddirty x' = false /\ b_next_transaction h' = None /\
         b_cp_transaction h' = b_cp_transaction h /\ b_transaction h' = Some t /\ b_jlist h' = BJ_Forget) s.
Proof.
  intros Hwf Hok Hx Hlive Hcur Ht Hn Hjd. pose proof (current_unqueued _ _ Hok Hlive Hcur) as Hq.
  destruct (lt_live _ Hlive t Hcur) as (tr & Htr & _).
  wp_step. eapply wp_mono; [by eapply temp_unlink_spec|].
  intros _ [j1 bufs1 trs1] (Hwf1 & Hj1 & Hd1 & Hx1 & Hb1 & Ht1). kst. subst j1.
  set (x1 := if decide _ then _ else _) in *. set (h1 := h <| b_jlist := BJ_None |>) in *.
  assert (buffer_jbddirty x1 = false) as Hjd1.
  { subst x1. case_decide as E; [|done]. destruct (buffer_jbddirty x); [by destruct Hjd|done]. }
  pose proof Hx1 as [Hb1' Hh1]. unfold clear_buffer_dirty. wp_step. eapply wp_modify_bh; [exact Hb1'|].
  set (x2 := x1 <| buffer_dirty := false |>). kst.
  assert (has_jh (mk_kstate (k_journal s) (<[b := x2]> bufs1) trs1) b x2 h1) as Hx2 by (by apply has_jh_upd).
  assert (wf ext (mk_kstate (k_journal s) (<[b := x2]> bufs1) trs1)) as Hwf2
    by (by eapply (wf_flags ext (mk_kstate (k_journal s) bufs1 trs1) (k_journal s) b x1 x2)).
  wp_step. eapply wp_mono; [eapply (file_buffer_spec ext _ b x2 h1 t BJ_Forget); try done|].
  { kst. apply elem_of_dom. rewrite Hd1. by eapply elem_of_dom_2. }
  { by intros [_ ?]. }
  intros _ s' (Hwf' & Hj & (x' & Hx' & Hb' & Hjd' & _) & Ht'). kst. wp_step.
  set (f := fun u => if decide (u = t) then fun tr => tr_link b BJ_Forget (if decide (is_Some (b_transaction h1))
        then tr_unlink b (b_jlist h1) (tr_unlink b (b_jlist h) tr) else tr) else id).
  assert (k_bufs s' = <[b := x']> (k_bufs s)) as Hbufs by (by rewrite Hb', Hb1, !insert_insert_eq).
  assert (forall u, k_trans s' !! u = f u <$> k_trans s !! u) as Htrs.
  { intros u. rewrite Ht', lookup_alter_if, Ht1. subst f. cbn beta. change (b_transaction h1) with (b_transaction h) in *.
    destruct (decide (is_Some (b_transaction h))) as [Hs|Hs], Ht as [Ht|Ht]; rewrite Ht in *;
      [|by destruct Hs|by destruct Hs; eexists|]; rewrite ?lookup_alter_if; case_decide; by destruct (k_trans s !! u). }
  assert (forall u tr, cp_bufs (f u tr) = cp_bufs tr /\ t_state (f u tr) = t_state tr) as Hf.
  { intros u tr'. subst f. cbn beta. destruct (decide (u = t)); [|done]. rewrite cp_bufs_link, tr_link_state.
    case_decide; rewrite ?cp_bufs_unlink, ?tr_unlink_state, ?cp_bufs_unlink; done. }
  split_and!; [done|done| | |].
  - eapply (cp_ok_lists_step s s' b x h x' f); try done.
    + intros u Hin tr'. subst f. cbn beta. rewrite decide_False; [done|]. by intros ->.
    + rewrite (proj2 Hx'). intros h' [= <-]. split; [done|]. intros u Hin. cbn. rewrite Hn. split; [|done]. intros [= ->]. done.
    + rewrite (proj2 Hx'). done.
  - eapply (quiet_step b s s' x' f); try done. intros u tr'. apply Hf.
  - eexists x', _. split_and!; [exact Hx'|by rewrite Hjd', orb_false_l|done..].
Qed.

(** No checkpoint needs it: it leaves the journal. *)
Lemma dispose_unfile s x h :
  wf ext s -> cp_ok s -> has_jh s b x h -> live_trans s -> 1 <= ext b ->
  b_transaction h = Some t -> current s t -> b_next_transaction h = None -> b_cp_transaction h = None ->
  (buffer_jbddirty x = true -> b_jlist h <> BJ_None) ->
  wp (__jbd2_journal_unfile_buffer b ;;; kret 1)
    (fun r s' => r = 1 /\ wf ext s' /\ cp_ok s' /\ quiet [b] s s' /\
       exists x' h', has_jh s' b x' h' /\ buffer_jbddirty x' = false /\ b_next_transaction h' = None /\
         b_cp_transaction h' = None /\ b_transaction h' = None) s.
Proof.
  intros Hwf Hok Hx Hlive He Ht Hcur Hn Hcp Hjd. pose proof (current_unqueued _ _ Hok Hlive Hcur) as Hq.
  pose proof Hx as [Hb Hh]. destruct (wf_jh _ _ _ _ _ Hwf Hb Hh) as [_ Ho].
  pose proof (jh_count _ _ _ _ Ho) as Hc. rewrite Ht, Hcp in Hc. cbn in Hc.
  wp_step. eapply wp_mono; [eapply (unfile_buffer_spec ext s b x h); try done; first [by eexists|lia]|].
  intros _ s' (Hwf' & Hj & Hbufs & Htrs). wp_step. rewrite Ht in Htrs.
  set (h1 := h <| b_jlist := BJ_None |> <| b_transaction := None |>) in *.
  set (x1 := if decide _ then _ else _) in *.
  assert (buffer_jbddirty x1 = false) as Hjd1.
  { subst x1. case_decide; [|done]. destruct (buffer_jbddirty x); [by destruct Hjd|done]. }
  assert (bh_put x1 h1 = x1 <| b_private := Some (h1 <| b_jcount ::= Z.pred |>) |>) as Hput.
  { unfold bh_put. rewrite (proj2 (Z.eqb_neq _ _)); [done|]. cbn. lia. }
  rewrite Hput in Hbufs. set (x' := x1 <| b_private := _ |>) in *.
  set (f := fun u => if decide (u = t) then tr_unlink b (b_jlist h) else id).
  assert (forall u, k_trans s' !! u = f u <$> k_trans s !! u) as Htrs' by (intros u; by rewrite Htrs, lookup_alter_if).
  assert (forall u tr, cp_bufs (f u tr) = cp_bufs tr /\ t_state (f u tr) = t_state tr) as Hf.
  { intros u tr'. subst f. cbn beta. case_decide; [|done]. by rewrite cp_bufs_unlink, tr_unlink_state. }
  split_and!; [done|done| | |].
  - eapply (cp_ok_lists_step s s' b x h x' f); try done.
    + intros u Hin tr'. subst f. cbn beta. rewrite decide_False; [done|]. by intros ->.
    + intros h' [= <-]. split; [done|]. intros u Hin. cbn. by rewrite Hn.
  - eapply (quiet_step b s s' x' f); try done. intros u tr'. apply Hf.
  - eexists x', _. split_and!; [split; [by rewrite Hbufs, lookup_insert_eq|done]|done..].
Qed.

Lemma dispose_spec s x h :
  wf ext s -> cp_ok s -> has_jh s b x h -> live_trans s -> 1 <= ext b -> current s t ->
  (b_transaction h = Some t \/ b_transaction h = None /\ is_Some (b_cp_transaction h)) ->
  b_next_transaction h = None -> (buffer_jbddirty x = true -> b_jlist h <> BJ_None) ->
  wp (__dispose_buffer b t)
    (fun r s' => wf ext s' /\ cp_ok s' /\ quiet [b] s s' /\
       exists x' h', has_jh s' b x' h' /\ buffer_jbddirty x' = false /\ b_next_transaction h' = None /\
         b_cp_transaction h' = b_cp_transaction h /\
         (r = 0 /\ is_Some (b_cp_transaction h) /\ b_transaction h' = Some t /\ b_jlist h' = BJ_Forget \/
          r = 1 /\ b_cp_transaction h = None /\ b_transaction h' = None)) s.
Proof.
  intros Hwf Hok Hx Hlive He Hcur Ht Hn Hjd. unfold __dispose_buffer. wp_step. eapply wp_read_jh; [apply Hx|apply Hx|].
  apply wp_if; [intros Hc%bool_decide_eq_true|intros Hc%bool_decide_eq_false].
  - eapply wp_mono; [eapply (dispose_to_forget s x h); try done; tauto|].
    intros r s' (-> & ? & ? & ? & x' & h' & ? & ? & ? & ? & ? & ?). split_and!; try done. exists x', h'. split_and!; auto.
  - apply eq_None_not_Some in Hc. assert (b_transaction h = Some t) as Ht'.
    { destruct Ht as [?|[_ [? ?]]]; [done|congruence]. }
    eapply wp_mono; [by eapply (dispose_unfile s x h)|].
    intros r s' (-> & ? & ? & ? & x' & h' & ? & ? & ? & ? & ?). split_and!; try done. exists x', h'. split_and!; [done..|congruence|auto].
Qed.
End Dispose.

(** ** Unmapping *)

(** Nothing of the buffer is left to be written. *)
Definition zapped (x : buffer_head) : Prop :=
  buffer_dirty x = false /\ buffer_jbddirty x = false /\ buffer_mapped x = false /\ buffer_req x = false /\
  buffer_new x = false /\ buffer_delay x = false /\ buffer_unwritten x = false /\ b_bdev x = false.

Definition bh_zap (x : buffer_head) : buffer_head := unmap_bh (x <| buffer_dirty := false |>).

Lemma zap_unlocked_spec ext s b x m :
  wf ext s -> cp_ok s -> k_bufs s !! b = Some x -> buffer_jbddirty x = false ->
  wp (zap_buffer_unlocked b m)
    (fun r s' => r = m /\ wf ext s' /\ cp_ok s' /\ zapped (bh_zap x) /\
       s' = mk_kstate (k_journal s) (<[b := bh_zap x]> (k_bufs s)) (k_trans s)) s.
Proof.
  intros Hwf Hok Hb Hjd. unfold zap_buffer_unlocked, clear_buffer_dirty.
  wp_step. eapply wp_modify_bh; [exact Hb|]. wp_step. eapply wp_read_bh; [kst; apply lookup_insert_eq|].
  wp_step. apply wp_assert; [cbn; by rewrite Hjd|]. wp_step. eapply wp_modify_bh; [kst; apply lookup_insert_eq|].
  wp_step. kst. rewrite insert_insert_eq. change (unmap_bh (x <| buffer_dirty := false |>)) with (bh_zap x).
  split_and!; [done|by eapply (wf_flags ext s (k_journal s) b x)| |by split_and!|done].
  destruct (b_private x) as [h|] eqn:Hh.
  - eapply (cp_ok_same_refs s b x h (bh_zap x) h); try done. intros t Hin. by apply (cp_unref _ Hok t b x h).
  - assert (forall y xy hy, has_jh (mk_kstate (k_journal s) (<[b := bh_zap x]> (k_bufs s)) (k_trans s)) y xy hy <-> has_jh s y xy hy) as Hjh.
    { intros y xy hy. unfold has_jh. kst. rewrite lookup_insert. case_decide; [subst|done].
      split; intros [E Hp]; [injection E as <-; change (b_private (bh_zap x)) with (b_private x) in Hp|replace xy with x in Hp by congruence]; congruence. }
    destruct Hok as [[H1 H2 H3 H4] H5 H6 H7 H8]. split; [split| | | |]; kst; try done.
    + intros y xy hy t tr. rewrite Hjh. apply H1.
    + intros t tr y Ht Hin. destruct (H2 t tr y Ht Hin) as (xy & hy & Hy). exists xy, hy. by rewrite Hjh.
    + intros y xy hy t. rewrite Hjh. apply H3.
    + intros t y xy hy Hin. rewrite Hjh. by apply H8.
Qed.

(** What becomes of a buffer whose journal head was held by the caller only for the call. *)
Definition let_go (h : journal_head) (x' : buffer_head) : Prop :=
  (forall h', b_private x' = Some h' -> b_transaction h' = b_transaction h /\ b_next_transaction h' = b_next_transaction h /\
     b_cp_transaction h' = b_cp_transaction h /\ b_jlist h' = b_jlist h /\ b_modified h' = false) /\
  (b_private x' = None -> b_transaction h = None /\ b_cp_transaction h = None).

Lemma zap_spec ext s b x h m :
  wf (ext_add b 1 ext) s -> cp_ok s -> 0 <= ext b -> has_jh s b x h -> buffer_jbddirty x = false ->
  wp (zap_buffer b m)
    (fun r s' => r = m /\ wf ext s' /\ cp_ok s' /\ quiet [b] s s' /\
       exists x', k_bufs s' !! b = Some x' /\ zapped x' /\ let_go h x') s.
Proof.
  intros Hwf Hok Hpos Hx Hjd. pose proof Hx as [Hb Hh]. destruct (wf_jh _ _ _ _ _ Hwf Hb Hh) as [Hj Ho].
  pose proof (jh_count _ _ _ _ Ho) as Hc. rewrite ext_add_eq in Hc.
  unfold zap_buffer. wp_step. eapply wp_modify_jh; [exact Hb|exact Hh|].
  set (h1 := h <| b_modified := false |>). set (x1 := x <| b_private := Some h1 |>). kst.
  set (s1 := mk_kstate _ _ _).
  assert (has_jh s1 b x1 h1) as Hx1 by (by apply has_jh_upd).
  assert (wf (ext_add b 1 ext) s1) as Hwf1.
  { eapply wf_set_bh; [exact Hwf|done|]. split; [cbn; by rewrite Hj|]. cbn. destruct Ho. by split. }
  assert (cp_ok s1) as Hok1.
  { eapply cp_ok_same_refs; try done. intros t Hin. by apply (cp_unref _ Hok t b x h). }
  wp_step. eapply wp_mono; [by eapply put_spec|]. intros _ s2 (Hwf2 & Hok2 & ->).
  eapply wp_mono; [eapply (zap_unlocked_spec ext _ b (bh_put x1 h1)); [done|done|kst; apply lookup_insert_eq|]|].
  { unfold bh_put. by destruct (_ =? 1). }
  intros r s3 (-> & Hwf3 & Hok3 & Hz & ->). split_and!; [done|done|done| |].
  - subst s1. kst. rewrite !insert_insert_eq. apply quiet_insert.
  - eexists. split; [kst; apply lookup_insert_eq|]. split; [done|].
    unfold let_go, bh_put. change (b_jcount h1) with (b_jcount h). destruct (b_jcount h =? 1) eqn:E; cbn; split; try done.
    + intros _. bool_to_prop. pose proof (ref_range (b_transaction h)). pose proof (ref_range (b_cp_transaction h)).
      split; apply ref_none; lia.
    + by intros h' [= <-].
Qed.

(** The journal no longer cares about the buffer ... *)
Definition no_interest (x' : buffer_head) : Prop :=
  forall h', b_private x' = Some h' -> b_transaction h' = None /\ b_next_transaction h' = None /\ b_cp_transaction h' = None.

(** ... or keeps it, clean, until the given transaction is done, for the checkpoint that needs it. *)
Definition pinned_by (s : kstate) (x x' : buffer_head) : Prop :=
  exists h h' t, b_private x = Some h /\ b_private x' = Some h' /\ is_Some (b_cp_transaction h) /\
    b_cp_transaction h' = b_cp_transaction h /\ b_transaction h' = Some t /\ b_jlist h' = BJ_Forget /\
    (b_transaction h = Some t \/ b_transaction h = None /\
       (j_running_transaction (k_journal s) = Some t \/
        j_running_transaction (k_journal s) = None /\ j_committing_transaction (k_journal s) = Some t)).

Definition disposed (s : kstate) (b : bh_id) (x : buffer_head) (r : Z) (s' : kstate) : Prop :=
  exists x', k_bufs s' !! b = Some x' /\ zapped x' /\ (r = 1 /\ no_interest x' \/ r = 0 /\ pinned_by s x x').

(** A buffer of the committing transaction: it is only marked as freed, and as wanted by the running transaction. *)
Definition freed_jh (s : kstate) (x : buffer_head) (h : journal_head) : journal_head :=
  match j_running_transaction (k_journal s) with
  | Some t => if buffer_jbddirty x then h <| b_next_transaction := Some t |> else h
  | None => h
  end.
Definition bh_freed (s : kstate) (x : buffer_head) (h : journal_head) : buffer_head :=
  x <| buffer_freed := true |> <| b_private := Some (freed_jh s x h) |>.

Section Unmap.
Context (ext : bh_id -> Z) (Hext : forall y, 0 <= ext y) (b : bh_id).

Lemma ext_grab : 1 <= ext_add b 1 ext b.
Proof. rewrite ext_add_eq. pose proof (Hext b). lia. Qed.

(** Off the checkpoint list; the caller's reference keeps the journal head. *)
Lemma uncp_held s x h c :
  wf (ext_add b 1 ext) s -> cp_ok s -> has_jh s b x h -> b_cp_transaction h = Some c -> b_transaction h = None ->
  wp (__jbd2_vmsep_journal_remove_checkpoint b)
    (fun _ s' => wf (ext_add b 1 ext) s' /\ cp_ok s' /\ quiet [b] s s' /\
       exists x' h', has_jh s' b x' h' /\ b_transaction h' = None /\ b_next_transaction h' = b_next_transaction h /\
         b_cp_transaction h' = None /\ buffer_jbddirty x' = buffer_jbddirty x) s.
Proof.
  intros Hwf Hok Hx Hcp Ht. pose proof Hx as [Hb Hh]. destruct (wf_jh _ _ _ _ _ Hwf Hb Hh) as [_ Ho].
  pose proof (jh_count _ _ _ _ Ho) as Hc. rewrite ext_add_eq, Ht, Hcp in Hc. cbn in Hc. pose proof (Hext b).
  destruct (cp_live _ (cp_ok_lists _ Hok) b x h c Hx Hcp) as [tr Htr].
  eapply wp_mono; [eapply (remove_checkpoint_spec _ s b x h c tr); try done; pose proof ext_grab; lia|].
  intros freed s' (Hwf' & Hok' & Hf & Hs').
  assert (bh_uncp x h = x <| b_private := Some (jh_uncp h) |>) as Hu.
  { unfold bh_uncp, bh_put. cbn [b_jcount field_update]. rewrite (proj2 (Z.eqb_neq _ _)) by (cbn; lia). done. }
  assert (k_bufs s' = <[b := x <| b_private := Some (jh_uncp h) |>]> (k_bufs s)) as Hbufs
    by (rewrite <-Hu; destruct freed; by rewrite Hs').
  split_and!; [done|done| |].
  - split.
    + intros y Hy%list_elem_of_singleton_ne. by rewrite Hbufs, lookup_insert_ne.
    + destruct freed; by rewrite Hs'.
    + destruct freed; by rewrite Hs'.
    + intros u tru _ Hu' Hst. destruct (decide (u = c)) as [->|Hne].
      * replace tru with tr in * by congruence. destruct freed; [by symmetry in Hf; apply andb_true_iff in Hf as [_ Hf%bool_decide_eq_true]|].
        rewrite Hs'. exists (tr_uncp b tr). cbn. by rewrite lookup_insert_eq.
      * exists tru. destruct freed; rewrite Hs'; cbn; by rewrite ?lookup_delete_ne, ?lookup_insert_ne by done.
  - eexists _, (jh_uncp h). split; [split; [by rewrite Hbufs, lookup_insert_eq|done]|]. by rewrite <-Ht.
Qed.

(** Disposing of it for transaction [t], then zapping it. *)
Lemma dispose_zap s0 x0 s x h t :
  wf (ext_add b 1 ext) s -> cp_ok s -> has_jh s b x h -> live_trans s -> current s t ->
  (b_transaction h = Some t \/ b_transaction h = None /\ is_Some (b_cp_transaction h)) ->
  b_next_transaction h = None -> (buffer_jbddirty x = true -> b_jlist h <> BJ_None) ->
  quiet [b] s0 s -> b_private x0 = Some h \/ (exists h0, b_private x0 = Some h0 /\ h = jh_grab h0) ->
  (b_transaction h = Some t \/ b_transaction h = None /\
       (j_running_transaction (k_journal s0) = Some t \/
        j_running_transaction (k_journal s0) = None /\ j_committing_transaction (k_journal s0) = Some t)) ->
  wp (may_free <- __dispose_buffer b t ;; zap_buffer b may_free)
    (fun r s' => wf ext s' /\ cp_ok s' /\ quiet [b] s0 s' /\ disposed s0 b x0 r s') s.
Proof.
  intros Hwf Hok Hx Hlive Hcur Ht Hn Hjd Hq Hx0 Hwho.
  wp_step. eapply wp_mono; [eapply (dispose_spec _ b t s x h); try done; apply ext_grab|].
  intros r s1 (Hwf1 & Hok1 & Hq1 & x1 & h1 & Hx1 & Hjd1 & Hn1 & Hcp1 & Hr).
  eapply wp_mono; [by eapply (zap_spec ext s1 b x1 h1)|].
  intros m s2 (-> & Hwf2 & Hok2 & Hq2 & x2 & Hb2 & Hz & Hg & Hg'). split_and!; [done|done| |].
  { transitivity s; [done|]. by transitivity s1. }
  exists x2. split_and!; [done|done|].
  destruct Hr as [(-> & Hcp & Ht1 & Hl1)|(-> & Hcp & Ht1)].
  - right. split; [done|]. destruct (b_private x2) as [h2|] eqn:E2; [|destruct Hg' as [? ?]; [done|congruence]].
    destruct (Hg h2 eq_refl) as (H1 & H2 & H3 & H4 & _).
    assert (exists h0, b_private x0 = Some h0 /\ b_cp_transaction h = b_cp_transaction h0 /\ b_transaction h = b_transaction h0) as (h0 & Hp0 & Hc0 & Ht0).
    { destruct Hx0 as [?|(h0 & ? & ->)]; [by exists h|by exists h0]. }
    exists h0, h2, t. rewrite <-Hc0, <-Ht0. split_and!; try done; congruence.
  - left. split; [done|]. intros h' Hp'. destruct (Hg h' Hp') as (-> & -> & -> & _). split_and!; congruence.
Qed.

(** A buffer of no transaction. *)
Lemma unmap_idle_spec s x h :
  wf ext s -> cp_ok s -> has_jh s b x h -> live_trans s -> jh_current s x h -> b_transaction h = None ->
  let s1 := mk_kstate (k_journal s) (<[b := bh_grab x h]> (k_bufs s)) (k_trans s) in
  wf (ext_add b 1 ext) s1 -> cp_ok s1 ->
  wp (unmap_idle b (jh_grab h))
    (fun r s' => wf ext s' /\ cp_ok s' /\ quiet [b] s s' /\ disposed s b x r s') s1.
Proof.
  intros Hwf Hok Hx Hlive Hjc Ht s1 Hwf1 Hok1.
  assert (has_jh s1 b (bh_grab x h) (jh_grab h)) as Hx1 by (by apply has_jh_upd).
  assert (quiet [b] s s1) as Hq1 by apply quiet_insert.
  assert (b_next_transaction h = None) as Hn.
  { destruct (b_next_transaction h) as [u|] eqn:E; [|done]. destruct (wf_jh _ _ _ _ _ Hwf (proj1 Hx) (proj2 Hx)) as [_ Ho].
    destruct (jh_next _ _ _ _ Ho) as [? ?]; [by eexists|congruence]. }
  assert (buffer_jbddirty x = false) as Hjd.
  { destruct (buffer_jbddirty x) eqn:E; [|done]. destruct (jc_dirty _ _ _ Hjc E).
    destruct (wf_jh _ _ _ _ _ Hwf (proj1 Hx) (proj2 Hx)) as [_ Ho]. destruct (decide (b_jlist h = BJ_None)); [done|].
    destruct (jh_listed _ _ _ _ Ho) as [? ?]; [done|congruence]. }
  assert (forall s2 x2 h2, wf (ext_add b 1 ext) s2 -> cp_ok s2 -> quiet [b] s1 s2 -> has_jh s2 b x2 h2 -> buffer_jbddirty x2 = false ->
    b_transaction h2 = None -> b_next_transaction h2 = None -> b_cp_transaction h2 = None ->
    wp (zap_buffer b 1) (fun r s' => wf ext s' /\ cp_ok s' /\ quiet [b] s s' /\ disposed s b x r s') s2) as Hzap.
  { intros s2 x2 h2 Hwf2 Hok2 Hq2 Hx2 Hjd2 Ht2 Hn2 Hc2. eapply wp_mono; [by eapply (zap_spec ext s2 b x2 h2)|].
    intros m s3 (-> & Hwf3 & Hok3 & Hq3 & x3 & Hb3 & Hz & Hg & _). split_and!; [done|done| |].
    { transitivity s1; [done|]. by transitivity s2. }
    exists x3. split_and!; [done|done|]. left. split; [done|]. intros h' Hp'. destruct (Hg h' Hp') as (-> & -> & -> & _). done. }
  unfold unmap_idle. change (b_cp_transaction (jh_grab h)) with (b_cp_transaction h).
  destruct (b_cp_transaction h) as [c|] eqn:Hcp; [rewrite bool_decide_true by eauto|rewrite bool_decide_false by (by intros [])]; cbn [negb].
  2: by apply (Hzap s1 _ _ Hwf1 Hok1 ltac:(reflexivity) Hx1).
  wp_step. eapply wp_read_bh; [apply Hx1|]. change (buffer_dirty (bh_grab x h)) with (buffer_dirty x).
  assert (forall s2 x2, wf (ext_add b 1 ext) s2 -> cp_ok s2 -> quiet [b] s1 s2 -> has_jh s2 b x2 (jh_grab h) -> buffer_jbddirty x2 = false ->
    wp (__jbd2_vmsep_journal_remove_checkpoint b ;;; zap_buffer b 1)
      (fun r s' => wf ext s' /\ cp_ok s' /\ quiet [b] s s' /\ disposed s b x r s') s2) as Hrm.
  { intros s2 x2 Hwf2 Hok2 Hq2 Hx2 Hjd2. wp_step. eapply wp_mono; [by eapply (uncp_held s2 x2 (jh_grab h) c)|].
    intros _ s3 (Hwf3 & Hok3 & Hq3 & x3 & h3 & Hx3 & Ht3 & Hn3 & Hc3 & Hjd3).
    apply (Hzap s3 x3 h3); try done; [by transitivity s2|congruence|by rewrite Hn3]. }
  destruct (buffer_dirty x); cbn [negb]; [|by apply (Hrm s1 (bh_grab x h)); try done].
  wp_step. wp_step. change (k_journal s1) with (k_journal s).
  assert (live_trans s1) as Hlive1 by (by eapply quiet_live).
  assert (forall t, j_running_transaction (k_journal s) = Some t \/
      (j_running_transaction (k_journal s) = None /\ j_committing_transaction (k_journal s) = Some t) ->
    wp (may_free <- __dispose_buffer b t ;; zap_buffer b may_free) (fun r s' => wf ext s' /\ cp_ok s' /\ quiet [b] s s' /\ disposed s b x r s') s1) as Hdisp.
  { intros t Hrc. apply (dispose_zap s x s1 (bh_grab x h) (jh_grab h) t); try done.
    - destruct Hrc as [|[]]; [by left|by right].
    - right. split; [done|]. cbn. rewrite Hcp. by eexists.
    - cbn. by rewrite Hjd.
    - right. exists h. split; [apply Hx|done].
    - right. split; [done|]. exact Hrc. }
  destruct (j_running_transaction (k_journal s)) as [t|] eqn:Hr; [apply Hdisp; by left|].
  destruct (j_committing_transaction (k_journal s)) as [t|] eqn:Hc; [apply Hdisp; by right|].
  unfold clear_buffer_jbddirty. wp_step. eapply wp_modify_bh; [apply Hx1|].
  set (x2 := (bh_grab x h) <| buffer_jbddirty := false |>).
  apply (Hrm _ x2); try done.
  - by eapply (wf_flags _ s1 _ b (bh_grab x h)); try done; apply Hx1.
  - eapply (cp_ok_same_refs s1 b (bh_grab x h) (jh_grab h) x2 (jh_grab h)); try done. intros u Hin. by apply (cp_unref _ Hok1 u b (bh_grab x h)).
  - apply quiet_insert.
  - by apply has_jh_upd.
Qed.

(** A buffer of the committing transaction. *)
Lemma unmap_committing_spec s x h c (partial_page : bool) :
  wf ext s -> cp_ok s -> has_jh s b x h -> live_trans s ->
  b_transaction h = Some c -> j_committing_transaction (k_journal s) = Some c ->
  let s1 := mk_kstate (k_journal s) (<[b := bh_grab x h]> (k_bufs s)) (k_trans s) in
  wf (ext_add b 1 ext) s1 -> cp_ok s1 ->
  wp (unmap_committing b partial_page)
    (fun r s' => wf ext s' /\ cp_ok s' /\
       if partial_page then r = - EBUSY /\ s' = s
       else r = 0 /\ s' = mk_kstate (k_journal s) (<[b := bh_freed s x h]> (k_bufs s)) (k_trans s)) s1.
Proof.
  intros Hwf Hok Hx Hlive Ht Hc s1 Hwf1 Hok1. pose proof Hx as [Hb Hh].
  assert (has_jh s1 b (bh_grab x h) (jh_grab h)) as Hx1 by (by apply has_jh_upd).
  destruct (wf_jh _ _ _ _ _ Hwf Hb Hh) as [Hj Ho]. pose proof (jh_alive _ _ _ _ Ho) as Ha.
  assert (forall x0 h0, b_jcount h0 = b_jcount h -> b_private x0 = Some h0 ->
    bh_put (bh_grab x0 h0) (jh_grab h0) = x0) as Hput.
  { intros x0 h0 E Hp. unfold bh_put. rewrite (proj2 (Z.eqb_neq _ _)) by (cbn; lia). destruct x0, h0; cbn in *. rewrite Hp, Z.pred_succ. done. }
  unfold unmap_committing. destruct partial_page.
  - wp_step. eapply wp_mono; [by eapply (put_spec ext s1 b)|]. intros _ s2 (Hwf2 & Hok2 & E). wp_step.
    split_and!; [done|done|done|]. rewrite E. subst s1. kst. rewrite insert_insert_eq, (Hput x h), insert_id by done. by destruct s.
  - wp_step. eapply wp_modify_bh; [apply Hx1|]. wp_step. eapply wp_read_bh; [kst; apply lookup_insert_eq|].
    wp_step. wp_step. kst. subst s1. kst. rewrite insert_insert_eq.
    set (x2 := (bh_grab x h) <| buffer_freed := true |>).
    set (x3 := bh_freed s x h). set (h3 := freed_jh s x h).
    assert (b_transaction h3 = b_transaction h /\ b_cp_transaction h3 = b_cp_transaction h /\ b_jcount h3 = b_jcount h /\
      b_jlist h3 = b_jlist h /\ (b_next_transaction h3 = b_next_transaction h \/ exists t, b_next_transaction h3 = Some t /\
        j_running_transaction (k_journal s) = Some t)) as (Ht3 & Hc3 & Hj3 & Hl3 & Hn3).
    { subst h3. unfold freed_jh. destruct (j_running_transaction _) as [t|]; [destruct (buffer_jbddirty x)|]; cbn; split_and!; eauto. }
    set (s3 := mk_kstate (k_journal s) (<[b := bh_grab x3 h3]> (k_bufs s)) (k_trans s)).
    assert (cp_ok s3) as Hok3.
    { eapply (cp_ok_same_refs s b x h _ (jh_grab h3)); try done. intros t Hin. destruct (cp_unref _ Hok t b x h Hin Hx) as [H1 H2].
      cbn. rewrite Ht3. split; [done|]. destruct Hn3 as [->|(u & -> & Hr)]; [done|]. intros [= ->].
      by apply (current_unqueued s t Hok Hlive); [left|]. }
    assert (wf (ext_add b 1 ext) s3) as Hwf3.
    { eapply wf_set_bh; [exact Hwf|intros; by apply ext_add_ne|]. split; [cbn; by rewrite Hj|]. cbn. destruct Ho.
      split; cbn; rewrite ?ext_add_eq, ?Ht3, ?Hc3, ?Hj3, ?Hl3; eauto; [|lia|lia].
      intros t [?|Hn]; [auto|]. destruct Hn3 as [E|(u & E & Hr)]; rewrite E in Hn; [auto|]. injection Hn as ->.
      destruct (lt_live _ Hlive t) as (tr & ? & _); [by left|]. by eexists. }
    wp_step. eapply (wp_mono _ (fun _ s' => s' = s3)).
    { subst s3 h3 x3. unfold bh_freed, freed_jh. destruct (j_running_transaction (k_journal s)) as [t|] eqn:Hr; [|by wp_step].
      change (buffer_jbddirty x2) with (buffer_jbddirty x). destruct (buffer_jbddirty x); [|by wp_step].
      eapply wp_modify_jh; [kst; apply lookup_insert_eq|done|]. kst. by rewrite insert_insert_eq. }
    intros _ ? ->. wp_step. eapply wp_mono; [eapply (put_spec ext s3 b (bh_grab x3 h3) (jh_grab h3)); try done; by apply has_jh_upd|].
    intros _ s4 (Hwf4 & Hok4 & E). wp_step. split_and!; [done|done|done|]. rewrite E. subst s3. kst.
    rewrite insert_insert_eq, (Hput x3 h3) by done. done.
Qed.

(** The cases of [journal_unmap_buffer]. *)
Definition unmapped (partial_page : bool) (s : kstate) (x : buffer_head) (r : Z) (s' : kstate) : Prop :=
  match b_private x with
  | Some h =>
    if bool_decide (is_Some (b_transaction h) /\ b_transaction h = j_committing_transaction (k_journal s))
    then
      if partial_page then r = - EBUSY /\ s' = s
      else r = 0 /\ s' = mk_kstate (k_journal s) (<[b := bh_freed s x h]> (k_bufs s)) (k_trans s)
    else disposed s b x r s'
  | None => disposed s b x r s'
  end.

Lemma unmap_spec s x partial_page :
  wf ext s -> cp_ok s -> live_trans s -> k_bufs s !! b = Some x ->
  (forall h, b_private x = Some h -> jh_current s x h) -> (b_private x = None -> buffer_jbddirty x = false) ->
  wp (journal_unmap_buffer b partial_page)
    (fun r s' => wf ext s' /\ cp_ok s' /\ quiet [b] s s' /\ unmapped partial_page s x r s') s.
Proof.
  intros Hwf Hok Hlive Hb Hjc Hjd. destruct (wf_bh _ _ Hwf b x Hb) as [Hj Ho].
  unfold journal_unmap_buffer, unmapped. wp_step. eapply wp_read_bh; [exact Hb|]. rewrite Hj.
  destruct (b_private x) as [h|] eqn:Hh; [rewrite bool_decide_true by eauto|rewrite bool_decide_false by (by intros [])]; cbn [negb].
  2: { eapply wp_mono; [apply (zap_unlocked_spec ext s b x 1); auto|]. intros r s' (-> & Hwf' & Hok' & Hz & ->).
       split_and!; [done|done|apply quiet_insert|]. exists (bh_zap x). split_and!; [kst; apply lookup_insert_eq|done|].
       left. split; [done|]. intros h'. change (b_private (bh_zap x)) with (b_private x). congruence. }
  specialize (Hjc h eq_refl). assert (has_jh s b x h) as Hx by done.
  wp_step. eapply wp_mono; [by eapply grab_spec|]. intros r s1 (-> & Hwf1 & Hok1 & ->). cbn [negb].
  wp_step. eapply wp_read_jh; [kst; apply lookup_insert_eq|done|]. wp_step. wp_step. kst.
  change (b_transaction (jh_grab h)) with (b_transaction h).
  destruct (b_transaction h) as [t|] eqn:Ht.
  2: { rewrite bool_decide_false by (by intros [[] _]). by apply (unmap_idle_spec s x h). }
  destruct (decide (j_committing_transaction (k_journal s) = Some t)) as [Hc|Hc].
  - rewrite !bool_decide_true by (rewrite ?Hc; eauto). eapply wp_mono; [by apply (unmap_committing_spec s x h t)|].
    intros r s' (Hwf' & Hok' & Hr). split_and!; [done|done| |done].
    destruct partial_page; destruct Hr as [_ ->]; [done|apply quiet_insert].
  - rewrite (bool_decide_false (j_committing_transaction _ = Some t)) by done.
    rewrite (bool_decide_false (is_Some (Some t) /\ _)) by (intros [_ ?]; congruence).
    destruct (jc_tr _ _ _ Hjc t Ht) as [Hr|?]; [|done].
    wp_step. apply wp_assert; [by apply bool_decide_true|].
    apply (dispose_zap s x _ (bh_grab x h) (jh_grab h) t); try done.
    + by apply has_jh_upd.
    + eapply quiet_live; [apply quiet_insert|done].
    + by left.
    + by left.
    + cbn. destruct (b_next_transaction h) as [u|] eqn:E; [|done]. destruct (jc_next _ _ _ Hjc u E) as [_ ?]. congruence.
    + apply (jc_dirty _ _ _ Hjc).
    + apply quiet_insert.
    + right. eauto.
    + by left.
Qed.
End Unmap.

(** ** A range of a page *)

(** What becomes of a buffer: one of the committing transaction is only marked; any other is clean and
    unmapped, and either out of the journal or kept for a checkpoint. *)
Definition dropped (s : kstate) (x x1 : buffer_head) : Prop :=
  match b_private x with
  | Some h =>
    if bool_decide (is_Some (b_transaction h) /\ b_transaction h = j_committing_transaction (k_journal s))
    then x1 = bh_freed s x h
    else zapped x1 /\ (no_interest x1 \/ pinned_by s x x1)
  | None => zapped x1 /\ no_interest x1
  end.

Definition committing_buffer (s : kstate) (b : bh_id) : Prop :=
  exists x h, has_jh s b x h /\ is_Some (b_transaction h) /\ b_transaction h = j_committing_transaction (k_journal s).

Definition finished_with (s s1 : kstate) (b : bh_id) : Prop :=
  exists x x1, k_bufs s !! b = Some x /\ k_bufs s1 !! b = Some x1 /\ dropped s x x1.

Lemma unmapped_result b partial s x r s' :
  k_bufs s !! b = Some x -> unmapped b partial s x r s' ->
  (r = - EBUSY /\ partial = true /\ s' = s /\ committing_buffer s b) \/
  ((r = 0 \/ r = 1) /\ exists x1, k_bufs s' !! b = Some x1 /\ dropped s x x1 /\ (r = 1 -> no_interest x1)).
Proof.
  intros Hb. unfold unmapped, dropped.
  assert (forall h, b_private x = Some h -> disposed s b x r s' -> (r = 0 \/ r = 1) /\ exists x1, k_bufs s' !! b = Some x1 /\
    (zapped x1 /\ (no_interest x1 \/ pinned_by s x x1)) /\ (r = 1 -> no_interest x1)) as Hd.
  { intros h Hh (x1 & Hx1 & Hz & Hr). split; [naive_solver|]. exists x1. split_and!; [done|done| |]; naive_solver. }
  destruct (b_private x) as [h|] eqn:Hh.
  - case_bool_decide as Hc; [|right; by eapply Hd]. destruct partial; intros [-> ->]; [left|right].
    + split_and!; try done. exists x, h. by split.
    + split; [by left|]. eexists. split; [kst; apply lookup_insert_eq|]. done.
  - intros (x1 & Hx1 & Hz & [[-> Hn]|[_ (h & _ & _ & Hp & _)]]); [|congruence]. right. split; [by right|]. exists x1. naive_solver.
Qed.

Lemma dropped_quiet l s s' x x1 : quiet l s s' -> dropped s' x x1 -> dropped s x x1.
Proof.
  intros [_ Hr Hc _]. unfold dropped, bh_freed, freed_jh, pinned_by. by rewrite Hr, Hc.
Qed.

Section Ring.
Context (ext : bh_id -> Z) (Hext : forall y, 0 <= ext y) (b_size : bh_id -> Z) (Hsize : forall b, 0 < b_size b).

Fixpoint span (l : list bh_id) : Z := match l with [] => 0 | b :: l => b_size b + span l end.

(** The buffers that lie wholly in the range. *)
Definition inside (curr : Z) (l : list bh_id) (offset stop : Z) (b : bh_id) : Prop :=
  exists l1 l2, l = l1 ++ b :: l2 /\ offset <= curr + span l1 /\ curr + span l1 + b_size b <= stop.

Lemma span_pos l : 0 <= span l.
Proof. induction l as [|b l IH]; cbn; [lia|]. pose proof (Hsize b). lia. Qed.

Lemma inside_elem curr l offset stop b : inside curr l offset stop b -> b ∈ l.
Proof. intros (l1 & l2 & -> & _). apply elem_of_app. right. by left. Qed.

Lemma inside_nil curr offset stop b : ~ inside curr [] offset stop b.
Proof. intros ([] & l2 & ? & _); done. Qed.

Lemma inside_cons curr b l offset stop y :
  inside curr (b :: l) offset stop y <->
  (y = b /\ offset <= curr /\ curr + b_size b <= stop) \/ inside (curr + b_size b) l offset stop y.
Proof.
  split.
  - intros ([|b' l1] & l2 & E & H1 & H2); cbn in *; injection E as -> ->; [left; lia|].
    right. exists l1, l2. split_and!; [done|lia|lia].
  - intros [(-> & H1 & H2)|(l1 & l2 & -> & H1 & H2)]; [exists [], l; cbn; split_and!; [done|lia|lia]|].
    exists (b :: l1), l2. cbn. split_and!; [done|lia|lia].
Qed.

Definition ring_ok (s : kstate) (l : list bh_id) : Prop := forall b, b ∈ l -> exists x, k_bufs s !! b = Some x /\
  (forall h, b_private x = Some h -> jh_current s x h) /\ (b_private x = None -> buffer_jbddirty x = false).

Lemma ring_ok_quiet b l s s' : quiet [b] s s' -> b ∉ l -> ring_ok s l -> ring_ok s' l.
Proof.
  intros Hq Hnin Hr y Hy. destruct (Hr y Hy) as (x & Hx & H1 & H2). exists x. split_and!; [|by eauto using jh_current_quiet|done].
  rewrite (q_bufs _ _ _ Hq); [done|]. intros ->%list_elem_of_singleton. done.
Qed.

(** What the loop has achieved. *)
Definition ring_result (offset stop curr : Z) (partial : bool) (l : list bh_id) (s : kstate) (r : Z + bool) (s1 : kstate) : Prop :=
  match r with
  | inl e => e = 0 /\ (forall b, inside curr l offset stop b -> finished_with s s1 b) \/
             e = - EBUSY /\ partial = true /\ exists b, inside curr l offset stop b /\ committing_buffer s b
  | inr m => (forall b, inside curr l offset stop b -> finished_with s s1 b) /\
             (m = true -> forall b, inside curr l offset stop b -> exists x1, k_bufs s1 !! b = Some x1 /\ no_interest x1)
  end.

Lemma invalidate_ring_spec offset stop partial l : forall s curr mf,
  NoDup l -> wf ext s -> cp_ok s -> live_trans s -> ring_ok s l -> 0 <= curr -> curr + span l <= PAGE_SIZE ->
  wp (invalidate_ring b_size l offset stop curr partial mf)
    (fun r s1 => wf ext s1 /\ cp_ok s1 /\ quiet l s s1 /\
       (forall y, ~ inside curr l offset stop y -> k_bufs s1 !! y = k_bufs s !! y) /\
       ring_result offset stop curr partial l s r s1 /\ (r = inr true -> mf = true)) s.
Proof.
  induction l as [|b l IH]; intros s curr mf Hnd Hwf Hok Hlive Hring Hcurr Hspan; cbn [invalidate_ring].
  { wp_step. split_and!; try done; [|by intros [= ->]]. split; intros; exfalso; by eapply inside_nil. }
  apply NoDup_cons in Hnd as [Hnin Hnd]. cbn [span] in Hspan. pose proof (span_pos l). pose proof (Hsize b).
  rewrite u32_id by (unfold is_u32, PAGE_SIZE in *; lia).
  assert (forall y, inside (curr + b_size b) l offset stop y -> y <> b) as Hne by (intros y ?%inside_elem; by intros ->).
  destruct (stop <? curr + b_size b) eqn:Estop; bool_to_prop.
  { wp_step. split_and!; try done. left. split; [done|]. intros y [(_ & _ & ?)|(l1 & l2 & _ & _ & Hle)]%inside_cons; [lia|].
    pose proof (span_pos l1). pose proof (Hsize y). lia. }
  destruct (Hring b) as (x & Hx & Hjc & Hjd); [by left|].
  assert (ring_ok s l) as Hring' by (intros y Hy; apply Hring; by right).
  destruct (offset <=? curr) eqn:Eoff; bool_to_prop.
  - wp_step. eapply wp_mono; [by apply (unmap_spec ext Hext b s x partial)|].
    intros r s1 (Hwf1 & Hok1 & Hq1 & Hu). apply unmapped_result in Hu; [|done].
    destruct Hu as [(-> & -> & -> & Hcb)|(Hr & x1 & Hx1 & Hd & Hni)].
    + change (- EBUSY <? 0) with true. cbv iota. wp_step. split_and!; try done. right. split_and!; try done. exists b. split; [|done]. apply inside_cons. left. split_and!; [done|lia|lia].
    + rewrite (proj2 (Z.ltb_ge r 0)) by lia.
      eapply wp_mono; [eapply (IH s1); try done; [by eapply quiet_live|by eapply ring_ok_quiet|lia|lia]|].
      intros r2 s2 (Hwf2 & Hok2 & Hq2 & Hout & Hres & Hm).
      assert (quiet (b :: l) s s2) as Hq.
      { transitivity s1; [eapply quiet_mono; [|exact Hq1]|eapply quiet_mono; [|exact Hq2]]; set_solver. }
      assert (k_bufs s2 !! b = Some x1) as Hx2 by (rewrite Hout; [done|intros Hin; by eapply Hne]).
      assert (forall y, y <> b -> k_bufs s1 !! y = k_bufs s !! y) as Hs1.
      { intros y Hy. apply (q_bufs _ _ _ Hq1). by intros ->%list_elem_of_singleton. }
      assert ((forall y, inside (curr + b_size b) l offset stop y -> finished_with s1 s2 y) ->
        forall y, inside curr (b :: l) offset stop y -> finished_with s s2 y) as Hfin.
      { intros Hf y [(-> & _)|Hin]%inside_cons; [by exists x, x1|]. destruct (Hf y Hin) as (x' & x1' & H1 & H2 & H3).
        exists x', x1'. rewrite <-Hs1 by auto. split_and!; [done|done|]. by apply (dropped_quiet [b] s s1). }
      split_and!; try done.
      * intros y Hy. rewrite inside_cons in Hy. rewrite Hout by tauto. apply Hs1. intros ->. apply Hy. left. split_and!; [done|lia|lia].
      * destruct r2 as [e|m]; cbn in Hres |- *.
        { destruct Hres as [[-> Hf]|(-> & -> & y & Hin & x' & h' & [Hb' Hh'] & Hc')]; [left; by auto|right]. split_and!; try done.
          exists y. split; [apply inside_cons; by right|]. rewrite Hs1 in Hb' by auto. exists x', h'.
          by rewrite (q_committing _ _ _ Hq1) in Hc'. }
        destruct Hres as [Hf Hn]. split; [by auto|]. intros -> y [(-> & _)|Hin]%inside_cons; [|by apply Hn].
        exists x1. split; [done|]. apply Hni. specialize (Hm eq_refl). apply andb_true_iff in Hm as [_ Hm]. by bool_to_prop.
      * intros ->. specialize (Hm eq_refl). by apply andb_true_iff in Hm as [? _].
  - eapply wp_mono; [eapply (IH s); try done; lia|]. intros r2 s2 (Hwf2 & Hok2 & Hq2 & Hout & Hres & Hm).
    assert (forall y, inside curr (b :: l) offset stop y <-> inside (curr + b_size b) l offset stop y) as Hiff.
    { intros y. rewrite inside_cons. split; [intros [(_ & ? & _)|?]; [lia|done]|by right]. }
    split_and!; try done.
    + eapply quiet_mono; [|exact Hq2]. set_solver.
    + intros y. rewrite Hiff. apply Hout.
    + unfold ring_result in *. destruct r2; setoid_rewrite Hiff; done.
Qed.
End Ring.

(** ** Properties *)

(** What [try_to_free_buffers] of the buffer cache promises: it returns, and a page whose buffers it freed has none. *)
Definition frees_ring (try_to_free_buffers : page -> K kstate (bool * page)) : Prop := forall p s,
  wp (try_to_free_buffers p) (fun r _ => r.1 = true -> page_ring r.2 = []) s.

(** C15: Truncating a range of a page.  No assertion fires and both invariants of the buffers are kept.
    Only buffers that lie wholly in the range change.  When 0 is returned, each of them is either a buffer of the
    committing transaction, which is left to that transaction (marked as freed, and wanted by the running transaction when it
    is dirty), or it is clean and unmapped and has left the journal, or it
    is kept on a forget list because a checkpoint still needs it.  [-EBUSY] is returned only for a part of
    a page, because of a buffer of the committing transaction.  The buffers of the page are freed
    only when the whole page was truncated and the journal cares about none of them. *)
Theorem invalidatepage_exact ext try_to_free_buffers b_size p offset length s :
  (forall y, 0 <= ext y) -> (forall b, 0 < b_size b) -> frees_ring try_to_free_buffers ->
  wf ext s -> cp_ok s -> live_trans s -> ring_ok s (page_ring p) ->
  PageLocked p = true -> NoDup (page_ring p) -> page_ring p <> [] -> span b_size (page_ring p) = PAGE_SIZE ->
  0 <= offset -> 0 <= length -> offset + length <= PAGE_SIZE ->
  let partial := negb (offset =? 0) || (length <? PAGE_SIZE) in
  let in_range := inside b_size 0 (page_ring p) offset (offset + length) in
  wp (jbd2_vmsep_journal_invalidatepage try_to_free_buffers b_size p offset length)
    (fun r s' => exists s1, wf ext s1 /\ cp_ok s1 /\
       (forall y, ~ in_range y -> k_bufs s1 !! y = k_bufs s !! y) /\
       (r.1 = 0 /\ (forall b, in_range b -> finished_with s s1 b) \/
        r.1 = - EBUSY /\ partial = true /\ exists b, in_range b /\ committing_buffer s b) /\
       (r.2 = p /\ s' = s1 \/
        partial = false /\ (forall b, b ∈ page_ring p -> exists x, k_bufs s1 !! b = Some x /\ no_interest x) /\
        exists f, try_to_free_buffers p s1 = Ret (f, s') /\ r.2 = f.2)) s.
Proof.
  intros Hext Hsize Hfree Hwf Hok Hlive Hring Hlock Hnd Hne Hspan Ho Hl Hstop partial in_range.
  unfold jbd2_vmsep_journal_invalidatepage. wp_step. apply wp_assert; [done|]. rewrite bool_decide_false by done.
  rewrite u32_id by (unfold is_u32, PAGE_SIZE in *; lia). fold partial.
  wp_step. apply wp_assert.
  { rewrite negb_true_iff, orb_false_iff, !Z.ltb_ge. lia. }
  wp_step. eapply wp_mono; [eapply (invalidate_ring_spec ext Hext b_size Hsize); try done; lia|].
  intros r s1 (Hwf1 & Hok1 & Hq1 & Hout & Hres & _). fold in_range in Hout, Hres.
  destruct r as [e|m]; cbn in Hres; fold in_range in Hres.
  { wp_step. exists s1. split_and!; [done..| |by left]. destruct Hres as [[-> ?]|(-> & ? & ?)]; [by left|by right]. }
  destruct Hres as [Hf Hm]. destruct (negb partial && m) eqn:E.
  2: { wp_step. exists s1. split_and!; [done..|by left|by left]. }
  apply andb_true_iff in E as [Ep%negb_true_iff ->].
  wp_step. pose proof (Hfree p s1) as Hfr. unfold wp in Hfr at 1. unfold wp at 1.
  destruct (try_to_free_buffers p s1) as [[f s2]|] eqn:Ef; [|done].
  wp_step. eapply (wp_mono _ (fun _ s' => s' = s2)).
  { destruct f.1; [|by wp_step]. apply wp_assert; try done. apply bool_decide_true; auto. }
  intros _ ? ->. wp_step. exists s1. split_and!; [done..|by left|]. right. split_and!; [done| |by exists f].
  intros b Hb. apply Hm; [done|]. subst partial. apply orb_false_iff in Ep as [E1 E2]. bool_to_prop.
  apply list_elem_of_split in Hb as (l1 & l2 & Hb). exists l1, l2. split; [done|].
  assert (forall l l', span b_size (l ++ l') = span b_size l + span b_size l') as Happ.
  { induction l as [|y l IH]; intros l'; cbn; [lia|]. rewrite IH. lia. }
  rewrite Hb, Happ in Hspan. cbn in Hspan. pose proof (span_pos b_size Hsize l1). pose proof (span_pos b_size Hsize l2).
  unfold PAGE_SIZE in *. lia.
Qed.

(** A buffer of a transaction that is neither committing nor running. *)
Lemma unmap_foreign_asserts ext s b x h t partial_page :
  wf ext s -> has_jh s b x h -> b_transaction h = Some t ->
  j_committing_transaction (k_journal s) <> Some t -> j_running_transaction (k_journal s) <> Some t ->
  journal_unmap_buffer b partial_page s = Fault Assert.
Proof.
  intros Hwf Hx Ht Hc Hr. pose proof Hx as [Hb Hh]. destruct (wf_jh _ _ _ _ _ Hwf Hb Hh) as [Hj _].
  set (s1 := mk_kstate (k_journal s) (<[b := bh_grab x h]> (k_bufs s)) (k_trans s)).
  assert (jbd2_vmsep_journal_grab_journal_head b s = Ret (true, s1)) as Hg.
  { unfold jbd2_vmsep_journal_grab_journal_head, kbind, read_bh, modify_jh. rewrite Hb, Hj, Hb, Hh. done. }
  unfold journal_unmap_buffer. erewrite bind_ret; [|unfold read_bh; by rewrite Hb]. rewrite Hj. cbn [negb].
  erewrite bind_ret; [|exact Hg]. cbn [negb]. erewrite bind_ret; [|unfold read_jh, jh_of; subst s1; kst; rewrite lookup_insert_eq; done].
  erewrite bind_ret; [|done]. change (b_transaction (jh_grab h)) with (b_transaction h). rewrite Ht. subst s1. kst.
  rewrite !bool_decide_false by done. done.
Qed.

(** Truncation and the separation of inodes.  In its metadata loop a commit moves the buffers of other inodes to its next
    transaction, which becomes the running one only when the loop is done.  A buffer that is truncated after it was moved
    belongs to a transaction that is neither committing nor running, and the assertion
    of [journal_unmap_buffer] stops the machine. *)
Theorem truncate_moved_buffer_asserts submit_sb jiffies j_inode copy_ok tag_bytes csum_size j_blocksize j_wbufsize
    ext ct rt tid L b l sh fg w s x h tr partial_page :
  inv ext ct rt tid L T_COMMIT None (b :: l) sh fg s -> has_jh s b x h -> b_next_transaction h = None ->
  0 <= ext b -> (b_cp_transaction h <> None \/ 0 < ext b) -> JBD2_ABORT (k_journal s) = false ->
  k_trans s !! ct = Some tr -> ino h <> ino_sync tr ->
  (commit_step submit_sb jiffies j_inode copy_ok tag_bytes csum_size j_blocksize j_wbufsize ct rt w b ;;;
   journal_unmap_buffer b partial_page) s = Fault Assert.
Proof.
  intros Hi Hx Hn He Href Ha Htr Hino. pose proof Hi as [Hwf _ (tr0 & Htr0 & Hls) (rtr & Hrtr & _) Hne Hc Hr Hown].
  replace tr0 with tr in * by congruence. destruct (wf_jh _ _ _ _ _ Hwf (proj1 Hx) (proj2 Hx)) as [_ Ho].
  destruct (jh_member _ _ _ _ Ho ct tr BJ_Metadata Htr) as [Hm _].
  destruct Hm as (Ht & Hl & _); [cbn; rewrite (ll_meta _ _ _ _ _ _ Hls); by left|].
  destruct (Hown b x h Hx) as [_ Hb]. destruct (Hb Ht) as (_ & Hd & _).
  assert (wp (move_to_next rt b) (fun _ s' => journal_unmap_buffer b partial_page s' = Fault Assert) s) as Hmove.
  { eapply wp_mono; [eapply (move_to_next_spec ext s b x h ct rt); try done; by eexists|].
    intros _ s' (Hwf' & Hj' & (x' & h' & Hx' & _ & Ht' & _) & _).
    apply (unmap_foreign_asserts ext s' b x' h' rt); try done; rewrite Hj'; congruence. }
  unfold commit_step, kbind, read_jh, read_tr, jh_of. rewrite (proj1 Hx). cbn. rewrite (proj2 Hx), Htr, (proj2 (Z.eqb_neq _ _) Hino). cbn.
  unfold wp in Hmove. by destruct (move_to_next rt b s) as [[[] s']|].
Qed.

(** ** Releasing the buffers of a page *)

Section Release.
Context (ext : bh_id -> Z) (Hext : forall y, 0 <= ext y).

(** Still in a transaction, locked or to be written. *)
Definition in_use (x : buffer_head) (h : journal_head) : Prop :=
  is_Some (b_transaction h) \/ buffer_locked x = true \/ buffer_dirty x = true.

Definition keeps_used (s s' : kstate) : Prop := forall b x h, has_jh s b x h -> in_use x h -> has_jh s' b x h.

#[local] Instance keeps_used_preorder : PreOrder keeps_used.
Proof. split; [by intros s b x h|]. intros s1 s2 s3 H1 H2 b x h Hx Hu. auto. Qed.

Lemma grab_put_id x h : b_private x = Some h -> 0 < b_jcount h -> bh_put (bh_grab x h) (jh_grab h) = x.
Proof.
  intros Hp Ha. unfold bh_put. rewrite (proj2 (Z.eqb_neq _ _)) by (cbn; lia).
  destruct x, h; cbn in *. rewrite Hp, Z.pred_succ. done.
Qed.

(** One buffer of the ring. *)
Lemma try_to_free_one s b x h :
  wf ext s -> cp_ok s -> has_jh s b x h ->
  wp (jbd2_vmsep_journal_grab_journal_head b ;;; __journal_try_to_free_buffer b ;;; jbd2_vmsep_journal_put_journal_head b)
    (fun _ s' => wf ext s' /\ cp_ok s' /\ (forall y, y <> b -> k_bufs s' !! y = k_bufs s !! y) /\
       (in_use x h \/ b_cp_transaction h = None -> s' = s) /\
       (~ in_use x h -> is_Some (b_cp_transaction h) -> exists x', k_bufs s' !! b = Some x' /\
          (forall h', b_private x' = Some h' -> 0 < ext b /\ b_cp_transaction h' = None) /\ (ext b = 0 -> b_private x' = None))) s.
Proof.
  intros Hwf Hok Hx. pose proof Hx as [Hb Hh]. destruct (wf_jh _ _ _ _ _ Hwf Hb Hh) as [_ Ho].
  pose proof (jh_count _ _ _ _ Ho) as Hcount. pose proof (jh_alive _ _ _ _ Ho) as Ha. pose proof (Hext b).
  wp_step. eapply wp_mono; [by eapply grab_spec|]. intros r s1 (_ & Hwf1 & Hok1 & E1).
  assert (has_jh s1 b (bh_grab x h) (jh_grab h)) as Hx1 by (rewrite E1; by apply has_jh_upd).
  assert (in_use x h \/ b_cp_transaction h = None -> wp (jbd2_vmsep_journal_put_journal_head b)
    (fun _ s' => wf ext s' /\ cp_ok s' /\ (forall y, y <> b -> k_bufs s' !! y = k_bufs s !! y) /\
       (in_use x h \/ b_cp_transaction h = None -> s' = s) /\
       (~ in_use x h -> is_Some (b_cp_transaction h) -> exists x', k_bufs s' !! b = Some x' /\
          (forall h', b_private x' = Some h' -> 0 < ext b /\ b_cp_transaction h' = None) /\ (ext b = 0 -> b_private x' = None))) s1) as Hkeep.
  { intros Hor. eapply wp_mono; [by eapply (put_spec ext s1 b)|]. intros _ s2 (Hwf2 & Hok2 & E2).
    assert (s2 = s) as ->.
    { rewrite E2, E1. kst. rewrite insert_insert_eq, grab_put_id, insert_id by done. by destruct s. }
    split_and!; try done. intros Hu [c Hc]. destruct Hor; [done|congruence]. }
  unfold __journal_try_to_free_buffer. wp_step. wp_step. eapply wp_read_jh; [apply Hx1|apply Hx1|].
  wp_step. eapply wp_read_bh; [apply Hx1|].
  change (buffer_locked (bh_grab x h)) with (buffer_locked x). change (buffer_dirty (bh_grab x h)) with (buffer_dirty x).
  cbn [jh_grab b_next_transaction b_transaction b_cp_transaction field_update].
  destruct (buffer_locked x || buffer_dirty x) eqn:Eld.
  { wp_step. apply Hkeep. left. right. by apply orb_true_iff. }
  apply orb_false_iff in Eld as [El Ed].
  destruct (bool_decide (is_Some (b_next_transaction h)) || bool_decide (is_Some (b_transaction h))) eqn:Et.
  { wp_step. apply Hkeep. left. left. apply orb_true_iff in Et. rewrite !bool_decide_eq_true in Et.
    destruct Et as [Hn|?]; [|done]. by apply (jh_next _ _ _ _ Ho). }
  apply orb_false_iff in Et as [_ Et]. apply bool_decide_eq_false, eq_None_not_Some in Et.
  destruct (b_cp_transaction h) as [c|] eqn:Hc.
  2: { rewrite bool_decide_false by (by intros []). wp_step. apply Hkeep. by right. }
  rewrite bool_decide_true by eauto. wp_step. eapply wp_mono; [by eapply (uncp_held ext Hext b s1 (bh_grab x h) (jh_grab h) c)|].
  intros _ s2 (Hwf2 & Hok2 & Hq2 & x2 & h2 & Hx2 & Ht2 & Hn2 & Hc2 & _). wp_step.
  destruct (wf_jh _ _ _ _ _ Hwf2 (proj1 Hx2) (proj2 Hx2)) as [_ Ho2]. pose proof (jh_count _ _ _ _ Ho2) as Hcount2.
  rewrite ext_add_eq, Ht2, Hc2 in Hcount2. cbn in Hcount2.
  eapply wp_mono; [by eapply (put_spec ext s2 b x2 h2)|]. intros _ s3 (Hwf3 & Hok3 & E3).
  split_and!; [done|done| | |].
  - intros y Hy. rewrite E3. kst. rewrite lookup_insert_ne by done. rewrite (q_bufs _ _ _ Hq2), E1 by (by intros ->%list_elem_of_singleton).
    kst. by rewrite lookup_insert_ne.
  - intros [[[? ?]|[?|?]]|?]; congruence.
  - intros _ _. exists (bh_put x2 h2). split; [rewrite E3; kst; apply lookup_insert_eq|]. unfold bh_put.
    destruct (b_jcount h2 =? 1) eqn:E; bool_to_prop; split; try done; [intros h' [= <-]; cbn; split; [lia|done]|lia].
Qed.

Lemma try_to_free_ring_spec l : forall s,
  wf ext s -> cp_ok s -> (forall b, b ∈ l -> is_Some (k_bufs s !! b)) ->
  wp (try_to_free_ring l)
    (fun r s' => wf ext s' /\ cp_ok s' /\ keeps_used s s' /\ (forall b, b ∉ l -> k_bufs s' !! b = k_bufs s !! b) /\
       (forall b, jh_of s b = None -> jh_of s' b = None) /\
       (r = true -> forall b, b ∈ l -> jh_of s' b = None)) s.
Proof.
  induction l as [|b l IH]; intros s Hwf Hok Hin; cbn [try_to_free_ring].
  { wp_step. split_and!; try done. by intros _ b ?%elem_of_nil. }
  destruct (Hin b) as [x Hb]; [by left|]. destruct (wf_bh _ _ Hwf b x Hb) as [Hj Ho].
  destruct (b_private x) as [h|] eqn:Hh.
  - assert (has_jh s b x h) as Hx by done.
    assert (jbd2_vmsep_journal_grab_journal_head b s = Ret (true, mk_kstate (k_journal s) (<[b := bh_grab x h]> (k_bufs s)) (k_trans s))) as Hg.
    { unfold jbd2_vmsep_journal_grab_journal_head, kbind, read_bh, modify_jh. rewrite Hb, Hj, bool_decide_true by eauto. by rewrite Hb, Hh. }
    pose proof (try_to_free_one s b x h Hwf Hok Hx) as Hone. unfold wp in Hone. rewrite (bind_ret _ _ _ _ _ Hg) in Hone.
    apply wp_bind_inv in Hone. eapply wp_exec; [exact Hg|]. cbn [negb].
    wp_step. eapply wp_mono; [exact Hone|]. intros u0 s0 Hput. wp_step. eapply wp_mono; [exact Hput|].
    intros _ s1 (Hwf1 & Hok1 & Hout & Hsame & Hfree).
    assert (is_Some (k_bufs s1 !! b)) as [x1 Hb1].
    { destruct (decide (in_use x h \/ b_cp_transaction h = None)) as [Hd|Hd]; [rewrite (Hsame Hd); eauto|].
      destruct Hfree as (x' & ? & _); [tauto|destruct (b_cp_transaction h); [eauto|tauto]|eauto]. }
    assert (keeps_used s s1) as Hk1.
    { intros y xy hy Hy Hu. destruct (decide (y = b)) as [->|Hne].
      + replace hy with h in * by (destruct Hy; congruence). replace xy with x in * by (destruct Hy; congruence). by rewrite Hsame by auto.
      + destruct Hy. split; [by rewrite Hout|done]. }
    assert (forall y, jh_of s y = None -> jh_of s1 y = None) as Hn1.
    { intros y. unfold jh_of. destruct (decide (y = b)) as [->|Hne]; [rewrite Hb; cbn; congruence|by rewrite Hout]. }
    destruct (wf_bh _ _ Hwf1 b x1 Hb1) as [Hj1 _]. wp_step. eapply wp_read_bh; [exact Hb1|]. rewrite Hj1.
    destruct (b_private x1) as [h1|] eqn:Hh1; [rewrite bool_decide_true by eauto|rewrite bool_decide_false by (by intros [])].
    { wp_step. split_and!; try done. intros y [Hy _]%not_elem_of_cons. by apply Hout. }
    eapply wp_mono; [apply (IH s1); try done|].
    { intros y Hy. destruct (decide (y = b)) as [->|Hne]; [eauto|]. rewrite Hout by done. apply Hin. by right. }
    intros r s2 (Hwf2 & Hok2 & Hk2 & Hout2 & Hn2 & Hr2). split_and!; try done.
    + by transitivity s1.
    + intros y [Hy1 Hy2]%not_elem_of_cons. by rewrite Hout2, Hout.
    + auto.
    + intros -> y [->|Hy]%elem_of_cons; [|by apply Hr2]. apply Hn2. unfold jh_of. rewrite Hb1. done.
  - wp_step. unfold jbd2_vmsep_journal_grab_journal_head. wp_step. eapply wp_read_bh; [exact Hb|].
    rewrite Hj, bool_decide_false by (by intros []). wp_step. cbn [negb].
    eapply wp_mono; [apply (IH s); try done; intros y Hy; apply Hin; by right|].
    intros r s2 (Hwf2 & Hok2 & Hk2 & Hout2 & Hn2 & Hr2). split_and!; try done.
    + intros y [_ Hy]%not_elem_of_cons. by apply Hout2.
    + intros -> y [->|Hy]%elem_of_cons; [|by apply Hr2]. apply Hn2. unfold jh_of. rewrite Hb. done.
Qed.
End Release.

(** Giving the buffers of a page back to the memory management.  A journal head whose buffer is part of a transaction,
    locked or dirty stays as it is; buffers of other pages do not change; the buffer cache is asked to free the
    page only when none of its buffers has a journal head left.  Both invariants are kept. *)
Theorem try_to_free_releases_idle ext try_to_free_buffers p s :
  (forall y, 0 <= ext y) -> frees_ring try_to_free_buffers -> wf ext s -> cp_ok s ->
  PageLocked p = true -> page_ring p <> [] -> (forall b, b ∈ page_ring p -> is_Some (k_bufs s !! b)) ->
  wp (jbd2_vmsep_journal_try_to_free_buffers try_to_free_buffers p)
    (fun r s' => exists s1, wf ext s1 /\ cp_ok s1 /\
       (forall b x h, has_jh s b x h -> in_use x h -> has_jh s1 b x h) /\
       (forall b, b ∉ page_ring p -> k_bufs s1 !! b = k_bufs s !! b) /\
       (r = (false, p) /\ s' = s1 \/
        (forall b, b ∈ page_ring p -> jh_of s1 b = None) /\ try_to_free_buffers p s1 = Ret (r, s'))) s.
Proof.
  intros Hext Hfree Hwf Hok Hlock Hne Hin. unfold jbd2_vmsep_journal_try_to_free_buffers.
  wp_step. apply wp_assert; [done|]. wp_step. apply wp_assert; [by rewrite bool_decide_false|].
  wp_step. eapply wp_mono; [by apply (try_to_free_ring_spec ext Hext)|].
  intros r s1 (Hwf1 & Hok1 & Hk & Hout & _ & Hr). destruct r.
  - specialize (Hr eq_refl). pose proof (Hfree p s1) as Hfr. unfold wp in *.
    destruct (try_to_free_buffers p s1) as [[f s2]|] eqn:E; [|done]. exists s1. split_and!; try done. by right.
  - wp_step. exists s1. split_and!; try done. by left.
Qed.

(** Releasing a page forgets a failed write.  A buffer whose write-back failed is kept by
    [__try_to_free_cp_buf], so that the checkpoint sees the error; [jbd2_vmsep_journal_try_to_free_buffers] does not
    look at the error and takes the buffer off the checkpoint list, and with the last buffer
    the transaction leaves the checkpoint queue: the log that still holds the block may be overwritten. *)
Theorem try_to_free_forgets_failed_write ext s b x h t tr :
  (forall y, 0 <= ext y) -> ext b = 0 -> wf ext s -> cp_ok s -> has_jh s b x h ->
  b_transaction h = None -> b_cp_transaction h = Some t -> k_trans s !! t = Some tr -> cp_bufs tr = [b] ->
  buffer_locked x = false -> buffer_dirty x = false -> buffer_write_io_error x = true ->
  __try_to_free_cp_buf b s = Ret (0, s) /\
  wp (try_to_free_ring [b]) (fun r s' => r = true /\ jh_of s' b = None /\ t ∉ j_checkpoint_transactions (k_journal s')) s.
Proof.
  intros Hext He Hwf Hok Hx Ht Hc Htr Hcp Hl Hd Hio. pose proof Hx as [Hb Hh]. split.
  { unfold __try_to_free_cp_buf. erewrite bind_ret; [|unfold read_jh, jh_of; rewrite Hb; cbn; by rewrite Hh].
    erewrite bind_ret; [|unfold read_bh; by rewrite Hb]. rewrite Ht, Hl, Hd, Hio. done. }
  destruct (wf_jh _ _ _ _ _ Hwf Hb Hh) as [Hj _].
  assert (~ in_use x h) as Hu by (unfold in_use; intros [[? ?]|[?|?]]; congruence).
  pose proof (try_to_free_one ext Hext s b x h Hwf Hok Hx) as Hone. cbn [try_to_free_ring].
  assert (jbd2_vmsep_journal_grab_journal_head b s = Ret (true, mk_kstate (k_journal s) (<[b := bh_grab x h]> (k_bufs s)) (k_trans s))) as Hg.
  { unfold jbd2_vmsep_journal_grab_journal_head, kbind, read_bh, modify_jh. by rewrite Hb, Hj, Hb, Hh. }
  unfold wp in Hone. rewrite (bind_ret _ _ _ _ _ Hg) in Hone. apply wp_bind_inv in Hone. eapply wp_exec; [exact Hg|]. cbn [negb].
  wp_step. eapply wp_mono; [exact Hone|]. intros u0 s0 Hput. wp_step. eapply wp_mono; [exact Hput|].
  intros _ s1 (Hwf1 & Hok1 & Hout & _ & Hf). destruct (Hf Hu) as (x1 & Hb1 & _ & Hp1); [eauto|]. specialize (Hp1 He).
  destruct (wf_bh _ _ Hwf1 b x1 Hb1) as [Hj1 _]. rewrite Hp1, bool_decide_false in Hj1 by (by intros []).
  wp_step. eapply wp_read_bh; [exact Hb1|]. rewrite Hj1. wp_step.
  assert (jh_of s1 b = None) as Hjh by (unfold jh_of; by rewrite Hb1). split_and!; [done|done|].
  intros Hin. destruct (cp_queued _ Hok1 t Hin) as (tr1 & Htr1 & Hne & _). destruct (cp_bufs tr1) as [|y l] eqn:Ey; [done|].
  destruct (cp_has_jh _ (cp_ok_lists _ Hok1) t tr1 y Htr1) as (xy & hy & Hy); [rewrite Ey; by left|].
  assert (b_cp_transaction hy = Some t) as Hcy by (apply (cp_member _ (cp_ok_lists _ Hok1) y xy hy t tr1 Hy Htr1); rewrite Ey; by left).
  assert (y <> b) as Hyb by (intros ->; destruct Hy; congruence).
  destruct Hy as [Hy1 Hy2]. rewrite Hout in Hy1 by done.
  apply (cp_member _ (cp_ok_lists _ Hok) y xy hy t tr (conj Hy1 Hy2) Htr) in Hcy. rewrite Hcp in Hcy. by apply list_elem_of_singleton in Hcy.
Qed.

(** ** A concrete page

    Its buffers: 1 belongs to the committing transaction 1, 2 and 3 to the running transaction 2, and transaction 3 waits
    for the write-back of buffer 3; buffer 4 is not journalled. *)
Definition ex_trunc : kstate :=
  mk_kstate (ex_journal <| j_running_transaction := Some 2%positive |> <| j_committing_transaction := Some 1%positive |>
               <| j_checkpoint_transactions := [3]%positive |>)
    {[ 1%positive := ex_bh (ex_jh 1 BJ_Forget (Some 1%positive) None None) true;
       2%positive := ex_bh (ex_jh 1 BJ_Metadata (Some 2%positive) None None) true;
       3%positive := ex_bh (ex_jh 2 BJ_Metadata (Some 2%positive) None (Some 3%positive)) true;
       4%positive := plain_buffer_head ]}
    {[ 1%positive := zero_transaction <| t_tid := 7 |> <| t_state := T_COMMIT |> <| t_forget := [1]%positive |>;
       2%positive := zero_transaction <| t_tid := 8 |> <| t_state := T_RUNNING |> <| t_nr_buffers := 2 |>
                       <| t_buffers := [2; 3]%positive |>;
       3%positive := ex_finished 6 7 [3]%positive [] ]}.
Definition ex_page : page := mk_page true [1; 2; 3; 4]%positive.

Lemma ex_trunc_ok : wf (fun _ => 0) ex_trunc /\ cp_ok ex_trunc /\ live_trans ex_trunc /\ ring_ok ex_trunc (page_ring ex_page).
Proof.
  split_and!.
  - apply wfb_sound. vm_compute. reflexivity.
  - apply cp_okb_sound. vm_compute. reflexivity.
  - split; [|by intros t [= <-]]. intros t [[= <-]|[= <-]]; by eexists.
  - assert (forall s x h, jh_current s x h -> (forall h', Some h = Some h' -> jh_current s x h')) as Hs by (by intros s x h Hj h' [= <-]).
    intros b Hb. assert (b = 1 \/ b = 2 \/ b = 3 \/ b = 4)%positive as [-> |[-> |[-> | ->]]] by (cbn in Hb; set_solver);
      (eexists; split; [reflexivity|split; [|done]]); cbn [b_private plain_buffer_head ex_bh field_update]; try done;
      apply Hs; (split; [|done|done]); intros t [= <-]; unfold current; cbn; tauto.
Qed.

Lemma invalidatepage_exact_witness :
  wp (jbd2_vmsep_journal_invalidatepage (fun p => kret (false, p)) (fun _ => 1024) ex_page 0 4096)
    (fun r s' => cp_ok s' /\ r = (0, ex_page) /\
       Forall (finished_with ex_trunc s') [1; 2; 3; 4]%positive) ex_trunc.
Proof.
  destruct ex_trunc_ok as (Hwf & Hok & Hl & Hr).
  eapply wp_mono; [apply (invalidatepage_exact (fun _ => 0) (fun p => kret (false, p)) (fun _ => 1024) ex_page 0 4096 ex_trunc)|].
  - done.
  - done.
  - by intros p s.
  - done.
  - done.
  - done.
  - done.
  - done.
  - apply (bool_decide_unpack _). reflexivity.
  - done.
  - done.
  - lia.
  - lia.
  - unfold PAGE_SIZE. lia.
  - intros [e p] s' (s1 & _ & Hok1 & _ & Hres & Hpage). cbn [fst snd] in *.
    destruct Hres as [[-> Hf]|(_ & Hp & _)]; [|discriminate Hp].
    assert (p = ex_page /\ s' = s1) as [-> ->].
    { destruct Hpage as [?|(_ & _ & f & E & ->)]; [done|]. injection E as <- ->. done. }
    split_and!; [done|done|]. apply Forall_forall. intros b Hb. apply Hf.
    apply list_elem_of_split in Hb as (l1 & l2 & Hb). exists l1, l2. split; [exact Hb|].
    assert (forall l, span (fun _ => 1024) l = 1024 * Z.of_nat (length l)) as Hs by (induction l as [|y l IH]; cbn [span length]; lia).
    rewrite Hs. apply (f_equal length) in Hb. rewrite length_app in Hb. cbn in Hb. lia.
Defined.

Definition ex_mid : kstate := (ex_whole [1; 2]%positive) <| k_trans ::= alter (fun tr => tr <| t_state := T_COMMIT |>) 1%positive |>.

Lemma truncate_moved_buffer_asserts_witness :
  (commit_step (fun _ => 0) 0 None true 16 4 1024 64 1 2 locals0 1 ;;; journal_unmap_buffer 1 false) ex_mid = Fault Assert.
Proof.
  eapply (truncate_moved_buffer_asserts (fun _ => 0) 0 None true 16 4 1024 64 (fun _ => 0) 1 2 7 (fun b => b ∈ [1; 2]%positive)
    1 [2]%positive [] [] locals0 ex_mid (ex_bh ex_other true) ex_other).
  - split.
    + apply wfb_sound. vm_compute. reflexivity.
    + apply cp_okb_sound. vm_compute. reflexivity.
    + eexists. split; [reflexivity|]. by split.
    + eexists. by split.
    + done.
    + done.
    + done.
    + intros y xy hy. apply inv_ownb_sound. vm_compute. reflexivity.
  - done.
  - done.
  - done.
  - by left.
  - done.
  - reflexivity.
  - done.
Defined.

Lemma try_to_free_releases_idle_witness :
  wp (jbd2_vmsep_journal_try_to_free_buffers (fun p => kret (true, mk_page true [])) (mk_page true [1; 3]%positive))
    (fun r s' => r = (true, mk_page true [])) ex_checkpoint.
Proof.
  destruct ex_checkpoint_ok as [Hwf Hok].
  pose proof (try_to_free_releases_idle (fun _ => 0) (fun p => kret (true, mk_page true [])) (mk_page true [1; 3]%positive) ex_checkpoint) as H.
  assert (forall b, b ∈ [1; 3]%positive -> is_Some (k_bufs ex_checkpoint !! b)) as Hin.
  { intros b [-> |[-> |?%elem_of_nil]%elem_of_cons]%elem_of_cons; [by eexists|by eexists|done]. }
  specialize (H ltac:(done) ltac:(by intros p s) Hwf Hok eq_refl ltac:(done) Hin).
  assert (exists s', jbd2_vmsep_journal_try_to_free_buffers (fun p => kret (true, mk_page true [])) (mk_page true [1; 3]%positive) ex_checkpoint
    = Ret ((true, mk_page true []), s')) as [s' E] by (eexists; vm_compute; reflexivity).
  unfold wp in *. rewrite E in *. done.
Defined.

(** Transaction 1 waits for buffer 1 only, whose write failed. *)
Definition ex_failed : kstate :=
  mk_kstate (ex_journal <| j_checkpoint_transactions := [1]%positive |>)
    {[ 1%positive := (ex_cp false 1 plain_buffer_head) <| buffer_write_io_error := true |> ]}
    {[ 1%positive := ex_finished 5 8 [1]%positive [] ]}.

Lemma try_to_free_forgets_failed_write_witness :
  __try_to_free_cp_buf 1 ex_failed = Ret (0, ex_failed) /\
  wp (try_to_free_ring [1%positive]) (fun _ s' => 1%positive ∉ j_checkpoint_transactions (k_journal s')) ex_failed.
Proof.
  destruct (try_to_free_forgets_failed_write (fun _ => 0) ex_failed 1 ((ex_cp false 1 plain_buffer_head) <| buffer_write_io_error := true |>)
    (ex_jh 1 BJ_None None None (Some 1%positive)) 1 (ex_finished 5 8 [1]%positive [])) as [H1 H2]; try done.
  - apply wfb_sound. vm_compute. reflexivity.
  - apply cp_okb_sound. vm_compute. reflexivity.
  - split; [done|]. eapply wp_mono; [exact H2|]. by intros r s' (_ & _ & ?).
Defined.
