(* ===== verification/Journal.v ===== *)
(** * Opening a journal

    [journal_init_common], [jbd2_vmsep_journal_init_dev], [jbd2_vmsep_journal_init_inode],
    [jbd2_vmsep_journal_load], [jbd2_vmsep_journal_wipe] and the memory for copies of
    blocks ([jbd2_journal_create_slab], [get_slab], [jbd2_vmsep_alloc], [jbd2_vmsep_free])
    of kernel/fs/jbd2/journal.c: the superblock of Features.v, the recovery of Recovery.v and the
    reset of Log.v put together.

    The memory allocator, the buffer cache and the creation of the commit thread are
    parameters: each gives the result of one call.  The names of the device and the proc files are left out. *)
From S2P Require Import Prelude Tid Revoke State Blist JournalHead Filing Log Handle Commit OnDisk RevokeLog Features Recovery.

(** ** Memory for copies of blocks *)

Definition JBD2_MAX_SLABS : Z := 8.

(** [order_base_2] of include/linux/log2.h. *)
Definition order_base_2 (n : Z) : Z := if 1 <? n then Z.log2 (n - 1) + 1 else 0.

(** The index of a slab; [jbd2_slab] is the list of the caches that exist. *)
Definition slab_index (size : Z) : nat :=
  let i := order_base_2 size - 10 in Z.to_nat (if i <? 0 then 0 else i).

Definition has_slab (slab : list bool) (i : nat) : bool := default false (slab !! i).

(** [cache_ok]: [kmem_cache_create] returns a cache. *)
Definition jbd2_journal_create_slab (cache_ok : bool) (size : Z) : K (list bool) Z := fun slab =>
  if size =? PAGE_SIZE then Ret (0, slab)
  else if JBD2_MAX_SLABS <=? order_base_2 size - 10 then Ret (- EINVAL, slab)
  else if has_slab slab (slab_index size) then Ret (0, slab)
  else Ret (if cache_ok then 0 else - ENOMEM, <[slab_index size := cache_ok]> slab).

Definition jbd2_journal_destroy_slabs : K (list bool) unit := fun slab => Ret (tt, const false <$> slab).

Definition get_slab (size : Z) : K (list bool) nat :=
  j_assert (negb (JBD2_MAX_SLABS <=? order_base_2 size - 10)) ;;;
  slab <- (fun slab => Ret (slab, slab)) ;;
  j_assert (has_slab slab (slab_index size)) ;;;
  kret (slab_index size).

(** [kmem_cache_alloc], by slab, and [get_free_pages]: the address, 0 when there is no memory. *)
Definition jbd2_vmsep_alloc (kmem_cache_alloc : nat -> Z) (get_free_pages : Z) (size : Z) : K (list bool) Z :=
  j_assert (Z.land size (size - 1) =? 0) ;;;
  ptr <- (if size <? PAGE_SIZE then i <- get_slab size ;; kret (kmem_cache_alloc i) else kret get_free_pages) ;;
  j_assert (Z.land ptr (size - 1) =? 0) ;;;
  kret ptr.

Definition jbd2_vmsep_free (size : Z) : K (list bool) unit :=
  if size <? PAGE_SIZE then get_slab size ;;; kret tt else kret tt.

(** ** A journal that is being opened *)

(** [l_r]: the journal, its revoke table and the file system's blocks; [l_task]: [j_task] is set. *)
Record lstate (T : Type) := mk_lstate {
  l_r : rstate T;
  l_sb : jsuper;
  l_slab : list bool;
  l_task : bool;
}.
Arguments mk_lstate {T} _ _ _ _.
Arguments l_r {T} _.
Arguments l_sb {T} _.
Arguments l_slab {T} _.
Arguments l_task {T} _.
#[export] Instance eta_lstate T : Eta (lstate T) := fun s => mk_lstate (l_r s) (l_sb s) (l_slab s) (l_task s).

Definition l_journal {T} (s : lstate T) : journal_t := k_journal (r_k (l_r s)).

Section Lift.
Context {T : Type}.

(** The superblock is one buffer; the [journal_t] of State.v holds the fields of it that change. *)
Definition sync_sb (s : lstate T) : lstate T :=
  let j := l_journal s in
  s <| l_sb ::= fun js => js <| j_superblock ::= fun sb =>
    sb <| Sb.s_sequence := s_sequence j |> <| Sb.s_start := s_start j |> <| Sb.s_errno := s_errno j |> |> |>.

(** Run a function of an open superblock's journal. *)
Definition on_r {A} (m : K (rstate T) A) : K (lstate T) A := fun s =>
  match m (l_r s) with
  | Ret (a, r) => Ret (a, sync_sb (s <| l_r := r |>))
  | Fault e => Fault e
  end.
Definition on_sb {A} (m : K jsuper A) : K (lstate T) A := fun s =>
  match m (l_sb s) with
  | Ret (a, js) => Ret (a, s <| l_sb := js |>)
  | Fault e => Fault e
  end.
Definition on_slab {A} (m : K (list bool) A) : K (lstate T) A := fun s =>
  match m (l_slab s) with
  | Ret (a, sl) => Ret (a, s <| l_slab := sl |>)
  | Fault e => Fault e
  end.
Definition on_journal {A} (m : K kstate A) : K (lstate T) A := on_r (lift m).
Definition set_task (b : bool) : K (lstate T) unit := fun s => Ret (tt, s <| l_task := b |>).
End Lift.

(** ** Creating the structure *)

Definition JBD2_DEFAULT_MAX_COMMIT_AGE : Z := 5.
Definition JOURNAL_REVOKE_DEFAULT_HASH : Z := 256.

(** The results of the allocations of [journal_init_common]: the structure, the
    revoke tables, [j_wbuf], and the buffer of the superblock with its flags
    [BH_Uptodate] and [BH_Verified] and its contents. *)
Record init_env := mk_init_env {
  alloc_journal : bool;
  alloc_revoke : bool * bool;
  alloc_wbuf : bool;
  getblk_sb : option (bool * bool * journal_superblock_t);
}.

Section Init.
Context (HZ : Z) (slab : list bool) (fs : gmap Z (list Z)).

Definition new_journal (len : Z) : journal_t :=
  zero_journal <| j_commit_interval := HZ * JBD2_DEFAULT_MAX_COMMIT_AGE |> <| JBD2_ABORT := true |> <| j_maxlen := len |>.

(** [None] is NULL; [len] and [blocksize] are [int]s. *)
Definition journal_init_common (e : init_env) (len blocksize : Z) : outcome (option (lstate jbd2_revoke_table_s)) :=
  if negb (alloc_journal e) then Ret None
  else match jbd2_vmsep_journal_init_revoke (alloc_revoke e) JOURNAL_REVOKE_DEFAULT_HASH with
  | Fault f => Fault f
  | Ret None => Ret None
  | Ret (Some jr) =>
    if negb (alloc_wbuf e) then Ret None
    else match getblk_sb e with
    | None => Ret None
    | Some (uptodate, verified, sb) =>
      Ret (Some (mk_lstate
        (mk_rstate (mk_kstate (new_journal (u32 len)) ∅ ∅) (current_table jr) fs 0 0 0 0 0)
        (mk_jsuper true uptodate verified sb 0 (u32 len) blocksize false 0) slab false))
    end
  end.

Definition jbd2_vmsep_journal_init_dev (e : init_env) (len blocksize : Z) := journal_init_common e len blocksize.

(** [bmap]: that of the journal's inode, whose size is [i_size] in bytes. *)
Definition jbd2_vmsep_journal_init_inode (e : init_env) (bmap : Z -> Z) (i_size s_blocksize_bits s_blocksize : Z)
  : outcome (option (lstate jbd2_revoke_table_s)) :=
  if bmap 0 =? 0 then Ret None
  else journal_init_common e (s32 (Z.shiftr i_size s_blocksize_bits)) (s32 s_blocksize).
End Init.

(** ** Loading *)

Section Load.
Context {T : Type} `{RevokeStore T}.
Context (submit_sb : journal_t -> Z) (jiffies : Z) (j_inode : option (Z -> Z)).
Context (jbd2_chksum crc32_be : Z -> list Z -> Z) (alloc_shash : Z).
(** The journal's device, as in Recovery.v, and the block of the superblock read from it. *)
Context (getblk : Z -> bool) (brand_new : Z -> bool) (dev : Z -> option (list Z)) (getblk_fs : Z -> bool).
Context (from_disk : option journal_superblock_t).
Abbreviation L := (K (lstate T)).

Definition get_l : L (lstate T) := fun s => Ret (s, s).

(** The format of the log blocks under the features of the superblock. *)
Definition format_of (js : jsuper) : jformat :=
  mk_jformat (jbd2_has_incompat JBD2_FEATURE_INCOMPAT_64BIT js) (jbd2_has_feature_csum2 js) (jbd2_has_feature_csum3 js)
    (jbd2_has_feature_checksum js) (jbd2_has_incompat JBD2_FEATURE_INCOMPAT_ASYNC_COMMIT js)
    (js_chksum_driver js) (js_blocksize js) (js_csum_seed js) (Sb.s_uuid (j_superblock js)).

Definition set_journal (j : journal_t) (s : lstate T) : lstate T :=
  s <| l_r ::= fun r => r <| r_k ::= fun k => k <| k_journal := j |> |> |>.

(** [load_superblock] of Features.v. *)
Definition load_sb : L Z := fun s =>
  match load_superblock jbd2_chksum alloc_shash from_disk (l_journal s) (l_sb s) with
  | Ret ((err, j), js) => Ret (err, set_journal j (s <| l_sb := js |>))
  | Fault e => Fault e
  end.

(** [thread_err]: the result of [kthread_run]; the new thread sets [j_task]. *)
Definition jbd2_journal_start_thread (thread_err : Z) : L Z :=
  if thread_err =? 0 then set_task true ;;; kret 0 else kret thread_err.

(** [journal_reset] with its failure path and the start of the thread. *)
Definition reset_and_start (thread_err : Z) : L Z :=
  err <- on_journal (journal_reset submit_sb jiffies) ;;
  if err =? 0 then jbd2_journal_start_thread thread_err
  else on_sb journal_fail_superblock ;;; kret err.

(** The features of a version 2 superblock that this code does not know. *)
Definition unknown_features (js : jsuper) : bool :=
  (2 <=? j_format_version js) &&
  (negb (Z.land (Sb.s_feature_ro_compat (j_superblock js)) (Z.lnot JBD2_KNOWN_ROCOMPAT_FEATURES) =? 0) ||
   negb (Z.land (Sb.s_feature_incompat (j_superblock js)) (Z.lnot JBD2_KNOWN_INCOMPAT_FEATURES) =? 0)).

(** The rest of the load, by the result of recovery. *)
Definition after_recovery (thread_err : Z) (err : option Z) : L (option Z) :=
  match err with
  | None => kret None
  | Some err =>
    if negb (err =? 0) then kret (Some (- EIO))
    else
      s <- get_l ;;
      if negb (j_failed_commit (l_journal s) =? 0) then kret (Some (- EFSCORRUPTED))
      else
        err <- reset_and_start thread_err ;;
        if negb (err =? 0) then kret (Some (- EIO))
        else
          on_journal (modify_journal (fun j => j <| JBD2_ABORT := false |> <| JBD2_LOADED := true |>)) ;;;
          kret (Some 0)
  end.

(** [sync_err], [flush_err]: flushing the file system's device after the replay; [cache_ok]:
    creating a slab.  [None] when recovery did not end within [fuel] iterations. *)
Definition jbd2_vmsep_journal_load (cache_ok : bool) (sync_err flush_err thread_err : Z) (fuel : nat) : L (option Z) :=
  err <- load_sb ;;
  if negb (err =? 0) then kret (Some err)
  else
    s <- get_l ;;
    if unknown_features (l_sb s) then kret (Some (- EINVAL))
    else
      err <- on_slab (jbd2_journal_create_slab cache_ok (Sb.s_blocksize (j_superblock (l_sb s)))) ;;
      if negb (err =? 0) then kret (Some err)
      else
        err <- on_r (jbd2_vmsep_journal_recover submit_sb jiffies j_inode jbd2_chksum crc32_be (format_of (l_sb s))
                       getblk brand_new dev getblk_fs sync_err flush_err fuel) ;;
        after_recovery thread_err err.

Definition jbd2_vmsep_journal_wipe (write : bool) (fuel : nat) : L (option Z) :=
  s <- get_l ;;
  j_assert (negb (JBD2_LOADED (l_journal s))) ;;;
  err <- load_sb ;;
  if negb (err =? 0) then kret (Some err)
  else
    s <- get_l ;;
    if j_tail (l_journal s) =? 0 then kret (Some 0)
    else
      err <- on_r (jbd2_vmsep_journal_skip_recovery submit_sb jiffies j_inode jbd2_chksum crc32_be (format_of (l_sb s))
                     getblk brand_new dev getblk_fs fuel) ;;
      match err with
      | None => kret None
      | Some err =>
        (if write then on_journal (jbd2_mark_journal_empty submit_sb jiffies) else kret tt) ;;;
        kret (Some err)
      end.
End Load.

(** ** Which superblocks are opened *)

(** Version 2 or 3 checksums. *)
Definition csum_v2or3 (sb : journal_superblock_t) : bool :=
  Z.testbit (Sb.s_feature_incompat sb) 3 || Z.testbit (Sb.s_feature_incompat sb) 4.

(** A version 2 superblock of a journal of [js_maxlen js] blocks of [js_blocksize js] bytes, with
    features this code knows; [alloc_shash] is the result of loading the checksum driver. *)
Record good_super (jbd2_chksum : Z -> list Z -> Z) (alloc_shash : Z) (js : jsuper) (sb : journal_superblock_t) : Prop := {
  gs_magic : Sb.h_magic sb = JBD2_MAGIC_NUMBER;
  gs_type : Sb.h_blocktype sb = JBD2_SUPERBLOCK_V2;
  gs_blocksize : Sb.s_blocksize sb = js_blocksize js;
  gs_maxlen : Sb.s_maxlen sb <= js_maxlen js;
  gs_first : 0 < Sb.s_first sb < Sb.s_maxlen sb;
  gs_width : is_u32 (Sb.s_maxlen sb);
  gs_features : features_ok sb = true;
  gs_driver : csum_v2or3 sb = true -> alloc_shash = 0 /\ Sb.s_checksum sb = jbd2_superblock_csum jbd2_chksum sb;
  gs_known : Z.land (Sb.s_feature_ro_compat sb) (Z.lnot JBD2_KNOWN_ROCOMPAT_FEATURES) = 0 /\
             Z.land (Sb.s_feature_incompat sb) (Z.lnot JBD2_KNOWN_INCOMPAT_FEATURES) = 0;
}.

(** The superblock of a new [journal_t], before and after it is read. *)
Definition unread (js : jsuper) : Prop :=
  j_sb_buffer js = true /\ sb_uptodate js = false /\ sb_verified js = false /\ js_chksum_driver js = false.
Definition opened (jbd2_chksum : Z -> list Z -> Z) (js : jsuper) (sb : journal_superblock_t) : jsuper :=
  mk_jsuper true true true sb 2 (Sb.s_maxlen sb) (js_blocksize js) (csum_v2or3 sb)
    (if csum_v2or3 sb then u32 (jbd2_chksum all_ones (Sb.s_uuid sb)) else js_csum_seed js).

(** The fields [load_superblock] sets. *)
Definition loaded (sb : journal_superblock_t) (j : journal_t) : journal_t :=
  j <| j_tail_sequence := Sb.s_sequence sb |> <| j_tail := Sb.s_start sb |>
    <| j_first := Sb.s_first sb |> <| j_last := Sb.s_maxlen sb |> <| j_errno := s32 (Sb.s_errno sb) |>
    <| s_sequence := Sb.s_sequence sb |> <| s_start := Sb.s_start sb |> <| s_errno := Sb.s_errno sb |>
    <| s_first := Sb.s_first sb |> <| s_maxlen := Sb.s_maxlen sb |> <| j_maxlen := Sb.s_maxlen sb |>.

Lemma loaded_fields sb j seq :
  let j' := (loaded sb j) <| j_transaction_sequence := seq |> in
  JBD2_ABORT j' = JBD2_ABORT j /\ j_failed_commit j' = j_failed_commit j /\ s_first j' = Sb.s_first sb /\
  s_maxlen j' = Sb.s_maxlen sb /\ j_transaction_sequence j' = seq /\ j_running_transaction j' = j_running_transaction j /\
  j_committing_transaction j' = j_committing_transaction j /\ j_checkpoint_transactions j' = j_checkpoint_transactions j.
Proof. destruct j. cbn. by split_and!. Qed.

Definition reload {T} (sb : journal_superblock_t) (r : rstate T) : rstate T :=
  r <| r_k ::= fun k => mk_kstate (loaded sb (k_journal k)) (k_bufs k) (k_trans k) |>.

Section Open.
Context (chk : Z -> list Z -> Z) (alloc : Z).

Lemma get_superblock_unread js sb :
  unread js -> good_super chk alloc js sb ->
  journal_get_superblock chk alloc (Some sb) js = Ret (0, opened chk js sb).
Proof.
  intros (Hb & Hu & Hv & Hd) [Hm Ht Hbs Hl Hf Hw Hfeat Hdr _]. unfold csum_v2or3, opened, csum_v2or3 in *.
  unfold journal_get_superblock, Features.and_then, check_format, check_geometry, check_features,
    journal_fail_superblock, Features.modify, Features.get, kbind, kret, j_assert.
  destruct js as [b u v sb0 ver len bs d seed]. cbn -[Z.testbit] in *. subst b u v d. cbn -[Z.testbit].
  rewrite Hm, Ht, Hbs, !Z.eqb_refl. cbn -[Z.testbit]. rewrite (proj2 (Z.ltb_ge _ _)) by lia. cbn -[Z.testbit].
  rewrite (proj2 (Z.eqb_neq (Sb.s_first sb) 0)), (proj2 (Z.leb_gt (Sb.s_maxlen sb) (Sb.s_first sb))) by lia. cbn -[Z.testbit].
  unfold jbd2_verify_csum_type, jbd2_journal_has_csum_v2or3_feature, jbd2_has_feature_csum2,
    jbd2_has_feature_csum3, jbd2_has_incompat, jbd2_has_feature_checksum, features_ok in *. cbn -[Z.testbit] in *.
  autorewrite with features. unfold jbd2_superblock_csum_verify.
  destruct (Z.testbit (Sb.s_feature_incompat sb) 3), (Z.testbit (Sb.s_feature_incompat sb) 4),
    (Z.testbit (Sb.s_feature_compat sb) 0), (Sb.s_checksum_type sb =? JBD2_CRC32C_CHKSUM);
    cbn -[Z.testbit] in *; try discriminate; try done;
    destruct (Hdr eq_refl) as [-> Hck]; cbn; by rewrite (proj2 (Z.eqb_eq _ _) Hck).
Qed.

Lemma load_sb_unread {T} (s : lstate T) sb :
  unread (l_sb s) -> good_super chk alloc (l_sb s) sb ->
  load_sb chk alloc (Some sb) s =
    Ret (0, mk_lstate (reload sb (l_r s)) (opened chk (l_sb s) sb) (l_slab s) (l_task s)).
Proof.
  intros Hu Hg. unfold load_sb, load_superblock, kbind, Features.get, kret. by rewrite get_superblock_unread.
Qed.

(** A superblock that was read before is not read again. *)
Lemma load_sb_again {T} fd (s : lstate T) :
  j_sb_buffer (l_sb s) = true -> sb_uptodate (l_sb s) = true -> sb_verified (l_sb s) = true ->
  js_maxlen (l_sb s) = Sb.s_maxlen (j_superblock (l_sb s)) ->
  load_sb chk alloc fd s =
    Ret (0, mk_lstate (reload (j_superblock (l_sb s)) (l_r s)) (l_sb s) (l_slab s) (l_task s)).
Proof.
  intros Hb Hu Hv Hl. unfold load_sb, load_superblock, journal_get_superblock, kbind, Features.get, kret, j_assert.
  rewrite Hb, Hu, Hv. cbn. rewrite Hl. by destruct s as [[] ? ? ?].
Qed.

Lemma good_known js sb : good_super chk alloc js sb -> unknown_features (opened chk js sb) = false.
Proof. intros [_ _ _ _ _ _ _ _ [H1 H2]]. unfold unknown_features. cbn -[Z.lnot]. by rewrite H1, H2. Qed.
End Open.

(** ** The end of a load *)

Section Finish.
Context (submit_sb : journal_t -> Z) (jiffies : Z) (e : Z) (Hsub : forall j, submit_sb j = e).

(** The superblock on the device after a write that ends with [e]. *)
Definition write_out (j : journal_t) : journal_t :=
  if e =? 0
  then j <| disk_s_sequence := s_sequence j |> <| disk_s_start := s_start j |> <| disk_s_errno := s_errno j |>
  else j.

(** While the journal is marked aborted a failed write of the superblock has no consequence. *)
Lemma write_superblock_quiet s :
  JBD2_ABORT (k_journal s) = true ->
  jbd2_write_superblock submit_sb jiffies s = Ret (e, s <| k_journal ::= write_out |>).
Proof.
  intros Ha. unfold jbd2_write_superblock, write_superblock_with, submit_superblock, write_out, kbind. cbn [read_journal].
  rewrite Hsub. destruct (e =? 0) eqn:E.
  - cbn. by rewrite E.
  - cbn -[jbd2_vmsep_journal_abort]. rewrite E. unfold jbd2_vmsep_journal_abort. rewrite abort_soft_aborted by done. by destruct s.
Qed.

(** The tail goes into the superblock. *)
Definition tail_out (tid : tid_t) (block : Z) (j : journal_t) : journal_t :=
  let j := write_out (j <| s_sequence := tid |> <| s_start := u32 block |>) in
  if e =? 0 then j <| JBD2_FLUSHED := false |> else j.

Lemma update_tail_quiet tid block s :
  JBD2_ABORT (k_journal s) = true ->
  jbd2_vmsep_journal_update_sb_log_tail submit_sb jiffies tid block s = Ret (e, s <| k_journal ::= tail_out tid block |>).
Proof.
  intros Ha. unfold jbd2_vmsep_journal_update_sb_log_tail.
  set (s1 := s <| k_journal ::= fun j => j <| s_sequence := tid |> <| s_start := u32 block |> |>).
  rewrite (bind_ret _ _ s tt s1) by done. rewrite (bind_ret _ _ _ _ _ (write_superblock_quiet s1 Ha)). cbv beta.
  unfold tail_out. destruct (Z.eqb_spec e 0) as [->|]; done.
Qed.

Definition reset_result (j : journal_t) : journal_t :=
  let j1 := reset_log j in
  if s_start j =? 0 then j1 <| JBD2_FLUSHED := true |> else tail_out (j_tail_sequence j1) (j_tail j1) j1.

Lemma reset_quiet s :
  JBD2_ABORT (k_journal s) = true -> JBD2_MIN_JOURNAL_BLOCKS - 1 <= s_maxlen (k_journal s) - s_first (k_journal s) ->
  journal_reset submit_sb jiffies s = Ret (0, mk_kstate (reset_result (k_journal s)) (k_bufs s) (k_trans s)).
Proof.
  intros Ha Hl. unfold journal_reset. rewrite (bind_ret _ _ s (k_journal s) s) by done. cbv zeta.
  rewrite (proj2 (Z.ltb_ge _ _)) by (unfold JBD2_MIN_JOURNAL_BLOCKS in *; lia).
  set (s1 := s <| k_journal ::= reset_log |>).
  rewrite (bind_ret _ _ s tt s1), (bind_ret _ _ s1 (k_journal s1) s1) by done. unfold reset_result.
  change (s_start (k_journal s1)) with (s_start (k_journal s)).
  destruct (s_start (k_journal s) =? 0); [done|].
  unfold kbind. by rewrite update_tail_quiet.
Qed.
End Finish.

(** ** Loading *)

(** A journal that is not loaded yet. *)
Record closed {T} `{RevokeStore T} (s : lstate T) : Prop := {
  cl_slab : length (l_slab s) = 8%nat;
  cl_abort : JBD2_ABORT (l_journal s) = true;
  cl_loaded : JBD2_LOADED (l_journal s) = false;
  cl_failed : j_failed_commit (l_journal s) = 0;
  cl_idle : j_running_transaction (l_journal s) = None /\ j_committing_transaction (l_journal s) = None /\
            j_checkpoint_transactions (l_journal s) = [];
  cl_revoke : rs_ok (r_revoke (l_r s)) /\ forall b, rs_seq (r_revoke (l_r s)) b = None;
}.

(** A journal in use: its log is empty, its ids go on with [seq], no transaction is in flight, its thread runs,
    and there is memory for copies of its blocks. *)
Record in_use {T} `{RevokeStore T} (seq : tid_t) (s : lstate T) : Prop := {
  iu_flags : JBD2_ABORT (l_journal s) = false /\ JBD2_LOADED (l_journal s) = true /\ l_task s = true;
  iu_log : log_ok (l_journal s) /\ log_blocks (l_journal s) = [];
  iu_seq : j_transaction_sequence (l_journal s) = seq /\ j_tail_sequence (l_journal s) = seq /\
           j_commit_sequence (l_journal s) = u32 (seq - 1) /\ j_commit_request (l_journal s) = u32 (seq - 1);
  iu_idle : j_running_transaction (l_journal s) = None /\ j_committing_transaction (l_journal s) = None /\
            j_checkpoint_transactions (l_journal s) = [];
  iu_revoke : rs_ok (r_revoke (l_r s)) /\ forall b, rs_seq (r_revoke (l_r s)) b = None;
  iu_alloc : js_blocksize (l_sb s) < PAGE_SIZE ->
             exists i, get_slab (js_blocksize (l_sb s)) (l_slab s) = Ret (i, l_slab s);
}.

Section Loading.
Context {T : Type} `{RevokeStore T}.
Implicit Types s : lstate T.

Lemma wp_on_r {A} (m : K (rstate T) A) (Q : A -> lstate T -> Prop) s :
  wp m (fun a r => Q a (sync_sb (s <| l_r := r |>))) (l_r s) -> wp (on_r m) Q s.
Proof. unfold wp, on_r. by destruct (m (l_r s)) as [[? ?]|]. Qed.

Lemma create_slab_exec size slab :
  length slab = 8%nat -> order_base_2 size - 10 < JBD2_MAX_SLABS ->
  exists slab', jbd2_journal_create_slab true size slab = Ret (0, slab') /\ length slab' = 8%nat /\
    (size <> PAGE_SIZE -> exists i, get_slab size slab' = Ret (i, slab')).
Proof.
  intros Hl Ho. unfold JBD2_MAX_SLABS in *.
  assert (slab_index size < 8)%nat as Hi by (unfold slab_index; case_match; bool_to_prop; lia).
  assert (forall sl, has_slab sl (slab_index size) = true -> exists i, get_slab size sl = Ret (i, sl)) as Hget.
  { intros sl Hs. exists (slab_index size). unfold get_slab, kbind, j_assert, JBD2_MAX_SLABS, kret.
    rewrite (proj2 (Z.leb_gt _ _)) by lia. cbn [negb]. by rewrite Hs. }
  unfold jbd2_journal_create_slab, JBD2_MAX_SLABS. destruct (Z.eqb_spec size PAGE_SIZE); [by exists slab|].
  rewrite (proj2 (Z.leb_gt _ _)) by lia. destruct (has_slab slab (slab_index size)) eqn:E; [exists slab; by auto|].
  exists (<[slab_index size := true]> slab). split; [done|]. split; [by rewrite length_insert|]. intros _. apply Hget.
  unfold has_slab. by rewrite list_lookup_insert_eq by lia.
Qed.

Section Rest.
Context (submit_sb : journal_t -> Z) (jiffies e : Z) (Hsub : forall j, submit_sb j = e).

(** The journal after a load. *)
Definition load_result (j : journal_t) : journal_t :=
  (reset_result e j) <| JBD2_ABORT := false |> <| JBD2_LOADED := true |>.

Lemma load_result_log (k : kstate) :
  let j := k_journal k in let k' := mk_kstate (load_result j) (k_bufs k) (k_trans k) in
  same_log (mk_kstate (reset_log j) (k_bufs k) (k_trans k)) k' /\
  j_transaction_sequence (k_journal k') = j_transaction_sequence j /\
  j_commit_sequence (k_journal k') = u32 (j_transaction_sequence j - 1) /\
  j_commit_request (k_journal k') = u32 (j_transaction_sequence j - 1) /\
  JBD2_ABORT (k_journal k') = false /\ JBD2_LOADED (k_journal k') = true.
Proof.
  cbv zeta. cbn [k_journal]. unfold load_result, reset_result, same_log. cbn [k_bufs k_trans k_journal].
  assert (j_transaction_sequence (reset_log (k_journal k)) = j_transaction_sequence (k_journal k) /\
    j_commit_sequence (reset_log (k_journal k)) = u32 (j_transaction_sequence (k_journal k) - 1) /\
    j_commit_request (reset_log (k_journal k)) = u32 (j_transaction_sequence (k_journal k) - 1)) as (E1 & E2 & E3)
    by (unfold reset_log; destruct (k_journal k); cbn; done).
  set (j1 := reset_log (k_journal k)) in *. clearbody j1. unfold tail_out, write_out.
  destruct (s_start (k_journal k) =? 0); [|destruct (e =? 0)]; destruct j1; cbn in *; by split_and!.
Qed.

(** The end of a load, after a recovery without error. *)
Lemma load_rest seq s :
  let j := l_journal s in
  JBD2_ABORT j = true -> j_failed_commit j = 0 -> JBD2_MIN_JOURNAL_BLOCKS - 1 <= s_maxlen j - s_first j ->
  0 < s_first j -> is_u32 (s_maxlen j) -> j_transaction_sequence j = seq ->
  j_running_transaction j = None /\ j_committing_transaction j = None /\ j_checkpoint_transactions j = [] ->
  (rs_ok (r_revoke (l_r s)) /\ forall b, rs_seq (r_revoke (l_r s)) b = None) ->
  (js_blocksize (l_sb s) < PAGE_SIZE -> exists i, get_slab (js_blocksize (l_sb s)) (l_slab s) = Ret (i, l_slab s)) ->
  wp (after_recovery submit_sb jiffies 0 (Some 0))
    (fun r s' => r = Some 0 /\ in_use seq s' /\ r_fs (l_r s') = r_fs (l_r s) /\ l_journal s' = load_result j) s.
Proof.
  intros j Ha Hf Hl H1 Hw Hseq (I1 & I2 & I3) Hrv Hal. unfold after_recovery. cbn [Z.eqb negb].
  eapply wp_exec; [done|]. fold j. rewrite Hf. cbn [Z.eqb negb].
  set (s1 := sync_sb (s <| l_r ::= fun r => r <| r_k := mk_kstate (reset_result e j) (k_bufs (r_k r)) (k_trans (r_k r)) |> |>)).
  set (s2 := s1 <| l_task := true |>).
  assert (reset_and_start submit_sb jiffies 0 s = Ret (0, s2)) as Hrs.
  { unfold reset_and_start. rewrite (bind_ret _ _ s 0 s1); [done|].
    unfold on_journal, on_r, lift. by rewrite (reset_quiet _ _ _ Hsub). }
  eapply wp_exec; [exact Hrs|]. cbn [Z.eqb negb].
  set (s3 := sync_sb (s2 <| l_r ::= fun r => r <| r_k := mk_kstate (load_result j) (k_bufs (r_k r)) (k_trans (r_k r)) |> |>)).
  eapply (wp_exec _ _ _ _ tt s3); [done|]. apply wp_ret.
  assert (l_journal s3 = load_result j /\ l_r s3 = (l_r s) <| r_k := mk_kstate (load_result j) (k_bufs (r_k (l_r s))) (k_trans (r_k (l_r s))) |>
    /\ l_task s3 = true /\ l_slab s3 = l_slab s /\ js_blocksize (l_sb s3) = js_blocksize (l_sb s))
    as (Hj3 & Hr3 & Ht3 & Hs3 & Hb3) by done.
  clearbody s3. clear s1 s2 Hrs.
  destruct (load_result_log (r_k (l_r s))) as (Hsl & Es & Ec & Er & E1 & E2). change (k_journal (r_k (l_r s))) with j in *.
  unfold JBD2_MIN_JOURNAL_BLOCKS in Hl. destruct (reset_log_ok j) as [Hok Hu]; [lia|done|].
  pose proof (log_ok_same_log _ _ Hsl Hok) as Hok'. pose proof (log_blocks_same_log _ _ Hsl) as Hb'.
  cbn [k_journal] in *. unfold same_log in Hsl. cbn [k_journal] in Hsl. dest.
  split_and!; [done| |by rewrite Hr3|done]. split; rewrite ?Hj3, ?Hr3, ?Hs3, ?Hb3; split_and?; try done; try congruence.
  - rewrite Hb'. unfold log_blocks. by rewrite Hu.
  - match goal with E : j_tail_sequence (load_result j) = _ |- _ => rewrite E end. exact Hseq.
  - match goal with E : j_running_transaction (load_result j) = _ |- _ => rewrite E end. exact I1.
  - match goal with E : j_committing_transaction (load_result j) = _ |- _ => rewrite E end. exact I2.
  - match goal with E : j_checkpoint_transactions (load_result j) = _ |- _ => rewrite E end. exact I3.
Qed.
End Rest.

Section Recovered.
Context (submit_sb : journal_t -> Z) (jiffies e : Z) (Hsub : forall j, submit_sb j = e).
Context (j_inode : option (Z -> Z)) (chk crc32_be : Z -> list Z -> Z) (alloc : Z).
Context (getblk : Z -> bool) (brand_new : Z -> bool) (dev : Z -> option (list Z)) (getblk_fs : Z -> bool).
Abbreviation load := (jbd2_vmsep_journal_load submit_sb jiffies j_inode chk crc32_be alloc getblk brand_new dev getblk_fs).
Abbreviation recover := (jbd2_vmsep_journal_recover submit_sb jiffies j_inode chk crc32_be).

(** What a load needs of the superblock it opens. *)
Definition loadable (js : jsuper) (sb : journal_superblock_t) : Prop :=
  good_super chk alloc js sb /\ JBD2_MIN_JOURNAL_BLOCKS - 1 <= Sb.s_maxlen sb - Sb.s_first sb /\
  order_base_2 (Sb.s_blocksize sb) - 10 < JBD2_MAX_SLABS.

(** A load that finds the superblock [sb], given what recovery does. *)
Lemma load_from fd s sb js sync flush fuel err seq fs :
  closed s ->
  load_sb chk alloc fd s = Ret (0, mk_lstate (reload sb (l_r s)) js (l_slab s) (l_task s)) ->
  j_superblock js = sb -> js_blocksize js = Sb.s_blocksize sb -> unknown_features js = false ->
  0 < Sb.s_first sb -> is_u32 (Sb.s_maxlen sb) -> JBD2_MIN_JOURNAL_BLOCKS - 1 <= Sb.s_maxlen sb - Sb.s_first sb ->
  order_base_2 (Sb.s_blocksize sb) - 10 < JBD2_MAX_SLABS ->
  wp (recover (format_of js) getblk brand_new dev getblk_fs sync flush fuel)
    (fun r r' => r = Some err /\ r_fs r' = fs /\ r_k r' = with_sequence seq (r_k (reload sb (l_r s))) /\
       rs_ok (r_revoke r') /\ forall b, rs_seq (r_revoke r') b = None)
    (reload sb (l_r s)) ->
  wp (load fd true sync flush 0 fuel)
    (fun r s' => r_fs (l_r s') = fs /\
       if err =? 0
       then r = Some 0 /\ in_use seq s' /\
            l_journal s' = load_result e ((loaded sb (l_journal s)) <| j_transaction_sequence := seq |>)
       else r = Some (- EIO)) s.
Proof.
  intros [Hsl Ha _ Hf Hi Hrv] Hload Hsb Hbs Hun H1 Hw Hlen Ho Hrec. unfold jbd2_vmsep_journal_load.
  eapply wp_exec; [exact Hload|]. cbn [Z.eqb negb]. eapply wp_exec; [done|]. cbn [l_sb]. rewrite Hun, Hsb.
  destruct (create_slab_exec (Sb.s_blocksize sb) (l_slab s) Hsl Ho) as (slab & Hcs & _ & Hget).
  eapply (wp_exec _ _ _ _ 0 (mk_lstate (reload sb (l_r s)) js slab (l_task s)));
    [unfold on_slab; cbn [l_slab]; by rewrite Hcs|]. cbn [Z.eqb negb].
  apply wp_bind, wp_on_r. cbn [l_r].
  eapply wp_mono; [exact Hrec|]. intros r r' (-> & Hfs & Hk & Hrv'). set (s2 := sync_sb _).
  assert (l_r s2 = r' /\ l_slab s2 = slab /\ js_blocksize (l_sb s2) = js_blocksize js) as (E1 & E2 & E3) by done.
  assert (l_journal s2 = (loaded sb (l_journal s)) <| j_transaction_sequence := seq |>) as Ej
    by (unfold l_journal; rewrite E1, Hk; done).
  clearbody s2. destruct (Z.eqb_spec err 0) as [->|He].
  - destruct (loaded_fields sb (l_journal s) seq) as (F1 & F2 & F3 & F4 & F5 & F6 & F7 & F8).
    eapply wp_mono; [apply (load_rest _ _ e Hsub seq s2); rewrite ?Ej, ?F1, ?F2, ?F3, ?F4, ?F5, ?F6, ?F7, ?F8, ?E1, ?E2, ?E3; try done|].
    + intros Hs. rewrite Hbs in *. apply Hget. lia.
    + intros r s' (? & ? & Hfs' & Hj'). rewrite Hfs', E1, Hj', Ej. done.
  - unfold after_recovery. rewrite (proj2 (Z.eqb_neq _ _) He). apply wp_ret. by rewrite E1.
Qed.

(** The log that [sb] describes. *)
Definition log_on_disk (js : jsuper) (sb : journal_superblock_t) : list txn -> list item -> list Z -> Prop :=
  log_image j_inode chk crc32_be (format_of (opened chk js sb)) dev (loaded sb zero_journal) (Sb.s_sequence sb).

Lemma log_on_disk_of js sb s txns partial last :
  log_on_disk js sb txns partial last ->
  log_of j_inode chk crc32_be (format_of (opened chk js sb)) dev (reload sb (l_r s)) txns partial last.
Proof.
  unfold log_of. cbv zeta. change (k_journal (r_k (reload sb (l_r s)))) with (loaded sb (l_journal s)).
  replace (s_sequence (loaded sb (l_journal s))) with (Sb.s_sequence sb) by (by destruct (l_journal s)).
  apply log_image_ext; by destruct (l_journal s).
Qed.

Lemma loaded_geometry js sb j : good_super chk alloc js sb -> geometry (loaded sb j).
Proof. intros []. destruct j. unfold geometry, is_u32 in *. cbn. lia. Qed.

(** Recovery of the log of [sb] from a journal that has read it. *)
Lemma recover_loaded s js sb sync flush txns partial last fuel :
  surroundings j_inode getblk getblk_fs -> good_super chk alloc js sb -> closed s -> Sb.s_start sb <> 0 ->
  log_on_disk js sb txns partial last -> (log_rounds txns partial <= fuel)%nat ->
  wp (recover (format_of (opened chk js sb)) getblk brand_new dev getblk_fs sync flush fuel)
    (fun r r' => r = Some (sync_result (JBD2_BARRIER (l_journal s)) sync flush) /\ r_fs r' = replay txns (r_fs (l_r s)) /\
       r_k r' = with_sequence (u32 (Sb.s_sequence sb + Z.of_nat (length txns) + 1)) (r_k (reload sb (l_r s))) /\
       rs_ok (r_revoke r') /\ forall b, rs_seq (r_revoke r') b = None)
    (reload sb (l_r s)).
Proof.
  intros Hsu Hg Hcl Hst Hlog Hfuel.
  assert (k_journal (r_k (reload sb (l_r s))) = loaded sb (l_journal s)) as Ek by done.
  assert (s_start (loaded sb (l_journal s)) = Sb.s_start sb /\ s_sequence (loaded sb (l_journal s)) = Sb.s_sequence sb /\
    JBD2_BARRIER (loaded sb (l_journal s)) = JBD2_BARRIER (l_journal s)) as (E1 & E2 & E3).
  { unfold loaded. destruct (l_journal s). by cbn. }
  eapply wp_mono; [eapply recover_exec; [done| | |done]|].
  - split; rewrite ?Ek, ?E1; [by eapply loaded_geometry|done|apply (cl_revoke _ Hcl)|apply (cl_revoke _ Hcl)].
  - by apply log_on_disk_of.
  - intros r r'. rewrite Ek, E2, E3. done.
Qed.

(** What the load leaves on the device. *)
Lemma load_result_disk sb j seq :
  Sb.s_start sb <> 0 -> is_u32 (Sb.s_first sb) ->
  let j' := load_result e ((loaded sb j) <| j_transaction_sequence := seq |>) in
  disk_s_start j' = (if e =? 0 then Sb.s_first sb else disk_s_start j) /\
  disk_s_sequence j' = (if e =? 0 then seq else disk_s_sequence j).
Proof.
  intros Hst Hw. unfold load_result, reset_result, tail_out, write_out, loaded, reset_log. destruct j. cbn.
  rewrite (proj2 (Z.eqb_neq _ _) Hst), (u32_id _ Hw). by destruct (e =? 0).
Qed.

(** A clean journal: nothing is replayed. *)
Lemma recover_clean (r : rstate T) f sync flush fuel :
  s_start (k_journal (r_k r)) = 0 ->
  wp (recover f getblk brand_new dev getblk_fs sync flush fuel)
    (fun o r' => o = Some 0 /\ r_fs r' = r_fs r /\ r_revoke r' = r_revoke r /\
       r_k r' = with_sequence (u32 (s_sequence (k_journal (r_k r)) + 1)) (r_k r)) r.
Proof.
  intros Hs. unfold jbd2_vmsep_journal_recover. eapply wp_exec; [done|]. eapply wp_exec; [done|].
  cbn [r_k]. rewrite Hs. cbn [Z.eqb]. by eapply wp_exec.
Qed.

Lemma mark_empty_quiet (k : kstate) :
  JBD2_ABORT (k_journal k) = true -> s_start (k_journal k) <> 0 ->
  jbd2_mark_journal_empty submit_sb jiffies k =
  Ret (tt, k <| k_journal ::= fun j =>
    (write_out e (j <| s_sequence := j_tail_sequence j |> <| s_start := 0 |>)) <| JBD2_FLUSHED := true |> |>).
Proof.
  intros Ha Hs. unfold jbd2_mark_journal_empty. rewrite (bind_ret _ _ k (k_journal k) k) by done.
  rewrite (proj2 (Z.eqb_neq _ _) Hs).
  set (k1 := k <| k_journal ::= fun j => j <| s_sequence := j_tail_sequence j |> <| s_start := 0 |> |>).
  rewrite (bind_ret _ _ k tt k1) by done.
  by rewrite (bind_ret _ _ _ _ _ (write_superblock_quiet _ _ _ Hsub k1 Ha)).
Qed.

(** The journal after its log was wiped. *)
Definition wiped_journal (write : bool) (seq : tid_t) (j : journal_t) : journal_t :=
  let j := j <| j_tail := 0 |> <| j_transaction_sequence := seq |> in
  if write
  then (write_out e (j <| s_sequence := j_tail_sequence j |> <| s_start := 0 |>)) <| JBD2_FLUSHED := true |>
  else j.

Definition wiped_sb (write : bool) (sb : journal_superblock_t) : journal_superblock_t :=
  if write then sb <| Sb.s_start := 0 |> else sb.

Lemma wiped_fields write seq sb j :
  let j' := wiped_journal write seq (loaded sb j) in
  JBD2_ABORT j' = JBD2_ABORT j /\ JBD2_LOADED j' = JBD2_LOADED j /\ j_failed_commit j' = j_failed_commit j /\
  j_running_transaction j' = j_running_transaction j /\ j_committing_transaction j' = j_committing_transaction j /\
  j_checkpoint_transactions j' = j_checkpoint_transactions j /\ JBD2_BARRIER j' = JBD2_BARRIER j /\
  s_sequence j' = Sb.s_sequence sb /\ s_start j' = Sb.s_start (wiped_sb write sb) /\ s_errno j' = Sb.s_errno sb.
Proof.
  unfold wiped_journal, wiped_sb, loaded, write_out. destruct j, write; cbn; [destruct (e =? 0)|]; by split_and!.
Qed.

Lemma wiped_closed write seq sb s (r' : rstate T) :
  let s' := sync_sb (mk_lstate r' (opened chk (l_sb s) sb) (l_slab s) (l_task s)) in
  closed s -> k_journal (r_k r') = wiped_journal write seq (loaded sb (l_journal s)) -> r_revoke r' = r_revoke (l_r s) ->
  closed s' /\ l_sb s' = opened chk (l_sb s) (wiped_sb write sb) /\ JBD2_BARRIER (l_journal s') = JBD2_BARRIER (l_journal s).
Proof.
  intros s' [C1 C2 C3 C4 C5 C6] Hj Hrv.
  destruct (wiped_fields write seq sb (l_journal s)) as (F1 & F2 & F3 & F4 & F5 & F6 & F7 & F8 & F9 & F10).
  assert (l_journal s' = wiped_journal write seq (loaded sb (l_journal s))) as Ej by exact Hj.
  split_and!; [split; rewrite ?Ej, ?F1, ?F2, ?F3, ?F4, ?F5, ?F6; try done| |by rewrite Ej].
  - change (r_revoke (l_r s')) with (r_revoke r'). by rewrite Hrv.
  - unfold s', sync_sb, l_journal. cbn [l_r]. rewrite Hj, F8, F9, F10. clear. unfold wiped_sb, opened, csum_v2or3.
    destruct write, sb; done.
Qed.

(** A wipe keeps everything but the start of the log and the ids. *)
Lemma wipe_exec write s sb txns partial last fuel :
  surroundings j_inode getblk getblk_fs -> closed s -> unread (l_sb s) -> good_super chk alloc (l_sb s) sb ->
  Sb.s_start sb <> 0 -> log_on_disk (l_sb s) sb txns partial last -> (log_rounds txns partial <= fuel)%nat ->
  wp (jbd2_vmsep_journal_wipe submit_sb jiffies j_inode chk crc32_be alloc getblk brand_new dev getblk_fs (Some sb) write fuel)
    (fun r s' => r = Some 0 /\ closed s' /\ l_sb s' = opened chk (l_sb s) (wiped_sb write sb) /\
       r_fs (l_r s') = r_fs (l_r s) /\ JBD2_BARRIER (l_journal s') = JBD2_BARRIER (l_journal s)) s.
Proof.
  intros Hsu Hcl Hu Hg Hst Hlog Hfuel. unfold jbd2_vmsep_journal_wipe. eapply wp_exec; [done|].
  rewrite (cl_loaded _ Hcl). eapply wp_exec; [done|]. eapply wp_exec; [by apply load_sb_unread|]. cbn [Z.eqb negb].
  eapply wp_exec; [done|]. cbn [l_sb]. set (s1 := mk_lstate _ _ _ _).
  assert (j_tail (l_journal s1) = Sb.s_start sb) as Ht by (unfold s1, l_journal; cbn; by destruct (k_journal (r_k (l_r s)))).
  rewrite Ht, (proj2 (Z.eqb_neq _ _) Hst). apply wp_bind, wp_on_r.
  change (l_r s1) with (reload sb (l_r s)).
  eapply wp_mono; [eapply skip_recovery_exec; [done| |by apply log_on_disk_of|done]|].
  { change (k_journal _) with (loaded sb (l_journal s)). by eapply loaded_geometry. }
  intros r r' (-> & Hfs & Hrv & Hk). cbv iota.
  change (sync_sb (s1 <| l_r := r' |>)) with (sync_sb (mk_lstate r' (opened chk (l_sb s) sb) (l_slab s) (l_task s))).
  set (seq := u32 _) in Hk.
  assert (k_journal (r_k r') = wiped_journal false seq (loaded sb (l_journal s))) as Hj by (rewrite Hk; done).
  destruct (wiped_closed false seq sb s r' Hcl Hj Hrv) as (Hcl2 & Hsb2 & Hb2). set (s2 := sync_sb _) in *.
  destruct write; [|by eapply wp_exec].
  set (r2 := r' <| r_k ::= fun k => k <| k_journal := wiped_journal true seq (loaded sb (l_journal s)) |> |>).
  eapply (wp_exec _ _ _ _ tt (sync_sb (mk_lstate r2 (opened chk (l_sb s) sb) (l_slab s) (l_task s)))).
  - unfold on_journal, on_r, lift. change (l_r s2) with r'.
    destruct (wiped_fields false seq sb (l_journal s)) as (F1 & _ & _ & _ & _ & _ & _ & _ & F9 & _).
    rewrite mark_empty_quiet by (rewrite Hj; first [rewrite F1; apply Hcl|rewrite F9; exact Hst]).
    do 3 f_equal. match goal with |- s2 <| l_r := ?X |> = _ => change (mk_lstate X (l_sb s2) (l_slab s) (l_task s) =
      mk_lstate r2 (opened chk (l_sb s) sb) (l_slab s) (l_task s)) end.
    rewrite Hsb2. f_equal. unfold r2. clear -Hj. destruct r' as [[j0 ? ?] ? ? ? ? ? ? ?]. cbn in Hj. by subst j0.
  - apply wp_ret. destruct (wiped_closed true seq sb s r2 Hcl) as (? & ? & ?); [done|done|]. by split_and!.
Qed.

Lemma wipe_load_spec write fd s sb txns partial last fuel :
  surroundings j_inode getblk getblk_fs -> closed s -> unread (l_sb s) -> loadable (l_sb s) sb ->
  Sb.s_start sb <> 0 -> log_on_disk (l_sb s) sb txns partial last -> (log_rounds txns partial <= fuel)%nat ->
  wp (jbd2_vmsep_journal_wipe submit_sb jiffies j_inode chk crc32_be alloc getblk brand_new dev getblk_fs (Some sb) write fuel ;;;
      load fd true 0 0 0 fuel)
    (fun r s' => r = Some 0 /\
       r_fs (l_r s') = (if write then r_fs (l_r s) else replay txns (r_fs (l_r s))) /\
       in_use (u32 (Sb.s_sequence sb + (if write then 0 else Z.of_nat (length txns)) + 1)) s') s.
Proof.
  intros Hsu Hcl Hu (Hg & Hlen & Ho) Hst Hlog Hfuel. apply wp_bind.
  eapply wp_mono; [by eapply wipe_exec|]. intros r1 s1 (_ & Hcl1 & Hsb1 & Hfs1 & Hb1).
  assert (forall js sb, good_super chk alloc js sb -> unknown_features (opened chk js (wiped_sb write sb)) = false /\
    Sb.s_first (wiped_sb write sb) = Sb.s_first sb /\ Sb.s_maxlen (wiped_sb write sb) = Sb.s_maxlen sb /\
    Sb.s_blocksize (wiped_sb write sb) = Sb.s_blocksize sb /\ Sb.s_sequence (wiped_sb write sb) = Sb.s_sequence sb)
    as Hw.
  { clear. intros js sb Hg. split_and!; try by destruct write, sb. rewrite <-(good_known chk alloc js sb Hg).
    by destruct write, sb. }
  destruct (Hw _ _ Hg) as (Hun & E1 & E2 & E3 & E4).
  assert (load_sb chk alloc fd s1 = Ret (0, mk_lstate (reload (wiped_sb write sb) (l_r s1))
    (opened chk (l_sb s) (wiped_sb write sb)) (l_slab s1) (l_task s1))) as Hload.
  { rewrite <-Hsb1. rewrite (load_sb_again chk alloc fd s1); rewrite ?Hsb1; done. }
  set (seq := u32 _).
  eapply wp_mono; [apply (load_from fd s1 (wiped_sb write sb) (opened chk (l_sb s) (wiped_sb write sb)) 0 0 fuel 0 seq
    (if write then r_fs (l_r s) else replay txns (r_fs (l_r s)))); rewrite ?E1, ?E2, ?E3; try done|].
  - cbn. rewrite <-(gs_blocksize _ _ _ _ Hg). done.
  - apply Hg.
  - apply Hg.
  - destruct write.
    + eapply wp_mono; [apply recover_clean; clear; by destruct s1 as [[[[] ? ?] ? ? ? ? ? ? ?] ? ? ?], sb|].
      intros r r' (? & Hf & Hr & Hk). rewrite Hf, Hr, Hk. split_and!; try done; [|apply (cl_revoke _ Hcl1)..].
      unfold seq. rewrite Z.add_0_r. by do 2 f_equal.
    + eapply wp_mono; [eapply recover_loaded; done|]. intros r r' (-> & Hr). rewrite Hfs1 in Hr.
      split; [unfold sync_result; by destruct (_ && _)|exact Hr].
  - intros r s' (Hf & -> & Hin & _). by split_and!.
Qed.
End Recovered.
End Loading.

(** A new journal is not loaded, and its superblock not read unless the buffer cache still has it. *)
Lemma init_common_closed HZ slab fs e len blocksize s :
  length slab = 8%nat -> journal_init_common HZ slab fs e len blocksize = Ret (Some s) ->
  closed s /\ (forall verified sb, getblk_sb e = Some (false, verified, sb) -> verified = false -> unread (l_sb s)).
Proof.
  intros Hs. unfold journal_init_common. destruct (alloc_journal e); cbn [negb]; [|done].
  unfold jbd2_vmsep_journal_init_revoke. change (is_power_of_2 JOURNAL_REVOKE_DEFAULT_HASH) with true. cbn [negb].
  destruct (alloc_revoke e).1, (alloc_revoke e).2, (alloc_wbuf e), (getblk_sb e) as [[[u v] sb0]|]; cbn [negb]; try done.
  intros [= <-]. split; [|by intros ? ? [= -> -> ->] ->].
  split; try done. split; [by apply (init_revoke_table_ok 8)|]. intros bl. cbn. unfold revoke_seq.
  by rewrite (find_init 256).
Qed.

(** ** Properties *)

(** C8: Mounting after a crash.  The superblock of the device is good and points to a log of complete transactions
    with the remains of an interrupted commit behind them.  [jbd2_vmsep_journal_load] of a new journal returns; when the
    file system's device can be flushed it returns 0, the file system holds exactly what the complete transactions say, and
    the journal is in use: not aborted, its log empty and well-formed, its ids after that of the interrupted transaction, no
    revokes, no transactions, a slab for its block size.  The superblock on the device then points to the empty log, unless
    writing it fails, which the load does not notice: the journal is in use all the same, and the device still
    says that the old log is to be replayed.  When flushing fails the load returns [-EIO]. *)
Theorem load_after_crash {T} `{RevokeStore T} submit_sb jiffies e j_inode chk crc32_be alloc getblk brand_new dev getblk_fs
    sync flush fuel sb txns partial last (s : lstate T) :
  (forall j, submit_sb j = e) -> surroundings j_inode getblk getblk_fs ->
  closed s -> unread (l_sb s) -> loadable chk alloc (l_sb s) sb -> Sb.s_start sb <> 0 ->
  log_on_disk j_inode chk crc32_be dev (l_sb s) sb txns partial last -> (log_rounds txns partial <= fuel)%nat ->
  let seq := u32 (Sb.s_sequence sb + Z.of_nat (length txns) + 1) in
  wp (jbd2_vmsep_journal_load submit_sb jiffies j_inode chk crc32_be alloc getblk brand_new dev getblk_fs (Some sb)
        true sync flush 0 fuel)
    (fun r s' => r_fs (l_r s') = replay txns (r_fs (l_r s)) /\
       if sync_result (JBD2_BARRIER (l_journal s)) sync flush =? 0
       then r = Some 0 /\ in_use seq s' /\
            disk_s_start (l_journal s') = (if e =? 0 then Sb.s_first sb else disk_s_start (l_journal s)) /\
            disk_s_sequence (l_journal s') = (if e =? 0 then seq else disk_s_sequence (l_journal s))
       else r = Some (- EIO)) s.
Proof.
  intros Hsub Hsu Hcl Hu (Hg & Hlen & Ho) Hst Hlog Hfuel seq.
  eapply wp_mono; [apply (load_from _ _ e Hsub) with (sb := sb) (js := opened chk (l_sb s) sb) (seq := seq)
    (fs := replay txns (r_fs (l_r s))); try done|].
  - by apply load_sb_unread.
  - cbn. by rewrite <-(gs_blocksize _ _ _ _ Hg).
  - by eapply good_known.
  - apply Hg.
  - apply Hg.
  - by eapply recover_loaded.
  - intros r s' (Hfs & Hr). split; [done|]. case_match; [|done]. destruct Hr as (-> & Hin & Hj).
    assert (is_u32 (Sb.s_first sb)) as Hw by (destruct Hg; unfold is_u32 in *; lia).
    destruct (load_result_disk e sb (l_journal s) seq Hst Hw) as [Hd1 Hd2]. rewrite <-Hj in Hd1, Hd2. by split_and!.
Qed.

(** Wiping a journal before loading it.  With [write] the log is not replayed.  Without it, which according to the
    comment of [jbd2_vmsep_journal_wipe] merely suppresses recovery, the load replays the whole log: recovery looks at the
    start of the log in the superblock, which the wipe leaves alone.  And a wiped journal goes on with the id
    after that of the oldest transaction in the log, not with an unused one: the id that [skip_recovery] finds is
    overwritten, and the ids of the transactions still in the log blocks are used again. *)
Theorem wipe_then_load {T} `{RevokeStore T} submit_sb jiffies e j_inode chk crc32_be alloc getblk brand_new dev getblk_fs
    write fd fuel sb txns partial last (s : lstate T) :
  (forall j, submit_sb j = e) -> surroundings j_inode getblk getblk_fs ->
  closed s -> unread (l_sb s) -> loadable chk alloc (l_sb s) sb -> Sb.s_start sb <> 0 ->
  log_on_disk j_inode chk crc32_be dev (l_sb s) sb txns partial last -> (log_rounds txns partial <= fuel)%nat ->
  wp (jbd2_vmsep_journal_wipe submit_sb jiffies j_inode chk crc32_be alloc getblk brand_new dev getblk_fs (Some sb) write fuel ;;;
      jbd2_vmsep_journal_load submit_sb jiffies j_inode chk crc32_be alloc getblk brand_new dev getblk_fs fd true 0 0 0 fuel)
    (fun r s' => r = Some 0 /\
       r_fs (l_r s') = (if write then r_fs (l_r s) else replay txns (r_fs (l_r s))) /\
       in_use (u32 (Sb.s_sequence sb + (if write then 0 else Z.of_nat (length txns)) + 1)) s') s.
Proof. intros. by eapply wipe_load_spec. Qed.

(** A log of 2000 blocks of 64 bytes with version 3 checksums, two transactions and the descriptor of a third. *)
Definition ex_unsummed : journal_superblock_t :=
  Sb.mk JBD2_MAGIC_NUMBER JBD2_SUPERBLOCK_V2 0 64 2000 1 4294967295 1995 0 0 18 0 (replicate 16 7) 1 0 0 0
    JBD2_CRC32C_CHKSUM [0; 0; 0] (replicate 168 0) 0 [].
Definition ex_disk_sb : journal_superblock_t :=
  ex_unsummed <| Sb.s_checksum := jbd2_superblock_csum ex_sum ex_unsummed |>.
Definition ex_init : init_env := mk_init_env true (true, true) true (Some (false, false, ex_unsummed)).
Definition ex_opening : lstate jbd2_revoke_table_s :=
  match journal_init_common 250 (replicate 8 false) {[ 200 := ex_block 9 ]} ex_init 2000 64 with
  | Ret (Some s) => s
  | _ => mk_lstate ex_crashed (ex_super 0 0 false) [] false
  end.
Definition ex_dfmt : jformat := format_of (opened ex_sum (l_sb ex_opening) ex_disk_sb).
Definition ex_dtxns : list txn :=
  [written_txn ex_sum ex_sum ex_dfmt 4294967295 [] [ex_g0] 0 0; written_txn ex_sum ex_sum ex_dfmt 0 [[200]] [ex_g1] 0 0].
Definition ex_dpartial : list item := [Desc (descriptor_block ex_sum ex_dfmt ex_g2) (group_tags ex_g2)].
Definition ex_ddev (pos : Z) : option (list Z) :=
  (txns_blocks ex_dtxns ++ items_blocks ex_dpartial ++ [ex_block 0]) !! Z.to_nat ((pos - 1995) mod 1999).

Lemma ex_opening_closed : closed ex_opening /\ unread (l_sb ex_opening).
Proof.
  destruct (init_common_closed 250 (replicate 8 false) {[ 200 := ex_block 9 ]} ex_init 2000 64 ex_opening eq_refl)
    as [Hcl Hu]; [vm_compute; reflexivity|]. split; [done|]. by apply (Hu false ex_unsummed).
Qed.

Lemma ex_loadable : loadable ex_sum 0 (l_sb ex_opening) ex_disk_sb.
Proof. split; [split; vm_compute; try done; split; done|]. by vm_compute. Qed.

Lemma ex_on_disk : log_on_disk None ex_sum ex_sum ex_ddev (l_sb ex_opening) ex_disk_sb ex_dtxns ex_dpartial (ex_block 0).
Proof.
  assert (group_ok ex_dfmt ex_g0 /\ group_ok ex_dfmt ex_g1 /\ group_ok ex_dfmt ex_g2) as (H0 & H1 & H2)
    by (split_and!; split; vm_compute; try done; by split_and!).
  split.
  - done.
  - done.
  - vm_compute. by split_and!.
  - vm_compute. done.
  - split; [|split; [|done]]; apply written_txn_is_ok; try done; repeat constructor; try done; vm_compute; done.
  - apply Forall_singleton. cbn. apply (descriptor_block_reads ex_sum ex_dfmt ex_g2 H2).
  - left. vm_compute. done.
  - done.
Qed.

Lemma load_after_crash_witness :
  wp (jbd2_vmsep_journal_load (fun _ => - EIO) 0 None ex_sum ex_sum 0 (fun _ => true) (fun _ => true) ex_ddev
        (fun _ => true) (Some ex_disk_sb) true 0 0 0 8)
    (fun r s' => r = Some 0 /\ JBD2_ABORT (l_journal s') = false /\ j_transaction_sequence (l_journal s') = 2 /\
       disk_s_start (l_journal s') = 0 /\
       r_fs (l_r s') = {[ 100 := ex_block 1; 200 := ex_block 9; 300 := JBD2_MAGIC_BYTES ++ drop 4 (ex_block 3) ]}) ex_opening.
Proof.
  eapply wp_mono; [apply (load_after_crash (fun _ => - EIO) 0 (- EIO) None ex_sum ex_sum 0 (fun _ => true) (fun _ => true)
    ex_ddev (fun _ => true) 0 0 8 ex_disk_sb ex_dtxns ex_dpartial (ex_block 0) ex_opening)|].
  - done.
  - apply ex_surroundings.
  - apply ex_opening_closed.
  - apply ex_opening_closed.
  - apply ex_loadable.
  - done.
  - apply ex_on_disk.
  - vm_compute. lia.
  - intros r s' (Hfs & -> & Hin & Hd & _). rewrite Hfs, Hd.
    split_and!; [done|apply (iu_flags _ _ Hin)|apply (iu_seq _ _ Hin)|done|vm_compute; reflexivity].
Defined.

Lemma wipe_then_load_witness :
  let run write :=
    jbd2_vmsep_journal_wipe (fun _ => 0) 0 None ex_sum ex_sum 0 (fun _ => true) (fun _ => true) ex_ddev
      (fun _ => true) (Some ex_disk_sb) write 8 ;;;
    jbd2_vmsep_journal_load (fun _ => 0) 0 None ex_sum ex_sum 0 (fun _ => true) (fun _ => true) ex_ddev
      (fun _ => true) None true 0 0 0 8 in
  wp (run false) (fun r s' => r = Some 0 /\ r_fs (l_r s') !! 100 = Some (ex_block 1) /\
    j_transaction_sequence (l_journal s') = 2) ex_opening /\
  wp (run true) (fun r s' => r = Some 0 /\ r_fs (l_r s') !! 100 = None /\
    j_transaction_sequence (l_journal s') = 0) ex_opening.
Proof.
  pose proof (fun write => wipe_then_load (fun _ => 0) 0 0 None ex_sum ex_sum 0 (fun _ => true) (fun _ => true)
    ex_ddev (fun _ => true) write None 8 ex_disk_sb ex_dtxns ex_dpartial (ex_block 0) ex_opening (fun _ => eq_refl)
    ex_surroundings (proj1 ex_opening_closed) (proj2 ex_opening_closed) ex_loadable) as Hw.
  split; (eapply wp_mono; [apply Hw; [done|apply ex_on_disk|vm_compute; lia]|]);
    intros r s' (-> & Hfs & Hin); destruct (iu_seq _ _ Hin) as [Hs _]; rewrite Hfs, Hs;
    (split_and!; [done|vm_compute; reflexivity|done]).
Defined.
