(* ===== verification/Shutdown.v ===== *)
(** * The commit thread, flushing and closing a journal

    [kjournald2], [journal_kill_thread], [jbd2_vmsep_journal_flush] and [jbd2_vmsep_journal_destroy] of
    kernel/fs/jbd2/journal.c: when the thread commits and when it sleeps; what flushing and closing
    leave on the device, and that the next mount has nothing to replay; and why neither works as long as commits keep a
    transaction running.

    The thread is a loop over [rounds], each with what happens elsewhere while it sleeps; the waits
    are loops over the steps of the other tasks, as in Handle.v.  Freeing the structures at the end of [destroy]
    is left out. *)
From S2P Require Import Prelude Tid Revoke State Blist JournalHead Filing Log Handle Commit OnDisk RevokeLog Features Access.
From S2P Require Import Recovery Checkpoint CommitEnd CommitWhole OrderedData CommitTransaction Ext4 Journal.

(** The journal with its commit thread: [c_task]: [j_task] is set; [c_sb]: [j_sb_buffer] is. *)
Record cstate := mk_cstate { c_o : ostate; c_task : bool; c_sb : bool }.
#[export] Instance eta_cstate : Eta _ := fun s => mk_cstate (c_o s) (c_task s) (c_sb s).
Definition c_k (s : cstate) : kstate := o_k (c_o s).
Definition c_journal (s : cstate) : journal_t := k_journal (c_k s).

Definition on_o {A} (m : K ostate A) : K cstate A := fun s =>
  match m (c_o s) with
  | Ret (a, o) => Ret (a, s <| c_o := o |>)
  | Fault e => Fault e
  end.
Definition on_cj {A} (m : K kstate A) : K cstate A := on_o (on_ok m).
Definition get_c : K cstate cstate := fun s => Ret (s, s).
Definition set_ctask (b : bool) : K cstate unit := fun s => Ret (tt, s <| c_task := b |>).

(** ** The commit thread *)

(** One turn of the loop: [freezing(current)]; the time when the thread decides to sleep and
    after it woke up; what happens while it sleeps or is frozen; and for a commit, the
    steps of the tasks it waits for and the result of submitting the commit record. *)
Record round := mk_round {
  freezing : bool;
  now_sleep : Z;
  now_wake : Z;
  elsewhere : K ostate unit;
  handles : list (K ostate unit);
  submit_ret : Z;
}.

(** A running transaction whose time is over. *)
Definition expired (now : Z) : K kstate (option (tr_id * transaction_t)) :=
  j <- read_journal ;;
  match j_running_transaction j with
  | None => kret None
  | Some t => tr <- read_tr t ;; kret (if time_after_eq now (t_expires tr) then Some (t, tr) else None)
  end.

(** [wake_up(&j_wait_done_commit)] and the timer are left out: the rounds say when the thread goes on. *)
Definition thread_idle (r : round) : K cstate unit :=
  (if freezing r then on_o (elsewhere r)
   else
     s <- get_c ;;
     e <- on_cj (expired (now_sleep r)) ;;
     let j := c_journal s in
     let should_sleep :=
       (j_commit_sequence j =? j_commit_request j) && negb (bool_decide (is_Some e)) && negb (JBD2_UNMOUNT j) in
     if should_sleep then on_o (elsewhere r) else kret tt) ;;;
  e <- on_cj (expired (now_wake r)) ;;
  match e with
  | Some (_, tr) => on_cj (modify_journal (fun j => j <| j_commit_request := t_tid tr |>))
  | None => kret tt
  end.

Section Thread.
Context (commit : round -> K ostate (option unit)).

(** From [loop:]; [None] when the thread is still running at the end of the rounds. *)
Fixpoint thread_loop (rounds : list round) : K cstate (option Z) :=
  match rounds with
  | [] => kret None
  | r :: rounds =>
    s <- get_c ;;
    let j := c_journal s in
    if JBD2_UNMOUNT j then set_ctask false ;;; kret (Some 0)
    else if negb (j_commit_sequence j =? j_commit_request j)
    then
      u <- on_o (commit r) ;;
      match u with
      | None => kret None
      | Some _ => thread_loop rounds
      end
    else thread_idle r ;;; thread_loop rounds
  end.

(** [wait_event(j_wait_done_commit, j_task == NULL)]; [envs]: the steps of the thread. *)
Fixpoint wait_thread (envs : list (K cstate unit)) : K cstate (option unit) :=
  s <- get_c ;;
  if negb (c_task s) then kret (Some tt)
  else match envs with
  | [] => kret None
  | env :: envs => env ;;; wait_thread envs
  end.

Definition journal_kill_thread (envs : list (K cstate unit)) : K cstate (option unit) :=
  on_cj (modify_journal (fun j => j <| JBD2_UNMOUNT := true |>)) ;;;
  wait_thread envs.
End Thread.

(** ** Flushing and closing *)

Section Close.
Context (submit_sb : journal_t -> Z) (jiffies : Z).
Context (write_dirty_buffer wait_on_buffer : bh_id -> K kstate unit).
Context (cp_envs : nat -> list (K kstate unit)) (resched : nat -> bool).
Abbreviation do_checkpoint :=
  (jbd2_vmsep_log_do_checkpoint submit_sb jiffies write_dirty_buffer wait_on_buffer cp_envs resched).

(** [while (!err && j_checkpoint_transactions)]. *)
Fixpoint flush_checkpoints (fuel : nat) : K kstate (option Z) :=
  match fuel with
  | O => kret None
  | S fuel =>
    j <- read_journal ;;
    match j_checkpoint_transactions j with
    | [] => kret (Some 0)
    | _ :: _ =>
      err <- do_checkpoint fuel ;;
      match err with
      | None => kret None
      | Some err => if err =? 0 then flush_checkpoints fuel else kret (Some err)
      end
    end
  end.

(** The commit of everything buffered; [envs]: the steps of the commit thread. *)
Definition flush_commit (envs : list (K kstate unit)) : K kstate (option unit) :=
  j <- read_journal ;;
  tid <- (match j_running_transaction j, j_committing_transaction j with
          | Some t, _ =>
            tr <- read_tr t ;;
            __jbd2_vmsep_log_start_commit jiffies (t_tid tr) 0 ;;;
            kret (Some (t_tid tr))
          | None, Some t => tr <- read_tr t ;; kret (Some (t_tid tr))
          | None, None => kret None
          end) ;;
  match tid with
  | None => kret (Some tt)
  | Some tid =>
    r <- jbd2_vmsep_log_wait_commit envs tid ;;
    kret (match r with Some _ => Some tt | None => None end)
  end.

(** The last part, with the five assertions. *)
Definition flush_finish : K kstate unit :=
  jbd2_mark_journal_empty submit_sb jiffies ;;;
  j <- read_journal ;;
  j_assert (bool_decide (j_running_transaction j = None)) ;;;
  j_assert (bool_decide (j_committing_transaction j = None)) ;;;
  j_assert (bool_decide (j_checkpoint_transactions j = [])) ;;;
  j_assert (j_head j =? j_tail j) ;;;
  j_assert (j_tail_sequence j =? j_transaction_sequence j).

Definition jbd2_vmsep_journal_flush (fuel : nat) (envs : list (K kstate unit)) : K kstate (option Z) :=
  u <- flush_commit envs ;;
  match u with
  | None => kret None
  | Some _ =>
    err <- flush_checkpoints fuel ;;
    match err with
    | None => kret None
    | Some err =>
      aborted <- is_journal_aborted ;;
      if aborted : bool then kret (Some (- EIO))
      else if negb (err =? 0) then flush_finish ;;; kret (Some err)
      else
        err <- jbd2_vmsep_cleanup_journal_tail submit_sb jiffies ;;
        if err <? 0 then kret (Some err)
        else flush_finish ;;; kret (Some 0)
    end
  end.

(** [while (j_checkpoint_transactions != NULL)], leaving it when checkpointing fails;
    [rounds]: those of [jbd2_vmsep_journal_destroy_checkpoint]. *)
Fixpoint destroy_checkpoints (fuel : nat) (rounds : list ((bh_id -> bool) * (tr_id * bool -> bool))) : K kstate (option Z) :=
  match fuel with
  | O => kret None
  | S fuel =>
    j <- read_journal ;;
    match j_checkpoint_transactions j with
    | [] => kret (Some 0)
    | _ :: _ =>
      err <- do_checkpoint fuel ;;
      match err with
      | None => kret None
      | Some err =>
        if err =? 0 then destroy_checkpoints fuel rounds
        else
          u <- jbd2_vmsep_journal_destroy_checkpoint rounds ;;
          kret (match u with Some _ => Some err | None => None end)
      end
    end
  end.

(** The superblock of a journal without transactions; [err]: the result so far. *)
Definition destroy_super (sb_buffer : bool) (err : Z) : K kstate Z :=
  j <- read_journal ;;
  j_assert (bool_decide (j_running_transaction j = None)) ;;;
  j_assert (bool_decide (j_committing_transaction j = None)) ;;;
  j_assert (bool_decide (j_checkpoint_transactions j = [])) ;;;
  if negb sb_buffer then kret err
  else if JBD2_ABORT j then kret (- EIO)
  else
    modify_journal (fun j => j <| j_tail_sequence := tid_succ (j_transaction_sequence j) |>
                               <| j_transaction_sequence ::= tid_succ |>) ;;;
    jbd2_mark_journal_empty submit_sb jiffies ;;;
    kret err.

(** [commit]: the commit of the last transaction, that of CommitTransaction.v in [jbd2_vmsep_journal_destroy] below;
    [envs]: the steps of the commit thread. *)
Definition destroy_with (commit : K ostate (option unit)) (fuel : nat) (envs : list (K cstate unit))
    (rounds : list ((bh_id -> bool) * (tr_id * bool -> bool))) : K cstate (option Z) :=
  u <- journal_kill_thread envs ;;
  match u with
  | None => kret None
  | Some _ =>
    s <- get_c ;;
    u <- (if bool_decide (is_Some (j_running_transaction (c_journal s))) then on_o commit else kret (Some tt)) ;;
    match u with
    | None => kret None
    | Some _ =>
      err <- on_cj (destroy_checkpoints fuel rounds) ;;
      match err with
      | None => kret None
      | Some err => err <- on_cj (destroy_super (c_sb s) err) ;; kret (Some err)
      end
    end
  end.
End Close.

(** With the commit of CommitTransaction.v. *)
Section Whole.
Context (submit_sb : journal_t -> Z) (jiffies : Z) (j_inode : option (Z -> Z)) (copy_ok : bool).
Context (jbd2_chksum : Z -> list Z -> Z) (f : jformat) (j_wbufsize : Z).
Context (find_block : kstate -> Z -> option bh_id).
Context (io_ok : Z -> bool) (page_free : bh_id -> bool) (free_page : bh_id -> K kstate unit).
Context (need_resched : bh_id -> bool) (need_resched_tr : tr_id * bool -> bool).
Context (writepages fdatawait : ji_id -> Z) (abort_on_syncdata : bool).
Context (write_dirty_buffer wait_on_buffer : bh_id -> K kstate unit).
Context (cp_envs : nat -> list (K kstate unit)) (resched : nat -> bool).

Definition commit_round (fuel : nat) (r : round) : K ostate (option unit) :=
  jbd2_vmsep_journal_commit_transaction submit_sb jiffies j_inode copy_ok jbd2_chksum f j_wbufsize find_block io_ok page_free
    free_page need_resched need_resched_tr writepages fdatawait abort_on_syncdata fuel (handles r) (submit_ret r).

Definition kjournald2 (fuel : nat) (rounds : list round) : K cstate (option Z) :=
  set_ctask true ;;; thread_loop (commit_round fuel) rounds.

Definition jbd2_vmsep_journal_destroy (fuel : nat) (r : round) (envs : list (K cstate unit))
    (rounds : list ((bh_id -> bool) * (tr_id * bool -> bool))) : K cstate (option Z) :=
  destroy_with submit_sb jiffies write_dirty_buffer wait_on_buffer cp_envs resched (commit_round fuel r) fuel envs rounds.
End Whole.

(** ** Rules *)

Section Rules.
Implicit Types s : cstate.

Definition set_ck (k : kstate) (s : cstate) : cstate := s <| c_o ::= set_k k |>.

Lemma wp_on_cj {A} (m : K kstate A) (Q : A -> cstate -> Prop) s :
  wp m (fun a k => Q a (set_ck k s)) (c_k s) -> wp (on_cj m) Q s.
Proof. unfold wp, on_cj, on_o, on_ok, OrderedData.on_a, on_k, c_k, o_k. by destruct (m (a_k (o_a (c_o s)))) as [[? ?]|]. Qed.

Lemma on_cj_ret {A} (m : K kstate A) a k s : m (c_k s) = Ret (a, k) -> on_cj m s = Ret (a, set_ck k s).
Proof. unfold on_cj, on_o, on_ok, OrderedData.on_a, on_k, c_k, o_k. by intros ->. Qed.

Lemma on_cj_fault {A} (m : K kstate A) e s : m (c_k s) = Fault e -> on_cj m s = Fault e.
Proof. unfold on_cj, on_o, on_ok, OrderedData.on_a, on_k, c_k, o_k. by intros ->. Qed.

Lemma set_ck_id s : set_ck (c_k s) s = s.
Proof. unfold set_ck, c_k. destruct s as [o ? ?]. cbn. by rewrite set_k_id. Qed.
End Rules.

(** ** The thread *)

Section ThreadSpec.
Context (commit : round -> K ostate (option unit)).

(** The thread at the head of its loop leaves it once [JBD2_UNMOUNT] is set, whatever is requested. *)
Lemma thread_exits r rounds s :
  JBD2_UNMOUNT (c_journal s) = true -> thread_loop commit (r :: rounds) s = Ret (Some 0, s <| c_task := false |>).
Proof. intros Hu. cbn [thread_loop]. unfold kbind, get_c. by rewrite Hu. Qed.

Lemma expired_exec now k t tr :
  j_running_transaction (k_journal k) = Some t -> k_trans k !! t = Some tr -> time_after_eq now (t_expires tr) = true ->
  expired now k = Ret (Some (t, tr), k).
Proof. intros Ht Htr He. unfold expired, kbind, read_journal. rewrite Ht. unfold read_tr. by rewrite Htr, He. Qed.

(** The state in which the timer's commit starts. *)
Definition requested (tid : tid_t) (s : cstate) : cstate :=
  set_ck ((c_k s) <| k_journal ::= fun j => j <| j_commit_request := tid |> |>) s.

Lemma thread_commits_expired r1 r2 rounds s t tr :
  JBD2_UNMOUNT (c_journal s) = false -> j_commit_request (c_journal s) = j_commit_sequence (c_journal s) ->
  freezing r1 = false -> j_running_transaction (c_journal s) = Some t -> k_trans (c_k s) !! t = Some tr ->
  t_tid tr <> j_commit_sequence (c_journal s) ->
  time_after_eq (now_sleep r1) (t_expires tr) = true -> time_after_eq (now_wake r1) (t_expires tr) = true ->
  thread_loop commit (r1 :: r2 :: rounds) s =
  (u <- on_o (commit r2) ;; match u with None => kret None | Some _ => thread_loop commit rounds end) (requested (t_tid tr) s).
Proof.
  intros Hu Hr Hf Ht Htr Hne He1 He2. cbn [thread_loop]. rewrite (bind_ret _ _ s s s) by done.
  rewrite Hu, Hr, Z.eqb_refl. cbn [negb].
  assert (thread_idle r1 s = Ret (tt, requested (t_tid tr) s)) as Hidle.
  { unfold thread_idle. rewrite Hf. unfold kbind at 2. unfold get_c at 1.
    assert (forall now, time_after_eq now (t_expires tr) = true -> on_cj (expired now) s = Ret (Some (t, tr), s)) as Hex.
    { intros now Hn. rewrite (on_cj_ret _ (Some (t, tr)) (c_k s)); [by rewrite set_ck_id|by apply expired_exec]. }
    rewrite (bind_ret _ _ s tt s).
    - rewrite (bind_ret _ _ _ _ _ (Hex _ He2)). by apply on_cj_ret.
    - rewrite (bind_ret _ _ _ _ _ (Hex _ He1)). cbv zeta. rewrite bool_decide_true by done. cbn [negb]. by rewrite andb_false_r. }
  rewrite (bind_ret _ _ _ _ _ Hidle). cbn [thread_loop]. rewrite (bind_ret _ _ _ (requested (t_tid tr) s) (requested (t_tid tr) s)) by done.
  change (JBD2_UNMOUNT (c_journal (requested (t_tid tr) s))) with (JBD2_UNMOUNT (c_journal s)).
  change (j_commit_sequence (c_journal (requested (t_tid tr) s))) with (j_commit_sequence (c_journal s)).
  change (j_commit_request (c_journal (requested (t_tid tr) s))) with (t_tid tr).
  rewrite Hu, (proj2 (Z.eqb_neq _ _)) by congruence. done.
Qed.
End ThreadSpec.

(** ** An idle journal *)

(** No transaction at all. *)
Definition no_transactions (j : journal_t) : Prop :=
  j_running_transaction j = None /\ j_committing_transaction j = None /\ j_checkpoint_transactions j = [].

(** The device has the superblock as the journal does. *)
Definition synced (j : journal_t) : Prop :=
  disk_s_start j = s_start j /\ disk_s_sequence j = s_sequence j /\ disk_s_errno j = s_errno j.

Section Idle.
Context (submit_sb : journal_t -> Z) (jiffies : Z) (Hsub : forall j, submit_sb j = 0).

(** Marking a journal empty, when the superblock can be written. *)
Lemma mark_empty_exec k :
  synced (k_journal k) ->
  jbd2_mark_journal_empty submit_sb jiffies k = Ret (tt, k <| k_journal ::= fun j =>
    if s_start j =? 0 then j
    else j <| s_sequence := j_tail_sequence j |> <| s_start := 0 |> <| disk_s_sequence := j_tail_sequence j |>
           <| disk_s_start := 0 |> <| JBD2_FLUSHED := true |> |>).
Proof.
  intros (Hd1 & Hd2 & Hd3). unfold jbd2_mark_journal_empty. rewrite (bind_ret _ _ k (k_journal k) k) by done.
  destruct (s_start (k_journal k) =? 0) eqn:E.
  { unfold kret. do 2 f_equal. destruct k as [j b t]. cbn in *. by rewrite E. }
  unfold jbd2_write_superblock, write_superblock_with, submit_superblock, kbind, read_journal, modify_journal, kret.
  rewrite Hsub. cbn [Z.eqb]. do 2 f_equal. destruct k as [j b t]. cbn in *. rewrite E. destruct j. cbn in *. by subst.
Qed.

Context (write_dirty_buffer wait_on_buffer : bh_id -> K kstate unit).
Context (cp_envs : nat -> list (K kstate unit)) (resched : nat -> bool).

Definition after_mark (j : journal_t) : journal_t :=
  if s_start j =? 0 then j
  else j <| s_sequence := j_tail_sequence j |> <| s_start := 0 |> <| disk_s_sequence := j_tail_sequence j |>
         <| disk_s_start := 0 |> <| JBD2_FLUSHED := true |>.

(** The journal an idle one is closed with. *)
Definition closed_down (j : journal_t) : journal_t :=
  if JBD2_ABORT j then j
  else after_mark (j <| j_tail_sequence := tid_succ (j_transaction_sequence j) |> <| j_transaction_sequence ::= tid_succ |>).

Lemma destroy_super_idle k :
  no_transactions (k_journal k) -> synced (k_journal k) ->
  destroy_super submit_sb jiffies true 0 k =
  Ret (if JBD2_ABORT (k_journal k) then - EIO else 0, mk_kstate (closed_down (k_journal k)) (k_bufs k) (k_trans k)).
Proof.
  intros (I1 & I2 & I3) Hs. unfold destroy_super. rewrite (bind_ret _ _ k (k_journal k) k) by done.
  rewrite I1, I2, I3, !bool_decide_true by done. unfold kbind at 1 2 3, j_assert. cbn [negb]. unfold closed_down.
  destruct (JBD2_ABORT (k_journal k)); [by destruct k|].
  set (k1 := k <| k_journal ::= fun j => j <| j_tail_sequence := tid_succ (j_transaction_sequence j) |>
                                          <| j_transaction_sequence ::= tid_succ |> |>).
  rewrite (bind_ret _ _ k tt k1) by done. by rewrite (bind_ret _ _ _ _ _ (mark_empty_exec k1 Hs)).
Qed.

(** [commit] is not called, and the thread leaves its loop. *)
Lemma destroy_idle commit commit' fuel r rounds rs s :
  no_transactions (c_journal s) -> synced (c_journal s) -> c_sb s = true ->
  wp (destroy_with submit_sb jiffies write_dirty_buffer wait_on_buffer cp_envs resched commit (S fuel)
        [thread_loop commit' (r :: rounds) ;;; kret tt] rs)
    (fun o s' => o = Some (if JBD2_ABORT (c_journal s) then - EIO else 0) /\ c_task s' = false /\
       c_journal s' = closed_down ((c_journal s) <| JBD2_UNMOUNT := true |>)) s.
Proof.
  intros (I1 & I2 & I3) Hs Hsb.
  set (s1 := set_ck ((c_k s) <| k_journal ::= fun j => j <| JBD2_UNMOUNT := true |> |>) s).
  set (s2 := s1 <| c_task := false |>).
  assert (journal_kill_thread [thread_loop commit' (r :: rounds) ;;; kret tt] s = Ret (Some tt, s2)) as Hkill.
  { unfold journal_kill_thread. rewrite (bind_ret _ _ s tt s1) by done. cbn [wait_thread].
    rewrite (bind_ret _ _ s1 s1 s1) by done. destruct (c_task s1) eqn:Et; cbn [negb].
    - rewrite (bind_ret _ _ s1 tt s2); [done|]. by rewrite (bind_ret _ _ _ _ _ (thread_exits commit' r rounds s1 eq_refl)).
    - unfold kret. do 2 f_equal. unfold s2. clear -Et. destruct s1. cbn in *. by subst. }
  unfold destroy_with. eapply wp_exec; [exact Hkill|]. cbv iota. eapply wp_exec; [done|].
  assert (no_transactions (c_journal s2) /\ synced (c_journal s2) /\ c_sb s2 = true /\
    JBD2_ABORT (c_journal s2) = JBD2_ABORT (c_journal s)) as (Hn2 & Hs2 & Hb2 & Ha2) by done.
  destruct Hn2 as (J1 & J2 & J3). rewrite J1, bool_decide_false by (by intros [? [=]]).
  eapply wp_exec; [done|]. cbv iota. apply wp_bind, wp_on_cj. cbn [destroy_checkpoints].
  eapply wp_exec; [done|]. unfold c_journal in J3. rewrite J3. apply wp_ret. rewrite set_ck_id, Hb2. cbv iota.
  eapply wp_exec; [apply on_cj_ret, destroy_super_idle; done|]. apply wp_ret.
  change (k_journal (c_k s2)) with (c_journal s2). rewrite Ha2. done.
Qed.
End Idle.

(** ** The superblock on the device *)

(** What [jbd2_write_superblock] put there: the superblock with its checksum. *)
Definition device_sb (chk : Z -> list Z -> Z) (js : jsuper) (j : journal_t) : journal_superblock_t :=
  j_superblock (jbd2_superblock_csum_set chk (js <| j_superblock ::= fun sb =>
    sb <| Sb.s_sequence := disk_s_sequence j |> <| Sb.s_start := disk_s_start j |> <| Sb.s_errno := disk_s_errno j |> |>)).

(** The superblock of a journal in use that has features this code knows. *)
Record usable (js : jsuper) : Prop := {
  us_mounted : mounted js;
  us_features : features_ok (j_superblock js) = true;
  us_known : Z.land (Sb.s_feature_ro_compat (j_superblock js)) (Z.lnot JBD2_KNOWN_ROCOMPAT_FEATURES) = 0 /\
             Z.land (Sb.s_feature_incompat (j_superblock js)) (Z.lnot JBD2_KNOWN_INCOMPAT_FEATURES) = 0;
  us_width : is_u32 (js_maxlen js);
  us_length : JBD2_MIN_JOURNAL_BLOCKS - 1 <= js_maxlen js - Sb.s_first (j_superblock js);
  us_block : order_base_2 (js_blocksize js) - 10 < JBD2_MAX_SLABS;
}.

(** It can be opened again. *)
Lemma device_sb_loadable chk js js' j :
  usable js -> js_blocksize js' = js_blocksize js -> js_maxlen js <= js_maxlen js' ->
  loadable chk 0 js' (device_sb chk js j).
Proof.
  intros [[Hv Hm Ht Hb Hl Hf Hd] Hfeat Hk Hw Hlen Ho] Hbs Hml. unfold device_sb.
  set (js1 := js <| j_superblock ::= _ |>). destruct (csum_set_sb chk js1) as [Hsb Hck].
  set (sb := j_superblock (jbd2_superblock_csum_set chk js1)) in *. clearbody sb.
  assert (Sb.h_magic sb = JBD2_MAGIC_NUMBER /\ Sb.h_blocktype sb = JBD2_SUPERBLOCK_V2 /\
    Sb.s_blocksize sb = js_blocksize js /\ Sb.s_maxlen sb = js_maxlen js /\
    Sb.s_first sb = Sb.s_first (j_superblock js) /\ Sb.s_feature_incompat sb = Sb.s_feature_incompat (j_superblock js) /\
    Sb.s_feature_ro_compat sb = Sb.s_feature_ro_compat (j_superblock js) /\ features_ok sb = features_ok (j_superblock js))
    as (H1 & H2 & H3 & H4 & H5 & H6 & H7 & H8) by (rewrite Hsb; cbn; unfold features_ok; cbn; done).
  split; [|by rewrite H3, H4, H5]. split; rewrite ?H3, ?H4, ?H5, ?H6, ?H7; try done; try lia; [congruence|].
  unfold csum_v2or3. rewrite H6. intros Hc. split; [done|]. apply Hck. apply Hd. autorewrite with features. exact Hc.
Qed.

(** ** A running transaction stays *)

Definition still_running (s s' : kstate) : Prop :=
  j_running_transaction (k_journal s) <> None -> j_running_transaction (k_journal s') <> None.
#[export] Instance still_running_preorder : PreOrder still_running.
Proof. split; unfold still_running; [intros s; tauto|intros s1 s2 s3; tauto]. Qed.

Lemma keeps_sub {S A} (R R' : S -> S -> Prop) (m : K S A) :
  (forall s s', R s s' -> R' s s') -> keeps R m -> keeps R' m.
Proof. intros HR Hm s a s' E. apply HR. by eapply Hm. Qed.

Lemma same_log_running s s' : same_log s s' -> still_running s s'.
Proof. intros H. unfold same_log in H. dest. unfold still_running. congruence. Qed.

Lemma running_modify_journal g :
  (forall j, j_running_transaction (g j) = j_running_transaction j) -> keeps still_running (modify_journal g).
Proof. intros Hg s a s' [= <- <-]. unfold still_running. cbn. by rewrite Hg. Qed.

Lemma running_modify_bh b g : keeps still_running (modify_bh b g).
Proof. intros s a s'. unfold modify_bh. case_match; [|done]. intros [= <- <-] Hr. exact Hr. Qed.
Lemma running_modify_jh b g : keeps still_running (modify_jh b g).
Proof. intros s a s'. unfold modify_jh. repeat (case_match; try done). intros [= <- <-] Hr. exact Hr. Qed.
Lemma running_free_transaction t : keeps still_running (jbd2_vmsep_journal_free_transaction t).
Proof. intros s a s' [= <- <-] Hr. exact Hr. Qed.
Lemma running_modify_tr t g : keeps still_running (modify_tr t g).
Proof. intros s a s'. unfold modify_tr. case_match; [|done]. intros [= <- <-] Hr. exact Hr. Qed.

Ltac running_step :=
  lazymatch goal with
  | |- keeps _ (kbind _ _) => apply keeps_bind; [apply _| |intros ?]
  | |- keeps _ (kret _) => apply keeps_ret; apply _
  | |- keeps _ (kfault _) => apply keeps_fault
  | |- keeps _ (j_assert _) => apply keeps_assert; apply _
  | |- keeps _ read_journal => apply keeps_read_journal; apply _
  | |- keeps _ (read_tr _) => apply keeps_read_tr; apply _
  | |- keeps _ (read_bh _) => apply keeps_read_bh; apply _
  | |- keeps _ (read_jh _) => apply keeps_read_jh; apply _
  | |- keeps _ (modify_tr _ _) => apply running_modify_tr
  | |- keeps _ (modify_bh _ _) => apply running_modify_bh
  | |- keeps _ (modify_jh _ _) => apply running_modify_jh
  | |- keeps _ (modify_journal _) => apply running_modify_journal; intros ?; repeat case_match; done
  | |- keeps _ (match _ with _ => _ end) => case_match
  end.
Ltac running_tac := repeat (running_step || (cbv zeta; running_step) || (by eauto with running)).
Create HintDb running.
#[export] Hint Resolve running_free_transaction : running.

Section Running.
Context (submit_sb : journal_t -> Z) (jiffies : Z).
Context (write_dirty_buffer wait_on_buffer : bh_id -> K kstate unit).
Context (cp_envs : nat -> list (K kstate unit)) (resched : nat -> bool).
Context (Hw : forall b, keeps still_running (write_dirty_buffer b)) (Hwait : forall b, keeps still_running (wait_on_buffer b)).
Context (Henvs : forall n, Forall (keeps still_running) (cp_envs n)).

Lemma running_wait_commit envs tid : Forall (keeps still_running) envs -> keeps still_running (jbd2_vmsep_log_wait_commit envs tid).
Proof. induction 1; cbn [jbd2_vmsep_log_wait_commit]; running_tac; done. Qed.

Lemma running_start_commit target i : keeps still_running (__jbd2_vmsep_log_start_commit jiffies target i).
Proof. eapply keeps_sub; [apply same_log_running|apply log_start_commit_same_log]. Qed.
Lemma running_abort errno : keeps still_running (jbd2_vmsep_journal_abort submit_sb jiffies errno).
Proof. eapply keeps_sub; [apply same_log_running|apply abort_soft_same_log]. Qed.
Lemma running_write_superblock : keeps still_running (jbd2_write_superblock submit_sb jiffies).
Proof. eapply keeps_sub; [apply same_log_running|apply write_superblock_same_log]. Qed.
Lemma running_update_tail tid block : keeps still_running (jbd2_vmsep_journal_update_sb_log_tail submit_sb jiffies tid block).
Proof. eapply keeps_sub; [apply same_log_running|apply update_sb_log_tail_same_log]. Qed.
#[local] Hint Resolve running_start_commit running_abort running_write_superblock running_update_tail running_wait_commit : running.

Lemma running_cleanup_tail : keeps still_running (jbd2_vmsep_cleanup_journal_tail submit_sb jiffies).
Proof.
  unfold jbd2_vmsep_cleanup_journal_tail, is_journal_aborted, jbd2_vmsep_journal_get_log_tail, __jbd2_vmsep_update_log_tail.
  running_tac.
Qed.

Lemma running_mark_empty : keeps still_running (jbd2_mark_journal_empty submit_sb jiffies).
Proof. unfold jbd2_mark_journal_empty. running_tac. Qed.

Lemma running_remove_checkpoint b : keeps still_running (__jbd2_vmsep_journal_remove_checkpoint b).
Proof.
  unfold __jbd2_vmsep_journal_remove_checkpoint, __jbd2_vmsep_journal_drop_transaction,
    jbd2_vmsep_journal_put_journal_head, __journal_remove_journal_head, __brelse. running_tac.
Qed.
#[local] Hint Resolve running_cleanup_tail running_mark_empty running_remove_checkpoint : running.

Lemma running_for_each m l : (forall b, keeps still_running (m b)) -> keeps still_running (for_each m l).
Proof. intros Hm. induction l; cbn [for_each]; running_tac; done. Qed.

Lemma running_flush_batch batch : keeps still_running (__flush_batch write_dirty_buffer batch).
Proof.
  unfold __flush_batch. running_tac; apply running_for_each; [done|]. intros b. unfold __brelse. running_tac.
Qed.

Lemma running_cleaned_up t tid : keeps still_running (cleaned_up t tid).
Proof. unfold cleaned_up. running_tac. Qed.

Lemma running_wait_buffer b : keeps still_running (wait_buffer wait_on_buffer b).
Proof. unfold wait_buffer, get_bh, __brelse. running_tac; done. Qed.
#[local] Hint Resolve running_flush_batch running_cleaned_up running_wait_buffer : running.

Lemma running_cp_step n t result batch :
  keeps still_running (cp_step jiffies wait_on_buffer cp_envs resched n t result batch).
Proof. unfold cp_step, jbd2_vmsep_log_start_commit, get_bh. running_tac. Qed.
#[local] Hint Resolve running_cp_step : running.

Lemma running_cp_write fuel t tid : forall result batch,
  keeps still_running (cp_write jiffies write_dirty_buffer wait_on_buffer cp_envs resched fuel t tid result batch).
Proof. induction fuel as [|fuel IH]; intros result batch; cbn [cp_write]; running_tac. Qed.

Lemma running_cp_wait fuel t tid : forall result, keeps still_running (cp_wait wait_on_buffer fuel t tid result).
Proof. induction fuel as [|fuel IH]; intros result; cbn [cp_wait]; running_tac. Qed.
#[local] Hint Resolve running_cp_write running_cp_wait : running.

Lemma running_do_checkpoint fuel :
  keeps still_running (jbd2_vmsep_log_do_checkpoint submit_sb jiffies write_dirty_buffer wait_on_buffer cp_envs resched fuel).
Proof. unfold jbd2_vmsep_log_do_checkpoint. running_tac. Qed.
#[local] Hint Resolve running_do_checkpoint : running.

Lemma running_clean_one rs l destroy : keeps still_running (journal_clean_one_cp_list rs l destroy).
Proof. induction l; cbn [journal_clean_one_cp_list]; unfold __try_to_free_cp_buf; running_tac. Qed.
#[local] Hint Resolve running_clean_one : running.

Lemma running_clean_transactions rs rst ts destroy : keeps still_running (clean_transactions rs rst ts destroy).
Proof. induction ts; cbn [clean_transactions]; running_tac. Qed.
#[local] Hint Resolve running_clean_transactions : running.

Lemma running_destroy_checkpoint rounds : keeps still_running (jbd2_vmsep_journal_destroy_checkpoint rounds).
Proof.
  induction rounds as [|[]]; cbn [jbd2_vmsep_journal_destroy_checkpoint];
    unfold __jbd2_vmsep_journal_clean_checkpoint_list; running_tac.
Qed.
#[local] Hint Resolve running_destroy_checkpoint : running.

Lemma running_destroy_checkpoints fuel rounds :
  keeps still_running (destroy_checkpoints submit_sb jiffies write_dirty_buffer wait_on_buffer cp_envs resched fuel rounds).
Proof. induction fuel; cbn [destroy_checkpoints]; running_tac. Qed.

Lemma running_flush_checkpoints fuel :
  keeps still_running (flush_checkpoints submit_sb jiffies write_dirty_buffer wait_on_buffer cp_envs resched fuel).
Proof. induction fuel; cbn [flush_checkpoints]; running_tac. Qed.

Lemma running_flush_commit envs : Forall (keeps still_running) envs -> keeps still_running (flush_commit jiffies envs).
Proof. intros. unfold flush_commit. running_tac. Qed.
End Running.

(** The commit of this code asserts at once. *)
Lemma commit_round_asserts submit_sb jiffies j_inode copy_ok chk f wbufsize find_block io_ok page_free free_page nr nrt
    writepages fdatawait aos fuel r o :
  running_live (o_k o) -> j_running_transaction (k_journal (o_k o)) <> None ->
  commit_round submit_sb jiffies j_inode copy_ok chk f wbufsize find_block io_ok page_free free_page nr nrt writepages
    fdatawait aos fuel r o = Fault Assert.
Proof.
  intros Hl [ct Hct]%not_eq_None_Some. unfold commit_round, jbd2_vmsep_journal_commit_transaction.
  unfold kbind at 1, on_ok at 1, OrderedData.on_a, on_k. change (a_k (o_a o)) with (o_k o). by rewrite (commit_lock_fault submit_sb jiffies (o_k o) ct).
Qed.

(** The transaction [j_running_transaction] points to stays allocated while the tail of the log moves. *)
Definition keeps_live (s s' : kstate) : Prop := running_live s -> running_live s'.
#[export] Instance keeps_live_preorder : PreOrder keeps_live.
Proof. split; unfold keeps_live; [intros s; tauto|intros s1 s2 s3; tauto]. Qed.

Lemma live_cleanup_tail submit_sb jiffies : keeps keeps_live (jbd2_vmsep_cleanup_journal_tail submit_sb jiffies).
Proof.
  assert (forall tid block, keeps keeps_live (jbd2_vmsep_journal_update_sb_log_tail submit_sb jiffies tid block)) as Hup.
  { intros. eapply keeps_sub; [intros s s' Hs; exact (running_live_same_log s s' Hs)|apply update_sb_log_tail_same_log]. }
  unfold jbd2_vmsep_cleanup_journal_tail, is_journal_aborted, jbd2_vmsep_journal_get_log_tail, __jbd2_vmsep_update_log_tail.
  repeat lazymatch goal with
  | |- keeps _ (modify_journal _) => fail
  | |- _ => running_step || (cbv zeta; running_step) || (by eauto)
  end.
  intros s u s' [= <- <-] Hl t Ht. exact (Hl t Ht).
Qed.

(** The journal when its thread is gone and [JBD2_UNMOUNT] set. *)
Definition unmounting (s : cstate) : cstate :=
  set_ck ((c_k s) <| k_journal ::= fun j => j <| JBD2_UNMOUNT := true |> |>) s.

Lemma kill_thread_gone envs s : c_task s = false -> journal_kill_thread envs s = Ret (Some tt, unmounting s).
Proof.
  intros Ht. unfold journal_kill_thread. rewrite (bind_ret _ _ s tt (unmounting s)) by done. destruct envs; cbn [wait_thread];
    rewrite (bind_ret _ _ (unmounting s) (unmounting s) (unmounting s)) by done;
    (change (c_task (unmounting s)) with (c_task s)); by rewrite Ht.
Qed.

Section Stops.
Context (submit_sb : journal_t -> Z) (jiffies : Z).
Context (write_dirty_buffer wait_on_buffer : bh_id -> K kstate unit).
Context (cp_envs : nat -> list (K kstate unit)) (resched : nat -> bool).
Context (Hw : forall b, keeps still_running (write_dirty_buffer b)) (Hwait : forall b, keeps still_running (wait_on_buffer b)).
Context (Henvs : forall n, Forall (keeps still_running) (cp_envs n)).

(** With a running transaction [destroy] commits. *)
Lemma destroy_commits commit fuel envs rs s :
  c_task s = false -> j_running_transaction (c_journal s) <> None ->
  destroy_with submit_sb jiffies write_dirty_buffer wait_on_buffer cp_envs resched commit fuel envs rs s =
  (u <- on_o commit ;;
   match u with
   | None => kret None
   | Some _ =>
     err <- on_cj (destroy_checkpoints submit_sb jiffies write_dirty_buffer wait_on_buffer cp_envs resched fuel rs) ;;
     match err with
     | None => kret None
     | Some err => err <- on_cj (destroy_super submit_sb jiffies (c_sb s) err) ;; kret (Some err)
     end
   end) (unmounting s).
Proof.
  intros Ht Hrun. unfold destroy_with. rewrite (bind_ret _ _ _ _ _ (kill_thread_gone envs s Ht)). cbv iota.
  rewrite (bind_ret _ _ (unmounting s) (unmounting s) (unmounting s)) by done.
  by rewrite bool_decide_true by (by apply not_eq_None_Some).
Qed.

Lemma destroy_super_running sb err k :
  j_running_transaction (k_journal k) <> None -> destroy_super submit_sb jiffies sb err k = Fault Assert.
Proof.
  intros Hr. unfold destroy_super. rewrite (bind_ret _ _ k (k_journal k) k) by done. unfold kbind at 1, j_assert.
  by rewrite bool_decide_false.
Qed.

Lemma destroy_running commit fuel envs rs s o err k :
  c_task s = false -> j_running_transaction (c_journal s) <> None ->
  commit (c_o (unmounting s)) = Ret (Some tt, o) -> j_running_transaction (k_journal (o_k o)) <> None ->
  destroy_checkpoints submit_sb jiffies write_dirty_buffer wait_on_buffer cp_envs resched fuel rs (o_k o) = Ret (Some err, k) ->
  destroy_with submit_sb jiffies write_dirty_buffer wait_on_buffer cp_envs resched commit fuel envs rs s = Fault Assert.
Proof.
  intros Ht Hrun Hc Hr Hd. rewrite destroy_commits by done. unfold kbind at 1, on_o at 1. rewrite Hc. cbv iota.
  set (s2 := (unmounting s) <| c_o := o |>). rewrite (bind_ret _ _ s2 _ _ (on_cj_ret _ (Some err) k s2 Hd)). cbv iota.
  assert (j_running_transaction (k_journal k) <> None) as Hrk by (eapply running_destroy_checkpoints in Hd; [by apply Hd|done..]).
  unfold kbind at 1. by rewrite (on_cj_fault _ Assert) by (by apply destroy_super_running).
Qed.

Lemma flush_finish_running k :
  running_live k -> j_running_transaction (k_journal k) <> None -> flush_finish submit_sb jiffies k = Fault Assert.
Proof.
  intros Hl Hr. unfold flush_finish. unfold kbind at 1.
  assert (wp (jbd2_mark_journal_empty submit_sb jiffies) (fun _ _ => True) k) as Hm.
  { unfold jbd2_mark_journal_empty. wp_step. wp_step. apply wp_if; intros Hs; [by wp_step|]. wp_step. wp_step. wp_step.
    eapply wp_mono; [by apply write_superblock_exec|]. intros. wp_step. done. }
  unfold wp in Hm. destruct (jbd2_mark_journal_empty _ _ _) as [[[] k3]|] eqn:Em; [|done].
  apply running_mark_empty in Em. specialize (Em Hr). rewrite (bind_ret _ _ k3 (k_journal k3) k3) by done.
  unfold kbind at 1, j_assert. by rewrite bool_decide_false.
Qed.

Lemma flush_running fuel envs k k1 err k2 ret k3 :
  Forall (keeps still_running) envs -> j_running_transaction (k_journal k) <> None ->
  flush_commit jiffies envs k = Ret (Some tt, k1) ->
  flush_checkpoints submit_sb jiffies write_dirty_buffer wait_on_buffer cp_envs resched fuel k1 = Ret (Some err, k2) ->
  running_live k2 -> JBD2_ABORT (k_journal k2) = false ->
  (if err =? 0 then jbd2_vmsep_cleanup_journal_tail submit_sb jiffies k2 = Ret (ret, k3) /\ 0 <= ret else True) ->
  jbd2_vmsep_journal_flush submit_sb jiffies write_dirty_buffer wait_on_buffer cp_envs resched fuel envs k = Fault Assert.
Proof.
  intros Hk Hr E1 E2 Hl Ha E3. unfold jbd2_vmsep_journal_flush. rewrite (bind_ret _ _ _ _ _ E1). cbv iota.
  rewrite (bind_ret _ _ _ _ _ E2). cbv iota. apply running_flush_commit in E1; [|done]. specialize (E1 Hr).
  apply running_flush_checkpoints in E2; [|done..]. specialize (E2 E1).
  rewrite (bind_ret _ _ k2 false k2) by (unfold is_journal_aborted, kbind; cbn; by rewrite Ha).
  destruct (err =? 0); cbn [negb]; [|unfold kbind at 1; by rewrite flush_finish_running].
  destruct E3 as [E3 Hret]. rewrite (bind_ret _ _ _ _ _ E3), (proj2 (Z.ltb_ge _ _)) by done.
  pose proof (live_cleanup_tail submit_sb jiffies _ _ _ E3 Hl). apply running_cleanup_tail in E3.
  unfold kbind at 1. by rewrite flush_finish_running by auto.
Qed.
End Stops.

(** The superblock an idle journal is closed with. *)
Lemma after_mark_disk j j' :
  synced j ->
  j' = after_mark (j <| JBD2_UNMOUNT := true |> <| j_tail_sequence := tid_succ (j_transaction_sequence j) |> <| j_transaction_sequence ::= tid_succ |>) ->
  disk_s_start j' = 0 /\
  disk_s_sequence j' = (if s_start j =? 0 then disk_s_sequence j else tid_succ (j_transaction_sequence j)).
Proof.
  intros (Hd & _ & _) ->. unfold after_mark. revert Hd. destruct j. cbn. intros ->.
  case_match eqn:E; [by apply Z.eqb_eq in E|done].
Qed.

(** The id a mount starts with, and the ids used before. *)
Lemma tid_gt_restart q n : 0 <= n < 2147483645 -> tid_gt (tid_succ (tid_succ q)) (u32 (q - n)) = true.
Proof. intros Hn. unfold tid_gt, tid_succ. apply Z.ltb_lt. unfold s32, u32. lia. Qed.

(** ** Properties *)

(** C9: Unmount and mount.  Closing a journal without transactions stops the commit thread and returns 0, or [-EIO] for
    an aborted journal, whose superblock is left as it is.  Otherwise the superblock on the device says that the log is empty.  Its
    sequence is the one after the next id of the journal, unless the log was empty already, when the superblock is not
    written; a new journal that loads it, for any contents of the log blocks, replays nothing, leaves every block of the file
    system alone and is in use, its first id the one after that sequence.  That is later than the next id
    of the closed journal and than every id it handed out before, as far back as ids can be compared. *)
Theorem unmount_then_load submit_sb jiffies write_dirty_buffer wait_on_buffer cp_envs resched commit commit' fuel r rounds rs
    chk js s :
  (forall j, submit_sb j = 0) -> no_transactions (c_journal s) -> synced (c_journal s) -> c_sb s = true -> usable js ->
  wp (destroy_with submit_sb jiffies write_dirty_buffer wait_on_buffer cp_envs resched commit (S fuel)
        [thread_loop commit' (r :: rounds) ;;; kret tt] rs)
    (fun o s' => o = Some (if JBD2_ABORT (c_journal s) then - EIO else 0) /\ c_task s' = false /\
       if JBD2_ABORT (c_journal s)
       then device_sb chk js (c_journal s') = device_sb chk js (c_journal s)
       else disk_s_start (c_journal s') = 0 /\
            disk_s_sequence (c_journal s') =
              (if s_start (c_journal s) =? 0 then disk_s_sequence (c_journal s)
               else tid_succ (j_transaction_sequence (c_journal s))) /\
            (s_start (c_journal s) <> 0 -> forall n, 0 <= n < 2147483645 ->
               tid_gt (tid_succ (disk_s_sequence (c_journal s'))) (u32 (j_transaction_sequence (c_journal s) - n)) = true) /\
            forall T (H : RevokeStore T) j_inode crc32_be getblk brand_new dev getblk_fs sync flush fuel (l : lstate T),
              closed l -> unread (l_sb l) -> js_blocksize (l_sb l) = js_blocksize js -> js_maxlen js <= js_maxlen (l_sb l) ->
              wp (jbd2_vmsep_journal_load submit_sb jiffies j_inode chk crc32_be 0 getblk brand_new dev getblk_fs
                    (Some (device_sb chk js (c_journal s'))) true sync flush 0 fuel)
                (fun r l' => r = Some 0 /\ r_fs (l_r l') = r_fs (l_r l) /\
                   in_use (tid_succ (disk_s_sequence (c_journal s'))) l') l) s.
Proof.
  intros Hsub Hno Hsy Hsb Hus. eapply wp_mono; [by eapply destroy_idle|]. intros o s' (-> & Ht & Hj).
  split_and!; [done|done|]. unfold closed_down in Hj.
  change (JBD2_ABORT ((c_journal s) <| JBD2_UNMOUNT := true |>)) with (JBD2_ABORT (c_journal s)) in Hj.
  destruct (JBD2_ABORT (c_journal s)); [by rewrite Hj|].
  destruct (after_mark_disk _ _ Hsy Hj) as [Hd Hq]. clear Hj. split; [done|]. split; [done|].
  split; [intros Hne n Hn; rewrite Hq, (proj2 (Z.eqb_neq _ _) Hne); by apply tid_gt_restart|].
  intros T HT j_inode crc getblk brand dev gfs sync flush fuel2 l Hcl Hu Hbs Hml.
  destruct (device_sb_loadable chk js (l_sb l) (c_journal s') Hus Hbs Hml) as (Hg & Hlen & Ho).
  set (sb := device_sb chk js (c_journal s')) in *.
  assert (Sb.s_start sb = 0 /\ Sb.s_sequence sb = disk_s_sequence (c_journal s')) as [Hst Hsq].
  { clear Hq. unfold sb, device_sb, jbd2_superblock_csum_set. rewrite Hd. case_match; by cbn. }
  eapply wp_mono; [apply (load_from _ _ 0 Hsub) with (sb := sb) (js := opened chk (l_sb l) sb) (err := 0)
    (seq := tid_succ (disk_s_sequence (c_journal s'))) (fs := r_fs (l_r l)); try done|].
  - by apply load_sb_unread.
  - cbn. by rewrite <-(gs_blocksize _ _ _ _ Hg).
  - by eapply good_known.
  - apply Hg.
  - apply Hg.
  - eapply wp_mono; [apply recover_clean; by rewrite <-Hst|].
    intros o r' (-> & Hf & Hr & Hk). rewrite Hf, Hr, Hk, <-Hsq. split_and!; try done; apply Hcl.
  - intros o l' (Hf & -> & Hin & _). done.
Qed.

(** C37: A running transaction and the end of the journal.  [jbd2_vmsep_journal_destroy] of a journal with a running transaction
    stops at an assertion: the commit it calls asserts at once.  Without that fault
    it would stop too: for any commit that returns with a transaction running, as one that makes the transaction with the moved
    buffers the running one does, it stops at its own assertion that no transaction is running, once checkpointing has returned.
    So does [jbd2_vmsep_journal_flush] when the wait for the commit and the checkpointing return, the journal is not
    aborted and, if checkpointing succeeded, the tail of the log could be moved. *)
Theorem running_transaction_stops_shutdown submit_sb jiffies j_inode copy_ok chk f wbufsize find_block io_ok page_free free_page nr
    nrt writepages fdatawait aos write_dirty_buffer wait_on_buffer cp_envs resched fuel r envs kenvs rs s :
  (forall b, keeps still_running (write_dirty_buffer b)) -> (forall b, keeps still_running (wait_on_buffer b)) ->
  (forall n, Forall (keeps still_running) (cp_envs n)) -> Forall (keeps still_running) kenvs ->
  c_task s = false -> running_live (c_k s) -> j_running_transaction (c_journal s) <> None ->
  jbd2_vmsep_journal_destroy submit_sb jiffies j_inode copy_ok chk f wbufsize find_block io_ok page_free free_page nr nrt writepages
    fdatawait aos write_dirty_buffer wait_on_buffer cp_envs resched fuel r envs rs s = Fault Assert /\
  (forall commit o err k,
     commit (c_o (unmounting s)) = Ret (Some tt, o) -> j_running_transaction (k_journal (o_k o)) <> None ->
     destroy_checkpoints submit_sb jiffies write_dirty_buffer wait_on_buffer cp_envs resched fuel rs (o_k o) = Ret (Some err, k) ->
     destroy_with submit_sb jiffies write_dirty_buffer wait_on_buffer cp_envs resched commit fuel envs rs s = Fault Assert) /\
  (forall k1 err k2 ret k3,
     flush_commit jiffies kenvs (c_k s) = Ret (Some tt, k1) ->
     flush_checkpoints submit_sb jiffies write_dirty_buffer wait_on_buffer cp_envs resched fuel k1 = Ret (Some err, k2) ->
     running_live k2 -> JBD2_ABORT (k_journal k2) = false ->
     (if err =? 0 then jbd2_vmsep_cleanup_journal_tail submit_sb jiffies k2 = Ret (ret, k3) /\ 0 <= ret else True) ->
     jbd2_vmsep_journal_flush submit_sb jiffies write_dirty_buffer wait_on_buffer cp_envs resched fuel kenvs (c_k s) = Fault Assert).
Proof.
  intros Hw Hwait Henvs Hk Ht Hl Hrun. split_and!.
  - unfold jbd2_vmsep_journal_destroy. rewrite destroy_commits by done. unfold kbind at 1, on_o at 1. by rewrite commit_round_asserts.
  - intros. by eapply destroy_running.
  - intros. by eapply flush_running.
Qed.

(** The periodic commit.  When the thread is idle and the running transaction's time is over, the thread does not sleep: it
    requests and starts the commit of that transaction.  It records no inode in it, so the commit logs the
    metadata of the inode a sync recorded earlier, or of inode 0, the mark of everything that belongs to no registered inode; the
    metadata of all other inodes is passed on to the next transaction, however often the timer fires. *)
Theorem timer_commit_contents commit r1 r2 rounds s t tr :
  JBD2_UNMOUNT (c_journal s) = false -> j_commit_request (c_journal s) = j_commit_sequence (c_journal s) ->
  freezing r1 = false -> j_running_transaction (c_journal s) = Some t -> k_trans (c_k s) !! t = Some tr ->
  t_tid tr <> j_commit_sequence (c_journal s) ->
  time_after_eq (now_sleep r1) (t_expires tr) = true -> time_after_eq (now_wake r1) (t_expires tr) = true ->
  thread_loop commit (r1 :: r2 :: rounds) s =
    (u <- on_o (commit r2) ;; match u with None => kret None | Some _ => thread_loop commit rounds end)
      (requested (t_tid tr) s) /\
  k_trans (c_k (requested (t_tid tr) s)) = k_trans (c_k s) /\
  forall submit_sb jiffies j_inode tag_bytes csum_size j_blocksize j_wbufsize ext rt own ent l s2 fuel tc,
    ready ext t rt own ent l s2 -> mapped j_inode -> (length l <= fuel)%nat ->
    k_trans s2 !! t = Some tc -> ino_sync tc = ino_sync tr ->
    wp (commit_loop submit_sb jiffies j_inode true tag_bytes csum_size j_blocksize j_wbufsize fuel t rt locals0)
      (fun _ s3 => exists tc' rtr', k_trans s3 !! t = Some tc' /\ k_trans s3 !! rt = Some rtr' /\
         forall b x h, b ∈ l -> has_jh s2 b x h ->
           if ino h =? ino_sync tr then b ∈ t_shadow_list tc' else b ∈ t_buffers rtr') s2.
Proof.
  intros. split_and!; [by eapply thread_commits_expired|done|].
  intros submit_sb jiffies j_inode tb cs bs wb ext rt own ent l s2 fuel tc Hrd Hm Hf Htc Hi. rewrite <-Hi.
  by eapply loop_contents.
Qed.

(** ** Examples *)

Definition ex_a0 : astate := (ex_access false) <| a_k := mk_kstate zero_journal ∅ ∅ |>.
Definition ex_closing (j : journal_t) (trs : gmap positive transaction_t) : cstate :=
  mk_cstate (mk_ostate (ex_a0 <| a_k := mk_kstate j ∅ trs |>) ∅ ∅ []) true true.
Definition ex_round : round := mk_round false 100 100 (kret tt) [] 0.
Definition no_commit : round -> K ostate (option unit) := fun _ => kret (Some tt).

(** A journal in use, whose superblock points into the log. *)
Definition ex_used : journal_t :=
  zero_journal <| s_start := 5 |> <| disk_s_start := 5 |> <| s_sequence := 9 |> <| disk_s_sequence := 9 |>
    <| j_tail_sequence := 11 |> <| j_transaction_sequence := 11 |>.
Definition ex_js : jsuper := opened ex_sum (l_sb ex_opening) ex_disk_sb.

Lemma ex_usable : usable ex_js.
Proof. split; [split|..]; vm_compute; try done; split; done. Qed.

Lemma unmount_then_load_witness :
  wp (destroy_with (fun _ => 0) 0 (fun _ => kret tt) (fun _ => kret tt) (fun _ => []) (fun _ => false) (no_commit ex_round) 1
        [thread_loop no_commit [ex_round] ;;; kret tt] [])
    (fun o s' => o = Some 0 /\ disk_s_sequence (c_journal s') = 12 /\
       wp (jbd2_vmsep_journal_load (fun _ => 0) 0 None ex_sum ex_sum 0 (fun _ => true) (fun _ => true) ex_ddev (fun _ => true)
             (Some (device_sb ex_sum ex_js (c_journal s'))) true 0 0 0 0)
         (fun r l' => r = Some 0 /\ r_fs (l_r l') = {[ 200 := ex_block 9 ]}) ex_opening) (ex_closing ex_used ∅).
Proof.
  eapply wp_mono; [apply (unmount_then_load (fun _ => 0) 0 (fun _ => kret tt) (fun _ => kret tt) (fun _ => []) (fun _ => false)
    (no_commit ex_round) no_commit 0 ex_round [] [] ex_sum ex_js (ex_closing ex_used ∅)); try done; apply ex_usable|].
  intros o s' (-> & _ & _ & Hq & _ & Hload). split; [done|]. split; [exact Hq|].
  eapply wp_mono; [apply Hload; try done; apply ex_opening_closed|]. intros r l' (-> & -> & _). done.
Defined.

(** A journal with a running transaction, and the thread already gone.  The commit thread commits transaction 7 while flush
    waits, and leaves transaction 8 running. *)
Definition ex_running : cstate :=
  (ex_closing (zero_journal <| j_running_transaction := Some 1%positive |> <| j_commit_sequence := 6 |> <| j_head := 3 |>)
     {[ 1%positive := zero_transaction <| t_tid := 7 |>; 2%positive := zero_transaction <| t_tid := 8 |> ]}) <| c_task := false |>.
Definition ex_next_running : K kstate unit :=
  modify_journal (fun j => j <| j_commit_sequence := 7 |> <| j_running_transaction := Some 2%positive |>).

Lemma running_transaction_stops_shutdown_witness :
  jbd2_vmsep_journal_destroy (fun _ => 0) 0 None true ex_sum ex_rfmt 64 (fun _ _ => None) (fun _ => true) (fun _ => false)
    (fun _ => kret tt) (fun _ => false) (fun _ => false) (fun _ => 0) (fun _ => 0) false
    (fun _ => kret tt) (fun _ => kret tt) (fun _ => []) (fun _ => false) 8 ex_round [] [] ex_running = Fault Assert /\
  destroy_with (fun _ => 0) 0 (fun _ => kret tt) (fun _ => kret tt) (fun _ => []) (fun _ => false)
    (on_ok ex_next_running ;;; kret (Some tt)) 8 [] [] ex_running = Fault Assert /\
  jbd2_vmsep_journal_flush (fun _ => 0) 0 (fun _ => kret tt) (fun _ => kret tt) (fun _ => []) (fun _ => false) 8 [ex_next_running]
    (c_k ex_running) = Fault Assert.
Proof.
  destruct (running_transaction_stops_shutdown (fun _ => 0) 0 None true ex_sum ex_rfmt 64 (fun _ _ => None) (fun _ => true) (fun _ => false)
    (fun _ => kret tt) (fun _ => false) (fun _ => false) (fun _ => 0) (fun _ => 0) false
    (fun _ => kret tt) (fun _ => kret tt) (fun _ => []) (fun _ => false) 8 ex_round [] [ex_next_running] [] ex_running)
    as (Hd & Hc & Hf).
  - intros b. apply keeps_ret, _.
  - intros b. apply keeps_ret, _.
  - done.
  - constructor; [|constructor]. intros s a s' [= <- <-] _. done.
  - done.
  - intros t [= <-]. by eexists.
  - done.
  - split_and!; [exact Hd| |].
    + eapply Hc; [vm_compute; reflexivity|discriminate|vm_compute; reflexivity].
    + eapply Hf; [vm_compute; reflexivity|vm_compute; reflexivity| |reflexivity|split; [vm_compute; reflexivity|done]].
      intros t [= <-]. eexists. reflexivity.
Defined.

Lemma timer_commit_contents_witness :
  thread_loop no_commit [ex_round; ex_round] (ex_closing (zero_journal <| j_running_transaction := Some 1%positive |>)
    {[ 1%positive := zero_transaction <| t_tid := 7 |> <| t_expires := 99 |> ]}) =
  Ret (None, ex_closing (zero_journal <| j_running_transaction := Some 1%positive |> <| j_commit_request := 7 |>)
    {[ 1%positive := zero_transaction <| t_tid := 7 |> <| t_expires := 99 |> ]}).
Proof.
  destruct (timer_commit_contents no_commit ex_round ex_round [] (ex_closing (zero_journal <| j_running_transaction := Some 1%positive |>)
    {[ 1%positive := zero_transaction <| t_tid := 7 |> <| t_expires := 99 |> ]}) 1%positive
    (zero_transaction <| t_tid := 7 |> <| t_expires := 99 |>)) as [E _]; [done..|]. rewrite E. reflexivity.
Defined.
