(* ===== verification/ExtentStatus.v ===== *)
(** * The extent status tree

    kernel/fs/ext4/extents_status.c and extents_status.h: ext4's cache of what it knows about the logical
    blocks of a file (written, unwritten, delayed or a hole, and where), a red-black tree of disjoint extents in every
    inode, with a shrinker that takes back memory.  The file holds the data and the operations: search, insertion with merging,
    removal, lookup and reclaim.

    Extents are objects named by positive numbers, so that the pointers of the source ([cache_es], the node at hand
    while the tree changes) are names here.  The red-black tree is that of lib/rbtree.c, which is not part of the program:
    rebalancing and erasing are parameters that keep the order of the nodes ([Rebalance]); the descents are those of this
    code.  [allocs] are the results of the coming allocations; none left means that memory is available.
    Locks, tracing, the statistics of the scan time and the check code of [ES_AGGRESSIVE_TEST] (not compiled) are left out. *)
From S2P Require Import Prelude Log.

(** ** Extents *)

Record extent_status := mk_es { es_lblk : Z; es_len : Z; es_pblk : Z }.
#[export] Instance eta_es : Eta _ := fun e => mk_es (es_lblk e) (es_len e) (es_pblk e).

Definition ES_SHIFT : Z := 59.
(** [~ES_MASK] *)
Definition ES_BLOCK_MASK : Z := Z.ones 59.
Definition ES_MASK : Z := Z.shiftl (Z.ones 5) ES_SHIFT.
Definition EXTENT_STATUS_WRITTEN : Z := 1.
Definition EXTENT_STATUS_UNWRITTEN : Z := 2.
Definition EXTENT_STATUS_DELAYED : Z := 4.
Definition EXTENT_STATUS_HOLE : Z := 8.
Definition EXTENT_STATUS_REFERENCED : Z := 16.
Definition ES_TYPE_MASK : Z := Z.shiftl (Z.ones 4) ES_SHIFT.
Definition EXT_MAX_BLOCKS : Z := 4294967295.

Definition ext4_es_status (es : extent_status) : Z := Z.shiftr (es_pblk es) ES_SHIFT.
Definition ext4_es_type (es : extent_status) : Z := Z.shiftr (Z.land (es_pblk es) ES_TYPE_MASK) ES_SHIFT.
Definition ext4_es_is_written (es : extent_status) : bool := negb (Z.land (ext4_es_type es) EXTENT_STATUS_WRITTEN =? 0).
Definition ext4_es_is_unwritten (es : extent_status) : bool := negb (Z.land (ext4_es_type es) EXTENT_STATUS_UNWRITTEN =? 0).
Definition ext4_es_is_delayed (es : extent_status) : bool := negb (Z.land (ext4_es_type es) EXTENT_STATUS_DELAYED =? 0).
Definition ext4_es_is_hole (es : extent_status) : bool := negb (Z.land (ext4_es_type es) EXTENT_STATUS_HOLE =? 0).
Definition ext4_es_is_referenced (es : extent_status) : bool := negb (Z.land (ext4_es_status es) EXTENT_STATUS_REFERENCED =? 0).
Definition ext4_es_set_referenced (es : extent_status) : extent_status :=
  es <| es_pblk ::= fun p => Z.lor p (Z.shiftl EXTENT_STATUS_REFERENCED ES_SHIFT) |>.
Definition ext4_es_clear_referenced (es : extent_status) : extent_status :=
  es <| es_pblk ::= fun p => Z.ldiff p (Z.shiftl EXTENT_STATUS_REFERENCED ES_SHIFT) |>.
Definition ext4_es_pblock (es : extent_status) : Z := Z.land (es_pblk es) ES_BLOCK_MASK.
Definition ext4_es_store_pblock (pb : Z) (es : extent_status) : extent_status :=
  es <| es_pblk := Z.lor (Z.land pb ES_BLOCK_MASK) (Z.land (es_pblk es) ES_MASK) |>.
(** The result of [ext4_es_store_pblock_status], as the new [es_pblk]. *)
Definition pblock_status (pb status : Z) : Z :=
  Z.lor (Z.land (Z.shiftl status ES_SHIFT) ES_MASK) (Z.land pb ES_BLOCK_MASK).

(** [in_range] of ext4.h, in [unsigned int] arithmetic. *)
Definition in_range (b first len : Z) : bool := (first <=? b) && (b <=? u32 (u32 (first + len) - 1)).

(** [ext4_es_end], with its [BUG_ON]. *)
Definition ext4_es_end (es : extent_status) : outcome Z :=
  if u32 (es_lblk es + es_len es) <? es_lblk es then Fault Assert
  else Ret (u32 (u32 (es_lblk es + es_len es) - 1)).

Definition ext4_es_can_be_merged (es1 es2 : extent_status) : bool :=
  if negb (ext4_es_type es1 =? ext4_es_type es2) then false
  else if EXT_MAX_BLOCKS <? es_len es1 + es_len es2 then false
  else if negb (es_lblk es1 + es_len es1 =? es_lblk es2) then false
  else if (ext4_es_is_written es1 || ext4_es_is_unwritten es1) &&
          (u64 (ext4_es_pblock es1 + es_len es1) =? ext4_es_pblock es2) then true
  else if ext4_es_is_hole es1 then true
  else ext4_es_is_delayed es1 && negb (ext4_es_is_unwritten es1).

(** ** The tree *)

Abbreviation es_id := positive (only parsing).
Inductive rb := Leaf | Node (left : rb) (n : es_id) (right : rb).

Fixpoint inorder (t : rb) : list es_id :=
  match t with
  | Leaf => []
  | Node l n r => inorder l ++ n :: inorder r
  end.

(** [rb_insert_color] and [rb_erase] of lib/rbtree.c; [rb_next] and [rb_prev] are the neighbours in the order. *)
Class Rebalance := {
  rb_insert_color : rb -> rb;
  rb_erase : es_id -> rb -> rb;
  rb_insert_color_order t : inorder (rb_insert_color t) = inorder t;
  rb_erase_order n t : inorder (rb_erase n t) = filter (fun m => m <> n) (inorder t);
}.

Fixpoint next_in (n : es_id) (l : list es_id) : option es_id :=
  match l with
  | [] => None
  | m :: l => if bool_decide (m = n) then head l else next_in n l
  end.
Definition rb_next (n : es_id) (t : rb) : option es_id := next_in n (inorder t).
Definition rb_prev (n : es_id) (t : rb) : option es_id := next_in n (reverse (inorder t)).

(** An inode's part of [struct ext4_inode_info], with the extents it owns; [precached]: [EXT4_STATE_EXT_PRECACHED]. *)
Record es_inode := mk_es_inode {
  root : rb;
  cache_es : option es_id;
  extents : gmap es_id extent_status;
  i_es_all_nr : Z;
  i_es_shk_nr : Z;
  i_es_shrink_lblk : Z;
  precached : bool;
}.
#[export] Instance eta_es_inode : Eta _ := fun i =>
  mk_es_inode (root i) (cache_es i) (extents i) (i_es_all_nr i) (i_es_shk_nr i) (i_es_shrink_lblk i) (precached i).

(** The file system: its inodes, [s_es_list] (an inode's [i_es_list] is empty when it is not on it) and the counters. *)
Record es_state := mk_es_state {
  es_inodes : gmap positive es_inode;
  s_es_list : list positive;
  s_es_nr_inode : Z;
  es_stats_all_cnt : Z;
  es_stats_shk_cnt : Z;
  es_stats_cache_hits : Z;
  es_stats_cache_misses : Z;
  allocs : list bool;
}.
#[export] Instance eta_es_state : Eta _ := fun s =>
  mk_es_state (es_inodes s) (s_es_list s) (s_es_nr_inode s) (es_stats_all_cnt s) (es_stats_shk_cnt s)
    (es_stats_cache_hits s) (es_stats_cache_misses s) (allocs s).

Abbreviation E := (K es_state).

Definition get_es : E es_state := fun s => Ret (s, s).
Definition modify_es (f : es_state -> es_state) : E unit := fun s => Ret (tt, f s).
Definition read_ei (i : positive) : E es_inode := fun s =>
  match es_inodes s !! i with Some x => Ret (x, s) | None => Fault Oops end.
Definition modify_ei (i : positive) (f : es_inode -> es_inode) : E unit := fun s =>
  match es_inodes s !! i with
  | Some x => Ret (tt, s <| es_inodes ::= <[i := f x]> |>)
  | None => Fault Oops
  end.
Definition read_es (i : positive) (n : es_id) : E extent_status := fun s =>
  match (x ← es_inodes s !! i; extents x !! n) with Some e => Ret (e, s) | None => Fault Oops end.
Definition modify_extent (i : positive) (n : es_id) (f : extent_status -> extent_status) : E unit :=
  e <- read_es i n ;;
  modify_ei i (fun x => x <| extents ::= <[n := f e]> |>).
Definition es_end (i : positive) (n : es_id) : E Z := fun s =>
  match (x ← es_inodes s !! i; extents x !! n) with
  | Some e => match ext4_es_end e with Ret z => Ret (z, s) | Fault f => Fault f end
  | None => Fault Oops
  end.

Definition ext4_es_init_tree (x : es_inode) : es_inode := x <| root := Leaf |> <| cache_es := None |>.

(** ** Search *)

(** The descent: the extent that covers [lblk] ([inl]), or the last one visited. *)
Fixpoint search_down (i : positive) (lblk : Z) (t : rb) (last : option es_id) : E (es_id + option es_id) :=
  match t with
  | Leaf => kret (inr last)
  | Node l n r =>
    es <- read_es i n ;;
    if lblk <? es_lblk es then search_down i lblk l (Some n)
    else
      e <- es_end i n ;;
      if e <? lblk then search_down i lblk r (Some n) else kret (inl n)
  end.

(** [__es_tree_search]: the extent that covers [lblk], or else the next one. *)
Definition __es_tree_search (i : positive) (lblk : Z) : E (option es_id) :=
  x <- read_ei i ;;
  found <- search_down i lblk (root x) None ;;
  match found with
  | inl n => kret (Some n)
  | inr None => kret None
  | inr (Some n) =>
    es <- read_es i n ;;
    if lblk <? es_lblk es then kret (Some n)
    else
      e <- es_end i n ;;
      kret (if e <? lblk then rb_next n (root x) else None)
  end.

(** ** Counting *)

Definition ext4_es_list_add (i : positive) : E unit := modify_es (fun s =>
  if bool_decide (i ∈ s_es_list s) then s
  else s <| s_es_list ::= fun l => l ++ [i] |> <| s_es_nr_inode ::= Z.succ |>).

Definition ext4_es_list_del (i : positive) : E unit := modify_es (fun s =>
  if bool_decide (i ∈ s_es_list s)
  then s <| s_es_list ::= filter (fun j => j <> i) |> <| s_es_nr_inode ::= Z.pred |>
  else s).

(** [kmem_cache_alloc]. *)
Definition es_alloc : E bool := fun s =>
  match allocs s with
  | [] => Ret (true, s)
  | ok :: rest => Ret (ok, s <| allocs := rest |>)
  end.

Definition ext4_es_alloc_extent (i : positive) (newes : extent_status) : E (option es_id) :=
  ok <- es_alloc ;;
  if negb ok then kret None
  else
    x <- read_ei i ;;
    let n := fresh (dom (extents x)) in
    modify_ei i (fun x => x <| extents ::= <[n := newes]> |>) ;;;
    (if ext4_es_is_delayed newes then kret tt
     else
       modify_ei i (fun x => x <| i_es_shk_nr := u32 (i_es_shk_nr x + 1) |>) ;;;
       (if i_es_shk_nr x =? 0 then ext4_es_list_add i else kret tt) ;;;
       modify_es (fun s => s <| es_stats_shk_cnt ::= Z.succ |>)) ;;;
    modify_ei i (fun x => x <| i_es_all_nr := u32 (i_es_all_nr x + 1) |>) ;;;
    modify_es (fun s => s <| es_stats_all_cnt ::= Z.succ |>) ;;;
    kret (Some n).

Definition ext4_es_free_extent (i : positive) (n : es_id) : E unit :=
  es <- read_es i n ;;
  modify_ei i (fun x => x <| i_es_all_nr := u32 (i_es_all_nr x - 1) |>) ;;;
  modify_es (fun s => s <| es_stats_all_cnt ::= Z.pred |>) ;;;
  (if ext4_es_is_delayed es then kret tt
   else
     x <- read_ei i ;;
     j_assert (negb (i_es_shk_nr x =? 0)) ;;;
     modify_ei i (fun x => x <| i_es_shk_nr := u32 (i_es_shk_nr x - 1) |>) ;;;
     (if u32 (i_es_shk_nr x - 1) =? 0 then ext4_es_list_del i else kret tt) ;;;
     modify_es (fun s => s <| es_stats_shk_cnt ::= Z.pred |>)) ;;;
  modify_ei i (fun x => x <| extents ::= delete n |>).

(** ** Insertion *)

(** Where a new extent goes: merged with extent [n] that follows or precedes it, or linked at the end of a path
    from the root ([true]: to the left). *)
Inductive spot := Before (n : es_id) | After (n : es_id) | Link (path : list bool).

Fixpoint find_spot (i : positive) (newes : extent_status) (t : rb) : E spot :=
  match t with
  | Leaf => kret (Link [])
  | Node l n r =>
    es <- read_es i n ;;
    if es_lblk newes <? es_lblk es
    then
      if ext4_es_can_be_merged newes es then kret (Before n)
      else
        sp <- find_spot i newes l ;;
        kret (match sp with Link p => Link (true :: p) | _ => sp end)
    else
      e <- es_end i n ;;
      if e <? es_lblk newes
      then
        if ext4_es_can_be_merged es newes then kret (After n)
        else
          sp <- find_spot i newes r ;;
          kret (match sp with Link p => Link (false :: p) | _ => sp end)
      else kfault Assert
  end.

(** [rb_link_node] at the end of the path. *)
Fixpoint rb_link_node (n : es_id) (path : list bool) (t : rb) : rb :=
  match path, t with
  | [], _ => Node Leaf n Leaf
  | true :: p, Node l m r => Node (rb_link_node n p l) m r
  | false :: p, Node l m r => Node l m (rb_link_node n p r)
  | _ :: _, Leaf => t
  end.

Section Tree.
Context `{Rebalance}.

(** [rb_erase] and the release of the extent. *)
Definition erase_free (i : positive) (n : es_id) : E unit :=
  modify_ei i (fun x => x <| root ::= rb_erase n |>) ;;;
  ext4_es_free_extent i n.

Definition ext4_es_try_to_merge_left (i : positive) (n : es_id) : E es_id :=
  x <- read_ei i ;;
  match rb_prev n (root x) with
  | None => kret n
  | Some n1 =>
    es1 <- read_es i n1 ;;
    es <- read_es i n ;;
    if ext4_es_can_be_merged es1 es
    then
      modify_extent i n1 (fun e => e <| es_len := u32 (es_len e + es_len es) |>) ;;;
      (if ext4_es_is_referenced es then modify_extent i n1 ext4_es_set_referenced else kret tt) ;;;
      erase_free i n ;;;
      kret n1
    else kret n
  end.

Definition ext4_es_try_to_merge_right (i : positive) (n : es_id) : E es_id :=
  x <- read_ei i ;;
  match rb_next n (root x) with
  | None => kret n
  | Some n1 =>
    es <- read_es i n ;;
    es1 <- read_es i n1 ;;
    (if ext4_es_can_be_merged es es1
     then
       modify_extent i n (fun e => e <| es_len := u32 (es_len e + es_len es1) |>) ;;;
       (if ext4_es_is_referenced es1 then modify_extent i n ext4_es_set_referenced else kret tt) ;;;
       erase_free i n1
     else kret tt) ;;;
    kret n
  end.

Definition __es_insert_extent (i : positive) (newes : extent_status) : E Z :=
  x <- read_ei i ;;
  sp <- find_spot i newes (root x) ;;
  found <- (match sp with
    | Before n =>
      modify_extent i n (fun es =>
        let es := es <| es_lblk := es_lblk newes |> <| es_len := u32 (es_len es + es_len newes) |> in
        if ext4_es_is_written es || ext4_es_is_unwritten es then ext4_es_store_pblock (es_pblk newes) es else es) ;;;
      n <- ext4_es_try_to_merge_left i n ;;
      kret (Some n)
    | After n =>
      modify_extent i n (fun es => es <| es_len := u32 (es_len es + es_len newes) |>) ;;;
      n <- ext4_es_try_to_merge_right i n ;;
      kret (Some n)
    | Link path =>
      new <- ext4_es_alloc_extent i newes ;;
      match new with
      | None => kret None
      | Some n =>
        modify_ei i (fun x => x <| root ::= fun t => rb_insert_color (rb_link_node n path t) |>) ;;;
        kret (Some n)
      end
    end) ;;
  match found with
  | None => kret (- ENOMEM)
  | Some n => modify_ei i (fun x => x <| cache_es := Some n |>) ;;; kret 0
  end.

(** ** Reclaim *)

(** The loop of [es_do_reclaim_extents]; [l]: the extents from [es] on.  The result: whether [nr_to_scan] was
    exhausted, what is left of it, and how many extents were reclaimed. *)
Fixpoint reclaim_loop (i : positive) (stop : Z) (l : list es_id) (nr_to_scan nr_shrunk : Z) : E (bool * Z * Z) :=
  match l with
  | [] =>
    modify_ei i (fun x => x <| i_es_shrink_lblk := 0 |>) ;;;
    kret (false, nr_to_scan, nr_shrunk)
  | n :: l =>
    es <- read_es i n ;;
    if negb (0 <? nr_to_scan)
    then
      modify_ei i (fun x => x <| i_es_shrink_lblk := es_lblk es |>) ;;;
      kret (true, nr_to_scan, nr_shrunk)
    else if stop <? es_lblk es
    then
      modify_ei i (fun x => x <| i_es_shrink_lblk := u32 (stop + 1) |>) ;;;
      kret (false, nr_to_scan, nr_shrunk)
    else if ext4_es_is_delayed es then reclaim_loop i stop l (nr_to_scan - 1) nr_shrunk
    else if ext4_es_is_referenced es
    then
      modify_extent i n ext4_es_clear_referenced ;;;
      reclaim_loop i stop l (nr_to_scan - 1) nr_shrunk
    else
      erase_free i n ;;;
      reclaim_loop i stop l (nr_to_scan - 1) (nr_shrunk + 1)
  end.

(** The part of the order that starts with [n]. *)
Fixpoint from_node (n : es_id) (l : list es_id) : list es_id :=
  match l with
  | [] => []
  | m :: l' => if bool_decide (m = n) then l else from_node n l'
  end.

Definition es_do_reclaim_extents (i : positive) (stop : Z) (nr_to_scan nr_shrunk : Z) : E (bool * Z * Z) :=
  x <- read_ei i ;;
  es <- __es_tree_search i (i_es_shrink_lblk x) ;;
  match es with
  | None =>
    modify_ei i (fun x => x <| i_es_shrink_lblk := 0 |>) ;;;
    kret (false, nr_to_scan, nr_shrunk)
  | Some n => reclaim_loop i stop (from_node n (inorder (root x))) nr_to_scan nr_shrunk
  end.

(** What is left of [nr_to_scan], and how many extents were reclaimed. *)
Definition es_reclaim_extents (i : positive) (nr_to_scan : Z) : E (Z * Z) :=
  x <- read_ei i ;;
  let start := i_es_shrink_lblk x in
  if i_es_shk_nr x =? 0 then kret (nr_to_scan, 0)
  else
    r <- es_do_reclaim_extents i EXT_MAX_BLOCKS nr_to_scan 0 ;;
    let '(exhausted, nr_to_scan, nr_shrunk) := r in
    r <- (if negb exhausted && negb (start =? 0)
          then es_do_reclaim_extents i (start - 1) nr_to_scan nr_shrunk
          else kret r) ;;
    let '(_, nr_to_scan, nr_shrunk) := r in
    modify_ei i (fun x => x <| cache_es := None |>) ;;;
    kret (nr_to_scan, nr_shrunk).

(** The walk over [s_es_list]; [trylock]: which inodes' [i_es_lock] can be taken; [locked]: the inode of the caller.
    The result: what is left of [nr_to_scan], reclaimed and skipped, and whether to leave at once. *)
Fixpoint shrink_walk (trylock : positive -> bool) (locked : option positive) (retried : bool)
    (nr_to_walk : nat) (nr_to_scan nr_shrunk nr_skipped : Z) : E (Z * Z * Z * bool) :=
  match nr_to_walk with
  | O => kret (nr_to_scan, nr_shrunk, nr_skipped, false)
  | S nr_to_walk =>
    s <- get_es ;;
    match s_es_list s with
    | [] => kret (nr_to_scan, nr_shrunk, nr_skipped, true)
    | i :: rest =>
      modify_es (fun s => s <| s_es_list := rest ++ [i] |>) ;;;
      x <- read_ei i ;;
      if (negb retried && precached x) || bool_decide (locked = Some i) || negb (trylock i)
      then shrink_walk trylock locked retried nr_to_walk nr_to_scan nr_shrunk (nr_skipped + 1)
      else
        r <- es_reclaim_extents i nr_to_scan ;;
        let nr_shrunk := nr_shrunk + r.2 in
        if r.1 <=? 0 then kret (r.1, nr_shrunk, nr_skipped, true)
        else shrink_walk trylock locked retried nr_to_walk r.1 nr_shrunk nr_skipped
    end
  end.

(** [__es_shrink]: how many extents were reclaimed. *)
Definition __es_shrink (trylock : positive -> bool) (nr_to_scan : Z) (locked : option positive) : E Z :=
  s <- get_es ;;
  r <- shrink_walk trylock locked false (Z.to_nat (s_es_nr_inode s)) nr_to_scan 0 0 ;;
  let '(nr_to_scan, nr_shrunk, nr_skipped, out) := r in
  if out : bool then kret nr_shrunk
  else
    r <- (if (nr_shrunk =? 0) && negb (nr_skipped =? 0)
          then
            s <- get_es ;;
            shrink_walk trylock locked true (Z.to_nat (s_es_nr_inode s)) nr_to_scan nr_shrunk nr_skipped
          else kret r) ;;
    let '(nr_to_scan, nr_shrunk, _, out) := r in
    if out : bool then kret nr_shrunk
    else match locked with
    | Some i => if nr_shrunk =? 0 then r <- es_reclaim_extents i nr_to_scan ;; kret r.2 else kret nr_shrunk
    | None => kret nr_shrunk
    end.

(** [ext4_es_count] and [ext4_es_scan], the shrinker of the memory management, which asks with an [unsigned long] that becomes an [int]. *)
Definition percpu_counter_read_positive (n : Z) : Z := if n <? 0 then 0 else n.
Definition ext4_es_count : E Z := s <- get_es ;; kret (percpu_counter_read_positive (es_stats_shk_cnt s)).
Definition ext4_es_scan (trylock : positive -> bool) (nr_to_scan : Z) : E Z :=
  let nr_to_scan := s32 nr_to_scan in
  s <- get_es ;;
  let ret := s32 (percpu_counter_read_positive (es_stats_shk_cnt s)) in
  if nr_to_scan =? 0 then kret (u64 ret)
  else __es_shrink trylock nr_to_scan None.

(** The results of the two counter allocations and of [register_shrinker]. *)
Definition ext4_es_register_shrinker (all_err shk_err shrinker_err : Z) : E Z :=
  modify_es (fun s => s <| s_es_list := [] |> <| s_es_nr_inode := 0 |> <| es_stats_cache_hits := 0 |> <| es_stats_cache_misses := 0 |>) ;;;
  if negb (all_err =? 0) then kret all_err
  else
    modify_es (fun s => s <| es_stats_all_cnt := 0 |>) ;;;
    if negb (shk_err =? 0) then kret shk_err
    else
      modify_es (fun s => s <| es_stats_shk_cnt := 0 |>) ;;;
      kret shrinker_err.

(** ** Removal *)

(** The loop that erases the extents ending at or before [stop]; [l]: the extents from [es] on.  The first that stays. *)
Fixpoint erase_until (i : positive) (stop : Z) (l : list es_id) : E (option es_id) :=
  match l with
  | [] => kret None
  | n :: l =>
    e <- es_end i n ;;
    if e <=? stop then erase_free i n ;;; erase_until i stop l else kret (Some n)
  end.

Definition mapped_es (es : extent_status) : bool := ext4_es_is_written es || ext4_es_is_unwritten es.

(** The extent keeps its last [len] blocks, which start at [lblk]. *)
Definition cut_front (lblk len : Z) (es : extent_status) : extent_status :=
  let es' := es <| es_lblk := lblk |> <| es_len := len |> in
  if mapped_es es then ext4_es_store_pblock (u64 (es_pblk es + es_len es - len)) es' else es'.

Definition ES_DEADBEEF : Z := 549196775151.

(** [trylock]: as for [__es_shrink], per retry; [None] when [fuel] retries were not enough. *)
Fixpoint __es_remove_extent (trylock : nat -> positive -> bool) (fuel : nat) (i : positive) (lblk stop : Z) : E (option Z) :=
  found <- __es_tree_search i lblk ;;
  match found with
  | None => kret (Some 0)
  | Some n =>
    es <- read_es i n ;;
    if stop <? es_lblk es then kret (Some 0)
    else
      modify_ei i (fun x => x <| cache_es := None |>) ;;;
      e <- es_end i n ;;
      let len1 := if es_lblk es <? lblk then lblk - es_lblk es else 0 in
      let len2 := if stop <? e then e - stop else 0 in
      (if 0 <? len1 then modify_extent i n (fun es => es <| es_len := len1 |>) else kret tt) ;;;
      if 0 <? len2
      then
        if 0 <? len1
        then
          let block := if mapped_es es then u64 (ext4_es_pblock es + es_len es - len2) else ES_DEADBEEF in
          err <- __es_insert_extent i (mk_es (u32 (stop + 1)) len2 (pblock_status block (ext4_es_status es))) ;;
          if err =? 0 then kret (Some 0)
          else
            modify_extent i n (fun e => e <| es_lblk := es_lblk es |> <| es_len := es_len es |>) ;;;
            if err =? - ENOMEM
            then
              match fuel with
              | O => kret None
              | S fuel =>
                shrunk <- __es_shrink (trylock fuel) 128 (Some i) ;;
                if shrunk =? 0 then kret (Some err) else __es_remove_extent trylock fuel i lblk stop
              end
            else kret (Some err)
        else
          modify_extent i n (cut_front (u32 (stop + 1)) len2) ;;;
          kret (Some 0)
      else
        x <- read_ei i ;;
        let l := from_node n (inorder (root x)) in
        stays <- erase_until i stop (if 0 <? len1 then tail l else l) ;;
        match stays with
        | None => kret (Some 0)
        | Some n =>
          es <- read_es i n ;;
          (if es_lblk es <? u32 (stop + 1)
           then
             e <- es_end i n ;;
             modify_extent i n (cut_front (u32 (stop + 1)) (e - stop))
           else kret tt) ;;;
          kret (Some 0)
        end
  end.

Definition ext4_es_remove_extent (trylock : nat -> positive -> bool) (fuel : nat) (i : positive) (lblk len : Z) : E (option Z) :=
  if len =? 0 then kret (Some 0)
  else
    let stop := u32 (u32 (lblk + len) - 1) in
    j_assert (negb (stop <? lblk)) ;;;
    __es_remove_extent trylock fuel i lblk stop.

(** [retry:] of [ext4_es_insert_extent]. *)
Fixpoint insert_retry (trylock : nat -> positive -> bool) (fuel : nat) (i : positive) (newes : extent_status) : E (option Z) :=
  err <- __es_insert_extent i newes ;;
  if negb (err =? - ENOMEM) then kret (Some err)
  else match fuel with
  | O => kret None
  | S fuel =>
    shrunk <- __es_shrink (trylock fuel) 128 (Some i) ;;
    if negb (shrunk =? 0) then insert_retry trylock fuel i newes
    else kret (Some (if ext4_es_is_delayed newes then err else 0))
  end.

Definition ext4_es_insert_extent (trylock : nat -> positive -> bool) (fuel : nat) (i : positive) (lblk len pblk status : Z)
  : E (option Z) :=
  if len =? 0 then kret (Some 0)
  else
    let stop := u32 (u32 (lblk + len) - 1) in
    j_assert (negb (stop <? lblk)) ;;;
    err <- __es_remove_extent trylock fuel i lblk stop ;;
    match err with
    | None => kret None
    | Some err =>
      if negb (err =? 0) then kret (Some err)
      else insert_retry trylock fuel i (mk_es lblk len (pblock_status pblk status))
    end.

Definition ext4_es_cache_extent (i : positive) (lblk len pblk status : Z) : E unit :=
  if len =? 0 then kret tt
  else
    let stop := u32 (u32 (lblk + len) - 1) in
    j_assert (negb (stop <? lblk)) ;;;
    found <- __es_tree_search i lblk ;;
    free <- (match found with
             | None => kret true
             | Some n => es <- read_es i n ;; kret (stop <? es_lblk es)
             end) ;;
    if free : bool
    then __es_insert_extent i (mk_es lblk len (pblock_status pblk status)) ;;; kret tt
    else kret tt.
End Tree.

(** ** Lookup *)

(** The cached extent, if it covers [lblk]. *)
Definition cached (i : positive) (lblk : Z) : E (option es_id) :=
  x <- read_ei i ;;
  match cache_es x with
  | None => kret None
  | Some n => es <- read_es i n ;; kret (if in_range lblk (es_lblk es) (es_len es) then Some n else None)
  end.

(** The extent that covers [lblk]; it counts as referenced. *)
Definition ext4_es_lookup_extent (i : positive) (lblk : Z) : E (option extent_status) :=
  c <- cached i lblk ;;
  found <- (match c with
    | Some n => kret (Some n)
    | None =>
      x <- read_ei i ;;
      r <- search_down i lblk (root x) None ;;
      kret (match r with inl n => Some n | inr _ => None end)
    end) ;;
  match found with
  | Some n =>
    es <- read_es i n ;;
    (if ext4_es_is_referenced es then kret tt else modify_extent i n ext4_es_set_referenced) ;;;
    modify_es (fun s => s <| es_stats_cache_hits ::= Z.succ |>) ;;;
    kret (Some es)
  | None => modify_es (fun s => s <| es_stats_cache_misses ::= Z.succ |>) ;;; kret None
  end.

(** The walk to the next delayed extent that does not start after [stop]. *)
Fixpoint next_delayed (i : positive) (stop : Z) (l : list es_id) : E (option es_id) :=
  match l with
  | [] => kret None
  | n :: l =>
    es <- read_es i n ;;
    if stop <? es_lblk es then kret None
    else if ext4_es_is_delayed es then kret (Some n)
    else next_delayed i stop l
  end.

Definition ext4_es_find_delayed_extent_range (i : positive) (lblk stop : Z) : E extent_status :=
  j_assert (negb (stop <? lblk)) ;;;
  c <- cached i lblk ;;
  es1 <- (match c with Some n => kret (Some n) | None => __es_tree_search i lblk end) ;;
  x <- read_ei i ;;
  found <- (match es1 with
    | None => kret None
    | Some n =>
      es <- read_es i n ;;
      if ext4_es_is_delayed es then kret (Some n) else next_delayed i stop (tail (from_node n (inorder (root x))))
    end) ;;
  match found with
  | None => kret (mk_es 0 0 0)
  | Some n =>
    modify_ei i (fun x => x <| cache_es := Some n |>) ;;;
    read_es i n
  end.
