(* ===== verification/ExtentMap.v ===== *)
(** * The extents of a file as a map

    What the extents of ExtentStatus.v mean: the status of every logical block and the physical block behind it.  The
    fields packed into [es_pblk], lists of disjoint extents in order, and the effect on the map of changing, merging, adding
    and removing one extent. *)
From stdpp Require Import sorting.
From S2P Require Import Prelude Log ExtentStatus.

(** ** The fields of [es_pblk] *)

Lemma testbit_type es k : 0 <= k -> Z.testbit (ext4_es_type es) k = (k <? 4) && Z.testbit (es_pblk es) (k + 59).
Proof.
  intros Hk. unfold ext4_es_type, ES_TYPE_MASK, ES_SHIFT. rewrite Z.shiftr_spec, Z.land_spec, Z.shiftl_spec by lia.
  rewrite Z.testbit_ones by lia. replace (k + 59 - 59) with k by lia.
  rewrite (proj2 (Z.leb_le 0 k)) by lia. by rewrite andb_comm.
Qed.

Lemma testbit_block es k : 0 <= k -> Z.testbit (ext4_es_pblock es) k = (k <? 59) && Z.testbit (es_pblk es) k.
Proof.
  intros Hk. unfold ext4_es_pblock, ES_BLOCK_MASK. rewrite Z.land_spec, Z.testbit_ones by lia.
  rewrite (proj2 (Z.leb_le 0 k)) by lia. by rewrite andb_comm.
Qed.

Lemma pblock_mod es : ext4_es_pblock es = es_pblk es mod 2 ^ 59.
Proof. unfold ext4_es_pblock, ES_BLOCK_MASK. by rewrite Z.land_ones. Qed.

(** Extents with the same bits 59 to 62 have the same type. *)
Lemma same_type es es' :
  (forall k, 59 <= k < 63 -> Z.testbit (es_pblk es') k = Z.testbit (es_pblk es) k) -> ext4_es_type es' = ext4_es_type es.
Proof.
  intros Hb. apply Z.bits_inj'. intros k Hk. rewrite !testbit_type by lia.
  destruct (Z.ltb_spec k 4); cbn [andb]; [|done]. apply Hb. lia.
Qed.

Lemma same_block es es' :
  (forall k, 0 <= k < 59 -> Z.testbit (es_pblk es') k = Z.testbit (es_pblk es) k) -> ext4_es_pblock es' = ext4_es_pblock es.
Proof.
  intros Hb. apply Z.bits_inj'. intros k Hk. rewrite !testbit_block by lia.
  destruct (Z.ltb_spec k 59); cbn [andb]; [|done]. apply Hb. lia.
Qed.

Lemma testbit_referenced k : 0 <= k -> Z.testbit (Z.shiftl EXTENT_STATUS_REFERENCED ES_SHIFT) k = (k =? 63).
Proof.
  intros Hk. unfold EXTENT_STATUS_REFERENCED, ES_SHIFT. change (Z.shiftl 16 59) with (2 ^ 63).
  destruct (Z.eqb_spec k 63) as [->|Hne]; [done|]. apply Z.pow2_bits_false. lia.
Qed.

Lemma testbit_store pb es k : 0 <= k ->
  Z.testbit (es_pblk (ext4_es_store_pblock pb es)) k =
  if k <? 59 then Z.testbit pb k else (k <? 64) && Z.testbit (es_pblk es) k.
Proof.
  intros Hk. unfold ext4_es_store_pblock, ES_BLOCK_MASK, ES_MASK, ES_SHIFT. cbn.
  rewrite Z.lor_spec, !Z.land_spec, Z.shiftl_spec, !Z.testbit_ones by lia.
  rewrite (proj2 (Z.leb_le 0 k)) by lia. cbn [andb].
  destruct (Z.ltb_spec k 59).
  - rewrite (proj2 (Z.leb_gt 0 (k - 59))) by lia. cbn. by rewrite andb_true_r, andb_false_r, orb_false_r.
  - rewrite (proj2 (Z.leb_le 0 (k - 59))) by lia. cbn. rewrite andb_false_r. cbn.
    destruct (Z.ltb_spec k 64); destruct (Z.ltb_spec (k - 59) 5); try lia; by rewrite ?andb_true_r, ?andb_false_r.
Qed.

Lemma testbit_status pb status k : 0 <= k -> 0 <= status < 32 ->
  Z.testbit (pblock_status pb status) k = if k <? 59 then Z.testbit pb k else Z.testbit status (k - 59).
Proof.
  intros Hk Hs. unfold pblock_status, ES_BLOCK_MASK, ES_MASK, ES_SHIFT.
  rewrite Z.lor_spec, !Z.land_spec, !Z.shiftl_spec, !Z.testbit_ones by lia.
  rewrite (proj2 (Z.leb_le 0 k)) by lia. cbn [andb]. destruct (Z.ltb_spec k 59).
  - rewrite (proj2 (Z.leb_gt 0 (k - 59))) by lia. cbn. by rewrite andb_true_r, andb_false_r.
  - rewrite (proj2 (Z.leb_le 0 (k - 59))) by lia. cbn. rewrite andb_false_r, orb_false_r.
    destruct (Z.ltb_spec (k - 59) 5); [by rewrite andb_true_r|]. rewrite andb_false_r. symmetry.
    apply Z.bits_above_log2; [lia|]. destruct (decide (status = 0)) as [->|]; [cbn; lia|].
    assert (Z.log2 status < 5); [|lia]. apply Z.log2_lt_pow2; lia.
Qed.

Lemma is_u64_bits p : 0 <= p -> (forall k, 64 <= k -> Z.testbit p k = false) -> is_u64 p.
Proof.
  intros Hp Hb. split; [done|]. destruct (decide (p = 0)) as [->|]; [done|].
  change 18446744073709551616 with (2 ^ 64). apply Z.log2_lt_pow2; [lia|].
  destruct (Z.lt_ge_cases (Z.log2 p) 64) as [|Hge]; [done|]. pose proof (Hb _ Hge) as Hf.
  rewrite Z.bit_log2 in Hf by lia. done.
Qed.

(** The bits of a 64-bit number. *)
Lemma u64_bits p k : is_u64 p -> 64 <= k -> Z.testbit p k = false.
Proof.
  intros [Hp Hlt] Hk. apply Z.bits_above_log2; [done|]. destruct (decide (p = 0)) as [->|]; [cbn; lia|].
  assert (Z.log2 p < 64); [|lia]. apply Z.log2_lt_pow2; [lia|exact Hlt].
Qed.

(** ** Valid extents *)

Definition es_types : list Z := [1; 2; 4; 8; 6].

(** Written, unwritten, delayed, a hole, or unwritten and delayed; it ends below [EXT_MAX_BLOCKS], and a mapped
    one does not run out of block numbers. *)
Record valid (es : extent_status) : Prop := {
  v_lblk : 0 <= es_lblk es;
  v_len : 0 < es_len es;
  v_end : es_lblk es + es_len es <= EXT_MAX_BLOCKS;
  v_pblk : is_u64 (es_pblk es);
  v_type : ext4_es_type es ∈ es_types;
  v_phys : mapped_es es = true -> ext4_es_pblock es + es_len es <= 2 ^ 59;
}.

Definition covers (es : extent_status) (b : Z) : Prop := es_lblk es <= b < es_lblk es + es_len es.
#[export] Instance covers_dec es b : Decision (covers es b).
Proof. unfold covers. apply _. Defined.

(** What an extent says about a block: its type and, for a mapped one, the physical block. *)
Definition value (es : extent_status) (b : Z) : Z * option Z :=
  (ext4_es_type es, if mapped_es es then Some (ext4_es_pblock es + (b - es_lblk es)) else None).
Definition is_delayed_value (v : Z * option Z) : bool := negb (Z.land v.1 EXTENT_STATUS_DELAYED =? 0).

Lemma delayed_value es b : is_delayed_value (value es b) = ext4_es_is_delayed es.
Proof. done. Qed.

Lemma mapped_type es es' : ext4_es_type es' = ext4_es_type es -> mapped_es es' = mapped_es es.
Proof. unfold mapped_es, ext4_es_is_written, ext4_es_is_unwritten. by intros ->. Qed.
Lemma delayed_type es es' : ext4_es_type es' = ext4_es_type es -> ext4_es_is_delayed es' = ext4_es_is_delayed es.
Proof. unfold ext4_es_is_delayed. by intros ->. Qed.

Lemma pblock_range es : 0 <= ext4_es_pblock es < 2 ^ 59.
Proof. rewrite pblock_mod. apply Z.mod_pos_bound. lia. Qed.

Lemma valid_end es : valid es -> ext4_es_end es = Ret (es_lblk es + es_len es - 1).
Proof.
  intros []. unfold ext4_es_end, EXT_MAX_BLOCKS in *. rewrite (u32_id (es_lblk es + es_len es)), (u32_id (_ - 1)) by (unfold is_u32; lia).
  by rewrite (proj2 (Z.ltb_ge _ _)) by lia.
Qed.

Lemma valid_in_range es b : valid es -> in_range b (es_lblk es) (es_len es) = bool_decide (covers es b).
Proof.
  intros []. unfold in_range, covers, EXT_MAX_BLOCKS in *. rewrite (u32_id (es_lblk es + es_len es)), (u32_id (_ - 1)) by (unfold is_u32; lia).
  apply eq_true_iff_eq. rewrite bool_decide_eq_true, andb_true_iff, !Z.leb_le. lia.
Qed.

(** The same extent with other flags. *)
Lemma set_referenced_same es :
  valid es -> let es' := ext4_es_set_referenced es in
  valid es' /\ es_lblk es' = es_lblk es /\ es_len es' = es_len es /\ ext4_es_type es' = ext4_es_type es /\
  ext4_es_pblock es' = ext4_es_pblock es.
Proof.
  intros [Hl Hn He Hp Ht Hph] es'.
  assert (forall k, 0 <= k -> Z.testbit (es_pblk es') k = Z.testbit (es_pblk es) k || (k =? 63)) as Hbit
    by (intros k Hk; unfold es', ext4_es_set_referenced; cbn; by rewrite Z.lor_spec, testbit_referenced).
  assert (ext4_es_type es' = ext4_es_type es) as Ety.
  { apply same_type. intros k Hk. rewrite Hbit by lia. rewrite (proj2 (Z.eqb_neq _ _)) by lia. by rewrite orb_false_r. }
  assert (ext4_es_pblock es' = ext4_es_pblock es) as Eb.
  { apply same_block. intros k Hk. rewrite Hbit by lia. rewrite (proj2 (Z.eqb_neq _ _)) by lia. by rewrite orb_false_r. }
  split_and!; try done. split; try done; rewrite ?Ety, ?Eb, ?(mapped_type _ _ Ety); try done.
  apply is_u64_bits.
  - unfold es', ext4_es_set_referenced. cbn. apply Z.lor_nonneg. split; [apply Hp|done].
  - intros k Hk. rewrite Hbit, (u64_bits _ _ Hp) by lia. cbn. apply Z.eqb_neq. lia.
Qed.

Lemma clear_referenced_same es :
  valid es -> let es' := ext4_es_clear_referenced es in
  valid es' /\ es_lblk es' = es_lblk es /\ es_len es' = es_len es /\ ext4_es_type es' = ext4_es_type es /\
  ext4_es_pblock es' = ext4_es_pblock es.
Proof.
  intros [Hl Hn He Hp Ht Hph] es'.
  assert (forall k, 0 <= k -> Z.testbit (es_pblk es') k = Z.testbit (es_pblk es) k && negb (k =? 63)) as Hbit
    by (intros k Hk; unfold es', ext4_es_clear_referenced; cbn; by rewrite Z.ldiff_spec, testbit_referenced).
  assert (ext4_es_type es' = ext4_es_type es) as Ety.
  { apply same_type. intros k Hk. rewrite Hbit by lia. rewrite (proj2 (Z.eqb_neq _ _)) by lia. by rewrite andb_true_r. }
  assert (ext4_es_pblock es' = ext4_es_pblock es) as Eb.
  { apply same_block. intros k Hk. rewrite Hbit by lia. rewrite (proj2 (Z.eqb_neq _ _)) by lia. by rewrite andb_true_r. }
  split_and!; try done. split; try done; rewrite ?Ety, ?Eb, ?(mapped_type _ _ Ety); try done.
  apply is_u64_bits.
  - unfold es', ext4_es_clear_referenced. cbn. apply Z.ldiff_nonneg. left. apply Hp.
  - intros k Hk. rewrite Hbit, (u64_bits _ _ Hp) by lia. done.
Qed.

Lemma store_pblock_same pb es :
  is_u64 (es_pblk es) -> 0 <= pb -> let es' := ext4_es_store_pblock pb es in
  is_u64 (es_pblk es') /\ es_lblk es' = es_lblk es /\ es_len es' = es_len es /\ ext4_es_type es' = ext4_es_type es /\
  ext4_es_pblock es' = pb mod 2 ^ 59.
Proof.
  intros Hp Hpb es'. split_and!; try done.
  - apply is_u64_bits.
    + unfold es', ext4_es_store_pblock. cbn. apply Z.lor_nonneg. rewrite !Z.land_nonneg. split; left; [lia|apply Hp].
    + intros k Hk. unfold es'. rewrite testbit_store by lia. rewrite (proj2 (Z.ltb_ge k 59)), (proj2 (Z.ltb_ge k 64)) by lia. done.
  - apply same_type. intros k Hk. unfold es'. rewrite testbit_store by lia.
    rewrite (proj2 (Z.ltb_ge k 59)), (proj2 (Z.ltb_lt k 64)) by lia. done.
  - apply Z.bits_inj'. intros k Hk. rewrite testbit_block by lia. unfold es'. rewrite testbit_store by lia.
    destruct (Z.ltb_spec k 59); cbn [andb]; [by rewrite Z.mod_pow2_bits_low|by rewrite Z.mod_pow2_bits_high by lia].
Qed.

Lemma pblock_status_fields lblk len pb status :
  0 <= status < 32 -> 0 <= pb -> let es := mk_es lblk len (pblock_status pb status) in
  is_u64 (es_pblk es) /\ ext4_es_type es = status mod 16 /\ ext4_es_pblock es = pb mod 2 ^ 59.
Proof.
  intros Hs Hpb es. split_and!.
  - apply is_u64_bits; cbn [es_pblk].
    + unfold es, pblock_status. cbn. apply Z.lor_nonneg. rewrite !Z.land_nonneg. split; [right; done|left; lia].
    + intros k Hk. unfold es. cbn. rewrite testbit_status by lia. rewrite (proj2 (Z.ltb_ge k 59)) by lia.
      change (Z.testbit status (k - 59) = false). rewrite <-(Z.mod_small status (2 ^ 5)) by lia.
      apply Z.mod_pow2_bits_high. lia.
  - apply Z.bits_inj'. intros k Hk. rewrite testbit_type by lia. unfold es. cbn [es_pblk]. rewrite testbit_status by lia.
    change 16 with (2 ^ 4). destruct (Z.ltb_spec k 4); cbn [andb].
    + rewrite (proj2 (Z.ltb_ge (k + 59) 59)), Z.mod_pow2_bits_low by lia. f_equal. lia.
    + by rewrite Z.mod_pow2_bits_high by lia.
  - apply Z.bits_inj'. intros k Hk. rewrite testbit_block by lia. unfold es. cbn [es_pblk]. rewrite testbit_status by lia.
    destruct (Z.ltb_spec k 59); cbn [andb]; [by rewrite Z.mod_pow2_bits_low|by rewrite Z.mod_pow2_bits_high by lia].
Qed.

(** ** Merging *)

Lemma merge_sound es1 es2 :
  valid es1 -> valid es2 -> ext4_es_can_be_merged es1 es2 = true ->
  ext4_es_type es1 = ext4_es_type es2 /\ es_lblk es1 + es_len es1 = es_lblk es2 /\
  es_len es1 + es_len es2 <= EXT_MAX_BLOCKS /\ (mapped_es es1 = true -> ext4_es_pblock es1 + es_len es1 = ext4_es_pblock es2).
Proof.
  intros [? ? ? ? Ht1 Hp1] [? ? ? ? Ht2 Hp2]. unfold ext4_es_can_be_merged.
  destruct (Z.eqb_spec (ext4_es_type es1) (ext4_es_type es2)) as [Ety|]; cbn [negb]; [|done].
  destruct (Z.ltb_spec EXT_MAX_BLOCKS (es_len es1 + es_len es2)); [done|].
  destruct (Z.eqb_spec (es_lblk es1 + es_len es1) (es_lblk es2)); cbn [negb]; [|done].
  intros Hm. split_and!; try done. intros Hmap. pose proof (pblock_range es1). specialize (Hp1 Hmap).
  rewrite u64_id in Hm by (unfold is_u64; lia).
  destruct (Z.eqb_spec (ext4_es_pblock es1 + es_len es1) (ext4_es_pblock es2)); [done|]. exfalso.
  rewrite andb_false_r in Hm. unfold mapped_es, ext4_es_is_written, ext4_es_is_unwritten, ext4_es_is_hole, ext4_es_is_delayed in *.
  unfold es_types in Ht1. repeat (apply elem_of_cons in Ht1 as [Ht1|Ht1]; [rewrite Ht1 in *; vm_compute in Hm, Hmap; done|]).
  by apply elem_of_nil in Ht1.
Qed.

(** The extent that covers both, with the flags of either. *)
Lemma merged_valid es1 es2 es :
  valid es1 -> valid es2 -> ext4_es_can_be_merged es1 es2 = true ->
  es_lblk es = es_lblk es1 -> es_len es = u32 (es_len es1 + es_len es2) -> is_u64 (es_pblk es) ->
  ext4_es_type es = ext4_es_type es1 -> (mapped_es es1 = true -> ext4_es_pblock es = ext4_es_pblock es1) ->
  valid es /\ es_len es = es_len es1 + es_len es2 /\
  (forall b, covers es b <-> covers es1 b \/ covers es2 b) /\
  (forall b, covers es1 b -> value es b = value es1 b) /\ (forall b, covers es2 b -> value es b = value es2 b).
Proof.
  intros H1 H2 Hm El En Hp Et Eb. destruct (merge_sound es1 es2 H1 H2 Hm) as (Ety & Ec & Hs & Hph).
  destruct H1 as [? ? ? ? Ht1 Hp1], H2 as [? ? ? ? Ht2 Hp2]. unfold EXT_MAX_BLOCKS in *.
  rewrite u32_id in En by (unfold is_u32; lia).
  assert (mapped_es es = mapped_es es1) as Em by (by apply mapped_type).
  assert (mapped_es es2 = mapped_es es1) as Em2 by (by apply mapped_type).
  split_and!; try done.
  - split; unfold EXT_MAX_BLOCKS; rewrite ?Et, ?Em; try done; try lia. intros Hmp. rewrite Eb by done.
    rewrite Em2 in Hp2. specialize (Hp2 Hmp). specialize (Hph Hmp). lia.
  - intros b. unfold covers. lia.
  - intros b _. unfold value. rewrite Et, Em, El. destruct (mapped_es es1); [|done]. by rewrite Eb.
  - intros b _. unfold value. rewrite Et, Em, Em2, El, <-Ety. destruct (mapped_es es1); [|done]. rewrite Eb by done.
    do 2 f_equal. specialize (Hph eq_refl). lia.
Qed.

(** The extent without its front, and without its end. *)
Lemma cut_front_valid es lblk len :
  valid es -> es_lblk es <= lblk -> lblk + len = es_lblk es + es_len es -> 0 < len ->
  let es' := cut_front lblk len es in
  valid es' /\ es_lblk es' = lblk /\ es_len es' = len /\ ext4_es_type es' = ext4_es_type es /\
  (forall b, value es' b = value es b).
Proof.
  intros [Hl Hn He Hp Ht Hph] Hlb Hend Hlen es'. unfold EXT_MAX_BLOCKS in *.
  set (es1 := es <| es_lblk := lblk |> <| es_len := len |>).
  assert (es' = if mapped_es es then ext4_es_store_pblock (u64 (es_pblk es + es_len es - len)) es1 else es1) as He' by done.
  destruct (mapped_es es) eqn:Em.
  - destruct (store_pblock_same (u64 (es_pblk es + es_len es - len)) es1) as (Q1 & Q2 & Q3 & Q4 & Q5);
      [exact Hp|apply u64_range|]. rewrite <-He' in Q1, Q2, Q3, Q4, Q5.
    specialize (Hph eq_refl). pose proof (pblock_range es) as Hr.
    assert (ext4_es_pblock es' = ext4_es_pblock es + (es_len es - len)) as Epb.
    { rewrite Q5. unfold u64. change 18446744073709551616 with (2 ^ 59 * 32). rewrite Z.rem_mul_r by lia.
      rewrite (Z.mul_comm (2 ^ 59)), Z.mod_add, Z.mod_mod by lia.
      rewrite pblock_mod in *. rewrite (Z.div_mod (es_pblk es) (2 ^ 59)) at 1 by lia.
      replace (2 ^ 59 * (es_pblk es / 2 ^ 59) + es_pblk es mod 2 ^ 59 + es_len es - len)
        with (es_pblk es mod 2 ^ 59 + (es_len es - len) + es_pblk es / 2 ^ 59 * 2 ^ 59) by lia.
      rewrite Z.mod_add by lia. apply Z.mod_small. lia. }
    assert (mapped_es es' = true) as Em' by (rewrite <-Em; apply mapped_type; exact Q4).
    split_and!; [|exact Q2|exact Q3|exact Q4|].
    + split; unfold EXT_MAX_BLOCKS; rewrite ?Q2, ?Q3, ?Q4; try done; cbn; lia.
    + intros b. unfold value. rewrite Q4, Em, Em', Epb, Q2. cbn. do 2 f_equal. lia.
  - rewrite He'. assert (mapped_es es1 = false) as Em1 by (rewrite <-Em; by apply mapped_type).
    split_and!; try done.
    + split; unfold EXT_MAX_BLOCKS; try done; cbn; try lia. by rewrite Em1.
    + intros b. unfold value. by rewrite Em, Em1.
Qed.

Lemma cut_end_valid es len :
  valid es -> 0 < len <= es_len es -> let es' := es <| es_len := len |> in
  valid es' /\ ext4_es_type es' = ext4_es_type es /\ (forall b, value es' b = value es b).
Proof.
  intros [Hl Hn He Hp Ht Hph] Hlen es'. unfold EXT_MAX_BLOCKS in *. split_and!; try done.
  split; unfold EXT_MAX_BLOCKS; try done; cbn; try lia. intros Hm. specialize (Hph Hm). change (ext4_es_pblock es') with (ext4_es_pblock es). lia.
Qed.

(** A new extent. *)
Lemma new_valid lblk len pblk status :
  0 <= lblk -> 0 < len -> lblk + len <= EXT_MAX_BLOCKS -> 0 <= pblk -> 0 <= status < 32 -> status mod 16 ∈ es_types ->
  (status mod 16 ∈ [1; 2; 6] -> pblk + len <= 2 ^ 59) ->
  let es := mk_es lblk len (pblock_status pblk status) in
  valid es /\ ext4_es_type es = status mod 16 /\ ext4_es_is_delayed es = negb (Z.land (status mod 16) EXTENT_STATUS_DELAYED =? 0) /\
  (forall b, value es b = (status mod 16, if bool_decide (status mod 16 ∈ [1; 2; 6]) then Some (pblk + (b - lblk)) else None)).
Proof.
  intros Hl Hn He Hpb Hs Ht Hph es. destruct (pblock_status_fields lblk len pblk status Hs Hpb) as (Hp & Ety & Eb). fold es in Hp, Ety, Eb.
  assert (mapped_es es = bool_decide (status mod 16 ∈ [1; 2; 6])) as Em.
  { unfold mapped_es, ext4_es_is_written, ext4_es_is_unwritten. rewrite Ety. unfold es_types in Ht.
    repeat (apply elem_of_cons in Ht as [Ht|Ht]; [rewrite Ht; by vm_compute|]). by apply elem_of_nil in Ht. }
  assert (bool_decide (status mod 16 ∈ [1; 2; 6]) = true -> ext4_es_pblock es = pblk) as Eb'.
  { intros Hm%bool_decide_eq_true. rewrite Eb. specialize (Hph Hm). apply Z.mod_small. lia. }
  split_and!; try done.
  - split; try done; rewrite ?Ety; try done. rewrite Em. intros Hm. rewrite (Eb' Hm). apply bool_decide_eq_true in Hm. by apply Hph.
  - unfold ext4_es_is_delayed. by rewrite Ety.
  - intros b. unfold value. rewrite Ety, Em. destruct (bool_decide _) eqn:E; [|done]. by rewrite (Eb' eq_refl).
Qed.

(** ** Lists of disjoint extents *)

Definition before (h : gmap es_id extent_status) (n m : es_id) : Prop :=
  forall en em, h !! n = Some en -> h !! m = Some em -> es_lblk en + es_len en <= es_lblk em.

Record ok (h : gmap es_id extent_status) (l : list es_id) : Prop := {
  ok_valid n : n ∈ l -> exists es, h !! n = Some es /\ valid es;
  ok_sorted : StronglySorted (before h) l;
}.

(** The extents [l] say [v] about block [b]. *)
Definition says (h : gmap es_id extent_status) (l : list es_id) (b : Z) (v : Z * option Z) : Prop :=
  exists n es, n ∈ l /\ h !! n = Some es /\ covers es b /\ v = value es b.

Section Lists.
Implicit Types (h : gmap es_id extent_status) (l : list es_id).

Lemma sorted_pairs {A} (R : relation A) (l : list A) x y :
  StronglySorted R l -> x ∈ l -> y ∈ l -> x = y \/ R x y \/ R y x.
Proof.
  induction 1 as [|z l Hs IH Hf]; [by intros ?%elem_of_nil|]. rewrite Forall_forall in Hf.
  intros [->|Hx]%elem_of_cons [->|Hy]%elem_of_cons; auto.
Qed.

Lemma sorted_ext {A} (R R' : relation A) (l : list A) :
  (forall x y, x ∈ l -> y ∈ l -> R x y -> R' x y) -> StronglySorted R l -> StronglySorted R' l.
Proof.
  intros HR. induction 1 as [|z l Hs IH Hf]; constructor.
  - apply IH. intros x y Hx Hy. apply HR; by right.
  - rewrite Forall_forall in *. intros y Hy. apply HR; [by left|by right|auto].
Qed.

Lemma ok_nodup h l : ok h l -> NoDup l.
Proof.
  intros [Hv Hs]. induction Hs as [|n l Hs IH Hf]; constructor.
  - intros Hin. rewrite Forall_forall in Hf. destruct (Hv n) as (es & He & []); [by left|].
    pose proof (Hf n Hin es es He He). lia.
  - apply IH. intros m Hm. apply Hv. by right.
Qed.

Lemma ok_notin h l1 n l2 : ok h (l1 ++ n :: l2) -> n ∉ l1 ++ l2.
Proof.
  intros Hnd%ok_nodup. apply NoDup_app in Hnd as (_ & Hd & Hc%NoDup_cons). intros [Hm|Hm]%elem_of_app; [|by apply Hc].
  apply (Hd n Hm). by left.
Qed.

Lemma ok_before h l1 n l2 m en em :
  ok h (l1 ++ n :: l2) -> h !! n = Some en -> h !! m = Some em ->
  (m ∈ l1 -> es_lblk em + es_len em <= es_lblk en) /\ (m ∈ l2 -> es_lblk en + es_len en <= es_lblk em).
Proof.
  intros [_ Hs] Hn Hm. apply StronglySorted_app in Hs as (Hlr & _ & Hs2).
  apply StronglySorted_cons in Hs2 as [Hf _]. rewrite Forall_forall in Hf. split; intros Hin.
  - apply (Hlr m n Hin); [by left|done|done].
  - by apply (Hf m Hin).
Qed.

Lemma ok_sub h h' l l' :
  ok h l -> sublist l' l -> (forall n, n ∈ l' -> h' !! n = h !! n) -> ok h' l'.
Proof.
  intros [Hv Hs] Hsub Hh.
  assert (forall n, n ∈ l' -> n ∈ l) as Hin by (intros n Hn; by eapply elem_of_sublist).
  split.
  - intros n Hn. rewrite Hh by done. auto.
  - assert (StronglySorted (before h) l') as Hs'.
    { clear -Hs Hsub. induction Hsub as [|x l1 l2 Hsub IH|x l1 l2 Hsub IH]; [done|..];
        apply StronglySorted_cons in Hs as [Hf Hs]; [|auto].
      constructor; [auto|]. rewrite Forall_forall in *. intros y Hy. apply Hf. by eapply elem_of_sublist. }
    eapply sorted_ext; [|exact Hs']. intros x y Hx Hy Hb. unfold before. by rewrite !Hh.
Qed.

Lemma ok_delete h l1 n l2 : ok h (l1 ++ n :: l2) -> ok (delete n h) (l1 ++ l2).
Proof.
  intros Hok. eapply ok_sub; [done| |].
  - apply sublist_app; [done|]. by apply sublist_cons.
  - intros m Hm. apply lookup_delete_ne. intros <-. by apply ok_notin in Hok.
Qed.

Lemma ok_insert h l1 n l2 es :
  ok h (l1 ++ l2) -> n ∉ l1 ++ l2 -> valid es ->
  (forall m em, m ∈ l1 -> h !! m = Some em -> es_lblk em + es_len em <= es_lblk es) ->
  (forall m em, m ∈ l2 -> h !! m = Some em -> es_lblk es + es_len es <= es_lblk em) ->
  ok (<[n := es]> h) (l1 ++ n :: l2).
Proof.
  intros [Hv Hs] Hn Hes H1 H2.
  assert (forall m, m ∈ l1 ++ l2 -> <[n := es]> h !! m = h !! m) as Hh
    by (intros m Hm; apply lookup_insert_ne; by intros <-).
  assert (forall m, m ∈ l1 -> m ∈ l1 ++ l2) as Hin1 by (intros; apply elem_of_app; by left).
  assert (forall m, m ∈ l2 -> m ∈ l1 ++ l2) as Hin2 by (intros; apply elem_of_app; by right).
  split.
  - intros m Hm. destruct (decide (m = n)) as [->|Hne]; [exists es; by rewrite lookup_insert_eq|].
    assert (m ∈ l1 ++ l2) as Hm' by (apply elem_of_app in Hm as [|[|]%elem_of_cons]; [auto|done|auto]).
    rewrite Hh by done. auto.
  - apply StronglySorted_app in Hs as (Hlr & Hs1 & Hs2). apply StronglySorted_app. split_and!.
    + intros x y Hx [->|Hy]%elem_of_cons ex ey; rewrite (Hh x) by auto.
      * rewrite lookup_insert_eq. intros Hex [= <-]. eauto.
      * rewrite (Hh y) by auto. by apply Hlr.
    + eapply sorted_ext; [|exact Hs1]. intros x y Hx Hy Hb. unfold before. by rewrite !Hh by auto.
    + constructor.
      * eapply sorted_ext; [|exact Hs2]. intros x y Hx Hy Hb. unfold before. by rewrite !Hh by auto.
      * apply Forall_forall. intros y Hy ex ey. rewrite lookup_insert_eq, (Hh y) by auto. intros [= <-] Hey. eauto.
Qed.

Lemma ok_replace h l1 n l2 es :
  ok h (l1 ++ n :: l2) -> valid es ->
  (forall m em, m ∈ l1 -> h !! m = Some em -> es_lblk em + es_len em <= es_lblk es) ->
  (forall m em, m ∈ l2 -> h !! m = Some em -> es_lblk es + es_len es <= es_lblk em) ->
  ok (<[n := es]> h) (l1 ++ n :: l2).
Proof.
  intros Hok Hes H1 H2. pose proof (ok_notin _ _ _ _ Hok) as Hn.
  rewrite <-(insert_delete_eq h n es). apply ok_insert; [by apply ok_delete|done|done|..];
    intros m em Hm; rewrite lookup_delete_ne by (intros <-; apply Hn; apply elem_of_app; auto); eauto.
Qed.

(** *** What the lists say *)

Lemma says_unique h l b v v' : ok h l -> says h l b v -> says h l b v' -> v = v'.
Proof.
  intros [_ Hs] (n & es & Hn & He & Hc & ->) (m & es' & Hm & He' & Hc' & ->).
  destruct (sorted_pairs _ _ _ _ Hs Hn Hm) as [->|[Hb|Hb]]; [congruence|..]; exfalso; unfold covers in *.
  - pose proof (Hb _ _ He He'). lia.
  - pose proof (Hb _ _ He' He). lia.
Qed.

Lemma says_insert h l1 n l2 es b v :
  n ∉ l1 ++ l2 -> says (<[n := es]> h) (l1 ++ n :: l2) b v <-> (covers es b /\ v = value es b) \/ says h (l1 ++ l2) b v.
Proof.
  intros Hn. split.
  - intros (m & em & Hm & He & Hc & ->). apply lookup_insert_Some in He as [[<- <-]|[Hne He]]; [by left|].
    right. exists m, em. split_and!; try done. apply elem_of_app in Hm as [|[|]%elem_of_cons]; [..|done|]; apply elem_of_app; auto.
  - intros [[Hc ->]|(m & em & Hm & He & Hc & ->)].
    + exists n, es. rewrite lookup_insert_eq. split_and!; try done. apply elem_of_app. right. by left.
    + exists m, em. rewrite lookup_insert_ne by (by intros <-). split_and!; try done.
      apply elem_of_app in Hm as [|]; apply elem_of_app; [by left|right; by right].
Qed.

Lemma says_delete h l1 n l2 es b v :
  ok h (l1 ++ n :: l2) -> h !! n = Some es ->
  says (delete n h) (l1 ++ l2) b v <-> says h (l1 ++ n :: l2) b v /\ ~ covers es b.
Proof.
  intros Hok Hn.
  assert (forall m, m ∈ l1 ++ l2 -> m ∈ l1 ++ n :: l2) as Hin
    by (intros m [|]%elem_of_app; apply elem_of_app; [by left|right; by right]).
  split.
  - intros (m & em & Hm & [Hne He]%lookup_delete_Some & Hc & ->). split; [exists m, em; by auto|].
    intros Hc'. assert (m = n); [|done].
    destruct (sorted_pairs _ _ m n (ok_sorted _ _ Hok)) as [|[Hb|Hb]]; [auto|apply elem_of_app; right; by left|done|..];
      exfalso; unfold covers in *; [pose proof (Hb _ _ He Hn)|pose proof (Hb _ _ Hn He)]; lia.
  - intros [(m & em & Hm & He & Hc & ->) Hnc]. assert (m <> n) as Hne by (intros ->; naive_solver).
    exists m, em. rewrite lookup_delete_ne by done. split_and!; try done.
    apply elem_of_app in Hm as [|[|]%elem_of_cons]; [..|done|]; apply elem_of_app; auto.
Qed.

Lemma says_replace h l1 n l2 es es' b v :
  ok h (l1 ++ n :: l2) -> h !! n = Some es ->
  says (<[n := es']> h) (l1 ++ n :: l2) b v <->
  (covers es' b /\ v = value es' b) \/ (says h (l1 ++ n :: l2) b v /\ ~ covers es b).
Proof.
  intros Hok Hn. rewrite <-(insert_delete_eq h n es'), says_insert by (by eapply ok_notin).
  by rewrite (says_delete _ _ _ _ es).
Qed.

Lemma says_self h l n es b : n ∈ l -> h !! n = Some es -> covers es b -> says h l b (value es b).
Proof. intros. by exists n, es. Qed.
End Lists.

(** The map of an inode. *)
Definition es_at (x : es_inode) (b : Z) : option (Z * option Z) :=
  head (omap (fun n => es ← extents x !! n; if decide (covers es b) then Some (value es b) else None) (inorder (root x))).

Lemma es_at_says x b v : ok (extents x) (inorder (root x)) -> es_at x b = Some v <-> says (extents x) (inorder (root x)) b v.
Proof.
  intros Hok. unfold es_at.
  assert (forall v, v ∈ omap (fun n => es ← extents x !! n; if decide (covers es b) then Some (value es b) else None) (inorder (root x))
    <-> says (extents x) (inorder (root x)) b v) as Hin.
  { intros w. rewrite list_elem_of_omap. split.
    - intros (n & Hn & He). apply bind_Some in He as (es & He & Hd). case_decide; [|done]. injection Hd as <-. by exists n, es.
    - intros (n & es & Hn & He & Hc & ->). exists n. split; [done|]. rewrite He. cbn. by rewrite decide_True. }
  destruct (omap _ _) as [|w ws] eqn:E; cbn; split; try done.
  - intros Hs%Hin. by apply elem_of_nil in Hs.
  - intros [= <-]. apply Hin. by left.
  - intros Hs. f_equal. eapply says_unique; [done| |done]. apply Hin. by left.
Qed.

(** Maps are equal when the lists say the same. *)
Lemma es_at_none x b : ok (extents x) (inorder (root x)) -> es_at x b = None <-> forall v, ~ says (extents x) (inorder (root x)) b v.
Proof.
  intros Hok. split.
  - intros He v Hs%es_at_says; [congruence|done].
  - intros Hn. destruct (es_at x b) as [v|] eqn:E; [|done]. apply es_at_says in E; [|done]. by destruct (Hn v).
Qed.
