(* ===== verification/ExtentTree.v ===== *)
(** * The extent status tree is a map

    The operations of ExtentStatus.v keep an ordered tree of disjoint extents with exact counts, and act on the
    map of ExtentMap.v as their names say, whatever the allocator and the shrinker do. *)
From stdpp Require Import sorting.
From S2P Require Import Prelude Log ExtentStatus ExtentMap.

(** ** Rules *)

Section Rules.
Implicit Types s : es_state.

Lemma wp_read_ei i x (Q : es_inode -> es_state -> Prop) s : es_inodes s !! i = Some x -> Q x s -> wp (read_ei i) Q s.
Proof. unfold wp, read_ei. by intros ->. Qed.
Lemma wp_modify_ei i x f (Q : unit -> es_state -> Prop) s :
  es_inodes s !! i = Some x -> Q tt (s <| es_inodes ::= <[i := f x]> |>) -> wp (modify_ei i f) Q s.
Proof. unfold wp, modify_ei. by intros ->. Qed.
Lemma wp_read_es i x n es (Q : extent_status -> es_state -> Prop) s :
  es_inodes s !! i = Some x -> extents x !! n = Some es -> Q es s -> wp (read_es i n) Q s.
Proof. unfold wp, read_es. intros -> Hn. cbn. by rewrite Hn. Qed.
Lemma wp_es_end i x n es (Q : Z -> es_state -> Prop) s :
  es_inodes s !! i = Some x -> extents x !! n = Some es -> valid es -> Q (es_lblk es + es_len es - 1) s -> wp (es_end i n) Q s.
Proof. unfold wp, es_end. intros -> Hn Hv. cbn. by rewrite Hn, (valid_end _ Hv). Qed.
Lemma wp_modify_extent i x n es f (Q : unit -> es_state -> Prop) s :
  es_inodes s !! i = Some x -> extents x !! n = Some es ->
  Q tt (s <| es_inodes ::= <[i := x <| extents ::= <[n := f es]> |>]> |>) -> wp (modify_extent i n f) Q s.
Proof. intros Hi Hn HQ. unfold modify_extent. apply wp_bind. eapply wp_read_es; [done..|]. by eapply wp_modify_ei. Qed.
Lemma wp_get_es (Q : es_state -> es_state -> Prop) s : Q s s -> wp get_es Q s.
Proof. done. Qed.
Lemma wp_modify_es f (Q : unit -> es_state -> Prop) s : Q tt (f s) -> wp (modify_es f) Q s.
Proof. done. Qed.
End Rules.

Ltac es_look := cbn [es_inodes extents field_update eta eta_es_state eta_es_inode]; rewrite ?lookup_insert_eq; first [reflexivity|eassumption].
Ltac es_step :=
  lazymatch goal with
  | |- wp (kbind _ _) _ _ => apply wp_bind
  | |- wp (kret _) _ _ => apply wp_ret
  | |- wp (read_ei _) _ _ => eapply wp_read_ei; [es_look|]
  | |- wp (modify_ei _ _) _ _ => eapply wp_modify_ei; [es_look|]
  | |- wp (read_es _ _) _ _ => eapply wp_read_es; [es_look|es_look|]
  | |- wp (es_end _ _) _ _ => eapply wp_es_end; [es_look|es_look|eassumption|]
  | |- wp (modify_extent _ _ _) _ _ => eapply wp_modify_extent; [es_look|es_look|]
  | |- wp get_es _ _ => apply wp_get_es
  | |- wp (modify_es _) _ _ => apply wp_modify_es
  | |- wp (j_assert _) _ _ => apply wp_assert
  end.

(** ** Counts *)

Definition total (f : es_inode -> Z) (m : gmap positive es_inode) : Z := map_fold (fun _ x n => f x + n) 0 m.

Lemma total_new f m i x : m !! i = None -> total f (<[i := x]> m) = f x + total f m.
Proof. intros Hi. unfold total. rewrite map_fold_insert_L; [done|lia|done]. Qed.

Lemma total_set f m i x x' : m !! i = Some x -> total f (<[i := x']> m) = total f m - f x + f x'.
Proof.
  intros Hi. rewrite <-(insert_delete_id m i x Hi) at 2. rewrite <-(insert_delete_eq m i x').
  rewrite !total_new by apply lookup_delete_eq. lia.
Qed.

Lemma total_pos f m : (forall i x, m !! i = Some x -> 0 <= f x) -> 0 <= total f m.
Proof.
  induction m as [|i x m Hi IH] using map_ind; intros Hf; [done|]. rewrite total_new by done.
  pose proof (Hf i x (lookup_insert_eq _ _ _)). assert (0 <= total f m); [|lia]. apply IH. intros j y Hj. apply (Hf j).
  rewrite lookup_insert_ne; [done|]. by intros <-; congruence.
Qed.

Lemma total_ext f g m : (forall i x, m !! i = Some x -> f x = g x) -> total f m = total g m.
Proof.
  induction m as [|i x m Hi IH] using map_ind; intros Hf; [done|]. rewrite !total_new by done.
  rewrite (Hf i x (lookup_insert_eq _ _ _)), IH; [done|]. intros j y Hj. apply (Hf j). rewrite lookup_insert_ne; [done|]. by intros <-; congruence.
Qed.

(** An extent the shrinker may take. *)
Definition reclaimable (h : gmap es_id extent_status) (n : es_id) : bool :=
  match h !! n with Some es => negb (ext4_es_is_delayed es) | None => false end.
Definition count_shk (h : gmap es_id extent_status) (l : list es_id) : Z :=
  Z.of_nat (length (filter (fun n => reclaimable h n = true) l)).

Record counted (x : es_inode) : Prop := {
  ct_nodup : NoDup (inorder (root x));
  ct_dom n : is_Some (extents x !! n) <-> n ∈ inorder (root x);
  ct_bound : Z.of_nat (length (inorder (root x))) < 4294967296;
  ct_all : i_es_all_nr x = Z.of_nat (length (inorder (root x)));
  ct_shk : i_es_shk_nr x = count_shk (extents x) (inorder (root x));
}.

(** The counters of all inodes and of the file system, and [s_es_list]. *)
Record es_counts (s : es_state) : Prop := {
  ec_inode i x : es_inodes s !! i = Some x -> counted x;
  ec_list i x : es_inodes s !! i = Some x -> (i ∈ s_es_list s <-> i_es_shk_nr x <> 0);
  ec_live i : i ∈ s_es_list s -> is_Some (es_inodes s !! i);
  ec_nodup : NoDup (s_es_list s);
  ec_nr : s_es_nr_inode s = Z.of_nat (length (s_es_list s));
  ec_all : es_stats_all_cnt s = total i_es_all_nr (es_inodes s);
  ec_shk : es_stats_shk_cnt s = total i_es_shk_nr (es_inodes s);
}.

(** The counter of all extents is the number of nodes. *)
Lemma es_count_nodes s : es_counts s -> es_stats_all_cnt s = total (fun x => Z.of_nat (length (inorder (root x)))) (es_inodes s).
Proof. intros Hc. rewrite (ec_all _ Hc). apply total_ext. intros i x Hi. apply (ct_all _ (ec_inode _ Hc _ _ Hi)). Qed.

Lemma all_cnt_pos s : es_counts s -> 0 <= es_stats_all_cnt s.
Proof. intros Hc. rewrite (ec_all _ Hc). apply total_pos. intros i x Hi. rewrite (ct_all _ (ec_inode _ Hc _ _ Hi)). lia. Qed.

Lemma count_shk_app h l1 l2 : count_shk h (l1 ++ l2) = count_shk h l1 + count_shk h l2.
Proof. unfold count_shk. rewrite filter_app, length_app. lia. Qed.

Lemma count_shk_cons h n l : count_shk h (n :: l) = (if reclaimable h n then 1 else 0) + count_shk h l.
Proof. unfold count_shk. rewrite filter_cons. destruct (reclaimable h n); [rewrite decide_True by done; cbn; lia|by rewrite decide_False]. Qed.

Lemma count_shk_ext h h' l : (forall n, n ∈ l -> reclaimable h' n = reclaimable h n) -> count_shk h' l = count_shk h l.
Proof.
  induction l as [|n l IH]; intros Hn; [done|]. rewrite !count_shk_cons, IH by (intros; apply Hn; by right).
  by rewrite Hn by (by left).
Qed.

Lemma count_shk_bound h l : 0 <= count_shk h l <= Z.of_nat (length l).
Proof. unfold count_shk. pose proof (length_filter (fun n => reclaimable h n = true) l). lia. Qed.

(** Changing one inode without changing what is counted. *)
Lemma es_counts_set s i x x' :
  es_counts s -> es_inodes s !! i = Some x -> counted x' -> i_es_all_nr x' = i_es_all_nr x -> i_es_shk_nr x' = i_es_shk_nr x ->
  es_counts (s <| es_inodes ::= <[i := x']> |>).
Proof.
  intros [H1 H2 H3 H4 H5 H6 H7] Hi Hx Ha Hs. split; cbn; try done.
  - intros j y [[<- <-]|[Hne Hj]]%lookup_insert_Some; [done|eauto].
  - intros j y [[<- <-]|[Hne Hj]]%lookup_insert_Some; [|eauto]. rewrite Hs. eauto.
  - intros j Hj. apply lookup_insert_is_Some'. right. auto.
  - rewrite (total_set _ _ _ x) by done. lia.
  - rewrite (total_set _ _ _ x) by done. lia.
Qed.

(** Changing an extent without changing whether it is delayed. *)
Lemma counted_extent x n es es' :
  counted x -> extents x !! n = Some es -> ext4_es_is_delayed es' = ext4_es_is_delayed es ->
  counted (x <| extents ::= <[n := es']> |>).
Proof.
  intros [H1 H2 H3 H4 H5] Hn Hd. split; cbn; try done.
  - intros m. rewrite lookup_insert_is_Some'. rewrite <-H2. split; [intros [<-|]; by eauto|auto].
  - rewrite H5. symmetry. apply count_shk_ext. intros m _. unfold reclaimable.
    destruct (decide (m = n)) as [->|Hne]; [by rewrite lookup_insert_eq, Hn, Hd|by rewrite lookup_insert_ne].
Qed.

Lemma ok_length h n l es : ok h (n :: l) -> h !! n = Some es -> es_lblk es + Z.of_nat (length (n :: l)) <= EXT_MAX_BLOCKS.
Proof.
  revert n es. induction l as [|m l IH]; intros n es Hok Hn.
  - destruct (ok_valid _ _ Hok n) as (es' & He & []); [by left|]. simplify_eq. cbn. lia.
  - destruct (ok_valid _ _ Hok n) as (es' & He & []); [by left|]. simplify_eq.
    destruct (ok_valid _ _ Hok m) as (em & Hm & _); [right; by left|].
    destruct (ok_before h [] n (m :: l) m es em Hok Hn Hm) as [_ Hb]. specialize (Hb (list_elem_of_here _ _)).
    assert (ok h (m :: l)) as Hok' by (eapply ok_sub; [exact Hok|by apply sublist_cons|done]).
    pose proof (IH m em Hok' Hm). cbn [length] in *. lia.
Qed.

Lemma ok_bound h l : ok h l -> Z.of_nat (length l) < 4294967296.
Proof.
  intros Hok. destruct l as [|n l]; [done|]. destruct (ok_valid _ _ Hok n) as (es & He & []); [by left|].
  pose proof (ok_length _ _ _ _ Hok He). unfold EXT_MAX_BLOCKS in *. lia.
Qed.

(** ** Erasing and adding *)

(** What an operation on inode [i] does to the rest of the file system. *)
Record only_inode (i : positive) (s s' : es_state) : Prop := {
  oi_others j : j <> i -> es_inodes s' !! j = es_inodes s !! j;
}.

#[export] Instance only_inode_preorder i : PreOrder (only_inode i).
Proof. split; [done|]. intros s1 s2 s3 [H1] [H2]. split. intros j Hj. by rewrite H2, H1. Qed.

Lemma only_inode_set i s x : only_inode i s (s <| es_inodes ::= <[i := x]> |>).
Proof. split. intros j Hj. cbn. by rewrite lookup_insert_ne. Qed.

Section Erase.
Context `{Rebalance}.

Lemma filter_ne_split n (l1 l2 : list es_id) : n ∉ l1 ++ l2 -> filter (fun m => m <> n) (l1 ++ n :: l2) = l1 ++ l2.
Proof.
  intros Hn. rewrite filter_app, filter_cons, decide_False by (by intros ?).
  assert (forall l : list es_id, n ∉ l -> filter (fun m => m <> n) l = l) as Hid.
  { clear. induction l as [|m l IH]; intros Hl; [done|]. apply not_elem_of_cons in Hl as [H1 H2].
    by rewrite filter_cons, decide_True, IH by (done || by intros ->). }
  rewrite !Hid; [done|..]; intros Hin; apply Hn, elem_of_app; auto.
Qed.

Lemma filter_ne_length n (l : list positive) :
  NoDup l -> n ∈ l -> Z.of_nat (length (filter (fun m => m <> n) l)) = Z.pred (Z.of_nat (length l)).
Proof.
  intros Hnd (l1 & l2 & ->)%list_elem_of_split. apply NoDup_app in Hnd as (_ & Hd & [Hn _]%NoDup_cons).
  rewrite filter_ne_split; [rewrite !length_app; cbn; lia|]. intros [Hm|Hm]%elem_of_app; [|done].
  apply (Hd n Hm). by left.
Qed.

Lemma nodup_split n (l1 l2 : list es_id) : NoDup (l1 ++ n :: l2) -> n ∉ l1 ++ l2 /\ NoDup (l1 ++ l2).
Proof.
  intros (N1 & Hd & [Hn N2]%NoDup_cons)%NoDup_app. split.
  - intros [Hm|Hm]%elem_of_app; [|done]. apply (Hd n Hm). by left.
  - apply NoDup_app. split_and!; [done| |done]. intros m Hm Hm'. apply (Hd m Hm). by right.
Qed.

(** The inode after one of its extents was erased and freed. *)
Definition erased (x : es_inode) (n : es_id) (es : extent_status) : es_inode :=
  x <| root ::= rb_erase n |> <| extents ::= delete n |> <| i_es_all_nr := i_es_all_nr x - 1 |>
    <| i_es_shk_nr := i_es_shk_nr x - (if ext4_es_is_delayed es then 0 else 1) |>.

Lemma erased_counted x l1 n l2 es :
  counted x -> inorder (root x) = l1 ++ n :: l2 -> extents x !! n = Some es ->
  counted (erased x n es) /\ inorder (root (erased x n es)) = l1 ++ l2.
Proof.
  intros [H1 H2 H3 H4 H5] Hl Hn. rewrite Hl in *. destruct (nodup_split _ _ _ H1) as [Hni Hnd].
  assert (inorder (root (erased x n es)) = l1 ++ l2) as El by (cbn; by rewrite rb_erase_order, Hl, filter_ne_split).
  split; [|done]. split; rewrite ?El; try done.
  - intros m. cbn. rewrite lookup_delete_is_Some, H2. clear -Hni. rewrite !elem_of_app, elem_of_cons in *. naive_solver.
  - rewrite !length_app in *. cbn in H3. lia.
  - cbn. rewrite H4, !length_app. cbn. lia.
  - cbn. rewrite H5, !count_shk_app, count_shk_cons.
    assert (forall l, n ∉ l -> count_shk (delete n (extents x)) l = count_shk (extents x) l) as Hc.
    { intros l Hl'. apply count_shk_ext. intros m Hm. unfold reclaimable. by rewrite lookup_delete_ne by (by intros <-). }
    rewrite !Hc by (intros ?; apply Hni, elem_of_app; auto). unfold reclaimable. rewrite Hn.
    destruct (ext4_es_is_delayed es); cbn; lia.
Qed.

(** The counters of the file system follow. *)
Lemma es_counts_move s i x x' (lst : list positive) da ds :
  es_counts s -> es_inodes s !! i = Some x -> counted x' ->
  i_es_all_nr x' = i_es_all_nr x + da -> i_es_shk_nr x' = i_es_shk_nr x + ds ->
  (forall j, j ∈ lst <-> if decide (j = i) then i_es_shk_nr x' <> 0 else j ∈ s_es_list s) -> NoDup lst ->
  es_counts (s <| es_inodes ::= <[i := x']> |> <| s_es_list := lst |> <| s_es_nr_inode := Z.of_nat (length lst) |>
               <| es_stats_all_cnt := es_stats_all_cnt s + da |> <| es_stats_shk_cnt := es_stats_shk_cnt s + ds |>).
Proof.
  intros [H1 H2 H3 H4 H5 H6 H7] Hi Hx Ha Hs Hl Hnd. split; cbn; try done.
  - intros j y [[<- <-]|[Hne Hj]]%lookup_insert_Some; [done|eauto].
  - intros j y [[<- <-]|[Hne Hj]]%lookup_insert_Some; rewrite Hl; [by rewrite decide_True|].
    rewrite decide_False by done. eauto.
  - intros j Hj. apply lookup_insert_is_Some'. apply Hl in Hj. case_decide; [by left|right; auto].
  - rewrite (total_set _ _ _ x) by done. lia.
  - rewrite (total_set _ _ _ x) by done. lia.
Qed.

Lemma erase_free_spec s i x l1 n l2 es :
  es_counts s -> es_inodes s !! i = Some x -> inorder (root x) = l1 ++ n :: l2 -> extents x !! n = Some es ->
  wp (erase_free i n)
    (fun _ s' => es_counts s' /\ es_inodes s' = <[i := erased x n es]> (es_inodes s) /\ allocs s' = allocs s) s.
Proof.
  intros Hc Hi Hl Hn. pose proof (ec_inode _ Hc _ _ Hi) as Hx. pose proof Hx as [C1 C2 C3 C4 C5].
  destruct (erased_counted x l1 n l2 es Hx Hl Hn) as [Hx' El].
  assert (0 < i_es_all_nr x) as Hpos by (rewrite C4, Hl, length_app; cbn; lia).
  assert (ext4_es_is_delayed es = false -> 0 < i_es_shk_nr x) as Hpos2.
  { intros Hd. rewrite C5, Hl, count_shk_app, count_shk_cons. unfold reclaimable at 1. rewrite Hn, Hd. cbn.
    pose proof (count_shk_bound (extents x) l1). pose proof (count_shk_bound (extents x) l2). lia. }
  pose proof (count_shk_bound (extents x) (inorder (root x))) as Hsb. rewrite <-C5 in Hsb.
  set (ds := if ext4_es_is_delayed es then 0 else -1).
  set (lst := if ext4_es_is_delayed es then s_es_list s
              else if i_es_shk_nr x - 1 =? 0 then filter (fun j => j <> i) (s_es_list s) else s_es_list s).
  assert (erase_free i n s = Ret (tt, s <| es_inodes ::= <[i := erased x n es]> |> <| s_es_list := lst |>
    <| s_es_nr_inode := Z.of_nat (length lst) |> <| es_stats_all_cnt := es_stats_all_cnt s + -1 |>
    <| es_stats_shk_cnt := es_stats_shk_cnt s + ds |>)) as Hrun.
  { pose proof (ec_nr _ Hc) as Hnr. pose proof (ec_list _ Hc _ _ Hi) as Hlist. pose proof (ec_nodup _ Hc) as Hnd.
    unfold erase_free, ext4_es_free_extent, modify_ei, read_ei, read_es, modify_es, kbind, kret, ext4_es_list_del, modify_es.
    destruct s as [ino sl nr all shk hits miss al]. cbn in *. rewrite Hi. cbn. rewrite lookup_insert_eq. cbn. rewrite Hn.
    cbn. rewrite lookup_insert_eq. cbn. rewrite (u32_id (i_es_all_nr x - 1)) by (unfold is_u32; lia).
    destruct (ext4_es_is_delayed es) eqn:Hd; cbn.
    - rewrite lookup_insert_eq. cbn. rewrite !insert_insert_eq. unfold lst, ds, erased. rewrite Hd. cbn.
      by rewrite Z.sub_0_r, Z.add_0_r, Hnr.
    - specialize (Hpos2 eq_refl). rewrite lookup_insert_eq. cbn. rewrite (proj2 (Z.eqb_neq _ _)) by lia. cbn.
      rewrite lookup_insert_eq. cbn. rewrite (u32_id (i_es_shk_nr x - 1)) by (unfold is_u32; lia).
      unfold lst, ds, erased. rewrite Hd. cbn. destruct (i_es_shk_nr x - 1 =? 0); cbn.
      + rewrite bool_decide_true by (apply Hlist; lia). cbn. rewrite lookup_insert_eq. cbn. rewrite !insert_insert_eq.
        do 3 f_equal. rewrite Hnr. symmetry. apply filter_ne_length; [done|]. apply Hlist. lia.
      + rewrite lookup_insert_eq. cbn. rewrite !insert_insert_eq. by rewrite Hnr. }
  unfold wp. rewrite Hrun. split; [|done]. apply (es_counts_move s i x); try done.
  - cbn. unfold ds. destruct (ext4_es_is_delayed es); lia.
  - pose proof (ec_list _ Hc _ _ Hi) as Hlist. intros j. unfold lst. cbn. unfold erased. destruct (ext4_es_is_delayed es) eqn:Hd; cbn.
    + case_decide as Hj; [subst j|done]. rewrite Hlist. by rewrite Z.sub_0_r.
    + specialize (Hpos2 eq_refl). destruct (Z.eqb_spec (i_es_shk_nr x - 1) 0) as [E|E].
      * rewrite list_elem_of_filter. case_decide as Hj; [subst j; naive_solver|naive_solver].
      * case_decide as Hj; [subst j|done]. rewrite Hlist. lia.
  - unfold lst. repeat case_match; try apply Hc. apply NoDup_filter, Hc.
Qed.

(** The inode after an extent was allocated and linked. *)
Definition added (x : es_inode) (n : es_id) (es : extent_status) (path : list bool) : es_inode :=
  x <| root ::= fun t => rb_insert_color (rb_link_node n path t) |> <| extents ::= <[n := es]> |>
    <| i_es_all_nr := i_es_all_nr x + 1 |>
    <| i_es_shk_nr := i_es_shk_nr x + (if ext4_es_is_delayed es then 0 else 1) |>.

Lemma added_counted x l1 n l2 es path :
  counted x -> inorder (root x) = l1 ++ l2 -> inorder (rb_link_node n path (root x)) = l1 ++ n :: l2 ->
  extents x !! n = None -> Z.of_nat (length (l1 ++ n :: l2)) < 4294967296 ->
  counted (added x n es path) /\ inorder (root (added x n es path)) = l1 ++ n :: l2.
Proof.
  intros [H1 H2 H3 H4 H5] Hl Hl' Hn Hb. rewrite Hl in *.
  assert (n ∉ l1 ++ l2) as Hni by (intros Hin%H2; rewrite Hn in Hin; by destruct Hin).
  assert (inorder (root (added x n es path)) = l1 ++ n :: l2) as El by (cbn; by rewrite rb_insert_color_order).
  split; [|done]. split; rewrite ?El; try done.
  - apply NoDup_app in H1 as (N1 & Hd & N2). apply not_elem_of_app in Hni as [Hn1 Hn2]. apply NoDup_app. split_and!; [done| |].
    + intros m Hm [->|Hm']%elem_of_cons; [done|]. by apply (Hd m).
    + by constructor.
  - intros m. cbn. rewrite lookup_insert_is_Some', H2, !elem_of_app, elem_of_cons. naive_solver.
  - cbn. rewrite H4, !length_app. cbn. lia.
  - cbn. rewrite H5, !count_shk_app, count_shk_cons.
    assert (forall l, n ∉ l -> count_shk (<[n := es]> (extents x)) l = count_shk (extents x) l) as Hc.
    { intros l Hl''. apply count_shk_ext. intros m Hm. unfold reclaimable. by rewrite lookup_insert_ne by (by intros <-). }
    apply not_elem_of_app in Hni as [Hn1 Hn2]. rewrite !Hc by done. unfold reclaimable. rewrite lookup_insert_eq.
    destruct (ext4_es_is_delayed es); cbn; lia.
Qed.

(** The branch of [__es_insert_extent] that adds a node. *)
Definition add_node (i : positive) (newes : extent_status) (path : list bool) : E (option es_id) :=
  new <- ext4_es_alloc_extent i newes ;;
  match new with
  | None => kret None
  | Some n =>
    modify_ei i (fun x => x <| root ::= fun t => rb_insert_color (rb_link_node n path t) |>) ;;;
    kret (Some n)
  end.

Lemma es_alloc_run s :
  es_alloc s = Ret (true, s <| allocs := tail (allocs s) |>) \/ exists rest, allocs s = false :: rest.
Proof.
  destruct s as [ino sl nr all shk hits miss [|[] rest]]; [by left|by left|right; by exists rest].
Qed.

Lemma add_node_spec s i x newes path l1 l2 :
  es_counts s -> es_inodes s !! i = Some x -> inorder (root x) = l1 ++ l2 ->
  (forall n, inorder (rb_link_node n path (root x)) = l1 ++ n :: l2) ->
  Z.of_nat (length (l1 ++ l2)) + 1 < 4294967296 ->
  wp (add_node i newes path)
    (fun r s' => match r with
     | None => exists rest, allocs s = false :: rest /\ s' = s <| allocs := rest |>
     | Some n => n ∉ l1 ++ l2 /\ es_counts s' /\ es_inodes s' = <[i := added x n newes path]> (es_inodes s) /\ allocs s' = tail (allocs s)
     end) s.
Proof.
  intros Hc Hi Hl Hl' Hb. pose proof (ec_inode _ Hc _ _ Hi) as Hx. pose proof Hx as [C1 C2 C3 C4 C5].
  set (n := fresh (dom (extents x))).
  assert (extents x !! n = None) as Hn by (apply not_elem_of_dom; apply is_fresh).
  destruct (added_counted x l1 n l2 newes path Hx Hl (Hl' n) Hn) as [Hx' El]; [rewrite !length_app in *; cbn; lia|].
  pose proof (count_shk_bound (extents x) (inorder (root x))) as Hsb. rewrite <-C5, Hl in Hsb.
  set (ds := if ext4_es_is_delayed newes then 0 else 1).
  set (lst := if ext4_es_is_delayed newes then s_es_list s
              else if i_es_shk_nr x =? 0 then s_es_list s ++ [i] else s_es_list s).
  pose proof (ec_list _ Hc _ _ Hi) as Hlist. pose proof (ec_nr _ Hc) as Hnr.
  destruct (es_alloc_run s) as [Hal|[rest Hal]]; [|by unfold wp, add_node, ext4_es_alloc_extent, es_alloc, kbind; rewrite Hal; cbn; exists rest].
  assert (add_node i newes path s = Ret (Some n, s <| es_inodes ::= <[i := added x n newes path]> |> <| s_es_list := lst |>
    <| s_es_nr_inode := Z.of_nat (length lst) |> <| es_stats_all_cnt := es_stats_all_cnt s + 1 |>
    <| es_stats_shk_cnt := es_stats_shk_cnt s + ds |> <| allocs := tail (allocs s) |>)) as Hrun.
  { unfold add_node, ext4_es_alloc_extent, modify_ei, read_ei, modify_es, kbind, kret, ext4_es_list_add, modify_es.
    rewrite Hal. clear Hal. cbn. rewrite Hi. cbn. rewrite Hi. fold n. unfold lst, ds, added.
    destruct (ext4_es_is_delayed newes); cbn; rewrite ?lookup_insert_eq; cbn.
    - rewrite !lookup_insert_eq. cbn. rewrite !insert_insert_eq. rewrite (u32_id (i_es_all_nr x + 1)) by (unfold is_u32; rewrite C4, Hl; lia).
      by rewrite !Z.add_0_r, Hnr.
    - destruct (Z.eqb_spec (i_es_shk_nr x) 0) as [E|E]; cbn; [rewrite bool_decide_false by (rewrite Hlist; lia)|]; cbn;
        rewrite !lookup_insert_eq; cbn; rewrite lookup_insert_eq; cbn; rewrite !insert_insert_eq;
        rewrite (u32_id (i_es_all_nr x + 1)), (u32_id (i_es_shk_nr x + 1)) by (unfold is_u32; rewrite ?C4, ?Hl; lia); rewrite ?length_app, Hnr; [|done].
      do 3 f_equal. cbn. lia. }
  unfold wp. rewrite Hrun. split_and!; [intros Hin; apply not_eq_None_Some in Hn; [done|]; apply C2; by rewrite Hl| |done|done].
  assert (forall s' a, es_counts s' -> es_counts (s' <| allocs := a |>)) as Hal' by (by intros s' a []).
  apply Hal', (es_counts_move s i x); try done.
  - intros j. unfold lst. cbn. destruct (ext4_es_is_delayed newes) eqn:Hd; cbn.
    + case_decide as Hj; [subst j|done]. rewrite Hlist. by rewrite Z.add_0_r.
    + destruct (Z.eqb_spec (i_es_shk_nr x) 0) as [E|E].
      * rewrite elem_of_app, list_elem_of_singleton. case_decide as Hj; [subst j|naive_solver]. split; [lia|by right].
      * case_decide as Hj; [subst j|done]. rewrite Hlist. lia.
  - unfold lst. repeat case_match; try apply Hc. apply NoDup_app. split_and!; [apply Hc| |apply NoDup_singleton].
    intros j Hj ->%list_elem_of_singleton. apply Hlist in Hj. lia.
Qed.
End Erase.

(** ** Search *)

(** All extents of [l] end at or before [b]; all start at or after it. *)
Definition ends_by (h : gmap es_id extent_status) (b : Z) (l : list es_id) : Prop :=
  forall n es, n ∈ l -> h !! n = Some es -> es_lblk es + es_len es <= b.
Definition starts_from (h : gmap es_id extent_status) (b : Z) (l : list es_id) : Prop :=
  forall n es, n ∈ l -> h !! n = Some es -> b <= es_lblk es.

Section Search.
Implicit Types (h : gmap es_id extent_status) (l : list es_id).

Lemma ends_by_app h b l1 l2 : ends_by h b (l1 ++ l2) <-> ends_by h b l1 /\ ends_by h b l2.
Proof. unfold ends_by. setoid_rewrite elem_of_app. naive_solver. Qed.
Lemma starts_from_app h b l1 l2 : starts_from h b (l1 ++ l2) <-> starts_from h b l1 /\ starts_from h b l2.
Proof. unfold starts_from. setoid_rewrite elem_of_app. naive_solver. Qed.
Lemma ends_by_cons h b n l es : h !! n = Some es -> ends_by h b (n :: l) <-> es_lblk es + es_len es <= b /\ ends_by h b l.
Proof. unfold ends_by. intros Hn. setoid_rewrite elem_of_cons. naive_solver. Qed.
Lemma starts_from_cons h b n l es : h !! n = Some es -> starts_from h b (n :: l) <-> b <= es_lblk es /\ starts_from h b l.
Proof. unfold starts_from. intros Hn. setoid_rewrite elem_of_cons. naive_solver. Qed.
Lemma ends_by_nil h b : ends_by h b [].
Proof. by intros n es ?%elem_of_nil. Qed.
Lemma starts_from_nil h b : starts_from h b [].
Proof. by intros n es ?%elem_of_nil. Qed.
Lemma ends_by_mono h b b' l : ends_by h b l -> b <= b' -> ends_by h b' l.
Proof. intros Hb Hle n es Hn He. pose proof (Hb n es Hn He). lia. Qed.
Lemma starts_from_mono h b b' l : starts_from h b l -> b' <= b -> starts_from h b' l.
Proof. intros Hb Hle n es Hn He. pose proof (Hb n es Hn He). lia. Qed.

(** The neighbours of an extent. *)
Lemma ok_around h l1 n l2 es :
  ok h (l1 ++ n :: l2) -> h !! n = Some es -> ends_by h (es_lblk es) l1 /\ starts_from h (es_lblk es + es_len es) l2.
Proof.
  intros Hok Hn. split; intros m em Hm He; destruct (ok_before _ _ _ _ _ _ _ Hok Hn He) as [H1 H2]; auto.
Qed.

Lemma ok_at h l n : ok h l -> n ∈ l -> exists es, h !! n = Some es /\ valid es.
Proof. intros [Hv _]. apply Hv. Qed.

Lemma ok_mid h l1 n l2 : ok h (l1 ++ n :: l2) -> exists es, h !! n = Some es /\ valid es.
Proof. intros Hok. apply (ok_at _ _ _ Hok). apply elem_of_app. right. by left. Qed.

Lemma ok_left h l1 l2 : ok h (l1 ++ l2) -> ok h l1.
Proof. intros Hok. eapply ok_sub; [exact Hok|by apply sublist_inserts_r|done]. Qed.
Lemma ok_right h l1 l2 : ok h (l1 ++ l2) -> ok h l2.
Proof. intros Hok. eapply ok_sub; [exact Hok|by apply sublist_inserts_l|done]. Qed.

(** Where the descent ends: at the extent that covers the block, or next to the gap the block is in. *)
Definition descent_ends (h : gmap es_id extent_status) (lblk : Z) (all : list es_id) (r : es_id + option es_id) : Prop :=
  match r with
  | inl n => n ∈ all /\ exists es, h !! n = Some es /\ covers es lblk
  | inr None => all = []
  | inr (Some n) => exists l1 l2, all = l1 ++ l2 /\ ends_by h lblk l1 /\ starts_from h (lblk + 1) l2 /\
      ((exists l1', l1 = l1' ++ [n]) \/ (exists l2', l2 = n :: l2'))
  end.

Lemma search_down_spec i lblk t : forall last l1 l2 x s,
  es_inodes s !! i = Some x -> ok (extents x) (l1 ++ inorder t ++ l2) ->
  ends_by (extents x) lblk l1 -> starts_from (extents x) (lblk + 1) l2 ->
  match last with None => l1 = [] /\ l2 = [] | Some n => (exists l1', l1 = l1' ++ [n]) \/ (exists l2', l2 = n :: l2') end ->
  wp (search_down i lblk t last) (fun r s' => s' = s /\ descent_ends (extents x) lblk (l1 ++ inorder t ++ l2) r) s.
Proof.
  induction t as [|l IHl n r IHr]; intros last l1 l2 x s Hi Hok H1 H2 Hlast.
  - cbn [search_down inorder]. es_step. split; [done|]. destruct last as [n|]; [|by destruct Hlast as [-> ->]]. by exists l1, l2.
  - cbn [inorder] in *.
    assert (l1 ++ (inorder l ++ n :: inorder r) ++ l2 = (l1 ++ inorder l) ++ n :: inorder r ++ l2) as Ea by by rewrite <-!app_assoc.
    rewrite Ea in *. destruct (ok_mid _ _ _ _ Hok) as (es & He & Hv). destruct (ok_around _ _ _ _ _ Hok He) as [Hb1 Hb2].
    apply ends_by_app in Hb1 as [_ Hb1]. apply starts_from_app in Hb2 as [Hb2 _].
    cbn [search_down]. es_step. es_step. destruct (Z.ltb_spec lblk (es_lblk es)) as [Hlt|Hge].
    + rewrite <-app_assoc in *. apply IHl; try done; [|right; by eexists].
      apply (starts_from_cons _ _ _ _ es He). split; [lia|]. apply starts_from_app. split; [|done].
      eapply starts_from_mono; [exact Hb2|]. pose proof (v_len _ Hv). lia.
    + es_step. es_step. destruct (Z.ltb_spec (es_lblk es + es_len es - 1) lblk) as [Hlt|Hge2].
      * replace ((l1 ++ inorder l) ++ n :: inorder r ++ l2) with (((l1 ++ inorder l) ++ [n]) ++ inorder r ++ l2) in *
          by by rewrite <-!app_assoc.
        apply IHr; try done; [|left; by eexists]. rewrite !ends_by_app. split_and!; [done| |].
        -- eapply ends_by_mono; [exact Hb1|]. lia.
        -- apply (ends_by_cons _ _ _ _ es He). split; [lia|apply ends_by_nil].
      * es_step. split; [done|]. split; [apply elem_of_app; right; by left|]. exists es. split; [done|]. unfold covers. lia.
Qed.

Lemma next_in_split n l1 l2 : n ∉ l1 -> next_in n (l1 ++ n :: l2) = head l2.
Proof.
  induction l1 as [|m l1 IH]; intros Hn; cbn; [by rewrite bool_decide_true|].
  apply not_elem_of_cons in Hn as [Hne Hn]. rewrite bool_decide_false by (by intros ->). auto.
Qed.

Lemma rb_next_split n t l1 l2 : inorder t = l1 ++ n :: l2 -> NoDup (inorder t) -> rb_next n t = head l2.
Proof.
  intros E Hnd. unfold rb_next. rewrite E in *. apply next_in_split. apply nodup_split in Hnd as [Hn _].
  intros Hin. apply Hn, elem_of_app. by left.
Qed.

Lemma rb_prev_split n t l1 l2 : inorder t = l1 ++ n :: l2 -> NoDup (inorder t) -> rb_prev n t = last l1.
Proof.
  intros E Hnd. unfold rb_prev. rewrite E in *. apply nodup_split in Hnd as [Hn _].
  rewrite reverse_app, reverse_cons, <-app_assoc. cbn. rewrite next_in_split; [by rewrite head_reverse|].
  rewrite elem_of_reverse. intros Hin. apply Hn, elem_of_app. by right.
Qed.

(** [__es_tree_search] finds the first extent that ends after the block. *)
Lemma tree_search_spec i lblk x s :
  es_inodes s !! i = Some x -> ok (extents x) (inorder (root x)) ->
  wp (__es_tree_search i lblk) (fun r s' => s' = s /\ exists l1 l2, inorder (root x) = l1 ++ l2 /\ r = head l2 /\
    ends_by (extents x) lblk l1 /\ forall n es, n ∈ l2 -> extents x !! n = Some es -> lblk < es_lblk es + es_len es) s.
Proof.
  intros Hi Hok. pose proof (ok_nodup _ _ Hok) as Hnd. unfold __es_tree_search. es_step. es_step. es_step. eapply wp_mono.
  { apply (search_down_spec i lblk (root x) None [] [] x s Hi); rewrite ?app_nil_l, ?app_nil_r; try done; apply ends_by_nil || apply starts_from_nil. }
  cbn. rewrite app_nil_r. intros [n|[n|]] s' [-> Hd].
  - destruct Hd as ((l1 & l2 & El)%list_elem_of_split & es & He & Hcov). es_step. split; [done|]. exists l1, (n :: l2).
    rewrite El in Hok. destruct (ok_around _ _ _ _ _ Hok He) as [Hb1 Hb2]. unfold covers in Hcov. split_and!; try done.
    + eapply ends_by_mono; [exact Hb1|]. lia.
    + intros m em [->|Hm]%elem_of_cons Hem; [simplify_eq; lia|]. pose proof (Hb2 m em Hm Hem).
      destruct (ok_at _ _ m Hok) as (em' & Hem' & [Hvl Hvn _ _ _ _]); [apply elem_of_app; right; by right|]. simplify_eq. lia.
  - destruct Hd as (l1 & l2 & El & H1 & H2 & Hpos).
    assert (forall m em, m ∈ l2 -> extents x !! m = Some em -> lblk < es_lblk em + es_len em) as Hl2.
    { intros m em Hm Hem. pose proof (H2 m em Hm Hem). destruct (ok_at _ _ m Hok) as (em' & Hem' & [Hvl Hvn _ _ _ _]);
        [rewrite El; apply elem_of_app; by right|]. simplify_eq. lia. }
    destruct Hpos as [[l1' ->]|[l2' ->]].
    + rewrite <-app_assoc in El. cbn in El. rewrite El in Hok. destruct (ok_mid _ _ _ _ Hok) as (es & He & Hv). es_step. es_step.
      assert (es_lblk es + es_len es <= lblk) as Hle by (apply (H1 n); [apply elem_of_app; right; by left|done]).
      pose proof (v_len _ Hv). rewrite (proj2 (Z.ltb_ge _ _)) by lia. es_step. es_step. es_step.
      rewrite (proj2 (Z.ltb_lt _ _)) by lia. split; [done|]. exists (l1' ++ [n]), l2. rewrite <-app_assoc. split_and!; try done.
      by apply (rb_next_split _ _ l1').
    + rewrite El in Hok. destruct (ok_mid _ _ _ _ Hok) as (es & He & Hv). es_step. es_step.
      rewrite (proj2 (Z.ltb_lt _ _)) by (apply (starts_from_cons _ _ _ _ es He) in H2; lia). es_step. split; [done|].
      by exists l1, (n :: l2').
  - es_step. split; [done|]. exists [], []. cbn in Hd. rewrite Hd.
    split_and!; [done|done|apply ends_by_nil|by intros ?? ?%elem_of_nil].
Qed.

(** A new extent that touches none. *)
Definition apart (h : gmap es_id extent_status) (new : extent_status) (l : list es_id) : Prop :=
  forall n es, n ∈ l -> h !! n = Some es -> es_lblk es + es_len es <= es_lblk new \/ es_lblk new + es_len new <= es_lblk es.

Lemma apart_app h new l1 l2 : apart h new (l1 ++ l2) <-> apart h new l1 /\ apart h new l2.
Proof. unfold apart. setoid_rewrite elem_of_app. naive_solver. Qed.

(** Around an extent that the new one follows or precedes. *)
Lemma apart_sides h new l1 n l2 es :
  valid new -> ok h (l1 ++ n :: l2) -> h !! n = Some es -> apart h new (l1 ++ n :: l2) ->
  (es_lblk new < es_lblk es -> es_lblk new + es_len new <= es_lblk es /\ starts_from h (es_lblk new + es_len new) (n :: l2)) /\
  (es_lblk es < es_lblk new -> es_lblk es + es_len es <= es_lblk new /\ ends_by h (es_lblk new) (l1 ++ [n])).
Proof.
  intros Hnew Hok Hn Ha. destruct (ok_around _ _ _ _ _ Hok Hn) as [Hb1 Hb2].
  destruct (ok_mid _ _ _ _ Hok) as (es' & He' & [Hvl Hvn _ _ _ _]). simplify_eq. pose proof (v_len _ Hnew).
  assert (n ∈ l1 ++ n :: l2) as Hin by (apply elem_of_app; right; by left). pose proof (Ha n es Hin Hn) as Han.
  split; intros Hlt; (split; [lia|]).
  - apply (starts_from_cons _ _ _ _ es Hn). split; [lia|]. eapply starts_from_mono; [exact Hb2|]. lia.
  - apply ends_by_app. split; [eapply ends_by_mono; [exact Hb1|]; lia|].
    apply (ends_by_cons _ _ _ _ es Hn). split; [lia|apply ends_by_nil].
Qed.

(** Where [find_spot] puts a new extent. *)
Definition spot_in (h : gmap es_id extent_status) (new : extent_status) (t : rb) (sp : spot) : Prop :=
  match sp with
  | Before n => exists es, n ∈ inorder t /\ h !! n = Some es /\ ext4_es_can_be_merged new es = true
  | After n => exists es, n ∈ inorder t /\ h !! n = Some es /\ ext4_es_can_be_merged es new = true
  | Link p => exists l1 l2, inorder t = l1 ++ l2 /\ (forall n, inorder (rb_link_node n p t) = l1 ++ n :: l2) /\
      ends_by h (es_lblk new) l1 /\ starts_from h (es_lblk new + es_len new) l2
  end.

Lemma find_spot_spec i new x s t :
  es_inodes s !! i = Some x -> valid new -> ok (extents x) (inorder t) -> apart (extents x) new (inorder t) ->
  wp (find_spot i new t) (fun r s' => s' = s /\ spot_in (extents x) new t r) s.
Proof.
  intros Hi Hnew. induction t as [|l IHl n r IHr]; intros Hok Ha; cbn [find_spot inorder] in *.
  - es_step. split; [done|]. exists [], []. split_and!; [done|done|apply ends_by_nil|apply starts_from_nil].
  - destruct (ok_mid _ _ _ _ Hok) as (es & He & Hv). destruct (apart_sides _ _ _ _ _ _ Hnew Hok He Ha) as [Hlt Hgt].
    pose proof (v_len _ Hv) as Hlen. pose proof (v_len _ Hnew) as Hlen'.
    assert (n ∈ inorder l ++ n :: inorder r) as Hin by (apply elem_of_app; right; by left). pose proof (Ha n es Hin He) as Han.
    apply apart_app in Ha as [Hal Har]. es_step. es_step. destruct (Z.ltb_spec (es_lblk new) (es_lblk es)) as [Hc|Hc].
    + destruct (Hlt Hc) as [_ Hs]. destruct (ext4_es_can_be_merged new es) eqn:Em; [es_step; split; [done|by exists es]|].
      es_step. eapply wp_mono; [apply IHl; [by eapply ok_left|done]|]. cbn beta. intros sp s' [-> Hsp]. es_step. split; [done|].
      destruct sp as [m|m|p]; [destruct Hsp as (em & Hm & Hrest); exists em; split; [cbn; apply elem_of_app; by left|done]..|].
      destruct Hsp as (l1 & l2 & E & Hp & H1 & H2). exists l1, (l2 ++ n :: inorder r). cbn. rewrite E, <-app_assoc.
      split_and!; try done; [intros m; by rewrite Hp, <-app_assoc|]. by apply starts_from_app.
    + es_step. es_step. rewrite (proj2 (Z.ltb_lt _ _)) by lia. destruct (Hgt ltac:(lia)) as [_ Hs].
      destruct (ext4_es_can_be_merged es new) eqn:Em; [es_step; split; [done|by exists es]|].
      es_step. eapply wp_mono; [apply IHr; [eapply (ok_right _ (inorder l ++ [n])); by rewrite <-app_assoc|]|].
      { change (n :: inorder r) with ([n] ++ inorder r) in Har. by apply apart_app in Har as [_ Har]. }
      cbn beta. intros sp s' [-> Hsp]. es_step. split; [done|].
      destruct sp as [m|m|p]; [destruct Hsp as (em & Hm & Hrest); exists em; split; [cbn; apply elem_of_app; right; by right|done]..|].
      destruct Hsp as (l1 & l2 & E & Hp & H1 & H2). exists (inorder l ++ n :: l1), l2. cbn. rewrite E, <-app_assoc.
      split_and!; try done; [intros m; by rewrite Hp, <-app_assoc|].
      change (n :: l1) with ([n] ++ l1). rewrite app_assoc. by apply ends_by_app.
Qed.
End Search.

(** ** Trees without balance

    A [Rebalance] to run the operations on concrete trees. *)
Fixpoint spine (l : list es_id) : rb := match l with [] => Leaf | n :: l => Node Leaf n (spine l) end.

Lemma spine_order l : inorder (spine l) = l.
Proof. induction l as [|n l IH]; [done|]. cbn. by rewrite IH. Qed.

Definition unbalanced : Rebalance := {|
  rb_insert_color t := t;
  rb_erase n t := spine (filter (fun m => m <> n) (inorder t));
  rb_insert_color_order t := eq_refl;
  rb_erase_order n t := spine_order _;
|}.
