(* ===== verification/ExtentOps.v ===== *)
(** * Insertion into the extent status tree

    [__es_insert_extent] with its merging: the invariant of an inode's tree, and the effect on the map. *)
From stdpp Require Import sorting.
From S2P Require Import Prelude Log ExtentStatus ExtentMap ExtentTree.

(** ** The invariant *)

(** The extents are valid, disjoint and in order, and [cache_es] is one of them. *)
Record tree_ok (x : es_inode) : Prop := {
  to_ok : ok (extents x) (inorder (root x));
  to_cache n : cache_es x = Some n -> n ∈ inorder (root x);
}.

(** All trees of the file system, with all counters. *)
Record es_ok (s : es_state) : Prop := {
  eo_counts : es_counts s;
  eo_tree i x : es_inodes s !! i = Some x -> tree_ok x;
}.

(** What the tree of an inode says about a block. *)
Definition tree_says (x : es_inode) : Z -> Z * option Z -> Prop := says (extents x) (inorder (root x)).

(** Inode [i] has become [x'], and nothing else in the file system has changed but the counters. *)
Record becomes (i : positive) (x' : es_inode) (s s' : es_state) : Prop := {
  be_inodes : es_inodes s' = <[i := x']> (es_inodes s);
  be_counts : es_counts s';
  be_allocs : allocs s = [] -> allocs s' = [];
}.

Lemma becomes_lookup i x' s s' : becomes i x' s s' -> es_inodes s' !! i = Some x'.
Proof. intros [E _ _]. by rewrite E, lookup_insert_eq. Qed.

Lemma becomes_trans i x1 x2 s s1 s2 : becomes i x1 s s1 -> becomes i x2 s1 s2 -> becomes i x2 s s2.
Proof. intros [E1 _ A1] [E2 H2 A2]. split; [by rewrite E2, E1, insert_insert_eq|done|auto]. Qed.

Lemma becomes_ok i x' s s' : es_ok s -> becomes i x' s s' -> tree_ok x' -> es_ok s'.
Proof.
  intros [Hc Ht] [E H2 _] Hx. split; [done|]. intros j y. rewrite E. intros [[<- <-]|[_ Hj]]%lookup_insert_Some; eauto.
Qed.

Lemma becomes_set s i x x' :
  es_counts s -> es_inodes s !! i = Some x -> counted x' -> i_es_all_nr x' = i_es_all_nr x -> i_es_shk_nr x' = i_es_shk_nr x ->
  becomes i x' s (s <| es_inodes ::= <[i := x']> |>).
Proof. intros. split; [done| |done]. by apply (es_counts_set s i x). Qed.

(** Changing one extent. *)
Lemma becomes_extent s i x n es es' :
  es_counts s -> es_inodes s !! i = Some x -> extents x !! n = Some es -> ext4_es_is_delayed es' = ext4_es_is_delayed es ->
  becomes i (x <| extents ::= <[n := es']> |>) s (s <| es_inodes ::= <[i := x <| extents ::= <[n := es']> |>]> |>).
Proof. intros Hc Hi Hn Hd. eapply becomes_set; [done..| |done|done]. eapply counted_extent; [by eapply ec_inode|done|done]. Qed.

Section Insert.
Context `{Rebalance}.

(** ** Merging two neighbours *)

(** [ext4_es_try_to_merge_left] and [..._right]: the left one grows and the right one goes. *)
Definition merge_pair (i : positive) (n1 n2 : es_id) (es2 : extent_status) : E unit :=
  modify_extent i n1 (fun e => e <| es_len := u32 (es_len e + es_len es2) |>) ;;;
  (if ext4_es_is_referenced es2 then modify_extent i n1 ext4_es_set_referenced else kret tt) ;;;
  erase_free i n2.

Lemma merge_then {A} i n1 n2 es2 (k : E A) Q s :
  wp (merge_pair i n1 n2 es2) (fun _ => wp k Q) s ->
  wp (modify_extent i n1 (fun e => e <| es_len := u32 (es_len e + es_len es2) |>) ;;;
      (if ext4_es_is_referenced es2 then modify_extent i n1 ext4_es_set_referenced else kret tt) ;;;
      erase_free i n2 ;;; k) Q s.
Proof.
  unfold merge_pair. intros Hw%wp_bind_inv. apply wp_bind. eapply wp_mono; [exact Hw|]. cbn beta. intros _ s1 Hw1%wp_bind_inv.
  apply wp_bind. eapply wp_mono; [exact Hw1|]. cbn beta. intros _ s2 Hw2. by apply wp_bind.
Qed.

(** The merged extent. *)
Definition merged_es (es1 es2 : extent_status) : extent_status :=
  let es := es1 <| es_len := u32 (es_len es1 + es_len es2) |> in
  if ext4_es_is_referenced es2 then ext4_es_set_referenced es else es.

Lemma merged_es_valid es1 es2 :
  valid es1 -> valid es2 -> ext4_es_can_be_merged es1 es2 = true ->
  let es := merged_es es1 es2 in
  valid es /\ ext4_es_is_delayed es = ext4_es_is_delayed es1 /\ es_lblk es = es_lblk es1 /\
  es_lblk es + es_len es = es_lblk es2 + es_len es2 /\ (forall b, covers es b <-> covers es1 b \/ covers es2 b) /\
  (forall b, covers es1 b -> value es b = value es1 b) /\ (forall b, covers es2 b -> value es b = value es2 b).
Proof.
  intros H1 H2 Hm es. destruct (merge_sound es1 es2 H1 H2 Hm) as (Ety & Ec & Hs & Hph).
  set (es0 := es1 <| es_len := u32 (es_len es1 + es_len es2) |>).
  destruct (merged_valid es1 es2 es0 H1 H2 Hm) as (V0 & L0 & C0 & A0 & B0); try done; [by destruct H1|].
  assert (valid es /\ es_lblk es = es_lblk es0 /\ es_len es = es_len es0 /\ ext4_es_type es = ext4_es_type es0 /\
          ext4_es_pblock es = ext4_es_pblock es0) as (V & El & En & Et & Eb).
  { unfold es, merged_es. fold es0. destruct (ext4_es_is_referenced es2); [by apply set_referenced_same|done]. }
  assert (mapped_es es = mapped_es es0) as Em by (by apply mapped_type).
  assert (forall b, value es b = value es0 b) as Ev by (intros b; unfold value; by rewrite Et, Em, Eb, El).
  split_and!; [done|by apply (delayed_type es0 es)|done|..].
  - rewrite El, En, L0. change (es_lblk es0) with (es_lblk es1). lia.
  - intros b. rewrite <-C0. unfold covers. by rewrite El, En.
  - intros b Hb. rewrite Ev. auto.
  - intros b Hb. rewrite Ev. auto.
Qed.

(** The lists before and after. *)
Lemma merge_lists h l1 n1 n2 l2 es1 es2 :
  ok h (l1 ++ n1 :: n2 :: l2) -> h !! n1 = Some es1 -> h !! n2 = Some es2 -> ext4_es_can_be_merged es1 es2 = true ->
  let h' := delete n2 (<[n1 := merged_es es1 es2]> h) in
  ok h' (l1 ++ n1 :: l2) /\ (forall b v, says h' (l1 ++ n1 :: l2) b v <-> says h (l1 ++ n1 :: n2 :: l2) b v).
Proof.
  intros Hok H1 H2 Hm h'.
  destruct (ok_mid _ _ _ _ Hok) as (es' & He' & V1). simplify_eq.
  assert (ok h ((l1 ++ [n1]) ++ n2 :: l2)) as Hok2 by by rewrite <-app_assoc.
  destruct (ok_mid _ _ _ _ Hok2) as (es' & He' & V2). simplify_eq.
  destruct (ok_around _ _ _ _ _ Hok H1) as [Ba1 Bb1]. destruct (ok_around _ _ _ _ _ Hok2 H2) as [Ba2 Bb2].
  destruct (merged_es_valid es1 es2 V1 V2 Hm) as (V & _ & El & Ee & Hcov & Hv1 & Hv2).
  assert (n1 <> n2) as Hne. { intros ->. apply ok_notin in Hok. apply Hok, elem_of_app. right. by left. }
  assert (ok (delete n2 h) (l1 ++ n1 :: l2)) as Hd by (apply ok_delete in Hok2; by rewrite <-app_assoc in Hok2).
  assert (forall m em, m ∈ l1 ++ l2 -> delete n2 h !! m = Some em -> h !! m = Some em) as Hh by (intros m em _ [_ ?]%lookup_delete_Some; done).
  assert (h' = <[n1 := merged_es es1 es2]> (delete n2 h)) as Eh by (unfold h'; by rewrite delete_insert_ne).
  assert (delete n2 h !! n1 = Some es1) as H1' by by rewrite lookup_delete_ne.
  split; rewrite Eh.
  - apply ok_replace; [done|done|..]; intros m em Hm' Hem; (apply Hh in Hem; [|apply elem_of_app; auto]).
    + rewrite El. eauto.
    + rewrite Ee. eauto.
  - intros b v. rewrite (says_replace _ _ _ _ es1) by done.
    replace (l1 ++ n1 :: l2) with ((l1 ++ [n1]) ++ l2) by by rewrite <-app_assoc.
    rewrite (says_delete _ _ _ _ es2) by done. rewrite <-app_assoc. cbn [app]. rewrite Hcov. split.
    + intros [[[Hc|Hc] ->]|[[Hs _] _]]; [rewrite Hv1 by done|rewrite Hv2 by done|done]; (eapply says_self; [|done|done]);
        apply elem_of_app; right; [by left|right; by left].
    + intros Hs. destruct (decide (covers es1 b)) as [Hc1|Hc1]; [|destruct (decide (covers es2 b)) as [Hc2|Hc2]; [|by right]]; left.
      * split; [by left|]. rewrite Hv1 by done. eapply says_unique; [exact Hok|done|]. eapply says_self; [|done|done].
        apply elem_of_app; right; by left.
      * split; [by right|]. rewrite Hv2 by done. eapply says_unique; [exact Hok|done|]. eapply says_self; [|done|done].
        apply elem_of_app; right; right; by left.
Qed.

(** The inode after the merge. *)
Lemma merge_pair_spec s i x l1 n1 n2 l2 es1 es2 :
  es_counts s -> es_inodes s !! i = Some x -> inorder (root x) = l1 ++ n1 :: n2 :: l2 -> ok (extents x) (inorder (root x)) ->
  extents x !! n1 = Some es1 -> extents x !! n2 = Some es2 -> ext4_es_can_be_merged es1 es2 = true ->
  wp (merge_pair i n1 n2 es2)
    (fun _ s' => exists x', becomes i x' s s' /\ inorder (root x') = l1 ++ n1 :: l2 /\ ok (extents x') (inorder (root x')) /\
       (forall b v, tree_says x' b v <-> tree_says x b v) /\ i_es_all_nr x' = i_es_all_nr x - 1) s.
Proof.
  intros Hc Hi Hl Hok H1 H2 Hm.
  assert (n1 <> n2) as Hne. { rewrite Hl in Hok. intros ->. apply ok_notin in Hok. apply Hok, elem_of_app. right. by left. }
  pose proof Hok as Hok0. rewrite Hl in Hok0. destruct (merge_lists _ _ _ _ _ _ _ Hok0 H1 H2 Hm) as [Hok' Hsays].
  destruct (ok_mid _ _ _ _ Hok0) as (es' & He' & V1). simplify_eq.
  assert (n2 ∈ inorder (root x)) as Hin2 by (rewrite Hl; apply elem_of_app; right; right; by left).
  destruct (ok_at _ _ _ Hok Hin2) as (es' & He'' & V2). simplify_eq.
  destruct (merged_es_valid es1 es2 V1 V2 Hm) as (_ & Hdel & _).
  set (x1 := x <| extents ::= <[n1 := merged_es es1 es2]> |>).
  assert (becomes i x1 s (s <| es_inodes ::= <[i := x1]> |>)) as Hb1 by (by eapply becomes_extent).
  assert (forall Q, wp (erase_free i n2) Q (s <| es_inodes ::= <[i := x1]> |>) -> wp (merge_pair i n1 n2 es2) Q s) as Hrun.
  { intros Q HQ. unfold merge_pair. do 2 es_step. es_step. unfold x1, merged_es in HQ.
    destruct (ext4_es_is_referenced es2); es_step; [|by destruct s]. destruct s. cbn in *.
    by rewrite !insert_insert_eq in *. }
  apply Hrun. eapply wp_mono.
  { apply (erase_free_spec _ i x1 (l1 ++ [n1]) n2 l2 es2); [by destruct Hb1|cbn; by rewrite lookup_insert_eq|by rewrite <-app_assoc|].
    cbn. by rewrite lookup_insert_ne. }
  cbn beta. intros _ s' (Hc' & Hin' & Hal'). exists (erased x1 n2 es2).
  assert (inorder (root (erased x1 n2 es2)) = l1 ++ n1 :: l2) as El.
  { destruct (erased_counted x1 (l1 ++ [n1]) n2 l2 es2) as [_ El]; [eapply (ec_inode _ (be_counts _ _ _ _ Hb1)); by eapply becomes_lookup|..].
    - by rewrite <-app_assoc.
    - cbn. by rewrite lookup_insert_ne.
    - by rewrite El, <-app_assoc. }
  split_and!; [|done|by rewrite El| |done].
  - split; [|done|by rewrite Hal']. rewrite Hin'. cbn. by rewrite insert_insert_eq.
  - intros b v. unfold tree_says. rewrite El, Hl. apply Hsays.
Qed.

Lemma last_split {A} (l : list A) a : last l = Some a -> exists l', l = l' ++ [a].
Proof. by rewrite last_Some. Qed.

Lemma becomes_refl s i x : es_counts s -> es_inodes s !! i = Some x -> becomes i x s s.
Proof. intros. split; [by rewrite insert_id|done|done]. Qed.

(** What both do: the map stays, and the result is an extent of the tree. *)
Definition merges (i : positive) (x : es_inode) (s : es_state) (r : es_id) (s' : es_state) : Prop :=
  exists x', becomes i x' s s' /\ r ∈ inorder (root x') /\ ok (extents x') (inorder (root x')) /\
    (forall b v, tree_says x' b v <-> tree_says x b v) /\ i_es_all_nr x' <= i_es_all_nr x.

Lemma merges_none s i x n : es_counts s -> es_inodes s !! i = Some x -> ok (extents x) (inorder (root x)) -> n ∈ inorder (root x) ->
  merges i x s n s.
Proof. intros. exists x. by split_and!; [apply becomes_refl|..]. Qed.

Lemma try_to_merge_left_spec s i x n :
  es_counts s -> es_inodes s !! i = Some x -> ok (extents x) (inorder (root x)) -> n ∈ inorder (root x) ->
  wp (ext4_es_try_to_merge_left i n) (merges i x s) s.
Proof.
  intros Hc Hi Hok Hn. pose proof Hn as (l1 & l2 & El)%list_elem_of_split. destruct (ok_at _ _ _ Hok Hn) as (es & He & V).
  unfold ext4_es_try_to_merge_left. do 2 es_step. rewrite (rb_prev_split _ _ _ _ El (ok_nodup _ _ Hok)).
  destruct (last l1) as [n1|] eqn:Elast; [|es_step; by apply merges_none]. apply last_split in Elast as [l1' ->].
  rewrite <-app_assoc in El. cbn in El. assert (n1 ∈ inorder (root x)) as Hn1 by (rewrite El; apply elem_of_app; right; by left).
  destruct (ok_at _ _ _ Hok Hn1) as (es1 & He1 & V1). do 4 es_step.
  destruct (ext4_es_can_be_merged es1 es) eqn:Em; [|es_step; by apply merges_none].
  apply merge_then. eapply wp_mono; [by apply (merge_pair_spec s i x l1' n1 n l2 es1 es)|].
  cbn beta. intros _ s' (x' & Hb & Ex & Hok' & Hs & Ea). es_step. exists x'. split_and!; try done; [|lia].
  rewrite Ex. apply elem_of_app. right. by left.
Qed.

Lemma try_to_merge_right_spec s i x n :
  es_counts s -> es_inodes s !! i = Some x -> ok (extents x) (inorder (root x)) -> n ∈ inorder (root x) ->
  wp (ext4_es_try_to_merge_right i n) (merges i x s) s.
Proof.
  intros Hc Hi Hok Hn. pose proof Hn as (l1 & l2 & El)%list_elem_of_split. destruct (ok_at _ _ _ Hok Hn) as (es & He & V).
  unfold ext4_es_try_to_merge_right. do 2 es_step. rewrite (rb_next_split _ _ _ _ El (ok_nodup _ _ Hok)).
  destruct l2 as [|n1 l2]; cbn [head]; [es_step; by apply merges_none|].
  assert (n1 ∈ inorder (root x)) as Hn1 by (rewrite El; apply elem_of_app; right; right; by left).
  destruct (ok_at _ _ _ Hok Hn1) as (es1 & He1 & V1). do 5 es_step.
  destruct (ext4_es_can_be_merged es es1) eqn:Em; [|do 2 es_step; by apply merges_none].
  eapply wp_mono; [by apply (merge_pair_spec s i x l1 n n1 l2 es es1)|].
  cbn beta. intros _ s' (x' & Hb & Ex & Hok' & Hs & Ea). es_step. exists x'. split_and!; try done; [|lia].
  rewrite Ex. apply elem_of_app. right. by left.
Qed.

(** ** [__es_insert_extent] *)

(** The map after [new] was added. *)
Definition adds (x : es_inode) (new : extent_status) (x' : es_inode) : Prop :=
  forall b v, tree_says x' b v <-> (covers new b /\ v = value new b) \/ tree_says x b v.

(** The extent that takes over the blocks of [new], before or after it. *)
Definition before_es (new es : extent_status) : extent_status :=
  let es := es <| es_lblk := es_lblk new |> <| es_len := u32 (es_len es + es_len new) |> in
  if ext4_es_is_written es || ext4_es_is_unwritten es then ext4_es_store_pblock (es_pblk new) es else es.

Lemma before_es_valid new es :
  valid new -> valid es -> ext4_es_can_be_merged new es = true ->
  let es' := before_es new es in
  valid es' /\ ext4_es_is_delayed es' = ext4_es_is_delayed es /\ es_lblk es' = es_lblk new /\
  es_lblk es' + es_len es' = es_lblk es + es_len es /\ (forall b, covers es' b <-> covers new b \/ covers es b) /\
  (forall b, covers new b -> value es' b = value new b) /\ (forall b, covers es b -> value es' b = value es b).
Proof.
  intros H1 H2 Hm es'. destruct (merge_sound new es H1 H2 Hm) as (Ety & Ec & Hs & Hph).
  set (es0 := es <| es_lblk := es_lblk new |> <| es_len := u32 (es_len es + es_len new) |>).
  assert (es_lblk es' = es_lblk new /\ es_len es' = u32 (es_len new + es_len es) /\ is_u64 (es_pblk es') /\
    ext4_es_type es' = ext4_es_type es /\ (mapped_es new = true -> ext4_es_pblock es' = ext4_es_pblock new)) as (El & En & Ep & Et & Eb).
  { unfold es', before_es. fold es0. change (ext4_es_is_written es0 || ext4_es_is_unwritten es0) with (mapped_es es).
    rewrite (mapped_type es new Ety). destruct H1 as [_ _ _ Hp1 _ _], H2 as [_ _ _ Hp2 _ _].
    destruct (mapped_es es).
    - destruct (store_pblock_same (es_pblk new) es0) as (Q1 & Q2 & Q3 & Q4 & Q5); [exact Hp2|apply Hp1|].
      rewrite Q2, Q3, Q4, Q5. split_and!; try done; [cbn; by rewrite Z.add_comm|]. intros _. by rewrite pblock_mod.
    - split_and!; try done. cbn. by rewrite Z.add_comm. }
  destruct (merged_valid new es es' H1 H2 Hm El En Ep) as (V & L & C & A & B); [by rewrite Et|done|].
  split_and!; [done|by apply (delayed_type es es')|done|rewrite El, L; lia|done..].
Qed.

(** Growing extent [n] over [new]. *)
Lemma grow_spec s i x l1 n l2 es es' new (Hok : ok (extents x) (inorder (root x))) :
  es_counts s -> es_inodes s !! i = Some x -> inorder (root x) = l1 ++ n :: l2 -> extents x !! n = Some es ->
  valid es' -> ext4_es_is_delayed es' = ext4_es_is_delayed es ->
  ends_by (extents x) (es_lblk es') l1 -> starts_from (extents x) (es_lblk es' + es_len es') l2 ->
  (forall b, covers es' b <-> covers new b \/ covers es b) ->
  (forall b, covers new b -> value es' b = value new b) -> (forall b, covers es b -> value es' b = value es b) ->
  let x' := x <| extents ::= <[n := es']> |> in
  becomes i x' s (s <| es_inodes ::= <[i := x']> |>) /\ ok (extents x') (inorder (root x')) /\ adds x new x'.
Proof.
  intros Hc Hi El Hn V Hd H1 H2 C A B x'. split; [by eapply becomes_extent|].
  pose proof Hok as Hok0. rewrite El in Hok0. split.
  - cbn. rewrite El. by apply ok_replace.
  - intros b v. unfold tree_says. cbn. rewrite El, (says_replace _ _ _ _ es) by done. rewrite C. split.
    + intros [[[Hc'|Hc'] ->]|[Hs _]]; [left; split; [done|auto]| |by right].
      right. rewrite B by done. eapply says_self; [|done|done]. apply elem_of_app. right. by left.
    + intros [[Hc' ->]|Hs]; [left; split; [by left|by rewrite A]|].
      destruct (decide (covers es b)) as [Hc'|Hc']; [|by right]. left. split; [by right|]. rewrite B by done.
      eapply says_unique; [exact Hok0|done|]. eapply says_self; [|done|done]. apply elem_of_app. right. by left.
Qed.

(** The three ways to place [new]; the result is the extent it ended up in. *)
Definition placed (i : positive) (x : es_inode) (new : extent_status) (s : es_state) (r : option es_id) (s' : es_state) : Prop :=
  match r with
  | None => exists rest, allocs s = false :: rest /\ s' = s <| allocs := rest |>
  | Some n => exists x', becomes i x' s s' /\ n ∈ inorder (root x') /\ ok (extents x') (inorder (root x')) /\ adds x new x' /\
      i_es_all_nr x' <= i_es_all_nr x + 1
  end.

Lemma placed_merge i x x1 new s n s' :
  becomes i x1 s (s <| es_inodes ::= <[i := x1]> |>) -> adds x new x1 -> i_es_all_nr x1 = i_es_all_nr x ->
  merges i x1 (s <| es_inodes ::= <[i := x1]> |>) n s' -> placed i x new s (Some n) s'.
Proof.
  intros Hb Ha Ea (x' & Hb' & Hn & Hok & Hs & Ea'). exists x'. split_and!; try done; [by eapply becomes_trans| |lia].
  intros b v. rewrite Hs. apply Ha.
Qed.

Lemma insert_before s i x new n es :
  es_counts s -> es_inodes s !! i = Some x -> ok (extents x) (inorder (root x)) -> valid new -> apart (extents x) new (inorder (root x)) ->
  n ∈ inorder (root x) -> extents x !! n = Some es -> ext4_es_can_be_merged new es = true ->
  wp (modify_extent i n (before_es new) ;;; m <- ext4_es_try_to_merge_left i n ;; kret (Some m)) (placed i x new s) s.
Proof.
  intros Hc Hi Hok Hnew Hap Hn He Em. pose proof Hn as (l1 & l2 & El)%list_elem_of_split.
  destruct (ok_at _ _ _ Hok Hn) as (es' & He' & V). simplify_eq.
  destruct (before_es_valid new es Hnew V Em) as (V' & Hd & El' & Ee' & C & A & B). destruct (merge_sound _ _ Hnew V Em) as (_ & Ec & _).
  pose proof Hok as Hok0. rewrite El in Hok0. destruct (ok_around _ _ _ _ _ Hok0 He) as [B1 B2].
  assert (ends_by (extents x) (es_lblk new) l1) as B1'.
  { intros m em Hm Hem. assert (m ∈ inorder (root x)) as Hm' by (rewrite El; apply elem_of_app; by left).
    pose proof (B1 m em Hm Hem). destruct (Hap m em Hm' Hem); [done|].
    destruct (ok_at _ _ _ Hok Hm') as (em' & Hem' & [Hvl Hvn _ _ _ _]). simplify_eq. lia. }
  destruct (grow_spec s i x l1 n l2 es (before_es new es) new Hok) as (Hb & Hok' & Ha); try done; [by rewrite El'|by rewrite Ee'|].
  do 3 es_step. eapply wp_mono; [apply try_to_merge_left_spec; [apply Hb|by eapply becomes_lookup|done|done]|].
  cbn beta. intros m s' Hm. es_step. eapply placed_merge; [exact Hb|exact Ha|done|exact Hm].
Qed.

Lemma insert_after s i x new n es :
  es_counts s -> es_inodes s !! i = Some x -> ok (extents x) (inorder (root x)) -> valid new -> apart (extents x) new (inorder (root x)) ->
  n ∈ inorder (root x) -> extents x !! n = Some es -> ext4_es_can_be_merged es new = true ->
  wp (modify_extent i n (fun es => es <| es_len := u32 (es_len es + es_len new) |>) ;;; m <- ext4_es_try_to_merge_right i n ;; kret (Some m))
    (placed i x new s) s.
Proof.
  intros Hc Hi Hok Hnew Hap Hn He Em. pose proof Hn as (l1 & l2 & El)%list_elem_of_split.
  destruct (ok_at _ _ _ Hok Hn) as (es' & He' & V). simplify_eq. destruct (merge_sound _ _ V Hnew Em) as (_ & Ec & _).
  set (es1 := es <| es_len := u32 (es_len es + es_len new) |>).
  destruct (merged_valid es new es1 V Hnew Em) as (V' & En & C & A & B); try done; [apply V|].
  pose proof Hok as Hok0. rewrite El in Hok0. destruct (ok_around _ _ _ _ _ Hok0 He) as [B1 B2].
  assert (starts_from (extents x) (es_lblk new + es_len new) l2) as B2'.
  { intros m em Hm Hem. assert (m ∈ inorder (root x)) as Hm' by (rewrite El; apply elem_of_app; right; by right).
    pose proof (B2 m em Hm Hem). destruct (Hap m em Hm' Hem); [|done].
    destruct (ok_at _ _ _ Hok Hm') as (em' & Hem' & [Hvl Hvn _ _ _ _]). simplify_eq. lia. }
  destruct (grow_spec s i x l1 n l2 es es1 new Hok) as (Hb & Hok' & Ha); try done.
  { rewrite En. change (es_lblk es1) with (es_lblk es). by replace (es_lblk es + (es_len es + es_len new)) with (es_lblk new + es_len new) by lia. }
  { intros b. rewrite C. tauto. }
  do 3 es_step. eapply wp_mono; [apply try_to_merge_right_spec; [apply Hb|by eapply becomes_lookup|done|done]|].
  cbn beta. intros m s' Hm. es_step. eapply placed_merge; [exact Hb|exact Ha|done|exact Hm].
Qed.

Lemma insert_link s i x new path l1 l2 :
  es_counts s -> es_inodes s !! i = Some x -> ok (extents x) (inorder (root x)) -> valid new ->
  inorder (root x) = l1 ++ l2 -> (forall n, inorder (rb_link_node n path (root x)) = l1 ++ n :: l2) ->
  ends_by (extents x) (es_lblk new) l1 -> starts_from (extents x) (es_lblk new + es_len new) l2 ->
  wp (add_node i new path) (placed i x new s) s.
Proof.
  intros Hc Hi Hok Hnew El Hp H1 H2. rewrite El in Hok.
  assert (forall n, n ∉ l1 ++ l2 -> ok (<[n := new]> (extents x)) (l1 ++ n :: l2)) as Hok' by (intros n Hn; by apply ok_insert).
  eapply wp_mono; [apply (add_node_spec s i x new path l1 l2); try done|].
  { set (n := fresh (l1 ++ l2)). assert (n ∉ l1 ++ l2) as Hn by apply infinite_is_fresh.
    pose proof (ok_bound _ _ (Hok' n Hn)) as Hb. rewrite !length_app in *. cbn in Hb. lia. }
  cbn beta. intros [n|] s' Hr; [|done]. destruct Hr as (Hn & Hc' & Ei & Eal). exists (added x n new path).
  assert (inorder (root (added x n new path)) = l1 ++ n :: l2) as Ea by (cbn; by rewrite rb_insert_color_order).
  split_and!; [split; [done|done|by rewrite Eal; intros ->]|rewrite Ea; apply elem_of_app; right; by left|rewrite Ea; by apply Hok'| |done].
  intros b v. unfold tree_says. rewrite Ea, El. by apply says_insert.
Qed.

(** The outcomes of [__es_insert_extent]. *)
Definition inserted (i : positive) (x : es_inode) (new : extent_status) (s : es_state) (r : Z) (s' : es_state) : Prop :=
  (r = 0 /\ exists x', becomes i x' s s' /\ tree_ok x' /\ adds x new x' /\ i_es_all_nr x' <= i_es_all_nr x + 1) \/
  (r = - ENOMEM /\ exists rest, allocs s = false :: rest /\ s' = s <| allocs := rest |>).

Lemma insert_spec s i x new :
  es_counts s -> es_inodes s !! i = Some x -> ok (extents x) (inorder (root x)) -> valid new -> apart (extents x) new (inorder (root x)) ->
  wp (__es_insert_extent i new) (inserted i x new s) s.
Proof.
  intros Hc Hi Hok Hnew Hap. unfold __es_insert_extent. do 3 es_step. eapply wp_mono; [by apply find_spot_spec|].
  cbn beta. intros sp s0 [-> Hsp]. es_step. eapply (wp_mono _ (placed i x new s)).
  { destruct sp as [n|n|path].
    - destruct Hsp as (es & Hn & He & Em). by apply (insert_before s i x new n es).
    - destruct Hsp as (es & Hn & He & Em). by apply (insert_after s i x new n es).
    - destruct Hsp as (l1 & l2 & El & Hp & H1 & H2). by apply (insert_link s i x new path l1 l2). }
  cbn beta. intros [n|] s' Hr; [|es_step; by right]. destruct Hr as (x' & Hb & Hn & Hok' & Ha & Ea).
  pose proof (becomes_lookup _ _ _ _ Hb) as Hi'. es_step. eapply wp_modify_ei; [exact Hi'|]. es_step. left. split; [done|].
  exists (x' <| cache_es := Some n |>). split_and!; [|split; [done|by intros m [= <-]]|done|done].
  eapply becomes_trans; [exact Hb|]. eapply becomes_set; [apply Hb|exact Hi'| |done|done].
  destruct (ec_inode _ (be_counts _ _ _ _ Hb) _ _ Hi'). by split.
Qed.
End Insert.
