(* ===== verification/ExtentShrink.v ===== *)
(** * The shrinker of the extent status tree

    [es_reclaim_extents] and [__es_shrink]: what they take back, and what they must leave. *)
From stdpp Require Import sorting.
From S2P Require Import Prelude Log ExtentStatus ExtentMap ExtentTree ExtentOps.

(** ** Losing extents *)

(** A map that lost blocks, but no delayed one. *)
Record keeps_delayed (x x' : es_inode) : Prop := {
  kd_sub b v : tree_says x' b v -> tree_says x b v;
  kd_delayed b v : tree_says x b v -> is_delayed_value v = true -> tree_says x' b v;
}.

#[export] Instance keeps_delayed_preorder : PreOrder keeps_delayed.
Proof. split; [done|]. intros x1 x2 x3 [A1 B1] [A2 B2]. split; eauto. Qed.

(** Inode [i], at first [x], lost [k] extents. *)
Record loses (i : positive) (x : es_inode) (k : Z) (s : es_state) (x' : es_inode) (s' : es_state) : Prop := {
  lo_becomes : becomes i x' s s';
  lo_ok : ok (extents x') (inorder (root x'));
  lo_delayed : keeps_delayed x x';
  lo_all : i_es_all_nr x' = i_es_all_nr x - k;
  lo_pos : 0 <= k;
}.

Lemma loses_trans i x k1 s x1 s1 k2 x2 s2 : loses i x k1 s x1 s1 -> loses i x1 k2 s1 x2 s2 -> loses i x (k1 + k2) s x2 s2.
Proof. intros [A1 B1 C1 D1 E1] [A2 B2 C2 D2 E2]. split; [by eapply becomes_trans|done|by etrans|lia|lia]. Qed.

(** A change of the inode that does not concern its extents. *)
Lemma loses_set s i x x' :
  es_counts s -> es_inodes s !! i = Some x -> ok (extents x) (inorder (root x)) -> root x' = root x -> extents x' = extents x ->
  i_es_all_nr x' = i_es_all_nr x -> i_es_shk_nr x' = i_es_shk_nr x -> loses i x 0 s x' (s <| es_inodes ::= <[i := x']> |>).
Proof.
  intros Hc Hi Hok Er Ee Ea Es. destruct (ec_inode _ Hc _ _ Hi) as [C1 C2 C3 C4 C5]. split; [|by rewrite Er, Ee| |lia|lia].
  - eapply becomes_set; [done|done| |done|done]. split; by rewrite ?Er, ?Ee, ?Ea, ?Es.
  - split; unfold tree_says; by rewrite Er, Ee.
Qed.

(** A change of one extent's flags. *)
Lemma loses_flags s i x n es es' :
  es_counts s -> es_inodes s !! i = Some x -> ok (extents x) (inorder (root x)) -> n ∈ inorder (root x) -> extents x !! n = Some es ->
  valid es' -> es_lblk es' = es_lblk es -> es_len es' = es_len es -> ext4_es_type es' = ext4_es_type es ->
  ext4_es_pblock es' = ext4_es_pblock es ->
  let x' := x <| extents ::= <[n := es']> |> in
  loses i x 0 s x' (s <| es_inodes ::= <[i := x']> |>) /\ (forall b v, tree_says x' b v <-> tree_says x b v).
Proof.
  intros Hc Hi Hok (l1 & l2 & El)%list_elem_of_split He V E1 E2 E3 E4 x'.
  assert (forall b, value es' b = value es b) as Ev by (intros b; unfold value; by rewrite E1, E3, E4, (mapped_type es es' E3)).
  assert (forall b, covers es' b <-> covers es b) as Ecv by (intros b; unfold covers; by rewrite E1, E2).
  pose proof Hok as Hok0. rewrite El in Hok0. destruct (ok_around _ _ _ _ _ Hok0 He) as [B1 B2].
  destruct (grow_spec s i x l1 n l2 es es' es' Hok) as (Hb & Hok' & Ha); try done;
    [by apply delayed_type|by rewrite E1|by rewrite E1, E2|intros b; rewrite Ecv; tauto|].
  assert (forall b v, tree_says x' b v <-> tree_says x b v) as Hs.
  { intros b v. etrans; [apply Ha|]. split; [|by right]. intros [[Hc' ->]|]; [|done]. rewrite Ev. apply (says_self _ _ n); [|done|by apply Ecv].
    rewrite El. apply elem_of_app. right. by left. }
  split; [|done]. split; [done|done| |cbn; lia|lia]. split; intros b v; rewrite Hs; auto.
Qed.

Section Shrink.
Context `{Rebalance}.

(** Erasing an extent that is not delayed. *)
Lemma loses_erase s i x l1 n l2 es :
  es_counts s -> es_inodes s !! i = Some x -> ok (extents x) (inorder (root x)) -> inorder (root x) = l1 ++ n :: l2 ->
  extents x !! n = Some es ->
  wp (erase_free i n) (fun _ s' => exists x', becomes i x' s s' /\ inorder (root x') = l1 ++ l2 /\ ok (extents x') (inorder (root x')) /\
    extents x' = delete n (extents x) /\ i_es_all_nr x' = i_es_all_nr x - 1 /\ cache_es x' = cache_es x /\ allocs s' = allocs s /\
    forall b v, tree_says x' b v <-> tree_says x b v /\ ~ covers es b) s.
Proof.
  intros Hc Hi Hok El He. eapply wp_mono; [by apply (erase_free_spec s i x l1 n l2 es)|]. cbn beta. intros _ s' (Hc' & Ei & Eal).
  exists (erased x n es). destruct (erased_counted x l1 n l2 es) as [_ El']; [by eapply (ec_inode s)|done|done|].
  rewrite El in Hok. split_and!; try done.
  - split; [done|done|by rewrite Eal].
  - rewrite El'. cbn. by apply ok_delete.
  - intros b v. unfold tree_says. rewrite El', El. by apply says_delete.
Qed.

Lemma loses_undelayed s i x l1 n l2 es :
  es_counts s -> es_inodes s !! i = Some x -> ok (extents x) (inorder (root x)) -> inorder (root x) = l1 ++ n :: l2 ->
  extents x !! n = Some es -> ext4_es_is_delayed es = false ->
  wp (erase_free i n) (fun _ s' => exists x', loses i x 1 s x' s' /\ inorder (root x') = l1 ++ l2) s.
Proof.
  intros Hc Hi Hok El He Hd. eapply wp_mono; [by apply (loses_erase s i x l1 n l2 es)|]. cbn beta.
  intros _ s' (x' & Hb & El' & Hok' & _ & Ea & _ & _ & Hs). exists x'. split; [|done]. split; [done|done| |done|lia]. split.
  - intros b v. rewrite Hs. by intros [? _].
  - intros b v Hv Hdv. rewrite Hs. split; [done|]. intros Hcov.
    assert (v = value es b) as ->; [|by rewrite delayed_value, Hd in Hdv].
    eapply says_unique; [exact Hok|exact Hv|]. eapply says_self; [|done|done]. rewrite El. apply elem_of_app. right. by left.
Qed.

(** ** Reclaiming from one inode *)

(** From budget [nr] to budget [nr'], [k] extents reclaimed. *)
Definition scanned (nr nr' k : Z) : Prop := k <= nr - nr' /\ (0 <= nr -> 0 <= nr').

Lemma reclaim_loop_spec i stop l : forall s x l1 nr shrunk,
  es_counts s -> es_inodes s !! i = Some x -> ok (extents x) (inorder (root x)) -> inorder (root x) = l1 ++ l ->
  wp (reclaim_loop i stop l nr shrunk) (fun r s' => exists x', loses i x (r.2 - shrunk) s x' s' /\ scanned nr r.1.2 (r.2 - shrunk)) s.
Proof.
  induction l as [|n l IH]; intros s x l1 nr shrunk Hc Hi Hok El; cbn [reclaim_loop].
  - do 3 es_step. cbn. rewrite Z.sub_diag. eexists. split; [by apply loses_set|unfold scanned; lia].
  - pose proof Hok as Hok0. rewrite El in Hok0. destruct (ok_mid _ _ _ _ Hok0) as (es & He & V).
    assert (inorder (root x) = (l1 ++ [n]) ++ l) as El' by by rewrite <-app_assoc.
    assert (forall k s1 x1 m, loses i x k s x1 s1 -> 0 <= k <= 1 -> inorder (root x1) = m ++ l -> 0 < nr ->
      wp (reclaim_loop i stop l (nr - 1) (shrunk + k))
        (fun r s' => exists x', loses i x (r.2 - shrunk) s x' s' /\ scanned nr r.1.2 (r.2 - shrunk)) s1) as Hnext.
    { intros k s1 x1 m Hlo Hk Em Hnr. eapply wp_mono; [eapply (IH s1 x1 m); [apply Hlo|eapply becomes_lookup, Hlo|apply Hlo|done]|].
      cbn beta. intros r s' (x' & Hlo' & Hsc). exists x'. pose proof (loses_trans _ _ _ _ _ _ _ _ _ Hlo Hlo') as Ht.
      replace (k + (r.2 - (shrunk + k))) with (r.2 - shrunk) in Ht by lia. split; [done|]. unfold scanned in *. lia. }
    do 2 es_step. destruct (Z.ltb_spec 0 nr) as [Hnr|Hnr]; cbn [negb].
    2: { do 3 es_step. cbn. rewrite Z.sub_diag. eexists. split; [by apply loses_set|unfold scanned; lia]. }
    destruct (stop <? es_lblk es).
    { do 3 es_step. cbn. rewrite Z.sub_diag. eexists. split; [by apply loses_set|unfold scanned; lia]. }
    destruct (ext4_es_is_delayed es) eqn:Hd; [|destruct (ext4_es_is_referenced es)].
    + assert (loses i x 0 s x s) as Hlo by (split; [by apply becomes_refl|done|done|lia|lia]). specialize (Hnext 0 s x (l1 ++ [n]) Hlo). rewrite Z.add_0_r in Hnext. apply Hnext; [lia|done|done].
    + destruct (clear_referenced_same es V) as (V' & E1 & E2 & E3 & E4).
      destruct (loses_flags s i x n es (ext4_es_clear_referenced es) Hc Hi Hok) as [Hlo _]; try done; [rewrite El; apply elem_of_app; right; by left|].
      do 2 es_step. specialize (Hnext 0 _ _ (l1 ++ [n]) Hlo). rewrite Z.add_0_r in Hnext. apply Hnext; [lia|done|done].
    + es_step. eapply wp_mono; [by apply (loses_undelayed s i x l1 n l es)|]. cbn beta. intros _ s1 (x1 & Hlo & Em).
      by eapply Hnext; [exact Hlo|lia|exact Em|].
Qed.

Lemma from_node_split n l1 l2 : n ∉ l1 -> from_node n (l1 ++ n :: l2) = n :: l2.
Proof.
  induction l1 as [|m l1 IH]; intros Hn; cbn; [by rewrite bool_decide_true|].
  apply not_elem_of_cons in Hn as [Hne Hn]. rewrite bool_decide_false by (by intros ->). auto.
Qed.

Lemma do_reclaim_spec i stop s x nr shrunk :
  es_counts s -> es_inodes s !! i = Some x -> ok (extents x) (inorder (root x)) ->
  wp (es_do_reclaim_extents i stop nr shrunk)
    (fun r s' => exists x', loses i x (r.2 - shrunk) s x' s' /\ scanned nr r.1.2 (r.2 - shrunk)) s.
Proof.
  intros Hc Hi Hok. unfold es_do_reclaim_extents. do 3 es_step. eapply wp_mono; [by apply tree_search_spec|].
  cbn beta. intros r s0 (-> & l1 & l2 & El & -> & _). destruct l2 as [|n l2]; cbn [head].
  - do 3 es_step. cbn. rewrite Z.sub_diag. eexists. split; [by apply loses_set|unfold scanned; lia].
  - rewrite El, from_node_split; [by eapply reclaim_loop_spec|]. rewrite El in Hok. apply ok_notin in Hok.
    intros Hin. apply Hok, elem_of_app. by left.
Qed.

Lemma reclaim_spec i s x nr :
  es_counts s -> es_inodes s !! i = Some x -> tree_ok x ->
  wp (es_reclaim_extents i nr)
    (fun r s' => exists x', loses i x r.2 s x' s' /\ tree_ok x' /\ scanned nr r.1 r.2) s.
Proof.
  intros Hc Hi [Hok Hca]. unfold es_reclaim_extents. do 2 es_step. destruct (i_es_shk_nr x =? 0).
  { es_step. exists x. split; [|by split; [|unfold scanned; cbn; lia]]. split; [by apply becomes_refl|done|done|cbn; lia|done]. }
  es_step. eapply wp_mono; [by apply do_reclaim_spec|]. cbn beta. intros [[ex nr1] k1] s1 (x1 & Hlo & Hsc). cbn in Hlo, Hsc.
  rewrite Z.sub_0_r in Hlo, Hsc. es_step.
  eapply (wp_mono _ (fun r s' => exists x', loses i x r.2 s x' s' /\ scanned nr r.1.2 r.2)).
  { destruct (negb ex && _); [|es_step; by exists x1].
    eapply wp_mono; [eapply do_reclaim_spec; [apply Hlo|eapply becomes_lookup, Hlo|apply Hlo]|]. cbn beta.
    intros r s' (x' & Hlo' & Hsc'). exists x'. pose proof (loses_trans _ _ _ _ _ _ _ _ _ Hlo Hlo') as Ht.
    replace (k1 + (r.2 - k1)) with r.2 in Ht by lia. split; [done|]. unfold scanned in *. lia. }
  cbn beta. intros [[ex' nr'] k'] s2 (x2 & Hlo2 & Hsc2). cbn in Hlo2, Hsc2. pose proof (becomes_lookup _ _ _ _ (lo_becomes _ _ _ _ _ _ Hlo2)) as Hi2.
  es_step. eapply wp_modify_ei; [exact Hi2|]. es_step. cbn. exists (x2 <| cache_es := None |>). split_and!; [|split; [apply Hlo2|done]|done].
  rewrite <-(Z.add_0_r k'). eapply loses_trans; [exact Hlo2|]. eapply loses_set; [apply Hlo2|exact Hi2|apply Hlo2|done..].
Qed.

(** ** The walk over the inodes *)

(** The file system lost [k] extents and no delayed block. *)
Record shrinks (k : Z) (s s' : es_state) : Prop := {
  sh_ok : es_ok s';
  sh_inodes i x : es_inodes s !! i = Some x -> exists x', es_inodes s' !! i = Some x' /\ keeps_delayed x x';
  sh_dom i : es_inodes s !! i = None -> es_inodes s' !! i = None;
  sh_all : es_stats_all_cnt s' = es_stats_all_cnt s - k;
  sh_pos : 0 <= k;
}.

Lemma shrinks_refl s : es_ok s -> shrinks 0 s s.
Proof. intros Hok. split; [done| |done|lia|lia]. intros i x Hi. by exists x. Qed.

Lemma shrinks_trans k1 k2 s1 s2 s3 : shrinks k1 s1 s2 -> shrinks k2 s2 s3 -> shrinks (k1 + k2) s1 s3.
Proof.
  intros [A1 B1 C1 D1 E1] [A2 B2 C2 D2 E2]. split; [done| |eauto|lia|lia]. intros i x Hi.
  destruct (B1 i x Hi) as (x1 & Hi1 & K1). destruct (B2 i x1 Hi1) as (x2 & Hi2 & K2). exists x2. split; [done|]. by etrans.
Qed.

Lemma loses_shrinks i x k s x' s' :
  es_ok s -> es_inodes s !! i = Some x -> loses i x k s x' s' -> tree_ok x' -> shrinks k s s'.
Proof.
  intros Hok Hi [Hb Hok' Hk Ha Hp] Ht. destruct Hok as [Hc Htr]. pose proof (be_inodes _ _ _ _ Hb) as Ei. split.
  - eapply becomes_ok; [by split|exact Hb|done].
  - intros j y Hj. rewrite Ei. destruct (decide (j = i)) as [->|Hne].
    + rewrite lookup_insert_eq. exists x'. by simplify_eq.
    + rewrite lookup_insert_ne by done. by exists y.
  - intros j Hj. rewrite Ei, lookup_insert_ne; [done|]. intros <-. congruence.
  - rewrite (ec_all _ (be_counts _ _ _ _ Hb)), (ec_all _ Hc), Ei, (total_set _ _ _ x) by done. lia.
  - done.
Qed.

(** Moving the first inode of [s_es_list] to its end. *)
Lemma rotate_shrinks s i rest : es_ok s -> s_es_list s = i :: rest -> shrinks 0 s (s <| s_es_list := rest ++ [i] |>).
Proof.
  intros [[H1 H2 H3 H4 H5 H6 H7] Ht] El. rewrite El in *.
  assert (i :: rest ≡ₚ rest ++ [i]) as Hp by apply Permutation_cons_append.
  split; [|by intros j y Hj; exists y|done|cbn; lia|lia]. split; [|done]. split; cbn; try done.
  - intros j y Hj. rewrite <-Hp. eauto.
  - intros j. rewrite <-Hp. auto.
  - by rewrite <-Hp.
  - by rewrite <-(Permutation_length Hp).
Qed.

Lemma shrink_walk_spec trylock locked retried n : forall s nr shrunk skipped,
  es_ok s ->
  wp (shrink_walk trylock locked retried n nr shrunk skipped)
    (fun r s' => shrinks (r.1.1.2 - shrunk) s s' /\ scanned nr r.1.1.1 (r.1.1.2 - shrunk)) s.
Proof.
  induction n as [|n IH]; intros s nr shrunk skipped Hok; cbn [shrink_walk].
  { es_step. cbn. rewrite Z.sub_diag. split; [by apply shrinks_refl|unfold scanned; lia]. }
  do 2 es_step. destruct (s_es_list s) as [|i rest] eqn:El.
  { es_step. cbn. rewrite Z.sub_diag. split; [by apply shrinks_refl|unfold scanned; lia]. }
  pose proof (rotate_shrinks s i rest Hok El) as Hrot. set (s1 := s <| s_es_list := rest ++ [i] |>) in *.
  destruct (ec_live _ (eo_counts _ Hok) i) as [x Hi]; [rewrite El; by left|]. do 2 es_step. fold s1. es_step.
  assert (es_inodes s1 !! i = Some x) as Hi1 by done. eapply wp_read_ei; [exact Hi1|].
  assert (forall k s2 nr2 skipped2, shrinks k s s2 -> scanned nr nr2 k ->
    wp (shrink_walk trylock locked retried n nr2 (shrunk + k) skipped2)
      (fun r s' => shrinks (r.1.1.2 - shrunk) s s' /\ scanned nr r.1.1.1 (r.1.1.2 - shrunk)) s2) as Hnext.
  { intros k s2 nr2 skipped2 Hsh Hsc. eapply wp_mono; [apply IH, Hsh|]. cbn beta. intros r s' [Hsh' Hsc'].
    pose proof (shrinks_trans _ _ _ _ _ Hsh Hsh') as Ht. replace (k + (r.1.1.2 - (shrunk + k))) with (r.1.1.2 - shrunk) in Ht by lia.
    split; [done|]. unfold scanned in *. lia. }
  destruct (_ || _).
  { rewrite <-(Z.add_0_r shrunk) at 1. apply Hnext; [done|unfold scanned; lia]. }
  es_step. eapply wp_mono; [eapply reclaim_spec; [apply Hrot|exact Hi1|by eapply Hok]|]. cbn beta. intros [nr2 k] s2 (x' & Hlo & Ht & Hsc).
  cbn in Hlo, Hsc |- *. assert (shrinks k s s2) as Hsh.
  { change k with (0 + k). eapply shrinks_trans; [exact Hrot|]. eapply loses_shrinks; [apply Hrot|exact Hi1|exact Hlo|done]. }
  destruct (nr2 <=? 0); [|by apply Hnext]. es_step. cbn. by replace (shrunk + k - shrunk) with k by lia.
Qed.

Lemma es_shrink_spec trylock nr locked s :
  es_ok s -> (forall i, locked = Some i -> is_Some (es_inodes s !! i)) -> 0 <= nr ->
  wp (__es_shrink trylock nr locked) (fun k s' => shrinks k s s' /\ k <= nr) s.
Proof.
  intros Hok Hlk Hnr. unfold __es_shrink. do 3 es_step. eapply wp_mono; [by apply shrink_walk_spec|].
  cbn beta. intros [[[nr1 k1] sk1] out1] s1 [Hsh1 Hsc1]. cbn in Hsh1, Hsc1. rewrite Z.sub_0_r in Hsh1, Hsc1.
  destruct out1; [es_step; unfold scanned in Hsc1; split; [done|lia]|]. es_step.
  eapply (wp_mono _ (fun r s' => shrinks r.1.1.2 s s' /\ scanned nr r.1.1.1 r.1.1.2)).
  { destruct (_ && _); [|by es_step]. do 2 es_step. eapply wp_mono; [apply shrink_walk_spec, Hsh1|]. cbn beta. intros r s2 [Hsh2 Hsc2].
    pose proof (shrinks_trans _ _ _ _ _ Hsh1 Hsh2) as Ht. replace (k1 + (r.1.1.2 - k1)) with r.1.1.2 in Ht by lia.
    split; [done|]. unfold scanned in *. lia. }
  cbn beta. intros [[[nr2 k2] sk2] out2] s2 [Hsh2 Hsc2]. cbn in Hsh2, Hsc2.
  assert (shrinks k2 s s2 /\ k2 <= nr) as Hdone by (unfold scanned in *; split; [done|lia]).
  destruct out2; [by es_step|]. destruct locked as [i|]; [|by es_step]. destruct (Z.eqb_spec k2 0) as [->|_]; [|by es_step].
  destruct (Hlk i eq_refl) as [x Hi]. destruct (sh_inodes _ _ _ Hsh2 i x Hi) as (x2 & Hi2 & _).
  es_step. eapply wp_mono; [eapply reclaim_spec; [apply Hsh2|exact Hi2|by eapply (sh_ok _ _ _ Hsh2)]|]. cbn beta.
  intros [nr3 k] s3 (x' & Hlo & Ht & Hsc). es_step. cbn in *. split; [|unfold scanned in *; lia].
  change k with (0 + k). eapply shrinks_trans; [exact Hsh2|]. eapply loses_shrinks; [apply Hsh2|exact Hi2|exact Hlo|done].
Qed.
End Shrink.
