(* ===== verification/ExtentRemove.v ===== *)
(** * Removal from the extent status tree

    [__es_remove_extent]: cutting and erasing extents until nothing is known about a range of blocks, and the way back when
    there is no memory for the extent behind the range. *)
From stdpp Require Import sorting.
From S2P Require Import Prelude Log ExtentStatus ExtentMap ExtentTree ExtentOps ExtentShrink.

(** ** Cleared ranges *)

(** Exactly the blocks from [lo] to [hi] are gone. *)
Definition cleared (lo hi : Z) (x x' : es_inode) : Prop :=
  forall b v, tree_says x' b v <-> tree_says x b v /\ ~ lo <= b <= hi.

(** Only blocks from [lo] to [hi] are gone. *)
Record clears_in (lo hi : Z) (x x' : es_inode) : Prop := {
  ci_sub b v : tree_says x' b v -> tree_says x b v;
  ci_keep b v : tree_says x b v -> ~ lo <= b <= hi -> tree_says x' b v;
}.

#[export] Instance clears_in_preorder lo hi : PreOrder (clears_in lo hi).
Proof. split; [done|]. intros x1 x2 x3 [A1 B1] [A2 B2]. split; eauto. Qed.

(** The extents before and behind the range say nothing about it. *)
Lemma gap_silent h l1 l2 lo hi b v : ends_by h lo l1 -> starts_from h (hi + 1) l2 -> says h (l1 ++ l2) b v -> ~ lo <= b <= hi.
Proof.
  intros H1 H2 (n & es & [Hn|Hn]%elem_of_app & He & Hc & _); unfold covers in Hc; [pose proof (H1 n es Hn He)|pose proof (H2 n es Hn He)]; lia.
Qed.

Lemma cleared_intro lo hi x x' l1 l2 :
  clears_in lo hi x x' -> inorder (root x') = l1 ++ l2 -> ends_by (extents x') lo l1 -> starts_from (extents x') (hi + 1) l2 ->
  cleared lo hi x x'.
Proof.
  intros [Hs Hk] El H1 H2 b v. split; [|intros [? ?]; auto]. intros Hv. split; [auto|]. unfold tree_says in Hv. rewrite El in Hv.
  by eapply gap_silent.
Qed.

(** Making an extent smaller. *)
Lemma cut_spec s i x l1 n l2 es es' :
  es_counts s -> es_inodes s !! i = Some x -> ok (extents x) (inorder (root x)) -> inorder (root x) = l1 ++ n :: l2 ->
  extents x !! n = Some es -> valid es' -> ext4_es_type es' = ext4_es_type es -> (forall b, value es' b = value es b) ->
  es_lblk es <= es_lblk es' -> es_lblk es' + es_len es' <= es_lblk es + es_len es ->
  let x' := x <| extents ::= <[n := es']> |> in
  becomes i x' s (s <| es_inodes ::= <[i := x']> |>) /\ ok (extents x') (inorder (root x')) /\
  forall b v, tree_says x' b v <-> tree_says x b v /\ (covers es b -> covers es' b).
Proof.
  intros Hc Hi Hok El He V Et Ev Hlo Hhi x'. split; [by eapply becomes_extent; [..|apply delayed_type]|].
  pose proof Hok as Hok0. rewrite El in Hok0. destruct (ok_around _ _ _ _ _ Hok0 He) as [B1 B2]. split.
  - cbn. rewrite El. apply ok_replace; [done|done|..]; intros m em Hm Hem; [pose proof (B1 m em Hm Hem)|pose proof (B2 m em Hm Hem)]; lia.
  - intros b v. unfold tree_says. cbn. rewrite El, (says_replace _ _ _ _ es) by done.
    assert (covers es b -> says (extents x) (l1 ++ n :: l2) b (value es b)) as Hself.
    { intros Hcv. eapply says_self; [|done|done]. apply elem_of_app. right. by left. }
    split.
    + intros [[Hcv ->]|[Hs Hn]]; [|tauto]. rewrite Ev. split; [|done]. apply Hself. unfold covers in *. lia.
    + intros [Hs Himp]. destruct (decide (covers es b)) as [Hcv|Hcv]; [|by right]. left. split; [auto|]. rewrite Ev.
      eapply says_unique; [exact Hok0|done|auto].
Qed.

(** The extent for the blocks behind the range. *)
Definition tail_es (es : extent_status) (stop len2 : Z) : extent_status :=
  mk_es (u32 (stop + 1)) len2
    (pblock_status (if mapped_es es then u64 (ext4_es_pblock es + es_len es - len2) else ES_DEADBEEF) (ext4_es_status es)).

Lemma status_type es : is_u64 (es_pblk es) -> 0 <= ext4_es_status es < 32 /\ ext4_es_status es mod 16 = ext4_es_type es.
Proof.
  intros [Hp Hlt]. split.
  - unfold ext4_es_status, ES_SHIFT. rewrite Z.shiftr_div_pow2 by lia. change (2 ^ 59) with 576460752303423488. split; [apply Z.div_pos; lia|].
    apply Z.div_lt_upper_bound; lia.
  - apply Z.bits_inj'. intros k Hk. rewrite testbit_type by lia. change 16 with (2 ^ 4). unfold ext4_es_status, ES_SHIFT.
    destruct (Z.ltb_spec k 4); cbn [andb]; [rewrite Z.mod_pow2_bits_low, Z.shiftr_spec by lia; done|by rewrite Z.mod_pow2_bits_high by lia].
Qed.

Lemma mapped_types es : valid es -> mapped_es es = bool_decide (ext4_es_type es ∈ [1; 2; 6]).
Proof.
  intros [_ _ _ _ Ht _]. unfold mapped_es, ext4_es_is_written, ext4_es_is_unwritten. unfold es_types in Ht.
  repeat (apply elem_of_cons in Ht as [Ht|Ht]; [rewrite Ht; by vm_compute|]). by apply elem_of_nil in Ht.
Qed.

Lemma tail_es_valid es stop len2 :
  valid es -> es_lblk es <= stop -> 0 < len2 -> stop + 1 + len2 = es_lblk es + es_len es ->
  let new := tail_es es stop len2 in
  valid new /\ es_lblk new = stop + 1 /\ es_len new = len2 /\ (forall b, value new b = value es b).
Proof.
  intros V Hst Hlen Hend new. pose proof V as [Vl Vn Ve Vp Vt Vph]. unfold EXT_MAX_BLOCKS in *. pose proof (pblock_range es) as Hpb.
  destruct (status_type es Vp) as [Hs Ety]. pose proof (mapped_types es V) as Em.
  unfold new, tail_es. rewrite u32_id by (unfold is_u32; lia).
  set (block := if mapped_es es then _ else _).
  assert (mapped_es es = true -> block = ext4_es_pblock es + es_len es - len2) as Ebl.
  { intros Hm. unfold block. rewrite Hm. apply u64_id. specialize (Vph Hm). unfold is_u64. lia. }
  assert (0 <= block) as Hb0 by (unfold block; case_match; [apply u64_range|by vm_compute]).
  destruct (new_valid (stop + 1) len2 block (ext4_es_status es)) as (V' & _ & _ & Ev); rewrite ?Ety; unfold EXT_MAX_BLOCKS; try done; try lia.
  { intros Hin. rewrite bool_decide_true in Em by done. rewrite Ebl by done. specialize (Vph Em). lia. }
  split_and!; [exact V'|done|done|]. intros b. rewrite Ev, Ety. unfold value. rewrite Em. f_equal. destruct (bool_decide _) eqn:E; [|done].
  rewrite Ebl by congruence. f_equal. lia.
Qed.

Section Remove.
Context `{Rebalance}.

Lemma erase_until_spec i stop l : forall s x l1,
  es_counts s -> es_inodes s !! i = Some x -> ok (extents x) (inorder (root x)) -> inorder (root x) = l1 ++ l ->
  wp (erase_until i stop l) (fun r s' => exists x' l', becomes i x' s s' /\ inorder (root x') = l1 ++ l' /\
    ok (extents x') (inorder (root x')) /\ extents x' ⊆ extents x /\ sublist l' l /\ r = head l' /\ cache_es x' = cache_es x /\
    i_es_all_nr x' <= i_es_all_nr x /\
    (forall n es, head l' = Some n -> extents x' !! n = Some es -> stop < es_lblk es + es_len es - 1) /\
    (forall lo, starts_from (extents x) lo l -> clears_in lo stop x x')) s.
Proof.
  induction l as [|n l IH]; intros s x l1 Hc Hi Hok El; cbn [erase_until].
  { es_step. exists x, []. split_and!; try done. by apply becomes_refl. }
  pose proof Hok as Hok0. rewrite El in Hok0. destruct (ok_mid _ _ _ _ Hok0) as (es & He & V). do 2 es_step.
  destruct (Z.leb_spec (es_lblk es + es_len es - 1) stop) as [Hle|Hgt].
  - es_step. eapply wp_mono; [by apply (loses_erase s i x l1 n l es)|]. cbn beta.
    intros _ s1 (x1 & Hb1 & El1 & Hok1 & Ee1 & Ea1 & Eca & _ & Hs1).
    eapply wp_mono; [apply (IH s1 x1 l1); [apply Hb1|by eapply becomes_lookup|done|done]|]. cbn beta.
    intros r s2 (x2 & l' & Hb2 & El2 & Hok2 & Hsub & Hsl & Er & Eca2 & Ea2 & Hh & Hcl). exists x2, l'.
    split_and!; try done; [by eapply becomes_trans| | |congruence|lia|].
    + etrans; [exact Hsub|]. rewrite Ee1. apply delete_subseteq.
    + by apply sublist_cons.
    + intros lo Hlo. apply (starts_from_cons _ _ _ _ es He) in Hlo as [Hlo Hlol]. trans x1.
      * split; intros b v; rewrite Hs1; [tauto|]. intros Hv Hout. split; [done|]. unfold covers. lia.
      * apply Hcl. intros m em Hm Hem. rewrite Ee1 in Hem. apply lookup_delete_Some in Hem as [_ Hem]. eauto.
  - es_step. exists x, (n :: l). split_and!; try done; [by apply becomes_refl|]. intros m em [= <-] Hem. simplify_eq. lia.
Qed.

(** The rest of the removal when the extents of [l1] are before the range and those of [l] are not: the loop that erases, and the
    extent at the end of the range. *)
Definition clear_rest (i : positive) (stop : Z) (l : list es_id) : E (option Z) :=
  stays <- erase_until i stop l ;;
  match stays with
  | None => kret (Some 0)
  | Some n =>
    es <- read_es i n ;;
    (if es_lblk es <? u32 (stop + 1)
     then
       e <- es_end i n ;;
       modify_extent i n (cut_front (u32 (stop + 1)) (e - stop))
     else kret tt) ;;;
    kret (Some 0)
  end.

(** The map was cleared; what else callers need. *)
Definition clears (i : positive) (lo hi : Z) (x : es_inode) (s : es_state) (r : option Z) (s' : es_state) : Prop :=
  r = Some 0 /\ exists x', becomes i x' s s' /\ tree_ok x' /\ cleared lo hi x x' /\ i_es_all_nr x' <= i_es_all_nr x + 1.

(** Cutting the front of the extent that covers the range. *)
Lemma clears_front s i x l1 n l2 es lo stop :
  es_counts s -> es_inodes s !! i = Some x -> ok (extents x) (inorder (root x)) -> cache_es x = None -> inorder (root x) = l1 ++ n :: l2 ->
  extents x !! n = Some es -> ends_by (extents x) lo l1 -> lo <= es_lblk es <= stop -> stop < es_lblk es + es_len es - 1 ->
  clears i lo stop x s (Some 0)
    (s <| es_inodes ::= <[i := x <| extents ::= <[n := cut_front (u32 (stop + 1)) (es_lblk es + es_len es - 1 - stop) es]> |>]> |>).
Proof.
  intros Hc Hi Hok Hca El He H1 Hlo Hst. pose proof Hok as Hok0. rewrite El in Hok0.
  destruct (ok_mid _ _ _ _ Hok0) as (es' & He' & V). simplify_eq. destruct (ok_around _ _ _ _ _ Hok0 He) as [B1 B2].
  pose proof V as [Vl Vn Ve _ _ _]. unfold EXT_MAX_BLOCKS in Ve. rewrite (u32_id (stop + 1)) by (unfold is_u32; lia).
  destruct (cut_front_valid es (stop + 1) (es_lblk es + es_len es - 1 - stop) V) as (V' & El' & En' & Et' & Ev'); [lia..|].
  set (es' := cut_front (stop + 1) (es_lblk es + es_len es - 1 - stop) es) in *.
  destruct (cut_spec s i x l1 n l2 es es') as (Hb2 & Hok2 & Hs2); try done; [lia..|]. split; [done|].
  eexists. split_and!; [exact Hb2|split; [exact Hok2|cbn; by rewrite Hca]| |cbn; lia]. eapply (cleared_intro _ _ _ _ l1 (n :: l2)); [|exact El|..].
  - split; intros b v; rewrite Hs2; [tauto|]. intros Hv Hout. split; [done|]. unfold covers. rewrite El', En'. lia.
  - cbn. intros m em Hm [[<- _]|[_ Hem]]%lookup_insert_Some; [|eauto]. exfalso. apply ok_notin in Hok0. apply Hok0, elem_of_app. by left.
  - cbn. intros m em Hm [[<- <-]|[Hne Hem]]%lookup_insert_Some; [lia|]. apply elem_of_cons in Hm as [->|Hm]; [done|].
    pose proof (B2 m em Hm Hem). lia.
Qed.

Lemma clears_in_then lo hi x x1 x2 : clears_in lo hi x x1 -> cleared lo hi x1 x2 -> cleared lo hi x x2.
Proof. intros [A B] Hc b v. rewrite (Hc b v). split; [intros [? ?]; auto|intros [? ?]; auto]. Qed.

Lemma clear_rest_spec s i x l1 l lo stop :
  es_counts s -> es_inodes s !! i = Some x -> ok (extents x) (inorder (root x)) -> cache_es x = None -> inorder (root x) = l1 ++ l ->
  ends_by (extents x) lo l1 -> starts_from (extents x) lo l -> 0 <= lo <= stop -> stop < 4294967296 ->
  wp (clear_rest i stop l) (clears i lo stop x s) s.
Proof.
  intros Hc Hi Hok Hca El H1 H2 Hr Hst. unfold clear_rest. es_step. eapply wp_mono; [by apply (erase_until_spec i stop l s x l1)|].
  cbn beta. intros r s1 (x1 & l' & Hb1 & El1 & Hok1 & Hsub & Hsl & -> & Eca & Ea & Hh & Hcl). specialize (Hcl lo H2).
  assert (ends_by (extents x1) lo l1) as H1' by (intros m em Hm Hem; eapply H1; [exact Hm|by eapply lookup_weaken]).
  assert (starts_from (extents x1) lo l') as H2'.
  { intros m em Hm Hem. eapply H2; [by eapply elem_of_sublist|by eapply lookup_weaken]. }
  destruct l' as [|n l']; cbn [head] in *.
  { es_step. split; [done|]. exists x1. split_and!; try done; [split; [done|by rewrite Eca, Hca]| |lia].
    eapply cleared_intro; [done|done|done|apply starts_from_nil]. }
  pose proof Hok1 as Hok1'. rewrite El1 in Hok1'. destruct (ok_mid _ _ _ _ Hok1') as (es & He & V).
  destruct (ok_around _ _ _ _ _ Hok1' He) as [B1 B2]. pose proof (becomes_lookup _ _ _ _ Hb1) as Hi1.
  specialize (Hh n es eq_refl He). assert (lo <= es_lblk es) as Hlo by (eapply H2'; [by left|done]).
  pose proof V as [Vl Vn Ve _ _ _]. unfold EXT_MAX_BLOCKS in Ve. rewrite (u32_id (stop + 1)) by (unfold is_u32; lia).
  es_step. eapply wp_read_es; [exact Hi1|exact He|]. es_step. destruct (Z.ltb_spec (es_lblk es) (stop + 1)) as [Hlt|Hge].
  - es_step. eapply wp_es_end; [exact Hi1|exact He|exact V|]. eapply wp_modify_extent; [exact Hi1|exact He|]. es_step. split; [done|].
    destruct (clears_front s1 i x1 l1 n l' es lo stop) as (_ & x2 & Hb2 & Ht2 & Hcl2 & Ha2); try done; [apply Hb1|by rewrite Eca|lia|].
    rewrite (u32_id (stop + 1)) in Hb2 by (unfold is_u32; lia).
    exists x2. split_and!; [by eapply becomes_trans|done|by eapply clears_in_then|].
    assert (x2 = x1 <| extents ::= <[n := cut_front (stop + 1) (es_lblk es + es_len es - 1 - stop) es]> |>) as ->; [|cbn; lia].
    pose proof (becomes_lookup _ _ _ _ Hb2) as E2. cbn in E2. rewrite lookup_insert_eq in E2. by injection E2 as <-.
  - do 2 es_step. split; [done|]. exists x1. split_and!; try done; [split; [done|by rewrite Eca, Hca]| |lia].
    eapply cleared_intro; [done|done|done|]. apply (starts_from_cons _ _ _ _ es He). split; [lia|].
    eapply starts_from_mono; [exact B2|]. lia.
Qed.

(** ** [__es_remove_extent] *)

(** After [k] extents were reclaimed, the range was cleared exactly, or the removal was given up; nothing is reclaimed as long as
    there is memory. *)
Definition removal (i : positive) (lo hi : Z) (s : es_state) (r : option Z) (s' : es_state) : Prop :=
  exists k s1, shrinks k s s1 /\ (allocs s = [] -> s1 = s) /\
    ((exists x1, es_inodes s1 !! i = Some x1 /\ clears i lo hi x1 s1 r s') \/ (r = Some (- ENOMEM) /\ s' = s1 /\ allocs s <> [])).

Lemma removal_now i lo hi s x r s' : es_ok s -> es_inodes s !! i = Some x -> clears i lo hi x s r s' -> removal i lo hi s r s'.
Proof. intros Hok Hi Hcl. exists 0, s. split_and!; [by apply shrinks_refl|done|]. left. by exists x. Qed.

(** Nothing of the range is known. *)
Lemma clears_none i lo hi s x l1 l2 :
  es_ok s -> es_inodes s !! i = Some x -> inorder (root x) = l1 ++ l2 -> ends_by (extents x) lo l1 -> starts_from (extents x) (hi + 1) l2 ->
  clears i lo hi x s (Some 0) s.
Proof.
  intros [Hc Ht] Hi El H1 H2. split; [done|]. exists x. split_and!; [by apply becomes_refl|eauto|by eapply cleared_intro|lia].
Qed.

(** Seen from before [cache_es] was reset. *)
Lemma clears_cache i lo hi x s r s' :
  es_counts s -> es_inodes s !! i = Some x ->
  clears i lo hi (x <| cache_es := None |>) (s <| es_inodes ::= <[i := x <| cache_es := None |>]> |>) r s' -> clears i lo hi x s r s'.
Proof.
  intros Hc Hi (-> & x' & Hb & Ht & Hcl & Ha). split; [done|]. exists x'. split_and!; try done. eapply becomes_trans; [|exact Hb].
  eapply becomes_set; [done|done| |done|done]. by destruct (ec_inode _ Hc _ _ Hi).
Qed.

(** The way back: the extent is whole again, and only [cache_es] and the allocation differ. *)
Lemma restored_shrinks s i x rest :
  es_ok s -> es_inodes s !! i = Some x ->
  shrinks 0 s (s <| es_inodes ::= <[i := x <| cache_es := None |>]> |> <| allocs := rest |>).
Proof.
  intros [Hc Ht] Hi. set (x0 := x <| cache_es := None |>).
  assert (loses i x 0 s x0 (s <| es_inodes ::= <[i := x0]> |>)) as Hlo by (apply loses_set; try done; apply (Ht i x Hi)).
  destruct (loses_shrinks i x 0 s x0 (s <| es_inodes ::= <[i := x0]> |>)) as [[[] ?] ? ? ? ?]; [by split|done|done| |].
  { split; [apply (Ht i x Hi)|done]. }
  by split.
Qed.

(** The extents around the range, after the one that covers it was cut. *)
Lemma split_insert s i x l1 n l2 es lo stop :
  es_counts s -> es_inodes s !! i = Some x -> ok (extents x) (inorder (root x)) -> inorder (root x) = l1 ++ n :: l2 ->
  extents x !! n = Some es -> es_lblk es < lo -> lo <= stop -> stop < es_lblk es + es_len es - 1 ->
  let x1 := x <| extents ::= <[n := es <| es_len := lo - es_lblk es |>]> |> in
  let s1 := s <| es_inodes ::= <[i := x1]> |> in
  wp (__es_insert_extent i (tail_es es stop (es_lblk es + es_len es - 1 - stop)))
    (fun err s' => (err = 0 /\ clears i lo stop x s (Some 0) s') \/
                   (err = - ENOMEM /\ exists rest, allocs s = false :: rest /\ s' = s1 <| allocs := rest |>)) s1.
Proof.
  intros Hc Hi Hok El He Hlo Hle Hst x1 s1. pose proof Hok as Hok0. rewrite El in Hok0.
  destruct (ok_mid _ _ _ _ Hok0) as (es' & He' & V). simplify_eq. destruct (ok_around _ _ _ _ _ Hok0 He) as [B1 B2].
  set (len2 := es_lblk es + es_len es - 1 - stop). set (es1 := es <| es_len := lo - es_lblk es |>).
  destruct (cut_end_valid es (lo - es_lblk es) V ltac:(lia)) as (V1 & Et1 & Ev1). fold es1 in V1, Et1, Ev1.
  destruct (cut_spec s i x l1 n l2 es es1) as (Hb & Hok1 & Hs1); try done; [cbn; lia..|]. change (forall b v, tree_says x1 b v <-> tree_says x b v /\ (covers es b -> covers es1 b)) in Hs1.
  destruct (tail_es_valid es stop len2 V ltac:(lia) ltac:(lia) ltac:(lia)) as (Vn & El2 & En2 & Ev2). set (new := tail_es es stop len2) in *.
  assert (ends_by (extents x1) lo (l1 ++ [n])) as Ha1.
  { intros m em Hm. cbn. intros [[<- <-]|[Hne Hem]]%lookup_insert_Some; [cbn; lia|]. apply elem_of_app in Hm as [Hm|Hm].
    - pose proof (B1 m em Hm Hem). lia.
    - apply list_elem_of_singleton in Hm. done. }
  assert (starts_from (extents x1) (es_lblk es + es_len es) l2) as Ha2.
  { intros m em Hm. cbn. intros [[<- <-]|[Hne Hem]]%lookup_insert_Some; [|by eapply B2].
    exfalso. apply ok_notin in Hok0. apply Hok0, elem_of_app. by right. }
  assert (inorder (root x1) = (l1 ++ [n]) ++ l2) as El1 by (cbn; by rewrite El, <-app_assoc).
  eapply wp_mono; [apply (insert_spec s1 i x1 new); [apply Hb|by eapply becomes_lookup|done|done|]|].
  { intros m em Hm Hem. rewrite El2, En2. rewrite El1 in Hm. apply elem_of_app in Hm as [Hm|Hm];
      [pose proof (Ha1 m em Hm Hem)|pose proof (Ha2 m em Hm Hem)]; lia. }
  cbn beta. intros err s' [(-> & x' & Hb' & Ht & Had & Ea)|(-> & rest & Eal & ->)]; [left|right; split; [done|by exists rest]].
  split; [done|]. split; [done|]. exists x'. split_and!; [by eapply becomes_trans|done| |exact Ea].
  intros b v. rewrite (Had b v), (Hs1 b v).
  assert (tree_says x1 b v -> ~ lo <= b <= stop) as Hgap.
  { unfold tree_says. rewrite El1. eapply gap_silent; [exact Ha1|]. eapply starts_from_mono; [exact Ha2|]. lia. }
  assert (covers new b -> covers es b /\ stop < b) as Hcn by (unfold covers; rewrite El2, En2; lia). split.
  - intros [[Hcv ->]|Hv]; [|split; [tauto|apply Hgap; by apply Hs1]]. destruct (Hcn Hcv) as [Hce Hgt]. split; [|lia].
    rewrite Ev2. eapply says_self; [|done|done]. rewrite El. apply elem_of_app. right. by left.
  - intros [Hv Hout]. destruct (decide (covers es b)) as [Hce|Hce]; [|right; tauto].
    destruct (Z.lt_ge_cases b lo) as [Hlt|Hge]; [right; split; [done|]; unfold covers in *; cbn; lia|].
    left. split; [unfold covers in *; rewrite El2, En2; lia|]. rewrite Ev2. eapply says_unique; [exact Hok|exact Hv|].
    eapply says_self; [|done|done]. rewrite El. apply elem_of_app. right. by left.
Qed.

(** Cutting the end of the extent that reaches into the range, and clearing the rest. *)
Lemma clear_tail s i x l1 n l2 es lo stop :
  es_counts s -> es_inodes s !! i = Some x -> ok (extents x) (inorder (root x)) -> cache_es x = None -> inorder (root x) = l1 ++ n :: l2 ->
  extents x !! n = Some es -> es_lblk es < lo -> lo < es_lblk es + es_len es -> es_lblk es + es_len es - 1 <= stop -> stop < 4294967296 ->
  wp (clear_rest i stop l2) (clears i lo stop x s)
    (s <| es_inodes ::= <[i := x <| extents ::= <[n := es <| es_len := lo - es_lblk es |>]> |>]> |>).
Proof.
  intros Hc Hi Hok Hca El He Hlo Hlo2 Hst Hst2. pose proof Hok as Hok0. rewrite El in Hok0.
  destruct (ok_mid _ _ _ _ Hok0) as (es' & He' & V). simplify_eq. destruct (ok_around _ _ _ _ _ Hok0 He) as [B1 B2]. pose proof V as [Vl _ _ _ _ _].
  destruct (cut_end_valid es (lo - es_lblk es) V ltac:(lia)) as (V1 & Et1 & Ev1). set (es1 := es <| es_len := lo - es_lblk es |>) in *.
  destruct (cut_spec s i x l1 n l2 es es1) as (Hb & Hok1 & Hs1); try done; [cbn; lia..|].
  set (x1 := x <| extents ::= <[n := es1]> |>) in *. set (s1 := s <| es_inodes ::= <[i := x1]> |>) in *.
  eapply wp_mono; [apply (clear_rest_spec s1 i x1 (l1 ++ [n]) l2 lo stop); try done; [apply Hb|by eapply becomes_lookup|cbn; by rewrite El, <-app_assoc|..|lia]|].
  - cbn. intros m em Hm [[<- <-]|[Hne Hem]]%lookup_insert_Some; [cbn; lia|].
    apply elem_of_app in Hm as [Hm|Hm%list_elem_of_singleton]; [pose proof (B1 m em Hm Hem); lia|done].
  - cbn. intros m em Hm [[<- _]|[Hne Hem]]%lookup_insert_Some; [|pose proof (B2 m em Hm Hem); lia].
    exfalso. apply ok_notin in Hok0. apply Hok0, elem_of_app. by right.
  - intros r s' (-> & x' & Hb' & Ht & Hcl & Ha). split; [done|]. exists x'. split_and!; [by eapply becomes_trans|done| |exact Ha].
    eapply clears_in_then; [|exact Hcl]. split; intros b v; rewrite (Hs1 b v); [tauto|]. intros Hv Hout. split; [done|].
    unfold covers. cbn. lia.
Qed.

(** A failed attempt, the shrinker, and the next attempt. *)
Lemma removal_retry i lo hi s k s1 r s' : shrinks k s s1 -> allocs s <> [] -> removal i lo hi s1 r s' -> removal i lo hi s r s'.
Proof.
  intros Hsh Hal (k' & s2 & Hsh' & _ & Hr). exists (k + k'), s2. split_and!; [by eapply shrinks_trans|done|].
  destruct Hr as [Hr|(-> & -> & _)]; [by left|by right].
Qed.

Lemma shrink_then_retry lock i x lo hi s rest (more : E (option Z)) :
  es_ok s -> es_inodes s !! i = Some x -> allocs s <> [] ->
  (forall k s2, shrinks k s s2 -> 0 < k -> wp more (removal i lo hi s2) s2) ->
  wp (shrunk <- __es_shrink lock 128 (Some i) ;; if shrunk =? 0 then kret (Some (- ENOMEM)) else more) (removal i lo hi s)
    (s <| es_inodes ::= <[i := x <| cache_es := None |>]> |> <| allocs := rest |>).
Proof.
  intros Hok Hi Hne Hmore. pose proof (restored_shrinks s i x rest Hok Hi) as Hres. es_step.
  eapply wp_mono; [apply es_shrink_spec; [apply Hres| |done]|].
  { intros j [= <-]. cbn. rewrite lookup_insert_eq. by eexists. }
  cbn beta. intros k s2 [Hsh _]. pose proof (shrinks_trans _ _ _ _ _ Hres Hsh) as Hsh'. rewrite Z.add_0_l in Hsh'.
  destruct (Z.eqb_spec k 0) as [->|Hk].
  - es_step. exists 0, s2. split_and!; [done|done|]. by right.
  - pose proof (sh_pos _ _ _ Hsh'). eapply wp_mono; [apply (Hmore k s2 Hsh'); lia|]. intros r s3. by eapply removal_retry.
Qed.

Lemma remove_spec trylock fuel : forall s i x lo stop,
  es_ok s -> es_inodes s !! i = Some x -> 0 <= lo <= stop -> stop < 4294967296 -> es_stats_all_cnt s < Z.of_nat fuel ->
  wp (__es_remove_extent trylock fuel i lo stop) (removal i lo stop s) s.
Proof.
  induction fuel as [|fuel IH]; intros s i x lo stop Hok Hi Hr Hst Hfuel; [pose proof (all_cnt_pos s (eo_counts _ Hok)); lia|].
  cbn [__es_remove_extent]. pose proof (to_ok _ (eo_tree _ Hok _ _ Hi)) as Hl. es_step. eapply wp_mono; [by apply tree_search_spec|].
  cbn beta. intros r s0 (-> & l1 & l2 & El & -> & H1 & H2). destruct l2 as [|n l2]; cbn [head].
  { es_step. eapply removal_now; [done|exact Hi|]. eapply clears_none; [done|done|exact El|done|apply starts_from_nil]. }
  pose proof Hl as Hl0. rewrite El in Hl0. destruct (ok_mid _ _ _ _ Hl0) as (es & He & V). pose proof V as [Vl Vn Ve _ _ _].
  destruct (ok_around _ _ _ _ _ Hl0 He) as [B1 B2]. assert (lo < es_lblk es + es_len es) as Hend by (eapply H2; [by left|done]).
  unfold EXT_MAX_BLOCKS in Ve. do 2 es_step. destruct (Z.ltb_spec stop (es_lblk es)) as [Hgt|Hle].
  { es_step. eapply removal_now; [done|exact Hi|]. eapply clears_none; [done|done|exact El|done|].
    apply (starts_from_cons _ _ _ _ es He). split; [lia|]. eapply starts_from_mono; [exact B2|]. lia. }
  assert (n ∉ l1) as Hnl by (intros Hin; apply ok_notin in Hl0; apply Hl0, elem_of_app; by left).
  set (x0 := x <| cache_es := None |>). set (s0 := s <| es_inodes ::= <[i := x0]> |>).
  assert (es_inodes s0 !! i = Some x0) as Hi0 by (cbn; by rewrite lookup_insert_eq).
  assert (es_counts s0) as Hc0 by (apply (restored_shrinks s i x (allocs s) Hok Hi)).
  assert (forall r s', clears i lo stop x0 s0 r s' -> removal i lo stop s r s') as Hdone
    by (intros r s' Hcl; eapply removal_now; [done|exact Hi|apply clears_cache; [apply Hok|done|exact Hcl]]).
  do 2 es_step. fold x0 s0. es_step. eapply wp_es_end; [exact Hi0|exact He|exact V|]. es_step.
  destruct (Z.ltb_spec (es_lblk es) lo) as [Hlo|Hlo]; destruct (Z.ltb_spec stop (es_lblk es + es_len es - 1)) as [Hst2|Hst2];
    rewrite ?Z.ltb_irrefl; repeat rewrite (proj2 (Z.ltb_lt 0 _)) by lia.
  - eapply wp_modify_extent; [exact Hi0|exact He|]. es_step. eapply wp_mono; [apply (split_insert s0 i x0 l1 n l2 es lo stop); done || lia|].
    cbn beta. intros err s' [(-> & Hcl)|(-> & rest & Eal & ->)]; [rewrite Z.eqb_refl; es_step; by apply Hdone|]. change (allocs s = false :: rest) in Eal.
    change (- ENOMEM =? 0) with false. rewrite Z.eqb_refl. es_step. eapply wp_modify_extent; [cbn; by rewrite lookup_insert_eq|cbn; by rewrite lookup_insert_eq|].
    match goal with |- wp _ _ ?st => replace st with (s <| es_inodes ::= <[i := x0]> |> <| allocs := rest |>) end.
    2: { unfold s0, x0. destruct s, x, es. cbn in *. rewrite !insert_insert_eq. do 2 f_equal. by rewrite insert_id. }
    eapply (shrink_then_retry (trylock fuel) i x); [done|done|by rewrite Eal|]. intros k s2 Hsh' Hk.
    destruct (sh_inodes _ _ _ Hsh' i x Hi) as (x2 & Hi2 & _). pose proof (sh_all _ _ _ Hsh').
    eapply (IH s2 i x2); [apply Hsh'|done|lia|lia|lia].
  - eapply wp_modify_extent; [exact Hi0|exact He|]. do 2 es_step.
    cbn [root field_update eta eta_es_inode]; change (root x0) with (root x). rewrite El, from_node_split by done. cbn [tail]. fold (clear_rest i stop l2).
    eapply wp_mono; [by apply (clear_tail s0 i x0 l1 n l2 es lo stop)|]. exact Hdone.
  - do 2 es_step. eapply wp_modify_extent; [exact Hi0|exact He|]. es_step. apply Hdone. apply (clears_front s0 i x0 l1 n l2 es); done || lia.
  - do 3 es_step.
    change (root x0) with (root x). rewrite El, from_node_split by done. fold (clear_rest i stop (n :: l2)).
    eapply wp_mono; [apply (clear_rest_spec s0 i x0 l1 (n :: l2) lo stop); try done|exact Hdone].
    apply (starts_from_cons _ _ _ _ es He). split; [lia|]. eapply starts_from_mono; [exact B2|]. lia.
Qed.
End Remove.
