(* ===== verification/ExtentCache.v ===== *)
(** * The extent status cache

    The operations ext4 calls: insertion, removal, lookup, the search for delayed extents and the shrinker, against the map
    from blocks to what is known about them.  With memory at hand the operations change exactly the range they are given; when
    allocations fail the cache may forget, but never a delayed block outside the range, and never wrongly. *)
From stdpp Require Import sorting.
From S2P Require Import Prelude Log ExtentStatus ExtentMap ExtentTree ExtentOps ExtentShrink ExtentRemove.

(** ** The map of the file system *)

Definition es_map (s : es_state) (i : positive) (b : Z) : option (Z * option Z) :=
  x ← es_inodes s !! i; es_at x b.

Section Map.
Implicit Types s : es_state.

Lemma es_map_says s i x b v : es_ok s -> es_inodes s !! i = Some x -> es_map s i b = Some v <-> tree_says x b v.
Proof. intros Hok Hi. unfold es_map. rewrite Hi. cbn. apply es_at_says, (to_ok _ (eo_tree _ Hok _ _ Hi)). Qed.

Lemma es_map_none s i x b : es_ok s -> es_inodes s !! i = Some x -> es_map s i b = None <-> forall v, ~ tree_says x b v.
Proof. intros Hok Hi. unfold es_map. rewrite Hi. cbn. apply es_at_none, (to_ok _ (eo_tree _ Hok _ _ Hi)). Qed.

Lemma says_or_not x b : ok (extents x) (inorder (root x)) -> (exists v, tree_says x b v) \/ (forall v, ~ tree_says x b v).
Proof.
  intros Hok. destruct (es_at x b) as [v|] eqn:E; [left; exists v; by apply es_at_says|right; by apply es_at_none].
Qed.

(** Trees that say the same are the same map. *)
Lemma es_map_ext s s' i j x x' b b' :
  es_ok s -> es_ok s' -> es_inodes s !! i = Some x -> es_inodes s' !! j = Some x' ->
  (forall v, tree_says x' b' v <-> tree_says x b v) -> es_map s' j b' = es_map s i b.
Proof.
  intros Hok Hok' Hi Hj Hs. destruct (es_map s i b) as [v|] eqn:E.
  - apply (es_map_says s' j x'); [done..|]. apply Hs. by apply (es_map_says s i x).
  - apply (es_map_none s' j x'); [done..|]. intros v Hv. apply Hs in Hv. by apply (es_map_none s i x b Hok Hi) in Hv.
Qed.

(** Other inodes. *)
Lemma becomes_others i x' s s' j b : becomes i x' s s' -> j <> i -> es_map s' j b = es_map s j b.
Proof. intros [E _ _] Hne. unfold es_map. by rewrite E, lookup_insert_ne. Qed.

(** Forgetting, but no delayed block. *)
Definition forgets (s s' : es_state) (i : positive) (b : Z) : Prop :=
  es_map s' i b = es_map s i b \/
  (es_map s' i b = None /\ forall v, es_map s i b = Some v -> is_delayed_value v = false).

Lemma keeps_delayed_forgets s s' i x x' b :
  es_ok s -> es_ok s' -> es_inodes s !! i = Some x -> es_inodes s' !! i = Some x' -> keeps_delayed x x' -> forgets s s' i b.
Proof.
  intros Hok Hok' Hi Hi' [Hsub Hdel]. unfold forgets. destruct (es_map s' i b) as [v|] eqn:E'.
  - left. symmetry. apply (es_map_says s i x); [done..|]. apply Hsub. by apply (es_map_says s' i x').
  - right. split; [done|]. intros v Hv. destruct (is_delayed_value v) eqn:Hd; [|done]. exfalso.
    apply (es_map_none s' i x' b Hok' Hi') with v in E'. apply E', Hdel; [by apply (es_map_says s i x)|done].
Qed.

Lemma shrinks_forgets k s s' i b : es_ok s -> shrinks k s s' -> forgets s s' i b.
Proof.
  intros Hok Hsh. destruct (es_inodes s !! i) as [x|] eqn:Hi.
  - destruct (sh_inodes _ _ _ Hsh i x Hi) as (x' & Hi' & Hk). eapply keeps_delayed_forgets; [done|apply Hsh|done|done|done].
  - left. unfold es_map. by rewrite Hi, (sh_dom _ _ _ Hsh i Hi).
Qed.

Lemma forgets_trans s1 s2 s3 i b : forgets s1 s2 i b -> forgets s2 s3 i b -> forgets s1 s3 i b.
Proof. unfold forgets. intros [E1|[E1 H1]] [E2|[E2 H2]]; rewrite ?E1, ?E2 in *; naive_solver. Qed.

(** A range about which nothing is known has room for an extent. *)
Lemma silent_apart x new :
  ok (extents x) (inorder (root x)) -> valid new -> (forall b v, covers new b -> ~ tree_says x b v) -> apart (extents x) new (inorder (root x)).
Proof.
  intros Hok [_ Vn _ _ _ _] Hs n es Hn He. destruct (ok_at _ _ _ Hok Hn) as (es' & He' & [_ Vn' _ _ _ _]). simplify_eq.
  destruct (Z.le_gt_cases (es_lblk es + es_len es) (es_lblk new)) as [|H1]; [by left|].
  destruct (Z.le_gt_cases (es_lblk new + es_len new) (es_lblk es)) as [|H2]; [by right|]. exfalso.
  apply (Hs (Z.max (es_lblk es) (es_lblk new)) (value es (Z.max (es_lblk es) (es_lblk new)))).
  - unfold covers. lia.
  - eapply says_self; [done|done|unfold covers; lia].
Qed.
End Map.

(** ** Retrying insertion *)

Section Retry.
Context `{Rebalance}.

Lemma alloc_shrinks s rest : es_ok s -> shrinks 0 s (s <| allocs := rest |>).
Proof. intros [[] Ht]. split; [by split|by intros i x Hi; exists x|done|cbn; lia|lia]. Qed.

(** After [k] extents were reclaimed, [new] was inserted, or given up: that is an error only for a delayed extent. *)
Definition insertion (i : positive) (new : extent_status) (s : es_state) (r : option Z) (s' : es_state) : Prop :=
  exists k s1, shrinks k s s1 /\ (allocs s = [] -> s1 = s) /\
    ((r = Some 0 /\ exists x1 x', es_inodes s1 !! i = Some x1 /\ becomes i x' s1 s' /\ tree_ok x' /\ adds x1 new x') \/
     (r = Some (if ext4_es_is_delayed new then - ENOMEM else 0) /\ s' = s1 /\ allocs s <> [])).

Lemma insert_retry_spec trylock fuel : forall s i x new,
  es_ok s -> es_inodes s !! i = Some x -> valid new -> (forall b v, covers new b -> ~ tree_says x b v) ->
  es_stats_all_cnt s < Z.of_nat fuel ->
  wp (insert_retry trylock fuel i new) (insertion i new s) s.
Proof.
  induction fuel as [|fuel IH]; intros s i x new Hok Hi V Hsil Hfuel; [pose proof (all_cnt_pos s (eo_counts _ Hok)); lia|].
  cbn [insert_retry]. es_step. pose proof (to_ok _ (eo_tree _ Hok _ _ Hi)) as Hl.
  eapply wp_mono; [apply (insert_spec s i x new); [apply Hok|done|done|done|by apply silent_apart]|]. cbn beta.
  intros err s1 [(-> & x' & Hb & Ht & Had & _)|(-> & rest & Eal & ->)].
  { change (0 =? - ENOMEM) with false. cbn [negb]. es_step. exists 0, s. split_and!; [by apply shrinks_refl|done|]. left. split; [done|]. by exists x, x'. }
  rewrite Z.eqb_refl. cbn [negb]. es_step. pose proof (alloc_shrinks s rest Hok) as Hsh0. assert (allocs s <> []) as Hne by by rewrite Eal.
  eapply wp_mono; [apply es_shrink_spec; [apply Hsh0|by intros j [= <-]; exists x|done]|]. cbn beta. intros k s2 [Hsh _].
  pose proof (shrinks_trans _ _ _ _ _ Hsh0 Hsh) as Hsh'. rewrite Z.add_0_l in Hsh'. destruct (Z.eqb_spec k 0) as [->|Hk]; cbn [negb].
  - es_step. exists 0, s2. split_and!; [done|done|]. by right.
  - destruct (sh_inodes _ _ _ Hsh' i x Hi) as (x2 & Hi2 & Hkd). pose proof (sh_all _ _ _ Hsh'). pose proof (sh_pos _ _ _ Hsh').
    eapply wp_mono; [apply (IH s2 i x2 new); [apply Hsh'|done|done| |lia]|].
    + intros b v Hb Hv. by apply (Hsil b v Hb), Hkd.
    + intros r s3 (k' & s4 & Hsh4 & _ & Hr). exists (k + k'), s4. split_and!; [by eapply shrinks_trans|done|].
      destruct Hr as [Hr|(-> & -> & _)]; [by left|by right].
Qed.
End Retry.

(** ** Insertion and removal *)

(** The arguments ext4 passes: one of the five states, a range below [EXT_MAX_BLOCKS], blocks below 2^59. *)
Record insertable (lblk len pblk status : Z) : Prop := {
  ia_lblk : 0 <= lblk;
  ia_len : 0 < len;
  ia_end : lblk + len <= EXT_MAX_BLOCKS;
  ia_pblk : 0 <= pblk;
  ia_status : status ∈ es_types;
  ia_phys : status ∈ [1; 2; 6] -> pblk + len <= 2 ^ 59;
}.

(** What the cache is told about block [b]. *)
Definition new_value (lblk pblk status b : Z) : Z * option Z :=
  (status, if bool_decide (status ∈ [1; 2; 6]) then Some (pblk + (b - lblk)) else None).

Lemma insertable_new lblk len pblk status :
  insertable lblk len pblk status ->
  let new := mk_es lblk len (pblock_status pblk status) in
  valid new /\ ext4_es_is_delayed new = negb (Z.land status EXTENT_STATUS_DELAYED =? 0) /\ u32 (u32 (lblk + len) - 1) = lblk + len - 1 /\
  (forall b, covers new b <-> lblk <= b < lblk + len) /\ (forall b, value new b = new_value lblk pblk status b).
Proof.
  intros [Hl Hn He Hp Hs Hph] new.
  assert (0 <= status < 32 /\ status mod 16 = status) as [Hr Em].
  { unfold es_types in Hs. repeat (apply elem_of_cons in Hs as [->|Hs]; [done|]). by apply elem_of_nil in Hs. }
  destruct (new_valid lblk len pblk status Hl Hn He Hp Hr) as (V & _ & Hd & Hv); rewrite ?Em; try done. rewrite Em in Hd, Hv.
  unfold EXT_MAX_BLOCKS in He. split_and!; try done. rewrite (u32_id (lblk + len)), u32_id by (unfold is_u32; lia). lia.
Qed.

Section Cache.
Context `{Rebalance}.
Implicit Types s : es_state.

(** What a clearing means for the map. *)
Lemma clears_map i lo hi x s r s' :
  es_ok s -> es_inodes s !! i = Some x -> clears i lo hi x s r s' ->
  r = Some 0 /\ es_ok s' /\ (allocs s = [] -> allocs s' = []) /\ is_Some (es_inodes s' !! i) /\
  es_stats_all_cnt s' <= es_stats_all_cnt s + 1 /\
  (forall b, es_map s' i b = if decide (lo <= b <= hi) then None else es_map s i b) /\
  (forall j b, j <> i -> es_map s' j b = es_map s j b).
Proof.
  intros Hok Hi (-> & x' & Hb & Ht & Hcl & Ha). pose proof (becomes_ok _ _ _ _ Hok Hb Ht) as Hok'. pose proof (becomes_lookup _ _ _ _ Hb) as Hi'.
  split_and!; [done|done|apply Hb|by eexists| | |].
  - rewrite (ec_all _ (eo_counts _ Hok)), (ec_all _ (be_counts _ _ _ _ Hb)), (be_inodes _ _ _ _ Hb), (total_set _ _ _ x) by done. lia.
  - intros b. case_decide as Hr.
    + apply (es_map_none s' i x'); [done..|]. intros v Hv%Hcl. tauto.
    + eapply es_map_ext; [done..|]. intros v. rewrite (Hcl b v). tauto.
  - intros j b. by apply becomes_others with x'.
Qed.

Lemma adds_map i x new s x' s' :
  es_ok s -> es_inodes s !! i = Some x -> becomes i x' s s' -> tree_ok x' -> adds x new x' -> (forall b v, covers new b -> ~ tree_says x b v) ->
  es_ok s' /\ (forall b, es_map s' i b = if decide (covers new b) then Some (value new b) else es_map s i b) /\
  (forall j b, j <> i -> es_map s' j b = es_map s j b).
Proof.
  intros Hok Hi Hb Ht Had Hsil. pose proof (becomes_ok _ _ _ _ Hok Hb Ht) as Hok'. pose proof (becomes_lookup _ _ _ _ Hb) as Hi'.
  split_and!; [done| |intros j b; by apply becomes_others with x']. intros b. case_decide as Hr.
  - apply (es_map_says s' i x'); [done..|]. apply Had. by left.
  - eapply es_map_ext; [done..|]. intros v. rewrite (Had b v). tauto.
Qed.

(** The range is [None] or what [f] says; elsewhere something may have been forgotten, or nothing has if [exact]. *)
Record updated (exact : Prop) (i : positive) (lo hi : Z) (f : Z -> option (Z * option Z)) (s s' : es_state) : Prop := {
  up_ok : es_ok s';
  up_inode : is_Some (es_inodes s' !! i);
  up_range b : lo <= b <= hi -> es_map s' i b = f b;
  up_rest j b : j <> i \/ ~ lo <= b <= hi -> forgets s s' j b;
  up_exact j b : exact -> j <> i \/ ~ lo <= b <= hi -> es_map s' j b = es_map s j b;
}.

(** [__es_remove_extent] on any schedule of allocations: it ends, and clears the range or says that it has not. *)
Lemma remove_extent_spec trylock fuel s i x lblk stop :
  es_ok s -> es_inodes s !! i = Some x -> 0 <= lblk <= stop -> stop < 4294967296 -> es_stats_all_cnt s < Z.of_nat fuel ->
  wp (__es_remove_extent trylock fuel i lblk stop)
    (fun r s' =>
       (r = Some 0 /\ updated (allocs s = []) i lblk stop (fun _ => None) s s' /\ (allocs s = [] -> allocs s' = []) /\
        es_stats_all_cnt s' <= es_stats_all_cnt s + 1) \/
       (r = Some (- ENOMEM) /\ allocs s <> [] /\ es_ok s' /\ forall j b, forgets s s' j b)) s.
Proof.
  intros Hok Hi Hr Hst Hf. eapply wp_mono; [by eapply remove_spec|]. cbn beta.
  intros r s' (k & s1 & Hsh & Hmem & Hres). pose proof (sh_all _ _ _ Hsh). pose proof (sh_pos _ _ _ Hsh).
  assert (forall j b, forgets s s1 j b) as Hfg by (intros; by eapply shrinks_forgets).
  destruct Hres as [(x1 & Hi1 & Hcl)|(-> & -> & Hne)]; [left|right; split_and!; [done|done|apply Hsh|done]].
  destruct (clears_map i lblk stop x1 s1 r s' (sh_ok _ _ _ Hsh) Hi1 Hcl) as (-> & Hok' & Hal & His & Hcnt & Hm & Ho).
  split_and!; [done| |intros E; apply Hal; by rewrite (Hmem E)|lia].
  assert (forall j b, j <> i \/ ~ lblk <= b <= stop -> es_map s' j b = es_map s1 j b) as Hrest.
  { intros j b Hjb. destruct (decide (j = i)) as [->|Hne]; [|auto]. rewrite Hm, decide_False; [done|]. tauto. }
  split; try done.
  - intros b Hb. by rewrite Hm, decide_True.
  - intros j b Hjb. eapply forgets_trans; [apply Hfg|]. left. auto.
  - intros j b E Hjb. rewrite Hrest, (Hmem E); done.
Qed.

(** The whole insertion. *)
Lemma insert_extent_spec trylock fuel s i x lblk len pblk status :
  es_ok s -> es_inodes s !! i = Some x -> insertable lblk len pblk status -> es_stats_all_cnt s + 1 < Z.of_nat fuel ->
  wp (ext4_es_insert_extent trylock fuel i lblk len pblk status)
    (fun r s' =>
       (r = Some 0 /\ updated (allocs s = []) i lblk (lblk + len - 1) (fun b => Some (new_value lblk pblk status b)) s s') \/
       (r = Some (if Z.land status EXTENT_STATUS_DELAYED =? 0 then 0 else - ENOMEM) /\ allocs s <> [] /\
        updated False i lblk (lblk + len - 1) (fun _ => None) s s') \/
       (r = Some (- ENOMEM) /\ allocs s <> [] /\ es_ok s' /\ forall j b, forgets s s' j b)) s.
Proof.
  intros Hok Hi Hins Hf. destruct (insertable_new _ _ _ _ Hins) as (V & Hd & Eend & Hcov & Hval). pose proof Hins as [Il Iln Ie _ _ _].
  unfold EXT_MAX_BLOCKS in Ie. unfold ext4_es_insert_extent. rewrite (proj2 (Z.eqb_neq len 0)), Eend by lia.
  es_step. apply wp_assert; [by rewrite (proj2 (Z.ltb_ge _ _)) by lia|]. es_step.
  eapply wp_mono; [apply (remove_extent_spec trylock fuel s i x lblk (lblk + len - 1)); done || lia|]. cbn beta.
  intros r s1 [(-> & Hup & Hal & Hcnt)|(-> & Hne & Hok1 & Hfg)]; [|change (- ENOMEM =? 0) with false; cbn [negb]; es_step; by right; right].
  rewrite Z.eqb_refl. cbn [negb]. destruct (up_inode _ _ _ _ _ _ _ Hup) as [x1 Hi1]. pose proof (up_ok _ _ _ _ _ _ _ Hup) as Hok1.
  set (new := mk_es lblk len (pblock_status pblk status)) in *.
  assert (forall b v, covers new b -> ~ tree_says x1 b v) as Hsil.
  { intros b v Hb. apply (es_map_none s1 i x1); [done..|]. apply (proj1 (Hcov b)) in Hb. apply (up_range _ _ _ _ _ _ _ Hup). lia. }
  eapply wp_mono; [apply (insert_retry_spec trylock fuel s1 i x1 new); done || lia|]. cbn beta.
  intros r s' (k & s2 & Hsh & Hmem & Hres). assert (forall j b, forgets s1 s2 j b) as Hfg by (intros; by eapply shrinks_forgets).
  destruct Hres as [(-> & x2 & x' & Hi2 & Hb & Ht & Had)|(-> & -> & Hne)]; [left|right; left].
  - destruct (adds_map i x2 new s2 x' s' (sh_ok _ _ _ Hsh) Hi2 Hb Ht Had) as (Hok' & Hm & Ho).
    { intros b v Hb' Hv. apply (Hsil b v Hb'). destruct (sh_inodes _ _ _ Hsh i x1 Hi1) as (x2' & Hi2' & Hk). simplify_eq. by apply Hk. }
    assert (forall j b, j <> i \/ ~ lblk <= b <= lblk + len - 1 -> es_map s' j b = es_map s2 j b) as Hrest.
    { intros j b Hjb. destruct (decide (j = i)) as [->|Hne]; [|auto]. rewrite Hm, decide_False; [done|]. rewrite Hcov. lia. }
    split; [done|]. split; [done|by rewrite (becomes_lookup _ _ _ _ Hb)|..].
    + intros b Hr. rewrite Hm, decide_True by (apply Hcov; lia). by rewrite Hval.
    + intros j b Hjb. eapply forgets_trans; [by apply (up_rest _ _ _ _ _ _ _ Hup)|]. eapply forgets_trans; [apply Hfg|]. left. auto.
    + intros j b E Hjb. rewrite Hrest, (Hmem (Hal E)) by done. by apply (up_exact _ _ _ _ _ _ _ Hup).
  - rewrite Hd. split_and!; [by destruct (Z.land _ _ =? 0)|intros E; by apply Hne, Hal|]. split; [apply Hsh| | | |done].
    + destruct (sh_inodes _ _ _ Hsh i x1 Hi1) as (x2 & Hi2 & _). by eexists.
    + intros b Hr. destruct (Hfg i b) as [E|[E _]]; rewrite E; [by apply (up_range _ _ _ _ _ _ _ Hup)|done].
    + intros j b Hjb. eapply forgets_trans; [by apply (up_rest _ _ _ _ _ _ _ Hup)|]. apply Hfg.
Qed.
End Cache.

(** ** Lookup *)

Section Lookup.
Implicit Types s : es_state.

Lemma cached_spec s i x lblk :
  es_ok s -> es_inodes s !! i = Some x ->
  wp (cached i lblk) (fun r s' => s' = s /\ match r with
    | Some n => n ∈ inorder (root x) /\ exists es, extents x !! n = Some es /\ covers es lblk
    | None => True
    end) s.
Proof.
  intros Hok Hi. pose proof (eo_tree _ Hok _ _ Hi) as [Hl Hca]. unfold cached. do 2 es_step.
  destruct (cache_es x) as [n|]; [|by es_step]. specialize (Hca n eq_refl). destruct (ok_at _ _ _ Hl Hca) as (es & He & V).
  do 3 es_step. split; [done|]. rewrite (valid_in_range _ _ V). destruct (bool_decide (covers es lblk)) eqn:E; [|done].
  apply bool_decide_eq_true in E. split; [done|]. by exists es.
Qed.

(** The flags and the statistics do not matter for the map. *)
Lemma es_ok_stats s hits misses : es_ok s -> es_ok (s <| es_stats_cache_hits := hits |> <| es_stats_cache_misses := misses |>).
Proof. intros [[] Ht]. by split. Qed.

Lemma flags_map s i x n es es' :
  es_ok s -> es_inodes s !! i = Some x -> n ∈ inorder (root x) -> extents x !! n = Some es ->
  valid es' -> es_lblk es' = es_lblk es -> es_len es' = es_len es -> ext4_es_type es' = ext4_es_type es ->
  ext4_es_pblock es' = ext4_es_pblock es ->
  let s' := s <| es_inodes ::= <[i := x <| extents ::= <[n := es']> |>]> |> in
  es_ok s' /\ (forall j b, es_map s' j b = es_map s j b).
Proof.
  intros Hok Hi Hn He V E1 E2 E3 E4 s'. pose proof (eo_tree _ Hok _ _ Hi) as [Hl Hca].
  destruct (loses_flags s i x n es es' (eo_counts _ Hok) Hi Hl Hn He V E1 E2 E3 E4) as [Hlo Hs].
  assert (es_ok s') as Hok' by (eapply becomes_ok; [done|apply Hlo|split; [apply Hlo|done]]). split; [done|]. intros j b.
  destruct (decide (j = i)) as [->|Hne]; [|eapply becomes_others; [apply Hlo|done]].
  eapply es_map_ext; [done|done|done|by eapply becomes_lookup, Hlo|]. intros v. apply Hs.
Qed.

Lemma lookup_spec s i x lblk :
  es_ok s -> es_inodes s !! i = Some x ->
  wp (ext4_es_lookup_extent i lblk) (fun r s' => es_ok s' /\ (forall j b, es_map s' j b = es_map s j b) /\
    match r with
    | Some es => covers es lblk /\ (forall b, covers es b -> es_map s i b = Some (value es b)) /\
        es_stats_cache_hits s' = es_stats_cache_hits s + 1 /\ es_stats_cache_misses s' = es_stats_cache_misses s
    | None => es_map s i lblk = None /\
        es_stats_cache_misses s' = es_stats_cache_misses s + 1 /\ es_stats_cache_hits s' = es_stats_cache_hits s
    end) s.
Proof.
  intros Hok Hi. pose proof (eo_tree _ Hok _ _ Hi) as [Hl Hca]. unfold ext4_es_lookup_extent. es_step. eapply wp_mono; [by eapply cached_spec|].
  cbn beta. intros c s0 [-> Hc]. es_step. eapply (wp_mono _ (fun r s' => s' = s /\ match r with
    | Some n => n ∈ inorder (root x) /\ exists es, extents x !! n = Some es /\ covers es lblk | None => forall v, ~ tree_says x lblk v end)).
  { destruct c as [n|]; [by es_step|]. do 3 es_step. eapply wp_mono.
    { apply (search_down_spec i lblk (root x) None [] [] x s Hi); rewrite ?app_nil_l, ?app_nil_r; try done; apply ends_by_nil || apply starts_from_nil. }
    cbn beta. rewrite app_nil_l, app_nil_r. intros [n|last] s' [-> Hd]; es_step; (split; [done|]); [done|]. destruct last as [n|].
    - destruct Hd as (l1 & l2 & El & H1 & H2 & _). intros v Hv. unfold tree_says in Hv. rewrite El in Hv.
      pose proof (gap_silent _ _ _ lblk lblk _ _ H1 H2 Hv). lia.
    - cbn in Hd. intros v (n & es & Hn & _). rewrite Hd in Hn. by apply elem_of_nil in Hn. }
  cbn beta. intros [n|] s' [-> Hf].
  - destruct Hf as (Hn & es & He & Hcv). destruct (ok_at _ _ _ Hl Hn) as (es' & He' & V). simplify_eq. do 3 es_step.
    assert (forall b, covers es b -> es_map s i b = Some (value es b)) as Hm.
    { intros b Hb. apply (es_map_says s i x); [done..|]. by eapply says_self. }
    destruct (set_referenced_same es V) as (V' & E1 & E2 & E3 & E4).
    destruct (flags_map s i x n es _ Hok Hi Hn He V' E1 E2 E3 E4) as [Hok' Hm'].
    destruct (ext4_es_is_referenced es); do 4 es_step.
    + split; [by apply (es_ok_stats s (Z.succ (es_stats_cache_hits s)) (es_stats_cache_misses s))|by split_and!].
    + split; [by apply (es_ok_stats _ (Z.succ (es_stats_cache_hits s)) (es_stats_cache_misses s)) in Hok'|by split_and!].
  - do 3 es_step. split; [by apply (es_ok_stats s (es_stats_cache_hits s) (Z.succ (es_stats_cache_misses s)))|].
    split_and!; try done. by apply (es_map_none s i x).
Qed.

(** *** Delayed extents *)

(** The extents of [l] say nothing of a delayed block from [lo] to [hi]. *)
Definition no_delayed (h : gmap es_id extent_status) (lo hi : Z) (l : list es_id) : Prop :=
  forall b v, lo <= b <= hi -> says h l b v -> is_delayed_value v = false.

Lemma no_delayed_cons h lo hi n l es :
  h !! n = Some es -> (hi < es_lblk es \/ es_lblk es + es_len es <= lo \/ ext4_es_is_delayed es = false) -> no_delayed h lo hi l ->
  no_delayed h lo hi (n :: l).
Proof.
  intros Hn Hd Hl b v Hb (m & em & [->|Hm]%elem_of_cons & He & Hc & ->); [|eapply Hl; [done|by exists m, em]].
  simplify_eq. unfold covers in Hc. destruct Hd as [|[|]]; [lia|lia|by rewrite delayed_value].
Qed.

Lemma no_delayed_ends h lo hi l1 l2 : ends_by h lo l1 -> no_delayed h lo hi l2 -> no_delayed h lo hi (l1 ++ l2).
Proof.
  intros H1 H2 b v Hb (m & em & [Hm|Hm]%elem_of_app & He & Hc & ->); [|eapply H2; [done|by exists m, em]].
  pose proof (H1 m em Hm He). unfold covers in Hc. lia.
Qed.

Lemma no_delayed_starts h lo hi l : starts_from h (hi + 1) l -> no_delayed h lo hi l.
Proof. intros H2 b v Hb (m & em & Hm & He & Hc & ->). pose proof (H2 m em Hm He). unfold covers in Hc. lia. Qed.

(** The walk: the first delayed extent of [l], unless it starts behind [stop]. *)
Lemma next_delayed_spec i x stop l : forall s lo,
  es_inodes s !! i = Some x -> ok (extents x) l ->
  wp (next_delayed i stop l) (fun r s' => s' = s /\ match r with
    | Some n => exists es, n ∈ l /\ extents x !! n = Some es /\ ext4_es_is_delayed es = true /\ es_lblk es <= stop /\
        no_delayed (extents x) lo (es_lblk es - 1) l
    | None => no_delayed (extents x) lo stop l
    end) s.
Proof.
  induction l as [|n l IH]; intros s lo Hi Hok; cbn [next_delayed].
  { es_step. split; [done|]. apply no_delayed_starts, starts_from_nil. }
  destruct (ok_mid _ [] n l Hok) as (es & He & V). destruct (ok_around _ [] n l es Hok He) as [_ B2]. pose proof (v_len _ V).
  do 2 es_step. destruct (Z.ltb_spec stop (es_lblk es)).
  { es_step. split; [done|]. apply no_delayed_starts, (starts_from_cons _ _ _ _ es He). split; [lia|]. eapply starts_from_mono; [exact B2|]. lia. }
  destruct (ext4_es_is_delayed es) eqn:Hd.
  { es_step. split; [done|]. exists es. split_and!; try done; [by left|]. apply no_delayed_starts, (starts_from_cons _ _ _ _ es He).
    split; [lia|]. eapply starts_from_mono; [exact B2|]. lia. }
  eapply wp_mono; [apply (IH s lo Hi); by eapply (ok_right _ [n])|]. cbn beta. intros [m|] s' [-> Hr]; (split; [done|]).
  - destruct Hr as (em & Hm & Hem & Hdm & Hle & Hnd). exists em. split_and!; try done; [by right|]. eapply no_delayed_cons; [done| |done]. auto.
  - eapply no_delayed_cons; [done| |done]. auto.
Qed.

(** What [ext4_es_find_delayed_extent_range] promises of [es]. *)
Definition first_delayed (s : es_state) (i : positive) (lblk stop : Z) (es : extent_status) : Prop :=
  if es_len es =? 0
  then forall b v, lblk <= b <= stop -> es_map s i b = Some v -> is_delayed_value v = false
  else valid es /\ ext4_es_is_delayed es = true /\ lblk < es_lblk es + es_len es /\
    (forall b, covers es b -> es_map s i b = Some (value es b)) /\
    (forall b v, lblk <= b < es_lblk es -> es_map s i b = Some v -> is_delayed_value v = false) /\
    (stop < es_lblk es -> forall b, lblk <= b < es_lblk es -> es_map s i b = None).

Lemma cache_map s i x n :
  es_ok s -> es_inodes s !! i = Some x -> n ∈ inorder (root x) ->
  let s' := s <| es_inodes ::= <[i := x <| cache_es := Some n |>]> |> in es_ok s' /\ (forall j b, es_map s' j b = es_map s j b).
Proof.
  intros Hok Hi Hn s'. pose proof (eo_tree _ Hok _ _ Hi) as [Hl Hca].
  assert (loses i x 0 s (x <| cache_es := Some n |>) s') as Hlo by (apply loses_set; try done; apply Hok).
  split; [eapply becomes_ok; [done|apply Hlo|split; [done|by intros m [= <-]]]|]. intros j b. unfold es_map, s'. cbn.
  destruct (decide (j = i)) as [->|Hne]; [by rewrite lookup_insert_eq, Hi|by rewrite lookup_insert_ne].
Qed.

Lemma first_delayed_at s i x l1 l2 n es lblk stop :
  es_ok s -> es_inodes s !! i = Some x -> inorder (root x) = l1 ++ l2 -> n ∈ l2 -> extents x !! n = Some es ->
  ext4_es_is_delayed es = true -> ends_by (extents x) lblk l1 -> lblk < es_lblk es + es_len es ->
  no_delayed (extents x) lblk (es_lblk es - 1) l2 -> (es_lblk es <= stop \/ head l2 = Some n) -> first_delayed s i lblk stop es.
Proof.
  intros Hok Hi El Hn He Hd H1 Hend Hnd Hst. pose proof (to_ok _ (eo_tree _ Hok _ _ Hi)) as Hl.
  assert (n ∈ inorder (root x)) as Hn' by (rewrite El; apply elem_of_app; by right). destruct (ok_at _ _ _ Hl Hn') as (es' & He' & V). simplify_eq.
  unfold first_delayed. pose proof (v_len _ V). rewrite (proj2 (Z.eqb_neq _ _)) by lia. split_and!; [done|done|done|..].
  - intros b Hb. apply (es_map_says s i x); [done..|]. by eapply says_self.
  - intros b v Hb Hv%(es_map_says s i x); [|done..]. unfold tree_says in Hv. rewrite El in Hv.
    eapply (no_delayed_ends _ lblk (es_lblk es - 1)); [exact H1|exact Hnd| |exact Hv]. lia.
  - intros Hgt. destruct Hst as [|Hh]; [lia|]. destruct l2 as [|m l2]; [done|]. injection Hh as ->. intros b Hb.
    apply (es_map_none s i x); [done..|]. intros v Hv. unfold tree_says in Hv. rewrite El in Hv, Hl.
    destruct (ok_around _ _ _ _ _ Hl He) as [_ B2]. eapply (gap_silent _ l1 (n :: l2) lblk (es_lblk es - 1)); [exact H1| |exact Hv|lia].
    apply (starts_from_cons _ _ _ _ es He). split; [lia|]. eapply starts_from_mono; [exact B2|]. lia.
Qed.

(** Where the search starts: the cached extent or the first that ends after the block. *)
Lemma find_start s i x lblk :
  es_ok s -> es_inodes s !! i = Some x ->
  wp (c <- cached i lblk ;; match c with Some n => kret (Some n) | None => __es_tree_search i lblk end)
    (fun r s' => s' = s /\ exists l1 l2, inorder (root x) = l1 ++ l2 /\ r = head l2 /\ ends_by (extents x) lblk l1 /\
       forall n es, n ∈ l2 -> extents x !! n = Some es -> lblk < es_lblk es + es_len es) s.
Proof.
  intros Hok Hi. pose proof (to_ok _ (eo_tree _ Hok _ _ Hi)) as Hl. es_step. eapply wp_mono; [by eapply cached_spec|].
  cbn beta. intros [n|] s0 [-> Hc]; [|by apply tree_search_spec]. destruct Hc as ((l1 & l2 & El)%list_elem_of_split & es & He & Hcv).
  es_step. split; [done|]. exists l1, (n :: l2). rewrite El in Hl. destruct (ok_around _ _ _ _ _ Hl He) as [B1 B2]. unfold covers in Hcv.
  split_and!; [done|done|eapply ends_by_mono; [exact B1|]; lia|]. intros m em [->|Hm]%elem_of_cons Hem; [simplify_eq; lia|].
  pose proof (B2 m em Hm Hem). destruct (ok_at _ _ m Hl) as (em' & Hem' & [Hvl Hvn _ _ _ _]); [apply elem_of_app; right; by right|]. simplify_eq. lia.
Qed.

Lemma find_delayed_spec s i x lblk stop :
  es_ok s -> es_inodes s !! i = Some x -> lblk <= stop ->
  wp (ext4_es_find_delayed_extent_range i lblk stop)
    (fun es s' => es_ok s' /\ (forall j b, es_map s' j b = es_map s j b) /\ first_delayed s i lblk stop es) s.
Proof.
  intros Hok Hi Hle. pose proof (to_ok _ (eo_tree _ Hok _ _ Hi)) as Hl. unfold ext4_es_find_delayed_extent_range.
  es_step. apply wp_assert; [by rewrite (proj2 (Z.ltb_ge _ _)) by lia|].
  pose proof (find_start s i x lblk Hok Hi) as Hw%wp_bind_inv. es_step. eapply wp_mono; [exact Hw|]. cbn beta. intros c s0 Hw0. clear Hw.
  es_step. eapply wp_mono; [exact Hw0|]. cbn beta. intros r s' (-> & l1 & l2 & El & -> & H1 & H2). clear Hw0 s0. do 2 es_step. es_step.
  eapply (wp_mono _ (fun r s' => s' = s /\ match r with
    | Some n => exists es, n ∈ inorder (root x) /\ extents x !! n = Some es /\ first_delayed s i lblk stop es
    | None => no_delayed (extents x) lblk stop (inorder (root x)) end)).
  { destruct l2 as [|n l2]; cbn [head].
    { es_step. split; [done|]. rewrite El. apply no_delayed_ends; [done|]. apply no_delayed_starts, starts_from_nil. }
    pose proof Hl as Hl0. rewrite El in Hl0. destruct (ok_mid _ _ _ _ Hl0) as (es & He & V).
    assert (n ∈ inorder (root x)) as Hn by (rewrite El; apply elem_of_app; right; by left). destruct (ok_around _ _ _ _ _ Hl0 He) as [_ B2].
    do 2 es_step. destruct (ext4_es_is_delayed es) eqn:Hd.
    - es_step. split; [done|]. exists es. split_and!; [done|done|]. eapply (first_delayed_at s i x l1 (n :: l2) n); try done; [by left|eapply H2; [by left|done]| |by right].
      apply no_delayed_starts, (starts_from_cons _ _ _ _ es He). split; [lia|]. eapply starts_from_mono; [exact B2|]. pose proof (v_len _ V). lia.
    - rewrite El, from_node_split; cbn [tail]; [|intros Hin; apply ok_notin in Hl0; apply Hl0, elem_of_app; by left].
      eapply wp_mono; [apply (next_delayed_spec i x stop l2 s lblk Hi); eapply (ok_right _ (l1 ++ [n])); by rewrite <-app_assoc|].
      cbn beta. intros [m|] s' [-> Hr]; (split; [done|]).
      + destruct Hr as (em & Hm & Hem & Hdm & Hls & Hnd). exists em. split_and!; [apply elem_of_app; right; by right|done|].
        eapply (first_delayed_at s i x l1 (n :: l2) m); try done; [by right|eapply H2; [by right|done]| |by left].
        eapply no_delayed_cons; [done| |done]. auto.
      + apply no_delayed_ends; [done|]. eapply no_delayed_cons; [done| |done]. auto. }
  cbn beta. intros [n|] s' [-> Hf].
  - destruct Hf as (es & Hn & He & Hfd). do 2 es_step. eapply wp_read_es; [cbn; by rewrite lookup_insert_eq|exact He|].
    destruct (cache_map s i x n Hok Hi Hn) as [Hok' Hm']. by split_and!.
  - es_step. split_and!; [done|done|]. unfold first_delayed. cbn. intros b v Hb Hv%(es_map_says s i x); [|done..]. by eapply Hf.
Qed.
End Lookup.

(** ** Filling *)

(** [ext4_es_cache_extent]: nothing happens because something is known about the range or because there is no memory, or
    nothing is known and the range is filled. *)
Definition filled (i : positive) (lblk len pblk status : Z) (s s' : es_state) : Prop :=
  ((forall j b, es_map s' j b = es_map s j b) /\ ((exists b, lblk <= b < lblk + len /\ es_map s i b <> None) \/ allocs s <> [])) \/
  ((forall b, lblk <= b < lblk + len -> es_map s i b = None) /\
   (forall j b, es_map s' j b = if decide (j = i /\ lblk <= b < lblk + len) then Some (new_value lblk pblk status b) else es_map s j b)).

Lemma cache_extent_spec `{Rebalance} s i x lblk len pblk status :
  es_ok s -> es_inodes s !! i = Some x -> insertable lblk len pblk status ->
  wp (ext4_es_cache_extent i lblk len pblk status) (fun _ s' => es_ok s' /\ filled i lblk len pblk status s s') s.
Proof.
  intros Hok Hi Hins. destruct (insertable_new _ _ _ _ Hins) as (V & Hd & Eend & Hcov & Hval). pose proof Hins as [Il Iln Ie _ _ _].
  pose proof (to_ok _ (eo_tree _ Hok _ _ Hi)) as Hl. set (new := mk_es lblk len (pblock_status pblk status)) in *.
  assert ((forall b v, covers new b -> ~ tree_says x b v) ->
    wp (__es_insert_extent i new ;;; kret tt) (fun _ s' => es_ok s' /\ filled i lblk len pblk status s s') s) as Hfill.
  { intros Hsil. es_step. eapply wp_mono; [apply (insert_spec s i x new); [apply Hok|done|done|done|by apply silent_apart]|]. cbn beta.
    intros r s' [(-> & x' & Hb & Ht & Had & _)|(-> & rest & Eal & ->)]; es_step.
    - destruct (adds_map i x new s x' s' Hok Hi Hb Ht Had Hsil) as (Hok' & Hm & Ho). split; [done|]. right. split.
      + intros b Hb'. apply (es_map_none s i x); [done..|]. intros v. apply Hsil, Hcov. done.
      + intros j b. destruct (decide (j = i)) as [->|Hne]; [rewrite Hm|rewrite decide_False by naive_solver; auto].
        destruct (decide (covers new b)) as [Hc|Hc]; rewrite (Hcov b) in Hc; [rewrite decide_True by done; by rewrite Hval|by rewrite decide_False by tauto].
    - split; [by eapply (alloc_shrinks s rest Hok)|]. left. split; [done|]. right. by rewrite Eal. }
  unfold ext4_es_cache_extent. rewrite (proj2 (Z.eqb_neq len 0)), Eend by lia. fold new.
  es_step. apply wp_assert; [by rewrite (proj2 (Z.ltb_ge _ _)) by lia|]. es_step. eapply wp_mono; [by apply tree_search_spec|].
  cbn beta. intros r s0 (-> & l1 & l2 & El & -> & H1 & H2). es_step.
  assert (starts_from (extents x) (lblk + len - 1 + 1) l2 -> forall b v, covers new b -> ~ tree_says x b v) as Hgap.
  { intros H2' b v Hb Hv. unfold tree_says in Hv. rewrite El in Hv. apply (proj1 (Hcov b)) in Hb.
    apply (gap_silent _ l1 l2 lblk (lblk + len - 1) b v H1 H2' Hv). lia. }
  destruct l2 as [|n l2]; cbn [head]; [es_step; apply Hfill, Hgap, starts_from_nil|].
  pose proof Hl as Hl0. rewrite El in Hl0. destruct (ok_mid _ _ _ _ Hl0) as (es & He & Ve). destruct (ok_around _ _ _ _ _ Hl0 He) as [_ B2].
  do 3 es_step. destruct (Z.ltb_spec (lblk + len - 1) (es_lblk es)) as [Hgt|Hle].
  - apply Hfill, Hgap, (starts_from_cons _ _ _ _ es He). split; [lia|]. eapply starts_from_mono; [exact B2|]. pose proof (v_len _ Ve). lia.
  - es_step. split; [done|]. left. split; [done|]. left. exists (Z.max lblk (es_lblk es)).
    assert (lblk < es_lblk es + es_len es) as Hend by (eapply H2; [by left|done]). pose proof (v_len _ Ve). split; [lia|].
    intros Hnone. apply (proj1 (es_map_none s i x _ Hok Hi) Hnone (value es (Z.max lblk (es_lblk es)))).
    eapply says_self; [|done|unfold covers; lia]. rewrite El. apply elem_of_app. right. by left.
Qed.
