(* ===== verification/ExtentTheorems.v ===== *)
(** * What the extent status cache promises

    The properties of the operations of extents_status.c, on any red-black tree that keeps the order of its nodes, with the
    runs that show that their hypotheses can hold. *)
From S2P Require Import Prelude Log ExtentStatus ExtentMap ExtentTree ExtentOps ExtentShrink ExtentRemove ExtentCache.

(** The cache of a file system that is being mounted: every inode has the empty tree of [ext4_es_init_tree], nothing is counted yet. *)
Lemma register_shrinker_ok (s : es_state) :
  (forall i x, es_inodes s !! i = Some x ->
     ext4_es_init_tree x = x /\ extents x = ∅ /\ i_es_all_nr x = 0 /\ i_es_shk_nr x = 0) ->
  wp (ext4_es_register_shrinker 0 0 0) (fun r s' => r = 0 /\ es_ok s') s.
Proof.
  intros Hnew. unfold ext4_es_register_shrinker. rewrite Z.eqb_refl. cbn [negb]. do 7 es_step. split; [done|].
  assert (forall i x, es_inodes s !! i = Some x ->
    root x = Leaf /\ cache_es x = None /\ extents x = ∅ /\ i_es_all_nr x = 0 /\ i_es_shk_nr x = 0) as Hx.
  { intros i x Hi. destruct (Hnew i x Hi) as (E & ? & ? & ?). destruct x; cbn in *. injection E as <- <-. done. }
  assert (forall f, (forall i x, es_inodes s !! i = Some x -> f x = 0) -> total f (es_inodes s) = 0) as Ht.
  { intros f Hf. rewrite (total_ext f (fun _ => 0)) by done. generalize (es_inodes s). intros m.
    induction m as [|i x m Hi IH] using map_ind; [done|]. by rewrite total_new. }
  split; [split|]; cbn; try done.
  - intros i x (Er & Ec & Ee & Ea & Es)%Hx. split; rewrite ?Er, ?Ee, ?Ea, ?Es; cbn; try done; [constructor|].
    intros n. rewrite lookup_empty. split; [by intros [? ?]|by intros ?%elem_of_nil].
  - intros i x (_ & _ & _ & _ & Es)%Hx. rewrite Es. split; [by intros ?%elem_of_nil|done].
  - by intros i ?%elem_of_nil.
  - constructor.
  - symmetry. apply Ht. by intros i x (_ & _ & _ & Ea & _)%Hx.
  - symmetry. apply Ht. by intros i x (_ & _ & _ & _ & Es)%Hx.
  - intros i x (Er & Ec & Ee & _)%Hx. split; [rewrite Er, Ee; split; [by intros n ?%elem_of_nil|constructor]|by rewrite Ec].
Qed.

Section Theorems.
Context `{Rebalance}.
Implicit Types s : es_state.

(** C13: while memory lasts, [ext4_es_insert_extent] is an update of the map: it returns 0, every block of the range has
    the new state and its physical block, and all other blocks of all inodes are as they were, however the new extent was merged
    with its neighbours and the old ones were cut.  The tree stays ordered and disjoint and all counters exact ([es_ok]). *)
Theorem insert_extent_refines trylock fuel s i lblk len pblk status :
  es_ok s -> is_Some (es_inodes s !! i) -> insertable lblk len pblk status -> allocs s = [] -> es_stats_all_cnt s + 1 < Z.of_nat fuel ->
  exists s', ext4_es_insert_extent trylock fuel i lblk len pblk status s = Ret (Some 0, s') /\ es_ok s' /\
    forall j b, es_map s' j b =
      if decide (j = i /\ lblk <= b < lblk + len) then Some (new_value lblk pblk status b) else es_map s j b.
Proof.
  intros Hok [x Hi] Hins Hal Hf.
  destruct (proj1 (wp_returns _ _ _) (insert_extent_spec trylock fuel s i x lblk len pblk status Hok Hi Hins Hf)) as (r & s' & Hrun & Hr).
  destruct Hr as [[-> Hup]|[(_ & Hne & _)|(_ & Hne & _)]]; [|done..]. exists s'. split_and!; [done|apply Hup|].
  intros j b. case_decide as Hjb.
  - destruct Hjb as [-> Hb]. apply (up_range _ _ _ _ _ _ _ Hup). lia.
  - apply (up_exact _ _ _ _ _ _ _ Hup); [done|]. destruct (decide (j = i)); [right|by left]. lia.
Qed.

(** C14: whatever allocations fail, [ext4_es_insert_extent] ends (each retry follows a reclaimed extent), meets none of its
    [BUG_ON]s and keeps the tree and the counters.  It returns 0 or [-ENOMEM].  After 0 the range has the new state, or nothing
    is known about it, and that only if the new state is not delayed; an old state never survives a 0.  Outside the range and in
    other inodes blocks may be forgotten, but no delayed one. *)
Theorem insert_extent_under_pressure trylock fuel s i lblk len pblk status :
  es_ok s -> is_Some (es_inodes s !! i) -> insertable lblk len pblk status -> es_stats_all_cnt s + 1 < Z.of_nat fuel ->
  exists r s', ext4_es_insert_extent trylock fuel i lblk len pblk status s = Ret (Some r, s') /\ es_ok s' /\ (r = 0 \/ r = - ENOMEM) /\
    (r = 0 ->
      (forall b, lblk <= b < lblk + len -> es_map s' i b = Some (new_value lblk pblk status b)) \/
      ((forall b, lblk <= b < lblk + len -> es_map s' i b = None) /\ Z.land status EXTENT_STATUS_DELAYED = 0)) /\
    (forall j b, j <> i \/ ~ lblk <= b < lblk + len -> forgets s s' j b).
Proof.
  intros Hok [x Hi] Hins Hf.
  destruct (proj1 (wp_returns _ _ _) (insert_extent_spec trylock fuel s i x lblk len pblk status Hok Hi Hins Hf)) as (r & s' & Hrun & Hr).
  destruct Hr as [[-> Hup]|[(-> & _ & Hup)|(-> & _ & Hok' & Hfg)]]; eexists _, s'; (split; [exact Hrun|]).
  - split_and!; [apply Hup|by left| |].
    + intros _. left. intros b Hb. apply (up_range _ _ _ _ _ _ _ Hup). lia.
    + intros j b Hjb. apply (up_rest _ _ _ _ _ _ _ Hup). lia.
  - split_and!; [apply Hup|case_match; auto| |].
    + intros E. right. split; [|by destruct (Z.eqb_spec (Z.land status EXTENT_STATUS_DELAYED) 0)].
      intros b Hb. apply (up_range _ _ _ _ _ _ _ Hup). lia.
    + intros j b Hjb. apply (up_rest _ _ _ _ _ _ _ Hup). lia.
  - by split_and!; [|right|..].
Qed.

(** [ext4_es_remove_extent] ends on any schedule of allocations.  It returns 0 and then nothing is known about the range, or
    [-ENOMEM], when the extent behind the range had no memory; then the extent that was cut is whole again.  Besides the range no
    delayed block is forgotten, and none at all while memory lasts. *)
Theorem remove_extent_clears trylock fuel s i lblk len :
  es_ok s -> is_Some (es_inodes s !! i) -> 0 <= lblk -> 0 < len -> lblk + len <= 4294967296 -> es_stats_all_cnt s < Z.of_nat fuel ->
  exists r s', ext4_es_remove_extent trylock fuel i lblk len s = Ret (Some r, s') /\ es_ok s' /\
    (r = 0 /\ (forall b, lblk <= b < lblk + len -> es_map s' i b = None) /\
       (forall j b, j <> i \/ ~ lblk <= b < lblk + len -> forgets s s' j b) /\
       (allocs s = [] -> forall j b, j <> i \/ ~ lblk <= b < lblk + len -> es_map s' j b = es_map s j b) \/
     r = - ENOMEM /\ allocs s <> [] /\ forall j b, forgets s s' j b).
Proof.
  intros Hok [x Hi] Hl Hn He Hf. assert (u32 (u32 (lblk + len) - 1) = lblk + len - 1) as Eend by (unfold u32; lia).
  assert (wp (ext4_es_remove_extent trylock fuel i lblk len) (fun r s' =>
    (r = Some 0 /\ updated (allocs s = []) i lblk (lblk + len - 1) (fun _ => None) s s' /\ (allocs s = [] -> allocs s' = []) /\
     es_stats_all_cnt s' <= es_stats_all_cnt s + 1) \/
    (r = Some (- ENOMEM) /\ allocs s <> [] /\ es_ok s' /\ forall j b, forgets s s' j b)) s) as Hw.
  { unfold ext4_es_remove_extent. rewrite (proj2 (Z.eqb_neq len 0)), Eend by lia. es_step.
    apply wp_assert; [by rewrite (proj2 (Z.ltb_ge _ _)) by lia|]. eapply remove_extent_spec; done || lia. }
  destruct (proj1 (wp_returns _ _ _) Hw) as (r & s' & Hrun & [(-> & Hup & _)|(-> & Hne & Hok' & Hfg)]); eexists _, s'; (split; [exact Hrun|]).
  - split; [apply Hup|]. left. split_and!; [done|..].
    + intros b Hb. apply (up_range _ _ _ _ _ _ _ Hup). lia.
    + intros j b Hjb. apply (up_rest _ _ _ _ _ _ _ Hup). lia.
    + intros E j b Hjb. apply (up_exact _ _ _ _ _ _ _ Hup); [done|lia].
  - split; [done|]. by right.
Qed.

(** C20: the shrinker takes at most as many extents as it was asked to scan, a number that must be positive as an [int], reports exactly how many it took, and takes no
    delayed block: fiemap, bigalloc and SEEK_DATA need those.  The trees and the counters stay exact, and what is not forgotten
    is unchanged. *)
Theorem scan_keeps_delayed trylock nr s :
  es_ok s -> 0 < s32 nr ->
  exists k s', ext4_es_scan trylock nr s = Ret (k, s') /\ es_ok s' /\ 0 <= k <= s32 nr /\
    total (fun x => Z.of_nat (length (inorder (root x)))) (es_inodes s') =
      total (fun x => Z.of_nat (length (inorder (root x)))) (es_inodes s) - k /\
    forall i b, forgets s s' i b.
Proof.
  intros Hok Hnr. assert (wp (ext4_es_scan trylock nr) (fun k s' => shrinks k s s' /\ k <= s32 nr) s) as Hw.
  { unfold ext4_es_scan. cbv zeta. do 2 es_step. rewrite (proj2 (Z.eqb_neq (s32 nr) 0)) by lia. apply es_shrink_spec; [done|done|lia]. }
  destruct (proj1 (wp_returns _ _ _) Hw) as (k & s' & Hrun & Hsh & Hk). exists k, s'. split_and!; [done|apply Hsh|apply Hsh|done| |].
  - rewrite <-(es_count_nodes s), <-(es_count_nodes s'); [apply Hsh|apply Hsh|apply Hok].
  - intros i b. by eapply shrinks_forgets.
Qed.

(** [ext4_es_lookup_extent] answers from the map, whether the extent was cached or found in the tree: an extent that covers the
    block and says about each of its blocks what the map says, or nothing if the map says nothing.  The map does not change. *)
Theorem lookup_extent_exact s i lblk :
  es_ok s -> is_Some (es_inodes s !! i) ->
  exists r s', ext4_es_lookup_extent i lblk s = Ret (r, s') /\ es_ok s' /\ (forall j b, es_map s' j b = es_map s j b) /\
    match r with
    | Some es => covers es lblk /\ forall b, covers es b -> es_map s i b = Some (value es b)
    | None => es_map s i lblk = None
    end.
Proof.
  intros Hok [x Hi]. destruct (proj1 (wp_returns _ _ _) (lookup_spec s i x lblk Hok Hi)) as (r & s' & Hrun & Hok' & Hm & Hr).
  exists r, s'. split_and!; try done. destruct r; [by destruct Hr as (? & ? & _)|by destruct Hr].
Qed.

(** [ext4_es_find_delayed_extent_range] returns the first delayed extent that ends after [lblk], if it starts at or before [stop];
    an empty one means that there is no delayed block from [lblk] to [stop].  Only if nothing at all is known before it, an
    extent that starts behind [stop] is returned too ([first_delayed]). *)
Theorem find_delayed_extent_first s i lblk stop :
  es_ok s -> is_Some (es_inodes s !! i) -> lblk <= stop ->
  exists es s', ext4_es_find_delayed_extent_range i lblk stop s = Ret (es, s') /\ es_ok s' /\
    (forall j b, es_map s' j b = es_map s j b) /\ first_delayed s i lblk stop es.
Proof.
  intros Hok [x Hi] Hle. destruct (proj1 (wp_returns _ _ _) (find_delayed_spec s i x lblk stop Hok Hi Hle)) as (es & s' & Hrun & Hr).
  by exists es, s'.
Qed.

(** [ext4_es_cache_extent] puts its range into the map if nothing is known about any of its blocks, and otherwise changes
    nothing; without memory it changes nothing either ([filled]). *)
Theorem cache_extent_fills s i lblk len pblk status :
  es_ok s -> is_Some (es_inodes s !! i) -> insertable lblk len pblk status ->
  exists s', ext4_es_cache_extent i lblk len pblk status s = Ret (tt, s') /\ es_ok s' /\ filled i lblk len pblk status s s'.
Proof.
  intros Hok [x Hi] Hins. destruct (proj1 (wp_returns _ _ _) (cache_extent_spec s i x lblk len pblk status Hok Hi Hins)) as ([] & s' & Hrun & Hr).
  by exists s'.
Qed.
End Theorems.

(** ** A run *)

#[local] Existing Instance unbalanced.

Definition after {A} (m : E A) (s : es_state) : es_state := match m s with Ret (_, s') => s' | Fault _ => s end.

Lemma wp_after {A} (m : E A) (P : es_state -> Prop) s : wp m (fun _ => P) s -> P (after m s).
Proof. unfold wp, after. by destruct (m s) as [[a s']|]. Qed.

(** One inode, about which nothing is known; then blocks 10 to 29 are written and blocks 40 to 44 delayed. *)
Definition es_start : es_state := mk_es_state {[1%positive := mk_es_inode Leaf None ∅ 0 0 0 false]} [] 0 0 0 0 0 [].
Definition no_locks : nat -> positive -> bool := fun _ _ => true.
Definition es_run1 : es_state := after (ext4_es_insert_extent no_locks 9 1%positive 10 20 1000 EXTENT_STATUS_WRITTEN) es_start.
Definition es_run2 : es_state := after (ext4_es_insert_extent no_locks 9 1%positive 40 5 0 EXTENT_STATUS_DELAYED) es_run1.
Definition es_short : es_state := es_run2 <| allocs := [false] |>.

Lemma es_start_ok : es_ok es_start.
Proof.
  apply (wp_after (ext4_es_register_shrinker 0 0 0) es_ok es_start). eapply wp_mono; [apply register_shrinker_ok|by intros ?? [_ ?]].
  cbn. intros i x [<- <-]%lookup_singleton_Some. by split_and!.
Qed.

Lemma insert_run s i lblk len pblk status :
  es_ok s -> is_Some (es_inodes s !! i) -> insertable lblk len pblk status -> es_stats_all_cnt s + 1 < 9 ->
  es_ok (after (ext4_es_insert_extent no_locks 9 i lblk len pblk status) s).
Proof.
  intros Hok [x Hi] Hins Hf. apply (wp_after _ es_ok). eapply wp_mono; [by eapply insert_extent_spec|]. cbn beta.
  intros r s' [[_ Hup]|[(_ & _ & Hup)|(_ & _ & ? & _)]]; [apply Hup|apply Hup|done].
Qed.

Ltac es_live := eexists; vm_compute; reflexivity.
Ltac insert_args := split; [by vm_compute..|vm_compute; set_solver|by vm_compute].

Lemma es_run1_ok : es_ok es_run1.
Proof. apply insert_run; [apply es_start_ok|es_live|insert_args|by vm_compute]. Qed.
Lemma es_run2_ok : es_ok es_run2.
Proof. apply insert_run; [apply es_run1_ok|es_live|insert_args|by vm_compute]. Qed.
Lemma es_short_ok : es_ok es_short.
Proof. by apply (alloc_shrinks es_run2 [false]), es_run2_ok. Qed.

(** Inserting blocks 15 to 42 cuts both extents. *)
Lemma insert_extent_refines_witness :
  exists s', ext4_es_insert_extent no_locks 9 1%positive 15 28 2000 EXTENT_STATUS_UNWRITTEN es_run2 = Ret (Some 0, s') /\
    map (es_map s' 1%positive) [9; 14; 15; 42; 43; 45] =
      [None; Some (1, Some 1004); Some (2, Some 2000); Some (2, Some 2027); Some (4, None); None].
Proof.
  destruct (insert_extent_refines no_locks 9 es_run2 1%positive 15 28 2000 EXTENT_STATUS_UNWRITTEN es_run2_ok) as (s' & Hr & _ & Hm);
    [es_live|insert_args|by vm_compute..|]. exists s'. split; [done|]. cbn [map]. rewrite !Hm. by vm_compute.
Defined.

(** Without memory the extent that would be split is reclaimed instead. *)
Lemma insert_extent_under_pressure_witness :
  exists s', ext4_es_insert_extent no_locks 9 1%positive 15 2 3000 EXTENT_STATUS_WRITTEN es_short = Ret (Some 0, s') /\
    (forall b, 15 <= b < 17 -> es_map s' 1%positive b = Some (new_value 15 3000 EXTENT_STATUS_WRITTEN b)) /\
    es_map s' 1%positive 40 = Some (4, None) /\ es_map s' 1%positive 14 = None.
Proof.
  destruct (insert_extent_under_pressure no_locks 9 es_short 1%positive 15 2 3000 EXTENT_STATUS_WRITTEN es_short_ok)
    as (r & s' & Hr & _ & _ & H0 & Hf); [es_live|insert_args|by vm_compute|].
  assert (after (ext4_es_insert_extent no_locks 9 1%positive 15 2 3000 EXTENT_STATUS_WRITTEN) es_short = s') as E by (unfold after; by rewrite Hr).
  assert (r = 0) as ->.
  { assert (match ext4_es_insert_extent no_locks 9 1%positive 15 2 3000 EXTENT_STATUS_WRITTEN es_short with Ret (Some z, _) => z | _ => 1 end = 0) as Ez
      by by vm_compute. by rewrite Hr in Ez. }
  exists s'. split; [done|]. split; [|by rewrite <-E; vm_compute].
  destruct (H0 eq_refl) as [|[Hn _]]; [done|]. specialize (Hn 15 ltac:(lia)). rewrite <-E in Hn. by vm_compute in Hn.
Defined.

Lemma remove_extent_clears_witness :
  exists s', ext4_es_remove_extent no_locks 9 1%positive 12 30 es_run2 = Ret (Some 0, s') /\
    (forall b, 12 <= b < 42 -> es_map s' 1%positive b = None) /\ es_map s' 1%positive 11 = Some (1, Some 1001) /\
    es_map s' 1%positive 42 = Some (4, None).
Proof.
  destruct (remove_extent_clears no_locks 9 es_run2 1%positive 12 30 es_run2_ok) as (r & s' & Hr & _ & [(-> & Hn & _ & He)|(-> & Hne & _)]);
    [es_live|by vm_compute..| |by destruct Hne; vm_compute].
  exists s'. split_and!; [done|done|..]; rewrite He by (lia || by vm_compute); by vm_compute.
Defined.

(** The shrinker is asked for four extents and finds one. *)
Lemma scan_keeps_delayed_witness :
  exists s', ext4_es_scan (fun _ => true) 4 es_run2 = Ret (1, s') /\ es_map s' 1%positive 40 = Some (4, None).
Proof.
  destruct (scan_keeps_delayed (fun _ => true) 4 es_run2 es_run2_ok ltac:(done)) as (k & s' & Hr & Hok & _ & _ & Hf).
  assert (k = 1) as ->.
  { assert (match ext4_es_scan (fun _ => true) 4 es_run2 with Ret (z, _) => z | _ => 0 end = 1) as Ez by by vm_compute. by rewrite Hr in Ez. }
  exists s'. split; [done|]. destruct (Hf 1%positive 40) as [->|[_ Hd]]; [by vm_compute|].
  specialize (Hd (4, None) ltac:(by vm_compute)). by vm_compute in Hd.
Defined.

Lemma lookup_extent_exact_witness :
  exists es s', ext4_es_lookup_extent 1%positive 12 es_run2 = Ret (Some es, s') /\ covers es 12 /\ value es 12 = (1, Some 1002).
Proof.
  destruct (lookup_extent_exact es_run2 1%positive 12 es_run2_ok) as ([es|] & s' & Hr & _ & _ & Hv); [es_live|..].
  - destruct Hv as [Hc Hv]. exists es, s'. split_and!; [done|done|]. specialize (Hv 12 Hc).
    assert (es_map es_run2 1%positive 12 = Some (1, Some 1002)) as E by by vm_compute. congruence.
  - by vm_compute in Hv.
Defined.

(** From block 31 on nothing is known until the delayed extent at block 40, which is returned although the search was to stop at 35. *)
Lemma find_delayed_extent_first_witness :
  exists es s', ext4_es_find_delayed_extent_range 1%positive 31 35 es_run2 = Ret (es, s') /\ es_lblk es = 40 /\
    first_delayed es_run2 1%positive 31 35 es.
Proof.
  destruct (find_delayed_extent_first es_run2 1%positive 31 35 es_run2_ok) as (es & s' & Hr & _ & _ & Hf); [es_live|lia|].
  exists es, s'. split_and!; [done| |done].
  assert (match ext4_es_find_delayed_extent_range 1%positive 31 35 es_run2 with Ret (z, _) => es_lblk z | _ => 0 end = 40) as Ez by by vm_compute.
  by rewrite Hr in Ez.
Defined.

Lemma cache_extent_fills_witness :
  exists s', ext4_es_cache_extent 1%positive 30 10 0 EXTENT_STATUS_HOLE es_run2 = Ret (tt, s') /\ es_map s' 1%positive 35 = Some (8, None).
Proof.
  destruct (cache_extent_fills es_run2 1%positive 30 10 0 EXTENT_STATUS_HOLE es_run2_ok) as (s' & Hr & _ & Hf); [es_live|insert_args|].
  exists s'. split; [done|]. destruct Hf as [[_ [(b & Hb & Hk)|Hal]]|[_ Hm]]; [|by destruct Hal; vm_compute|].
  - assert (after (ext4_es_cache_extent 1%positive 30 10 0 EXTENT_STATUS_HOLE) es_run2 = s') as <- by (unfold after; by rewrite Hr). by vm_compute.
  - rewrite Hm, decide_True by lia. by vm_compute.
Defined.
