(* ===== verification/BlockValidity.v ===== *)
(** * System zones

    kernel/fs/ext4/block_validity.c: the red-black tree of the blocks that hold the file system's own metadata, and the
    check that a range of blocks given to an inode does not touch them; and of balloc.c and ext4.h, which groups have copies of the
    superblock and of the group descriptors.

    The tree is that of ExtentStatus.v; zones are objects named by positive numbers.  [zone_allocs] are the results of the
    coming allocations.  Block numbers are 64-bit, lengths are 32-bit. *)
From stdpp Require Import sorting.
From S2P Require Import Prelude Log ExtentStatus ExtentTree.

Record ext4_system_zone := mk_zone { start_blk : Z; count : Z }.
#[export] Instance eta_zone : Eta _ := fun z => mk_zone (start_blk z) (count z).

Record zstate := mk_zstate {
  system_blks : rb;
  zones : gmap positive ext4_system_zone;
  zone_allocs : list bool;
  s_last_error_block : Z;
}.
#[export] Instance eta_zstate : Eta _ := fun s => mk_zstate (system_blks s) (zones s) (zone_allocs s) (s_last_error_block s).

Abbreviation ZM := (K zstate).
Definition get_z : ZM zstate := fun s => Ret (s, s).
Definition modify_z (f : zstate -> zstate) : ZM unit := fun s => Ret (tt, f s).
Definition read_zone (n : positive) : ZM ext4_system_zone := fun s =>
  match zones s !! n with Some z => Ret (z, s) | None => Fault Oops end.
Definition modify_zone (n : positive) (f : ext4_system_zone -> ext4_system_zone) : ZM unit :=
  z <- read_zone n ;;
  modify_z (fun s => s <| zones ::= <[n := f z]> |>).
Definition zone_alloc : ZM bool := fun s =>
  match zone_allocs s with
  | [] => Ret (true, s)
  | ok :: rest => Ret (ok, s <| zone_allocs := rest |>)
  end.

Definition zone_end (z : ext4_system_zone) : Z := u64 (start_blk z + count z).

Definition can_merge (entry1 entry2 : ext4_system_zone) : bool := zone_end entry1 =? start_blk entry2.

(** The descent of [add_system_zone]: the zone that holds the block, or where to link a new one. *)
Fixpoint find_zone (start : Z) (t : rb) : ZM (positive + list bool) :=
  match t with
  | Leaf => kret (inr [])
  | Node l n r =>
    entry <- read_zone n ;;
    if start <? start_blk entry
    then p <- find_zone start l ;; kret (match p with inr p => inr (true :: p) | inl m => inl m end)
    else if zone_end entry <=? start
    then p <- find_zone start r ;; kret (match p with inr p => inr (false :: p) | inl m => inl m end)
    else kret (inl n)
  end.

(** ** The groups of a file system *)

(** What balloc.c and ext4.h read of the superblock. *)
Record fs_layout := mk_fs_layout {
  has_feature_sparse_super2 : bool;
  has_feature_sparse_super : bool;
  has_feature_meta_bg : bool;
  s_backup_bgs : Z * Z;
  s_first_meta_bg : Z;
  s_gdb_count : Z;
  s_desc_per_block : Z;
  s_log_groups_per_flex : Z;
  s_blocks_per_group : Z;
  fs_first_data_block : Z;
  s_itb_per_group : Z;
}.

(** [while (1)]; a group number has 32 bits and loses one at least in every round. *)
Fixpoint test_root_loop (fuel : nat) (a b : Z) : bool :=
  match fuel with
  | O => false
  | S fuel =>
    if a <? b then false
    else if a =? b then true
    else if negb (a mod b =? 0) then false
    else test_root_loop fuel (a / b) b
  end.
Definition test_root (a b : Z) : bool := test_root_loop 32 a b.

Definition ext4_bg_has_super (fs : fs_layout) (group : Z) : bool :=
  if group =? 0 then true
  else if has_feature_sparse_super2 fs then (group =? (s_backup_bgs fs).1) || (group =? (s_backup_bgs fs).2)
  else if (group <=? 1) || negb (has_feature_sparse_super fs) then true
  else if Z.land group 1 =? 0 then false
  else test_root group 3 || test_root group 5 || test_root group 7.

Definition ext4_bg_num_gdb_meta (fs : fs_layout) (group : Z) : Z :=
  let metagroup := group / s_desc_per_block fs in
  let first := u32 (metagroup * s_desc_per_block fs) in
  let last := u32 (first + s_desc_per_block fs - 1) in
  if (group =? first) || (group =? u32 (first + 1)) || (group =? last) then 1 else 0.

Definition ext4_bg_num_gdb_nometa (fs : fs_layout) (group : Z) : Z :=
  if negb (ext4_bg_has_super fs group) then 0
  else if has_feature_meta_bg fs then s_first_meta_bg fs else s_gdb_count fs.

Definition ext4_bg_num_gdb (fs : fs_layout) (group : Z) : Z :=
  let metagroup := group / s_desc_per_block fs in
  if negb (has_feature_meta_bg fs) || (metagroup <? s_first_meta_bg fs) then ext4_bg_num_gdb_nometa fs group
  else ext4_bg_num_gdb_meta fs group.

Definition ext4_flex_bg_size (fs : fs_layout) : Z := u32 (Z.shiftl 1 (s_log_groups_per_flex fs)).

Definition ext4_group_first_block_no (fs : fs_layout) (group_no : Z) : Z :=
  u64 (group_no * s_blocks_per_group fs + fs_first_data_block fs).

(** The loop of [test_root] finds the powers. *)
Lemma test_root_loop_power fuel : forall a b,
  2 <= b -> 0 <= a < 2 ^ Z.of_nat fuel -> test_root_loop fuel a b = true <-> exists n, 0 < n /\ a = b ^ n.
Proof.
  induction fuel as [|fuel IH]; intros a b Hb Ha.
  { split; [done|]. intros (n & Hn & ->). pose proof (Z.pow_pos_nonneg b n). lia. }
  rewrite Nat2Z.inj_succ, Z.pow_succ_r in Ha by lia. cbn [test_root_loop].
  assert (forall n, 0 < n -> b ^ n = b * b ^ (n - 1) /\ 0 < b ^ (n - 1)) as Hpow.
  { intros n Hn. split; [|apply Z.pow_pos_nonneg; lia]. rewrite <-Z.pow_succ_r by lia. f_equal. lia. }
  destruct (Z.ltb_spec a b) as [Hlt|Hge].
  { split; [done|]. intros (n & Hn & ->). destruct (Hpow n Hn) as [E Hp]. rewrite E in Hlt. nia. }
  destruct (Z.eqb_spec a b) as [->|Hne]; [split; [|done]; intros _; exists 1; split; [done|by rewrite Z.pow_1_r]|].
  destruct (Z.eqb_spec (a mod b) 0) as [Hm|Hm]; cbn [negb].
  - apply Z.mod_divide in Hm as [q ->]; [|lia]. rewrite Z.div_mul by lia. rewrite IH by nia. split; intros (n & Hn & E).
    + exists (n + 1). split; [lia|]. rewrite Z.pow_add_r, E by lia. lia.
    + exists (n - 1). destruct (Hpow n Hn) as [E' Hp]. assert (q = b ^ (n - 1)) as Hq by nia. split; [|done].
      assert (n <> 1) by (intros ->; rewrite Hq in Hne; cbn in Hne; lia). lia.
  - split; [done|]. intros (n & Hn & ->). destruct (Hpow n Hn) as [E Hp]. rewrite E, Z.mul_comm, Z.mod_mul in Hm by lia. done.
Qed.

(** With [sparse_super] the copies are in the groups 0 and 1 and in the powers of 3, 5 and 7. *)
Theorem has_super_sparse fs group :
  has_feature_sparse_super2 fs = false -> has_feature_sparse_super fs = true -> is_u32 group ->
  ext4_bg_has_super fs group = true <-> group <= 1 \/ exists n, 0 < n /\ (group = 3 ^ n \/ group = 5 ^ n \/ group = 7 ^ n).
Proof.
  intros H2 H1 Hg. unfold ext4_bg_has_super, test_root, is_u32 in *. rewrite H1, H2. cbn [negb]. rewrite orb_false_r.
  assert (forall b n, Z.odd b = true -> 0 < n -> Z.odd (b ^ n) = true) as Hodd by (intros b n Hb Hn; by rewrite Z.odd_pow).
  destruct (Z.eqb_spec group 0) as [->|Hn0]; [split; [|done]; intros _; left; lia|].
  destruct (Z.leb_spec group 1) as [Hle|Hgt]; [split; [by left|done]|].
  change (Z.land group 1) with (Z.land group (Z.ones 1)). rewrite Z.land_ones by lia. change (2 ^ 1) with 2. rewrite Zmod_odd.
  destruct (Z.odd group) eqn:Ho; cbn [Z.eqb].
  - rewrite !orb_true_iff, !test_root_loop_power by (cbn; lia). split; [|intros [?|(n & Hn & [?|[?|?]])]; [lia|eauto..]].
    intros [[(n & ? & ?)|(n & ? & ?)]|(n & ? & ?)]; right; exists n; auto.
  - split; [done|]. intros [|(n & Hn & [E|[E|E]])]; [lia|..]; rewrite E, Hodd in Ho; done.
Qed.

Section Zones.
Context `{Rebalance}.

Definition erase_zone (n : positive) : ZM unit :=
  modify_z (fun s => s <| system_blks ::= rb_erase n |> <| zones ::= delete n |>).

Definition merge_zone_left (n : positive) : ZM unit :=
  s <- get_z ;;
  match rb_prev n (system_blks s) with
  | None => kret tt
  | Some m =>
    entry <- read_zone m ;;
    new <- read_zone n ;;
    if can_merge entry new
    then
      modify_zone n (fun z => z <| start_blk := start_blk entry |> <| count := u32 (count z + count entry) |>) ;;;
      erase_zone m
    else kret tt
  end.

Definition merge_zone_right (n : positive) : ZM unit :=
  s <- get_z ;;
  match rb_next n (system_blks s) with
  | None => kret tt
  | Some m =>
    entry <- read_zone m ;;
    new <- read_zone n ;;
    if can_merge new entry
    then
      modify_zone n (fun z => z <| count := u32 (count z + count entry) |>) ;;;
      erase_zone m
    else kret tt
  end.

Definition add_system_zone (start cnt : Z) : ZM Z :=
  s <- get_z ;;
  found <- find_zone start (system_blks s) ;;
  new <- (match found with
    | inl n =>
      entry <- read_zone n ;;
      (if zone_end entry <? u64 (start + cnt)
       then modify_zone n (fun z => z <| count := u32 (start + cnt - start_blk z) |>) else kret tt) ;;;
      kret (Some n)
    | inr path =>
      ok <- zone_alloc ;;
      if negb ok then kret None
      else
        s <- get_z ;;
        let n := fresh (dom (zones s)) in
        modify_z (fun s => s <| zones ::= <[n := mk_zone start cnt]> |>
                             <| system_blks ::= fun t => rb_insert_color (rb_link_node n path t) |>) ;;;
        kret (Some n)
    end) ;;
  match new with
  | None => kret (- ENOMEM)
  | Some n => merge_zone_left n ;;; merge_zone_right n ;;; kret 0
  end.

(** What [ext4_setup_system_zone] reads of the descriptor of a group. *)
Record group_desc := mk_group {
  block_bitmap : Z;
  inode_bitmap : Z;
  inode_table : Z;
}.

(** The group [i]: its copy of the superblock and of the descriptors, whose result is not looked at, its bitmaps and its inode table. *)
Fixpoint setup_groups (fs : fs_layout) (i : Z) (groups : list group_desc) : ZM Z :=
  match groups with
  | [] => kret 0
  | g :: groups =>
    (if ext4_bg_has_super fs i && ((i <? 5) || (i mod ext4_flex_bg_size fs =? 0))
     then add_system_zone (ext4_group_first_block_no fs i) (u32 (ext4_bg_num_gdb fs i + 1)) else kret 0) ;;;
    ret <- add_system_zone (block_bitmap g) 1 ;;
    if negb (ret =? 0) then kret ret
    else
      ret <- add_system_zone (inode_bitmap g) 1 ;;
      if negb (ret =? 0) then kret ret
      else
        ret <- add_system_zone (inode_table g) (u32 (s_itb_per_group fs)) ;;
        if negb (ret =? 0) then kret ret else setup_groups fs (i + 1) groups
  end.

Definition ext4_release_system_zone : ZM unit := modify_z (fun s => s <| zones := ∅ |> <| system_blks := Leaf |>).

(** [validity]: the mount option [BLOCK_VALIDITY]. *)
Definition ext4_setup_system_zone (validity : bool) (fs : fs_layout) (groups : list group_desc) : ZM Z :=
  s <- get_z ;;
  let empty := match system_blks s with Leaf => true | Node _ _ _ => false end in
  if negb validity
  then (if empty then kret tt else ext4_release_system_zone) ;;; kret 0
  else if negb empty then kret 0
  else setup_groups fs 0 groups.
End Zones.

(** The descent of [ext4_data_block_valid]. *)
Fixpoint no_zone (start cnt : Z) (t : rb) : ZM bool :=
  match t with
  | Leaf => kret true
  | Node l n r =>
    entry <- read_zone n ;;
    if u64 (start + cnt - 1) <? start_blk entry then no_zone start cnt l
    else if zone_end entry <=? start then no_zone start cnt r
    else kret false
  end.

Section Valid.
Context (s_first_data_block blocks_count : Z).

Definition ext4_data_block_valid (start cnt : Z) : ZM bool :=
  if (start <=? s_first_data_block) || (u64 (start + cnt) <? start) || (blocks_count <? u64 (start + cnt))
  then modify_z (fun s => s <| s_last_error_block := start |>) ;;; kret false
  else
    s <- get_z ;;
    ok <- no_zone start cnt (system_blks s) ;;
    if ok : bool then kret true
    else modify_z (fun s => s <| s_last_error_block := start |>) ;;; kret false.

(** [ext4_check_blockref]: the error itself is that of ext4_error_inode, Ext4.v. *)
Fixpoint ext4_check_blockref (refs : list Z) : ZM Z :=
  match refs with
  | [] => kret 0
  | blk :: refs =>
    if blk =? 0 then ext4_check_blockref refs
    else
      ok <- ext4_data_block_valid blk 1 ;;
      if ok : bool then ext4_check_blockref refs
      else modify_z (fun s => s <| s_last_error_block := blk |>) ;;; kret (- EFSCORRUPTED)
  end.
End Valid.

(** ** Lists of zones *)

Definition zone_covers (z : ext4_system_zone) (b : Z) : Prop := start_blk z <= b < start_blk z + count z.

Record zone_ok (z : ext4_system_zone) : Prop := {
  zo_start : 0 <= start_blk z;
  zo_count : 0 < count z < 4294967296;
  zo_end : start_blk z + count z < 18446744073709551616;
}.

Definition zone_before (a b : ext4_system_zone) : Prop := start_blk a + count a <= start_blk b.

(** Disjoint zones in order, and the set of their blocks. *)
Record zones_sorted (zs : list ext4_system_zone) : Prop := {
  zs_ok : Forall zone_ok zs;
  zs_order : StronglySorted zone_before zs;
}.
Definition in_zones (zs : list ext4_system_zone) (b : Z) : Prop := exists z, z ∈ zs /\ zone_covers z b.
Fixpoint zones_len (zs : list ext4_system_zone) : Z := match zs with [] => 0 | z :: zs => count z + zones_len zs end.

Lemma zone_end_id z : zone_ok z -> zone_end z = start_blk z + count z.
Proof. intros [? [? ?] ?]. apply u64_id. unfold is_u64. lia. Qed.

Lemma zones_sorted_app za zb :
  zones_sorted (za ++ zb) <-> zones_sorted za /\ zones_sorted zb /\ (forall a b, a ∈ za -> b ∈ zb -> zone_before a b).
Proof.
  split.
  - intros [[Fa Fb]%Forall_app (Hc & Sa & Sb)%StronglySorted_app]. by split_and!.
  - intros ([Fa Sa] & [Fb Sb] & Hc). split; [by apply Forall_app|by apply StronglySorted_app].
Qed.

Lemma zones_sorted_cons z zs : zones_sorted (z :: zs) <-> zone_ok z /\ zones_sorted zs /\ (forall b, b ∈ zs -> zone_before z b).
Proof.
  split.
  - intros [[Fz Fs]%Forall_cons [Hz Ss]%StronglySorted_cons]. rewrite Forall_forall in Hz. by split_and!.
  - intros (Hz & [Fs Ss] & Hb). split; [by constructor|]. constructor; [done|]. by apply Forall_forall.
Qed.

Lemma in_zones_app za zb b : in_zones (za ++ zb) b <-> in_zones za b \/ in_zones zb b.
Proof. unfold in_zones. setoid_rewrite elem_of_app. naive_solver. Qed.
Lemma in_zones_cons z zs b : in_zones (z :: zs) b <-> zone_covers z b \/ in_zones zs b.
Proof. unfold in_zones. setoid_rewrite elem_of_cons. naive_solver. Qed.
Lemma zones_len_app za zb : zones_len (za ++ zb) = zones_len za + zones_len zb.
Proof. induction za as [|z za IH]; cbn; lia. Qed.
Lemma zones_len_pos zs : zones_sorted zs -> 0 <= zones_len zs.
Proof. intros [Hok _]. induction Hok as [|z zs [_ ? _] _ IH]; cbn; lia. Qed.

(** A zone in the place of one or two others. *)
Lemma zones_sorted_put za z zb :
  zones_sorted za -> zones_sorted zb -> zone_ok z -> (forall a, a ∈ za -> zone_before a z) -> (forall b, b ∈ zb -> zone_before z b) ->
  zones_sorted (za ++ z :: zb).
Proof.
  intros Ha Hb Hz Hza Hzb. apply zones_sorted_app. split_and!; [done|by apply zones_sorted_cons|].
  intros a b Hin [->|Hin']%elem_of_cons; [auto|]. pose proof (Hza a Hin). pose proof (Hzb b Hin'). destruct Hz as [? [? ?] ?].
  unfold zone_before in *. lia.
Qed.

(** Two neighbours that touch, as one. *)
Lemma zones_join za a b zb c :
  zones_sorted (za ++ a :: b :: zb) -> start_blk a + count a = start_blk b -> count a + count b < 4294967296 ->
  start_blk c = start_blk a -> count c = count a + count b ->
  zones_sorted (za ++ c :: zb) /\ (forall x, in_zones (za ++ c :: zb) x <-> in_zones (za ++ a :: b :: zb) x) /\
  zones_len (za ++ c :: zb) = zones_len (za ++ a :: b :: zb).
Proof.
  intros (Sa & (Oa & (Ob & Sb & Hb)%zones_sorted_cons & Hab)%zones_sorted_cons & Hc)%zones_sorted_app Et Hlen E1 E2.
  pose proof Oa as [? [? ?] ?]. pose proof Ob as [? [? ?] ?]. split_and!.
  - apply zones_sorted_put; [done|done|split; lia|..]; unfold zone_before; rewrite ?E1, ?E2.
    + intros z Hz. assert (zone_before z a) as Hza by (apply Hc; [done|by left]). unfold zone_before in Hza. lia.
    + intros z Hz. pose proof (Hb z Hz) as Hbz. unfold zone_before in Hbz. lia.
  - intros x. rewrite !in_zones_app, !in_zones_cons. unfold zone_covers. rewrite E1, E2. intuition lia.
  - rewrite !zones_len_app. cbn. lia.
Qed.

(** ** The tree *)

(** The zones of the nodes [l]. *)
Definition holds (h : gmap positive ext4_system_zone) : list positive -> list ext4_system_zone -> Prop :=
  Forall2 (fun n z => h !! n = Some z).

Record zones_inv (s : zstate) (zs : list ext4_system_zone) : Prop := {
  zi_holds : holds (zones s) (inorder (system_blks s)) zs;
  zi_nodup : NoDup (inorder (system_blks s));
  zi_sorted : zones_sorted zs;
}.

Lemma zones_of_insert h l zs n z : n ∉ l -> holds h l zs -> holds (<[n := z]> h) l zs.
Proof.
  intros Hn Hl. unfold holds in *. induction Hl as [|m w l ws Hm Hl IH]; [constructor|].
  apply not_elem_of_cons in Hn as [Hne Hn]. constructor; [by rewrite lookup_insert_ne|auto].
Qed.
Lemma zones_of_delete h l zs n : n ∉ l -> holds h l zs -> holds (delete n h) l zs.
Proof.
  intros Hn Hl. unfold holds in *. induction Hl as [|m w l ws Hm Hl IH]; [constructor|].
  apply not_elem_of_cons in Hn as [Hne Hn]. constructor; [by rewrite lookup_delete_ne|auto].
Qed.
Lemma zones_of_app h l1 l2 zs : holds h (l1 ++ l2) zs <-> exists z1 z2, zs = z1 ++ z2 /\ holds h l1 z1 /\ holds h l2 z2.
Proof.
  split; [intros (z1 & z2 & ? & ? & ->)%Forall2_app_inv_l; by exists z1, z2|]. intros (z1 & z2 & -> & ? & ?). by apply Forall2_app.
Qed.
Lemma zones_of_cons h n l zs : holds h (n :: l) zs <-> exists z zs', zs = z :: zs' /\ h !! n = Some z /\ holds h l zs'.
Proof.
  split; [intros (z & zs' & ? & ? & ->)%Forall2_cons_inv_l; by exists z, zs'|]. intros (z & zs' & -> & ? & ?). by constructor.
Qed.

Lemma wp_read_zone n z (Q : ext4_system_zone -> zstate -> Prop) s : zones s !! n = Some z -> Q z s -> wp (read_zone n) Q s.
Proof. unfold wp, read_zone. by intros ->. Qed.
Lemma wp_modify_zone n z f (Q : unit -> zstate -> Prop) s :
  zones s !! n = Some z -> Q tt (s <| zones ::= <[n := f z]> |>) -> wp (modify_zone n f) Q s.
Proof. intros Hn HQ. unfold modify_zone. apply wp_bind. by eapply wp_read_zone. Qed.

Lemma wp_get_z (Q : zstate -> zstate -> Prop) s : Q s s -> wp get_z Q s.
Proof. done. Qed.
Lemma wp_modify_z f (Q : unit -> zstate -> Prop) s : Q tt (f s) -> wp (modify_z f) Q s.
Proof. done. Qed.

Ltac z_step :=
  lazymatch goal with
  | |- wp (kbind _ _) _ _ => apply wp_bind
  | |- wp (kret _) _ _ => apply wp_ret
  | |- wp get_z _ _ => apply wp_get_z
  | |- wp (modify_z _) _ _ => apply wp_modify_z
  | |- wp (read_zone _) _ _ => eapply wp_read_zone; [eassumption|]
  | |- wp (modify_zone _ _) _ _ => eapply wp_modify_zone; [eassumption|]
  end.

(** The zones around node [n]. *)
Record zone_at (s : zstate) (n : positive) (l1 l2 : list positive) (z1 : list ext4_system_zone) (z : ext4_system_zone)
    (z2 : list ext4_system_zone) : Prop := {
  za_order : inorder (system_blks s) = l1 ++ n :: l2;
  za_left : holds (zones s) l1 z1;
  za_zone : zones s !! n = Some z;
  za_right : holds (zones s) l2 z2;
  za_nodup : NoDup (l1 ++ n :: l2);
  za_sorted : zones_sorted (z1 ++ z :: z2);
}.

Lemma zone_at_inv s n l1 l2 z1 z z2 : zone_at s n l1 l2 z1 z z2 -> zones_inv s (z1 ++ z :: z2).
Proof. intros [A B C D E F]. split; rewrite ?A; try done. apply Forall2_app; [done|]. by constructor. Qed.

Section Spec.
Implicit Types (s : zstate) (zs : list ext4_system_zone).

(** Where the descent of [add_system_zone] ends. *)
Definition zone_spot (s : zstate) (start : Z) (t : rb) (zs : list ext4_system_zone) (r : positive + list bool) : Prop :=
  exists l1 l2 z1 z2, holds (zones s) l1 z1 /\ holds (zones s) l2 z2 /\
    match r with
    | inl n => exists z, inorder t = l1 ++ n :: l2 /\ zs = z1 ++ z :: z2 /\ zones s !! n = Some z /\ zone_covers z start
    | inr p => inorder t = l1 ++ l2 /\ zs = z1 ++ z2 /\ (forall n, inorder (rb_link_node n p t) = l1 ++ n :: l2) /\
        (forall z, z ∈ z1 -> start_blk z + count z <= start) /\ (forall z, z ∈ z2 -> start < start_blk z)
    end.

Lemma find_zone_spec start s t : forall zs,
  holds (zones s) (inorder t) zs -> zones_sorted zs -> wp (find_zone start t) (fun r s' => s' = s /\ zone_spot s start t zs r) s.
Proof.
  induction t as [|l IHl n r IHr]; intros zs Hh Hs; cbn [find_zone inorder] in *.
  { apply Forall2_nil_inv_l in Hh as ->. apply wp_ret. split; [done|]. exists [], [], [], []. cbn. split_and!; [constructor|constructor|done|done|done|by intros z ?%elem_of_nil..]. }
  apply zones_of_app in Hh as (zl & zr' & -> & Hl & (z & zr & -> & Hn & Hr)%zones_of_cons).
  pose proof Hs as (Sl & (Oz & Sr & Hzr)%zones_sorted_cons & Hc)%zones_sorted_app. pose proof Oz as [? [? ?] ?].
  assert (forall a, a ∈ zl -> start_blk a + count a <= start_blk z) as Hlz by (intros a Ha; apply Hc; [done|by left]).
  do 2 z_step. rewrite (zone_end_id z Oz). destruct (Z.ltb_spec start (start_blk z)) as [Hlt|Hge].
  - z_step. eapply wp_mono; [apply (IHl zl Hl Sl)|]. cbn beta. intros r' s' (-> & l1 & l2 & z1 & z2 & H1 & H2 & Hr'). apply wp_ret.
    split; [done|]. exists l1, (l2 ++ n :: inorder r), z1, (z2 ++ z :: zr).
    assert (holds (zones s) (l2 ++ n :: inorder r) (z2 ++ z :: zr)) as H2' by (apply Forall2_app; [done|by constructor]).
    split_and!; [done|done|]. destruct r' as [m|p].
    + destruct Hr' as (w & E & -> & Hm & Hw). exists w. cbn. rewrite E, <-!app_assoc. by split_and!.
    + destruct Hr' as (E & -> & Hp & Hz1 & Hz2). cbn. rewrite E, <-!app_assoc. split_and!; try done; [intros m; by rewrite Hp, <-app_assoc|].
      intros w [Hw|[->|Hw]%elem_of_cons]%elem_of_app; [auto|done|]. pose proof (Hzr w Hw) as Hb. unfold zone_before in Hb. lia.
  - destruct (Z.leb_spec (start_blk z + count z) start) as [Hle|Hgt].
    2: { apply wp_ret. split; [done|]. exists (inorder l), (inorder r), zl, zr. split_and!; try done. by exists z. }
    z_step. eapply wp_mono; [apply (IHr zr Hr Sr)|]. cbn beta. intros r' s' (-> & l1 & l2 & z1 & z2 & H1 & H2 & Hr'). apply wp_ret.
    split; [done|]. exists (inorder l ++ n :: l1), l2, (zl ++ z :: z1), z2.
    assert (holds (zones s) (inorder l ++ n :: l1) (zl ++ z :: z1)) as H1' by (apply Forall2_app; [done|by constructor]).
    split_and!; [done|done|]. destruct r' as [m|p].
    + destruct Hr' as (w & E & -> & Hm & Hw). exists w. cbn. rewrite E, <-!app_assoc. by split_and!.
    + destruct Hr' as (E & -> & Hp & Hz1 & Hz2). cbn. rewrite E, <-!app_assoc. split_and!; try done; [intros m; by rewrite Hp, <-app_assoc|].
      intros w [Hw|[->|Hw]%elem_of_cons]%elem_of_app; [pose proof (Hlz w Hw); lia|done|auto].
Qed.

(** The descent of [ext4_data_block_valid] is exact. *)
Lemma no_zone_spec start cnt s t : 0 <= start -> 0 < cnt -> start + cnt < 18446744073709551616 -> forall zs,
  holds (zones s) (inorder t) zs -> zones_sorted zs ->
  wp (no_zone start cnt t) (fun r s' => s' = s /\ (r = true <-> forall b, start <= b < start + cnt -> ~ in_zones zs b)) s.
Proof.
  intros Hst Hcnt Hmax. induction t as [|l IHl n r IHr]; intros zs Hh Hs; cbn [no_zone inorder] in *.
  { apply Forall2_nil_inv_l in Hh as ->. apply wp_ret. split; [done|]. split; [|done]. intros _ b _ (z & Hz & _). by apply elem_of_nil in Hz. }
  apply zones_of_app in Hh as (zl & zr' & -> & Hl & (z & zr & -> & Hn & Hr)%zones_of_cons).
  pose proof Hs as (Sl & (Oz & Sr & Hzr)%zones_sorted_cons & Hc)%zones_sorted_app. pose proof Oz as [? [? ?] ?].
  assert (forall a, a ∈ zl -> start_blk a + count a <= start_blk z) as Hlz by (intros a Ha; apply Hc; [done|by left]).
  do 2 z_step. rewrite (zone_end_id z Oz), u64_id by (unfold is_u64; lia).
  assert (forall b, in_zones (zl ++ z :: zr) b <-> in_zones zl b \/ zone_covers z b \/ in_zones zr b) as Hin
    by (intros b; by rewrite in_zones_app, in_zones_cons).
  destruct (Z.ltb_spec (start + cnt - 1) (start_blk z)) as [Hlt|Hge].
  - eapply wp_mono; [apply (IHl zl Hl Sl)|]. cbn beta. intros r' s' [-> ->]. split; [done|]. split; intros Hno b Hb; specialize (Hno b Hb); rewrite Hin in *; [|tauto].
    intros [|[Hz|(w & Hw & Hcw)]]; [done|unfold zone_covers in Hz; lia|]. pose proof (Hzr w Hw) as Hbz. unfold zone_before, zone_covers in *. lia.
  - destruct (Z.leb_spec (start_blk z + count z) start) as [Hle|Hgt].
    + eapply wp_mono; [apply (IHr zr Hr Sr)|]. cbn beta. intros r' s' [-> ->]. split; [done|]. split; intros Hno b Hb; specialize (Hno b Hb); rewrite Hin in *; [|tauto].
      intros [(w & Hw & Hcw)|[Hz|]]; [|unfold zone_covers in Hz; lia|done]. pose proof (Hlz w Hw) as Hbz. unfold zone_covers in *. lia.
    + apply wp_ret. split; [done|]. split; [done|]. intros Hno. exfalso. apply (Hno (Z.max start (start_blk z))); [lia|]. apply Hin. right. left.
      unfold zone_covers. lia.
Qed.

Section Add.
Context `{Rebalance}.

(** The blocks are the same, and so is their number. *)
Definition same_zones (zs zs' : list ext4_system_zone) : Prop :=
  (forall b, in_zones zs' b <-> in_zones zs b) /\ zones_len zs' = zones_len zs.

(** Dropping node [m], a neighbour of [n] whose blocks [n] has taken over. *)
Lemma drop_zone s n m l1 l2 z1 z2 c la lb :
  inorder (system_blks s) = la ++ m :: lb -> la ++ lb = l1 ++ n :: l2 -> NoDup (la ++ m :: lb) ->
  holds (zones s) l1 z1 -> holds (zones s) l2 z2 -> zones_sorted (z1 ++ c :: z2) ->
  zone_at (s <| zones ::= <[n := c]> |> <| system_blks ::= rb_erase m |> <| zones ::= delete m |>) n l1 l2 z1 c z2.
Proof.
  intros Eo El Hnd H1 H2 Hs. destruct (nodup_split _ _ _ Hnd) as [Hm Hnd']. rewrite El in Hm, Hnd'.
  destruct (nodup_split _ _ _ Hnd') as [Hn _]. apply not_elem_of_app in Hm as [Hm1 [Hmn Hm2]%not_elem_of_cons].
  apply not_elem_of_app in Hn as [Hn1 Hn2]. split; cbn; try done.
  - rewrite rb_erase_order, Eo, <-El. apply filter_ne_split. rewrite El. apply not_elem_of_app. split; [done|]. by apply not_elem_of_cons.
  - by apply zones_of_delete, zones_of_insert.
  - by rewrite lookup_delete_ne, lookup_insert_eq.
  - by apply zones_of_delete, zones_of_insert.
Qed.

Lemma merge_left_spec s n l1 l2 z1 z z2 :
  zone_at s n l1 l2 z1 z z2 -> zones_len (z1 ++ z :: z2) < 4294967296 ->
  wp (merge_zone_left n) (fun _ s' => exists l1' z1' z', zone_at s' n l1' l2 z1' z' z2 /\ same_zones (z1 ++ z :: z2) (z1' ++ z' :: z2)) s.
Proof.
  intros Hat Hlen. pose proof Hat as [Eo H1 Hn H2 Hnd Hs]. unfold merge_zone_left. do 2 z_step.
  rewrite (rb_prev_split _ _ _ _ Eo) by (by rewrite Eo).
  destruct (last l1) as [m|] eqn:El; [|apply wp_ret; exists l1, z1, z; by split].
  apply last_Some in El as [la ->]. apply zones_of_app in H1 as (za & zm & -> & Ha & (w & nil & -> & Hm & Hnil)%zones_of_cons).
  apply Forall2_nil_inv_l in Hnil as ->. rewrite <-!app_assoc in *. cbn [app] in *. do 2 z_step.
  do 2 z_step. unfold can_merge.
  pose proof Hs as (Sa & (Ow & (Oz & Sz & Hz2)%zones_sorted_cons & _)%zones_sorted_cons & _)%zones_sorted_app. rewrite (zone_end_id w Ow).
  destruct (Z.eqb_spec (start_blk w + count w) (start_blk z)) as [Et|];
    [|apply wp_ret; exists (la ++ [m]), (za ++ [w]), z; by rewrite <-!app_assoc].
  pose proof (zones_len_pos za Sa). pose proof (zones_len_pos z2 Sz). rewrite zones_len_app in Hlen. cbn in Hlen.
  destruct Ow as [? [? ?] ?], Oz as [? [? ?] ?].
  set (c := z <| start_blk := start_blk w |> <| count := u32 (count z + count w) |>).
  assert (count c = count w + count z) as Ec by (cbn; rewrite u32_id by (unfold is_u32; lia); lia).
  destruct (zones_join za w z z2 c Hs) as (Sj & Hin & Hl); [done|lia|done|done|].
  do 2 z_step. exists la, za, c. split; [|done].
  apply (drop_zone s n m la l2 za z2 c la (n :: l2)); try done.
Qed.

Lemma merge_right_spec s n l1 l2 z1 z z2 :
  zone_at s n l1 l2 z1 z z2 -> zones_len (z1 ++ z :: z2) < 4294967296 ->
  wp (merge_zone_right n) (fun _ s' => exists l2' z2' z', zone_at s' n l1 l2' z1 z' z2' /\ same_zones (z1 ++ z :: z2) (z1 ++ z' :: z2')) s.
Proof.
  intros Hat Hlen. pose proof Hat as [Eo H1 Hn H2 Hnd Hs]. unfold merge_zone_right. do 2 z_step.
  rewrite (rb_next_split _ _ _ _ Eo) by (by rewrite Eo).
  destruct l2 as [|m lb]; cbn [head]; [apply wp_ret; exists [], z2, z; by split|].
  apply zones_of_cons in H2 as (w & zb & -> & Hm & Hb). do 2 z_step.
  do 2 z_step. unfold can_merge.
  pose proof Hs as (Sa & (Oz & (Ow & Sb & Hwb)%zones_sorted_cons & _)%zones_sorted_cons & _)%zones_sorted_app. rewrite (zone_end_id z Oz).
  destruct (Z.eqb_spec (start_blk z + count z) (start_blk w)) as [Et|]; [|apply wp_ret; by exists (m :: lb), (w :: zb), z].
  pose proof (zones_len_pos z1 Sa). pose proof (zones_len_pos zb Sb). rewrite zones_len_app in Hlen. cbn in Hlen.
  destruct Ow as [? [? ?] ?], Oz as [? [? ?] ?].
  set (c := z <| count := u32 (count z + count w) |>).
  assert (count c = count z + count w) as Ec by (cbn; rewrite u32_id by (unfold is_u32; lia); lia).
  destruct (zones_join z1 z w zb c Hs) as (Sj & Hin & Hl); [done|lia|done|done|].
  do 2 z_step. exists lb, zb, c. split; [|done].
  apply (drop_zone s n m l1 lb z1 zb c (l1 ++ [n]) lb); try done; by rewrite <-app_assoc.
Qed.

(** The blocks from [start] on are added. *)
Definition zones_added (start cnt : Z) (zs zs' : list ext4_system_zone) : Prop :=
  (forall b, in_zones zs' b <-> in_zones zs b \/ start <= b < start + cnt) /\ zones_len zs' <= zones_len zs + cnt.

Lemma merge_zones_spec s n l1 l2 z1 z z2 zs start cnt :
  zone_at s n l1 l2 z1 z z2 -> zones_added start cnt zs (z1 ++ z :: z2) -> zones_len zs + cnt < 4294967296 ->
  wp (merge_zone_left n ;;; merge_zone_right n ;;; kret 0)
    (fun r s' => r = 0 /\ exists zs', zones_inv s' zs' /\ zones_added start cnt zs zs') s.
Proof.
  intros Hat [Hin Hlen] Hmax. z_step. eapply wp_mono; [eapply merge_left_spec; [exact Hat|lia]|]. cbn beta.
  intros _ s1 (l1' & z1' & z' & Hat1 & Hin1 & Hl1). z_step. eapply wp_mono; [eapply merge_right_spec; [exact Hat1|lia]|]. cbn beta.
  intros _ s2 (l2' & z2' & w & Hat2 & Hin2 & Hl2). apply wp_ret. split; [done|]. exists (z1' ++ w :: z2').
  split; [by eapply zone_at_inv|]. split; [|lia]. intros b. by rewrite Hin2, Hin1, Hin.
Qed.

Lemma zone_alloc_run s :
  zone_alloc s = Ret (true, s <| zone_allocs := tail (zone_allocs s) |>) \/ exists rest, zone_allocs s = false :: rest.
Proof. destruct s as [t h [|[] rest] e]; [by left|by left|right; by exists rest]. Qed.

Lemma zones_of_dom h l zs n : holds h l zs -> n ∈ l -> is_Some (h !! n).
Proof. induction 1 as [|m z l zs Hm _ IH]; [by intros ?%elem_of_nil|]. intros [->|Hn]%elem_of_cons; [by eexists|auto]. Qed.

(** Ranges [add_system_zone] can take: no zone starts inside of them. *)
Record addable (start cnt : Z) (zs : list ext4_system_zone) : Prop := {
  ad_start : 0 <= start;
  ad_cnt : 0 < cnt < 4294967296;
  ad_end : start + cnt < 18446744073709551616;
  ad_inside z : z ∈ zs -> ~ start < start_blk z < start + cnt;
  ad_len : zones_len zs + cnt < 4294967296;
}.

(** The zone the range starts in grows over it. *)
Lemma grow_zone s n l1 l2 z1 z z2 start cnt :
  zone_at s n l1 l2 z1 z z2 -> addable start cnt (z1 ++ z :: z2) -> zone_covers z start ->
  let c := if start_blk z + count z <? start + cnt then z <| count := start + cnt - start_blk z |> else z in
  zone_at (s <| zones ::= <[n := c]> |>) n l1 l2 z1 c z2 /\ zones_added start cnt (z1 ++ z :: z2) (z1 ++ c :: z2).
Proof.
  intros [Eo H1 Hn H2 Hnd Hs] [As Ac Ae Ai Al] Hcv c. unfold zone_covers in Hcv.
  pose proof Hs as (Sa & (Oz & Sb & Hzb)%zones_sorted_cons & Hc)%zones_sorted_app. pose proof Oz as [? [? ?] ?].
  pose proof (zones_len_pos z1 Sa). pose proof (zones_len_pos z2 Sb). rewrite zones_len_app in Al. cbn in Al.
  assert (start_blk c = start_blk z /\ count z <= count c /\ start + cnt <= start_blk c + count c /\ count c <= count z + cnt /\
    (start_blk c + count c = start_blk z + count z \/ start_blk c + count c = start + cnt)) as (E1 & E2 & E3 & E4 & E5)
    by (unfold c; destruct (Z.ltb_spec (start_blk z + count z) (start + cnt)); cbn; lia).
  assert (zones_sorted (z1 ++ c :: z2)) as Hs'.
  { apply zones_sorted_put; [done|done|split; lia|..]; unfold zone_before; rewrite ?E1.
    - intros a Ha. apply Hc; [done|by left].
    - intros b Hb. pose proof (Hzb b Hb) as Hbz. unfold zone_before in Hbz.
      assert (b ∈ z1 ++ z :: z2) as Hin by (apply elem_of_app; right; by right). pose proof (Ai b Hin). lia. }
  destruct (nodup_split _ _ _ Hnd) as [Hni _]. apply not_elem_of_app in Hni as [Hn1 Hn2]. split.
  - split; cbn; try done; [by apply zones_of_insert|by rewrite lookup_insert_eq|by apply zones_of_insert].
  - split; [|rewrite !zones_len_app; cbn; lia]. intros b. rewrite !in_zones_app, !in_zones_cons. unfold zone_covers. rewrite E1. intuition lia.
Qed.

(** A new node. *)
Lemma link_zone s path l1 l2 z1 z2 start cnt :
  inorder (system_blks s) = l1 ++ l2 -> holds (zones s) l1 z1 -> holds (zones s) l2 z2 -> NoDup (l1 ++ l2) -> zones_sorted (z1 ++ z2) ->
  (forall n, inorder (rb_link_node n path (system_blks s)) = l1 ++ n :: l2) ->
  (forall z, z ∈ z1 -> start_blk z + count z <= start) -> (forall z, z ∈ z2 -> start < start_blk z) -> addable start cnt (z1 ++ z2) ->
  let n := fresh (dom (zones s)) in
  zone_at (s <| zones ::= <[n := mk_zone start cnt]> |> <| system_blks ::= fun t => rb_insert_color (rb_link_node n path t) |>)
    n l1 l2 z1 (mk_zone start cnt) z2 /\
  zones_added start cnt (z1 ++ z2) (z1 ++ mk_zone start cnt :: z2).
Proof.
  intros Eo H1 H2 Hnd Hs Hp Hz1 Hz2 [As Ac Ae Ai Al] n. pose proof Hs as (Sa & Sb & _)%zones_sorted_app.
  assert (n ∉ l1 ++ l2) as Hn.
  { intros Hin. apply (is_fresh (dom (zones s))). apply elem_of_dom. apply elem_of_app in Hin as [Hin|Hin];
      [by apply (zones_of_dom _ l1 z1)|by apply (zones_of_dom _ l2 z2)]. }
  pose proof Hn as [Hn1 Hn2]%not_elem_of_app. apply NoDup_app in Hnd as (N1 & Hd & N2).
  split; [split; cbn; try done|].
  - by rewrite rb_insert_color_order.
  - by apply zones_of_insert.
  - by rewrite lookup_insert_eq.
  - by apply zones_of_insert.
  - apply NoDup_app. split_and!; [done| |by constructor]. intros m Hm [->|Hm']%elem_of_cons; [done|by apply (Hd m)].
  - apply zones_sorted_put; [done|done|by split|..]; unfold zone_before; cbn; [done|].
    intros b Hb. assert (b ∈ z1 ++ z2) as Hin by (apply elem_of_app; by right). pose proof (Ai b Hin). pose proof (Hz2 b Hb). lia.
  - split; [|rewrite !zones_len_app; cbn; lia]. intros b. rewrite !in_zones_app, in_zones_cons. unfold zone_covers. cbn. tauto.
Qed.

(** As long as no allocation fails, none will. *)
Definition memory (s s' : zstate) : Prop := zone_allocs s = [] -> zone_allocs s' = [].

#[local] Instance memory_preorder : PreOrder memory.
Proof. split; [by intros s E|]. intros s1 s2 s3 H1 H2 E. unfold memory in *. auto. Qed.

Lemma keeps_get_z : keeps memory get_z.
Proof. by intros s a s' [= <- <-]. Qed.
Lemma keeps_modify_z f : (forall s, zone_allocs (f s) = zone_allocs s) -> keeps memory (modify_z f).
Proof. intros Hf s a s' [= <- <-]. unfold memory. by rewrite Hf. Qed.
Lemma keeps_read_zone n : keeps memory (read_zone n).
Proof. intros s a s'. unfold read_zone. destruct (zones s !! n); [by intros [= <- <-]|done]. Qed.
Lemma keeps_zone_alloc : keeps memory zone_alloc.
Proof. intros s a s'. unfold zone_alloc, memory. destruct (zone_allocs s) eqn:E; [by intros [= <- <-]|done]. Qed.

Ltac keeps_step :=
  first [apply keeps_ret; exact _ | apply keeps_get_z | apply keeps_read_zone | apply keeps_zone_alloc | by apply keeps_modify_z
        | apply keeps_bind; [exact _|..|intros ?] | apply keeps_if | progress case_match].

Lemma find_zone_memory start t : keeps memory (find_zone start t).
Proof. induction t as [|l IHl n r IHr]; cbn [find_zone]; repeat first [assumption|keeps_step]. Qed.

Lemma add_zone_memory start cnt : keeps memory (add_system_zone start cnt).
Proof.
  unfold add_system_zone, merge_zone_left, merge_zone_right, modify_zone, erase_zone.
  repeat first [apply find_zone_memory|keeps_step].
Qed.

Lemma add_zone_spec s zs start cnt :
  zones_inv s zs -> addable start cnt zs ->
  wp (add_system_zone start cnt) (fun r s' =>
    (r = 0 /\ exists zs', zones_inv s' zs' /\ zones_added start cnt zs zs') \/
    (r = - ENOMEM /\ zones_inv s' zs /\ zone_allocs s <> [])) s.
Proof.
  intros [Hh Hnd Hs] Had. pose proof Had as [As Ac Ae Ai Al]. unfold add_system_zone. do 3 z_step.
  eapply wp_mono; [by apply find_zone_spec|]. cbn beta. intros r s0 (-> & l1 & l2 & z1 & z2 & H1 & H2 & Hr). z_step. destruct r as [n|path].
  - destruct Hr as (z & Eo & -> & Hn & Hcv). assert (zone_at s n l1 l2 z1 z z2) as Hat by (split; try done; by rewrite <-Eo).
    assert (zone_ok z) as Oz by (by apply zones_sorted_app in Hs as (_ & (? & _)%zones_sorted_cons & _)).
    destruct (grow_zone s n l1 l2 z1 z z2 start cnt Hat Had Hcv) as [Hat' Hadd]. pose proof Oz as [? [? ?] ?]. unfold zone_covers in Hcv.
    do 2 z_step. z_step. rewrite (zone_end_id z Oz), (u64_id (start + cnt)) by (unfold is_u64; lia).
    apply zones_sorted_app in Hs as (Sa & (_ & Sb & _)%zones_sorted_cons & _).
    pose proof (zones_len_pos z1 Sa). pose proof (zones_len_pos z2 Sb). rewrite zones_len_app in Al. cbn in Al.
    destruct (Z.ltb_spec (start_blk z + count z) (start + cnt)).
    + z_step. rewrite u32_id by (unfold is_u32; lia). z_step.
      eapply wp_mono; [eapply merge_zones_spec; [exact Hat'|exact Hadd|rewrite zones_len_app; cbn; lia]|]. auto.
    + do 2 z_step. eapply wp_mono; [eapply merge_zones_spec; [exact Hat|exact Hadd|rewrite zones_len_app; cbn; lia]|]. auto.
  - destruct Hr as (Eo & -> & Hp & Hz1 & Hz2). rewrite Eo in Hnd. z_step. destruct (zone_alloc_run s) as [Hal|[rest Hal]].
    + unfold wp at 1. rewrite Hal. cbn [negb]. set (s1 := s <| zone_allocs := tail (zone_allocs s) |>). do 5 z_step.
      destruct (link_zone s1 path l1 l2 z1 z2 start cnt) as [Hat Hadd]; try done.
      eapply wp_mono; [eapply merge_zones_spec; [exact Hat|exact Hadd|done]|]. auto.
    + unfold wp at 1, zone_alloc. rewrite Hal. cbn [negb]. do 2 z_step. right. split_and!; [done| |done].
      split; cbn; rewrite ?Eo; try done. by apply Forall2_app.
Qed.

(** *** Setting the zones up *)

(** Ranges as pairs of a first block and a length. *)
Definition in_range_of (r : Z * Z) (b : Z) : Prop := r.1 <= b < r.1 + r.2.

(** Ranges that do not overlap, and that are not too long in all. *)
Record layout (ranges : list (Z * Z)) : Prop := {
  ly_range r : r ∈ ranges -> 0 <= r.1 /\ 0 < r.2 < 4294967296 /\ r.1 + r.2 < 18446744073709551616;
  ly_disjoint : StronglySorted (fun r r' => forall b, in_range_of r b -> ~ in_range_of r' b) ranges;
  ly_len : foldr (fun r n => r.2 + n) 0 ranges < 4294967296;
}.

(** The zones after [ranges] were added. *)
Definition zones_are (ranges : list (Z * Z)) (s : zstate) : Prop :=
  exists zs, zones_inv s zs /\ (forall b, in_zones zs b <-> exists r, r ∈ ranges /\ in_range_of r b) /\
    zones_len zs <= foldr (fun r n => r.2 + n) 0 ranges.

Lemma len_app (l1 l2 : list (Z * Z)) :
  foldr (fun r n => r.2 + n) 0 (l1 ++ l2) = foldr (fun r n => r.2 + n) 0 l1 + foldr (fun r n => r.2 + n) 0 l2.
Proof. induction l1 as [|r l1 IH]; cbn; lia. Qed.

Lemma layout_prefix l1 l2 : layout (l1 ++ l2) -> layout l1.
Proof.
  intros [Hr Hd Hl]. split.
  - intros r Hin. apply Hr, elem_of_app. by left.
  - by apply StronglySorted_app in Hd as (_ & ? & _).
  - rewrite len_app in Hl. assert (0 <= foldr (fun r n => r.2 + n) 0 l2); [|lia].
    assert (forall r, r ∈ l2 -> 0 < r.2) as Hp by (intros r Hin; apply Hr, elem_of_app; by right). clear -Hp.
    induction l2 as [|r l2 IH]; cbn; [lia|]. assert (0 < r.2) by (apply Hp; by left). assert (0 <= foldr (fun r n => r.2 + n) 0 l2); [|lia].
    apply IH. intros r' Hr'. apply Hp. by right.
Qed.

Lemma add_range_spec done r s :
  zone_allocs s = [] -> layout (done ++ [r]) -> zones_are done s ->
  wp (add_system_zone r.1 r.2) (fun e s' => e = 0 /\ zones_are (done ++ [r]) s' /\ zone_allocs s' = []) s.
Proof.
  intros Hal [Hr Hd Hl] (zs & Hinv & Hin & Hlen). destruct (Hr r) as (R1 & R2 & R3); [apply elem_of_app; right; by left|].
  apply StronglySorted_app in Hd as (Hdis & _). rewrite len_app in Hl. cbn in Hl.
  assert (addable r.1 r.2 zs) as Had.
  { split; [done|done|done| |lia]. intros z Hz [Hlt Hgt]. assert (zone_ok z) as Oz.
    { destruct (zi_sorted _ _ Hinv) as [Hok _]. rewrite Forall_forall in Hok. auto. }
    assert (in_zones zs (start_blk z)) as Hiz by (exists z; split; [done|]; destruct Oz; unfold zone_covers; lia).
    apply Hin in Hiz as (r' & Hr' & Hb). apply (Hdis r' r Hr' (list_elem_of_here _ _) _ Hb). unfold in_range_of. lia. }
  pose proof (add_zone_spec s zs r.1 r.2 Hinv Had) as Hw. eapply wp_mono; [apply wp_keeps; [apply add_zone_memory|exact Hw]|].
  cbn beta. intros e s' [Hres Hmem]. specialize (Hmem Hal). destruct Hres as [(-> & zs' & Hinv' & Hin' & Hlen')|(_ & _ & Hne)]; [|done]. split_and!; [done| |done].
  exists zs'. split_and!; [done| |rewrite len_app; cbn; lia]. intros b. rewrite Hin', Hin. setoid_rewrite elem_of_app.
  setoid_rewrite list_elem_of_singleton. unfold in_range_of. naive_solver.
Qed.

(** The ranges that [ext4_setup_system_zone] adds for group [i], and for the groups from [i] on, in their order. *)
Definition copy_protected (fs : fs_layout) (i : Z) : bool :=
  ext4_bg_has_super fs i && ((i <? 5) || (i mod ext4_flex_bg_size fs =? 0)).
Definition group_ranges (fs : fs_layout) (i : Z) (g : group_desc) : list (Z * Z) :=
  (if copy_protected fs i then [(ext4_group_first_block_no fs i, ext4_bg_num_gdb fs i + 1)] else []) ++
  [(block_bitmap g, 1); (inode_bitmap g, 1); (inode_table g, s_itb_per_group fs)].
Fixpoint all_ranges (fs : fs_layout) (i : Z) (groups : list group_desc) : list (Z * Z) :=
  match groups with
  | [] => []
  | g :: groups => group_ranges fs i g ++ all_ranges fs (i + 1) groups
  end.

(** [done] has been added and [rest] is to come, without any failure. *)
Record progress (done rest : list (Z * Z)) (s : zstate) : Prop := {
  pr_layout : layout (done ++ rest);
  pr_zones : zones_are done s;
  pr_allocs : zone_allocs s = [];
}.

(** One step of the set-up. *)
Lemma add_progress done r rest s :
  progress done (r :: rest) s -> wp (add_system_zone r.1 r.2) (fun e s' => e = 0 /\ progress (done ++ [r]) rest s') s.
Proof.
  intros [Hly Hz Hal]. rewrite (app_assoc done [r] rest : done ++ r :: rest = _) in Hly.
  eapply wp_mono; [apply (add_range_spec done r s Hal); [by eapply layout_prefix|done]|].
  cbn beta. intros e s' (-> & Hz' & Hal'). by split.
Qed.

Lemma add_then {A} done r rest (k : Z -> ZM A) (Q : A -> zstate -> Prop) s :
  progress done (r :: rest) s -> (forall s', progress (done ++ [r]) rest s' -> wp (k 0) Q s') ->
  wp (kbind (add_system_zone r.1 r.2) k) Q s.
Proof.
  intros Hp Hk. apply wp_bind. eapply wp_mono; [by apply add_progress|]. cbn beta. intros e s' [-> Hp']. auto.
Qed.

Lemma setup_groups_spec fs groups : forall i done s,
  progress done (all_ranges fs i groups) s ->
  wp (setup_groups fs i groups) (fun r s' => r = 0 /\ zones_are (done ++ all_ranges fs i groups) s') s.
Proof.
  induction groups as [|g groups IH]; intros i done s Hp; cbn [setup_groups all_ranges].
  { apply wp_ret. rewrite app_nil_r. by destruct Hp. }
  cbn [all_ranges] in Hp. set (R := all_ranges fs (i + 1) groups) in *. unfold group_ranges in *. rewrite <-app_assoc in *.
  apply wp_bind. fold (copy_protected fs i).
  set (super := if copy_protected fs i then [(ext4_group_first_block_no fs i, ext4_bg_num_gdb fs i + 1)] else []) in *.
  apply (wp_mono _ (fun _ s' => progress (done ++ super) ([(block_bitmap g, 1); (inode_bitmap g, 1); (inode_table g, s_itb_per_group fs)] ++ R) s')).
  - subst super. destruct (copy_protected fs i); [|apply wp_ret; by rewrite app_nil_r].
    assert (u32 (ext4_bg_num_gdb fs i + 1) = ext4_bg_num_gdb fs i + 1) as ->.
    { apply u32_id. destruct (ly_range _ (pr_layout _ _ _ Hp) (ext4_group_first_block_no fs i, ext4_bg_num_gdb fs i + 1)) as (_ & Hg & _);
        [|clear -Hg; unfold is_u32; cbn in Hg; lia]. apply elem_of_app. right. by left. }
    eapply wp_mono; [apply (add_progress _ _ _ _ Hp)|]. by intros e s' [_ Hp'].
  - intros _ s1 Hp1. eapply (add_then _ (block_bitmap g, 1)); [exact Hp1|]. intros s2 Hp2. cbn [Z.eqb negb].
    eapply (add_then _ (inode_bitmap g, 1)); [exact Hp2|]. intros s3 Hp3. cbn [Z.eqb negb].
    assert (u32 (s_itb_per_group fs) = s_itb_per_group fs) as ->.
    { apply u32_id. destruct (ly_range _ (pr_layout _ _ _ Hp3) (inode_table g, s_itb_per_group fs)) as (_ & Hg & _);
        [|clear -Hg; unfold is_u32; cbn in Hg; lia]. apply elem_of_app. right. by left. }
    eapply (add_then _ (inode_table g, s_itb_per_group fs)); [exact Hp3|]. intros s4 Hp4. cbn [Z.eqb negb].
    specialize (IH _ _ s4 Hp4). by rewrite <-!app_assoc in IH.
Qed.
End Add.

(** A range that does not wrap is refused exactly when it starts in the boot area, ends after the last block or meets a zone. *)
Lemma data_block_valid_spec first blocks start cnt zs s :
  0 <= start -> 0 < cnt -> start + cnt < 18446744073709551616 -> zones_inv s zs ->
  wp (ext4_data_block_valid first blocks start cnt) (fun r s' =>
    (r = true <-> first < start /\ start + cnt <= blocks /\ forall b, start <= b < start + cnt -> ~ in_zones zs b) /\
    s' = (if r then s else s <| s_last_error_block := start |>)) s.
Proof.
  intros Hst Hcnt Hmax [Hh Hnd Hs]. unfold ext4_data_block_valid. rewrite !u64_id by (unfold is_u64; lia).
  rewrite (proj2 (Z.ltb_ge (start + cnt) start)) by lia. rewrite orb_false_r.
  destruct (Z.leb_spec start first); cbn [orb]; [do 3 z_step; split; [|done]; split; [done|lia]|].
  destruct (Z.ltb_spec blocks (start + cnt)); [do 3 z_step; split; [|done]; split; [done|lia]|].
  do 3 z_step. eapply wp_mono; [by apply no_zone_spec|]. cbn beta. intros [] s' [-> Hno].
  - z_step. split; [|done]. split; [|done]. intros _. split_and!; [done|done|by apply Hno].
  - do 3 z_step. split; [|done]. split; [done|]. intros (_ & _ & Hz). by apply Hno.
Qed.
End Spec.

(** ** Theorems *)

(** The blocks that are protected: the bitmaps and the inode table of every group, and the copies of the superblock and of the
    descriptors in the first five groups and in the first one of every flex group, as far as these have copies. *)
Definition protected_block (fs : fs_layout) (groups : list group_desc) (b : Z) : Prop :=
  exists i g, groups !! i = Some g /\
    (b = block_bitmap g \/ b = inode_bitmap g \/ inode_table g <= b < inode_table g + s_itb_per_group fs \/
     (ext4_bg_has_super fs (Z.of_nat i) = true /\ (Z.of_nat i < 5 \/ Z.of_nat i mod ext4_flex_bg_size fs = 0) /\
      ext4_group_first_block_no fs (Z.of_nat i) <= b <= ext4_group_first_block_no fs (Z.of_nat i) + ext4_bg_num_gdb fs (Z.of_nat i))).

Lemma group_ranges_blocks fs i g b :
  (exists r, r ∈ group_ranges fs i g /\ in_range_of r b) <->
  b = block_bitmap g \/ b = inode_bitmap g \/ inode_table g <= b < inode_table g + s_itb_per_group fs \/
  (ext4_bg_has_super fs i = true /\ (i < 5 \/ i mod ext4_flex_bg_size fs = 0) /\
   ext4_group_first_block_no fs i <= b <= ext4_group_first_block_no fs i + ext4_bg_num_gdb fs i).
Proof.
  assert (copy_protected fs i = true <-> ext4_bg_has_super fs i = true /\ (i < 5 \/ i mod ext4_flex_bg_size fs = 0)) as Hc
    by (unfold copy_protected; by rewrite andb_true_iff, orb_true_iff, Z.ltb_lt, Z.eqb_eq).
  unfold group_ranges, in_range_of. setoid_rewrite elem_of_app. setoid_rewrite elem_of_cons. setoid_rewrite elem_of_cons.
  setoid_rewrite list_elem_of_singleton. split.
  - intros (r & [Hr|[->|[->| ->]]] & Hb); cbn in Hb; [|lia..]. destruct (copy_protected fs i); [|by apply elem_of_nil in Hr].
    apply list_elem_of_singleton in Hr as ->. cbn in Hb. destruct (proj1 Hc eq_refl). right. right. right. split_and!; [done|done|lia..].
  - intros [->|[->|[Hb|(H1 & H2 & Hb)]]].
    + exists (block_bitmap g, 1). cbn. split; [auto|lia].
    + exists (inode_bitmap g, 1). cbn. split; [auto|lia].
    + exists (inode_table g, s_itb_per_group fs). cbn. split; [auto|lia].
    + rewrite (proj2 Hc (conj H1 H2)). exists (ext4_group_first_block_no fs i, ext4_bg_num_gdb fs i + 1). cbn.
      split; [left; by apply list_elem_of_singleton|lia].
Qed.

Lemma all_ranges_lookup fs groups r : forall i,
  r ∈ all_ranges fs i groups <-> exists k g, groups !! k = Some g /\ r ∈ group_ranges fs (i + Z.of_nat k) g.
Proof.
  induction groups as [|g groups IH]; intros i; cbn [all_ranges].
  { split; [by intros ?%elem_of_nil|]. by intros (k & g & ? & _). }
  rewrite elem_of_app, IH. split.
  - intros [Hr|(k & g' & Hk & Hr)]; [exists 0%nat, g|exists (S k), g']; split; try done; [by rewrite Z.add_0_r|].
    by replace (i + Z.of_nat (S k)) with (i + 1 + Z.of_nat k) by lia.
  - intros ([|k] & g' & Hk & Hr); cbn in Hk.
    + injection Hk as ->. rewrite Z.add_0_r in Hr. by left.
    + right. exists k, g'. split; [done|]. by replace (i + 1 + Z.of_nat k) with (i + Z.of_nat (S k)) by lia.
Qed.

Lemma all_ranges_blocks fs groups b :
  (exists r, r ∈ all_ranges fs 0 groups /\ in_range_of r b) <-> protected_block fs groups b.
Proof.
  unfold protected_block. setoid_rewrite all_ranges_lookup. setoid_rewrite Z.add_0_l. split.
  - intros (r & (k & g & Hk & Hr) & Hb). exists k, g. split; [done|]. apply group_ranges_blocks. by exists r.
  - intros (k & g & Hk & Hb). apply group_ranges_blocks in Hb as (r & Hr & Hb). exists r. split; [by exists k, g|done].
Qed.

Lemma setup_spec `{Rebalance} fs groups s :
  system_blks s = Leaf -> zone_allocs s = [] -> layout (all_ranges fs 0 groups) ->
  wp (ext4_setup_system_zone true fs groups) (fun r s' => r = 0 /\ zones_are (all_ranges fs 0 groups) s') s.
Proof.
  intros Hl Hal Hly. unfold ext4_setup_system_zone. do 2 z_step. rewrite Hl. cbn [negb]. apply (setup_groups_spec fs groups 0 [] s).
  split; [done| |done]. exists []. split_and!; [|..|done].
  - split; rewrite ?Hl; cbn; [constructor|constructor|split; constructor].
  - intros b. split; intros (z & Hz & _); by apply elem_of_nil in Hz.
Qed.

(** C39: on a file system whose protected ranges do not overlap, and as long as no allocation fails, the zones are set up without
    error, and from then on a range of blocks is accepted exactly when it starts after the first data block, ends with the
    file system and holds no protected block: no bitmap and no inode table of any group, and no copy of the superblock and the descriptors
    in the first five groups and the first groups of flex groups.  Copies in other groups are metadata too, but are accepted. *)
Theorem setup_system_zone_exact `{Rebalance} first blocks fs groups s :
  system_blks s = Leaf -> zone_allocs s = [] -> layout (all_ranges fs 0 groups) ->
  exists s', ext4_setup_system_zone true fs groups s = Ret (0, s') /\
    forall start cnt, 0 <= start -> 0 < cnt -> start + cnt < 18446744073709551616 ->
      exists r s'', ext4_data_block_valid first blocks start cnt s' = Ret (r, s'') /\
        (r = true <-> first < start /\ start + cnt <= blocks /\ forall b, start <= b < start + cnt -> ~ protected_block fs groups b) /\
        system_blks s'' = system_blks s' /\ (r = false -> s_last_error_block s'' = start).
Proof.
  intros Hl Hal Hly. destruct (proj1 (wp_returns _ _ _) (setup_spec fs groups s Hl Hal Hly)) as (r & s' & Hr & -> & zs & Hinv & Hin & _).
  exists s'. split; [done|]. intros start cnt Hst Hcnt Hmax.
  destruct (proj1 (wp_returns _ _ _) (data_block_valid_spec first blocks start cnt zs s' Hst Hcnt Hmax Hinv)) as (v & s'' & Hv & Hiff & ->).
  exists v, (if v then s' else s' <| s_last_error_block := start |>). split_and!; [done| |by destruct v|by destruct v].
  rewrite Hiff. setoid_rewrite Hin. by setoid_rewrite all_ranges_blocks.
Qed.

(** What [ext4_check_blockref] accepts: empty references, and blocks that may hold data. *)
Definition ref_ok (first blocks : Z) (zs : list ext4_system_zone) (blk : Z) : Prop :=
  blk = 0 \/ (first < blk /\ blk < blocks /\ ~ in_zones zs blk).

(** The references of an indirect block are accepted if and only if all of them are; the first bad one is recorded. *)
Theorem check_blockref_exact first blocks zs refs s :
  (forall blk, blk ∈ refs -> 0 <= blk < 4294967296) -> zones_inv s zs ->
  (Forall (ref_ok first blocks zs) refs /\ ext4_check_blockref first blocks refs s = Ret (0, s)) \/
  (exists ok bad rest, refs = ok ++ bad :: rest /\ Forall (ref_ok first blocks zs) ok /\ ~ ref_ok first blocks zs bad /\
    ext4_check_blockref first blocks refs s = Ret (- EFSCORRUPTED, s <| s_last_error_block := bad |>)).
Proof.
  intros Hrange Hinv. induction refs as [|blk refs IH]; [by left|]. cbn [ext4_check_blockref].
  assert (0 <= blk < 4294967296) as Hb by (apply Hrange; by left).
  specialize (IH ltac:(intros b Hb'; apply Hrange; by right)). destruct (Z.eqb_spec blk 0) as [->|Hnz].
  { destruct IH as [[Hall ->]|(ok & bad & rest & -> & Hall & Hbad & ->)]; [left|right].
    - split; [|done]. constructor; [by left|done].
    - exists (0 :: ok), bad, rest. split_and!; [done| |done|done]. constructor; [by left|done]. }
  destruct (proj1 (wp_returns _ _ _) (data_block_valid_spec first blocks blk 1 zs s ltac:(lia) ltac:(lia) ltac:(lia) Hinv)) as (v & s' & Hv & Hiff & ->).
  unfold kbind. rewrite Hv. assert (v = true <-> ref_ok first blocks zs blk) as Hok.
  { rewrite Hiff. unfold ref_ok. split.
    - intros (? & ? & Hno). right. split_and!; [done|lia|]. apply Hno. lia.
    - intros [|(? & ? & Hno)]; [done|]. split_and!; [done|lia|]. intros b Hbb. by replace b with blk by lia. }
  destruct v.
  - destruct IH as [[Hall ->]|(ok & bad & rest & -> & Hall & Hbad & ->)]; [left|right].
    + split; [|done]. constructor; [by apply Hok|done].
    + exists (blk :: ok), bad, rest. split_and!; [done| |done|done]. constructor; [by apply Hok|done].
  - right. exists [], blk, refs. split_and!; [done|constructor|by intros ?%Hok|done].
Qed.

(** *** On concrete file systems *)

#[local] Existing Instance unbalanced.

(** Two groups, with the tables where mke2fs puts them. *)
Definition plain_fs : fs_layout := mk_fs_layout false true false (0, 0) 0 1 64 4 32768 0 512.
Definition two_groups : list group_desc := [mk_group 50 66 82; mk_group 51 67 594].
Definition no_zones : zstate := mk_zstate Leaf ∅ [] 0.

Ltac solve_layout :=
  split; [intros r Hr; cbn in Hr; set_unfold; destruct_or!; subst; cbn; lia| |cbn; lia];
  repeat constructor; unfold in_range_of; cbn; lia.

Lemma two_groups_ranges :
  all_ranges plain_fs 0 two_groups = [(0, 2); (50, 1); (66, 1); (82, 512); (32768, 2); (51, 1); (67, 1); (594, 512)].
Proof. by vm_compute. Qed.

Lemma setup_system_zone_exact_witness :
  exists s', ext4_setup_system_zone true plain_fs two_groups no_zones = Ret (0, s') /\
    (exists s'', ext4_data_block_valid 0 65536 1106 100 s' = Ret (true, s'')) /\
    (exists s'', ext4_data_block_valid 0 65536 1100 10 s' = Ret (false, s'')).
Proof.
  destruct (setup_system_zone_exact 0 65536 plain_fs two_groups no_zones) as (s' & Hr & Hv); [done|done| |].
  { rewrite two_groups_ranges. solve_layout. }
  exists s'. split; [done|]. split.
  - destruct (Hv 1106 100) as (r & s'' & Hd & Hiff & _); [lia..|]. exists s''. rewrite Hd. assert (r = true) as ->; [|done].
    apply Hiff. split_and!; [lia|lia|]. intros b Hb (x & Hx & Hin)%all_ranges_blocks. rewrite two_groups_ranges in Hx. set_unfold.
    destruct_or!; subst; unfold in_range_of in Hin; cbn in Hin; lia.
  - destruct (Hv 1100 10) as (r & s'' & Hd & Hiff & _); [lia..|]. exists s''. rewrite Hd. destruct r; [|done].
    destruct (proj1 Hiff eq_refl) as (_ & _ & Hno). exfalso. apply (Hno 1105); [lia|]. exists 1%nat, (mk_group 51 67 594). split; [done|].
    right. right. left. cbn. lia.
Defined.

Lemma check_blockref_exact_witness :
  ext4_check_blockref 0 1000 [0; 20; 1000; 30] no_zones = Ret (- EFSCORRUPTED, no_zones <| s_last_error_block := 1000 |>).
Proof.
  destruct (check_blockref_exact 0 1000 [] [0; 20; 1000; 30] no_zones) as [[Hall _]|(ok & bad & rest & E & Hok & Hbad & Hr)].
  - intros blk Hb. set_unfold. lia.
  - split; cbn; [constructor|constructor|split; constructor].
  - rewrite !Forall_cons in Hall. destruct Hall as (_ & _ & [|(_ & ? & _)] & _); lia.
  - exact Hr || by vm_compute.
Defined.

(** The layout is needed: a range that starts before a zone and ends after it becomes a zone of its own, and the descent of the
    check, which believes that zones do not overlap, turns away from it.  Blocks 95 to 124 were added; 115 passes, 99 does not. *)
Theorem overlapping_zone_missed :
  let zoned := match (add_system_zone 100 10 ;;; add_system_zone 95 30) no_zones with Ret (r, s) => (r, s) | Fault _ => (1, no_zones) end in
  zoned.1 = 0 /\ ext4_data_block_valid 0 1000 115 1 zoned.2 = Ret (true, zoned.2) /\
  exists s', ext4_data_block_valid 0 1000 99 1 zoned.2 = Ret (false, s').
Proof. split_and!; [by vm_compute..|]. eexists. by vm_compute. Qed.

(** The set-up does not look at the result of the first allocation of a group: it reports success although the copy of the
    superblock and of the descriptors may now be given to an inode. *)
Theorem superblock_copy_unprotected :
  exists s', ext4_setup_system_zone true plain_fs two_groups (no_zones <| zone_allocs := [true; true; true; true; false] |>) = Ret (0, s') /\
    ext4_data_block_valid 0 65536 32768 2 s' = Ret (true, s').
Proof. eexists. split; [by vm_compute|by vm_compute]. Qed.

(** Group 7 has a copy of the superblock and of the descriptors, but flex groups have sixteen groups: the set-up leaves the copy out, and
    an inode may have its blocks. *)
Example backup_superblock_accepted :
  let groups := map (fun i => mk_group (50 + i) (66 + i) (82 + 512 * i)) [0; 1; 2; 3; 4; 5; 6; 7] in
  ext4_bg_has_super plain_fs 7 = true /\ ext4_bg_num_gdb plain_fs 7 = 1 /\ ext4_group_first_block_no plain_fs 7 = 229376 /\
  (r <- ext4_setup_system_zone true plain_fs groups ;; ok <- ext4_data_block_valid 0 262144 229376 2 ;;
   modify_z (fun _ => no_zones) ;;; kret (r, ok)) no_zones = Ret ((0, true), no_zones).
Proof. split_and!; vm_compute; reflexivity. Qed.
