(* ===== verification/ExtentAlive.v ===== *)
(** * No operation of the extent status tree drops an inode

    A frame condition of the operations of ExtentStatus.v: an inode that has a tree before has one afterwards; and if no
    allocation is going to fail before, none is afterwards. *)
From S2P Require Import Prelude Log ExtentStatus.

Record alive (s s' : es_state) : Prop := {
  al_inode i : is_Some (es_inodes s !! i) -> is_Some (es_inodes s' !! i);
  al_memory : allocs s = [] -> allocs s' = [];
}.

#[export] Instance alive_preorder : PreOrder alive.
Proof. split; [by split|]. intros s1 s2 s3 [H1 M1] [H2 M2]. split; auto. Qed.

Create HintDb alive.

Lemma alive_get_es : keeps alive get_es.
Proof. by intros s a s' [= <- <-]. Qed.
Lemma alive_modify_es f : (forall s, es_inodes (f s) = es_inodes s /\ allocs (f s) = allocs s) -> keeps alive (modify_es f).
Proof. intros Hf s a s' [= <- <-]. destruct (Hf s) as [E1 E2]. split; by rewrite ?E1, ?E2. Qed.
Lemma alive_read_ei i : keeps alive (read_ei i).
Proof. intros s a s'. unfold read_ei. case_match; [by intros [= <- <-]|done]. Qed.
Lemma alive_read_es i n : keeps alive (read_es i n).
Proof. intros s a s'. unfold read_es. case_match; [by intros [= <- <-]|done]. Qed.
Lemma alive_es_end i n : keeps alive (es_end i n).
Proof. intros s a s'. unfold es_end. repeat case_match; [by intros [= <- <-]|done..]. Qed.
Lemma alive_modify_ei i f : keeps alive (modify_ei i f).
Proof.
  intros s a s'. unfold modify_ei. case_match; [|done]. intros [= <- <-]. split; [|done]. intros j Hj. cbn. destruct (decide (j = i)) as [->|].
  - by rewrite lookup_insert_eq.
  - by rewrite lookup_insert_ne.
Qed.
Lemma alive_es_alloc : keeps alive es_alloc.
Proof. intros s a s'. unfold es_alloc. case_match eqn:E; intros [= <- <-]; [done|]. split; [done|by rewrite E]. Qed.

(** One step of the frame proof; the lemmas about the called functions are in the database. *)
Ltac alive_step :=
  first
    [ assumption | solve [auto 2 with alive nocore]
    | apply keeps_ret; exact _ | apply keeps_fault; exact _ | apply keeps_assert; exact _
    | apply alive_get_es | apply alive_read_ei | apply alive_read_es | apply alive_es_end | apply alive_modify_ei | apply alive_es_alloc
    | by apply alive_modify_es | apply keeps_bind; [exact _|..|intros ?] | progress case_match | progress cbn beta iota zeta ].
Ltac keep_alive := repeat alive_step.

Lemma alive_modify_extent i n f : keeps alive (modify_extent i n f).
Proof. unfold modify_extent. keep_alive. Qed.
#[export] Hint Resolve alive_modify_extent : alive.
Lemma alive_search_down i lblk t : forall last, keeps alive (search_down i lblk t last).
Proof. induction t as [|l IHl n r IHr]; intros last; cbn [search_down]; keep_alive; auto. Qed.
#[export] Hint Resolve alive_search_down : alive.
Lemma alive_tree_search i lblk : keeps alive (__es_tree_search i lblk).
Proof. unfold __es_tree_search. keep_alive. Qed.
Lemma alive_list_add i : keeps alive (ext4_es_list_add i).
Proof. apply alive_modify_es. intros s. by case_bool_decide. Qed.
Lemma alive_list_del i : keeps alive (ext4_es_list_del i).
Proof. apply alive_modify_es. intros s. by case_bool_decide. Qed.
#[export] Hint Resolve alive_tree_search alive_list_add alive_list_del : alive.
Lemma alive_alloc_extent i es : keeps alive (ext4_es_alloc_extent i es).
Proof. unfold ext4_es_alloc_extent. keep_alive. Qed.
Lemma alive_free_extent i n : keeps alive (ext4_es_free_extent i n).
Proof. unfold ext4_es_free_extent. keep_alive. Qed.
Lemma alive_find_spot i es t : keeps alive (find_spot i es t).
Proof. induction t as [|l IHl n r IHr]; cbn [find_spot]; keep_alive. Qed.
#[export] Hint Resolve alive_alloc_extent alive_free_extent alive_find_spot : alive.

Section Tree.
Context `{Rebalance}.

Lemma alive_erase_free i n : keeps alive (erase_free i n).
Proof. unfold erase_free. keep_alive. Qed.
#[local] Hint Resolve alive_erase_free : alive.
Lemma alive_insert i es : keeps alive (__es_insert_extent i es).
Proof. unfold __es_insert_extent, ext4_es_try_to_merge_left, ext4_es_try_to_merge_right. keep_alive. Qed.
Lemma alive_reclaim_loop i stop l : forall a b, keeps alive (reclaim_loop i stop l a b).
Proof. induction l as [|n l IH]; intros a b; cbn [reclaim_loop]; keep_alive; auto. Qed.
#[local] Hint Resolve alive_insert alive_reclaim_loop : alive.
Lemma alive_reclaim i nr : keeps alive (es_reclaim_extents i nr).
Proof. unfold es_reclaim_extents, es_do_reclaim_extents. keep_alive. Qed.
#[local] Hint Resolve alive_reclaim : alive.
Lemma alive_shrink_walk trylock locked retried n : forall a b c, keeps alive (shrink_walk trylock locked retried n a b c).
Proof. induction n as [|n IH]; intros a b c; cbn [shrink_walk]; keep_alive; auto. Qed.
#[local] Hint Resolve alive_shrink_walk : alive.
Lemma alive_shrink trylock nr locked : keeps alive (__es_shrink trylock nr locked).
Proof. unfold __es_shrink. keep_alive. Qed.
Lemma alive_erase_until i stop l : keeps alive (erase_until i stop l).
Proof. induction l as [|n l IH]; cbn [erase_until]; keep_alive. Qed.
#[local] Hint Resolve alive_shrink alive_erase_until : alive.
Lemma alive_remove trylock fuel i lblk stop : keeps alive (__es_remove_extent trylock fuel i lblk stop).
Proof. induction fuel as [|fuel IH]; cbn [__es_remove_extent]; keep_alive. Qed.
Lemma alive_insert_retry trylock fuel i es : keeps alive (insert_retry trylock fuel i es).
Proof. induction fuel as [|fuel IH]; cbn [insert_retry]; keep_alive. Qed.
#[local] Hint Resolve alive_remove alive_insert_retry : alive.

Lemma alive_insert_extent trylock fuel i lblk len pblk status : keeps alive (ext4_es_insert_extent trylock fuel i lblk len pblk status).
Proof. unfold ext4_es_insert_extent. keep_alive. Qed.
Lemma alive_cache_extent i lblk len pblk status : keeps alive (ext4_es_cache_extent i lblk len pblk status).
Proof. unfold ext4_es_cache_extent. keep_alive. Qed.
End Tree.

Lemma alive_lookup i lblk : keeps alive (ext4_es_lookup_extent i lblk).
Proof. unfold ext4_es_lookup_extent, cached. keep_alive. Qed.
Lemma alive_next_delayed i stop l : keeps alive (next_delayed i stop l).
Proof. induction l as [|n l IH]; cbn [next_delayed]; keep_alive. Qed.
#[export] Hint Resolve alive_next_delayed : alive.
Lemma alive_find_delayed i lblk stop : keeps alive (ext4_es_find_delayed_extent_range i lblk stop).
Proof. unfold ext4_es_find_delayed_extent_range, cached. keep_alive. Qed.
