(* ===== verification/ExtentNode.v ===== *)
(** * Nodes of the extent tree on disk

    The first part of kernel/fs/ext4/extents.c and ext4_extents.h: the tree that maps the logical blocks of a file to blocks
    of the disk.  A node is the 60 bytes [i_data] of the inode or a block, as a list of 32-bit words: three of
    header and three for every entry, an extent in a leaf and a pointer to a lower node elsewhere; behind the last
    possible entry follows a checksum.  The file holds the fields, the check of a node and what it establishes.

    [xstate] is what the lookup shares with its surroundings: the system zones (BlockValidity.v), the extent status tree
    (ExtentStatus.v), the roots in the inodes and the buffer cache; [x_allocs] are the results of the coming allocations, and
    [x_errors] counts the calls of [ext4_error_inode], which Ext4.v models. *)
From stdpp Require Import sorting.
From S2P Require Import Prelude Log ExtentStatus ExtentTree BlockValidity.

(** ** Fields *)

Definition word (w : list Z) (k : Z) : Z := default 0 (w !! Z.to_nat k).

(** The struct [ext4_extent_header]. *)
Definition eh_magic (w : list Z) : Z := Z.land (word w 0) 65535.
Definition eh_entries (w : list Z) : Z := Z.shiftr (word w 0) 16.
Definition eh_max (w : list Z) : Z := Z.land (word w 1) 65535.
Definition eh_depth (w : list Z) : Z := Z.shiftr (word w 1) 16.
Definition EXT4_EXT_MAGIC : Z := 62218.

Record ext4_extent := mk_ext { ee_block : Z; ee_len : Z; ee_start_hi : Z; ee_start_lo : Z }.
#[export] Instance eta_ext : Eta _ := fun e => mk_ext (ee_block e) (ee_len e) (ee_start_hi e) (ee_start_lo e).
Record ext4_extent_idx := mk_idx { ei_block : Z; ei_leaf_lo : Z; ei_leaf_hi : Z }.
#[export] Instance eta_idx : Eta _ := fun e => mk_idx (ei_block e) (ei_leaf_lo e) (ei_leaf_hi e).

(** [EXT_FIRST_EXTENT(w) + k] and [EXT_FIRST_INDEX(w) + k]. *)
Definition extent_at (w : list Z) (k : Z) : ext4_extent :=
  let p := 3 + 3 * k in mk_ext (word w p) (Z.land (word w (p + 1)) 65535) (Z.shiftr (word w (p + 1)) 16) (word w (p + 2)).
Definition index_at (w : list Z) (k : Z) : ext4_extent_idx :=
  let p := 3 + 3 * k in mk_idx (word w p) (word w (p + 1)) (Z.land (word w (p + 2)) 65535).

Definition entries_from {A} (at_ : Z -> A) (n : Z) : list A := map (fun k => at_ (Z.of_nat k)) (seq 0 (Z.to_nat n)).
Definition leaf_extents (w : list Z) : list ext4_extent := entries_from (extent_at w) (eh_entries w).
Definition node_indexes (w : list Z) : list ext4_extent_idx := entries_from (index_at w) (eh_entries w).

(** *** Extents *)

Definition EXT_INIT_MAX_LEN : Z := 32768.
Definition EXT_UNWRITTEN_MAX_LEN : Z := EXT_INIT_MAX_LEN - 1.

Definition ext4_ext_mark_unwritten (ext : ext4_extent) : outcome ext4_extent :=
  if Z.ldiff (ee_len ext) EXT_INIT_MAX_LEN =? 0 then Fault Assert else Ret (ext <| ee_len ::= fun l => Z.lor l EXT_INIT_MAX_LEN |>).
Definition ext4_ext_is_unwritten (ext : ext4_extent) : bool := EXT_INIT_MAX_LEN <? ee_len ext.
Definition ext4_ext_get_actual_len (ext : ext4_extent) : Z :=
  if ee_len ext <=? EXT_INIT_MAX_LEN then ee_len ext else ee_len ext - EXT_INIT_MAX_LEN.
Definition ext4_ext_mark_initialized (ext : ext4_extent) : ext4_extent := ext <| ee_len := ext4_ext_get_actual_len ext |>.

Definition ext4_ext_pblock (ex : ext4_extent) : Z := Z.lor (ee_start_lo ex) (Z.shiftl (Z.shiftl (ee_start_hi ex) 31) 1).
Definition ext4_idx_pblock (ix : ext4_extent_idx) : Z := Z.lor (ei_leaf_lo ix) (Z.shiftl (Z.shiftl (ei_leaf_hi ix) 31) 1).
Definition ext4_ext_store_pblock (ex : ext4_extent) (pb : Z) : ext4_extent :=
  ex <| ee_start_lo := Z.land pb 4294967295 |> <| ee_start_hi := Z.land (Z.shiftr (Z.shiftr pb 31) 1) 65535 |>.
Definition ext4_idx_store_pblock (ix : ext4_extent_idx) (pb : Z) : ext4_extent_idx :=
  ix <| ei_leaf_lo := Z.land pb 4294967295 |> <| ei_leaf_hi := Z.land (Z.shiftr (Z.shiftr pb 31) 1) 65535 |>.

(** ** The surroundings *)

(** The superblock, the checksum of a list of words with the seed of an inode, and the blocks as the device returns them. *)
Record ext_sb := mk_ext_sb {
  s_first_data_block : Z;
  s_blocks_count : Z;
  s_blocksize : Z;
  s_metadata_csum : bool;
  s_chksum : positive -> list Z -> Z;
  s_disk : Z -> option (list Z);
}.

Record ebuf := mk_ebuf { b_words : list Z; b_uptodate : bool; b_verified : bool }.
#[export] Instance eta_ebuf : Eta _ := fun b => mk_ebuf (b_words b) (b_uptodate b) (b_verified b).

Record xstate := mk_xstate {
  x_zones : zstate;
  x_es : es_state;
  x_data : gmap positive (list Z);
  x_bufs : gmap Z ebuf;
  x_allocs : list bool;
  x_errors : nat;
}.
#[export] Instance eta_xstate : Eta _ :=
  fun s => mk_xstate (x_zones s) (x_es s) (x_data s) (x_bufs s) (x_allocs s) (x_errors s).

Abbreviation XM := (K xstate).
Definition get_x : XM xstate := fun s => Ret (s, s).
Definition modify_x (f : xstate -> xstate) : XM unit := fun s => Ret (tt, f s).
Definition on_zones {A} (m : ZM A) : XM A := fun s =>
  match m (x_zones s) with Ret (a, z) => Ret (a, s <| x_zones := z |>) | Fault f => Fault f end.
Definition on_es {A} (m : E A) : XM A := fun s =>
  match m (x_es s) with Ret (a, e) => Ret (a, s <| x_es := e |>) | Fault f => Fault f end.
(** [ext_inode_hdr] *)
Definition ext_inode_hdr (i : positive) : XM (list Z) := fun s =>
  match x_data s !! i with Some w => Ret (w, s) | None => Fault Oops end.
Definition ext_depth (i : positive) : XM Z := w <- ext_inode_hdr i ;; kret (eh_depth w).
Definition x_alloc : XM bool := fun s =>
  match x_allocs s with
  | [] => Ret (true, s)
  | ok :: rest => Ret (ok, s <| x_allocs := rest |>)
  end.

(** ** The check of a node *)

(** 15 words of [i_data]. *)
Definition ext4_ext_space_root : Z := (60 - 12) / 12.
Definition ext4_ext_space_root_idx : Z := (60 - 12) / 12.

Section Check.
Context (sb : ext_sb).

Definition ext4_ext_space_block : Z := (s_blocksize sb - 12) / 12.
Definition ext4_ext_space_block_idx : Z := (s_blocksize sb - 12) / 12.

(** [depth0] is the depth of the inode. *)
Definition ext4_ext_max_entries (depth0 depth : Z) : Z :=
  if depth =? depth0
  then if depth =? 0 then ext4_ext_space_root else ext4_ext_space_root_idx
  else if depth =? 0 then ext4_ext_space_block else ext4_ext_space_block_idx.

Definition EXT4_EXTENT_TAIL_OFFSET (eh : list Z) : Z := 3 + 3 * eh_max eh.
Definition ext4_extent_block_csum (i : positive) (eh : list Z) : Z :=
  s_chksum sb i (take (Z.to_nat (EXT4_EXTENT_TAIL_OFFSET eh)) eh).
Definition ext4_extent_block_csum_verify (i : positive) (eh : list Z) : bool :=
  if negb (s_metadata_csum sb) then true
  else word eh (EXT4_EXTENT_TAIL_OFFSET eh) =? ext4_extent_block_csum i eh.

Definition data_block_valid (start cnt : Z) : XM bool :=
  on_zones (ext4_data_block_valid (s_first_data_block sb) (s_blocks_count sb) start cnt).

Definition ext4_valid_extent (ext : ext4_extent) : XM bool :=
  let len := ext4_ext_get_actual_len ext in
  if u32 (ee_block ext + len) <=? ee_block ext then kret false
  else data_block_valid (ext4_ext_pblock ext) len.

Definition ext4_valid_extent_idx (ix : ext4_extent_idx) : XM bool := data_block_valid (ext4_idx_pblock ix) 1.

(** The loop over the entries of a leaf; [prev] is the last block of the extent before. *)
Fixpoint valid_leaf_entries (prev : Z) (exts : list ext4_extent) : XM bool :=
  match exts with
  | [] => kret true
  | ext :: exts =>
    ok <- ext4_valid_extent ext ;;
    if negb ok then kret false
    else if (ee_block ext <=? prev) && negb (prev =? 0)
    then modify_x (fun s => s <| x_zones ::= fun z => z <| s_last_error_block := ext4_ext_pblock ext |> |>) ;;; kret false
    else valid_leaf_entries (u32 (ee_block ext + ext4_ext_get_actual_len ext - 1)) exts
  end.

Fixpoint valid_index_entries (ixs : list ext4_extent_idx) : XM bool :=
  match ixs with
  | [] => kret true
  | ix :: ixs => ok <- ext4_valid_extent_idx ix ;; if negb ok then kret false else valid_index_entries ixs
  end.

Definition ext4_valid_extent_entries (eh : list Z) (depth : Z) : XM bool :=
  if eh_entries eh =? 0 then kret true
  else if depth =? 0 then valid_leaf_entries 0 (leaf_extents eh) else valid_index_entries (node_indexes eh).

Definition EFSBADCRC : Z := 74.
Definition corrupted (err : Z) : XM Z := modify_x (fun s => s <| x_errors ::= S |>) ;;; kret (- err).

Definition __ext4_ext_check (i : positive) (eh : list Z) (depth : Z) : XM Z :=
  depth0 <- ext_depth i ;;
  if negb (eh_magic eh =? EXT4_EXT_MAGIC) then corrupted EFSCORRUPTED
  else if negb (eh_depth eh =? depth) then corrupted EFSCORRUPTED
  else if eh_max eh =? 0 then corrupted EFSCORRUPTED
  else if ext4_ext_max_entries depth0 depth <? eh_max eh then corrupted EFSCORRUPTED
  else if eh_max eh <? eh_entries eh then corrupted EFSCORRUPTED
  else
    ok <- ext4_valid_extent_entries eh depth ;;
    if negb ok then corrupted EFSCORRUPTED
    else if 32 <? depth then corrupted EFSCORRUPTED
    else if negb (depth0 =? depth) && negb (ext4_extent_block_csum_verify i eh) then corrupted EFSBADCRC
    else kret 0.

Definition ext4_ext_check_inode (i : positive) : XM Z :=
  w <- ext_inode_hdr i ;;
  __ext4_ext_check i w (eh_depth w).
End Check.

(** ** Facts about the fields *)

Lemma land_16 z : Z.land z 65535 = z mod 65536.
Proof. change 65535 with (Z.ones 16). by rewrite Z.land_ones. Qed.
Lemma land_32 z : Z.land z 4294967295 = z mod 4294967296.
Proof. change 4294967295 with (Z.ones 32). by rewrite Z.land_ones. Qed.

(** Parts of a word that do not overlap. *)
Lemma lor_add k lo hi : 0 <= k -> 0 <= lo < 2 ^ k -> Z.lor lo (Z.shiftl hi k) = lo + hi * 2 ^ k.
Proof.
  intros Hk Hlo. rewrite Z.shiftl_mul_pow2 by done. pose proof (Z.add_lor_land lo (hi * 2 ^ k)) as E.
  assert (Z.land lo (hi * 2 ^ k) = 0) as E0; [|lia]. apply Z.bits_inj'. intros j Hj. rewrite Z.land_spec, Z.bits_0.
  destruct (Z.lt_ge_cases j k); [by rewrite (Z.mul_pow2_bits_low hi), andb_false_r by lia|].
  by rewrite <-(Z.mod_small lo (2 ^ k)), Z.mod_pow2_bits_high by lia.
Qed.

Lemma ext_pblock_add ex : is_u32 (ee_start_lo ex) -> ext4_ext_pblock ex = ee_start_lo ex + ee_start_hi ex * 4294967296.
Proof. intros H. unfold ext4_ext_pblock. rewrite Z.shiftl_shiftl by done. by apply (lor_add 32). Qed.
Lemma idx_pblock_add ix : is_u32 (ei_leaf_lo ix) -> ext4_idx_pblock ix = ei_leaf_lo ix + ei_leaf_hi ix * 4294967296.
Proof. intros H. unfold ext4_idx_pblock. rewrite Z.shiftl_shiftl by done. by apply (lor_add 32). Qed.

Lemma stored_parts pb :
  0 <= pb < 2 ^ 48 -> is_u32 (Z.land pb 4294967295) /\
  Z.land pb 4294967295 + Z.land (Z.shiftr (Z.shiftr pb 31) 1) 65535 * 4294967296 = pb.
Proof.
  intros H. rewrite Z.shiftr_shiftr, Z.shiftr_div_pow2, land_16, land_32 by done. change (2 ^ (31 + 1)) with 4294967296.
  change (2 ^ 48) with 281474976710656 in H. unfold is_u32. lia.
Qed.

(** A block number of 48 bits survives being stored in an extent or an index. *)
Theorem store_pblock_roundtrip ex ix pb :
  0 <= pb < 2 ^ 48 -> ext4_ext_pblock (ext4_ext_store_pblock ex pb) = pb /\ ext4_idx_pblock (ext4_idx_store_pblock ix pb) = pb.
Proof.
  intros H. destruct (stored_parts pb H) as [Hlo E]. split; [by rewrite ext_pblock_add|by rewrite idx_pblock_add].
Qed.

Lemma actual_len_range ext : 0 <= ee_len ext < 65536 -> 0 <= ext4_ext_get_actual_len ext <= 32768.
Proof. unfold ext4_ext_get_actual_len, EXT_INIT_MAX_LEN. intros H. destruct (Z.leb_spec (ee_len ext) 32768); lia. Qed.

(** Marking an extent as unwritten and as initialised again keeps its length; an extent of length 0 or of the full length
    32768, which has no unwritten form, stops the machine. *)
Theorem mark_unwritten_roundtrip ext :
  0 <= ee_len ext <= 32768 ->
  match ext4_ext_mark_unwritten ext with
  | Ret ext' => 0 < ee_len ext < 32768 /\ ext4_ext_is_unwritten ext' = true /\ ext4_ext_get_actual_len ext' = ee_len ext /\
      ext4_ext_mark_initialized ext' = ext
  | Fault f => f = Assert /\ (ee_len ext = 0 \/ ee_len ext = 32768)
  end.
Proof.
  intros H. unfold ext4_ext_mark_unwritten, EXT_INIT_MAX_LEN.
  assert (ee_len ext = 32768 \/ 0 <= ee_len ext < 32768) as [E|Hlt] by lia; [rewrite E; split; [done|by right]|].
  assert (Z.ldiff (ee_len ext) 32768 = ee_len ext) as ->.
  { apply Z.bits_inj'. intros k Hk. change 32768 with (2 ^ 15). rewrite Z.ldiff_spec, Z.pow2_bits_eqb by lia.
    destruct (Z.eqb_spec 15 k) as [<-|]; [|by rewrite andb_true_r].
    by rewrite <-(Z.mod_small (ee_len ext) (2 ^ 15)), Z.mod_pow2_bits_high by (change (2 ^ 15) with 32768; lia). }
  destruct (Z.eqb_spec (ee_len ext) 0) as [E0|Hne]; [split; [done|by left]|].
  assert (Z.lor (ee_len ext) 32768 = ee_len ext + 32768) as E.
  { change 32768 with (Z.shiftl 1 15) at 1. by rewrite lor_add by (change (2 ^ 15) with 32768; lia). }
  unfold ext4_ext_is_unwritten, ext4_ext_mark_initialized, ext4_ext_get_actual_len, EXT_INIT_MAX_LEN. destruct ext as [b l hi lo]. cbn in *.
  rewrite E. rewrite (proj2 (Z.leb_gt _ _)), (proj2 (Z.ltb_lt _ _)) by lia. split_and!; [lia|lia|done|lia|]. by replace (l + 32768 - 32768) with l by lia.
Qed.

(** The words of a node are 32-bit, so its fields have their widths. *)
Definition is_words (w : list Z) : Prop := Forall is_u32 w.

Lemma word_u32 w k : is_words w -> is_u32 (word w k).
Proof.
  intros H. unfold word. destruct (w !! Z.to_nat k) eqn:E; cbn; [|unfold is_u32; lia]. by eapply Forall_lookup_1 in E.
Qed.

Record ext_fields (ex : ext4_extent) : Prop := {
  ef_block : is_u32 (ee_block ex);
  ef_len : 0 <= ee_len ex < 65536;
  ef_hi : 0 <= ee_start_hi ex < 65536;
  ef_lo : is_u32 (ee_start_lo ex);
}.

Lemma shiftr_16 z : is_u32 z -> 0 <= Z.shiftr z 16 < 65536.
Proof. unfold is_u32. intros H. rewrite Z.shiftr_div_pow2 by done. change (2 ^ 16) with 65536. lia. Qed.

Lemma header_fields w : is_words w -> 0 <= eh_entries w < 65536 /\ 0 <= eh_max w < 65536 /\ 0 <= eh_depth w < 65536.
Proof.
  intros H. unfold eh_entries, eh_max, eh_depth. pose proof (word_u32 w 0 H). pose proof (word_u32 w 1 H).
  split_and!; try (by apply shiftr_16); rewrite land_16; lia.
Qed.

Lemma extent_at_fields w k : is_words w -> ext_fields (extent_at w k).
Proof.
  intros H. unfold extent_at. split; cbn [ee_block ee_len ee_start_hi ee_start_lo]; try (by apply word_u32); [rewrite land_16; lia|].
  by apply shiftr_16, word_u32.
Qed.

Lemma ext_pblock_range ex : ext_fields ex -> 0 <= ext4_ext_pblock ex < 281474976710656.
Proof. intros [_ _ Hh Hl]. rewrite ext_pblock_add by done. unfold is_u32 in Hl. lia. Qed.

Lemma idx_pblock_range w k : is_words w -> 0 <= ext4_idx_pblock (index_at w k) < 281474976710656.
Proof.
  intros H. rewrite idx_pblock_add by (apply (word_u32 w _ H)). cbn. rewrite land_16. pose proof (word_u32 w (3 + 3 * k + 1) H) as Hu.
  unfold is_u32 in Hu. lia.
Qed.

(** ** What the check establishes *)

Section CheckSpec.
Context (sb : ext_sb).

(** Blocks that may hold data. *)
Definition block_free (zs : list ext4_system_zone) (start cnt : Z) : Prop :=
  s_first_data_block sb < start /\ start + cnt <= s_blocks_count sb /\ forall b, start <= b < start + cnt -> ~ in_zones zs b.

Record ext_ok (zs : list ext4_system_zone) (ex : ext4_extent) : Prop := {
  eo_len : 0 < ext4_ext_get_actual_len ex;
  eo_end : ee_block ex + ext4_ext_get_actual_len ex < 4294967296;
  eo_free : block_free zs (ext4_ext_pblock ex) (ext4_ext_get_actual_len ex);
}.

(** The last block of an extent, and the end of the extents of a leaf so far. *)
Definition last_block (ex : ext4_extent) : Z := ee_block ex + ext4_ext_get_actual_len ex - 1.

(** What the loop over a leaf asks for. *)
Fixpoint leaf_ok (zs : list ext4_system_zone) (prev : Z) (exts : list ext4_extent) : Prop :=
  match exts with
  | [] => True
  | ex :: exts => ext_ok zs ex /\ (prev = 0 \/ prev < ee_block ex) /\ leaf_ok zs (last_block ex) exts
  end.

Record node_ok (zs : list ext4_system_zone) (i : positive) (depth0 : Z) (w : list Z) (depth : Z) : Prop := {
  no_magic : eh_magic w = EXT4_EXT_MAGIC;
  no_depth : eh_depth w = depth;
  no_max : 0 < eh_max w <= ext4_ext_max_entries sb depth0 depth;
  no_entries : eh_entries w <= eh_max w;
  no_leaf : depth = 0 -> leaf_ok zs 0 (leaf_extents w);
  no_index : depth <> 0 -> Forall (fun ix => block_free zs (ext4_idx_pblock ix) 1) (node_indexes w);
  no_height : depth <= 32;
  no_csum : depth0 <> depth -> ext4_extent_block_csum_verify sb i w = true;
}.

(** A failed check changes the record of the last error only. *)
Record err_only (s s' : xstate) : Prop := {
  er_tree : system_blks (x_zones s') = system_blks (x_zones s);
  er_zones : zones (x_zones s') = zones (x_zones s);
  er_es : x_es s' = x_es s;
  er_data : x_data s' = x_data s;
  er_bufs : x_bufs s' = x_bufs s;
  er_allocs : x_allocs s' = x_allocs s;
  er_errors : (x_errors s <= x_errors s')%nat;
}.
#[local] Instance err_only_preorder : PreOrder err_only.
Proof. split; [by split|]. intros s1 s2 s3 [] []. split; try congruence. lia. Qed.

Lemma err_only_zones s s' zs : err_only s s' -> zones_inv (x_zones s) zs -> zones_inv (x_zones s') zs.
Proof. intros [E1 E2 _ _ _ _ _] [Hh Hn Hs]. split; rewrite ?E1, ?E2; done. Qed.

(** [m] returns whether [P] holds, and changes nothing if it does. *)
Definition decides (m : XM bool) (P : Prop) (s : xstate) : Prop :=
  wp m (fun r s' => (r = true /\ P /\ s' = s) \/ (r = false /\ ~ P /\ err_only s s')) s.

Lemma decides_iff m P P' s : (P <-> P') -> decides m P s -> decides m P' s.
Proof. intros E H. eapply wp_mono; [exact H|]. cbn beta. naive_solver. Qed.
Lemma decides_ret (b : bool) P s : (b = true <-> P) -> decides (kret b) P s.
Proof. intros E. apply wp_ret. destruct b; [left|right]; split_and!; try done; [by apply E|]. intros HP. by apply E in HP. Qed.

(** Two checks in a row. *)
Lemma decides_and m k P Q s :
  decides m P s -> (P -> decides k Q s) -> decides (ok <- m ;; if negb ok then kret false else k) (P /\ Q) s.
Proof.
  intros Hm Hk. apply wp_bind. eapply wp_mono; [exact Hm|]. cbn beta. intros r s' [(-> & HP & ->)|(-> & HP & He)]; cbn [negb].
  - eapply wp_mono; [by apply Hk|]. cbn beta. naive_solver.
  - apply wp_ret. right. split_and!; [done|tauto|done].
Qed.

Lemma data_block_valid_decides zs start cnt s :
  0 <= start -> 0 < cnt -> start + cnt < 18446744073709551616 -> zones_inv (x_zones s) zs ->
  decides (data_block_valid sb start cnt) (block_free zs start cnt) s.
Proof.
  intros H1 H2 H3 Hz. unfold decides, data_block_valid, on_zones, wp.
  destruct (proj1 (wp_returns _ _ _) (data_block_valid_spec (s_first_data_block sb) (s_blocks_count sb) start cnt zs (x_zones s) H1 H2 H3 Hz))
    as (r & z & -> & Hiff & ->). destruct r.
  - left. split_and!; [done|by apply Hiff|by destruct s].
  - right. split_and!; [done|by intros ?%Hiff|by split].
Qed.

Lemma valid_extent_decides zs ex s : ext_fields ex -> zones_inv (x_zones s) zs -> decides (ext4_valid_extent sb ex) (ext_ok zs ex) s.
Proof.
  intros Hf Hz. pose proof (actual_len_range ex (ef_len _ Hf)) as Hl. pose proof (ext_pblock_range ex Hf) as Hp. pose proof (ef_block _ Hf) as Hb.
  unfold is_u32 in Hb. unfold ext4_valid_extent. destruct (Z.leb_spec (u32 (ee_block ex + ext4_ext_get_actual_len ex)) (ee_block ex)) as [Hle|Hgt].
  - apply decides_ret. split; [done|]. intros [? ? _]. unfold u32 in Hle. lia.
  - unfold u32 in Hgt. eapply decides_iff; [|apply (data_block_valid_decides zs); [lia..|done]]. split; [|by intros []]. intros ?. split; [lia|lia|done].
Qed.

Lemma valid_leaf_decides zs exts : forall prev s,
  Forall ext_fields exts -> zones_inv (x_zones s) zs -> decides (valid_leaf_entries sb prev exts) (leaf_ok zs prev exts) s.
Proof.
  induction exts as [|ex exts IH]; intros prev s Hf Hz; cbn [valid_leaf_entries leaf_ok]; [by apply decides_ret|].
  apply Forall_cons in Hf as [Hex Hf]. apply decides_and; [by apply valid_extent_decides|]. intros [Hlen Hend _].
  destruct (Z.leb_spec (ee_block ex) prev); cbn [andb]; [destruct (Z.eqb_spec prev 0)|]; cbn [negb].
  2: { apply wp_bind, wp_ret. right. split_and!; [done|lia|by split]. }
  all: pose proof (ef_block _ Hex) as Hb; unfold is_u32 in Hb; rewrite u32_id by (unfold is_u32; lia).
  all: eapply decides_iff; [|by apply IH]; unfold last_block; intuition lia.
Qed.

Lemma valid_index_decides zs ixs s :
  Forall (fun ix => 0 <= ext4_idx_pblock ix < 281474976710656) ixs -> zones_inv (x_zones s) zs ->
  decides (valid_index_entries sb ixs) (Forall (fun ix => block_free zs (ext4_idx_pblock ix) 1) ixs) s.
Proof.
  induction ixs as [|ix ixs IH]; intros Hr Hz; cbn [valid_index_entries]; [by apply decides_ret|].
  apply Forall_cons in Hr as [? Hr]. eapply decides_iff; [symmetry; apply Forall_cons|]. apply decides_and; [|auto].
  apply data_block_valid_decides; [lia..|done].
Qed.

Lemma entries_decides zs eh depth s :
  is_words eh -> zones_inv (x_zones s) zs ->
  decides (ext4_valid_extent_entries sb eh depth)
    ((depth = 0 -> leaf_ok zs 0 (leaf_extents eh)) /\
     (depth <> 0 -> Forall (fun ix => block_free zs (ext4_idx_pblock ix) 1) (node_indexes eh))) s.
Proof.
  intros Hw Hz. unfold ext4_valid_extent_entries. destruct (Z.eqb_spec (eh_entries eh) 0) as [E|_].
  { apply decides_ret. split; [|done]. unfold leaf_extents, node_indexes, entries_from. rewrite E. intros _. split; [done|constructor]. }
  destruct (Z.eqb_spec depth 0) as [Hd|Hd].
  - eapply decides_iff; [|apply (valid_leaf_decides zs); [|done]]; [tauto|]. apply Forall_forall. intros ex (k & -> & _)%list_elem_of_fmap.
    by apply extent_at_fields.
  - eapply decides_iff; [|apply (valid_index_decides zs); [|done]]; [tauto|]. apply Forall_forall. intros ix (k & -> & _)%list_elem_of_fmap.
    by apply idx_pblock_range.
Qed.

(** The check returns 0 for the nodes of [node_ok] and nothing else; otherwise the error is reported. *)
Definition checked (zs : list ext4_system_zone) (i : positive) (depth0 : Z) (eh : list Z) (depth : Z) (s : xstate) (r : Z) (s' : xstate) : Prop :=
  (r = 0 /\ node_ok zs i depth0 eh depth /\ s' = s) \/
  ((r = - EFSCORRUPTED \/ r = - EFSBADCRC) /\ ~ node_ok zs i depth0 eh depth /\ err_only s s' /\ (x_errors s < x_errors s')%nat).

Lemma corrupted_checked zs i depth0 eh depth err s s1 :
  err = EFSCORRUPTED \/ err = EFSBADCRC -> ~ node_ok zs i depth0 eh depth -> err_only s s1 ->
  wp (corrupted err) (fun r s' => checked zs i depth0 eh depth s r s') s1.
Proof.
  intros He Hno H1. apply wp_bind, wp_ret. right. split_and!; [naive_solver|done| |].
  - transitivity s1; [done|]. split; cbn; try done. lia.
  - pose proof (er_errors _ _ H1). cbn. lia.
Qed.

Lemma check_spec zs i eh depth data s :
  x_data s !! i = Some data -> is_words eh -> zones_inv (x_zones s) zs ->
  wp (__ext4_ext_check sb i eh depth) (fun r s' => checked zs i (eh_depth data) eh depth s r s') s.
Proof.
  intros Hi Hw Hz. unfold __ext4_ext_check, ext_depth. do 2 apply wp_bind. unfold wp at 1, ext_inode_hdr. rewrite Hi. apply wp_ret.
  pose proof (header_fields eh Hw) as (He & Hm & Hd).
  destruct (Z.eqb_spec (eh_magic eh) EXT4_EXT_MAGIC); cbn [negb]; [|apply corrupted_checked; [by left|by intros []|done]].
  destruct (Z.eqb_spec (eh_depth eh) depth); cbn [negb]; [|apply corrupted_checked; [by left|by intros []|done]].
  destruct (Z.eqb_spec (eh_max eh) 0); cbn [negb]; [apply corrupted_checked; [by left|intros []; lia|done]|].
  destruct (Z.ltb_spec (ext4_ext_max_entries sb (eh_depth data) depth) (eh_max eh)); [apply corrupted_checked; [by left|intros []; lia|done]|].
  destruct (Z.ltb_spec (eh_max eh) (eh_entries eh)); [apply corrupted_checked; [by left|intros []; lia|done]|].
  apply wp_bind. eapply wp_mono; [by apply (entries_decides zs)|]. cbn beta. intros r s' [(-> & [Hl Hx] & ->)|(-> & Hno & He')]; cbn [negb].
  2: { apply corrupted_checked; [by left| |done]. intros []. tauto. }
  destruct (Z.ltb_spec 32 depth); [apply corrupted_checked; [by left|intros []; lia|done]|].
  destruct (Z.eqb_spec (eh_depth data) depth); cbn [negb andb].
  { apply wp_ret. left. split_and!; [done| |done]. split; try done. lia. }
  destruct (ext4_extent_block_csum_verify sb i eh) eqn:Ec; cbn [negb].
  - apply wp_ret. left. split_and!; [done| |done]. split; try done. lia.
  - apply corrupted_checked; [by right| |done]. intros [_ _ _ _ _ _ _ Hcs]. by rewrite Hcs in Ec.
Qed.

(** *** Order *)

Definition leaf_sorted (exts : list ext4_extent) : Prop := StronglySorted (fun a b => last_block a < ee_block b) exts.

Lemma leaf_ok_len zs exts : forall prev, leaf_ok zs prev exts -> Forall (fun ex => ee_block ex <= last_block ex) exts.
Proof. induction exts as [|ex exts IH]; intros prev; [done|]. intros ([? _ _] & _ & ?). constructor; [unfold last_block; lia|eauto]. Qed.

Lemma leaf_ok_after zs exts : forall prev,
  0 <= prev -> leaf_ok zs prev exts -> Forall (fun ex => 0 < ee_block ex) exts -> Forall (fun ex => prev < ee_block ex) exts /\ leaf_sorted exts.
Proof.
  induction exts as [|ex exts IH]; intros prev Hp Hok Hpos; [by split; constructor|].
  pose proof (leaf_ok_len _ _ _ Hok) as [Hl _]%Forall_cons. destruct Hok as ([? _ _] & Hprev & Hok). apply Forall_cons in Hpos as [Hex Hpos].
  destruct (IH (last_block ex)) as [Hall Hs]; [lia|done|done|]. split; [|by constructor].
  constructor; [lia|]. eapply Forall_impl; [exact Hall|]. cbn beta. lia.
Qed.

(** The extents of a checked leaf follow each other without overlap, if only the first one starts at block 0. *)
Lemma leaf_ok_sorted zs ex exts :
  0 <= ee_block ex -> leaf_ok zs 0 (ex :: exts) -> Forall (fun ex => 0 < ee_block ex) exts -> leaf_sorted (ex :: exts).
Proof.
  intros H0 Hok Hpos. pose proof (leaf_ok_len _ _ _ Hok) as [Hl _]%Forall_cons. destruct Hok as (_ & _ & Hok).
  destruct (leaf_ok_after zs exts (last_block ex)) as [Hall Hs]; [lia|done|done|]. by constructor.
Qed.
End CheckSpec.

(** C36: the check of a node accepts exactly the nodes of [node_ok]: the right magic number, depth and checksum, no more entries than fit,
    no node deeper than 32 levels, extents that neither wrap nor touch metadata and that follow each other; for every other node it
    returns an error that is reported, and changes nothing else. *)
Theorem ext_check_exact sb zs i eh depth data s :
  x_data s !! i = Some data -> is_words eh -> zones_inv (x_zones s) zs ->
  exists r s', __ext4_ext_check sb i eh depth s = Ret (r, s') /\
    (r = 0 <-> node_ok sb zs i (eh_depth data) eh depth) /\ (r = 0 -> s' = s) /\
    (r <> 0 -> (r = - EFSCORRUPTED \/ r = - EFSBADCRC) /\ err_only s s' /\ (x_errors s < x_errors s')%nat) /\
    (r = 0 -> depth = 0 -> Forall (fun ex => 0 < ee_block ex) (tail (leaf_extents eh)) -> leaf_sorted (leaf_extents eh)).
Proof.
  intros Hi Hw Hz. destruct (proj1 (wp_returns _ _ _) (check_spec sb zs i eh depth data s Hi Hw Hz)) as (r & s' & Hr & Hc).
  exists r, s'. split; [done|]. destruct Hc as [(-> & Hn & ->)|(Hr' & Hn & He & Hx)].
  - split_and!; try done. intros _ Hd Hpos. pose proof (no_leaf _ _ _ _ _ _ Hn Hd) as Hok. destruct (leaf_extents eh) as [|ex exts] eqn:E; [constructor|].
    eapply leaf_ok_sorted; [|done|done]. assert (ex ∈ leaf_extents eh) as (k & -> & _)%list_elem_of_fmap by (rewrite E; by left).
    apply (ef_block _ (extent_at_fields eh _ Hw)).
  - assert (r <> 0) by (destruct Hr' as [->| ->]; unfold EFSCORRUPTED, EFSBADCRC; lia). by split_and!.
Qed.

(** ** A run *)

(** A root with one extent, blocks 5 to 14 at 100 on, and the same with the wrong depth. *)
Definition one_extent (depth : Z) : list Z := [62218 + 65536; 4 + 65536 * depth; 0; 5; 10; 100; 0; 0; 0; 0; 0; 0; 0; 0; 0].
Definition small_sb : ext_sb := mk_ext_sb 1 8192 1024 false (fun _ _ => 0) (fun _ => None).
Definition one_extent_state : xstate := mk_xstate no_zones (mk_es_state ∅ [] 0 0 0 0 0 []) {[1%positive := one_extent 0]} ∅ [] 0.

Lemma ext_check_exact_witness :
  node_ok small_sb [] 1%positive 0 (one_extent 0) 0 /\
  exists r s', __ext4_ext_check small_sb 1%positive (one_extent 3) 0 one_extent_state = Ret (r, s') /\ r <> 0 /\ (0 < x_errors s')%nat.
Proof.
  assert (forall d, 0 <= d <= 3 -> is_words (one_extent d)) as Hw by (intros d Hd; repeat constructor; lia).
  assert (zones_inv (x_zones one_extent_state) []) as Hz by (split; cbn; [constructor|constructor|split; constructor]).
  split.
  - destruct (ext_check_exact small_sb [] 1%positive (one_extent 0) 0 (one_extent 0) one_extent_state) as (r & s' & Hr & Hok & _); [done|apply Hw; lia|done|].
    apply Hok. vm_compute in Hr. congruence.
  - destruct (ext_check_exact small_sb [] 1%positive (one_extent 3) 0 (one_extent 0) one_extent_state) as (r & s' & Hr & _ & _ & Hbad & _); [done|apply Hw; lia|done|].
    exists r, s'. assert (r <> 0) as Hne by (intros ->; vm_compute in Hr; congruence). split_and!; [exact Hr|exact Hne|]. by apply Hbad.
Defined.
