(* ===== verification/ExtentFind.v ===== *)
(** * Lookup in the extent tree

    kernel/fs/ext4/extents.c: reading a node with its check, which fills the extent status tree on the way, the binary
    searches, [ext4_find_extent], [ext4_ext_precache], and the functions that go on from a path.

    A path is an array with one element per level; the pointers [p_idx] and [p_ext] are positions in the node [p_hdr].  The depth of
    an inode is at most 32, since [ext4_iget] checks its root ([ext4_ext_check_inode]). *)
From stdpp Require Import sorting.
From S2P Require Import Prelude Log ExtentStatus ExtentTree BlockValidity ExtentNode.

(** ** Binary search *)

(** The loop of both searches for entries with the keys [key]. *)
Fixpoint bsearch (fuel : nat) (key : Z -> Z) (block l r : Z) : Z :=
  match fuel with
  | O => l
  | S fuel =>
    if l <=? r
    then
      let m := l + (r - l) / 2 in
      if block <? key m then bsearch fuel key block l (m - 1) else bsearch fuel key block (m + 1) r
    else l
  end.

Definition ext4_ext_binsearch_idx (eh : list Z) (block : Z) : Z :=
  bsearch (Z.to_nat (eh_entries eh)) (fun k => ei_block (index_at eh k)) block 1 (eh_entries eh - 1) - 1.

Definition ext4_ext_binsearch (eh : list Z) (block : Z) : option Z :=
  if eh_entries eh =? 0 then None
  else Some (bsearch (Z.to_nat (eh_entries eh)) (fun k => ee_block (extent_at eh k)) block 1 (eh_entries eh - 1) - 1).

(** The linear search that [CHECK_BINSEARCH] compares the result with; [None] is its [BUG_ON].  [n] entries are left, [k] is the
    next one and [chix] the last that does not start behind [block]. *)
Fixpoint check_binsearch (key : Z -> Z) (block k chix : Z) (n : nat) : option Z :=
  match n with
  | O => Some chix
  | S n =>
    if negb (k =? 0) && (key k <=? key (k - 1)) then None
    else if block <? key k then Some chix
    else check_binsearch key block (k + 1) k n
  end.

(** ** Reading a node *)

Definition EXT4_EX_NOCACHE : Z := 1073741824.
Definition EXT4_EX_FORCE_CACHE : Z := 536870912.

(** [(ext4_fsblk_t) ~0] *)
Definition NO_PBLK : Z := 18446744073709551615.

Definition read_buf (pblk : Z) : XM ebuf := fun s => Ret (default (mk_ebuf [] false false) (x_bufs s !! pblk), s).
Definition modify_buf (pblk : Z) (f : ebuf -> ebuf) : XM unit :=
  b <- read_buf pblk ;;
  modify_x (fun s => s <| x_bufs ::= <[pblk := f b]> |>).

Section Lookup.
Context (sb : ext_sb) `{Rebalance}.

(** The loop that caches the extents of a leaf and the holes between them. *)
Fixpoint cache_leaf (i : positive) (prev : Z) (exts : list ext4_extent) : XM unit :=
  match exts with
  | [] => kret tt
  | ex :: exts =>
    let lblk := ee_block ex in
    let len := ext4_ext_get_actual_len ex in
    (if negb (prev =? 0) && negb (prev =? lblk)
     then on_es (ext4_es_cache_extent i prev (u32 (lblk - prev)) NO_PBLK EXTENT_STATUS_HOLE) else kret tt) ;;;
    let status := if ext4_ext_is_unwritten ex then EXTENT_STATUS_UNWRITTEN else EXTENT_STATUS_WRITTEN in
    on_es (ext4_es_cache_extent i lblk len (ext4_ext_pblock ex) status) ;;;
    cache_leaf i (u32 (lblk + len)) exts
  end.

(** Block [pblk] is in its buffer, or the result is the error of reading it. *)
Definition bh_submit_read (pblk : Z) : XM Z :=
  match s_disk sb pblk with
  | Some w => modify_buf pblk (fun b => b <| b_words := w |> <| b_uptodate := true |>) ;;; kret 0
  | None => kret (- EIO)
  end.

(** 0 stands for the buffer of [pblk]. *)
Definition __read_extent_tree_block (i : positive) (pblk depth flags : Z) : XM Z :=
  ok <- x_alloc ;;
  if negb ok then kret (- ENOMEM)
  else
    bh <- read_buf pblk ;;
    err <- (if b_uptodate bh then kret 0 else bh_submit_read pblk) ;;
    if err <? 0 then kret err
    else
      bh <- read_buf pblk ;;
      if b_verified bh && (Z.land flags EXT4_EX_FORCE_CACHE =? 0) then kret 0
      else
        err <- __ext4_ext_check sb i (b_words bh) depth ;;
        if negb (err =? 0) then kret err
        else
          modify_buf pblk (fun b => b <| b_verified := true |>) ;;;
          (if (Z.land flags EXT4_EX_NOCACHE =? 0) && (depth =? 0) then cache_leaf i 0 (leaf_extents (b_words bh)) else kret tt) ;;;
          kret 0.

(** ** Paths *)

(** Where the node of a level is. *)
Inductive place := Root | Block (b : Z).

Record ext4_ext_path := mk_path {
  p_block : Z;
  p_depth : Z;
  p_maxdepth : Z;
  p_ext : option Z;
  p_idx : option Z;
  p_hdr : option place;
  p_bh : option Z;
}.
#[export] Instance eta_path : Eta _ :=
  fun p => mk_path (p_block p) (p_depth p) (p_maxdepth p) (p_ext p) (p_idx p) (p_hdr p) (p_bh p).
Definition path_zero : ext4_ext_path := mk_path 0 0 0 None None None None.

Definition read_place (i : positive) (p : place) : XM (list Z) :=
  match p with
  | Root => ext_inode_hdr i
  | Block b => bh <- read_buf b ;; kret (b_words bh)
  end.
Definition read_level (path : list ext4_ext_path) (k : nat) : XM ext4_ext_path :=
  match path !! k with Some p => kret p | None => kfault Oops end.
(** [path[k].p_hdr] *)
Definition read_hdr (i : positive) (path : list ext4_ext_path) (k : nat) : XM (list Z) :=
  p <- read_level path k ;;
  match p_hdr p with Some pl => read_place i pl | None => kfault Oops end.

Definition ext4_ext_drop_refs (path : list ext4_ext_path) : list ext4_ext_path :=
  match path with
  | [] => []
  | p :: _ => let n := S (Z.to_nat (p_depth p)) in map (fun p => p <| p_bh := None |>) (take n path) ++ drop n path
  end.

(** The loop over the index levels: [n] levels to go, the node at hand is that of element [ppos]. *)
Fixpoint find_walk (i : positive) (block flags : Z) (n : nat) (ppos : nat) (path : list ext4_ext_path) : XM (Z + list ext4_ext_path) :=
  match n with
  | O => kret (inr path)
  | S n =>
    eh <- read_hdr i path ppos ;;
    let ix := ext4_ext_binsearch_idx eh block in
    let blk := ext4_idx_pblock (index_at eh ix) in
    let path := alter (fun p => p <| p_idx := Some ix |> <| p_block := blk |> <| p_depth := Z.of_nat (S n) |> <| p_ext := None |>) ppos path in
    err <- __read_extent_tree_block i blk (Z.of_nat n) flags ;;
    if err <? 0 then kret (inl err)
    else find_walk i block flags n (S ppos) (alter (fun p => p <| p_bh := Some blk |> <| p_hdr := Some (Block blk) |>) (S ppos) path)
  end.

(** The array: that of an earlier lookup if it is long enough, or a new one. *)
Definition find_array (orig : option (list ext4_ext_path)) (depth : Z) : XM (option (list ext4_ext_path)) :=
  let keep := match orig with
    | Some (p :: path) => if p_maxdepth p <? depth then None else Some (ext4_ext_drop_refs (p :: path))
    | _ => None
    end in
  match keep with
  | Some path => kret (Some path)
  | None =>
    ok <- x_alloc ;;
    kret (if ok : bool
          then Some (alter (fun p => p <| p_maxdepth := depth + 1 |>) 0%nat (replicate (Z.to_nat (depth + 2)) path_zero))
          else None)
  end.

Definition ext4_find_extent (i : positive) (block : Z) (orig : option (list ext4_ext_path)) (flags : Z) : XM (Z + list ext4_ext_path) :=
  depth <- ext_depth i ;;
  array <- find_array orig depth ;;
  match array with
  | None => kret (inl (- ENOMEM))
  | Some path =>
    r <- find_walk i block flags (Z.to_nat depth) 0 (alter (fun p => p <| p_hdr := Some Root |> <| p_bh := None |>) 0%nat path) ;;
    match r with
    | inl err => kret (inl err)
    | inr path =>
      let ppos := Z.to_nat depth in
      eh <- read_hdr i path ppos ;;
      let ex := ext4_ext_binsearch eh block in
      kret (inr (alter (fun p =>
        let p := p <| p_depth := 0 |> <| p_ext := ex |> <| p_idx := None |> in
        match ex with Some k => p <| p_block := ext4_ext_pblock (extent_at eh k) |> | None => p end) ppos path))
    end
  end.
End Lookup.

(** ** The binary search finds what the linear one finds *)

Section Bsearch.
Context (key : Z -> Z) (block n : Z).
Hypothesis key_lt : forall a b, 0 <= a < b -> b < n -> key a < key b.

(** [p] is the position behind the last entry after the first one that does not start behind [block]. *)
Definition found (p : Z) : Prop := (forall k, 1 <= k < p -> key k <= block) /\ (forall k, p <= k < n -> block < key k).

Lemma bsearch_spec fuel : forall l r,
  r - l < Z.of_nat fuel -> 1 <= l <= r + 1 -> r < n ->
  (forall k, 1 <= k < l -> key k <= block) -> (forall k, r < k < n -> block < key k) ->
  let p := bsearch fuel key block l r in l <= p <= r + 1 /\ found p.
Proof using key_lt.
  induction fuel as [|fuel IH]; intros l r Hf Hl Hr Hlo Hhi; cbn [bsearch].
  { assert (r = l - 1) as -> by lia. split; [lia|]. split; [done|]. intros k Hk. apply Hhi. lia. }
  destruct (Z.leb_spec l r) as [Hle|Hgt].
  2: { assert (r = l - 1) as -> by lia. split; [lia|]. split; [done|]. intros k Hk. apply Hhi. lia. }
  set (m := l + (r - l) / 2). assert (l <= m <= r) as Hm by (unfold m; lia). clearbody m.
  destruct (Z.ltb_spec block (key m)) as [Hlt|Hge].
  - destruct (IH l (m - 1)) as [Hp Hf']; [lia|lia|lia|done| |split; [lia|done]].
    intros k Hk. destruct (decide (k = m)) as [->|]; [done|]. pose proof (key_lt m k). lia.
  - destruct (IH (m + 1) r) as [Hp Hf']; [lia|lia|lia| |done|split; [lia|done]].
    intros k Hk. destruct (decide (k = m)) as [->|]; [done|]. pose proof (key_lt k m). lia.
Qed.

Lemma bsearch_found : 0 < n -> let p := bsearch (Z.to_nat n) key block 1 (n - 1) in 1 <= p <= n /\ found p.
Proof using key_lt.
  intros Hn. destruct (bsearch_spec (Z.to_nat n) 1 (n - 1)) as [Hp Hf]; [lia|lia|lia|intros; lia|intros; lia|]. split; [lia|done].
Qed.

Lemma check_found m : forall k chix,
  0 <= k -> Z.of_nat m + k = n -> chix = Z.max 0 (k - 1) -> (forall j, 1 <= j < k -> key j <= block) -> (0 < k -> key 0 <= block) -> 0 < n ->
  exists p, check_binsearch key block k chix m = Some (p - 1) /\ 1 <= p <= n /\ found p.
Proof using key_lt.
  induction m as [|m IH]; intros k chix Hk Hn Hc Hlo H0 Hpos; cbn [check_binsearch].
  { exists n. split_and!; [f_equal; lia|lia|done|]. split; [intros; apply Hlo; lia|intros; lia]. }
  assert (negb (k =? 0) && (key k <=? key (k - 1)) = false) as ->.
  { destruct (Z.eqb_spec k 0); [done|]. cbn. apply Z.leb_gt. apply key_lt; lia. }
  destruct (Z.ltb_spec block (key k)) as [Hlt|Hge].
  - exists (Z.max 1 k). split_and!; [f_equal; lia|lia|lia|]. split.
    + intros j Hj. apply Hlo. lia.
    + intros j Hj. destruct (decide (j = k)) as [->|]; [done|]. pose proof (key_lt k j). lia.
  - apply IH; [lia|lia|lia| | |done].
    + intros j Hj. destruct (decide (j = k)) as [->|]; [done|]. apply Hlo. lia.
    + intros _. destruct (decide (k = 0)) as [->|]; [done|]. apply H0. lia.
Qed.

Lemma found_unique p p' : 1 <= p <= n -> 1 <= p' <= n -> found p -> found p' -> p = p'.
Proof.
  intros Hp Hp' [A B] [C D]. destruct (Z.lt_trichotomy p p') as [Hlt|[|Hgt]]; [|done|].
  - pose proof (C p). pose proof (B p). lia.
  - pose proof (A p'). pose proof (D p'). lia.
Qed.

(** On increasing keys both searches agree, and the check never fires. *)
Lemma bsearch_linear : 0 < n -> check_binsearch key block 0 0 (Z.to_nat n) = Some (bsearch (Z.to_nat n) key block 1 (n - 1) - 1).
Proof using key_lt.
  intros Hn. destruct (bsearch_found Hn) as [Hp Hf]. destruct (check_found (Z.to_nat n) 0 0) as (p & -> & Hp' & Hf'); [lia|lia|lia|intros; lia|lia|done|].
  by rewrite (found_unique _ _ Hp Hp' Hf Hf').
Qed.
End Bsearch.

(** The last entry that does not start behind [block], or else the first one. *)
Definition entry_for (key : Z -> Z) (n block k : Z) : Prop :=
  0 <= k < n /\ (0 < k -> key k <= block) /\ (forall j, k < j < n -> block < key j).

Lemma bsearch_entry key block n :
  (forall a b, 0 <= a < b -> b < n -> key a < key b) -> 0 < n ->
  let k := bsearch (Z.to_nat n) key block 1 (n - 1) - 1 in entry_for key n block k /\ check_binsearch key block 0 0 (Z.to_nat n) = Some k.
Proof.
  intros Hk Hn. destruct (bsearch_found key block n Hk Hn) as [Hp [Hlo Hhi]]. split; [|by apply bsearch_linear].
  split_and!; [lia|lia| |].
  - intros H0. apply Hlo. lia.
  - intros j Hj. apply Hhi. lia.
Qed.

(** The extents of a leaf that the check accepts are in order, if all but the first start after block 0. *)
Lemma checked_leaf_order sb zs i eh data s s' :
  x_data s !! i = Some data -> is_words eh -> zones_inv (x_zones s) zs -> __ext4_ext_check sb i eh 0 s = Ret (0, s') ->
  Forall (fun ex => 0 < ee_block ex) (tail (leaf_extents eh)) ->
  forall a b, 0 <= a < b -> b < eh_entries eh -> ee_block (extent_at eh a) < ee_block (extent_at eh b).
Proof.
  intros Hi Hw Hz Hr Hpos a b Hab Hb. pose proof (check_spec sb zs i eh 0 data s Hi Hw Hz) as Hc. unfold wp in Hc. rewrite Hr in Hc.
  destruct Hc as [(_ & Hn & _)|([E|E] & _)]; [|by unfold EFSCORRUPTED, EFSBADCRC in E; lia..]. pose proof (no_leaf _ _ _ _ _ _ Hn eq_refl) as Hok.
  assert (forall k, 0 <= k < eh_entries eh -> leaf_extents eh !! Z.to_nat k = Some (extent_at eh k)) as Hl.
  { intros k Hk. unfold leaf_extents, entries_from. rewrite list_lookup_fmap, lookup_seq_lt by lia. cbn. do 2 f_equal. lia. }
  assert (leaf_sorted (leaf_extents eh)) as Hs.
  { pose proof (Hl 0 ltac:(lia)) as H0. destruct (leaf_extents eh) as [|ex exts]; [done|]. injection H0 as ->.
    eapply leaf_ok_sorted; [|done|done]. apply (ef_block _ (extent_at_fields eh _ Hw)). }
  pose proof (leaf_ok_len _ _ _ _ Hok) as Hlen. rewrite Forall_forall in Hlen. pose proof (Hlen _ (list_elem_of_lookup_2 _ _ _ (Hl a ltac:(lia)))).
  rewrite <-(take_drop (Z.to_nat b) (leaf_extents eh)) in Hs. apply StronglySorted_app in Hs as (Hlt & _).
  assert (last_block (extent_at eh a) < ee_block (extent_at eh b)); [|lia]. apply Hlt.
  - apply list_elem_of_lookup. exists (Z.to_nat a). rewrite lookup_take_lt by lia. apply Hl. lia.
  - apply list_elem_of_lookup. exists 0%nat. rewrite lookup_drop, Nat.add_0_r. apply Hl. lia.
Qed.

(** C40: the binary search for an extent, in a leaf that [__ext4_ext_check] accepts and in which no extent but the first starts at block 0, finds
    the last extent that does not start behind the block, or else the first; the linear search of [CHECK_BINSEARCH] finds the same, and neither
    of its two [BUG_ON]s fires.  The search for an index finds the same as the linear one in a node whose keys increase.  That they increase is what
    the first [BUG_ON] asks, and the check does not establish it. *)
Theorem binsearch_linear sb zs i eh block data s s' :
  0 < eh_entries eh -> x_data s !! i = Some data -> is_words eh -> zones_inv (x_zones s) zs ->
  (__ext4_ext_check sb i eh 0 s = Ret (0, s') -> Forall (fun ex => 0 < ee_block ex) (tail (leaf_extents eh)) ->
   exists k, ext4_ext_binsearch eh block = Some k /\ entry_for (fun k => ee_block (extent_at eh k)) (eh_entries eh) block k /\
     check_binsearch (fun k => ee_block (extent_at eh k)) block 0 0 (Z.to_nat (eh_entries eh)) = Some k) /\
  ((forall a b, 0 <= a < b -> b < eh_entries eh -> ei_block (index_at eh a) < ei_block (index_at eh b)) ->
   entry_for (fun k => ei_block (index_at eh k)) (eh_entries eh) block (ext4_ext_binsearch_idx eh block) /\
   check_binsearch (fun k => ei_block (index_at eh k)) block 0 0 (Z.to_nat (eh_entries eh)) = Some (ext4_ext_binsearch_idx eh block)).
Proof.
  intros Hn Hi Hw Hz. split.
  - intros Hr Hpos. eexists. split; [unfold ext4_ext_binsearch; by rewrite (proj2 (Z.eqb_neq _ _)) by lia|].
    apply bsearch_entry; [|done]. by eapply checked_leaf_order.
  - intros Hk. by apply bsearch_entry.
Qed.

(** Three extents that start at 0, 20 and 50: the block 30 is looked for in the second. *)
Definition three_extents : list Z := [62218 + 65536 * 3; 4; 0; 0; 10; 100; 20; 10; 200; 50; 10; 300; 0; 0; 0].
Definition three_state : xstate := mk_xstate no_zones (mk_es_state ∅ [] 0 0 0 0 0 []) {[1%positive := three_extents]} ∅ [] 0.

Lemma binsearch_linear_witness :
  ext4_ext_binsearch three_extents 30 = Some 1 /\ check_binsearch (fun k => ee_block (extent_at three_extents k)) 30 0 0 3 = Some 1.
Proof.
  destruct (binsearch_linear small_sb [] 1%positive three_extents 30 three_extents three_state three_state) as [Hl _].
  - reflexivity.
  - reflexivity.
  - repeat constructor; lia.
  - split; cbn; [constructor|constructor|split; constructor].
  - destruct Hl as (k & Hk & _ & Hc); [vm_compute; reflexivity|repeat constructor; cbn; lia|].
    assert (k = 1) as -> by (vm_compute in Hk; congruence). split; [exact Hk|exact Hc].
Defined.

(** An index node with the keys 0, 20 and 10 is accepted by the check.  A search for block 25 stops at the first [BUG_ON] of [CHECK_BINSEARCH]; one for
    block 12, which belongs to the last entry, ends at the first entry. *)
Definition disordered_index : list Z := [62218 + 65536 * 3; 4 + 65536; 0; 0; 300; 0; 20; 301; 0; 10; 302; 0; 0; 0; 0].

Example index_order_unchecked :
  let s := three_state <| x_data := {[1%positive := disordered_index]} |> in
  __ext4_ext_check small_sb 1%positive disordered_index 1 s = Ret (0, s) /\
  check_binsearch (fun k => ei_block (index_at disordered_index k)) 25 0 0 3 = None /\
  ext4_ext_binsearch_idx disordered_index 12 = 0 /\ ei_block (index_at disordered_index 2) = 10.
Proof. split_and!; vm_compute; reflexivity. Qed.
