(* ===== verification/ExtentWalk.v ===== *)
(** * What a lookup in the extent tree finds

    The tree on disk as a list of extents in order ([tree_at]), the status tree that agrees with it ([coherent]), and the
    functions of ExtentFind.v on such a tree: a node is read and cached without breaking the agreement, and [ext4_find_extent] ends at the
    extent that covers a block. *)
From stdpp Require Import sorting.
From S2P Require Import Prelude Log ExtentStatus ExtentMap ExtentTree ExtentOps ExtentShrink ExtentRemove ExtentCache ExtentAlive BlockValidity ExtentNode ExtentFind.

(** ** The file as a list of extents *)

Definition covers_block (ex : ext4_extent) (b : Z) : Prop := ee_block ex <= b <= last_block ex.
Definition ext_status (ex : ext4_extent) : Z :=
  if ext4_ext_is_unwritten ex then EXTENT_STATUS_UNWRITTEN else EXTENT_STATUS_WRITTEN.
Definition ext_phys (ex : ext4_extent) (b : Z) : Z := ext4_ext_pblock ex + (b - ee_block ex).

(** Block [b] of the file is block [p] of the disk. *)
Definition mapped (exts : list ext4_extent) (b st p : Z) : Prop :=
  exists ex, ex ∈ exts /\ covers_block ex b /\ st = ext_status ex /\ p = ext_phys ex b.
Definition unmapped (exts : list ext4_extent) (b : Z) : Prop := forall ex, ex ∈ exts -> ~ covers_block ex b.

Lemma sorted_app_extents e1 e2 :
  leaf_sorted (e1 ++ e2) <-> leaf_sorted e1 /\ leaf_sorted e2 /\ (forall a b, a ∈ e1 -> b ∈ e2 -> last_block a < ee_block b).
Proof. unfold leaf_sorted. rewrite StronglySorted_app. naive_solver. Qed.

Lemma mapped_unmapped exts b st p : mapped exts b st p -> unmapped exts b -> False.
Proof. intros (ex & Hin & Hc & _) Hu. by apply (Hu ex Hin). Qed.

(** What the status tree may say about a block. *)
Definition agrees (exts : list ext4_extent) (b : Z) (v : Z * option Z) : Prop :=
  match v with
  | (st, Some p) => (st = 1 /\ mapped exts b EXTENT_STATUS_WRITTEN p) \/ ((st = 2 \/ st = 6) /\ mapped exts b EXTENT_STATUS_UNWRITTEN p)
  | (st, None) => unmapped exts b
  end.
Definition coherent (exts : list ext4_extent) (i : positive) (e : es_state) : Prop :=
  forall b v, es_map e i b = Some v -> agrees exts b v.

(** ** The tree *)

Section Walk.
Context (sb : ext_sb) (zs : list ext4_system_zone) (i : positive).

(** A block as a reader gets it. *)
Definition view (s : xstate) (b : Z) : option (list Z) :=
  match x_bufs s !! b with
  | Some bh => if b_uptodate bh then Some (b_words bh) else s_disk sb b
  | None => s_disk sb b
  end.

Definition idx_key (w : list Z) (k : Z) : Z := ei_block (index_at w k).
(** Where the part of the file below entry [k] of [w] ends, in a node that ends at [hi]. *)
Definition idx_end (w : list Z) (k hi : Z) : Z := if k + 1 <? eh_entries w then idx_key w (k + 1) else hi.

Definition in_span (lo hi : Z) (ex : ext4_extent) : Prop := lo <= ee_block ex <= last_block ex /\ last_block ex < hi.

(** Below the node [w] of depth [d] of an inode of depth [depth0] are the extents [exts], between the blocks [lo] and [hi]. *)
Fixpoint tree_at (view : Z -> option (list Z)) (depth0 : Z) (d : nat) (w : list Z) (lo hi : Z) (exts : list ext4_extent) : Prop :=
  is_words w /\
  match d with
  | O => exts = leaf_extents w /\ leaf_sorted exts /\ Forall (in_span lo hi) exts
  | S d =>
    exists parts, exts = mjoin parts /\ Z.of_nat (length parts) = eh_entries w /\ parts <> [] /\ lo <= idx_key w 0 /\
      (forall a b, 0 <= a < b -> b < eh_entries w -> idx_key w a < idx_key w b) /\
      forall k part, parts !! k = Some part ->
        exists w', view (ext4_idx_pblock (index_at w (Z.of_nat k))) = Some w' /\ part <> [] /\ node_ok sb zs i depth0 w' (Z.of_nat d) /\
          tree_at view depth0 d w' (idx_key w (Z.of_nat k)) (idx_end w (Z.of_nat k) hi) part
  end.

Lemma tree_words v depth0 d w lo hi exts : tree_at v depth0 d w lo hi exts -> is_words w.
Proof. destruct d; by intros [? _]. Qed.

Lemma tree_ext v v' depth0 d : forall w lo hi exts,
  (forall b, v' b = v b) -> tree_at v depth0 d w lo hi exts -> tree_at v' depth0 d w lo hi exts.
Proof.
  induction d as [|d IH]; intros w lo hi exts Hv [Hw Ht]; (split; [done|]); [done|].
  destruct Ht as (parts & E & Hl & Hne & Hlo & Hk & Hp). exists parts. split_and!; try done.
  intros k part Hpart. destruct (Hp k part Hpart) as (w' & E' & Hne' & Hok & Ht'). exists w'. rewrite Hv. eauto.
Qed.

(** Parts of a sequence. *)
Lemma join_split {A} (parts : list (list A)) k part :
  parts !! k = Some part -> mjoin parts = mjoin (take k parts) ++ part ++ mjoin (drop (S k) parts).
Proof. intros H. rewrite <-(take_drop_middle _ _ _ H) at 1. by rewrite join_app. Qed.

Lemma elem_join_take {A} (parts : list (list A)) k x :
  x ∈ mjoin (take k parts) -> exists j part, (j < k)%nat /\ parts !! j = Some part /\ x ∈ part.
Proof. intros (part & Hx & (j & Hj & Hlt)%elem_of_take)%list_elem_of_join. eauto. Qed.
Lemma elem_join_drop {A} (parts : list (list A)) k x :
  x ∈ mjoin (drop k parts) -> exists j part, (k <= j)%nat /\ parts !! j = Some part /\ x ∈ part.
Proof.
  intros (part & Hx & (j & Hj)%list_elem_of_lookup_1)%list_elem_of_join. rewrite lookup_drop in Hj. exists (k + j)%nat, part. split; [lia|done].
Qed.

Lemma join_sorted {A} (R : relation A) (parts : list (list A)) :
  (forall k p, parts !! k = Some p -> StronglySorted R p) ->
  (forall j k p q a b, (j < k)%nat -> parts !! j = Some p -> parts !! k = Some q -> a ∈ p -> b ∈ q -> R a b) ->
  StronglySorted R (mjoin parts).
Proof.
  induction parts as [|p parts IH]; intros Hs Hc; [constructor|]. cbn. apply StronglySorted_app. split_and!.
  - intros a b Ha (q & Hb & (k & Hk)%list_elem_of_lookup_1)%list_elem_of_join. by apply (Hc 0%nat (S k) p q); [lia|..].
  - by apply (Hs 0%nat).
  - apply IH; [intros k; apply (Hs (S k))|]. intros j k p' q a b Hjk. apply (Hc (S j) (S k)). lia.
Qed.

Lemma sorted_pairs_lookup {A} (R : relation A) (l : list A) a b x y :
  StronglySorted R l -> (a < b)%nat -> l !! a = Some x -> l !! b = Some y -> R x y.
Proof.
  intros Hs. revert a b. induction Hs as [|z l Hs IH Hf]; intros [|a] [|b] Hab Hx Hy; try done; try lia; cbn in *.
  - injection Hx as ->. rewrite Forall_forall in Hf. by eapply Hf, list_elem_of_lookup_2.
  - apply (IH a b); [lia|done|done].
Qed.

(** The extents below a node are in order and in its range. *)
Lemma span_nonempty lo hi exts : exts <> [] -> Forall (in_span lo hi) exts -> lo < hi.
Proof. destruct exts as [|ex exts]; [done|]. intros _ [[] _]%Forall_cons. lia. Qed.

Lemma tree_sorted v depth0 d : forall w lo hi exts,
  tree_at v depth0 d w lo hi exts -> leaf_sorted exts /\ Forall (in_span lo hi) exts.
Proof.
  induction d as [|d IH]; intros w lo hi exts [Hw Ht]; [by destruct Ht as (-> & ? & ?)|].
  destruct Ht as (parts & -> & Hl & Hne & Hlo & Hk & Hp).
  assert (forall k part, parts !! k = Some part -> leaf_sorted part /\ Forall (in_span (idx_key w (Z.of_nat k)) (idx_end w (Z.of_nat k) hi)) part /\ part <> []) as Hpart.
  { intros k part Hpk. destruct (Hp k part Hpk) as (w' & _ & ? & _ & Ht). destruct (IH _ _ _ _ Ht). done. }
  assert (forall k part, parts !! k = Some part -> idx_key w (Z.of_nat k) < idx_end w (Z.of_nat k) hi) as Hlt.
  { intros k part Hpk. destruct (Hpart k part Hpk) as (_ & ? & ?). by eapply span_nonempty. }
  assert (forall k part, parts !! k = Some part -> lo <= idx_key w (Z.of_nat k) /\ idx_end w (Z.of_nat k) hi <= hi) as Hspan.
  { intros k part Hpk. pose proof (lookup_lt_Some _ _ _ Hpk). split.
    - destruct k as [|k]; [done|]. pose proof (Hk 0 (Z.of_nat (S k))). lia.
    - unfold idx_end. destruct (Z.ltb_spec (Z.of_nat k + 1) (eh_entries w)); [|done].
      destruct (lookup_lt_is_Some_2 parts (length parts - 1)%nat) as [q Hq]; [lia|]. pose proof (Hlt _ _ Hq) as Hlast. unfold idx_end in Hlast.
      rewrite (proj2 (Z.ltb_ge _ _)) in Hlast by lia. destruct (decide (Z.of_nat k + 1 = Z.of_nat (length parts - 1))) as [->|]; [lia|].
      pose proof (Hk (Z.of_nat k + 1) (Z.of_nat (length parts - 1))). lia. }
  split.
  - apply join_sorted; [intros k p Hpk; by apply (Hpart k)|]. intros j k p q a b Hjk Hj Hk' Ha Hb.
    destruct (Hpart j p Hj) as (_ & Fa & _). destruct (Hpart k q Hk') as (_ & Fb & _). rewrite Forall_forall in Fa, Fb.
    destruct (Fa a Ha) as [_ Hend], (Fb b Hb) as [[Hst _] _]. pose proof (lookup_lt_Some _ _ _ Hk'). unfold idx_end in Hend.
    rewrite (proj2 (Z.ltb_lt _ _)) in Hend by lia. destruct (decide (Z.of_nat j + 1 = Z.of_nat k)) as [E|]; [rewrite E in Hend; lia|].
    pose proof (Hk (Z.of_nat j + 1) (Z.of_nat k)). lia.
  - apply Forall_forall. intros ex (p & Hx & (k & Hpk)%list_elem_of_lookup_1)%list_elem_of_join. destruct (Hpart k p Hpk) as (_ & F & _).
    destruct (Hspan k p Hpk). rewrite Forall_forall in F. destruct (F ex Hx) as [[] ?]. unfold in_span. lia.
Qed.

(** ** Caching a leaf *)

(** Nothing that was known about a block is forgotten or changed. *)
Record es_grows (e e' : es_state) : Prop := {
  eg_map j b v : es_map e j b = Some v -> es_map e' j b = Some v;
  eg_memory : allocs e = [] -> allocs e' = [];
}.
#[local] Instance es_grows_preorder : PreOrder es_grows.
Proof. split; [by split|]. intros e1 e2 e3 [H1 M1] [H2 M2]. split; auto. Qed.

(** The status tree is sound, has the inode, and agrees with the extents. *)
Record es_inv (exts : list ext4_extent) (e : es_state) : Prop := {
  ei_ok : es_ok e;
  ei_live : is_Some (es_inodes e !! i);
  ei_coherent : coherent exts i e;
}.

Lemma filled_grows lblk len pblk status e e' : filled i lblk len pblk status e e' -> alive e e' -> es_grows e e'.
Proof.
  intros Hf [_ Hmem]. split; [|done]. destruct Hf as [[Hm _]|[Hn Hm]]; intros j b v Hv; rewrite Hm; [done|]. rewrite decide_False; [done|]. intros [-> Hb]. by rewrite Hn in Hv.
Qed.

Section Cache.
Context `{Rebalance}.

Lemma cache_extent_inv exts e lblk len pblk status :
  es_inv exts e -> insertable lblk len pblk status ->
  (forall b, lblk <= b < lblk + len -> agrees exts b (new_value lblk pblk status b)) ->
  wp (ext4_es_cache_extent i lblk len pblk status) (fun _ e' => es_inv exts e' /\ es_grows e e') e.
Proof.
  intros [Hok [x Hx] Hc] Hins Hag.
  eapply wp_mono; [apply (wp_keeps alive); [apply alive_cache_extent|by apply (cache_extent_spec e i x)]|].
  cbn beta. intros _ e' ((Hok' & Hf) & Hal). split; [|by eapply filled_grows]. split; [done|by apply Hal|].
  intros b v Hv. destruct Hf as [[Hm _]|[_ Hm]]; rewrite Hm in Hv; [by apply Hc|]. case_decide as Hd; [|by apply Hc].
  destruct Hd as [_ Hb]. injection Hv as <-. by apply Hag.
Qed.

Lemma wp_on_es {A} (m : E A) (Q : A -> xstate -> Prop) s :
  wp m (fun a e => Q a (s <| x_es := e |>)) (x_es s) -> wp (on_es m) Q s.
Proof. unfold wp, on_es. by destruct (m (x_es s)) as [[a e]|]. Qed.

(** Only the status tree has changed, and it has grown. *)
Definition es_cached (exts : list ext4_extent) (s s' : xstate) : Prop :=
  exists e, s' = s <| x_es := e |> /\ es_inv exts e /\ es_grows (x_es s) e.

Lemma es_cached_refl exts s : es_inv exts (x_es s) -> es_cached exts s s.
Proof. intros Hi. exists (x_es s). by split_and!; [destruct s|..]. Qed.
Lemma es_cached_trans exts s1 s2 s3 : es_cached exts s1 s2 -> es_cached exts s2 s3 -> es_cached exts s1 s3.
Proof. intros (e2 & -> & I2 & G2) (e3 & -> & I3 & G3). exists e3. split_and!; [done|done|]. by transitivity e2. Qed.

(** An extent of a checked leaf, as the status tree gets it. *)
Lemma extent_insertable ex :
  ext_fields ex -> ext_ok sb zs ex -> insertable (ee_block ex) (ext4_ext_get_actual_len ex) (ext4_ext_pblock ex) (ext_status ex).
Proof.
  intros Hf [Hl He _]. pose proof (ext_pblock_range ex Hf). pose proof (actual_len_range ex (ef_len _ Hf)). pose proof (ef_block _ Hf) as Hb.
  unfold is_u32 in Hb. split; [lia|lia|unfold EXT_MAX_BLOCKS; lia|lia| |].
  - unfold ext_status. case_match; cbn; set_solver.
  - intros _. change (2 ^ 59) with 576460752303423488. lia.
Qed.

Lemma extent_agrees exts ex b :
  ex ∈ exts -> ee_block ex <= b < ee_block ex + ext4_ext_get_actual_len ex ->
  agrees exts b (new_value (ee_block ex) (ext4_ext_pblock ex) (ext_status ex) b).
Proof.
  intros Hin Hb. assert (mapped exts b (ext_status ex) (ext_phys ex b)) as Hm by (exists ex; unfold covers_block, last_block; split_and!; [done|lia|lia|done|done]).
  unfold new_value, agrees, ext_status in *. destruct (ext4_ext_is_unwritten ex).
  - rewrite bool_decide_true by set_solver. right. split; [by left|done].
  - rewrite bool_decide_true by set_solver. left. done.
Qed.

(** Between two neighbours of the list lies a hole. *)
Lemma between_unmapped pre a ex post b :
  leaf_sorted (pre ++ a :: ex :: post) -> Forall (fun e => ee_block e <= last_block e) (pre ++ a :: ex :: post) ->
  last_block a < b < ee_block ex -> unmapped (pre ++ a :: ex :: post) b.
Proof.
  intros Hs Hl Hb e He Hc. unfold covers_block in Hc. apply sorted_app_extents in Hs as (_ & [Ha Hs]%StronglySorted_cons & Hpre).
  apply StronglySorted_cons in Hs as [Hex _]. rewrite Forall_forall in Ha, Hex, Hl. pose proof (Hl e He).
  apply elem_of_app in He as [He|[->|[->|He]%elem_of_cons]%elem_of_cons]; [|lia|lia|].
  - pose proof (Hpre e a He (list_elem_of_here _ _)). pose proof (Hl a ltac:(set_solver)). lia.
  - pose proof (Hex e He). pose proof (Hl ex ltac:(set_solver)). lia.
Qed.

Lemma hole_insertable lo hi : 0 <= lo -> lo < hi -> hi < 4294967296 -> insertable lo (hi - lo) NO_PBLK EXTENT_STATUS_HOLE.
Proof. intros. split; [done|lia|unfold EXT_MAX_BLOCKS; lia|done|cbn; set_solver|]. intros Hin. exfalso. cbn in Hin. set_solver. Qed.

(** Sound extents in order. *)
Definition ext_sound (ex : ext4_extent) : Prop := ext_fields ex /\ ext_ok sb zs ex.
Lemma sound_len ex : ext_sound ex -> 0 <= ee_block ex <= last_block ex /\ last_block ex + 1 < 4294967296.
Proof. intros [[[? ?] _ _ _] [? ? _]]. unfold last_block. lia. Qed.

Lemma cache_leaf_spec exts post part : forall pre prev s,
  exts = pre ++ part ++ post -> leaf_sorted exts -> Forall (fun e => ee_block e <= last_block e) exts -> Forall ext_sound part -> es_inv exts (x_es s) ->
  prev = 0 \/ (exists pre' a, pre = pre' ++ [a] /\ ext_sound a /\ prev = last_block a + 1) ->
  wp (cache_leaf i prev part) (fun _ s' => es_cached exts s s') s.
Proof.
  induction part as [|ex part IH]; intros pre prev s E Hs Hl Hok Hinv Hprev; cbn [cache_leaf]; [apply wp_ret; by apply es_cached_refl|].
  apply Forall_cons in Hok as [Hex Hok]. pose proof (sound_len ex Hex) as [Hb He]. unfold last_block in Hb, He.
  apply wp_bind, (wp_mono _ (fun _ s1 => es_cached exts s s1)).
  - destruct Hprev as [->|(pre' & a & -> & Ha & ->)]; [by apply wp_ret, es_cached_refl|]. pose proof (sound_len a Ha) as [Hba _].
    rewrite (proj2 (Z.eqb_neq (last_block a + 1) 0)) by lia. cbn [negb andb].
    destruct (Z.eqb_spec (last_block a + 1) (ee_block ex)) as [|Hne]; [by apply wp_ret, es_cached_refl|]. cbn [negb].
    rewrite <-app_assoc in E. cbn [app] in E. assert (last_block a < ee_block ex) as Hlt.
    { rewrite E in Hs. apply sorted_app_extents in Hs as (_ & [Ha' _]%StronglySorted_cons & _). by apply Forall_cons in Ha' as [? _]. }
    rewrite u32_id by (unfold is_u32; lia). apply wp_on_es. eapply wp_mono; [apply (cache_extent_inv exts); [done|by apply hole_insertable; lia|]|].
    + intros b Hbb. unfold agrees, new_value. rewrite bool_decide_false by (cbn; set_solver). rewrite E. apply between_unmapped; [by rewrite <-E..|lia].
    + cbn beta. intros _ e [He' Hg]. by exists e.
  - cbn beta. intros _ s1 H1. pose proof H1 as (e1 & E1 & I1 & _). assert (es_inv exts (x_es s1)) as I1' by by rewrite E1.
    apply wp_bind, wp_on_es. eapply wp_mono; [apply (cache_extent_inv exts); [done|apply extent_insertable; apply Hex|]|].
    + intros b Hbb. apply extent_agrees; [|done]. rewrite E. apply elem_of_app. right. by left.
    + cbn beta. intros _ e [He' Hg]. rewrite u32_id by (unfold is_u32; lia).
      eapply wp_mono; [apply (IH (pre ++ [ex]))|]; [by rewrite <-app_assoc|done|done|done|done|right|].
      * exists pre, ex. split_and!; [done|done|unfold last_block; lia].
      * cbn beta. intros _ s2 H2. eapply es_cached_trans; [exact H1|]. eapply es_cached_trans; [|exact H2]. by exists e.
Qed.
End Cache.

(** ** Reading a node *)

Definition loaded (s : xstate) (b : Z) (w : list Z) : Prop := exists bh, x_bufs s !! b = Some bh /\ b_uptodate bh = true /\ b_words bh = w.

(** What a reader leaves as it was. *)
Record read_frame (s s' : xstate) : Prop := {
  rf_zones : x_zones s' = x_zones s;
  rf_data : x_data s' = x_data s;
  rf_view b : view s' b = view s b;
  rf_loaded b w : loaded s b w -> loaded s' b w;
  rf_grows : es_grows (x_es s) (x_es s');
  rf_allocs : x_allocs s = [] -> x_allocs s' = [];
}.
#[export] Instance read_frame_preorder : PreOrder read_frame.
Proof.
  split; [intros s; by split|]. intros s1 s2 s3 [Z1 D1 V1 L1 G1 A1] [Z2 D2 V2 L2 G2 A2].
  split; [congruence|congruence|intros b; by rewrite V2|auto|by transitivity (x_es s2)|auto].
Qed.

Lemma loaded_view s b w : loaded s b w -> view s b = Some w.
Proof. intros (bh & Hb & Hu & <-). unfold view. by rewrite Hb, Hu. Qed.

Lemma frame_es s e : es_grows (x_es s) e -> read_frame s (s <| x_es := e |>).
Proof. intros Hg. by split. Qed.
Lemma frame_allocs s rest ok : x_allocs s = ok :: rest -> read_frame s (s <| x_allocs := rest |>).
Proof. intros E. split; try done. by rewrite E. Qed.

(** A buffer gets what its readers see anyway. *)
Lemma frame_buf s b bh :
  (b_uptodate bh = true -> view s b = Some (b_words bh)) -> (forall w, loaded s b w -> b_uptodate bh = true /\ b_words bh = w) ->
  (b_uptodate bh = false -> view s b = s_disk sb b) ->
  read_frame s (s <| x_bufs ::= <[b := bh]> |>).
Proof.
  intros Hv Hl Hn. split; try done; cbn.
  - intros b'. unfold view in *. cbn. destruct (decide (b' = b)) as [->|]; [rewrite lookup_insert_eq|by rewrite lookup_insert_ne].
    destruct (b_uptodate bh) eqn:E; [by rewrite <-Hv|by rewrite Hn].
  - intros b' w Hw. destruct (decide (b' = b)) as [->|].
    + destruct (Hl w Hw). exists bh. cbn. by rewrite lookup_insert_eq.
    + destruct Hw as (bh' & Hb' & ?). exists bh'. cbn. by rewrite lookup_insert_ne.
Qed.

Definition buf_of (s : xstate) (b : Z) : ebuf := match x_bufs s !! b with Some bh => bh | None => mk_ebuf [] false false end.
Lemma wp_read_buf b (Q : ebuf -> xstate -> Prop) s : Q (buf_of s b) s -> wp (read_buf b) Q s.
Proof. unfold wp, read_buf, buf_of. by destruct (x_bufs s !! b). Qed.
Lemma wp_modify_buf b f (Q : unit -> xstate -> Prop) s : Q tt (s <| x_bufs ::= <[b := f (buf_of s b)]> |>) -> wp (modify_buf b f) Q s.
Proof. intros HQ. unfold modify_buf. apply wp_bind, wp_read_buf. done. Qed.
Lemma loaded_buf s b w : loaded s b w <-> b_uptodate (buf_of s b) = true /\ b_words (buf_of s b) = w.
Proof. unfold loaded, buf_of. destruct (x_bufs s !! b); split; cbn; naive_solver. Qed.

Section Read.
Context `{Rebalance}.

(** The block is in its buffer. *)
Lemma submit_read_spec s b w :
  view s b = Some w ->
  wp (if b_uptodate (buf_of s b) then kret 0 else bh_submit_read sb b)
    (fun r s' => r = 0 /\ read_frame s s' /\ x_es s' = x_es s /\ loaded s' b w /\
       b_verified (buf_of s' b) = b_verified (buf_of s b) /\ x_errors s' = x_errors s) s.
Proof.
  intros Hv. assert (view s b = if b_uptodate (buf_of s b) then Some (b_words (buf_of s b)) else s_disk sb b) as Ev
    by (unfold view, buf_of; by destruct (x_bufs s !! b)).
  destruct (b_uptodate (buf_of s b)) eqn:Eu.
  - apply wp_ret. split_and!; [done|done|done| |done|done]. apply loaded_buf. split; [done|]. congruence.
  - unfold bh_submit_read. rewrite <-Ev, Hv. apply wp_bind, wp_modify_buf, wp_ret. split_and!; [done| |done| | |done].
    + apply frame_buf; cbn; [done| |done]. intros w' [Hu _]%loaded_buf. congruence.
    + eexists. cbn. rewrite lookup_insert_eq. done.
    + unfold buf_of at 1. cbn. by rewrite lookup_insert_eq.
Qed.

Lemma leaf_sound depth0 w : is_words w -> node_ok sb zs i depth0 w 0 -> Forall ext_sound (leaf_extents w).
Proof.
  intros Hw Hok. pose proof (no_leaf _ _ _ _ _ _ Hok eq_refl) as Hlf. clear -Hlf Hw. revert Hlf. generalize 0 as prev.
  assert (Forall ext_fields (leaf_extents w)) as Hf by (apply Forall_forall; intros ex (k & -> & _)%list_elem_of_fmap; by apply extent_at_fields).
  induction Hf as [|ex exts Hex Hf IH]; intros prev Hlf; [constructor|]. destruct Hlf as (? & _ & ?). constructor; [done|eauto].
Qed.

(** Reading a node that is in order: the buffer holds it, and if it is a leaf that is not known as verified, or
    [EXT4_EX_FORCE_CACHE] is set, its extents are cached; [P] is what caching them is good for. *)
Lemma read_block_caches root exts (P : es_state -> Prop) s b w d flags :
  zones_inv (x_zones s) zs -> x_data s !! i = Some root -> es_inv exts (x_es s) ->
  view s b = Some w -> is_words w -> node_ok sb zs i (eh_depth root) w d ->
  (d = 0 -> forall s4, x_es s4 = x_es s ->
     wp (cache_leaf i 0 (leaf_extents w)) (fun _ s5 => es_cached exts s4 s5 /\ P (x_es s5)) s4) ->
  wp (__read_extent_tree_block sb i b d flags) (fun r s' =>
    read_frame s s' /\ es_inv exts (x_es s') /\
    ((r = 0 /\ loaded s' b w /\ (d <> 0 -> x_es s' = x_es s) /\ (d = 0 -> flags = EXT4_EX_FORCE_CACHE -> P (x_es s'))) \/
     (r = - ENOMEM /\ x_allocs s <> []))) s.
Proof.
  intros Hz Hd Hes Hv Hw Hok Hcache. unfold __read_extent_tree_block. apply wp_bind.
  assert (wp x_alloc (fun ok s1 => read_frame s s1 /\ x_es s1 = x_es s /\ (ok = false -> x_allocs s <> [])) s) as Hal.
  { unfold wp, x_alloc. destruct (x_allocs s) as [|ok rest] eqn:Ea; [done|]. split_and!; [by eapply frame_allocs|done|done]. }
  eapply wp_mono; [exact Hal|]. cbn beta. intros [] s1 (F1 & E1 & Hne); cbn [negb].
  2: { apply wp_ret. rewrite E1. split_and!; [done|done|right]. split; [done|auto]. }
  apply wp_bind, wp_read_buf, wp_bind. eapply wp_mono; [apply (submit_read_spec s1 b w); by rewrite (rf_view _ _ F1)|]. cbn beta.
  intros e s2 (-> & F2 & E2 & L2 & _ & _). cbn [Z.ltb Z.compare]. apply wp_bind, wp_read_buf. assert (read_frame s s2) as F by by transitivity s1.
  assert (x_es s2 = x_es s) as Ees by congruence. pose proof L2 as [Hu Ewd]%loaded_buf.
  destruct (b_verified (buf_of s2 b) && (Z.land flags EXT4_EX_FORCE_CACHE =? 0)) eqn:Eskip.
  { apply wp_ret. rewrite Ees. split_and!; [done|done|left]. split_and!; [done|done|done|]. intros _ ->. by rewrite andb_false_r in Eskip. }
  apply wp_bind. rewrite Ewd. eapply wp_mono; [apply (check_spec sb zs i w d root); [by rewrite (rf_data _ _ F)|done|by rewrite (rf_zones _ _ F)]|].
  cbn beta. intros r s3 [(-> & _ & ->)|(_ & Hno & _)]; [|done]. cbn [Z.eqb negb]. apply wp_bind, wp_modify_buf.
  set (s4 := s2 <| x_bufs ::= _ |>). assert (read_frame s2 s4) as F4.
  { apply frame_buf; cbn; [intros _; rewrite (loaded_view _ _ _ L2); by rewrite Ewd| |congruence]. by intros w' [? ?]%loaded_buf. }
  assert (x_es s4 = x_es s) as E4 by exact Ees. assert (es_inv exts (x_es s4)) as Ies by by rewrite E4.
  apply wp_bind, (wp_mono _ (fun _ s5 => es_cached exts s4 s5 /\ (d <> 0 -> s5 = s4) /\ (d = 0 -> flags = EXT4_EX_FORCE_CACHE -> P (x_es s5)))).
  - destruct (Z.eqb_spec d 0) as [Ed|Hd0]; [|rewrite andb_false_r; apply wp_ret; split_and!; [by apply es_cached_refl|done|done]].
    rewrite andb_true_r. destruct (Z.eqb_spec (Z.land flags EXT4_EX_NOCACHE) 0) as [_|Hnc].
    + eapply wp_mono; [exact (Hcache Ed s4 E4)|]. cbn beta. intros _ s5 [H5 HP]. split_and!; [done|done|done].
    + apply wp_ret. split_and!; [by apply es_cached_refl|done|]. by intros _ ->.
  - cbn beta. intros _ s5 (H5 & Hsame & HP). pose proof H5 as (e & -> & I5 & G5). apply wp_ret. split_and!; [|done|left; split_and!; [done| | |done]].
    + transitivity s2; [done|]. transitivity s4; [done|]. by apply frame_es.
    + apply (rf_loaded _ _ (frame_es s4 e G5)), (rf_loaded _ _ F4), L2.
    + intros Hd0. by rewrite (Hsame Hd0).
Qed.

Lemma read_block_spec root exts s b w d flags :
  zones_inv (x_zones s) zs -> x_data s !! i = Some root -> es_inv exts (x_es s) ->
  view s b = Some w -> is_words w -> node_ok sb zs i (eh_depth root) w d ->
  (d = 0 -> exists pre post, exts = pre ++ leaf_extents w ++ post) ->
  leaf_sorted exts -> Forall (fun e => ee_block e <= last_block e) exts ->
  wp (__read_extent_tree_block sb i b d flags) (fun r s' =>
    read_frame s s' /\ es_inv exts (x_es s') /\ ((r = 0 /\ loaded s' b w) \/ (r = - ENOMEM /\ x_allocs s <> []))) s.
Proof.
  intros Hz Hd Hes Hv Hw Hok Hseg Hs Hl. eapply wp_mono; [apply (read_block_caches root exts (fun _ => True)); [done..|]|].
  - intros -> s4 E4. destruct (Hseg eq_refl) as (pre & post & E). eapply wp_mono; [eapply (cache_leaf_spec exts post _ pre)|]; [done|done|done| | |by left|done].
    + by eapply leaf_sound.
    + by rewrite E4.
  - cbn beta. intros r s' (F & He & [(-> & L & _)|Hbad]); split_and!; auto.
Qed.
End Read.

(** ** Choosing an entry *)

Lemma span_elem lo hi part ex : Forall (in_span lo hi) part -> ex ∈ part -> lo <= ee_block ex <= last_block ex /\ last_block ex < hi.
Proof. rewrite Forall_forall. intros H Hin. by apply H. Qed.

(** The entry of an index node that the search ends at: what is before it ends before the block, what is behind it starts behind. *)
Record chosen (v : Z -> option (list Z)) (depth0 : Z) (d : nat) (w : list Z) (hi : Z) (exts : list ext4_extent) (block k : Z)
    (pre part post : list ext4_extent) (w' : list Z) : Prop := {
  ch_parts : exts = pre ++ part ++ post;
  ch_view : v (ext4_idx_pblock (index_at w k)) = Some w';
  ch_nonempty : part <> [];
  ch_ok : node_ok sb zs i depth0 w' (Z.of_nat d);
  ch_tree : tree_at v depth0 d w' (idx_key w k) (idx_end w k hi) part;
  ch_entry : 0 <= k < eh_entries w;
  ch_before ex : ex ∈ pre -> last_block ex < idx_key w k /\ idx_key w k <= block;
  ch_behind ex : ex ∈ post -> block < idx_end w k hi <= ee_block ex;
  ch_last : k + 1 < eh_entries w <-> post <> [];
  ch_block : block < hi -> block < idx_end w k hi;
  ch_hi : idx_end w k hi <= hi;
  ch_first : k = 0 <-> pre = [];
  ch_next : post <> [] -> exists next rest w2, post = next ++ rest /\ next <> [] /\ v (ext4_idx_pblock (index_at w (k + 1))) = Some w2 /\
    node_ok sb zs i depth0 w2 (Z.of_nat d) /\ tree_at v depth0 d w2 (idx_key w (k + 1)) (idx_end w (k + 1) hi) next;
}.

Lemma choose_index v depth0 d w lo hi exts block :
  tree_at v depth0 (S d) w lo hi exts ->
  exists pre part post w', chosen v depth0 d w hi exts block (ext4_ext_binsearch_idx w block) pre part post w'.
Proof.
  intros Ht. destruct Ht as [Hw (parts & -> & Hl & Hne & Hlo & Hk & Hp)].
  assert (0 < eh_entries w) as Hn by (destruct parts; [done|]; cbn in Hl; lia).
  destruct (bsearch_found (idx_key w) block (eh_entries w) Hk Hn) as [Hr [Hf1 Hf2]]. unfold ext4_ext_binsearch_idx. fold (idx_key w).
  set (p := bsearch (Z.to_nat (eh_entries w)) (idx_key w) block 1 (eh_entries w - 1)) in *. clearbody p. set (k := p - 1).
  destruct (lookup_lt_is_Some_2 parts (Z.to_nat k)) as [part Hpart]; [lia|]. pose proof (Hp _ _ Hpart) as (w' & Ev & Hne' & Hok & Ht').
  assert (Z.of_nat (Z.to_nat k) = k) as Ek by lia. rewrite Ek in *.
  assert (forall j q, parts !! j = Some q -> Forall (in_span (idx_key w (Z.of_nat j)) (idx_end w (Z.of_nat j) hi)) q /\ q <> []) as Hspan.
  { intros j q Hq. destruct (Hp j q Hq) as (w'' & _ & ? & _ & Ht''). by destruct (tree_sorted _ _ _ _ _ _ _ Ht''). }
  exists (mjoin (take (Z.to_nat k) parts)), part, (mjoin (drop (S (Z.to_nat k)) parts)), w'. split; try done; [by apply join_split|lia|..].
  - intros ex (j & q & Hj & Hq & Hx)%elem_join_take. destruct (span_elem _ _ _ _ (proj1 (Hspan j q Hq)) Hx) as [_ Hend].
    split; [|apply Hf1; lia]. unfold idx_end in Hend. rewrite (proj2 (Z.ltb_lt _ _)) in Hend by lia.
    destruct (decide (Z.of_nat j + 1 = k)) as [E|]; [by rewrite E in Hend|]. pose proof (Hk (Z.of_nat j + 1) k). lia.
  - intros ex (j & q & Hj & Hq & Hx)%elem_join_drop. destruct (span_elem _ _ _ _ (proj1 (Hspan j q Hq)) Hx) as [[Hst _] _].
    pose proof (lookup_lt_Some _ _ _ Hq). unfold idx_end. rewrite (proj2 (Z.ltb_lt _ _)) by lia. split; [apply Hf2; lia|].
    destruct (decide (Z.of_nat j = k + 1)) as [E|]; [by rewrite E in Hst|]. pose proof (Hk (k + 1) (Z.of_nat j)). lia.
  - split.
    + intros Hlt. destruct (lookup_lt_is_Some_2 parts (S (Z.to_nat k))) as [q Hq]; [lia|]. rewrite (drop_S _ _ _ Hq). cbn.
      destruct (Hspan _ _ Hq) as [_ Hq']. by destruct q.
    + intros Hpost. destruct (decide (k + 1 < eh_entries w)); [done|]. exfalso. apply Hpost. rewrite drop_ge; [done|lia].
  - intros Hb. unfold idx_end. destruct (Z.ltb_spec (k + 1) (eh_entries w)); [apply Hf2; lia|done].
  - unfold idx_end. destruct (Z.ltb_spec (k + 1) (eh_entries w)); [|done].
    destruct (lookup_lt_is_Some_2 parts (length parts - 1)%nat) as [q Hq]; [lia|]. destruct (Hspan _ _ Hq) as [Hsq Hnq].
    pose proof (span_nonempty _ _ _ Hnq Hsq) as Hlast. unfold idx_end in Hlast. rewrite (proj2 (Z.ltb_ge _ _)) in Hlast by lia.
    destruct (decide (k + 1 = Z.of_nat (length parts - 1))) as [->|]; [lia|]. pose proof (Hk (k + 1) (Z.of_nat (length parts - 1))). lia.
  - split; [intros ->; done|]. intros E. destruct (decide (k = 0)) as [|Hk0]; [done|]. exfalso. destruct parts as [|q parts]; [done|].
    destruct (Hspan 0%nat q eq_refl) as [_ Hq]. apply Hq. destruct (Z.to_nat k) eqn:Ekn; [lia|]. cbn in E. by apply app_eq_nil in E as [-> _].
  - intros Hpost. destruct (decide (k + 1 < eh_entries w)) as [Hlt|Hge]; [|destruct Hpost; rewrite drop_ge; [done|lia]].
    destruct (lookup_lt_is_Some_2 parts (S (Z.to_nat k))) as [q Hq]; [lia|]. destruct (Hp _ _ Hq) as (w2 & Ev2 & Hne2 & Hok2 & Ht2).
    replace (Z.of_nat (S (Z.to_nat k))) with (k + 1) in * by lia. exists q, (mjoin (drop (S (S (Z.to_nat k))) parts)), w2. rewrite (drop_S _ _ _ Hq). done.
Qed.

(** The extent of a leaf that the search ends at. *)
Record leaf_chosen (exts : list ext4_extent) (block : Z) (pre : list ext4_extent) (ex : ext4_extent) (post : list ext4_extent) : Prop := {
  lc_parts : exts = pre ++ ex :: post;
  lc_before a : a ∈ pre -> last_block a < ee_block ex /\ ee_block ex <= block;
  lc_behind a : a ∈ post -> block < ee_block a;
}.

Lemma choose_extent w block :
  leaf_sorted (leaf_extents w) -> Forall (fun e => ee_block e <= last_block e) (leaf_extents w) -> 0 <= eh_entries w ->
  match ext4_ext_binsearch w block with
  | None => leaf_extents w = []
  | Some k => 0 <= k < eh_entries w /\ exists pre post, length pre = Z.to_nat k /\ leaf_chosen (leaf_extents w) block pre (extent_at w k) post
  end.
Proof.
  intros Hs Hl Hn0. unfold ext4_ext_binsearch. destruct (Z.eqb_spec (eh_entries w) 0) as [E|Hne]; [unfold leaf_extents, entries_from; by rewrite E|].
  assert (forall k, 0 <= k < eh_entries w -> leaf_extents w !! Z.to_nat k = Some (extent_at w k)) as Hat.
  { intros k Hk. unfold leaf_extents, entries_from. rewrite list_lookup_fmap, lookup_seq_lt by lia. cbn. do 2 f_equal. lia. }
  assert (forall a b, 0 <= a < b -> b < eh_entries w -> last_block (extent_at w a) < ee_block (extent_at w b)) as Hlt.
  { intros a b Hab Hb. apply (sorted_pairs_lookup _ _ (Z.to_nat a) (Z.to_nat b) _ _ Hs); [lia|apply Hat; lia|apply Hat; lia]. }
  rewrite Forall_forall in Hl. assert (forall k, 0 <= k < eh_entries w -> ee_block (extent_at w k) <= last_block (extent_at w k)) as Hl'.
  { intros k Hk. apply Hl. eapply list_elem_of_lookup_2, Hat, Hk. }
  destruct (bsearch_found (fun k => ee_block (extent_at w k)) block (eh_entries w)) as [Hr [Hf1 Hf2]]; [|lia|].
  { intros a b Hab Hb. pose proof (Hlt a b Hab Hb). pose proof (Hl' a). lia. }
  set (p := bsearch _ _ _ _ _) in *. clearbody p. split; [lia|].
  exists (take (Z.to_nat (p - 1)) (leaf_extents w)), (drop (S (Z.to_nat (p - 1))) (leaf_extents w)).
  pose proof (lookup_lt_Some _ _ _ (Hat (p - 1) ltac:(lia))). split; [rewrite length_take; lia|].
  split; [by rewrite (take_drop_middle _ _ _ (Hat (p - 1) ltac:(lia)))|..].
  - intros a (j & Hj & Hjp)%elem_of_take. pose proof (Hat (Z.of_nat j) ltac:(lia)) as Ej. rewrite Nat2Z.id in Ej. assert (a = extent_at w (Z.of_nat j)) as -> by congruence.
    split; [apply Hlt; lia|apply Hf1; lia].
  - intros a (j & Hj)%list_elem_of_lookup_1. rewrite lookup_drop in Hj. pose proof (lookup_lt_Some _ _ _ Hj) as Hlen.
    unfold leaf_extents, entries_from in Hlen. rewrite length_fmap, length_seq in Hlen.
    pose proof (Hat (Z.of_nat (S (Z.to_nat (p - 1)) + j)) ltac:(lia)) as Ej. rewrite Nat2Z.id in Ej.
    assert (a = extent_at w (Z.of_nat (S (Z.to_nat (p - 1)) + j))) as -> by congruence. apply Hf2. lia.
Qed.

(** ** The walk *)

Definition place_has (s : xstate) (pl : place) (w : list Z) : Prop :=
  match pl with Root => x_data s !! i = Some w | Block b => loaded s b w end.

Lemma read_place_spec s pl w (Q : list Z -> xstate -> Prop) : place_has s pl w -> Q w s -> wp (read_place i pl) Q s.
Proof.
  destruct pl as [|b]; cbn [place_has read_place]; intros Hp HQ.
  - unfold wp, ext_inode_hdr. by rewrite Hp.
  - apply wp_bind, wp_read_buf, wp_ret. by apply loaded_buf in Hp as [_ ->].
Qed.

Lemma place_frame s s' pl w : read_frame s s' -> place_has s pl w -> place_has s' pl w.
Proof. intros F. destruct pl; cbn; [by rewrite (rf_data _ _ F)|apply (rf_loaded _ _ F)]. Qed.

(** The elements of a path to [block] from a node [w] of depth [d] on; [Q] is what holds of the last one and the leaf. *)
Fixpoint path_ok (Q : ext4_ext_path -> list Z -> Prop) (block : Z) (s : xstate) (d : nat) (w : list Z) (pl : place) (path : list ext4_ext_path) : Prop :=
  match path with
  | [] => False
  | p :: rest =>
    p_hdr p = Some pl /\ place_has s pl w /\
    match d with
    | O => Q p w
    | S d =>
      let k := ext4_ext_binsearch_idx w block in
      let b := ext4_idx_pblock (index_at w k) in
      p_idx p = Some k /\ p_block p = b /\ p_depth p = Z.of_nat (S d) /\ p_ext p = None /\
      exists w', path_ok Q block s d w' (Block b) rest
    end
  end.

(** What the functions need of the state for a file with the extents [exts]. *)
Record lookup_inv (root : list Z) (exts : list ext4_extent) (s : xstate) : Prop := {
  li_zones : zones_inv (x_zones s) zs;
  li_root : x_data s !! i = Some root;
  li_es : es_inv exts (x_es s);
  li_tree : tree_at (view s) (eh_depth root) (Z.to_nat (eh_depth root)) root 0 EXT_MAX_BLOCKS exts;
  li_checked : node_ok sb zs i (eh_depth root) root (eh_depth root);
}.

Lemma lookup_frame root exts s s' : read_frame s s' -> es_inv exts (x_es s') -> lookup_inv root exts s -> lookup_inv root exts s'.
Proof.
  intros F He [Hz Hr _ Ht Hc]. split; [by rewrite (rf_zones _ _ F)|by rewrite (rf_data _ _ F)|done| |done]. eapply tree_ext; [apply (rf_view _ _ F)|done].
Qed.

Lemma lookup_sorted root exts s : lookup_inv root exts s -> leaf_sorted exts /\ Forall (fun e => ee_block e <= last_block e) exts.
Proof.
  intros [_ _ _ Ht _]. destruct (tree_sorted _ _ _ _ _ _ _ Ht) as [Hs Hf]. split; [done|]. eapply Forall_impl; [exact Hf|]. intros ex [[] _]. lia.
Qed.

(** Only a tree without index nodes has no extents. *)
Lemma deep_nonempty root exts s : lookup_inv root exts s -> eh_depth root <> 0 -> exts <> [].
Proof.
  intros [_ _ _ Ht _] Hd. pose proof (header_fields root (tree_words _ _ _ _ _ _ _ Ht)) as (_ & _ & Hd0).
  destruct (Z.to_nat (eh_depth root)) as [|d] eqn:Ed; [lia|]. destruct Ht as [_ (parts & -> & _ & Hne & _ & _ & Hparts)].
  destruct parts as [|part parts]; [done|]. destruct (Hparts 0%nat part eq_refl) as (_ & _ & Hpart & _). by destruct part.
Qed.

Section Find.
Context `{Rebalance}.

Lemma read_hdr_spec s path k p pl w (Q : list Z -> xstate -> Prop) :
  path !! k = Some p -> p_hdr p = Some pl -> place_has s pl w -> Q w s -> wp (read_hdr i path k) Q s.
Proof.
  intros Hk Hp Hpl HQ. unfold read_hdr, read_level. rewrite Hk. apply wp_bind, wp_ret. rewrite Hp. by eapply read_place_spec.
Qed.

(** Elements [ppos] and [ppos + 1] of the array are written, and later ones only afterwards. *)
Lemma path_step (path : list ext4_ext_path) (ppos : nat) (f1 f2 : ext4_ext_path -> ext4_ext_path) p :
  path !! ppos = Some p -> (S ppos < length path)%nat ->
  exists p1, alter f2 (S ppos) (alter f1 ppos path) !! S ppos = Some (f2 p1) /\
    forall path', take (S ppos) path' = take (S ppos) (alter f2 (S ppos) (alter f1 ppos path)) -> (ppos < length path')%nat ->
      path' !! ppos = Some (f1 p) /\ take ppos path' = take ppos path.
Proof.
  intros Hp Hlen. destruct (lookup_lt_is_Some_2 path (S ppos)) as [p1 Hp1]; [lia|]. exists p1.
  split; [by rewrite list_lookup_alter_eq, list_lookup_alter_ne, Hp1 by lia|]. intros path' Htk Hlen'. split.
  - rewrite <-(lookup_take_lt path' (S ppos) ppos), Htk, lookup_take_lt by lia. by rewrite list_lookup_alter_ne, list_lookup_alter_eq, Hp by lia.
  - apply (f_equal (take ppos)) in Htk. rewrite !take_take, !Nat.min_l in Htk by lia. by rewrite Htk, !take_alter_ge by lia.
Qed.

Lemma find_walk_spec root exts block flags n : forall ppos path s w lo hi pre part post p pl,
  lookup_inv root exts s -> tree_at (view s) (eh_depth root) n w lo hi part -> exts = pre ++ part ++ post ->
  place_has s pl w -> path !! ppos = Some p -> p_hdr p = Some pl -> (ppos + n < length path)%nat ->
  wp (find_walk sb i block flags n ppos path) (fun r s' =>
    read_frame s s' /\ es_inv exts (x_es s') /\
    match r with
    | inl err => err = - ENOMEM /\ x_allocs s <> []
    | inr path' => length path' = length path /\ take ppos path' = take ppos path /\ path_ok (fun _ _ => True) block s' n w pl (drop ppos path')
    end) s.
Proof.
  induction n as [|n IH]; intros ppos path s w lo hi pre part post p pl Hinv Ht Hex Hpl Hp Hph Hlen; cbn [find_walk].
  { apply wp_ret. split_and!; [done|apply Hinv|done|done|]. rewrite (drop_S _ _ _ Hp). done. }
  apply wp_bind. eapply read_hdr_spec; [done..|]. destruct (choose_index _ _ _ _ _ _ _ block Ht) as (cpre & cpart & cpost & w' & Hc).
  set (k := ext4_ext_binsearch_idx w block) in *. set (b := ext4_idx_pblock (index_at w k)).
  destruct (lookup_sorted root exts s Hinv) as [Hs Hl]. destruct Hinv as [Hz Hr He Hroot Hck]. apply wp_bind.
  assert (Z.of_nat n = 0 -> exists pre post, exts = pre ++ leaf_extents w' ++ post) as Hseg.
  { intros E0. assert (n = O) as -> by lia. destruct (ch_tree _ _ _ _ _ _ _ _ _ _ _ _ Hc) as [_ (E & _)].
    exists (pre ++ cpre), (cpost ++ post). rewrite Hex, (ch_parts _ _ _ _ _ _ _ _ _ _ _ _ Hc), E. by rewrite <-!app_assoc. }
  eapply wp_mono; [exact (read_block_spec root exts s b w' (Z.of_nat n) flags Hz Hr He (ch_view _ _ _ _ _ _ _ _ _ _ _ _ Hc)
    (tree_words _ _ _ _ _ _ _ (ch_tree _ _ _ _ _ _ _ _ _ _ _ _ Hc)) (ch_ok _ _ _ _ _ _ _ _ _ _ _ _ Hc) Hseg Hs Hl)|].
  cbn beta. intros r s1 (F1 & He1 & [[-> L1]|[-> Hne]]); [|apply wp_ret; exact (conj F1 (conj He1 (conj eq_refl Hne)))]. cbn [Z.ltb Z.compare].
  set (f2 := fun p : ext4_ext_path => _). set (f1 := fun p : ext4_ext_path => _).
  destruct (path_step path ppos f1 f2 p Hp) as (p1 & Hp2 & Hkeep); [lia|].
  set (path2 := alter f2 (S ppos) (alter f1 ppos path)) in *. assert (length path2 = length path) as Hlen2 by (unfold path2; by rewrite !length_alter).
  assert (lookup_inv root exts s1) as Hinv1 by (eapply lookup_frame; [exact F1|exact He1|by split]).
  assert (exts = (pre ++ cpre) ++ cpart ++ (cpost ++ post)) as Hex'
    by (rewrite Hex, (ch_parts _ _ _ _ _ _ _ _ _ _ _ _ Hc); by rewrite <-!app_assoc).
  pose proof (tree_ext _ _ _ _ _ _ _ _ (rf_view _ _ F1) (ch_tree _ _ _ _ _ _ _ _ _ _ _ _ Hc)) as Ht'.
  eapply wp_mono; [refine (IH (S ppos) path2 s1 w' _ _ _ cpart _ (f2 p1) (Block b) Hinv1 Ht' Hex' L1 Hp2 eq_refl _); lia|].
  cbn beta. intros r s2 (F2 & He2 & Hr2). split_and!; [by transitivity s1|done|]. destruct r as [err|path'].
  - destruct Hr2 as [-> Hne]. split; [done|]. intros E. by apply Hne, (rf_allocs _ _ F1).
  - destruct Hr2 as (Hlen' & Htk & Hok). destruct (Hkeep path' Htk) as [Hp' Htk']; [lia|]. split_and!; [lia|done|].
    rewrite (drop_S _ _ _ Hp'). split; [done|]. split; [eapply place_frame; [|done]; by transitivity s1|]. split_and!; [done..|]. by exists w'.
Qed.

(** The array is long enough. *)
Definition orig_ok (orig : option (list ext4_ext_path)) : Prop :=
  match orig with
  | None => True
  | Some path => exists p rest, path = p :: rest /\ Z.of_nat (length path) = p_maxdepth p + 1
  end.

Lemma x_alloc_spec s : wp x_alloc (fun ok s1 => read_frame s s1 /\ x_es s1 = x_es s /\ (ok = false -> x_allocs s <> [])) s.
Proof. unfold wp, x_alloc. destruct (x_allocs s) as [|ok rest] eqn:Ea; [done|]. split_and!; [by eapply frame_allocs|done|done]. Qed.

Lemma find_array_spec s orig depth :
  orig_ok orig -> 0 <= depth ->
  wp (find_array orig depth) (fun r s' => read_frame s s' /\ x_es s' = x_es s /\
    match r with None => x_allocs s <> [] | Some path => (Z.to_nat depth < length path)%nat end) s.
Proof.
  intros Ho Hd. unfold find_array. assert (wp (ok <- x_alloc ;; kret (if ok : bool
      then Some (alter (fun p : ext4_ext_path => p <| p_maxdepth := depth + 1 |>) 0%nat (replicate (Z.to_nat (depth + 2)) path_zero)) else None))
    (fun r s' => read_frame s s' /\ x_es s' = x_es s /\
      match r with None => x_allocs s <> [] | Some path => (Z.to_nat depth < length path)%nat end) s) as Hnew.
  { apply wp_bind. eapply wp_mono; [apply x_alloc_spec|]. cbn beta. intros [] s1 (F & E & Hne); apply wp_ret; (split_and!; [done|done|]); [|auto].
    rewrite length_alter, length_replicate. lia. }
  destruct orig as [[|p path]|]; [done| |done]. destruct Ho as (p' & rest & [= <- <-] & Hl). destruct (Z.ltb_spec (p_maxdepth p) depth); [done|].
  apply wp_ret. split_and!; [done|done|]. unfold ext4_ext_drop_refs. rewrite length_app, length_fmap, <-length_app, take_drop. cbn in Hl |- *. lia.
Qed.

(** The last element of a path, and the path with another one there. *)
Lemma path_last Q block s d : forall w pl path,
  path_ok Q block s d w pl path -> exists p wl pl', path !! d = Some p /\ p_hdr p = Some pl' /\ place_has s pl' wl /\ Q p wl /\
    forall (Q' : ext4_ext_path -> list Z -> Prop) f, p_hdr (f p) = p_hdr p -> Q' (f p) wl -> path_ok Q' block s d w pl (alter f d path).
Proof.
  induction d as [|d IH]; intros w pl [|p path]; cbn [path_ok]; try done.
  - intros (Hh & Hp & HQ). exists p, w, pl. split_and!; try done. intros Q' f Hf HQ'. cbn. by rewrite Hf.
  - intros (Hh & Hp & Hi & Hb & Hd & He & w' & Hok). destruct (IH _ _ _ Hok) as (p' & wl & pl' & Hl & Hh' & Hp' & HQ & Hall).
    exists p', wl, pl'. split_and!; try done. intros Q' f Hf HQ'. cbn. split_and!; try done. exists w'. by apply Hall.
Qed.

Lemma path_frame Q block s s' d : read_frame s s' -> forall w pl path, path_ok Q block s d w pl path -> path_ok Q block s' d w pl path.
Proof.
  intros F. induction d as [|d IH]; intros w pl [|p path]; cbn [path_ok]; try done.
  - intros (Hh & Hp & HQ). split_and!; try done. by eapply place_frame.
  - intros (Hh & Hp & Hi & Hb & Hd & He & w' & Hok). split_and!; try done; [by eapply place_frame|eauto].
Qed.

(** What the path to [block] says of the leaf. *)
Record leaf_path (block : Z) (p : ext4_ext_path) (w : list Z) : Prop := {
  lp_depth : p_depth p = 0;
  lp_ext : p_ext p = ext4_ext_binsearch w block;
  lp_idx : p_idx p = None;
  lp_block k : p_ext p = Some k -> p_block p = ext4_ext_pblock (extent_at w k);
}.

Lemma find_extent_spec root exts s block orig flags :
  lookup_inv root exts s -> orig_ok orig ->
  wp (ext4_find_extent sb i block orig flags) (fun r s' =>
    read_frame s s' /\ lookup_inv root exts s' /\
    match r with
    | inl err => err = - ENOMEM /\ x_allocs s <> []
    | inr path => path_ok (leaf_path block) block s' (Z.to_nat (eh_depth root)) root Root path
    end) s.
Proof.
  intros Hinv Ho. pose proof (header_fields root (tree_words _ _ _ _ _ _ _ (li_tree _ _ _ Hinv))) as (_ & _ & Hd).
  unfold ext4_find_extent, ext_depth. do 2 apply wp_bind. unfold wp at 1, ext_inode_hdr. rewrite (li_root _ _ _ Hinv). apply wp_ret.
  apply wp_bind. eapply wp_mono; [apply (find_array_spec s orig (eh_depth root)); [done|lia]|]. cbn beta. intros [path|] s1 (F1 & E1 & Hl).
  2: { apply wp_ret. split_and!; [done|eapply lookup_frame; [done|rewrite E1; apply Hinv|done]|done|done]. }
  assert (lookup_inv root exts s1) as Hinv1 by (eapply lookup_frame; [done|rewrite E1; apply Hinv|done]).
  set (f := fun p : ext4_ext_path => p <| p_hdr := Some Root |> <| p_bh := None |>).
  destruct path as [|p path]; [cbn in Hl; lia|]. apply wp_bind.
  eapply wp_mono; [eapply (find_walk_spec root exts block flags _ 0%nat (alter f 0%nat (p :: path)) s1 root 0 EXT_MAX_BLOCKS [] exts [] (f p) Root)|]; try done.
  { apply Hinv1. } { by rewrite app_nil_r. } { apply (li_root _ _ _ Hinv1). }
  cbn beta. intros r s2 (F2 & He2 & Hr). assert (lookup_inv root exts s2) as Hinv2 by by eapply lookup_frame.
  assert (read_frame s s2) as F by by transitivity s1. destruct r as [err|path'].
  - apply wp_ret. destruct Hr as [-> Hne]. split_and!; try done. intros E. by apply Hne, (rf_allocs _ _ F1).
  - destruct Hr as (_ & _ & Hok). cbn [drop] in Hok. destruct (path_last _ _ _ _ _ _ _ Hok) as (pl & wl & pl' & Hpl & Hh & Hp & _ & Hall).
    apply wp_bind. eapply read_hdr_spec; [done..|]. apply wp_ret. split_and!; [done|done|]. apply Hall.
    + by case_match.
    + destruct (ext4_ext_binsearch wl block) as [k|] eqn:Eb; (split; [reflexivity|exact (eq_sym Eb)|reflexivity|]);
        intros k' Ek; cbn in Ek |- *; congruence.
Qed.
End Find.
End Walk.
