(* ===== verification/MapBlocks.v ===== *)
(** * From a block of a file to a block of the disk

    The functions of kernel/fs/ext4/extents.c that go on from a path (the next allocated block, the neighbours, the hole around a
    block, caching it) and the lookup of blocks: [ext4_map_blocks] of inode.c for a request without
    [EXT4_GET_BLOCKS_CREATE], which asks the status tree first and then [ext4_ext_map_blocks]. *)
From S2P Require Import Prelude Log ExtentStatus ExtentTree BlockValidity ExtentNode ExtentFind.

Record ext4_map_blocks_t := mk_map { m_pblk : Z; m_lblk : Z; m_len : Z; m_flags : Z }.
#[export] Instance eta_map : Eta _ := fun m => mk_map (m_pblk m) (m_lblk m) (m_len m) (m_flags m).

Definition EXT4_MAP_MAPPED : Z := 32.
Definition EXT4_MAP_UNWRITTEN : Z := 4096.
Definition INT_MAX : Z := 2147483647.

(** ** Going on from a path *)

(** [EXT_LAST_EXTENT], [EXT_LAST_INDEX] *)
Definition last_entry (eh : list Z) : Z := eh_entries eh - 1.

(** The search for an index to the right, from level [n] up ([n] levels are left). *)
Fixpoint next_index_up (i : positive) (path : list ext4_ext_path) (n : nat) : XM Z :=
  match n with
  | O => kret EXT_MAX_BLOCKS
  | S d =>
    p <- read_level path d ;;
    eh <- read_hdr i path d ;;
    match p_idx p with
    | None => kfault Oops
    | Some k => if negb (k =? last_entry eh) then kret (ei_block (index_at eh (k + 1))) else next_index_up i path d
    end
  end.

Definition path_depth (path : list ext4_ext_path) : XM nat := p <- read_level path 0 ;; kret (Z.to_nat (p_depth p)).

Definition ext4_ext_next_allocated_block (i : positive) (path : list ext4_ext_path) : XM Z :=
  depth <- path_depth path ;;
  p <- read_level path depth ;;
  if (depth =? 0)%nat && bool_decide (p_ext p = None) then kret EXT_MAX_BLOCKS
  else
    match p_ext p with
    | Some k =>
      eh <- read_hdr i path depth ;;
      if negb (k =? last_entry eh) then kret (ee_block (extent_at eh (k + 1))) else next_index_up i path depth
    | None => next_index_up i path depth
    end.

Definition ext4_ext_next_leaf_block (i : positive) (path : list ext4_ext_path) : XM Z :=
  depth <- path_depth path ;;
  next_index_up i path depth.

(** The check that the path is the leftmost one, from level [n] up. *)
Fixpoint leftmost (path : list ext4_ext_path) (n : nat) : XM bool :=
  match n with
  | O => kret true
  | S d => p <- read_level path d ;; if bool_decide (p_idx p = Some 0) then leftmost path d else kret false
  end.

(** The results are the return value, [*logical] and [*phys]. *)
Definition ext4_ext_search_left (i : positive) (path : list ext4_ext_path) (logical : Z) : XM (Z * Z * Z) :=
  depth <- path_depth path ;;
  p <- read_level path depth ;;
  if (depth =? 0)%nat && bool_decide (p_ext p = None) then kret (0, logical, 0)
  else match p_ext p with
  | None => kfault Oops
  | Some k =>
    eh <- read_hdr i path depth ;;
    let ex := extent_at eh k in
    let ee_len := ext4_ext_get_actual_len ex in
    if logical <? ee_block ex
    then
      if negb (k =? 0) then e <- corrupted EFSCORRUPTED ;; kret (e, logical, 0)
      else
        ok <- leftmost path depth ;;
        if ok : bool then kret (0, logical, 0) else e <- corrupted EFSCORRUPTED ;; kret (e, logical, 0)
    else if logical <? u32 (ee_block ex + ee_len) then e <- corrupted EFSCORRUPTED ;; kret (e, logical, 0)
    else kret (0, u32 (ee_block ex + ee_len - 1), u64 (ext4_ext_pblock ex + ee_len - 1))
  end.

Section Map.
Context (sb : ext_sb) `{Rebalance} (trylock : nat -> positive -> bool).

(** The index to the right of the path: the level it was found at, and its block. *)
Fixpoint index_right (i : positive) (path : list ext4_ext_path) (n : nat) : XM (option (nat * Z)) :=
  match n with
  | O => kret None
  | S d =>
    p <- read_level path d ;;
    eh <- read_hdr i path d ;;
    match p_idx p with
    | None => kfault Oops
    | Some k => if negb (k =? last_entry eh) then kret (Some (d, ext4_idx_pblock (index_at eh (k + 1)))) else index_right i path d
    end
  end.

(** From [block], [n] index levels above the leaf, to the first leaf below it. *)
Fixpoint first_leaf (i : positive) (block : Z) (n : nat) : XM (Z + list Z) :=
  err <- __read_extent_tree_block sb i block (Z.of_nat n) 0 ;;
  if err <? 0 then kret (inl err)
  else
    bh <- read_buf block ;;
    match n with
    | O => kret (inr (b_words bh))
    | S n => first_leaf i (ext4_idx_pblock (index_at (b_words bh) 0)) n
    end.

(** The fourth result is [*ret_ex], if it is set. *)
Definition ext4_ext_search_right (i : positive) (path : list ext4_ext_path) (logical : Z) : XM (Z * Z * Z * option ext4_extent) :=
  let found ex := kret (0, ee_block ex, ext4_ext_pblock ex, Some ex) in
  let failed := e <- corrupted EFSCORRUPTED ;; kret (e, logical, 0, None) in
  depth <- path_depth path ;;
  p <- read_level path depth ;;
  if (depth =? 0)%nat && bool_decide (p_ext p = None) then kret (0, logical, 0, None)
  else match p_ext p with
  | None => kfault Oops
  | Some k =>
    eh <- read_hdr i path depth ;;
    let ex := extent_at eh k in
    if logical <? ee_block ex
    then
      if negb (k =? 0) then failed
      else ok <- leftmost path depth ;; if ok : bool then found ex else failed
    else if logical <? u32 (ee_block ex + ext4_ext_get_actual_len ex) then failed
    else if negb (k =? last_entry eh) then found (extent_at eh (k + 1))
    else
      ix <- index_right i path depth ;;
      match ix with
      | None => kret (0, logical, 0, None)
      | Some (d, block) =>
        r <- first_leaf i block (depth - d - 1) ;;
        match r with
        | inl err => kret (err, logical, 0, None)
        | inr eh => found (extent_at eh 0)
        end
      end
  end.

(** ** Holes *)

(** The start and the length of the hole. *)
Definition ext4_ext_determine_hole (i : positive) (path : list ext4_ext_path) (lblk : Z) : XM (Z * Z) :=
  depth <- ext_depth i ;;
  p <- read_level path (Z.to_nat depth) ;;
  match p_ext p with
  | None => kret (0, EXT_MAX_BLOCKS)
  | Some k =>
    eh <- read_hdr i path (Z.to_nat depth) ;;
    let ex := extent_at eh k in
    if lblk <? ee_block ex then kret (lblk, u32 (ee_block ex - lblk))
    else if u32 (ee_block ex + ext4_ext_get_actual_len ex) <=? lblk
    then
      let lblk := u32 (ee_block ex + ext4_ext_get_actual_len ex) in
      next <- ext4_ext_next_allocated_block i path ;;
      j_assert (negb (next =? lblk)) ;;;
      kret (lblk, u32 (next - lblk))
    else kfault Assert
  end.

(** [ext4_es_insert_extent], with one retry for every extent that can be reclaimed, which is enough. *)
Definition es_insert (i : positive) (lblk len pblk status : Z) : XM Z :=
  s <- get_x ;;
  r <- on_es (ext4_es_insert_extent trylock (Z.to_nat (es_stats_all_cnt (x_es s)) + 2) i lblk len pblk status) ;;
  match r with Some err => kret err | None => kfault Panic end.

Definition ext4_ext_put_gap_in_cache (i : positive) (hole_start hole_len : Z) : XM unit :=
  es <- on_es (ext4_es_find_delayed_extent_range i hole_start (u32 (hole_start + hole_len - 1))) ;;
  let delayed := negb (es_len es =? 0) in
  if delayed && (es_lblk es <=? hole_start) then kret tt
  else
    let hole_len := if delayed then Z.min (u32 (es_lblk es - hole_start)) hole_len else hole_len in
    es_insert i hole_start hole_len NO_PBLK EXTENT_STATUS_HOLE ;;; kret tt.

Definition ext4_find_delalloc_range (i : positive) (lblk_start lblk_end : Z) : XM bool :=
  es <- on_es (ext4_es_find_delayed_extent_range i lblk_start lblk_end) ;;
  kret (if es_len es =? 0 then false
        else if (es_lblk es <=? lblk_start) && (lblk_start <? u32 (es_lblk es + es_len es)) then true
        else (lblk_start <=? es_lblk es) && (es_lblk es <=? lblk_end)).

(** ** Lookup of blocks *)

(** [ext4_ext_handle_unwritten_extents] for flags without [CREATE] and without conversion. *)
Definition handle_unwritten_lookup (map : ext4_map_blocks_t) (allocated newblock : Z) : Z * ext4_map_blocks_t :=
  let map := map <| m_flags ::= fun f => Z.lor f EXT4_MAP_UNWRITTEN |> in
  let allocated := if m_len map <? allocated then m_len map else allocated in
  (allocated, map <| m_pblk := newblock |> <| m_len := allocated |>).

(** [ext4_ext_map_blocks] with no flag but [KEEP_SIZE], as [ext4_map_blocks] calls it first. *)
Definition ext_map_lookup (i : positive) (map : ext4_map_blocks_t) : XM (Z * ext4_map_blocks_t) :=
  r <- ext4_find_extent sb i (m_lblk map) None 0 ;;
  match r with
  | inl err => kret (err, map)
  | inr path =>
    depth <- ext_depth i ;;
    p <- read_level path (Z.to_nat depth) ;;
    if bool_decide (p_ext p = None) && negb (depth =? 0) then e <- corrupted EFSCORRUPTED ;; kret (e, map)
    else
      hit <- (match p_ext p with
        | None => kret None
        | Some k =>
          eh <- read_hdr i path (Z.to_nat depth) ;;
          let ex := extent_at eh k in
          kret (if in_range (m_lblk map) (ee_block ex) (ext4_ext_get_actual_len ex) then Some ex else None)
        end) ;;
      match hit with
      | Some ex =>
        let newblock := u64 (m_lblk map - ee_block ex + ext4_ext_pblock ex) in
        let allocated := u32 (ext4_ext_get_actual_len ex - (m_lblk map - ee_block ex)) in
        if negb (ext4_ext_is_unwritten ex)
        then
          let allocated := if m_len map <? allocated then m_len map else allocated in
          kret (allocated, map <| m_flags ::= fun f => Z.lor f EXT4_MAP_MAPPED |> <| m_pblk := newblock |> <| m_len := allocated |>)
        else kret (handle_unwritten_lookup map allocated newblock)
      | None =>
        hole <- ext4_ext_determine_hole i path (m_lblk map) ;;
        let '(hole_start, hole_len) := hole in
        ext4_ext_put_gap_in_cache i hole_start hole_len ;;;
        let hole_len := if negb (hole_start =? m_lblk map) then u32 (hole_len - (m_lblk map - hole_start)) else hole_len in
        kret (0, map <| m_pblk := 0 |> <| m_len := Z.min (m_len map) hole_len |>)
      end
  end.

Definition __check_block_validity (map : ext4_map_blocks_t) : XM Z :=
  ok <- data_block_valid sb (m_pblk map) (m_len map) ;;
  if negb ok then corrupted EFSCORRUPTED else kret 0.

(** The answer of the status tree. *)
Definition map_from_es (map : ext4_map_blocks_t) (es : extent_status) : XM (Z * ext4_map_blocks_t) :=
  let rest := u32 (es_len es - (m_lblk map - es_lblk es)) in
  let retval := if m_len map <? rest then m_len map else rest in
  if ext4_es_is_written es || ext4_es_is_unwritten es
  then kret (retval,
    map <| m_pblk := u64 (ext4_es_pblock es + m_lblk map - es_lblk es) |>
        <| m_flags ::= fun f => Z.lor f (if ext4_es_is_written es then EXT4_MAP_MAPPED else EXT4_MAP_UNWRITTEN) |>
        <| m_len := retval |>)
  else if ext4_es_is_delayed es || ext4_es_is_hole es
  then kret (0, map <| m_pblk := 0 |> <| m_len := retval |>)
  else kfault Assert.

(** The tree on disk is asked, and its answer goes to the status tree; [reserve]: [EXT4_GET_BLOCKS_DELALLOC_RESERVE]. *)
Definition map_from_disk (i : positive) (map : ext4_map_blocks_t) (reserve : bool) : XM (Z * ext4_map_blocks_t) :=
  r <- ext_map_lookup i map ;;
  let '(retval, map) := r in
  if 0 <? retval
  then
    let status := if negb (Z.land (m_flags map) EXT4_MAP_UNWRITTEN =? 0) then EXTENT_STATUS_UNWRITTEN else EXTENT_STATUS_WRITTEN in
    status <- (if negb reserve && (Z.land status EXTENT_STATUS_WRITTEN =? 0)
      then
        del <- ext4_find_delalloc_range i (m_lblk map) (u32 (m_lblk map + m_len map - 1)) ;;
        kret (if del : bool then Z.lor status EXTENT_STATUS_DELAYED else status)
      else kret status) ;;
    ret <- es_insert i (m_lblk map) (m_len map) (m_pblk map) status ;;
    kret (if ret <? 0 then ret else retval, map)
  else kret (retval, map).

(** [ext4_map_blocks] for a lookup. *)
Definition ext4_map_blocks (i : positive) (map : ext4_map_blocks_t) (reserve : bool) : XM (Z * ext4_map_blocks_t) :=
  let map := map <| m_flags := 0 |> in
  let map := if INT_MAX <? m_len map then map <| m_len := INT_MAX |> else map in
  if EXT_MAX_BLOCKS <=? m_lblk map then kret (- EFSCORRUPTED, map)
  else
    es <- on_es (ext4_es_lookup_extent i (m_lblk map)) ;;
    r <- (match es with
      | Some es => map_from_es map es
      | None => map_from_disk i map reserve
      end) ;;
    let '(retval, map) := r in
    if (0 <? retval) && negb (Z.land (m_flags map) EXT4_MAP_MAPPED =? 0)
    then
      ret <- __check_block_validity map ;;
      kret (if negb (ret =? 0) then ret else retval, map)
    else kret (retval, map).
End Map.
