(* ===== verification/ExtentLookup.v ===== *)
(** * Lookup of blocks

    What the functions of MapBlocks.v return on a sound tree: the extent that covers a block, the hole around a block, and
    [ext4_map_blocks] for a lookup, which answers what the tree on disk says and keeps the status tree in agreement with it. *)
From stdpp Require Import sorting.
From S2P Require Import Prelude Log ExtentStatus ExtentMap ExtentTree ExtentOps ExtentShrink ExtentRemove ExtentCache ExtentAlive BlockValidity.
From S2P Require Import ExtentNode ExtentFind ExtentWalk MapBlocks.

Arguments ch_parts {_ _ _ _ _ _ _ _ _ _ _ _ _ _ _} _.
Arguments ch_view {_ _ _ _ _ _ _ _ _ _ _ _ _ _ _} _.
Arguments ch_nonempty {_ _ _ _ _ _ _ _ _ _ _ _ _ _ _} _.
Arguments ch_tree {_ _ _ _ _ _ _ _ _ _ _ _ _ _ _} _.
Arguments ch_entry {_ _ _ _ _ _ _ _ _ _ _ _ _ _ _} _.
Arguments ch_before {_ _ _ _ _ _ _ _ _ _ _ _ _ _ _} _ _ _.
Arguments ch_behind {_ _ _ _ _ _ _ _ _ _ _ _ _ _ _} _ _ _.
Arguments ch_block {_ _ _ _ _ _ _ _ _ _ _ _ _ _ _} _ _.
Arguments ch_hi {_ _ _ _ _ _ _ _ _ _ _ _ _ _ _} _.
Arguments ch_first {_ _ _ _ _ _ _ _ _ _ _ _ _ _ _} _.
Arguments ch_last {_ _ _ _ _ _ _ _ _ _ _ _ _ _ _} _.
Arguments ch_next {_ _ _ _ _ _ _ _ _ _ _ _ _ _ _} _ _.
Arguments li_zones {_ _ _ _ _ _} _.
Arguments li_root {_ _ _ _ _ _} _.
Arguments li_es {_ _ _ _ _ _} _.
Arguments li_tree {_ _ _ _ _ _} _.
Arguments li_checked {_ _ _ _ _ _} _.
Arguments ei_ok {_ _ _} _.
Arguments ei_live {_ _ _} _.
Arguments ei_coherent {_ _ _} _.

#[local] Opaque ext4_ext_binsearch ext4_ext_binsearch_idx extent_at index_at ext4_ext_pblock ext4_idx_pblock word.

Section Lookup.
Context (sb : ext_sb) (zs : list ext4_system_zone) (i : positive).

(** ** Paths in a tree *)

(** [next_index_up] on the levels of a suffix of the path. *)
Definition up_step (p : ext4_ext_path) (pl : place) (dflt : XM Z) : XM Z :=
  eh <- read_place i pl ;;
  match p_idx p with
  | None => kfault Oops
  | Some k => if negb (k =? last_entry eh) then kret (ei_block (index_at eh (k + 1))) else dflt
  end.

Fixpoint up_from (path : list ext4_ext_path) (n : nat) (dflt : XM Z) : XM Z :=
  match n with
  | O => dflt
  | S d =>
    p <- read_level path d ;;
    eh <- read_hdr i path d ;;
    match p_idx p with
    | None => kfault Oops
    | Some k => if negb (k =? last_entry eh) then kret (ei_block (index_at eh (k + 1))) else up_from path d dflt
    end
  end.

Lemma kbind_ext {S A B} (m : K S A) (k k' : A -> K S B) s : (forall a s, k a s = k' a s) -> kbind m k s = kbind m k' s.
Proof. intros E. unfold kbind. destruct (m s) as [[a s']|]; [apply E|done]. Qed.

Lemma next_index_up_from path n s : next_index_up i path n s = up_from path n (kret EXT_MAX_BLOCKS) s.
Proof.
  revert s. induction n as [|d IH]; intros s; cbn [next_index_up up_from]; [done|]. apply kbind_ext. intros p s1. apply kbind_ext. intros eh s2.
  destruct (p_idx p); [|done]. by destruct (negb _).
Qed.

Lemma up_from_cons p pl path n dflt s :
  p_hdr p = Some pl -> up_from (p :: path) (S n) dflt s = up_from path n (up_step p pl dflt) s.
Proof.
  intros Hp. revert s. induction n as [|n IH]; intros s.
  - cbn [up_from]. unfold up_step, read_hdr, read_level, kbind, kret. cbn. rewrite Hp. reflexivity.
  - cbn [up_from] in IH |- *. apply (kbind_ext (read_level path n)). intros q s1. apply (kbind_ext (read_hdr i path n)). intros eh s2.
    destruct (p_idx q); [|done]. destruct (negb _); [done|]. apply IH.
Qed.

(** The same for [index_right], with the levels counted from [off] on. *)
Definition right_step (p : ext4_ext_path) (pl : place) (off : nat) (dflt : XM (option (nat * Z))) : XM (option (nat * Z)) :=
  eh <- read_place i pl ;;
  match p_idx p with
  | None => kfault Oops
  | Some k => if negb (k =? last_entry eh) then kret (Some (off, ext4_idx_pblock (index_at eh (k + 1)))) else dflt
  end.

Fixpoint right_from (path : list ext4_ext_path) (n off : nat) (dflt : XM (option (nat * Z))) : XM (option (nat * Z)) :=
  match n with
  | O => dflt
  | S d =>
    p <- read_level path d ;;
    eh <- read_hdr i path d ;;
    match p_idx p with
    | None => kfault Oops
    | Some k => if negb (k =? last_entry eh) then kret (Some ((off + d)%nat, ext4_idx_pblock (index_at eh (k + 1)))) else right_from path d off dflt
    end
  end.

Lemma index_right_from path n s : index_right i path n s = right_from path n 0 (kret None) s.
Proof.
  revert s. induction n as [|d IH]; intros s; cbn [index_right right_from]; [done|]. apply kbind_ext. intros p s1. apply kbind_ext. intros eh s2.
  destruct (p_idx p); [|done]. by destruct (negb _).
Qed.

Lemma right_from_cons p pl path n off dflt s :
  p_hdr p = Some pl -> right_from (p :: path) (S n) off dflt s = right_from path n (S off) (right_step p pl off dflt) s.
Proof.
  intros Hp. revert s. induction n as [|n IH]; intros s.
  - cbn [right_from]. unfold right_step, read_hdr, read_level, kbind, kret. cbn. rewrite Hp, Nat.add_0_r. reflexivity.
  - cbn [right_from] in IH |- *. apply (kbind_ext (read_level path n)). intros q s1. apply (kbind_ext (read_hdr i path n)). intros eh s2.
    destruct (p_idx q); [|done]. rewrite Nat.add_succ_r. destruct (negb _); [done|]. apply IH.
Qed.

(** The check that a path is the leftmost one. *)
Lemma leftmost_cons p path n s b :
  leftmost path n s = Ret (b, s) -> leftmost (p :: path) (S n) s = Ret (b && bool_decide (p_idx p = Some 0), s).
Proof.
  revert b. induction n as [|n IH]; intros b.
  - intros [= <-]. cbn [leftmost]. unfold read_level, kbind, kret. cbn. by destruct (bool_decide _).
  - cbn [leftmost]. unfold read_level, kbind, kret. cbn. destruct (path !! n) as [q|]; [|done]. destruct (bool_decide (p_idx q = Some 0)); [apply IH|].
    by intros [= <-].
Qed.

(** The index to the right leads to the extents [post] behind the leaf. *)
Definition next_part (s : xstate) (depth0 : Z) (D : nat) (post : list ext4_extent) (r : option (nat * Z)) : Prop :=
  match r with
  | None => False
  | Some (lev, b) => exists part rest w lo hi, post = part ++ rest /\ part <> [] /\ view sb s b = Some w /\
      node_ok sb zs i depth0 w (Z.of_nat (D - lev - 1)) /\ tree_at sb zs i (view sb s) depth0 (D - lev - 1) w lo hi part
  end.

(** What lies on both sides of a path of [d] levels of a tree of depth [D]: [r0] is the index to the right of its root. *)
Record sides (s : xstate) (depth0 : Z) (D d : nat) (path : list ext4_ext_path) (pre post : list ext4_extent)
    (dr : XM (option (nat * Z))) (r0 : option (nat * Z)) : Prop := {
  si_left : exists b, leftmost path d s = Ret (b, s) /\ (b = true <-> pre = []);
  si_right : exists r, right_from path d (D - d) dr s = Ret (r, s) /\ (post = [] -> r = r0) /\ (post <> [] -> next_part s depth0 D post r);
}.

(** The leaf at the end of a path: it has the place in the sequence of extents that belongs to [block]. *)
Record at_leaf (Q : ext4_ext_path -> list Z -> Prop) (block : Z) (s : xstate) (d : nat) (exts : list ext4_extent) (path : list ext4_ext_path)
    (p : ext4_ext_path) (pl : place) (w : list Z) (lo hi : Z) (pre post : list ext4_extent) : Prop := {
  al_level : path !! d = Some p;
  al_hdr : p_hdr p = Some pl;
  al_place : place_has i s pl w;
  al_words : is_words w;
  al_Q : Q p w;
  al_parts : exts = pre ++ leaf_extents w ++ post;
  al_nonempty : exts <> [] -> leaf_extents w <> [];
  al_before ex : ex ∈ pre -> last_block ex < block;
  al_behind ex : ex ∈ post -> block < hi <= ee_block ex;
  al_block : block < hi;
  al_span : Forall (in_span lo hi) (leaf_extents w);
  al_sorted : leaf_sorted (leaf_extents w);
}.

(** One level more on top. *)
Lemma sides_step s depth0 D d p pl path block w lo hi exts k pre part post w' pre' post' dr r0 :
  (S d <= D)%nat -> tree_at sb zs i (view sb s) depth0 (S d) w lo hi exts -> chosen sb zs i (view sb s) depth0 d w hi exts block k pre part post w' ->
  p_hdr p = Some pl -> p_idx p = Some k ->
  sides s depth0 D d path pre' post' (right_step p pl (D - S d) dr) (if k =? last_entry w then r0 else Some ((D - S d)%nat, ext4_idx_pblock (index_at w (k + 1)))) ->
  sides s depth0 D (S d) (p :: path) (pre ++ pre') (post' ++ post) dr r0.
Proof.
  intros HD Ht Hc Hh Hix [(b & Hb & Hpre) (r & Hr & Hnone & Hsome)]. split.
  - exists (b && bool_decide (p_idx p = Some 0)). split; [by apply leftmost_cons|]. rewrite andb_true_iff, bool_decide_eq_true, Hix, Hpre.
    pose proof (ch_first Hc) as Hf. split; [intros [-> [= ->]]; by rewrite (proj1 Hf)|]. intros [E ->]%app_eq_nil. split; [done|]. f_equal. by apply Hf.
  - exists r. replace (D - d)%nat with (S (D - S d)) in Hr by lia. rewrite (right_from_cons _ pl) by done. split; [done|].
    pose proof (ch_entry Hc). pose proof (ch_last Hc) as Hlast. unfold last_entry in *. destruct post' as [|e post']; cbn [app].
    + rewrite (Hnone eq_refl). destruct (Z.eqb_spec k (eh_entries w - 1)) as [El|Hne].
      * split; [done|]. intros Hpost. apply Hlast in Hpost. lia.
      * assert (post <> []) as Hpost by (apply Hlast; lia). split; [done|]. intros _. destruct (ch_next Hc Hpost) as (part2 & rest & w2 & -> & Hne2 & Hv & Hok & Ht2).
        exists part2, rest, w2, (idx_key w (k + 1)), (idx_end w (k + 1) hi). replace (D - (D - S d) - 1)%nat with d by lia. done.
    + split; [done|]. intros _. specialize (Hsome ltac:(done)). destruct r as [[lev b']|]; [|done]. destruct Hsome as (part2 & rest & w2 & lo2 & hi2 & E & Hrest).
      exists part2, (rest ++ post), w2, lo2, hi2. split; [|exact Hrest]. by rewrite app_assoc, <-E.
Qed.

Lemma path_tree Q block s depth0 D d : forall w pl path lo hi exts dflt dr r0, (d <= D)%nat ->
  tree_at sb zs i (view sb s) depth0 d w lo hi exts -> path_ok i Q block s d w pl path -> block < hi -> dflt s = Ret (hi, s) -> dr s = Ret (r0, s) ->
  exists p pl' wl lo' hi' pre post, at_leaf Q block s d exts path p pl' wl lo' hi' pre post /\
    hi' <= hi /\ up_from path d dflt s = Ret (hi', s) /\ sides s depth0 D d path pre post dr r0.
Proof.
  induction d as [|d IH]; intros w pl [|p path] lo hi exts dflt dr r0 HD Ht Hok Hb Hd Hdr; cbn [path_ok] in Hok; try done.
  - destruct Hok as (Hh & Hp & HQ), Ht as (Hw & -> & Hs & Hf). exists p, pl, w, lo, hi, [], []. split; [|split_and!; [done|done|split; [by exists true|by exists r0]]].
    split; try done; [by rewrite app_nil_r|by intros ex ?%elem_of_nil..].
  - destruct Hok as (Hh & Hp & Hix & Hblk & _ & _ & w' & Hok).
    destruct (choose_index sb zs i _ _ _ _ _ _ _ block Ht) as (pre & part & post & w'' & Hc). set (k := ext4_ext_binsearch_idx w block) in *.
    assert (w'' = w') as ->.
    { pose proof (ch_view Hc) as Hv. destruct d, path; cbn [path_ok] in Hok; try done;
        destruct Hok as (_ & Hl & _); cbn in Hl; apply loaded_view with (sb := sb) in Hl; congruence. }
    assert (read_place i pl s = Ret (w, s)) as Hr.
    { assert (wp (read_place i pl) (fun eh s' => eh = w /\ s' = s) s) as Hrd by by eapply read_place_spec.
      by destruct (proj1 (wp_returns _ _ _) Hrd) as (eh & s' & Hr & -> & ->). }
    set (r1 := if k =? last_entry w then r0 else Some ((D - S d)%nat, ext4_idx_pblock (index_at w (k + 1)))).
    destruct (IH w' (Block (ext4_idx_pblock (index_at w k))) path (idx_key w k) (idx_end w k hi) part (up_step p pl dflt) (right_step p pl (D - S d) dr) r1)
      as (p' & pl' & wl & lo' & hi' & pre' & post' & Hat & Hhi & Hup & Hsd).
    { lia. } { exact (ch_tree Hc). } { exact Hok. } { exact (ch_block Hc Hb). }
    2: { unfold right_step, kbind. rewrite Hr, Hix. unfold r1. by destruct (k =? last_entry w). }
    { unfold up_step, kbind. rewrite Hr, Hix. unfold last_entry, idx_end.
      pose proof (ch_entry Hc). destruct (Z.ltb_spec (k + 1) (eh_entries w)).
      - rewrite (proj2 (Z.eqb_neq _ _)) by lia. done.
      - rewrite (proj2 (Z.eqb_eq _ _)) by lia. done. }
    exists p', pl', wl, lo', hi', (pre ++ pre'), (post' ++ post).
    split; [|split_and!; [pose proof (ch_hi Hc); lia|by rewrite (up_from_cons _ pl)|by eapply sides_step]].
    destruct Hat as [L H1 P W HQ E Hne Hbf Hbh Hbl Hsp Hst]. pose proof (ch_parts Hc) as Ep. split; try done.
    + rewrite Ep, E. by rewrite <-!app_assoc.
    + intros _. exact (Hne (ch_nonempty Hc)).
    + intros ex [Hx|Hx]%elem_of_app; [|auto]. pose proof (ch_before Hc ex Hx). lia.
    + intros ex [Hx|Hx]%elem_of_app; [auto|]. pose proof (ch_behind Hc ex Hx).
      lia.
Qed.

(** The extent a lookup ends at: the extents before it end before the block, those behind it start at [nx] or later. *)
Record hit (exts : list ext4_extent) (block : Z) (pre : list ext4_extent) (ex : ext4_extent) (post : list ext4_extent) (nx : Z) : Prop := {
  h_parts : exts = pre ++ ex :: post;
  h_before a : a ∈ pre -> last_block a < block /\ last_block a < ee_block ex;
  h_behind a : a ∈ post -> nx <= ee_block a;
  h_next : block < nx;
  h_len : 0 <= ee_block ex <= last_block ex;
}.

Lemma leaf_lookup w k : 0 <= k < eh_entries w -> leaf_extents w !! Z.to_nat k = Some (extent_at w k).
Proof. intros Hk. unfold leaf_extents, entries_from. rewrite list_lookup_fmap, lookup_seq_lt by lia. cbn. do 2 f_equal. lia. Qed.

Lemma leaf_length w : length (leaf_extents w) = Z.to_nat (eh_entries w).
Proof. unfold leaf_extents, entries_from. by rewrite length_fmap, length_seq. Qed.

Lemma leaf_hit block s d exts path p pl w lo hi pre post :
  at_leaf (leaf_path block) block s d exts path p pl w lo hi pre post -> leaf_sorted exts ->
  match p_ext p with
  | None => exts = []
  | Some k => 0 <= k < eh_entries w /\
      exists epre epost, hit exts block epre (extent_at w k) epost (if k =? last_entry w then hi else ee_block (extent_at w (k + 1)))
  end.
Proof.
  intros Hat Hs. pose proof (header_fields w (al_words _ _ _ _ _ _ _ _ _ _ _ _ _ Hat)) as (Hn & _ & _).
  destruct Hat as [_ _ _ Hw [_ Hx _ _] E Hne Hbf Hbh Hbl Hsp Hst]. rewrite Forall_forall in Hsp.
  assert (Forall (fun e => ee_block e <= last_block e) (leaf_extents w)) as Hl by (apply Forall_forall; intros e He; apply (Hsp e He)).
  pose proof (choose_extent w block Hst Hl ltac:(lia)) as Hc. rewrite <-Hx in Hc. destruct (p_ext p) as [k|].
  2: { destruct exts; [done|]. exfalso. by apply Hne. }
  destruct Hc as (Hk & lpre & lpost & Hlen & [Ep Lb La]). split; [done|].
  assert (extent_at w k ∈ leaf_extents w) as Hin by (eapply list_elem_of_lookup_2, leaf_lookup, Hk). pose proof (Hsp _ Hin) as [Hexl Hexh].
  pose proof (ef_block _ (extent_at_fields w k Hw)) as [Hex0 _].
  exists (pre ++ lpre), (lpost ++ post). rewrite Ep, <-!app_assoc in E. cbn [app] in E. split; [by rewrite <-app_assoc| | | |lia].
  - intros a Ha. assert (last_block a < ee_block (extent_at w k)) as Hlt.
    { rewrite E, app_assoc in Hs. apply sorted_app_extents in Hs as (_ & _ & Hs). apply Hs; [done|by left]. }
    split; [|done]. apply elem_of_app in Ha as [Ha|Ha]; [auto|]. pose proof (Lb a Ha). lia.
  - intros a Ha. unfold last_entry. destruct (Z.eqb_spec k (eh_entries w - 1)) as [El|Hnl].
    + assert (lpost = []) as ->.
      { apply (f_equal length) in Ep. rewrite leaf_length, length_app in Ep. cbn in Ep. destruct lpost; [done|cbn in Ep; lia]. }
      destruct (Hbh a Ha). lia.
    + pose proof (leaf_lookup w (k + 1) ltac:(lia)) as Hk1. pose proof (list_elem_of_lookup_2 _ _ _ Hk1) as Hin1.
      apply elem_of_app in Ha as [Ha|Ha]; [|destruct (Hbh a Ha), (Hsp _ Hin1); lia].
      rewrite Ep in Hk1. rewrite lookup_app_r in Hk1 by lia. replace (Z.to_nat (k + 1) - length lpre)%nat with 1%nat in Hk1 by lia.
      destruct lpost as [|e lpost]; [done|]. injection Hk1 as ->. apply elem_of_cons in Ha as [->|Ha]; [done|].
      rewrite Ep in Hst. apply sorted_app_extents in Hst as (_ & [_ [Hst _]%StronglySorted_cons]%StronglySorted_cons & _).
      rewrite Forall_forall in Hst. pose proof (Hst a Ha). destruct (Hsp _ Hin1). lia.
  - unfold last_entry. destruct (Z.eqb_spec k (eh_entries w - 1)) as [El|Hnl]; [done|]. apply La.
    pose proof (leaf_lookup w (k + 1) ltac:(lia)) as Hk1. rewrite Ep in Hk1. rewrite lookup_app_r in Hk1 by lia.
    replace (Z.to_nat (k + 1) - length lpre)%nat with 1%nat in Hk1 by lia. by eapply (list_elem_of_lookup_2 _ 0).
Qed.

(** The covering extent is the one that was hit. *)
Lemma hit_covers exts block pre ex post nx a :
  hit exts block pre ex post nx -> a ∈ exts -> covers_block a block -> a = ex.
Proof.
  intros [-> Hb Ha Hn _] Hin [Hc1 Hc2]. apply elem_of_app in Hin as [Hin|[->|Hin]%elem_of_cons]; [|done|].
  - pose proof (Hb a Hin). lia.
  - pose proof (Ha a Hin). lia.
Qed.

(** The hole around a block that the extent at hand does not cover. *)
Lemma hit_hole exts block pre ex post nx b :
  hit exts block pre ex post nx -> leaf_sorted exts ->
  (block < ee_block ex /\ block <= b < ee_block ex) \/ (last_block ex < block /\ last_block ex < b < nx) ->
  unmapped exts b.
Proof.
  intros [-> Hb Ha Hn Hl] Hs Hc a Hin Hcov. unfold covers_block in Hcov. apply elem_of_app in Hin as [Hin|[->|Hin]%elem_of_cons].
  - pose proof (Hb a Hin). lia.
  - lia.
  - pose proof (Ha a Hin). apply sorted_app_extents in Hs as (_ & [Hs _]%StronglySorted_cons & _). rewrite Forall_forall in Hs.
    pose proof (Hs a Hin). lia.
Qed.

Lemma first_level Q block s d w pl path : path_ok i Q block s d w pl path -> exists p, path !! 0%nat = Some p /\ (d <> O -> p_depth p = Z.of_nat d).
Proof. destruct path as [|p path], d as [|d]; cbn [path_ok]; try done; intros Hok; exists p; split; try done. by destruct Hok as (_ & _ & _ & _ & ? & _). Qed.

(** [path->p_depth] is the depth of the tree. *)
Lemma path_depth_spec block s d w pl path (Q : nat -> xstate -> Prop) :
  path_ok i (leaf_path block) block s d w pl path -> Q d s -> wp (path_depth path) Q s.
Proof.
  intros Hok HQ. destruct (first_level _ _ _ _ _ _ _ Hok) as (p & Hp & Hd). unfold path_depth, read_level. rewrite Hp. apply wp_bind, wp_ret, wp_ret.
  destruct d as [|d]; [|by rewrite Hd, Nat2Z.id]. destruct path as [|p' path]; [done|]. injection Hp as ->. destruct Hok as (_ & _ & [-> _ _ _]). done.
Qed.

(** What a path found by [ext4_find_extent] leads to. *)
Lemma path_hit root exts s block path :
  lookup_inv sb zs i root exts s -> path_ok i (leaf_path block) block s (Z.to_nat (eh_depth root)) root Root path -> block < EXT_MAX_BLOCKS ->
  exists p pl w, path !! Z.to_nat (eh_depth root) = Some p /\ p_hdr p = Some pl /\ place_has i s pl w /\ is_words w /\
    match p_ext p with
    | None => exts = []
    | Some k => 0 <= k < eh_entries w /\ p_block p = ext4_ext_pblock (extent_at w k) /\
      exists pre post nx, hit exts block pre (extent_at w k) post nx /\ nx <= EXT_MAX_BLOCKS /\
        wp (ext4_ext_next_allocated_block i path) (fun r s' => s' = s /\ r = nx) s
    end.
Proof.
  intros Hinv Hok Hb. destruct (path_tree _ block s (eh_depth root) _ _ _ _ _ _ _ _ (kret EXT_MAX_BLOCKS) (kret None) None (le_n _) (li_tree Hinv) Hok Hb eq_refl eq_refl)
    as (p & pl & w & lo & hi & pre & post & Hat & Hhi & Hup & _). exists p, pl, w. pose proof (leaf_hit _ _ _ _ _ _ _ _ _ _ _ _ Hat) as Hh.
  pose proof Hat as [Hl Hp Hpl Hw HQ _ _ _ _ _ Hsp _]. split_and!; [done..|]. destruct (lookup_sorted _ _ _ _ _ _ Hinv) as [Hs _]. specialize (Hh Hs).
  destruct (p_ext p) as [k|] eqn:Ek; [|done]. destruct Hh as (Hk & epre & epost & Hhit). split; [done|]. split; [by apply HQ|].
  eexists epre, epost, _. split; [exact Hhit|]. split.
  { unfold last_entry. destruct (Z.eqb_spec k (eh_entries w - 1)); [done|]. pose proof (list_elem_of_lookup_2 _ _ _ (leaf_lookup w (k + 1) ltac:(lia))) as Hin.
    destruct (span_elem _ _ _ _ Hsp Hin). lia. }
  unfold ext4_ext_next_allocated_block. apply wp_bind. eapply path_depth_spec; [done|].
  apply wp_bind. unfold read_level. rewrite Hl. apply wp_ret. rewrite Ek. rewrite (bool_decide_false (Some k = None)) by discriminate. rewrite andb_false_r.
  apply wp_bind. eapply read_hdr_spec; [done..|]. destruct (Z.eqb_spec k (last_entry w)); cbn [negb]; [|apply wp_ret; split; reflexivity].
  unfold wp. rewrite next_index_up_from, Hup. split; reflexivity.
Qed.

(** ** Soundness of the extents *)

Lemma tree_sound v depth0 d : forall w lo hi exts,
  tree_at sb zs i v depth0 d w lo hi exts -> node_ok sb zs i depth0 w (Z.of_nat d) -> Forall (ext_sound sb zs) exts.
Proof.
  induction d as [|d IH]; intros w lo hi exts [Hw Ht] Hok; [destruct Ht as (-> & _); by eapply leaf_sound|].
  destruct Ht as (parts & -> & _ & _ & _ & _ & Hp). apply Forall_forall.
  intros ex (part & Hx & (k & Hk)%list_elem_of_lookup_1)%list_elem_of_join. destruct (Hp k part Hk) as (w' & _ & _ & Hok' & Ht').
  pose proof (IH _ _ _ _ Ht' Hok') as Hf. rewrite Forall_forall in Hf. auto.
Qed.

Lemma lookup_sound root exts s ex : lookup_inv sb zs i root exts s -> ex ∈ exts -> ext_sound sb zs ex.
Proof.
  intros Hinv. pose proof (header_fields root (tree_words _ _ _ _ _ _ _ _ _ _ (li_tree Hinv))) as (_ & _ & Hd).
  assert (Forall (ext_sound sb zs) exts) as Hf; [|rewrite Forall_forall in Hf; apply Hf].
  eapply tree_sound; [exact (li_tree Hinv)|]. rewrite Z2Nat.id by lia. exact (li_checked Hinv).
Qed.

Lemma lookup_es root exts s e : lookup_inv sb zs i root exts s -> es_inv i exts e -> lookup_inv sb zs i root exts (s <| x_es := e |>).
Proof. intros [Hz Hr _ Ht Hc] He. split; done. Qed.

(** A block that is mapped is not metadata. *)
Lemma mapped_free root exts s b st p : lookup_inv sb zs i root exts s -> mapped exts b st p -> block_free sb zs p 1 /\ 0 <= p < 281474976743424.
Proof.
  intros Hinv (ex & Hin & Hc & _ & ->). destruct (lookup_sound _ _ _ _ Hinv Hin) as [Hf [Hl _ (Hfirst & Hend & Hz)]].
  pose proof (ext_pblock_range ex Hf). pose proof (actual_len_range ex (ef_len _ Hf)). unfold covers_block, last_block in Hc. unfold ext_phys.
  split; [|lia]. split_and!; [lia|lia|]. intros b' Hb'. apply Hz. lia.
Qed.

(** Changing the status tree, in agreement with the file. *)
Section Insert.
Context `{Rebalance} (trylock : nat -> positive -> bool).

Lemma forgets_coherent exts e e' :
  coherent exts i e -> (forall b, forgets e e' i b \/ (exists v, es_map e' i b = Some v /\ agrees exts b v) \/ es_map e' i b = None) -> coherent exts i e'.
Proof.
  intros Hc Hf b v Hv. destruct (Hf b) as [[E|[E _]]|[(v' & E & Ha)|E]]; [apply Hc|..]; congruence.
Qed.

Lemma es_insert_spec exts s lblk len pblk status :
  es_inv i exts (x_es s) -> insertable lblk len pblk status -> (forall b, lblk <= b < lblk + len -> agrees exts b (new_value lblk pblk status b)) ->
  wp (es_insert trylock i lblk len pblk status) (fun r s' => exists e, s' = s <| x_es := e |> /\ es_inv i exts e /\
    (r = 0 \/ (r = - ENOMEM /\ allocs (x_es s) <> [])) /\ (allocs (x_es s) = [] -> allocs e = []) /\ (forall j b, j <> i \/ ~ lblk <= b < lblk + len -> forgets (x_es s) e j b)) s.
Proof.
  intros [Hok [x Hx] Hc] Hins Hag. unfold es_insert. apply wp_bind, wp_ret, wp_bind, wp_on_es.
  eapply wp_mono; [apply (wp_keeps alive); [apply alive_insert_extent|apply (insert_extent_spec trylock _ (x_es s) i x); [done|done|done|lia]]|].
  cbn beta. intros r e [Hr Hal]. assert (is_Some (es_inodes e !! i)) as Hlive by (apply (al_inode _ _ Hal); by exists x).
  pose proof (al_memory _ _ Hal) as Hmem. destruct Hr as [(-> & Hup)|[(-> & Hne & Hup)|(-> & Hne & Hok' & Hfg)]]; apply wp_ret; exists e; (split; [done|]).
  - split_and!; [split; [apply Hup|done|]|by left|done|].
    + apply (forgets_coherent _ _ _ Hc). intros b. destruct (decide (lblk <= b <= lblk + len - 1)) as [Hb|Hb].
      * right. left. eexists. split; [by apply Hup|]. apply Hag. lia.
      * left. apply Hup. by right.
    + intros j b Hjb. apply Hup. destruct Hjb; [by left|right; lia].
  - split_and!; [split; [apply Hup|done|]|by case_match; [left|right]|done|].
    + apply (forgets_coherent _ _ _ Hc). intros b. destruct (decide (lblk <= b <= lblk + len - 1)) as [Hb|Hb].
      * right. right. by apply (up_range _ _ _ _ _ _ _ Hup).
      * left. apply Hup. by right.
    + intros j b Hjb. apply Hup. destruct Hjb; [by left|right; lia].
  - split_and!; [split; [done|done|]|by right|done|auto]. apply (forgets_coherent _ _ _ Hc). intros b. by left.
Qed.
End Insert.

(** ** Holes *)

(** A range of blocks that are not mapped. *)
Record is_hole (exts : list ext4_extent) (start len : Z) : Prop := {
  ih_start : 0 <= start;
  ih_len : 0 < len;
  ih_end : start + len <= EXT_MAX_BLOCKS;
  ih_unmapped b : start <= b < start + len -> unmapped exts b;
}.

Lemma determine_hole_spec root exts s block path :
  lookup_inv sb zs i root exts s -> path_ok i (leaf_path block) block s (Z.to_nat (eh_depth root)) root Root path ->
  0 <= block < EXT_MAX_BLOCKS -> unmapped exts block ->
  wp (ext4_ext_determine_hole i path block) (fun r s' => s' = s /\ is_hole exts r.1 r.2 /\ r.1 <= block < r.1 + r.2) s.
Proof.
  intros Hinv Hok Hb Hun. destruct (path_hit _ _ _ _ _ Hinv Hok ltac:(lia)) as (p & pl & w & Hl & Hp & Hpl & Hw & Hx).
  destruct (lookup_sorted _ _ _ _ _ _ Hinv) as [Hs _]. unfold ext4_ext_determine_hole, ext_depth. do 2 apply wp_bind.
  unfold wp at 1, ext_inode_hdr. rewrite (li_root Hinv). apply wp_ret, wp_bind. unfold read_level at 1. rewrite Hl. apply wp_ret.
  destruct (p_ext p) as [k|].
  2: { apply wp_ret. subst exts. split_and!; [done| |cbn; lia|cbn; unfold EXT_MAX_BLOCKS in *; lia]. split; cbn; [lia|unfold EXT_MAX_BLOCKS; lia|lia|].
       intros b _ ex Hin. by apply elem_of_nil in Hin. }
  destruct Hx as (_ & _ & pre & post & nx & Hhit & Hnx & Hnext). apply wp_bind. eapply read_hdr_spec; [done..|].
  set (ex := extent_at w k) in *. assert (ex ∈ exts) as Hin by (rewrite (h_parts _ _ _ _ _ _ Hhit); apply elem_of_app; right; by left).
  pose proof (sound_len _ _ _ (lookup_sound _ _ _ _ Hinv Hin)) as [Hex Hend]. assert (ee_block ex + ext4_ext_get_actual_len ex = last_block ex + 1) as E by (unfold last_block; lia).
  rewrite E, (u32_id (last_block ex + 1)) by (unfold is_u32; lia). unfold EXT_MAX_BLOCKS in *. pose proof (h_next _ _ _ _ _ _ Hhit).
  destruct (Z.ltb_spec block (ee_block ex)).
  - apply wp_ret. rewrite u32_id by (unfold is_u32; lia). split_and!; [done| |cbn; lia|cbn; lia]. split; cbn; [lia|lia|unfold EXT_MAX_BLOCKS; lia|].
    intros b Hbb. eapply hit_hole; [done|done|left; lia].
  - destruct (Z.leb_spec (last_block ex + 1) block).
    2: { exfalso. apply (Hun ex Hin). unfold covers_block. lia. }
    apply wp_bind. eapply wp_mono; [exact Hnext|]. cbn beta. intros r s' [-> ->]. apply wp_bind.
    apply wp_assert; [by rewrite (proj2 (Z.eqb_neq _ _)) by lia|]. apply wp_ret. rewrite u32_id by (unfold is_u32; lia).
    split_and!; [done| |cbn; lia|cbn; lia]. split; cbn; [lia|lia|unfold EXT_MAX_BLOCKS; lia|]. intros b Hbb. eapply hit_hole; [done|done|right; lia].
Qed.

Section Gap.
Context `{Rebalance} (trylock : nat -> positive -> bool).

(** Searching delayed extents changes no answer of the status tree. *)
Lemma find_delayed_inv exts s lblk stop :
  es_inv i exts (x_es s) -> lblk <= stop ->
  wp (on_es (ext4_es_find_delayed_extent_range i lblk stop)) (fun es s' => exists e, s' = s <| x_es := e |> /\ es_inv i exts e /\
    (allocs (x_es s) = [] -> allocs e = []) /\
    (forall j b, es_map e j b = es_map (x_es s) j b) /\ first_delayed (x_es s) i lblk stop es) s.
Proof.
  intros [Hok [x Hx] Hc] Hle. apply wp_on_es.
  eapply wp_mono; [apply (wp_keeps alive); [apply alive_find_delayed|by apply (find_delayed_spec (x_es s) i x)]|].
  cbn beta. intros es e [(Hok' & Hm & Hf) Hal]. exists e. split_and!; try done; [|apply Hal]. split; [done|apply Hal; by exists x|].
  intros b v Hv. rewrite Hm in Hv. by apply Hc.
Qed.

(** If no allocation of the status tree is going to fail, none is afterwards. *)
Definition memory_kept (s s' : xstate) : Prop := allocs (x_es s) = [] -> allocs (x_es s') = [].

(** No delayed block is lost. *)
Definition delayed_kept (e e' : es_state) : Prop :=
  forall j b v, es_map e j b = Some v -> is_delayed_value v = true -> es_map e' j b = Some v.

Lemma put_gap_spec exts s start len :
  es_inv i exts (x_es s) -> is_hole exts start len ->
  wp (ext4_ext_put_gap_in_cache trylock i start len) (fun _ s' => exists e, s' = s <| x_es := e |> /\ es_inv i exts e /\ memory_kept s s' /\ delayed_kept (x_es s) e) s.
Proof.
  intros Hes [H0 Hl He Hun]. unfold EXT_MAX_BLOCKS in He. unfold ext4_ext_put_gap_in_cache. apply wp_bind. rewrite u32_id by (unfold is_u32; lia).
  eapply wp_mono; [apply (find_delayed_inv exts); [done|lia]|]. cbn beta. intros es s1 (e1 & -> & Hes1 & Hmem1 & Hm & Hf).
  assert (forall n, 0 < n <= len -> (forall b v, start <= b < start + n -> es_map (x_es s) i b = Some v -> is_delayed_value v = false) ->
    wp (es_insert trylock i start n NO_PBLK EXTENT_STATUS_HOLE ;;; kret tt)
      (fun _ s' => exists e, s' = s <| x_es := e |> /\ es_inv i exts e /\ memory_kept s s' /\ delayed_kept (x_es s) e) (s <| x_es := e1 |>)) as Hins.
  { intros n Hn Hno. apply wp_bind. eapply wp_mono; [apply (es_insert_spec trylock exts); [done| |]|].
    - replace n with (start + n - start) by lia. apply hole_insertable; lia.
    - intros b Hb. unfold new_value. rewrite bool_decide_false by (cbn; set_solver). apply Hun. lia.
    - cbn beta. intros r s2 (e2 & -> & Hes2 & _ & Hmem2 & Hfg). apply wp_ret. exists e2. split_and!; [done|done|intros Hmem; cbn in *; auto|].
      intros j b v Hv Hd. cbn in Hfg. assert (j <> i \/ ~ start <= b < start + n) as Hout.
      { destruct (decide (j = i)) as [->|]; [|by left]. right. intros Hb. by rewrite (Hno b v Hb Hv) in Hd. }
      destruct (Hfg j b Hout) as [E|[_ Hnd]]; [by rewrite E, Hm|]. rewrite (Hnd v) in Hd; [done|by rewrite Hm]. }
  unfold first_delayed in Hf. destruct (Z.eqb_spec (es_len es) 0) as [_|Hne]; cbn [negb andb].
  - apply Hins; [lia|]. intros b v Hb. apply Hf. lia.
  - destruct Hf as (V & Hd & Hlt & _ & Hno & _). destruct (Z.leb_spec (es_lblk es) start).
    + apply wp_ret. exists e1. split_and!; [done|done|done|]. intros j b v Hv _. by rewrite Hm.
    + pose proof (v_len _ V). pose proof (v_end _ V). unfold EXT_MAX_BLOCKS in *. rewrite u32_id by (unfold is_u32; lia).
      apply Hins; [lia|]. intros b v Hb. apply Hno. lia.
Qed.
End Gap.

(** ** Lookup of blocks *)

(** The answer to a request: blocks that are all mapped alike and in a row, or blocks of which none is mapped. *)
Definition answers (exts : list ext4_extent) (map : ext4_map_blocks_t) (r : Z * ext4_map_blocks_t) : Prop :=
  let '(retval, map') := r in
  m_lblk map' = m_lblk map /\
  ((0 < retval <= m_len map /\ m_len map' = retval /\
    exists st, ((st = EXTENT_STATUS_WRITTEN /\ m_flags map' = EXT4_MAP_MAPPED) \/ (st = EXTENT_STATUS_UNWRITTEN /\ m_flags map' = EXT4_MAP_UNWRITTEN)) /\
      forall k, 0 <= k < retval -> mapped exts (m_lblk map + k) st (m_pblk map' + k)) \/
   (retval = 0 /\ m_pblk map' = 0 /\ m_flags map' = 0 /\ 0 < m_len map' <= m_len map /\
    forall k, 0 <= k < m_len map' -> unmapped exts (m_lblk map + k))).

(** A request for a lookup. *)
Record request (map : ext4_map_blocks_t) : Prop := {
  rq_lblk : 0 <= m_lblk map < EXT_MAX_BLOCKS;
  rq_len : 0 < m_len map < 4294967296;
  rq_flags : m_flags map = 0;
}.

Lemma in_range_covers root exts s ex b :
  lookup_inv sb zs i root exts s -> ex ∈ exts -> in_range b (ee_block ex) (ext4_ext_get_actual_len ex) = bool_decide (covers_block ex b).
Proof.
  intros Hinv Hin. pose proof (sound_len _ _ _ (lookup_sound _ _ _ _ Hinv Hin)) as [Hb He]. unfold last_block in *. unfold in_range, covers_block, last_block.
  rewrite (u32_id (ee_block ex + _)), u32_id by (unfold is_u32; lia).
  destruct (Z.leb_spec (ee_block ex) b), (Z.leb_spec b (ee_block ex + ext4_ext_get_actual_len ex - 1)); cbn [andb]; symmetry;
    first [apply bool_decide_eq_true_2; lia|apply bool_decide_eq_false_2; lia].
Qed.

(** The answer for a block that an extent covers. *)
Lemma extent_answers root exts s ex map :
  lookup_inv sb zs i root exts s -> ex ∈ exts -> covers_block ex (m_lblk map) -> request map ->
  let newblock := u64 (m_lblk map - ee_block ex + ext4_ext_pblock ex) in
  let allocated := u32 (ext4_ext_get_actual_len ex - (m_lblk map - ee_block ex)) in
  let n := if m_len map <? allocated then m_len map else allocated in
  answers exts map (if negb (ext4_ext_is_unwritten ex)
    then (n, map <| m_flags ::= fun f => Z.lor f EXT4_MAP_MAPPED |> <| m_pblk := newblock |> <| m_len := n |>)
    else handle_unwritten_lookup map allocated newblock).
Proof.
  intros Hinv Hin Hc [Hl Hn Hfl]. pose proof (lookup_sound _ _ _ _ Hinv Hin) as Hs. pose proof (sound_len _ _ _ Hs) as [Hb He].
  destruct Hs as [Hf _]. pose proof (ext_pblock_range ex Hf) as Hp. unfold covers_block, last_block in *. cbn zeta.
  rewrite u64_id, u32_id by (unfold is_u32, is_u64; lia).
  assert (forall k, 0 <= k < ext4_ext_get_actual_len ex - (m_lblk map - ee_block ex) ->
    mapped exts (m_lblk map + k) (ext_status ex) (m_lblk map - ee_block ex + ext4_ext_pblock ex + k)) as Hm.
  { intros k Hk. exists ex. unfold covers_block, last_block, ext_phys. split_and!; [done|lia|lia|done|lia]. }
  unfold handle_unwritten_lookup, ext_status in *. destruct (ext4_ext_is_unwritten ex); cbn [negb]; unfold answers; cbn; rewrite Hfl.
  all: split; [done|left]; destruct (Z.ltb_spec (m_len map) (ext4_ext_get_actual_len ex - (m_lblk map - ee_block ex))); (split_and!; [lia|lia|done|]).
  all: eexists; split; [first [left; by split|right; by split]|]; intros k Hk; apply Hm; lia.
Qed.

Section MapBlocks.
Context `{Rebalance} (trylock : nat -> positive -> bool).

(** A file without extents has no index nodes. *)
Lemma empty_depth root s : lookup_inv sb zs i root [] s -> eh_depth root = 0.
Proof.
  intros Hinv. pose proof (li_tree Hinv) as Ht. pose proof (header_fields root (tree_words _ _ _ _ _ _ _ _ _ _ Ht)) as (_ & _ & Hd).
  destruct (Z.to_nat (eh_depth root)) as [|d] eqn:Ed; [lia|]. destruct Ht as [_ (parts & E & _ & Hne & _ & _ & Hpt)].
  destruct parts as [|part parts]; [done|]. destruct (Hpt 0%nat part eq_refl) as (_ & _ & Hne' & _). by destruct part.
Qed.

(** The answer for a block in a hole. *)
Lemma map_hole_spec root exts s path map :
  lookup_inv sb zs i root exts s -> path_ok i (leaf_path (m_lblk map)) (m_lblk map) s (Z.to_nat (eh_depth root)) root Root path -> request map ->
  unmapped exts (m_lblk map) ->
  wp (hole <- ext4_ext_determine_hole i path (m_lblk map) ;; let '(hole_start, hole_len) := hole in
    ext4_ext_put_gap_in_cache trylock i hole_start hole_len ;;;
    kret (0, map <| m_pblk := 0 |> <| m_len := Z.min (m_len map)
      (if negb (hole_start =? m_lblk map) then u32 (hole_len - (m_lblk map - hole_start)) else hole_len) |>))
    (fun r s' => lookup_inv sb zs i root exts s' /\ memory_kept s s' /\ answers exts map r) s.
Proof.
  intros Hinv Hok [Hlb Hln Hfl] Hun. apply wp_bind. eapply wp_mono; [by apply (determine_hole_spec root exts)|].
  cbn beta. intros [st len] s2 (-> & Hh & Hst). cbn in Hh, Hst. apply wp_bind.
  eapply wp_mono; [apply (put_gap_spec trylock exts); [apply (li_es Hinv)|done]|]. cbn beta. intros _ s2 (e & -> & He & Hmem & _).
  apply wp_ret. split; [by apply lookup_es|]. split; [done|]. destruct Hh as [H0 H1 H2 H3]. unfold EXT_MAX_BLOCKS in *.
  assert ((if negb (st =? m_lblk map) then u32 (len - (m_lblk map - st)) else len) = st + len - m_lblk map) as ->.
  { destruct (Z.eqb_spec st (m_lblk map)); cbn [negb]; [lia|]. rewrite u32_id by (unfold is_u32; lia). lia. }
  unfold answers. cbn. split; [done|right]. split_and!; [done|done|done|lia|lia|]. intros k Hk. apply H3. lia.
Qed.

Lemma ext_map_lookup_spec root exts s map :
  lookup_inv sb zs i root exts s -> request map ->
  wp (ext_map_lookup sb trylock i map) (fun r s' => lookup_inv sb zs i root exts s' /\
    memory_kept s s' /\ (answers exts map r \/ (r.1 = - ENOMEM /\ x_allocs s <> []))) s.
Proof.
  intros Hinv Hrq. pose proof Hrq as [Hlb Hln Hfl]. unfold ext_map_lookup. apply wp_bind.
  eapply wp_mono; [by apply (find_extent_spec sb zs i root exts)|]. cbn beta. intros [err|path] s1 (F1 & Hinv1 & Hr).
  all: assert (memory_kept s s1) as Hm1 by exact (eg_memory _ _ (rf_grows _ _ _ F1)).
  { apply wp_ret. destruct Hr as [-> Hne]. split_and!; [done|done|by right]. }
  destruct (path_hit _ _ _ _ _ Hinv1 Hr ltac:(lia)) as (p & pl & w & Hl & Hp & Hpl & Hw & Hx).
  unfold ext_depth. do 2 apply wp_bind. unfold wp at 1, ext_inode_hdr. rewrite (li_root Hinv1). apply wp_ret, wp_bind.
  unfold read_level at 1. rewrite Hl. apply wp_ret.
  pose proof (map_hole_spec root exts s1 path map Hinv1 Hr Hrq) as Hhole.
  destruct (p_ext p) as [k|] eqn:Ek.
  2: { subst exts. rewrite (empty_depth _ _ Hinv1). change (negb (0 =? 0)) with false. rewrite andb_false_r. apply wp_bind, wp_ret.
       eapply wp_mono; [apply Hhole; intros ex Hin; by apply elem_of_nil in Hin|]. cbn beta. intros r s2 (? & Hmem & ?). split_and!; [done| |by left]. intros E. by apply Hmem, Hm1. }
  rewrite (bool_decide_false (Some k = None)) by discriminate. cbn [andb]. do 2 apply wp_bind. eapply read_hdr_spec; [done..|]. apply wp_ret.
  destruct Hx as (_ & _ & pre & post & nx & Hhit & _ & _). set (ex := extent_at w k) in *.
  assert (ex ∈ exts) as Hin by (rewrite (h_parts _ _ _ _ _ _ Hhit); apply elem_of_app; right; by left).
  rewrite (in_range_covers root exts s1 ex (m_lblk map) Hinv1 Hin). destruct (decide (covers_block ex (m_lblk map))) as [Hc|Hc].
  - rewrite bool_decide_true by done. pose proof (extent_answers root exts s1 ex map Hinv1 Hin Hc Hrq) as Ha. cbn zeta in Ha |- *.
    destruct (negb (ext4_ext_is_unwritten ex)); apply wp_ret; (split_and!; [done|done|by left]).
  - rewrite bool_decide_false by done. eapply wp_mono; [apply Hhole; intros a Ha Hca; apply Hc; by rewrite <-(hit_covers _ _ _ _ _ _ a Hhit Ha Hca)|].
    cbn beta. intros r s2 (? & Hmem & ?). split_and!; [done| |by left]. intros E. by apply Hmem, Hm1.
Qed.

(** The blocks of an answer, as they go to the status tree. *)
Lemma answer_insertable root exts s lblk n p st status :
  lookup_inv sb zs i root exts s -> 0 <= lblk -> 0 < n -> (forall k, 0 <= k < n -> mapped exts (lblk + k) st (p + k)) ->
  (st = EXTENT_STATUS_WRITTEN /\ status = 1) \/ (st = EXTENT_STATUS_UNWRITTEN /\ (status = 2 \/ status = 6)) ->
  insertable lblk n p status /\ (forall b, lblk <= b < lblk + n -> agrees exts b (new_value lblk p status b)).
Proof.
  intros Hinv Hl Hn Hm Hst. destruct (Hm (n - 1) ltac:(lia)) as (ex & Hin & Hc & _ & _).
  pose proof (sound_len _ _ _ (lookup_sound _ _ _ _ Hinv Hin)) as [_ He]. unfold covers_block in Hc.
  destruct (mapped_free _ _ _ _ _ _ Hinv (Hm 0 ltac:(lia))) as [_ Hp0]. destruct (mapped_free _ _ _ _ _ _ Hinv (Hm (n - 1) ltac:(lia))) as [_ Hpn].
  assert (status ∈ [1; 2; 6]) as Hs by set_solver. split.
  - split; [done|done|unfold EXT_MAX_BLOCKS; lia|lia|cbn; set_solver|]. intros _. change (2 ^ 59) with 576460752303423488. lia.
  - intros b Hb. unfold new_value, agrees. rewrite bool_decide_true by done. specialize (Hm (b - lblk) ltac:(lia)). replace (lblk + (b - lblk)) with b in Hm by lia.
    destruct Hst as [[-> ->]|[-> Hs']]; [left|right]; done.
Qed.

Lemma map_from_disk_spec root exts s map reserve :
  lookup_inv sb zs i root exts s -> request map ->
  wp (map_from_disk sb trylock i map reserve) (fun r s' => lookup_inv sb zs i root exts s' /\
    memory_kept s s' /\ (answers exts map r \/ (r.1 = - ENOMEM /\ (x_allocs s <> [] \/ allocs (x_es s) <> [])))) s.
Proof.
  intros Hinv Hrq. unfold map_from_disk. apply wp_bind. eapply wp_mono; [by apply (ext_map_lookup_spec root exts)|]. cbn beta.
  intros [retval map'] s1 (Hinv1 & Hmem1 & [Ha|[E Hne]]).
  2: { cbn in E. subst. apply wp_ret. split_and!; [done|done|]. right. split; [done|by left]. }
  destruct (Z.ltb_spec 0 retval) as [Hpos|].
  2: { apply wp_ret. split_and!; [done|done|]. by left. }
  pose proof Ha as (El & [(Hn & En & st & Hst & Hm)|(? & _)]); [|lia]. pose proof (rq_lblk _ Hrq) as Hlb.
  set (status0 := if negb (Z.land (m_flags map') EXT4_MAP_UNWRITTEN =? 0) then EXTENT_STATUS_UNWRITTEN else EXTENT_STATUS_WRITTEN).
  assert (status0 = st) as E0 by (unfold status0; destruct Hst as [[-> ->]|[-> ->]]; done).
  apply wp_bind, (wp_mono _ (fun status s2 => exists e, s2 = s1 <| x_es := e |> /\ es_inv i exts e /\ memory_kept s1 s2 /\
    ((st = EXTENT_STATUS_WRITTEN /\ status = 1) \/ (st = EXTENT_STATUS_UNWRITTEN /\ (status = 2 \/ status = 6))))).
  - assert (exists e, s1 = s1 <| x_es := e |> /\ es_inv i exts e /\ memory_kept s1 s1 /\
      ((st = EXTENT_STATUS_WRITTEN /\ status0 = 1) \/ (st = EXTENT_STATUS_UNWRITTEN /\ (status0 = 2 \/ status0 = 6)))) as Hsame.
    { exists (x_es s1). split_and!; [by destruct s1|apply (li_es Hinv1)|by intros ?|]. rewrite E0. destruct Hst as [[-> _]|[-> _]]; [by left|right]. split; [done|by left]. }
    destruct (negb reserve && (Z.land status0 EXTENT_STATUS_WRITTEN =? 0)) eqn:Eb; [|by apply wp_ret].
    destruct (mapped_free _ _ _ _ _ _ Hinv1 (Hm (retval - 1) ltac:(lia))) as [_ _]. destruct (Hm (retval - 1) ltac:(lia)) as (ex & Hin & Hc & _).
    pose proof (sound_len _ _ _ (lookup_sound _ _ _ _ Hinv1 Hin)) as [_ He]. unfold covers_block in Hc. rewrite El, En, u32_id by (unfold is_u32; lia).
    apply wp_bind. unfold ext4_find_delalloc_range. apply wp_bind. eapply wp_mono; [apply (find_delayed_inv exts); [apply (li_es Hinv1)|lia]|]. cbn beta.
    intros es s2 (e & -> & He2 & Hmem2 & _ & _). apply wp_ret. apply wp_ret. exists e. split_and!; [done|done|done|]. rewrite E0.
    apply andb_true_iff in Eb as [_ Eb]. rewrite E0 in Eb. destruct Hst as [[-> _]|[-> _]]; [done|]. right. split; [done|]. case_match; auto.
  - cbn beta. intros status s2 (e & -> & He2 & Hmem2 & Hs2). pose proof (lookup_es _ _ _ _ Hinv1 He2) as Hinv2. rewrite El, En.
    destruct (answer_insertable root exts _ _ _ _ _ _ Hinv2 (proj1 Hlb) Hpos Hm Hs2) as [Hins Hag].
    apply wp_bind. eapply wp_mono; [by apply (es_insert_spec trylock exts)|]. cbn beta. intros r s3 (e3 & -> & He3 & Hr & Hmem3 & _). apply wp_ret. cbn in Hr, Hmem3.
    split_and!; [by apply (lookup_es root exts _ e3 Hinv2)|intros E; exact (Hmem3 (Hmem2 (Hmem1 E)))|]. destruct Hr as [->|[-> Hne]]; [by left|right].
    split; [done|]. right. intros E. apply Hne, Hmem2, Hmem1, E.
Qed.

(** What the status tree says is about blocks below the limit, and of one of the five types. *)
Lemma es_map_known e b v : es_ok e -> is_Some (es_inodes e !! i) -> es_map e i b = Some v -> 0 <= b < EXT_MAX_BLOCKS /\ v.1 ∈ es_types.
Proof.
  intros Hok [x Hx] Hv. apply (es_map_says e i x) in Hv as (n & es & Hn & He & Hc & ->); [|done..].
  destruct (ok_valid _ _ (to_ok _ (eo_tree _ Hok _ _ Hx)) n Hn) as (es' & He' & V). assert (es' = es) as -> by congruence.
  split; [|apply (v_type _ V)]. pose proof (v_lblk _ V). pose proof (v_end _ V). unfold covers in Hc. lia.
Qed.

Lemma es_lookup_inv exts s lblk :
  es_inv i exts (x_es s) ->
  wp (on_es (ext4_es_lookup_extent i lblk)) (fun r s' => exists e, s' = s <| x_es := e |> /\ es_inv i exts e /\ memory_kept s s' /\
    match r with Some es => covers es lblk /\ forall b, covers es b -> es_map (x_es s) i b = Some (value es b) | None => True end) s.
Proof.
  intros [Hok [x Hx] Hc]. apply wp_on_es. eapply wp_mono; [apply (wp_keeps alive); [apply alive_lookup|by apply (lookup_spec (x_es s) i x)]|].
  cbn beta. intros r e [(Hok' & Hm & Hr) Hal]. exists e. split_and!; [done| |exact (al_memory _ _ Hal)|].
  - split; [done|apply Hal; by exists x|]. intros b v Hv. rewrite Hm in Hv. by apply Hc.
  - destruct r as [es|]; [|done]. by destruct Hr as (? & ? & _).
Qed.

(** The answer of the status tree is that of the tree on disk. *)
Lemma map_from_es_spec exts s e map es (Q : Z * ext4_map_blocks_t -> xstate -> Prop) :
  es_inv i exts e -> request map -> covers es (m_lblk map) -> (forall b, covers es b -> es_map e i b = Some (value es b)) ->
  (forall r, answers exts map r -> Q r s) -> wp (map_from_es map es) Q s.
Proof.
  intros [Hok Hlive Hc] [Hl Hn Hfl] Hcov Hval HQ. unfold covers in Hcov.
  destruct (es_map_known e (es_lblk es) _ Hok Hlive (Hval (es_lblk es) ltac:(unfold covers; lia))) as [Hr1 Ht].
  destruct (es_map_known e (es_lblk es + es_len es - 1) _ Hok Hlive (Hval (es_lblk es + es_len es - 1) ltac:(unfold covers; lia))) as [Hr2 _]. unfold EXT_MAX_BLOCKS in *.
  unfold map_from_es. rewrite u32_id by (unfold is_u32; lia). set (n := if m_len map <? _ then _ else _).
  assert (0 < n <= m_len map /\ n <= es_len es - (m_lblk map - es_lblk es)) as Hnr by (unfold n; destruct (Z.ltb_spec (m_len map) (es_len es - (m_lblk map - es_lblk es))); lia).
  assert (forall k, 0 <= k < n -> agrees exts (m_lblk map + k) (value es (m_lblk map + k))) as Hag by (intros k Hk; apply Hc, Hval; unfold covers; lia).
  clearbody n. pose proof (pblock_range es) as Hpb. change (2 ^ 59) with 576460752303423488 in Hpb. cbn [fst value] in Ht.
  rewrite u64_id by (unfold is_u64; lia). unfold value, mapped_es in Hag.
  unfold ext4_es_is_written, ext4_es_is_unwritten, ext4_es_is_delayed, ext4_es_is_hole in *. unfold es_types in Ht.
  rewrite !elem_of_cons, elem_of_nil in Ht. generalize dependent (ext4_es_pblock es). intros pb Hag Hpb.
  destruct Ht as [Ht|[Ht|[Ht|[Ht|[Ht|[]]]]]]; rewrite Ht in Hag |- *; cbn in Hag |- *; apply wp_ret, HQ; unfold answers; cbn; rewrite Hfl; (split; [reflexivity|]).
  all: first
    [ right; split_and!; [done|done|done|lia|lia|exact Hag]
    | left; split_and!; [lia|lia|done|];
      first [exists EXTENT_STATUS_WRITTEN; split; [by left|]|exists EXTENT_STATUS_UNWRITTEN; split; [by right|]];
      intros k Hk; replace (pb + m_lblk map - es_lblk es + k) with (pb + (m_lblk map + k - es_lblk es)) by lia;
      by destruct (Hag k Hk) as [[? ?]|[[?|?] ?]] ].
Qed.

(** Mapped blocks pass the check against the system zones. *)
Lemma check_validity_spec root exts s lblk n st map :
  lookup_inv sb zs i root exts s -> 0 < n -> m_len map = n -> (forall k, 0 <= k < n -> mapped exts (lblk + k) st (m_pblk map + k)) ->
  wp (__check_block_validity sb map) (fun r s' => r = 0 /\ s' = s) s.
Proof.
  intros Hinv Hn En Hm. pose proof (fun k Hk => mapped_free _ _ _ _ _ _ Hinv (Hm k Hk)) as Hf.
  destruct (Hf 0 ltac:(lia)) as [(Hfirst & _ & _) Hp0]. destruct (Hf (n - 1) ltac:(lia)) as [(_ & Hend & _) Hpn].
  unfold __check_block_validity. apply wp_bind. rewrite En.
  eapply wp_mono; [apply (data_block_valid_decides sb zs); [lia|lia|lia|apply (li_zones Hinv)]|]. cbn beta.
  intros r s' [(-> & _ & ->)|(_ & Hno & _)]; [by apply wp_ret|]. exfalso. apply Hno. split_and!; [lia|lia|]. intros b Hb.
  destruct (Hf (b - m_pblk map) ltac:(lia)) as [(_ & _ & Hz) _]. apply Hz. lia.
Qed.

Lemma answers_shorter exts map map1 r :
  m_lblk map1 = m_lblk map -> m_len map1 <= m_len map -> answers exts map1 r -> answers exts map r.
Proof.
  intros El En. destruct r as [retval map']. unfold answers. rewrite El. intros (E & [(Hr & H1 & H2)|(H0 & H1 & H2 & H3 & H4)]).
  - split; [done|left]. split; [lia|]. done.
  - split; [done|right]. split_and!; try done; lia.
Qed.

Lemma map_blocks_spec root exts s map reserve :
  lookup_inv sb zs i root exts s -> 0 <= m_lblk map < EXT_MAX_BLOCKS -> 0 < m_len map < 4294967296 ->
  wp (ext4_map_blocks sb trylock i map reserve) (fun r s' => lookup_inv sb zs i root exts s' /\
    (answers exts map r \/ (r.1 = - ENOMEM /\ (x_allocs s <> [] \/ allocs (x_es s) <> [])))) s.
Proof.
  intros Hinv Hl Hn. unfold ext4_map_blocks. cbn [m_len]. set (map1 := if INT_MAX <? _ then _ else _).
  assert (m_lblk map1 = m_lblk map /\ m_flags map1 = 0 /\ 0 < m_len map1 <= m_len map) as (E1 & E2 & E3).
  { unfold map1, INT_MAX. cbn. destruct (Z.ltb_spec 2147483647 (m_len map)); cbn; split_and!; try done; lia. }
  clearbody map1. rewrite (proj2 (Z.leb_gt _ _)) by lia. assert (request map1) as Hrq by (split; [lia|lia|done]).
  apply wp_bind. eapply wp_mono; [apply (es_lookup_inv exts), (li_es Hinv)|]. cbn beta. intros es s1 (e & -> & He & Hmem & Hes).
  apply wp_bind, (wp_mono _ (fun r s' => lookup_inv sb zs i root exts s' /\
    (answers exts map1 r \/ (r.1 = - ENOMEM /\ (x_allocs s <> [] \/ allocs (x_es s) <> []))))).
  - pose proof (lookup_es _ _ _ _ Hinv He) as Hinv1. destruct es as [es|].
    + destruct Hes as [Hc Hv]. apply (map_from_es_spec exts _ (x_es s)); [apply (li_es Hinv)|done|done|done|]. intros r Hr. split; [done|by left].
    + eapply wp_mono; [by apply (map_from_disk_spec root exts)|]. cbn beta. intros r s2 (Hinv2 & _ & Hr). split; [done|].
      destruct Hr as [|[Er [Hne|Hne]]]; [by left|right; split; [done|by left]..|]. right. split; [done|right]. intros E. by apply Hne, Hmem.
  - cbn beta. intros [retval map'] s2 [Hinv2 Hr].
    assert (wp (kret (retval, map')) (fun r s' => lookup_inv sb zs i root exts s' /\
      (answers exts map r \/ (r.1 = - ENOMEM /\ (x_allocs s <> [] \/ allocs (x_es s) <> [])))) s2) as Hout.
    { apply wp_ret. split; [done|]. destruct Hr as [Ha|]; [left|by right]. apply (answers_shorter exts map map1); [done|lia|done]. }
    destruct ((0 <? retval) && negb (Z.land (m_flags map') EXT4_MAP_MAPPED =? 0)) eqn:Ec; [|done].
    apply andb_true_iff in Ec as [Ec%Z.ltb_lt _]. destruct Hr as [(_ & [(Hr & Er & st & _ & Hm)|(? & _)])|[E _]]; [|lia|cbn in E; unfold ENOMEM in E; lia].
    apply wp_bind. eapply wp_mono; [exact (check_validity_spec root exts s2 _ _ st map' Hinv2 Ec Er Hm)|]. cbn beta. intros r s3 [-> ->]. exact Hout.
Qed.
End MapBlocks.
End Lookup.
