(* ===== verification/MapTheorems.v ===== *)
(** * Properties of the lookup in the extent tree

    What [ext4_find_extent], the functions on holes and [ext4_map_blocks] for a lookup promise for a file whose tree on disk
    is sound ([lookup_inv]), what reading a node does when it is not, two ways in which a crafted node passes the check, and a run. *)
From S2P Require Import Prelude Log ExtentStatus ExtentMap ExtentTree ExtentOps ExtentCache ExtentTheorems BlockValidity ExtentNode ExtentFind ExtentWalk.
From S2P Require Import MapBlocks ExtentLookup.

Section Theorems.
Context (sb : ext_sb) (zs : list ext4_system_zone) (i : positive) `{Rebalance}.

(** C26: [ext4_find_extent] on a sound tree returns a path, unless there is no memory for it: one element per level from the root
    on, which names the node, the index entry chosen in it, the block that entry points to, where the node of the next level was read, and the depth; at its
    end is the extent that covers
    the block if there is one, and [p_ext] is NULL only if the file has no extents at all.  Whatever the reads on the way add to the status tree,
    it still agrees with the tree on disk and nothing that it knew is forgotten. *)
Theorem find_extent_exact root exts s block orig flags :
  lookup_inv sb zs i root exts s -> orig_ok orig -> 0 <= block < EXT_MAX_BLOCKS ->
  exists r s', ext4_find_extent sb i block orig flags s = Ret (r, s') /\ lookup_inv sb zs i root exts s' /\ es_grows (x_es s) (x_es s') /\
    match r with
    | inl err => err = - ENOMEM /\ x_allocs s <> []
    | inr path => path_ok i (leaf_path block) block s' (Z.to_nat (eh_depth root)) root Root path /\
        exists p, path !! Z.to_nat (eh_depth root) = Some p /\
        match p_ext p with
        | None => exts = []
        | Some k => exists pl w, p_hdr p = Some pl /\ place_has i s' pl w /\ 0 <= k < eh_entries w /\ extent_at w k ∈ exts /\
            p_block p = ext4_ext_pblock (extent_at w k) /\ (forall ex, ex ∈ exts -> covers_block ex block -> ex = extent_at w k)
        end
    end.
Proof.
  intros Hinv Ho Hb. destruct (proj1 (wp_returns _ _ _) (find_extent_spec sb zs i root exts s block orig flags Hinv Ho)) as (r & s' & Hr & F & Hinv' & Hp).
  exists r, s'. split_and!; [done|done|apply (rf_grows _ _ _ F)|]. destruct r as [err|path]; [done|].
  destruct (path_hit sb zs i _ _ _ _ _ Hinv' Hp ltac:(lia)) as (p & pl & w & Hl & Hh & Hpl & _ & Hx). split; [exact Hp|]. exists p. split; [done|].
  destruct (p_ext p) as [k|]; [|done]. destruct Hx as (Hk & Hpb & pre & post & nx & Hhit & _). exists pl, w. split; [exact Hh|]. split; [exact Hpl|]. split; [exact Hk|].
  split; [|split; [exact Hpb|]].
  - rewrite (h_parts _ _ _ _ _ _ Hhit). apply elem_of_app. right. by left.
  - intros ex Hin Hc. by eapply hit_covers.
Qed.

(** C21: a lookup of blocks answers what the tree on disk says: a positive result is a number of blocks that all lie in a row on
    the disk and are all written or all unwritten, 0 comes with a number of blocks none of which is mapped, whether the answer was taken from
    the status tree, which may have merged or cut extents, or from the tree itself.  The only error is that memory is short.  Afterwards the
    status tree agrees with the tree on disk. *)
Theorem map_blocks_exact trylock root exts s map reserve :
  lookup_inv sb zs i root exts s -> 0 <= m_lblk map < EXT_MAX_BLOCKS -> 0 < m_len map < 4294967296 ->
  exists r s', ext4_map_blocks sb trylock i map reserve s = Ret (r, s') /\ lookup_inv sb zs i root exts s' /\
    (answers exts map r \/ (r.1 = - ENOMEM /\ (x_allocs s <> [] \/ allocs (x_es s) <> []))).
Proof.
  intros Hinv Hl Hn. by apply (proj1 (wp_returns _ _ _)), map_blocks_spec.
Qed.

(** The hole around a block that is not mapped: its blocks are not mapped, the block is one of them, and none of the
    [BUG]s of the function is reached. *)
Theorem determine_hole_exact root exts s block path :
  lookup_inv sb zs i root exts s -> path_ok i (leaf_path block) block s (Z.to_nat (eh_depth root)) root Root path ->
  0 <= block < EXT_MAX_BLOCKS -> unmapped exts block ->
  exists start len, ext4_ext_determine_hole i path block s = Ret ((start, len), s) /\ start <= block < start + len /\ is_hole exts start len.
Proof.
  intros Hinv Hok Hb Hun. destruct (proj1 (wp_returns _ _ _) (determine_hole_spec sb zs i root exts s block path Hinv Hok Hb Hun)) as ([st len] & s' & Hr & -> & Hh & Hst).
  exists st, len. exact (conj Hr (conj Hst Hh)).
Qed.

(** Caching a hole never hides a delayed block, neither one in the hole nor one anywhere else, even if
    memory is short and the shrinker runs. *)
Theorem put_gap_keeps_delayed trylock exts s start len :
  es_inv i exts (x_es s) -> is_hole exts start len ->
  exists e, ext4_ext_put_gap_in_cache trylock i start len s = Ret (tt, s <| x_es := e |>) /\ es_inv i exts e /\ delayed_kept (x_es s) e.
Proof.
  intros He Hh. destruct (proj1 (wp_returns _ _ _) (put_gap_spec i trylock exts s start len He Hh)) as ([] & s' & Hr & e & -> & He' & _ & Hd). by exists e.
Qed.

(** Reading a node that cannot be read or that fails the check returns an error; nothing of it gets into the status tree, its
    buffer does not count as verified, and a failed check is reported. *)
Theorem read_block_rejects root s b d flags :
  zones_inv (x_zones s) zs -> x_data s !! i = Some root -> x_allocs s = [] -> b_verified (buf_of s b) = false ->
  match view sb s b with None => True | Some w => is_words w /\ ~ node_ok sb zs i (eh_depth root) w d end ->
  exists r s', __read_extent_tree_block sb i b d flags s = Ret (r, s') /\ x_es s' = x_es s /\ b_verified (buf_of s' b) = false /\
    match view sb s b with
    | None => r = - EIO /\ s' = s
    | Some _ => (r = - EFSCORRUPTED \/ r = - EFSBADCRC) /\ (x_errors s < x_errors s')%nat
    end.
Proof.
  intros Hz Hd Hal Hv Hbad. apply wp_returns. unfold __read_extent_tree_block. apply wp_bind. unfold wp at 1, x_alloc. rewrite Hal. cbn [negb].
  apply wp_bind, wp_read_buf, wp_bind. destruct (view sb s b) as [w|] eqn:Ew.
  - destruct Hbad as [Hw Hno]. eapply wp_mono; [exact (submit_read_spec sb s b w Ew)|]. cbn beta. intros r s1 (-> & F & Ees & L & Ev & Ex).
    cbn [Z.ltb Z.compare]. apply wp_bind, wp_read_buf. rewrite Ev, Hv. cbn [andb]. apply loaded_buf in L as [_ ->]. apply wp_bind.
    eapply wp_mono; [apply (check_spec sb zs i w d root); [by rewrite (rf_data _ _ _ F)|exact Hw|by rewrite (rf_zones _ _ _ F)]|].
    cbn beta. intros r s2 [(_ & Hok & _)|(Hr & _ & Herr & Hx)]; [done|].
    assert (r <> 0) as Hr0 by (destruct Hr as [->| ->]; unfold EFSCORRUPTED, EFSBADCRC; lia). rewrite (proj2 (Z.eqb_neq _ _) Hr0). cbn [negb]. apply wp_ret.
    split_and!; [rewrite (er_es _ _ Herr); exact Ees| |exact Hr|lia]. unfold buf_of. rewrite (er_bufs _ _ Herr). fold (buf_of s1 b). congruence.
  - assert (b_uptodate (buf_of s b) = false /\ s_disk sb b = None) as [-> Ed].
    { unfold view in Ew. unfold buf_of. destruct (x_bufs s !! b) as [bh|]; [destruct (b_uptodate bh)|]; done. }
    unfold bh_submit_read. rewrite Ed. apply wp_ret. change (- EIO <? 0) with true. apply wp_ret. by split_and!.
Qed.
End Theorems.

(** ** A run *)

#[local] Existing Instance unbalanced.

(** A node with the given depth and entries in a block of 1024 bytes, which has room for 84. *)
Definition node_words (size : nat) (depth max : Z) (entries : list (Z * Z * Z)) : list Z :=
  let w := [62218 + 65536 * Z.of_nat (length entries); max + 65536 * depth; 0] ++ concat (map (fun e => [e.1.1; e.1.2; e.2]) entries) in
  w ++ replicate (size - length w) 0.

(** Blocks 0 to 9 of the file are blocks 1000 to 1009, 20 to 24 are 1100 to 1104 and unwritten, 100 to 107 are 1200 to 1207. *)
Definition leaf_a : list Z := node_words 256 0 84 [(0, 10, 1000); (20, 32768 + 5, 1100)].
Definition leaf_b : list Z := node_words 256 0 84 [(100, 8, 1200)].
Definition root_ab : list Z := node_words 15 1 4 [(0, 200, 0); (100, 201, 0)].
Definition disk_ab (b : Z) : option (list Z) := if b =? 200 then Some leaf_a else if b =? 201 then Some leaf_b else None.
Definition sb_ab : ext_sb := mk_ext_sb 1 8192 1024 false (fun _ _ => 0) disk_ab.
Definition file_ab : list ext4_extent := leaf_extents leaf_a ++ leaf_extents leaf_b.
Definition start_ab : xstate := mk_xstate no_zones es_start {[1%positive := root_ab]} ∅ [] 0.

Lemma words_check w : forallb (fun z => (0 <=? z) && (z <? 4294967296)) w = true -> is_words w.
Proof.
  intros H. apply Forall_forall. intros z Hz%list_elem_of_In. rewrite forallb_forall in H. specialize (H z Hz). unfold is_u32. lia.
Qed.
Ltac is_words_tac := apply words_check; vm_compute; reflexivity.
Ltac free_tac := split_and!; [vm_compute; done|vm_compute; discriminate|intros b _ (z & Hz & _); by apply elem_of_nil in Hz].
Ltac ext_ok_tac := split; [by vm_compute|by vm_compute|free_tac].

Lemma leaf_a_ok : node_ok sb_ab [] 1%positive 1 leaf_a 0.
Proof.
  split; try (by vm_compute). intros _. change (leaf_extents leaf_a) with [mk_ext 0 10 0 1000; mk_ext 20 32773 0 1100].
  split; [ext_ok_tac|]. split; [by left|]. split; [ext_ok_tac|]. split; [by right|]. done.
Qed.
Lemma leaf_b_ok : node_ok sb_ab [] 1%positive 1 leaf_b 0.
Proof.
  split; try (by vm_compute). intros _. change (leaf_extents leaf_b) with [mk_ext 100 8 0 1200].
  split; [ext_ok_tac|]. split; [by left|]. done.
Qed.
Lemma root_ab_ok : node_ok sb_ab [] 1%positive 1 root_ab 1.
Proof.
  split; try (by vm_compute). intros _. change (node_indexes root_ab) with [mk_idx 0 200 0; mk_idx 100 201 0].
  constructor; [free_tac|]. constructor; [free_tac|constructor].
Qed.

Lemma start_ab_ok : lookup_inv sb_ab [] 1%positive root_ab file_ab start_ab.
Proof.
  split; [split; cbn; [constructor|constructor|split; constructor]|done| | |exact root_ab_ok].
  - split; [exact es_start_ok|by eexists|]. intros b v Hv. by vm_compute in Hv.
  - change (Z.to_nat (eh_depth root_ab)) with 1%nat. split; [is_words_tac|]. exists [leaf_extents leaf_a; leaf_extents leaf_b].
    change (eh_entries root_ab) with 2. split_and!; [done|done|done|by vm_compute| |].
    + intros a b Ha Hb. assert (a = 0) as -> by lia. assert (b = 1) as -> by lia. by vm_compute.
    + intros [|[|k]] part Hk; [| |done]; injection Hk as <-; eexists; (split; [by vm_compute|]).
      * split; [done|]. split; [exact leaf_a_ok|]. split; [is_words_tac|]. split; [done|]. change (leaf_extents leaf_a) with [mk_ext 0 10 0 1000; mk_ext 20 32773 0 1100].
        split; [repeat constructor|]. repeat constructor; by vm_compute.
      * split; [done|]. split; [exact leaf_b_ok|]. split; [is_words_tac|]. split; [done|]. change (leaf_extents leaf_b) with [mk_ext 100 8 0 1200].
        split; [repeat constructor|]. repeat constructor; by vm_compute.
Qed.

Definition run {A} (m : XM A) (s : xstate) : option A := match m s with Ret (a, _) => Some a | Fault _ => None end.

Lemma find_extent_exact_witness :
  exists path s' p, ext4_find_extent sb_ab 1%positive 22 None 0 start_ab = Ret (inr path, s') /\
    path !! 1%nat = Some p /\ p_ext p = Some 1 /\ p_block p = 1100 /\ coherent file_ab 1%positive (x_es s').
Proof.
  destruct (find_extent_exact sb_ab [] 1%positive root_ab file_ab start_ab 22 None 0 start_ab_ok I ltac:(unfold EXT_MAX_BLOCKS; lia))
    as (r & s' & Hr & Hinv & _ & Hm).
  assert (match run (ext4_find_extent sb_ab 1%positive 22 None 0) start_ab with
    | Some (inr path) => option_map (fun p => (p_ext p, p_block p)) (path !! 1%nat) | _ => None end = Some (Some 1, 1100)) as E by by vm_compute.
  unfold run in E. rewrite Hr in E. destruct r as [err|path]; [done|]. destruct Hm as (_ & p & Hp & _). change (Z.to_nat (eh_depth root_ab)) with 1%nat in Hp.
  rewrite Hp in E. injection E as E1 E2. exists path, s', p. exact (conj Hr (conj Hp (conj E1 (conj E2 (ei_coherent (li_es Hinv)))))).
Defined.

(** The lookup of 100 blocks from 22 on finds three unwritten ones. *)
Lemma map_blocks_exact_witness :
  exists r s', ext4_map_blocks sb_ab no_locks 1%positive (mk_map 0 22 100 0) false start_ab = Ret (r, s') /\
    r = (3, mk_map 1102 22 3 EXT4_MAP_UNWRITTEN) /\ answers file_ab (mk_map 0 22 100 0) r /\ coherent file_ab 1%positive (x_es s').
Proof.
  destruct (map_blocks_exact sb_ab [] 1%positive no_locks root_ab file_ab start_ab (mk_map 0 22 100 0) false start_ab_ok) as (r & s' & Hr & Hinv & Ha);
    [cbn; unfold EXT_MAX_BLOCKS; lia|cbn; lia|].
  assert (run (ext4_map_blocks sb_ab no_locks 1%positive (mk_map 0 22 100 0) false) start_ab = Some (3, mk_map 1102 22 3 EXT4_MAP_UNWRITTEN)) as E by by vm_compute.
  unfold run in E. rewrite Hr in E. injection E as ->. eexists _, s'. split_and!; [exact Hr|done| |apply Hinv].
  destruct Ha as [Ha|[E _]]; [exact Ha|]. by vm_compute in E.
Defined.

Lemma put_gap_keeps_delayed_witness :
  exists e, ext4_ext_put_gap_in_cache no_locks 1%positive 10 10 start_ab = Ret (tt, start_ab <| x_es := e |>) /\ coherent file_ab 1%positive e.
Proof.
  destruct (put_gap_keeps_delayed 1%positive no_locks file_ab start_ab 10 10) as (e & Hr & He & _); [apply start_ab_ok| |exists e; split; [done|apply He]].
  split; [lia|lia|unfold EXT_MAX_BLOCKS; lia|]. intros b Hb ex Hin Hc. change file_ab with [mk_ext 0 10 0 1000; mk_ext 20 32773 0 1100; mk_ext 100 8 0 1200] in Hin.
  rewrite !elem_of_cons, elem_of_nil in Hin. destruct Hin as [->|[->|[->|[]]]]; unfold covers_block, last_block in Hc; cbn in Hc; lia.
Defined.

Lemma determine_hole_exact_witness :
  exists path s', ext4_find_extent sb_ab 1%positive 15 None 0 start_ab = Ret (inr path, s') /\
    exists start len, ext4_ext_determine_hole 1%positive path 15 s' = Ret ((start, len), s') /\ start <= 15 < start + len.
Proof.
  destruct (proj1 (wp_returns _ _ _) (find_extent_spec sb_ab [] 1%positive root_ab file_ab start_ab 15 None 0 start_ab_ok I))
    as ([err|path] & s' & Hr & _ & Hinv & Hp); [destruct Hp as [_ Hne]; by destruct Hne|].
  exists path, s'. split; [done|]. destruct (determine_hole_exact sb_ab [] 1%positive root_ab file_ab s' 15 path Hinv Hp) as (st & len & Hh & Hst & _);
    [unfold EXT_MAX_BLOCKS; lia| |exists st, len; exact (conj Hh Hst)].
  intros ex Hin Hc. change file_ab with [mk_ext 0 10 0 1000; mk_ext 20 32773 0 1100; mk_ext 100 8 0 1200] in Hin.
  rewrite !elem_of_cons, elem_of_nil in Hin. destruct Hin as [->|[->|[->|[]]]]; unfold covers_block, last_block in Hc; cbn in Hc; lia.
Defined.

(** Block 200 is a leaf: read as an index node it is rejected. *)
Lemma read_block_rejects_witness :
  exists s', __read_extent_tree_block sb_ab 1%positive 200 1 0 start_ab = Ret (- EFSCORRUPTED, s') /\ x_es s' = es_start.
Proof.
  destruct (read_block_rejects sb_ab [] 1%positive root_ab start_ab 200 1 0) as (r & s' & Hr & He & _ & _); [apply start_ab_ok|done|done|done| |].
  - split; [is_words_tac|]. intros [_ Hd _ _ _ _ _ _]. by vm_compute in Hd.
  - assert (run (__read_extent_tree_block sb_ab 1%positive 200 1 0) start_ab = Some (- EFSCORRUPTED)) as E by by vm_compute.
    unfold run in E. rewrite Hr in E. injection E as ->. by exists s'.
Defined.

(** ** What the check lets through *)

(** The test for overlapping extents is skipped when the extent before ends at block 0: two extents that start at block 0 pass. *)
Definition leaf_twice : list Z := node_words 256 0 84 [(0, 1, 1000); (0, 5, 1100)].
Theorem overlapping_extents_pass :
  run (__ext4_ext_check sb_ab 1%positive leaf_twice 0) start_ab = Some 0 /\ ~ leaf_sorted (leaf_extents leaf_twice).
Proof.
  split; [by vm_compute|]. change (leaf_extents leaf_twice) with [mk_ext 0 1 0 1000; mk_ext 0 5 0 1100]. intros [H _]%sorting.StronglySorted_cons.
  apply Forall_cons in H as [H _]. by vm_compute in H.
Qed.

(** Looking a block up in such a leaf stops the machine: the length of the hole that is cached between the two extents is negative and
    becomes a huge one, and the next search in the status tree meets the [BUG_ON] of [ext4_es_end]. *)
Definition root_twice : list Z := node_words 15 1 4 [(0, 200, 0)].
Theorem overlapping_extents_crash :
  ext4_map_blocks (mk_ext_sb 1 8192 1024 false (fun _ _ => 0) (fun _ => Some leaf_twice)) no_locks 1%positive (mk_map 0 3 1 0) false
    (start_ab <| x_data := {[1%positive := root_twice]} |>) = Fault Assert.
Proof. by vm_compute. Qed.

(** An index node without entries passes the check as well, and the lookup follows what happens to lie in the place of its first entry. *)
Definition root_empty : list Z := [62218; 4 + 65536; 0; 0; 200] ++ replicate 10 0.
Theorem empty_index_followed :
  run (__ext4_ext_check sb_ab 1%positive root_empty 1) (start_ab <| x_data := {[1%positive := root_empty]} |>) = Some 0 /\
  exists path, run (ext4_find_extent sb_ab 1%positive 22 None 0) (start_ab <| x_data := {[1%positive := root_empty]} |>) = Some (inr path) /\
    option_map p_block (path !! 1%nat) = Some 1100.
Proof. split; [by vm_compute|]. eexists. split; by vm_compute. Qed.
