(* ===== verification/ExtentNeighbours.v ===== *)
(** * The neighbours of a block

    [ext4_ext_search_left] and [ext4_ext_search_right] of kernel/fs/ext4/extents.c, with which the allocator looks for blocks next to
    those that a file has already: on a sound tree they find the nearest extents before and behind a block that is not mapped. *)
From stdpp Require Import sorting.
From S2P Require Import Prelude Log ExtentStatus ExtentMap ExtentTree ExtentOps ExtentCache BlockValidity ExtentNode ExtentFind ExtentWalk.
From S2P Require Import MapBlocks ExtentLookup MapTheorems.

#[local] Opaque ext4_ext_binsearch ext4_ext_binsearch_idx extent_at index_at ext4_ext_pblock ext4_idx_pblock word.

Section Neighbours.
Context (sb : ext_sb) (zs : list ext4_system_zone) (i : positive) `{Rebalance}.

(** The nearest extent before [block], if there is one: its last block, and where it is on the disk. *)
Definition left_of (exts : list ext4_extent) (block l p : Z) : Prop :=
  (exists pre ex post, exts = pre ++ ex :: post /\ last_block ex < block /\ (forall a, a ∈ post -> block < ee_block a) /\
     l = last_block ex /\ p = ext_phys ex l) \/
  ((forall a, a ∈ exts -> block < ee_block a) /\ l = block /\ p = 0).

(** The nearest extent behind [block], if there is one. *)
Definition right_of (exts : list ext4_extent) (block l p : Z) (found : option ext4_extent) : Prop :=
  match found with
  | Some ex => exists pre post, exts = pre ++ ex :: post /\ (forall a, a ∈ pre -> last_block a < block) /\ block < ee_block ex /\
      l = ee_block ex /\ p = ext4_ext_pblock ex
  | None => (forall a, a ∈ exts -> last_block a < block) /\ l = block /\ p = 0
  end.

(** Both functions refuse a block that lies between two leaves and that the index of the right one covers nevertheless. *)
Definition between_leaves (exts : list ext4_extent) (block : Z) : Prop :=
  exists a b, a ∈ exts /\ b ∈ exts /\ last_block a < block /\ block < ee_block b.

Lemma nil_all (P : ext4_extent -> Prop) a : a ∈ [] -> P a.
Proof. by intros ?%elem_of_nil. Qed.

(** ** The first leaf of a subtree *)

Lemma leaf_first w : leaf_extents w <> [] -> 0 <= eh_entries w -> exists rest, leaf_extents w = extent_at w 0 :: rest.
Proof.
  intros Hne Hn. destruct (leaf_extents w) as [|ex rest] eqn:E; [done|]. exists rest. f_equal.
  assert (eh_entries w <> 0) by (intros E0; pose proof (leaf_length w) as Hl; rewrite E, E0 in Hl; done).
  pose proof (leaf_lookup w 0 ltac:(lia)) as Hl. rewrite E in Hl. by injection Hl.
Qed.

Lemma first_leaf_spec root exts d : forall s b w lo hi pre part post,
  lookup_inv sb zs i root exts s -> view sb s b = Some w -> node_ok sb zs i (eh_depth root) w (Z.of_nat d) ->
  tree_at sb zs i (view sb s) (eh_depth root) d w lo hi part -> part <> [] -> exts = pre ++ part ++ post ->
  wp (first_leaf sb i b d) (fun r s' => read_frame sb s s' /\ lookup_inv sb zs i root exts s' /\
    match r with
    | inl err => err = - ENOMEM /\ x_allocs s <> []
    | inr wl => exists rest, part = extent_at wl 0 :: rest
    end) s.
Proof.
  induction d as [|d IH]; intros s b w lo hi pre part post Hinv Hv Hok Ht Hne Hex; cbn [first_leaf]; apply wp_bind.
  all: destruct (lookup_sorted _ _ _ _ _ _ Hinv) as [Hs Hl]; pose proof (tree_words _ _ _ _ _ _ _ _ _ _ Ht) as Hw.
  all: eapply wp_mono; [apply (read_block_spec sb zs i root exts s b w); [apply Hinv|apply Hinv|apply Hinv|exact Hv|exact Hw|exact Hok| |exact Hs|exact Hl]|].
  1: intros _; destruct Ht as [_ (-> & _)]; by exists pre, post. 2: lia.
  all: cbn beta; intros r s1 (F1 & He1 & [[-> L1]|[-> Hal]]); assert (lookup_inv sb zs i root exts s1) as Hinv1 by by eapply lookup_frame.
  2,4: apply wp_ret; exact (conj F1 (conj Hinv1 (conj eq_refl Hal))).
  all: cbn [Z.ltb Z.compare]; apply wp_bind, wp_read_buf; apply loaded_buf in L1 as [_ ->].
  - apply wp_ret. split; [exact F1|]. split; [exact Hinv1|]. destruct Ht as [_ (-> & _)]. apply leaf_first; [done|]. apply (header_fields w Hw).
  - pose proof (tree_ext _ _ _ _ _ _ _ _ _ _ _ (rf_view _ _ _ F1) Ht) as [_ (parts & -> & _ & Hparts & _ & _ & Hch)].
    destruct parts as [|part parts]; [done|]. change (mjoin (part :: parts)) with (part ++ mjoin parts) in *. rewrite <-app_assoc in Hex. destruct (Hch 0%nat part eq_refl) as (w' & Hv' & Hne' & Hok' & Ht').
    eapply wp_mono; [eapply (IH s1 _ w' _ _ pre part (mjoin parts ++ post) Hinv1 Hv' Hok' Ht' Hne' Hex)|].
    cbn beta. intros r s2 (F2 & Hinv2 & Hr). split; [by transitivity s1|]. split; [exact Hinv2|]. destruct r as [err|wl].
    + destruct Hr as [-> Hal]. split; [done|]. intros E. by apply Hal, (rf_allocs _ _ _ F1).
    + destruct Hr as [rest ->]. by exists (rest ++ mjoin parts).
Qed.

(** ** The extent at the end of the path *)

(** What both functions find at the end of the path. *)
Record at_extent (root : list Z) (exts : list ext4_extent) (s : xstate) (block : Z) (path : list ext4_ext_path) (k : Z) (w : list Z)
    (pre lpre lpost post : list ext4_extent) : Prop := {
  ae_ext : exists p, path !! Z.to_nat (eh_depth root) = Some p /\ p_ext p = Some k /\ exists pl, p_hdr p = Some pl /\ place_has i s pl w;
  ae_entry : 0 <= k < eh_entries w;
  ae_leaf : leaf_extents w = lpre ++ extent_at w k :: lpost;
  ae_parts : exts = pre ++ (lpre ++ extent_at w k :: lpost) ++ post;
  ae_number : length lpre = Z.to_nat k;
  ae_before a : a ∈ pre -> last_block a < block;
  ae_first : block < ee_block (extent_at w k) -> k = 0 /\ lpre = [];
  ae_behind a : a ∈ lpost ++ post -> block < ee_block a;
  ae_sides : sides sb zs i s (eh_depth root) (Z.to_nat (eh_depth root)) (Z.to_nat (eh_depth root)) path pre post (kret None) None;
}.

Lemma path_extent root exts s block path :
  lookup_inv sb zs i root exts s -> path_ok i (leaf_path block) block s (Z.to_nat (eh_depth root)) root Root path -> block < EXT_MAX_BLOCKS ->
  (exts = [] /\ eh_depth root = 0 /\ exists p, path !! 0%nat = Some p /\ p_ext p = None) \/
  exists k w pre lpre lpost post, at_extent root exts s block path k w pre lpre lpost post.
Proof.
  intros Hinv Hok Hb.
  destruct (path_tree sb zs i _ block s (eh_depth root) _ _ _ _ _ _ _ _ (kret EXT_MAX_BLOCKS) (kret None) None (le_n _) (li_tree Hinv) Hok Hb eq_refl eq_refl)
    as (p & pl & w & lo & hi & pre & post & [Hl Hh Hpl Hw [_ Hx _ _] E Hne Hbf Hbh Hbl Hsp Hst] & _ & _ & Hsd).
  assert (Forall (fun e => ee_block e <= last_block e) (leaf_extents w)) as Hlen by (eapply Forall_impl; [exact Hsp|]; intros e [[]]; lia).
  pose proof (choose_extent w block Hst Hlen ltac:(pose proof (header_fields w Hw); lia)) as Hc. rewrite <-Hx in Hc. destruct (p_ext p) as [k|] eqn:Ek.
  - right. destruct Hc as (Hk & lpre & lpost & Hlp & [Ep Lb La]). exists k, w, pre, lpre, lpost, post. split; [|exact Hk|exact Ep| |exact Hlp|exact Hbf| | |exact Hsd].
    + exists p. exact (conj Hl (conj Ek (ex_intro _ pl (conj Hh Hpl)))).
    + by rewrite E, <-Ep.
    + intros Hlt. assert (lpre = []) as ->; [|cbn in Hlp; split; [lia|done]]. destruct lpre as [|a lpre]; [done|]. pose proof (Lb a (list_elem_of_here _ _)). lia.
    + intros a [Ha|Ha]%elem_of_app; [by apply La|]. pose proof (Hbh a Ha). lia.
  - left. assert (exts = []) as E0 by (destruct exts; [reflexivity|exfalso; apply Hne; [discriminate|exact Hc]]). destruct (decide (eh_depth root = 0)) as [Ed|Hd].
    + split; [exact E0|]. split; [exact Ed|]. rewrite Ed in Hl. exists p. exact (conj Hl Ek).
    + by destruct (deep_nonempty _ _ _ _ _ _ Hinv Hd).
Qed.

(** The extent at hand is not the block's: it starts behind it, and then it is the first of its leaf, or ends before it. *)
Lemma extent_apart root exts s block path k w pre lpre lpost post :
  lookup_inv sb zs i root exts s -> unmapped exts block -> at_extent root exts s block path k w pre lpre lpost post ->
  let ex := extent_at w k in
  0 <= ee_block ex <= last_block ex /\ last_block ex + 1 < 4294967296 /\ u32 (ee_block ex + ext4_ext_get_actual_len ex) = last_block ex + 1 /\
  u64 (ext4_ext_pblock ex + ext4_ext_get_actual_len ex - 1) = ext_phys ex (last_block ex) /\
  ((block < ee_block ex /\ k = 0 /\ exts = pre ++ ex :: lpost ++ post) \/ (last_block ex < block /\ exts = (pre ++ lpre) ++ ex :: lpost ++ post)).
Proof.
  intros Hinv Hun [_ _ _ E _ _ Hf _ _] ex. assert (exts = (pre ++ lpre) ++ ex :: lpost ++ post) as E' by (rewrite E; by rewrite <-!app_assoc).
  assert (ex ∈ exts) as Hin by (rewrite E'; apply elem_of_app; right; by left). destruct (lookup_sound sb zs i _ _ _ _ Hinv Hin) as [Hfl Hok].
  pose proof (sound_len _ _ _ (conj Hfl Hok)) as [Hl He]. pose proof (ext_pblock_range ex Hfl). pose proof (actual_len_range ex (ef_len _ Hfl)).
  split; [done|]. split; [done|]. unfold last_block, ext_phys in *. split; [rewrite u32_id by (unfold is_u32; lia); lia|].
  split; [rewrite u64_id by (unfold is_u64; lia); lia|]. destruct (decide (block < ee_block ex)) as [Hlt|Hge].
  - left. destruct (Hf Hlt) as [Hk0 El]. split_and!; [done|done|]. rewrite E', El, app_nil_r. done.
  - right. split; [|done]. destruct (decide (block <= last_block ex)) as [Hc|Hc]; [|unfold last_block in Hc; lia]. exfalso. apply (Hun ex Hin). split; [lia|done].
Qed.

(** The path is the leftmost one of the tree, or there are extents before the leaf. *)
Lemma leftmost_spec root exts s block path k w pre lpre lpost post :
  at_extent root exts s block path k w pre lpre lpost post -> k = 0 -> exts = pre ++ extent_at w k :: lpost ++ post -> block < ee_block (extent_at w k) ->
  (leftmost path (Z.to_nat (eh_depth root)) s = Ret (true, s) /\ pre = [] /\ forall a, a ∈ exts -> block < ee_block a) \/
  (leftmost path (Z.to_nat (eh_depth root)) s = Ret (false, s) /\ between_leaves exts block).
Proof.
  intros Hae _ E Hlt. destruct (ae_sides _ _ _ _ _ _ _ _ _ _ _ Hae) as [([] & Hb & Hpre) _]; [left|right]; (split; [done|]).
  - rewrite (proj1 Hpre eq_refl) in E |- *. split; [done|]. intros a Ha. rewrite E in Ha. cbn in Ha.
    apply elem_of_cons in Ha as [->|Ha]; [done|by apply (ae_behind _ _ _ _ _ _ _ _ _ _ _ Hae)].
  - destruct pre as [|a pre]; [discriminate (proj2 Hpre eq_refl)|]. exists a, (extent_at w k). rewrite E. split_and!.
    + by left.
    + apply elem_of_app. right. by left.
    + apply (ae_before _ _ _ _ _ _ _ _ _ _ _ Hae). by left.
    + done.
Qed.

(** The tests at the end of the path, which both functions begin with. *)
Lemma search_begin {A} root exts s block path (m0 : XM A) (m1 : list Z -> Z -> XM A) (Q : A -> xstate -> Prop) :
  lookup_inv sb zs i root exts s -> path_ok i (leaf_path block) block s (Z.to_nat (eh_depth root)) root Root path -> block < EXT_MAX_BLOCKS ->
  (exts = [] -> wp m0 Q s) ->
  (forall k w pre lpre lpost post, at_extent root exts s block path k w pre lpre lpost post -> wp (m1 w k) Q s) ->
  wp (p <- read_level path (Z.to_nat (eh_depth root)) ;;
      if (Z.to_nat (eh_depth root) =? 0)%nat && bool_decide (p_ext p = None) then m0
      else match p_ext p with None => kfault Oops | Some k => eh <- read_hdr i path (Z.to_nat (eh_depth root)) ;; m1 eh k end) Q s.
Proof.
  intros Hinv Hok Hb H0 H1. destruct (path_extent _ _ _ _ _ Hinv Hok Hb) as [(E & Ed & p & Hp & Hx)|(k & w & pre & lpre & lpost & post & Hae)].
  - rewrite Ed. change (Z.to_nat 0) with 0%nat. apply wp_bind. unfold read_level at 1. rewrite Hp. apply wp_ret. rewrite Hx. by apply H0.
  - destruct (ae_ext _ _ _ _ _ _ _ _ _ _ _ Hae) as (p & Hp & Hx & pl & Hh & Hpl). apply wp_bind. unfold read_level at 1. rewrite Hp. apply wp_ret.
    rewrite Hx, (bool_decide_false (Some k = None)), andb_false_r by discriminate. apply wp_bind. eapply read_hdr_spec; [exact Hp|exact Hh|exact Hpl|].
    exact (H1 _ _ _ _ _ _ Hae).
Qed.

Definition left_result (exts : list ext4_extent) (block : Z) (s : xstate) (r : Z * Z * Z) (s' : xstate) : Prop :=
  (exists l p, r = (0, l, p) /\ s' = s /\ left_of exts block l p) \/
  (between_leaves exts block /\ r = (- EFSCORRUPTED, block, 0) /\ (x_errors s < x_errors s')%nat).

Lemma search_left_spec root exts s block path :
  lookup_inv sb zs i root exts s -> path_ok i (leaf_path block) block s (Z.to_nat (eh_depth root)) root Root path ->
  0 <= block < EXT_MAX_BLOCKS -> unmapped exts block -> wp (ext4_ext_search_left i path block) (left_result exts block s) s.
Proof.
  intros Hinv Hok Hb Hun. unfold ext4_ext_search_left. apply wp_bind. eapply path_depth_spec; [exact Hok|]. eapply (search_begin root exts s block path); [exact Hinv|exact Hok|lia|..].
  { intros ->. apply wp_ret. left. exists block, 0. split; [reflexivity|]. split; [reflexivity|]. right. split; [apply nil_all|split; reflexivity]. }
  intros k w pre lpre lpost post Hae. destruct (extent_apart _ _ _ _ _ _ _ _ _ _ _ Hinv Hun Hae) as (Hl & He & E32 & E64 & Hcase).
  cbv zeta. rewrite E32, E64. set (ex := extent_at w k) in *. destruct Hcase as [(Hlt & Hk0 & E)|(Hlt & E)].
  - rewrite (proj2 (Z.ltb_lt _ _)), (proj2 (Z.eqb_eq k 0)) by done. cbn [negb].
    destruct (leftmost_spec _ _ _ _ _ _ _ _ _ _ _ Hae Hk0 E Hlt) as [(Hlm & _ & Hall)|[Hlm Hbet]]; (eapply wp_exec; [exact Hlm|]).
    + apply wp_ret. left. exists block, 0. split; [reflexivity|]. split; [reflexivity|]. right. split; [exact Hall|split; reflexivity].
    + apply wp_bind, wp_bind, wp_ret, wp_ret. right. split_and!; [done|done|cbn; lia].
  - rewrite (proj2 (Z.ltb_ge block (ee_block ex))), (proj2 (Z.ltb_ge block (last_block ex + 1))) by lia.
    rewrite u32_id by (unfold is_u32, last_block in *; lia). apply wp_ret. left. exists (last_block ex), (ext_phys ex (last_block ex)).
    split_and!; [done|done|]. left. exists (pre ++ lpre), ex, (lpost ++ post).
    split_and!; [done|done|apply (ae_behind _ _ _ _ _ _ _ _ _ _ _ Hae)|done|done].
Qed.

Definition right_result (root : list Z) (exts : list ext4_extent) (block : Z) (s : xstate) (r : Z * Z * Z * option ext4_extent) (s' : xstate) : Prop :=
  (exists l p found, r = (0, l, p, found) /\ lookup_inv sb zs i root exts s' /\ right_of exts block l p found) \/
  (r = (- ENOMEM, block, 0, None) /\ lookup_inv sb zs i root exts s' /\ x_allocs s <> []) \/
  (between_leaves exts block /\ r = (- EFSCORRUPTED, block, 0, None) /\ (x_errors s < x_errors s')%nat).

Lemma right_found root exts block s s' pre ex post :
  lookup_inv sb zs i root exts s' -> exts = pre ++ ex :: post -> (forall a, a ∈ pre -> last_block a < block) -> block < ee_block ex ->
  right_result root exts block s (0, ee_block ex, ext4_ext_pblock ex, Some ex) s'.
Proof. intros Hinv E Hb Ha. left. exists (ee_block ex), (ext4_ext_pblock ex), (Some ex). split_and!; [done|done|]. by exists pre, post. Qed.

(** All extents up to the one at hand end before the block. *)
Lemma before_all root exts s block path k w pre lpre lpost post a :
  lookup_inv sb zs i root exts s -> at_extent root exts s block path k w pre lpre lpost post -> last_block (extent_at w k) < block ->
  a ∈ pre ++ lpre ++ [extent_at w k] -> last_block a < block.
Proof.
  intros Hinv Hae Hlt [Ha|[Ha|Ha]%elem_of_app]%elem_of_app; [by apply (ae_before _ _ _ _ _ _ _ _ _ _ _ Hae)| |].
  - destruct (lookup_sorted _ _ _ _ _ _ Hinv) as [Hs Hl]. rewrite (ae_parts _ _ _ _ _ _ _ _ _ _ _ Hae), <-app_assoc in Hs.
    apply sorted_app_extents in Hs as (_ & (_ & _ & Hs)%sorted_app_extents & _). pose proof (Hs a (extent_at w k) Ha (list_elem_of_here _ _)).
    rewrite Forall_forall in Hl. assert (extent_at w k ∈ exts) as Hin.
    { rewrite (ae_parts _ _ _ _ _ _ _ _ _ _ _ Hae). apply elem_of_app. right. apply elem_of_app. left. apply elem_of_app. right. by left. }
    pose proof (Hl _ Hin). lia.
  - apply list_elem_of_singleton in Ha as ->. done.
Qed.

(** Behind the last extent of a leaf: the first extent of the next leaf. *)
Lemma next_leaf_spec root exts s block path k w pre lpre post :
  lookup_inv sb zs i root exts s -> at_extent root exts s block path k w pre lpre [] post -> last_block (extent_at w k) < block ->
  exts = (pre ++ lpre) ++ extent_at w k :: post ->
  wp (ix <- index_right i path (Z.to_nat (eh_depth root)) ;;
      match ix with
      | None => kret (0, block, 0, None)
      | Some (d, b) =>
        r <- first_leaf sb i b (Z.to_nat (eh_depth root) - d - 1) ;;
        match r with
        | inl err => kret (err, block, 0, None)
        | inr eh => kret (0, ee_block (extent_at eh 0), ext4_ext_pblock (extent_at eh 0), Some (extent_at eh 0))
        end
      end) (right_result root exts block s) s.
Proof.
  intros Hinv Hae Hlt E. destruct (si_right _ _ _ _ _ _ _ _ _ _ _ _ (ae_sides _ _ _ _ _ _ _ _ _ _ _ Hae)) as (ix & Hix & Hnone & Hsome).
  rewrite Nat.sub_diag in Hix. eapply wp_exec; [rewrite index_right_from; exact Hix|].
  assert (forall a, a ∈ (pre ++ lpre) ++ [extent_at w k] -> last_block a < block) as Hbef
    by (intros a Ha; rewrite <-app_assoc in Ha; by eapply before_all).
  destruct post as [|e post].
  - rewrite (Hnone eq_refl). apply wp_ret. left. exists block, 0, None. split_and!; [done|done|]. split_and!; [|done|done]. by rewrite E.
  - specialize (Hsome ltac:(discriminate)). destruct ix as [[d b]|]; [|done]. destruct Hsome as (part & rest & w2 & lo & hi & Ep & Hne & Hv & Hok & Ht).
    apply wp_bind. assert (exts = ((pre ++ lpre) ++ [extent_at w k]) ++ part ++ rest) as E' by (rewrite E, Ep, <-!app_assoc; done).
    eapply wp_mono; [exact (first_leaf_spec root exts _ s b w2 lo hi _ part rest Hinv Hv Hok Ht Hne E')|].
    cbn beta. intros [err|wl] s' (F & Hinv' & Hr); apply wp_ret.
    + destruct Hr as [-> Hal]. right. left. exact (conj eq_refl (conj Hinv' Hal)).
    + destruct Hr as [tl ->]. cbn [app] in E'. apply (right_found root exts block s s' _ _ (tl ++ rest) Hinv' E' Hbef).
      apply (ae_behind _ _ _ _ _ _ _ _ _ _ _ Hae). rewrite Ep. by left.
Qed.

Lemma search_right_spec root exts s block path :
  lookup_inv sb zs i root exts s -> path_ok i (leaf_path block) block s (Z.to_nat (eh_depth root)) root Root path ->
  0 <= block < EXT_MAX_BLOCKS -> unmapped exts block -> wp (ext4_ext_search_right sb i path block) (right_result root exts block s) s.
Proof.
  intros Hinv Hok Hb Hun. unfold ext4_ext_search_right. cbv zeta. apply wp_bind. eapply path_depth_spec; [exact Hok|].
  eapply (search_begin root exts s block path); [exact Hinv|exact Hok|lia|..].
  { intros ->. apply wp_ret. left. exists block, 0, None. split; [reflexivity|]. split; [exact Hinv|]. split; [apply nil_all|split; reflexivity]. }
  intros k w pre lpre lpost post Hae. destruct (extent_apart _ _ _ _ _ _ _ _ _ _ _ Hinv Hun Hae) as (Hl & He & E32 & _ & Hcase).
  cbv zeta beta. rewrite E32. set (ex := extent_at w k) in *. destruct Hcase as [(Hlt & Hk0 & E)|(Hlt & E)].
  - rewrite (proj2 (Z.ltb_lt _ _)), (proj2 (Z.eqb_eq k 0)) by done. cbn [negb].
    destruct (leftmost_spec _ _ _ _ _ _ _ _ _ _ _ Hae Hk0 E Hlt) as [(Hlm & Hpre & Hall)|[Hlm Hbet]]; (eapply wp_exec; [exact Hlm|]).
    + apply wp_ret, (right_found root exts block s s pre ex (lpost ++ post) Hinv E); [|exact Hlt]. rewrite Hpre. apply nil_all.
    + apply wp_bind, wp_bind, wp_ret, wp_ret. right. right. split_and!; [done|done|cbn; lia].
  - rewrite (proj2 (Z.ltb_ge block (ee_block ex))), (proj2 (Z.ltb_ge block (last_block ex + 1))) by lia. unfold last_entry.
    pose proof (ae_leaf _ _ _ _ _ _ _ _ _ _ _ Hae) as Elf. pose proof (f_equal length Elf) as Hlen. rewrite leaf_length, length_app in Hlen. cbn in Hlen.
    pose proof (ae_number _ _ _ _ _ _ _ _ _ _ _ Hae) as Hnum. pose proof (ae_entry _ _ _ _ _ _ _ _ _ _ _ Hae) as Hk.
    destruct (Z.eqb_spec k (eh_entries w - 1)) as [El|Hne]; cbn [negb].
    + destruct lpost; [|cbn in Hlen; lia]. by eapply next_leaf_spec.
    + destruct lpost as [|e lpost]; [cbn in Hlen; lia|]. pose proof (leaf_lookup w (k + 1) ltac:(lia)) as Hn. rewrite Elf, lookup_app_r in Hn by lia.
      replace (Z.to_nat (k + 1) - length lpre)%nat with 1%nat in Hn by lia. injection Hn as ->. apply wp_ret.
      apply (right_found root exts block s s ((pre ++ lpre) ++ [ex]) _ (lpost ++ post) Hinv).
      * rewrite E, <-!app_assoc. done.
      * intros a Ha. rewrite <-app_assoc in Ha. by eapply before_all.
      * apply (ae_behind _ _ _ _ _ _ _ _ _ _ _ Hae). by left.
Qed.

(** For a block that is not mapped [ext4_ext_search_left] and [ext4_ext_search_right] return the nearest extents of the file before
    and behind it, in this leaf or another one, or say that there is none.  They fail only if memory is short, or the block
    lies between two leaves and the index of the right one starts at or before it. *)
Theorem search_neighbours_exact root exts s block path :
  lookup_inv sb zs i root exts s -> path_ok i (leaf_path block) block s (Z.to_nat (eh_depth root)) root Root path ->
  0 <= block < EXT_MAX_BLOCKS -> unmapped exts block ->
  (exists r s', ext4_ext_search_left i path block s = Ret (r, s') /\ left_result exts block s r s') /\
  (exists r s', ext4_ext_search_right sb i path block s = Ret (r, s') /\ right_result root exts block s r s').
Proof.
  intros Hinv Hok Hb Hun. split.
  - by apply (proj1 (wp_returns _ _ _)), (search_left_spec root).
  - by apply (proj1 (wp_returns _ _ _)), search_right_spec.
Qed.
End Neighbours.

(** ** A run *)

#[local] Existing Instance unbalanced.
#[local] Transparent ext4_ext_binsearch ext4_ext_binsearch_idx extent_at index_at ext4_ext_pblock ext4_idx_pblock word.

(** Block 50 of the file: before it is block 24, unwritten at 1104, behind it block 100, in the second leaf. *)
Lemma search_neighbours_exact_witness :
  exists path s1, ext4_find_extent sb_ab 1%positive 50 None 0 start_ab = Ret (inr path, s1) /\
    ext4_ext_search_left 1%positive path 50 s1 = Ret ((0, 24, 1104), s1) /\
    exists s2, ext4_ext_search_right sb_ab 1%positive path 50 s1 = Ret ((0, 100, 1200, Some (mk_ext 100 8 0 1200)), s2).
Proof.
  destruct (proj1 (wp_returns _ _ _) (find_extent_spec sb_ab [] 1%positive root_ab file_ab start_ab 50 None 0 start_ab_ok I))
    as ([err|path] & s1 & Hr & _ & Hinv & Hp); [destruct Hp as [_ Hne]; by destruct Hne|].
  exists path, s1. split; [exact Hr|]. assert (unmapped file_ab 50) as Hun.
  { intros ex Hin Hc. change file_ab with [mk_ext 0 10 0 1000; mk_ext 20 32773 0 1100; mk_ext 100 8 0 1200] in Hin.
    rewrite !elem_of_cons, elem_of_nil in Hin. destruct Hin as [->|[->|[->|[]]]]; destruct Hc as [H1%Z.leb_le H2%Z.leb_le]; vm_compute in H1, H2; congruence. }
  destruct (search_neighbours_exact sb_ab [] 1%positive root_ab file_ab s1 50 path Hinv Hp) as [(r1 & s2 & Hl & Hres) (r2 & s3 & Hrt & _)]; [unfold EXT_MAX_BLOCKS; lia|exact Hun|].
  assert (match ext4_find_extent sb_ab 1%positive 50 None 0 start_ab with
    | Ret (inr path, s1) => run (ext4_ext_search_left 1%positive path 50) s1 = Some (0, 24, 1104) /\
        run (ext4_ext_search_right sb_ab 1%positive path 50) s1 = Some (0, 100, 1200, Some (mk_ext 100 8 0 1200))
    | _ => False end) as E by (vm_compute; split; reflexivity).
  rewrite Hr in E. unfold run in E. rewrite Hl, Hrt in E. destruct E as [E1 E2]. injection E1 as E1. injection E2 as E2. rewrite E1 in *. rewrite E2 in *.
  destruct Hres as [(l & p & _ & Es & _)|(_ & Ebad & _)]; [|discriminate Ebad]. rewrite Es in Hl. split; [exact Hl|]. exists s3. exact Hrt.
Defined.
