(* ===== verification/ExtentPrecache.v ===== *)
(** * Reading a whole extent tree ahead

    [ext4_ext_precache] of kernel/fs/ext4/extents.c: a walk through all nodes of the tree that keeps its place in an array of paths,
    so that the status tree learns all extents of the file.  On a sound tree it comes to its end and, if the status tree knew nothing about the
    inode and memory suffices, every mapped block is known afterwards; if a node cannot be read, buffers are left behind. *)
From stdpp Require Import sorting.
From S2P Require Import Prelude Log ExtentStatus ExtentMap ExtentTree ExtentOps ExtentShrink ExtentRemove ExtentCache ExtentAlive BlockValidity.
From S2P Require Import ExtentNode ExtentFind ExtentWalk MapTheorems.

Section Precache.
Context (sb : ext_sb) `{Rebalance}.

(** The loop; the level at hand is [n - 1], and the result is [ret] with the array, or [None] if [fuel] was not enough. *)
Fixpoint precache_loop (fuel : nat) (i : positive) (depth n : nat) (path : list ext4_ext_path) : XM (option (Z * list ext4_ext_path)) :=
  match fuel with
  | O => kret None
  | S fuel =>
    match n with
    | O => kret (Some (0, path))
    | S k =>
      next <- (if (k =? depth)%nat then kret None
        else
          p <- read_level path k ;;
          eh <- read_hdr i path k ;;
          match p_idx p with
          | None => kfault Oops
          | Some ix => kret (if eh_entries eh - 1 <? ix then None else Some (ix, ext4_idx_pblock (index_at eh ix)))
          end) ;;
      match next with
      | None => precache_loop fuel i depth k (alter (fun p => p <| p_bh := None |>) k path)
      | Some (ix, b) =>
        let path := alter (fun p => p <| p_idx := Some (ix + 1) |>) k path in
        err <- __read_extent_tree_block sb i b (Z.of_nat (depth - k - 1)) EXT4_EX_FORCE_CACHE ;;
        if err <? 0 then kret (Some (err, path))
        else precache_loop fuel i depth (S (S k))
          (alter (fun p => p <| p_bh := Some b |> <| p_hdr := Some (Block b) |> <| p_idx := Some 0 |>) (S k) path)
      end
    end
  end.

(** The result, and the array as it is freed: a [p_bh] that is still set is a reference that is never given back. *)
Definition ext4_ext_precache (fuel : nat) (i : positive) : XM (option (Z * list ext4_ext_path)) :=
  depth <- ext_depth i ;;
  ok <- x_alloc ;;
  if negb ok then kret (Some (- ENOMEM, []))
  else
    let path := replicate (Z.to_nat (depth + 1)) path_zero in
    if depth =? 0 then kret (Some (0, path))
    else
      eh <- ext_inode_hdr i ;;
      ret <- __ext4_ext_check sb i eh depth ;;
      let path := alter (fun p => p <| p_hdr := Some Root |>) 0%nat path in
      if negb (ret =? 0) then kret (Some (ret, ext4_ext_drop_refs path))
      else
        r <- precache_loop fuel i (Z.to_nat depth) 1 (alter (fun p => p <| p_idx := Some 0 |>) 0%nat path) ;;
        match r with
        | None => kret None
        | Some (ret, path) =>
          on_es (modify_ei i (fun x => x <| precached := true |>)) ;;;
          kret (Some (ret, ext4_ext_drop_refs path))
        end.
End Precache.

(** ** Caching in order *)

Section Fills.
Context (sb : ext_sb) (zs : list ext4_system_zone) (i : positive) `{Rebalance}.

Definition known (e : es_state) (b : Z) : Prop := es_map e i b <> None.
Definition knows (e : es_state) (exts : list ext4_extent) : Prop := forall ex b, ex ∈ exts -> covers_block ex b -> known e b.

(** Memory suffices, and nothing is known from block [c] on. *)
Record fresh (c : Z) (e : es_state) : Prop := {
  fr_ok : es_ok e;
  fr_live : is_Some (es_inodes e !! i);
  fr_memory : allocs e = [];
  fr_none b : c <= b -> es_map e i b = None;
}.
Lemma fresh_mono c c' e : fresh c e -> c <= c' -> fresh c' e.
Proof. intros [] Hc. split; try done. intros b Hb. apply fr_none0. lia. Qed.

Lemma cache_extent_onward e c lblk len pblk status :
  fresh c e -> c <= lblk -> insertable lblk len pblk status ->
  wp (ext4_es_cache_extent i lblk len pblk status) (fun _ e' =>
    fresh (lblk + len) e' /\ (forall b, lblk <= b < lblk + len -> known e' b) /\ (forall b, known e b -> known e' b)) e.
Proof.
  intros [Hok [x Hx] Hmem Hnone] Hc Hins. pose proof (ia_len _ _ _ _ Hins).
  eapply wp_mono; [apply (wp_keeps alive); [apply alive_cache_extent|by apply (cache_extent_spec e i x)]|].
  cbn beta. intros _ e' ((Hok' & Hf) & [Hlive Hmem']). destruct Hf as [[_ [(b & Hb & Hk)|Hk]]|[_ Hm]]; [|done|].
  { exfalso. apply Hk, Hnone. lia. }
  split_and!.
  - split; [done|by apply Hlive|auto|]. intros b Hb. rewrite Hm, decide_False by lia. apply Hnone. lia.
  - intros b Hb. unfold known. by rewrite Hm, decide_True.
  - intros b Hb. unfold known. rewrite Hm. by case_decide.
Qed.

Lemma cache_leaf_fills hi part : forall prev c s,
  Forall (ext_sound sb zs) part -> leaf_sorted part -> Forall (fun ex => c <= ee_block ex /\ last_block ex < hi) part -> c <= hi ->
  fresh c (x_es s) -> 0 <= c -> prev = 0 \/ prev = c ->
  wp (cache_leaf i prev part) (fun _ s' =>
    fresh hi (x_es s') /\ knows (x_es s') part /\ forall b, known (x_es s) b -> known (x_es s') b) s.
Proof.
  induction part as [|ex part IH]; intros prev c s Hsnd Hs Hsp Hhi Hf Hc0 Hprev; cbn [cache_leaf].
  { apply wp_ret. split_and!; [by eapply fresh_mono|by intros ? ? ?%elem_of_nil|done]. }
  apply Forall_cons in Hsnd as [Hex Hsnd], Hsp as [[Hc Hlast] Hsp]. apply StronglySorted_cons in Hs as [Hall Hs].
  pose proof (sound_len _ _ _ Hex) as [Hb He]. unfold last_block in Hb, He, Hlast.
  apply wp_bind, (wp_mono _ (fun _ s1 => fresh (ee_block ex) (x_es s1) /\ forall b, known (x_es s) b -> known (x_es s1) b)).
  - assert (fresh (ee_block ex) (x_es s)) as Hf' by by eapply fresh_mono. destruct (Z.eqb_spec prev 0) as [|Hp0]; cbn [negb andb]; [by apply wp_ret|].
    destruct (Z.eqb_spec prev (ee_block ex)) as [|Hne]; cbn [negb]; [by apply wp_ret|]. destruct Hprev as [| ->]; [done|].
    rewrite u32_id by (unfold is_u32; lia). apply wp_on_es. eapply wp_mono; [apply (cache_extent_onward _ c); [done|lia|apply hole_insertable; lia]|].
    cbn beta. intros _ e (Hf1 & _ & Hk). split; [|done]. cbn. by replace (ee_block ex) with (c + (ee_block ex - c)) by lia.
  - cbn beta. intros _ s1 [Hf1 Hk1]. apply wp_bind, wp_on_es.
    eapply wp_mono; [apply (cache_extent_onward _ (ee_block ex)); [done|lia|apply (extent_insertable sb zs); apply Hex]|]. cbn beta. intros _ e (Hf2 & Hin & Hk2).
    rewrite u32_id by (unfold is_u32; lia).
    eapply wp_mono; [apply (IH _ (ee_block ex + ext4_ext_get_actual_len ex)); [done|done| |lia|done|lia|by right]|].
    + apply Forall_forall. intros a Ha. rewrite Forall_forall in Hsp, Hall. pose proof (Hall a Ha) as Hlt. pose proof (Hsp a Ha). unfold last_block in Hlt at 1. lia.
    + cbn beta. cbn [x_es]. intros _ s3 (Hf3 & Hkn & Hk3). split_and!; [done| |auto].
      intros a b [->|Ha]%elem_of_cons Hcov; [|by apply (Hkn a)]. apply Hk3, Hin. unfold covers_block, last_block in Hcov. lia.
Qed.

Lemma wp_both {A} (m : XM A) (Q1 Q2 : A -> xstate -> Prop) s : wp m Q1 s -> wp m Q2 s -> wp m (fun a s' => Q1 a s' /\ Q2 a s') s.
Proof. unfold wp. by destruct (m s) as [[a s']|]. Qed.
End Fills.

(** ** The walk through the tree *)

Section Loop.
Context (sb : ext_sb) (zs : list ext4_system_zone) (i : positive) `{Rebalance}.
Context (root : list Z) (exts : list ext4_extent) (depth : nat) (Fresh : Prop).

(** The extents [pre] are known, and nothing from [c] on. *)
Definition progress (pre : list ext4_extent) (c : Z) (e : es_state) : Prop := fresh i c e /\ knows i e pre.
(** When a node is entered: the extents of a leaf are cached when it is read. *)
Definition entered (d : nat) (pre part : list ext4_extent) (lo hi : Z) (e : es_state) : Prop :=
  match d with O => progress (pre ++ part) hi e | S _ => progress pre lo e end.

Lemma read_child s d b w lo hi pre part post :
  lookup_inv sb zs i root exts s -> view sb s b = Some w -> node_ok sb zs i (eh_depth root) w (Z.of_nat d) ->
  tree_at sb zs i (view sb s) (eh_depth root) d w lo hi part -> part <> [] -> exts = pre ++ part ++ post -> 0 <= lo ->
  (Fresh -> progress pre lo (x_es s)) ->
  wp (__read_extent_tree_block sb i b (Z.of_nat d) EXT4_EX_FORCE_CACHE) (fun r s' =>
    read_frame sb s s' /\ lookup_inv sb zs i root exts s' /\
    ((r = 0 /\ loaded s' b w /\ (Fresh -> entered d pre part lo hi (x_es s'))) \/ (r = - ENOMEM /\ x_allocs s <> []))) s.
Proof.
  intros Hinv Hv Hok Ht Hne Hex Hlo HF. destruct (lookup_sorted _ _ _ _ _ _ Hinv) as [Hs Hl]. destruct (tree_sorted _ _ _ _ _ _ _ _ _ _ Ht) as [Hsp Hspan].
  pose proof (tree_words _ _ _ _ _ _ _ _ _ _ Ht) as Hw.
  eapply wp_mono; [apply (read_block_caches sb zs i root exts (fun e => Fresh -> progress (pre ++ part) hi e)); [apply Hinv..|done|done|done|]|].
  - intros E0 s4 E4. destruct d as [|d]; [|lia]. destruct Ht as [_ (-> & _)]. apply wp_both.
    + eapply (cache_leaf_spec sb zs i exts post _ pre); [done|done|done| |rewrite E4; apply Hinv|by left]. by eapply leaf_sound.
    + assert (Forall (ext_sound sb zs) (leaf_extents w)) as Hsnd by by eapply leaf_sound.
      assert (Fresh -> wp (cache_leaf i 0 (leaf_extents w)) (fun _ s5 => progress (pre ++ leaf_extents w) hi (x_es s5)) s4) as Hfill.
      { intros HFr. destruct (HF HFr) as [Hf Hkn]. rewrite <-E4 in Hf, Hkn.
        eapply wp_mono; [apply (cache_leaf_fills sb zs i hi _ 0 lo); [done|done| | |done|done|by left]|].
        - eapply Forall_impl; [exact Hspan|]. intros ex [[? ?] ?]. lia.
        - pose proof (span_nonempty _ _ _ Hne Hspan). lia.
        - cbn beta. intros _ s5 (Hf5 & Hk5 & Hkeep). split; [done|]. intros ex bl [Hin|Hin]%elem_of_app Hc; [by apply Hkeep, (Hkn ex)|by apply (Hk5 ex)]. }
      assert (wp (cache_leaf i 0 (leaf_extents w)) (fun _ s5 => True) s4) as Hrun.
      { eapply wp_mono; [eapply (cache_leaf_spec sb zs i exts post _ pre)|]; [done|done|done|done|rewrite E4; apply Hinv|by left|done]. }
      unfold wp in *. destruct (cache_leaf i 0 (leaf_extents w) s4) as [[a s5]|]; [exact Hfill|done].
  - cbn beta. intros r s' (F & He & Hr). assert (lookup_inv sb zs i root exts s') as Hinv' by by eapply lookup_frame. split_and!; [done|done|].
    destruct Hr as [(-> & L & Hsame & HP)|Hr]; [left|by right]. split_and!; [done|done|]. intros HFr. destruct d as [|d]; [by apply HP|].
    cbn. rewrite Hsame by lia. by apply HF.
Qed.

Context (s0 : xstate) (Q : option (Z * list ext4_ext_path) -> xstate -> Prop).
Hypothesis out_of_memory : x_allocs s0 <> [] -> forall s path, read_frame sb s0 s -> lookup_inv sb zs i root exts s -> Q (Some (- ENOMEM, path)) s.

(** No reference to a buffer is held. *)
Definition released (path : list ext4_ext_path) : Prop := Forall (fun p => p_bh p = None) path.

Lemma leave_level path k p : path !! k = Some p -> released (drop (S k) path) -> released (drop k (alter (fun p => p <| p_bh := None |>) k path)).
Proof.
  intros Hp Hr. rewrite (drop_S _ (p <| p_bh := None |>) k) by (rewrite list_lookup_alter_eq, Hp; done). constructor; [done|]. by rewrite drop_alter_lt by lia.
Qed.

(** From the state [s0] on the walk gets back to level [k - 1] with at least [fuel]. *)
Definition goes_up (s0 : xstate) (fuel k : nat) (pre : list ext4_extent) (c : Z) (path : list ext4_ext_path) : Prop :=
  forall f s path', (fuel <= f)%nat -> read_frame sb s0 s -> lookup_inv sb zs i root exts s -> length path' = length path -> take k path' = take k path ->
    released (drop k path') -> (Fresh -> progress pre c (x_es s)) -> wp (precache_loop sb f i depth k path') Q s.

Definition walks (d : nat) : Prop := forall fuel f k w lo hi pre part post p pl path s,
  (k + d = depth)%nat -> read_frame sb s0 s -> lookup_inv sb zs i root exts s ->
  tree_at sb zs i (view sb s) (eh_depth root) d w lo hi part -> part <> [] -> exts = pre ++ part ++ post -> 0 <= lo ->
  place_has i s pl w -> path !! k = Some p -> p_hdr p = Some pl -> p_idx p = Some 0 -> length path = S depth -> released (drop (S k) path) ->
  (Fresh -> entered d pre part lo hi (x_es s)) ->
  (fuel + 2 * length part * (d + 1) <= S f)%nat -> goes_up s fuel k (pre ++ part) hi path ->
  wp (precache_loop sb f i depth (S k) path) Q s.

Lemma walk_leaf : walks 0.
Proof.
  intros fuel f k w lo hi pre part post p pl path s Hk F Hinv Ht Hne Hex Hlo Hpl Hp Hh Hi Hlen Hrel HF Hfuel Hup.
  destruct part as [|ex part]; [done|]. destruct f as [|f]; [cbn in Hfuel; lia|]. cbn [precache_loop]. rewrite (proj2 (Nat.eqb_eq _ _)) by lia.
  apply wp_bind, wp_ret. apply Hup; [cbn in Hfuel; lia|done|done|by rewrite length_alter|by rewrite take_alter_ge|by eapply leave_level|done].
Qed.

(** The entries of a node that are left, from number [length parts - m] on. *)
Lemma walk_entries d fuel k w lo hi pre parts post pl :
  walks d -> (k + S d = depth)%nat -> exts = pre ++ mjoin parts ++ post -> 0 <= lo -> lo <= idx_key w 0 ->
  Z.of_nat (length parts) = eh_entries w -> (forall a b, 0 <= a < b -> b < eh_entries w -> idx_key w a < idx_key w b) ->
  forall m f ix p path s, (ix + m = length parts)%nat -> read_frame sb s0 s -> lookup_inv sb zs i root exts s ->
  (forall j part, parts !! j = Some part ->
    exists w', view sb s (ext4_idx_pblock (index_at w (Z.of_nat j))) = Some w' /\ part <> [] /\ node_ok sb zs i (eh_depth root) w' (Z.of_nat d) /\
      tree_at sb zs i (view sb s) (eh_depth root) d w' (idx_key w (Z.of_nat j)) (idx_end w (Z.of_nat j) hi) part) ->
  place_has i s pl w -> path !! k = Some p -> p_hdr p = Some pl -> p_idx p = Some (Z.of_nat ix) -> length path = S depth -> released (drop (S k) path) ->
  (Fresh -> progress (pre ++ mjoin (take ix parts)) (if (ix <? length parts)%nat then idx_key w (Z.of_nat ix) else hi) (x_es s)) ->
  (fuel + 1 + 2 * length (mjoin (drop ix parts)) * (d + 1) <= f)%nat -> goes_up s fuel k (pre ++ mjoin parts) hi path ->
  wp (precache_loop sb f i depth (S k) path) Q s.
Proof.
  intros Hwalk Hk Hex Hlo Hlo0 Hlen Hkeys. induction m as [|m IH]; intros f ix p path s Hm F Hinv Hparts Hpl Hp Hh Hi Hpath Hrel HF Hfuel Hup.
  all: destruct f as [|f]; [lia|]; cbn [precache_loop]; rewrite (proj2 (Nat.eqb_neq k depth)) by lia; apply wp_bind, wp_bind.
  all: unfold read_level at 1; rewrite Hp; apply wp_ret, wp_bind; eapply read_hdr_spec; [done..|]; rewrite Hi; apply wp_ret.
  - rewrite (proj2 (Z.ltb_lt _ _)) by lia. rewrite (proj2 (Nat.ltb_ge _ _)), take_ge in HF by lia.
    apply Hup; [lia|done|done|by rewrite length_alter|by rewrite take_alter_ge|by eapply leave_level|done].
  - rewrite (proj2 (Z.ltb_ge _ _)) by lia. rewrite (proj2 (Nat.ltb_lt _ _)) in HF by lia. destruct (lookup_lt_is_Some_2 parts ix) as [part Hpart]; [lia|].
    destruct (Hparts ix part Hpart) as (w' & Hv & Hne & Hok & Ht). apply wp_bind. replace (depth - k - 1)%nat with d by lia.
    assert (exts = (pre ++ mjoin (take ix parts)) ++ part ++ (mjoin (drop (S ix) parts) ++ post)) as Hex'
      by (rewrite Hex, (join_split _ _ _ Hpart); by rewrite <-!app_assoc).
    assert (0 <= idx_key w (Z.of_nat ix)) as Hlo'.
    { destruct ix as [|ix]; [change (Z.of_nat 0) with 0; lia|]. pose proof (Hkeys 0 (Z.of_nat (S ix))). lia. }
    eapply wp_mono; [exact (read_child s d _ w' _ _ _ part _ Hinv Hv Hok Ht Hne Hex' Hlo' HF)|].
    cbn beta. intros r s1 (F1 & Hinv1 & [(-> & L1 & HF1)|[-> Hal]]).
    2: { apply wp_ret. apply out_of_memory; [|by transitivity s|done]. intros E. by apply Hal, (rf_allocs _ _ _ F). }
    cbn [Z.ltb Z.compare]. set (f2 := fun p : ext4_ext_path => _). set (f1 := fun p : ext4_ext_path => _).
    destruct (path_step path k f1 f2 p Hp) as (p1 & Hp2 & Hkeep); [lia|].
    set (path2 := alter f2 (S k) (alter f1 k path)) in *. assert (length path2 = length path) as Hlen2 by (unfold path2; by rewrite !length_alter).
    assert (read_frame sb s0 s1) as F01 by by transitivity s.
    pose proof (tree_ext _ _ _ _ _ _ _ _ _ _ _ (rf_view _ _ _ F1) Ht) as Ht1.
    assert (length (mjoin (drop ix parts)) = length part + length (mjoin (drop (S ix) parts)))%nat as El by (rewrite (drop_S _ _ _ Hpart); apply length_app).
    rewrite El in Hfuel.
    refine (Hwalk (fuel + 1 + 2 * length (mjoin (drop (S ix) parts)) * (d + 1))%nat f (S k) w' _ _ _ part _ (f2 p1) (Block _) path2 s1
      _ F01 Hinv1 Ht1 Hne Hex' Hlo' L1 Hp2 eq_refl eq_refl _ _ HF1 _ _); [lia|lia| |nia|].
    { unfold path2. by rewrite !drop_alter_lt, <-(Nat.add_1_r (S k)), <-drop_drop by lia; apply Forall_drop. }
    intros f' s2 path' Hf' F2 Hinv2 Hlen' Htk Hrel' HF2. destruct (Hkeep path' Htk) as [Hp' Htk']; [lia|].
    assert (read_frame sb s s2) as Fs by by transitivity s1. assert (read_frame sb s0 s2) as F02 by by transitivity s.
    eapply (IH f' (S ix) (f1 p) path' s2); [lia|done|done| | |done|done| |lia|done| |lia|].
    + intros j q Hq. destruct (Hparts j q Hq) as (w'' & ? & ? & ? & ?). exists w''. rewrite (rf_view _ _ _ Fs). split_and!; [done..|]. by eapply tree_ext; [apply (rf_view _ _ _ Fs)|].
    + exact (place_frame _ _ _ _ _ _ Fs Hpl).
    + unfold f1. cbn. f_equal. lia.
    + intros HFr. specialize (HF2 HFr). rewrite (take_S_r _ _ _ Hpart), join_app. cbn. rewrite app_nil_r, app_assoc.
      replace (if (S ix <? length parts)%nat then _ else _) with (idx_end w (Z.of_nat ix) hi); [exact HF2|].
      unfold idx_end. replace (Z.of_nat (S ix)) with (Z.of_nat ix + 1) by lia. destruct (Z.ltb_spec (Z.of_nat ix + 1) (eh_entries w)), (Nat.ltb_spec (S ix) (length parts)); (reflexivity || lia).
    + intros f'' s3 path3 ? F3 ? ? ? ? ?. apply Hup; [lia|by transitivity s2|done|congruence|congruence|done|done].
Qed.

Lemma walk_tree d : walks d.
Proof.
  induction d as [|d IH]; [apply walk_leaf|].
  intros fuel f k w lo hi pre part post p pl path s Hk F Hinv [Hw Ht] Hne Hex Hlo Hpl Hp Hh Hi Hlen Hrel HF Hfuel Hup.
  destruct Ht as (parts & -> & Hl & Hne' & Hlo0 & Hkeys & Hparts).
  assert (0 < length (mjoin parts))%nat by (destruct (mjoin parts); [done|cbn; lia]).
  eapply (walk_entries d fuel k w lo hi pre parts post pl IH Hk Hex Hlo Hlo0 Hl Hkeys (length parts) f 0%nat p path s); try done.
  - intros HFr. destruct (HF HFr) as [Hf Hkn]. cbn [take mjoin list_join]. rewrite app_nil_r, (proj2 (Nat.ltb_lt _ _)) by (destruct parts; [done|cbn; lia]).
    split; [by eapply fresh_mono|done].
  - rewrite drop_0. nia.
Qed.
End Loop.

(** ** The whole function *)

Section Whole.
Context (sb : ext_sb) (zs : list ext4_system_zone) (i : positive) `{Rebalance}.

(** Marking the inode changes nothing else. *)
Lemma mark_precached e x :
  es_inodes e !! i = Some x -> es_ok e ->
  let e' := e <| es_inodes ::= <[i := x <| precached := true |>]> |> in es_ok e' /\ forall j b, es_map e' j b = es_map e j b.
Proof.
  intros Hx [Hc Ht]. cbn zeta. split; [split|].
  - apply (es_counts_set e i x); [done|done| |done|done]. destruct (ec_inode _ Hc _ _ Hx). by split.
  - cbn. intros j y [[-> <-]|[Hne Hy]]%lookup_insert_Some; [|by eapply Ht]. destruct (Ht _ _ Hx) as [Hk Hca]. by split.
  - intros j b. unfold es_map. cbn. destruct (decide (j = i)) as [->|]; [|by rewrite lookup_insert_ne]. by rewrite lookup_insert_eq, Hx.
Qed.

(** What the loop returns. *)
Definition walked (root : list Z) (exts : list ext4_extent) (s : xstate) (r : option (Z * list ext4_ext_path)) (s' : xstate) : Prop :=
  read_frame sb s s' /\ lookup_inv sb zs i root exts s' /\ exists ret path, r = Some (ret, path) /\
    ((ret = 0 /\ released path /\ (fresh i 0 (x_es s) -> knows i (x_es s') exts)) \/ (ret = - ENOMEM /\ x_allocs s <> [])).

Lemma precache_loop_spec root exts s fuel path p :
  lookup_inv sb zs i root exts s -> eh_depth root <> 0 -> length path = S (Z.to_nat (eh_depth root)) ->
  path !! 0%nat = Some p -> p_hdr p = Some Root -> p_idx p = Some 0 -> released (drop 1 path) ->
  (2 * length exts * (Z.to_nat (eh_depth root) + 1) <= fuel)%nat ->
  wp (precache_loop sb fuel i (Z.to_nat (eh_depth root)) 1 path) (walked root exts s) s.
Proof.
  intros Hinv Hd Hlen Hp Hh Hi Hrel Hfuel. pose proof (li_tree Hinv) as Ht. pose proof (header_fields root (tree_words _ _ _ _ _ _ _ _ _ _ Ht)) as (_ & _ & Hd0).
  destruct (Z.to_nat (eh_depth root)) as [|d] eqn:Ed; [lia|].
  pose proof (deep_nonempty _ _ _ _ _ _ Hinv Hd) as Hne.
  refine (walk_tree sb zs i root exts (S d) (fresh i 0 (x_es s)) s (walked root exts s) _ (S d) 1%nat fuel 0%nat root 0 EXT_MAX_BLOCKS [] exts [] p Root path s
    _ _ Hinv Ht Hne _ _ _ Hp Hh Hi Hlen Hrel _ _ _); [|lia|done|by rewrite app_nil_r|lia|apply (li_root Hinv)| |lia|].
  - intros Hal s' path' F Hinv'. split_and!; [done|done|]. exists (- ENOMEM), path'. split; [done|]. by right.
  - intros Hf. split; [done|]. by intros ? ? ?%elem_of_nil.
  - intros f s' path' Hf F Hinv' _ _ Hrel' HF. destruct f as [|f]; [lia|]. cbn [precache_loop]. apply wp_ret. split_and!; [done|done|].
    exists 0, path'. split; [done|]. left. split_and!; [done|done|]. intros Hfr. apply (HF Hfr).
Qed.

Lemma drop_refs_released path : released path -> released (ext4_ext_drop_refs path).
Proof.
  intros Hr. destruct path as [|p path]; [constructor|]. unfold ext4_ext_drop_refs. apply Forall_app. split; [|by apply Forall_drop].
  apply Forall_map, Forall_forall. done.
Qed.

(** What the function returns. *)
Definition precached_to (root : list Z) (exts : list ext4_extent) (s : xstate) (r : option (Z * list ext4_ext_path)) (s' : xstate) : Prop :=
  lookup_inv sb zs i root exts s' /\ es_grows (x_es s) (x_es s') /\ exists ret path, r = Some (ret, path) /\
    (ret = 0 \/ (ret = - ENOMEM /\ x_allocs s <> [])) /\ (ret = 0 -> released path) /\ (eh_depth root = 0 -> x_es s' = x_es s) /\
    (ret = 0 -> eh_depth root <> 0 -> (exists x, es_inodes (x_es s') !! i = Some x /\ precached x = true) /\
      (fresh i 0 (x_es s) -> knows i (x_es s') exts)).

Lemma precached_error root exts s s' path :
  read_frame sb s s' -> lookup_inv sb zs i root exts s' -> x_allocs s <> [] -> x_es s' = x_es s ->
  precached_to root exts s (Some (- ENOMEM, path)) s'.
Proof. intros F Hinv Hne E. split_and!; [done|apply (rf_grows _ _ _ F)|]. exists (- ENOMEM), path. split_and!; [done|by right|done|done|done]. Qed.

Lemma precached_flat root exts s s' path :
  read_frame sb s s' -> lookup_inv sb zs i root exts s' -> eh_depth root = 0 -> released path -> x_es s' = x_es s ->
  precached_to root exts s (Some (0, path)) s'.
Proof. intros F Hinv Ed Hr E. split_and!; [done|apply (rf_grows _ _ _ F)|]. exists 0, path. split_and!; [done|by left|done|done|done]. Qed.

Lemma precached_marked root exts s s' x ret path :
  eh_depth root <> 0 -> read_frame sb s s' -> lookup_inv sb zs i root exts s' -> es_inodes (x_es s') !! i = Some x ->
  (ret = 0 /\ released path /\ (fresh i 0 (x_es s) -> knows i (x_es s') exts)) \/ (ret = - ENOMEM /\ x_allocs s <> []) ->
  precached_to root exts s (Some (ret, ext4_ext_drop_refs path))
    (s' <| x_es := (x_es s') <| es_inodes ::= <[i := x <| precached := true |>]> |> |>).
Proof.
  intros Hd F Hinv Hx Hr. destruct (mark_precached (x_es s') x Hx (ei_ok (li_es Hinv))) as [Hok Hm].
  set (e := (x_es s') <| es_inodes ::= _ |>) in *. assert (es_inodes e !! i = Some (x <| precached := true |>)) as Hi by apply lookup_insert_eq.
  assert (es_grows (x_es s') e) as Hg by (split; [intros j b v; by rewrite Hm|done]).
  split_and!.
  - eapply lookup_frame; [by apply frame_es| |done]. split; [done|by eexists|]. intros b v. cbn. rewrite Hm. apply Hinv.
  - destruct (rf_grows _ _ _ F) as [G1 M1], Hg as [G2 M2]. split; cbn; auto.
  - exists ret, (ext4_ext_drop_refs path). split_and!; [done|tauto| |done|].
    + intros ->. destruct Hr as [(_ & Hrel & _)|[E _]]; [by apply drop_refs_released|done].
    + intros -> _. split; [by eexists|]. destruct Hr as [(_ & _ & Hk)|[E _]]; [|done]. intros Hf ex b Hin Hc. unfold known. cbn. rewrite Hm. by apply (Hk Hf ex).
Qed.

(** C38: on a sound tree [ext4_ext_precache] comes to its end, with as many steps as two for each level and each extent: it
    returns 0, or an error if memory is short.  The status tree still agrees with the tree on disk and nothing that it knew is forgotten; if it
    returned 0, all buffers are given back.  For a tree that is its root only nothing is cached and the inode is not marked: the status tree is
    as it was.  For a deeper one, if 0 was returned, the inode is marked, and if the status tree knew nothing about the file and has memory, it
    knows all mapped blocks. *)
Theorem precache_exact root exts s fuel :
  lookup_inv sb zs i root exts s -> (2 * length exts * (Z.to_nat (eh_depth root) + 1) <= fuel)%nat ->
  exists ret path s', ext4_ext_precache sb fuel i s = Ret (Some (ret, path), s') /\
    lookup_inv sb zs i root exts s' /\ es_grows (x_es s) (x_es s') /\ (ret = 0 \/ (ret = - ENOMEM /\ x_allocs s <> [])) /\
    (ret = 0 -> released path) /\ (eh_depth root = 0 -> x_es s' = x_es s) /\
    (ret = 0 -> eh_depth root <> 0 -> (exists x, es_inodes (x_es s') !! i = Some x /\ precached x = true) /\
      ((forall b, es_map (x_es s) i b = None) -> allocs (x_es s) = [] -> forall b, unmapped exts b \/ es_map (x_es s') i b <> None)).
Proof.
  intros Hinv Hfuel. enough (wp (ext4_ext_precache sb fuel i) (precached_to root exts s) s) as Hw.
  { destruct (proj1 (wp_returns _ _ _) Hw) as (r & s' & Hr & Hinv' & Hg & ret & path & -> & Hret & Hrel & Hflat & Hdone). exists ret, path, s'. split_and!; try done.
    intros H0 Hd. destruct (Hdone H0 Hd) as [Hx Hk]. split; [done|]. intros Hnone Hmem b. destruct (decide (es_map (x_es s') i b = None)) as [E|]; [left|by right].
    intros ex Hin Hc. refine (Hk _ ex b Hin Hc E). destruct (li_es Hinv) as [Hok Hlive _]. split; [exact Hok|exact Hlive|exact Hmem|]. intros b' _. apply Hnone. }
  unfold ext4_ext_precache, ext_depth. pose proof (header_fields root (tree_words _ _ _ _ _ _ _ _ _ _ (li_tree Hinv))) as (_ & _ & Hd0).
  do 2 apply wp_bind. unfold wp at 1, ext_inode_hdr. rewrite (li_root Hinv). apply wp_ret, wp_bind.
  eapply wp_mono; [apply (x_alloc_spec sb)|]. cbn beta. intros ok s1 (F1 & E1 & Hne).
  assert (lookup_inv sb zs i root exts s1) as Hinv1 by (eapply lookup_frame; [done|rewrite E1; apply Hinv|done]).
  destruct ok; cbn [negb]; [|apply wp_ret; eapply precached_error; [done|done|by auto|exact E1]].
  assert (forall n, released (replicate n path_zero)) as Hzero by (intros n; by apply Forall_replicate).
  destruct (Z.eqb_spec (eh_depth root) 0) as [Ed|Hd]; [apply wp_ret; eapply precached_flat; [done|done|done|apply Hzero|exact E1]|].
  apply wp_bind. unfold wp at 1, ext_inode_hdr. rewrite (li_root Hinv1). apply wp_bind.
  eapply wp_mono; [apply (check_spec sb zs i root (eh_depth root) root); [apply Hinv1|eapply tree_words; apply Hinv1|apply Hinv1]|].
  cbn beta. intros r s2 [(-> & _ & ->)|(_ & Hno & _)]; [|destruct (Hno (li_checked Hinv1))]. cbn [Z.eqb negb]. apply wp_bind.
  replace (Z.to_nat (eh_depth root + 1)) with (S (Z.to_nat (eh_depth root))) by lia. cbn [replicate alter list_alter].
  eapply wp_mono; [eapply (precache_loop_spec root exts s1 fuel); [done|done|cbn; by rewrite length_replicate|reflexivity|done|done|apply Hzero|done]|].
  cbn beta. intros r s2 (F2 & Hinv2 & ret & path & -> & Hr). apply wp_bind.
  destruct (ei_live (li_es Hinv2)) as [x Hx]. unfold wp, on_es, modify_ei, kret. rewrite Hx.
  eapply precached_marked; [exact Hd|by transitivity s1|exact Hinv2|exact Hx|]. rewrite E1 in Hr. destruct Hr as [Hr|[-> Hal]]; [by left|right].
  split; [done|]. intros E. by apply Hal, (rf_allocs _ _ _ F1).
Qed.
End Whole.

(** ** A node that cannot be read *)

#[local] Existing Instance unbalanced.

(** A tree of depth 2 whose only leaf, block 201, cannot be read. *)
Definition node_of (depth max : Z) (entry : Z * Z * Z) : list Z :=
  [62218 + 65536; max + 65536 * depth; 0; entry.1.1; entry.1.2; entry.2] ++ replicate (Z.to_nat (3 * max - 3)) 0.
Definition deep_sb : ext_sb :=
  mk_ext_sb 1 8192 1024 false (fun _ _ => 0) (fun b => if b =? 200 then Some (node_of 1 84 (0, 201, 0)) else None).
Definition deep_start : xstate :=
  mk_xstate no_zones (mk_es_state {[1%positive := mk_es_inode Leaf None ∅ 0 0 0 false]} [] 0 0 0 0 0 [])
    {[1%positive := node_of 2 4 (0, 200, 0)]} ∅ [] 0.

(** When a node cannot be read, the buffers of the levels above it, other than the root, are never given back: the
    [p_depth] that [ext4_ext_drop_refs] goes by is 0 in this array.  The inode is marked as precached all the same. *)
Example precache_error_leaks :
  match ext4_ext_precache deep_sb 10 1%positive deep_start with
  | Ret (Some (ret, path), s') => ret = - EIO /\ map p_bh path = [None; Some 200; None] /\
      option_map precached (es_inodes (x_es s') !! 1%positive) = Some true
  | _ => False
  end.
Proof. vm_compute. split_and!; reflexivity. Qed.

(** Reading the tree of two leaves ahead: afterwards block 105, which is in the second leaf, is known. *)
Lemma precache_exact_witness :
  exists path s', ext4_ext_precache sb_ab 12 1%positive start_ab = Ret (Some (0, path), s') /\ released path /\ es_map (x_es s') 1%positive 105 <> None.
Proof.
  destruct (precache_exact sb_ab [] 1%positive root_ab file_ab start_ab 12 start_ab_ok) as (ret & path & s' & Hr & _ & _ & Hret & Hrel & _ & Hdone); [vm_compute; lia|].
  assert (ret = 0) as -> by (destruct Hret as [|[_ Hne]]; [done|by destruct Hne]). exists path, s'. split_and!; [exact Hr|by apply Hrel|].
  destruct (Hdone eq_refl) as [_ Hk]; [by vm_compute|]. destruct (Hk (fun b => eq_refl) eq_refl 105) as [Hun|]; [|done].
  exfalso. apply (Hun (mk_ext 100 8 0 1200)); [|unfold covers_block, last_block; cbn; lia].
  change file_ab with [mk_ext 0 10 0 1000; mk_ext 20 32773 0 1100; mk_ext 100 8 0 1200]. apply list_elem_of_further, list_elem_of_further, list_elem_of_here.
Defined.
